(* ===== verification/SmallTable5.v ===== *)
(** * The compressed parse table of [parser.c], states 6659 to 8258

    The record of each small state in [ts_small_parse_table], as the source
    writes it: its index in the array, the number of its groups, and the groups
    in their order, each with its value, the number of its symbols and the
    symbols. *)

From S2P Require Import Prelude.
From S2P Require Import Symbols.
From S2P Require Import ParseTypes.
From S2P Require Import SmallSymbols.

(** States 6659 to 6758. *)
Definition small_runs_6659 : list small_run :=
  [
   (323575, 25, [AGroup 5 1 [sym_ppDirective]; AGroup 9 1 [anon_sym_LBRACK];
     AGroup 11 1 [aux_sym_ppUsesBlock_token1]; AGroup 13 1 [sym_kGeneric];
     AGroup 15 1 [sym_kOperator]; AGroup 18756 1 [sym_kClass]; AGroup 18760 1 [sym_kExports];
     AGroup 18762 1 [sym_kLabel]; AGroup 18766 1 [sym_kType]; AGroup 18768 1 [sym_kUses];
     AGroup 19015 1 [sym_kAsm]; AGroup 19017 1 [sym_kBegin]; SGroup 16 1 [sym__ppIf];
     SGroup 3516 1 [sym_blockTr]; SGroup 6432 1 [sym_declProc]; SGroup 7629 1 [sym_asmTr];
     SGroup 10355 1 [sym__declProc]; SGroup 10443 1 [sym__declOperator];
     SGroup 11110 1 [sym_rttiAttributes]; SGroup 11216 1 [aux_sym_rttiAttributes_repeat2];
     AGroup 3 2 syms_5; AGroup 18758 2 syms_65; AGroup 18764 2 syms_66; AGroup 23 4 syms_3;
     SGroup 6670 11 syms_210]);
   (323667, 4, [AGroup 5 1 [sym_ppDirective]; AGroup 3 2 syms_5; AGroup 10904 5 syms_150;
     AGroup 10902 33 syms_252]);
   (323717, 25, [AGroup 5 1 [sym_ppDirective]; AGroup 9 1 [anon_sym_LBRACK];
     AGroup 11 1 [aux_sym_ppUsesBlock_token1]; AGroup 13 1 [sym_kGeneric];
     AGroup 15 1 [sym_kOperator]; AGroup 18756 1 [sym_kClass]; AGroup 18760 1 [sym_kExports];
     AGroup 18762 1 [sym_kLabel]; AGroup 18766 1 [sym_kType]; AGroup 18768 1 [sym_kUses];
     AGroup 18925 1 [sym_kAsm]; AGroup 18927 1 [sym_kBegin]; SGroup 16 1 [sym__ppIf];
     SGroup 5781 1 [sym_blockTr]; SGroup 6432 1 [sym_declProc]; SGroup 9127 1 [sym_asmTr];
     SGroup 10355 1 [sym__declProc]; SGroup 10443 1 [sym__declOperator];
     SGroup 11110 1 [sym_rttiAttributes]; SGroup 11216 1 [aux_sym_rttiAttributes_repeat2];
     AGroup 3 2 syms_5; AGroup 18758 2 syms_65; AGroup 18764 2 syms_66; AGroup 23 4 syms_3;
     SGroup 7035 11 syms_210]);
   (323809, 25, [AGroup 5 1 [sym_ppDirective]; AGroup 9 1 [anon_sym_LBRACK];
     AGroup 11 1 [aux_sym_ppUsesBlock_token1]; AGroup 13 1 [sym_kGeneric];
     AGroup 15 1 [sym_kOperator]; AGroup 18756 1 [sym_kClass]; AGroup 18760 1 [sym_kExports];
     AGroup 18762 1 [sym_kLabel]; AGroup 18766 1 [sym_kType]; AGroup 18768 1 [sym_kUses];
     AGroup 18885 1 [sym_kAsm]; AGroup 18887 1 [sym_kBegin]; SGroup 16 1 [sym__ppIf];
     SGroup 5120 1 [sym_blockTr]; SGroup 6432 1 [sym_declProc]; SGroup 8293 1 [sym_asmTr];
     SGroup 10355 1 [sym__declProc]; SGroup 10443 1 [sym__declOperator];
     SGroup 11110 1 [sym_rttiAttributes]; SGroup 11216 1 [aux_sym_rttiAttributes_repeat2];
     AGroup 3 2 syms_5; AGroup 18758 2 syms_65; AGroup 18764 2 syms_66; AGroup 23 4 syms_3;
     SGroup 7035 11 syms_210]);
   (323901, 25, [AGroup 5 1 [sym_ppDirective]; AGroup 9 1 [anon_sym_LBRACK];
     AGroup 11 1 [aux_sym_ppUsesBlock_token1]; AGroup 13 1 [sym_kGeneric];
     AGroup 15 1 [sym_kOperator]; AGroup 18756 1 [sym_kClass]; AGroup 18760 1 [sym_kExports];
     AGroup 18762 1 [sym_kLabel]; AGroup 18766 1 [sym_kType]; AGroup 18768 1 [sym_kUses];
     AGroup 19035 1 [sym_kAsm]; AGroup 19037 1 [sym_kBegin]; SGroup 16 1 [sym__ppIf];
     SGroup 3522 1 [sym_blockTr]; SGroup 6432 1 [sym_declProc]; SGroup 7669 1 [sym_asmTr];
     SGroup 10355 1 [sym__declProc]; SGroup 10443 1 [sym__declOperator];
     SGroup 11110 1 [sym_rttiAttributes]; SGroup 11216 1 [aux_sym_rttiAttributes_repeat2];
     AGroup 3 2 syms_5; AGroup 18758 2 syms_65; AGroup 18764 2 syms_66; AGroup 23 4 syms_3;
     SGroup 7035 11 syms_210]);
   (323993, 7, [AGroup 5 1 [sym_ppDirective]; AGroup 405 1 [anon_sym_POUND]; AGroup 3 2 syms_5;
     AGroup 19573 2 syms_6; SGroup 6887 3 syms_13; AGroup 15235 7 syms_34;
     AGroup 15233 25 syms_106]);
   (324049, 25, [AGroup 5 1 [sym_ppDirective]; AGroup 9 1 [anon_sym_LBRACK];
     AGroup 11 1 [aux_sym_ppUsesBlock_token1]; AGroup 13 1 [sym_kGeneric];
     AGroup 15 1 [sym_kOperator]; AGroup 18756 1 [sym_kClass]; AGroup 18760 1 [sym_kExports];
     AGroup 18762 1 [sym_kLabel]; AGroup 18766 1 [sym_kType]; AGroup 18768 1 [sym_kUses];
     AGroup 18978 1 [sym_kAsm]; AGroup 18980 1 [sym_kBegin]; SGroup 16 1 [sym__ppIf];
     SGroup 5587 1 [sym_blockTr]; SGroup 6432 1 [sym_declProc]; SGroup 8738 1 [sym_asmTr];
     SGroup 10355 1 [sym__declProc]; SGroup 10443 1 [sym__declOperator];
     SGroup 11110 1 [sym_rttiAttributes]; SGroup 11216 1 [aux_sym_rttiAttributes_repeat2];
     AGroup 3 2 syms_5; AGroup 18758 2 syms_65; AGroup 18764 2 syms_66; AGroup 23 4 syms_3;
     SGroup 6777 11 syms_210]);
   (324141, 25, [AGroup 5 1 [sym_ppDirective]; AGroup 9 1 [anon_sym_LBRACK];
     AGroup 11 1 [aux_sym_ppUsesBlock_token1]; AGroup 13 1 [sym_kGeneric];
     AGroup 15 1 [sym_kOperator]; AGroup 18756 1 [sym_kClass]; AGroup 18760 1 [sym_kExports];
     AGroup 18762 1 [sym_kLabel]; AGroup 18766 1 [sym_kType]; AGroup 18768 1 [sym_kUses];
     AGroup 19029 1 [sym_kAsm]; AGroup 19031 1 [sym_kBegin]; SGroup 16 1 [sym__ppIf];
     SGroup 3288 1 [sym_blockTr]; SGroup 6432 1 [sym_declProc]; SGroup 7294 1 [sym_asmTr];
     SGroup 10355 1 [sym__declProc]; SGroup 10443 1 [sym__declOperator];
     SGroup 11110 1 [sym_rttiAttributes]; SGroup 11216 1 [aux_sym_rttiAttributes_repeat2];
     AGroup 3 2 syms_5; AGroup 18758 2 syms_65; AGroup 18764 2 syms_66; AGroup 23 4 syms_3;
     SGroup 7035 11 syms_210]);
   (324233, 25, [AGroup 5 1 [sym_ppDirective]; AGroup 9 1 [anon_sym_LBRACK];
     AGroup 11 1 [aux_sym_ppUsesBlock_token1]; AGroup 13 1 [sym_kGeneric];
     AGroup 15 1 [sym_kOperator]; AGroup 18756 1 [sym_kClass]; AGroup 18760 1 [sym_kExports];
     AGroup 18762 1 [sym_kLabel]; AGroup 18766 1 [sym_kType]; AGroup 18768 1 [sym_kUses];
     AGroup 19029 1 [sym_kAsm]; AGroup 19031 1 [sym_kBegin]; SGroup 16 1 [sym__ppIf];
     SGroup 3307 1 [sym_blockTr]; SGroup 6432 1 [sym_declProc]; SGroup 7295 1 [sym_asmTr];
     SGroup 10355 1 [sym__declProc]; SGroup 10443 1 [sym__declOperator];
     SGroup 11110 1 [sym_rttiAttributes]; SGroup 11216 1 [aux_sym_rttiAttributes_repeat2];
     AGroup 3 2 syms_5; AGroup 18758 2 syms_65; AGroup 18764 2 syms_66; AGroup 23 4 syms_3;
     SGroup 6668 11 syms_210]);
   (324325, 25, [AGroup 5 1 [sym_ppDirective]; AGroup 9 1 [anon_sym_LBRACK];
     AGroup 11 1 [aux_sym_ppUsesBlock_token1]; AGroup 13 1 [sym_kGeneric];
     AGroup 15 1 [sym_kOperator]; AGroup 18756 1 [sym_kClass]; AGroup 18760 1 [sym_kExports];
     AGroup 18762 1 [sym_kLabel]; AGroup 18766 1 [sym_kType]; AGroup 18768 1 [sym_kUses];
     AGroup 19029 1 [sym_kAsm]; AGroup 19031 1 [sym_kBegin]; SGroup 16 1 [sym__ppIf];
     SGroup 3310 1 [sym_blockTr]; SGroup 6432 1 [sym_declProc]; SGroup 7297 1 [sym_asmTr];
     SGroup 10355 1 [sym__declProc]; SGroup 10443 1 [sym__declOperator];
     SGroup 11110 1 [sym_rttiAttributes]; SGroup 11216 1 [aux_sym_rttiAttributes_repeat2];
     AGroup 3 2 syms_5; AGroup 18758 2 syms_65; AGroup 18764 2 syms_66; AGroup 23 4 syms_3;
     SGroup 7035 11 syms_210]);
   (324417, 25, [AGroup 5 1 [sym_ppDirective]; AGroup 9 1 [anon_sym_LBRACK];
     AGroup 11 1 [aux_sym_ppUsesBlock_token1]; AGroup 13 1 [sym_kGeneric];
     AGroup 15 1 [sym_kOperator]; AGroup 18756 1 [sym_kClass]; AGroup 18760 1 [sym_kExports];
     AGroup 18762 1 [sym_kLabel]; AGroup 18766 1 [sym_kType]; AGroup 18768 1 [sym_kUses];
     AGroup 18911 1 [sym_kAsm]; AGroup 18913 1 [sym_kBegin]; SGroup 16 1 [sym__ppIf];
     SGroup 5801 1 [sym_blockTr]; SGroup 6432 1 [sym_declProc]; SGroup 9238 1 [sym_asmTr];
     SGroup 10355 1 [sym__declProc]; SGroup 10443 1 [sym__declOperator];
     SGroup 11110 1 [sym_rttiAttributes]; SGroup 11216 1 [aux_sym_rttiAttributes_repeat2];
     AGroup 3 2 syms_5; AGroup 18758 2 syms_65; AGroup 18764 2 syms_66; AGroup 23 4 syms_3;
     SGroup 7035 11 syms_210]);
   (324509, 25, [AGroup 5 1 [sym_ppDirective]; AGroup 9 1 [anon_sym_LBRACK];
     AGroup 11 1 [aux_sym_ppUsesBlock_token1]; AGroup 13 1 [sym_kGeneric];
     AGroup 15 1 [sym_kOperator]; AGroup 18756 1 [sym_kClass]; AGroup 18760 1 [sym_kExports];
     AGroup 18762 1 [sym_kLabel]; AGroup 18766 1 [sym_kType]; AGroup 18768 1 [sym_kUses];
     AGroup 19015 1 [sym_kAsm]; AGroup 19017 1 [sym_kBegin]; SGroup 16 1 [sym__ppIf];
     SGroup 3544 1 [sym_blockTr]; SGroup 6432 1 [sym_declProc]; SGroup 7661 1 [sym_asmTr];
     SGroup 10355 1 [sym__declProc]; SGroup 10443 1 [sym__declOperator];
     SGroup 11110 1 [sym_rttiAttributes]; SGroup 11216 1 [aux_sym_rttiAttributes_repeat2];
     AGroup 3 2 syms_5; AGroup 18758 2 syms_65; AGroup 18764 2 syms_66; AGroup 23 4 syms_3;
     SGroup 7035 11 syms_210]);
   (324601, 25, [AGroup 5 1 [sym_ppDirective]; AGroup 9 1 [anon_sym_LBRACK];
     AGroup 11 1 [aux_sym_ppUsesBlock_token1]; AGroup 13 1 [sym_kGeneric];
     AGroup 15 1 [sym_kOperator]; AGroup 18756 1 [sym_kClass]; AGroup 18760 1 [sym_kExports];
     AGroup 18762 1 [sym_kLabel]; AGroup 18766 1 [sym_kType]; AGroup 18768 1 [sym_kUses];
     AGroup 18911 1 [sym_kAsm]; AGroup 18913 1 [sym_kBegin]; SGroup 16 1 [sym__ppIf];
     SGroup 5803 1 [sym_blockTr]; SGroup 6432 1 [sym_declProc]; SGroup 9239 1 [sym_asmTr];
     SGroup 10355 1 [sym__declProc]; SGroup 10443 1 [sym__declOperator];
     SGroup 11110 1 [sym_rttiAttributes]; SGroup 11216 1 [aux_sym_rttiAttributes_repeat2];
     AGroup 3 2 syms_5; AGroup 18758 2 syms_65; AGroup 18764 2 syms_66; AGroup 23 4 syms_3;
     SGroup 6673 11 syms_210]);
   (324693, 25, [AGroup 5 1 [sym_ppDirective]; AGroup 9 1 [anon_sym_LBRACK];
     AGroup 11 1 [aux_sym_ppUsesBlock_token1]; AGroup 13 1 [sym_kGeneric];
     AGroup 15 1 [sym_kOperator]; AGroup 18756 1 [sym_kClass]; AGroup 18760 1 [sym_kExports];
     AGroup 18762 1 [sym_kLabel]; AGroup 18766 1 [sym_kType]; AGroup 18768 1 [sym_kUses];
     AGroup 18905 1 [sym_kAsm]; AGroup 18907 1 [sym_kBegin]; SGroup 16 1 [sym__ppIf];
     SGroup 5547 1 [sym_blockTr]; SGroup 6432 1 [sym_declProc]; SGroup 9020 1 [sym_asmTr];
     SGroup 10355 1 [sym__declProc]; SGroup 10443 1 [sym__declOperator];
     SGroup 11110 1 [sym_rttiAttributes]; SGroup 11216 1 [aux_sym_rttiAttributes_repeat2];
     AGroup 3 2 syms_5; AGroup 18758 2 syms_65; AGroup 18764 2 syms_66; AGroup 23 4 syms_3;
     SGroup 6752 11 syms_210]);
   (324785, 25, [AGroup 5 1 [sym_ppDirective]; AGroup 9 1 [anon_sym_LBRACK];
     AGroup 11 1 [aux_sym_ppUsesBlock_token1]; AGroup 13 1 [sym_kGeneric];
     AGroup 15 1 [sym_kOperator]; AGroup 18756 1 [sym_kClass]; AGroup 18760 1 [sym_kExports];
     AGroup 18762 1 [sym_kLabel]; AGroup 18766 1 [sym_kType]; AGroup 18768 1 [sym_kUses];
     AGroup 18911 1 [sym_kAsm]; AGroup 18913 1 [sym_kBegin]; SGroup 16 1 [sym__ppIf];
     SGroup 5752 1 [sym_blockTr]; SGroup 6432 1 [sym_declProc]; SGroup 9243 1 [sym_asmTr];
     SGroup 10355 1 [sym__declProc]; SGroup 10443 1 [sym__declOperator];
     SGroup 11110 1 [sym_rttiAttributes]; SGroup 11216 1 [aux_sym_rttiAttributes_repeat2];
     AGroup 3 2 syms_5; AGroup 18758 2 syms_65; AGroup 18764 2 syms_66; AGroup 23 4 syms_3;
     SGroup 7035 11 syms_210]);
   (324877, 25, [AGroup 5 1 [sym_ppDirective]; AGroup 9 1 [anon_sym_LBRACK];
     AGroup 11 1 [aux_sym_ppUsesBlock_token1]; AGroup 13 1 [sym_kGeneric];
     AGroup 15 1 [sym_kOperator]; AGroup 18756 1 [sym_kClass]; AGroup 18760 1 [sym_kExports];
     AGroup 18762 1 [sym_kLabel]; AGroup 18766 1 [sym_kType]; AGroup 18768 1 [sym_kUses];
     AGroup 18986 1 [sym_kBegin]; AGroup 19041 1 [sym_kAsm]; SGroup 16 1 [sym__ppIf];
     SGroup 5960 1 [sym_asmTr]; SGroup 5997 1 [sym_blockTr]; SGroup 6432 1 [sym_declProc];
     SGroup 10355 1 [sym__declProc]; SGroup 10443 1 [sym__declOperator];
     SGroup 11110 1 [sym_rttiAttributes]; SGroup 11216 1 [aux_sym_rttiAttributes_repeat2];
     AGroup 3 2 syms_5; AGroup 18758 2 syms_65; AGroup 18764 2 syms_66; AGroup 23 4 syms_3;
     SGroup 7035 11 syms_210]);
   (324969, 4, [AGroup 5 1 [sym_ppDirective]; AGroup 3 2 syms_5; AGroup 10908 5 syms_150;
     AGroup 10906 33 syms_252]);
   (325019, 6, [AGroup 5 1 [sym_ppDirective]; AGroup 19569 1 [sym_kHat]; SGroup 4288 1 [sym__exprIsNot];
     AGroup 3 2 syms_5; AGroup 16904 7 syms_34; AGroup 16902 29 syms_257]);
   (325073, 11, [AGroup 5 1 [sym_ppDirective]; AGroup 19569 1 [sym_kHat]; AGroup 19581 1 [sym_kAs];
     SGroup 4288 1 [sym__exprIsNot]; AGroup 3 2 syms_5; AGroup 19575 2 syms_9;
     AGroup 19577 2 syms_258; AGroup 19583 2 syms_259; AGroup 16914 3 syms_94;
     AGroup 19579 5 syms_260; AGroup 16912 21 syms_261]);
   (325137, 25, [AGroup 5 1 [sym_ppDirective]; AGroup 9 1 [anon_sym_LBRACK];
     AGroup 11 1 [aux_sym_ppUsesBlock_token1]; AGroup 13 1 [sym_kGeneric];
     AGroup 15 1 [sym_kOperator]; AGroup 18756 1 [sym_kClass]; AGroup 18760 1 [sym_kExports];
     AGroup 18762 1 [sym_kLabel]; AGroup 18766 1 [sym_kType]; AGroup 18768 1 [sym_kUses];
     AGroup 18986 1 [sym_kBegin]; AGroup 19041 1 [sym_kAsm]; SGroup 16 1 [sym__ppIf];
     SGroup 5896 1 [sym_blockTr]; SGroup 5903 1 [sym_asmTr]; SGroup 6432 1 [sym_declProc];
     SGroup 10355 1 [sym__declProc]; SGroup 10443 1 [sym__declOperator];
     SGroup 11110 1 [sym_rttiAttributes]; SGroup 11216 1 [aux_sym_rttiAttributes_repeat2];
     AGroup 3 2 syms_5; AGroup 18758 2 syms_65; AGroup 18764 2 syms_66; AGroup 23 4 syms_3;
     SGroup 6683 11 syms_210]);
   (325229, 25, [AGroup 5 1 [sym_ppDirective]; AGroup 9 1 [anon_sym_LBRACK];
     AGroup 11 1 [aux_sym_ppUsesBlock_token1]; AGroup 13 1 [sym_kGeneric];
     AGroup 15 1 [sym_kOperator]; AGroup 18756 1 [sym_kClass]; AGroup 18760 1 [sym_kExports];
     AGroup 18762 1 [sym_kLabel]; AGroup 18766 1 [sym_kType]; AGroup 18768 1 [sym_kUses];
     AGroup 18986 1 [sym_kBegin]; AGroup 19041 1 [sym_kAsm]; SGroup 16 1 [sym__ppIf];
     SGroup 5909 1 [sym_blockTr]; SGroup 5917 1 [sym_asmTr]; SGroup 6432 1 [sym_declProc];
     SGroup 10355 1 [sym__declProc]; SGroup 10443 1 [sym__declOperator];
     SGroup 11110 1 [sym_rttiAttributes]; SGroup 11216 1 [aux_sym_rttiAttributes_repeat2];
     AGroup 3 2 syms_5; AGroup 18758 2 syms_65; AGroup 18764 2 syms_66; AGroup 23 4 syms_3;
     SGroup 7035 11 syms_210]);
   (325321, 4, [AGroup 5 1 [sym_ppDirective]; AGroup 3 2 syms_5; AGroup 10912 5 syms_150;
     AGroup 10910 33 syms_252]);
   (325371, 25, [AGroup 5 1 [sym_ppDirective]; AGroup 9 1 [anon_sym_LBRACK];
     AGroup 11 1 [aux_sym_ppUsesBlock_token1]; AGroup 13 1 [sym_kGeneric];
     AGroup 15 1 [sym_kOperator]; AGroup 18756 1 [sym_kClass]; AGroup 18760 1 [sym_kExports];
     AGroup 18762 1 [sym_kLabel]; AGroup 18766 1 [sym_kType]; AGroup 18768 1 [sym_kUses];
     AGroup 18978 1 [sym_kAsm]; AGroup 18980 1 [sym_kBegin]; SGroup 16 1 [sym__ppIf];
     SGroup 5589 1 [sym_blockTr]; SGroup 6432 1 [sym_declProc]; SGroup 8739 1 [sym_asmTr];
     SGroup 10355 1 [sym__declProc]; SGroup 10443 1 [sym__declOperator];
     SGroup 11110 1 [sym_rttiAttributes]; SGroup 11216 1 [aux_sym_rttiAttributes_repeat2];
     AGroup 3 2 syms_5; AGroup 18758 2 syms_65; AGroup 18764 2 syms_66; AGroup 23 4 syms_3;
     SGroup 7035 11 syms_210]);
   (325463, 9, [AGroup 5 1 [sym_ppDirective]; AGroup 19569 1 [sym_kHat]; AGroup 19581 1 [sym_kAs];
     SGroup 4288 1 [sym__exprIsNot]; AGroup 3 2 syms_5; AGroup 19577 2 syms_258;
     AGroup 16914 5 syms_262; AGroup 19579 5 syms_260; AGroup 16912 23 syms_263]);
   (325523, 25, [AGroup 5 1 [sym_ppDirective]; AGroup 9 1 [anon_sym_LBRACK];
     AGroup 11 1 [aux_sym_ppUsesBlock_token1]; AGroup 13 1 [sym_kGeneric];
     AGroup 15 1 [sym_kOperator]; AGroup 18756 1 [sym_kClass]; AGroup 18760 1 [sym_kExports];
     AGroup 18762 1 [sym_kLabel]; AGroup 18766 1 [sym_kType]; AGroup 18768 1 [sym_kUses];
     AGroup 18986 1 [sym_kBegin]; AGroup 19041 1 [sym_kAsm]; SGroup 16 1 [sym__ppIf];
     SGroup 5973 1 [sym_blockTr]; SGroup 5974 1 [sym_asmTr]; SGroup 6432 1 [sym_declProc];
     SGroup 10355 1 [sym__declProc]; SGroup 10443 1 [sym__declOperator];
     SGroup 11110 1 [sym_rttiAttributes]; SGroup 11216 1 [aux_sym_rttiAttributes_repeat2];
     AGroup 3 2 syms_5; AGroup 18758 2 syms_65; AGroup 18764 2 syms_66; AGroup 23 4 syms_3;
     SGroup 7035 11 syms_210]);
   (325615, 25, [AGroup 5 1 [sym_ppDirective]; AGroup 9 1 [anon_sym_LBRACK];
     AGroup 11 1 [aux_sym_ppUsesBlock_token1]; AGroup 13 1 [sym_kGeneric];
     AGroup 15 1 [sym_kOperator]; AGroup 18756 1 [sym_kClass]; AGroup 18760 1 [sym_kExports];
     AGroup 18762 1 [sym_kLabel]; AGroup 18766 1 [sym_kType]; AGroup 18768 1 [sym_kUses];
     AGroup 18986 1 [sym_kBegin]; AGroup 19041 1 [sym_kAsm]; SGroup 16 1 [sym__ppIf];
     SGroup 5924 1 [sym_blockTr]; SGroup 5927 1 [sym_asmTr]; SGroup 6432 1 [sym_declProc];
     SGroup 10355 1 [sym__declProc]; SGroup 10443 1 [sym__declOperator];
     SGroup 11110 1 [sym_rttiAttributes]; SGroup 11216 1 [aux_sym_rttiAttributes_repeat2];
     AGroup 3 2 syms_5; AGroup 18758 2 syms_65; AGroup 18764 2 syms_66; AGroup 23 4 syms_3;
     SGroup 6685 11 syms_210]);
   (325707, 25, [AGroup 5 1 [sym_ppDirective]; AGroup 9 1 [anon_sym_LBRACK];
     AGroup 11 1 [aux_sym_ppUsesBlock_token1]; AGroup 13 1 [sym_kGeneric];
     AGroup 15 1 [sym_kOperator]; AGroup 18756 1 [sym_kClass]; AGroup 18760 1 [sym_kExports];
     AGroup 18762 1 [sym_kLabel]; AGroup 18766 1 [sym_kType]; AGroup 18768 1 [sym_kUses];
     AGroup 18986 1 [sym_kBegin]; AGroup 19041 1 [sym_kAsm]; SGroup 16 1 [sym__ppIf];
     SGroup 5895 1 [sym_blockTr]; SGroup 5919 1 [sym_asmTr]; SGroup 6432 1 [sym_declProc];
     SGroup 10355 1 [sym__declProc]; SGroup 10443 1 [sym__declOperator];
     SGroup 11110 1 [sym_rttiAttributes]; SGroup 11216 1 [aux_sym_rttiAttributes_repeat2];
     AGroup 3 2 syms_5; AGroup 18758 2 syms_65; AGroup 18764 2 syms_66; AGroup 23 4 syms_3;
     SGroup 7035 11 syms_210]);
   (325799, 4, [AGroup 5 1 [sym_ppDirective]; AGroup 3 2 syms_5; AGroup 10916 5 syms_150;
     AGroup 10914 33 syms_252]);
   (325849, 25, [AGroup 5 1 [sym_ppDirective]; AGroup 9 1 [anon_sym_LBRACK];
     AGroup 11 1 [aux_sym_ppUsesBlock_token1]; AGroup 13 1 [sym_kGeneric];
     AGroup 15 1 [sym_kOperator]; AGroup 18756 1 [sym_kClass]; AGroup 18760 1 [sym_kExports];
     AGroup 18762 1 [sym_kLabel]; AGroup 18766 1 [sym_kType]; AGroup 18768 1 [sym_kUses];
     AGroup 18937 1 [sym_kAsm]; AGroup 18939 1 [sym_kBegin]; SGroup 16 1 [sym__ppIf];
     SGroup 5702 1 [sym_blockTr]; SGroup 6432 1 [sym_declProc]; SGroup 9256 1 [sym_asmTr];
     SGroup 10355 1 [sym__declProc]; SGroup 10443 1 [sym__declOperator];
     SGroup 11110 1 [sym_rttiAttributes]; SGroup 11216 1 [aux_sym_rttiAttributes_repeat2];
     AGroup 3 2 syms_5; AGroup 18758 2 syms_65; AGroup 18764 2 syms_66; AGroup 23 4 syms_3;
     SGroup 7035 11 syms_210]);
   (325941, 4, [AGroup 5 1 [sym_ppDirective]; AGroup 3 2 syms_5; AGroup 10768 5 syms_150;
     AGroup 10766 33 syms_252]);
   (325991, 25, [AGroup 5 1 [sym_ppDirective]; AGroup 9 1 [anon_sym_LBRACK];
     AGroup 11 1 [aux_sym_ppUsesBlock_token1]; AGroup 13 1 [sym_kGeneric];
     AGroup 15 1 [sym_kOperator]; AGroup 18756 1 [sym_kClass]; AGroup 18760 1 [sym_kExports];
     AGroup 18762 1 [sym_kLabel]; AGroup 18766 1 [sym_kType]; AGroup 18768 1 [sym_kUses];
     AGroup 19053 1 [sym_kAsm]; AGroup 19055 1 [sym_kBegin]; SGroup 16 1 [sym__ppIf];
     SGroup 5357 1 [sym_blockTr]; SGroup 6432 1 [sym_declProc]; SGroup 8277 1 [sym_asmTr];
     SGroup 10355 1 [sym__declProc]; SGroup 10443 1 [sym__declOperator];
     SGroup 11110 1 [sym_rttiAttributes]; SGroup 11216 1 [aux_sym_rttiAttributes_repeat2];
     AGroup 3 2 syms_5; AGroup 18758 2 syms_65; AGroup 18764 2 syms_66; AGroup 23 4 syms_3;
     SGroup 7035 11 syms_210]);
   (326083, 25, [AGroup 5 1 [sym_ppDirective]; AGroup 9 1 [anon_sym_LBRACK];
     AGroup 11 1 [aux_sym_ppUsesBlock_token1]; AGroup 13 1 [sym_kGeneric];
     AGroup 15 1 [sym_kOperator]; AGroup 18756 1 [sym_kClass]; AGroup 18760 1 [sym_kExports];
     AGroup 18762 1 [sym_kLabel]; AGroup 18766 1 [sym_kType]; AGroup 18768 1 [sym_kUses];
     AGroup 18951 1 [sym_kAsm]; AGroup 18953 1 [sym_kBegin]; SGroup 16 1 [sym__ppIf];
     SGroup 5700 1 [sym_blockTr]; SGroup 6432 1 [sym_declProc]; SGroup 9157 1 [sym_asmTr];
     SGroup 10355 1 [sym__declProc]; SGroup 10443 1 [sym__declOperator];
     SGroup 11110 1 [sym_rttiAttributes]; SGroup 11216 1 [aux_sym_rttiAttributes_repeat2];
     AGroup 3 2 syms_5; AGroup 18758 2 syms_65; AGroup 18764 2 syms_66; AGroup 23 4 syms_3;
     SGroup 6739 11 syms_210]);
   (326175, 4, [AGroup 5 1 [sym_ppDirective]; AGroup 3 2 syms_5; AGroup 10848 5 syms_150;
     AGroup 10846 33 syms_252]);
   (326225, 25, [AGroup 5 1 [sym_ppDirective]; AGroup 9 1 [anon_sym_LBRACK];
     AGroup 11 1 [aux_sym_ppUsesBlock_token1]; AGroup 13 1 [sym_kGeneric];
     AGroup 15 1 [sym_kOperator]; AGroup 18756 1 [sym_kClass]; AGroup 18760 1 [sym_kExports];
     AGroup 18762 1 [sym_kLabel]; AGroup 18766 1 [sym_kType]; AGroup 18768 1 [sym_kUses];
     AGroup 19053 1 [sym_kAsm]; AGroup 19055 1 [sym_kBegin]; SGroup 16 1 [sym__ppIf];
     SGroup 5369 1 [sym_blockTr]; SGroup 6432 1 [sym_declProc]; SGroup 8491 1 [sym_asmTr];
     SGroup 10355 1 [sym__declProc]; SGroup 10443 1 [sym__declOperator];
     SGroup 11110 1 [sym_rttiAttributes]; SGroup 11216 1 [aux_sym_rttiAttributes_repeat2];
     AGroup 3 2 syms_5; AGroup 18758 2 syms_65; AGroup 18764 2 syms_66; AGroup 23 4 syms_3;
     SGroup 6695 11 syms_210]);
   (326317, 25, [AGroup 5 1 [sym_ppDirective]; AGroup 9 1 [anon_sym_LBRACK];
     AGroup 11 1 [aux_sym_ppUsesBlock_token1]; AGroup 13 1 [sym_kGeneric];
     AGroup 15 1 [sym_kOperator]; AGroup 18756 1 [sym_kClass]; AGroup 18760 1 [sym_kExports];
     AGroup 18762 1 [sym_kLabel]; AGroup 18766 1 [sym_kType]; AGroup 18768 1 [sym_kUses];
     AGroup 19053 1 [sym_kAsm]; AGroup 19055 1 [sym_kBegin]; SGroup 16 1 [sym__ppIf];
     SGroup 5370 1 [sym_blockTr]; SGroup 6432 1 [sym_declProc]; SGroup 8550 1 [sym_asmTr];
     SGroup 10355 1 [sym__declProc]; SGroup 10443 1 [sym__declOperator];
     SGroup 11110 1 [sym_rttiAttributes]; SGroup 11216 1 [aux_sym_rttiAttributes_repeat2];
     AGroup 3 2 syms_5; AGroup 18758 2 syms_65; AGroup 18764 2 syms_66; AGroup 23 4 syms_3;
     SGroup 7035 11 syms_210]);
   (326409, 25, [AGroup 5 1 [sym_ppDirective]; AGroup 9 1 [anon_sym_LBRACK];
     AGroup 11 1 [aux_sym_ppUsesBlock_token1]; AGroup 13 1 [sym_kGeneric];
     AGroup 15 1 [sym_kOperator]; AGroup 18756 1 [sym_kClass]; AGroup 18760 1 [sym_kExports];
     AGroup 18762 1 [sym_kLabel]; AGroup 18766 1 [sym_kType]; AGroup 18768 1 [sym_kUses];
     AGroup 18984 1 [sym_kAsm]; AGroup 18986 1 [sym_kBegin]; SGroup 16 1 [sym__ppIf];
     SGroup 4090 1 [sym_blockTr]; SGroup 6432 1 [sym_declProc]; SGroup 7940 1 [sym_asmTr];
     SGroup 10355 1 [sym__declProc]; SGroup 10443 1 [sym__declOperator];
     SGroup 11110 1 [sym_rttiAttributes]; SGroup 11216 1 [aux_sym_rttiAttributes_repeat2];
     AGroup 3 2 syms_5; AGroup 18758 2 syms_65; AGroup 18764 2 syms_66; AGroup 23 4 syms_3;
     SGroup 6877 11 syms_210]);
   (326501, 25, [AGroup 5 1 [sym_ppDirective]; AGroup 9 1 [anon_sym_LBRACK];
     AGroup 11 1 [aux_sym_ppUsesBlock_token1]; AGroup 13 1 [sym_kGeneric];
     AGroup 15 1 [sym_kOperator]; AGroup 18756 1 [sym_kClass]; AGroup 18760 1 [sym_kExports];
     AGroup 18762 1 [sym_kLabel]; AGroup 18766 1 [sym_kType]; AGroup 18768 1 [sym_kUses];
     AGroup 19053 1 [sym_kAsm]; AGroup 19055 1 [sym_kBegin]; SGroup 16 1 [sym__ppIf];
     SGroup 5372 1 [sym_blockTr]; SGroup 6432 1 [sym_declProc]; SGroup 8514 1 [sym_asmTr];
     SGroup 10355 1 [sym__declProc]; SGroup 10443 1 [sym__declOperator];
     SGroup 11110 1 [sym_rttiAttributes]; SGroup 11216 1 [aux_sym_rttiAttributes_repeat2];
     AGroup 3 2 syms_5; AGroup 18758 2 syms_65; AGroup 18764 2 syms_66; AGroup 23 4 syms_3;
     SGroup 7035 11 syms_210]);
   (326593, 25, [AGroup 5 1 [sym_ppDirective]; AGroup 9 1 [anon_sym_LBRACK];
     AGroup 11 1 [aux_sym_ppUsesBlock_token1]; AGroup 13 1 [sym_kGeneric];
     AGroup 15 1 [sym_kOperator]; AGroup 18756 1 [sym_kClass]; AGroup 18760 1 [sym_kExports];
     AGroup 18762 1 [sym_kLabel]; AGroup 18766 1 [sym_kType]; AGroup 18768 1 [sym_kUses];
     AGroup 19053 1 [sym_kAsm]; AGroup 19055 1 [sym_kBegin]; SGroup 16 1 [sym__ppIf];
     SGroup 5374 1 [sym_blockTr]; SGroup 6432 1 [sym_declProc]; SGroup 8175 1 [sym_asmTr];
     SGroup 10355 1 [sym__declProc]; SGroup 10443 1 [sym__declOperator];
     SGroup 11110 1 [sym_rttiAttributes]; SGroup 11216 1 [aux_sym_rttiAttributes_repeat2];
     AGroup 3 2 syms_5; AGroup 18758 2 syms_65; AGroup 18764 2 syms_66; AGroup 23 4 syms_3;
     SGroup 6697 11 syms_210]);
   (326685, 25, [AGroup 5 1 [sym_ppDirective]; AGroup 9 1 [anon_sym_LBRACK];
     AGroup 11 1 [aux_sym_ppUsesBlock_token1]; AGroup 13 1 [sym_kGeneric];
     AGroup 15 1 [sym_kOperator]; AGroup 18756 1 [sym_kClass]; AGroup 18760 1 [sym_kExports];
     AGroup 18762 1 [sym_kLabel]; AGroup 18766 1 [sym_kType]; AGroup 18768 1 [sym_kUses];
     AGroup 19053 1 [sym_kAsm]; AGroup 19055 1 [sym_kBegin]; SGroup 16 1 [sym__ppIf];
     SGroup 5382 1 [sym_blockTr]; SGroup 6432 1 [sym_declProc]; SGroup 8307 1 [sym_asmTr];
     SGroup 10355 1 [sym__declProc]; SGroup 10443 1 [sym__declOperator];
     SGroup 11110 1 [sym_rttiAttributes]; SGroup 11216 1 [aux_sym_rttiAttributes_repeat2];
     AGroup 3 2 syms_5; AGroup 18758 2 syms_65; AGroup 18764 2 syms_66; AGroup 23 4 syms_3;
     SGroup 7035 11 syms_210]);
   (326777, 25, [AGroup 5 1 [sym_ppDirective]; AGroup 9 1 [anon_sym_LBRACK];
     AGroup 11 1 [aux_sym_ppUsesBlock_token1]; AGroup 13 1 [sym_kGeneric];
     AGroup 15 1 [sym_kOperator]; AGroup 18756 1 [sym_kClass]; AGroup 18760 1 [sym_kExports];
     AGroup 18762 1 [sym_kLabel]; AGroup 18766 1 [sym_kType]; AGroup 18768 1 [sym_kUses];
     AGroup 18951 1 [sym_kAsm]; AGroup 18953 1 [sym_kBegin]; SGroup 16 1 [sym__ppIf];
     SGroup 5701 1 [sym_blockTr]; SGroup 6432 1 [sym_declProc]; SGroup 9159 1 [sym_asmTr];
     SGroup 10355 1 [sym__declProc]; SGroup 10443 1 [sym__declOperator];
     SGroup 11110 1 [sym_rttiAttributes]; SGroup 11216 1 [aux_sym_rttiAttributes_repeat2];
     AGroup 3 2 syms_5; AGroup 18758 2 syms_65; AGroup 18764 2 syms_66; AGroup 23 4 syms_3;
     SGroup 7035 11 syms_210]);
   (326869, 4, [AGroup 5 1 [sym_ppDirective]; AGroup 3 2 syms_5; AGroup 10828 5 syms_150;
     AGroup 10826 33 syms_252]);
   (326919, 25, [AGroup 5 1 [sym_ppDirective]; AGroup 9 1 [anon_sym_LBRACK];
     AGroup 11 1 [aux_sym_ppUsesBlock_token1]; AGroup 13 1 [sym_kGeneric];
     AGroup 15 1 [sym_kOperator]; AGroup 18756 1 [sym_kClass]; AGroup 18760 1 [sym_kExports];
     AGroup 18762 1 [sym_kLabel]; AGroup 18766 1 [sym_kType]; AGroup 18768 1 [sym_kUses];
     AGroup 19102 1 [sym_kAsm]; AGroup 19104 1 [sym_kBegin]; SGroup 16 1 [sym__ppIf];
     SGroup 3472 1 [sym_blockTr]; SGroup 6432 1 [sym_declProc]; SGroup 7496 1 [sym_asmTr];
     SGroup 10355 1 [sym__declProc]; SGroup 10443 1 [sym__declOperator];
     SGroup 11110 1 [sym_rttiAttributes]; SGroup 11216 1 [aux_sym_rttiAttributes_repeat2];
     AGroup 3 2 syms_5; AGroup 18758 2 syms_65; AGroup 18764 2 syms_66; AGroup 23 4 syms_3;
     SGroup 7035 11 syms_210]);
   (327011, 25, [AGroup 5 1 [sym_ppDirective]; AGroup 9 1 [anon_sym_LBRACK];
     AGroup 11 1 [aux_sym_ppUsesBlock_token1]; AGroup 13 1 [sym_kGeneric];
     AGroup 15 1 [sym_kOperator]; AGroup 18756 1 [sym_kClass]; AGroup 18760 1 [sym_kExports];
     AGroup 18762 1 [sym_kLabel]; AGroup 18766 1 [sym_kType]; AGroup 18768 1 [sym_kUses];
     AGroup 18931 1 [sym_kAsm]; AGroup 18933 1 [sym_kBegin]; SGroup 16 1 [sym__ppIf];
     SGroup 5607 1 [sym_blockTr]; SGroup 6432 1 [sym_declProc]; SGroup 8676 1 [sym_asmTr];
     SGroup 10355 1 [sym__declProc]; SGroup 10443 1 [sym__declOperator];
     SGroup 11110 1 [sym_rttiAttributes]; SGroup 11216 1 [aux_sym_rttiAttributes_repeat2];
     AGroup 3 2 syms_5; AGroup 18758 2 syms_65; AGroup 18764 2 syms_66; AGroup 23 4 syms_3;
     SGroup 6819 11 syms_210]);
   (327103, 4, [AGroup 5 1 [sym_ppDirective]; AGroup 3 2 syms_5; AGroup 10840 5 syms_150;
     AGroup 10838 33 syms_252]);
   (327153, 4, [AGroup 5 1 [sym_ppDirective]; AGroup 3 2 syms_5; AGroup 10880 5 syms_150;
     AGroup 10878 33 syms_252]);
   (327203, 25, [AGroup 5 1 [sym_ppDirective]; AGroup 9 1 [anon_sym_LBRACK];
     AGroup 11 1 [aux_sym_ppUsesBlock_token1]; AGroup 13 1 [sym_kGeneric];
     AGroup 15 1 [sym_kOperator]; AGroup 18756 1 [sym_kClass]; AGroup 18760 1 [sym_kExports];
     AGroup 18762 1 [sym_kLabel]; AGroup 18766 1 [sym_kType]; AGroup 18768 1 [sym_kUses];
     AGroup 19102 1 [sym_kAsm]; AGroup 19104 1 [sym_kBegin]; SGroup 16 1 [sym__ppIf];
     SGroup 3394 1 [sym_blockTr]; SGroup 6432 1 [sym_declProc]; SGroup 7507 1 [sym_asmTr];
     SGroup 10355 1 [sym__declProc]; SGroup 10443 1 [sym__declOperator];
     SGroup 11110 1 [sym_rttiAttributes]; SGroup 11216 1 [aux_sym_rttiAttributes_repeat2];
     AGroup 3 2 syms_5; AGroup 18758 2 syms_65; AGroup 18764 2 syms_66; AGroup 23 4 syms_3;
     SGroup 6709 11 syms_210]);
   (327295, 25, [AGroup 5 1 [sym_ppDirective]; AGroup 9 1 [anon_sym_LBRACK];
     AGroup 11 1 [aux_sym_ppUsesBlock_token1]; AGroup 13 1 [sym_kGeneric];
     AGroup 15 1 [sym_kOperator]; AGroup 18756 1 [sym_kClass]; AGroup 18760 1 [sym_kExports];
     AGroup 18762 1 [sym_kLabel]; AGroup 18766 1 [sym_kType]; AGroup 18768 1 [sym_kUses];
     AGroup 19102 1 [sym_kAsm]; AGroup 19104 1 [sym_kBegin]; SGroup 16 1 [sym__ppIf];
     SGroup 3399 1 [sym_blockTr]; SGroup 6432 1 [sym_declProc]; SGroup 7398 1 [sym_asmTr];
     SGroup 10355 1 [sym__declProc]; SGroup 10443 1 [sym__declOperator];
     SGroup 11110 1 [sym_rttiAttributes]; SGroup 11216 1 [aux_sym_rttiAttributes_repeat2];
     AGroup 3 2 syms_5; AGroup 18758 2 syms_65; AGroup 18764 2 syms_66; AGroup 23 4 syms_3;
     SGroup 7035 11 syms_210]);
   (327387, 4, [AGroup 5 1 [sym_ppDirective]; AGroup 3 2 syms_5; AGroup 16467 4 syms_25;
     AGroup 16465 34 syms_264]);
   (327437, 25, [AGroup 5 1 [sym_ppDirective]; AGroup 9 1 [anon_sym_LBRACK];
     AGroup 11 1 [aux_sym_ppUsesBlock_token1]; AGroup 13 1 [sym_kGeneric];
     AGroup 15 1 [sym_kOperator]; AGroup 18756 1 [sym_kClass]; AGroup 18760 1 [sym_kExports];
     AGroup 18762 1 [sym_kLabel]; AGroup 18766 1 [sym_kType]; AGroup 18768 1 [sym_kUses];
     AGroup 18931 1 [sym_kAsm]; AGroup 18933 1 [sym_kBegin]; SGroup 16 1 [sym__ppIf];
     SGroup 5608 1 [sym_blockTr]; SGroup 6432 1 [sym_declProc]; SGroup 8678 1 [sym_asmTr];
     SGroup 10355 1 [sym__declProc]; SGroup 10443 1 [sym__declOperator];
     SGroup 11110 1 [sym_rttiAttributes]; SGroup 11216 1 [aux_sym_rttiAttributes_repeat2];
     AGroup 3 2 syms_5; AGroup 18758 2 syms_65; AGroup 18764 2 syms_66; AGroup 23 4 syms_3;
     SGroup 7035 11 syms_210]);
   (327529, 25, [AGroup 5 1 [sym_ppDirective]; AGroup 9 1 [anon_sym_LBRACK];
     AGroup 11 1 [aux_sym_ppUsesBlock_token1]; AGroup 13 1 [sym_kGeneric];
     AGroup 15 1 [sym_kOperator]; AGroup 18756 1 [sym_kClass]; AGroup 18760 1 [sym_kExports];
     AGroup 18762 1 [sym_kLabel]; AGroup 18766 1 [sym_kType]; AGroup 18768 1 [sym_kUses];
     AGroup 19047 1 [sym_kAsm]; AGroup 19049 1 [sym_kBegin]; SGroup 16 1 [sym__ppIf];
     SGroup 3474 1 [sym_blockTr]; SGroup 6432 1 [sym_declProc]; SGroup 7436 1 [sym_asmTr];
     SGroup 10355 1 [sym__declProc]; SGroup 10443 1 [sym__declOperator];
     SGroup 11110 1 [sym_rttiAttributes]; SGroup 11216 1 [aux_sym_rttiAttributes_repeat2];
     AGroup 3 2 syms_5; AGroup 18758 2 syms_65; AGroup 18764 2 syms_66; AGroup 23 4 syms_3;
     SGroup 7035 11 syms_210]);
   (327621, 25, [AGroup 5 1 [sym_ppDirective]; AGroup 9 1 [anon_sym_LBRACK];
     AGroup 11 1 [aux_sym_ppUsesBlock_token1]; AGroup 13 1 [sym_kGeneric];
     AGroup 15 1 [sym_kOperator]; AGroup 18756 1 [sym_kClass]; AGroup 18760 1 [sym_kExports];
     AGroup 18762 1 [sym_kLabel]; AGroup 18766 1 [sym_kType]; AGroup 18768 1 [sym_kUses];
     AGroup 19102 1 [sym_kAsm]; AGroup 19104 1 [sym_kBegin]; SGroup 16 1 [sym__ppIf];
     SGroup 3400 1 [sym_blockTr]; SGroup 6432 1 [sym_declProc]; SGroup 7515 1 [sym_asmTr];
     SGroup 10355 1 [sym__declProc]; SGroup 10443 1 [sym__declOperator];
     SGroup 11110 1 [sym_rttiAttributes]; SGroup 11216 1 [aux_sym_rttiAttributes_repeat2];
     AGroup 3 2 syms_5; AGroup 18758 2 syms_65; AGroup 18764 2 syms_66; AGroup 23 4 syms_3;
     SGroup 7035 11 syms_210]);
   (327713, 25, [AGroup 5 1 [sym_ppDirective]; AGroup 9 1 [anon_sym_LBRACK];
     AGroup 11 1 [aux_sym_ppUsesBlock_token1]; AGroup 13 1 [sym_kGeneric];
     AGroup 15 1 [sym_kOperator]; AGroup 18756 1 [sym_kClass]; AGroup 18760 1 [sym_kExports];
     AGroup 18762 1 [sym_kLabel]; AGroup 18766 1 [sym_kType]; AGroup 18768 1 [sym_kUses];
     AGroup 19102 1 [sym_kAsm]; AGroup 19104 1 [sym_kBegin]; SGroup 16 1 [sym__ppIf];
     SGroup 3401 1 [sym_blockTr]; SGroup 6432 1 [sym_declProc]; SGroup 7558 1 [sym_asmTr];
     SGroup 10355 1 [sym__declProc]; SGroup 10443 1 [sym__declOperator];
     SGroup 11110 1 [sym_rttiAttributes]; SGroup 11216 1 [aux_sym_rttiAttributes_repeat2];
     AGroup 3 2 syms_5; AGroup 18758 2 syms_65; AGroup 18764 2 syms_66; AGroup 23 4 syms_3;
     SGroup 6711 11 syms_210]);
   (327805, 25, [AGroup 5 1 [sym_ppDirective]; AGroup 9 1 [anon_sym_LBRACK];
     AGroup 11 1 [aux_sym_ppUsesBlock_token1]; AGroup 13 1 [sym_kGeneric];
     AGroup 15 1 [sym_kOperator]; AGroup 18756 1 [sym_kClass]; AGroup 18760 1 [sym_kExports];
     AGroup 18762 1 [sym_kLabel]; AGroup 18766 1 [sym_kType]; AGroup 18768 1 [sym_kUses];
     AGroup 19102 1 [sym_kAsm]; AGroup 19104 1 [sym_kBegin]; SGroup 16 1 [sym__ppIf];
     SGroup 3407 1 [sym_blockTr]; SGroup 6432 1 [sym_declProc]; SGroup 7356 1 [sym_asmTr];
     SGroup 10355 1 [sym__declProc]; SGroup 10443 1 [sym__declOperator];
     SGroup 11110 1 [sym_rttiAttributes]; SGroup 11216 1 [aux_sym_rttiAttributes_repeat2];
     AGroup 3 2 syms_5; AGroup 18758 2 syms_65; AGroup 18764 2 syms_66; AGroup 23 4 syms_3;
     SGroup 7035 11 syms_210]);
   (327897, 25, [AGroup 5 1 [sym_ppDirective]; AGroup 9 1 [anon_sym_LBRACK];
     AGroup 11 1 [aux_sym_ppUsesBlock_token1]; AGroup 13 1 [sym_kGeneric];
     AGroup 15 1 [sym_kOperator]; AGroup 18756 1 [sym_kClass]; AGroup 18760 1 [sym_kExports];
     AGroup 18762 1 [sym_kLabel]; AGroup 18766 1 [sym_kType]; AGroup 18768 1 [sym_kUses];
     AGroup 19283 1 [sym_kAsm]; AGroup 19285 1 [sym_kBegin]; SGroup 16 1 [sym__ppIf];
     SGroup 4593 1 [sym_blockTr]; SGroup 6432 1 [sym_declProc]; SGroup 8599 1 [sym_asmTr];
     SGroup 10355 1 [sym__declProc]; SGroup 10443 1 [sym__declOperator];
     SGroup 11110 1 [sym_rttiAttributes]; SGroup 11216 1 [aux_sym_rttiAttributes_repeat2];
     AGroup 3 2 syms_5; AGroup 18758 2 syms_65; AGroup 18764 2 syms_66; AGroup 23 4 syms_3;
     SGroup 7035 11 syms_210]);
   (327989, 25, [AGroup 5 1 [sym_ppDirective]; AGroup 9 1 [anon_sym_LBRACK];
     AGroup 11 1 [aux_sym_ppUsesBlock_token1]; AGroup 13 1 [sym_kGeneric];
     AGroup 15 1 [sym_kOperator]; AGroup 18756 1 [sym_kClass]; AGroup 18760 1 [sym_kExports];
     AGroup 18762 1 [sym_kLabel]; AGroup 18766 1 [sym_kType]; AGroup 18768 1 [sym_kUses];
     AGroup 18885 1 [sym_kAsm]; AGroup 18887 1 [sym_kBegin]; SGroup 16 1 [sym__ppIf];
     SGroup 5110 1 [sym_blockTr]; SGroup 6432 1 [sym_declProc]; SGroup 8325 1 [sym_asmTr];
     SGroup 10355 1 [sym__declProc]; SGroup 10443 1 [sym__declOperator];
     SGroup 11110 1 [sym_rttiAttributes]; SGroup 11216 1 [aux_sym_rttiAttributes_repeat2];
     AGroup 3 2 syms_5; AGroup 18758 2 syms_65; AGroup 18764 2 syms_66; AGroup 23 4 syms_3;
     SGroup 6796 11 syms_210]);
   (328081, 25, [AGroup 5 1 [sym_ppDirective]; AGroup 9 1 [anon_sym_LBRACK];
     AGroup 11 1 [aux_sym_ppUsesBlock_token1]; AGroup 13 1 [sym_kGeneric];
     AGroup 15 1 [sym_kOperator]; AGroup 18756 1 [sym_kClass]; AGroup 18760 1 [sym_kExports];
     AGroup 18762 1 [sym_kLabel]; AGroup 18766 1 [sym_kType]; AGroup 18768 1 [sym_kUses];
     AGroup 18937 1 [sym_kAsm]; AGroup 18939 1 [sym_kBegin]; SGroup 16 1 [sym__ppIf];
     SGroup 5733 1 [sym_blockTr]; SGroup 6432 1 [sym_declProc]; SGroup 9272 1 [sym_asmTr];
     SGroup 10355 1 [sym__declProc]; SGroup 10443 1 [sym__declOperator];
     SGroup 11110 1 [sym_rttiAttributes]; SGroup 11216 1 [aux_sym_rttiAttributes_repeat2];
     AGroup 3 2 syms_5; AGroup 18758 2 syms_65; AGroup 18764 2 syms_66; AGroup 23 4 syms_3;
     SGroup 6735 11 syms_210]);
   (328173, 25, [AGroup 5 1 [sym_ppDirective]; AGroup 9 1 [anon_sym_LBRACK];
     AGroup 11 1 [aux_sym_ppUsesBlock_token1]; AGroup 13 1 [sym_kGeneric];
     AGroup 15 1 [sym_kOperator]; AGroup 18756 1 [sym_kClass]; AGroup 18760 1 [sym_kExports];
     AGroup 18762 1 [sym_kLabel]; AGroup 18766 1 [sym_kType]; AGroup 18768 1 [sym_kUses];
     AGroup 19108 1 [sym_kAsm]; AGroup 19110 1 [sym_kBegin]; SGroup 16 1 [sym__ppIf];
     SGroup 3361 1 [sym_blockTr]; SGroup 6432 1 [sym_declProc]; SGroup 7232 1 [sym_asmTr];
     SGroup 10355 1 [sym__declProc]; SGroup 10443 1 [sym__declOperator];
     SGroup 11110 1 [sym_rttiAttributes]; SGroup 11216 1 [aux_sym_rttiAttributes_repeat2];
     AGroup 3 2 syms_5; AGroup 18758 2 syms_65; AGroup 18764 2 syms_66; AGroup 23 4 syms_3;
     SGroup 7035 11 syms_210]);
   (328265, 7, [AGroup 5 1 [sym_ppDirective]; AGroup 19588 1 [anon_sym_POUND]; AGroup 3 2 syms_5;
     AGroup 19585 2 syms_6; SGroup 6716 3 syms_13; AGroup 15241 4 syms_25;
     AGroup 15239 28 syms_103]);
   (328321, 25, [AGroup 5 1 [sym_ppDirective]; AGroup 9 1 [anon_sym_LBRACK];
     AGroup 11 1 [aux_sym_ppUsesBlock_token1]; AGroup 13 1 [sym_kGeneric];
     AGroup 15 1 [sym_kOperator]; AGroup 18756 1 [sym_kClass]; AGroup 18760 1 [sym_kExports];
     AGroup 18762 1 [sym_kLabel]; AGroup 18766 1 [sym_kType]; AGroup 18768 1 [sym_kUses];
     AGroup 18937 1 [sym_kAsm]; AGroup 18939 1 [sym_kBegin]; SGroup 16 1 [sym__ppIf];
     SGroup 5737 1 [sym_blockTr]; SGroup 6432 1 [sym_declProc]; SGroup 9273 1 [sym_asmTr];
     SGroup 10355 1 [sym__declProc]; SGroup 10443 1 [sym__declOperator];
     SGroup 11110 1 [sym_rttiAttributes]; SGroup 11216 1 [aux_sym_rttiAttributes_repeat2];
     AGroup 3 2 syms_5; AGroup 18758 2 syms_65; AGroup 18764 2 syms_66; AGroup 23 4 syms_3;
     SGroup 7035 11 syms_210]);
   (328413, 25, [AGroup 5 1 [sym_ppDirective]; AGroup 9 1 [anon_sym_LBRACK];
     AGroup 11 1 [aux_sym_ppUsesBlock_token1]; AGroup 13 1 [sym_kGeneric];
     AGroup 15 1 [sym_kOperator]; AGroup 18756 1 [sym_kClass]; AGroup 18760 1 [sym_kExports];
     AGroup 18762 1 [sym_kLabel]; AGroup 18766 1 [sym_kType]; AGroup 18768 1 [sym_kUses];
     AGroup 18885 1 [sym_kAsm]; AGroup 18887 1 [sym_kBegin]; SGroup 16 1 [sym__ppIf];
     SGroup 5142 1 [sym_blockTr]; SGroup 6432 1 [sym_declProc]; SGroup 8327 1 [sym_asmTr];
     SGroup 10355 1 [sym__declProc]; SGroup 10443 1 [sym__declOperator];
     SGroup 11110 1 [sym_rttiAttributes]; SGroup 11216 1 [aux_sym_rttiAttributes_repeat2];
     AGroup 3 2 syms_5; AGroup 18758 2 syms_65; AGroup 18764 2 syms_66; AGroup 23 4 syms_3;
     SGroup 7035 11 syms_210]);
   (328505, 25, [AGroup 5 1 [sym_ppDirective]; AGroup 9 1 [anon_sym_LBRACK];
     AGroup 11 1 [aux_sym_ppUsesBlock_token1]; AGroup 13 1 [sym_kGeneric];
     AGroup 15 1 [sym_kOperator]; AGroup 18756 1 [sym_kClass]; AGroup 18760 1 [sym_kExports];
     AGroup 18762 1 [sym_kLabel]; AGroup 18766 1 [sym_kType]; AGroup 18768 1 [sym_kUses];
     AGroup 19108 1 [sym_kAsm]; AGroup 19110 1 [sym_kBegin]; SGroup 16 1 [sym__ppIf];
     SGroup 3363 1 [sym_blockTr]; SGroup 6432 1 [sym_declProc]; SGroup 7238 1 [sym_asmTr];
     SGroup 10355 1 [sym__declProc]; SGroup 10443 1 [sym__declOperator];
     SGroup 11110 1 [sym_rttiAttributes]; SGroup 11216 1 [aux_sym_rttiAttributes_repeat2];
     AGroup 3 2 syms_5; AGroup 18758 2 syms_65; AGroup 18764 2 syms_66; AGroup 23 4 syms_3;
     SGroup 6722 11 syms_210]);
   (328597, 25, [AGroup 5 1 [sym_ppDirective]; AGroup 9 1 [anon_sym_LBRACK];
     AGroup 11 1 [aux_sym_ppUsesBlock_token1]; AGroup 13 1 [sym_kGeneric];
     AGroup 15 1 [sym_kOperator]; AGroup 18756 1 [sym_kClass]; AGroup 18760 1 [sym_kExports];
     AGroup 18762 1 [sym_kLabel]; AGroup 18766 1 [sym_kType]; AGroup 18768 1 [sym_kUses];
     AGroup 19108 1 [sym_kAsm]; AGroup 19110 1 [sym_kBegin]; SGroup 16 1 [sym__ppIf];
     SGroup 3367 1 [sym_blockTr]; SGroup 6432 1 [sym_declProc]; SGroup 7239 1 [sym_asmTr];
     SGroup 10355 1 [sym__declProc]; SGroup 10443 1 [sym__declOperator];
     SGroup 11110 1 [sym_rttiAttributes]; SGroup 11216 1 [aux_sym_rttiAttributes_repeat2];
     AGroup 3 2 syms_5; AGroup 18758 2 syms_65; AGroup 18764 2 syms_66; AGroup 23 4 syms_3;
     SGroup 7035 11 syms_210]);
   (328689, 25, [AGroup 5 1 [sym_ppDirective]; AGroup 9 1 [anon_sym_LBRACK];
     AGroup 11 1 [aux_sym_ppUsesBlock_token1]; AGroup 13 1 [sym_kGeneric];
     AGroup 15 1 [sym_kOperator]; AGroup 18756 1 [sym_kClass]; AGroup 18760 1 [sym_kExports];
     AGroup 18762 1 [sym_kLabel]; AGroup 18766 1 [sym_kType]; AGroup 18768 1 [sym_kUses];
     AGroup 18984 1 [sym_kAsm]; AGroup 18986 1 [sym_kBegin]; SGroup 16 1 [sym__ppIf];
     SGroup 4091 1 [sym_blockTr]; SGroup 6432 1 [sym_declProc]; SGroup 7941 1 [sym_asmTr];
     SGroup 10355 1 [sym__declProc]; SGroup 10443 1 [sym__declOperator];
     SGroup 11110 1 [sym_rttiAttributes]; SGroup 11216 1 [aux_sym_rttiAttributes_repeat2];
     AGroup 3 2 syms_5; AGroup 18758 2 syms_65; AGroup 18764 2 syms_66; AGroup 23 4 syms_3;
     SGroup 7035 11 syms_210]);
   (328781, 25, [AGroup 5 1 [sym_ppDirective]; AGroup 9 1 [anon_sym_LBRACK];
     AGroup 11 1 [aux_sym_ppUsesBlock_token1]; AGroup 13 1 [sym_kGeneric];
     AGroup 15 1 [sym_kOperator]; AGroup 18756 1 [sym_kClass]; AGroup 18760 1 [sym_kExports];
     AGroup 18762 1 [sym_kLabel]; AGroup 18766 1 [sym_kType]; AGroup 18768 1 [sym_kUses];
     AGroup 19108 1 [sym_kAsm]; AGroup 19110 1 [sym_kBegin]; SGroup 16 1 [sym__ppIf];
     SGroup 3368 1 [sym_blockTr]; SGroup 6432 1 [sym_declProc]; SGroup 7245 1 [sym_asmTr];
     SGroup 10355 1 [sym__declProc]; SGroup 10443 1 [sym__declOperator];
     SGroup 11110 1 [sym_rttiAttributes]; SGroup 11216 1 [aux_sym_rttiAttributes_repeat2];
     AGroup 3 2 syms_5; AGroup 18758 2 syms_65; AGroup 18764 2 syms_66; AGroup 23 4 syms_3;
     SGroup 7035 11 syms_210]);
   (328873, 25, [AGroup 5 1 [sym_ppDirective]; AGroup 9 1 [anon_sym_LBRACK];
     AGroup 11 1 [aux_sym_ppUsesBlock_token1]; AGroup 13 1 [sym_kGeneric];
     AGroup 15 1 [sym_kOperator]; AGroup 18756 1 [sym_kClass]; AGroup 18760 1 [sym_kExports];
     AGroup 18762 1 [sym_kLabel]; AGroup 18766 1 [sym_kType]; AGroup 18768 1 [sym_kUses];
     AGroup 19108 1 [sym_kAsm]; AGroup 19110 1 [sym_kBegin]; SGroup 16 1 [sym__ppIf];
     SGroup 3370 1 [sym_blockTr]; SGroup 6432 1 [sym_declProc]; SGroup 7246 1 [sym_asmTr];
     SGroup 10355 1 [sym__declProc]; SGroup 10443 1 [sym__declOperator];
     SGroup 11110 1 [sym_rttiAttributes]; SGroup 11216 1 [aux_sym_rttiAttributes_repeat2];
     AGroup 3 2 syms_5; AGroup 18758 2 syms_65; AGroup 18764 2 syms_66; AGroup 23 4 syms_3;
     SGroup 6724 11 syms_210]);
   (328965, 25, [AGroup 5 1 [sym_ppDirective]; AGroup 9 1 [anon_sym_LBRACK];
     AGroup 11 1 [aux_sym_ppUsesBlock_token1]; AGroup 13 1 [sym_kGeneric];
     AGroup 15 1 [sym_kOperator]; AGroup 18756 1 [sym_kClass]; AGroup 18760 1 [sym_kExports];
     AGroup 18762 1 [sym_kLabel]; AGroup 18766 1 [sym_kType]; AGroup 18768 1 [sym_kUses];
     AGroup 19108 1 [sym_kAsm]; AGroup 19110 1 [sym_kBegin]; SGroup 16 1 [sym__ppIf];
     SGroup 3372 1 [sym_blockTr]; SGroup 6432 1 [sym_declProc]; SGroup 7248 1 [sym_asmTr];
     SGroup 10355 1 [sym__declProc]; SGroup 10443 1 [sym__declOperator];
     SGroup 11110 1 [sym_rttiAttributes]; SGroup 11216 1 [aux_sym_rttiAttributes_repeat2];
     AGroup 3 2 syms_5; AGroup 18758 2 syms_65; AGroup 18764 2 syms_66; AGroup 23 4 syms_3;
     SGroup 7035 11 syms_210]);
   (329057, 7, [AGroup 5 1 [sym_ppDirective]; AGroup 16974 1 [anon_sym_COMMA];
     AGroup 16978 1 [anon_sym_DOT]; AGroup 3 2 syms_5; AGroup 16981 2 syms_83;
     AGroup 16976 5 syms_265; AGroup 16972 29 syms_266]);
   (329113, 25, [AGroup 5 1 [sym_ppDirective]; AGroup 9 1 [anon_sym_LBRACK];
     AGroup 11 1 [aux_sym_ppUsesBlock_token1]; AGroup 13 1 [sym_kGeneric];
     AGroup 15 1 [sym_kOperator]; AGroup 18756 1 [sym_kClass]; AGroup 18760 1 [sym_kExports];
     AGroup 18762 1 [sym_kLabel]; AGroup 18766 1 [sym_kType]; AGroup 18768 1 [sym_kUses];
     AGroup 19283 1 [sym_kAsm]; AGroup 19285 1 [sym_kBegin]; SGroup 16 1 [sym__ppIf];
     SGroup 4594 1 [sym_blockTr]; SGroup 6432 1 [sym_declProc]; SGroup 8411 1 [sym_asmTr];
     SGroup 10355 1 [sym__declProc]; SGroup 10443 1 [sym__declOperator];
     SGroup 11110 1 [sym_rttiAttributes]; SGroup 11216 1 [aux_sym_rttiAttributes_repeat2];
     AGroup 3 2 syms_5; AGroup 18758 2 syms_65; AGroup 18764 2 syms_66; AGroup 23 4 syms_3;
     SGroup 6833 11 syms_210]);
   (329205, 25, [AGroup 5 1 [sym_ppDirective]; AGroup 9 1 [anon_sym_LBRACK];
     AGroup 11 1 [aux_sym_ppUsesBlock_token1]; AGroup 13 1 [sym_kGeneric];
     AGroup 15 1 [sym_kOperator]; AGroup 18756 1 [sym_kClass]; AGroup 18760 1 [sym_kExports];
     AGroup 18762 1 [sym_kLabel]; AGroup 18766 1 [sym_kType]; AGroup 18768 1 [sym_kUses];
     AGroup 19117 1 [sym_kAsm]; AGroup 19119 1 [sym_kBegin]; SGroup 16 1 [sym__ppIf];
     SGroup 5699 1 [sym_blockTr]; SGroup 6432 1 [sym_declProc]; SGroup 9074 1 [sym_asmTr];
     SGroup 10355 1 [sym__declProc]; SGroup 10443 1 [sym__declOperator];
     SGroup 11110 1 [sym_rttiAttributes]; SGroup 11216 1 [aux_sym_rttiAttributes_repeat2];
     AGroup 3 2 syms_5; AGroup 18758 2 syms_65; AGroup 18764 2 syms_66; AGroup 23 4 syms_3;
     SGroup 7035 11 syms_210]);
   (329297, 25, [AGroup 5 1 [sym_ppDirective]; AGroup 9 1 [anon_sym_LBRACK];
     AGroup 11 1 [aux_sym_ppUsesBlock_token1]; AGroup 13 1 [sym_kGeneric];
     AGroup 15 1 [sym_kOperator]; AGroup 18756 1 [sym_kClass]; AGroup 18760 1 [sym_kExports];
     AGroup 18762 1 [sym_kLabel]; AGroup 18766 1 [sym_kType]; AGroup 18768 1 [sym_kUses];
     AGroup 18899 1 [sym_kAsm]; AGroup 18901 1 [sym_kBegin]; SGroup 16 1 [sym__ppIf];
     SGroup 4543 1 [sym_blockTr]; SGroup 6432 1 [sym_declProc]; SGroup 8326 1 [sym_asmTr];
     SGroup 10355 1 [sym__declProc]; SGroup 10443 1 [sym__declOperator];
     SGroup 11110 1 [sym_rttiAttributes]; SGroup 11216 1 [aux_sym_rttiAttributes_repeat2];
     AGroup 3 2 syms_5; AGroup 18758 2 syms_65; AGroup 18764 2 syms_66; AGroup 23 4 syms_3;
     SGroup 7035 11 syms_210]);
   (329389, 25, [AGroup 5 1 [sym_ppDirective]; AGroup 9 1 [anon_sym_LBRACK];
     AGroup 11 1 [aux_sym_ppUsesBlock_token1]; AGroup 13 1 [sym_kGeneric];
     AGroup 15 1 [sym_kOperator]; AGroup 18756 1 [sym_kClass]; AGroup 18760 1 [sym_kExports];
     AGroup 18762 1 [sym_kLabel]; AGroup 18766 1 [sym_kType]; AGroup 18768 1 [sym_kUses];
     AGroup 19117 1 [sym_kAsm]; AGroup 19119 1 [sym_kBegin]; SGroup 16 1 [sym__ppIf];
     SGroup 5746 1 [sym_blockTr]; SGroup 6432 1 [sym_declProc]; SGroup 9123 1 [sym_asmTr];
     SGroup 10355 1 [sym__declProc]; SGroup 10443 1 [sym__declOperator];
     SGroup 11110 1 [sym_rttiAttributes]; SGroup 11216 1 [aux_sym_rttiAttributes_repeat2];
     AGroup 3 2 syms_5; AGroup 18758 2 syms_65; AGroup 18764 2 syms_66; AGroup 23 4 syms_3;
     SGroup 6732 11 syms_210]);
   (329481, 25, [AGroup 5 1 [sym_ppDirective]; AGroup 9 1 [anon_sym_LBRACK];
     AGroup 11 1 [aux_sym_ppUsesBlock_token1]; AGroup 13 1 [sym_kGeneric];
     AGroup 15 1 [sym_kOperator]; AGroup 18756 1 [sym_kClass]; AGroup 18760 1 [sym_kExports];
     AGroup 18762 1 [sym_kLabel]; AGroup 18766 1 [sym_kType]; AGroup 18768 1 [sym_kUses];
     AGroup 19117 1 [sym_kAsm]; AGroup 19119 1 [sym_kBegin]; SGroup 16 1 [sym__ppIf];
     SGroup 5758 1 [sym_blockTr]; SGroup 6432 1 [sym_declProc]; SGroup 9124 1 [sym_asmTr];
     SGroup 10355 1 [sym__declProc]; SGroup 10443 1 [sym__declOperator];
     SGroup 11110 1 [sym_rttiAttributes]; SGroup 11216 1 [aux_sym_rttiAttributes_repeat2];
     AGroup 3 2 syms_5; AGroup 18758 2 syms_65; AGroup 18764 2 syms_66; AGroup 23 4 syms_3;
     SGroup 7035 11 syms_210]);
   (329573, 4, [AGroup 5 1 [sym_ppDirective]; AGroup 3 2 syms_5; AGroup 10712 5 syms_150;
     AGroup 10710 33 syms_252]);
   (329623, 25, [AGroup 5 1 [sym_ppDirective]; AGroup 9 1 [anon_sym_LBRACK];
     AGroup 11 1 [aux_sym_ppUsesBlock_token1]; AGroup 13 1 [sym_kGeneric];
     AGroup 15 1 [sym_kOperator]; AGroup 18756 1 [sym_kClass]; AGroup 18760 1 [sym_kExports];
     AGroup 18762 1 [sym_kLabel]; AGroup 18766 1 [sym_kType]; AGroup 18768 1 [sym_kUses];
     AGroup 19117 1 [sym_kAsm]; AGroup 19119 1 [sym_kBegin]; SGroup 16 1 [sym__ppIf];
     SGroup 5760 1 [sym_blockTr]; SGroup 6432 1 [sym_declProc]; SGroup 9137 1 [sym_asmTr];
     SGroup 10355 1 [sym__declProc]; SGroup 10443 1 [sym__declOperator];
     SGroup 11110 1 [sym_rttiAttributes]; SGroup 11216 1 [aux_sym_rttiAttributes_repeat2];
     AGroup 3 2 syms_5; AGroup 18758 2 syms_65; AGroup 18764 2 syms_66; AGroup 23 4 syms_3;
     SGroup 7035 11 syms_210]);
   (329715, 25, [AGroup 5 1 [sym_ppDirective]; AGroup 9 1 [anon_sym_LBRACK];
     AGroup 11 1 [aux_sym_ppUsesBlock_token1]; AGroup 13 1 [sym_kGeneric];
     AGroup 15 1 [sym_kOperator]; AGroup 18756 1 [sym_kClass]; AGroup 18760 1 [sym_kExports];
     AGroup 18762 1 [sym_kLabel]; AGroup 18766 1 [sym_kType]; AGroup 18768 1 [sym_kUses];
     AGroup 19117 1 [sym_kAsm]; AGroup 19119 1 [sym_kBegin]; SGroup 16 1 [sym__ppIf];
     SGroup 5748 1 [sym_blockTr]; SGroup 6432 1 [sym_declProc]; SGroup 9139 1 [sym_asmTr];
     SGroup 10355 1 [sym__declProc]; SGroup 10443 1 [sym__declOperator];
     SGroup 11110 1 [sym_rttiAttributes]; SGroup 11216 1 [aux_sym_rttiAttributes_repeat2];
     AGroup 3 2 syms_5; AGroup 18758 2 syms_65; AGroup 18764 2 syms_66; AGroup 23 4 syms_3;
     SGroup 6734 11 syms_210]);
   (329807, 25, [AGroup 5 1 [sym_ppDirective]; AGroup 9 1 [anon_sym_LBRACK];
     AGroup 11 1 [aux_sym_ppUsesBlock_token1]; AGroup 13 1 [sym_kGeneric];
     AGroup 15 1 [sym_kOperator]; AGroup 18756 1 [sym_kClass]; AGroup 18760 1 [sym_kExports];
     AGroup 18762 1 [sym_kLabel]; AGroup 18766 1 [sym_kType]; AGroup 18768 1 [sym_kUses];
     AGroup 19117 1 [sym_kAsm]; AGroup 19119 1 [sym_kBegin]; SGroup 16 1 [sym__ppIf];
     SGroup 5761 1 [sym_blockTr]; SGroup 6432 1 [sym_declProc]; SGroup 9147 1 [sym_asmTr];
     SGroup 10355 1 [sym__declProc]; SGroup 10443 1 [sym__declOperator];
     SGroup 11110 1 [sym_rttiAttributes]; SGroup 11216 1 [aux_sym_rttiAttributes_repeat2];
     AGroup 3 2 syms_5; AGroup 18758 2 syms_65; AGroup 18764 2 syms_66; AGroup 23 4 syms_3;
     SGroup 7035 11 syms_210]);
   (329899, 25, [AGroup 5 1 [sym_ppDirective]; AGroup 9 1 [anon_sym_LBRACK];
     AGroup 11 1 [aux_sym_ppUsesBlock_token1]; AGroup 13 1 [sym_kGeneric];
     AGroup 15 1 [sym_kOperator]; AGroup 18756 1 [sym_kClass]; AGroup 18760 1 [sym_kExports];
     AGroup 18762 1 [sym_kLabel]; AGroup 18766 1 [sym_kType]; AGroup 18768 1 [sym_kUses];
     AGroup 18937 1 [sym_kAsm]; AGroup 18939 1 [sym_kBegin]; SGroup 16 1 [sym__ppIf];
     SGroup 5745 1 [sym_blockTr]; SGroup 6432 1 [sym_declProc]; SGroup 9282 1 [sym_asmTr];
     SGroup 10355 1 [sym__declProc]; SGroup 10443 1 [sym__declOperator];
     SGroup 11110 1 [sym_rttiAttributes]; SGroup 11216 1 [aux_sym_rttiAttributes_repeat2];
     AGroup 3 2 syms_5; AGroup 18758 2 syms_65; AGroup 18764 2 syms_66; AGroup 23 4 syms_3;
     SGroup 7035 11 syms_210]);
   (329991, 25, [AGroup 5 1 [sym_ppDirective]; AGroup 9 1 [anon_sym_LBRACK];
     AGroup 11 1 [aux_sym_ppUsesBlock_token1]; AGroup 13 1 [sym_kGeneric];
     AGroup 15 1 [sym_kOperator]; AGroup 18756 1 [sym_kClass]; AGroup 18760 1 [sym_kExports];
     AGroup 18762 1 [sym_kLabel]; AGroup 18766 1 [sym_kType]; AGroup 18768 1 [sym_kUses];
     AGroup 18937 1 [sym_kAsm]; AGroup 18939 1 [sym_kBegin]; SGroup 16 1 [sym__ppIf];
     SGroup 5749 1 [sym_blockTr]; SGroup 6432 1 [sym_declProc]; SGroup 9283 1 [sym_asmTr];
     SGroup 10355 1 [sym__declProc]; SGroup 10443 1 [sym__declOperator];
     SGroup 11110 1 [sym_rttiAttributes]; SGroup 11216 1 [aux_sym_rttiAttributes_repeat2];
     AGroup 3 2 syms_5; AGroup 18758 2 syms_65; AGroup 18764 2 syms_66; AGroup 23 4 syms_3;
     SGroup 6740 11 syms_210]);
   (330083, 4, [AGroup 5 1 [sym_ppDirective]; AGroup 3 2 syms_5; AGroup 10734 5 syms_150;
     AGroup 10732 33 syms_252]);
   (330133, 25, [AGroup 5 1 [sym_ppDirective]; AGroup 9 1 [anon_sym_LBRACK];
     AGroup 11 1 [aux_sym_ppUsesBlock_token1]; AGroup 13 1 [sym_kGeneric];
     AGroup 15 1 [sym_kOperator]; AGroup 18756 1 [sym_kClass]; AGroup 18760 1 [sym_kExports];
     AGroup 18762 1 [sym_kLabel]; AGroup 18766 1 [sym_kType]; AGroup 18768 1 [sym_kUses];
     AGroup 19129 1 [sym_kAsm]; AGroup 19131 1 [sym_kBegin]; SGroup 16 1 [sym__ppIf];
     SGroup 3574 1 [sym_blockTr]; SGroup 6432 1 [sym_declProc]; SGroup 7706 1 [sym_asmTr];
     SGroup 10355 1 [sym__declProc]; SGroup 10443 1 [sym__declOperator];
     SGroup 11110 1 [sym_rttiAttributes]; SGroup 11216 1 [aux_sym_rttiAttributes_repeat2];
     AGroup 3 2 syms_5; AGroup 18758 2 syms_65; AGroup 18764 2 syms_66; AGroup 23 4 syms_3;
     SGroup 7035 11 syms_210]);
   (330225, 25, [AGroup 5 1 [sym_ppDirective]; AGroup 9 1 [anon_sym_LBRACK];
     AGroup 11 1 [aux_sym_ppUsesBlock_token1]; AGroup 13 1 [sym_kGeneric];
     AGroup 15 1 [sym_kOperator]; AGroup 18756 1 [sym_kClass]; AGroup 18760 1 [sym_kExports];
     AGroup 18762 1 [sym_kLabel]; AGroup 18766 1 [sym_kType]; AGroup 18768 1 [sym_kUses];
     AGroup 18951 1 [sym_kAsm]; AGroup 18953 1 [sym_kBegin]; SGroup 16 1 [sym__ppIf];
     SGroup 5710 1 [sym_blockTr]; SGroup 6432 1 [sym_declProc]; SGroup 9185 1 [sym_asmTr];
     SGroup 10355 1 [sym__declProc]; SGroup 10443 1 [sym__declOperator];
     SGroup 11110 1 [sym_rttiAttributes]; SGroup 11216 1 [aux_sym_rttiAttributes_repeat2];
     AGroup 3 2 syms_5; AGroup 18758 2 syms_65; AGroup 18764 2 syms_66; AGroup 23 4 syms_3;
     SGroup 7035 11 syms_210]);
   (330317, 25, [AGroup 5 1 [sym_ppDirective]; AGroup 9 1 [anon_sym_LBRACK];
     AGroup 11 1 [aux_sym_ppUsesBlock_token1]; AGroup 13 1 [sym_kGeneric];
     AGroup 15 1 [sym_kOperator]; AGroup 18756 1 [sym_kClass]; AGroup 18760 1 [sym_kExports];
     AGroup 18762 1 [sym_kLabel]; AGroup 18766 1 [sym_kType]; AGroup 18768 1 [sym_kUses];
     AGroup 18937 1 [sym_kAsm]; AGroup 18939 1 [sym_kBegin]; SGroup 16 1 [sym__ppIf];
     SGroup 5779 1 [sym_blockTr]; SGroup 6432 1 [sym_declProc]; SGroup 9285 1 [sym_asmTr];
     SGroup 10355 1 [sym__declProc]; SGroup 10443 1 [sym__declOperator];
     SGroup 11110 1 [sym_rttiAttributes]; SGroup 11216 1 [aux_sym_rttiAttributes_repeat2];
     AGroup 3 2 syms_5; AGroup 18758 2 syms_65; AGroup 18764 2 syms_66; AGroup 23 4 syms_3;
     SGroup 7035 11 syms_210]);
   (330409, 25, [AGroup 5 1 [sym_ppDirective]; AGroup 9 1 [anon_sym_LBRACK];
     AGroup 11 1 [aux_sym_ppUsesBlock_token1]; AGroup 13 1 [sym_kGeneric];
     AGroup 15 1 [sym_kOperator]; AGroup 18756 1 [sym_kClass]; AGroup 18760 1 [sym_kExports];
     AGroup 18762 1 [sym_kLabel]; AGroup 18766 1 [sym_kType]; AGroup 18768 1 [sym_kUses];
     AGroup 19129 1 [sym_kAsm]; AGroup 19131 1 [sym_kBegin]; SGroup 16 1 [sym__ppIf];
     SGroup 3576 1 [sym_blockTr]; SGroup 6432 1 [sym_declProc]; SGroup 7714 1 [sym_asmTr];
     SGroup 10355 1 [sym__declProc]; SGroup 10443 1 [sym__declOperator];
     SGroup 11110 1 [sym_rttiAttributes]; SGroup 11216 1 [aux_sym_rttiAttributes_repeat2];
     AGroup 3 2 syms_5; AGroup 18758 2 syms_65; AGroup 18764 2 syms_66; AGroup 23 4 syms_3;
     SGroup 6744 11 syms_210]);
   (330501, 25, [AGroup 5 1 [sym_ppDirective]; AGroup 9 1 [anon_sym_LBRACK];
     AGroup 11 1 [aux_sym_ppUsesBlock_token1]; AGroup 13 1 [sym_kGeneric];
     AGroup 15 1 [sym_kOperator]; AGroup 18756 1 [sym_kClass]; AGroup 18760 1 [sym_kExports];
     AGroup 18762 1 [sym_kLabel]; AGroup 18766 1 [sym_kType]; AGroup 18768 1 [sym_kUses];
     AGroup 19129 1 [sym_kAsm]; AGroup 19131 1 [sym_kBegin]; SGroup 16 1 [sym__ppIf];
     SGroup 3577 1 [sym_blockTr]; SGroup 6432 1 [sym_declProc]; SGroup 7715 1 [sym_asmTr];
     SGroup 10355 1 [sym__declProc]; SGroup 10443 1 [sym__declOperator];
     SGroup 11110 1 [sym_rttiAttributes]; SGroup 11216 1 [aux_sym_rttiAttributes_repeat2];
     AGroup 3 2 syms_5; AGroup 18758 2 syms_65; AGroup 18764 2 syms_66; AGroup 23 4 syms_3;
     SGroup 7035 11 syms_210]);
   (330593, 4, [AGroup 5 1 [sym_ppDirective]; AGroup 3 2 syms_5; AGroup 10734 5 syms_150;
     AGroup 10732 33 syms_252]);
   (330643, 25, [AGroup 5 1 [sym_ppDirective]; AGroup 9 1 [anon_sym_LBRACK];
     AGroup 11 1 [aux_sym_ppUsesBlock_token1]; AGroup 13 1 [sym_kGeneric];
     AGroup 15 1 [sym_kOperator]; AGroup 18756 1 [sym_kClass]; AGroup 18760 1 [sym_kExports];
     AGroup 18762 1 [sym_kLabel]; AGroup 18766 1 [sym_kType]; AGroup 18768 1 [sym_kUses];
     AGroup 19129 1 [sym_kAsm]; AGroup 19131 1 [sym_kBegin]; SGroup 16 1 [sym__ppIf];
     SGroup 3582 1 [sym_blockTr]; SGroup 6432 1 [sym_declProc]; SGroup 7723 1 [sym_asmTr];
     SGroup 10355 1 [sym__declProc]; SGroup 10443 1 [sym__declOperator];
     SGroup 11110 1 [sym_rttiAttributes]; SGroup 11216 1 [aux_sym_rttiAttributes_repeat2];
     AGroup 3 2 syms_5; AGroup 18758 2 syms_65; AGroup 18764 2 syms_66; AGroup 23 4 syms_3;
     SGroup 7035 11 syms_210]);
   (330735, 25, [AGroup 5 1 [sym_ppDirective]; AGroup 9 1 [anon_sym_LBRACK];
     AGroup 11 1 [aux_sym_ppUsesBlock_token1]; AGroup 13 1 [sym_kGeneric];
     AGroup 15 1 [sym_kOperator]; AGroup 18756 1 [sym_kClass]; AGroup 18760 1 [sym_kExports];
     AGroup 18762 1 [sym_kLabel]; AGroup 18766 1 [sym_kType]; AGroup 18768 1 [sym_kUses];
     AGroup 19129 1 [sym_kAsm]; AGroup 19131 1 [sym_kBegin]; SGroup 16 1 [sym__ppIf];
     SGroup 3585 1 [sym_blockTr]; SGroup 6432 1 [sym_declProc]; SGroup 7724 1 [sym_asmTr];
     SGroup 10355 1 [sym__declProc]; SGroup 10443 1 [sym__declOperator];
     SGroup 11110 1 [sym_rttiAttributes]; SGroup 11216 1 [aux_sym_rttiAttributes_repeat2];
     AGroup 3 2 syms_5; AGroup 18758 2 syms_65; AGroup 18764 2 syms_66; AGroup 23 4 syms_3;
     SGroup 6746 11 syms_210]);
   (330827, 25, [AGroup 5 1 [sym_ppDirective]; AGroup 9 1 [anon_sym_LBRACK];
     AGroup 11 1 [aux_sym_ppUsesBlock_token1]; AGroup 13 1 [sym_kGeneric];
     AGroup 15 1 [sym_kOperator]; AGroup 18756 1 [sym_kClass]; AGroup 18760 1 [sym_kExports];
     AGroup 18762 1 [sym_kLabel]; AGroup 18766 1 [sym_kType]; AGroup 18768 1 [sym_kUses];
     AGroup 19129 1 [sym_kAsm]; AGroup 19131 1 [sym_kBegin]; SGroup 16 1 [sym__ppIf];
     SGroup 3586 1 [sym_blockTr]; SGroup 6432 1 [sym_declProc]; SGroup 7727 1 [sym_asmTr];
     SGroup 10355 1 [sym__declProc]; SGroup 10443 1 [sym__declOperator];
     SGroup 11110 1 [sym_rttiAttributes]; SGroup 11216 1 [aux_sym_rttiAttributes_repeat2];
     AGroup 3 2 syms_5; AGroup 18758 2 syms_65; AGroup 18764 2 syms_66; AGroup 23 4 syms_3;
     SGroup 7035 11 syms_210]);
   (330919, 4, [AGroup 5 1 [sym_ppDirective]; AGroup 3 2 syms_5; AGroup 10722 5 syms_150;
     AGroup 10720 33 syms_252]);
   (330969, 25, [AGroup 5 1 [sym_ppDirective]; AGroup 9 1 [anon_sym_LBRACK];
     AGroup 11 1 [aux_sym_ppUsesBlock_token1]; AGroup 13 1 [sym_kGeneric];
     AGroup 15 1 [sym_kOperator]; AGroup 18756 1 [sym_kClass]; AGroup 18760 1 [sym_kExports];
     AGroup 18762 1 [sym_kLabel]; AGroup 18766 1 [sym_kType]; AGroup 18768 1 [sym_kUses];
     AGroup 19275 1 [sym_kAsm]; AGroup 19277 1 [sym_kBegin]; SGroup 16 1 [sym__ppIf];
     SGroup 5727 1 [sym_blockTr]; SGroup 6432 1 [sym_declProc]; SGroup 9040 1 [sym_asmTr];
     SGroup 10355 1 [sym__declProc]; SGroup 10443 1 [sym__declOperator];
     SGroup 11110 1 [sym_rttiAttributes]; SGroup 11216 1 [aux_sym_rttiAttributes_repeat2];
     AGroup 3 2 syms_5; AGroup 18758 2 syms_65; AGroup 18764 2 syms_66; AGroup 23 4 syms_3;
     SGroup 7035 11 syms_210]);
   (331061, 5, [AGroup 5 1 [sym_ppDirective]; SGroup 4292 1 [sym_kDot]; AGroup 3 2 syms_5;
     AGroup 16970 7 syms_34; AGroup 16968 30 syms_37]);
   (331113, 25, [AGroup 5 1 [sym_ppDirective]; AGroup 9 1 [anon_sym_LBRACK];
     AGroup 11 1 [aux_sym_ppUsesBlock_token1]; AGroup 13 1 [sym_kGeneric];
     AGroup 15 1 [sym_kOperator]; AGroup 18756 1 [sym_kClass]; AGroup 18760 1 [sym_kExports];
     AGroup 18762 1 [sym_kLabel]; AGroup 18766 1 [sym_kType]; AGroup 18768 1 [sym_kUses];
     AGroup 19135 1 [sym_kAsm]; AGroup 19137 1 [sym_kBegin]; SGroup 16 1 [sym__ppIf];
     SGroup 5678 1 [sym_blockTr]; SGroup 6432 1 [sym_declProc]; SGroup 8849 1 [sym_asmTr];
     SGroup 10355 1 [sym__declProc]; SGroup 10443 1 [sym__declOperator];
     SGroup 11110 1 [sym_rttiAttributes]; SGroup 11216 1 [aux_sym_rttiAttributes_repeat2];
     AGroup 3 2 syms_5; AGroup 18758 2 syms_65; AGroup 18764 2 syms_66; AGroup 23 4 syms_3;
     SGroup 7035 11 syms_210]);
   (331205, 25, [AGroup 5 1 [sym_ppDirective]; AGroup 9 1 [anon_sym_LBRACK];
     AGroup 11 1 [aux_sym_ppUsesBlock_token1]; AGroup 13 1 [sym_kGeneric];
     AGroup 15 1 [sym_kOperator]; AGroup 18756 1 [sym_kClass]; AGroup 18760 1 [sym_kExports];
     AGroup 18762 1 [sym_kLabel]; AGroup 18766 1 [sym_kType]; AGroup 18768 1 [sym_kUses];
     AGroup 18951 1 [sym_kAsm]; AGroup 18953 1 [sym_kBegin]; SGroup 16 1 [sym__ppIf];
     SGroup 5711 1 [sym_blockTr]; SGroup 6432 1 [sym_declProc]; SGroup 9187 1 [sym_asmTr];
     SGroup 10355 1 [sym__declProc]; SGroup 10443 1 [sym__declOperator];
     SGroup 11110 1 [sym_rttiAttributes]; SGroup 11216 1 [aux_sym_rttiAttributes_repeat2];
     AGroup 3 2 syms_5; AGroup 18758 2 syms_65; AGroup 18764 2 syms_66; AGroup 23 4 syms_3;
     SGroup 6763 11 syms_210]);
   (331297, 25, [AGroup 5 1 [sym_ppDirective]; AGroup 9 1 [anon_sym_LBRACK];
     AGroup 11 1 [aux_sym_ppUsesBlock_token1]; AGroup 13 1 [sym_kGeneric];
     AGroup 15 1 [sym_kOperator]; AGroup 18756 1 [sym_kClass]; AGroup 18760 1 [sym_kExports];
     AGroup 18762 1 [sym_kLabel]; AGroup 18766 1 [sym_kType]; AGroup 18768 1 [sym_kUses];
     AGroup 18905 1 [sym_kAsm]; AGroup 18907 1 [sym_kBegin]; SGroup 16 1 [sym__ppIf];
     SGroup 5553 1 [sym_blockTr]; SGroup 6432 1 [sym_declProc]; SGroup 8832 1 [sym_asmTr];
     SGroup 10355 1 [sym__declProc]; SGroup 10443 1 [sym__declOperator];
     SGroup 11110 1 [sym_rttiAttributes]; SGroup 11216 1 [aux_sym_rttiAttributes_repeat2];
     AGroup 3 2 syms_5; AGroup 18758 2 syms_65; AGroup 18764 2 syms_66; AGroup 23 4 syms_3;
     SGroup 7035 11 syms_210]);
   (331389, 4, [AGroup 5 1 [sym_ppDirective]; AGroup 3 2 syms_5; AGroup 10844 5 syms_150;
     AGroup 10842 33 syms_252]);
   (331439, 25, [AGroup 5 1 [sym_ppDirective]; AGroup 9 1 [anon_sym_LBRACK];
     AGroup 11 1 [aux_sym_ppUsesBlock_token1]; AGroup 13 1 [sym_kGeneric];
     AGroup 15 1 [sym_kOperator]; AGroup 18756 1 [sym_kClass]; AGroup 18760 1 [sym_kExports];
     AGroup 18762 1 [sym_kLabel]; AGroup 18766 1 [sym_kType]; AGroup 18768 1 [sym_kUses];
     AGroup 19135 1 [sym_kAsm]; AGroup 19137 1 [sym_kBegin]; SGroup 16 1 [sym__ppIf];
     SGroup 5582 1 [sym_blockTr]; SGroup 6432 1 [sym_declProc]; SGroup 8895 1 [sym_asmTr];
     SGroup 10355 1 [sym__declProc]; SGroup 10443 1 [sym__declOperator];
     SGroup 11110 1 [sym_rttiAttributes]; SGroup 11216 1 [aux_sym_rttiAttributes_repeat2];
     AGroup 3 2 syms_5; AGroup 18758 2 syms_65; AGroup 18764 2 syms_66; AGroup 23 4 syms_3;
     SGroup 6756 11 syms_210]);
   (331531, 25, [AGroup 5 1 [sym_ppDirective]; AGroup 9 1 [anon_sym_LBRACK];
     AGroup 11 1 [aux_sym_ppUsesBlock_token1]; AGroup 13 1 [sym_kGeneric];
     AGroup 15 1 [sym_kOperator]; AGroup 18756 1 [sym_kClass]; AGroup 18760 1 [sym_kExports];
     AGroup 18762 1 [sym_kLabel]; AGroup 18766 1 [sym_kType]; AGroup 18768 1 [sym_kUses];
     AGroup 19135 1 [sym_kAsm]; AGroup 19137 1 [sym_kBegin]; SGroup 16 1 [sym__ppIf];
     SGroup 5598 1 [sym_blockTr]; SGroup 6432 1 [sym_declProc]; SGroup 8902 1 [sym_asmTr];
     SGroup 10355 1 [sym__declProc]; SGroup 10443 1 [sym__declOperator];
     SGroup 11110 1 [sym_rttiAttributes]; SGroup 11216 1 [aux_sym_rttiAttributes_repeat2];
     AGroup 3 2 syms_5; AGroup 18758 2 syms_65; AGroup 18764 2 syms_66; AGroup 23 4 syms_3;
     SGroup 7035 11 syms_210]);
   (331623, 25, [AGroup 5 1 [sym_ppDirective]; AGroup 9 1 [anon_sym_LBRACK];
     AGroup 11 1 [aux_sym_ppUsesBlock_token1]; AGroup 13 1 [sym_kGeneric];
     AGroup 15 1 [sym_kOperator]; AGroup 18756 1 [sym_kClass]; AGroup 18760 1 [sym_kExports];
     AGroup 18762 1 [sym_kLabel]; AGroup 18766 1 [sym_kType]; AGroup 18768 1 [sym_kUses];
     AGroup 19135 1 [sym_kAsm]; AGroup 19137 1 [sym_kBegin]; SGroup 16 1 [sym__ppIf];
     SGroup 5599 1 [sym_blockTr]; SGroup 6432 1 [sym_declProc]; SGroup 8910 1 [sym_asmTr];
     SGroup 10355 1 [sym__declProc]; SGroup 10443 1 [sym__declOperator];
     SGroup 11110 1 [sym_rttiAttributes]; SGroup 11216 1 [aux_sym_rttiAttributes_repeat2];
     AGroup 3 2 syms_5; AGroup 18758 2 syms_65; AGroup 18764 2 syms_66; AGroup 23 4 syms_3;
     SGroup 7035 11 syms_210]);
   (331715, 25, [AGroup 5 1 [sym_ppDirective]; AGroup 9 1 [anon_sym_LBRACK];
     AGroup 11 1 [aux_sym_ppUsesBlock_token1]; AGroup 13 1 [sym_kGeneric];
     AGroup 15 1 [sym_kOperator]; AGroup 18756 1 [sym_kClass]; AGroup 18760 1 [sym_kExports];
     AGroup 18762 1 [sym_kLabel]; AGroup 18766 1 [sym_kType]; AGroup 18768 1 [sym_kUses];
     AGroup 19135 1 [sym_kAsm]; AGroup 19137 1 [sym_kBegin]; SGroup 16 1 [sym__ppIf];
     SGroup 5634 1 [sym_blockTr]; SGroup 6432 1 [sym_declProc]; SGroup 8911 1 [sym_asmTr];
     SGroup 10355 1 [sym__declProc]; SGroup 10443 1 [sym__declOperator];
     SGroup 11110 1 [sym_rttiAttributes]; SGroup 11216 1 [aux_sym_rttiAttributes_repeat2];
     AGroup 3 2 syms_5; AGroup 18758 2 syms_65; AGroup 18764 2 syms_66; AGroup 23 4 syms_3;
     SGroup 6758 11 syms_210]);
   (331807, 25, [AGroup 5 1 [sym_ppDirective]; AGroup 9 1 [anon_sym_LBRACK];
     AGroup 11 1 [aux_sym_ppUsesBlock_token1]; AGroup 13 1 [sym_kGeneric];
     AGroup 15 1 [sym_kOperator]; AGroup 18756 1 [sym_kClass]; AGroup 18760 1 [sym_kExports];
     AGroup 18762 1 [sym_kLabel]; AGroup 18766 1 [sym_kType]; AGroup 18768 1 [sym_kUses];
     AGroup 19135 1 [sym_kAsm]; AGroup 19137 1 [sym_kBegin]; SGroup 16 1 [sym__ppIf];
     SGroup 5661 1 [sym_blockTr]; SGroup 6432 1 [sym_declProc]; SGroup 8913 1 [sym_asmTr];
     SGroup 10355 1 [sym__declProc]; SGroup 10443 1 [sym__declOperator];
     SGroup 11110 1 [sym_rttiAttributes]; SGroup 11216 1 [aux_sym_rttiAttributes_repeat2];
     AGroup 3 2 syms_5; AGroup 18758 2 syms_65; AGroup 18764 2 syms_66; AGroup 23 4 syms_3;
     SGroup 7035 11 syms_210])
  ].

(** States 6759 to 6858. *)
Definition small_runs_6759 : list small_run :=
  [
   (331899, 25, [AGroup 5 1 [sym_ppDirective]; AGroup 9 1 [anon_sym_LBRACK];
     AGroup 11 1 [aux_sym_ppUsesBlock_token1]; AGroup 13 1 [sym_kGeneric];
     AGroup 15 1 [sym_kOperator]; AGroup 18756 1 [sym_kClass]; AGroup 18760 1 [sym_kExports];
     AGroup 18762 1 [sym_kLabel]; AGroup 18766 1 [sym_kType]; AGroup 18768 1 [sym_kUses];
     AGroup 18960 1 [sym_kAsm]; AGroup 18962 1 [sym_kBegin]; SGroup 16 1 [sym__ppIf];
     SGroup 4421 1 [sym_blockTr]; SGroup 6432 1 [sym_declProc]; SGroup 8212 1 [sym_asmTr];
     SGroup 10355 1 [sym__declProc]; SGroup 10443 1 [sym__declOperator];
     SGroup 11110 1 [sym_rttiAttributes]; SGroup 11216 1 [aux_sym_rttiAttributes_repeat2];
     AGroup 3 2 syms_5; AGroup 18758 2 syms_65; AGroup 18764 2 syms_66; AGroup 23 4 syms_3;
     SGroup 7035 11 syms_210]);
   (331991, 7, [AGroup 5 1 [sym_ppDirective]; AGroup 19594 1 [anon_sym_POUND]; AGroup 3 2 syms_5;
     AGroup 19591 2 syms_6; SGroup 6760 3 syms_13; AGroup 15241 7 syms_34;
     AGroup 15239 25 syms_104]);
   (332047, 25, [AGroup 5 1 [sym_ppDirective]; AGroup 9 1 [anon_sym_LBRACK];
     AGroup 11 1 [aux_sym_ppUsesBlock_token1]; AGroup 13 1 [sym_kGeneric];
     AGroup 15 1 [sym_kOperator]; AGroup 18752 1 [sym_kAsm]; AGroup 18754 1 [sym_kBegin];
     AGroup 18756 1 [sym_kClass]; AGroup 18760 1 [sym_kExports]; AGroup 18762 1 [sym_kLabel];
     AGroup 18766 1 [sym_kType]; AGroup 18768 1 [sym_kUses]; SGroup 16 1 [sym__ppIf];
     SGroup 3959 1 [sym_blockTr]; SGroup 6432 1 [sym_declProc]; SGroup 7827 1 [sym_asmTr];
     SGroup 10355 1 [sym__declProc]; SGroup 10443 1 [sym__declOperator];
     SGroup 11110 1 [sym_rttiAttributes]; SGroup 11216 1 [aux_sym_rttiAttributes_repeat2];
     AGroup 3 2 syms_5; AGroup 18758 2 syms_65; AGroup 18764 2 syms_66; AGroup 23 4 syms_3;
     SGroup 7035 11 syms_210]);
   (332139, 25, [AGroup 5 1 [sym_ppDirective]; AGroup 9 1 [anon_sym_LBRACK];
     AGroup 11 1 [aux_sym_ppUsesBlock_token1]; AGroup 13 1 [sym_kGeneric];
     AGroup 15 1 [sym_kOperator]; AGroup 18756 1 [sym_kClass]; AGroup 18760 1 [sym_kExports];
     AGroup 18762 1 [sym_kLabel]; AGroup 18766 1 [sym_kType]; AGroup 18768 1 [sym_kUses];
     AGroup 19141 1 [sym_kAsm]; AGroup 19143 1 [sym_kBegin]; SGroup 16 1 [sym__ppIf];
     SGroup 4041 1 [sym_blockTr]; SGroup 6432 1 [sym_declProc]; SGroup 8036 1 [sym_asmTr];
     SGroup 10355 1 [sym__declProc]; SGroup 10443 1 [sym__declOperator];
     SGroup 11110 1 [sym_rttiAttributes]; SGroup 11216 1 [aux_sym_rttiAttributes_repeat2];
     AGroup 3 2 syms_5; AGroup 18758 2 syms_65; AGroup 18764 2 syms_66; AGroup 23 4 syms_3;
     SGroup 7035 11 syms_210]);
   (332231, 25, [AGroup 5 1 [sym_ppDirective]; AGroup 9 1 [anon_sym_LBRACK];
     AGroup 11 1 [aux_sym_ppUsesBlock_token1]; AGroup 13 1 [sym_kGeneric];
     AGroup 15 1 [sym_kOperator]; AGroup 18756 1 [sym_kClass]; AGroup 18760 1 [sym_kExports];
     AGroup 18762 1 [sym_kLabel]; AGroup 18766 1 [sym_kType]; AGroup 18768 1 [sym_kUses];
     AGroup 18951 1 [sym_kAsm]; AGroup 18953 1 [sym_kBegin]; SGroup 16 1 [sym__ppIf];
     SGroup 5715 1 [sym_blockTr]; SGroup 6432 1 [sym_declProc]; SGroup 9192 1 [sym_asmTr];
     SGroup 10355 1 [sym__declProc]; SGroup 10443 1 [sym__declOperator];
     SGroup 11110 1 [sym_rttiAttributes]; SGroup 11216 1 [aux_sym_rttiAttributes_repeat2];
     AGroup 3 2 syms_5; AGroup 18758 2 syms_65; AGroup 18764 2 syms_66; AGroup 23 4 syms_3;
     SGroup 7035 11 syms_210]);
   (332323, 4, [AGroup 5 1 [sym_ppDirective]; AGroup 3 2 syms_5; AGroup 10820 5 syms_150;
     AGroup 10818 33 syms_252]);
   (332373, 25, [AGroup 5 1 [sym_ppDirective]; AGroup 9 1 [anon_sym_LBRACK];
     AGroup 11 1 [aux_sym_ppUsesBlock_token1]; AGroup 13 1 [sym_kGeneric];
     AGroup 15 1 [sym_kOperator]; AGroup 18756 1 [sym_kClass]; AGroup 18760 1 [sym_kExports];
     AGroup 18762 1 [sym_kLabel]; AGroup 18766 1 [sym_kType]; AGroup 18768 1 [sym_kUses];
     AGroup 18879 1 [sym_kAsm]; AGroup 18881 1 [sym_kBegin]; SGroup 16 1 [sym__ppIf];
     SGroup 5876 1 [sym_blockTr]; SGroup 6432 1 [sym_declProc]; SGroup 9539 1 [sym_asmTr];
     SGroup 10355 1 [sym__declProc]; SGroup 10443 1 [sym__declOperator];
     SGroup 11110 1 [sym_rttiAttributes]; SGroup 11216 1 [aux_sym_rttiAttributes_repeat2];
     AGroup 3 2 syms_5; AGroup 18758 2 syms_65; AGroup 18764 2 syms_66; AGroup 23 4 syms_3;
     SGroup 7035 11 syms_210]);
   (332465, 25, [AGroup 5 1 [sym_ppDirective]; AGroup 9 1 [anon_sym_LBRACK];
     AGroup 11 1 [aux_sym_ppUsesBlock_token1]; AGroup 13 1 [sym_kGeneric];
     AGroup 15 1 [sym_kOperator]; AGroup 18756 1 [sym_kClass]; AGroup 18760 1 [sym_kExports];
     AGroup 18762 1 [sym_kLabel]; AGroup 18766 1 [sym_kType]; AGroup 18768 1 [sym_kUses];
     AGroup 19141 1 [sym_kAsm]; AGroup 19143 1 [sym_kBegin]; SGroup 16 1 [sym__ppIf];
     SGroup 4043 1 [sym_blockTr]; SGroup 6432 1 [sym_declProc]; SGroup 8085 1 [sym_asmTr];
     SGroup 10355 1 [sym__declProc]; SGroup 10443 1 [sym__declOperator];
     SGroup 11110 1 [sym_rttiAttributes]; SGroup 11216 1 [aux_sym_rttiAttributes_repeat2];
     AGroup 3 2 syms_5; AGroup 18758 2 syms_65; AGroup 18764 2 syms_66; AGroup 23 4 syms_3;
     SGroup 6769 11 syms_210]);
   (332557, 25, [AGroup 5 1 [sym_ppDirective]; AGroup 9 1 [anon_sym_LBRACK];
     AGroup 11 1 [aux_sym_ppUsesBlock_token1]; AGroup 13 1 [sym_kGeneric];
     AGroup 15 1 [sym_kOperator]; AGroup 18756 1 [sym_kClass]; AGroup 18760 1 [sym_kExports];
     AGroup 18762 1 [sym_kLabel]; AGroup 18766 1 [sym_kType]; AGroup 18768 1 [sym_kUses];
     AGroup 19141 1 [sym_kAsm]; AGroup 19143 1 [sym_kBegin]; SGroup 16 1 [sym__ppIf];
     SGroup 4044 1 [sym_blockTr]; SGroup 6432 1 [sym_declProc]; SGroup 8087 1 [sym_asmTr];
     SGroup 10355 1 [sym__declProc]; SGroup 10443 1 [sym__declOperator];
     SGroup 11110 1 [sym_rttiAttributes]; SGroup 11216 1 [aux_sym_rttiAttributes_repeat2];
     AGroup 3 2 syms_5; AGroup 18758 2 syms_65; AGroup 18764 2 syms_66; AGroup 23 4 syms_3;
     SGroup 7035 11 syms_210]);
   (332649, 4, [AGroup 5 1 [sym_ppDirective]; AGroup 3 2 syms_5; AGroup 10742 5 syms_150;
     AGroup 10740 33 syms_252]);
   (332699, 25, [AGroup 5 1 [sym_ppDirective]; AGroup 9 1 [anon_sym_LBRACK];
     AGroup 11 1 [aux_sym_ppUsesBlock_token1]; AGroup 13 1 [sym_kGeneric];
     AGroup 15 1 [sym_kOperator]; AGroup 18756 1 [sym_kClass]; AGroup 18760 1 [sym_kExports];
     AGroup 18762 1 [sym_kLabel]; AGroup 18766 1 [sym_kType]; AGroup 18768 1 [sym_kUses];
     AGroup 19141 1 [sym_kAsm]; AGroup 19143 1 [sym_kBegin]; SGroup 16 1 [sym__ppIf];
     SGroup 4045 1 [sym_blockTr]; SGroup 6432 1 [sym_declProc]; SGroup 8097 1 [sym_asmTr];
     SGroup 10355 1 [sym__declProc]; SGroup 10443 1 [sym__declOperator];
     SGroup 11110 1 [sym_rttiAttributes]; SGroup 11216 1 [aux_sym_rttiAttributes_repeat2];
     AGroup 3 2 syms_5; AGroup 18758 2 syms_65; AGroup 18764 2 syms_66; AGroup 23 4 syms_3;
     SGroup 7035 11 syms_210]);
   (332791, 25, [AGroup 5 1 [sym_ppDirective]; AGroup 9 1 [anon_sym_LBRACK];
     AGroup 11 1 [aux_sym_ppUsesBlock_token1]; AGroup 13 1 [sym_kGeneric];
     AGroup 15 1 [sym_kOperator]; AGroup 18756 1 [sym_kClass]; AGroup 18760 1 [sym_kExports];
     AGroup 18762 1 [sym_kLabel]; AGroup 18766 1 [sym_kType]; AGroup 18768 1 [sym_kUses];
     AGroup 19141 1 [sym_kAsm]; AGroup 19143 1 [sym_kBegin]; SGroup 16 1 [sym__ppIf];
     SGroup 4046 1 [sym_blockTr]; SGroup 6432 1 [sym_declProc]; SGroup 8105 1 [sym_asmTr];
     SGroup 10355 1 [sym__declProc]; SGroup 10443 1 [sym__declOperator];
     SGroup 11110 1 [sym_rttiAttributes]; SGroup 11216 1 [aux_sym_rttiAttributes_repeat2];
     AGroup 3 2 syms_5; AGroup 18758 2 syms_65; AGroup 18764 2 syms_66; AGroup 23 4 syms_3;
     SGroup 6771 11 syms_210]);
   (332883, 25, [AGroup 5 1 [sym_ppDirective]; AGroup 9 1 [anon_sym_LBRACK];
     AGroup 11 1 [aux_sym_ppUsesBlock_token1]; AGroup 13 1 [sym_kGeneric];
     AGroup 15 1 [sym_kOperator]; AGroup 18756 1 [sym_kClass]; AGroup 18760 1 [sym_kExports];
     AGroup 18762 1 [sym_kLabel]; AGroup 18766 1 [sym_kType]; AGroup 18768 1 [sym_kUses];
     AGroup 19141 1 [sym_kAsm]; AGroup 19143 1 [sym_kBegin]; SGroup 16 1 [sym__ppIf];
     SGroup 4047 1 [sym_blockTr]; SGroup 6432 1 [sym_declProc]; SGroup 8109 1 [sym_asmTr];
     SGroup 10355 1 [sym__declProc]; SGroup 10443 1 [sym__declOperator];
     SGroup 11110 1 [sym_rttiAttributes]; SGroup 11216 1 [aux_sym_rttiAttributes_repeat2];
     AGroup 3 2 syms_5; AGroup 18758 2 syms_65; AGroup 18764 2 syms_66; AGroup 23 4 syms_3;
     SGroup 7035 11 syms_210]);
   (332975, 25, [AGroup 5 1 [sym_ppDirective]; AGroup 9 1 [anon_sym_LBRACK];
     AGroup 11 1 [aux_sym_ppUsesBlock_token1]; AGroup 13 1 [sym_kGeneric];
     AGroup 15 1 [sym_kOperator]; AGroup 18756 1 [sym_kClass]; AGroup 18760 1 [sym_kExports];
     AGroup 18762 1 [sym_kLabel]; AGroup 18766 1 [sym_kType]; AGroup 18768 1 [sym_kUses];
     AGroup 18899 1 [sym_kAsm]; AGroup 18901 1 [sym_kBegin]; SGroup 16 1 [sym__ppIf];
     SGroup 4549 1 [sym_blockTr]; SGroup 6432 1 [sym_declProc]; SGroup 8340 1 [sym_asmTr];
     SGroup 10355 1 [sym__declProc]; SGroup 10443 1 [sym__declOperator];
     SGroup 11110 1 [sym_rttiAttributes]; SGroup 11216 1 [aux_sym_rttiAttributes_repeat2];
     AGroup 3 2 syms_5; AGroup 18758 2 syms_65; AGroup 18764 2 syms_66; AGroup 23 4 syms_3;
     SGroup 6917 11 syms_210]);
   (333067, 25, [AGroup 5 1 [sym_ppDirective]; AGroup 9 1 [anon_sym_LBRACK];
     AGroup 11 1 [aux_sym_ppUsesBlock_token1]; AGroup 13 1 [sym_kGeneric];
     AGroup 15 1 [sym_kOperator]; AGroup 18756 1 [sym_kClass]; AGroup 18760 1 [sym_kExports];
     AGroup 18762 1 [sym_kLabel]; AGroup 18766 1 [sym_kType]; AGroup 18768 1 [sym_kUses];
     AGroup 18972 1 [sym_kAsm]; AGroup 18974 1 [sym_kBegin]; SGroup 16 1 [sym__ppIf];
     SGroup 3988 1 [sym_blockTr]; SGroup 6432 1 [sym_declProc]; SGroup 7872 1 [sym_asmTr];
     SGroup 10355 1 [sym__declProc]; SGroup 10443 1 [sym__declOperator];
     SGroup 11110 1 [sym_rttiAttributes]; SGroup 11216 1 [aux_sym_rttiAttributes_repeat2];
     AGroup 3 2 syms_5; AGroup 18758 2 syms_65; AGroup 18764 2 syms_66; AGroup 23 4 syms_3;
     SGroup 7035 11 syms_210]);
   (333159, 25, [AGroup 5 1 [sym_ppDirective]; AGroup 9 1 [anon_sym_LBRACK];
     AGroup 11 1 [aux_sym_ppUsesBlock_token1]; AGroup 13 1 [sym_kGeneric];
     AGroup 15 1 [sym_kOperator]; AGroup 18756 1 [sym_kClass]; AGroup 18760 1 [sym_kExports];
     AGroup 18762 1 [sym_kLabel]; AGroup 18766 1 [sym_kType]; AGroup 18768 1 [sym_kUses];
     AGroup 19147 1 [sym_kAsm]; AGroup 19149 1 [sym_kBegin]; SGroup 16 1 [sym__ppIf];
     SGroup 5550 1 [sym_blockTr]; SGroup 6432 1 [sym_declProc]; SGroup 8940 1 [sym_asmTr];
     SGroup 10355 1 [sym__declProc]; SGroup 10443 1 [sym__declOperator];
     SGroup 11110 1 [sym_rttiAttributes]; SGroup 11216 1 [aux_sym_rttiAttributes_repeat2];
     AGroup 3 2 syms_5; AGroup 18758 2 syms_65; AGroup 18764 2 syms_66; AGroup 23 4 syms_3;
     SGroup 7035 11 syms_210]);
   (333251, 25, [AGroup 5 1 [sym_ppDirective]; AGroup 9 1 [anon_sym_LBRACK];
     AGroup 11 1 [aux_sym_ppUsesBlock_token1]; AGroup 13 1 [sym_kGeneric];
     AGroup 15 1 [sym_kOperator]; AGroup 18752 1 [sym_kAsm]; AGroup 18754 1 [sym_kBegin];
     AGroup 18756 1 [sym_kClass]; AGroup 18760 1 [sym_kExports]; AGroup 18762 1 [sym_kLabel];
     AGroup 18766 1 [sym_kType]; AGroup 18768 1 [sym_kUses]; SGroup 16 1 [sym__ppIf];
     SGroup 3842 1 [sym_blockTr]; SGroup 6432 1 [sym_declProc]; SGroup 7816 1 [sym_asmTr];
     SGroup 10355 1 [sym__declProc]; SGroup 10443 1 [sym__declOperator];
     SGroup 11110 1 [sym_rttiAttributes]; SGroup 11216 1 [aux_sym_rttiAttributes_repeat2];
     AGroup 3 2 syms_5; AGroup 18758 2 syms_65; AGroup 18764 2 syms_66; AGroup 23 4 syms_3;
     SGroup 7035 11 syms_210]);
   (333343, 25, [AGroup 5 1 [sym_ppDirective]; AGroup 9 1 [anon_sym_LBRACK];
     AGroup 11 1 [aux_sym_ppUsesBlock_token1]; AGroup 13 1 [sym_kGeneric];
     AGroup 15 1 [sym_kOperator]; AGroup 18752 1 [sym_kAsm]; AGroup 18754 1 [sym_kBegin];
     AGroup 18756 1 [sym_kClass]; AGroup 18760 1 [sym_kExports]; AGroup 18762 1 [sym_kLabel];
     AGroup 18766 1 [sym_kType]; AGroup 18768 1 [sym_kUses]; SGroup 16 1 [sym__ppIf];
     SGroup 3855 1 [sym_blockTr]; SGroup 6432 1 [sym_declProc]; SGroup 7817 1 [sym_asmTr];
     SGroup 10355 1 [sym__declProc]; SGroup 10443 1 [sym__declOperator];
     SGroup 11110 1 [sym_rttiAttributes]; SGroup 11216 1 [aux_sym_rttiAttributes_repeat2];
     AGroup 3 2 syms_5; AGroup 18758 2 syms_65; AGroup 18764 2 syms_66; AGroup 23 4 syms_3;
     SGroup 6761 11 syms_210]);
   (333435, 25, [AGroup 5 1 [sym_ppDirective]; AGroup 9 1 [anon_sym_LBRACK];
     AGroup 11 1 [aux_sym_ppUsesBlock_token1]; AGroup 13 1 [sym_kGeneric];
     AGroup 15 1 [sym_kOperator]; AGroup 18756 1 [sym_kClass]; AGroup 18760 1 [sym_kExports];
     AGroup 18762 1 [sym_kLabel]; AGroup 18766 1 [sym_kType]; AGroup 18768 1 [sym_kUses];
     AGroup 18978 1 [sym_kAsm]; AGroup 18980 1 [sym_kBegin]; SGroup 16 1 [sym__ppIf];
     SGroup 5592 1 [sym_blockTr]; SGroup 6432 1 [sym_declProc]; SGroup 8753 1 [sym_asmTr];
     SGroup 10355 1 [sym__declProc]; SGroup 10443 1 [sym__declOperator];
     SGroup 11110 1 [sym_rttiAttributes]; SGroup 11216 1 [aux_sym_rttiAttributes_repeat2];
     AGroup 3 2 syms_5; AGroup 18758 2 syms_65; AGroup 18764 2 syms_66; AGroup 23 4 syms_3;
     SGroup 7035 11 syms_210]);
   (333527, 25, [AGroup 5 1 [sym_ppDirective]; AGroup 9 1 [anon_sym_LBRACK];
     AGroup 11 1 [aux_sym_ppUsesBlock_token1]; AGroup 13 1 [sym_kGeneric];
     AGroup 15 1 [sym_kOperator]; AGroup 18756 1 [sym_kClass]; AGroup 18760 1 [sym_kExports];
     AGroup 18762 1 [sym_kLabel]; AGroup 18766 1 [sym_kType]; AGroup 18768 1 [sym_kUses];
     AGroup 18879 1 [sym_kAsm]; AGroup 18881 1 [sym_kBegin]; SGroup 16 1 [sym__ppIf];
     SGroup 5842 1 [sym_blockTr]; SGroup 6432 1 [sym_declProc]; SGroup 9615 1 [sym_asmTr];
     SGroup 10355 1 [sym__declProc]; SGroup 10443 1 [sym__declOperator];
     SGroup 11110 1 [sym_rttiAttributes]; SGroup 11216 1 [aux_sym_rttiAttributes_repeat2];
     AGroup 3 2 syms_5; AGroup 18758 2 syms_65; AGroup 18764 2 syms_66; AGroup 23 4 syms_3;
     SGroup 6638 11 syms_210]);
   (333619, 25, [AGroup 5 1 [sym_ppDirective]; AGroup 9 1 [anon_sym_LBRACK];
     AGroup 11 1 [aux_sym_ppUsesBlock_token1]; AGroup 13 1 [sym_kGeneric];
     AGroup 15 1 [sym_kOperator]; AGroup 18756 1 [sym_kClass]; AGroup 18760 1 [sym_kExports];
     AGroup 18762 1 [sym_kLabel]; AGroup 18766 1 [sym_kType]; AGroup 18768 1 [sym_kUses];
     AGroup 19147 1 [sym_kAsm]; AGroup 19149 1 [sym_kBegin]; SGroup 16 1 [sym__ppIf];
     SGroup 5563 1 [sym_blockTr]; SGroup 6432 1 [sym_declProc]; SGroup 8990 1 [sym_asmTr];
     SGroup 10355 1 [sym__declProc]; SGroup 10443 1 [sym__declOperator];
     SGroup 11110 1 [sym_rttiAttributes]; SGroup 11216 1 [aux_sym_rttiAttributes_repeat2];
     AGroup 3 2 syms_5; AGroup 18758 2 syms_65; AGroup 18764 2 syms_66; AGroup 23 4 syms_3;
     SGroup 7035 11 syms_210]);
   (333711, 25, [AGroup 5 1 [sym_ppDirective]; AGroup 9 1 [anon_sym_LBRACK];
     AGroup 11 1 [aux_sym_ppUsesBlock_token1]; AGroup 13 1 [sym_kGeneric];
     AGroup 15 1 [sym_kOperator]; AGroup 18756 1 [sym_kClass]; AGroup 18760 1 [sym_kExports];
     AGroup 18762 1 [sym_kLabel]; AGroup 18766 1 [sym_kType]; AGroup 18768 1 [sym_kUses];
     AGroup 19047 1 [sym_kAsm]; AGroup 19049 1 [sym_kBegin]; SGroup 16 1 [sym__ppIf];
     SGroup 3453 1 [sym_blockTr]; SGroup 6432 1 [sym_declProc]; SGroup 7448 1 [sym_asmTr];
     SGroup 10355 1 [sym__declProc]; SGroup 10443 1 [sym__declOperator];
     SGroup 11110 1 [sym_rttiAttributes]; SGroup 11216 1 [aux_sym_rttiAttributes_repeat2];
     AGroup 3 2 syms_5; AGroup 18758 2 syms_65; AGroup 18764 2 syms_66; AGroup 23 4 syms_3;
     SGroup 6810 11 syms_210]);
   (333803, 25, [AGroup 5 1 [sym_ppDirective]; AGroup 9 1 [anon_sym_LBRACK];
     AGroup 11 1 [aux_sym_ppUsesBlock_token1]; AGroup 13 1 [sym_kGeneric];
     AGroup 15 1 [sym_kOperator]; AGroup 18756 1 [sym_kClass]; AGroup 18760 1 [sym_kExports];
     AGroup 18762 1 [sym_kLabel]; AGroup 18766 1 [sym_kType]; AGroup 18768 1 [sym_kUses];
     AGroup 19147 1 [sym_kAsm]; AGroup 19149 1 [sym_kBegin]; SGroup 16 1 [sym__ppIf];
     SGroup 5565 1 [sym_blockTr]; SGroup 6432 1 [sym_declProc]; SGroup 9008 1 [sym_asmTr];
     SGroup 10355 1 [sym__declProc]; SGroup 10443 1 [sym__declOperator];
     SGroup 11110 1 [sym_rttiAttributes]; SGroup 11216 1 [aux_sym_rttiAttributes_repeat2];
     AGroup 3 2 syms_5; AGroup 18758 2 syms_65; AGroup 18764 2 syms_66; AGroup 23 4 syms_3;
     SGroup 7035 11 syms_210]);
   (333895, 25, [AGroup 5 1 [sym_ppDirective]; AGroup 9 1 [anon_sym_LBRACK];
     AGroup 11 1 [aux_sym_ppUsesBlock_token1]; AGroup 13 1 [sym_kGeneric];
     AGroup 15 1 [sym_kOperator]; AGroup 18756 1 [sym_kClass]; AGroup 18760 1 [sym_kExports];
     AGroup 18762 1 [sym_kLabel]; AGroup 18766 1 [sym_kType]; AGroup 18768 1 [sym_kUses];
     AGroup 19147 1 [sym_kAsm]; AGroup 19149 1 [sym_kBegin]; SGroup 16 1 [sym__ppIf];
     SGroup 5566 1 [sym_blockTr]; SGroup 6432 1 [sym_declProc]; SGroup 9010 1 [sym_asmTr];
     SGroup 10355 1 [sym__declProc]; SGroup 10443 1 [sym__declOperator];
     SGroup 11110 1 [sym_rttiAttributes]; SGroup 11216 1 [aux_sym_rttiAttributes_repeat2];
     AGroup 3 2 syms_5; AGroup 18758 2 syms_65; AGroup 18764 2 syms_66; AGroup 23 4 syms_3;
     SGroup 6783 11 syms_210]);
   (333987, 25, [AGroup 5 1 [sym_ppDirective]; AGroup 9 1 [anon_sym_LBRACK];
     AGroup 11 1 [aux_sym_ppUsesBlock_token1]; AGroup 13 1 [sym_kGeneric];
     AGroup 15 1 [sym_kOperator]; AGroup 18756 1 [sym_kClass]; AGroup 18760 1 [sym_kExports];
     AGroup 18762 1 [sym_kLabel]; AGroup 18766 1 [sym_kType]; AGroup 18768 1 [sym_kUses];
     AGroup 19147 1 [sym_kAsm]; AGroup 19149 1 [sym_kBegin]; SGroup 16 1 [sym__ppIf];
     SGroup 5567 1 [sym_blockTr]; SGroup 6432 1 [sym_declProc]; SGroup 8973 1 [sym_asmTr];
     SGroup 10355 1 [sym__declProc]; SGroup 10443 1 [sym__declOperator];
     SGroup 11110 1 [sym_rttiAttributes]; SGroup 11216 1 [aux_sym_rttiAttributes_repeat2];
     AGroup 3 2 syms_5; AGroup 18758 2 syms_65; AGroup 18764 2 syms_66; AGroup 23 4 syms_3;
     SGroup 7035 11 syms_210]);
   (334079, 25, [AGroup 5 1 [sym_ppDirective]; AGroup 9 1 [anon_sym_LBRACK];
     AGroup 11 1 [aux_sym_ppUsesBlock_token1]; AGroup 13 1 [sym_kGeneric];
     AGroup 15 1 [sym_kOperator]; AGroup 18756 1 [sym_kClass]; AGroup 18760 1 [sym_kExports];
     AGroup 18762 1 [sym_kLabel]; AGroup 18766 1 [sym_kType]; AGroup 18768 1 [sym_kUses];
     AGroup 19047 1 [sym_kAsm]; AGroup 19049 1 [sym_kBegin]; SGroup 16 1 [sym__ppIf];
     SGroup 3451 1 [sym_blockTr]; SGroup 6432 1 [sym_declProc]; SGroup 7449 1 [sym_asmTr];
     SGroup 10355 1 [sym__declProc]; SGroup 10443 1 [sym__declOperator];
     SGroup 11110 1 [sym_rttiAttributes]; SGroup 11216 1 [aux_sym_rttiAttributes_repeat2];
     AGroup 3 2 syms_5; AGroup 18758 2 syms_65; AGroup 18764 2 syms_66; AGroup 23 4 syms_3;
     SGroup 7035 11 syms_210]);
   (334171, 25, [AGroup 5 1 [sym_ppDirective]; AGroup 9 1 [anon_sym_LBRACK];
     AGroup 11 1 [aux_sym_ppUsesBlock_token1]; AGroup 13 1 [sym_kGeneric];
     AGroup 15 1 [sym_kOperator]; AGroup 18756 1 [sym_kClass]; AGroup 18760 1 [sym_kExports];
     AGroup 18762 1 [sym_kLabel]; AGroup 18766 1 [sym_kType]; AGroup 18768 1 [sym_kUses];
     AGroup 18899 1 [sym_kAsm]; AGroup 18901 1 [sym_kBegin]; SGroup 16 1 [sym__ppIf];
     SGroup 4550 1 [sym_blockTr]; SGroup 6432 1 [sym_declProc]; SGroup 8341 1 [sym_asmTr];
     SGroup 10355 1 [sym__declProc]; SGroup 10443 1 [sym__declOperator];
     SGroup 11110 1 [sym_rttiAttributes]; SGroup 11216 1 [aux_sym_rttiAttributes_repeat2];
     AGroup 3 2 syms_5; AGroup 18758 2 syms_65; AGroup 18764 2 syms_66; AGroup 23 4 syms_3;
     SGroup 7035 11 syms_210]);
   (334263, 25, [AGroup 5 1 [sym_ppDirective]; AGroup 9 1 [anon_sym_LBRACK];
     AGroup 11 1 [aux_sym_ppUsesBlock_token1]; AGroup 13 1 [sym_kGeneric];
     AGroup 15 1 [sym_kOperator]; AGroup 18756 1 [sym_kClass]; AGroup 18760 1 [sym_kExports];
     AGroup 18762 1 [sym_kLabel]; AGroup 18766 1 [sym_kType]; AGroup 18768 1 [sym_kUses];
     AGroup 19153 1 [sym_kAsm]; AGroup 19155 1 [sym_kBegin]; SGroup 16 1 [sym__ppIf];
     SGroup 4945 1 [sym_blockTr]; SGroup 6432 1 [sym_declProc]; SGroup 8525 1 [sym_asmTr];
     SGroup 10355 1 [sym__declProc]; SGroup 10443 1 [sym__declOperator];
     SGroup 11110 1 [sym_rttiAttributes]; SGroup 11216 1 [aux_sym_rttiAttributes_repeat2];
     AGroup 3 2 syms_5; AGroup 18758 2 syms_65; AGroup 18764 2 syms_66; AGroup 23 4 syms_3;
     SGroup 7035 11 syms_210]);
   (334355, 25, [AGroup 5 1 [sym_ppDirective]; AGroup 9 1 [anon_sym_LBRACK];
     AGroup 11 1 [aux_sym_ppUsesBlock_token1]; AGroup 13 1 [sym_kGeneric];
     AGroup 15 1 [sym_kOperator]; AGroup 18756 1 [sym_kClass]; AGroup 18760 1 [sym_kExports];
     AGroup 18762 1 [sym_kLabel]; AGroup 18766 1 [sym_kType]; AGroup 18768 1 [sym_kUses];
     AGroup 18905 1 [sym_kAsm]; AGroup 18907 1 [sym_kBegin]; SGroup 16 1 [sym__ppIf];
     SGroup 5541 1 [sym_blockTr]; SGroup 6432 1 [sym_declProc]; SGroup 9011 1 [sym_asmTr];
     SGroup 10355 1 [sym__declProc]; SGroup 10443 1 [sym__declOperator];
     SGroup 11110 1 [sym_rttiAttributes]; SGroup 11216 1 [aux_sym_rttiAttributes_repeat2];
     AGroup 3 2 syms_5; AGroup 18758 2 syms_65; AGroup 18764 2 syms_66; AGroup 23 4 syms_3;
     SGroup 6654 11 syms_210]);
   (334447, 4, [AGroup 5 1 [sym_ppDirective]; AGroup 3 2 syms_5; AGroup 10752 5 syms_150;
     AGroup 10750 33 syms_252]);
   (334497, 25, [AGroup 5 1 [sym_ppDirective]; AGroup 9 1 [anon_sym_LBRACK];
     AGroup 11 1 [aux_sym_ppUsesBlock_token1]; AGroup 13 1 [sym_kGeneric];
     AGroup 15 1 [sym_kOperator]; AGroup 18756 1 [sym_kClass]; AGroup 18760 1 [sym_kExports];
     AGroup 18762 1 [sym_kLabel]; AGroup 18766 1 [sym_kType]; AGroup 18768 1 [sym_kUses];
     AGroup 19153 1 [sym_kAsm]; AGroup 19155 1 [sym_kBegin]; SGroup 16 1 [sym__ppIf];
     SGroup 4970 1 [sym_blockTr]; SGroup 6432 1 [sym_declProc]; SGroup 8545 1 [sym_asmTr];
     SGroup 10355 1 [sym__declProc]; SGroup 10443 1 [sym__declOperator];
     SGroup 11110 1 [sym_rttiAttributes]; SGroup 11216 1 [aux_sym_rttiAttributes_repeat2];
     AGroup 3 2 syms_5; AGroup 18758 2 syms_65; AGroup 18764 2 syms_66; AGroup 23 4 syms_3;
     SGroup 6792 11 syms_210]);
   (334589, 25, [AGroup 5 1 [sym_ppDirective]; AGroup 9 1 [anon_sym_LBRACK];
     AGroup 11 1 [aux_sym_ppUsesBlock_token1]; AGroup 13 1 [sym_kGeneric];
     AGroup 15 1 [sym_kOperator]; AGroup 18756 1 [sym_kClass]; AGroup 18760 1 [sym_kExports];
     AGroup 18762 1 [sym_kLabel]; AGroup 18766 1 [sym_kType]; AGroup 18768 1 [sym_kUses];
     AGroup 19153 1 [sym_kAsm]; AGroup 19155 1 [sym_kBegin]; SGroup 16 1 [sym__ppIf];
     SGroup 4973 1 [sym_blockTr]; SGroup 6432 1 [sym_declProc]; SGroup 8546 1 [sym_asmTr];
     SGroup 10355 1 [sym__declProc]; SGroup 10443 1 [sym__declOperator];
     SGroup 11110 1 [sym_rttiAttributes]; SGroup 11216 1 [aux_sym_rttiAttributes_repeat2];
     AGroup 3 2 syms_5; AGroup 18758 2 syms_65; AGroup 18764 2 syms_66; AGroup 23 4 syms_3;
     SGroup 7035 11 syms_210]);
   (334681, 4, [AGroup 5 1 [sym_ppDirective]; AGroup 3 2 syms_5; AGroup 10762 5 syms_150;
     AGroup 10760 33 syms_252]);
   (334731, 25, [AGroup 5 1 [sym_ppDirective]; AGroup 9 1 [anon_sym_LBRACK];
     AGroup 11 1 [aux_sym_ppUsesBlock_token1]; AGroup 13 1 [sym_kGeneric];
     AGroup 15 1 [sym_kOperator]; AGroup 18756 1 [sym_kClass]; AGroup 18760 1 [sym_kExports];
     AGroup 18762 1 [sym_kLabel]; AGroup 18766 1 [sym_kType]; AGroup 18768 1 [sym_kUses];
     AGroup 19153 1 [sym_kAsm]; AGroup 19155 1 [sym_kBegin]; SGroup 16 1 [sym__ppIf];
     SGroup 4977 1 [sym_blockTr]; SGroup 6432 1 [sym_declProc]; SGroup 8563 1 [sym_asmTr];
     SGroup 10355 1 [sym__declProc]; SGroup 10443 1 [sym__declOperator];
     SGroup 11110 1 [sym_rttiAttributes]; SGroup 11216 1 [aux_sym_rttiAttributes_repeat2];
     AGroup 3 2 syms_5; AGroup 18758 2 syms_65; AGroup 18764 2 syms_66; AGroup 23 4 syms_3;
     SGroup 7035 11 syms_210]);
   (334823, 25, [AGroup 5 1 [sym_ppDirective]; AGroup 9 1 [anon_sym_LBRACK];
     AGroup 11 1 [aux_sym_ppUsesBlock_token1]; AGroup 13 1 [sym_kGeneric];
     AGroup 15 1 [sym_kOperator]; AGroup 18756 1 [sym_kClass]; AGroup 18760 1 [sym_kExports];
     AGroup 18762 1 [sym_kLabel]; AGroup 18766 1 [sym_kType]; AGroup 18768 1 [sym_kUses];
     AGroup 19153 1 [sym_kAsm]; AGroup 19155 1 [sym_kBegin]; SGroup 16 1 [sym__ppIf];
     SGroup 4980 1 [sym_blockTr]; SGroup 6432 1 [sym_declProc]; SGroup 8565 1 [sym_asmTr];
     SGroup 10355 1 [sym__declProc]; SGroup 10443 1 [sym__declOperator];
     SGroup 11110 1 [sym_rttiAttributes]; SGroup 11216 1 [aux_sym_rttiAttributes_repeat2];
     AGroup 3 2 syms_5; AGroup 18758 2 syms_65; AGroup 18764 2 syms_66; AGroup 23 4 syms_3;
     SGroup 6794 11 syms_210]);
   (334915, 25, [AGroup 5 1 [sym_ppDirective]; AGroup 9 1 [anon_sym_LBRACK];
     AGroup 11 1 [aux_sym_ppUsesBlock_token1]; AGroup 13 1 [sym_kGeneric];
     AGroup 15 1 [sym_kOperator]; AGroup 18756 1 [sym_kClass]; AGroup 18760 1 [sym_kExports];
     AGroup 18762 1 [sym_kLabel]; AGroup 18766 1 [sym_kType]; AGroup 18768 1 [sym_kUses];
     AGroup 19153 1 [sym_kAsm]; AGroup 19155 1 [sym_kBegin]; SGroup 16 1 [sym__ppIf];
     SGroup 4998 1 [sym_blockTr]; SGroup 6432 1 [sym_declProc]; SGroup 8568 1 [sym_asmTr];
     SGroup 10355 1 [sym__declProc]; SGroup 10443 1 [sym__declOperator];
     SGroup 11110 1 [sym_rttiAttributes]; SGroup 11216 1 [aux_sym_rttiAttributes_repeat2];
     AGroup 3 2 syms_5; AGroup 18758 2 syms_65; AGroup 18764 2 syms_66; AGroup 23 4 syms_3;
     SGroup 7035 11 syms_210]);
   (335007, 25, [AGroup 5 1 [sym_ppDirective]; AGroup 9 1 [anon_sym_LBRACK];
     AGroup 11 1 [aux_sym_ppUsesBlock_token1]; AGroup 13 1 [sym_kGeneric];
     AGroup 15 1 [sym_kOperator]; AGroup 18756 1 [sym_kClass]; AGroup 18760 1 [sym_kExports];
     AGroup 18762 1 [sym_kLabel]; AGroup 18766 1 [sym_kType]; AGroup 18768 1 [sym_kUses];
     AGroup 18978 1 [sym_kAsm]; AGroup 18980 1 [sym_kBegin]; SGroup 16 1 [sym__ppIf];
     SGroup 5593 1 [sym_blockTr]; SGroup 6432 1 [sym_declProc]; SGroup 8754 1 [sym_asmTr];
     SGroup 10355 1 [sym__declProc]; SGroup 10443 1 [sym__declOperator];
     SGroup 11110 1 [sym_rttiAttributes]; SGroup 11216 1 [aux_sym_rttiAttributes_repeat2];
     AGroup 3 2 syms_5; AGroup 18758 2 syms_65; AGroup 18764 2 syms_66; AGroup 23 4 syms_3;
     SGroup 6894 11 syms_210]);
   (335099, 25, [AGroup 5 1 [sym_ppDirective]; AGroup 9 1 [anon_sym_LBRACK];
     AGroup 11 1 [aux_sym_ppUsesBlock_token1]; AGroup 13 1 [sym_kGeneric];
     AGroup 15 1 [sym_kOperator]; AGroup 18756 1 [sym_kClass]; AGroup 18760 1 [sym_kExports];
     AGroup 18762 1 [sym_kLabel]; AGroup 18766 1 [sym_kType]; AGroup 18768 1 [sym_kUses];
     AGroup 18885 1 [sym_kAsm]; AGroup 18887 1 [sym_kBegin]; SGroup 16 1 [sym__ppIf];
     SGroup 5347 1 [sym_blockTr]; SGroup 6432 1 [sym_declProc]; SGroup 8417 1 [sym_asmTr];
     SGroup 10355 1 [sym__declProc]; SGroup 10443 1 [sym__declOperator];
     SGroup 11110 1 [sym_rttiAttributes]; SGroup 11216 1 [aux_sym_rttiAttributes_repeat2];
     AGroup 3 2 syms_5; AGroup 18758 2 syms_65; AGroup 18764 2 syms_66; AGroup 23 4 syms_3;
     SGroup 7035 11 syms_210]);
   (335191, 25, [AGroup 5 1 [sym_ppDirective]; AGroup 9 1 [anon_sym_LBRACK];
     AGroup 11 1 [aux_sym_ppUsesBlock_token1]; AGroup 13 1 [sym_kGeneric];
     AGroup 15 1 [sym_kOperator]; AGroup 18756 1 [sym_kClass]; AGroup 18760 1 [sym_kExports];
     AGroup 18762 1 [sym_kLabel]; AGroup 18766 1 [sym_kType]; AGroup 18768 1 [sym_kUses];
     AGroup 19159 1 [sym_kAsm]; AGroup 19161 1 [sym_kBegin]; SGroup 16 1 [sym__ppIf];
     SGroup 4051 1 [sym_blockTr]; SGroup 6432 1 [sym_declProc]; SGroup 7950 1 [sym_asmTr];
     SGroup 10355 1 [sym__declProc]; SGroup 10443 1 [sym__declOperator];
     SGroup 11110 1 [sym_rttiAttributes]; SGroup 11216 1 [aux_sym_rttiAttributes_repeat2];
     AGroup 3 2 syms_5; AGroup 18758 2 syms_65; AGroup 18764 2 syms_66; AGroup 23 4 syms_3;
     SGroup 7035 11 syms_210]);
   (335283, 4, [AGroup 5 1 [sym_ppDirective]; AGroup 3 2 syms_5; AGroup 18782 5 syms_150;
     AGroup 18780 33 syms_252]);
   (335333, 4, [AGroup 5 1 [sym_ppDirective]; AGroup 3 2 syms_5; AGroup 10776 5 syms_150;
     AGroup 10774 33 syms_252]);
   (335383, 25, [AGroup 5 1 [sym_ppDirective]; AGroup 9 1 [anon_sym_LBRACK];
     AGroup 11 1 [aux_sym_ppUsesBlock_token1]; AGroup 13 1 [sym_kGeneric];
     AGroup 15 1 [sym_kOperator]; AGroup 18756 1 [sym_kClass]; AGroup 18760 1 [sym_kExports];
     AGroup 18762 1 [sym_kLabel]; AGroup 18766 1 [sym_kType]; AGroup 18768 1 [sym_kUses];
     AGroup 19159 1 [sym_kAsm]; AGroup 19161 1 [sym_kBegin]; SGroup 16 1 [sym__ppIf];
     SGroup 4053 1 [sym_blockTr]; SGroup 6432 1 [sym_declProc]; SGroup 8120 1 [sym_asmTr];
     SGroup 10355 1 [sym__declProc]; SGroup 10443 1 [sym__declOperator];
     SGroup 11110 1 [sym_rttiAttributes]; SGroup 11216 1 [aux_sym_rttiAttributes_repeat2];
     AGroup 3 2 syms_5; AGroup 18758 2 syms_65; AGroup 18764 2 syms_66; AGroup 23 4 syms_3;
     SGroup 6802 11 syms_210]);
   (335475, 25, [AGroup 5 1 [sym_ppDirective]; AGroup 9 1 [anon_sym_LBRACK];
     AGroup 11 1 [aux_sym_ppUsesBlock_token1]; AGroup 13 1 [sym_kGeneric];
     AGroup 15 1 [sym_kOperator]; AGroup 18756 1 [sym_kClass]; AGroup 18760 1 [sym_kExports];
     AGroup 18762 1 [sym_kLabel]; AGroup 18766 1 [sym_kType]; AGroup 18768 1 [sym_kUses];
     AGroup 19159 1 [sym_kAsm]; AGroup 19161 1 [sym_kBegin]; SGroup 16 1 [sym__ppIf];
     SGroup 4054 1 [sym_blockTr]; SGroup 6432 1 [sym_declProc]; SGroup 8124 1 [sym_asmTr];
     SGroup 10355 1 [sym__declProc]; SGroup 10443 1 [sym__declOperator];
     SGroup 11110 1 [sym_rttiAttributes]; SGroup 11216 1 [aux_sym_rttiAttributes_repeat2];
     AGroup 3 2 syms_5; AGroup 18758 2 syms_65; AGroup 18764 2 syms_66; AGroup 23 4 syms_3;
     SGroup 7035 11 syms_210]);
   (335567, 25, [AGroup 5 1 [sym_ppDirective]; AGroup 9 1 [anon_sym_LBRACK];
     AGroup 11 1 [aux_sym_ppUsesBlock_token1]; AGroup 13 1 [sym_kGeneric];
     AGroup 15 1 [sym_kOperator]; AGroup 18756 1 [sym_kClass]; AGroup 18760 1 [sym_kExports];
     AGroup 18762 1 [sym_kLabel]; AGroup 18766 1 [sym_kType]; AGroup 18768 1 [sym_kUses];
     AGroup 19159 1 [sym_kAsm]; AGroup 19161 1 [sym_kBegin]; SGroup 16 1 [sym__ppIf];
     SGroup 4055 1 [sym_blockTr]; SGroup 6432 1 [sym_declProc]; SGroup 8143 1 [sym_asmTr];
     SGroup 10355 1 [sym__declProc]; SGroup 10443 1 [sym__declOperator];
     SGroup 11110 1 [sym_rttiAttributes]; SGroup 11216 1 [aux_sym_rttiAttributes_repeat2];
     AGroup 3 2 syms_5; AGroup 18758 2 syms_65; AGroup 18764 2 syms_66; AGroup 23 4 syms_3;
     SGroup 7035 11 syms_210]);
   (335659, 25, [AGroup 5 1 [sym_ppDirective]; AGroup 9 1 [anon_sym_LBRACK];
     AGroup 11 1 [aux_sym_ppUsesBlock_token1]; AGroup 13 1 [sym_kGeneric];
     AGroup 15 1 [sym_kOperator]; AGroup 18756 1 [sym_kClass]; AGroup 18760 1 [sym_kExports];
     AGroup 18762 1 [sym_kLabel]; AGroup 18766 1 [sym_kType]; AGroup 18768 1 [sym_kUses];
     AGroup 19159 1 [sym_kAsm]; AGroup 19161 1 [sym_kBegin]; SGroup 16 1 [sym__ppIf];
     SGroup 4056 1 [sym_blockTr]; SGroup 6432 1 [sym_declProc]; SGroup 8146 1 [sym_asmTr];
     SGroup 10355 1 [sym__declProc]; SGroup 10443 1 [sym__declOperator];
     SGroup 11110 1 [sym_rttiAttributes]; SGroup 11216 1 [aux_sym_rttiAttributes_repeat2];
     AGroup 3 2 syms_5; AGroup 18758 2 syms_65; AGroup 18764 2 syms_66; AGroup 23 4 syms_3;
     SGroup 6804 11 syms_210]);
   (335751, 25, [AGroup 5 1 [sym_ppDirective]; AGroup 9 1 [anon_sym_LBRACK];
     AGroup 11 1 [aux_sym_ppUsesBlock_token1]; AGroup 13 1 [sym_kGeneric];
     AGroup 15 1 [sym_kOperator]; AGroup 18756 1 [sym_kClass]; AGroup 18760 1 [sym_kExports];
     AGroup 18762 1 [sym_kLabel]; AGroup 18766 1 [sym_kType]; AGroup 18768 1 [sym_kUses];
     AGroup 19159 1 [sym_kAsm]; AGroup 19161 1 [sym_kBegin]; SGroup 16 1 [sym__ppIf];
     SGroup 4057 1 [sym_blockTr]; SGroup 6432 1 [sym_declProc]; SGroup 8154 1 [sym_asmTr];
     SGroup 10355 1 [sym__declProc]; SGroup 10443 1 [sym__declOperator];
     SGroup 11110 1 [sym_rttiAttributes]; SGroup 11216 1 [aux_sym_rttiAttributes_repeat2];
     AGroup 3 2 syms_5; AGroup 18758 2 syms_65; AGroup 18764 2 syms_66; AGroup 23 4 syms_3;
     SGroup 7035 11 syms_210]);
   (335843, 4, [AGroup 5 1 [sym_ppDirective]; AGroup 3 2 syms_5; AGroup 10780 5 syms_150;
     AGroup 10778 33 syms_252]);
   (335893, 25, [AGroup 5 1 [sym_ppDirective]; AGroup 9 1 [anon_sym_LBRACK];
     AGroup 11 1 [aux_sym_ppUsesBlock_token1]; AGroup 13 1 [sym_kGeneric];
     AGroup 15 1 [sym_kOperator]; AGroup 18756 1 [sym_kClass]; AGroup 18760 1 [sym_kExports];
     AGroup 18762 1 [sym_kLabel]; AGroup 18766 1 [sym_kType]; AGroup 18768 1 [sym_kUses];
     AGroup 18966 1 [sym_kAsm]; AGroup 18968 1 [sym_kBegin]; SGroup 16 1 [sym__ppIf];
     SGroup 3597 1 [sym_blockTr]; SGroup 6432 1 [sym_declProc]; SGroup 7634 1 [sym_asmTr];
     SGroup 10355 1 [sym__declProc]; SGroup 10443 1 [sym__declOperator];
     SGroup 11110 1 [sym_rttiAttributes]; SGroup 11216 1 [aux_sym_rttiAttributes_repeat2];
     AGroup 3 2 syms_5; AGroup 18758 2 syms_65; AGroup 18764 2 syms_66; AGroup 23 4 syms_3;
     SGroup 7035 11 syms_210]);
   (335985, 4, [AGroup 5 1 [sym_ppDirective]; AGroup 3 2 syms_5; AGroup 10786 5 syms_150;
     AGroup 10784 33 syms_252]);
   (336035, 25, [AGroup 5 1 [sym_ppDirective]; AGroup 9 1 [anon_sym_LBRACK];
     AGroup 11 1 [aux_sym_ppUsesBlock_token1]; AGroup 13 1 [sym_kGeneric];
     AGroup 15 1 [sym_kOperator]; AGroup 18756 1 [sym_kClass]; AGroup 18760 1 [sym_kExports];
     AGroup 18762 1 [sym_kLabel]; AGroup 18766 1 [sym_kType]; AGroup 18768 1 [sym_kUses];
     AGroup 19165 1 [sym_kAsm]; AGroup 19167 1 [sym_kBegin]; SGroup 16 1 [sym__ppIf];
     SGroup 2922 1 [sym_blockTr]; SGroup 3648 1 [sym_asmTr]; SGroup 6432 1 [sym_declProc];
     SGroup 10355 1 [sym__declProc]; SGroup 10443 1 [sym__declOperator];
     SGroup 11110 1 [sym_rttiAttributes]; SGroup 11216 1 [aux_sym_rttiAttributes_repeat2];
     AGroup 3 2 syms_5; AGroup 18758 2 syms_65; AGroup 18764 2 syms_66; AGroup 23 4 syms_3;
     SGroup 7035 11 syms_210]);
   (336127, 25, [AGroup 5 1 [sym_ppDirective]; AGroup 9 1 [anon_sym_LBRACK];
     AGroup 11 1 [aux_sym_ppUsesBlock_token1]; AGroup 13 1 [sym_kGeneric];
     AGroup 15 1 [sym_kOperator]; AGroup 18756 1 [sym_kClass]; AGroup 18760 1 [sym_kExports];
     AGroup 18762 1 [sym_kLabel]; AGroup 18766 1 [sym_kType]; AGroup 18768 1 [sym_kUses];
     AGroup 18905 1 [sym_kAsm]; AGroup 18907 1 [sym_kBegin]; SGroup 16 1 [sym__ppIf];
     SGroup 5542 1 [sym_blockTr]; SGroup 6432 1 [sym_declProc]; SGroup 9012 1 [sym_asmTr];
     SGroup 10355 1 [sym__declProc]; SGroup 10443 1 [sym__declOperator];
     SGroup 11110 1 [sym_rttiAttributes]; SGroup 11216 1 [aux_sym_rttiAttributes_repeat2];
     AGroup 3 2 syms_5; AGroup 18758 2 syms_65; AGroup 18764 2 syms_66; AGroup 23 4 syms_3;
     SGroup 7035 11 syms_210]);
   (336219, 25, [AGroup 5 1 [sym_ppDirective]; AGroup 9 1 [anon_sym_LBRACK];
     AGroup 11 1 [aux_sym_ppUsesBlock_token1]; AGroup 13 1 [sym_kGeneric];
     AGroup 15 1 [sym_kOperator]; AGroup 18756 1 [sym_kClass]; AGroup 18760 1 [sym_kExports];
     AGroup 18762 1 [sym_kLabel]; AGroup 18766 1 [sym_kType]; AGroup 18768 1 [sym_kUses];
     AGroup 19047 1 [sym_kAsm]; AGroup 19049 1 [sym_kBegin]; SGroup 16 1 [sym__ppIf];
     SGroup 3409 1 [sym_blockTr]; SGroup 6432 1 [sym_declProc]; SGroup 7457 1 [sym_asmTr];
     SGroup 10355 1 [sym__declProc]; SGroup 10443 1 [sym__declOperator];
     SGroup 11110 1 [sym_rttiAttributes]; SGroup 11216 1 [aux_sym_rttiAttributes_repeat2];
     AGroup 3 2 syms_5; AGroup 18758 2 syms_65; AGroup 18764 2 syms_66; AGroup 23 4 syms_3;
     SGroup 7035 11 syms_210]);
   (336311, 25, [AGroup 5 1 [sym_ppDirective]; AGroup 9 1 [anon_sym_LBRACK];
     AGroup 11 1 [aux_sym_ppUsesBlock_token1]; AGroup 13 1 [sym_kGeneric];
     AGroup 15 1 [sym_kOperator]; AGroup 18756 1 [sym_kClass]; AGroup 18760 1 [sym_kExports];
     AGroup 18762 1 [sym_kLabel]; AGroup 18766 1 [sym_kType]; AGroup 18768 1 [sym_kUses];
     AGroup 19165 1 [sym_kAsm]; AGroup 19167 1 [sym_kBegin]; SGroup 16 1 [sym__ppIf];
     SGroup 2894 1 [sym_blockTr]; SGroup 3758 1 [sym_asmTr]; SGroup 6432 1 [sym_declProc];
     SGroup 10355 1 [sym__declProc]; SGroup 10443 1 [sym__declOperator];
     SGroup 11110 1 [sym_rttiAttributes]; SGroup 11216 1 [aux_sym_rttiAttributes_repeat2];
     AGroup 3 2 syms_5; AGroup 18758 2 syms_65; AGroup 18764 2 syms_66; AGroup 23 4 syms_3;
     SGroup 6814 11 syms_210]);
   (336403, 25, [AGroup 5 1 [sym_ppDirective]; AGroup 9 1 [anon_sym_LBRACK];
     AGroup 11 1 [aux_sym_ppUsesBlock_token1]; AGroup 13 1 [sym_kGeneric];
     AGroup 15 1 [sym_kOperator]; AGroup 18756 1 [sym_kClass]; AGroup 18760 1 [sym_kExports];
     AGroup 18762 1 [sym_kLabel]; AGroup 18766 1 [sym_kType]; AGroup 18768 1 [sym_kUses];
     AGroup 19165 1 [sym_kAsm]; AGroup 19167 1 [sym_kBegin]; SGroup 16 1 [sym__ppIf];
     SGroup 2897 1 [sym_blockTr]; SGroup 3478 1 [sym_asmTr]; SGroup 6432 1 [sym_declProc];
     SGroup 10355 1 [sym__declProc]; SGroup 10443 1 [sym__declOperator];
     SGroup 11110 1 [sym_rttiAttributes]; SGroup 11216 1 [aux_sym_rttiAttributes_repeat2];
     AGroup 3 2 syms_5; AGroup 18758 2 syms_65; AGroup 18764 2 syms_66; AGroup 23 4 syms_3;
     SGroup 7035 11 syms_210]);
   (336495, 25, [AGroup 5 1 [sym_ppDirective]; AGroup 9 1 [anon_sym_LBRACK];
     AGroup 11 1 [aux_sym_ppUsesBlock_token1]; AGroup 13 1 [sym_kGeneric];
     AGroup 15 1 [sym_kOperator]; AGroup 18756 1 [sym_kClass]; AGroup 18760 1 [sym_kExports];
     AGroup 18762 1 [sym_kLabel]; AGroup 18766 1 [sym_kType]; AGroup 18768 1 [sym_kUses];
     AGroup 19047 1 [sym_kAsm]; AGroup 19049 1 [sym_kBegin]; SGroup 16 1 [sym__ppIf];
     SGroup 3415 1 [sym_blockTr]; SGroup 6432 1 [sym_declProc]; SGroup 7458 1 [sym_asmTr];
     SGroup 10355 1 [sym__declProc]; SGroup 10443 1 [sym__declOperator];
     SGroup 11110 1 [sym_rttiAttributes]; SGroup 11216 1 [aux_sym_rttiAttributes_repeat2];
     AGroup 3 2 syms_5; AGroup 18758 2 syms_65; AGroup 18764 2 syms_66; AGroup 23 4 syms_3;
     SGroup 6832 11 syms_210]);
   (336587, 25, [AGroup 5 1 [sym_ppDirective]; AGroup 9 1 [anon_sym_LBRACK];
     AGroup 11 1 [aux_sym_ppUsesBlock_token1]; AGroup 13 1 [sym_kGeneric];
     AGroup 15 1 [sym_kOperator]; AGroup 18756 1 [sym_kClass]; AGroup 18760 1 [sym_kExports];
     AGroup 18762 1 [sym_kLabel]; AGroup 18766 1 [sym_kType]; AGroup 18768 1 [sym_kUses];
     AGroup 19165 1 [sym_kAsm]; AGroup 19167 1 [sym_kBegin]; SGroup 16 1 [sym__ppIf];
     SGroup 2902 1 [sym_blockTr]; SGroup 3500 1 [sym_asmTr]; SGroup 6432 1 [sym_declProc];
     SGroup 10355 1 [sym__declProc]; SGroup 10443 1 [sym__declOperator];
     SGroup 11110 1 [sym_rttiAttributes]; SGroup 11216 1 [aux_sym_rttiAttributes_repeat2];
     AGroup 3 2 syms_5; AGroup 18758 2 syms_65; AGroup 18764 2 syms_66; AGroup 23 4 syms_3;
     SGroup 7035 11 syms_210]);
   (336679, 25, [AGroup 5 1 [sym_ppDirective]; AGroup 9 1 [anon_sym_LBRACK];
     AGroup 11 1 [aux_sym_ppUsesBlock_token1]; AGroup 13 1 [sym_kGeneric];
     AGroup 15 1 [sym_kOperator]; AGroup 18756 1 [sym_kClass]; AGroup 18760 1 [sym_kExports];
     AGroup 18762 1 [sym_kLabel]; AGroup 18766 1 [sym_kType]; AGroup 18768 1 [sym_kUses];
     AGroup 19165 1 [sym_kAsm]; AGroup 19167 1 [sym_kBegin]; SGroup 16 1 [sym__ppIf];
     SGroup 2903 1 [sym_blockTr]; SGroup 3509 1 [sym_asmTr]; SGroup 6432 1 [sym_declProc];
     SGroup 10355 1 [sym__declProc]; SGroup 10443 1 [sym__declOperator];
     SGroup 11110 1 [sym_rttiAttributes]; SGroup 11216 1 [aux_sym_rttiAttributes_repeat2];
     AGroup 3 2 syms_5; AGroup 18758 2 syms_65; AGroup 18764 2 syms_66; AGroup 23 4 syms_3;
     SGroup 6816 11 syms_210]);
   (336771, 25, [AGroup 5 1 [sym_ppDirective]; AGroup 9 1 [anon_sym_LBRACK];
     AGroup 11 1 [aux_sym_ppUsesBlock_token1]; AGroup 13 1 [sym_kGeneric];
     AGroup 15 1 [sym_kOperator]; AGroup 18756 1 [sym_kClass]; AGroup 18760 1 [sym_kExports];
     AGroup 18762 1 [sym_kLabel]; AGroup 18766 1 [sym_kType]; AGroup 18768 1 [sym_kUses];
     AGroup 19165 1 [sym_kAsm]; AGroup 19167 1 [sym_kBegin]; SGroup 16 1 [sym__ppIf];
     SGroup 2904 1 [sym_blockTr]; SGroup 3519 1 [sym_asmTr]; SGroup 6432 1 [sym_declProc];
     SGroup 10355 1 [sym__declProc]; SGroup 10443 1 [sym__declOperator];
     SGroup 11110 1 [sym_rttiAttributes]; SGroup 11216 1 [aux_sym_rttiAttributes_repeat2];
     AGroup 3 2 syms_5; AGroup 18758 2 syms_65; AGroup 18764 2 syms_66; AGroup 23 4 syms_3;
     SGroup 7035 11 syms_210]);
   (336863, 25, [AGroup 5 1 [sym_ppDirective]; AGroup 9 1 [anon_sym_LBRACK];
     AGroup 11 1 [aux_sym_ppUsesBlock_token1]; AGroup 13 1 [sym_kGeneric];
     AGroup 15 1 [sym_kOperator]; AGroup 18756 1 [sym_kClass]; AGroup 18760 1 [sym_kExports];
     AGroup 18762 1 [sym_kLabel]; AGroup 18766 1 [sym_kType]; AGroup 18768 1 [sym_kUses];
     AGroup 18885 1 [sym_kAsm]; AGroup 18887 1 [sym_kBegin]; SGroup 16 1 [sym__ppIf];
     SGroup 5359 1 [sym_blockTr]; SGroup 6432 1 [sym_declProc]; SGroup 8422 1 [sym_asmTr];
     SGroup 10355 1 [sym__declProc]; SGroup 10443 1 [sym__declOperator];
     SGroup 11110 1 [sym_rttiAttributes]; SGroup 11216 1 [aux_sym_rttiAttributes_repeat2];
     AGroup 3 2 syms_5; AGroup 18758 2 syms_65; AGroup 18764 2 syms_66; AGroup 23 4 syms_3;
     SGroup 6854 11 syms_210]);
   (336955, 25, [AGroup 5 1 [sym_ppDirective]; AGroup 9 1 [anon_sym_LBRACK];
     AGroup 11 1 [aux_sym_ppUsesBlock_token1]; AGroup 13 1 [sym_kGeneric];
     AGroup 15 1 [sym_kOperator]; AGroup 18756 1 [sym_kClass]; AGroup 18760 1 [sym_kExports];
     AGroup 18762 1 [sym_kLabel]; AGroup 18766 1 [sym_kType]; AGroup 18768 1 [sym_kUses];
     AGroup 19283 1 [sym_kAsm]; AGroup 19285 1 [sym_kBegin]; SGroup 16 1 [sym__ppIf];
     SGroup 4581 1 [sym_blockTr]; SGroup 6432 1 [sym_declProc]; SGroup 8384 1 [sym_asmTr];
     SGroup 10355 1 [sym__declProc]; SGroup 10443 1 [sym__declOperator];
     SGroup 11110 1 [sym_rttiAttributes]; SGroup 11216 1 [aux_sym_rttiAttributes_repeat2];
     AGroup 3 2 syms_5; AGroup 18758 2 syms_65; AGroup 18764 2 syms_66; AGroup 23 4 syms_3;
     SGroup 7035 11 syms_210]);
   (337047, 25, [AGroup 5 1 [sym_ppDirective]; AGroup 9 1 [anon_sym_LBRACK];
     AGroup 11 1 [aux_sym_ppUsesBlock_token1]; AGroup 13 1 [sym_kGeneric];
     AGroup 15 1 [sym_kOperator]; AGroup 18756 1 [sym_kClass]; AGroup 18760 1 [sym_kExports];
     AGroup 18762 1 [sym_kLabel]; AGroup 18766 1 [sym_kType]; AGroup 18768 1 [sym_kUses];
     AGroup 18931 1 [sym_kAsm]; AGroup 18933 1 [sym_kBegin]; SGroup 16 1 [sym__ppIf];
     SGroup 5569 1 [sym_blockTr]; SGroup 6432 1 [sym_declProc]; SGroup 8845 1 [sym_asmTr];
     SGroup 10355 1 [sym__declProc]; SGroup 10443 1 [sym__declOperator];
     SGroup 11110 1 [sym_rttiAttributes]; SGroup 11216 1 [aux_sym_rttiAttributes_repeat2];
     AGroup 3 2 syms_5; AGroup 18758 2 syms_65; AGroup 18764 2 syms_66; AGroup 23 4 syms_3;
     SGroup 7035 11 syms_210]);
   (337139, 25, [AGroup 5 1 [sym_ppDirective]; AGroup 9 1 [anon_sym_LBRACK];
     AGroup 11 1 [aux_sym_ppUsesBlock_token1]; AGroup 13 1 [sym_kGeneric];
     AGroup 15 1 [sym_kOperator]; AGroup 18756 1 [sym_kClass]; AGroup 18760 1 [sym_kExports];
     AGroup 18762 1 [sym_kLabel]; AGroup 18766 1 [sym_kType]; AGroup 18768 1 [sym_kUses];
     AGroup 19171 1 [sym_kAsm]; AGroup 19173 1 [sym_kBegin]; SGroup 16 1 [sym__ppIf];
     SGroup 3985 1 [sym_blockTr]; SGroup 6432 1 [sym_declProc]; SGroup 7880 1 [sym_asmTr];
     SGroup 10355 1 [sym__declProc]; SGroup 10443 1 [sym__declOperator];
     SGroup 11110 1 [sym_rttiAttributes]; SGroup 11216 1 [aux_sym_rttiAttributes_repeat2];
     AGroup 3 2 syms_5; AGroup 18758 2 syms_65; AGroup 18764 2 syms_66; AGroup 23 4 syms_3;
     SGroup 7035 11 syms_210]);
   (337231, 25, [AGroup 5 1 [sym_ppDirective]; AGroup 9 1 [anon_sym_LBRACK];
     AGroup 11 1 [aux_sym_ppUsesBlock_token1]; AGroup 13 1 [sym_kGeneric];
     AGroup 15 1 [sym_kOperator]; AGroup 18756 1 [sym_kClass]; AGroup 18760 1 [sym_kExports];
     AGroup 18762 1 [sym_kLabel]; AGroup 18766 1 [sym_kType]; AGroup 18768 1 [sym_kUses];
     AGroup 18960 1 [sym_kAsm]; AGroup 18962 1 [sym_kBegin]; SGroup 16 1 [sym__ppIf];
     SGroup 4427 1 [sym_blockTr]; SGroup 6432 1 [sym_declProc]; SGroup 8227 1 [sym_asmTr];
     SGroup 10355 1 [sym__declProc]; SGroup 10443 1 [sym__declOperator];
     SGroup 11110 1 [sym_rttiAttributes]; SGroup 11216 1 [aux_sym_rttiAttributes_repeat2];
     AGroup 3 2 syms_5; AGroup 18758 2 syms_65; AGroup 18764 2 syms_66; AGroup 23 4 syms_3;
     SGroup 7035 11 syms_210]);
   (337323, 11, [AGroup 5 1 [sym_ppDirective]; AGroup 19569 1 [sym_kHat]; AGroup 19581 1 [sym_kAs];
     SGroup 4288 1 [sym__exprIsNot]; AGroup 3 2 syms_5; AGroup 19575 2 syms_9;
     AGroup 19577 2 syms_258; AGroup 19583 2 syms_259; AGroup 17016 3 syms_94;
     AGroup 19579 5 syms_260; AGroup 17014 21 syms_261]);
   (337387, 4, [AGroup 5 1 [sym_ppDirective]; AGroup 3 2 syms_5; AGroup 10794 5 syms_150;
     AGroup 10792 33 syms_252]);
   (337437, 25, [AGroup 5 1 [sym_ppDirective]; AGroup 9 1 [anon_sym_LBRACK];
     AGroup 11 1 [aux_sym_ppUsesBlock_token1]; AGroup 13 1 [sym_kGeneric];
     AGroup 15 1 [sym_kOperator]; AGroup 18756 1 [sym_kClass]; AGroup 18760 1 [sym_kExports];
     AGroup 18762 1 [sym_kLabel]; AGroup 18766 1 [sym_kType]; AGroup 18768 1 [sym_kUses];
     AGroup 19171 1 [sym_kAsm]; AGroup 19173 1 [sym_kBegin]; SGroup 16 1 [sym__ppIf];
     SGroup 4019 1 [sym_blockTr]; SGroup 6432 1 [sym_declProc]; SGroup 7806 1 [sym_asmTr];
     SGroup 10355 1 [sym__declProc]; SGroup 10443 1 [sym__declOperator];
     SGroup 11110 1 [sym_rttiAttributes]; SGroup 11216 1 [aux_sym_rttiAttributes_repeat2];
     AGroup 3 2 syms_5; AGroup 18758 2 syms_65; AGroup 18764 2 syms_66; AGroup 23 4 syms_3;
     SGroup 6827 11 syms_210]);
   (337529, 25, [AGroup 5 1 [sym_ppDirective]; AGroup 9 1 [anon_sym_LBRACK];
     AGroup 11 1 [aux_sym_ppUsesBlock_token1]; AGroup 13 1 [sym_kGeneric];
     AGroup 15 1 [sym_kOperator]; AGroup 18756 1 [sym_kClass]; AGroup 18760 1 [sym_kExports];
     AGroup 18762 1 [sym_kLabel]; AGroup 18766 1 [sym_kType]; AGroup 18768 1 [sym_kUses];
     AGroup 19171 1 [sym_kAsm]; AGroup 19173 1 [sym_kBegin]; SGroup 16 1 [sym__ppIf];
     SGroup 4021 1 [sym_blockTr]; SGroup 6432 1 [sym_declProc]; SGroup 7807 1 [sym_asmTr];
     SGroup 10355 1 [sym__declProc]; SGroup 10443 1 [sym__declOperator];
     SGroup 11110 1 [sym_rttiAttributes]; SGroup 11216 1 [aux_sym_rttiAttributes_repeat2];
     AGroup 3 2 syms_5; AGroup 18758 2 syms_65; AGroup 18764 2 syms_66; AGroup 23 4 syms_3;
     SGroup 7035 11 syms_210]);
   (337621, 4, [AGroup 5 1 [sym_ppDirective]; AGroup 3 2 syms_5; AGroup 10804 5 syms_150;
     AGroup 10802 33 syms_252]);
   (337671, 25, [AGroup 5 1 [sym_ppDirective]; AGroup 9 1 [anon_sym_LBRACK];
     AGroup 11 1 [aux_sym_ppUsesBlock_token1]; AGroup 13 1 [sym_kGeneric];
     AGroup 15 1 [sym_kOperator]; AGroup 18756 1 [sym_kClass]; AGroup 18760 1 [sym_kExports];
     AGroup 18762 1 [sym_kLabel]; AGroup 18766 1 [sym_kType]; AGroup 18768 1 [sym_kUses];
     AGroup 19171 1 [sym_kAsm]; AGroup 19173 1 [sym_kBegin]; SGroup 16 1 [sym__ppIf];
     SGroup 4022 1 [sym_blockTr]; SGroup 6432 1 [sym_declProc]; SGroup 7824 1 [sym_asmTr];
     SGroup 10355 1 [sym__declProc]; SGroup 10443 1 [sym__declOperator];
     SGroup 11110 1 [sym_rttiAttributes]; SGroup 11216 1 [aux_sym_rttiAttributes_repeat2];
     AGroup 3 2 syms_5; AGroup 18758 2 syms_65; AGroup 18764 2 syms_66; AGroup 23 4 syms_3;
     SGroup 7035 11 syms_210]);
   (337763, 25, [AGroup 5 1 [sym_ppDirective]; AGroup 9 1 [anon_sym_LBRACK];
     AGroup 11 1 [aux_sym_ppUsesBlock_token1]; AGroup 13 1 [sym_kGeneric];
     AGroup 15 1 [sym_kOperator]; AGroup 18756 1 [sym_kClass]; AGroup 18760 1 [sym_kExports];
     AGroup 18762 1 [sym_kLabel]; AGroup 18766 1 [sym_kType]; AGroup 18768 1 [sym_kUses];
     AGroup 19171 1 [sym_kAsm]; AGroup 19173 1 [sym_kBegin]; SGroup 16 1 [sym__ppIf];
     SGroup 4026 1 [sym_blockTr]; SGroup 6432 1 [sym_declProc]; SGroup 7825 1 [sym_asmTr];
     SGroup 10355 1 [sym__declProc]; SGroup 10443 1 [sym__declOperator];
     SGroup 11110 1 [sym_rttiAttributes]; SGroup 11216 1 [aux_sym_rttiAttributes_repeat2];
     AGroup 3 2 syms_5; AGroup 18758 2 syms_65; AGroup 18764 2 syms_66; AGroup 23 4 syms_3;
     SGroup 6829 11 syms_210]);
   (337855, 25, [AGroup 5 1 [sym_ppDirective]; AGroup 9 1 [anon_sym_LBRACK];
     AGroup 11 1 [aux_sym_ppUsesBlock_token1]; AGroup 13 1 [sym_kGeneric];
     AGroup 15 1 [sym_kOperator]; AGroup 18756 1 [sym_kClass]; AGroup 18760 1 [sym_kExports];
     AGroup 18762 1 [sym_kLabel]; AGroup 18766 1 [sym_kType]; AGroup 18768 1 [sym_kUses];
     AGroup 19171 1 [sym_kAsm]; AGroup 19173 1 [sym_kBegin]; SGroup 16 1 [sym__ppIf];
     SGroup 3808 1 [sym_blockTr]; SGroup 6432 1 [sym_declProc]; SGroup 7829 1 [sym_asmTr];
     SGroup 10355 1 [sym__declProc]; SGroup 10443 1 [sym__declOperator];
     SGroup 11110 1 [sym_rttiAttributes]; SGroup 11216 1 [aux_sym_rttiAttributes_repeat2];
     AGroup 3 2 syms_5; AGroup 18758 2 syms_65; AGroup 18764 2 syms_66; AGroup 23 4 syms_3;
     SGroup 7035 11 syms_210]);
   (337947, 4, [AGroup 5 1 [sym_ppDirective]; AGroup 3 2 syms_5; AGroup 10808 5 syms_150;
     AGroup 10806 33 syms_252]);
   (337997, 25, [AGroup 5 1 [sym_ppDirective]; AGroup 9 1 [anon_sym_LBRACK];
     AGroup 11 1 [aux_sym_ppUsesBlock_token1]; AGroup 13 1 [sym_kGeneric];
     AGroup 15 1 [sym_kOperator]; AGroup 18756 1 [sym_kClass]; AGroup 18760 1 [sym_kExports];
     AGroup 18762 1 [sym_kLabel]; AGroup 18766 1 [sym_kType]; AGroup 18768 1 [sym_kUses];
     AGroup 18960 1 [sym_kAsm]; AGroup 18962 1 [sym_kBegin]; SGroup 16 1 [sym__ppIf];
     SGroup 4436 1 [sym_blockTr]; SGroup 6432 1 [sym_declProc]; SGroup 8240 1 [sym_asmTr];
     SGroup 10355 1 [sym__declProc]; SGroup 10443 1 [sym__declOperator];
     SGroup 11110 1 [sym_rttiAttributes]; SGroup 11216 1 [aux_sym_rttiAttributes_repeat2];
     AGroup 3 2 syms_5; AGroup 18758 2 syms_65; AGroup 18764 2 syms_66; AGroup 23 4 syms_3;
     SGroup 7035 11 syms_210]);
   (338089, 25, [AGroup 5 1 [sym_ppDirective]; AGroup 9 1 [anon_sym_LBRACK];
     AGroup 11 1 [aux_sym_ppUsesBlock_token1]; AGroup 13 1 [sym_kGeneric];
     AGroup 15 1 [sym_kOperator]; AGroup 18756 1 [sym_kClass]; AGroup 18760 1 [sym_kExports];
     AGroup 18762 1 [sym_kLabel]; AGroup 18766 1 [sym_kType]; AGroup 18768 1 [sym_kUses];
     AGroup 19047 1 [sym_kAsm]; AGroup 19049 1 [sym_kBegin]; SGroup 16 1 [sym__ppIf];
     SGroup 3449 1 [sym_blockTr]; SGroup 6432 1 [sym_declProc]; SGroup 7463 1 [sym_asmTr];
     SGroup 10355 1 [sym__declProc]; SGroup 10443 1 [sym__declOperator];
     SGroup 11110 1 [sym_rttiAttributes]; SGroup 11216 1 [aux_sym_rttiAttributes_repeat2];
     AGroup 3 2 syms_5; AGroup 18758 2 syms_65; AGroup 18764 2 syms_66; AGroup 23 4 syms_3;
     SGroup 7035 11 syms_210]);
   (338181, 25, [AGroup 5 1 [sym_ppDirective]; AGroup 9 1 [anon_sym_LBRACK];
     AGroup 11 1 [aux_sym_ppUsesBlock_token1]; AGroup 13 1 [sym_kGeneric];
     AGroup 15 1 [sym_kOperator]; AGroup 18756 1 [sym_kClass]; AGroup 18760 1 [sym_kExports];
     AGroup 18762 1 [sym_kLabel]; AGroup 18766 1 [sym_kType]; AGroup 18768 1 [sym_kUses];
     AGroup 19283 1 [sym_kAsm]; AGroup 19285 1 [sym_kBegin]; SGroup 16 1 [sym__ppIf];
     SGroup 4597 1 [sym_blockTr]; SGroup 6432 1 [sym_declProc]; SGroup 8414 1 [sym_asmTr];
     SGroup 10355 1 [sym__declProc]; SGroup 10443 1 [sym__declOperator];
     SGroup 11110 1 [sym_rttiAttributes]; SGroup 11216 1 [aux_sym_rttiAttributes_repeat2];
     AGroup 3 2 syms_5; AGroup 18758 2 syms_65; AGroup 18764 2 syms_66; AGroup 23 4 syms_3;
     SGroup 7035 11 syms_210]);
   (338273, 4, [AGroup 5 1 [sym_ppDirective]; AGroup 3 2 syms_5; AGroup 10812 5 syms_150;
     AGroup 10810 33 syms_252]);
   (338323, 25, [AGroup 5 1 [sym_ppDirective]; AGroup 9 1 [anon_sym_LBRACK];
     AGroup 11 1 [aux_sym_ppUsesBlock_token1]; AGroup 13 1 [sym_kGeneric];
     AGroup 15 1 [sym_kOperator]; AGroup 18756 1 [sym_kClass]; AGroup 18760 1 [sym_kExports];
     AGroup 18762 1 [sym_kLabel]; AGroup 18766 1 [sym_kType]; AGroup 18768 1 [sym_kUses];
     AGroup 19177 1 [sym_kAsm]; AGroup 19179 1 [sym_kBegin]; SGroup 16 1 [sym__ppIf];
     SGroup 3592 1 [sym_blockTr]; SGroup 6432 1 [sym_declProc]; SGroup 7589 1 [sym_asmTr];
     SGroup 10355 1 [sym__declProc]; SGroup 10443 1 [sym__declOperator];
     SGroup 11110 1 [sym_rttiAttributes]; SGroup 11216 1 [aux_sym_rttiAttributes_repeat2];
     AGroup 3 2 syms_5; AGroup 18758 2 syms_65; AGroup 18764 2 syms_66; AGroup 23 4 syms_3;
     SGroup 6838 11 syms_210]);
   (338415, 25, [AGroup 5 1 [sym_ppDirective]; AGroup 9 1 [anon_sym_LBRACK];
     AGroup 11 1 [aux_sym_ppUsesBlock_token1]; AGroup 13 1 [sym_kGeneric];
     AGroup 15 1 [sym_kOperator]; AGroup 18756 1 [sym_kClass]; AGroup 18760 1 [sym_kExports];
     AGroup 18762 1 [sym_kLabel]; AGroup 18766 1 [sym_kType]; AGroup 18768 1 [sym_kUses];
     AGroup 19177 1 [sym_kAsm]; AGroup 19179 1 [sym_kBegin]; SGroup 16 1 [sym__ppIf];
     SGroup 3593 1 [sym_blockTr]; SGroup 6432 1 [sym_declProc]; SGroup 7591 1 [sym_asmTr];
     SGroup 10355 1 [sym__declProc]; SGroup 10443 1 [sym__declOperator];
     SGroup 11110 1 [sym_rttiAttributes]; SGroup 11216 1 [aux_sym_rttiAttributes_repeat2];
     AGroup 3 2 syms_5; AGroup 18758 2 syms_65; AGroup 18764 2 syms_66; AGroup 23 4 syms_3;
     SGroup 7035 11 syms_210]);
   (338507, 25, [AGroup 5 1 [sym_ppDirective]; AGroup 9 1 [anon_sym_LBRACK];
     AGroup 11 1 [aux_sym_ppUsesBlock_token1]; AGroup 13 1 [sym_kGeneric];
     AGroup 15 1 [sym_kOperator]; AGroup 18756 1 [sym_kClass]; AGroup 18760 1 [sym_kExports];
     AGroup 18762 1 [sym_kLabel]; AGroup 18766 1 [sym_kType]; AGroup 18768 1 [sym_kUses];
     AGroup 18972 1 [sym_kAsm]; AGroup 18974 1 [sym_kBegin]; SGroup 16 1 [sym__ppIf];
     SGroup 3872 1 [sym_blockTr]; SGroup 6432 1 [sym_declProc]; SGroup 7885 1 [sym_asmTr];
     SGroup 10355 1 [sym__declProc]; SGroup 10443 1 [sym__declOperator];
     SGroup 11110 1 [sym_rttiAttributes]; SGroup 11216 1 [aux_sym_rttiAttributes_repeat2];
     AGroup 3 2 syms_5; AGroup 18758 2 syms_65; AGroup 18764 2 syms_66; AGroup 23 4 syms_3;
     SGroup 6861 11 syms_210]);
   (338599, 25, [AGroup 5 1 [sym_ppDirective]; AGroup 9 1 [anon_sym_LBRACK];
     AGroup 11 1 [aux_sym_ppUsesBlock_token1]; AGroup 13 1 [sym_kGeneric];
     AGroup 15 1 [sym_kOperator]; AGroup 18756 1 [sym_kClass]; AGroup 18760 1 [sym_kExports];
     AGroup 18762 1 [sym_kLabel]; AGroup 18766 1 [sym_kType]; AGroup 18768 1 [sym_kUses];
     AGroup 19177 1 [sym_kAsm]; AGroup 19179 1 [sym_kBegin]; SGroup 16 1 [sym__ppIf];
     SGroup 3594 1 [sym_blockTr]; SGroup 6432 1 [sym_declProc]; SGroup 7597 1 [sym_asmTr];
     SGroup 10355 1 [sym__declProc]; SGroup 10443 1 [sym__declOperator];
     SGroup 11110 1 [sym_rttiAttributes]; SGroup 11216 1 [aux_sym_rttiAttributes_repeat2];
     AGroup 3 2 syms_5; AGroup 18758 2 syms_65; AGroup 18764 2 syms_66; AGroup 23 4 syms_3;
     SGroup 7035 11 syms_210]);
   (338691, 25, [AGroup 5 1 [sym_ppDirective]; AGroup 9 1 [anon_sym_LBRACK];
     AGroup 11 1 [aux_sym_ppUsesBlock_token1]; AGroup 13 1 [sym_kGeneric];
     AGroup 15 1 [sym_kOperator]; AGroup 18756 1 [sym_kClass]; AGroup 18760 1 [sym_kExports];
     AGroup 18762 1 [sym_kLabel]; AGroup 18766 1 [sym_kType]; AGroup 18768 1 [sym_kUses];
     AGroup 19177 1 [sym_kAsm]; AGroup 19179 1 [sym_kBegin]; SGroup 16 1 [sym__ppIf];
     SGroup 3595 1 [sym_blockTr]; SGroup 6432 1 [sym_declProc]; SGroup 7598 1 [sym_asmTr];
     SGroup 10355 1 [sym__declProc]; SGroup 10443 1 [sym__declOperator];
     SGroup 11110 1 [sym_rttiAttributes]; SGroup 11216 1 [aux_sym_rttiAttributes_repeat2];
     AGroup 3 2 syms_5; AGroup 18758 2 syms_65; AGroup 18764 2 syms_66; AGroup 23 4 syms_3;
     SGroup 6840 11 syms_210]);
   (338783, 25, [AGroup 5 1 [sym_ppDirective]; AGroup 9 1 [anon_sym_LBRACK];
     AGroup 11 1 [aux_sym_ppUsesBlock_token1]; AGroup 13 1 [sym_kGeneric];
     AGroup 15 1 [sym_kOperator]; AGroup 18756 1 [sym_kClass]; AGroup 18760 1 [sym_kExports];
     AGroup 18762 1 [sym_kLabel]; AGroup 18766 1 [sym_kType]; AGroup 18768 1 [sym_kUses];
     AGroup 19177 1 [sym_kAsm]; AGroup 19179 1 [sym_kBegin]; SGroup 16 1 [sym__ppIf];
     SGroup 3599 1 [sym_blockTr]; SGroup 6432 1 [sym_declProc]; SGroup 7600 1 [sym_asmTr];
     SGroup 10355 1 [sym__declProc]; SGroup 10443 1 [sym__declOperator];
     SGroup 11110 1 [sym_rttiAttributes]; SGroup 11216 1 [aux_sym_rttiAttributes_repeat2];
     AGroup 3 2 syms_5; AGroup 18758 2 syms_65; AGroup 18764 2 syms_66; AGroup 23 4 syms_3;
     SGroup 7035 11 syms_210]);
   (338875, 25, [AGroup 5 1 [sym_ppDirective]; AGroup 9 1 [anon_sym_LBRACK];
     AGroup 11 1 [aux_sym_ppUsesBlock_token1]; AGroup 13 1 [sym_kGeneric];
     AGroup 15 1 [sym_kOperator]; AGroup 18756 1 [sym_kClass]; AGroup 18760 1 [sym_kExports];
     AGroup 18762 1 [sym_kLabel]; AGroup 18766 1 [sym_kType]; AGroup 18768 1 [sym_kUses];
     AGroup 18972 1 [sym_kAsm]; AGroup 18974 1 [sym_kBegin]; SGroup 16 1 [sym__ppIf];
     SGroup 3980 1 [sym_blockTr]; SGroup 6432 1 [sym_declProc]; SGroup 7886 1 [sym_asmTr];
     SGroup 10355 1 [sym__declProc]; SGroup 10443 1 [sym__declOperator];
     SGroup 11110 1 [sym_rttiAttributes]; SGroup 11216 1 [aux_sym_rttiAttributes_repeat2];
     AGroup 3 2 syms_5; AGroup 18758 2 syms_65; AGroup 18764 2 syms_66; AGroup 23 4 syms_3;
     SGroup 7035 11 syms_210]);
   (338967, 5, [AGroup 5 1 [sym_ppDirective]; AGroup 19597 1 [sym_identifier]; AGroup 3 2 syms_5;
     AGroup 17342 7 syms_34; AGroup 17340 30 syms_37]);
   (339019, 25, [AGroup 5 1 [sym_ppDirective]; AGroup 9 1 [anon_sym_LBRACK];
     AGroup 11 1 [aux_sym_ppUsesBlock_token1]; AGroup 13 1 [sym_kGeneric];
     AGroup 15 1 [sym_kOperator]; AGroup 18756 1 [sym_kClass]; AGroup 18760 1 [sym_kExports];
     AGroup 18762 1 [sym_kLabel]; AGroup 18766 1 [sym_kType]; AGroup 18768 1 [sym_kUses];
     AGroup 19183 1 [sym_kAsm]; AGroup 19185 1 [sym_kBegin]; SGroup 16 1 [sym__ppIf];
     SGroup 4237 1 [sym_blockTr]; SGroup 6432 1 [sym_declProc]; SGroup 8221 1 [sym_asmTr];
     SGroup 10355 1 [sym__declProc]; SGroup 10443 1 [sym__declOperator];
     SGroup 11110 1 [sym_rttiAttributes]; SGroup 11216 1 [aux_sym_rttiAttributes_repeat2];
     AGroup 3 2 syms_5; AGroup 18758 2 syms_65; AGroup 18764 2 syms_66; AGroup 23 4 syms_3;
     SGroup 7035 11 syms_210]);
   (339111, 5, [AGroup 5 1 [sym_ppDirective]; AGroup 19599 1 [anon_sym_COLON]; AGroup 3 2 syms_5;
     AGroup 16976 7 syms_34; AGroup 16972 30 syms_37]);
   (339163, 25, [AGroup 5 1 [sym_ppDirective]; AGroup 9 1 [anon_sym_LBRACK];
     AGroup 11 1 [aux_sym_ppUsesBlock_token1]; AGroup 13 1 [sym_kGeneric];
     AGroup 15 1 [sym_kOperator]; AGroup 18756 1 [sym_kClass]; AGroup 18760 1 [sym_kExports];
     AGroup 18762 1 [sym_kLabel]; AGroup 18766 1 [sym_kType]; AGroup 18768 1 [sym_kUses];
     AGroup 19183 1 [sym_kAsm]; AGroup 19185 1 [sym_kBegin]; SGroup 16 1 [sym__ppIf];
     SGroup 4240 1 [sym_blockTr]; SGroup 6432 1 [sym_declProc]; SGroup 8345 1 [sym_asmTr];
     SGroup 10355 1 [sym__declProc]; SGroup 10443 1 [sym__declOperator];
     SGroup 11110 1 [sym_rttiAttributes]; SGroup 11216 1 [aux_sym_rttiAttributes_repeat2];
     AGroup 3 2 syms_5; AGroup 18758 2 syms_65; AGroup 18764 2 syms_66; AGroup 23 4 syms_3;
     SGroup 6847 11 syms_210]);
   (339255, 25, [AGroup 5 1 [sym_ppDirective]; AGroup 9 1 [anon_sym_LBRACK];
     AGroup 11 1 [aux_sym_ppUsesBlock_token1]; AGroup 13 1 [sym_kGeneric];
     AGroup 15 1 [sym_kOperator]; AGroup 18756 1 [sym_kClass]; AGroup 18760 1 [sym_kExports];
     AGroup 18762 1 [sym_kLabel]; AGroup 18766 1 [sym_kType]; AGroup 18768 1 [sym_kUses];
     AGroup 19183 1 [sym_kAsm]; AGroup 19185 1 [sym_kBegin]; SGroup 16 1 [sym__ppIf];
     SGroup 4241 1 [sym_blockTr]; SGroup 6432 1 [sym_declProc]; SGroup 8360 1 [sym_asmTr];
     SGroup 10355 1 [sym__declProc]; SGroup 10443 1 [sym__declOperator];
     SGroup 11110 1 [sym_rttiAttributes]; SGroup 11216 1 [aux_sym_rttiAttributes_repeat2];
     AGroup 3 2 syms_5; AGroup 18758 2 syms_65; AGroup 18764 2 syms_66; AGroup 23 4 syms_3;
     SGroup 7035 11 syms_210]);
   (339347, 25, [AGroup 5 1 [sym_ppDirective]; AGroup 9 1 [anon_sym_LBRACK];
     AGroup 11 1 [aux_sym_ppUsesBlock_token1]; AGroup 13 1 [sym_kGeneric];
     AGroup 15 1 [sym_kOperator]; AGroup 18756 1 [sym_kClass]; AGroup 18760 1 [sym_kExports];
     AGroup 18762 1 [sym_kLabel]; AGroup 18766 1 [sym_kType]; AGroup 18768 1 [sym_kUses];
     AGroup 19183 1 [sym_kAsm]; AGroup 19185 1 [sym_kBegin]; SGroup 16 1 [sym__ppIf];
     SGroup 4242 1 [sym_blockTr]; SGroup 6432 1 [sym_declProc]; SGroup 8192 1 [sym_asmTr];
     SGroup 10355 1 [sym__declProc]; SGroup 10443 1 [sym__declOperator];
     SGroup 11110 1 [sym_rttiAttributes]; SGroup 11216 1 [aux_sym_rttiAttributes_repeat2];
     AGroup 3 2 syms_5; AGroup 18758 2 syms_65; AGroup 18764 2 syms_66; AGroup 23 4 syms_3;
     SGroup 7035 11 syms_210]);
   (339439, 25, [AGroup 5 1 [sym_ppDirective]; AGroup 9 1 [anon_sym_LBRACK];
     AGroup 11 1 [aux_sym_ppUsesBlock_token1]; AGroup 13 1 [sym_kGeneric];
     AGroup 15 1 [sym_kOperator]; AGroup 18756 1 [sym_kClass]; AGroup 18760 1 [sym_kExports];
     AGroup 18762 1 [sym_kLabel]; AGroup 18766 1 [sym_kType]; AGroup 18768 1 [sym_kUses];
     AGroup 19183 1 [sym_kAsm]; AGroup 19185 1 [sym_kBegin]; SGroup 16 1 [sym__ppIf];
     SGroup 4243 1 [sym_blockTr]; SGroup 6432 1 [sym_declProc]; SGroup 8194 1 [sym_asmTr];
     SGroup 10355 1 [sym__declProc]; SGroup 10443 1 [sym__declOperator];
     SGroup 11110 1 [sym_rttiAttributes]; SGroup 11216 1 [aux_sym_rttiAttributes_repeat2];
     AGroup 3 2 syms_5; AGroup 18758 2 syms_65; AGroup 18764 2 syms_66; AGroup 23 4 syms_3;
     SGroup 6849 11 syms_210]);
   (339531, 25, [AGroup 5 1 [sym_ppDirective]; AGroup 9 1 [anon_sym_LBRACK];
     AGroup 11 1 [aux_sym_ppUsesBlock_token1]; AGroup 13 1 [sym_kGeneric];
     AGroup 15 1 [sym_kOperator]; AGroup 18756 1 [sym_kClass]; AGroup 18760 1 [sym_kExports];
     AGroup 18762 1 [sym_kLabel]; AGroup 18766 1 [sym_kType]; AGroup 18768 1 [sym_kUses];
     AGroup 19183 1 [sym_kAsm]; AGroup 19185 1 [sym_kBegin]; SGroup 16 1 [sym__ppIf];
     SGroup 4245 1 [sym_blockTr]; SGroup 6432 1 [sym_declProc]; SGroup 8197 1 [sym_asmTr];
     SGroup 10355 1 [sym__declProc]; SGroup 10443 1 [sym__declOperator];
     SGroup 11110 1 [sym_rttiAttributes]; SGroup 11216 1 [aux_sym_rttiAttributes_repeat2];
     AGroup 3 2 syms_5; AGroup 18758 2 syms_65; AGroup 18764 2 syms_66; AGroup 23 4 syms_3;
     SGroup 7035 11 syms_210]);
   (339623, 5, [AGroup 5 1 [sym_ppDirective]; AGroup 19601 1 [sym_identifier]; AGroup 3 2 syms_5;
     AGroup 17348 7 syms_34; AGroup 17346 30 syms_37]);
   (339675, 25, [AGroup 5 1 [sym_ppDirective]; AGroup 9 1 [anon_sym_LBRACK];
     AGroup 11 1 [aux_sym_ppUsesBlock_token1]; AGroup 13 1 [sym_kGeneric];
     AGroup 15 1 [sym_kOperator]; AGroup 18756 1 [sym_kClass]; AGroup 18760 1 [sym_kExports];
     AGroup 18762 1 [sym_kLabel]; AGroup 18766 1 [sym_kType]; AGroup 18768 1 [sym_kUses];
     AGroup 18931 1 [sym_kAsm]; AGroup 18933 1 [sym_kBegin]; SGroup 16 1 [sym__ppIf];
     SGroup 5577 1 [sym_blockTr]; SGroup 6432 1 [sym_declProc]; SGroup 8846 1 [sym_asmTr];
     SGroup 10355 1 [sym__declProc]; SGroup 10443 1 [sym__declOperator];
     SGroup 11110 1 [sym_rttiAttributes]; SGroup 11216 1 [aux_sym_rttiAttributes_repeat2];
     AGroup 3 2 syms_5; AGroup 18758 2 syms_65; AGroup 18764 2 syms_66; AGroup 23 4 syms_3;
     SGroup 6914 11 syms_210]);
   (339767, 7, [AGroup 5 1 [sym_ppDirective]; AGroup 19606 1 [anon_sym_POUND]; AGroup 3 2 syms_5;
     AGroup 19603 2 syms_6; SGroup 6852 3 syms_13; AGroup 15241 4 syms_25;
     AGroup 15239 28 syms_114]);
   (339823, 25, [AGroup 5 1 [sym_ppDirective]; AGroup 9 1 [anon_sym_LBRACK];
     AGroup 11 1 [aux_sym_ppUsesBlock_token1]; AGroup 13 1 [sym_kGeneric];
     AGroup 15 1 [sym_kOperator]; AGroup 18756 1 [sym_kClass]; AGroup 18760 1 [sym_kExports];
     AGroup 18762 1 [sym_kLabel]; AGroup 18766 1 [sym_kType]; AGroup 18768 1 [sym_kUses];
     AGroup 19189 1 [sym_kAsm]; AGroup 19191 1 [sym_kBegin]; SGroup 16 1 [sym__ppIf];
     SGroup 5579 1 [sym_blockTr]; SGroup 6432 1 [sym_declProc]; SGroup 8720 1 [sym_asmTr];
     SGroup 10355 1 [sym__declProc]; SGroup 10443 1 [sym__declOperator];
     SGroup 11110 1 [sym_rttiAttributes]; SGroup 11216 1 [aux_sym_rttiAttributes_repeat2];
     AGroup 3 2 syms_5; AGroup 18758 2 syms_65; AGroup 18764 2 syms_66; AGroup 23 4 syms_3;
     SGroup 7035 11 syms_210]);
   (339915, 25, [AGroup 5 1 [sym_ppDirective]; AGroup 9 1 [anon_sym_LBRACK];
     AGroup 11 1 [aux_sym_ppUsesBlock_token1]; AGroup 13 1 [sym_kGeneric];
     AGroup 15 1 [sym_kOperator]; AGroup 18756 1 [sym_kClass]; AGroup 18760 1 [sym_kExports];
     AGroup 18762 1 [sym_kLabel]; AGroup 18766 1 [sym_kType]; AGroup 18768 1 [sym_kUses];
     AGroup 18885 1 [sym_kAsm]; AGroup 18887 1 [sym_kBegin]; SGroup 16 1 [sym__ppIf];
     SGroup 4420 1 [sym_blockTr]; SGroup 6432 1 [sym_declProc]; SGroup 8436 1 [sym_asmTr];
     SGroup 10355 1 [sym__declProc]; SGroup 10443 1 [sym__declOperator];
     SGroup 11110 1 [sym_rttiAttributes]; SGroup 11216 1 [aux_sym_rttiAttributes_repeat2];
     AGroup 3 2 syms_5; AGroup 18758 2 syms_65; AGroup 18764 2 syms_66; AGroup 23 4 syms_3;
     SGroup 7035 11 syms_210]);
   (340007, 25, [AGroup 5 1 [sym_ppDirective]; AGroup 9 1 [anon_sym_LBRACK];
     AGroup 11 1 [aux_sym_ppUsesBlock_token1]; AGroup 13 1 [sym_kGeneric];
     AGroup 15 1 [sym_kOperator]; AGroup 18756 1 [sym_kClass]; AGroup 18760 1 [sym_kExports];
     AGroup 18762 1 [sym_kLabel]; AGroup 18766 1 [sym_kType]; AGroup 18768 1 [sym_kUses];
     AGroup 18966 1 [sym_kAsm]; AGroup 18968 1 [sym_kBegin]; SGroup 16 1 [sym__ppIf];
     SGroup 3649 1 [sym_blockTr]; SGroup 6432 1 [sym_declProc]; SGroup 7648 1 [sym_asmTr];
     SGroup 10355 1 [sym__declProc]; SGroup 10443 1 [sym__declOperator];
     SGroup 11110 1 [sym_rttiAttributes]; SGroup 11216 1 [aux_sym_rttiAttributes_repeat2];
     AGroup 3 2 syms_5; AGroup 18758 2 syms_65; AGroup 18764 2 syms_66; AGroup 23 4 syms_3;
     SGroup 6905 11 syms_210]);
   (340099, 25, [AGroup 5 1 [sym_ppDirective]; AGroup 9 1 [anon_sym_LBRACK];
     AGroup 11 1 [aux_sym_ppUsesBlock_token1]; AGroup 13 1 [sym_kGeneric];
     AGroup 15 1 [sym_kOperator]; AGroup 18756 1 [sym_kClass]; AGroup 18760 1 [sym_kExports];
     AGroup 18762 1 [sym_kLabel]; AGroup 18766 1 [sym_kType]; AGroup 18768 1 [sym_kUses];
     AGroup 19189 1 [sym_kAsm]; AGroup 19191 1 [sym_kBegin]; SGroup 16 1 [sym__ppIf];
     SGroup 5586 1 [sym_blockTr]; SGroup 6432 1 [sym_declProc]; SGroup 8737 1 [sym_asmTr];
     SGroup 10355 1 [sym__declProc]; SGroup 10443 1 [sym__declOperator];
     SGroup 11110 1 [sym_rttiAttributes]; SGroup 11216 1 [aux_sym_rttiAttributes_repeat2];
     AGroup 3 2 syms_5; AGroup 18758 2 syms_65; AGroup 18764 2 syms_66; AGroup 23 4 syms_3;
     SGroup 6858 11 syms_210]);
   (340191, 25, [AGroup 5 1 [sym_ppDirective]; AGroup 9 1 [anon_sym_LBRACK];
     AGroup 11 1 [aux_sym_ppUsesBlock_token1]; AGroup 13 1 [sym_kGeneric];
     AGroup 15 1 [sym_kOperator]; AGroup 18756 1 [sym_kClass]; AGroup 18760 1 [sym_kExports];
     AGroup 18762 1 [sym_kLabel]; AGroup 18766 1 [sym_kType]; AGroup 18768 1 [sym_kUses];
     AGroup 19189 1 [sym_kAsm]; AGroup 19191 1 [sym_kBegin]; SGroup 16 1 [sym__ppIf];
     SGroup 5601 1 [sym_blockTr]; SGroup 6432 1 [sym_declProc]; SGroup 8741 1 [sym_asmTr];
     SGroup 10355 1 [sym__declProc]; SGroup 10443 1 [sym__declOperator];
     SGroup 11110 1 [sym_rttiAttributes]; SGroup 11216 1 [aux_sym_rttiAttributes_repeat2];
     AGroup 3 2 syms_5; AGroup 18758 2 syms_65; AGroup 18764 2 syms_66; AGroup 23 4 syms_3;
     SGroup 7035 11 syms_210]);
   (340283, 25, [AGroup 5 1 [sym_ppDirective]; AGroup 9 1 [anon_sym_LBRACK];
     AGroup 11 1 [aux_sym_ppUsesBlock_token1]; AGroup 13 1 [sym_kGeneric];
     AGroup 15 1 [sym_kOperator]; AGroup 18756 1 [sym_kClass]; AGroup 18760 1 [sym_kExports];
     AGroup 18762 1 [sym_kLabel]; AGroup 18766 1 [sym_kType]; AGroup 18768 1 [sym_kUses];
     AGroup 19189 1 [sym_kAsm]; AGroup 19191 1 [sym_kBegin]; SGroup 16 1 [sym__ppIf];
     SGroup 5615 1 [sym_blockTr]; SGroup 6432 1 [sym_declProc]; SGroup 8755 1 [sym_asmTr];
     SGroup 10355 1 [sym__declProc]; SGroup 10443 1 [sym__declOperator];
     SGroup 11110 1 [sym_rttiAttributes]; SGroup 11216 1 [aux_sym_rttiAttributes_repeat2];
     AGroup 3 2 syms_5; AGroup 18758 2 syms_65; AGroup 18764 2 syms_66; AGroup 23 4 syms_3;
     SGroup 7035 11 syms_210])
  ].

(** States 6859 to 6958. *)
Definition small_runs_6859 : list small_run :=
  [
   (340375, 25, [AGroup 5 1 [sym_ppDirective]; AGroup 9 1 [anon_sym_LBRACK];
     AGroup 11 1 [aux_sym_ppUsesBlock_token1]; AGroup 13 1 [sym_kGeneric];
     AGroup 15 1 [sym_kOperator]; AGroup 18756 1 [sym_kClass]; AGroup 18760 1 [sym_kExports];
     AGroup 18762 1 [sym_kLabel]; AGroup 18766 1 [sym_kType]; AGroup 18768 1 [sym_kUses];
     AGroup 19189 1 [sym_kAsm]; AGroup 19191 1 [sym_kBegin]; SGroup 16 1 [sym__ppIf];
     SGroup 5618 1 [sym_blockTr]; SGroup 6432 1 [sym_declProc]; SGroup 8757 1 [sym_asmTr];
     SGroup 10355 1 [sym__declProc]; SGroup 10443 1 [sym__declOperator];
     SGroup 11110 1 [sym_rttiAttributes]; SGroup 11216 1 [aux_sym_rttiAttributes_repeat2];
     AGroup 3 2 syms_5; AGroup 18758 2 syms_65; AGroup 18764 2 syms_66; AGroup 23 4 syms_3;
     SGroup 6860 11 syms_210]);
   (340467, 25, [AGroup 5 1 [sym_ppDirective]; AGroup 9 1 [anon_sym_LBRACK];
     AGroup 11 1 [aux_sym_ppUsesBlock_token1]; AGroup 13 1 [sym_kGeneric];
     AGroup 15 1 [sym_kOperator]; AGroup 18756 1 [sym_kClass]; AGroup 18760 1 [sym_kExports];
     AGroup 18762 1 [sym_kLabel]; AGroup 18766 1 [sym_kType]; AGroup 18768 1 [sym_kUses];
     AGroup 19189 1 [sym_kAsm]; AGroup 19191 1 [sym_kBegin]; SGroup 16 1 [sym__ppIf];
     SGroup 5652 1 [sym_blockTr]; SGroup 6432 1 [sym_declProc]; SGroup 8760 1 [sym_asmTr];
     SGroup 10355 1 [sym__declProc]; SGroup 10443 1 [sym__declOperator];
     SGroup 11110 1 [sym_rttiAttributes]; SGroup 11216 1 [aux_sym_rttiAttributes_repeat2];
     AGroup 3 2 syms_5; AGroup 18758 2 syms_65; AGroup 18764 2 syms_66; AGroup 23 4 syms_3;
     SGroup 7035 11 syms_210]);
   (340559, 25, [AGroup 5 1 [sym_ppDirective]; AGroup 9 1 [anon_sym_LBRACK];
     AGroup 11 1 [aux_sym_ppUsesBlock_token1]; AGroup 13 1 [sym_kGeneric];
     AGroup 15 1 [sym_kOperator]; AGroup 18756 1 [sym_kClass]; AGroup 18760 1 [sym_kExports];
     AGroup 18762 1 [sym_kLabel]; AGroup 18766 1 [sym_kType]; AGroup 18768 1 [sym_kUses];
     AGroup 18972 1 [sym_kAsm]; AGroup 18974 1 [sym_kBegin]; SGroup 16 1 [sym__ppIf];
     SGroup 3837 1 [sym_blockTr]; SGroup 6432 1 [sym_declProc]; SGroup 7779 1 [sym_asmTr];
     SGroup 10355 1 [sym__declProc]; SGroup 10443 1 [sym__declOperator];
     SGroup 11110 1 [sym_rttiAttributes]; SGroup 11216 1 [aux_sym_rttiAttributes_repeat2];
     AGroup 3 2 syms_5; AGroup 18758 2 syms_65; AGroup 18764 2 syms_66; AGroup 23 4 syms_3;
     SGroup 7035 11 syms_210]);
   (340651, 25, [AGroup 5 1 [sym_ppDirective]; AGroup 9 1 [anon_sym_LBRACK];
     AGroup 11 1 [aux_sym_ppUsesBlock_token1]; AGroup 13 1 [sym_kGeneric];
     AGroup 15 1 [sym_kOperator]; AGroup 18756 1 [sym_kClass]; AGroup 18760 1 [sym_kExports];
     AGroup 18762 1 [sym_kLabel]; AGroup 18766 1 [sym_kType]; AGroup 18768 1 [sym_kUses];
     AGroup 18972 1 [sym_kAsm]; AGroup 18974 1 [sym_kBegin]; SGroup 16 1 [sym__ppIf];
     SGroup 3974 1 [sym_blockTr]; SGroup 6432 1 [sym_declProc]; SGroup 7896 1 [sym_asmTr];
     SGroup 10355 1 [sym__declProc]; SGroup 10443 1 [sym__declOperator];
     SGroup 11110 1 [sym_rttiAttributes]; SGroup 11216 1 [aux_sym_rttiAttributes_repeat2];
     AGroup 3 2 syms_5; AGroup 18758 2 syms_65; AGroup 18764 2 syms_66; AGroup 23 4 syms_3;
     SGroup 6870 11 syms_210]);
   (340743, 25, [AGroup 5 1 [sym_ppDirective]; AGroup 9 1 [anon_sym_LBRACK];
     AGroup 11 1 [aux_sym_ppUsesBlock_token1]; AGroup 13 1 [sym_kGeneric];
     AGroup 15 1 [sym_kOperator]; AGroup 18756 1 [sym_kClass]; AGroup 18760 1 [sym_kExports];
     AGroup 18762 1 [sym_kLabel]; AGroup 18766 1 [sym_kType]; AGroup 18768 1 [sym_kUses];
     AGroup 19201 1 [sym_kAsm]; AGroup 19203 1 [sym_kBegin]; SGroup 16 1 [sym__ppIf];
     SGroup 4264 1 [sym_blockTr]; SGroup 6432 1 [sym_declProc]; SGroup 8177 1 [sym_asmTr];
     SGroup 10355 1 [sym__declProc]; SGroup 10443 1 [sym__declOperator];
     SGroup 11110 1 [sym_rttiAttributes]; SGroup 11216 1 [aux_sym_rttiAttributes_repeat2];
     AGroup 3 2 syms_5; AGroup 18758 2 syms_65; AGroup 18764 2 syms_66; AGroup 23 4 syms_3;
     SGroup 7035 11 syms_210]);
   (340835, 25, [AGroup 5 1 [sym_ppDirective]; AGroup 9 1 [anon_sym_LBRACK];
     AGroup 11 1 [aux_sym_ppUsesBlock_token1]; AGroup 13 1 [sym_kGeneric];
     AGroup 15 1 [sym_kOperator]; AGroup 18756 1 [sym_kClass]; AGroup 18760 1 [sym_kExports];
     AGroup 18762 1 [sym_kLabel]; AGroup 18766 1 [sym_kType]; AGroup 18768 1 [sym_kUses];
     AGroup 18966 1 [sym_kAsm]; AGroup 18968 1 [sym_kBegin]; SGroup 16 1 [sym__ppIf];
     SGroup 3753 1 [sym_blockTr]; SGroup 6432 1 [sym_declProc]; SGroup 7649 1 [sym_asmTr];
     SGroup 10355 1 [sym__declProc]; SGroup 10443 1 [sym__declOperator];
     SGroup 11110 1 [sym_rttiAttributes]; SGroup 11216 1 [aux_sym_rttiAttributes_repeat2];
     AGroup 3 2 syms_5; AGroup 18758 2 syms_65; AGroup 18764 2 syms_66; AGroup 23 4 syms_3;
     SGroup 7035 11 syms_210]);
   (340927, 25, [AGroup 5 1 [sym_ppDirective]; AGroup 9 1 [anon_sym_LBRACK];
     AGroup 11 1 [aux_sym_ppUsesBlock_token1]; AGroup 13 1 [sym_kGeneric];
     AGroup 15 1 [sym_kOperator]; AGroup 18756 1 [sym_kClass]; AGroup 18760 1 [sym_kExports];
     AGroup 18762 1 [sym_kLabel]; AGroup 18766 1 [sym_kType]; AGroup 18768 1 [sym_kUses];
     AGroup 19201 1 [sym_kAsm]; AGroup 19203 1 [sym_kBegin]; SGroup 16 1 [sym__ppIf];
     SGroup 4267 1 [sym_blockTr]; SGroup 6432 1 [sym_declProc]; SGroup 8224 1 [sym_asmTr];
     SGroup 10355 1 [sym__declProc]; SGroup 10443 1 [sym__declOperator];
     SGroup 11110 1 [sym_rttiAttributes]; SGroup 11216 1 [aux_sym_rttiAttributes_repeat2];
     AGroup 3 2 syms_5; AGroup 18758 2 syms_65; AGroup 18764 2 syms_66; AGroup 23 4 syms_3;
     SGroup 6867 11 syms_210]);
   (341019, 25, [AGroup 5 1 [sym_ppDirective]; AGroup 9 1 [anon_sym_LBRACK];
     AGroup 11 1 [aux_sym_ppUsesBlock_token1]; AGroup 13 1 [sym_kGeneric];
     AGroup 15 1 [sym_kOperator]; AGroup 18756 1 [sym_kClass]; AGroup 18760 1 [sym_kExports];
     AGroup 18762 1 [sym_kLabel]; AGroup 18766 1 [sym_kType]; AGroup 18768 1 [sym_kUses];
     AGroup 19201 1 [sym_kAsm]; AGroup 19203 1 [sym_kBegin]; SGroup 16 1 [sym__ppIf];
     SGroup 4268 1 [sym_blockTr]; SGroup 6432 1 [sym_declProc]; SGroup 8229 1 [sym_asmTr];
     SGroup 10355 1 [sym__declProc]; SGroup 10443 1 [sym__declOperator];
     SGroup 11110 1 [sym_rttiAttributes]; SGroup 11216 1 [aux_sym_rttiAttributes_repeat2];
     AGroup 3 2 syms_5; AGroup 18758 2 syms_65; AGroup 18764 2 syms_66; AGroup 23 4 syms_3;
     SGroup 7035 11 syms_210]);
   (341111, 25, [AGroup 5 1 [sym_ppDirective]; AGroup 9 1 [anon_sym_LBRACK];
     AGroup 11 1 [aux_sym_ppUsesBlock_token1]; AGroup 13 1 [sym_kGeneric];
     AGroup 15 1 [sym_kOperator]; AGroup 18756 1 [sym_kClass]; AGroup 18760 1 [sym_kExports];
     AGroup 18762 1 [sym_kLabel]; AGroup 18766 1 [sym_kType]; AGroup 18768 1 [sym_kUses];
     AGroup 19201 1 [sym_kAsm]; AGroup 19203 1 [sym_kBegin]; SGroup 16 1 [sym__ppIf];
     SGroup 4269 1 [sym_blockTr]; SGroup 6432 1 [sym_declProc]; SGroup 8260 1 [sym_asmTr];
     SGroup 10355 1 [sym__declProc]; SGroup 10443 1 [sym__declOperator];
     SGroup 11110 1 [sym_rttiAttributes]; SGroup 11216 1 [aux_sym_rttiAttributes_repeat2];
     AGroup 3 2 syms_5; AGroup 18758 2 syms_65; AGroup 18764 2 syms_66; AGroup 23 4 syms_3;
     SGroup 7035 11 syms_210]);
   (341203, 25, [AGroup 5 1 [sym_ppDirective]; AGroup 9 1 [anon_sym_LBRACK];
     AGroup 11 1 [aux_sym_ppUsesBlock_token1]; AGroup 13 1 [sym_kGeneric];
     AGroup 15 1 [sym_kOperator]; AGroup 18756 1 [sym_kClass]; AGroup 18760 1 [sym_kExports];
     AGroup 18762 1 [sym_kLabel]; AGroup 18766 1 [sym_kType]; AGroup 18768 1 [sym_kUses];
     AGroup 19201 1 [sym_kAsm]; AGroup 19203 1 [sym_kBegin]; SGroup 16 1 [sym__ppIf];
     SGroup 4270 1 [sym_blockTr]; SGroup 6432 1 [sym_declProc]; SGroup 8267 1 [sym_asmTr];
     SGroup 10355 1 [sym__declProc]; SGroup 10443 1 [sym__declOperator];
     SGroup 11110 1 [sym_rttiAttributes]; SGroup 11216 1 [aux_sym_rttiAttributes_repeat2];
     AGroup 3 2 syms_5; AGroup 18758 2 syms_65; AGroup 18764 2 syms_66; AGroup 23 4 syms_3;
     SGroup 6869 11 syms_210]);
   (341295, 25, [AGroup 5 1 [sym_ppDirective]; AGroup 9 1 [anon_sym_LBRACK];
     AGroup 11 1 [aux_sym_ppUsesBlock_token1]; AGroup 13 1 [sym_kGeneric];
     AGroup 15 1 [sym_kOperator]; AGroup 18756 1 [sym_kClass]; AGroup 18760 1 [sym_kExports];
     AGroup 18762 1 [sym_kLabel]; AGroup 18766 1 [sym_kType]; AGroup 18768 1 [sym_kUses];
     AGroup 19201 1 [sym_kAsm]; AGroup 19203 1 [sym_kBegin]; SGroup 16 1 [sym__ppIf];
     SGroup 4272 1 [sym_blockTr]; SGroup 6432 1 [sym_declProc]; SGroup 8275 1 [sym_asmTr];
     SGroup 10355 1 [sym__declProc]; SGroup 10443 1 [sym__declOperator];
     SGroup 11110 1 [sym_rttiAttributes]; SGroup 11216 1 [aux_sym_rttiAttributes_repeat2];
     AGroup 3 2 syms_5; AGroup 18758 2 syms_65; AGroup 18764 2 syms_66; AGroup 23 4 syms_3;
     SGroup 7035 11 syms_210]);
   (341387, 25, [AGroup 5 1 [sym_ppDirective]; AGroup 9 1 [anon_sym_LBRACK];
     AGroup 11 1 [aux_sym_ppUsesBlock_token1]; AGroup 13 1 [sym_kGeneric];
     AGroup 15 1 [sym_kOperator]; AGroup 18756 1 [sym_kClass]; AGroup 18760 1 [sym_kExports];
     AGroup 18762 1 [sym_kLabel]; AGroup 18766 1 [sym_kType]; AGroup 18768 1 [sym_kUses];
     AGroup 18972 1 [sym_kAsm]; AGroup 18974 1 [sym_kBegin]; SGroup 16 1 [sym__ppIf];
     SGroup 3976 1 [sym_blockTr]; SGroup 6432 1 [sym_declProc]; SGroup 7899 1 [sym_asmTr];
     SGroup 10355 1 [sym__declProc]; SGroup 10443 1 [sym__declOperator];
     SGroup 11110 1 [sym_rttiAttributes]; SGroup 11216 1 [aux_sym_rttiAttributes_repeat2];
     AGroup 3 2 syms_5; AGroup 18758 2 syms_65; AGroup 18764 2 syms_66; AGroup 23 4 syms_3;
     SGroup 7035 11 syms_210]);
   (341479, 4, [AGroup 5 1 [sym_ppDirective]; AGroup 3 2 syms_5; AGroup 10852 5 syms_150;
     AGroup 10850 33 syms_252]);
   (341529, 25, [AGroup 5 1 [sym_ppDirective]; AGroup 9 1 [anon_sym_LBRACK];
     AGroup 11 1 [aux_sym_ppUsesBlock_token1]; AGroup 13 1 [sym_kGeneric];
     AGroup 15 1 [sym_kOperator]; AGroup 18756 1 [sym_kClass]; AGroup 18760 1 [sym_kExports];
     AGroup 18762 1 [sym_kLabel]; AGroup 18766 1 [sym_kType]; AGroup 18768 1 [sym_kUses];
     AGroup 19195 1 [sym_kAsm]; AGroup 19197 1 [sym_kBegin]; SGroup 16 1 [sym__ppIf];
     SGroup 5776 1 [sym_blockTr]; SGroup 6432 1 [sym_declProc]; SGroup 9208 1 [sym_asmTr];
     SGroup 10355 1 [sym__declProc]; SGroup 10443 1 [sym__declOperator];
     SGroup 11110 1 [sym_rttiAttributes]; SGroup 11216 1 [aux_sym_rttiAttributes_repeat2];
     AGroup 3 2 syms_5; AGroup 18758 2 syms_65; AGroup 18764 2 syms_66; AGroup 23 4 syms_3;
     SGroup 7035 11 syms_210]);
   (341621, 4, [AGroup 5 1 [sym_ppDirective]; AGroup 3 2 syms_5; AGroup 10856 5 syms_150;
     AGroup 10854 33 syms_252]);
   (341671, 25, [AGroup 5 1 [sym_ppDirective]; AGroup 9 1 [anon_sym_LBRACK];
     AGroup 11 1 [aux_sym_ppUsesBlock_token1]; AGroup 13 1 [sym_kGeneric];
     AGroup 15 1 [sym_kOperator]; AGroup 18756 1 [sym_kClass]; AGroup 18760 1 [sym_kExports];
     AGroup 18762 1 [sym_kLabel]; AGroup 18766 1 [sym_kType]; AGroup 18768 1 [sym_kUses];
     AGroup 19207 1 [sym_kAsm]; AGroup 19209 1 [sym_kBegin]; SGroup 16 1 [sym__ppIf];
     SGroup 5663 1 [sym_blockTr]; SGroup 6432 1 [sym_declProc]; SGroup 8805 1 [sym_asmTr];
     SGroup 10355 1 [sym__declProc]; SGroup 10443 1 [sym__declOperator];
     SGroup 11110 1 [sym_rttiAttributes]; SGroup 11216 1 [aux_sym_rttiAttributes_repeat2];
     AGroup 3 2 syms_5; AGroup 18758 2 syms_65; AGroup 18764 2 syms_66; AGroup 23 4 syms_3;
     SGroup 7035 11 syms_210]);
   (341763, 25, [AGroup 5 1 [sym_ppDirective]; AGroup 9 1 [anon_sym_LBRACK];
     AGroup 11 1 [aux_sym_ppUsesBlock_token1]; AGroup 13 1 [sym_kGeneric];
     AGroup 15 1 [sym_kOperator]; AGroup 18756 1 [sym_kClass]; AGroup 18760 1 [sym_kExports];
     AGroup 18762 1 [sym_kLabel]; AGroup 18766 1 [sym_kType]; AGroup 18768 1 [sym_kUses];
     AGroup 18925 1 [sym_kAsm]; AGroup 18927 1 [sym_kBegin]; SGroup 16 1 [sym__ppIf];
     SGroup 5757 1 [sym_blockTr]; SGroup 6432 1 [sym_declProc]; SGroup 9112 1 [sym_asmTr];
     SGroup 10355 1 [sym__declProc]; SGroup 10443 1 [sym__declOperator];
     SGroup 11110 1 [sym_rttiAttributes]; SGroup 11216 1 [aux_sym_rttiAttributes_repeat2];
     AGroup 3 2 syms_5; AGroup 18758 2 syms_65; AGroup 18764 2 syms_66; AGroup 23 4 syms_3;
     SGroup 7035 11 syms_210]);
   (341855, 25, [AGroup 5 1 [sym_ppDirective]; AGroup 9 1 [anon_sym_LBRACK];
     AGroup 11 1 [aux_sym_ppUsesBlock_token1]; AGroup 13 1 [sym_kGeneric];
     AGroup 15 1 [sym_kOperator]; AGroup 18756 1 [sym_kClass]; AGroup 18760 1 [sym_kExports];
     AGroup 18762 1 [sym_kLabel]; AGroup 18766 1 [sym_kType]; AGroup 18768 1 [sym_kUses];
     AGroup 18919 1 [sym_kAsm]; AGroup 18921 1 [sym_kBegin]; SGroup 16 1 [sym__ppIf];
     SGroup 3050 1 [sym_blockTr]; SGroup 6432 1 [sym_declProc]; SGroup 7091 1 [sym_asmTr];
     SGroup 10355 1 [sym__declProc]; SGroup 10443 1 [sym__declOperator];
     SGroup 11110 1 [sym_rttiAttributes]; SGroup 11216 1 [aux_sym_rttiAttributes_repeat2];
     AGroup 3 2 syms_5; AGroup 18758 2 syms_65; AGroup 18764 2 syms_66; AGroup 23 4 syms_3;
     SGroup 7035 11 syms_210]);
   (341947, 25, [AGroup 5 1 [sym_ppDirective]; AGroup 9 1 [anon_sym_LBRACK];
     AGroup 11 1 [aux_sym_ppUsesBlock_token1]; AGroup 13 1 [sym_kGeneric];
     AGroup 15 1 [sym_kOperator]; AGroup 18756 1 [sym_kClass]; AGroup 18760 1 [sym_kExports];
     AGroup 18762 1 [sym_kLabel]; AGroup 18766 1 [sym_kType]; AGroup 18768 1 [sym_kUses];
     AGroup 18984 1 [sym_kAsm]; AGroup 18986 1 [sym_kBegin]; SGroup 16 1 [sym__ppIf];
     SGroup 4154 1 [sym_blockTr]; SGroup 6432 1 [sym_declProc]; SGroup 8126 1 [sym_asmTr];
     SGroup 10355 1 [sym__declProc]; SGroup 10443 1 [sym__declOperator];
     SGroup 11110 1 [sym_rttiAttributes]; SGroup 11216 1 [aux_sym_rttiAttributes_repeat2];
     AGroup 3 2 syms_5; AGroup 18758 2 syms_65; AGroup 18764 2 syms_66; AGroup 23 4 syms_3;
     SGroup 7035 11 syms_210]);
   (342039, 25, [AGroup 5 1 [sym_ppDirective]; AGroup 9 1 [anon_sym_LBRACK];
     AGroup 11 1 [aux_sym_ppUsesBlock_token1]; AGroup 13 1 [sym_kGeneric];
     AGroup 15 1 [sym_kOperator]; AGroup 18756 1 [sym_kClass]; AGroup 18760 1 [sym_kExports];
     AGroup 18762 1 [sym_kLabel]; AGroup 18766 1 [sym_kType]; AGroup 18768 1 [sym_kUses];
     AGroup 19207 1 [sym_kAsm]; AGroup 19209 1 [sym_kBegin]; SGroup 16 1 [sym__ppIf];
     SGroup 5531 1 [sym_blockTr]; SGroup 6432 1 [sym_declProc]; SGroup 8817 1 [sym_asmTr];
     SGroup 10355 1 [sym__declProc]; SGroup 10443 1 [sym__declOperator];
     SGroup 11110 1 [sym_rttiAttributes]; SGroup 11216 1 [aux_sym_rttiAttributes_repeat2];
     AGroup 3 2 syms_5; AGroup 18758 2 syms_65; AGroup 18764 2 syms_66; AGroup 23 4 syms_3;
     SGroup 6881 11 syms_210]);
   (342131, 25, [AGroup 5 1 [sym_ppDirective]; AGroup 9 1 [anon_sym_LBRACK];
     AGroup 11 1 [aux_sym_ppUsesBlock_token1]; AGroup 13 1 [sym_kGeneric];
     AGroup 15 1 [sym_kOperator]; AGroup 18756 1 [sym_kClass]; AGroup 18760 1 [sym_kExports];
     AGroup 18762 1 [sym_kLabel]; AGroup 18766 1 [sym_kType]; AGroup 18768 1 [sym_kUses];
     AGroup 19207 1 [sym_kAsm]; AGroup 19209 1 [sym_kBegin]; SGroup 16 1 [sym__ppIf];
     SGroup 5534 1 [sym_blockTr]; SGroup 6432 1 [sym_declProc]; SGroup 8820 1 [sym_asmTr];
     SGroup 10355 1 [sym__declProc]; SGroup 10443 1 [sym__declOperator];
     SGroup 11110 1 [sym_rttiAttributes]; SGroup 11216 1 [aux_sym_rttiAttributes_repeat2];
     AGroup 3 2 syms_5; AGroup 18758 2 syms_65; AGroup 18764 2 syms_66; AGroup 23 4 syms_3;
     SGroup 7035 11 syms_210]);
   (342223, 25, [AGroup 5 1 [sym_ppDirective]; AGroup 9 1 [anon_sym_LBRACK];
     AGroup 11 1 [aux_sym_ppUsesBlock_token1]; AGroup 13 1 [sym_kGeneric];
     AGroup 15 1 [sym_kOperator]; AGroup 18756 1 [sym_kClass]; AGroup 18760 1 [sym_kExports];
     AGroup 18762 1 [sym_kLabel]; AGroup 18766 1 [sym_kType]; AGroup 18768 1 [sym_kUses];
     AGroup 18984 1 [sym_kAsm]; AGroup 18986 1 [sym_kBegin]; SGroup 16 1 [sym__ppIf];
     SGroup 4157 1 [sym_blockTr]; SGroup 6432 1 [sym_declProc]; SGroup 8127 1 [sym_asmTr];
     SGroup 10355 1 [sym__declProc]; SGroup 10443 1 [sym__declOperator];
     SGroup 11110 1 [sym_rttiAttributes]; SGroup 11216 1 [aux_sym_rttiAttributes_repeat2];
     AGroup 3 2 syms_5; AGroup 18758 2 syms_65; AGroup 18764 2 syms_66; AGroup 23 4 syms_3;
     SGroup 6920 11 syms_210]);
   (342315, 25, [AGroup 5 1 [sym_ppDirective]; AGroup 9 1 [anon_sym_LBRACK];
     AGroup 11 1 [aux_sym_ppUsesBlock_token1]; AGroup 13 1 [sym_kGeneric];
     AGroup 15 1 [sym_kOperator]; AGroup 18756 1 [sym_kClass]; AGroup 18760 1 [sym_kExports];
     AGroup 18762 1 [sym_kLabel]; AGroup 18766 1 [sym_kType]; AGroup 18768 1 [sym_kUses];
     AGroup 19207 1 [sym_kAsm]; AGroup 19209 1 [sym_kBegin]; SGroup 16 1 [sym__ppIf];
     SGroup 5535 1 [sym_blockTr]; SGroup 6432 1 [sym_declProc]; SGroup 8828 1 [sym_asmTr];
     SGroup 10355 1 [sym__declProc]; SGroup 10443 1 [sym__declOperator];
     SGroup 11110 1 [sym_rttiAttributes]; SGroup 11216 1 [aux_sym_rttiAttributes_repeat2];
     AGroup 3 2 syms_5; AGroup 18758 2 syms_65; AGroup 18764 2 syms_66; AGroup 23 4 syms_3;
     SGroup 7035 11 syms_210]);
   (342407, 25, [AGroup 5 1 [sym_ppDirective]; AGroup 9 1 [anon_sym_LBRACK];
     AGroup 11 1 [aux_sym_ppUsesBlock_token1]; AGroup 13 1 [sym_kGeneric];
     AGroup 15 1 [sym_kOperator]; AGroup 18756 1 [sym_kClass]; AGroup 18760 1 [sym_kExports];
     AGroup 18762 1 [sym_kLabel]; AGroup 18766 1 [sym_kType]; AGroup 18768 1 [sym_kUses];
     AGroup 19207 1 [sym_kAsm]; AGroup 19209 1 [sym_kBegin]; SGroup 16 1 [sym__ppIf];
     SGroup 5544 1 [sym_blockTr]; SGroup 6432 1 [sym_declProc]; SGroup 8829 1 [sym_asmTr];
     SGroup 10355 1 [sym__declProc]; SGroup 10443 1 [sym__declOperator];
     SGroup 11110 1 [sym_rttiAttributes]; SGroup 11216 1 [aux_sym_rttiAttributes_repeat2];
     AGroup 3 2 syms_5; AGroup 18758 2 syms_65; AGroup 18764 2 syms_66; AGroup 23 4 syms_3;
     SGroup 6883 11 syms_210]);
   (342499, 25, [AGroup 5 1 [sym_ppDirective]; AGroup 9 1 [anon_sym_LBRACK];
     AGroup 11 1 [aux_sym_ppUsesBlock_token1]; AGroup 13 1 [sym_kGeneric];
     AGroup 15 1 [sym_kOperator]; AGroup 18756 1 [sym_kClass]; AGroup 18760 1 [sym_kExports];
     AGroup 18762 1 [sym_kLabel]; AGroup 18766 1 [sym_kType]; AGroup 18768 1 [sym_kUses];
     AGroup 19207 1 [sym_kAsm]; AGroup 19209 1 [sym_kBegin]; SGroup 16 1 [sym__ppIf];
     SGroup 5574 1 [sym_blockTr]; SGroup 6432 1 [sym_declProc]; SGroup 9022 1 [sym_asmTr];
     SGroup 10355 1 [sym__declProc]; SGroup 10443 1 [sym__declOperator];
     SGroup 11110 1 [sym_rttiAttributes]; SGroup 11216 1 [aux_sym_rttiAttributes_repeat2];
     AGroup 3 2 syms_5; AGroup 18758 2 syms_65; AGroup 18764 2 syms_66; AGroup 23 4 syms_3;
     SGroup 7035 11 syms_210]);
   (342591, 9, [AGroup 5 1 [sym_ppDirective]; AGroup 17042 1 [anon_sym_DOT];
     AGroup 19609 1 [anon_sym_LBRACK]; AGroup 19611 1 [anon_sym_LPAREN];
     AGroup 19613 1 [sym_kLt]; SGroup 4292 1 [sym_kDot]; AGroup 3 2 syms_5;
     AGroup 17046 5 syms_267; AGroup 17036 28 syms_268]);
   (342651, 25, [AGroup 5 1 [sym_ppDirective]; AGroup 9 1 [anon_sym_LBRACK];
     AGroup 11 1 [aux_sym_ppUsesBlock_token1]; AGroup 13 1 [sym_kGeneric];
     AGroup 15 1 [sym_kOperator]; AGroup 18756 1 [sym_kClass]; AGroup 18760 1 [sym_kExports];
     AGroup 18762 1 [sym_kLabel]; AGroup 18766 1 [sym_kType]; AGroup 18768 1 [sym_kUses];
     AGroup 19213 1 [sym_kAsm]; AGroup 19215 1 [sym_kBegin]; SGroup 16 1 [sym__ppIf];
     SGroup 2911 1 [sym_blockTr]; SGroup 6432 1 [sym_declProc]; SGroup 6987 1 [sym_asmTr];
     SGroup 10355 1 [sym__declProc]; SGroup 10443 1 [sym__declOperator];
     SGroup 11110 1 [sym_rttiAttributes]; SGroup 11216 1 [aux_sym_rttiAttributes_repeat2];
     AGroup 3 2 syms_5; AGroup 18758 2 syms_65; AGroup 18764 2 syms_66; AGroup 23 4 syms_3;
     SGroup 7035 11 syms_210]);
   (342743, 5, [AGroup 5 1 [sym_ppDirective]; SGroup 4288 1 [sym__exprIsNot]; AGroup 3 2 syms_5;
     AGroup 17032 7 syms_34; AGroup 17030 30 syms_37]);
   (342795, 7, [AGroup 5 1 [sym_ppDirective]; AGroup 19618 1 [anon_sym_POUND]; AGroup 3 2 syms_5;
     AGroup 19615 2 syms_6; SGroup 6887 3 syms_13; AGroup 15241 7 syms_34;
     AGroup 15239 25 syms_106]);
   (342851, 25, [AGroup 5 1 [sym_ppDirective]; AGroup 9 1 [anon_sym_LBRACK];
     AGroup 11 1 [aux_sym_ppUsesBlock_token1]; AGroup 13 1 [sym_kGeneric];
     AGroup 15 1 [sym_kOperator]; AGroup 18756 1 [sym_kClass]; AGroup 18760 1 [sym_kExports];
     AGroup 18762 1 [sym_kLabel]; AGroup 18766 1 [sym_kType]; AGroup 18768 1 [sym_kUses];
     AGroup 19213 1 [sym_kAsm]; AGroup 19215 1 [sym_kBegin]; SGroup 16 1 [sym__ppIf];
     SGroup 2918 1 [sym_blockTr]; SGroup 6432 1 [sym_declProc]; SGroup 7039 1 [sym_asmTr];
     SGroup 10355 1 [sym__declProc]; SGroup 10443 1 [sym__declOperator];
     SGroup 11110 1 [sym_rttiAttributes]; SGroup 11216 1 [aux_sym_rttiAttributes_repeat2];
     AGroup 3 2 syms_5; AGroup 18758 2 syms_65; AGroup 18764 2 syms_66; AGroup 23 4 syms_3;
     SGroup 6890 11 syms_210]);
   (342943, 25, [AGroup 5 1 [sym_ppDirective]; AGroup 9 1 [anon_sym_LBRACK];
     AGroup 11 1 [aux_sym_ppUsesBlock_token1]; AGroup 13 1 [sym_kGeneric];
     AGroup 15 1 [sym_kOperator]; AGroup 18756 1 [sym_kClass]; AGroup 18760 1 [sym_kExports];
     AGroup 18762 1 [sym_kLabel]; AGroup 18766 1 [sym_kType]; AGroup 18768 1 [sym_kUses];
     AGroup 19213 1 [sym_kAsm]; AGroup 19215 1 [sym_kBegin]; SGroup 16 1 [sym__ppIf];
     SGroup 2869 1 [sym_blockTr]; SGroup 6432 1 [sym_declProc]; SGroup 7033 1 [sym_asmTr];
     SGroup 10355 1 [sym__declProc]; SGroup 10443 1 [sym__declOperator];
     SGroup 11110 1 [sym_rttiAttributes]; SGroup 11216 1 [aux_sym_rttiAttributes_repeat2];
     AGroup 3 2 syms_5; AGroup 18758 2 syms_65; AGroup 18764 2 syms_66; AGroup 23 4 syms_3;
     SGroup 7035 11 syms_210]);
   (343035, 25, [AGroup 5 1 [sym_ppDirective]; AGroup 9 1 [anon_sym_LBRACK];
     AGroup 11 1 [aux_sym_ppUsesBlock_token1]; AGroup 13 1 [sym_kGeneric];
     AGroup 15 1 [sym_kOperator]; AGroup 18756 1 [sym_kClass]; AGroup 18760 1 [sym_kExports];
     AGroup 18762 1 [sym_kLabel]; AGroup 18766 1 [sym_kType]; AGroup 18768 1 [sym_kUses];
     AGroup 19213 1 [sym_kAsm]; AGroup 19215 1 [sym_kBegin]; SGroup 16 1 [sym__ppIf];
     SGroup 2879 1 [sym_blockTr]; SGroup 6432 1 [sym_declProc]; SGroup 6996 1 [sym_asmTr];
     SGroup 10355 1 [sym__declProc]; SGroup 10443 1 [sym__declOperator];
     SGroup 11110 1 [sym_rttiAttributes]; SGroup 11216 1 [aux_sym_rttiAttributes_repeat2];
     AGroup 3 2 syms_5; AGroup 18758 2 syms_65; AGroup 18764 2 syms_66; AGroup 23 4 syms_3;
     SGroup 7035 11 syms_210]);
   (343127, 25, [AGroup 5 1 [sym_ppDirective]; AGroup 9 1 [anon_sym_LBRACK];
     AGroup 11 1 [aux_sym_ppUsesBlock_token1]; AGroup 13 1 [sym_kGeneric];
     AGroup 15 1 [sym_kOperator]; AGroup 18756 1 [sym_kClass]; AGroup 18760 1 [sym_kExports];
     AGroup 18762 1 [sym_kLabel]; AGroup 18766 1 [sym_kType]; AGroup 18768 1 [sym_kUses];
     AGroup 19213 1 [sym_kAsm]; AGroup 19215 1 [sym_kBegin]; SGroup 16 1 [sym__ppIf];
     SGroup 2893 1 [sym_blockTr]; SGroup 6432 1 [sym_declProc]; SGroup 7025 1 [sym_asmTr];
     SGroup 10355 1 [sym__declProc]; SGroup 10443 1 [sym__declOperator];
     SGroup 11110 1 [sym_rttiAttributes]; SGroup 11216 1 [aux_sym_rttiAttributes_repeat2];
     AGroup 3 2 syms_5; AGroup 18758 2 syms_65; AGroup 18764 2 syms_66; AGroup 23 4 syms_3;
     SGroup 6892 11 syms_210]);
   (343219, 25, [AGroup 5 1 [sym_ppDirective]; AGroup 9 1 [anon_sym_LBRACK];
     AGroup 11 1 [aux_sym_ppUsesBlock_token1]; AGroup 13 1 [sym_kGeneric];
     AGroup 15 1 [sym_kOperator]; AGroup 18756 1 [sym_kClass]; AGroup 18760 1 [sym_kExports];
     AGroup 18762 1 [sym_kLabel]; AGroup 18766 1 [sym_kType]; AGroup 18768 1 [sym_kUses];
     AGroup 19213 1 [sym_kAsm]; AGroup 19215 1 [sym_kBegin]; SGroup 16 1 [sym__ppIf];
     SGroup 2900 1 [sym_blockTr]; SGroup 6432 1 [sym_declProc]; SGroup 7001 1 [sym_asmTr];
     SGroup 10355 1 [sym__declProc]; SGroup 10443 1 [sym__declOperator];
     SGroup 11110 1 [sym_rttiAttributes]; SGroup 11216 1 [aux_sym_rttiAttributes_repeat2];
     AGroup 3 2 syms_5; AGroup 18758 2 syms_65; AGroup 18764 2 syms_66; AGroup 23 4 syms_3;
     SGroup 7035 11 syms_210]);
   (343311, 25, [AGroup 5 1 [sym_ppDirective]; AGroup 9 1 [anon_sym_LBRACK];
     AGroup 11 1 [aux_sym_ppUsesBlock_token1]; AGroup 13 1 [sym_kGeneric];
     AGroup 15 1 [sym_kOperator]; AGroup 18756 1 [sym_kClass]; AGroup 18760 1 [sym_kExports];
     AGroup 18762 1 [sym_kLabel]; AGroup 18766 1 [sym_kType]; AGroup 18768 1 [sym_kUses];
     AGroup 19035 1 [sym_kAsm]; AGroup 19037 1 [sym_kBegin]; SGroup 16 1 [sym__ppIf];
     SGroup 3580 1 [sym_blockTr]; SGroup 6432 1 [sym_declProc]; SGroup 7562 1 [sym_asmTr];
     SGroup 10355 1 [sym__declProc]; SGroup 10443 1 [sym__declOperator];
     SGroup 11110 1 [sym_rttiAttributes]; SGroup 11216 1 [aux_sym_rttiAttributes_repeat2];
     AGroup 3 2 syms_5; AGroup 18758 2 syms_65; AGroup 18764 2 syms_66; AGroup 23 4 syms_3;
     SGroup 7035 11 syms_210]);
   (343403, 25, [AGroup 5 1 [sym_ppDirective]; AGroup 9 1 [anon_sym_LBRACK];
     AGroup 11 1 [aux_sym_ppUsesBlock_token1]; AGroup 13 1 [sym_kGeneric];
     AGroup 15 1 [sym_kOperator]; AGroup 18756 1 [sym_kClass]; AGroup 18760 1 [sym_kExports];
     AGroup 18762 1 [sym_kLabel]; AGroup 18766 1 [sym_kType]; AGroup 18768 1 [sym_kUses];
     AGroup 18978 1 [sym_kAsm]; AGroup 18980 1 [sym_kBegin]; SGroup 16 1 [sym__ppIf];
     SGroup 5603 1 [sym_blockTr]; SGroup 6432 1 [sym_declProc]; SGroup 8758 1 [sym_asmTr];
     SGroup 10355 1 [sym__declProc]; SGroup 10443 1 [sym__declOperator];
     SGroup 11110 1 [sym_rttiAttributes]; SGroup 11216 1 [aux_sym_rttiAttributes_repeat2];
     AGroup 3 2 syms_5; AGroup 18758 2 syms_65; AGroup 18764 2 syms_66; AGroup 23 4 syms_3;
     SGroup 7035 11 syms_210]);
   (343495, 25, [AGroup 5 1 [sym_ppDirective]; AGroup 9 1 [anon_sym_LBRACK];
     AGroup 11 1 [aux_sym_ppUsesBlock_token1]; AGroup 13 1 [sym_kGeneric];
     AGroup 15 1 [sym_kOperator]; AGroup 18756 1 [sym_kClass]; AGroup 18760 1 [sym_kExports];
     AGroup 18762 1 [sym_kLabel]; AGroup 18766 1 [sym_kType]; AGroup 18768 1 [sym_kUses];
     AGroup 19219 1 [sym_kAsm]; AGroup 19221 1 [sym_kBegin]; SGroup 16 1 [sym__ppIf];
     SGroup 5536 1 [sym_blockTr]; SGroup 6432 1 [sym_declProc]; SGroup 8883 1 [sym_asmTr];
     SGroup 10355 1 [sym__declProc]; SGroup 10443 1 [sym__declOperator];
     SGroup 11110 1 [sym_rttiAttributes]; SGroup 11216 1 [aux_sym_rttiAttributes_repeat2];
     AGroup 3 2 syms_5; AGroup 18758 2 syms_65; AGroup 18764 2 syms_66; AGroup 23 4 syms_3;
     SGroup 7035 11 syms_210]);
   (343587, 25, [AGroup 5 1 [sym_ppDirective]; AGroup 9 1 [anon_sym_LBRACK];
     AGroup 11 1 [aux_sym_ppUsesBlock_token1]; AGroup 13 1 [sym_kGeneric];
     AGroup 15 1 [sym_kOperator]; AGroup 18756 1 [sym_kClass]; AGroup 18760 1 [sym_kExports];
     AGroup 18762 1 [sym_kLabel]; AGroup 18766 1 [sym_kType]; AGroup 18768 1 [sym_kUses];
     AGroup 19219 1 [sym_kAsm]; AGroup 19221 1 [sym_kBegin]; SGroup 16 1 [sym__ppIf];
     SGroup 5551 1 [sym_blockTr]; SGroup 6432 1 [sym_declProc]; SGroup 8891 1 [sym_asmTr];
     SGroup 10355 1 [sym__declProc]; SGroup 10443 1 [sym__declOperator];
     SGroup 11110 1 [sym_rttiAttributes]; SGroup 11216 1 [aux_sym_rttiAttributes_repeat2];
     AGroup 3 2 syms_5; AGroup 18758 2 syms_65; AGroup 18764 2 syms_66; AGroup 23 4 syms_3;
     SGroup 6899 11 syms_210]);
   (343679, 25, [AGroup 5 1 [sym_ppDirective]; AGroup 9 1 [anon_sym_LBRACK];
     AGroup 11 1 [aux_sym_ppUsesBlock_token1]; AGroup 13 1 [sym_kGeneric];
     AGroup 15 1 [sym_kOperator]; AGroup 18756 1 [sym_kClass]; AGroup 18760 1 [sym_kExports];
     AGroup 18762 1 [sym_kLabel]; AGroup 18766 1 [sym_kType]; AGroup 18768 1 [sym_kUses];
     AGroup 19219 1 [sym_kAsm]; AGroup 19221 1 [sym_kBegin]; SGroup 16 1 [sym__ppIf];
     SGroup 5556 1 [sym_blockTr]; SGroup 6432 1 [sym_declProc]; SGroup 8892 1 [sym_asmTr];
     SGroup 10355 1 [sym__declProc]; SGroup 10443 1 [sym__declOperator];
     SGroup 11110 1 [sym_rttiAttributes]; SGroup 11216 1 [aux_sym_rttiAttributes_repeat2];
     AGroup 3 2 syms_5; AGroup 18758 2 syms_65; AGroup 18764 2 syms_66; AGroup 23 4 syms_3;
     SGroup 7035 11 syms_210]);
   (343771, 25, [AGroup 5 1 [sym_ppDirective]; AGroup 9 1 [anon_sym_LBRACK];
     AGroup 11 1 [aux_sym_ppUsesBlock_token1]; AGroup 13 1 [sym_kGeneric];
     AGroup 15 1 [sym_kOperator]; AGroup 18756 1 [sym_kClass]; AGroup 18760 1 [sym_kExports];
     AGroup 18762 1 [sym_kLabel]; AGroup 18766 1 [sym_kType]; AGroup 18768 1 [sym_kUses];
     AGroup 19195 1 [sym_kAsm]; AGroup 19197 1 [sym_kBegin]; SGroup 16 1 [sym__ppIf];
     SGroup 5755 1 [sym_blockTr]; SGroup 6432 1 [sym_declProc]; SGroup 9264 1 [sym_asmTr];
     SGroup 10355 1 [sym__declProc]; SGroup 10443 1 [sym__declOperator];
     SGroup 11110 1 [sym_rttiAttributes]; SGroup 11216 1 [aux_sym_rttiAttributes_repeat2];
     AGroup 3 2 syms_5; AGroup 18758 2 syms_65; AGroup 18764 2 syms_66; AGroup 23 4 syms_3;
     SGroup 6925 11 syms_210]);
   (343863, 25, [AGroup 5 1 [sym_ppDirective]; AGroup 9 1 [anon_sym_LBRACK];
     AGroup 11 1 [aux_sym_ppUsesBlock_token1]; AGroup 13 1 [sym_kGeneric];
     AGroup 15 1 [sym_kOperator]; AGroup 18756 1 [sym_kClass]; AGroup 18760 1 [sym_kExports];
     AGroup 18762 1 [sym_kLabel]; AGroup 18766 1 [sym_kType]; AGroup 18768 1 [sym_kUses];
     AGroup 19219 1 [sym_kAsm]; AGroup 19221 1 [sym_kBegin]; SGroup 16 1 [sym__ppIf];
     SGroup 5558 1 [sym_blockTr]; SGroup 6432 1 [sym_declProc]; SGroup 8899 1 [sym_asmTr];
     SGroup 10355 1 [sym__declProc]; SGroup 10443 1 [sym__declOperator];
     SGroup 11110 1 [sym_rttiAttributes]; SGroup 11216 1 [aux_sym_rttiAttributes_repeat2];
     AGroup 3 2 syms_5; AGroup 18758 2 syms_65; AGroup 18764 2 syms_66; AGroup 23 4 syms_3;
     SGroup 7035 11 syms_210]);
   (343955, 25, [AGroup 5 1 [sym_ppDirective]; AGroup 9 1 [anon_sym_LBRACK];
     AGroup 11 1 [aux_sym_ppUsesBlock_token1]; AGroup 13 1 [sym_kGeneric];
     AGroup 15 1 [sym_kOperator]; AGroup 18756 1 [sym_kClass]; AGroup 18760 1 [sym_kExports];
     AGroup 18762 1 [sym_kLabel]; AGroup 18766 1 [sym_kType]; AGroup 18768 1 [sym_kUses];
     AGroup 19219 1 [sym_kAsm]; AGroup 19221 1 [sym_kBegin]; SGroup 16 1 [sym__ppIf];
     SGroup 5559 1 [sym_blockTr]; SGroup 6432 1 [sym_declProc]; SGroup 8900 1 [sym_asmTr];
     SGroup 10355 1 [sym__declProc]; SGroup 10443 1 [sym__declOperator];
     SGroup 11110 1 [sym_rttiAttributes]; SGroup 11216 1 [aux_sym_rttiAttributes_repeat2];
     AGroup 3 2 syms_5; AGroup 18758 2 syms_65; AGroup 18764 2 syms_66; AGroup 23 4 syms_3;
     SGroup 6901 11 syms_210]);
   (344047, 25, [AGroup 5 1 [sym_ppDirective]; AGroup 9 1 [anon_sym_LBRACK];
     AGroup 11 1 [aux_sym_ppUsesBlock_token1]; AGroup 13 1 [sym_kGeneric];
     AGroup 15 1 [sym_kOperator]; AGroup 18756 1 [sym_kClass]; AGroup 18760 1 [sym_kExports];
     AGroup 18762 1 [sym_kLabel]; AGroup 18766 1 [sym_kType]; AGroup 18768 1 [sym_kUses];
     AGroup 19219 1 [sym_kAsm]; AGroup 19221 1 [sym_kBegin]; SGroup 16 1 [sym__ppIf];
     SGroup 5562 1 [sym_blockTr]; SGroup 6432 1 [sym_declProc]; SGroup 8903 1 [sym_asmTr];
     SGroup 10355 1 [sym__declProc]; SGroup 10443 1 [sym__declOperator];
     SGroup 11110 1 [sym_rttiAttributes]; SGroup 11216 1 [aux_sym_rttiAttributes_repeat2];
     AGroup 3 2 syms_5; AGroup 18758 2 syms_65; AGroup 18764 2 syms_66; AGroup 23 4 syms_3;
     SGroup 7035 11 syms_210]);
   (344139, 25, [AGroup 5 1 [sym_ppDirective]; AGroup 9 1 [anon_sym_LBRACK];
     AGroup 11 1 [aux_sym_ppUsesBlock_token1]; AGroup 13 1 [sym_kGeneric];
     AGroup 15 1 [sym_kOperator]; AGroup 18756 1 [sym_kClass]; AGroup 18760 1 [sym_kExports];
     AGroup 18762 1 [sym_kLabel]; AGroup 18766 1 [sym_kType]; AGroup 18768 1 [sym_kUses];
     AGroup 18960 1 [sym_kAsm]; AGroup 18962 1 [sym_kBegin]; SGroup 16 1 [sym__ppIf];
     SGroup 4437 1 [sym_blockTr]; SGroup 6432 1 [sym_declProc]; SGroup 8241 1 [sym_asmTr];
     SGroup 10355 1 [sym__declProc]; SGroup 10443 1 [sym__declOperator];
     SGroup 11110 1 [sym_rttiAttributes]; SGroup 11216 1 [aux_sym_rttiAttributes_repeat2];
     AGroup 3 2 syms_5; AGroup 18758 2 syms_65; AGroup 18764 2 syms_66; AGroup 23 4 syms_3;
     SGroup 6973 11 syms_210]);
   (344231, 25, [AGroup 5 1 [sym_ppDirective]; AGroup 9 1 [anon_sym_LBRACK];
     AGroup 11 1 [aux_sym_ppUsesBlock_token1]; AGroup 13 1 [sym_kGeneric];
     AGroup 15 1 [sym_kOperator]; AGroup 18756 1 [sym_kClass]; AGroup 18760 1 [sym_kExports];
     AGroup 18762 1 [sym_kLabel]; AGroup 18766 1 [sym_kType]; AGroup 18768 1 [sym_kUses];
     AGroup 19035 1 [sym_kAsm]; AGroup 19037 1 [sym_kBegin]; SGroup 16 1 [sym__ppIf];
     SGroup 3508 1 [sym_blockTr]; SGroup 6432 1 [sym_declProc]; SGroup 7563 1 [sym_asmTr];
     SGroup 10355 1 [sym__declProc]; SGroup 10443 1 [sym__declOperator];
     SGroup 11110 1 [sym_rttiAttributes]; SGroup 11216 1 [aux_sym_rttiAttributes_repeat2];
     AGroup 3 2 syms_5; AGroup 18758 2 syms_65; AGroup 18764 2 syms_66; AGroup 23 4 syms_3;
     SGroup 6959 11 syms_210]);
   (344323, 25, [AGroup 5 1 [sym_ppDirective]; AGroup 9 1 [anon_sym_LBRACK];
     AGroup 11 1 [aux_sym_ppUsesBlock_token1]; AGroup 13 1 [sym_kGeneric];
     AGroup 15 1 [sym_kOperator]; AGroup 18756 1 [sym_kClass]; AGroup 18760 1 [sym_kExports];
     AGroup 18762 1 [sym_kLabel]; AGroup 18766 1 [sym_kType]; AGroup 18768 1 [sym_kUses];
     AGroup 19225 1 [sym_kAsm]; AGroup 19227 1 [sym_kBegin]; SGroup 16 1 [sym__ppIf];
     SGroup 3414 1 [sym_blockTr]; SGroup 6432 1 [sym_declProc]; SGroup 7535 1 [sym_asmTr];
     SGroup 10355 1 [sym__declProc]; SGroup 10443 1 [sym__declOperator];
     SGroup 11110 1 [sym_rttiAttributes]; SGroup 11216 1 [aux_sym_rttiAttributes_repeat2];
     AGroup 3 2 syms_5; AGroup 18758 2 syms_65; AGroup 18764 2 syms_66; AGroup 23 4 syms_3;
     SGroup 7035 11 syms_210]);
   (344415, 25, [AGroup 5 1 [sym_ppDirective]; AGroup 9 1 [anon_sym_LBRACK];
     AGroup 11 1 [aux_sym_ppUsesBlock_token1]; AGroup 13 1 [sym_kGeneric];
     AGroup 15 1 [sym_kOperator]; AGroup 18756 1 [sym_kClass]; AGroup 18760 1 [sym_kExports];
     AGroup 18762 1 [sym_kLabel]; AGroup 18766 1 [sym_kType]; AGroup 18768 1 [sym_kUses];
     AGroup 18966 1 [sym_kAsm]; AGroup 18968 1 [sym_kBegin]; SGroup 16 1 [sym__ppIf];
     SGroup 3622 1 [sym_blockTr]; SGroup 6432 1 [sym_declProc]; SGroup 7656 1 [sym_asmTr];
     SGroup 10355 1 [sym__declProc]; SGroup 10443 1 [sym__declOperator];
     SGroup 11110 1 [sym_rttiAttributes]; SGroup 11216 1 [aux_sym_rttiAttributes_repeat2];
     AGroup 3 2 syms_5; AGroup 18758 2 syms_65; AGroup 18764 2 syms_66; AGroup 23 4 syms_3;
     SGroup 7035 11 syms_210]);
   (344507, 25, [AGroup 5 1 [sym_ppDirective]; AGroup 9 1 [anon_sym_LBRACK];
     AGroup 11 1 [aux_sym_ppUsesBlock_token1]; AGroup 13 1 [sym_kGeneric];
     AGroup 15 1 [sym_kOperator]; AGroup 18756 1 [sym_kClass]; AGroup 18760 1 [sym_kExports];
     AGroup 18762 1 [sym_kLabel]; AGroup 18766 1 [sym_kType]; AGroup 18768 1 [sym_kUses];
     AGroup 19195 1 [sym_kAsm]; AGroup 19197 1 [sym_kBegin]; SGroup 16 1 [sym__ppIf];
     SGroup 5747 1 [sym_blockTr]; SGroup 6432 1 [sym_declProc]; SGroup 9265 1 [sym_asmTr];
     SGroup 10355 1 [sym__declProc]; SGroup 10443 1 [sym__declOperator];
     SGroup 11110 1 [sym_rttiAttributes]; SGroup 11216 1 [aux_sym_rttiAttributes_repeat2];
     AGroup 3 2 syms_5; AGroup 18758 2 syms_65; AGroup 18764 2 syms_66; AGroup 23 4 syms_3;
     SGroup 7035 11 syms_210]);
   (344599, 25, [AGroup 5 1 [sym_ppDirective]; AGroup 9 1 [anon_sym_LBRACK];
     AGroup 11 1 [aux_sym_ppUsesBlock_token1]; AGroup 13 1 [sym_kGeneric];
     AGroup 15 1 [sym_kOperator]; AGroup 18756 1 [sym_kClass]; AGroup 18760 1 [sym_kExports];
     AGroup 18762 1 [sym_kLabel]; AGroup 18766 1 [sym_kType]; AGroup 18768 1 [sym_kUses];
     AGroup 19261 1 [sym_kAsm]; AGroup 19263 1 [sym_kBegin]; SGroup 16 1 [sym__ppIf];
     SGroup 3406 1 [sym_blockTr]; SGroup 6432 1 [sym_declProc]; SGroup 7525 1 [sym_asmTr];
     SGroup 10355 1 [sym__declProc]; SGroup 10443 1 [sym__declOperator];
     SGroup 11110 1 [sym_rttiAttributes]; SGroup 11216 1 [aux_sym_rttiAttributes_repeat2];
     AGroup 3 2 syms_5; AGroup 18758 2 syms_65; AGroup 18764 2 syms_66; AGroup 23 4 syms_3;
     SGroup 7035 11 syms_210]);
   (344691, 25, [AGroup 5 1 [sym_ppDirective]; AGroup 9 1 [anon_sym_LBRACK];
     AGroup 11 1 [aux_sym_ppUsesBlock_token1]; AGroup 13 1 [sym_kGeneric];
     AGroup 15 1 [sym_kOperator]; AGroup 18756 1 [sym_kClass]; AGroup 18760 1 [sym_kExports];
     AGroup 18762 1 [sym_kLabel]; AGroup 18766 1 [sym_kType]; AGroup 18768 1 [sym_kUses];
     AGroup 19225 1 [sym_kAsm]; AGroup 19227 1 [sym_kBegin]; SGroup 16 1 [sym__ppIf];
     SGroup 3424 1 [sym_blockTr]; SGroup 6432 1 [sym_declProc]; SGroup 7359 1 [sym_asmTr];
     SGroup 10355 1 [sym__declProc]; SGroup 10443 1 [sym__declOperator];
     SGroup 11110 1 [sym_rttiAttributes]; SGroup 11216 1 [aux_sym_rttiAttributes_repeat2];
     AGroup 3 2 syms_5; AGroup 18758 2 syms_65; AGroup 18764 2 syms_66; AGroup 23 4 syms_3;
     SGroup 6911 11 syms_210]);
   (344783, 25, [AGroup 5 1 [sym_ppDirective]; AGroup 9 1 [anon_sym_LBRACK];
     AGroup 11 1 [aux_sym_ppUsesBlock_token1]; AGroup 13 1 [sym_kGeneric];
     AGroup 15 1 [sym_kOperator]; AGroup 18756 1 [sym_kClass]; AGroup 18760 1 [sym_kExports];
     AGroup 18762 1 [sym_kLabel]; AGroup 18766 1 [sym_kType]; AGroup 18768 1 [sym_kUses];
     AGroup 19225 1 [sym_kAsm]; AGroup 19227 1 [sym_kBegin]; SGroup 16 1 [sym__ppIf];
     SGroup 3430 1 [sym_blockTr]; SGroup 6432 1 [sym_declProc]; SGroup 7360 1 [sym_asmTr];
     SGroup 10355 1 [sym__declProc]; SGroup 10443 1 [sym__declOperator];
     SGroup 11110 1 [sym_rttiAttributes]; SGroup 11216 1 [aux_sym_rttiAttributes_repeat2];
     AGroup 3 2 syms_5; AGroup 18758 2 syms_65; AGroup 18764 2 syms_66; AGroup 23 4 syms_3;
     SGroup 7035 11 syms_210]);
   (344875, 25, [AGroup 5 1 [sym_ppDirective]; AGroup 9 1 [anon_sym_LBRACK];
     AGroup 11 1 [aux_sym_ppUsesBlock_token1]; AGroup 13 1 [sym_kGeneric];
     AGroup 15 1 [sym_kOperator]; AGroup 18756 1 [sym_kClass]; AGroup 18760 1 [sym_kExports];
     AGroup 18762 1 [sym_kLabel]; AGroup 18766 1 [sym_kType]; AGroup 18768 1 [sym_kUses];
     AGroup 18966 1 [sym_kAsm]; AGroup 18968 1 [sym_kBegin]; SGroup 16 1 [sym__ppIf];
     SGroup 3637 1 [sym_blockTr]; SGroup 6432 1 [sym_declProc]; SGroup 7657 1 [sym_asmTr];
     SGroup 10355 1 [sym__declProc]; SGroup 10443 1 [sym__declOperator];
     SGroup 11110 1 [sym_rttiAttributes]; SGroup 11216 1 [aux_sym_rttiAttributes_repeat2];
     AGroup 3 2 syms_5; AGroup 18758 2 syms_65; AGroup 18764 2 syms_66; AGroup 23 4 syms_3;
     SGroup 6927 11 syms_210]);
   (344967, 25, [AGroup 5 1 [sym_ppDirective]; AGroup 9 1 [anon_sym_LBRACK];
     AGroup 11 1 [aux_sym_ppUsesBlock_token1]; AGroup 13 1 [sym_kGeneric];
     AGroup 15 1 [sym_kOperator]; AGroup 18756 1 [sym_kClass]; AGroup 18760 1 [sym_kExports];
     AGroup 18762 1 [sym_kLabel]; AGroup 18766 1 [sym_kType]; AGroup 18768 1 [sym_kUses];
     AGroup 19225 1 [sym_kAsm]; AGroup 19227 1 [sym_kBegin]; SGroup 16 1 [sym__ppIf];
     SGroup 3436 1 [sym_blockTr]; SGroup 6432 1 [sym_declProc]; SGroup 7367 1 [sym_asmTr];
     SGroup 10355 1 [sym__declProc]; SGroup 10443 1 [sym__declOperator];
     SGroup 11110 1 [sym_rttiAttributes]; SGroup 11216 1 [aux_sym_rttiAttributes_repeat2];
     AGroup 3 2 syms_5; AGroup 18758 2 syms_65; AGroup 18764 2 syms_66; AGroup 23 4 syms_3;
     SGroup 7035 11 syms_210]);
   (345059, 25, [AGroup 5 1 [sym_ppDirective]; AGroup 9 1 [anon_sym_LBRACK];
     AGroup 11 1 [aux_sym_ppUsesBlock_token1]; AGroup 13 1 [sym_kGeneric];
     AGroup 15 1 [sym_kOperator]; AGroup 18756 1 [sym_kClass]; AGroup 18760 1 [sym_kExports];
     AGroup 18762 1 [sym_kLabel]; AGroup 18766 1 [sym_kType]; AGroup 18768 1 [sym_kUses];
     AGroup 19225 1 [sym_kAsm]; AGroup 19227 1 [sym_kBegin]; SGroup 16 1 [sym__ppIf];
     SGroup 3438 1 [sym_blockTr]; SGroup 6432 1 [sym_declProc]; SGroup 7368 1 [sym_asmTr];
     SGroup 10355 1 [sym__declProc]; SGroup 10443 1 [sym__declOperator];
     SGroup 11110 1 [sym_rttiAttributes]; SGroup 11216 1 [aux_sym_rttiAttributes_repeat2];
     AGroup 3 2 syms_5; AGroup 18758 2 syms_65; AGroup 18764 2 syms_66; AGroup 23 4 syms_3;
     SGroup 6913 11 syms_210]);
   (345151, 25, [AGroup 5 1 [sym_ppDirective]; AGroup 9 1 [anon_sym_LBRACK];
     AGroup 11 1 [aux_sym_ppUsesBlock_token1]; AGroup 13 1 [sym_kGeneric];
     AGroup 15 1 [sym_kOperator]; AGroup 18756 1 [sym_kClass]; AGroup 18760 1 [sym_kExports];
     AGroup 18762 1 [sym_kLabel]; AGroup 18766 1 [sym_kType]; AGroup 18768 1 [sym_kUses];
     AGroup 19225 1 [sym_kAsm]; AGroup 19227 1 [sym_kBegin]; SGroup 16 1 [sym__ppIf];
     SGroup 3440 1 [sym_blockTr]; SGroup 6432 1 [sym_declProc]; SGroup 7370 1 [sym_asmTr];
     SGroup 10355 1 [sym__declProc]; SGroup 10443 1 [sym__declOperator];
     SGroup 11110 1 [sym_rttiAttributes]; SGroup 11216 1 [aux_sym_rttiAttributes_repeat2];
     AGroup 3 2 syms_5; AGroup 18758 2 syms_65; AGroup 18764 2 syms_66; AGroup 23 4 syms_3;
     SGroup 7035 11 syms_210]);
   (345243, 25, [AGroup 5 1 [sym_ppDirective]; AGroup 9 1 [anon_sym_LBRACK];
     AGroup 11 1 [aux_sym_ppUsesBlock_token1]; AGroup 13 1 [sym_kGeneric];
     AGroup 15 1 [sym_kOperator]; AGroup 18756 1 [sym_kClass]; AGroup 18760 1 [sym_kExports];
     AGroup 18762 1 [sym_kLabel]; AGroup 18766 1 [sym_kType]; AGroup 18768 1 [sym_kUses];
     AGroup 18931 1 [sym_kAsm]; AGroup 18933 1 [sym_kBegin]; SGroup 16 1 [sym__ppIf];
     SGroup 5667 1 [sym_blockTr]; SGroup 6432 1 [sym_declProc]; SGroup 8602 1 [sym_asmTr];
     SGroup 10355 1 [sym__declProc]; SGroup 10443 1 [sym__declOperator];
     SGroup 11110 1 [sym_rttiAttributes]; SGroup 11216 1 [aux_sym_rttiAttributes_repeat2];
     AGroup 3 2 syms_5; AGroup 18758 2 syms_65; AGroup 18764 2 syms_66; AGroup 23 4 syms_3;
     SGroup 7035 11 syms_210]);
   (345335, 7, [AGroup 5 1 [sym_ppDirective]; AGroup 933 1 [anon_sym_POUND]; AGroup 3 2 syms_5;
     AGroup 19621 2 syms_6; SGroup 6760 3 syms_13; AGroup 15235 7 syms_34;
     AGroup 15233 25 syms_104]);
   (345391, 25, [AGroup 5 1 [sym_ppDirective]; AGroup 9 1 [anon_sym_LBRACK];
     AGroup 11 1 [aux_sym_ppUsesBlock_token1]; AGroup 13 1 [sym_kGeneric];
     AGroup 15 1 [sym_kOperator]; AGroup 18756 1 [sym_kClass]; AGroup 18760 1 [sym_kExports];
     AGroup 18762 1 [sym_kLabel]; AGroup 18766 1 [sym_kType]; AGroup 18768 1 [sym_kUses];
     AGroup 19233 1 [sym_kAsm]; AGroup 19235 1 [sym_kBegin]; SGroup 16 1 [sym__ppIf];
     SGroup 3164 1 [sym_blockTr]; SGroup 6432 1 [sym_declProc]; SGroup 7176 1 [sym_asmTr];
     SGroup 10355 1 [sym__declProc]; SGroup 10443 1 [sym__declOperator];
     SGroup 11110 1 [sym_rttiAttributes]; SGroup 11216 1 [aux_sym_rttiAttributes_repeat2];
     AGroup 3 2 syms_5; AGroup 18758 2 syms_65; AGroup 18764 2 syms_66; AGroup 23 4 syms_3;
     SGroup 7035 11 syms_210]);
   (345483, 25, [AGroup 5 1 [sym_ppDirective]; AGroup 9 1 [anon_sym_LBRACK];
     AGroup 11 1 [aux_sym_ppUsesBlock_token1]; AGroup 13 1 [sym_kGeneric];
     AGroup 15 1 [sym_kOperator]; AGroup 18756 1 [sym_kClass]; AGroup 18760 1 [sym_kExports];
     AGroup 18762 1 [sym_kLabel]; AGroup 18766 1 [sym_kType]; AGroup 18768 1 [sym_kUses];
     AGroup 18899 1 [sym_kAsm]; AGroup 18901 1 [sym_kBegin]; SGroup 16 1 [sym__ppIf];
     SGroup 4558 1 [sym_blockTr]; SGroup 6432 1 [sym_declProc]; SGroup 8352 1 [sym_asmTr];
     SGroup 10355 1 [sym__declProc]; SGroup 10443 1 [sym__declOperator];
     SGroup 11110 1 [sym_rttiAttributes]; SGroup 11216 1 [aux_sym_rttiAttributes_repeat2];
     AGroup 3 2 syms_5; AGroup 18758 2 syms_65; AGroup 18764 2 syms_66; AGroup 23 4 syms_3;
     SGroup 7035 11 syms_210]);
   (345575, 25, [AGroup 5 1 [sym_ppDirective]; AGroup 9 1 [anon_sym_LBRACK];
     AGroup 11 1 [aux_sym_ppUsesBlock_token1]; AGroup 13 1 [sym_kGeneric];
     AGroup 15 1 [sym_kOperator]; AGroup 18756 1 [sym_kClass]; AGroup 18760 1 [sym_kExports];
     AGroup 18762 1 [sym_kLabel]; AGroup 18766 1 [sym_kType]; AGroup 18768 1 [sym_kUses];
     AGroup 19233 1 [sym_kAsm]; AGroup 19235 1 [sym_kBegin]; SGroup 16 1 [sym__ppIf];
     SGroup 3166 1 [sym_blockTr]; SGroup 6432 1 [sym_declProc]; SGroup 7182 1 [sym_asmTr];
     SGroup 10355 1 [sym__declProc]; SGroup 10443 1 [sym__declOperator];
     SGroup 11110 1 [sym_rttiAttributes]; SGroup 11216 1 [aux_sym_rttiAttributes_repeat2];
     AGroup 3 2 syms_5; AGroup 18758 2 syms_65; AGroup 18764 2 syms_66; AGroup 23 4 syms_3;
     SGroup 6921 11 syms_210]);
   (345667, 25, [AGroup 5 1 [sym_ppDirective]; AGroup 9 1 [anon_sym_LBRACK];
     AGroup 11 1 [aux_sym_ppUsesBlock_token1]; AGroup 13 1 [sym_kGeneric];
     AGroup 15 1 [sym_kOperator]; AGroup 18756 1 [sym_kClass]; AGroup 18760 1 [sym_kExports];
     AGroup 18762 1 [sym_kLabel]; AGroup 18766 1 [sym_kType]; AGroup 18768 1 [sym_kUses];
     AGroup 19233 1 [sym_kAsm]; AGroup 19235 1 [sym_kBegin]; SGroup 16 1 [sym__ppIf];
     SGroup 3167 1 [sym_blockTr]; SGroup 6432 1 [sym_declProc]; SGroup 7183 1 [sym_asmTr];
     SGroup 10355 1 [sym__declProc]; SGroup 10443 1 [sym__declOperator];
     SGroup 11110 1 [sym_rttiAttributes]; SGroup 11216 1 [aux_sym_rttiAttributes_repeat2];
     AGroup 3 2 syms_5; AGroup 18758 2 syms_65; AGroup 18764 2 syms_66; AGroup 23 4 syms_3;
     SGroup 7035 11 syms_210]);
   (345759, 25, [AGroup 5 1 [sym_ppDirective]; AGroup 9 1 [anon_sym_LBRACK];
     AGroup 11 1 [aux_sym_ppUsesBlock_token1]; AGroup 13 1 [sym_kGeneric];
     AGroup 15 1 [sym_kOperator]; AGroup 18756 1 [sym_kClass]; AGroup 18760 1 [sym_kExports];
     AGroup 18762 1 [sym_kLabel]; AGroup 18766 1 [sym_kType]; AGroup 18768 1 [sym_kUses];
     AGroup 18984 1 [sym_kAsm]; AGroup 18986 1 [sym_kBegin]; SGroup 16 1 [sym__ppIf];
     SGroup 4066 1 [sym_blockTr]; SGroup 6432 1 [sym_declProc]; SGroup 7959 1 [sym_asmTr];
     SGroup 10355 1 [sym__declProc]; SGroup 10443 1 [sym__declOperator];
     SGroup 11110 1 [sym_rttiAttributes]; SGroup 11216 1 [aux_sym_rttiAttributes_repeat2];
     AGroup 3 2 syms_5; AGroup 18758 2 syms_65; AGroup 18764 2 syms_66; AGroup 23 4 syms_3;
     SGroup 7035 11 syms_210]);
   (345851, 25, [AGroup 5 1 [sym_ppDirective]; AGroup 9 1 [anon_sym_LBRACK];
     AGroup 11 1 [aux_sym_ppUsesBlock_token1]; AGroup 13 1 [sym_kGeneric];
     AGroup 15 1 [sym_kOperator]; AGroup 18756 1 [sym_kClass]; AGroup 18760 1 [sym_kExports];
     AGroup 18762 1 [sym_kLabel]; AGroup 18766 1 [sym_kType]; AGroup 18768 1 [sym_kUses];
     AGroup 19233 1 [sym_kAsm]; AGroup 19235 1 [sym_kBegin]; SGroup 16 1 [sym__ppIf];
     SGroup 3168 1 [sym_blockTr]; SGroup 6432 1 [sym_declProc]; SGroup 7189 1 [sym_asmTr];
     SGroup 10355 1 [sym__declProc]; SGroup 10443 1 [sym__declOperator];
     SGroup 11110 1 [sym_rttiAttributes]; SGroup 11216 1 [aux_sym_rttiAttributes_repeat2];
     AGroup 3 2 syms_5; AGroup 18758 2 syms_65; AGroup 18764 2 syms_66; AGroup 23 4 syms_3;
     SGroup 7035 11 syms_210]);
   (345943, 25, [AGroup 5 1 [sym_ppDirective]; AGroup 9 1 [anon_sym_LBRACK];
     AGroup 11 1 [aux_sym_ppUsesBlock_token1]; AGroup 13 1 [sym_kGeneric];
     AGroup 15 1 [sym_kOperator]; AGroup 18756 1 [sym_kClass]; AGroup 18760 1 [sym_kExports];
     AGroup 18762 1 [sym_kLabel]; AGroup 18766 1 [sym_kType]; AGroup 18768 1 [sym_kUses];
     AGroup 19233 1 [sym_kAsm]; AGroup 19235 1 [sym_kBegin]; SGroup 16 1 [sym__ppIf];
     SGroup 3169 1 [sym_blockTr]; SGroup 6432 1 [sym_declProc]; SGroup 7190 1 [sym_asmTr];
     SGroup 10355 1 [sym__declProc]; SGroup 10443 1 [sym__declOperator];
     SGroup 11110 1 [sym_rttiAttributes]; SGroup 11216 1 [aux_sym_rttiAttributes_repeat2];
     AGroup 3 2 syms_5; AGroup 18758 2 syms_65; AGroup 18764 2 syms_66; AGroup 23 4 syms_3;
     SGroup 6923 11 syms_210]);
   (346035, 25, [AGroup 5 1 [sym_ppDirective]; AGroup 9 1 [anon_sym_LBRACK];
     AGroup 11 1 [aux_sym_ppUsesBlock_token1]; AGroup 13 1 [sym_kGeneric];
     AGroup 15 1 [sym_kOperator]; AGroup 18756 1 [sym_kClass]; AGroup 18760 1 [sym_kExports];
     AGroup 18762 1 [sym_kLabel]; AGroup 18766 1 [sym_kType]; AGroup 18768 1 [sym_kUses];
     AGroup 19233 1 [sym_kAsm]; AGroup 19235 1 [sym_kBegin]; SGroup 16 1 [sym__ppIf];
     SGroup 3170 1 [sym_blockTr]; SGroup 6432 1 [sym_declProc]; SGroup 7192 1 [sym_asmTr];
     SGroup 10355 1 [sym__declProc]; SGroup 10443 1 [sym__declOperator];
     SGroup 11110 1 [sym_rttiAttributes]; SGroup 11216 1 [aux_sym_rttiAttributes_repeat2];
     AGroup 3 2 syms_5; AGroup 18758 2 syms_65; AGroup 18764 2 syms_66; AGroup 23 4 syms_3;
     SGroup 7035 11 syms_210]);
   (346127, 25, [AGroup 5 1 [sym_ppDirective]; AGroup 9 1 [anon_sym_LBRACK];
     AGroup 11 1 [aux_sym_ppUsesBlock_token1]; AGroup 13 1 [sym_kGeneric];
     AGroup 15 1 [sym_kOperator]; AGroup 18756 1 [sym_kClass]; AGroup 18760 1 [sym_kExports];
     AGroup 18762 1 [sym_kLabel]; AGroup 18766 1 [sym_kType]; AGroup 18768 1 [sym_kUses];
     AGroup 18899 1 [sym_kAsm]; AGroup 18901 1 [sym_kBegin]; SGroup 16 1 [sym__ppIf];
     SGroup 4559 1 [sym_blockTr]; SGroup 6432 1 [sym_declProc]; SGroup 8354 1 [sym_asmTr];
     SGroup 10355 1 [sym__declProc]; SGroup 10443 1 [sym__declOperator];
     SGroup 11110 1 [sym_rttiAttributes]; SGroup 11216 1 [aux_sym_rttiAttributes_repeat2];
     AGroup 3 2 syms_5; AGroup 18758 2 syms_65; AGroup 18764 2 syms_66; AGroup 23 4 syms_3;
     SGroup 6939 11 syms_210]);
   (346219, 25, [AGroup 5 1 [sym_ppDirective]; AGroup 9 1 [anon_sym_LBRACK];
     AGroup 11 1 [aux_sym_ppUsesBlock_token1]; AGroup 13 1 [sym_kGeneric];
     AGroup 15 1 [sym_kOperator]; AGroup 18756 1 [sym_kClass]; AGroup 18760 1 [sym_kExports];
     AGroup 18762 1 [sym_kLabel]; AGroup 18766 1 [sym_kType]; AGroup 18768 1 [sym_kUses];
     AGroup 19195 1 [sym_kAsm]; AGroup 19197 1 [sym_kBegin]; SGroup 16 1 [sym__ppIf];
     SGroup 5794 1 [sym_blockTr]; SGroup 6432 1 [sym_declProc]; SGroup 9301 1 [sym_asmTr];
     SGroup 10355 1 [sym__declProc]; SGroup 10443 1 [sym__declOperator];
     SGroup 11110 1 [sym_rttiAttributes]; SGroup 11216 1 [aux_sym_rttiAttributes_repeat2];
     AGroup 3 2 syms_5; AGroup 18758 2 syms_65; AGroup 18764 2 syms_66; AGroup 23 4 syms_3;
     SGroup 7035 11 syms_210]);
   (346311, 25, [AGroup 5 1 [sym_ppDirective]; AGroup 9 1 [anon_sym_LBRACK];
     AGroup 11 1 [aux_sym_ppUsesBlock_token1]; AGroup 13 1 [sym_kGeneric];
     AGroup 15 1 [sym_kOperator]; AGroup 18756 1 [sym_kClass]; AGroup 18760 1 [sym_kExports];
     AGroup 18762 1 [sym_kLabel]; AGroup 18766 1 [sym_kType]; AGroup 18768 1 [sym_kUses];
     AGroup 19247 1 [sym_kAsm]; AGroup 19249 1 [sym_kBegin]; SGroup 16 1 [sym__ppIf];
     SGroup 3756 1 [sym_blockTr]; SGroup 6432 1 [sym_declProc]; SGroup 7668 1 [sym_asmTr];
     SGroup 10355 1 [sym__declProc]; SGroup 10443 1 [sym__declOperator];
     SGroup 11110 1 [sym_rttiAttributes]; SGroup 11216 1 [aux_sym_rttiAttributes_repeat2];
     AGroup 3 2 syms_5; AGroup 18758 2 syms_65; AGroup 18764 2 syms_66; AGroup 23 4 syms_3;
     SGroup 7035 11 syms_210]);
   (346403, 25, [AGroup 5 1 [sym_ppDirective]; AGroup 9 1 [anon_sym_LBRACK];
     AGroup 11 1 [aux_sym_ppUsesBlock_token1]; AGroup 13 1 [sym_kGeneric];
     AGroup 15 1 [sym_kOperator]; AGroup 18756 1 [sym_kClass]; AGroup 18760 1 [sym_kExports];
     AGroup 18762 1 [sym_kLabel]; AGroup 18766 1 [sym_kType]; AGroup 18768 1 [sym_kUses];
     AGroup 18966 1 [sym_kAsm]; AGroup 18968 1 [sym_kBegin]; SGroup 16 1 [sym__ppIf];
     SGroup 3651 1 [sym_blockTr]; SGroup 6432 1 [sym_declProc]; SGroup 7659 1 [sym_asmTr];
     SGroup 10355 1 [sym__declProc]; SGroup 10443 1 [sym__declOperator];
     SGroup 11110 1 [sym_rttiAttributes]; SGroup 11216 1 [aux_sym_rttiAttributes_repeat2];
     AGroup 3 2 syms_5; AGroup 18758 2 syms_65; AGroup 18764 2 syms_66; AGroup 23 4 syms_3;
     SGroup 7035 11 syms_210]);
   (346495, 25, [AGroup 5 1 [sym_ppDirective]; AGroup 9 1 [anon_sym_LBRACK];
     AGroup 11 1 [aux_sym_ppUsesBlock_token1]; AGroup 13 1 [sym_kGeneric];
     AGroup 15 1 [sym_kOperator]; AGroup 18756 1 [sym_kClass]; AGroup 18760 1 [sym_kExports];
     AGroup 18762 1 [sym_kLabel]; AGroup 18766 1 [sym_kType]; AGroup 18768 1 [sym_kUses];
     AGroup 19195 1 [sym_kAsm]; AGroup 19197 1 [sym_kBegin]; SGroup 16 1 [sym__ppIf];
     SGroup 5799 1 [sym_blockTr]; SGroup 6432 1 [sym_declProc]; SGroup 9302 1 [sym_asmTr];
     SGroup 10355 1 [sym__declProc]; SGroup 10443 1 [sym__declOperator];
     SGroup 11110 1 [sym_rttiAttributes]; SGroup 11216 1 [aux_sym_rttiAttributes_repeat2];
     AGroup 3 2 syms_5; AGroup 18758 2 syms_65; AGroup 18764 2 syms_66; AGroup 23 4 syms_3;
     SGroup 6935 11 syms_210]);
   (346587, 25, [AGroup 5 1 [sym_ppDirective]; AGroup 9 1 [anon_sym_LBRACK];
     AGroup 11 1 [aux_sym_ppUsesBlock_token1]; AGroup 13 1 [sym_kGeneric];
     AGroup 15 1 [sym_kOperator]; AGroup 18756 1 [sym_kClass]; AGroup 18760 1 [sym_kExports];
     AGroup 18762 1 [sym_kLabel]; AGroup 18766 1 [sym_kType]; AGroup 18768 1 [sym_kUses];
     AGroup 19261 1 [sym_kAsm]; AGroup 19263 1 [sym_kBegin]; SGroup 16 1 [sym__ppIf];
     SGroup 3416 1 [sym_blockTr]; SGroup 6432 1 [sym_declProc]; SGroup 7536 1 [sym_asmTr];
     SGroup 10355 1 [sym__declProc]; SGroup 10443 1 [sym__declOperator];
     SGroup 11110 1 [sym_rttiAttributes]; SGroup 11216 1 [aux_sym_rttiAttributes_repeat2];
     AGroup 3 2 syms_5; AGroup 18758 2 syms_65; AGroup 18764 2 syms_66; AGroup 23 4 syms_3;
     SGroup 6940 11 syms_210]);
   (346679, 25, [AGroup 5 1 [sym_ppDirective]; AGroup 9 1 [anon_sym_LBRACK];
     AGroup 11 1 [aux_sym_ppUsesBlock_token1]; AGroup 13 1 [sym_kGeneric];
     AGroup 15 1 [sym_kOperator]; AGroup 18756 1 [sym_kClass]; AGroup 18760 1 [sym_kExports];
     AGroup 18762 1 [sym_kLabel]; AGroup 18766 1 [sym_kType]; AGroup 18768 1 [sym_kUses];
     AGroup 19247 1 [sym_kAsm]; AGroup 19249 1 [sym_kBegin]; SGroup 16 1 [sym__ppIf];
     SGroup 3479 1 [sym_blockTr]; SGroup 6432 1 [sym_declProc]; SGroup 7677 1 [sym_asmTr];
     SGroup 10355 1 [sym__declProc]; SGroup 10443 1 [sym__declOperator];
     SGroup 11110 1 [sym_rttiAttributes]; SGroup 11216 1 [aux_sym_rttiAttributes_repeat2];
     AGroup 3 2 syms_5; AGroup 18758 2 syms_65; AGroup 18764 2 syms_66; AGroup 23 4 syms_3;
     SGroup 6932 11 syms_210]);
   (346771, 25, [AGroup 5 1 [sym_ppDirective]; AGroup 9 1 [anon_sym_LBRACK];
     AGroup 11 1 [aux_sym_ppUsesBlock_token1]; AGroup 13 1 [sym_kGeneric];
     AGroup 15 1 [sym_kOperator]; AGroup 18756 1 [sym_kClass]; AGroup 18760 1 [sym_kExports];
     AGroup 18762 1 [sym_kLabel]; AGroup 18766 1 [sym_kType]; AGroup 18768 1 [sym_kUses];
     AGroup 19247 1 [sym_kAsm]; AGroup 19249 1 [sym_kBegin]; SGroup 16 1 [sym__ppIf];
     SGroup 3545 1 [sym_blockTr]; SGroup 6432 1 [sym_declProc]; SGroup 7678 1 [sym_asmTr];
     SGroup 10355 1 [sym__declProc]; SGroup 10443 1 [sym__declOperator];
     SGroup 11110 1 [sym_rttiAttributes]; SGroup 11216 1 [aux_sym_rttiAttributes_repeat2];
     AGroup 3 2 syms_5; AGroup 18758 2 syms_65; AGroup 18764 2 syms_66; AGroup 23 4 syms_3;
     SGroup 7035 11 syms_210]);
   (346863, 25, [AGroup 5 1 [sym_ppDirective]; AGroup 9 1 [anon_sym_LBRACK];
     AGroup 11 1 [aux_sym_ppUsesBlock_token1]; AGroup 13 1 [sym_kGeneric];
     AGroup 15 1 [sym_kOperator]; AGroup 18756 1 [sym_kClass]; AGroup 18760 1 [sym_kExports];
     AGroup 18762 1 [sym_kLabel]; AGroup 18766 1 [sym_kType]; AGroup 18768 1 [sym_kUses];
     AGroup 19247 1 [sym_kAsm]; AGroup 19249 1 [sym_kBegin]; SGroup 16 1 [sym__ppIf];
     SGroup 3504 1 [sym_blockTr]; SGroup 6432 1 [sym_declProc]; SGroup 7685 1 [sym_asmTr];
     SGroup 10355 1 [sym__declProc]; SGroup 10443 1 [sym__declOperator];
     SGroup 11110 1 [sym_rttiAttributes]; SGroup 11216 1 [aux_sym_rttiAttributes_repeat2];
     AGroup 3 2 syms_5; AGroup 18758 2 syms_65; AGroup 18764 2 syms_66; AGroup 23 4 syms_3;
     SGroup 7035 11 syms_210]);
   (346955, 25, [AGroup 5 1 [sym_ppDirective]; AGroup 9 1 [anon_sym_LBRACK];
     AGroup 11 1 [aux_sym_ppUsesBlock_token1]; AGroup 13 1 [sym_kGeneric];
     AGroup 15 1 [sym_kOperator]; AGroup 18756 1 [sym_kClass]; AGroup 18760 1 [sym_kExports];
     AGroup 18762 1 [sym_kLabel]; AGroup 18766 1 [sym_kType]; AGroup 18768 1 [sym_kUses];
     AGroup 19247 1 [sym_kAsm]; AGroup 19249 1 [sym_kBegin]; SGroup 16 1 [sym__ppIf];
     SGroup 3507 1 [sym_blockTr]; SGroup 6432 1 [sym_declProc]; SGroup 7686 1 [sym_asmTr];
     SGroup 10355 1 [sym__declProc]; SGroup 10443 1 [sym__declOperator];
     SGroup 11110 1 [sym_rttiAttributes]; SGroup 11216 1 [aux_sym_rttiAttributes_repeat2];
     AGroup 3 2 syms_5; AGroup 18758 2 syms_65; AGroup 18764 2 syms_66; AGroup 23 4 syms_3;
     SGroup 6934 11 syms_210]);
   (347047, 25, [AGroup 5 1 [sym_ppDirective]; AGroup 9 1 [anon_sym_LBRACK];
     AGroup 11 1 [aux_sym_ppUsesBlock_token1]; AGroup 13 1 [sym_kGeneric];
     AGroup 15 1 [sym_kOperator]; AGroup 18756 1 [sym_kClass]; AGroup 18760 1 [sym_kExports];
     AGroup 18762 1 [sym_kLabel]; AGroup 18766 1 [sym_kType]; AGroup 18768 1 [sym_kUses];
     AGroup 19247 1 [sym_kAsm]; AGroup 19249 1 [sym_kBegin]; SGroup 16 1 [sym__ppIf];
     SGroup 3543 1 [sym_blockTr]; SGroup 6432 1 [sym_declProc]; SGroup 7688 1 [sym_asmTr];
     SGroup 10355 1 [sym__declProc]; SGroup 10443 1 [sym__declOperator];
     SGroup 11110 1 [sym_rttiAttributes]; SGroup 11216 1 [aux_sym_rttiAttributes_repeat2];
     AGroup 3 2 syms_5; AGroup 18758 2 syms_65; AGroup 18764 2 syms_66; AGroup 23 4 syms_3;
     SGroup 7035 11 syms_210]);
   (347139, 25, [AGroup 5 1 [sym_ppDirective]; AGroup 9 1 [anon_sym_LBRACK];
     AGroup 11 1 [aux_sym_ppUsesBlock_token1]; AGroup 13 1 [sym_kGeneric];
     AGroup 15 1 [sym_kOperator]; AGroup 18756 1 [sym_kClass]; AGroup 18760 1 [sym_kExports];
     AGroup 18762 1 [sym_kLabel]; AGroup 18766 1 [sym_kType]; AGroup 18768 1 [sym_kUses];
     AGroup 19195 1 [sym_kAsm]; AGroup 19197 1 [sym_kBegin]; SGroup 16 1 [sym__ppIf];
     SGroup 5741 1 [sym_blockTr]; SGroup 6432 1 [sym_declProc]; SGroup 9308 1 [sym_asmTr];
     SGroup 10355 1 [sym__declProc]; SGroup 10443 1 [sym__declOperator];
     SGroup 11110 1 [sym_rttiAttributes]; SGroup 11216 1 [aux_sym_rttiAttributes_repeat2];
     AGroup 3 2 syms_5; AGroup 18758 2 syms_65; AGroup 18764 2 syms_66; AGroup 23 4 syms_3;
     SGroup 7035 11 syms_210]);
   (347231, 25, [AGroup 5 1 [sym_ppDirective]; AGroup 9 1 [anon_sym_LBRACK];
     AGroup 11 1 [aux_sym_ppUsesBlock_token1]; AGroup 13 1 [sym_kGeneric];
     AGroup 15 1 [sym_kOperator]; AGroup 18756 1 [sym_kClass]; AGroup 18760 1 [sym_kExports];
     AGroup 18762 1 [sym_kLabel]; AGroup 18766 1 [sym_kType]; AGroup 18768 1 [sym_kUses];
     AGroup 19261 1 [sym_kAsm]; AGroup 19263 1 [sym_kBegin]; SGroup 16 1 [sym__ppIf];
     SGroup 3442 1 [sym_blockTr]; SGroup 6432 1 [sym_declProc]; SGroup 7537 1 [sym_asmTr];
     SGroup 10355 1 [sym__declProc]; SGroup 10443 1 [sym__declOperator];
     SGroup 11110 1 [sym_rttiAttributes]; SGroup 11216 1 [aux_sym_rttiAttributes_repeat2];
     AGroup 3 2 syms_5; AGroup 18758 2 syms_65; AGroup 18764 2 syms_66; AGroup 23 4 syms_3;
     SGroup 7035 11 syms_210]);
   (347323, 15, [AGroup 5 1 [sym_ppDirective]; AGroup 16886 1 [anon_sym_LPAREN]; AGroup 19569 1 [sym_kHat];
     AGroup 19581 1 [sym_kAs]; AGroup 19627 1 [sym_kIs]; AGroup 19629 1 [sym_kNot];
     SGroup 4288 1 [sym__exprIsNot]; AGroup 3 2 syms_5; AGroup 19575 2 syms_9;
     AGroup 19577 2 syms_258; AGroup 19583 2 syms_259; AGroup 19623 2 syms_83;
     AGroup 19579 5 syms_260; AGroup 19625 5 syms_85; AGroup 16884 14 syms_269]);
   (347395, 25, [AGroup 5 1 [sym_ppDirective]; AGroup 9 1 [anon_sym_LBRACK];
     AGroup 11 1 [aux_sym_ppUsesBlock_token1]; AGroup 13 1 [sym_kGeneric];
     AGroup 15 1 [sym_kOperator]; AGroup 18752 1 [sym_kAsm]; AGroup 18754 1 [sym_kBegin];
     AGroup 18756 1 [sym_kClass]; AGroup 18760 1 [sym_kExports]; AGroup 18762 1 [sym_kLabel];
     AGroup 18766 1 [sym_kType]; AGroup 18768 1 [sym_kUses]; SGroup 16 1 [sym__ppIf];
     SGroup 3860 1 [sym_blockTr]; SGroup 6432 1 [sym_declProc]; SGroup 7831 1 [sym_asmTr];
     SGroup 10355 1 [sym__declProc]; SGroup 10443 1 [sym__declOperator];
     SGroup 11110 1 [sym_rttiAttributes]; SGroup 11216 1 [aux_sym_rttiAttributes_repeat2];
     AGroup 3 2 syms_5; AGroup 18758 2 syms_65; AGroup 18764 2 syms_66; AGroup 23 4 syms_3;
     SGroup 7035 11 syms_210]);
   (347487, 25, [AGroup 5 1 [sym_ppDirective]; AGroup 9 1 [anon_sym_LBRACK];
     AGroup 11 1 [aux_sym_ppUsesBlock_token1]; AGroup 13 1 [sym_kGeneric];
     AGroup 15 1 [sym_kOperator]; AGroup 18756 1 [sym_kClass]; AGroup 18760 1 [sym_kExports];
     AGroup 18762 1 [sym_kLabel]; AGroup 18766 1 [sym_kType]; AGroup 18768 1 [sym_kUses];
     AGroup 18899 1 [sym_kAsm]; AGroup 18901 1 [sym_kBegin]; SGroup 16 1 [sym__ppIf];
     SGroup 4567 1 [sym_blockTr]; SGroup 6432 1 [sym_declProc]; SGroup 8358 1 [sym_asmTr];
     SGroup 10355 1 [sym__declProc]; SGroup 10443 1 [sym__declOperator];
     SGroup 11110 1 [sym_rttiAttributes]; SGroup 11216 1 [aux_sym_rttiAttributes_repeat2];
     AGroup 3 2 syms_5; AGroup 18758 2 syms_65; AGroup 18764 2 syms_66; AGroup 23 4 syms_3;
     SGroup 7035 11 syms_210]);
   (347579, 25, [AGroup 5 1 [sym_ppDirective]; AGroup 9 1 [anon_sym_LBRACK];
     AGroup 11 1 [aux_sym_ppUsesBlock_token1]; AGroup 13 1 [sym_kGeneric];
     AGroup 15 1 [sym_kOperator]; AGroup 18756 1 [sym_kClass]; AGroup 18760 1 [sym_kExports];
     AGroup 18762 1 [sym_kLabel]; AGroup 18766 1 [sym_kType]; AGroup 18768 1 [sym_kUses];
     AGroup 19261 1 [sym_kAsm]; AGroup 19263 1 [sym_kBegin]; SGroup 16 1 [sym__ppIf];
     SGroup 3412 1 [sym_blockTr]; SGroup 6432 1 [sym_declProc]; SGroup 7545 1 [sym_asmTr];
     SGroup 10355 1 [sym__declProc]; SGroup 10443 1 [sym__declOperator];
     SGroup 11110 1 [sym_rttiAttributes]; SGroup 11216 1 [aux_sym_rttiAttributes_repeat2];
     AGroup 3 2 syms_5; AGroup 18758 2 syms_65; AGroup 18764 2 syms_66; AGroup 23 4 syms_3;
     SGroup 7035 11 syms_210]);
   (347671, 25, [AGroup 5 1 [sym_ppDirective]; AGroup 9 1 [anon_sym_LBRACK];
     AGroup 11 1 [aux_sym_ppUsesBlock_token1]; AGroup 13 1 [sym_kGeneric];
     AGroup 15 1 [sym_kOperator]; AGroup 18756 1 [sym_kClass]; AGroup 18760 1 [sym_kExports];
     AGroup 18762 1 [sym_kLabel]; AGroup 18766 1 [sym_kType]; AGroup 18768 1 [sym_kUses];
     AGroup 19035 1 [sym_kAsm]; AGroup 19037 1 [sym_kBegin]; SGroup 16 1 [sym__ppIf];
     SGroup 3496 1 [sym_blockTr]; SGroup 6432 1 [sym_declProc]; SGroup 7770 1 [sym_asmTr];
     SGroup 10355 1 [sym__declProc]; SGroup 10443 1 [sym__declOperator];
     SGroup 11110 1 [sym_rttiAttributes]; SGroup 11216 1 [aux_sym_rttiAttributes_repeat2];
     AGroup 3 2 syms_5; AGroup 18758 2 syms_65; AGroup 18764 2 syms_66; AGroup 23 4 syms_3;
     SGroup 6893 11 syms_210]);
   (347763, 25, [AGroup 5 1 [sym_ppDirective]; AGroup 9 1 [anon_sym_LBRACK];
     AGroup 11 1 [aux_sym_ppUsesBlock_token1]; AGroup 13 1 [sym_kGeneric];
     AGroup 15 1 [sym_kOperator]; AGroup 18756 1 [sym_kClass]; AGroup 18760 1 [sym_kExports];
     AGroup 18762 1 [sym_kLabel]; AGroup 18766 1 [sym_kType]; AGroup 18768 1 [sym_kUses];
     AGroup 19261 1 [sym_kAsm]; AGroup 19263 1 [sym_kBegin]; SGroup 16 1 [sym__ppIf];
     SGroup 3419 1 [sym_blockTr]; SGroup 6432 1 [sym_declProc]; SGroup 7546 1 [sym_asmTr];
     SGroup 10355 1 [sym__declProc]; SGroup 10443 1 [sym__declOperator];
     SGroup 11110 1 [sym_rttiAttributes]; SGroup 11216 1 [aux_sym_rttiAttributes_repeat2];
     AGroup 3 2 syms_5; AGroup 18758 2 syms_65; AGroup 18764 2 syms_66; AGroup 23 4 syms_3;
     SGroup 6947 11 syms_210]);
   (347855, 25, [AGroup 5 1 [sym_ppDirective]; AGroup 9 1 [anon_sym_LBRACK];
     AGroup 11 1 [aux_sym_ppUsesBlock_token1]; AGroup 13 1 [sym_kGeneric];
     AGroup 15 1 [sym_kOperator]; AGroup 18756 1 [sym_kClass]; AGroup 18760 1 [sym_kExports];
     AGroup 18762 1 [sym_kLabel]; AGroup 18766 1 [sym_kType]; AGroup 18768 1 [sym_kUses];
     AGroup 18925 1 [sym_kAsm]; AGroup 18927 1 [sym_kBegin]; SGroup 16 1 [sym__ppIf];
     SGroup 5802 1 [sym_blockTr]; SGroup 6432 1 [sym_declProc]; SGroup 9141 1 [sym_asmTr];
     SGroup 10355 1 [sym__declProc]; SGroup 10443 1 [sym__declOperator];
     SGroup 11110 1 [sym_rttiAttributes]; SGroup 11216 1 [aux_sym_rttiAttributes_repeat2];
     AGroup 3 2 syms_5; AGroup 18758 2 syms_65; AGroup 18764 2 syms_66; AGroup 23 4 syms_3;
     SGroup 7035 11 syms_210]);
   (347947, 25, [AGroup 5 1 [sym_ppDirective]; AGroup 9 1 [anon_sym_LBRACK];
     AGroup 11 1 [aux_sym_ppUsesBlock_token1]; AGroup 13 1 [sym_kGeneric];
     AGroup 15 1 [sym_kOperator]; AGroup 18756 1 [sym_kClass]; AGroup 18760 1 [sym_kExports];
     AGroup 18762 1 [sym_kLabel]; AGroup 18766 1 [sym_kType]; AGroup 18768 1 [sym_kUses];
     AGroup 19255 1 [sym_kAsm]; AGroup 19257 1 [sym_kBegin]; SGroup 16 1 [sym__ppIf];
     SGroup 4364 1 [sym_blockTr]; SGroup 6432 1 [sym_declProc]; SGroup 8489 1 [sym_asmTr];
     SGroup 10355 1 [sym__declProc]; SGroup 10443 1 [sym__declOperator];
     SGroup 11110 1 [sym_rttiAttributes]; SGroup 11216 1 [aux_sym_rttiAttributes_repeat2];
     AGroup 3 2 syms_5; AGroup 18758 2 syms_65; AGroup 18764 2 syms_66; AGroup 23 4 syms_3;
     SGroup 7035 11 syms_210]);
   (348039, 4, [AGroup 5 1 [sym_ppDirective]; AGroup 3 2 syms_5; AGroup 10860 5 syms_150;
     AGroup 10858 33 syms_252]);
   (348089, 7, [AGroup 5 1 [sym_ppDirective]; AGroup 15447 1 [anon_sym_POUND]; AGroup 3 2 syms_5;
     AGroup 19631 2 syms_6; SGroup 6966 3 syms_13; AGroup 15235 7 syms_34;
     AGroup 15233 25 syms_115]);
   (348145, 25, [AGroup 5 1 [sym_ppDirective]; AGroup 9 1 [anon_sym_LBRACK];
     AGroup 11 1 [aux_sym_ppUsesBlock_token1]; AGroup 13 1 [sym_kGeneric];
     AGroup 15 1 [sym_kOperator]; AGroup 18756 1 [sym_kClass]; AGroup 18760 1 [sym_kExports];
     AGroup 18762 1 [sym_kLabel]; AGroup 18766 1 [sym_kType]; AGroup 18768 1 [sym_kUses];
     AGroup 19261 1 [sym_kAsm]; AGroup 19263 1 [sym_kBegin]; SGroup 16 1 [sym__ppIf];
     SGroup 3459 1 [sym_blockTr]; SGroup 6432 1 [sym_declProc]; SGroup 7549 1 [sym_asmTr];
     SGroup 10355 1 [sym__declProc]; SGroup 10443 1 [sym__declOperator];
     SGroup 11110 1 [sym_rttiAttributes]; SGroup 11216 1 [aux_sym_rttiAttributes_repeat2];
     AGroup 3 2 syms_5; AGroup 18758 2 syms_65; AGroup 18764 2 syms_66; AGroup 23 4 syms_3;
     SGroup 7035 11 syms_210]);
   (348237, 25, [AGroup 5 1 [sym_ppDirective]; AGroup 9 1 [anon_sym_LBRACK];
     AGroup 11 1 [aux_sym_ppUsesBlock_token1]; AGroup 13 1 [sym_kGeneric];
     AGroup 15 1 [sym_kOperator]; AGroup 18756 1 [sym_kClass]; AGroup 18760 1 [sym_kExports];
     AGroup 18762 1 [sym_kLabel]; AGroup 18766 1 [sym_kType]; AGroup 18768 1 [sym_kUses];
     AGroup 19255 1 [sym_kAsm]; AGroup 19257 1 [sym_kBegin]; SGroup 16 1 [sym__ppIf];
     SGroup 4368 1 [sym_blockTr]; SGroup 6432 1 [sym_declProc]; SGroup 8521 1 [sym_asmTr];
     SGroup 10355 1 [sym__declProc]; SGroup 10443 1 [sym__declOperator];
     SGroup 11110 1 [sym_rttiAttributes]; SGroup 11216 1 [aux_sym_rttiAttributes_repeat2];
     AGroup 3 2 syms_5; AGroup 18758 2 syms_65; AGroup 18764 2 syms_66; AGroup 23 4 syms_3;
     SGroup 6954 11 syms_210]);
   (348329, 25, [AGroup 5 1 [sym_ppDirective]; AGroup 9 1 [anon_sym_LBRACK];
     AGroup 11 1 [aux_sym_ppUsesBlock_token1]; AGroup 13 1 [sym_kGeneric];
     AGroup 15 1 [sym_kOperator]; AGroup 18756 1 [sym_kClass]; AGroup 18760 1 [sym_kExports];
     AGroup 18762 1 [sym_kLabel]; AGroup 18766 1 [sym_kType]; AGroup 18768 1 [sym_kUses];
     AGroup 19255 1 [sym_kAsm]; AGroup 19257 1 [sym_kBegin]; SGroup 16 1 [sym__ppIf];
     SGroup 4369 1 [sym_blockTr]; SGroup 6432 1 [sym_declProc]; SGroup 8529 1 [sym_asmTr];
     SGroup 10355 1 [sym__declProc]; SGroup 10443 1 [sym__declOperator];
     SGroup 11110 1 [sym_rttiAttributes]; SGroup 11216 1 [aux_sym_rttiAttributes_repeat2];
     AGroup 3 2 syms_5; AGroup 18758 2 syms_65; AGroup 18764 2 syms_66; AGroup 23 4 syms_3;
     SGroup 7035 11 syms_210]);
   (348421, 7, [AGroup 5 1 [sym_ppDirective]; AGroup 15965 1 [anon_sym_POUND]; AGroup 3 2 syms_5;
     AGroup 19633 2 syms_6; SGroup 6852 3 syms_13; AGroup 15235 4 syms_25;
     AGroup 15233 28 syms_114]);
   (348477, 25, [AGroup 5 1 [sym_ppDirective]; AGroup 9 1 [anon_sym_LBRACK];
     AGroup 11 1 [aux_sym_ppUsesBlock_token1]; AGroup 13 1 [sym_kGeneric];
     AGroup 15 1 [sym_kOperator]; AGroup 18752 1 [sym_kAsm]; AGroup 18754 1 [sym_kBegin];
     AGroup 18756 1 [sym_kClass]; AGroup 18760 1 [sym_kExports]; AGroup 18762 1 [sym_kLabel];
     AGroup 18766 1 [sym_kType]; AGroup 18768 1 [sym_kUses]; SGroup 16 1 [sym__ppIf];
     SGroup 3827 1 [sym_blockTr]; SGroup 6432 1 [sym_declProc]; SGroup 7920 1 [sym_asmTr];
     SGroup 10355 1 [sym__declProc]; SGroup 10443 1 [sym__declOperator];
     SGroup 11110 1 [sym_rttiAttributes]; SGroup 11216 1 [aux_sym_rttiAttributes_repeat2];
     AGroup 3 2 syms_5; AGroup 18758 2 syms_65; AGroup 18764 2 syms_66; AGroup 23 4 syms_3;
     SGroup 6775 11 syms_210]);
   (348569, 25, [AGroup 5 1 [sym_ppDirective]; AGroup 9 1 [anon_sym_LBRACK];
     AGroup 11 1 [aux_sym_ppUsesBlock_token1]; AGroup 13 1 [sym_kGeneric];
     AGroup 15 1 [sym_kOperator]; AGroup 18756 1 [sym_kClass]; AGroup 18760 1 [sym_kExports];
     AGroup 18762 1 [sym_kLabel]; AGroup 18766 1 [sym_kType]; AGroup 18768 1 [sym_kUses];
     AGroup 19009 1 [sym_kAsm]; AGroup 19011 1 [sym_kBegin]; SGroup 16 1 [sym__ppIf];
     SGroup 3149 1 [sym_blockTr]; SGroup 6432 1 [sym_declProc]; SGroup 7115 1 [sym_asmTr];
     SGroup 10355 1 [sym__declProc]; SGroup 10443 1 [sym__declOperator];
     SGroup 11110 1 [sym_rttiAttributes]; SGroup 11216 1 [aux_sym_rttiAttributes_repeat2];
     AGroup 3 2 syms_5; AGroup 18758 2 syms_65; AGroup 18764 2 syms_66; AGroup 23 4 syms_3;
     SGroup 7035 11 syms_210]);
   (348661, 25, [AGroup 5 1 [sym_ppDirective]; AGroup 9 1 [anon_sym_LBRACK];
     AGroup 11 1 [aux_sym_ppUsesBlock_token1]; AGroup 13 1 [sym_kGeneric];
     AGroup 15 1 [sym_kOperator]; AGroup 18756 1 [sym_kClass]; AGroup 18760 1 [sym_kExports];
     AGroup 18762 1 [sym_kLabel]; AGroup 18766 1 [sym_kType]; AGroup 18768 1 [sym_kUses];
     AGroup 18879 1 [sym_kAsm]; AGroup 18881 1 [sym_kBegin]; SGroup 16 1 [sym__ppIf];
     SGroup 5850 1 [sym_blockTr]; SGroup 6432 1 [sym_declProc]; SGroup 9551 1 [sym_asmTr];
     SGroup 10355 1 [sym__declProc]; SGroup 10443 1 [sym__declOperator];
     SGroup 11110 1 [sym_rttiAttributes]; SGroup 11216 1 [aux_sym_rttiAttributes_repeat2];
     AGroup 3 2 syms_5; AGroup 18758 2 syms_65; AGroup 18764 2 syms_66; AGroup 23 4 syms_3;
     SGroup 7035 11 syms_210]);
   (348753, 25, [AGroup 5 1 [sym_ppDirective]; AGroup 9 1 [anon_sym_LBRACK];
     AGroup 11 1 [aux_sym_ppUsesBlock_token1]; AGroup 13 1 [sym_kGeneric];
     AGroup 15 1 [sym_kOperator]; AGroup 18756 1 [sym_kClass]; AGroup 18760 1 [sym_kExports];
     AGroup 18762 1 [sym_kLabel]; AGroup 18766 1 [sym_kType]; AGroup 18768 1 [sym_kUses];
     AGroup 19255 1 [sym_kAsm]; AGroup 19257 1 [sym_kBegin]; SGroup 16 1 [sym__ppIf];
     SGroup 4379 1 [sym_blockTr]; SGroup 6432 1 [sym_declProc]; SGroup 8547 1 [sym_asmTr];
     SGroup 10355 1 [sym__declProc]; SGroup 10443 1 [sym__declOperator];
     SGroup 11110 1 [sym_rttiAttributes]; SGroup 11216 1 [aux_sym_rttiAttributes_repeat2];
     AGroup 3 2 syms_5; AGroup 18758 2 syms_65; AGroup 18764 2 syms_66; AGroup 23 4 syms_3;
     SGroup 7035 11 syms_210]);
   (348845, 25, [AGroup 5 1 [sym_ppDirective]; AGroup 9 1 [anon_sym_LBRACK];
     AGroup 11 1 [aux_sym_ppUsesBlock_token1]; AGroup 13 1 [sym_kGeneric];
     AGroup 15 1 [sym_kOperator]; AGroup 18756 1 [sym_kClass]; AGroup 18760 1 [sym_kExports];
     AGroup 18762 1 [sym_kLabel]; AGroup 18766 1 [sym_kType]; AGroup 18768 1 [sym_kUses];
     AGroup 19255 1 [sym_kAsm]; AGroup 19257 1 [sym_kBegin]; SGroup 16 1 [sym__ppIf];
     SGroup 4380 1 [sym_blockTr]; SGroup 6432 1 [sym_declProc]; SGroup 8551 1 [sym_asmTr];
     SGroup 10355 1 [sym__declProc]; SGroup 10443 1 [sym__declOperator];
     SGroup 11110 1 [sym_rttiAttributes]; SGroup 11216 1 [aux_sym_rttiAttributes_repeat2];
     AGroup 3 2 syms_5; AGroup 18758 2 syms_65; AGroup 18764 2 syms_66; AGroup 23 4 syms_3;
     SGroup 6957 11 syms_210]);
   (348937, 25, [AGroup 5 1 [sym_ppDirective]; AGroup 9 1 [anon_sym_LBRACK];
     AGroup 11 1 [aux_sym_ppUsesBlock_token1]; AGroup 13 1 [sym_kGeneric];
     AGroup 15 1 [sym_kOperator]; AGroup 18756 1 [sym_kClass]; AGroup 18760 1 [sym_kExports];
     AGroup 18762 1 [sym_kLabel]; AGroup 18766 1 [sym_kType]; AGroup 18768 1 [sym_kUses];
     AGroup 18891 1 [sym_kAsm]; AGroup 18893 1 [sym_kBegin]; SGroup 16 1 [sym__ppIf];
     SGroup 5782 1 [sym_blockTr]; SGroup 6432 1 [sym_declProc]; SGroup 9328 1 [sym_asmTr];
     SGroup 10355 1 [sym__declProc]; SGroup 10443 1 [sym__declOperator];
     SGroup 11110 1 [sym_rttiAttributes]; SGroup 11216 1 [aux_sym_rttiAttributes_repeat2];
     AGroup 3 2 syms_5; AGroup 18758 2 syms_65; AGroup 18764 2 syms_66; AGroup 23 4 syms_3;
     SGroup 7035 11 syms_210]);
   (349029, 25, [AGroup 5 1 [sym_ppDirective]; AGroup 9 1 [anon_sym_LBRACK];
     AGroup 11 1 [aux_sym_ppUsesBlock_token1]; AGroup 13 1 [sym_kGeneric];
     AGroup 15 1 [sym_kOperator]; AGroup 18756 1 [sym_kClass]; AGroup 18760 1 [sym_kExports];
     AGroup 18762 1 [sym_kLabel]; AGroup 18766 1 [sym_kType]; AGroup 18768 1 [sym_kUses];
     AGroup 19255 1 [sym_kAsm]; AGroup 19257 1 [sym_kBegin]; SGroup 16 1 [sym__ppIf];
     SGroup 4382 1 [sym_blockTr]; SGroup 6432 1 [sym_declProc]; SGroup 8557 1 [sym_asmTr];
     SGroup 10355 1 [sym__declProc]; SGroup 10443 1 [sym__declOperator];
     SGroup 11110 1 [sym_rttiAttributes]; SGroup 11216 1 [aux_sym_rttiAttributes_repeat2];
     AGroup 3 2 syms_5; AGroup 18758 2 syms_65; AGroup 18764 2 syms_66; AGroup 23 4 syms_3;
     SGroup 7035 11 syms_210]);
   (349121, 25, [AGroup 5 1 [sym_ppDirective]; AGroup 9 1 [anon_sym_LBRACK];
     AGroup 11 1 [aux_sym_ppUsesBlock_token1]; AGroup 13 1 [sym_kGeneric];
     AGroup 15 1 [sym_kOperator]; AGroup 18756 1 [sym_kClass]; AGroup 18760 1 [sym_kExports];
     AGroup 18762 1 [sym_kLabel]; AGroup 18766 1 [sym_kType]; AGroup 18768 1 [sym_kUses];
     AGroup 18925 1 [sym_kAsm]; AGroup 18927 1 [sym_kBegin]; SGroup 16 1 [sym__ppIf];
     SGroup 5805 1 [sym_blockTr]; SGroup 6432 1 [sym_declProc]; SGroup 9143 1 [sym_asmTr];
     SGroup 10355 1 [sym__declProc]; SGroup 10443 1 [sym__declOperator];
     SGroup 11110 1 [sym_rttiAttributes]; SGroup 11216 1 [aux_sym_rttiAttributes_repeat2];
     AGroup 3 2 syms_5; AGroup 18758 2 syms_65; AGroup 18764 2 syms_66; AGroup 23 4 syms_3;
     SGroup 6641 11 syms_210])
  ].

(** States 6959 to 7058. *)
Definition small_runs_6959 : list small_run :=
  [
   (349213, 25, [AGroup 5 1 [sym_ppDirective]; AGroup 9 1 [anon_sym_LBRACK];
     AGroup 11 1 [aux_sym_ppUsesBlock_token1]; AGroup 13 1 [sym_kGeneric];
     AGroup 15 1 [sym_kOperator]; AGroup 18756 1 [sym_kClass]; AGroup 18760 1 [sym_kExports];
     AGroup 18762 1 [sym_kLabel]; AGroup 18766 1 [sym_kType]; AGroup 18768 1 [sym_kUses];
     AGroup 19035 1 [sym_kAsm]; AGroup 19037 1 [sym_kBegin]; SGroup 16 1 [sym__ppIf];
     SGroup 3623 1 [sym_blockTr]; SGroup 6432 1 [sym_declProc]; SGroup 7737 1 [sym_asmTr];
     SGroup 10355 1 [sym__declProc]; SGroup 10443 1 [sym__declOperator];
     SGroup 11110 1 [sym_rttiAttributes]; SGroup 11216 1 [aux_sym_rttiAttributes_repeat2];
     AGroup 3 2 syms_5; AGroup 18758 2 syms_65; AGroup 18764 2 syms_66; AGroup 23 4 syms_3;
     SGroup 7035 11 syms_210]);
   (349305, 4, [AGroup 5 1 [sym_ppDirective]; AGroup 3 2 syms_5; AGroup 10864 5 syms_150;
     AGroup 10862 33 syms_252]);
   (349355, 4, [AGroup 5 1 [sym_ppDirective]; AGroup 3 2 syms_5; AGroup 10868 5 syms_150;
     AGroup 10866 33 syms_252]);
   (349405, 25, [AGroup 5 1 [sym_ppDirective]; AGroup 9 1 [anon_sym_LBRACK];
     AGroup 11 1 [aux_sym_ppUsesBlock_token1]; AGroup 13 1 [sym_kGeneric];
     AGroup 15 1 [sym_kOperator]; AGroup 18756 1 [sym_kClass]; AGroup 18760 1 [sym_kExports];
     AGroup 18762 1 [sym_kLabel]; AGroup 18766 1 [sym_kType]; AGroup 18768 1 [sym_kUses];
     AGroup 18919 1 [sym_kAsm]; AGroup 18921 1 [sym_kBegin]; SGroup 16 1 [sym__ppIf];
     SGroup 3052 1 [sym_blockTr]; SGroup 6432 1 [sym_declProc]; SGroup 7102 1 [sym_asmTr];
     SGroup 10355 1 [sym__declProc]; SGroup 10443 1 [sym__declOperator];
     SGroup 11110 1 [sym_rttiAttributes]; SGroup 11216 1 [aux_sym_rttiAttributes_repeat2];
     AGroup 3 2 syms_5; AGroup 18758 2 syms_65; AGroup 18764 2 syms_66; AGroup 23 4 syms_3;
     SGroup 6623 11 syms_210]);
   (349497, 25, [AGroup 5 1 [sym_ppDirective]; AGroup 9 1 [anon_sym_LBRACK];
     AGroup 11 1 [aux_sym_ppUsesBlock_token1]; AGroup 13 1 [sym_kGeneric];
     AGroup 15 1 [sym_kOperator]; AGroup 18756 1 [sym_kClass]; AGroup 18760 1 [sym_kExports];
     AGroup 18762 1 [sym_kLabel]; AGroup 18766 1 [sym_kType]; AGroup 18768 1 [sym_kUses];
     AGroup 19009 1 [sym_kAsm]; AGroup 19011 1 [sym_kBegin]; SGroup 16 1 [sym__ppIf];
     SGroup 3119 1 [sym_blockTr]; SGroup 6432 1 [sym_declProc]; SGroup 7121 1 [sym_asmTr];
     SGroup 10355 1 [sym__declProc]; SGroup 10443 1 [sym__declOperator];
     SGroup 11110 1 [sym_rttiAttributes]; SGroup 11216 1 [aux_sym_rttiAttributes_repeat2];
     AGroup 3 2 syms_5; AGroup 18758 2 syms_65; AGroup 18764 2 syms_66; AGroup 23 4 syms_3;
     SGroup 6985 11 syms_210]);
   (349589, 25, [AGroup 5 1 [sym_ppDirective]; AGroup 9 1 [anon_sym_LBRACK];
     AGroup 11 1 [aux_sym_ppUsesBlock_token1]; AGroup 13 1 [sym_kGeneric];
     AGroup 15 1 [sym_kOperator]; AGroup 18756 1 [sym_kClass]; AGroup 18760 1 [sym_kExports];
     AGroup 18762 1 [sym_kLabel]; AGroup 18766 1 [sym_kType]; AGroup 18768 1 [sym_kUses];
     AGroup 19009 1 [sym_kAsm]; AGroup 19011 1 [sym_kBegin]; SGroup 16 1 [sym__ppIf];
     SGroup 3062 1 [sym_blockTr]; SGroup 6432 1 [sym_declProc]; SGroup 7122 1 [sym_asmTr];
     SGroup 10355 1 [sym__declProc]; SGroup 10443 1 [sym__declOperator];
     SGroup 11110 1 [sym_rttiAttributes]; SGroup 11216 1 [aux_sym_rttiAttributes_repeat2];
     AGroup 3 2 syms_5; AGroup 18758 2 syms_65; AGroup 18764 2 syms_66; AGroup 23 4 syms_3;
     SGroup 7035 11 syms_210]);
   (349681, 25, [AGroup 5 1 [sym_ppDirective]; AGroup 9 1 [anon_sym_LBRACK];
     AGroup 11 1 [aux_sym_ppUsesBlock_token1]; AGroup 13 1 [sym_kGeneric];
     AGroup 15 1 [sym_kOperator]; AGroup 18756 1 [sym_kClass]; AGroup 18760 1 [sym_kExports];
     AGroup 18762 1 [sym_kLabel]; AGroup 18766 1 [sym_kType]; AGroup 18768 1 [sym_kUses];
     AGroup 18891 1 [sym_kAsm]; AGroup 18893 1 [sym_kBegin]; SGroup 16 1 [sym__ppIf];
     SGroup 5785 1 [sym_blockTr]; SGroup 6432 1 [sym_declProc]; SGroup 9337 1 [sym_asmTr];
     SGroup 10355 1 [sym__declProc]; SGroup 10443 1 [sym__declOperator];
     SGroup 11110 1 [sym_rttiAttributes]; SGroup 11216 1 [aux_sym_rttiAttributes_repeat2];
     AGroup 3 2 syms_5; AGroup 18758 2 syms_65; AGroup 18764 2 syms_66; AGroup 23 4 syms_3;
     SGroup 6977 11 syms_210]);
   (349773, 7, [AGroup 5 1 [sym_ppDirective]; AGroup 19638 1 [anon_sym_POUND]; AGroup 3 2 syms_5;
     AGroup 19635 2 syms_6; SGroup 6966 3 syms_13; AGroup 15241 7 syms_34;
     AGroup 15239 25 syms_115]);
   (349829, 7, [AGroup 5 1 [sym_ppDirective]; AGroup 9992 1 [anon_sym_POUND]; AGroup 3 2 syms_5;
     AGroup 19641 2 syms_6; SGroup 6635 3 syms_13; AGroup 15235 7 syms_34;
     AGroup 15233 25 syms_113]);
   (349885, 25, [AGroup 5 1 [sym_ppDirective]; AGroup 9 1 [anon_sym_LBRACK];
     AGroup 11 1 [aux_sym_ppUsesBlock_token1]; AGroup 13 1 [sym_kGeneric];
     AGroup 15 1 [sym_kOperator]; AGroup 18756 1 [sym_kClass]; AGroup 18760 1 [sym_kExports];
     AGroup 18762 1 [sym_kLabel]; AGroup 18766 1 [sym_kType]; AGroup 18768 1 [sym_kUses];
     AGroup 19275 1 [sym_kAsm]; AGroup 19277 1 [sym_kBegin]; SGroup 16 1 [sym__ppIf];
     SGroup 5690 1 [sym_blockTr]; SGroup 6432 1 [sym_declProc]; SGroup 9024 1 [sym_asmTr];
     SGroup 10355 1 [sym__declProc]; SGroup 10443 1 [sym__declOperator];
     SGroup 11110 1 [sym_rttiAttributes]; SGroup 11216 1 [aux_sym_rttiAttributes_repeat2];
     AGroup 3 2 syms_5; AGroup 18758 2 syms_65; AGroup 18764 2 syms_66; AGroup 23 4 syms_3;
     SGroup 7035 11 syms_210]);
   (349977, 25, [AGroup 5 1 [sym_ppDirective]; AGroup 9 1 [anon_sym_LBRACK];
     AGroup 11 1 [aux_sym_ppUsesBlock_token1]; AGroup 13 1 [sym_kGeneric];
     AGroup 15 1 [sym_kOperator]; AGroup 18756 1 [sym_kClass]; AGroup 18760 1 [sym_kExports];
     AGroup 18762 1 [sym_kLabel]; AGroup 18766 1 [sym_kType]; AGroup 18768 1 [sym_kUses];
     AGroup 18891 1 [sym_kAsm]; AGroup 18893 1 [sym_kBegin]; SGroup 16 1 [sym__ppIf];
     SGroup 5786 1 [sym_blockTr]; SGroup 6432 1 [sym_declProc]; SGroup 9338 1 [sym_asmTr];
     SGroup 10355 1 [sym__declProc]; SGroup 10443 1 [sym__declOperator];
     SGroup 11110 1 [sym_rttiAttributes]; SGroup 11216 1 [aux_sym_rttiAttributes_repeat2];
     AGroup 3 2 syms_5; AGroup 18758 2 syms_65; AGroup 18764 2 syms_66; AGroup 23 4 syms_3;
     SGroup 7035 11 syms_210]);
   (350069, 25, [AGroup 5 1 [sym_ppDirective]; AGroup 9 1 [anon_sym_LBRACK];
     AGroup 11 1 [aux_sym_ppUsesBlock_token1]; AGroup 13 1 [sym_kGeneric];
     AGroup 15 1 [sym_kOperator]; AGroup 18756 1 [sym_kClass]; AGroup 18760 1 [sym_kExports];
     AGroup 18762 1 [sym_kLabel]; AGroup 18766 1 [sym_kType]; AGroup 18768 1 [sym_kUses];
     AGroup 18984 1 [sym_kAsm]; AGroup 18986 1 [sym_kBegin]; SGroup 16 1 [sym__ppIf];
     SGroup 4081 1 [sym_blockTr]; SGroup 6432 1 [sym_declProc]; SGroup 7929 1 [sym_asmTr];
     SGroup 10355 1 [sym__declProc]; SGroup 10443 1 [sym__declOperator];
     SGroup 11110 1 [sym_rttiAttributes]; SGroup 11216 1 [aux_sym_rttiAttributes_repeat2];
     AGroup 3 2 syms_5; AGroup 18758 2 syms_65; AGroup 18764 2 syms_66; AGroup 23 4 syms_3;
     SGroup 7035 11 syms_210]);
   (350161, 25, [AGroup 5 1 [sym_ppDirective]; AGroup 9 1 [anon_sym_LBRACK];
     AGroup 11 1 [aux_sym_ppUsesBlock_token1]; AGroup 13 1 [sym_kGeneric];
     AGroup 15 1 [sym_kOperator]; AGroup 18756 1 [sym_kClass]; AGroup 18760 1 [sym_kExports];
     AGroup 18762 1 [sym_kLabel]; AGroup 18766 1 [sym_kType]; AGroup 18768 1 [sym_kUses];
     AGroup 18919 1 [sym_kAsm]; AGroup 18921 1 [sym_kBegin]; SGroup 16 1 [sym__ppIf];
     SGroup 3053 1 [sym_blockTr]; SGroup 6432 1 [sym_declProc]; SGroup 7094 1 [sym_asmTr];
     SGroup 10355 1 [sym__declProc]; SGroup 10443 1 [sym__declOperator];
     SGroup 11110 1 [sym_rttiAttributes]; SGroup 11216 1 [aux_sym_rttiAttributes_repeat2];
     AGroup 3 2 syms_5; AGroup 18758 2 syms_65; AGroup 18764 2 syms_66; AGroup 23 4 syms_3;
     SGroup 7035 11 syms_210]);
   (350253, 4, [AGroup 5 1 [sym_ppDirective]; AGroup 3 2 syms_5; AGroup 10872 5 syms_150;
     AGroup 10870 33 syms_252]);
   (350303, 25, [AGroup 5 1 [sym_ppDirective]; AGroup 9 1 [anon_sym_LBRACK];
     AGroup 11 1 [aux_sym_ppUsesBlock_token1]; AGroup 13 1 [sym_kGeneric];
     AGroup 15 1 [sym_kOperator]; AGroup 18756 1 [sym_kClass]; AGroup 18760 1 [sym_kExports];
     AGroup 18762 1 [sym_kLabel]; AGroup 18766 1 [sym_kType]; AGroup 18768 1 [sym_kUses];
     AGroup 18960 1 [sym_kAsm]; AGroup 18962 1 [sym_kBegin]; SGroup 16 1 [sym__ppIf];
     SGroup 4445 1 [sym_blockTr]; SGroup 6432 1 [sym_declProc]; SGroup 8245 1 [sym_asmTr];
     SGroup 10355 1 [sym__declProc]; SGroup 10443 1 [sym__declOperator];
     SGroup 11110 1 [sym_rttiAttributes]; SGroup 11216 1 [aux_sym_rttiAttributes_repeat2];
     AGroup 3 2 syms_5; AGroup 18758 2 syms_65; AGroup 18764 2 syms_66; AGroup 23 4 syms_3;
     SGroup 7035 11 syms_210]);
   (350395, 4, [AGroup 5 1 [sym_ppDirective]; AGroup 3 2 syms_5; AGroup 10876 5 syms_150;
     AGroup 10874 33 syms_252]);
   (350445, 25, [AGroup 5 1 [sym_ppDirective]; AGroup 9 1 [anon_sym_LBRACK];
     AGroup 11 1 [aux_sym_ppUsesBlock_token1]; AGroup 13 1 [sym_kGeneric];
     AGroup 15 1 [sym_kOperator]; AGroup 18756 1 [sym_kClass]; AGroup 18760 1 [sym_kExports];
     AGroup 18762 1 [sym_kLabel]; AGroup 18766 1 [sym_kType]; AGroup 18768 1 [sym_kUses];
     AGroup 18879 1 [sym_kAsm]; AGroup 18881 1 [sym_kBegin]; SGroup 16 1 [sym__ppIf];
     SGroup 5860 1 [sym_blockTr]; SGroup 6432 1 [sym_declProc]; SGroup 9594 1 [sym_asmTr];
     SGroup 10355 1 [sym__declProc]; SGroup 10443 1 [sym__declOperator];
     SGroup 11110 1 [sym_rttiAttributes]; SGroup 11216 1 [aux_sym_rttiAttributes_repeat2];
     AGroup 3 2 syms_5; AGroup 18758 2 syms_65; AGroup 18764 2 syms_66; AGroup 23 4 syms_3;
     SGroup 6765 11 syms_210]);
   (350537, 25, [AGroup 5 1 [sym_ppDirective]; AGroup 9 1 [anon_sym_LBRACK];
     AGroup 11 1 [aux_sym_ppUsesBlock_token1]; AGroup 13 1 [sym_kGeneric];
     AGroup 15 1 [sym_kOperator]; AGroup 18756 1 [sym_kClass]; AGroup 18760 1 [sym_kExports];
     AGroup 18762 1 [sym_kLabel]; AGroup 18766 1 [sym_kType]; AGroup 18768 1 [sym_kUses];
     AGroup 18879 1 [sym_kAsm]; AGroup 18881 1 [sym_kBegin]; SGroup 16 1 [sym__ppIf];
     SGroup 5863 1 [sym_blockTr]; SGroup 6432 1 [sym_declProc]; SGroup 9597 1 [sym_asmTr];
     SGroup 10355 1 [sym__declProc]; SGroup 10443 1 [sym__declOperator];
     SGroup 11110 1 [sym_rttiAttributes]; SGroup 11216 1 [aux_sym_rttiAttributes_repeat2];
     AGroup 3 2 syms_5; AGroup 18758 2 syms_65; AGroup 18764 2 syms_66; AGroup 23 4 syms_3;
     SGroup 7035 11 syms_210]);
   (350629, 25, [AGroup 5 1 [sym_ppDirective]; AGroup 9 1 [anon_sym_LBRACK];
     AGroup 11 1 [aux_sym_ppUsesBlock_token1]; AGroup 13 1 [sym_kGeneric];
     AGroup 15 1 [sym_kOperator]; AGroup 18756 1 [sym_kClass]; AGroup 18760 1 [sym_kExports];
     AGroup 18762 1 [sym_kLabel]; AGroup 18766 1 [sym_kType]; AGroup 18768 1 [sym_kUses];
     AGroup 18891 1 [sym_kAsm]; AGroup 18893 1 [sym_kBegin]; SGroup 16 1 [sym__ppIf];
     SGroup 5796 1 [sym_blockTr]; SGroup 6432 1 [sym_declProc]; SGroup 9352 1 [sym_asmTr];
     SGroup 10355 1 [sym__declProc]; SGroup 10443 1 [sym__declOperator];
     SGroup 11110 1 [sym_rttiAttributes]; SGroup 11216 1 [aux_sym_rttiAttributes_repeat2];
     AGroup 3 2 syms_5; AGroup 18758 2 syms_65; AGroup 18764 2 syms_66; AGroup 23 4 syms_3;
     SGroup 7035 11 syms_210]);
   (350721, 25, [AGroup 5 1 [sym_ppDirective]; AGroup 9 1 [anon_sym_LBRACK];
     AGroup 11 1 [aux_sym_ppUsesBlock_token1]; AGroup 13 1 [sym_kGeneric];
     AGroup 15 1 [sym_kOperator]; AGroup 18756 1 [sym_kClass]; AGroup 18760 1 [sym_kExports];
     AGroup 18762 1 [sym_kLabel]; AGroup 18766 1 [sym_kType]; AGroup 18768 1 [sym_kUses];
     AGroup 18891 1 [sym_kAsm]; AGroup 18893 1 [sym_kBegin]; SGroup 16 1 [sym__ppIf];
     SGroup 5808 1 [sym_blockTr]; SGroup 6432 1 [sym_declProc]; SGroup 9353 1 [sym_asmTr];
     SGroup 10355 1 [sym__declProc]; SGroup 10443 1 [sym__declOperator];
     SGroup 11110 1 [sym_rttiAttributes]; SGroup 11216 1 [aux_sym_rttiAttributes_repeat2];
     AGroup 3 2 syms_5; AGroup 18758 2 syms_65; AGroup 18764 2 syms_66; AGroup 23 4 syms_3;
     SGroup 6982 11 syms_210]);
   (350813, 25, [AGroup 5 1 [sym_ppDirective]; AGroup 9 1 [anon_sym_LBRACK];
     AGroup 11 1 [aux_sym_ppUsesBlock_token1]; AGroup 13 1 [sym_kGeneric];
     AGroup 15 1 [sym_kOperator]; AGroup 18756 1 [sym_kClass]; AGroup 18760 1 [sym_kExports];
     AGroup 18762 1 [sym_kLabel]; AGroup 18766 1 [sym_kType]; AGroup 18768 1 [sym_kUses];
     AGroup 19275 1 [sym_kAsm]; AGroup 19277 1 [sym_kBegin]; SGroup 16 1 [sym__ppIf];
     SGroup 5712 1 [sym_blockTr]; SGroup 6432 1 [sym_declProc]; SGroup 9033 1 [sym_asmTr];
     SGroup 10355 1 [sym__declProc]; SGroup 10443 1 [sym__declOperator];
     SGroup 11110 1 [sym_rttiAttributes]; SGroup 11216 1 [aux_sym_rttiAttributes_repeat2];
     AGroup 3 2 syms_5; AGroup 18758 2 syms_65; AGroup 18764 2 syms_66; AGroup 23 4 syms_3;
     SGroup 6748 11 syms_210]);
   (350905, 25, [AGroup 5 1 [sym_ppDirective]; AGroup 9 1 [anon_sym_LBRACK];
     AGroup 11 1 [aux_sym_ppUsesBlock_token1]; AGroup 13 1 [sym_kGeneric];
     AGroup 15 1 [sym_kOperator]; AGroup 18756 1 [sym_kClass]; AGroup 18760 1 [sym_kExports];
     AGroup 18762 1 [sym_kLabel]; AGroup 18766 1 [sym_kType]; AGroup 18768 1 [sym_kUses];
     AGroup 19275 1 [sym_kAsm]; AGroup 19277 1 [sym_kBegin]; SGroup 16 1 [sym__ppIf];
     SGroup 5713 1 [sym_blockTr]; SGroup 6432 1 [sym_declProc]; SGroup 9034 1 [sym_asmTr];
     SGroup 10355 1 [sym__declProc]; SGroup 10443 1 [sym__declOperator];
     SGroup 11110 1 [sym_rttiAttributes]; SGroup 11216 1 [aux_sym_rttiAttributes_repeat2];
     AGroup 3 2 syms_5; AGroup 18758 2 syms_65; AGroup 18764 2 syms_66; AGroup 23 4 syms_3;
     SGroup 7035 11 syms_210]);
   (350997, 25, [AGroup 5 1 [sym_ppDirective]; AGroup 9 1 [anon_sym_LBRACK];
     AGroup 11 1 [aux_sym_ppUsesBlock_token1]; AGroup 13 1 [sym_kGeneric];
     AGroup 15 1 [sym_kOperator]; AGroup 18756 1 [sym_kClass]; AGroup 18760 1 [sym_kExports];
     AGroup 18762 1 [sym_kLabel]; AGroup 18766 1 [sym_kType]; AGroup 18768 1 [sym_kUses];
     AGroup 19283 1 [sym_kAsm]; AGroup 19285 1 [sym_kBegin]; SGroup 16 1 [sym__ppIf];
     SGroup 4587 1 [sym_blockTr]; SGroup 6432 1 [sym_declProc]; SGroup 8400 1 [sym_asmTr];
     SGroup 10355 1 [sym__declProc]; SGroup 10443 1 [sym__declOperator];
     SGroup 11110 1 [sym_rttiAttributes]; SGroup 11216 1 [aux_sym_rttiAttributes_repeat2];
     AGroup 3 2 syms_5; AGroup 18758 2 syms_65; AGroup 18764 2 syms_66; AGroup 23 4 syms_3;
     SGroup 6712 11 syms_210]);
   (351089, 25, [AGroup 5 1 [sym_ppDirective]; AGroup 9 1 [anon_sym_LBRACK];
     AGroup 11 1 [aux_sym_ppUsesBlock_token1]; AGroup 13 1 [sym_kGeneric];
     AGroup 15 1 [sym_kOperator]; AGroup 18756 1 [sym_kClass]; AGroup 18760 1 [sym_kExports];
     AGroup 18762 1 [sym_kLabel]; AGroup 18766 1 [sym_kType]; AGroup 18768 1 [sym_kUses];
     AGroup 18891 1 [sym_kAsm]; AGroup 18893 1 [sym_kBegin]; SGroup 16 1 [sym__ppIf];
     SGroup 5812 1 [sym_blockTr]; SGroup 6432 1 [sym_declProc]; SGroup 9355 1 [sym_asmTr];
     SGroup 10355 1 [sym__declProc]; SGroup 10443 1 [sym__declOperator];
     SGroup 11110 1 [sym_rttiAttributes]; SGroup 11216 1 [aux_sym_rttiAttributes_repeat2];
     AGroup 3 2 syms_5; AGroup 18758 2 syms_65; AGroup 18764 2 syms_66; AGroup 23 4 syms_3;
     SGroup 7035 11 syms_210]);
   (351181, 25, [AGroup 5 1 [sym_ppDirective]; AGroup 9 1 [anon_sym_LBRACK];
     AGroup 11 1 [aux_sym_ppUsesBlock_token1]; AGroup 13 1 [sym_kGeneric];
     AGroup 15 1 [sym_kOperator]; AGroup 18752 1 [sym_kAsm]; AGroup 18754 1 [sym_kBegin];
     AGroup 18756 1 [sym_kClass]; AGroup 18760 1 [sym_kExports]; AGroup 18762 1 [sym_kLabel];
     AGroup 18766 1 [sym_kType]; AGroup 18768 1 [sym_kUses]; SGroup 16 1 [sym__ppIf];
     SGroup 3856 1 [sym_blockTr]; SGroup 6432 1 [sym_declProc]; SGroup 7780 1 [sym_asmTr];
     SGroup 10355 1 [sym__declProc]; SGroup 10443 1 [sym__declOperator];
     SGroup 11110 1 [sym_rttiAttributes]; SGroup 11216 1 [aux_sym_rttiAttributes_repeat2];
     AGroup 3 2 syms_5; AGroup 18758 2 syms_65; AGroup 18764 2 syms_66; AGroup 23 4 syms_3;
     SGroup 7035 11 syms_210]);
   (351273, 25, [AGroup 5 1 [sym_ppDirective]; AGroup 9 1 [anon_sym_LBRACK];
     AGroup 11 1 [aux_sym_ppUsesBlock_token1]; AGroup 13 1 [sym_kGeneric];
     AGroup 15 1 [sym_kOperator]; AGroup 18756 1 [sym_kClass]; AGroup 18760 1 [sym_kExports];
     AGroup 18762 1 [sym_kLabel]; AGroup 18766 1 [sym_kType]; AGroup 18768 1 [sym_kUses];
     AGroup 18978 1 [sym_kAsm]; AGroup 18980 1 [sym_kBegin]; SGroup 16 1 [sym__ppIf];
     SGroup 5580 1 [sym_blockTr]; SGroup 6432 1 [sym_declProc]; SGroup 8728 1 [sym_asmTr];
     SGroup 10355 1 [sym__declProc]; SGroup 10443 1 [sym__declOperator];
     SGroup 11110 1 [sym_rttiAttributes]; SGroup 11216 1 [aux_sym_rttiAttributes_repeat2];
     AGroup 3 2 syms_5; AGroup 18758 2 syms_65; AGroup 18764 2 syms_66; AGroup 23 4 syms_3;
     SGroup 7035 11 syms_210]);
   (351365, 25, [AGroup 5 1 [sym_ppDirective]; AGroup 9 1 [anon_sym_LBRACK];
     AGroup 11 1 [aux_sym_ppUsesBlock_token1]; AGroup 13 1 [sym_kGeneric];
     AGroup 15 1 [sym_kOperator]; AGroup 18756 1 [sym_kClass]; AGroup 18760 1 [sym_kExports];
     AGroup 18762 1 [sym_kLabel]; AGroup 18766 1 [sym_kType]; AGroup 18768 1 [sym_kUses];
     AGroup 19009 1 [sym_kAsm]; AGroup 19011 1 [sym_kBegin]; SGroup 16 1 [sym__ppIf];
     SGroup 3065 1 [sym_blockTr]; SGroup 6432 1 [sym_declProc]; SGroup 7128 1 [sym_asmTr];
     SGroup 10355 1 [sym__declProc]; SGroup 10443 1 [sym__declOperator];
     SGroup 11110 1 [sym_rttiAttributes]; SGroup 11216 1 [aux_sym_rttiAttributes_repeat2];
     AGroup 3 2 syms_5; AGroup 18758 2 syms_65; AGroup 18764 2 syms_66; AGroup 23 4 syms_3;
     SGroup 7035 11 syms_210]);
   (351457, 25, [AGroup 5 1 [sym_ppDirective]; AGroup 9 1 [anon_sym_LBRACK];
     AGroup 11 1 [aux_sym_ppUsesBlock_token1]; AGroup 13 1 [sym_kGeneric];
     AGroup 15 1 [sym_kOperator]; AGroup 18756 1 [sym_kClass]; AGroup 18760 1 [sym_kExports];
     AGroup 18762 1 [sym_kLabel]; AGroup 18766 1 [sym_kType]; AGroup 18768 1 [sym_kUses];
     AGroup 19177 1 [sym_kAsm]; AGroup 19179 1 [sym_kBegin]; SGroup 16 1 [sym__ppIf];
     SGroup 3588 1 [sym_blockTr]; SGroup 6432 1 [sym_declProc]; SGroup 7583 1 [sym_asmTr];
     SGroup 10355 1 [sym__declProc]; SGroup 10443 1 [sym__declOperator];
     SGroup 11110 1 [sym_rttiAttributes]; SGroup 11216 1 [aux_sym_rttiAttributes_repeat2];
     AGroup 3 2 syms_5; AGroup 18758 2 syms_65; AGroup 18764 2 syms_66; AGroup 23 4 syms_3;
     SGroup 7035 11 syms_210]);
   (351549, 4, [AGroup 5 1 [sym_ppDirective]; AGroup 3 2 syms_5; AGroup 17380 7 syms_34;
     AGroup 17378 30 syms_37]);
   (351598, 4, [AGroup 5 1 [sym_ppDirective]; AGroup 3 2 syms_5; AGroup 17358 7 syms_34;
     AGroup 17356 30 syms_37]);
   (351647, 4, [AGroup 5 1 [sym_ppDirective]; AGroup 3 2 syms_5; AGroup 17362 7 syms_34;
     AGroup 17360 30 syms_37]);
   (351696, 4, [AGroup 5 1 [sym_ppDirective]; AGroup 3 2 syms_5; AGroup 17412 7 syms_34;
     AGroup 17410 30 syms_37]);
   (351745, 4, [AGroup 5 1 [sym_ppDirective]; AGroup 3 2 syms_5; AGroup 17158 7 syms_34;
     AGroup 17156 30 syms_37]);
   (351794, 4, [AGroup 5 1 [sym_ppDirective]; AGroup 3 2 syms_5; AGroup 17328 7 syms_34;
     AGroup 17326 30 syms_37]);
   (351843, 24, [AGroup 5 1 [sym_ppDirective]; AGroup 9 1 [anon_sym_LBRACK];
     AGroup 11 1 [aux_sym_ppUsesBlock_token1]; AGroup 13 1 [sym_kGeneric];
     AGroup 15 1 [sym_kOperator]; AGroup 19643 1 [sym_kBegin]; AGroup 19645 1 [sym_kClass];
     AGroup 19649 1 [sym_kEnd]; AGroup 19651 1 [sym_kExports]; AGroup 19653 1 [sym_kLabel];
     AGroup 19657 1 [sym_kType]; AGroup 19659 1 [sym_kUses]; SGroup 19 1 [sym__ppIf];
     SGroup 6404 1 [sym_declProc]; SGroup 10354 1 [sym__declProc]; SGroup 10363 1 [sym_blockTr];
     SGroup 10443 1 [sym__declOperator]; SGroup 11110 1 [sym_rttiAttributes];
     SGroup 11216 1 [aux_sym_rttiAttributes_repeat2]; AGroup 3 2 syms_5; AGroup 19647 2 syms_65;
     AGroup 19655 2 syms_66; AGroup 23 4 syms_3; SGroup 7009 11 syms_210]);
   (351932, 7, [AGroup 5 1 [sym_ppDirective]; AGroup 51 1 [anon_sym_POUND]; AGroup 3 2 syms_5;
     AGroup 19661 2 syms_6; SGroup 6997 3 syms_13; AGroup 15235 7 syms_34;
     AGroup 15233 24 syms_125]);
   (351987, 4, [AGroup 5 1 [sym_ppDirective]; AGroup 3 2 syms_5; AGroup 17108 7 syms_34;
     AGroup 17106 30 syms_37]);
   (352036, 4, [AGroup 5 1 [sym_ppDirective]; AGroup 3 2 syms_5; AGroup 17128 7 syms_34;
     AGroup 17126 30 syms_37]);
   (352085, 7, [AGroup 5 1 [sym_ppDirective]; AGroup 19666 1 [anon_sym_POUND]; AGroup 3 2 syms_5;
     AGroup 19663 2 syms_6; SGroup 6997 3 syms_13; AGroup 15241 7 syms_34;
     AGroup 15239 24 syms_125]);
   (352140, 6, [AGroup 5 1 [sym_ppDirective]; AGroup 19669 1 [sym_kHat]; SGroup 4852 1 [sym__exprIsNot];
     AGroup 3 2 syms_5; AGroup 16914 7 syms_34; AGroup 16912 28 syms_270]);
   (352193, 4, [AGroup 5 1 [sym_ppDirective]; AGroup 3 2 syms_5; AGroup 17372 7 syms_34;
     AGroup 17370 30 syms_37]);
   (352242, 6, [AGroup 5 1 [sym_ppDirective]; AGroup 19669 1 [sym_kHat]; SGroup 4852 1 [sym__exprIsNot];
     AGroup 3 2 syms_5; AGroup 16904 7 syms_34; AGroup 16902 28 syms_270]);
   (352295, 4, [AGroup 5 1 [sym_ppDirective]; AGroup 3 2 syms_5; AGroup 17172 7 syms_34;
     AGroup 17170 30 syms_37]);
   (352344, 4, [AGroup 5 1 [sym_ppDirective]; AGroup 3 2 syms_5; AGroup 11316 7 syms_34;
     AGroup 11311 30 syms_37]);
   (352393, 11, [AGroup 5 1 [sym_ppDirective]; AGroup 19669 1 [sym_kHat]; AGroup 19677 1 [sym_kAs];
     SGroup 4852 1 [sym__exprIsNot]; AGroup 3 2 syms_5; AGroup 19671 2 syms_9;
     AGroup 19673 2 syms_258; AGroup 19679 2 syms_259; AGroup 17016 3 syms_94;
     AGroup 19675 5 syms_260; AGroup 17014 20 syms_271]);
   (352456, 11, [AGroup 5 1 [sym_ppDirective]; AGroup 19669 1 [sym_kHat]; AGroup 19677 1 [sym_kAs];
     SGroup 4852 1 [sym__exprIsNot]; AGroup 3 2 syms_5; AGroup 19671 2 syms_9;
     AGroup 19673 2 syms_258; AGroup 19679 2 syms_259; AGroup 16914 3 syms_94;
     AGroup 19675 5 syms_260; AGroup 16912 20 syms_271]);
   (352519, 9, [AGroup 5 1 [sym_ppDirective]; AGroup 19669 1 [sym_kHat]; AGroup 19677 1 [sym_kAs];
     SGroup 4852 1 [sym__exprIsNot]; AGroup 3 2 syms_5; AGroup 19673 2 syms_258;
     AGroup 16914 5 syms_262; AGroup 19675 5 syms_260; AGroup 16912 22 syms_272]);
   (352578, 4, [AGroup 5 1 [sym_ppDirective]; AGroup 3 2 syms_5; AGroup 17408 7 syms_34;
     AGroup 17406 30 syms_37]);
   (352627, 4, [AGroup 5 1 [sym_ppDirective]; AGroup 3 2 syms_5; AGroup 17398 7 syms_34;
     AGroup 17396 30 syms_37]);
   (352676, 4, [AGroup 5 1 [sym_ppDirective]; AGroup 3 2 syms_5; AGroup 16467 7 syms_34;
     AGroup 16465 30 syms_273]);
   (352725, 24, [AGroup 5 1 [sym_ppDirective]; AGroup 9 1 [anon_sym_LBRACK];
     AGroup 11 1 [aux_sym_ppUsesBlock_token1]; AGroup 13 1 [sym_kGeneric];
     AGroup 15 1 [sym_kOperator]; AGroup 19643 1 [sym_kBegin]; AGroup 19645 1 [sym_kClass];
     AGroup 19651 1 [sym_kExports]; AGroup 19653 1 [sym_kLabel]; AGroup 19657 1 [sym_kType];
     AGroup 19659 1 [sym_kUses]; AGroup 19681 1 [sym_kEnd]; SGroup 19 1 [sym__ppIf];
     SGroup 6404 1 [sym_declProc]; SGroup 10354 1 [sym__declProc]; SGroup 10361 1 [sym_blockTr];
     SGroup 10443 1 [sym__declOperator]; SGroup 11110 1 [sym_rttiAttributes];
     SGroup 11216 1 [aux_sym_rttiAttributes_repeat2]; AGroup 3 2 syms_5; AGroup 19647 2 syms_65;
     AGroup 19655 2 syms_66; AGroup 23 4 syms_3; SGroup 7015 11 syms_210]);
   (352814, 5, [AGroup 5 1 [sym_ppDirective]; SGroup 4860 1 [sym_kDot]; AGroup 3 2 syms_5;
     AGroup 16970 7 syms_34; AGroup 16968 29 syms_46]);
   (352865, 7, [AGroup 5 1 [sym_ppDirective]; AGroup 16343 1 [anon_sym_POUND]; AGroup 3 2 syms_5;
     AGroup 19683 2 syms_6; SGroup 7021 3 syms_13; AGroup 15235 4 syms_25;
     AGroup 15233 27 syms_123]);
   (352920, 4, [AGroup 5 1 [sym_ppDirective]; AGroup 3 2 syms_5; AGroup 18831 7 syms_34;
     AGroup 18829 30 syms_37]);
   (352969, 9, [AGroup 5 1 [sym_ppDirective]; AGroup 17042 1 [anon_sym_DOT];
     AGroup 19685 1 [anon_sym_LBRACK]; AGroup 19687 1 [anon_sym_LPAREN];
     AGroup 19689 1 [sym_kLt]; SGroup 4860 1 [sym_kDot]; AGroup 3 2 syms_5;
     AGroup 17046 5 syms_267; AGroup 17036 27 syms_274]);
   (353028, 7, [AGroup 5 1 [sym_ppDirective]; AGroup 16721 1 [anon_sym_POUND]; AGroup 3 2 syms_5;
     AGroup 19691 2 syms_6; SGroup 7028 3 syms_13; AGroup 15235 7 syms_34;
     AGroup 15233 24 syms_128]);
   (353083, 23, [AGroup 5 1 [sym_ppDirective]; AGroup 19059 1 [anon_sym_LBRACK];
     AGroup 19062 1 [aux_sym_ppUsesBlock_token1]; AGroup 19065 1 [sym_kGeneric];
     AGroup 19068 1 [sym_kOperator]; AGroup 19083 1 [sym_kEnd]; AGroup 19693 1 [sym_kBegin];
     AGroup 19696 1 [sym_kClass]; AGroup 19702 1 [sym_kExports]; AGroup 19705 1 [sym_kLabel];
     AGroup 19711 1 [sym_kType]; AGroup 19714 1 [sym_kUses]; SGroup 19 1 [sym__ppIf];
     SGroup 6404 1 [sym_declProc]; SGroup 10354 1 [sym__declProc];
     SGroup 10443 1 [sym__declOperator]; SGroup 11110 1 [sym_rttiAttributes];
     SGroup 11216 1 [aux_sym_rttiAttributes_repeat2]; AGroup 3 2 syms_5; AGroup 19699 2 syms_65;
     AGroup 19708 2 syms_66; AGroup 19080 4 syms_3; SGroup 7015 12 syms_239]);
   (353170, 4, [AGroup 5 1 [sym_ppDirective]; AGroup 3 2 syms_5; AGroup 17116 7 syms_34;
     AGroup 17114 30 syms_37]);
   (353219, 23, [AGroup 5 1 [sym_ppDirective]; AGroup 19059 1 [anon_sym_LBRACK];
     AGroup 19062 1 [aux_sym_ppUsesBlock_token1]; AGroup 19065 1 [sym_kGeneric];
     AGroup 19068 1 [sym_kOperator]; AGroup 19083 1 [ts_builtin_sym_end];
     AGroup 19717 1 [sym_kBegin]; AGroup 19720 1 [sym_kClass]; AGroup 19726 1 [sym_kExports];
     AGroup 19729 1 [sym_kLabel]; AGroup 19735 1 [sym_kType]; AGroup 19738 1 [sym_kUses];
     SGroup 27 1 [sym__ppIf]; SGroup 6444 1 [sym_declProc]; SGroup 10350 1 [sym__declProc];
     SGroup 10443 1 [sym__declOperator]; SGroup 11110 1 [sym_rttiAttributes];
     SGroup 11216 1 [aux_sym_rttiAttributes_repeat2]; AGroup 3 2 syms_5; AGroup 19723 2 syms_65;
     AGroup 19732 2 syms_66; AGroup 19080 4 syms_3; SGroup 7017 12 syms_239]);
   (353306, 7, [AGroup 5 1 [sym_ppDirective]; AGroup 16974 1 [anon_sym_COMMA];
     AGroup 16978 1 [anon_sym_DOT]; AGroup 3 2 syms_5; AGroup 16981 2 syms_83;
     AGroup 16976 5 syms_265; AGroup 16972 28 syms_275]);
   (353361, 5, [AGroup 5 1 [sym_ppDirective]; AGroup 19741 1 [anon_sym_COLON]; AGroup 3 2 syms_5;
     AGroup 16976 7 syms_34; AGroup 16972 29 syms_46]);
   (353412, 5, [AGroup 5 1 [sym_ppDirective]; SGroup 4852 1 [sym__exprIsNot]; AGroup 3 2 syms_5;
     AGroup 17032 7 syms_34; AGroup 17030 29 syms_46]);
   (353463, 7, [AGroup 5 1 [sym_ppDirective]; AGroup 19746 1 [anon_sym_POUND]; AGroup 3 2 syms_5;
     AGroup 19743 2 syms_6; SGroup 7021 3 syms_13; AGroup 15241 4 syms_25;
     AGroup 15239 27 syms_123]);
   (353518, 4, [AGroup 5 1 [sym_ppDirective]; AGroup 3 2 syms_5; AGroup 17242 7 syms_34;
     AGroup 17240 30 syms_37]);
   (353567, 5, [AGroup 5 1 [sym_ppDirective]; AGroup 19749 1 [anon_sym_COLON]; AGroup 3 2 syms_5;
     AGroup 16976 7 syms_34; AGroup 16972 29 syms_46]);
   (353618, 4, [AGroup 5 1 [sym_ppDirective]; AGroup 3 2 syms_5; AGroup 17120 7 syms_34;
     AGroup 17118 30 syms_37]);
   (353667, 4, [AGroup 5 1 [sym_ppDirective]; AGroup 3 2 syms_5; AGroup 17154 7 syms_34;
     AGroup 17152 30 syms_37]);
   (353716, 4, [AGroup 5 1 [sym_ppDirective]; AGroup 3 2 syms_5; AGroup 17550 7 syms_34;
     AGroup 17548 30 syms_37]);
   (353765, 4, [AGroup 5 1 [sym_ppDirective]; AGroup 3 2 syms_5; AGroup 17386 7 syms_34;
     AGroup 17384 30 syms_37]);
   (353814, 7, [AGroup 5 1 [sym_ppDirective]; AGroup 19754 1 [anon_sym_POUND]; AGroup 3 2 syms_5;
     AGroup 19751 2 syms_6; SGroup 7028 3 syms_13; AGroup 15241 7 syms_34;
     AGroup 15239 24 syms_128]);
   (353869, 5, [AGroup 5 1 [sym_ppDirective]; AGroup 19757 1 [sym_identifier]; AGroup 3 2 syms_5;
     AGroup 17348 7 syms_34; AGroup 17346 29 syms_46]);
   (353920, 5, [AGroup 5 1 [sym_ppDirective]; AGroup 19759 1 [sym_identifier]; AGroup 3 2 syms_5;
     AGroup 17342 7 syms_34; AGroup 17340 29 syms_46]);
   (353971, 23, [AGroup 5 1 [sym_ppDirective]; AGroup 9 1 [anon_sym_LBRACK];
     AGroup 11 1 [aux_sym_ppUsesBlock_token1]; AGroup 13 1 [sym_kGeneric];
     AGroup 15 1 [sym_kOperator]; AGroup 17 1 [sym_kBegin]; AGroup 19 1 [sym_kClass];
     AGroup 25 1 [sym_kExports]; AGroup 27 1 [sym_kLabel]; AGroup 35 1 [sym_kType];
     AGroup 39 1 [sym_kUses]; AGroup 19761 1 [ts_builtin_sym_end]; SGroup 27 1 [sym__ppIf];
     SGroup 6444 1 [sym_declProc]; SGroup 10350 1 [sym__declProc];
     SGroup 10443 1 [sym__declOperator]; SGroup 11110 1 [sym_rttiAttributes];
     SGroup 11216 1 [aux_sym_rttiAttributes_repeat2]; AGroup 3 2 syms_5; AGroup 21 2 syms_65;
     AGroup 33 2 syms_66; AGroup 23 4 syms_3; SGroup 7017 12 syms_239]);
   (354058, 4, [AGroup 5 1 [sym_ppDirective]; AGroup 3 2 syms_5; AGroup 16467 7 syms_34;
     AGroup 16465 30 syms_276]);
   (354107, 4, [AGroup 5 1 [sym_ppDirective]; AGroup 3 2 syms_5; AGroup 17082 7 syms_34;
     AGroup 17080 30 syms_37]);
   (354156, 4, [AGroup 5 1 [sym_ppDirective]; AGroup 3 2 syms_5; AGroup 17256 7 syms_34;
     AGroup 17254 30 syms_37]);
   (354205, 23, [AGroup 5 1 [sym_ppDirective]; AGroup 19059 1 [anon_sym_LBRACK];
     AGroup 19062 1 [aux_sym_ppUsesBlock_token1]; AGroup 19065 1 [sym_kGeneric];
     AGroup 19068 1 [sym_kOperator]; AGroup 19083 1 [sym_kAsm]; AGroup 19763 1 [sym_kBegin];
     AGroup 19766 1 [sym_kClass]; AGroup 19772 1 [sym_kExports]; AGroup 19775 1 [sym_kLabel];
     AGroup 19781 1 [sym_kType]; AGroup 19784 1 [sym_kUses]; SGroup 16 1 [sym__ppIf];
     SGroup 6432 1 [sym_declProc]; SGroup 10355 1 [sym__declProc];
     SGroup 10443 1 [sym__declOperator]; SGroup 11110 1 [sym_rttiAttributes];
     SGroup 11216 1 [aux_sym_rttiAttributes_repeat2]; AGroup 3 2 syms_5; AGroup 19769 2 syms_65;
     AGroup 19778 2 syms_66; AGroup 19080 4 syms_3; SGroup 7035 12 syms_239]);
   (354292, 4, [AGroup 5 1 [sym_ppDirective]; AGroup 3 2 syms_5; AGroup 17124 7 syms_34;
     AGroup 17122 30 syms_37]);
   (354341, 15, [AGroup 5 1 [sym_ppDirective]; AGroup 16886 1 [anon_sym_LPAREN]; AGroup 19669 1 [sym_kHat];
     AGroup 19677 1 [sym_kAs]; AGroup 19791 1 [sym_kIs]; AGroup 19793 1 [sym_kNot];
     SGroup 4852 1 [sym__exprIsNot]; AGroup 3 2 syms_5; AGroup 19671 2 syms_9;
     AGroup 19673 2 syms_258; AGroup 19679 2 syms_259; AGroup 19787 2 syms_83;
     AGroup 19675 5 syms_260; AGroup 19789 5 syms_85; AGroup 16884 13 syms_277]);
   (354412, 4, [AGroup 5 1 [sym_ppDirective]; AGroup 3 2 syms_5; AGroup 17096 7 syms_34;
     AGroup 17094 30 syms_37]);
   (354461, 4, [AGroup 5 1 [sym_ppDirective]; AGroup 3 2 syms_5; AGroup 17592 7 syms_34;
     AGroup 17590 30 syms_37]);
   (354510, 5, [AGroup 5 1 [sym_ppDirective]; AGroup 19795 1 [sym_identifier]; AGroup 3 2 syms_5;
     AGroup 17348 4 syms_25; AGroup 17346 31 syms_55]);
   (354560, 4, [AGroup 5 1 [sym_ppDirective]; AGroup 3 2 syms_5; AGroup 16467 7 syms_34;
     AGroup 16465 29 syms_278]);
   (354608, 5, [AGroup 5 1 [sym_ppDirective]; AGroup 19797 1 [sym_identifier]; AGroup 3 2 syms_5;
     AGroup 17342 4 syms_25; AGroup 17340 31 syms_55]);
   (354658, 4, [AGroup 5 1 [sym_ppDirective]; AGroup 3 2 syms_5; AGroup 17158 7 syms_34;
     AGroup 17156 29 syms_46]);
   (354706, 4, [AGroup 5 1 [sym_ppDirective]; AGroup 3 2 syms_5; AGroup 17550 7 syms_34;
     AGroup 17548 29 syms_46]);
   (354754, 10, [AGroup 5 1 [sym_ppDirective]; AGroup 19803 1 [sym_kFdiv]; AGroup 19805 1 [sym_kHat];
     AGroup 19807 1 [sym_kAs]; SGroup 4321 1 [sym__exprIsNot]; AGroup 3 2 syms_5;
     AGroup 16914 3 syms_94; AGroup 19799 4 syms_84; AGroup 19801 6 syms_86;
     AGroup 16912 19 syms_279]);
   (354814, 4, [AGroup 5 1 [sym_ppDirective]; AGroup 3 2 syms_5; AGroup 17242 7 syms_34;
     AGroup 17240 29 syms_46]);
   (354862, 4, [AGroup 5 1 [sym_ppDirective]; AGroup 3 2 syms_5; AGroup 17154 7 syms_34;
     AGroup 17152 29 syms_46]);
   (354910, 4, [AGroup 5 1 [sym_ppDirective]; AGroup 3 2 syms_5; AGroup 11316 7 syms_34;
     AGroup 11311 29 syms_46]);
   (354958, 7, [AGroup 5 1 [sym_ppDirective]; AGroup 19812 1 [anon_sym_POUND]; AGroup 3 2 syms_5;
     AGroup 19809 2 syms_6; SGroup 7049 3 syms_13; AGroup 15241 4 syms_25;
     AGroup 15239 26 syms_134]);
   (355012, 4, [AGroup 5 1 [sym_ppDirective]; AGroup 3 2 syms_5; AGroup 16467 7 syms_34;
     AGroup 16465 29 syms_280]);
   (355060, 5, [AGroup 5 1 [sym_ppDirective]; SGroup 4324 1 [sym_kDot]; AGroup 3 2 syms_5;
     AGroup 16970 4 syms_25; AGroup 16968 31 syms_64]);
   (355110, 23, [AGroup 5 1 [sym_ppDirective]; AGroup 9 1 [anon_sym_LBRACK];
     AGroup 11 1 [aux_sym_ppUsesBlock_token1]; AGroup 13 1 [sym_kGeneric];
     AGroup 15 1 [sym_kOperator]; AGroup 17 1 [sym_kBegin]; AGroup 19 1 [sym_kClass];
     AGroup 25 1 [sym_kExports]; AGroup 27 1 [sym_kLabel]; AGroup 35 1 [sym_kType];
     AGroup 39 1 [sym_kUses]; SGroup 27 1 [sym__ppIf]; SGroup 6444 1 [sym_declProc];
     SGroup 10350 1 [sym__declProc]; SGroup 10377 1 [sym_blockTr];
     SGroup 10443 1 [sym__declOperator]; SGroup 11110 1 [sym_rttiAttributes];
     SGroup 11216 1 [aux_sym_rttiAttributes_repeat2]; AGroup 3 2 syms_5; AGroup 21 2 syms_65;
     AGroup 33 2 syms_66; AGroup 23 4 syms_3; SGroup 7017 11 syms_210]);
   (355196, 4, [AGroup 5 1 [sym_ppDirective]; AGroup 3 2 syms_5; AGroup 17172 7 syms_34;
     AGroup 17170 29 syms_46]);
   (355244, 9, [AGroup 5 1 [sym_ppDirective]; AGroup 17042 1 [anon_sym_DOT];
     AGroup 19815 1 [anon_sym_LBRACK]; AGroup 19817 1 [anon_sym_LPAREN];
     AGroup 19819 1 [sym_kLt]; SGroup 5004 1 [sym_kDot]; AGroup 3 2 syms_5;
     AGroup 17046 2 syms_101; AGroup 17036 29 syms_281]);
   (355302, 10, [AGroup 5 1 [sym_ppDirective]; AGroup 19803 1 [sym_kFdiv]; AGroup 19805 1 [sym_kHat];
     AGroup 19807 1 [sym_kAs]; SGroup 4321 1 [sym__exprIsNot]; AGroup 3 2 syms_5;
     AGroup 17016 3 syms_94; AGroup 19799 4 syms_84; AGroup 19801 6 syms_86;
     AGroup 17014 19 syms_279]);
   (355362, 4, [AGroup 5 1 [sym_ppDirective]; AGroup 3 2 syms_5; AGroup 17398 7 syms_34;
     AGroup 17396 29 syms_46]);
   (355410, 19, [AGroup 5 1 [sym_ppDirective]; AGroup 13367 1 [sym_kGeneric]; AGroup 13369 1 [sym_kOperator];
     AGroup 13379 1 [sym_kClass]; AGroup 13391 1 [sym_kProperty]; AGroup 13395 1 [sym_kType];
     AGroup 18895 1 [anon_sym_LBRACK]; AGroup 19821 1 [aux_sym_ppUsesBlock_token1];
     SGroup 44 1 [sym__ppIf]; SGroup 9835 1 [sym__declOperator]; SGroup 10247 1 [sym__declProc];
     SGroup 10878 1 [sym_rttiAttributes]; SGroup 11027 1 [aux_sym_rttiAttributes_repeat2];
     AGroup 3 2 syms_5; AGroup 13381 2 syms_65; AGroup 13393 2 syms_66; AGroup 13383 4 syms_3;
     SGroup 7104 7 syms_236; AGroup 19824 9 syms_244]);
   (355488, 10, [AGroup 5 1 [sym_ppDirective]; AGroup 19830 1 [sym_kFdiv]; AGroup 19832 1 [sym_kHat];
     AGroup 19834 1 [sym_kAs]; SGroup 5000 1 [sym__exprIsNot]; AGroup 3 2 syms_5;
     AGroup 16914 3 syms_94; AGroup 19826 4 syms_84; AGroup 19828 6 syms_86;
     AGroup 16912 19 syms_282])
  ].

(** States 7059 to 7158. *)
Definition small_runs_7059 : list small_run :=
  [
   (355548, 4, [AGroup 5 1 [sym_ppDirective]; AGroup 3 2 syms_5; AGroup 17386 7 syms_34;
     AGroup 17384 29 syms_46]);
   (355596, 4, [AGroup 5 1 [sym_ppDirective]; AGroup 3 2 syms_5; AGroup 17096 7 syms_34;
     AGroup 17094 29 syms_46]);
   (355644, 23, [AGroup 5 1 [sym_ppDirective]; AGroup 9 1 [anon_sym_LBRACK];
     AGroup 11 1 [aux_sym_ppUsesBlock_token1]; AGroup 13 1 [sym_kGeneric];
     AGroup 15 1 [sym_kOperator]; AGroup 17 1 [sym_kBegin]; AGroup 19 1 [sym_kClass];
     AGroup 25 1 [sym_kExports]; AGroup 27 1 [sym_kLabel]; AGroup 35 1 [sym_kType];
     AGroup 39 1 [sym_kUses]; SGroup 27 1 [sym__ppIf]; SGroup 6444 1 [sym_declProc];
     SGroup 10350 1 [sym__declProc]; SGroup 10376 1 [sym_blockTr];
     SGroup 10443 1 [sym__declOperator]; SGroup 11110 1 [sym_rttiAttributes];
     SGroup 11216 1 [aux_sym_rttiAttributes_repeat2]; AGroup 3 2 syms_5; AGroup 21 2 syms_65;
     AGroup 33 2 syms_66; AGroup 23 4 syms_3; SGroup 7052 11 syms_210]);
   (355730, 7, [AGroup 5 1 [sym_ppDirective]; AGroup 19839 1 [anon_sym_POUND]; AGroup 3 2 syms_5;
     AGroup 19836 2 syms_6; SGroup 7062 3 syms_13; AGroup 15241 4 syms_25;
     AGroup 15239 26 syms_136]);
   (355784, 4, [AGroup 5 1 [sym_ppDirective]; AGroup 3 2 syms_5; AGroup 17120 7 syms_34;
     AGroup 17118 29 syms_46]);
   (355832, 4, [AGroup 5 1 [sym_ppDirective]; AGroup 3 2 syms_5; AGroup 17358 7 syms_34;
     AGroup 17356 29 syms_46]);
   (355880, 4, [AGroup 5 1 [sym_ppDirective]; AGroup 3 2 syms_5; AGroup 17128 7 syms_34;
     AGroup 17126 29 syms_46]);
   (355928, 4, [AGroup 5 1 [sym_ppDirective]; AGroup 3 2 syms_5; AGroup 17124 7 syms_34;
     AGroup 17122 29 syms_46]);
   (355976, 19, [AGroup 5 1 [sym_ppDirective]; AGroup 13367 1 [sym_kGeneric]; AGroup 13369 1 [sym_kOperator];
     AGroup 13379 1 [sym_kClass]; AGroup 13391 1 [sym_kProperty]; AGroup 13395 1 [sym_kType];
     AGroup 18895 1 [anon_sym_LBRACK]; AGroup 19336 1 [aux_sym_ppUsesBlock_token1];
     SGroup 44 1 [sym__ppIf]; SGroup 9835 1 [sym__declOperator]; SGroup 10247 1 [sym__declProc];
     SGroup 10878 1 [sym_rttiAttributes]; SGroup 11027 1 [aux_sym_rttiAttributes_repeat2];
     AGroup 3 2 syms_5; AGroup 13381 2 syms_65; AGroup 13393 2 syms_66; AGroup 13383 4 syms_3;
     SGroup 7104 7 syms_236; AGroup 19339 9 syms_244]);
   (356054, 7, [AGroup 5 1 [sym_ppDirective]; AGroup 16107 1 [anon_sym_POUND]; AGroup 3 2 syms_5;
     AGroup 19842 2 syms_6; SGroup 7049 3 syms_13; AGroup 15235 4 syms_25;
     AGroup 15233 26 syms_134]);
   (356108, 4, [AGroup 5 1 [sym_ppDirective]; AGroup 3 2 syms_5; AGroup 18831 7 syms_34;
     AGroup 18829 29 syms_46]);
   (356156, 4, [AGroup 5 1 [sym_ppDirective]; AGroup 3 2 syms_5; AGroup 17362 7 syms_34;
     AGroup 17360 29 syms_46]);
   (356204, 19, [AGroup 5 1 [sym_ppDirective]; AGroup 13367 1 [sym_kGeneric]; AGroup 13369 1 [sym_kOperator];
     AGroup 13379 1 [sym_kClass]; AGroup 13391 1 [sym_kProperty]; AGroup 13395 1 [sym_kType];
     AGroup 18895 1 [anon_sym_LBRACK]; AGroup 19316 1 [aux_sym_ppUsesBlock_token1];
     SGroup 44 1 [sym__ppIf]; SGroup 9835 1 [sym__declOperator]; SGroup 10247 1 [sym__declProc];
     SGroup 10878 1 [sym_rttiAttributes]; SGroup 11027 1 [aux_sym_rttiAttributes_repeat2];
     AGroup 3 2 syms_5; AGroup 13381 2 syms_65; AGroup 13393 2 syms_66; AGroup 13383 4 syms_3;
     SGroup 7104 7 syms_236; AGroup 19319 9 syms_244]);
   (356282, 4, [AGroup 5 1 [sym_ppDirective]; AGroup 3 2 syms_5; AGroup 16467 7 syms_34;
     AGroup 16465 29 syms_283]);
   (356330, 4, [AGroup 5 1 [sym_ppDirective]; AGroup 3 2 syms_5; AGroup 17372 7 syms_34;
     AGroup 17370 29 syms_46]);
   (356378, 7, [AGroup 5 1 [sym_ppDirective]; AGroup 19847 1 [anon_sym_POUND]; AGroup 3 2 syms_5;
     AGroup 19844 2 syms_6; SGroup 7074 3 syms_13; AGroup 15241 4 syms_25;
     AGroup 15239 26 syms_138]);
   (356432, 9, [AGroup 5 1 [sym_ppDirective]; AGroup 19803 1 [sym_kFdiv]; AGroup 19805 1 [sym_kHat];
     AGroup 19807 1 [sym_kAs]; SGroup 4321 1 [sym__exprIsNot]; AGroup 3 2 syms_5;
     AGroup 16914 3 syms_94; AGroup 19801 6 syms_86; AGroup 16912 23 syms_284]);
   (356490, 5, [AGroup 5 1 [sym_ppDirective]; SGroup 5000 1 [sym__exprIsNot]; AGroup 3 2 syms_5;
     AGroup 17032 4 syms_25; AGroup 17030 31 syms_55]);
   (356540, 4, [AGroup 5 1 [sym_ppDirective]; AGroup 3 2 syms_5; AGroup 17256 7 syms_34;
     AGroup 17254 29 syms_46]);
   (356588, 5, [AGroup 5 1 [sym_ppDirective]; SGroup 5004 1 [sym_kDot]; AGroup 3 2 syms_5;
     AGroup 16970 4 syms_25; AGroup 16968 31 syms_55]);
   (356638, 14, [AGroup 5 1 [sym_ppDirective]; AGroup 16886 1 [anon_sym_LPAREN]; AGroup 19830 1 [sym_kFdiv];
     AGroup 19832 1 [sym_kHat]; AGroup 19834 1 [sym_kAs]; AGroup 19854 1 [sym_kIs];
     AGroup 19856 1 [sym_kNot]; SGroup 5000 1 [sym__exprIsNot]; AGroup 3 2 syms_5;
     AGroup 19850 2 syms_83; AGroup 19826 4 syms_84; AGroup 19852 5 syms_85;
     AGroup 19828 6 syms_86; AGroup 16884 12 syms_285]);
   (356706, 5, [AGroup 5 1 [sym_ppDirective]; AGroup 19858 1 [sym_identifier]; AGroup 3 2 syms_5;
     AGroup 17348 4 syms_25; AGroup 17346 31 syms_64]);
   (356756, 6, [AGroup 5 1 [sym_ppDirective]; AGroup 19805 1 [sym_kHat]; SGroup 4321 1 [sym__exprIsNot];
     AGroup 3 2 syms_5; AGroup 16914 4 syms_25; AGroup 16912 30 syms_286]);
   (356808, 4, [AGroup 5 1 [sym_ppDirective]; AGroup 3 2 syms_5; AGroup 17408 7 syms_34;
     AGroup 17406 29 syms_46]);
   (356856, 19, [AGroup 5 1 [sym_ppDirective]; AGroup 13367 1 [sym_kGeneric]; AGroup 13369 1 [sym_kOperator];
     AGroup 13379 1 [sym_kClass]; AGroup 13391 1 [sym_kProperty]; AGroup 13395 1 [sym_kType];
     AGroup 18895 1 [anon_sym_LBRACK]; AGroup 19289 1 [aux_sym_ppUsesBlock_token1];
     SGroup 44 1 [sym__ppIf]; SGroup 9835 1 [sym__declOperator]; SGroup 10247 1 [sym__declProc];
     SGroup 10878 1 [sym_rttiAttributes]; SGroup 11027 1 [aux_sym_rttiAttributes_repeat2];
     AGroup 3 2 syms_5; AGroup 13381 2 syms_65; AGroup 13393 2 syms_66; AGroup 13383 4 syms_3;
     SGroup 7104 7 syms_236; AGroup 19292 9 syms_244]);
   (356934, 4, [AGroup 5 1 [sym_ppDirective]; AGroup 3 2 syms_5; AGroup 17328 7 syms_34;
     AGroup 17326 29 syms_46]);
   (356982, 4, [AGroup 5 1 [sym_ppDirective]; AGroup 3 2 syms_5; AGroup 17108 7 syms_34;
     AGroup 17106 29 syms_46]);
   (357030, 9, [AGroup 5 1 [sym_ppDirective]; AGroup 17042 1 [anon_sym_DOT];
     AGroup 19860 1 [anon_sym_LBRACK]; AGroup 19862 1 [anon_sym_LPAREN];
     AGroup 19864 1 [sym_kLt]; SGroup 4324 1 [sym_kDot]; AGroup 3 2 syms_5;
     AGroup 17046 2 syms_101; AGroup 17036 29 syms_287]);
   (357088, 4, [AGroup 5 1 [sym_ppDirective]; AGroup 3 2 syms_5; AGroup 16467 4 syms_25;
     AGroup 16465 32 syms_288]);
   (357136, 7, [AGroup 5 1 [sym_ppDirective]; AGroup 16974 1 [anon_sym_COMMA];
     AGroup 16978 1 [anon_sym_DOT]; AGroup 3 2 syms_5; AGroup 16976 2 syms_97;
     AGroup 16981 2 syms_83; AGroup 16972 30 syms_289]);
   (357190, 14, [AGroup 5 1 [sym_ppDirective]; AGroup 16886 1 [anon_sym_LPAREN]; AGroup 19803 1 [sym_kFdiv];
     AGroup 19805 1 [sym_kHat]; AGroup 19807 1 [sym_kAs]; AGroup 19870 1 [sym_kIs];
     AGroup 19872 1 [sym_kNot]; SGroup 4321 1 [sym__exprIsNot]; AGroup 3 2 syms_5;
     AGroup 19866 2 syms_83; AGroup 19799 4 syms_84; AGroup 19868 5 syms_85;
     AGroup 19801 6 syms_86; AGroup 16884 12 syms_290]);
   (357258, 6, [AGroup 5 1 [sym_ppDirective]; AGroup 19805 1 [sym_kHat]; SGroup 4321 1 [sym__exprIsNot];
     AGroup 3 2 syms_5; AGroup 16904 4 syms_25; AGroup 16902 30 syms_286]);
   (357310, 4, [AGroup 5 1 [sym_ppDirective]; AGroup 3 2 syms_5; AGroup 17380 7 syms_34;
     AGroup 17378 29 syms_46]);
   (357358, 4, [AGroup 5 1 [sym_ppDirective]; AGroup 3 2 syms_5; AGroup 17412 7 syms_34;
     AGroup 17410 29 syms_46]);
   (357406, 10, [AGroup 5 1 [sym_ppDirective]; AGroup 19830 1 [sym_kFdiv]; AGroup 19832 1 [sym_kHat];
     AGroup 19834 1 [sym_kAs]; SGroup 5000 1 [sym__exprIsNot]; AGroup 3 2 syms_5;
     AGroup 17016 3 syms_94; AGroup 19826 4 syms_84; AGroup 19828 6 syms_86;
     AGroup 17014 19 syms_282]);
   (357466, 4, [AGroup 5 1 [sym_ppDirective]; AGroup 3 2 syms_5; AGroup 17082 7 syms_34;
     AGroup 17080 29 syms_46]);
   (357514, 5, [AGroup 5 1 [sym_ppDirective]; SGroup 4321 1 [sym__exprIsNot]; AGroup 3 2 syms_5;
     AGroup 17032 4 syms_25; AGroup 17030 31 syms_64]);
   (357564, 9, [AGroup 5 1 [sym_ppDirective]; AGroup 19830 1 [sym_kFdiv]; AGroup 19832 1 [sym_kHat];
     AGroup 19834 1 [sym_kAs]; SGroup 5000 1 [sym__exprIsNot]; AGroup 3 2 syms_5;
     AGroup 16914 3 syms_94; AGroup 19828 6 syms_86; AGroup 16912 23 syms_291]);
   (357622, 19, [AGroup 5 1 [sym_ppDirective]; AGroup 13367 1 [sym_kGeneric]; AGroup 13369 1 [sym_kOperator];
     AGroup 13379 1 [sym_kClass]; AGroup 13391 1 [sym_kProperty]; AGroup 13395 1 [sym_kType];
     AGroup 18895 1 [anon_sym_LBRACK]; AGroup 19874 1 [aux_sym_ppUsesBlock_token1];
     SGroup 44 1 [sym__ppIf]; SGroup 9835 1 [sym__declOperator]; SGroup 10247 1 [sym__declProc];
     SGroup 10878 1 [sym_rttiAttributes]; SGroup 11027 1 [aux_sym_rttiAttributes_repeat2];
     AGroup 3 2 syms_5; AGroup 13381 2 syms_65; AGroup 13393 2 syms_66; AGroup 13383 4 syms_3;
     SGroup 7104 7 syms_236; AGroup 19877 9 syms_244]);
   (357700, 7, [AGroup 5 1 [sym_ppDirective]; AGroup 16197 1 [anon_sym_POUND]; AGroup 3 2 syms_5;
     AGroup 19879 2 syms_6; SGroup 7062 3 syms_13; AGroup 15235 4 syms_25;
     AGroup 15233 26 syms_136]);
   (357754, 19, [AGroup 5 1 [sym_ppDirective]; AGroup 13367 1 [sym_kGeneric]; AGroup 13369 1 [sym_kOperator];
     AGroup 13379 1 [sym_kClass]; AGroup 13391 1 [sym_kProperty]; AGroup 13395 1 [sym_kType];
     AGroup 18895 1 [anon_sym_LBRACK]; AGroup 19331 1 [aux_sym_ppUsesBlock_token1];
     SGroup 44 1 [sym__ppIf]; SGroup 9835 1 [sym__declOperator]; SGroup 10247 1 [sym__declProc];
     SGroup 10878 1 [sym_rttiAttributes]; SGroup 11027 1 [aux_sym_rttiAttributes_repeat2];
     AGroup 3 2 syms_5; AGroup 13381 2 syms_65; AGroup 13393 2 syms_66; AGroup 13383 4 syms_3;
     SGroup 7104 7 syms_236; AGroup 19334 9 syms_244]);
   (357832, 7, [AGroup 5 1 [sym_ppDirective]; AGroup 15653 1 [anon_sym_POUND]; AGroup 3 2 syms_5;
     AGroup 19881 2 syms_6; SGroup 7074 3 syms_13; AGroup 15235 4 syms_25;
     AGroup 15233 26 syms_138]);
   (357886, 4, [AGroup 5 1 [sym_ppDirective]; AGroup 3 2 syms_5; AGroup 17116 7 syms_34;
     AGroup 17114 29 syms_46]);
   (357934, 4, [AGroup 5 1 [sym_ppDirective]; AGroup 3 2 syms_5; AGroup 17592 7 syms_34;
     AGroup 17590 29 syms_46]);
   (357982, 6, [AGroup 5 1 [sym_ppDirective]; AGroup 19832 1 [sym_kHat]; SGroup 5000 1 [sym__exprIsNot];
     AGroup 3 2 syms_5; AGroup 16914 4 syms_25; AGroup 16912 30 syms_292]);
   (358034, 19, [AGroup 5 1 [sym_ppDirective]; AGroup 19883 1 [anon_sym_LBRACK];
     AGroup 19886 1 [aux_sym_ppUsesBlock_token1]; AGroup 19889 1 [sym_kGeneric];
     AGroup 19892 1 [sym_kOperator]; AGroup 19897 1 [sym_kClass]; AGroup 19906 1 [sym_kProperty];
     AGroup 19912 1 [sym_kType]; SGroup 44 1 [sym__ppIf]; SGroup 9835 1 [sym__declOperator];
     SGroup 10247 1 [sym__declProc]; SGroup 10878 1 [sym_rttiAttributes];
     SGroup 11027 1 [aux_sym_rttiAttributes_repeat2]; AGroup 3 2 syms_5; AGroup 19900 2 syms_65;
     AGroup 19909 2 syms_66; AGroup 19903 4 syms_3; SGroup 7104 7 syms_236;
     AGroup 19895 9 syms_244]);
   (358112, 6, [AGroup 5 1 [sym_ppDirective]; AGroup 19832 1 [sym_kHat]; SGroup 5000 1 [sym__exprIsNot];
     AGroup 3 2 syms_5; AGroup 16904 4 syms_25; AGroup 16902 30 syms_292]);
   (358164, 5, [AGroup 5 1 [sym_ppDirective]; AGroup 19915 1 [sym_identifier]; AGroup 3 2 syms_5;
     AGroup 17342 4 syms_25; AGroup 17340 31 syms_64]);
   (358214, 4, [AGroup 5 1 [sym_ppDirective]; AGroup 3 2 syms_5; AGroup 17256 4 syms_25;
     AGroup 17254 31 syms_64]);
   (358261, 13, [AGroup 19569 1 [sym_kHat]; AGroup 19581 1 [sym_kAs]; AGroup 19627 1 [sym_kIs];
     AGroup 19629 1 [sym_kNot]; SGroup 4288 1 [sym__exprIsNot]; AGroup 19575 2 syms_9;
     AGroup 19577 2 syms_258; AGroup 19583 2 syms_259; AGroup 19623 2 syms_83; AGroup 3 3 syms_1;
     AGroup 19579 5 syms_260; AGroup 19625 5 syms_85; AGroup 17936 12 syms_16]);
   (358326, 13, [AGroup 19569 1 [sym_kHat]; AGroup 19581 1 [sym_kAs]; AGroup 19627 1 [sym_kIs];
     AGroup 19629 1 [sym_kNot]; SGroup 4288 1 [sym__exprIsNot]; AGroup 19575 2 syms_9;
     AGroup 19577 2 syms_258; AGroup 19583 2 syms_259; AGroup 19623 2 syms_83; AGroup 3 3 syms_1;
     AGroup 19579 5 syms_260; AGroup 19625 5 syms_85; AGroup 17938 12 syms_16]);
   (358391, 4, [AGroup 5 1 [sym_ppDirective]; AGroup 3 2 syms_5; AGroup 18831 4 syms_25;
     AGroup 18829 31 syms_55]);
   (358438, 4, [AGroup 5 1 [sym_ppDirective]; AGroup 3 2 syms_5; AGroup 17358 4 syms_25;
     AGroup 17356 31 syms_55]);
   (358485, 4, [AGroup 5 1 [sym_ppDirective]; AGroup 3 2 syms_5; AGroup 17362 4 syms_25;
     AGroup 17360 31 syms_55]);
   (358532, 4, [AGroup 5 1 [sym_ppDirective]; AGroup 3 2 syms_5; AGroup 11316 4 syms_25;
     AGroup 11311 31 syms_55]);
   (358579, 4, [AGroup 5 1 [sym_ppDirective]; AGroup 3 2 syms_5; AGroup 17372 4 syms_25;
     AGroup 17370 31 syms_55]);
   (358626, 4, [AGroup 5 1 [sym_ppDirective]; AGroup 3 2 syms_5; AGroup 17380 4 syms_25;
     AGroup 17378 31 syms_55]);
   (358673, 4, [AGroup 5 1 [sym_ppDirective]; AGroup 3 2 syms_5; AGroup 17386 4 syms_25;
     AGroup 17384 31 syms_55]);
   (358720, 4, [AGroup 5 1 [sym_ppDirective]; AGroup 3 2 syms_5; AGroup 17398 4 syms_25;
     AGroup 17396 31 syms_55]);
   (358767, 4, [AGroup 5 1 [sym_ppDirective]; AGroup 3 2 syms_5; AGroup 17408 4 syms_25;
     AGroup 17406 31 syms_55]);
   (358814, 4, [AGroup 5 1 [sym_ppDirective]; AGroup 3 2 syms_5; AGroup 17412 4 syms_25;
     AGroup 17410 31 syms_55]);
   (358861, 4, [AGroup 5 1 [sym_ppDirective]; AGroup 3 2 syms_5; AGroup 17550 4 syms_25;
     AGroup 17548 31 syms_55]);
   (358908, 4, [AGroup 5 1 [sym_ppDirective]; AGroup 3 2 syms_5; AGroup 17592 4 syms_25;
     AGroup 17590 31 syms_55]);
   (358955, 4, [AGroup 5 1 [sym_ppDirective]; AGroup 3 2 syms_5; AGroup 17082 4 syms_25;
     AGroup 17080 31 syms_55]);
   (359002, 4, [AGroup 5 1 [sym_ppDirective]; AGroup 3 2 syms_5; AGroup 17096 4 syms_25;
     AGroup 17094 31 syms_55]);
   (359049, 4, [AGroup 5 1 [sym_ppDirective]; AGroup 3 2 syms_5; AGroup 17108 4 syms_25;
     AGroup 17106 31 syms_55]);
   (359096, 4, [AGroup 5 1 [sym_ppDirective]; AGroup 3 2 syms_5; AGroup 17116 4 syms_25;
     AGroup 17114 31 syms_55]);
   (359143, 4, [AGroup 5 1 [sym_ppDirective]; AGroup 3 2 syms_5; AGroup 17120 4 syms_25;
     AGroup 17118 31 syms_55]);
   (359190, 4, [AGroup 5 1 [sym_ppDirective]; AGroup 3 2 syms_5; AGroup 17124 4 syms_25;
     AGroup 17122 31 syms_55]);
   (359237, 4, [AGroup 5 1 [sym_ppDirective]; AGroup 3 2 syms_5; AGroup 17128 4 syms_25;
     AGroup 17126 31 syms_55]);
   (359284, 4, [AGroup 5 1 [sym_ppDirective]; AGroup 3 2 syms_5; AGroup 17154 4 syms_25;
     AGroup 17152 31 syms_55]);
   (359331, 4, [AGroup 5 1 [sym_ppDirective]; AGroup 3 2 syms_5; AGroup 17158 4 syms_25;
     AGroup 17156 31 syms_55]);
   (359378, 4, [AGroup 5 1 [sym_ppDirective]; AGroup 3 2 syms_5; AGroup 17172 4 syms_25;
     AGroup 17170 31 syms_55]);
   (359425, 4, [AGroup 5 1 [sym_ppDirective]; AGroup 3 2 syms_5; AGroup 17328 4 syms_25;
     AGroup 17326 31 syms_55]);
   (359472, 5, [AGroup 5 1 [sym_ppDirective]; SGroup 5150 1 [sym__exprIsNot]; AGroup 3 2 syms_5;
     AGroup 17032 7 syms_34; AGroup 17030 27 syms_72]);
   (359521, 4, [AGroup 5 1 [sym_ppDirective]; AGroup 3 2 syms_5; AGroup 17242 4 syms_25;
     AGroup 17240 31 syms_55]);
   (359568, 4, [AGroup 5 1 [sym_ppDirective]; AGroup 3 2 syms_5; AGroup 17256 4 syms_25;
     AGroup 17254 31 syms_55]);
   (359615, 5, [AGroup 5 1 [sym_ppDirective]; AGroup 19917 1 [sym_identifier]; AGroup 3 2 syms_5;
     AGroup 17342 7 syms_34; AGroup 17340 27 syms_72]);
   (359664, 5, [AGroup 5 1 [sym_ppDirective]; AGroup 19919 1 [sym_identifier]; AGroup 3 2 syms_5;
     AGroup 17348 7 syms_34; AGroup 17346 27 syms_72]);
   (359713, 9, [AGroup 5 1 [sym_ppDirective]; AGroup 17042 1 [anon_sym_DOT];
     AGroup 19921 1 [anon_sym_LBRACK]; AGroup 19923 1 [anon_sym_LPAREN];
     AGroup 19925 1 [sym_kLt]; SGroup 5161 1 [sym_kDot]; AGroup 3 2 syms_5;
     AGroup 17046 5 syms_267; AGroup 17036 25 syms_293]);
   (359770, 4, [AGroup 5 1 [sym_ppDirective]; AGroup 3 2 syms_5; AGroup 16467 7 syms_34;
     AGroup 16465 28 syms_294]);
   (359817, 6, [AGroup 5 1 [sym_ppDirective]; AGroup 19927 1 [sym_kHat]; SGroup 5150 1 [sym__exprIsNot];
     AGroup 3 2 syms_5; AGroup 16914 7 syms_34; AGroup 16912 26 syms_295]);
   (359868, 6, [AGroup 5 1 [sym_ppDirective]; AGroup 19927 1 [sym_kHat]; SGroup 5150 1 [sym__exprIsNot];
     AGroup 3 2 syms_5; AGroup 16904 7 syms_34; AGroup 16902 26 syms_295]);
   (359919, 11, [AGroup 5 1 [sym_ppDirective]; AGroup 19927 1 [sym_kHat]; AGroup 19935 1 [sym_kAs];
     SGroup 5150 1 [sym__exprIsNot]; AGroup 3 2 syms_5; AGroup 19929 2 syms_9;
     AGroup 19931 2 syms_258; AGroup 19937 2 syms_259; AGroup 16914 3 syms_94;
     AGroup 19933 5 syms_260; AGroup 16912 18 syms_296]);
   (359980, 9, [AGroup 5 1 [sym_ppDirective]; AGroup 19927 1 [sym_kHat]; AGroup 19935 1 [sym_kAs];
     SGroup 5150 1 [sym__exprIsNot]; AGroup 3 2 syms_5; AGroup 19931 2 syms_258;
     AGroup 16914 5 syms_262; AGroup 19933 5 syms_260; AGroup 16912 20 syms_297]);
   (360037, 6, [AGroup 5 1 [sym_ppDirective]; AGroup 3 2 syms_5; AGroup 16976 2 syms_97;
     AGroup 16978 2 syms_298; AGroup 16981 2 syms_83; AGroup 16972 29 syms_299]);
   (360088, 5, [AGroup 5 1 [sym_ppDirective]; SGroup 5161 1 [sym_kDot]; AGroup 3 2 syms_5;
     AGroup 16970 7 syms_34; AGroup 16968 27 syms_72]);
   (360137, 11, [AGroup 5 1 [sym_ppDirective]; AGroup 19927 1 [sym_kHat]; AGroup 19935 1 [sym_kAs];
     SGroup 5150 1 [sym__exprIsNot]; AGroup 3 2 syms_5; AGroup 19929 2 syms_9;
     AGroup 19931 2 syms_258; AGroup 19937 2 syms_259; AGroup 17016 3 syms_94;
     AGroup 19933 5 syms_260; AGroup 17014 18 syms_296]);
   (360198, 15, [AGroup 5 1 [sym_ppDirective]; AGroup 16886 1 [anon_sym_LPAREN]; AGroup 19927 1 [sym_kHat];
     AGroup 19935 1 [sym_kAs]; AGroup 19943 1 [sym_kIs]; AGroup 19945 1 [sym_kNot];
     SGroup 5150 1 [sym__exprIsNot]; AGroup 3 2 syms_5; AGroup 19929 2 syms_9;
     AGroup 19931 2 syms_258; AGroup 19937 2 syms_259; AGroup 19939 2 syms_83;
     AGroup 19933 5 syms_260; AGroup 19941 5 syms_85; AGroup 16884 11 syms_300]);
   (360267, 7, [AGroup 5 1 [sym_ppDirective]; AGroup 16974 1 [anon_sym_COMMA];
     AGroup 16978 1 [anon_sym_DOT]; AGroup 3 2 syms_5; AGroup 16976 2 syms_97;
     AGroup 16981 2 syms_83; AGroup 16972 29 syms_299]);
   (360320, 5, [AGroup 5 1 [sym_ppDirective]; SGroup 5474 1 [sym__exprIsNot]; AGroup 3 2 syms_5;
     AGroup 17032 7 syms_34; AGroup 17030 27 syms_77]);
   (360369, 7, [AGroup 5 1 [sym_ppDirective]; AGroup 16974 1 [anon_sym_COMMA];
     AGroup 16978 1 [anon_sym_DOT]; AGroup 3 2 syms_5; AGroup 16981 2 syms_83;
     AGroup 16976 5 syms_265; AGroup 16972 26 syms_301]);
   (360422, 5, [AGroup 5 1 [sym_ppDirective]; AGroup 19947 1 [sym_identifier]; AGroup 3 2 syms_5;
     AGroup 17342 7 syms_34; AGroup 17340 27 syms_77]);
   (360471, 5, [AGroup 5 1 [sym_ppDirective]; AGroup 19949 1 [sym_identifier]; AGroup 3 2 syms_5;
     AGroup 17348 7 syms_34; AGroup 17346 27 syms_77]);
   (360520, 9, [AGroup 5 1 [sym_ppDirective]; AGroup 17042 1 [anon_sym_DOT];
     AGroup 19951 1 [anon_sym_LBRACK]; AGroup 19953 1 [anon_sym_LPAREN];
     AGroup 19955 1 [sym_kLt]; SGroup 5481 1 [sym_kDot]; AGroup 3 2 syms_5;
     AGroup 17046 5 syms_267; AGroup 17036 25 syms_302]);
   (360577, 6, [AGroup 5 1 [sym_ppDirective]; AGroup 19957 1 [sym_kHat]; SGroup 5474 1 [sym__exprIsNot];
     AGroup 3 2 syms_5; AGroup 16914 7 syms_34; AGroup 16912 26 syms_303]);
   (360628, 6, [AGroup 5 1 [sym_ppDirective]; AGroup 19957 1 [sym_kHat]; SGroup 5474 1 [sym__exprIsNot];
     AGroup 3 2 syms_5; AGroup 16904 7 syms_34; AGroup 16902 26 syms_303]);
   (360679, 11, [AGroup 5 1 [sym_ppDirective]; AGroup 19957 1 [sym_kHat]; AGroup 19965 1 [sym_kAs];
     SGroup 5474 1 [sym__exprIsNot]; AGroup 3 2 syms_5; AGroup 19959 2 syms_9;
     AGroup 19961 2 syms_258; AGroup 19967 2 syms_259; AGroup 16914 3 syms_94;
     AGroup 19963 5 syms_260; AGroup 16912 18 syms_304]);
   (360740, 9, [AGroup 5 1 [sym_ppDirective]; AGroup 19957 1 [sym_kHat]; AGroup 19965 1 [sym_kAs];
     SGroup 5474 1 [sym__exprIsNot]; AGroup 3 2 syms_5; AGroup 19961 2 syms_258;
     AGroup 16914 5 syms_262; AGroup 19963 5 syms_260; AGroup 16912 20 syms_305]);
   (360797, 5, [AGroup 5 1 [sym_ppDirective]; SGroup 5481 1 [sym_kDot]; AGroup 3 2 syms_5;
     AGroup 16970 7 syms_34; AGroup 16968 27 syms_77])
  ].

(** States 7159 to 7258. *)
Definition small_runs_7159 : list small_run :=
  [
   (360846, 11, [AGroup 5 1 [sym_ppDirective]; AGroup 19957 1 [sym_kHat]; AGroup 19965 1 [sym_kAs];
     SGroup 5474 1 [sym__exprIsNot]; AGroup 3 2 syms_5; AGroup 19959 2 syms_9;
     AGroup 19961 2 syms_258; AGroup 19967 2 syms_259; AGroup 17016 3 syms_94;
     AGroup 19963 5 syms_260; AGroup 17014 18 syms_304]);
   (360907, 15, [AGroup 5 1 [sym_ppDirective]; AGroup 16886 1 [anon_sym_LPAREN]; AGroup 19957 1 [sym_kHat];
     AGroup 19965 1 [sym_kAs]; AGroup 19973 1 [sym_kIs]; AGroup 19975 1 [sym_kNot];
     SGroup 5474 1 [sym__exprIsNot]; AGroup 3 2 syms_5; AGroup 19959 2 syms_9;
     AGroup 19961 2 syms_258; AGroup 19967 2 syms_259; AGroup 19969 2 syms_83;
     AGroup 19963 5 syms_260; AGroup 19971 5 syms_85; AGroup 16884 11 syms_306]);
   (360976, 7, [AGroup 5 1 [sym_ppDirective]; AGroup 15901 1 [anon_sym_POUND]; AGroup 3 2 syms_5;
     AGroup 19977 2 syms_6; SGroup 7162 3 syms_13; AGroup 15235 4 syms_25;
     AGroup 15233 25 syms_163]);
   (361029, 7, [AGroup 5 1 [sym_ppDirective]; AGroup 19982 1 [anon_sym_POUND]; AGroup 3 2 syms_5;
     AGroup 19979 2 syms_6; SGroup 7162 3 syms_13; AGroup 15241 4 syms_25;
     AGroup 15239 25 syms_163]);
   (361082, 7, [AGroup 5 1 [sym_ppDirective]; AGroup 16974 1 [anon_sym_COMMA];
     AGroup 16978 1 [anon_sym_DOT]; AGroup 3 2 syms_5; AGroup 16981 2 syms_83;
     AGroup 16976 5 syms_265; AGroup 16972 26 syms_307]);
   (361135, 4, [AGroup 5 1 [sym_ppDirective]; AGroup 3 2 syms_5; AGroup 16467 4 syms_25;
     AGroup 16465 31 syms_308]);
   (361182, 4, [AGroup 5 1 [sym_ppDirective]; AGroup 3 2 syms_5; AGroup 16467 7 syms_34;
     AGroup 16465 28 syms_309]);
   (361229, 7, [AGroup 5 1 [sym_ppDirective]; AGroup 16167 1 [anon_sym_POUND]; AGroup 3 2 syms_5;
     AGroup 19985 2 syms_6; SGroup 7223 3 syms_13; AGroup 15235 4 syms_25;
     AGroup 15233 25 syms_161]);
   (361282, 5, [AGroup 5 1 [sym_ppDirective]; SGroup 5319 1 [sym_kDot]; AGroup 3 2 syms_5;
     AGroup 16970 4 syms_25; AGroup 16968 30 syms_310]);
   (361331, 4, [AGroup 5 1 [sym_ppDirective]; AGroup 3 2 syms_5; AGroup 16467 7 syms_34;
     AGroup 16465 28 syms_311]);
   (361378, 7, [AGroup 5 1 [sym_ppDirective]; AGroup 16381 1 [anon_sym_POUND]; AGroup 3 2 syms_5;
     AGroup 19987 2 syms_6; SGroup 7170 3 syms_13; AGroup 15235 4 syms_25;
     AGroup 15233 25 syms_143]);
   (361431, 7, [AGroup 5 1 [sym_ppDirective]; AGroup 19992 1 [anon_sym_POUND]; AGroup 3 2 syms_5;
     AGroup 19989 2 syms_6; SGroup 7170 3 syms_13; AGroup 15241 4 syms_25;
     AGroup 15239 25 syms_143]);
   (361484, 4, [AGroup 5 1 [sym_ppDirective]; AGroup 3 2 syms_5; AGroup 18831 4 syms_25;
     AGroup 18829 31 syms_64]);
   (361531, 4, [AGroup 5 1 [sym_ppDirective]; AGroup 3 2 syms_5; AGroup 17358 4 syms_25;
     AGroup 17356 31 syms_64]);
   (361578, 4, [AGroup 5 1 [sym_ppDirective]; AGroup 3 2 syms_5; AGroup 17362 4 syms_25;
     AGroup 17360 31 syms_64]);
   (361625, 4, [AGroup 5 1 [sym_ppDirective]; AGroup 3 2 syms_5; AGroup 11316 4 syms_25;
     AGroup 11311 31 syms_64]);
   (361672, 4, [AGroup 5 1 [sym_ppDirective]; AGroup 3 2 syms_5; AGroup 17372 4 syms_25;
     AGroup 17370 31 syms_64]);
   (361719, 4, [AGroup 5 1 [sym_ppDirective]; AGroup 3 2 syms_5; AGroup 17380 4 syms_25;
     AGroup 17378 31 syms_64]);
   (361766, 4, [AGroup 5 1 [sym_ppDirective]; AGroup 3 2 syms_5; AGroup 17386 4 syms_25;
     AGroup 17384 31 syms_64]);
   (361813, 4, [AGroup 5 1 [sym_ppDirective]; AGroup 3 2 syms_5; AGroup 17398 4 syms_25;
     AGroup 17396 31 syms_64]);
   (361860, 4, [AGroup 5 1 [sym_ppDirective]; AGroup 3 2 syms_5; AGroup 17408 4 syms_25;
     AGroup 17406 31 syms_64]);
   (361907, 4, [AGroup 5 1 [sym_ppDirective]; AGroup 3 2 syms_5; AGroup 17412 4 syms_25;
     AGroup 17410 31 syms_64]);
   (361954, 4, [AGroup 5 1 [sym_ppDirective]; AGroup 3 2 syms_5; AGroup 17550 4 syms_25;
     AGroup 17548 31 syms_64]);
   (362001, 4, [AGroup 5 1 [sym_ppDirective]; AGroup 3 2 syms_5; AGroup 17592 4 syms_25;
     AGroup 17590 31 syms_64]);
   (362048, 4, [AGroup 5 1 [sym_ppDirective]; AGroup 3 2 syms_5; AGroup 17082 4 syms_25;
     AGroup 17080 31 syms_64]);
   (362095, 4, [AGroup 5 1 [sym_ppDirective]; AGroup 3 2 syms_5; AGroup 17096 4 syms_25;
     AGroup 17094 31 syms_64]);
   (362142, 4, [AGroup 5 1 [sym_ppDirective]; AGroup 3 2 syms_5; AGroup 17108 4 syms_25;
     AGroup 17106 31 syms_64]);
   (362189, 4, [AGroup 5 1 [sym_ppDirective]; AGroup 3 2 syms_5; AGroup 17116 4 syms_25;
     AGroup 17114 31 syms_64]);
   (362236, 4, [AGroup 5 1 [sym_ppDirective]; AGroup 3 2 syms_5; AGroup 17120 4 syms_25;
     AGroup 17118 31 syms_64]);
   (362283, 4, [AGroup 5 1 [sym_ppDirective]; AGroup 3 2 syms_5; AGroup 17124 4 syms_25;
     AGroup 17122 31 syms_64]);
   (362330, 4, [AGroup 5 1 [sym_ppDirective]; AGroup 3 2 syms_5; AGroup 17128 4 syms_25;
     AGroup 17126 31 syms_64]);
   (362377, 4, [AGroup 5 1 [sym_ppDirective]; AGroup 3 2 syms_5; AGroup 17154 4 syms_25;
     AGroup 17152 31 syms_64]);
   (362424, 4, [AGroup 5 1 [sym_ppDirective]; AGroup 3 2 syms_5; AGroup 17158 4 syms_25;
     AGroup 17156 31 syms_64]);
   (362471, 4, [AGroup 5 1 [sym_ppDirective]; AGroup 3 2 syms_5; AGroup 17172 4 syms_25;
     AGroup 17170 31 syms_64]);
   (362518, 7, [AGroup 5 1 [sym_ppDirective]; AGroup 16475 1 [anon_sym_POUND]; AGroup 3 2 syms_5;
     AGroup 19995 2 syms_6; SGroup 7194 3 syms_13; AGroup 15235 4 syms_25;
     AGroup 15233 25 syms_144]);
   (362571, 7, [AGroup 5 1 [sym_ppDirective]; AGroup 20000 1 [anon_sym_POUND]; AGroup 3 2 syms_5;
     AGroup 19997 2 syms_6; SGroup 7194 3 syms_13; AGroup 15241 4 syms_25;
     AGroup 15239 25 syms_144]);
   (362624, 4, [AGroup 5 1 [sym_ppDirective]; AGroup 3 2 syms_5; AGroup 17242 4 syms_25;
     AGroup 17240 31 syms_64]);
   (362671, 4, [AGroup 5 1 [sym_ppDirective]; AGroup 3 2 syms_5; AGroup 17328 4 syms_25;
     AGroup 17326 31 syms_64]);
   (362718, 4, [AGroup 5 1 [sym_ppDirective]; AGroup 3 2 syms_5; AGroup 16467 4 syms_25;
     AGroup 16465 31 syms_312]);
   (362765, 5, [AGroup 5 1 [sym_ppDirective]; AGroup 20003 1 [anon_sym_COLON]; AGroup 3 2 syms_5;
     AGroup 16976 7 syms_34; AGroup 16972 27 syms_72]);
   (362814, 15, [AGroup 19569 1 [sym_kHat]; AGroup 19581 1 [sym_kAs]; AGroup 19627 1 [sym_kIs];
     AGroup 19629 1 [sym_kNot]; AGroup 20005 1 [anon_sym_SEMI]; SGroup 4288 1 [sym__exprIsNot];
     AGroup 19575 2 syms_9; AGroup 19577 2 syms_258; AGroup 19583 2 syms_259;
     AGroup 19623 2 syms_83; AGroup 3 3 syms_1; AGroup 19579 5 syms_260; AGroup 19625 5 syms_85;
     AGroup 20007 5 syms_313; AGroup 20009 6 syms_45]);
   (362883, 5, [AGroup 5 1 [sym_ppDirective]; AGroup 20011 1 [anon_sym_COLON]; AGroup 3 2 syms_5;
     AGroup 16976 7 syms_34; AGroup 16972 27 syms_77]);
   (362932, 7, [AGroup 5 1 [sym_ppDirective]; AGroup 15017 1 [anon_sym_POUND]; AGroup 3 2 syms_5;
     AGroup 20013 2 syms_6; SGroup 7202 3 syms_13; AGroup 15235 5 syms_148;
     AGroup 15233 24 syms_149]);
   (362985, 7, [AGroup 5 1 [sym_ppDirective]; AGroup 20018 1 [anon_sym_POUND]; AGroup 3 2 syms_5;
     AGroup 20015 2 syms_6; SGroup 7202 3 syms_13; AGroup 15241 5 syms_148;
     AGroup 15239 24 syms_149]);
   (363038, 7, [AGroup 5 1 [sym_ppDirective]; AGroup 15621 1 [anon_sym_POUND]; AGroup 3 2 syms_5;
     AGroup 20021 2 syms_6; SGroup 7204 3 syms_13; AGroup 15235 4 syms_25;
     AGroup 15233 25 syms_153]);
   (363091, 7, [AGroup 5 1 [sym_ppDirective]; AGroup 20026 1 [anon_sym_POUND]; AGroup 3 2 syms_5;
     AGroup 20023 2 syms_6; SGroup 7204 3 syms_13; AGroup 15241 4 syms_25;
     AGroup 15239 25 syms_153]);
   (363144, 4, [AGroup 5 1 [sym_ppDirective]; AGroup 3 2 syms_5; AGroup 16467 7 syms_34;
     AGroup 16465 28 syms_314]);
   (363191, 15, [AGroup 19569 1 [sym_kHat]; AGroup 19581 1 [sym_kAs]; AGroup 19627 1 [sym_kIs];
     AGroup 19629 1 [sym_kNot]; AGroup 20005 1 [anon_sym_SEMI]; SGroup 4288 1 [sym__exprIsNot];
     AGroup 19575 2 syms_9; AGroup 19577 2 syms_258; AGroup 19583 2 syms_259;
     AGroup 19623 2 syms_83; AGroup 3 3 syms_1; AGroup 19579 5 syms_260; AGroup 19625 5 syms_85;
     AGroup 20007 5 syms_313; AGroup 20009 6 syms_45]);
   (363260, 7, [AGroup 5 1 [sym_ppDirective]; AGroup 16253 1 [anon_sym_POUND]; AGroup 3 2 syms_5;
     AGroup 20029 2 syms_6; SGroup 7208 3 syms_13; AGroup 15235 4 syms_25;
     AGroup 15233 25 syms_154]);
   (363313, 7, [AGroup 5 1 [sym_ppDirective]; AGroup 20034 1 [anon_sym_POUND]; AGroup 3 2 syms_5;
     AGroup 20031 2 syms_6; SGroup 7208 3 syms_13; AGroup 15241 4 syms_25;
     AGroup 15239 25 syms_154]);
   (363366, 15, [AGroup 19569 1 [sym_kHat]; AGroup 19581 1 [sym_kAs]; AGroup 19627 1 [sym_kIs];
     AGroup 19629 1 [sym_kNot]; AGroup 20037 1 [anon_sym_SEMI]; SGroup 4288 1 [sym__exprIsNot];
     AGroup 19575 2 syms_9; AGroup 19577 2 syms_258; AGroup 19583 2 syms_259;
     AGroup 19623 2 syms_83; AGroup 3 3 syms_1; AGroup 19579 5 syms_260; AGroup 19625 5 syms_85;
     AGroup 20007 5 syms_313; AGroup 20009 6 syms_45]);
   (363435, 9, [AGroup 5 1 [sym_ppDirective]; AGroup 17042 1 [anon_sym_DOT];
     AGroup 19815 1 [anon_sym_LBRACK]; AGroup 19817 1 [anon_sym_LPAREN];
     AGroup 20039 1 [sym_kLt]; SGroup 5319 1 [sym_kDot]; AGroup 3 2 syms_5;
     AGroup 17046 2 syms_101; AGroup 17036 28 syms_315]);
   (363492, 6, [AGroup 5 1 [sym_ppDirective]; AGroup 19832 1 [sym_kHat]; SGroup 4793 1 [sym__exprIsNot];
     AGroup 3 2 syms_5; AGroup 16914 4 syms_25; AGroup 16912 29 syms_316]);
   (363543, 6, [AGroup 5 1 [sym_ppDirective]; AGroup 19832 1 [sym_kHat]; SGroup 4793 1 [sym__exprIsNot];
     AGroup 3 2 syms_5; AGroup 16904 4 syms_25; AGroup 16902 29 syms_316]);
   (363594, 10, [AGroup 5 1 [sym_ppDirective]; AGroup 19832 1 [sym_kHat]; AGroup 20045 1 [sym_kFdiv];
     AGroup 20047 1 [sym_kAs]; SGroup 4793 1 [sym__exprIsNot]; AGroup 3 2 syms_5;
     AGroup 16914 3 syms_94; AGroup 20041 4 syms_84; AGroup 20043 6 syms_86;
     AGroup 16912 18 syms_317]);
   (363653, 9, [AGroup 5 1 [sym_ppDirective]; AGroup 19832 1 [sym_kHat]; AGroup 20045 1 [sym_kFdiv];
     AGroup 20047 1 [sym_kAs]; SGroup 4793 1 [sym__exprIsNot]; AGroup 3 2 syms_5;
     AGroup 16914 3 syms_94; AGroup 20043 6 syms_86; AGroup 16912 22 syms_318]);
   (363710, 10, [AGroup 5 1 [sym_ppDirective]; AGroup 19832 1 [sym_kHat]; AGroup 20045 1 [sym_kFdiv];
     AGroup 20047 1 [sym_kAs]; SGroup 4793 1 [sym__exprIsNot]; AGroup 3 2 syms_5;
     AGroup 17016 3 syms_94; AGroup 20041 4 syms_84; AGroup 20043 6 syms_86;
     AGroup 17014 18 syms_317]);
   (363769, 14, [AGroup 5 1 [sym_ppDirective]; AGroup 16886 1 [anon_sym_LPAREN]; AGroup 19832 1 [sym_kHat];
     AGroup 20045 1 [sym_kFdiv]; AGroup 20047 1 [sym_kAs]; AGroup 20053 1 [sym_kIs];
     AGroup 20055 1 [sym_kNot]; SGroup 4793 1 [sym__exprIsNot]; AGroup 3 2 syms_5;
     AGroup 20049 2 syms_83; AGroup 20041 4 syms_84; AGroup 20051 5 syms_85;
     AGroup 20043 6 syms_86; AGroup 16884 11 syms_319]);
   (363836, 7, [AGroup 5 1 [sym_ppDirective]; AGroup 16283 1 [anon_sym_POUND]; AGroup 3 2 syms_5;
     AGroup 20057 2 syms_6; SGroup 7218 3 syms_13; AGroup 15235 4 syms_25;
     AGroup 15233 25 syms_157]);
   (363889, 7, [AGroup 5 1 [sym_ppDirective]; AGroup 20062 1 [anon_sym_POUND]; AGroup 3 2 syms_5;
     AGroup 20059 2 syms_6; SGroup 7218 3 syms_13; AGroup 15241 4 syms_25;
     AGroup 15239 25 syms_157]);
   (363942, 7, [AGroup 5 1 [sym_ppDirective]; AGroup 16313 1 [anon_sym_POUND]; AGroup 3 2 syms_5;
     AGroup 20065 2 syms_6; SGroup 7220 3 syms_13; AGroup 15235 4 syms_25;
     AGroup 15233 25 syms_158]);
   (363995, 7, [AGroup 5 1 [sym_ppDirective]; AGroup 20070 1 [anon_sym_POUND]; AGroup 3 2 syms_5;
     AGroup 20067 2 syms_6; SGroup 7220 3 syms_13; AGroup 15241 4 syms_25;
     AGroup 15239 25 syms_158]);
   (364048, 15, [AGroup 19569 1 [sym_kHat]; AGroup 19581 1 [sym_kAs]; AGroup 19627 1 [sym_kIs];
     AGroup 19629 1 [sym_kNot]; AGroup 20037 1 [anon_sym_SEMI]; SGroup 4288 1 [sym__exprIsNot];
     AGroup 19575 2 syms_9; AGroup 19577 2 syms_258; AGroup 19583 2 syms_259;
     AGroup 19623 2 syms_83; AGroup 3 3 syms_1; AGroup 19579 5 syms_260; AGroup 19625 5 syms_85;
     AGroup 20007 5 syms_313; AGroup 20009 6 syms_45]);
   (364117, 5, [AGroup 5 1 [sym_ppDirective]; SGroup 4793 1 [sym__exprIsNot]; AGroup 3 2 syms_5;
     AGroup 17032 4 syms_25; AGroup 17030 30 syms_310]);
   (364166, 7, [AGroup 5 1 [sym_ppDirective]; AGroup 20076 1 [anon_sym_POUND]; AGroup 3 2 syms_5;
     AGroup 20073 2 syms_6; SGroup 7223 3 syms_13; AGroup 15241 4 syms_25;
     AGroup 15239 25 syms_161]);
   (364219, 12, [AGroup 5 1 [sym_ppDirective]; AGroup 735 1 [anon_sym_LBRACK];
     AGroup 740 1 [aux_sym_ppUsesBlock_token1]; AGroup 20079 1 [sym_identifier];
     AGroup 20082 1 [sym_kGeneric]; SGroup 32 1 [sym__ppIf]; SGroup 12035 1 [sym_rttiAttributes];
     SGroup 12404 1 [aux_sym_rttiAttributes_repeat2]; AGroup 3 2 syms_5; SGroup 7224 3 syms_320;
     SGroup 12330 3 syms_2; AGroup 733 21 syms_321]);
   (364281, 11, [AGroup 5 1 [sym_ppDirective]; AGroup 20089 1 [sym_kHat]; AGroup 20093 1 [sym_kAs];
     SGroup 5404 1 [sym__exprIsNot]; AGroup 3 2 syms_5; AGroup 20085 2 syms_9;
     AGroup 20087 2 syms_258; AGroup 20095 2 syms_259; AGroup 17016 3 syms_94;
     AGroup 20091 5 syms_260; AGroup 17014 17 syms_322]);
   (364341, 15, [AGroup 5 1 [sym_ppDirective]; AGroup 16886 1 [anon_sym_LPAREN]; AGroup 20089 1 [sym_kHat];
     AGroup 20093 1 [sym_kAs]; AGroup 20101 1 [sym_kIs]; AGroup 20103 1 [sym_kNot];
     SGroup 5404 1 [sym__exprIsNot]; AGroup 3 2 syms_5; AGroup 20085 2 syms_9;
     AGroup 20087 2 syms_258; AGroup 20095 2 syms_259; AGroup 20097 2 syms_83;
     AGroup 20091 5 syms_260; AGroup 20099 5 syms_85; AGroup 16884 10 syms_323]);
   (364409, 4, [AGroup 5 1 [sym_ppDirective]; AGroup 3 2 syms_5; AGroup 18831 7 syms_34;
     AGroup 18829 27 syms_77]);
   (364455, 4, [AGroup 5 1 [sym_ppDirective]; AGroup 3 2 syms_5; AGroup 17358 7 syms_34;
     AGroup 17356 27 syms_77]);
   (364501, 4, [AGroup 5 1 [sym_ppDirective]; AGroup 3 2 syms_5; AGroup 17362 7 syms_34;
     AGroup 17360 27 syms_77]);
   (364547, 4, [AGroup 5 1 [sym_ppDirective]; AGroup 3 2 syms_5; AGroup 11316 7 syms_34;
     AGroup 11311 27 syms_77]);
   (364593, 4, [AGroup 5 1 [sym_ppDirective]; AGroup 3 2 syms_5; AGroup 17372 7 syms_34;
     AGroup 17370 27 syms_77]);
   (364639, 4, [AGroup 5 1 [sym_ppDirective]; AGroup 3 2 syms_5; AGroup 17380 7 syms_34;
     AGroup 17378 27 syms_77]);
   (364685, 4, [AGroup 5 1 [sym_ppDirective]; AGroup 3 2 syms_5; AGroup 17386 7 syms_34;
     AGroup 17384 27 syms_77]);
   (364731, 4, [AGroup 5 1 [sym_ppDirective]; AGroup 3 2 syms_5; AGroup 17398 7 syms_34;
     AGroup 17396 27 syms_77]);
   (364777, 4, [AGroup 5 1 [sym_ppDirective]; AGroup 3 2 syms_5; AGroup 17408 7 syms_34;
     AGroup 17406 27 syms_77]);
   (364823, 4, [AGroup 5 1 [sym_ppDirective]; AGroup 3 2 syms_5; AGroup 17412 7 syms_34;
     AGroup 17410 27 syms_77]);
   (364869, 4, [AGroup 5 1 [sym_ppDirective]; AGroup 3 2 syms_5; AGroup 17550 7 syms_34;
     AGroup 17548 27 syms_77]);
   (364915, 4, [AGroup 5 1 [sym_ppDirective]; AGroup 3 2 syms_5; AGroup 17592 7 syms_34;
     AGroup 17590 27 syms_77]);
   (364961, 4, [AGroup 5 1 [sym_ppDirective]; AGroup 3 2 syms_5; AGroup 17082 7 syms_34;
     AGroup 17080 27 syms_77]);
   (365007, 4, [AGroup 5 1 [sym_ppDirective]; AGroup 3 2 syms_5; AGroup 17096 7 syms_34;
     AGroup 17094 27 syms_77]);
   (365053, 4, [AGroup 5 1 [sym_ppDirective]; AGroup 3 2 syms_5; AGroup 17108 7 syms_34;
     AGroup 17106 27 syms_77]);
   (365099, 4, [AGroup 5 1 [sym_ppDirective]; AGroup 3 2 syms_5; AGroup 17116 7 syms_34;
     AGroup 17114 27 syms_77]);
   (365145, 4, [AGroup 5 1 [sym_ppDirective]; AGroup 3 2 syms_5; AGroup 17120 7 syms_34;
     AGroup 17118 27 syms_77]);
   (365191, 4, [AGroup 5 1 [sym_ppDirective]; AGroup 3 2 syms_5; AGroup 17124 7 syms_34;
     AGroup 17122 27 syms_77]);
   (365237, 4, [AGroup 5 1 [sym_ppDirective]; AGroup 3 2 syms_5; AGroup 17128 7 syms_34;
     AGroup 17126 27 syms_77]);
   (365283, 4, [AGroup 5 1 [sym_ppDirective]; AGroup 3 2 syms_5; AGroup 17154 7 syms_34;
     AGroup 17152 27 syms_77]);
   (365329, 4, [AGroup 5 1 [sym_ppDirective]; AGroup 3 2 syms_5; AGroup 17158 7 syms_34;
     AGroup 17156 27 syms_77]);
   (365375, 4, [AGroup 5 1 [sym_ppDirective]; AGroup 3 2 syms_5; AGroup 17172 7 syms_34;
     AGroup 17170 27 syms_77]);
   (365421, 4, [AGroup 5 1 [sym_ppDirective]; AGroup 3 2 syms_5; AGroup 18831 7 syms_34;
     AGroup 18829 27 syms_72]);
   (365467, 4, [AGroup 5 1 [sym_ppDirective]; AGroup 3 2 syms_5; AGroup 17328 7 syms_34;
     AGroup 17326 27 syms_77]);
   (365513, 4, [AGroup 5 1 [sym_ppDirective]; AGroup 3 2 syms_5; AGroup 17358 7 syms_34;
     AGroup 17356 27 syms_72]);
   (365559, 4, [AGroup 5 1 [sym_ppDirective]; AGroup 3 2 syms_5; AGroup 17362 7 syms_34;
     AGroup 17360 27 syms_72]);
   (365605, 4, [AGroup 5 1 [sym_ppDirective]; AGroup 3 2 syms_5; AGroup 17242 7 syms_34;
     AGroup 17240 27 syms_77]);
   (365651, 4, [AGroup 5 1 [sym_ppDirective]; AGroup 3 2 syms_5; AGroup 17256 7 syms_34;
     AGroup 17254 27 syms_77]);
   (365697, 7, [AGroup 5 1 [sym_ppDirective]; AGroup 16974 1 [anon_sym_COMMA];
     AGroup 16978 1 [anon_sym_DOT]; AGroup 3 2 syms_5; AGroup 16981 2 syms_83;
     AGroup 16976 5 syms_265; AGroup 16972 25 syms_324]);
   (365749, 4, [AGroup 5 1 [sym_ppDirective]; AGroup 3 2 syms_5; AGroup 11316 7 syms_34;
     AGroup 11311 27 syms_72]);
   (365795, 7, [AGroup 5 1 [sym_ppDirective]; AGroup 16077 1 [anon_sym_POUND]; AGroup 3 2 syms_5;
     AGroup 20105 2 syms_6; SGroup 7258 3 syms_13; AGroup 15235 4 syms_25;
     AGroup 15233 24 syms_174]);
   (365847, 7, [AGroup 5 1 [sym_ppDirective]; AGroup 20110 1 [anon_sym_POUND]; AGroup 3 2 syms_5;
     AGroup 20107 2 syms_6; SGroup 7258 3 syms_13; AGroup 15241 4 syms_25;
     AGroup 15239 24 syms_174])
  ].

(** States 7259 to 7358. *)
Definition small_runs_7259 : list small_run :=
  [
   (365899, 9, [AGroup 5 1 [sym_ppDirective]; AGroup 17042 1 [anon_sym_DOT];
     AGroup 20113 1 [anon_sym_LBRACK]; AGroup 20115 1 [anon_sym_LPAREN];
     AGroup 20117 1 [sym_kLt]; SGroup 5339 1 [sym_kDot]; AGroup 3 2 syms_5;
     AGroup 17046 5 syms_267; AGroup 17036 24 syms_325]);
   (365955, 7, [AGroup 5 1 [sym_ppDirective]; AGroup 16137 1 [anon_sym_POUND]; AGroup 3 2 syms_5;
     AGroup 20119 2 syms_6; SGroup 7261 3 syms_13; AGroup 15235 4 syms_25;
     AGroup 15233 24 syms_175]);
   (366007, 7, [AGroup 5 1 [sym_ppDirective]; AGroup 20124 1 [anon_sym_POUND]; AGroup 3 2 syms_5;
     AGroup 20121 2 syms_6; SGroup 7261 3 syms_13; AGroup 15241 4 syms_25;
     AGroup 15239 24 syms_175]);
   (366059, 4, [AGroup 5 1 [sym_ppDirective]; AGroup 3 2 syms_5; AGroup 17372 7 syms_34;
     AGroup 17370 27 syms_72]);
   (366105, 4, [AGroup 5 1 [sym_ppDirective]; AGroup 3 2 syms_5; AGroup 17380 7 syms_34;
     AGroup 17378 27 syms_72]);
   (366151, 5, [AGroup 5 1 [sym_ppDirective]; AGroup 20127 1 [anon_sym_COLON]; AGroup 3 2 syms_5;
     AGroup 16976 7 syms_34; AGroup 16972 26 syms_92]);
   (366199, 4, [AGroup 5 1 [sym_ppDirective]; AGroup 3 2 syms_5; AGroup 16467 4 syms_25;
     AGroup 16465 30 syms_326]);
   (366245, 5, [AGroup 5 1 [sym_ppDirective]; SGroup 4309 1 [sym__exprIsNot]; AGroup 3 2 syms_5;
     AGroup 17032 4 syms_25; AGroup 17030 29 syms_93]);
   (366293, 4, [AGroup 5 1 [sym_ppDirective]; AGroup 3 2 syms_5; AGroup 17386 7 syms_34;
     AGroup 17384 27 syms_72]);
   (366339, 4, [AGroup 5 1 [sym_ppDirective]; AGroup 3 2 syms_5; AGroup 16467 7 syms_34;
     AGroup 16465 27 syms_327]);
   (366385, 5, [AGroup 5 1 [sym_ppDirective]; AGroup 20129 1 [sym_identifier]; AGroup 3 2 syms_5;
     AGroup 17342 4 syms_25; AGroup 17340 29 syms_93]);
   (366433, 5, [AGroup 5 1 [sym_ppDirective]; AGroup 20131 1 [sym_identifier]; AGroup 3 2 syms_5;
     AGroup 17348 4 syms_25; AGroup 17346 29 syms_93]);
   (366481, 9, [AGroup 5 1 [sym_ppDirective]; AGroup 17042 1 [anon_sym_DOT];
     AGroup 20133 1 [anon_sym_LBRACK]; AGroup 20135 1 [anon_sym_LPAREN];
     AGroup 20137 1 [sym_kLt]; SGroup 4312 1 [sym_kDot]; AGroup 3 2 syms_5;
     AGroup 17046 2 syms_101; AGroup 17036 27 syms_328]);
   (366537, 4, [AGroup 5 1 [sym_ppDirective]; AGroup 3 2 syms_5; AGroup 17398 7 syms_34;
     AGroup 17396 27 syms_72]);
   (366583, 6, [AGroup 5 1 [sym_ppDirective]; AGroup 20139 1 [sym_kHat]; SGroup 4309 1 [sym__exprIsNot];
     AGroup 3 2 syms_5; AGroup 16914 4 syms_25; AGroup 16912 28 syms_329]);
   (366633, 6, [AGroup 5 1 [sym_ppDirective]; AGroup 20139 1 [sym_kHat]; SGroup 4309 1 [sym__exprIsNot];
     AGroup 3 2 syms_5; AGroup 16904 4 syms_25; AGroup 16902 28 syms_329]);
   (366683, 10, [AGroup 5 1 [sym_ppDirective]; AGroup 20139 1 [sym_kHat]; AGroup 20145 1 [sym_kFdiv];
     AGroup 20147 1 [sym_kAs]; SGroup 4309 1 [sym__exprIsNot]; AGroup 3 2 syms_5;
     AGroup 16914 3 syms_94; AGroup 20141 4 syms_84; AGroup 20143 6 syms_86;
     AGroup 16912 17 syms_330]);
   (366741, 9, [AGroup 5 1 [sym_ppDirective]; AGroup 20139 1 [sym_kHat]; AGroup 20145 1 [sym_kFdiv];
     AGroup 20147 1 [sym_kAs]; SGroup 4309 1 [sym__exprIsNot]; AGroup 3 2 syms_5;
     AGroup 16914 3 syms_94; AGroup 20143 6 syms_86; AGroup 16912 21 syms_331]);
   (366797, 5, [AGroup 5 1 [sym_ppDirective]; SGroup 4312 1 [sym_kDot]; AGroup 3 2 syms_5;
     AGroup 16970 4 syms_25; AGroup 16968 29 syms_93]);
   (366845, 10, [AGroup 5 1 [sym_ppDirective]; AGroup 20139 1 [sym_kHat]; AGroup 20145 1 [sym_kFdiv];
     AGroup 20147 1 [sym_kAs]; SGroup 4309 1 [sym__exprIsNot]; AGroup 3 2 syms_5;
     AGroup 17016 3 syms_94; AGroup 20141 4 syms_84; AGroup 20143 6 syms_86;
     AGroup 17014 17 syms_330]);
   (366903, 14, [AGroup 5 1 [sym_ppDirective]; AGroup 16886 1 [anon_sym_LPAREN]; AGroup 20139 1 [sym_kHat];
     AGroup 20145 1 [sym_kFdiv]; AGroup 20147 1 [sym_kAs]; AGroup 20153 1 [sym_kIs];
     AGroup 20155 1 [sym_kNot]; SGroup 4309 1 [sym__exprIsNot]; AGroup 3 2 syms_5;
     AGroup 20149 2 syms_83; AGroup 20141 4 syms_84; AGroup 20151 5 syms_85;
     AGroup 20143 6 syms_86; AGroup 16884 10 syms_332]);
   (366969, 7, [AGroup 5 1 [sym_ppDirective]; AGroup 16441 1 [anon_sym_POUND]; AGroup 3 2 syms_5;
     AGroup 20157 2 syms_6; SGroup 7284 3 syms_13; AGroup 15235 4 syms_25;
     AGroup 15233 24 syms_182]);
   (367021, 4, [AGroup 5 1 [sym_ppDirective]; AGroup 3 2 syms_5; AGroup 17408 7 syms_34;
     AGroup 17406 27 syms_72]);
   (367067, 4, [AGroup 5 1 [sym_ppDirective]; AGroup 3 2 syms_5; AGroup 17412 7 syms_34;
     AGroup 17410 27 syms_72]);
   (367113, 10, [AGroup 5 1 [sym_ppDirective]; AGroup 20159 1 [anon_sym_COLON];
     AGroup 20161 1 [anon_sym_COMMA]; AGroup 20163 1 [anon_sym_DOT]; AGroup 20166 1 [sym_kLt];
     AGroup 20169 1 [sym_kEq]; SGroup 15951 1 [sym_defaultValue]; AGroup 3 2 syms_5;
     AGroup 16976 6 syms_333; AGroup 16972 22 syms_334]);
   (367171, 7, [AGroup 5 1 [sym_ppDirective]; AGroup 20176 1 [anon_sym_POUND]; AGroup 3 2 syms_5;
     AGroup 20173 2 syms_6; SGroup 7284 3 syms_13; AGroup 15241 4 syms_25;
     AGroup 15239 24 syms_182]);
   (367223, 4, [AGroup 5 1 [sym_ppDirective]; AGroup 3 2 syms_5; AGroup 17550 7 syms_34;
     AGroup 17548 27 syms_72]);
   (367269, 7, [AGroup 5 1 [sym_ppDirective]; AGroup 16575 1 [anon_sym_POUND]; AGroup 3 2 syms_5;
     AGroup 20179 2 syms_6; SGroup 7306 3 syms_13; AGroup 15235 4 syms_25;
     AGroup 15233 24 syms_176]);
   (367321, 4, [AGroup 5 1 [sym_ppDirective]; AGroup 3 2 syms_5; AGroup 17592 7 syms_34;
     AGroup 17590 27 syms_72]);
   (367367, 4, [AGroup 5 1 [sym_ppDirective]; AGroup 3 2 syms_5; AGroup 17082 7 syms_34;
     AGroup 17080 27 syms_72]);
   (367413, 4, [AGroup 5 1 [sym_ppDirective]; AGroup 3 2 syms_5; AGroup 17096 7 syms_34;
     AGroup 17094 27 syms_72]);
   (367459, 4, [AGroup 5 1 [sym_ppDirective]; AGroup 3 2 syms_5; AGroup 17108 7 syms_34;
     AGroup 17106 27 syms_72]);
   (367505, 4, [AGroup 5 1 [sym_ppDirective]; AGroup 3 2 syms_5; AGroup 17116 7 syms_34;
     AGroup 17114 27 syms_72]);
   (367551, 4, [AGroup 5 1 [sym_ppDirective]; AGroup 3 2 syms_5; AGroup 17120 7 syms_34;
     AGroup 17118 27 syms_72]);
   (367597, 4, [AGroup 5 1 [sym_ppDirective]; AGroup 3 2 syms_5; AGroup 17124 7 syms_34;
     AGroup 17122 27 syms_72]);
   (367643, 4, [AGroup 5 1 [sym_ppDirective]; AGroup 3 2 syms_5; AGroup 17128 7 syms_34;
     AGroup 17126 27 syms_72]);
   (367689, 4, [AGroup 5 1 [sym_ppDirective]; AGroup 3 2 syms_5; AGroup 17154 7 syms_34;
     AGroup 17152 27 syms_72]);
   (367735, 5, [AGroup 5 1 [sym_ppDirective]; SGroup 5411 1 [sym_kDot]; AGroup 3 2 syms_5;
     AGroup 16970 7 syms_34; AGroup 16968 26 syms_82]);
   (367783, 4, [AGroup 5 1 [sym_ppDirective]; AGroup 3 2 syms_5; AGroup 17172 7 syms_34;
     AGroup 17170 27 syms_72]);
   (367829, 7, [AGroup 5 1 [sym_ppDirective]; AGroup 15871 1 [anon_sym_POUND]; AGroup 3 2 syms_5;
     AGroup 20181 2 syms_6; SGroup 7330 3 syms_13; AGroup 15235 4 syms_25;
     AGroup 15233 24 syms_169]);
   (367881, 4, [AGroup 5 1 [sym_ppDirective]; AGroup 3 2 syms_5; AGroup 17328 7 syms_34;
     AGroup 17326 27 syms_72]);
   (367927, 7, [AGroup 5 1 [sym_ppDirective]; AGroup 16505 1 [anon_sym_POUND]; AGroup 3 2 syms_5;
     AGroup 20183 2 syms_6; SGroup 7301 3 syms_13; AGroup 15235 4 syms_25;
     AGroup 15233 24 syms_167]);
   (367979, 7, [AGroup 5 1 [sym_ppDirective]; AGroup 20188 1 [anon_sym_POUND]; AGroup 3 2 syms_5;
     AGroup 20185 2 syms_6; SGroup 7301 3 syms_13; AGroup 15241 4 syms_25;
     AGroup 15239 24 syms_167]);
   (368031, 7, [AGroup 5 1 [sym_ppDirective]; AGroup 16974 1 [anon_sym_COMMA];
     AGroup 16978 1 [anon_sym_DOT]; AGroup 3 2 syms_5; AGroup 16976 2 syms_97;
     AGroup 16981 2 syms_83; AGroup 16972 28 syms_335]);
   (368083, 4, [AGroup 5 1 [sym_ppDirective]; AGroup 3 2 syms_5; AGroup 17242 7 syms_34;
     AGroup 17240 27 syms_72]);
   (368129, 7, [AGroup 5 1 [sym_ppDirective]; AGroup 16541 1 [anon_sym_POUND]; AGroup 3 2 syms_5;
     AGroup 20191 2 syms_6; SGroup 7305 3 syms_13; AGroup 15235 4 syms_25;
     AGroup 15233 24 syms_170]);
   (368181, 7, [AGroup 5 1 [sym_ppDirective]; AGroup 20196 1 [anon_sym_POUND]; AGroup 3 2 syms_5;
     AGroup 20193 2 syms_6; SGroup 7305 3 syms_13; AGroup 15241 4 syms_25;
     AGroup 15239 24 syms_170]);
   (368233, 7, [AGroup 5 1 [sym_ppDirective]; AGroup 20202 1 [anon_sym_POUND]; AGroup 3 2 syms_5;
     AGroup 20199 2 syms_6; SGroup 7306 3 syms_13; AGroup 15241 4 syms_25;
     AGroup 15239 24 syms_176]);
   (368285, 5, [AGroup 5 1 [sym_ppDirective]; AGroup 20205 1 [sym_identifier]; AGroup 3 2 syms_5;
     AGroup 17342 7 syms_34; AGroup 17340 26 syms_92]);
   (368333, 5, [AGroup 5 1 [sym_ppDirective]; AGroup 20207 1 [sym_identifier]; AGroup 3 2 syms_5;
     AGroup 17348 7 syms_34; AGroup 17346 26 syms_92]);
   (368381, 5, [AGroup 5 1 [sym_ppDirective]; SGroup 5297 1 [sym__exprIsNot]; AGroup 3 2 syms_5;
     AGroup 17032 7 syms_34; AGroup 17030 26 syms_92]);
   (368429, 5, [AGroup 5 1 [sym_ppDirective]; AGroup 20209 1 [anon_sym_COLON]; AGroup 3 2 syms_5;
     AGroup 16976 7 syms_34; AGroup 16972 26 syms_92]);
   (368477, 6, [AGroup 5 1 [sym_ppDirective]; AGroup 20211 1 [sym_kHat]; SGroup 5297 1 [sym__exprIsNot];
     AGroup 3 2 syms_5; AGroup 16914 7 syms_34; AGroup 16912 25 syms_336]);
   (368527, 6, [AGroup 5 1 [sym_ppDirective]; AGroup 20211 1 [sym_kHat]; SGroup 5297 1 [sym__exprIsNot];
     AGroup 3 2 syms_5; AGroup 16904 7 syms_34; AGroup 16902 25 syms_336]);
   (368577, 11, [AGroup 5 1 [sym_ppDirective]; AGroup 20211 1 [sym_kHat]; AGroup 20219 1 [sym_kAs];
     SGroup 5297 1 [sym__exprIsNot]; AGroup 3 2 syms_5; AGroup 20213 2 syms_9;
     AGroup 20215 2 syms_258; AGroup 20221 2 syms_259; AGroup 16914 3 syms_94;
     AGroup 20217 5 syms_260; AGroup 16912 17 syms_337]);
   (368637, 9, [AGroup 5 1 [sym_ppDirective]; AGroup 20211 1 [sym_kHat]; AGroup 20219 1 [sym_kAs];
     SGroup 5297 1 [sym__exprIsNot]; AGroup 3 2 syms_5; AGroup 20215 2 syms_258;
     AGroup 16914 5 syms_262; AGroup 20217 5 syms_260; AGroup 16912 19 syms_338]);
   (368693, 7, [AGroup 5 1 [sym_ppDirective]; AGroup 16974 1 [anon_sym_COMMA];
     AGroup 16978 1 [anon_sym_DOT]; AGroup 3 2 syms_5; AGroup 16981 2 syms_83;
     AGroup 16976 5 syms_265; AGroup 16972 25 syms_339]);
   (368745, 5, [AGroup 5 1 [sym_ppDirective]; SGroup 5339 1 [sym_kDot]; AGroup 3 2 syms_5;
     AGroup 16970 7 syms_34; AGroup 16968 26 syms_92]);
   (368793, 11, [AGroup 5 1 [sym_ppDirective]; AGroup 20211 1 [sym_kHat]; AGroup 20219 1 [sym_kAs];
     SGroup 5297 1 [sym__exprIsNot]; AGroup 3 2 syms_5; AGroup 20213 2 syms_9;
     AGroup 20215 2 syms_258; AGroup 20221 2 syms_259; AGroup 17016 3 syms_94;
     AGroup 20217 5 syms_260; AGroup 17014 17 syms_337]);
   (368853, 15, [AGroup 5 1 [sym_ppDirective]; AGroup 16886 1 [anon_sym_LPAREN]; AGroup 20211 1 [sym_kHat];
     AGroup 20219 1 [sym_kAs]; AGroup 20227 1 [sym_kIs]; AGroup 20229 1 [sym_kNot];
     SGroup 5297 1 [sym__exprIsNot]; AGroup 3 2 syms_5; AGroup 20213 2 syms_9;
     AGroup 20215 2 syms_258; AGroup 20221 2 syms_259; AGroup 20223 2 syms_83;
     AGroup 20217 5 syms_260; AGroup 20225 5 syms_85; AGroup 16884 10 syms_340]);
   (368921, 5, [AGroup 5 1 [sym_ppDirective]; AGroup 20231 1 [anon_sym_COLON]; AGroup 3 2 syms_5;
     AGroup 16976 7 syms_34; AGroup 16972 26 syms_82]);
   (368969, 4, [AGroup 5 1 [sym_ppDirective]; AGroup 3 2 syms_5; AGroup 17256 7 syms_34;
     AGroup 17254 27 syms_72]);
   (369015, 7, [AGroup 5 1 [sym_ppDirective]; AGroup 15683 1 [anon_sym_POUND]; AGroup 3 2 syms_5;
     AGroup 20233 2 syms_6; SGroup 7323 3 syms_13; AGroup 15235 4 syms_25;
     AGroup 15233 24 syms_184]);
   (369067, 5, [AGroup 5 1 [sym_ppDirective]; SGroup 5404 1 [sym__exprIsNot]; AGroup 3 2 syms_5;
     AGroup 17032 7 syms_34; AGroup 17030 26 syms_82]);
   (369115, 7, [AGroup 5 1 [sym_ppDirective]; AGroup 20238 1 [anon_sym_POUND]; AGroup 3 2 syms_5;
     AGroup 20235 2 syms_6; SGroup 7323 3 syms_13; AGroup 15241 4 syms_25;
     AGroup 15239 24 syms_184]);
   (369167, 5, [AGroup 5 1 [sym_ppDirective]; AGroup 20241 1 [sym_identifier]; AGroup 3 2 syms_5;
     AGroup 17342 7 syms_34; AGroup 17340 26 syms_82]);
   (369215, 5, [AGroup 5 1 [sym_ppDirective]; AGroup 20243 1 [sym_identifier]; AGroup 3 2 syms_5;
     AGroup 17348 7 syms_34; AGroup 17346 26 syms_82]);
   (369263, 9, [AGroup 5 1 [sym_ppDirective]; AGroup 17042 1 [anon_sym_DOT];
     AGroup 20245 1 [anon_sym_LBRACK]; AGroup 20247 1 [anon_sym_LPAREN];
     AGroup 20249 1 [sym_kLt]; SGroup 5411 1 [sym_kDot]; AGroup 3 2 syms_5;
     AGroup 17046 5 syms_267; AGroup 17036 24 syms_341]);
   (369319, 15, [AGroup 19669 1 [sym_kHat]; AGroup 19677 1 [sym_kAs]; AGroup 19791 1 [sym_kIs];
     AGroup 19793 1 [sym_kNot]; AGroup 20005 1 [anon_sym_SEMI]; SGroup 4852 1 [sym__exprIsNot];
     AGroup 19671 2 syms_9; AGroup 19673 2 syms_258; AGroup 19679 2 syms_259;
     AGroup 19787 2 syms_83; AGroup 3 3 syms_1; AGroup 19675 5 syms_260; AGroup 19789 5 syms_85;
     AGroup 20009 5 syms_60; AGroup 20251 5 syms_313]);
   (369387, 7, [AGroup 5 1 [sym_ppDirective]; AGroup 15797 1 [anon_sym_POUND]; AGroup 3 2 syms_5;
     AGroup 20253 2 syms_6; SGroup 7329 3 syms_13; AGroup 15235 4 syms_25;
     AGroup 15233 24 syms_179]);
   (369439, 7, [AGroup 5 1 [sym_ppDirective]; AGroup 20258 1 [anon_sym_POUND]; AGroup 3 2 syms_5;
     AGroup 20255 2 syms_6; SGroup 7329 3 syms_13; AGroup 15241 4 syms_25;
     AGroup 15239 24 syms_179]);
   (369491, 7, [AGroup 5 1 [sym_ppDirective]; AGroup 20264 1 [anon_sym_POUND]; AGroup 3 2 syms_5;
     AGroup 20261 2 syms_6; SGroup 7330 3 syms_13; AGroup 15241 4 syms_25;
     AGroup 15239 24 syms_169]);
   (369543, 6, [AGroup 5 1 [sym_ppDirective]; AGroup 20089 1 [sym_kHat]; SGroup 5404 1 [sym__exprIsNot];
     AGroup 3 2 syms_5; AGroup 16914 7 syms_34; AGroup 16912 25 syms_342]);
   (369593, 6, [AGroup 5 1 [sym_ppDirective]; AGroup 20089 1 [sym_kHat]; SGroup 5404 1 [sym__exprIsNot];
     AGroup 3 2 syms_5; AGroup 16904 7 syms_34; AGroup 16902 25 syms_342]);
   (369643, 11, [AGroup 5 1 [sym_ppDirective]; AGroup 20089 1 [sym_kHat]; AGroup 20093 1 [sym_kAs];
     SGroup 5404 1 [sym__exprIsNot]; AGroup 3 2 syms_5; AGroup 20085 2 syms_9;
     AGroup 20087 2 syms_258; AGroup 20095 2 syms_259; AGroup 16914 3 syms_94;
     AGroup 20091 5 syms_260; AGroup 16912 17 syms_322]);
   (369703, 13, [AGroup 19669 1 [sym_kHat]; AGroup 19677 1 [sym_kAs]; AGroup 19791 1 [sym_kIs];
     AGroup 19793 1 [sym_kNot]; SGroup 4852 1 [sym__exprIsNot]; AGroup 19671 2 syms_9;
     AGroup 19673 2 syms_258; AGroup 19679 2 syms_259; AGroup 19787 2 syms_83; AGroup 3 3 syms_1;
     AGroup 19675 5 syms_260; AGroup 19789 5 syms_85; AGroup 17936 11 syms_18]);
   (369767, 13, [AGroup 19669 1 [sym_kHat]; AGroup 19677 1 [sym_kAs]; AGroup 19791 1 [sym_kIs];
     AGroup 19793 1 [sym_kNot]; SGroup 4852 1 [sym__exprIsNot]; AGroup 19671 2 syms_9;
     AGroup 19673 2 syms_258; AGroup 19679 2 syms_259; AGroup 19787 2 syms_83; AGroup 3 3 syms_1;
     AGroup 19675 5 syms_260; AGroup 19789 5 syms_85; AGroup 17938 11 syms_18]);
   (369831, 5, [AGroup 5 1 [sym_ppDirective]; SGroup 4710 1 [sym__exprIsNot]; AGroup 3 2 syms_5;
     AGroup 17032 7 syms_34; AGroup 17030 26 syms_81]);
   (369879, 12, [AGroup 5 1 [sym_ppDirective]; AGroup 783 1 [anon_sym_LBRACK];
     AGroup 788 1 [aux_sym_ppUsesBlock_token1]; AGroup 20267 1 [sym_identifier];
     AGroup 20269 1 [sym_kGeneric]; SGroup 32 1 [sym__ppIf]; SGroup 12035 1 [sym_rttiAttributes];
     SGroup 12404 1 [aux_sym_rttiAttributes_repeat2]; AGroup 3 2 syms_5; SGroup 7342 3 syms_320;
     SGroup 12330 3 syms_2; AGroup 781 21 syms_321]);
   (369941, 5, [AGroup 5 1 [sym_ppDirective]; AGroup 20272 1 [anon_sym_COLON]; AGroup 3 2 syms_5;
     AGroup 16976 7 syms_34; AGroup 16972 26 syms_81]);
   (369989, 5, [AGroup 5 1 [sym_ppDirective]; AGroup 20274 1 [sym_identifier]; AGroup 3 2 syms_5;
     AGroup 17342 7 syms_34; AGroup 17340 26 syms_81]);
   (370037, 5, [AGroup 5 1 [sym_ppDirective]; AGroup 20276 1 [sym_identifier]; AGroup 3 2 syms_5;
     AGroup 17348 7 syms_34; AGroup 17346 26 syms_81]);
   (370085, 9, [AGroup 5 1 [sym_ppDirective]; AGroup 17042 1 [anon_sym_DOT];
     AGroup 20278 1 [anon_sym_LBRACK]; AGroup 20280 1 [anon_sym_LPAREN];
     AGroup 20282 1 [sym_kLt]; SGroup 4714 1 [sym_kDot]; AGroup 3 2 syms_5;
     AGroup 17046 5 syms_267; AGroup 17036 24 syms_343]);
   (370141, 12, [AGroup 5 1 [sym_ppDirective]; AGroup 863 1 [anon_sym_LBRACK];
     AGroup 868 1 [aux_sym_ppUsesBlock_token1]; AGroup 20267 1 [sym_identifier];
     AGroup 20284 1 [sym_kGeneric]; SGroup 32 1 [sym__ppIf]; SGroup 12035 1 [sym_rttiAttributes];
     SGroup 12404 1 [aux_sym_rttiAttributes_repeat2]; AGroup 3 2 syms_5; SGroup 7224 3 syms_320;
     SGroup 12330 3 syms_2; AGroup 861 21 syms_321]);
   (370203, 6, [AGroup 5 1 [sym_ppDirective]; AGroup 20287 1 [sym_kHat]; SGroup 4710 1 [sym__exprIsNot];
     AGroup 3 2 syms_5; AGroup 16914 7 syms_34; AGroup 16912 25 syms_344]);
   (370253, 6, [AGroup 5 1 [sym_ppDirective]; AGroup 20287 1 [sym_kHat]; SGroup 4710 1 [sym__exprIsNot];
     AGroup 3 2 syms_5; AGroup 16904 7 syms_34; AGroup 16902 25 syms_344]);
   (370303, 11, [AGroup 5 1 [sym_ppDirective]; AGroup 20287 1 [sym_kHat]; AGroup 20295 1 [sym_kAs];
     SGroup 4710 1 [sym__exprIsNot]; AGroup 3 2 syms_5; AGroup 20289 2 syms_9;
     AGroup 20291 2 syms_258; AGroup 20297 2 syms_259; AGroup 16914 3 syms_94;
     AGroup 20293 5 syms_260; AGroup 16912 17 syms_345]);
   (370363, 9, [AGroup 5 1 [sym_ppDirective]; AGroup 20287 1 [sym_kHat]; AGroup 20295 1 [sym_kAs];
     SGroup 4710 1 [sym__exprIsNot]; AGroup 3 2 syms_5; AGroup 20291 2 syms_258;
     AGroup 16914 5 syms_262; AGroup 20293 5 syms_260; AGroup 16912 19 syms_346]);
   (370419, 5, [AGroup 5 1 [sym_ppDirective]; SGroup 4714 1 [sym_kDot]; AGroup 3 2 syms_5;
     AGroup 16970 7 syms_34; AGroup 16968 26 syms_81]);
   (370467, 11, [AGroup 5 1 [sym_ppDirective]; AGroup 20287 1 [sym_kHat]; AGroup 20295 1 [sym_kAs];
     SGroup 4710 1 [sym__exprIsNot]; AGroup 3 2 syms_5; AGroup 20289 2 syms_9;
     AGroup 20291 2 syms_258; AGroup 20297 2 syms_259; AGroup 17016 3 syms_94;
     AGroup 20293 5 syms_260; AGroup 17014 17 syms_345]);
   (370527, 15, [AGroup 5 1 [sym_ppDirective]; AGroup 16886 1 [anon_sym_LPAREN]; AGroup 20287 1 [sym_kHat];
     AGroup 20295 1 [sym_kAs]; AGroup 20303 1 [sym_kIs]; AGroup 20305 1 [sym_kNot];
     SGroup 4710 1 [sym__exprIsNot]; AGroup 3 2 syms_5; AGroup 20289 2 syms_9;
     AGroup 20291 2 syms_258; AGroup 20297 2 syms_259; AGroup 20299 2 syms_83;
     AGroup 20293 5 syms_260; AGroup 20301 5 syms_85; AGroup 16884 10 syms_347]);
   (370595, 9, [AGroup 5 1 [sym_ppDirective]; AGroup 20089 1 [sym_kHat]; AGroup 20093 1 [sym_kAs];
     SGroup 5404 1 [sym__exprIsNot]; AGroup 3 2 syms_5; AGroup 20087 2 syms_258;
     AGroup 16914 5 syms_262; AGroup 20091 5 syms_260; AGroup 16912 19 syms_348]);
   (370651, 4, [AGroup 5 1 [sym_ppDirective]; AGroup 3 2 syms_5; AGroup 16467 7 syms_34;
     AGroup 16465 27 syms_349]);
   (370697, 7, [AGroup 5 1 [sym_ppDirective]; AGroup 16974 1 [anon_sym_COMMA];
     AGroup 16978 1 [anon_sym_DOT]; AGroup 3 2 syms_5; AGroup 16981 2 syms_83;
     AGroup 16976 5 syms_265; AGroup 16972 25 syms_350]);
   (370749, 4, [AGroup 5 1 [sym_ppDirective]; AGroup 3 2 syms_5; AGroup 17158 7 syms_34;
     AGroup 17156 27 syms_72]);
   (370795, 12, [AGroup 5 1 [sym_ppDirective]; AGroup 735 1 [anon_sym_LBRACK];
     AGroup 740 1 [aux_sym_ppUsesBlock_token1]; AGroup 20307 1 [sym_identifier];
     AGroup 20310 1 [sym_kGeneric]; SGroup 36 1 [sym__ppIf]; SGroup 12037 1 [sym_rttiAttributes];
     SGroup 12404 1 [aux_sym_rttiAttributes_repeat2]; AGroup 3 2 syms_5; SGroup 7354 3 syms_320;
     SGroup 12338 3 syms_2; AGroup 733 20 syms_351]);
   (370856, 5, [AGroup 5 1 [sym_ppDirective]; SGroup 5095 1 [sym__exprIsNot]; AGroup 3 2 syms_5;
     AGroup 17032 4 syms_25; AGroup 17030 28 syms_114]);
   (370903, 4, [AGroup 5 1 [sym_ppDirective]; AGroup 3 2 syms_5; AGroup 17172 7 syms_34;
     AGroup 17170 26 syms_82]);
   (370948, 4, [AGroup 5 1 [sym_ppDirective]; AGroup 3 2 syms_5; AGroup 17550 4 syms_25;
     AGroup 17548 29 syms_93]);
   (370993, 7, [AGroup 5 1 [sym_ppDirective]; AGroup 16974 1 [anon_sym_COMMA];
     AGroup 16978 1 [anon_sym_DOT]; AGroup 3 2 syms_5; AGroup 16981 2 syms_83;
     AGroup 16976 5 syms_265; AGroup 16972 24 syms_352])
  ].

(** States 7359 to 7458. *)
Definition small_runs_7359 : list small_run :=
  [
   (371044, 4, [AGroup 5 1 [sym_ppDirective]; AGroup 3 2 syms_5; AGroup 17592 4 syms_25;
     AGroup 17590 29 syms_93]);
   (371089, 4, [AGroup 5 1 [sym_ppDirective]; AGroup 3 2 syms_5; AGroup 17082 4 syms_25;
     AGroup 17080 29 syms_93]);
   (371134, 4, [AGroup 5 1 [sym_ppDirective]; AGroup 3 2 syms_5; AGroup 17096 4 syms_25;
     AGroup 17094 29 syms_93]);
   (371179, 4, [AGroup 5 1 [sym_ppDirective]; AGroup 3 2 syms_5; AGroup 17108 4 syms_25;
     AGroup 17106 29 syms_93]);
   (371224, 9, [AGroup 5 1 [sym_ppDirective]; AGroup 17042 1 [anon_sym_DOT];
     AGroup 20313 1 [anon_sym_LBRACK]; AGroup 20315 1 [anon_sym_LPAREN];
     AGroup 20317 1 [sym_kLt]; SGroup 4964 1 [sym_kDot]; AGroup 3 2 syms_5;
     AGroup 17046 5 syms_267; AGroup 17036 23 syms_353]);
   (371279, 4, [AGroup 5 1 [sym_ppDirective]; AGroup 3 2 syms_5; AGroup 17116 4 syms_25;
     AGroup 17114 29 syms_93]);
   (371324, 4, [AGroup 5 1 [sym_ppDirective]; AGroup 3 2 syms_5; AGroup 17120 4 syms_25;
     AGroup 17118 29 syms_93]);
   (371369, 4, [AGroup 5 1 [sym_ppDirective]; AGroup 3 2 syms_5; AGroup 17124 4 syms_25;
     AGroup 17122 29 syms_93]);
   (371414, 4, [AGroup 5 1 [sym_ppDirective]; AGroup 3 2 syms_5; AGroup 17128 4 syms_25;
     AGroup 17126 29 syms_93]);
   (371459, 4, [AGroup 5 1 [sym_ppDirective]; AGroup 3 2 syms_5; AGroup 17154 4 syms_25;
     AGroup 17152 29 syms_93]);
   (371504, 4, [AGroup 5 1 [sym_ppDirective]; AGroup 3 2 syms_5; AGroup 17158 4 syms_25;
     AGroup 17156 29 syms_93]);
   (371549, 4, [AGroup 5 1 [sym_ppDirective]; AGroup 3 2 syms_5; AGroup 17172 4 syms_25;
     AGroup 17170 29 syms_93]);
   (371594, 5, [AGroup 5 1 [sym_ppDirective]; AGroup 20319 1 [sym_identifier]; AGroup 3 2 syms_5;
     AGroup 17342 4 syms_25; AGroup 17340 28 syms_114]);
   (371641, 5, [AGroup 5 1 [sym_ppDirective]; AGroup 20321 1 [sym_identifier]; AGroup 3 2 syms_5;
     AGroup 17348 4 syms_25; AGroup 17346 28 syms_114]);
   (371688, 9, [AGroup 5 1 [sym_ppDirective]; AGroup 17042 1 [anon_sym_DOT];
     AGroup 20323 1 [anon_sym_LBRACK]; AGroup 20325 1 [anon_sym_LPAREN];
     AGroup 20327 1 [sym_kLt]; SGroup 5118 1 [sym_kDot]; AGroup 3 2 syms_5;
     AGroup 17046 2 syms_101; AGroup 17036 26 syms_354]);
   (371743, 6, [AGroup 5 1 [sym_ppDirective]; AGroup 20329 1 [sym_kHat]; SGroup 5095 1 [sym__exprIsNot];
     AGroup 3 2 syms_5; AGroup 16914 4 syms_25; AGroup 16912 27 syms_355]);
   (371792, 6, [AGroup 5 1 [sym_ppDirective]; AGroup 20329 1 [sym_kHat]; SGroup 5095 1 [sym__exprIsNot];
     AGroup 3 2 syms_5; AGroup 16904 4 syms_25; AGroup 16902 27 syms_355]);
   (371841, 5, [AGroup 5 1 [sym_ppDirective]; SGroup 4332 1 [sym__exprIsNot]; AGroup 3 2 syms_5;
     AGroup 17032 4 syms_25; AGroup 17030 28 syms_103]);
   (371888, 5, [AGroup 5 1 [sym_ppDirective]; SGroup 4964 1 [sym_kDot]; AGroup 3 2 syms_5;
     AGroup 16970 7 syms_34; AGroup 16968 25 syms_113]);
   (371935, 11, [AGroup 5 1 [sym_ppDirective]; AGroup 20335 1 [sym_kHat]; AGroup 20339 1 [sym_kAs];
     SGroup 4961 1 [sym__exprIsNot]; AGroup 3 2 syms_5; AGroup 20331 2 syms_9;
     AGroup 20333 2 syms_258; AGroup 20341 2 syms_259; AGroup 17016 3 syms_94;
     AGroup 20337 5 syms_260; AGroup 17014 16 syms_356]);
   (371994, 10, [AGroup 5 1 [sym_ppDirective]; AGroup 20329 1 [sym_kHat]; AGroup 20347 1 [sym_kFdiv];
     AGroup 20349 1 [sym_kAs]; SGroup 5095 1 [sym__exprIsNot]; AGroup 3 2 syms_5;
     AGroup 16914 3 syms_94; AGroup 20343 4 syms_84; AGroup 20345 6 syms_86;
     AGroup 16912 16 syms_357]);
   (372051, 4, [AGroup 5 1 [sym_ppDirective]; AGroup 3 2 syms_5; AGroup 17242 4 syms_25;
     AGroup 17240 29 syms_93]);
   (372096, 15, [AGroup 5 1 [sym_ppDirective]; AGroup 16886 1 [anon_sym_LPAREN]; AGroup 20335 1 [sym_kHat];
     AGroup 20339 1 [sym_kAs]; AGroup 20355 1 [sym_kIs]; AGroup 20357 1 [sym_kNot];
     SGroup 4961 1 [sym__exprIsNot]; AGroup 3 2 syms_5; AGroup 20331 2 syms_9;
     AGroup 20333 2 syms_258; AGroup 20341 2 syms_259; AGroup 20351 2 syms_83;
     AGroup 20337 5 syms_260; AGroup 20353 5 syms_85; AGroup 16884 9 syms_358]);
   (372163, 9, [AGroup 5 1 [sym_ppDirective]; AGroup 20329 1 [sym_kHat]; AGroup 20347 1 [sym_kFdiv];
     AGroup 20349 1 [sym_kAs]; SGroup 5095 1 [sym__exprIsNot]; AGroup 3 2 syms_5;
     AGroup 16914 3 syms_94; AGroup 20345 6 syms_86; AGroup 16912 20 syms_359]);
   (372218, 5, [AGroup 5 1 [sym_ppDirective]; AGroup 20359 1 [anon_sym_COLON]; AGroup 3 2 syms_5;
     AGroup 16976 7 syms_34; AGroup 16972 25 syms_106]);
   (372265, 5, [AGroup 5 1 [sym_ppDirective]; AGroup 20361 1 [sym_identifier]; AGroup 3 2 syms_5;
     AGroup 17342 7 syms_34; AGroup 17340 25 syms_106]);
   (372312, 6, [AGroup 5 1 [sym_ppDirective]; AGroup 20335 1 [sym_kHat]; SGroup 4961 1 [sym__exprIsNot];
     AGroup 3 2 syms_5; AGroup 16914 7 syms_34; AGroup 16912 24 syms_360]);
   (372361, 5, [AGroup 5 1 [sym_ppDirective]; SGroup 5118 1 [sym_kDot]; AGroup 3 2 syms_5;
     AGroup 16970 4 syms_25; AGroup 16968 28 syms_114]);
   (372408, 4, [AGroup 5 1 [sym_ppDirective]; AGroup 3 2 syms_5; AGroup 17256 4 syms_25;
     AGroup 17254 29 syms_93]);
   (372453, 10, [AGroup 5 1 [sym_ppDirective]; AGroup 20329 1 [sym_kHat]; AGroup 20347 1 [sym_kFdiv];
     AGroup 20349 1 [sym_kAs]; SGroup 5095 1 [sym__exprIsNot]; AGroup 3 2 syms_5;
     AGroup 17016 3 syms_94; AGroup 20343 4 syms_84; AGroup 20345 6 syms_86;
     AGroup 17014 16 syms_357]);
   (372510, 5, [AGroup 5 1 [sym_ppDirective]; AGroup 20363 1 [sym_identifier]; AGroup 3 2 syms_5;
     AGroup 17348 7 syms_34; AGroup 17346 25 syms_106]);
   (372557, 14, [AGroup 5 1 [sym_ppDirective]; AGroup 16886 1 [anon_sym_LPAREN]; AGroup 20329 1 [sym_kHat];
     AGroup 20347 1 [sym_kFdiv]; AGroup 20349 1 [sym_kAs]; AGroup 20369 1 [sym_kIs];
     AGroup 20371 1 [sym_kNot]; SGroup 5095 1 [sym__exprIsNot]; AGroup 3 2 syms_5;
     AGroup 20365 2 syms_83; AGroup 20343 4 syms_84; AGroup 20367 5 syms_85;
     AGroup 20345 6 syms_86; AGroup 16884 9 syms_361]);
   (372622, 11, [AGroup 5 1 [sym_ppDirective]; AGroup 20377 1 [sym_kHat]; AGroup 20381 1 [sym_kAs];
     SGroup 4521 1 [sym__exprIsNot]; AGroup 3 2 syms_5; AGroup 20373 2 syms_9;
     AGroup 20375 2 syms_258; AGroup 20383 2 syms_259; AGroup 17016 3 syms_94;
     AGroup 20379 5 syms_260; AGroup 17014 16 syms_362]);
   (372681, 12, [AGroup 5 1 [sym_ppDirective]; AGroup 783 1 [anon_sym_LBRACK];
     AGroup 788 1 [aux_sym_ppUsesBlock_token1]; AGroup 20385 1 [sym_identifier];
     AGroup 20387 1 [sym_kGeneric]; SGroup 36 1 [sym__ppIf]; SGroup 12037 1 [sym_rttiAttributes];
     SGroup 12404 1 [aux_sym_rttiAttributes_repeat2]; AGroup 3 2 syms_5; SGroup 7395 3 syms_320;
     SGroup 12338 3 syms_2; AGroup 781 20 syms_351]);
   (372742, 7, [AGroup 5 1 [sym_ppDirective]; AGroup 16027 1 [anon_sym_POUND]; AGroup 3 2 syms_5;
     AGroup 20390 2 syms_6; SGroup 7394 3 syms_13; AGroup 15235 4 syms_25;
     AGroup 15233 23 syms_197]);
   (372793, 7, [AGroup 5 1 [sym_ppDirective]; AGroup 20395 1 [anon_sym_POUND]; AGroup 3 2 syms_5;
     AGroup 20392 2 syms_6; SGroup 7394 3 syms_13; AGroup 15241 4 syms_25;
     AGroup 15239 23 syms_197]);
   (372844, 12, [AGroup 5 1 [sym_ppDirective]; AGroup 863 1 [anon_sym_LBRACK];
     AGroup 868 1 [aux_sym_ppUsesBlock_token1]; AGroup 20385 1 [sym_identifier];
     AGroup 20398 1 [sym_kGeneric]; SGroup 36 1 [sym__ppIf]; SGroup 12037 1 [sym_rttiAttributes];
     SGroup 12404 1 [aux_sym_rttiAttributes_repeat2]; AGroup 3 2 syms_5; SGroup 7354 3 syms_320;
     SGroup 12338 3 syms_2; AGroup 861 20 syms_351]);
   (372905, 7, [AGroup 5 1 [sym_ppDirective]; AGroup 16974 1 [anon_sym_COMMA];
     AGroup 16978 1 [anon_sym_DOT]; AGroup 3 2 syms_5; AGroup 16976 2 syms_97;
     AGroup 16981 2 syms_83; AGroup 16972 27 syms_363]);
   (372956, 13, [AGroup 19830 1 [sym_kFdiv]; AGroup 19832 1 [sym_kHat]; AGroup 19834 1 [sym_kAs];
     AGroup 19854 1 [sym_kIs]; AGroup 19856 1 [sym_kNot]; AGroup 20403 1 [anon_sym_COMMA];
     SGroup 5000 1 [sym__exprIsNot]; AGroup 19850 2 syms_83; AGroup 3 3 syms_1;
     AGroup 19826 4 syms_84; AGroup 19852 5 syms_85; AGroup 19828 6 syms_86;
     AGroup 20401 9 syms_20]);
   (373019, 4, [AGroup 5 1 [sym_ppDirective]; AGroup 3 2 syms_5; AGroup 17082 7 syms_34;
     AGroup 17080 26 syms_82]);
   (373064, 5, [AGroup 5 1 [sym_ppDirective]; AGroup 20405 1 [sym_identifier]; AGroup 3 2 syms_5;
     AGroup 17342 4 syms_25; AGroup 17340 28 syms_103]);
   (373111, 5, [AGroup 5 1 [sym_ppDirective]; AGroup 20407 1 [sym_identifier]; AGroup 3 2 syms_5;
     AGroup 17348 4 syms_25; AGroup 17346 28 syms_103]);
   (373158, 9, [AGroup 5 1 [sym_ppDirective]; AGroup 17042 1 [anon_sym_DOT];
     AGroup 20409 1 [anon_sym_LBRACK]; AGroup 20411 1 [anon_sym_LPAREN];
     AGroup 20413 1 [sym_kLt]; SGroup 4336 1 [sym_kDot]; AGroup 3 2 syms_5;
     AGroup 17046 2 syms_101; AGroup 17036 26 syms_364]);
   (373213, 6, [AGroup 5 1 [sym_ppDirective]; AGroup 20335 1 [sym_kHat]; SGroup 4961 1 [sym__exprIsNot];
     AGroup 3 2 syms_5; AGroup 16904 7 syms_34; AGroup 16902 24 syms_360]);
   (373262, 15, [AGroup 5 1 [sym_ppDirective]; AGroup 16886 1 [anon_sym_LPAREN]; AGroup 20423 1 [sym_kHat];
     AGroup 20427 1 [sym_kAs]; AGroup 20429 1 [sym_kIs]; AGroup 20431 1 [sym_kNot];
     SGroup 4635 1 [sym__exprIsNot]; AGroup 3 2 syms_5; AGroup 20415 2 syms_83;
     AGroup 20419 2 syms_9; AGroup 20421 2 syms_258; AGroup 20433 2 syms_259;
     AGroup 20417 5 syms_85; AGroup 20425 5 syms_260; AGroup 16884 9 syms_365]);
   (373329, 12, [AGroup 5 1 [sym_ppDirective]; AGroup 783 1 [anon_sym_LBRACK];
     AGroup 788 1 [aux_sym_ppUsesBlock_token1]; AGroup 20435 1 [sym_identifier];
     AGroup 20437 1 [sym_kGeneric]; SGroup 40 1 [sym__ppIf]; SGroup 12040 1 [sym_rttiAttributes];
     SGroup 12404 1 [aux_sym_rttiAttributes_repeat2]; AGroup 3 2 syms_5; SGroup 7419 3 syms_320;
     SGroup 12347 3 syms_2; AGroup 781 20 syms_366]);
   (373390, 5, [AGroup 5 1 [sym_ppDirective]; SGroup 4216 1 [sym__exprIsNot]; AGroup 3 2 syms_5;
     AGroup 17032 7 syms_34; AGroup 17030 25 syms_115]);
   (373437, 6, [AGroup 5 1 [sym_ppDirective]; AGroup 20440 1 [sym_kHat]; SGroup 4332 1 [sym__exprIsNot];
     AGroup 3 2 syms_5; AGroup 16914 4 syms_25; AGroup 16912 27 syms_367]);
   (373486, 6, [AGroup 5 1 [sym_ppDirective]; AGroup 20440 1 [sym_kHat]; SGroup 4332 1 [sym__exprIsNot];
     AGroup 3 2 syms_5; AGroup 16904 4 syms_25; AGroup 16902 27 syms_367]);
   (373535, 10, [AGroup 5 1 [sym_ppDirective]; AGroup 20440 1 [sym_kHat]; AGroup 20446 1 [sym_kFdiv];
     AGroup 20448 1 [sym_kAs]; SGroup 4332 1 [sym__exprIsNot]; AGroup 3 2 syms_5;
     AGroup 16914 3 syms_94; AGroup 20442 4 syms_84; AGroup 20444 6 syms_86;
     AGroup 16912 16 syms_368]);
   (373592, 9, [AGroup 5 1 [sym_ppDirective]; AGroup 20440 1 [sym_kHat]; AGroup 20446 1 [sym_kFdiv];
     AGroup 20448 1 [sym_kAs]; SGroup 4332 1 [sym__exprIsNot]; AGroup 3 2 syms_5;
     AGroup 16914 3 syms_94; AGroup 20444 6 syms_86; AGroup 16912 20 syms_369]);
   (373647, 5, [AGroup 5 1 [sym_ppDirective]; SGroup 4336 1 [sym_kDot]; AGroup 3 2 syms_5;
     AGroup 16970 4 syms_25; AGroup 16968 28 syms_103]);
   (373694, 10, [AGroup 5 1 [sym_ppDirective]; AGroup 20440 1 [sym_kHat]; AGroup 20446 1 [sym_kFdiv];
     AGroup 20448 1 [sym_kAs]; SGroup 4332 1 [sym__exprIsNot]; AGroup 3 2 syms_5;
     AGroup 17016 3 syms_94; AGroup 20442 4 syms_84; AGroup 20444 6 syms_86;
     AGroup 17014 16 syms_368]);
   (373751, 14, [AGroup 5 1 [sym_ppDirective]; AGroup 16886 1 [anon_sym_LPAREN]; AGroup 20440 1 [sym_kHat];
     AGroup 20446 1 [sym_kFdiv]; AGroup 20448 1 [sym_kAs]; AGroup 20454 1 [sym_kIs];
     AGroup 20456 1 [sym_kNot]; SGroup 4332 1 [sym__exprIsNot]; AGroup 3 2 syms_5;
     AGroup 20450 2 syms_83; AGroup 20442 4 syms_84; AGroup 20452 5 syms_85;
     AGroup 20444 6 syms_86; AGroup 16884 9 syms_370]);
   (373816, 4, [AGroup 5 1 [sym_ppDirective]; AGroup 3 2 syms_5; AGroup 16467 4 syms_25;
     AGroup 16465 29 syms_371]);
   (373861, 5, [AGroup 5 1 [sym_ppDirective]; AGroup 20458 1 [anon_sym_COLON]; AGroup 3 2 syms_5;
     AGroup 16976 7 syms_34; AGroup 16972 25 syms_113]);
   (373908, 5, [AGroup 5 1 [sym_ppDirective]; AGroup 20460 1 [sym_identifier]; AGroup 3 2 syms_5;
     AGroup 17342 7 syms_34; AGroup 17340 25 syms_104]);
   (373955, 4, [AGroup 5 1 [sym_ppDirective]; AGroup 3 2 syms_5; AGroup 17328 4 syms_25;
     AGroup 17326 29 syms_93]);
   (374000, 5, [AGroup 5 1 [sym_ppDirective]; AGroup 20462 1 [sym_identifier]; AGroup 3 2 syms_5;
     AGroup 17348 7 syms_34; AGroup 17346 25 syms_104]);
   (374047, 4, [AGroup 5 1 [sym_ppDirective]; AGroup 3 2 syms_5; AGroup 17256 7 syms_34;
     AGroup 17254 26 syms_82]);
   (374092, 12, [AGroup 5 1 [sym_ppDirective]; AGroup 863 1 [anon_sym_LBRACK];
     AGroup 868 1 [aux_sym_ppUsesBlock_token1]; AGroup 20435 1 [sym_identifier];
     AGroup 20464 1 [sym_kGeneric]; SGroup 40 1 [sym__ppIf]; SGroup 12040 1 [sym_rttiAttributes];
     SGroup 12404 1 [aux_sym_rttiAttributes_repeat2]; AGroup 3 2 syms_5; SGroup 7475 3 syms_320;
     SGroup 12347 3 syms_2; AGroup 861 20 syms_366]);
   (374153, 7, [AGroup 5 1 [sym_ppDirective]; AGroup 16974 1 [anon_sym_COMMA];
     AGroup 16978 1 [anon_sym_DOT]; AGroup 3 2 syms_5; AGroup 16976 2 syms_97;
     AGroup 16981 2 syms_83; AGroup 16972 27 syms_372]);
   (374204, 5, [AGroup 5 1 [sym_ppDirective]; AGroup 20467 1 [sym_identifier]; AGroup 3 2 syms_5;
     AGroup 17342 7 syms_34; AGroup 17340 25 syms_115]);
   (374251, 5, [AGroup 5 1 [sym_ppDirective]; AGroup 20469 1 [anon_sym_COLON]; AGroup 3 2 syms_5;
     AGroup 16976 7 syms_34; AGroup 16972 25 syms_106]);
   (374298, 7, [AGroup 5 1 [sym_ppDirective]; AGroup 20474 1 [anon_sym_POUND]; AGroup 3 2 syms_5;
     AGroup 20471 2 syms_6; SGroup 7423 3 syms_13; AGroup 15241 4 syms_25;
     AGroup 15239 23 syms_211]);
   (374349, 5, [AGroup 5 1 [sym_ppDirective]; AGroup 20477 1 [sym_identifier]; AGroup 3 2 syms_5;
     AGroup 17348 7 syms_34; AGroup 17346 25 syms_115]);
   (374396, 9, [AGroup 5 1 [sym_ppDirective]; AGroup 17042 1 [anon_sym_DOT];
     AGroup 20479 1 [anon_sym_LBRACK]; AGroup 20481 1 [anon_sym_LPAREN];
     AGroup 20483 1 [sym_kLt]; SGroup 4219 1 [sym_kDot]; AGroup 3 2 syms_5;
     AGroup 17046 5 syms_267; AGroup 17036 23 syms_373]);
   (374451, 4, [AGroup 5 1 [sym_ppDirective]; AGroup 3 2 syms_5; AGroup 17328 7 syms_34;
     AGroup 17326 26 syms_92]);
   (374496, 4, [AGroup 5 1 [sym_ppDirective]; AGroup 3 2 syms_5; AGroup 18831 7 syms_34;
     AGroup 18829 26 syms_92]);
   (374541, 4, [AGroup 5 1 [sym_ppDirective]; AGroup 3 2 syms_5; AGroup 17358 7 syms_34;
     AGroup 17356 26 syms_92]);
   (374586, 4, [AGroup 5 1 [sym_ppDirective]; AGroup 3 2 syms_5; AGroup 17362 7 syms_34;
     AGroup 17360 26 syms_92]);
   (374631, 5, [AGroup 5 1 [sym_ppDirective]; AGroup 20485 1 [sym_identifier]; AGroup 3 2 syms_5;
     AGroup 17342 7 syms_34; AGroup 17340 25 syms_113]);
   (374678, 4, [AGroup 5 1 [sym_ppDirective]; AGroup 3 2 syms_5; AGroup 11316 7 syms_34;
     AGroup 11311 26 syms_92]);
   (374723, 5, [AGroup 5 1 [sym_ppDirective]; AGroup 20487 1 [anon_sym_COLON]; AGroup 3 2 syms_5;
     AGroup 16976 7 syms_34; AGroup 16972 25 syms_104]);
   (374770, 4, [AGroup 5 1 [sym_ppDirective]; AGroup 3 2 syms_5; AGroup 17372 7 syms_34;
     AGroup 17370 26 syms_92]);
   (374815, 7, [AGroup 5 1 [sym_ppDirective]; AGroup 20492 1 [anon_sym_POUND]; AGroup 3 2 syms_5;
     AGroup 20489 2 syms_6; SGroup 7434 3 syms_13; AGroup 15241 4 syms_25;
     AGroup 15239 23 syms_193]);
   (374866, 13, [AGroup 19830 1 [sym_kFdiv]; AGroup 19832 1 [sym_kHat]; AGroup 19834 1 [sym_kAs];
     AGroup 19854 1 [sym_kIs]; AGroup 19856 1 [sym_kNot]; AGroup 20403 1 [anon_sym_COMMA];
     SGroup 5000 1 [sym__exprIsNot]; AGroup 19850 2 syms_83; AGroup 3 3 syms_1;
     AGroup 19826 4 syms_84; AGroup 19852 5 syms_85; AGroup 19828 6 syms_86;
     AGroup 20495 9 syms_20]);
   (374929, 4, [AGroup 5 1 [sym_ppDirective]; AGroup 3 2 syms_5; AGroup 17380 7 syms_34;
     AGroup 17378 26 syms_92]);
   (374974, 4, [AGroup 5 1 [sym_ppDirective]; AGroup 3 2 syms_5; AGroup 17386 7 syms_34;
     AGroup 17384 26 syms_92]);
   (375019, 4, [AGroup 5 1 [sym_ppDirective]; AGroup 3 2 syms_5; AGroup 17398 7 syms_34;
     AGroup 17396 26 syms_92]);
   (375064, 4, [AGroup 5 1 [sym_ppDirective]; AGroup 3 2 syms_5; AGroup 17408 7 syms_34;
     AGroup 17406 26 syms_92]);
   (375109, 4, [AGroup 5 1 [sym_ppDirective]; AGroup 3 2 syms_5; AGroup 17412 7 syms_34;
     AGroup 17410 26 syms_92]);
   (375154, 5, [AGroup 5 1 [sym_ppDirective]; SGroup 4635 1 [sym__exprIsNot]; AGroup 3 2 syms_5;
     AGroup 17032 7 syms_34; AGroup 17030 25 syms_104]);
   (375201, 6, [AGroup 5 1 [sym_ppDirective]; AGroup 20497 1 [sym_kHat]; SGroup 4216 1 [sym__exprIsNot];
     AGroup 3 2 syms_5; AGroup 16914 7 syms_34; AGroup 16912 24 syms_374]);
   (375250, 6, [AGroup 5 1 [sym_ppDirective]; AGroup 20497 1 [sym_kHat]; SGroup 4216 1 [sym__exprIsNot];
     AGroup 3 2 syms_5; AGroup 16904 7 syms_34; AGroup 16902 24 syms_374]);
   (375299, 11, [AGroup 5 1 [sym_ppDirective]; AGroup 20497 1 [sym_kHat]; AGroup 20505 1 [sym_kAs];
     SGroup 4216 1 [sym__exprIsNot]; AGroup 3 2 syms_5; AGroup 20499 2 syms_9;
     AGroup 20501 2 syms_258; AGroup 20507 2 syms_259; AGroup 16914 3 syms_94;
     AGroup 20503 5 syms_260; AGroup 16912 16 syms_375]);
   (375358, 4, [AGroup 5 1 [sym_ppDirective]; AGroup 3 2 syms_5; AGroup 17550 7 syms_34;
     AGroup 17548 26 syms_92]);
   (375403, 9, [AGroup 5 1 [sym_ppDirective]; AGroup 20497 1 [sym_kHat]; AGroup 20505 1 [sym_kAs];
     SGroup 4216 1 [sym__exprIsNot]; AGroup 3 2 syms_5; AGroup 20501 2 syms_258;
     AGroup 16914 5 syms_262; AGroup 20503 5 syms_260; AGroup 16912 18 syms_376]);
   (375458, 5, [AGroup 5 1 [sym_ppDirective]; SGroup 4219 1 [sym_kDot]; AGroup 3 2 syms_5;
     AGroup 16970 7 syms_34; AGroup 16968 25 syms_115]);
   (375505, 4, [AGroup 5 1 [sym_ppDirective]; AGroup 3 2 syms_5; AGroup 17592 7 syms_34;
     AGroup 17590 26 syms_92]);
   (375550, 4, [AGroup 5 1 [sym_ppDirective]; AGroup 3 2 syms_5; AGroup 17082 7 syms_34;
     AGroup 17080 26 syms_92]);
   (375595, 5, [AGroup 5 1 [sym_ppDirective]; SGroup 4961 1 [sym__exprIsNot]; AGroup 3 2 syms_5;
     AGroup 17032 7 syms_34; AGroup 17030 25 syms_113]);
   (375642, 4, [AGroup 5 1 [sym_ppDirective]; AGroup 3 2 syms_5; AGroup 17096 7 syms_34;
     AGroup 17094 26 syms_92]);
   (375687, 4, [AGroup 5 1 [sym_ppDirective]; AGroup 3 2 syms_5; AGroup 17108 7 syms_34;
     AGroup 17106 26 syms_92]);
   (375732, 11, [AGroup 5 1 [sym_ppDirective]; AGroup 20497 1 [sym_kHat]; AGroup 20505 1 [sym_kAs];
     SGroup 4216 1 [sym__exprIsNot]; AGroup 3 2 syms_5; AGroup 20499 2 syms_9;
     AGroup 20501 2 syms_258; AGroup 20507 2 syms_259; AGroup 17016 3 syms_94;
     AGroup 20503 5 syms_260; AGroup 17014 16 syms_375]);
   (375791, 4, [AGroup 5 1 [sym_ppDirective]; AGroup 3 2 syms_5; AGroup 17116 7 syms_34;
     AGroup 17114 26 syms_92]);
   (375836, 4, [AGroup 5 1 [sym_ppDirective]; AGroup 3 2 syms_5; AGroup 17120 7 syms_34;
     AGroup 17118 26 syms_92]);
   (375881, 4, [AGroup 5 1 [sym_ppDirective]; AGroup 3 2 syms_5; AGroup 17124 7 syms_34;
     AGroup 17122 26 syms_92]);
   (375926, 4, [AGroup 5 1 [sym_ppDirective]; AGroup 3 2 syms_5; AGroup 17128 7 syms_34;
     AGroup 17126 26 syms_92]);
   (375971, 4, [AGroup 5 1 [sym_ppDirective]; AGroup 3 2 syms_5; AGroup 17154 7 syms_34;
     AGroup 17152 26 syms_92])
  ].

(** States 7459 to 7558. *)
Definition small_runs_7459 : list small_run :=
  [
   (376016, 4, [AGroup 5 1 [sym_ppDirective]; AGroup 3 2 syms_5; AGroup 17158 7 syms_34;
     AGroup 17156 26 syms_92]);
   (376061, 6, [AGroup 5 1 [sym_ppDirective]; AGroup 20377 1 [sym_kHat]; SGroup 4521 1 [sym__exprIsNot];
     AGroup 3 2 syms_5; AGroup 16914 7 syms_34; AGroup 16912 24 syms_377]);
   (376110, 6, [AGroup 5 1 [sym_ppDirective]; AGroup 20377 1 [sym_kHat]; SGroup 4521 1 [sym__exprIsNot];
     AGroup 3 2 syms_5; AGroup 16904 7 syms_34; AGroup 16902 24 syms_377]);
   (376159, 11, [AGroup 5 1 [sym_ppDirective]; AGroup 20377 1 [sym_kHat]; AGroup 20381 1 [sym_kAs];
     SGroup 4521 1 [sym__exprIsNot]; AGroup 3 2 syms_5; AGroup 20373 2 syms_9;
     AGroup 20375 2 syms_258; AGroup 20383 2 syms_259; AGroup 16914 3 syms_94;
     AGroup 20379 5 syms_260; AGroup 16912 16 syms_362]);
   (376218, 4, [AGroup 5 1 [sym_ppDirective]; AGroup 3 2 syms_5; AGroup 17172 7 syms_34;
     AGroup 17170 26 syms_92]);
   (376263, 9, [AGroup 5 1 [sym_ppDirective]; AGroup 20335 1 [sym_kHat]; AGroup 20339 1 [sym_kAs];
     SGroup 4961 1 [sym__exprIsNot]; AGroup 3 2 syms_5; AGroup 20333 2 syms_258;
     AGroup 16914 5 syms_262; AGroup 20337 5 syms_260; AGroup 16912 18 syms_378]);
   (376318, 15, [AGroup 5 1 [sym_ppDirective]; AGroup 16886 1 [anon_sym_LPAREN]; AGroup 20497 1 [sym_kHat];
     AGroup 20505 1 [sym_kAs]; AGroup 20513 1 [sym_kIs]; AGroup 20515 1 [sym_kNot];
     SGroup 4216 1 [sym__exprIsNot]; AGroup 3 2 syms_5; AGroup 20499 2 syms_9;
     AGroup 20501 2 syms_258; AGroup 20507 2 syms_259; AGroup 20509 2 syms_83;
     AGroup 20503 5 syms_260; AGroup 20511 5 syms_85; AGroup 16884 9 syms_379]);
   (376385, 4, [AGroup 5 1 [sym_ppDirective]; AGroup 3 2 syms_5; AGroup 17158 7 syms_34;
     AGroup 17156 26 syms_82]);
   (376430, 7, [AGroup 5 1 [sym_ppDirective]; AGroup 15767 1 [anon_sym_POUND]; AGroup 3 2 syms_5;
     AGroup 20517 2 syms_6; SGroup 7468 3 syms_13; AGroup 15235 4 syms_25;
     AGroup 15233 23 syms_204]);
   (376481, 7, [AGroup 5 1 [sym_ppDirective]; AGroup 20522 1 [anon_sym_POUND]; AGroup 3 2 syms_5;
     AGroup 20519 2 syms_6; SGroup 7468 3 syms_13; AGroup 15241 4 syms_25;
     AGroup 15239 23 syms_204]);
   (376532, 4, [AGroup 5 1 [sym_ppDirective]; AGroup 3 2 syms_5; AGroup 17242 7 syms_34;
     AGroup 17240 26 syms_92]);
   (376577, 4, [AGroup 5 1 [sym_ppDirective]; AGroup 3 2 syms_5; AGroup 17256 7 syms_34;
     AGroup 17254 26 syms_92]);
   (376622, 7, [AGroup 5 1 [sym_ppDirective]; AGroup 16974 1 [anon_sym_COMMA];
     AGroup 16978 1 [anon_sym_DOT]; AGroup 3 2 syms_5; AGroup 16981 2 syms_83;
     AGroup 16976 5 syms_265; AGroup 16972 24 syms_380]);
   (376673, 5, [AGroup 5 1 [sym_ppDirective]; SGroup 4552 1 [sym_kDot]; AGroup 3 2 syms_5;
     AGroup 16970 7 syms_34; AGroup 16968 25 syms_106]);
   (376720, 5, [AGroup 5 1 [sym_ppDirective]; AGroup 20525 1 [sym_identifier]; AGroup 3 2 syms_5;
     AGroup 17348 7 syms_34; AGroup 17346 25 syms_113]);
   (376767, 4, [AGroup 5 1 [sym_ppDirective]; AGroup 3 2 syms_5; AGroup 17328 7 syms_34;
     AGroup 17326 26 syms_82]);
   (376812, 12, [AGroup 5 1 [sym_ppDirective]; AGroup 735 1 [anon_sym_LBRACK];
     AGroup 740 1 [aux_sym_ppUsesBlock_token1]; AGroup 20527 1 [sym_identifier];
     AGroup 20530 1 [sym_kGeneric]; SGroup 40 1 [sym__ppIf]; SGroup 12040 1 [sym_rttiAttributes];
     SGroup 12404 1 [aux_sym_rttiAttributes_repeat2]; AGroup 3 2 syms_5; SGroup 7475 3 syms_320;
     SGroup 12347 3 syms_2; AGroup 733 20 syms_366]);
   (376873, 15, [AGroup 5 1 [sym_ppDirective]; AGroup 16886 1 [anon_sym_LPAREN]; AGroup 20377 1 [sym_kHat];
     AGroup 20381 1 [sym_kAs]; AGroup 20537 1 [sym_kIs]; AGroup 20539 1 [sym_kNot];
     SGroup 4521 1 [sym__exprIsNot]; AGroup 3 2 syms_5; AGroup 20373 2 syms_9;
     AGroup 20375 2 syms_258; AGroup 20383 2 syms_259; AGroup 20533 2 syms_83;
     AGroup 20379 5 syms_260; AGroup 20535 5 syms_85; AGroup 16884 9 syms_381]);
   (376940, 7, [AGroup 5 1 [sym_ppDirective]; AGroup 16605 1 [anon_sym_POUND]; AGroup 3 2 syms_5;
     AGroup 20541 2 syms_6; SGroup 7480 3 syms_13; AGroup 15235 4 syms_25;
     AGroup 15233 23 syms_196]);
   (376991, 9, [AGroup 5 1 [sym_ppDirective]; AGroup 17042 1 [anon_sym_DOT];
     AGroup 20543 1 [anon_sym_LBRACK]; AGroup 20545 1 [anon_sym_LPAREN];
     AGroup 20547 1 [sym_kLt]; SGroup 4552 1 [sym_kDot]; AGroup 3 2 syms_5;
     AGroup 17046 5 syms_267; AGroup 17036 23 syms_382]);
   (377046, 5, [AGroup 5 1 [sym_ppDirective]; SGroup 4521 1 [sym__exprIsNot]; AGroup 3 2 syms_5;
     AGroup 17032 7 syms_34; AGroup 17030 25 syms_106]);
   (377093, 7, [AGroup 5 1 [sym_ppDirective]; AGroup 20552 1 [anon_sym_POUND]; AGroup 3 2 syms_5;
     AGroup 20549 2 syms_6; SGroup 7480 3 syms_13; AGroup 15241 4 syms_25;
     AGroup 15239 23 syms_196]);
   (377144, 4, [AGroup 5 1 [sym_ppDirective]; AGroup 3 2 syms_5; AGroup 16467 4 syms_25;
     AGroup 16465 29 syms_383]);
   (377189, 6, [AGroup 5 1 [sym_ppDirective]; AGroup 20423 1 [sym_kHat]; SGroup 4635 1 [sym__exprIsNot];
     AGroup 3 2 syms_5; AGroup 16914 7 syms_34; AGroup 16912 24 syms_384]);
   (377238, 6, [AGroup 5 1 [sym_ppDirective]; AGroup 20423 1 [sym_kHat]; SGroup 4635 1 [sym__exprIsNot];
     AGroup 3 2 syms_5; AGroup 16904 7 syms_34; AGroup 16902 24 syms_384]);
   (377287, 11, [AGroup 5 1 [sym_ppDirective]; AGroup 20423 1 [sym_kHat]; AGroup 20427 1 [sym_kAs];
     SGroup 4635 1 [sym__exprIsNot]; AGroup 3 2 syms_5; AGroup 20419 2 syms_9;
     AGroup 20421 2 syms_258; AGroup 20433 2 syms_259; AGroup 16914 3 syms_94;
     AGroup 20425 5 syms_260; AGroup 16912 16 syms_385]);
   (377346, 9, [AGroup 5 1 [sym_ppDirective]; AGroup 20423 1 [sym_kHat]; AGroup 20427 1 [sym_kAs];
     SGroup 4635 1 [sym__exprIsNot]; AGroup 3 2 syms_5; AGroup 20421 2 syms_258;
     AGroup 16914 5 syms_262; AGroup 20425 5 syms_260; AGroup 16912 18 syms_386]);
   (377401, 4, [AGroup 5 1 [sym_ppDirective]; AGroup 3 2 syms_5; AGroup 18831 7 syms_34;
     AGroup 18829 26 syms_82]);
   (377446, 4, [AGroup 5 1 [sym_ppDirective]; AGroup 3 2 syms_5; AGroup 17358 7 syms_34;
     AGroup 17356 26 syms_82]);
   (377491, 7, [AGroup 5 1 [sym_ppDirective]; AGroup 16974 1 [anon_sym_COMMA];
     AGroup 16978 1 [anon_sym_DOT]; AGroup 3 2 syms_5; AGroup 16981 2 syms_83;
     AGroup 16976 5 syms_265; AGroup 16972 24 syms_387]);
   (377542, 5, [AGroup 5 1 [sym_ppDirective]; SGroup 4653 1 [sym_kDot]; AGroup 3 2 syms_5;
     AGroup 16970 7 syms_34; AGroup 16968 25 syms_104]);
   (377589, 7, [AGroup 5 1 [sym_ppDirective]; AGroup 15931 1 [anon_sym_POUND]; AGroup 3 2 syms_5;
     AGroup 20555 2 syms_6; SGroup 7491 3 syms_13; AGroup 15235 4 syms_25;
     AGroup 15233 23 syms_191]);
   (377640, 7, [AGroup 5 1 [sym_ppDirective]; AGroup 20560 1 [anon_sym_POUND]; AGroup 3 2 syms_5;
     AGroup 20557 2 syms_6; SGroup 7491 3 syms_13; AGroup 15241 4 syms_25;
     AGroup 15239 23 syms_191]);
   (377691, 4, [AGroup 5 1 [sym_ppDirective]; AGroup 3 2 syms_5; AGroup 17362 7 syms_34;
     AGroup 17360 26 syms_82]);
   (377736, 7, [AGroup 5 1 [sym_ppDirective]; AGroup 16974 1 [anon_sym_COMMA];
     AGroup 16978 1 [anon_sym_DOT]; AGroup 3 2 syms_5; AGroup 16981 2 syms_83;
     AGroup 16976 5 syms_265; AGroup 16972 24 syms_388]);
   (377787, 4, [AGroup 5 1 [sym_ppDirective]; AGroup 3 2 syms_5; AGroup 11316 7 syms_34;
     AGroup 11311 26 syms_82]);
   (377832, 4, [AGroup 5 1 [sym_ppDirective]; AGroup 3 2 syms_5; AGroup 17372 7 syms_34;
     AGroup 17370 26 syms_82]);
   (377877, 4, [AGroup 5 1 [sym_ppDirective]; AGroup 3 2 syms_5; AGroup 17380 7 syms_34;
     AGroup 17378 26 syms_82]);
   (377922, 4, [AGroup 5 1 [sym_ppDirective]; AGroup 3 2 syms_5; AGroup 17386 7 syms_34;
     AGroup 17384 26 syms_82]);
   (377967, 4, [AGroup 5 1 [sym_ppDirective]; AGroup 3 2 syms_5; AGroup 17398 7 syms_34;
     AGroup 17396 26 syms_82]);
   (378012, 4, [AGroup 5 1 [sym_ppDirective]; AGroup 3 2 syms_5; AGroup 17408 7 syms_34;
     AGroup 17406 26 syms_82]);
   (378057, 4, [AGroup 5 1 [sym_ppDirective]; AGroup 3 2 syms_5; AGroup 17412 7 syms_34;
     AGroup 17410 26 syms_82]);
   (378102, 11, [AGroup 5 1 [sym_ppDirective]; AGroup 20335 1 [sym_kHat]; AGroup 20339 1 [sym_kAs];
     SGroup 4961 1 [sym__exprIsNot]; AGroup 3 2 syms_5; AGroup 20331 2 syms_9;
     AGroup 20333 2 syms_258; AGroup 20341 2 syms_259; AGroup 16914 3 syms_94;
     AGroup 20337 5 syms_260; AGroup 16912 16 syms_356]);
   (378161, 12, [AGroup 19803 1 [sym_kFdiv]; AGroup 19805 1 [sym_kHat]; AGroup 19807 1 [sym_kAs];
     AGroup 19870 1 [sym_kIs]; AGroup 19872 1 [sym_kNot]; SGroup 4321 1 [sym__exprIsNot];
     AGroup 19866 2 syms_83; AGroup 3 3 syms_1; AGroup 19799 4 syms_84; AGroup 19868 5 syms_85;
     AGroup 19801 6 syms_86; AGroup 17936 10 syms_19]);
   (378222, 12, [AGroup 19803 1 [sym_kFdiv]; AGroup 19805 1 [sym_kHat]; AGroup 19807 1 [sym_kAs];
     AGroup 19870 1 [sym_kIs]; AGroup 19872 1 [sym_kNot]; SGroup 4321 1 [sym__exprIsNot];
     AGroup 19866 2 syms_83; AGroup 3 3 syms_1; AGroup 19799 4 syms_84; AGroup 19868 5 syms_85;
     AGroup 19801 6 syms_86; AGroup 17938 10 syms_19]);
   (378283, 4, [AGroup 5 1 [sym_ppDirective]; AGroup 3 2 syms_5; AGroup 17096 7 syms_34;
     AGroup 17094 26 syms_82]);
   (378328, 11, [AGroup 5 1 [sym_ppDirective]; AGroup 20423 1 [sym_kHat]; AGroup 20427 1 [sym_kAs];
     SGroup 4635 1 [sym__exprIsNot]; AGroup 3 2 syms_5; AGroup 20419 2 syms_9;
     AGroup 20421 2 syms_258; AGroup 20433 2 syms_259; AGroup 17016 3 syms_94;
     AGroup 20425 5 syms_260; AGroup 17014 16 syms_385]);
   (378387, 4, [AGroup 5 1 [sym_ppDirective]; AGroup 3 2 syms_5; AGroup 17108 7 syms_34;
     AGroup 17106 26 syms_82]);
   (378432, 4, [AGroup 5 1 [sym_ppDirective]; AGroup 3 2 syms_5; AGroup 17592 7 syms_34;
     AGroup 17590 26 syms_82]);
   (378477, 7, [AGroup 5 1 [sym_ppDirective]; AGroup 16411 1 [anon_sym_POUND]; AGroup 3 2 syms_5;
     AGroup 20563 2 syms_6; SGroup 7510 3 syms_13; AGroup 15235 4 syms_25;
     AGroup 15233 23 syms_205]);
   (378528, 4, [AGroup 5 1 [sym_ppDirective]; AGroup 3 2 syms_5; AGroup 17116 7 syms_34;
     AGroup 17114 26 syms_82]);
   (378573, 7, [AGroup 5 1 [sym_ppDirective]; AGroup 20568 1 [anon_sym_POUND]; AGroup 3 2 syms_5;
     AGroup 20565 2 syms_6; SGroup 7510 3 syms_13; AGroup 15241 4 syms_25;
     AGroup 15239 23 syms_205]);
   (378624, 5, [AGroup 5 1 [sym_ppDirective]; AGroup 20571 1 [anon_sym_COLON]; AGroup 3 2 syms_5;
     AGroup 16976 7 syms_34; AGroup 16972 25 syms_104]);
   (378671, 4, [AGroup 5 1 [sym_ppDirective]; AGroup 3 2 syms_5; AGroup 17120 7 syms_34;
     AGroup 17118 26 syms_82]);
   (378716, 4, [AGroup 5 1 [sym_ppDirective]; AGroup 3 2 syms_5; AGroup 17242 7 syms_34;
     AGroup 17240 26 syms_82]);
   (378761, 4, [AGroup 5 1 [sym_ppDirective]; AGroup 3 2 syms_5; AGroup 17124 7 syms_34;
     AGroup 17122 26 syms_82]);
   (378806, 4, [AGroup 5 1 [sym_ppDirective]; AGroup 3 2 syms_5; AGroup 17128 7 syms_34;
     AGroup 17126 26 syms_82]);
   (378851, 4, [AGroup 5 1 [sym_ppDirective]; AGroup 3 2 syms_5; AGroup 18831 4 syms_25;
     AGroup 18829 29 syms_93]);
   (378896, 7, [AGroup 5 1 [sym_ppDirective]; AGroup 16635 1 [anon_sym_POUND]; AGroup 3 2 syms_5;
     AGroup 20573 2 syms_6; SGroup 7524 3 syms_13; AGroup 15235 4 syms_25;
     AGroup 15233 23 syms_198]);
   (378947, 4, [AGroup 5 1 [sym_ppDirective]; AGroup 3 2 syms_5; AGroup 18831 7 syms_34;
     AGroup 18829 26 syms_81]);
   (378992, 4, [AGroup 5 1 [sym_ppDirective]; AGroup 3 2 syms_5; AGroup 17358 7 syms_34;
     AGroup 17356 26 syms_81]);
   (379037, 4, [AGroup 5 1 [sym_ppDirective]; AGroup 3 2 syms_5; AGroup 17362 7 syms_34;
     AGroup 17360 26 syms_81]);
   (379082, 4, [AGroup 5 1 [sym_ppDirective]; AGroup 3 2 syms_5; AGroup 11316 7 syms_34;
     AGroup 11311 26 syms_81]);
   (379127, 4, [AGroup 5 1 [sym_ppDirective]; AGroup 3 2 syms_5; AGroup 17372 7 syms_34;
     AGroup 17370 26 syms_81]);
   (379172, 4, [AGroup 5 1 [sym_ppDirective]; AGroup 3 2 syms_5; AGroup 17358 4 syms_25;
     AGroup 17356 29 syms_93]);
   (379217, 7, [AGroup 5 1 [sym_ppDirective]; AGroup 20578 1 [anon_sym_POUND]; AGroup 3 2 syms_5;
     AGroup 20575 2 syms_6; SGroup 7524 3 syms_13; AGroup 15241 4 syms_25;
     AGroup 15239 23 syms_198]);
   (379268, 4, [AGroup 5 1 [sym_ppDirective]; AGroup 3 2 syms_5; AGroup 17380 7 syms_34;
     AGroup 17378 26 syms_81]);
   (379313, 4, [AGroup 5 1 [sym_ppDirective]; AGroup 3 2 syms_5; AGroup 17386 7 syms_34;
     AGroup 17384 26 syms_81]);
   (379358, 4, [AGroup 5 1 [sym_ppDirective]; AGroup 3 2 syms_5; AGroup 17398 7 syms_34;
     AGroup 17396 26 syms_81]);
   (379403, 4, [AGroup 5 1 [sym_ppDirective]; AGroup 3 2 syms_5; AGroup 17408 7 syms_34;
     AGroup 17406 26 syms_81]);
   (379448, 4, [AGroup 5 1 [sym_ppDirective]; AGroup 3 2 syms_5; AGroup 17412 7 syms_34;
     AGroup 17410 26 syms_81]);
   (379493, 4, [AGroup 5 1 [sym_ppDirective]; AGroup 3 2 syms_5; AGroup 17362 4 syms_25;
     AGroup 17360 29 syms_93]);
   (379538, 4, [AGroup 5 1 [sym_ppDirective]; AGroup 3 2 syms_5; AGroup 11316 4 syms_25;
     AGroup 11311 29 syms_93]);
   (379583, 4, [AGroup 5 1 [sym_ppDirective]; AGroup 3 2 syms_5; AGroup 17372 4 syms_25;
     AGroup 17370 29 syms_93]);
   (379628, 9, [AGroup 5 1 [sym_ppDirective]; AGroup 17042 1 [anon_sym_DOT];
     AGroup 20581 1 [anon_sym_LBRACK]; AGroup 20583 1 [anon_sym_LPAREN];
     AGroup 20585 1 [sym_kLt]; SGroup 4653 1 [sym_kDot]; AGroup 3 2 syms_5;
     AGroup 17046 5 syms_267; AGroup 17036 23 syms_389]);
   (379683, 4, [AGroup 5 1 [sym_ppDirective]; AGroup 3 2 syms_5; AGroup 17550 7 syms_34;
     AGroup 17548 26 syms_81]);
   (379728, 4, [AGroup 5 1 [sym_ppDirective]; AGroup 3 2 syms_5; AGroup 17380 4 syms_25;
     AGroup 17378 29 syms_93]);
   (379773, 4, [AGroup 5 1 [sym_ppDirective]; AGroup 3 2 syms_5; AGroup 17592 7 syms_34;
     AGroup 17590 26 syms_81]);
   (379818, 4, [AGroup 5 1 [sym_ppDirective]; AGroup 3 2 syms_5; AGroup 17082 7 syms_34;
     AGroup 17080 26 syms_81]);
   (379863, 4, [AGroup 5 1 [sym_ppDirective]; AGroup 3 2 syms_5; AGroup 17096 7 syms_34;
     AGroup 17094 26 syms_81]);
   (379908, 4, [AGroup 5 1 [sym_ppDirective]; AGroup 3 2 syms_5; AGroup 17108 7 syms_34;
     AGroup 17106 26 syms_81]);
   (379953, 4, [AGroup 5 1 [sym_ppDirective]; AGroup 3 2 syms_5; AGroup 17386 4 syms_25;
     AGroup 17384 29 syms_93]);
   (379998, 4, [AGroup 5 1 [sym_ppDirective]; AGroup 3 2 syms_5; AGroup 17116 7 syms_34;
     AGroup 17114 26 syms_81]);
   (380043, 4, [AGroup 5 1 [sym_ppDirective]; AGroup 3 2 syms_5; AGroup 17120 7 syms_34;
     AGroup 17118 26 syms_81]);
   (380088, 4, [AGroup 5 1 [sym_ppDirective]; AGroup 3 2 syms_5; AGroup 17124 7 syms_34;
     AGroup 17122 26 syms_81]);
   (380133, 4, [AGroup 5 1 [sym_ppDirective]; AGroup 3 2 syms_5; AGroup 16467 4 syms_25;
     AGroup 16465 29 syms_390]);
   (380178, 4, [AGroup 5 1 [sym_ppDirective]; AGroup 3 2 syms_5; AGroup 17128 7 syms_34;
     AGroup 17126 26 syms_81]);
   (380223, 4, [AGroup 5 1 [sym_ppDirective]; AGroup 3 2 syms_5; AGroup 17154 7 syms_34;
     AGroup 17152 26 syms_81]);
   (380268, 4, [AGroup 5 1 [sym_ppDirective]; AGroup 3 2 syms_5; AGroup 17158 7 syms_34;
     AGroup 17156 26 syms_81]);
   (380313, 7, [AGroup 5 1 [sym_ppDirective]; AGroup 15717 1 [anon_sym_POUND]; AGroup 3 2 syms_5;
     AGroup 20587 2 syms_6; SGroup 7423 3 syms_13; AGroup 15235 4 syms_25;
     AGroup 15233 23 syms_211]);
   (380364, 4, [AGroup 5 1 [sym_ppDirective]; AGroup 3 2 syms_5; AGroup 17172 7 syms_34;
     AGroup 17170 26 syms_81]);
   (380409, 4, [AGroup 5 1 [sym_ppDirective]; AGroup 3 2 syms_5; AGroup 17398 4 syms_25;
     AGroup 17396 29 syms_93]);
   (380454, 4, [AGroup 5 1 [sym_ppDirective]; AGroup 3 2 syms_5; AGroup 17408 4 syms_25;
     AGroup 17406 29 syms_93]);
   (380499, 4, [AGroup 5 1 [sym_ppDirective]; AGroup 3 2 syms_5; AGroup 17328 7 syms_34;
     AGroup 17326 26 syms_81]);
   (380544, 4, [AGroup 5 1 [sym_ppDirective]; AGroup 3 2 syms_5; AGroup 17412 4 syms_25;
     AGroup 17410 29 syms_93]);
   (380589, 4, [AGroup 5 1 [sym_ppDirective]; AGroup 3 2 syms_5; AGroup 17242 7 syms_34;
     AGroup 17240 26 syms_81]);
   (380634, 4, [AGroup 5 1 [sym_ppDirective]; AGroup 3 2 syms_5; AGroup 17550 7 syms_34;
     AGroup 17548 26 syms_82]);
   (380679, 7, [AGroup 5 1 [sym_ppDirective]; AGroup 15837 1 [anon_sym_POUND]; AGroup 3 2 syms_5;
     AGroup 20589 2 syms_6; SGroup 7434 3 syms_13; AGroup 15235 4 syms_25;
     AGroup 15233 23 syms_193]);
   (380730, 4, [AGroup 5 1 [sym_ppDirective]; AGroup 3 2 syms_5; AGroup 17256 7 syms_34;
     AGroup 17254 26 syms_81]);
   (380775, 4, [AGroup 5 1 [sym_ppDirective]; AGroup 3 2 syms_5; AGroup 17154 7 syms_34;
     AGroup 17152 26 syms_82])
  ].

(** States 7559 to 7658. *)
Definition small_runs_7559 : list small_run :=
  [
   (380820, 9, [AGroup 5 1 [sym_ppDirective]; AGroup 20377 1 [sym_kHat]; AGroup 20381 1 [sym_kAs];
     SGroup 4521 1 [sym__exprIsNot]; AGroup 3 2 syms_5; AGroup 20375 2 syms_258;
     AGroup 16914 5 syms_262; AGroup 20379 5 syms_260; AGroup 16912 18 syms_391]);
   (380875, 4, [AGroup 5 1 [sym_ppDirective]; AGroup 3 2 syms_5; AGroup 16467 4 syms_25;
     AGroup 16465 28 syms_392]);
   (380919, 5, [AGroup 5 1 [sym_ppDirective]; SGroup 4203 1 [sym__exprIsNot]; AGroup 3 2 syms_5;
     AGroup 17032 4 syms_25; AGroup 17030 27 syms_123]);
   (380965, 4, [AGroup 5 1 [sym_ppDirective]; AGroup 3 2 syms_5; AGroup 17128 7 syms_34;
     AGroup 17126 25 syms_106]);
   (381009, 4, [AGroup 5 1 [sym_ppDirective]; AGroup 3 2 syms_5; AGroup 17154 7 syms_34;
     AGroup 17152 25 syms_106]);
   (381053, 5, [AGroup 5 1 [sym_ppDirective]; AGroup 20591 1 [sym_identifier]; AGroup 3 2 syms_5;
     AGroup 17342 4 syms_25; AGroup 17340 27 syms_123]);
   (381099, 5, [AGroup 5 1 [sym_ppDirective]; AGroup 20593 1 [sym_identifier]; AGroup 3 2 syms_5;
     AGroup 17348 4 syms_25; AGroup 17346 27 syms_123]);
   (381145, 9, [AGroup 5 1 [sym_ppDirective]; AGroup 17042 1 [anon_sym_DOT];
     AGroup 20595 1 [anon_sym_LBRACK]; AGroup 20597 1 [anon_sym_LPAREN];
     AGroup 20599 1 [sym_kLt]; SGroup 4207 1 [sym_kDot]; AGroup 3 2 syms_5;
     AGroup 17046 2 syms_101; AGroup 17036 25 syms_393]);
   (381199, 6, [AGroup 5 1 [sym_ppDirective]; AGroup 20601 1 [sym_kHat]; SGroup 4203 1 [sym__exprIsNot];
     AGroup 3 2 syms_5; AGroup 16914 4 syms_25; AGroup 16912 26 syms_394]);
   (381247, 6, [AGroup 5 1 [sym_ppDirective]; AGroup 20601 1 [sym_kHat]; SGroup 4203 1 [sym__exprIsNot];
     AGroup 3 2 syms_5; AGroup 16904 4 syms_25; AGroup 16902 26 syms_394]);
   (381295, 10, [AGroup 5 1 [sym_ppDirective]; AGroup 20601 1 [sym_kHat]; AGroup 20607 1 [sym_kFdiv];
     AGroup 20609 1 [sym_kAs]; SGroup 4203 1 [sym__exprIsNot]; AGroup 3 2 syms_5;
     AGroup 16914 3 syms_94; AGroup 20603 4 syms_84; AGroup 20605 6 syms_86;
     AGroup 16912 15 syms_395]);
   (381351, 4, [AGroup 5 1 [sym_ppDirective]; AGroup 3 2 syms_5; AGroup 17328 7 syms_34;
     AGroup 17326 25 syms_104]);
   (381395, 9, [AGroup 5 1 [sym_ppDirective]; AGroup 20601 1 [sym_kHat]; AGroup 20607 1 [sym_kFdiv];
     AGroup 20609 1 [sym_kAs]; SGroup 4203 1 [sym__exprIsNot]; AGroup 3 2 syms_5;
     AGroup 16914 3 syms_94; AGroup 20605 6 syms_86; AGroup 16912 19 syms_396]);
   (381449, 5, [AGroup 5 1 [sym_ppDirective]; SGroup 4207 1 [sym_kDot]; AGroup 3 2 syms_5;
     AGroup 16970 4 syms_25; AGroup 16968 27 syms_123]);
   (381495, 10, [AGroup 5 1 [sym_ppDirective]; AGroup 20601 1 [sym_kHat]; AGroup 20607 1 [sym_kFdiv];
     AGroup 20609 1 [sym_kAs]; SGroup 4203 1 [sym__exprIsNot]; AGroup 3 2 syms_5;
     AGroup 17016 3 syms_94; AGroup 20603 4 syms_84; AGroup 20605 6 syms_86;
     AGroup 17014 15 syms_395]);
   (381551, 14, [AGroup 5 1 [sym_ppDirective]; AGroup 16886 1 [anon_sym_LPAREN]; AGroup 20601 1 [sym_kHat];
     AGroup 20607 1 [sym_kFdiv]; AGroup 20609 1 [sym_kAs]; AGroup 20615 1 [sym_kIs];
     AGroup 20617 1 [sym_kNot]; SGroup 4203 1 [sym__exprIsNot]; AGroup 3 2 syms_5;
     AGroup 20611 2 syms_83; AGroup 20603 4 syms_84; AGroup 20613 5 syms_85;
     AGroup 20605 6 syms_86; AGroup 16884 8 syms_397]);
   (381615, 4, [AGroup 5 1 [sym_ppDirective]; AGroup 3 2 syms_5; AGroup 18831 7 syms_34;
     AGroup 18829 25 syms_115]);
   (381659, 4, [AGroup 5 1 [sym_ppDirective]; AGroup 3 2 syms_5; AGroup 17358 7 syms_34;
     AGroup 17356 25 syms_115]);
   (381703, 4, [AGroup 5 1 [sym_ppDirective]; AGroup 3 2 syms_5; AGroup 17362 7 syms_34;
     AGroup 17360 25 syms_115]);
   (381747, 4, [AGroup 5 1 [sym_ppDirective]; AGroup 3 2 syms_5; AGroup 11316 7 syms_34;
     AGroup 11311 25 syms_115]);
   (381791, 4, [AGroup 5 1 [sym_ppDirective]; AGroup 3 2 syms_5; AGroup 18831 7 syms_34;
     AGroup 18829 25 syms_104]);
   (381835, 4, [AGroup 5 1 [sym_ppDirective]; AGroup 3 2 syms_5; AGroup 17372 7 syms_34;
     AGroup 17370 25 syms_115]);
   (381879, 4, [AGroup 5 1 [sym_ppDirective]; AGroup 3 2 syms_5; AGroup 17358 7 syms_34;
     AGroup 17356 25 syms_104]);
   (381923, 4, [AGroup 5 1 [sym_ppDirective]; AGroup 3 2 syms_5; AGroup 17362 7 syms_34;
     AGroup 17360 25 syms_104]);
   (381967, 4, [AGroup 5 1 [sym_ppDirective]; AGroup 3 2 syms_5; AGroup 17380 7 syms_34;
     AGroup 17378 25 syms_115]);
   (382011, 4, [AGroup 5 1 [sym_ppDirective]; AGroup 3 2 syms_5; AGroup 17386 7 syms_34;
     AGroup 17384 25 syms_115]);
   (382055, 4, [AGroup 5 1 [sym_ppDirective]; AGroup 3 2 syms_5; AGroup 17398 7 syms_34;
     AGroup 17396 25 syms_115]);
   (382099, 4, [AGroup 5 1 [sym_ppDirective]; AGroup 3 2 syms_5; AGroup 17408 7 syms_34;
     AGroup 17406 25 syms_115]);
   (382143, 4, [AGroup 5 1 [sym_ppDirective]; AGroup 3 2 syms_5; AGroup 17412 7 syms_34;
     AGroup 17410 25 syms_115]);
   (382187, 4, [AGroup 5 1 [sym_ppDirective]; AGroup 3 2 syms_5; AGroup 17550 7 syms_34;
     AGroup 17548 25 syms_115]);
   (382231, 4, [AGroup 5 1 [sym_ppDirective]; AGroup 3 2 syms_5; AGroup 17592 7 syms_34;
     AGroup 17590 25 syms_115]);
   (382275, 4, [AGroup 5 1 [sym_ppDirective]; AGroup 3 2 syms_5; AGroup 11316 7 syms_34;
     AGroup 11311 25 syms_104]);
   (382319, 4, [AGroup 5 1 [sym_ppDirective]; AGroup 3 2 syms_5; AGroup 17082 7 syms_34;
     AGroup 17080 25 syms_115]);
   (382363, 4, [AGroup 5 1 [sym_ppDirective]; AGroup 3 2 syms_5; AGroup 17096 7 syms_34;
     AGroup 17094 25 syms_115]);
   (382407, 4, [AGroup 5 1 [sym_ppDirective]; AGroup 3 2 syms_5; AGroup 17108 7 syms_34;
     AGroup 17106 25 syms_115]);
   (382451, 4, [AGroup 5 1 [sym_ppDirective]; AGroup 3 2 syms_5; AGroup 17116 7 syms_34;
     AGroup 17114 25 syms_115]);
   (382495, 4, [AGroup 5 1 [sym_ppDirective]; AGroup 3 2 syms_5; AGroup 17120 7 syms_34;
     AGroup 17118 25 syms_115]);
   (382539, 4, [AGroup 5 1 [sym_ppDirective]; AGroup 3 2 syms_5; AGroup 17124 7 syms_34;
     AGroup 17122 25 syms_115]);
   (382583, 4, [AGroup 5 1 [sym_ppDirective]; AGroup 3 2 syms_5; AGroup 17128 7 syms_34;
     AGroup 17126 25 syms_115]);
   (382627, 4, [AGroup 5 1 [sym_ppDirective]; AGroup 3 2 syms_5; AGroup 17154 7 syms_34;
     AGroup 17152 25 syms_115]);
   (382671, 4, [AGroup 5 1 [sym_ppDirective]; AGroup 3 2 syms_5; AGroup 17158 7 syms_34;
     AGroup 17156 25 syms_115]);
   (382715, 4, [AGroup 5 1 [sym_ppDirective]; AGroup 3 2 syms_5; AGroup 17172 7 syms_34;
     AGroup 17170 25 syms_115]);
   (382759, 4, [AGroup 5 1 [sym_ppDirective]; AGroup 3 2 syms_5; AGroup 16467 4 syms_25;
     AGroup 16465 28 syms_398]);
   (382803, 4, [AGroup 5 1 [sym_ppDirective]; AGroup 3 2 syms_5; AGroup 17372 7 syms_34;
     AGroup 17370 25 syms_104]);
   (382847, 4, [AGroup 5 1 [sym_ppDirective]; AGroup 3 2 syms_5; AGroup 17242 7 syms_34;
     AGroup 17240 25 syms_115]);
   (382891, 4, [AGroup 5 1 [sym_ppDirective]; AGroup 3 2 syms_5; AGroup 17256 7 syms_34;
     AGroup 17254 25 syms_115]);
   (382935, 4, [AGroup 5 1 [sym_ppDirective]; AGroup 3 2 syms_5; AGroup 17380 7 syms_34;
     AGroup 17378 25 syms_104]);
   (382979, 7, [AGroup 5 1 [sym_ppDirective]; AGroup 16974 1 [anon_sym_COMMA];
     AGroup 16978 1 [anon_sym_DOT]; AGroup 3 2 syms_5; AGroup 16976 2 syms_97;
     AGroup 16981 2 syms_83; AGroup 16972 26 syms_399]);
   (383029, 4, [AGroup 5 1 [sym_ppDirective]; AGroup 3 2 syms_5; AGroup 17386 7 syms_34;
     AGroup 17384 25 syms_104]);
   (383073, 4, [AGroup 5 1 [sym_ppDirective]; AGroup 3 2 syms_5; AGroup 17398 7 syms_34;
     AGroup 17396 25 syms_104]);
   (383117, 4, [AGroup 5 1 [sym_ppDirective]; AGroup 3 2 syms_5; AGroup 17408 7 syms_34;
     AGroup 17406 25 syms_104]);
   (383161, 4, [AGroup 5 1 [sym_ppDirective]; AGroup 3 2 syms_5; AGroup 17412 7 syms_34;
     AGroup 17410 25 syms_104]);
   (383205, 4, [AGroup 5 1 [sym_ppDirective]; AGroup 3 2 syms_5; AGroup 17550 7 syms_34;
     AGroup 17548 25 syms_104]);
   (383249, 4, [AGroup 5 1 [sym_ppDirective]; AGroup 3 2 syms_5; AGroup 17328 7 syms_34;
     AGroup 17326 25 syms_115]);
   (383293, 5, [AGroup 5 1 [sym_ppDirective]; AGroup 20619 1 [sym_identifier]; AGroup 3 2 syms_5;
     AGroup 17342 7 syms_34; AGroup 17340 24 syms_125]);
   (383339, 5, [AGroup 5 1 [sym_ppDirective]; AGroup 20621 1 [sym_identifier]; AGroup 3 2 syms_5;
     AGroup 17348 7 syms_34; AGroup 17346 24 syms_125]);
   (383385, 4, [AGroup 5 1 [sym_ppDirective]; AGroup 3 2 syms_5; AGroup 17158 7 syms_34;
     AGroup 17156 25 syms_106]);
   (383429, 4, [AGroup 5 1 [sym_ppDirective]; AGroup 3 2 syms_5; AGroup 17592 7 syms_34;
     AGroup 17590 25 syms_104]);
   (383473, 4, [AGroup 5 1 [sym_ppDirective]; AGroup 3 2 syms_5; AGroup 17082 7 syms_34;
     AGroup 17080 25 syms_104]);
   (383517, 4, [AGroup 5 1 [sym_ppDirective]; AGroup 3 2 syms_5; AGroup 17096 7 syms_34;
     AGroup 17094 25 syms_104]);
   (383561, 4, [AGroup 5 1 [sym_ppDirective]; AGroup 3 2 syms_5; AGroup 17108 7 syms_34;
     AGroup 17106 25 syms_104]);
   (383605, 4, [AGroup 5 1 [sym_ppDirective]; AGroup 3 2 syms_5; AGroup 18831 7 syms_34;
     AGroup 18829 25 syms_113]);
   (383649, 4, [AGroup 5 1 [sym_ppDirective]; AGroup 3 2 syms_5; AGroup 17116 7 syms_34;
     AGroup 17114 25 syms_104]);
   (383693, 4, [AGroup 5 1 [sym_ppDirective]; AGroup 3 2 syms_5; AGroup 17120 7 syms_34;
     AGroup 17118 25 syms_104]);
   (383737, 4, [AGroup 5 1 [sym_ppDirective]; AGroup 3 2 syms_5; AGroup 17124 7 syms_34;
     AGroup 17122 25 syms_104]);
   (383781, 5, [AGroup 5 1 [sym_ppDirective]; SGroup 4762 1 [sym__exprIsNot]; AGroup 3 2 syms_5;
     AGroup 17032 7 syms_34; AGroup 17030 24 syms_125]);
   (383827, 12, [AGroup 19832 1 [sym_kHat]; AGroup 20045 1 [sym_kFdiv]; AGroup 20047 1 [sym_kAs];
     AGroup 20053 1 [sym_kIs]; AGroup 20055 1 [sym_kNot]; SGroup 4793 1 [sym__exprIsNot];
     AGroup 20049 2 syms_83; AGroup 3 3 syms_1; AGroup 20041 4 syms_84; AGroup 20051 5 syms_85;
     AGroup 20043 6 syms_86; AGroup 17936 9 syms_20]);
   (383887, 4, [AGroup 5 1 [sym_ppDirective]; AGroup 3 2 syms_5; AGroup 17358 7 syms_34;
     AGroup 17356 25 syms_113]);
   (383931, 4, [AGroup 5 1 [sym_ppDirective]; AGroup 3 2 syms_5; AGroup 17362 7 syms_34;
     AGroup 17360 25 syms_113]);
   (383975, 4, [AGroup 5 1 [sym_ppDirective]; AGroup 3 2 syms_5; AGroup 17128 7 syms_34;
     AGroup 17126 25 syms_104]);
   (384019, 4, [AGroup 5 1 [sym_ppDirective]; AGroup 3 2 syms_5; AGroup 17154 7 syms_34;
     AGroup 17152 25 syms_104]);
   (384063, 4, [AGroup 5 1 [sym_ppDirective]; AGroup 3 2 syms_5; AGroup 11316 7 syms_34;
     AGroup 11311 25 syms_113]);
   (384107, 4, [AGroup 5 1 [sym_ppDirective]; AGroup 3 2 syms_5; AGroup 17372 7 syms_34;
     AGroup 17370 25 syms_113]);
   (384151, 4, [AGroup 5 1 [sym_ppDirective]; AGroup 3 2 syms_5; AGroup 16467 4 syms_25;
     AGroup 16465 28 syms_400]);
   (384195, 4, [AGroup 5 1 [sym_ppDirective]; AGroup 3 2 syms_5; AGroup 17158 7 syms_34;
     AGroup 17156 25 syms_104]);
   (384239, 4, [AGroup 5 1 [sym_ppDirective]; AGroup 3 2 syms_5; AGroup 17380 7 syms_34;
     AGroup 17378 25 syms_113]);
   (384283, 4, [AGroup 5 1 [sym_ppDirective]; AGroup 3 2 syms_5; AGroup 17386 7 syms_34;
     AGroup 17384 25 syms_113]);
   (384327, 4, [AGroup 5 1 [sym_ppDirective]; AGroup 3 2 syms_5; AGroup 17398 7 syms_34;
     AGroup 17396 25 syms_113]);
   (384371, 4, [AGroup 5 1 [sym_ppDirective]; AGroup 3 2 syms_5; AGroup 17408 7 syms_34;
     AGroup 17406 25 syms_113]);
   (384415, 12, [AGroup 19832 1 [sym_kHat]; AGroup 20045 1 [sym_kFdiv]; AGroup 20047 1 [sym_kAs];
     AGroup 20053 1 [sym_kIs]; AGroup 20055 1 [sym_kNot]; SGroup 4793 1 [sym__exprIsNot];
     AGroup 20049 2 syms_83; AGroup 3 3 syms_1; AGroup 20041 4 syms_84; AGroup 20051 5 syms_85;
     AGroup 20043 6 syms_86; AGroup 20623 9 syms_20]);
   (384475, 4, [AGroup 5 1 [sym_ppDirective]; AGroup 3 2 syms_5; AGroup 17412 7 syms_34;
     AGroup 17410 25 syms_113]);
   (384519, 12, [AGroup 19832 1 [sym_kHat]; AGroup 20045 1 [sym_kFdiv]; AGroup 20047 1 [sym_kAs];
     AGroup 20053 1 [sym_kIs]; AGroup 20055 1 [sym_kNot]; SGroup 4793 1 [sym__exprIsNot];
     AGroup 20049 2 syms_83; AGroup 3 3 syms_1; AGroup 20041 4 syms_84; AGroup 20051 5 syms_85;
     AGroup 20043 6 syms_86; AGroup 20625 9 syms_20]);
   (384579, 12, [AGroup 19832 1 [sym_kHat]; AGroup 20045 1 [sym_kFdiv]; AGroup 20047 1 [sym_kAs];
     AGroup 20053 1 [sym_kIs]; AGroup 20055 1 [sym_kNot]; SGroup 4793 1 [sym__exprIsNot];
     AGroup 20049 2 syms_83; AGroup 3 3 syms_1; AGroup 20041 4 syms_84; AGroup 20051 5 syms_85;
     AGroup 20043 6 syms_86; AGroup 20627 9 syms_20]);
   (384639, 4, [AGroup 5 1 [sym_ppDirective]; AGroup 3 2 syms_5; AGroup 17116 7 syms_34;
     AGroup 17114 25 syms_106]);
   (384683, 4, [AGroup 5 1 [sym_ppDirective]; AGroup 3 2 syms_5; AGroup 17120 7 syms_34;
     AGroup 17118 25 syms_106]);
   (384727, 4, [AGroup 5 1 [sym_ppDirective]; AGroup 3 2 syms_5; AGroup 17124 7 syms_34;
     AGroup 17122 25 syms_106]);
   (384771, 4, [AGroup 5 1 [sym_ppDirective]; AGroup 3 2 syms_5; AGroup 17550 7 syms_34;
     AGroup 17548 25 syms_113]);
   (384815, 4, [AGroup 5 1 [sym_ppDirective]; AGroup 3 2 syms_5; AGroup 17256 7 syms_34;
     AGroup 17254 25 syms_106]);
   (384859, 12, [AGroup 19832 1 [sym_kHat]; AGroup 20045 1 [sym_kFdiv]; AGroup 20047 1 [sym_kAs];
     AGroup 20053 1 [sym_kIs]; AGroup 20055 1 [sym_kNot]; SGroup 4793 1 [sym__exprIsNot];
     AGroup 20049 2 syms_83; AGroup 3 3 syms_1; AGroup 20041 4 syms_84; AGroup 20051 5 syms_85;
     AGroup 20043 6 syms_86; AGroup 20629 9 syms_20]);
   (384919, 4, [AGroup 5 1 [sym_ppDirective]; AGroup 3 2 syms_5; AGroup 17592 7 syms_34;
     AGroup 17590 25 syms_113]);
   (384963, 4, [AGroup 5 1 [sym_ppDirective]; AGroup 3 2 syms_5; AGroup 17082 7 syms_34;
     AGroup 17080 25 syms_113]);
   (385007, 4, [AGroup 5 1 [sym_ppDirective]; AGroup 3 2 syms_5; AGroup 17096 7 syms_34;
     AGroup 17094 25 syms_113]);
   (385051, 12, [AGroup 19832 1 [sym_kHat]; AGroup 20045 1 [sym_kFdiv]; AGroup 20047 1 [sym_kAs];
     AGroup 20053 1 [sym_kIs]; AGroup 20055 1 [sym_kNot]; SGroup 4793 1 [sym__exprIsNot];
     AGroup 20049 2 syms_83; AGroup 3 3 syms_1; AGroup 20041 4 syms_84; AGroup 20051 5 syms_85;
     AGroup 20043 6 syms_86; AGroup 17938 9 syms_20]);
   (385111, 4, [AGroup 5 1 [sym_ppDirective]; AGroup 3 2 syms_5; AGroup 17108 7 syms_34;
     AGroup 17106 25 syms_113]);
   (385155, 4, [AGroup 5 1 [sym_ppDirective]; AGroup 3 2 syms_5; AGroup 17116 7 syms_34;
     AGroup 17114 25 syms_113]);
   (385199, 4, [AGroup 5 1 [sym_ppDirective]; AGroup 3 2 syms_5; AGroup 17120 7 syms_34;
     AGroup 17118 25 syms_113]);
   (385243, 4, [AGroup 5 1 [sym_ppDirective]; AGroup 3 2 syms_5; AGroup 17124 7 syms_34;
     AGroup 17122 25 syms_113]);
   (385287, 4, [AGroup 5 1 [sym_ppDirective]; AGroup 3 2 syms_5; AGroup 17128 7 syms_34;
     AGroup 17126 25 syms_113]);
   (385331, 4, [AGroup 5 1 [sym_ppDirective]; AGroup 3 2 syms_5; AGroup 17154 7 syms_34;
     AGroup 17152 25 syms_113]);
   (385375, 4, [AGroup 5 1 [sym_ppDirective]; AGroup 3 2 syms_5; AGroup 17158 7 syms_34;
     AGroup 17156 25 syms_113])
  ].

(** States 7659 to 7758. *)
Definition small_runs_7659 : list small_run :=
  [
   (385419, 4, [AGroup 5 1 [sym_ppDirective]; AGroup 3 2 syms_5; AGroup 17172 7 syms_34;
     AGroup 17170 25 syms_113]);
   (385463, 4, [AGroup 5 1 [sym_ppDirective]; AGroup 3 2 syms_5; AGroup 17328 7 syms_34;
     AGroup 17326 25 syms_113]);
   (385507, 4, [AGroup 5 1 [sym_ppDirective]; AGroup 3 2 syms_5; AGroup 17172 7 syms_34;
     AGroup 17170 25 syms_104]);
   (385551, 4, [AGroup 5 1 [sym_ppDirective]; AGroup 3 2 syms_5; AGroup 18831 4 syms_25;
     AGroup 18829 28 syms_103]);
   (385595, 4, [AGroup 5 1 [sym_ppDirective]; AGroup 3 2 syms_5; AGroup 17358 4 syms_25;
     AGroup 17356 28 syms_103]);
   (385639, 4, [AGroup 5 1 [sym_ppDirective]; AGroup 3 2 syms_5; AGroup 17362 4 syms_25;
     AGroup 17360 28 syms_103]);
   (385683, 4, [AGroup 5 1 [sym_ppDirective]; AGroup 3 2 syms_5; AGroup 11316 4 syms_25;
     AGroup 11311 28 syms_103]);
   (385727, 4, [AGroup 5 1 [sym_ppDirective]; AGroup 3 2 syms_5; AGroup 16467 4 syms_25;
     AGroup 16465 28 syms_401]);
   (385771, 4, [AGroup 5 1 [sym_ppDirective]; AGroup 3 2 syms_5; AGroup 17372 4 syms_25;
     AGroup 17370 28 syms_103]);
   (385815, 4, [AGroup 5 1 [sym_ppDirective]; AGroup 3 2 syms_5; AGroup 17380 4 syms_25;
     AGroup 17378 28 syms_103]);
   (385859, 4, [AGroup 5 1 [sym_ppDirective]; AGroup 3 2 syms_5; AGroup 17380 7 syms_34;
     AGroup 17378 25 syms_106]);
   (385903, 4, [AGroup 5 1 [sym_ppDirective]; AGroup 3 2 syms_5; AGroup 17386 4 syms_25;
     AGroup 17384 28 syms_103]);
   (385947, 4, [AGroup 5 1 [sym_ppDirective]; AGroup 3 2 syms_5; AGroup 17398 4 syms_25;
     AGroup 17396 28 syms_103]);
   (385991, 4, [AGroup 5 1 [sym_ppDirective]; AGroup 3 2 syms_5; AGroup 17408 4 syms_25;
     AGroup 17406 28 syms_103]);
   (386035, 4, [AGroup 5 1 [sym_ppDirective]; AGroup 3 2 syms_5; AGroup 17412 4 syms_25;
     AGroup 17410 28 syms_103]);
   (386079, 4, [AGroup 5 1 [sym_ppDirective]; AGroup 3 2 syms_5; AGroup 17242 7 syms_34;
     AGroup 17240 25 syms_113]);
   (386123, 4, [AGroup 5 1 [sym_ppDirective]; AGroup 3 2 syms_5; AGroup 17108 7 syms_34;
     AGroup 17106 25 syms_106]);
   (386167, 4, [AGroup 5 1 [sym_ppDirective]; AGroup 3 2 syms_5; AGroup 17550 4 syms_25;
     AGroup 17548 28 syms_103]);
   (386211, 4, [AGroup 5 1 [sym_ppDirective]; AGroup 3 2 syms_5; AGroup 17592 4 syms_25;
     AGroup 17590 28 syms_103]);
   (386255, 4, [AGroup 5 1 [sym_ppDirective]; AGroup 3 2 syms_5; AGroup 17082 4 syms_25;
     AGroup 17080 28 syms_103]);
   (386299, 4, [AGroup 5 1 [sym_ppDirective]; AGroup 3 2 syms_5; AGroup 17096 4 syms_25;
     AGroup 17094 28 syms_103]);
   (386343, 13, [AGroup 19957 1 [sym_kHat]; AGroup 19965 1 [sym_kAs]; AGroup 19973 1 [sym_kIs];
     AGroup 19975 1 [sym_kNot]; SGroup 5474 1 [sym__exprIsNot]; AGroup 19959 2 syms_9;
     AGroup 19961 2 syms_258; AGroup 19967 2 syms_259; AGroup 19969 2 syms_83; AGroup 3 3 syms_1;
     AGroup 19963 5 syms_260; AGroup 19971 5 syms_85; AGroup 17936 9 syms_24]);
   (386405, 4, [AGroup 5 1 [sym_ppDirective]; AGroup 3 2 syms_5; AGroup 16467 4 syms_25;
     AGroup 16465 28 syms_402]);
   (386449, 4, [AGroup 5 1 [sym_ppDirective]; AGroup 3 2 syms_5; AGroup 17116 4 syms_25;
     AGroup 17114 28 syms_103]);
   (386493, 4, [AGroup 5 1 [sym_ppDirective]; AGroup 3 2 syms_5; AGroup 17120 4 syms_25;
     AGroup 17118 28 syms_103]);
   (386537, 4, [AGroup 5 1 [sym_ppDirective]; AGroup 3 2 syms_5; AGroup 17124 4 syms_25;
     AGroup 17122 28 syms_103]);
   (386581, 4, [AGroup 5 1 [sym_ppDirective]; AGroup 3 2 syms_5; AGroup 17128 4 syms_25;
     AGroup 17126 28 syms_103]);
   (386625, 4, [AGroup 5 1 [sym_ppDirective]; AGroup 3 2 syms_5; AGroup 17154 4 syms_25;
     AGroup 17152 28 syms_103]);
   (386669, 4, [AGroup 5 1 [sym_ppDirective]; AGroup 3 2 syms_5; AGroup 17158 4 syms_25;
     AGroup 17156 28 syms_103]);
   (386713, 4, [AGroup 5 1 [sym_ppDirective]; AGroup 3 2 syms_5; AGroup 17172 4 syms_25;
     AGroup 17170 28 syms_103]);
   (386757, 4, [AGroup 5 1 [sym_ppDirective]; AGroup 3 2 syms_5; AGroup 17242 4 syms_25;
     AGroup 17240 28 syms_103]);
   (386801, 4, [AGroup 5 1 [sym_ppDirective]; AGroup 3 2 syms_5; AGroup 17256 4 syms_25;
     AGroup 17254 28 syms_103]);
   (386845, 4, [AGroup 5 1 [sym_ppDirective]; AGroup 3 2 syms_5; AGroup 17386 7 syms_34;
     AGroup 17384 25 syms_106]);
   (386889, 4, [AGroup 5 1 [sym_ppDirective]; AGroup 3 2 syms_5; AGroup 17256 7 syms_34;
     AGroup 17254 25 syms_113]);
   (386933, 4, [AGroup 5 1 [sym_ppDirective]; AGroup 3 2 syms_5; AGroup 18831 4 syms_25;
     AGroup 18829 28 syms_114]);
   (386977, 4, [AGroup 5 1 [sym_ppDirective]; AGroup 3 2 syms_5; AGroup 17328 4 syms_25;
     AGroup 17326 28 syms_103]);
   (387021, 6, [AGroup 5 1 [sym_ppDirective]; AGroup 20631 1 [sym_kHat]; SGroup 4762 1 [sym__exprIsNot];
     AGroup 3 2 syms_5; AGroup 16914 7 syms_34; AGroup 16912 23 syms_403]);
   (387069, 6, [AGroup 5 1 [sym_ppDirective]; AGroup 20631 1 [sym_kHat]; SGroup 4762 1 [sym__exprIsNot];
     AGroup 3 2 syms_5; AGroup 16904 7 syms_34; AGroup 16902 23 syms_403]);
   (387117, 11, [AGroup 5 1 [sym_ppDirective]; AGroup 20631 1 [sym_kHat]; AGroup 20639 1 [sym_kAs];
     SGroup 4762 1 [sym__exprIsNot]; AGroup 3 2 syms_5; AGroup 20633 2 syms_9;
     AGroup 20635 2 syms_258; AGroup 20641 2 syms_259; AGroup 16914 3 syms_94;
     AGroup 20637 5 syms_260; AGroup 16912 15 syms_404]);
   (387175, 9, [AGroup 5 1 [sym_ppDirective]; AGroup 20631 1 [sym_kHat]; AGroup 20639 1 [sym_kAs];
     SGroup 4762 1 [sym__exprIsNot]; AGroup 3 2 syms_5; AGroup 20635 2 syms_258;
     AGroup 16914 5 syms_262; AGroup 20637 5 syms_260; AGroup 16912 17 syms_405]);
   (387229, 7, [AGroup 5 1 [sym_ppDirective]; AGroup 16974 1 [anon_sym_COMMA];
     AGroup 16978 1 [anon_sym_DOT]; AGroup 3 2 syms_5; AGroup 16981 2 syms_83;
     AGroup 16976 5 syms_265; AGroup 16972 23 syms_406]);
   (387279, 4, [AGroup 5 1 [sym_ppDirective]; AGroup 3 2 syms_5; AGroup 17358 4 syms_25;
     AGroup 17356 28 syms_114]);
   (387323, 5, [AGroup 5 1 [sym_ppDirective]; SGroup 4849 1 [sym_kDot]; AGroup 3 2 syms_5;
     AGroup 16970 7 syms_34; AGroup 16968 24 syms_125]);
   (387369, 4, [AGroup 5 1 [sym_ppDirective]; AGroup 3 2 syms_5; AGroup 17398 7 syms_34;
     AGroup 17396 25 syms_106]);
   (387413, 4, [AGroup 5 1 [sym_ppDirective]; AGroup 3 2 syms_5; AGroup 17362 4 syms_25;
     AGroup 17360 28 syms_114]);
   (387457, 4, [AGroup 5 1 [sym_ppDirective]; AGroup 3 2 syms_5; AGroup 11316 4 syms_25;
     AGroup 11311 28 syms_114]);
   (387501, 4, [AGroup 5 1 [sym_ppDirective]; AGroup 3 2 syms_5; AGroup 17372 4 syms_25;
     AGroup 17370 28 syms_114]);
   (387545, 4, [AGroup 5 1 [sym_ppDirective]; AGroup 3 2 syms_5; AGroup 17380 4 syms_25;
     AGroup 17378 28 syms_114]);
   (387589, 4, [AGroup 5 1 [sym_ppDirective]; AGroup 3 2 syms_5; AGroup 17386 4 syms_25;
     AGroup 17384 28 syms_114]);
   (387633, 4, [AGroup 5 1 [sym_ppDirective]; AGroup 3 2 syms_5; AGroup 17398 4 syms_25;
     AGroup 17396 28 syms_114]);
   (387677, 4, [AGroup 5 1 [sym_ppDirective]; AGroup 3 2 syms_5; AGroup 17408 4 syms_25;
     AGroup 17406 28 syms_114]);
   (387721, 4, [AGroup 5 1 [sym_ppDirective]; AGroup 3 2 syms_5; AGroup 17412 4 syms_25;
     AGroup 17410 28 syms_114]);
   (387765, 5, [AGroup 5 1 [sym_ppDirective]; AGroup 20643 1 [anon_sym_COLON]; AGroup 3 2 syms_5;
     AGroup 16976 7 syms_34; AGroup 16972 24 syms_125]);
   (387811, 4, [AGroup 5 1 [sym_ppDirective]; AGroup 3 2 syms_5; AGroup 17242 7 syms_34;
     AGroup 17240 25 syms_104]);
   (387855, 4, [AGroup 5 1 [sym_ppDirective]; AGroup 3 2 syms_5; AGroup 17550 4 syms_25;
     AGroup 17548 28 syms_114]);
   (387899, 4, [AGroup 5 1 [sym_ppDirective]; AGroup 3 2 syms_5; AGroup 17592 4 syms_25;
     AGroup 17590 28 syms_114]);
   (387943, 4, [AGroup 5 1 [sym_ppDirective]; AGroup 3 2 syms_5; AGroup 17082 4 syms_25;
     AGroup 17080 28 syms_114]);
   (387987, 4, [AGroup 5 1 [sym_ppDirective]; AGroup 3 2 syms_5; AGroup 17096 4 syms_25;
     AGroup 17094 28 syms_114]);
   (388031, 4, [AGroup 5 1 [sym_ppDirective]; AGroup 3 2 syms_5; AGroup 17108 4 syms_25;
     AGroup 17106 28 syms_114]);
   (388075, 4, [AGroup 5 1 [sym_ppDirective]; AGroup 3 2 syms_5; AGroup 17116 4 syms_25;
     AGroup 17114 28 syms_114]);
   (388119, 4, [AGroup 5 1 [sym_ppDirective]; AGroup 3 2 syms_5; AGroup 17120 4 syms_25;
     AGroup 17118 28 syms_114]);
   (388163, 4, [AGroup 5 1 [sym_ppDirective]; AGroup 3 2 syms_5; AGroup 17124 4 syms_25;
     AGroup 17122 28 syms_114]);
   (388207, 4, [AGroup 5 1 [sym_ppDirective]; AGroup 3 2 syms_5; AGroup 17256 7 syms_34;
     AGroup 17254 25 syms_104]);
   (388251, 11, [AGroup 5 1 [sym_ppDirective]; AGroup 20631 1 [sym_kHat]; AGroup 20639 1 [sym_kAs];
     SGroup 4762 1 [sym__exprIsNot]; AGroup 3 2 syms_5; AGroup 20633 2 syms_9;
     AGroup 20635 2 syms_258; AGroup 20641 2 syms_259; AGroup 17016 3 syms_94;
     AGroup 20637 5 syms_260; AGroup 17014 15 syms_404]);
   (388309, 4, [AGroup 5 1 [sym_ppDirective]; AGroup 3 2 syms_5; AGroup 17128 4 syms_25;
     AGroup 17126 28 syms_114]);
   (388353, 4, [AGroup 5 1 [sym_ppDirective]; AGroup 3 2 syms_5; AGroup 17154 4 syms_25;
     AGroup 17152 28 syms_114]);
   (388397, 5, [AGroup 5 1 [sym_ppDirective]; AGroup 20645 1 [anon_sym_COLON]; AGroup 3 2 syms_5;
     AGroup 16976 7 syms_34; AGroup 16972 24 syms_125]);
   (388443, 4, [AGroup 5 1 [sym_ppDirective]; AGroup 3 2 syms_5; AGroup 17158 4 syms_25;
     AGroup 17156 28 syms_114]);
   (388487, 4, [AGroup 5 1 [sym_ppDirective]; AGroup 3 2 syms_5; AGroup 17172 4 syms_25;
     AGroup 17170 28 syms_114]);
   (388531, 4, [AGroup 5 1 [sym_ppDirective]; AGroup 3 2 syms_5; AGroup 17408 7 syms_34;
     AGroup 17406 25 syms_106]);
   (388575, 4, [AGroup 5 1 [sym_ppDirective]; AGroup 3 2 syms_5; AGroup 17242 4 syms_25;
     AGroup 17240 28 syms_114]);
   (388619, 4, [AGroup 5 1 [sym_ppDirective]; AGroup 3 2 syms_5; AGroup 17412 7 syms_34;
     AGroup 17410 25 syms_106]);
   (388663, 4, [AGroup 5 1 [sym_ppDirective]; AGroup 3 2 syms_5; AGroup 18831 7 syms_34;
     AGroup 18829 25 syms_106]);
   (388707, 4, [AGroup 5 1 [sym_ppDirective]; AGroup 3 2 syms_5; AGroup 17256 4 syms_25;
     AGroup 17254 28 syms_114]);
   (388751, 4, [AGroup 5 1 [sym_ppDirective]; AGroup 3 2 syms_5; AGroup 17550 7 syms_34;
     AGroup 17548 25 syms_106]);
   (388795, 4, [AGroup 5 1 [sym_ppDirective]; AGroup 3 2 syms_5; AGroup 17328 4 syms_25;
     AGroup 17326 28 syms_114]);
   (388839, 15, [AGroup 19957 1 [sym_kHat]; AGroup 19965 1 [sym_kAs]; AGroup 19973 1 [sym_kIs];
     AGroup 19975 1 [sym_kNot]; AGroup 20647 1 [anon_sym_SEMI]; SGroup 5474 1 [sym__exprIsNot];
     AGroup 19959 2 syms_9; AGroup 19961 2 syms_258; AGroup 19967 2 syms_259;
     AGroup 19969 2 syms_83; AGroup 3 3 syms_1; AGroup 20009 3 syms_79; AGroup 19963 5 syms_260;
     AGroup 19971 5 syms_85; AGroup 20649 5 syms_313]);
   (388905, 4, [AGroup 5 1 [sym_ppDirective]; AGroup 3 2 syms_5; AGroup 16467 5 syms_148;
     AGroup 16465 27 syms_407]);
   (388949, 4, [AGroup 5 1 [sym_ppDirective]; AGroup 3 2 syms_5; AGroup 17172 7 syms_34;
     AGroup 17170 25 syms_106]);
   (388993, 15, [AGroup 5 1 [sym_ppDirective]; AGroup 16886 1 [anon_sym_LPAREN]; AGroup 20631 1 [sym_kHat];
     AGroup 20639 1 [sym_kAs]; AGroup 20655 1 [sym_kIs]; AGroup 20657 1 [sym_kNot];
     SGroup 4762 1 [sym__exprIsNot]; AGroup 3 2 syms_5; AGroup 20633 2 syms_9;
     AGroup 20635 2 syms_258; AGroup 20641 2 syms_259; AGroup 20651 2 syms_83;
     AGroup 20637 5 syms_260; AGroup 20653 5 syms_85; AGroup 16884 8 syms_408]);
   (389059, 15, [AGroup 19927 1 [sym_kHat]; AGroup 19935 1 [sym_kAs]; AGroup 19943 1 [sym_kIs];
     AGroup 19945 1 [sym_kNot]; AGroup 20659 1 [anon_sym_SEMI]; SGroup 5150 1 [sym__exprIsNot];
     AGroup 19929 2 syms_9; AGroup 19931 2 syms_258; AGroup 19937 2 syms_259;
     AGroup 19939 2 syms_83; AGroup 3 3 syms_1; AGroup 20009 3 syms_43; AGroup 19933 5 syms_260;
     AGroup 19941 5 syms_85; AGroup 20661 5 syms_313]);
   (389125, 4, [AGroup 5 1 [sym_ppDirective]; AGroup 3 2 syms_5; AGroup 17358 7 syms_34;
     AGroup 17356 25 syms_106]);
   (389169, 4, [AGroup 5 1 [sym_ppDirective]; AGroup 3 2 syms_5; AGroup 17362 7 syms_34;
     AGroup 17360 25 syms_106]);
   (389213, 4, [AGroup 5 1 [sym_ppDirective]; AGroup 3 2 syms_5; AGroup 17328 7 syms_34;
     AGroup 17326 25 syms_106]);
   (389257, 4, [AGroup 5 1 [sym_ppDirective]; AGroup 3 2 syms_5; AGroup 16467 4 syms_25;
     AGroup 16465 28 syms_409]);
   (389301, 4, [AGroup 5 1 [sym_ppDirective]; AGroup 3 2 syms_5; AGroup 11316 7 syms_34;
     AGroup 11311 25 syms_106]);
   (389345, 5, [AGroup 5 1 [sym_ppDirective]; AGroup 20663 1 [anon_sym_COLON]; AGroup 3 2 syms_5;
     AGroup 16976 7 syms_34; AGroup 16972 24 syms_125]);
   (389391, 15, [AGroup 19957 1 [sym_kHat]; AGroup 19965 1 [sym_kAs]; AGroup 19973 1 [sym_kIs];
     AGroup 19975 1 [sym_kNot]; AGroup 20665 1 [anon_sym_SEMI]; SGroup 5474 1 [sym__exprIsNot];
     AGroup 19959 2 syms_9; AGroup 19961 2 syms_258; AGroup 19967 2 syms_259;
     AGroup 19969 2 syms_83; AGroup 3 3 syms_1; AGroup 20009 3 syms_79; AGroup 19963 5 syms_260;
     AGroup 19971 5 syms_85; AGroup 20649 5 syms_313]);
   (389457, 4, [AGroup 5 1 [sym_ppDirective]; AGroup 3 2 syms_5; AGroup 16467 4 syms_25;
     AGroup 16465 28 syms_410]);
   (389501, 4, [AGroup 5 1 [sym_ppDirective]; AGroup 3 2 syms_5; AGroup 17372 7 syms_34;
     AGroup 17370 25 syms_106]);
   (389545, 15, [AGroup 19957 1 [sym_kHat]; AGroup 19965 1 [sym_kAs]; AGroup 19973 1 [sym_kIs];
     AGroup 19975 1 [sym_kNot]; AGroup 20647 1 [anon_sym_SEMI]; SGroup 5474 1 [sym__exprIsNot];
     AGroup 19959 2 syms_9; AGroup 19961 2 syms_258; AGroup 19967 2 syms_259;
     AGroup 19969 2 syms_83; AGroup 3 3 syms_1; AGroup 20009 3 syms_79; AGroup 19963 5 syms_260;
     AGroup 19971 5 syms_85; AGroup 20649 5 syms_313]);
   (389611, 4, [AGroup 5 1 [sym_ppDirective]; AGroup 3 2 syms_5; AGroup 16467 4 syms_25;
     AGroup 16465 28 syms_411]);
   (389655, 12, [AGroup 19832 1 [sym_kHat]; AGroup 20045 1 [sym_kFdiv]; AGroup 20047 1 [sym_kAs];
     AGroup 20053 1 [sym_kIs]; AGroup 20055 1 [sym_kNot]; SGroup 4793 1 [sym__exprIsNot];
     AGroup 20049 2 syms_83; AGroup 3 3 syms_1; AGroup 20041 4 syms_84; AGroup 20051 5 syms_85;
     AGroup 20043 6 syms_86; AGroup 20667 9 syms_20]);
   (389715, 15, [AGroup 19957 1 [sym_kHat]; AGroup 19965 1 [sym_kAs]; AGroup 19973 1 [sym_kIs];
     AGroup 19975 1 [sym_kNot]; AGroup 20665 1 [anon_sym_SEMI]; SGroup 5474 1 [sym__exprIsNot];
     AGroup 19959 2 syms_9; AGroup 19961 2 syms_258; AGroup 19967 2 syms_259;
     AGroup 19969 2 syms_83; AGroup 3 3 syms_1; AGroup 20009 3 syms_79; AGroup 19963 5 syms_260;
     AGroup 19971 5 syms_85; AGroup 20649 5 syms_313]);
   (389781, 13, [AGroup 19957 1 [sym_kHat]; AGroup 19965 1 [sym_kAs]; AGroup 19973 1 [sym_kIs];
     AGroup 19975 1 [sym_kNot]; SGroup 5474 1 [sym__exprIsNot]; AGroup 19959 2 syms_9;
     AGroup 19961 2 syms_258; AGroup 19967 2 syms_259; AGroup 19969 2 syms_83; AGroup 3 3 syms_1;
     AGroup 19963 5 syms_260; AGroup 19971 5 syms_85; AGroup 17938 9 syms_24]);
   (389843, 5, [AGroup 5 1 [sym_ppDirective]; SGroup 4677 1 [sym__exprIsNot]; AGroup 3 2 syms_5;
     AGroup 17032 7 syms_34; AGroup 17030 24 syms_128]);
   (389889, 5, [AGroup 5 1 [sym_ppDirective]; AGroup 20669 1 [sym_identifier]; AGroup 3 2 syms_5;
     AGroup 17342 7 syms_34; AGroup 17340 24 syms_128]);
   (389935, 5, [AGroup 5 1 [sym_ppDirective]; AGroup 20671 1 [sym_identifier]; AGroup 3 2 syms_5;
     AGroup 17348 7 syms_34; AGroup 17346 24 syms_128]);
   (389981, 9, [AGroup 5 1 [sym_ppDirective]; AGroup 17042 1 [anon_sym_DOT];
     AGroup 20673 1 [anon_sym_LBRACK]; AGroup 20675 1 [anon_sym_LPAREN];
     AGroup 20677 1 [sym_kLt]; SGroup 4681 1 [sym_kDot]; AGroup 3 2 syms_5;
     AGroup 17046 5 syms_267; AGroup 17036 22 syms_412]);
   (390035, 11, [AGroup 5 1 [sym_ppDirective]; AGroup 20679 1 [anon_sym_LBRACK];
     AGroup 20682 1 [aux_sym_ppUsesBlock_token1]; AGroup 20685 1 [sym_identifier];
     SGroup 32 1 [sym__ppIf]; SGroup 12776 1 [aux_sym_rttiAttributes_repeat2];
     SGroup 13706 1 [sym_rttiAttributes]; SGroup 13987 1 [aux_sym_genericArg_repeat1];
     AGroup 3 2 syms_5; SGroup 7758 3 syms_413; AGroup 20688 22 syms_414])
  ].

(** States 7759 to 7858. *)
Definition small_runs_7759 : list small_run :=
  [
   (390093, 6, [AGroup 5 1 [sym_ppDirective]; AGroup 20690 1 [sym_kHat]; SGroup 4677 1 [sym__exprIsNot];
     AGroup 3 2 syms_5; AGroup 16914 7 syms_34; AGroup 16912 23 syms_415]);
   (390141, 6, [AGroup 5 1 [sym_ppDirective]; AGroup 20690 1 [sym_kHat]; SGroup 4677 1 [sym__exprIsNot];
     AGroup 3 2 syms_5; AGroup 16904 7 syms_34; AGroup 16902 23 syms_415]);
   (390189, 11, [AGroup 5 1 [sym_ppDirective]; AGroup 20690 1 [sym_kHat]; AGroup 20698 1 [sym_kAs];
     SGroup 4677 1 [sym__exprIsNot]; AGroup 3 2 syms_5; AGroup 20692 2 syms_9;
     AGroup 20694 2 syms_258; AGroup 20700 2 syms_259; AGroup 16914 3 syms_94;
     AGroup 20696 5 syms_260; AGroup 16912 15 syms_416]);
   (390247, 9, [AGroup 5 1 [sym_ppDirective]; AGroup 20690 1 [sym_kHat]; AGroup 20698 1 [sym_kAs];
     SGroup 4677 1 [sym__exprIsNot]; AGroup 3 2 syms_5; AGroup 20694 2 syms_258;
     AGroup 16914 5 syms_262; AGroup 20696 5 syms_260; AGroup 16912 17 syms_417]);
   (390301, 5, [AGroup 5 1 [sym_ppDirective]; SGroup 4681 1 [sym_kDot]; AGroup 3 2 syms_5;
     AGroup 16970 7 syms_34; AGroup 16968 24 syms_128]);
   (390347, 12, [AGroup 19832 1 [sym_kHat]; AGroup 20045 1 [sym_kFdiv]; AGroup 20047 1 [sym_kAs];
     AGroup 20053 1 [sym_kIs]; AGroup 20055 1 [sym_kNot]; SGroup 4793 1 [sym__exprIsNot];
     AGroup 20049 2 syms_83; AGroup 3 3 syms_1; AGroup 20041 4 syms_84; AGroup 20051 5 syms_85;
     AGroup 20043 6 syms_86; AGroup 20702 9 syms_20]);
   (390407, 9, [AGroup 5 1 [sym_ppDirective]; AGroup 17042 1 [anon_sym_DOT];
     AGroup 20704 1 [anon_sym_LBRACK]; AGroup 20706 1 [anon_sym_LPAREN];
     AGroup 20708 1 [sym_kLt]; SGroup 4849 1 [sym_kDot]; AGroup 3 2 syms_5;
     AGroup 17046 5 syms_267; AGroup 17036 22 syms_418]);
   (390461, 11, [AGroup 5 1 [sym_ppDirective]; AGroup 20690 1 [sym_kHat]; AGroup 20698 1 [sym_kAs];
     SGroup 4677 1 [sym__exprIsNot]; AGroup 3 2 syms_5; AGroup 20692 2 syms_9;
     AGroup 20694 2 syms_258; AGroup 20700 2 syms_259; AGroup 17016 3 syms_94;
     AGroup 20696 5 syms_260; AGroup 17014 15 syms_416]);
   (390519, 15, [AGroup 5 1 [sym_ppDirective]; AGroup 16886 1 [anon_sym_LPAREN]; AGroup 20690 1 [sym_kHat];
     AGroup 20698 1 [sym_kAs]; AGroup 20714 1 [sym_kIs]; AGroup 20716 1 [sym_kNot];
     SGroup 4677 1 [sym__exprIsNot]; AGroup 3 2 syms_5; AGroup 20692 2 syms_9;
     AGroup 20694 2 syms_258; AGroup 20700 2 syms_259; AGroup 20710 2 syms_83;
     AGroup 20696 5 syms_260; AGroup 20712 5 syms_85; AGroup 16884 8 syms_419]);
   (390585, 15, [AGroup 19927 1 [sym_kHat]; AGroup 19935 1 [sym_kAs]; AGroup 19943 1 [sym_kIs];
     AGroup 19945 1 [sym_kNot]; AGroup 20659 1 [anon_sym_SEMI]; SGroup 5150 1 [sym__exprIsNot];
     AGroup 19929 2 syms_9; AGroup 19931 2 syms_258; AGroup 19937 2 syms_259;
     AGroup 19939 2 syms_83; AGroup 3 3 syms_1; AGroup 20009 3 syms_43; AGroup 19933 5 syms_260;
     AGroup 19941 5 syms_85; AGroup 20661 5 syms_313]);
   (390651, 7, [AGroup 5 1 [sym_ppDirective]; AGroup 15993 1 [anon_sym_POUND]; AGroup 3 2 syms_5;
     AGroup 20718 2 syms_6; SGroup 7773 3 syms_13; AGroup 15235 4 syms_25;
     AGroup 15233 22 syms_216]);
   (390701, 4, [AGroup 5 1 [sym_ppDirective]; AGroup 3 2 syms_5; AGroup 17592 7 syms_34;
     AGroup 17590 25 syms_106]);
   (390745, 13, [AGroup 19927 1 [sym_kHat]; AGroup 19935 1 [sym_kAs]; AGroup 19943 1 [sym_kIs];
     AGroup 19945 1 [sym_kNot]; SGroup 5150 1 [sym__exprIsNot]; AGroup 19929 2 syms_9;
     AGroup 19931 2 syms_258; AGroup 19937 2 syms_259; AGroup 19939 2 syms_83; AGroup 3 3 syms_1;
     AGroup 19933 5 syms_260; AGroup 19941 5 syms_85; AGroup 17936 9 syms_23]);
   (390807, 4, [AGroup 5 1 [sym_ppDirective]; AGroup 3 2 syms_5; AGroup 17082 7 syms_34;
     AGroup 17080 25 syms_106]);
   (390851, 7, [AGroup 5 1 [sym_ppDirective]; AGroup 20723 1 [anon_sym_POUND]; AGroup 3 2 syms_5;
     AGroup 20720 2 syms_6; SGroup 7773 3 syms_13; AGroup 15241 4 syms_25;
     AGroup 15239 22 syms_216]);
   (390901, 13, [AGroup 19927 1 [sym_kHat]; AGroup 19935 1 [sym_kAs]; AGroup 19943 1 [sym_kIs];
     AGroup 19945 1 [sym_kNot]; SGroup 5150 1 [sym__exprIsNot]; AGroup 19929 2 syms_9;
     AGroup 19931 2 syms_258; AGroup 19937 2 syms_259; AGroup 19939 2 syms_83; AGroup 3 3 syms_1;
     AGroup 19933 5 syms_260; AGroup 19941 5 syms_85; AGroup 17938 9 syms_23]);
   (390963, 4, [AGroup 5 1 [sym_ppDirective]; AGroup 3 2 syms_5; AGroup 17096 7 syms_34;
     AGroup 17094 25 syms_106]);
   (391007, 7, [AGroup 5 1 [sym_ppDirective]; AGroup 16974 1 [anon_sym_COMMA];
     AGroup 16978 1 [anon_sym_DOT]; AGroup 3 2 syms_5; AGroup 16981 2 syms_83;
     AGroup 16976 5 syms_265; AGroup 16972 23 syms_420]);
   (391057, 4, [AGroup 5 1 [sym_ppDirective]; AGroup 3 2 syms_5; AGroup 17242 7 syms_34;
     AGroup 17240 25 syms_106]);
   (391101, 4, [AGroup 5 1 [sym_ppDirective]; AGroup 3 2 syms_5; AGroup 17108 4 syms_25;
     AGroup 17106 28 syms_103]);
   (391145, 4, [AGroup 5 1 [sym_ppDirective]; AGroup 3 2 syms_5; AGroup 17128 7 syms_34;
     AGroup 17126 24 syms_128]);
   (391188, 4, [AGroup 5 1 [sym_ppDirective]; AGroup 3 2 syms_5; AGroup 17082 7 syms_34;
     AGroup 17080 24 syms_125]);
   (391231, 14, [AGroup 5 1 [sym_ppDirective]; AGroup 16886 1 [anon_sym_LPAREN]; AGroup 20734 1 [sym_kFdiv];
     AGroup 20736 1 [sym_kHat]; AGroup 20738 1 [sym_kAs]; AGroup 20740 1 [sym_kIs];
     AGroup 20742 1 [sym_kNot]; SGroup 5044 1 [sym__exprIsNot]; AGroup 3 2 syms_5;
     AGroup 20726 2 syms_83; AGroup 20730 4 syms_84; AGroup 20728 5 syms_85;
     AGroup 20732 6 syms_86; AGroup 16884 7 syms_421]);
   (391294, 7, [AGroup 5 1 [sym_ppDirective]; AGroup 16974 1 [anon_sym_COMMA];
     AGroup 16978 1 [anon_sym_DOT]; AGroup 3 2 syms_5; AGroup 16976 2 syms_97;
     AGroup 16981 2 syms_83; AGroup 16972 25 syms_422]);
   (391343, 15, [AGroup 20287 1 [sym_kHat]; AGroup 20295 1 [sym_kAs]; AGroup 20303 1 [sym_kIs];
     AGroup 20305 1 [sym_kNot]; AGroup 20744 1 [anon_sym_SEMI]; SGroup 4710 1 [sym__exprIsNot];
     AGroup 20009 2 syms_112; AGroup 20289 2 syms_9; AGroup 20291 2 syms_258;
     AGroup 20297 2 syms_259; AGroup 20299 2 syms_83; AGroup 3 3 syms_1; AGroup 20293 5 syms_260;
     AGroup 20301 5 syms_85; AGroup 20746 5 syms_313]);
   (391408, 15, [AGroup 20287 1 [sym_kHat]; AGroup 20295 1 [sym_kAs]; AGroup 20303 1 [sym_kIs];
     AGroup 20305 1 [sym_kNot]; AGroup 20748 1 [anon_sym_SEMI]; SGroup 4710 1 [sym__exprIsNot];
     AGroup 20009 2 syms_112; AGroup 20289 2 syms_9; AGroup 20291 2 syms_258;
     AGroup 20297 2 syms_259; AGroup 20299 2 syms_83; AGroup 3 3 syms_1; AGroup 20293 5 syms_260;
     AGroup 20301 5 syms_85; AGroup 20746 5 syms_313]);
   (391473, 15, [AGroup 20089 1 [sym_kHat]; AGroup 20093 1 [sym_kAs]; AGroup 20101 1 [sym_kIs];
     AGroup 20103 1 [sym_kNot]; AGroup 20750 1 [anon_sym_SEMI]; SGroup 5404 1 [sym__exprIsNot];
     AGroup 20009 2 syms_109; AGroup 20085 2 syms_9; AGroup 20087 2 syms_258;
     AGroup 20095 2 syms_259; AGroup 20097 2 syms_83; AGroup 3 3 syms_1; AGroup 20091 5 syms_260;
     AGroup 20099 5 syms_85; AGroup 20752 5 syms_313]);
   (391538, 9, [AGroup 5 1 [sym_ppDirective]; AGroup 17042 1 [anon_sym_DOT];
     AGroup 20754 1 [anon_sym_LBRACK]; AGroup 20756 1 [anon_sym_LPAREN];
     AGroup 20758 1 [sym_kLt]; SGroup 4459 1 [sym_kDot]; AGroup 3 2 syms_5;
     AGroup 17046 2 syms_101; AGroup 17036 24 syms_423]);
   (391591, 4, [AGroup 5 1 [sym_ppDirective]; AGroup 3 2 syms_5; AGroup 18831 7 syms_34;
     AGroup 18829 24 syms_125]);
   (391634, 4, [AGroup 5 1 [sym_ppDirective]; AGroup 3 2 syms_5; AGroup 17096 7 syms_34;
     AGroup 17094 24 syms_125]);
   (391677, 5, [AGroup 5 1 [sym_ppDirective]; SGroup 4373 1 [sym__exprIsNot]; AGroup 3 2 syms_5;
     AGroup 17032 4 syms_25; AGroup 17030 26 syms_138]);
   (391722, 4, [AGroup 5 1 [sym_ppDirective]; AGroup 3 2 syms_5; AGroup 17358 7 syms_34;
     AGroup 17356 24 syms_125]);
   (391765, 4, [AGroup 5 1 [sym_ppDirective]; AGroup 3 2 syms_5; AGroup 17362 7 syms_34;
     AGroup 17360 24 syms_125]);
   (391808, 4, [AGroup 5 1 [sym_ppDirective]; AGroup 3 2 syms_5; AGroup 17256 4 syms_25;
     AGroup 17254 27 syms_123]);
   (391851, 14, [AGroup 20139 1 [sym_kHat]; AGroup 20145 1 [sym_kFdiv]; AGroup 20147 1 [sym_kAs];
     AGroup 20153 1 [sym_kIs]; AGroup 20155 1 [sym_kNot]; AGroup 20760 1 [anon_sym_SEMI];
     AGroup 20762 1 [sym_kRaiseAt]; SGroup 4309 1 [sym__exprIsNot]; AGroup 20149 2 syms_83;
     AGroup 3 3 syms_1; AGroup 20141 4 syms_84; AGroup 20151 5 syms_85; AGroup 20143 6 syms_86;
     AGroup 20764 6 syms_45]);
   (391914, 4, [AGroup 5 1 [sym_ppDirective]; AGroup 3 2 syms_5; AGroup 16467 4 syms_25;
     AGroup 16465 27 syms_424]);
   (391957, 6, [AGroup 5 1 [sym_ppDirective]; AGroup 20736 1 [sym_kHat]; SGroup 5044 1 [sym__exprIsNot];
     AGroup 3 2 syms_5; AGroup 16914 4 syms_25; AGroup 16912 25 syms_425]);
   (392004, 6, [AGroup 5 1 [sym_ppDirective]; AGroup 20736 1 [sym_kHat]; SGroup 5044 1 [sym__exprIsNot];
     AGroup 3 2 syms_5; AGroup 16904 4 syms_25; AGroup 16902 25 syms_425]);
   (392051, 4, [AGroup 5 1 [sym_ppDirective]; AGroup 3 2 syms_5; AGroup 17108 7 syms_34;
     AGroup 17106 24 syms_125]);
   (392094, 10, [AGroup 5 1 [sym_ppDirective]; AGroup 20734 1 [sym_kFdiv]; AGroup 20736 1 [sym_kHat];
     AGroup 20738 1 [sym_kAs]; SGroup 5044 1 [sym__exprIsNot]; AGroup 3 2 syms_5;
     AGroup 16914 3 syms_94; AGroup 20730 4 syms_84; AGroup 20732 6 syms_86;
     AGroup 16912 14 syms_426]);
   (392149, 4, [AGroup 5 1 [sym_ppDirective]; AGroup 3 2 syms_5; AGroup 17116 7 syms_34;
     AGroup 17114 24 syms_125]);
   (392192, 4, [AGroup 5 1 [sym_ppDirective]; AGroup 3 2 syms_5; AGroup 17120 7 syms_34;
     AGroup 17118 24 syms_125]);
   (392235, 4, [AGroup 5 1 [sym_ppDirective]; AGroup 3 2 syms_5; AGroup 17550 4 syms_25;
     AGroup 17548 27 syms_123]);
   (392278, 4, [AGroup 5 1 [sym_ppDirective]; AGroup 3 2 syms_5; AGroup 17124 7 syms_34;
     AGroup 17122 24 syms_125]);
   (392321, 9, [AGroup 5 1 [sym_ppDirective]; AGroup 20734 1 [sym_kFdiv]; AGroup 20736 1 [sym_kHat];
     AGroup 20738 1 [sym_kAs]; SGroup 5044 1 [sym__exprIsNot]; AGroup 3 2 syms_5;
     AGroup 16914 3 syms_94; AGroup 20732 6 syms_86; AGroup 16912 18 syms_427]);
   (392374, 4, [AGroup 5 1 [sym_ppDirective]; AGroup 3 2 syms_5; AGroup 17372 7 syms_34;
     AGroup 17370 24 syms_125]);
   (392417, 9, [AGroup 5 1 [sym_ppDirective]; AGroup 17042 1 [anon_sym_DOT];
     AGroup 20754 1 [anon_sym_LBRACK]; AGroup 20756 1 [anon_sym_LPAREN];
     AGroup 20766 1 [sym_kLt]; SGroup 4459 1 [sym_kDot]; AGroup 3 2 syms_5;
     AGroup 17046 2 syms_101; AGroup 17036 24 syms_423]);
   (392470, 4, [AGroup 5 1 [sym_ppDirective]; AGroup 3 2 syms_5; AGroup 17592 4 syms_25;
     AGroup 17590 27 syms_123]);
   (392513, 4, [AGroup 5 1 [sym_ppDirective]; AGroup 3 2 syms_5; AGroup 17082 4 syms_25;
     AGroup 17080 27 syms_123]);
   (392556, 4, [AGroup 5 1 [sym_ppDirective]; AGroup 3 2 syms_5; AGroup 17096 4 syms_25;
     AGroup 17094 27 syms_123]);
   (392599, 5, [AGroup 5 1 [sym_ppDirective]; SGroup 4526 1 [sym__exprIsNot]; AGroup 3 2 syms_5;
     AGroup 17032 4 syms_25; AGroup 17030 26 syms_134]);
   (392644, 4, [AGroup 5 1 [sym_ppDirective]; AGroup 3 2 syms_5; AGroup 17108 4 syms_25;
     AGroup 17106 27 syms_123]);
   (392687, 7, [AGroup 5 1 [sym_ppDirective]; AGroup 16974 1 [anon_sym_COMMA];
     AGroup 16978 1 [anon_sym_DOT]; AGroup 3 2 syms_5; AGroup 16976 2 syms_97;
     AGroup 16981 2 syms_83; AGroup 16972 25 syms_428]);
   (392736, 10, [AGroup 20768 1 [anon_sym_COLON]; AGroup 20770 1 [anon_sym_COMMA];
     AGroup 20772 1 [anon_sym_DOT]; AGroup 20778 1 [sym_identifier]; SGroup 12033 1 [sym_kDot];
     AGroup 3 3 syms_1; AGroup 20774 3 syms_429; SGroup 11251 3 syms_2; SGroup 11540 3 syms_430;
     AGroup 20776 17 syms_431]);
   (392791, 5, [AGroup 5 1 [sym_ppDirective]; AGroup 20780 1 [sym_identifier]; AGroup 3 2 syms_5;
     AGroup 17348 4 syms_25; AGroup 17346 26 syms_136]);
   (392836, 4, [AGroup 5 1 [sym_ppDirective]; AGroup 3 2 syms_5; AGroup 17116 4 syms_25;
     AGroup 17114 27 syms_123]);
   (392879, 15, [AGroup 20287 1 [sym_kHat]; AGroup 20295 1 [sym_kAs]; AGroup 20303 1 [sym_kIs];
     AGroup 20305 1 [sym_kNot]; AGroup 20744 1 [anon_sym_SEMI]; SGroup 4710 1 [sym__exprIsNot];
     AGroup 20009 2 syms_112; AGroup 20289 2 syms_9; AGroup 20291 2 syms_258;
     AGroup 20297 2 syms_259; AGroup 20299 2 syms_83; AGroup 3 3 syms_1; AGroup 20293 5 syms_260;
     AGroup 20301 5 syms_85; AGroup 20746 5 syms_313]);
   (392944, 4, [AGroup 5 1 [sym_ppDirective]; AGroup 3 2 syms_5; AGroup 17128 7 syms_34;
     AGroup 17126 24 syms_125]);
   (392987, 4, [AGroup 5 1 [sym_ppDirective]; AGroup 3 2 syms_5; AGroup 17154 7 syms_34;
     AGroup 17152 24 syms_125]);
   (393030, 5, [AGroup 5 1 [sym_ppDirective]; AGroup 20782 1 [sym_identifier]; AGroup 3 2 syms_5;
     AGroup 17342 4 syms_25; AGroup 17340 26 syms_134]);
   (393075, 4, [AGroup 5 1 [sym_ppDirective]; AGroup 3 2 syms_5; AGroup 17120 4 syms_25;
     AGroup 17118 27 syms_123]);
   (393118, 4, [AGroup 5 1 [sym_ppDirective]; AGroup 3 2 syms_5; AGroup 17158 7 syms_34;
     AGroup 17156 24 syms_125]);
   (393161, 5, [AGroup 5 1 [sym_ppDirective]; AGroup 20784 1 [sym_identifier]; AGroup 3 2 syms_5;
     AGroup 17348 4 syms_25; AGroup 17346 26 syms_134]);
   (393206, 9, [AGroup 5 1 [sym_ppDirective]; AGroup 17042 1 [anon_sym_DOT];
     AGroup 20786 1 [anon_sym_LBRACK]; AGroup 20788 1 [anon_sym_LPAREN];
     AGroup 20790 1 [sym_kLt]; SGroup 4585 1 [sym_kDot]; AGroup 3 2 syms_5;
     AGroup 17046 2 syms_101; AGroup 17036 24 syms_432]);
   (393259, 4, [AGroup 5 1 [sym_ppDirective]; AGroup 3 2 syms_5; AGroup 17124 4 syms_25;
     AGroup 17122 27 syms_123]);
   (393302, 4, [AGroup 5 1 [sym_ppDirective]; AGroup 3 2 syms_5; AGroup 17128 4 syms_25;
     AGroup 17126 27 syms_123]);
   (393345, 4, [AGroup 5 1 [sym_ppDirective]; AGroup 3 2 syms_5; AGroup 17154 4 syms_25;
     AGroup 17152 27 syms_123]);
   (393388, 4, [AGroup 5 1 [sym_ppDirective]; AGroup 3 2 syms_5; AGroup 17158 4 syms_25;
     AGroup 17156 27 syms_123]);
   (393431, 4, [AGroup 5 1 [sym_ppDirective]; AGroup 3 2 syms_5; AGroup 17172 7 syms_34;
     AGroup 17170 24 syms_125]);
   (393474, 4, [AGroup 5 1 [sym_ppDirective]; AGroup 3 2 syms_5; AGroup 17328 4 syms_25;
     AGroup 17326 27 syms_123]);
   (393517, 4, [AGroup 5 1 [sym_ppDirective]; AGroup 3 2 syms_5; AGroup 17172 4 syms_25;
     AGroup 17170 27 syms_123]);
   (393560, 5, [AGroup 5 1 [sym_ppDirective]; SGroup 5070 1 [sym_kDot]; AGroup 3 2 syms_5;
     AGroup 16970 4 syms_25; AGroup 16968 26 syms_136]);
   (393605, 4, [AGroup 5 1 [sym_ppDirective]; AGroup 3 2 syms_5; AGroup 17380 7 syms_34;
     AGroup 17378 24 syms_125]);
   (393648, 4, [AGroup 5 1 [sym_ppDirective]; AGroup 3 2 syms_5; AGroup 16467 4 syms_25;
     AGroup 16465 27 syms_433]);
   (393691, 15, [AGroup 20089 1 [sym_kHat]; AGroup 20093 1 [sym_kAs]; AGroup 20101 1 [sym_kIs];
     AGroup 20103 1 [sym_kNot]; AGroup 20792 1 [anon_sym_SEMI]; SGroup 5404 1 [sym__exprIsNot];
     AGroup 20009 2 syms_109; AGroup 20085 2 syms_9; AGroup 20087 2 syms_258;
     AGroup 20095 2 syms_259; AGroup 20097 2 syms_83; AGroup 3 3 syms_1; AGroup 20091 5 syms_260;
     AGroup 20099 5 syms_85; AGroup 20752 5 syms_313]);
   (393756, 4, [AGroup 5 1 [sym_ppDirective]; AGroup 3 2 syms_5; AGroup 18831 4 syms_25;
     AGroup 18829 27 syms_123]);
   (393799, 4, [AGroup 5 1 [sym_ppDirective]; AGroup 3 2 syms_5; AGroup 17358 4 syms_25;
     AGroup 17356 27 syms_123]);
   (393842, 13, [AGroup 20211 1 [sym_kHat]; AGroup 20219 1 [sym_kAs]; AGroup 20227 1 [sym_kIs];
     AGroup 20229 1 [sym_kNot]; SGroup 5297 1 [sym__exprIsNot]; AGroup 20213 2 syms_9;
     AGroup 20215 2 syms_258; AGroup 20221 2 syms_259; AGroup 20223 2 syms_83; AGroup 3 3 syms_1;
     AGroup 20217 5 syms_260; AGroup 20225 5 syms_85; AGroup 17936 8 syms_28]);
   (393903, 13, [AGroup 20211 1 [sym_kHat]; AGroup 20219 1 [sym_kAs]; AGroup 20227 1 [sym_kIs];
     AGroup 20229 1 [sym_kNot]; SGroup 5297 1 [sym__exprIsNot]; AGroup 20213 2 syms_9;
     AGroup 20215 2 syms_258; AGroup 20221 2 syms_259; AGroup 20223 2 syms_83; AGroup 3 3 syms_1;
     AGroup 20217 5 syms_260; AGroup 20225 5 syms_85; AGroup 17938 8 syms_28]);
   (393964, 4, [AGroup 5 1 [sym_ppDirective]; AGroup 3 2 syms_5; AGroup 17386 7 syms_34;
     AGroup 17384 24 syms_125]);
   (394007, 4, [AGroup 5 1 [sym_ppDirective]; AGroup 3 2 syms_5; AGroup 17362 4 syms_25;
     AGroup 17360 27 syms_123]);
   (394050, 4, [AGroup 5 1 [sym_ppDirective]; AGroup 3 2 syms_5; AGroup 11316 7 syms_34;
     AGroup 11311 24 syms_125]);
   (394093, 4, [AGroup 5 1 [sym_ppDirective]; AGroup 3 2 syms_5; AGroup 17398 7 syms_34;
     AGroup 17396 24 syms_125]);
   (394136, 4, [AGroup 5 1 [sym_ppDirective]; AGroup 3 2 syms_5; AGroup 16467 4 syms_25;
     AGroup 16465 27 syms_434]);
   (394179, 6, [AGroup 5 1 [sym_ppDirective]; AGroup 20794 1 [sym_kHat]; SGroup 4526 1 [sym__exprIsNot];
     AGroup 3 2 syms_5; AGroup 16914 4 syms_25; AGroup 16912 25 syms_435]);
   (394226, 4, [AGroup 5 1 [sym_ppDirective]; AGroup 3 2 syms_5; AGroup 17242 7 syms_34;
     AGroup 17240 24 syms_125]);
   (394269, 6, [AGroup 5 1 [sym_ppDirective]; AGroup 20794 1 [sym_kHat]; SGroup 4526 1 [sym__exprIsNot];
     AGroup 3 2 syms_5; AGroup 16904 4 syms_25; AGroup 16902 25 syms_435]);
   (394316, 14, [AGroup 20139 1 [sym_kHat]; AGroup 20145 1 [sym_kFdiv]; AGroup 20147 1 [sym_kAs];
     AGroup 20153 1 [sym_kIs]; AGroup 20155 1 [sym_kNot]; AGroup 20796 1 [anon_sym_SEMI];
     AGroup 20798 1 [sym_kRaiseAt]; SGroup 4309 1 [sym__exprIsNot]; AGroup 20149 2 syms_83;
     AGroup 3 3 syms_1; AGroup 20141 4 syms_84; AGroup 20151 5 syms_85; AGroup 20143 6 syms_86;
     AGroup 20764 6 syms_45]);
   (394379, 4, [AGroup 5 1 [sym_ppDirective]; AGroup 3 2 syms_5; AGroup 16467 4 syms_25;
     AGroup 16465 27 syms_436]);
   (394422, 10, [AGroup 5 1 [sym_ppDirective]; AGroup 20794 1 [sym_kHat]; AGroup 20804 1 [sym_kFdiv];
     AGroup 20806 1 [sym_kAs]; SGroup 4526 1 [sym__exprIsNot]; AGroup 3 2 syms_5;
     AGroup 16914 3 syms_94; AGroup 20800 4 syms_84; AGroup 20802 6 syms_86;
     AGroup 16912 14 syms_437]);
   (394477, 4, [AGroup 5 1 [sym_ppDirective]; AGroup 3 2 syms_5; AGroup 17256 7 syms_34;
     AGroup 17254 24 syms_125]);
   (394520, 15, [AGroup 20089 1 [sym_kHat]; AGroup 20093 1 [sym_kAs]; AGroup 20101 1 [sym_kIs];
     AGroup 20103 1 [sym_kNot]; AGroup 20792 1 [anon_sym_SEMI]; SGroup 5404 1 [sym__exprIsNot];
     AGroup 20009 2 syms_109; AGroup 20085 2 syms_9; AGroup 20087 2 syms_258;
     AGroup 20095 2 syms_259; AGroup 20097 2 syms_83; AGroup 3 3 syms_1; AGroup 20091 5 syms_260;
     AGroup 20099 5 syms_85; AGroup 20752 5 syms_313]);
   (394585, 9, [AGroup 5 1 [sym_ppDirective]; AGroup 20794 1 [sym_kHat]; AGroup 20804 1 [sym_kFdiv];
     AGroup 20806 1 [sym_kAs]; SGroup 4526 1 [sym__exprIsNot]; AGroup 3 2 syms_5;
     AGroup 16914 3 syms_94; AGroup 20802 6 syms_86; AGroup 16912 18 syms_438]);
   (394638, 4, [AGroup 5 1 [sym_ppDirective]; AGroup 3 2 syms_5; AGroup 16467 4 syms_25;
     AGroup 16465 27 syms_439]);
   (394681, 5, [AGroup 5 1 [sym_ppDirective]; SGroup 4585 1 [sym_kDot]; AGroup 3 2 syms_5;
     AGroup 16970 4 syms_25; AGroup 16968 26 syms_134]);
   (394726, 10, [AGroup 5 1 [sym_ppDirective]; AGroup 20794 1 [sym_kHat]; AGroup 20804 1 [sym_kFdiv];
     AGroup 20806 1 [sym_kAs]; SGroup 4526 1 [sym__exprIsNot]; AGroup 3 2 syms_5;
     AGroup 17016 3 syms_94; AGroup 20800 4 syms_84; AGroup 20802 6 syms_86;
     AGroup 17014 14 syms_437]);
   (394781, 4, [AGroup 5 1 [sym_ppDirective]; AGroup 3 2 syms_5; AGroup 16467 4 syms_25;
     AGroup 16465 27 syms_440]);
   (394824, 4, [AGroup 5 1 [sym_ppDirective]; AGroup 3 2 syms_5; AGroup 16467 4 syms_25;
     AGroup 16465 27 syms_441]);
   (394867, 4, [AGroup 5 1 [sym_ppDirective]; AGroup 3 2 syms_5; AGroup 17408 7 syms_34;
     AGroup 17406 24 syms_125]);
   (394910, 4, [AGroup 5 1 [sym_ppDirective]; AGroup 3 2 syms_5; AGroup 17412 7 syms_34;
     AGroup 17410 24 syms_125])
  ].

(** States 7859 to 7958. *)
Definition small_runs_7859 : list small_run :=
  [
   (394953, 4, [AGroup 5 1 [sym_ppDirective]; AGroup 3 2 syms_5; AGroup 16467 4 syms_25;
     AGroup 16465 27 syms_442]);
   (394996, 13, [AGroup 20287 1 [sym_kHat]; AGroup 20295 1 [sym_kAs]; AGroup 20303 1 [sym_kIs];
     AGroup 20305 1 [sym_kNot]; SGroup 4710 1 [sym__exprIsNot]; AGroup 20289 2 syms_9;
     AGroup 20291 2 syms_258; AGroup 20297 2 syms_259; AGroup 20299 2 syms_83; AGroup 3 3 syms_1;
     AGroup 20293 5 syms_260; AGroup 20301 5 syms_85; AGroup 17936 8 syms_42]);
   (395057, 13, [AGroup 20287 1 [sym_kHat]; AGroup 20295 1 [sym_kAs]; AGroup 20303 1 [sym_kIs];
     AGroup 20305 1 [sym_kNot]; SGroup 4710 1 [sym__exprIsNot]; AGroup 20289 2 syms_9;
     AGroup 20291 2 syms_258; AGroup 20297 2 syms_259; AGroup 20299 2 syms_83; AGroup 3 3 syms_1;
     AGroup 20293 5 syms_260; AGroup 20301 5 syms_85; AGroup 17938 8 syms_42]);
   (395118, 4, [AGroup 5 1 [sym_ppDirective]; AGroup 3 2 syms_5; AGroup 11316 4 syms_25;
     AGroup 11311 27 syms_123]);
   (395161, 5, [AGroup 5 1 [sym_ppDirective]; SGroup 4459 1 [sym_kDot]; AGroup 3 2 syms_5;
     AGroup 16970 4 syms_25; AGroup 16968 26 syms_138]);
   (395206, 15, [AGroup 20287 1 [sym_kHat]; AGroup 20295 1 [sym_kAs]; AGroup 20303 1 [sym_kIs];
     AGroup 20305 1 [sym_kNot]; AGroup 20808 1 [anon_sym_SEMI]; SGroup 4710 1 [sym__exprIsNot];
     AGroup 20009 2 syms_112; AGroup 20289 2 syms_9; AGroup 20291 2 syms_258;
     AGroup 20297 2 syms_259; AGroup 20299 2 syms_83; AGroup 3 3 syms_1; AGroup 20293 5 syms_260;
     AGroup 20301 5 syms_85; AGroup 20746 5 syms_313]);
   (395271, 4, [AGroup 5 1 [sym_ppDirective]; AGroup 3 2 syms_5; AGroup 17372 4 syms_25;
     AGroup 17370 27 syms_123]);
   (395314, 4, [AGroup 5 1 [sym_ppDirective]; AGroup 3 2 syms_5; AGroup 18831 7 syms_34;
     AGroup 18829 24 syms_128]);
   (395357, 4, [AGroup 5 1 [sym_ppDirective]; AGroup 3 2 syms_5; AGroup 17358 7 syms_34;
     AGroup 17356 24 syms_128]);
   (395400, 4, [AGroup 5 1 [sym_ppDirective]; AGroup 3 2 syms_5; AGroup 17362 7 syms_34;
     AGroup 17360 24 syms_128]);
   (395443, 4, [AGroup 5 1 [sym_ppDirective]; AGroup 3 2 syms_5; AGroup 11316 7 syms_34;
     AGroup 11311 24 syms_128]);
   (395486, 4, [AGroup 5 1 [sym_ppDirective]; AGroup 3 2 syms_5; AGroup 17372 7 syms_34;
     AGroup 17370 24 syms_128]);
   (395529, 4, [AGroup 5 1 [sym_ppDirective]; AGroup 3 2 syms_5; AGroup 17550 7 syms_34;
     AGroup 17548 24 syms_125]);
   (395572, 4, [AGroup 5 1 [sym_ppDirective]; AGroup 3 2 syms_5; AGroup 17380 7 syms_34;
     AGroup 17378 24 syms_128]);
   (395615, 4, [AGroup 5 1 [sym_ppDirective]; AGroup 3 2 syms_5; AGroup 17386 7 syms_34;
     AGroup 17384 24 syms_128]);
   (395658, 4, [AGroup 5 1 [sym_ppDirective]; AGroup 3 2 syms_5; AGroup 17398 7 syms_34;
     AGroup 17396 24 syms_128]);
   (395701, 5, [AGroup 5 1 [sym_ppDirective]; AGroup 20810 1 [sym_identifier]; AGroup 3 2 syms_5;
     AGroup 17342 4 syms_25; AGroup 17340 26 syms_138]);
   (395746, 4, [AGroup 5 1 [sym_ppDirective]; AGroup 3 2 syms_5; AGroup 17408 7 syms_34;
     AGroup 17406 24 syms_128]);
   (395789, 4, [AGroup 5 1 [sym_ppDirective]; AGroup 3 2 syms_5; AGroup 17412 7 syms_34;
     AGroup 17410 24 syms_128]);
   (395832, 4, [AGroup 5 1 [sym_ppDirective]; AGroup 3 2 syms_5; AGroup 17242 4 syms_25;
     AGroup 17240 27 syms_123]);
   (395875, 15, [AGroup 20211 1 [sym_kHat]; AGroup 20219 1 [sym_kAs]; AGroup 20227 1 [sym_kIs];
     AGroup 20229 1 [sym_kNot]; AGroup 20647 1 [anon_sym_SEMI]; SGroup 5297 1 [sym__exprIsNot];
     AGroup 20009 2 syms_110; AGroup 20213 2 syms_9; AGroup 20215 2 syms_258;
     AGroup 20221 2 syms_259; AGroup 20223 2 syms_83; AGroup 3 3 syms_1; AGroup 20217 5 syms_260;
     AGroup 20225 5 syms_85; AGroup 20812 5 syms_313]);
   (395940, 4, [AGroup 5 1 [sym_ppDirective]; AGroup 3 2 syms_5; AGroup 17380 4 syms_25;
     AGroup 17378 27 syms_123]);
   (395983, 5, [AGroup 5 1 [sym_ppDirective]; AGroup 20814 1 [sym_identifier]; AGroup 3 2 syms_5;
     AGroup 17348 4 syms_25; AGroup 17346 26 syms_138]);
   (396028, 4, [AGroup 5 1 [sym_ppDirective]; AGroup 3 2 syms_5; AGroup 17386 4 syms_25;
     AGroup 17384 27 syms_123]);
   (396071, 4, [AGroup 5 1 [sym_ppDirective]; AGroup 3 2 syms_5; AGroup 17550 7 syms_34;
     AGroup 17548 24 syms_128]);
   (396114, 10, [AGroup 20770 1 [anon_sym_COMMA]; AGroup 20772 1 [anon_sym_DOT];
     AGroup 20778 1 [sym_identifier]; AGroup 20816 1 [anon_sym_COLON]; SGroup 12033 1 [sym_kDot];
     AGroup 3 3 syms_1; AGroup 20774 3 syms_429; SGroup 11251 3 syms_2; SGroup 11540 3 syms_430;
     AGroup 20776 17 syms_431]);
   (396169, 4, [AGroup 5 1 [sym_ppDirective]; AGroup 3 2 syms_5; AGroup 17592 7 syms_34;
     AGroup 17590 24 syms_128]);
   (396212, 4, [AGroup 5 1 [sym_ppDirective]; AGroup 3 2 syms_5; AGroup 17082 7 syms_34;
     AGroup 17080 24 syms_128]);
   (396255, 4, [AGroup 5 1 [sym_ppDirective]; AGroup 3 2 syms_5; AGroup 17096 7 syms_34;
     AGroup 17094 24 syms_128]);
   (396298, 4, [AGroup 5 1 [sym_ppDirective]; AGroup 3 2 syms_5; AGroup 17328 7 syms_34;
     AGroup 17326 24 syms_125]);
   (396341, 15, [AGroup 20089 1 [sym_kHat]; AGroup 20093 1 [sym_kAs]; AGroup 20101 1 [sym_kIs];
     AGroup 20103 1 [sym_kNot]; AGroup 20750 1 [anon_sym_SEMI]; SGroup 5404 1 [sym__exprIsNot];
     AGroup 20009 2 syms_109; AGroup 20085 2 syms_9; AGroup 20087 2 syms_258;
     AGroup 20095 2 syms_259; AGroup 20097 2 syms_83; AGroup 3 3 syms_1; AGroup 20091 5 syms_260;
     AGroup 20099 5 syms_85; AGroup 20752 5 syms_313]);
   (396406, 4, [AGroup 5 1 [sym_ppDirective]; AGroup 3 2 syms_5; AGroup 17108 7 syms_34;
     AGroup 17106 24 syms_128]);
   (396449, 15, [AGroup 20287 1 [sym_kHat]; AGroup 20295 1 [sym_kAs]; AGroup 20303 1 [sym_kIs];
     AGroup 20305 1 [sym_kNot]; AGroup 20748 1 [anon_sym_SEMI]; SGroup 4710 1 [sym__exprIsNot];
     AGroup 20009 2 syms_112; AGroup 20289 2 syms_9; AGroup 20291 2 syms_258;
     AGroup 20297 2 syms_259; AGroup 20299 2 syms_83; AGroup 3 3 syms_1; AGroup 20293 5 syms_260;
     AGroup 20301 5 syms_85; AGroup 20746 5 syms_313]);
   (396514, 4, [AGroup 5 1 [sym_ppDirective]; AGroup 3 2 syms_5; AGroup 17116 7 syms_34;
     AGroup 17114 24 syms_128]);
   (396557, 4, [AGroup 5 1 [sym_ppDirective]; AGroup 3 2 syms_5; AGroup 17120 7 syms_34;
     AGroup 17118 24 syms_128]);
   (396600, 4, [AGroup 5 1 [sym_ppDirective]; AGroup 3 2 syms_5; AGroup 17124 7 syms_34;
     AGroup 17122 24 syms_128]);
   (396643, 9, [AGroup 5 1 [sym_ppDirective]; AGroup 17042 1 [anon_sym_DOT];
     AGroup 20818 1 [anon_sym_LBRACK]; AGroup 20820 1 [anon_sym_LPAREN];
     AGroup 20822 1 [sym_kLt]; SGroup 5070 1 [sym_kDot]; AGroup 3 2 syms_5;
     AGroup 17046 2 syms_101; AGroup 17036 24 syms_443]);
   (396696, 4, [AGroup 5 1 [sym_ppDirective]; AGroup 3 2 syms_5; AGroup 17154 7 syms_34;
     AGroup 17152 24 syms_128]);
   (396739, 4, [AGroup 5 1 [sym_ppDirective]; AGroup 3 2 syms_5; AGroup 17158 7 syms_34;
     AGroup 17156 24 syms_128]);
   (396782, 10, [AGroup 5 1 [sym_ppDirective]; AGroup 4623 1 [anon_sym_LBRACK];
     AGroup 4628 1 [aux_sym_ppUsesBlock_token1]; AGroup 20824 1 [sym_identifier];
     SGroup 32 1 [sym__ppIf]; SGroup 12776 1 [aux_sym_rttiAttributes_repeat2];
     SGroup 15571 1 [sym_rttiAttributes]; AGroup 3 2 syms_5; SGroup 7905 3 syms_444;
     AGroup 4621 22 syms_414]);
   (396837, 4, [AGroup 5 1 [sym_ppDirective]; AGroup 3 2 syms_5; AGroup 17172 7 syms_34;
     AGroup 17170 24 syms_128]);
   (396880, 4, [AGroup 5 1 [sym_ppDirective]; AGroup 3 2 syms_5; AGroup 17398 4 syms_25;
     AGroup 17396 27 syms_123]);
   (396923, 4, [AGroup 5 1 [sym_ppDirective]; AGroup 3 2 syms_5; AGroup 17328 7 syms_34;
     AGroup 17326 24 syms_128]);
   (396966, 4, [AGroup 5 1 [sym_ppDirective]; AGroup 3 2 syms_5; AGroup 17408 4 syms_25;
     AGroup 17406 27 syms_123]);
   (397009, 4, [AGroup 5 1 [sym_ppDirective]; AGroup 3 2 syms_5; AGroup 17412 4 syms_25;
     AGroup 17410 27 syms_123]);
   (397052, 10, [AGroup 5 1 [sym_ppDirective]; AGroup 5064 1 [anon_sym_LBRACK];
     AGroup 5069 1 [aux_sym_ppUsesBlock_token1]; AGroup 20824 1 [sym_identifier];
     SGroup 32 1 [sym__ppIf]; SGroup 12776 1 [aux_sym_rttiAttributes_repeat2];
     SGroup 15571 1 [sym_rttiAttributes]; AGroup 3 2 syms_5; SGroup 7913 3 syms_444;
     AGroup 5062 22 syms_414]);
   (397107, 10, [AGroup 5 1 [sym_ppDirective]; AGroup 5064 1 [anon_sym_LBRACK];
     AGroup 5069 1 [aux_sym_ppUsesBlock_token1]; AGroup 20824 1 [sym_identifier];
     SGroup 32 1 [sym__ppIf]; SGroup 12776 1 [aux_sym_rttiAttributes_repeat2];
     SGroup 15571 1 [sym_rttiAttributes]; AGroup 3 2 syms_5; SGroup 7914 3 syms_444;
     AGroup 5062 22 syms_414]);
   (397162, 4, [AGroup 5 1 [sym_ppDirective]; AGroup 3 2 syms_5; AGroup 17242 7 syms_34;
     AGroup 17240 24 syms_128]);
   (397205, 10, [AGroup 5 1 [sym_ppDirective]; AGroup 20734 1 [sym_kFdiv]; AGroup 20736 1 [sym_kHat];
     AGroup 20738 1 [sym_kAs]; SGroup 5044 1 [sym__exprIsNot]; AGroup 3 2 syms_5;
     AGroup 17016 3 syms_94; AGroup 20730 4 syms_84; AGroup 20732 6 syms_86;
     AGroup 17014 14 syms_426]);
   (397260, 5, [AGroup 5 1 [sym_ppDirective]; SGroup 5044 1 [sym__exprIsNot]; AGroup 3 2 syms_5;
     AGroup 17032 4 syms_25; AGroup 17030 26 syms_136]);
   (397305, 4, [AGroup 5 1 [sym_ppDirective]; AGroup 3 2 syms_5; AGroup 17256 7 syms_34;
     AGroup 17254 24 syms_128]);
   (397348, 6, [AGroup 5 1 [sym_ppDirective]; AGroup 20826 1 [sym_kHat]; SGroup 4373 1 [sym__exprIsNot];
     AGroup 3 2 syms_5; AGroup 16904 4 syms_25; AGroup 16902 25 syms_445]);
   (397395, 6, [AGroup 5 1 [sym_ppDirective]; AGroup 20826 1 [sym_kHat]; SGroup 4373 1 [sym__exprIsNot];
     AGroup 3 2 syms_5; AGroup 16914 4 syms_25; AGroup 16912 25 syms_445]);
   (397442, 10, [AGroup 5 1 [sym_ppDirective]; AGroup 20826 1 [sym_kHat]; AGroup 20832 1 [sym_kFdiv];
     AGroup 20834 1 [sym_kAs]; SGroup 4373 1 [sym__exprIsNot]; AGroup 3 2 syms_5;
     AGroup 16914 3 syms_94; AGroup 20828 4 syms_84; AGroup 20830 6 syms_86;
     AGroup 16912 14 syms_446]);
   (397497, 10, [AGroup 5 1 [sym_ppDirective]; AGroup 5783 1 [anon_sym_LBRACK];
     AGroup 5788 1 [aux_sym_ppUsesBlock_token1]; AGroup 20824 1 [sym_identifier];
     SGroup 32 1 [sym__ppIf]; SGroup 12776 1 [aux_sym_rttiAttributes_repeat2];
     SGroup 15571 1 [sym_rttiAttributes]; AGroup 3 2 syms_5; SGroup 7914 3 syms_444;
     AGroup 5781 22 syms_414]);
   (397552, 10, [AGroup 5 1 [sym_ppDirective]; AGroup 6198 1 [anon_sym_LBRACK];
     AGroup 6203 1 [aux_sym_ppUsesBlock_token1]; AGroup 20836 1 [sym_identifier];
     SGroup 32 1 [sym__ppIf]; SGroup 12776 1 [aux_sym_rttiAttributes_repeat2];
     SGroup 15571 1 [sym_rttiAttributes]; AGroup 3 2 syms_5; SGroup 7914 3 syms_444;
     AGroup 6196 22 syms_414]);
   (397607, 9, [AGroup 5 1 [sym_ppDirective]; AGroup 20826 1 [sym_kHat]; AGroup 20832 1 [sym_kFdiv];
     AGroup 20834 1 [sym_kAs]; SGroup 4373 1 [sym__exprIsNot]; AGroup 3 2 syms_5;
     AGroup 16914 3 syms_94; AGroup 20830 6 syms_86; AGroup 16912 18 syms_447]);
   (397660, 15, [AGroup 20287 1 [sym_kHat]; AGroup 20295 1 [sym_kAs]; AGroup 20303 1 [sym_kIs];
     AGroup 20305 1 [sym_kNot]; AGroup 20808 1 [anon_sym_SEMI]; SGroup 4710 1 [sym__exprIsNot];
     AGroup 20009 2 syms_112; AGroup 20289 2 syms_9; AGroup 20291 2 syms_258;
     AGroup 20297 2 syms_259; AGroup 20299 2 syms_83; AGroup 3 3 syms_1; AGroup 20293 5 syms_260;
     AGroup 20301 5 syms_85; AGroup 20746 5 syms_313]);
   (397725, 4, [AGroup 5 1 [sym_ppDirective]; AGroup 3 2 syms_5; AGroup 16467 4 syms_25;
     AGroup 16465 27 syms_448]);
   (397768, 10, [AGroup 5 1 [sym_ppDirective]; AGroup 20826 1 [sym_kHat]; AGroup 20832 1 [sym_kFdiv];
     AGroup 20834 1 [sym_kAs]; SGroup 4373 1 [sym__exprIsNot]; AGroup 3 2 syms_5;
     AGroup 17016 3 syms_94; AGroup 20828 4 syms_84; AGroup 20830 6 syms_86;
     AGroup 17014 14 syms_446]);
   (397823, 13, [AGroup 20089 1 [sym_kHat]; AGroup 20093 1 [sym_kAs]; AGroup 20101 1 [sym_kIs];
     AGroup 20103 1 [sym_kNot]; SGroup 5404 1 [sym__exprIsNot]; AGroup 20085 2 syms_9;
     AGroup 20087 2 syms_258; AGroup 20095 2 syms_259; AGroup 20097 2 syms_83; AGroup 3 3 syms_1;
     AGroup 20091 5 syms_260; AGroup 20099 5 syms_85; AGroup 17936 8 syms_39]);
   (397884, 4, [AGroup 5 1 [sym_ppDirective]; AGroup 3 2 syms_5; AGroup 17592 7 syms_34;
     AGroup 17590 24 syms_125]);
   (397927, 13, [AGroup 20089 1 [sym_kHat]; AGroup 20093 1 [sym_kAs]; AGroup 20101 1 [sym_kIs];
     AGroup 20103 1 [sym_kNot]; SGroup 5404 1 [sym__exprIsNot]; AGroup 20085 2 syms_9;
     AGroup 20087 2 syms_258; AGroup 20095 2 syms_259; AGroup 20097 2 syms_83; AGroup 3 3 syms_1;
     AGroup 20091 5 syms_260; AGroup 20099 5 syms_85; AGroup 17938 8 syms_39]);
   (397988, 5, [AGroup 5 1 [sym_ppDirective]; AGroup 20839 1 [sym_identifier]; AGroup 3 2 syms_5;
     AGroup 17342 4 syms_25; AGroup 17340 26 syms_136]);
   (398033, 14, [AGroup 5 1 [sym_ppDirective]; AGroup 16886 1 [anon_sym_LPAREN]; AGroup 20826 1 [sym_kHat];
     AGroup 20832 1 [sym_kFdiv]; AGroup 20834 1 [sym_kAs]; AGroup 20845 1 [sym_kIs];
     AGroup 20847 1 [sym_kNot]; SGroup 4373 1 [sym__exprIsNot]; AGroup 3 2 syms_5;
     AGroup 20841 2 syms_83; AGroup 20828 4 syms_84; AGroup 20843 5 syms_85;
     AGroup 20830 6 syms_86; AGroup 16884 7 syms_449]);
   (398096, 14, [AGroup 5 1 [sym_ppDirective]; AGroup 16886 1 [anon_sym_LPAREN]; AGroup 20794 1 [sym_kHat];
     AGroup 20804 1 [sym_kFdiv]; AGroup 20806 1 [sym_kAs]; AGroup 20853 1 [sym_kIs];
     AGroup 20855 1 [sym_kNot]; SGroup 4526 1 [sym__exprIsNot]; AGroup 3 2 syms_5;
     AGroup 20849 2 syms_83; AGroup 20800 4 syms_84; AGroup 20851 5 syms_85;
     AGroup 20802 6 syms_86; AGroup 16884 7 syms_450]);
   (398159, 15, [AGroup 20009 1 [sym_kElse]; AGroup 20335 1 [sym_kHat]; AGroup 20339 1 [sym_kAs];
     AGroup 20355 1 [sym_kIs]; AGroup 20357 1 [sym_kNot]; AGroup 20857 1 [anon_sym_SEMI];
     SGroup 4961 1 [sym__exprIsNot]; AGroup 20331 2 syms_9; AGroup 20333 2 syms_258;
     AGroup 20341 2 syms_259; AGroup 20351 2 syms_83; AGroup 3 3 syms_1; AGroup 20337 5 syms_260;
     AGroup 20353 5 syms_85; AGroup 20859 5 syms_313]);
   (398223, 4, [AGroup 5 1 [sym_ppDirective]; AGroup 3 2 syms_5; AGroup 17408 4 syms_25;
     AGroup 17406 26 syms_138]);
   (398265, 10, [AGroup 5 1 [sym_ppDirective]; AGroup 5783 1 [anon_sym_LBRACK];
     AGroup 5788 1 [aux_sym_ppUsesBlock_token1]; AGroup 20861 1 [sym_identifier];
     SGroup 40 1 [sym__ppIf]; SGroup 12776 1 [aux_sym_rttiAttributes_repeat2];
     SGroup 15642 1 [sym_rttiAttributes]; AGroup 3 2 syms_5; SGroup 7933 3 syms_444;
     AGroup 5781 21 syms_451]);
   (398319, 10, [AGroup 5 1 [sym_ppDirective]; AGroup 5064 1 [anon_sym_LBRACK];
     AGroup 5069 1 [aux_sym_ppUsesBlock_token1]; AGroup 20863 1 [sym_identifier];
     SGroup 36 1 [sym__ppIf]; SGroup 12776 1 [aux_sym_rttiAttributes_repeat2];
     SGroup 15607 1 [sym_rttiAttributes]; AGroup 3 2 syms_5; SGroup 7970 3 syms_444;
     AGroup 5062 21 syms_452]);
   (398373, 4, [AGroup 5 1 [sym_ppDirective]; AGroup 3 2 syms_5; AGroup 17380 4 syms_25;
     AGroup 17378 26 syms_138]);
   (398415, 10, [AGroup 5 1 [sym_ppDirective]; AGroup 5064 1 [anon_sym_LBRACK];
     AGroup 5069 1 [aux_sym_ppUsesBlock_token1]; AGroup 20863 1 [sym_identifier];
     SGroup 36 1 [sym__ppIf]; SGroup 12776 1 [aux_sym_rttiAttributes_repeat2];
     SGroup 15607 1 [sym_rttiAttributes]; AGroup 3 2 syms_5; SGroup 7971 3 syms_444;
     AGroup 5062 21 syms_452]);
   (398469, 4, [AGroup 5 1 [sym_ppDirective]; AGroup 3 2 syms_5; AGroup 17412 4 syms_25;
     AGroup 17410 26 syms_138]);
   (398511, 4, [AGroup 5 1 [sym_ppDirective]; AGroup 3 2 syms_5; AGroup 17242 4 syms_25;
     AGroup 17240 26 syms_136]);
   (398553, 10, [AGroup 5 1 [sym_ppDirective]; AGroup 6198 1 [anon_sym_LBRACK];
     AGroup 6203 1 [aux_sym_ppUsesBlock_token1]; AGroup 20865 1 [sym_identifier];
     SGroup 40 1 [sym__ppIf]; SGroup 12776 1 [aux_sym_rttiAttributes_repeat2];
     SGroup 15642 1 [sym_rttiAttributes]; AGroup 3 2 syms_5; SGroup 7933 3 syms_444;
     AGroup 6196 21 syms_451]);
   (398607, 6, [AGroup 5 1 [sym_ppDirective]; AGroup 20868 1 [sym_kHat]; SGroup 4232 1 [sym__exprIsNot];
     AGroup 3 2 syms_5; AGroup 16914 4 syms_25; AGroup 16912 24 syms_453]);
   (398653, 6, [AGroup 5 1 [sym_ppDirective]; AGroup 20868 1 [sym_kHat]; SGroup 4232 1 [sym__exprIsNot];
     AGroup 3 2 syms_5; AGroup 16904 4 syms_25; AGroup 16902 24 syms_453]);
   (398699, 10, [AGroup 5 1 [sym_ppDirective]; AGroup 20868 1 [sym_kHat]; AGroup 20874 1 [sym_kFdiv];
     AGroup 20876 1 [sym_kAs]; SGroup 4232 1 [sym__exprIsNot]; AGroup 3 2 syms_5;
     AGroup 16914 3 syms_94; AGroup 20870 4 syms_84; AGroup 20872 6 syms_86;
     AGroup 16912 13 syms_454]);
   (398753, 9, [AGroup 5 1 [sym_ppDirective]; AGroup 20868 1 [sym_kHat]; AGroup 20874 1 [sym_kFdiv];
     AGroup 20876 1 [sym_kAs]; SGroup 4232 1 [sym__exprIsNot]; AGroup 3 2 syms_5;
     AGroup 16914 3 syms_94; AGroup 20872 6 syms_86; AGroup 16912 17 syms_455]);
   (398805, 10, [AGroup 5 1 [sym_ppDirective]; AGroup 20882 1 [sym_kFdiv]; AGroup 20884 1 [sym_kHat];
     AGroup 20886 1 [sym_kAs]; SGroup 5346 1 [sym__exprIsNot]; AGroup 3 2 syms_5;
     AGroup 17016 3 syms_94; AGroup 20878 4 syms_84; AGroup 20880 6 syms_86;
     AGroup 17014 13 syms_456]);
   (398859, 5, [AGroup 5 1 [sym_ppDirective]; SGroup 4236 1 [sym_kDot]; AGroup 3 2 syms_5;
     AGroup 16970 4 syms_25; AGroup 16968 25 syms_143]);
   (398903, 4, [AGroup 5 1 [sym_ppDirective]; AGroup 3 2 syms_5; AGroup 17592 4 syms_25;
     AGroup 17590 26 syms_138]);
   (398945, 4, [AGroup 5 1 [sym_ppDirective]; AGroup 3 2 syms_5; AGroup 17082 4 syms_25;
     AGroup 17080 26 syms_138]);
   (398987, 4, [AGroup 5 1 [sym_ppDirective]; AGroup 3 2 syms_5; AGroup 17158 4 syms_25;
     AGroup 17156 26 syms_138]);
   (399029, 10, [AGroup 5 1 [sym_ppDirective]; AGroup 20868 1 [sym_kHat]; AGroup 20874 1 [sym_kFdiv];
     AGroup 20876 1 [sym_kAs]; SGroup 4232 1 [sym__exprIsNot]; AGroup 3 2 syms_5;
     AGroup 17016 3 syms_94; AGroup 20870 4 syms_84; AGroup 20872 6 syms_86;
     AGroup 17014 13 syms_454]);
   (399083, 14, [AGroup 5 1 [sym_ppDirective]; AGroup 16886 1 [anon_sym_LPAREN]; AGroup 20868 1 [sym_kHat];
     AGroup 20874 1 [sym_kFdiv]; AGroup 20876 1 [sym_kAs]; AGroup 20892 1 [sym_kIs];
     AGroup 20894 1 [sym_kNot]; SGroup 4232 1 [sym__exprIsNot]; AGroup 3 2 syms_5;
     AGroup 20888 2 syms_83; AGroup 20870 4 syms_84; AGroup 20890 5 syms_85;
     AGroup 16884 6 syms_457; AGroup 20872 6 syms_86]);
   (399145, 4, [AGroup 5 1 [sym_ppDirective]; AGroup 3 2 syms_5; AGroup 17256 4 syms_25;
     AGroup 17254 26 syms_136]);
   (399187, 13, [AGroup 20440 1 [sym_kHat]; AGroup 20446 1 [sym_kFdiv]; AGroup 20448 1 [sym_kAs];
     AGroup 20454 1 [sym_kIs]; AGroup 20456 1 [sym_kNot]; AGroup 20896 1 [anon_sym_SEMI];
     SGroup 4332 1 [sym__exprIsNot]; AGroup 20450 2 syms_83; AGroup 3 3 syms_1;
     AGroup 20442 4 syms_84; AGroup 20452 5 syms_85; AGroup 20444 6 syms_86;
     AGroup 20898 6 syms_45]);
   (399247, 5, [AGroup 5 1 [sym_ppDirective]; SGroup 4260 1 [sym__exprIsNot]; AGroup 3 2 syms_5;
     AGroup 17032 4 syms_25; AGroup 17030 25 syms_144]);
   (399291, 15, [AGroup 20009 1 [sym_kElse]; AGroup 20335 1 [sym_kHat]; AGroup 20339 1 [sym_kAs];
     AGroup 20355 1 [sym_kIs]; AGroup 20357 1 [sym_kNot]; AGroup 20900 1 [anon_sym_SEMI];
     SGroup 4961 1 [sym__exprIsNot]; AGroup 20331 2 syms_9; AGroup 20333 2 syms_258;
     AGroup 20341 2 syms_259; AGroup 20351 2 syms_83; AGroup 3 3 syms_1; AGroup 20337 5 syms_260;
     AGroup 20353 5 syms_85; AGroup 20859 5 syms_313]);
   (399355, 7, [AGroup 5 1 [sym_ppDirective]; AGroup 16974 1 [anon_sym_COMMA];
     AGroup 16978 1 [anon_sym_DOT]; AGroup 3 2 syms_5; AGroup 16976 2 syms_97;
     AGroup 16981 2 syms_83; AGroup 16972 24 syms_458]);
   (399403, 4, [AGroup 5 1 [sym_ppDirective]; AGroup 3 2 syms_5; AGroup 17380 4 syms_25;
     AGroup 17378 26 syms_136]);
   (399445, 5, [AGroup 5 1 [sym_ppDirective]; SGroup 5346 1 [sym__exprIsNot]; AGroup 3 2 syms_5;
     AGroup 17032 4 syms_25; AGroup 17030 25 syms_163]);
   (399489, 10, [AGroup 5 1 [sym_ppDirective]; AGroup 5064 1 [anon_sym_LBRACK];
     AGroup 5069 1 [aux_sym_ppUsesBlock_token1]; AGroup 20861 1 [sym_identifier];
     SGroup 40 1 [sym__ppIf]; SGroup 12776 1 [aux_sym_rttiAttributes_repeat2];
     SGroup 15642 1 [sym_rttiAttributes]; AGroup 3 2 syms_5; SGroup 7933 3 syms_444;
     AGroup 5062 21 syms_451]);
   (399543, 4, [AGroup 5 1 [sym_ppDirective]; AGroup 3 2 syms_5; AGroup 17386 4 syms_25;
     AGroup 17384 26 syms_136]);
   (399585, 5, [AGroup 5 1 [sym_ppDirective]; AGroup 20902 1 [sym_identifier]; AGroup 3 2 syms_5;
     AGroup 17342 4 syms_25; AGroup 17340 25 syms_144]);
   (399629, 4, [AGroup 5 1 [sym_ppDirective]; AGroup 3 2 syms_5; AGroup 17398 4 syms_25;
     AGroup 17396 26 syms_136]);
   (399671, 5, [AGroup 5 1 [sym_ppDirective]; AGroup 20904 1 [sym_identifier]; AGroup 3 2 syms_5;
     AGroup 17348 4 syms_25; AGroup 17346 25 syms_144]);
   (399715, 9, [AGroup 5 1 [sym_ppDirective]; AGroup 17042 1 [anon_sym_DOT];
     AGroup 20906 1 [anon_sym_LBRACK]; AGroup 20908 1 [anon_sym_LPAREN];
     AGroup 20910 1 [sym_kLt]; SGroup 4263 1 [sym_kDot]; AGroup 3 2 syms_5;
     AGroup 17046 2 syms_101; AGroup 17036 23 syms_459]);
   (399767, 4, [AGroup 5 1 [sym_ppDirective]; AGroup 3 2 syms_5; AGroup 17256 4 syms_25;
     AGroup 17254 26 syms_138])
  ].

(** States 7959 to 8058. *)
Definition small_runs_7959 : list small_run :=
  [
   (399809, 4, [AGroup 5 1 [sym_ppDirective]; AGroup 3 2 syms_5; AGroup 17172 4 syms_25;
     AGroup 17170 26 syms_138]);
   (399851, 4, [AGroup 5 1 [sym_ppDirective]; AGroup 3 2 syms_5; AGroup 17408 4 syms_25;
     AGroup 17406 26 syms_136]);
   (399893, 5, [AGroup 5 1 [sym_ppDirective]; SGroup 4357 1 [sym__exprIsNot]; AGroup 3 2 syms_5;
     AGroup 17032 5 syms_148; AGroup 17030 24 syms_149]);
   (399937, 10, [AGroup 5 1 [sym_ppDirective]; AGroup 4623 1 [anon_sym_LBRACK];
     AGroup 4628 1 [aux_sym_ppUsesBlock_token1]; AGroup 20861 1 [sym_identifier];
     SGroup 40 1 [sym__ppIf]; SGroup 12776 1 [aux_sym_rttiAttributes_repeat2];
     SGroup 15642 1 [sym_rttiAttributes]; AGroup 3 2 syms_5; SGroup 7952 3 syms_444;
     AGroup 4621 21 syms_451]);
   (399991, 13, [AGroup 20440 1 [sym_kHat]; AGroup 20446 1 [sym_kFdiv]; AGroup 20448 1 [sym_kAs];
     AGroup 20454 1 [sym_kIs]; AGroup 20456 1 [sym_kNot]; AGroup 20912 1 [anon_sym_SEMI];
     SGroup 4332 1 [sym__exprIsNot]; AGroup 20450 2 syms_83; AGroup 3 3 syms_1;
     AGroup 20442 4 syms_84; AGroup 20452 5 syms_85; AGroup 20444 6 syms_86;
     AGroup 20914 6 syms_45]);
   (400051, 6, [AGroup 5 1 [sym_ppDirective]; AGroup 20916 1 [sym_kHat]; SGroup 4260 1 [sym__exprIsNot];
     AGroup 3 2 syms_5; AGroup 16914 4 syms_25; AGroup 16912 24 syms_460]);
   (400097, 6, [AGroup 5 1 [sym_ppDirective]; AGroup 20916 1 [sym_kHat]; SGroup 4260 1 [sym__exprIsNot];
     AGroup 3 2 syms_5; AGroup 16904 4 syms_25; AGroup 16902 24 syms_460]);
   (400143, 10, [AGroup 5 1 [sym_ppDirective]; AGroup 20916 1 [sym_kHat]; AGroup 20922 1 [sym_kFdiv];
     AGroup 20924 1 [sym_kAs]; SGroup 4260 1 [sym__exprIsNot]; AGroup 3 2 syms_5;
     AGroup 16914 3 syms_94; AGroup 20918 4 syms_84; AGroup 20920 6 syms_86;
     AGroup 16912 13 syms_461]);
   (400197, 15, [AGroup 20009 1 [sym_kElse]; AGroup 20335 1 [sym_kHat]; AGroup 20339 1 [sym_kAs];
     AGroup 20355 1 [sym_kIs]; AGroup 20357 1 [sym_kNot]; AGroup 20926 1 [anon_sym_SEMI];
     SGroup 4961 1 [sym__exprIsNot]; AGroup 20331 2 syms_9; AGroup 20333 2 syms_258;
     AGroup 20341 2 syms_259; AGroup 20351 2 syms_83; AGroup 3 3 syms_1; AGroup 20337 5 syms_260;
     AGroup 20353 5 syms_85; AGroup 20859 5 syms_313]);
   (400261, 9, [AGroup 5 1 [sym_ppDirective]; AGroup 20916 1 [sym_kHat]; AGroup 20922 1 [sym_kFdiv];
     AGroup 20924 1 [sym_kAs]; SGroup 4260 1 [sym__exprIsNot]; AGroup 3 2 syms_5;
     AGroup 16914 3 syms_94; AGroup 20920 6 syms_86; AGroup 16912 17 syms_462]);
   (400313, 15, [AGroup 20009 1 [sym_kElse]; AGroup 20335 1 [sym_kHat]; AGroup 20339 1 [sym_kAs];
     AGroup 20355 1 [sym_kIs]; AGroup 20357 1 [sym_kNot]; AGroup 20926 1 [anon_sym_SEMI];
     SGroup 4961 1 [sym__exprIsNot]; AGroup 20331 2 syms_9; AGroup 20333 2 syms_258;
     AGroup 20341 2 syms_259; AGroup 20351 2 syms_83; AGroup 3 3 syms_1; AGroup 20337 5 syms_260;
     AGroup 20353 5 syms_85; AGroup 20859 5 syms_313]);
   (400377, 10, [AGroup 5 1 [sym_ppDirective]; AGroup 5783 1 [anon_sym_LBRACK];
     AGroup 5788 1 [aux_sym_ppUsesBlock_token1]; AGroup 20863 1 [sym_identifier];
     SGroup 36 1 [sym__ppIf]; SGroup 12776 1 [aux_sym_rttiAttributes_repeat2];
     SGroup 15607 1 [sym_rttiAttributes]; AGroup 3 2 syms_5; SGroup 7971 3 syms_444;
     AGroup 5781 21 syms_452]);
   (400431, 10, [AGroup 5 1 [sym_ppDirective]; AGroup 6198 1 [anon_sym_LBRACK];
     AGroup 6203 1 [aux_sym_ppUsesBlock_token1]; AGroup 20928 1 [sym_identifier];
     SGroup 36 1 [sym__ppIf]; SGroup 12776 1 [aux_sym_rttiAttributes_repeat2];
     SGroup 15607 1 [sym_rttiAttributes]; AGroup 3 2 syms_5; SGroup 7971 3 syms_444;
     AGroup 6196 21 syms_452]);
   (400485, 13, [AGroup 20440 1 [sym_kHat]; AGroup 20446 1 [sym_kFdiv]; AGroup 20448 1 [sym_kAs];
     AGroup 20454 1 [sym_kIs]; AGroup 20456 1 [sym_kNot]; AGroup 20931 1 [anon_sym_SEMI];
     SGroup 4332 1 [sym__exprIsNot]; AGroup 20450 2 syms_83; AGroup 3 3 syms_1;
     AGroup 20442 4 syms_84; AGroup 20452 5 syms_85; AGroup 20444 6 syms_86;
     AGroup 20933 6 syms_45]);
   (400545, 5, [AGroup 5 1 [sym_ppDirective]; SGroup 4263 1 [sym_kDot]; AGroup 3 2 syms_5;
     AGroup 16970 4 syms_25; AGroup 16968 25 syms_144]);
   (400589, 4, [AGroup 5 1 [sym_ppDirective]; AGroup 3 2 syms_5; AGroup 17096 4 syms_25;
     AGroup 17094 26 syms_138]);
   (400631, 10, [AGroup 5 1 [sym_ppDirective]; AGroup 20916 1 [sym_kHat]; AGroup 20922 1 [sym_kFdiv];
     AGroup 20924 1 [sym_kAs]; SGroup 4260 1 [sym__exprIsNot]; AGroup 3 2 syms_5;
     AGroup 17016 3 syms_94; AGroup 20918 4 syms_84; AGroup 20920 6 syms_86;
     AGroup 17014 13 syms_461]);
   (400685, 14, [AGroup 5 1 [sym_ppDirective]; AGroup 16886 1 [anon_sym_LPAREN]; AGroup 20916 1 [sym_kHat];
     AGroup 20922 1 [sym_kFdiv]; AGroup 20924 1 [sym_kAs]; AGroup 20939 1 [sym_kIs];
     AGroup 20941 1 [sym_kNot]; SGroup 4260 1 [sym__exprIsNot]; AGroup 3 2 syms_5;
     AGroup 20935 2 syms_83; AGroup 20918 4 syms_84; AGroup 20937 5 syms_85;
     AGroup 16884 6 syms_463; AGroup 20920 6 syms_86]);
   (400747, 13, [AGroup 20377 1 [sym_kHat]; AGroup 20381 1 [sym_kAs]; AGroup 20537 1 [sym_kIs];
     AGroup 20539 1 [sym_kNot]; SGroup 4521 1 [sym__exprIsNot]; AGroup 20373 2 syms_9;
     AGroup 20375 2 syms_258; AGroup 20383 2 syms_259; AGroup 20533 2 syms_83; AGroup 3 3 syms_1;
     AGroup 20379 5 syms_260; AGroup 20535 5 syms_85; AGroup 17936 7 syms_51]);
   (400807, 15, [AGroup 20009 1 [sym_kElse]; AGroup 20335 1 [sym_kHat]; AGroup 20339 1 [sym_kAs];
     AGroup 20355 1 [sym_kIs]; AGroup 20357 1 [sym_kNot]; AGroup 20943 1 [anon_sym_SEMI];
     SGroup 4961 1 [sym__exprIsNot]; AGroup 20331 2 syms_9; AGroup 20333 2 syms_258;
     AGroup 20341 2 syms_259; AGroup 20351 2 syms_83; AGroup 3 3 syms_1; AGroup 20337 5 syms_260;
     AGroup 20353 5 syms_85; AGroup 20859 5 syms_313]);
   (400871, 15, [AGroup 20009 1 [sym_kElse]; AGroup 20335 1 [sym_kHat]; AGroup 20339 1 [sym_kAs];
     AGroup 20355 1 [sym_kIs]; AGroup 20357 1 [sym_kNot]; AGroup 20945 1 [anon_sym_SEMI];
     SGroup 4961 1 [sym__exprIsNot]; AGroup 20331 2 syms_9; AGroup 20333 2 syms_258;
     AGroup 20341 2 syms_259; AGroup 20351 2 syms_83; AGroup 3 3 syms_1; AGroup 20337 5 syms_260;
     AGroup 20353 5 syms_85; AGroup 20859 5 syms_313]);
   (400935, 4, [AGroup 5 1 [sym_ppDirective]; AGroup 3 2 syms_5; AGroup 17412 4 syms_25;
     AGroup 17410 26 syms_136]);
   (400977, 5, [AGroup 5 1 [sym_ppDirective]; AGroup 20947 1 [sym_identifier]; AGroup 3 2 syms_5;
     AGroup 17342 4 syms_25; AGroup 17340 25 syms_163]);
   (401021, 13, [AGroup 20497 1 [sym_kHat]; AGroup 20505 1 [sym_kAs]; AGroup 20513 1 [sym_kIs];
     AGroup 20515 1 [sym_kNot]; SGroup 4216 1 [sym__exprIsNot]; AGroup 20499 2 syms_9;
     AGroup 20501 2 syms_258; AGroup 20507 2 syms_259; AGroup 20509 2 syms_83; AGroup 3 3 syms_1;
     AGroup 20503 5 syms_260; AGroup 20511 5 syms_85; AGroup 17936 7 syms_464]);
   (401081, 14, [AGroup 5 1 [sym_ppDirective]; AGroup 16886 1 [anon_sym_LPAREN]; AGroup 20882 1 [sym_kFdiv];
     AGroup 20884 1 [sym_kHat]; AGroup 20886 1 [sym_kAs]; AGroup 20953 1 [sym_kIs];
     AGroup 20955 1 [sym_kNot]; SGroup 5346 1 [sym__exprIsNot]; AGroup 3 2 syms_5;
     AGroup 20949 2 syms_83; AGroup 20878 4 syms_84; AGroup 20951 5 syms_85;
     AGroup 16884 6 syms_465; AGroup 20880 6 syms_86]);
   (401143, 15, [AGroup 20009 1 [sym_kElse]; AGroup 20335 1 [sym_kHat]; AGroup 20339 1 [sym_kAs];
     AGroup 20355 1 [sym_kIs]; AGroup 20357 1 [sym_kNot]; AGroup 20945 1 [anon_sym_SEMI];
     SGroup 4961 1 [sym__exprIsNot]; AGroup 20331 2 syms_9; AGroup 20333 2 syms_258;
     AGroup 20341 2 syms_259; AGroup 20351 2 syms_83; AGroup 3 3 syms_1; AGroup 20337 5 syms_260;
     AGroup 20353 5 syms_85; AGroup 20859 5 syms_313]);
   (401207, 15, [AGroup 20009 1 [sym_kElse]; AGroup 20335 1 [sym_kHat]; AGroup 20339 1 [sym_kAs];
     AGroup 20355 1 [sym_kIs]; AGroup 20357 1 [sym_kNot]; AGroup 20957 1 [anon_sym_SEMI];
     SGroup 4961 1 [sym__exprIsNot]; AGroup 20331 2 syms_9; AGroup 20333 2 syms_258;
     AGroup 20341 2 syms_259; AGroup 20351 2 syms_83; AGroup 3 3 syms_1; AGroup 20337 5 syms_260;
     AGroup 20353 5 syms_85; AGroup 20859 5 syms_313]);
   (401271, 13, [AGroup 20497 1 [sym_kHat]; AGroup 20505 1 [sym_kAs]; AGroup 20513 1 [sym_kIs];
     AGroup 20515 1 [sym_kNot]; SGroup 4216 1 [sym__exprIsNot]; AGroup 20499 2 syms_9;
     AGroup 20501 2 syms_258; AGroup 20507 2 syms_259; AGroup 20509 2 syms_83; AGroup 3 3 syms_1;
     AGroup 20503 5 syms_260; AGroup 20511 5 syms_85; AGroup 17938 7 syms_464]);
   (401331, 5, [AGroup 5 1 [sym_ppDirective]; AGroup 20959 1 [sym_identifier]; AGroup 3 2 syms_5;
     AGroup 17348 4 syms_25; AGroup 17346 25 syms_163]);
   (401375, 6, [AGroup 5 1 [sym_ppDirective]; AGroup 20884 1 [sym_kHat]; SGroup 5346 1 [sym__exprIsNot];
     AGroup 3 2 syms_5; AGroup 16914 4 syms_25; AGroup 16912 24 syms_466]);
   (401421, 15, [AGroup 20009 1 [sym_kElse]; AGroup 20335 1 [sym_kHat]; AGroup 20339 1 [sym_kAs];
     AGroup 20355 1 [sym_kIs]; AGroup 20357 1 [sym_kNot]; AGroup 20961 1 [anon_sym_SEMI];
     SGroup 4961 1 [sym__exprIsNot]; AGroup 20331 2 syms_9; AGroup 20333 2 syms_258;
     AGroup 20341 2 syms_259; AGroup 20351 2 syms_83; AGroup 3 3 syms_1; AGroup 20337 5 syms_260;
     AGroup 20353 5 syms_85; AGroup 20859 5 syms_313]);
   (401485, 9, [AGroup 5 1 [sym_ppDirective]; AGroup 20963 1 [anon_sym_LBRACK];
     AGroup 20965 1 [anon_sym_LPAREN]; AGroup 20967 1 [anon_sym_DOT]; AGroup 20969 1 [sym_kLt];
     SGroup 4363 1 [sym_kDot]; AGroup 3 2 syms_5; AGroup 17046 2 syms_101;
     AGroup 17036 23 syms_467]);
   (401537, 4, [AGroup 5 1 [sym_ppDirective]; AGroup 3 2 syms_5; AGroup 16467 4 syms_25;
     AGroup 16465 26 syms_468]);
   (401579, 7, [AGroup 5 1 [sym_ppDirective]; AGroup 16974 1 [anon_sym_COMMA];
     AGroup 16978 1 [anon_sym_DOT]; AGroup 3 2 syms_5; AGroup 16976 2 syms_97;
     AGroup 16981 2 syms_83; AGroup 16972 24 syms_469]);
   (401627, 15, [AGroup 20009 1 [sym_kElse]; AGroup 20335 1 [sym_kHat]; AGroup 20339 1 [sym_kAs];
     AGroup 20355 1 [sym_kIs]; AGroup 20357 1 [sym_kNot]; AGroup 20957 1 [anon_sym_SEMI];
     SGroup 4961 1 [sym__exprIsNot]; AGroup 20331 2 syms_9; AGroup 20333 2 syms_258;
     AGroup 20341 2 syms_259; AGroup 20351 2 syms_83; AGroup 3 3 syms_1; AGroup 20337 5 syms_260;
     AGroup 20353 5 syms_85; AGroup 20859 5 syms_313]);
   (401691, 15, [AGroup 20009 1 [sym_kElse]; AGroup 20335 1 [sym_kHat]; AGroup 20339 1 [sym_kAs];
     AGroup 20355 1 [sym_kIs]; AGroup 20357 1 [sym_kNot]; AGroup 20971 1 [anon_sym_SEMI];
     SGroup 4961 1 [sym__exprIsNot]; AGroup 20331 2 syms_9; AGroup 20333 2 syms_258;
     AGroup 20341 2 syms_259; AGroup 20351 2 syms_83; AGroup 3 3 syms_1; AGroup 20337 5 syms_260;
     AGroup 20353 5 syms_85; AGroup 20859 5 syms_313]);
   (401755, 4, [AGroup 5 1 [sym_ppDirective]; AGroup 3 2 syms_5; AGroup 17328 4 syms_25;
     AGroup 17326 26 syms_136]);
   (401797, 6, [AGroup 5 1 [sym_ppDirective]; AGroup 20884 1 [sym_kHat]; SGroup 5346 1 [sym__exprIsNot];
     AGroup 3 2 syms_5; AGroup 16904 4 syms_25; AGroup 16902 24 syms_466]);
   (401843, 15, [AGroup 20009 1 [sym_kElse]; AGroup 20335 1 [sym_kHat]; AGroup 20339 1 [sym_kAs];
     AGroup 20355 1 [sym_kIs]; AGroup 20357 1 [sym_kNot]; AGroup 20973 1 [anon_sym_SEMI];
     SGroup 4961 1 [sym__exprIsNot]; AGroup 20331 2 syms_9; AGroup 20333 2 syms_258;
     AGroup 20341 2 syms_259; AGroup 20351 2 syms_83; AGroup 3 3 syms_1; AGroup 20337 5 syms_260;
     AGroup 20353 5 syms_85; AGroup 20859 5 syms_313]);
   (401907, 15, [AGroup 20009 1 [sym_kElse]; AGroup 20335 1 [sym_kHat]; AGroup 20339 1 [sym_kAs];
     AGroup 20355 1 [sym_kIs]; AGroup 20357 1 [sym_kNot]; AGroup 20857 1 [anon_sym_SEMI];
     SGroup 4961 1 [sym__exprIsNot]; AGroup 20331 2 syms_9; AGroup 20333 2 syms_258;
     AGroup 20341 2 syms_259; AGroup 20351 2 syms_83; AGroup 3 3 syms_1; AGroup 20337 5 syms_260;
     AGroup 20353 5 syms_85; AGroup 20859 5 syms_313]);
   (401971, 15, [AGroup 20009 1 [sym_kElse]; AGroup 20335 1 [sym_kHat]; AGroup 20339 1 [sym_kAs];
     AGroup 20355 1 [sym_kIs]; AGroup 20357 1 [sym_kNot]; AGroup 20975 1 [anon_sym_SEMI];
     SGroup 4961 1 [sym__exprIsNot]; AGroup 20331 2 syms_9; AGroup 20333 2 syms_258;
     AGroup 20341 2 syms_259; AGroup 20351 2 syms_83; AGroup 3 3 syms_1; AGroup 20337 5 syms_260;
     AGroup 20353 5 syms_85; AGroup 20859 5 syms_313]);
   (402035, 15, [AGroup 20009 1 [sym_kElse]; AGroup 20335 1 [sym_kHat]; AGroup 20339 1 [sym_kAs];
     AGroup 20355 1 [sym_kIs]; AGroup 20357 1 [sym_kNot]; AGroup 20971 1 [anon_sym_SEMI];
     SGroup 4961 1 [sym__exprIsNot]; AGroup 20331 2 syms_9; AGroup 20333 2 syms_258;
     AGroup 20341 2 syms_259; AGroup 20351 2 syms_83; AGroup 3 3 syms_1; AGroup 20337 5 syms_260;
     AGroup 20353 5 syms_85; AGroup 20859 5 syms_313]);
   (402099, 15, [AGroup 20009 1 [sym_kElse]; AGroup 20335 1 [sym_kHat]; AGroup 20339 1 [sym_kAs];
     AGroup 20355 1 [sym_kIs]; AGroup 20357 1 [sym_kNot]; AGroup 20977 1 [anon_sym_SEMI];
     SGroup 4961 1 [sym__exprIsNot]; AGroup 20331 2 syms_9; AGroup 20333 2 syms_258;
     AGroup 20341 2 syms_259; AGroup 20351 2 syms_83; AGroup 3 3 syms_1; AGroup 20337 5 syms_260;
     AGroup 20353 5 syms_85; AGroup 20859 5 syms_313]);
   (402163, 15, [AGroup 20009 1 [sym_kElse]; AGroup 20335 1 [sym_kHat]; AGroup 20339 1 [sym_kAs];
     AGroup 20355 1 [sym_kIs]; AGroup 20357 1 [sym_kNot]; AGroup 20975 1 [anon_sym_SEMI];
     SGroup 4961 1 [sym__exprIsNot]; AGroup 20331 2 syms_9; AGroup 20333 2 syms_258;
     AGroup 20341 2 syms_259; AGroup 20351 2 syms_83; AGroup 3 3 syms_1; AGroup 20337 5 syms_260;
     AGroup 20353 5 syms_85; AGroup 20859 5 syms_313]);
   (402227, 9, [AGroup 5 1 [sym_ppDirective]; AGroup 17042 1 [anon_sym_DOT];
     AGroup 20979 1 [anon_sym_LBRACK]; AGroup 20981 1 [anon_sym_LPAREN];
     AGroup 20983 1 [sym_kLt]; SGroup 5354 1 [sym_kDot]; AGroup 3 2 syms_5;
     AGroup 17046 2 syms_101; AGroup 17036 23 syms_470]);
   (402279, 5, [AGroup 5 1 [sym_ppDirective]; AGroup 20985 1 [sym_identifier]; AGroup 3 2 syms_5;
     AGroup 17342 5 syms_148; AGroup 17340 24 syms_149]);
   (402323, 5, [AGroup 5 1 [sym_ppDirective]; AGroup 20987 1 [sym_identifier]; AGroup 3 2 syms_5;
     AGroup 17348 5 syms_148; AGroup 17346 24 syms_149]);
   (402367, 9, [AGroup 5 1 [sym_ppDirective]; AGroup 17042 1 [anon_sym_DOT];
     AGroup 20989 1 [anon_sym_LBRACK]; AGroup 20991 1 [anon_sym_LPAREN];
     AGroup 20993 1 [sym_kLt]; SGroup 5033 1 [sym_kDot]; AGroup 3 2 syms_5;
     AGroup 17046 2 syms_101; AGroup 17036 23 syms_471]);
   (402419, 4, [AGroup 5 1 [sym_ppDirective]; AGroup 3 2 syms_5; AGroup 18831 4 syms_25;
     AGroup 18829 26 syms_134]);
   (402461, 15, [AGroup 20009 1 [sym_kElse]; AGroup 20335 1 [sym_kHat]; AGroup 20339 1 [sym_kAs];
     AGroup 20355 1 [sym_kIs]; AGroup 20357 1 [sym_kNot]; AGroup 20977 1 [anon_sym_SEMI];
     SGroup 4961 1 [sym__exprIsNot]; AGroup 20331 2 syms_9; AGroup 20333 2 syms_258;
     AGroup 20341 2 syms_259; AGroup 20351 2 syms_83; AGroup 3 3 syms_1; AGroup 20337 5 syms_260;
     AGroup 20353 5 syms_85; AGroup 20859 5 syms_313]);
   (402525, 4, [AGroup 5 1 [sym_ppDirective]; AGroup 3 2 syms_5; AGroup 17358 4 syms_25;
     AGroup 17356 26 syms_134]);
   (402567, 4, [AGroup 5 1 [sym_ppDirective]; AGroup 3 2 syms_5; AGroup 17362 4 syms_25;
     AGroup 17360 26 syms_134]);
   (402609, 6, [AGroup 5 1 [sym_ppDirective]; AGroup 20995 1 [sym_kHat]; SGroup 4357 1 [sym__exprIsNot];
     AGroup 3 2 syms_5; AGroup 16914 5 syms_148; AGroup 16912 23 syms_472]);
   (402655, 6, [AGroup 5 1 [sym_ppDirective]; AGroup 20995 1 [sym_kHat]; SGroup 4357 1 [sym__exprIsNot];
     AGroup 3 2 syms_5; AGroup 16904 5 syms_148; AGroup 16902 23 syms_472]);
   (402701, 10, [AGroup 5 1 [sym_ppDirective]; AGroup 20995 1 [sym_kHat]; AGroup 21001 1 [sym_kFdiv];
     AGroup 21003 1 [sym_kAs]; SGroup 4357 1 [sym__exprIsNot]; AGroup 3 2 syms_5;
     AGroup 16914 4 syms_473; AGroup 20997 4 syms_84; AGroup 20999 6 syms_86;
     AGroup 16912 12 syms_474]);
   (402755, 9, [AGroup 5 1 [sym_ppDirective]; AGroup 20995 1 [sym_kHat]; AGroup 21001 1 [sym_kFdiv];
     AGroup 21003 1 [sym_kAs]; SGroup 4357 1 [sym__exprIsNot]; AGroup 3 2 syms_5;
     AGroup 16914 4 syms_473; AGroup 20999 6 syms_86; AGroup 16912 16 syms_475]);
   (402807, 5, [AGroup 5 1 [sym_ppDirective]; SGroup 4363 1 [sym_kDot]; AGroup 3 2 syms_5;
     AGroup 16970 5 syms_148; AGroup 16968 24 syms_149]);
   (402851, 10, [AGroup 5 1 [sym_ppDirective]; AGroup 20995 1 [sym_kHat]; AGroup 21001 1 [sym_kFdiv];
     AGroup 21003 1 [sym_kAs]; SGroup 4357 1 [sym__exprIsNot]; AGroup 3 2 syms_5;
     AGroup 17016 4 syms_473; AGroup 20997 4 syms_84; AGroup 20999 6 syms_86;
     AGroup 17014 12 syms_474]);
   (402905, 14, [AGroup 5 1 [sym_ppDirective]; AGroup 20995 1 [sym_kHat]; AGroup 21001 1 [sym_kFdiv];
     AGroup 21003 1 [sym_kAs]; AGroup 21009 1 [sym_kIs]; AGroup 21011 1 [sym_kNot];
     SGroup 4357 1 [sym__exprIsNot]; AGroup 3 2 syms_5; AGroup 16886 2 syms_476;
     AGroup 21005 2 syms_83; AGroup 20997 4 syms_84; AGroup 16884 5 syms_477;
     AGroup 21007 5 syms_85; AGroup 20999 6 syms_86]);
   (402967, 5, [AGroup 5 1 [sym_ppDirective]; SGroup 4232 1 [sym__exprIsNot]; AGroup 3 2 syms_5;
     AGroup 17032 4 syms_25; AGroup 17030 25 syms_143]);
   (403011, 15, [AGroup 20009 1 [sym_kEnd]; AGroup 20377 1 [sym_kHat]; AGroup 20381 1 [sym_kAs];
     AGroup 20537 1 [sym_kIs]; AGroup 20539 1 [sym_kNot]; AGroup 20808 1 [anon_sym_SEMI];
     SGroup 4521 1 [sym__exprIsNot]; AGroup 20373 2 syms_9; AGroup 20375 2 syms_258;
     AGroup 20383 2 syms_259; AGroup 20533 2 syms_83; AGroup 3 3 syms_1; AGroup 20379 5 syms_260;
     AGroup 20535 5 syms_85; AGroup 21013 5 syms_313]);
   (403075, 15, [AGroup 20009 1 [sym_kElse]; AGroup 20335 1 [sym_kHat]; AGroup 20339 1 [sym_kAs];
     AGroup 20355 1 [sym_kIs]; AGroup 20357 1 [sym_kNot]; AGroup 21015 1 [anon_sym_SEMI];
     SGroup 4961 1 [sym__exprIsNot]; AGroup 20331 2 syms_9; AGroup 20333 2 syms_258;
     AGroup 20341 2 syms_259; AGroup 20351 2 syms_83; AGroup 3 3 syms_1; AGroup 20337 5 syms_260;
     AGroup 20353 5 syms_85; AGroup 20859 5 syms_313]);
   (403139, 4, [AGroup 5 1 [sym_ppDirective]; AGroup 3 2 syms_5; AGroup 11316 4 syms_25;
     AGroup 11311 26 syms_134]);
   (403181, 5, [AGroup 5 1 [sym_ppDirective]; SGroup 4416 1 [sym__exprIsNot]; AGroup 3 2 syms_5;
     AGroup 17032 4 syms_25; AGroup 17030 25 syms_153]);
   (403225, 4, [AGroup 5 1 [sym_ppDirective]; AGroup 3 2 syms_5; AGroup 16467 4 syms_25;
     AGroup 16465 26 syms_478]);
   (403267, 4, [AGroup 5 1 [sym_ppDirective]; AGroup 3 2 syms_5; AGroup 16467 4 syms_25;
     AGroup 16465 26 syms_479]);
   (403309, 4, [AGroup 5 1 [sym_ppDirective]; AGroup 3 2 syms_5; AGroup 18831 4 syms_25;
     AGroup 18829 26 syms_136]);
   (403351, 4, [AGroup 5 1 [sym_ppDirective]; AGroup 3 2 syms_5; AGroup 17372 4 syms_25;
     AGroup 17370 26 syms_134]);
   (403393, 4, [AGroup 5 1 [sym_ppDirective]; AGroup 3 2 syms_5; AGroup 17358 4 syms_25;
     AGroup 17356 26 syms_136]);
   (403435, 13, [AGroup 20423 1 [sym_kHat]; AGroup 20427 1 [sym_kAs]; AGroup 20429 1 [sym_kIs];
     AGroup 20431 1 [sym_kNot]; SGroup 4635 1 [sym__exprIsNot]; AGroup 20415 2 syms_83;
     AGroup 20419 2 syms_9; AGroup 20421 2 syms_258; AGroup 20433 2 syms_259; AGroup 3 3 syms_1;
     AGroup 20417 5 syms_85; AGroup 20425 5 syms_260; AGroup 17936 7 syms_47]);
   (403495, 13, [AGroup 20423 1 [sym_kHat]; AGroup 20427 1 [sym_kAs]; AGroup 20429 1 [sym_kIs];
     AGroup 20431 1 [sym_kNot]; SGroup 4635 1 [sym__exprIsNot]; AGroup 20415 2 syms_83;
     AGroup 20419 2 syms_9; AGroup 20421 2 syms_258; AGroup 20433 2 syms_259; AGroup 3 3 syms_1;
     AGroup 20417 5 syms_85; AGroup 20425 5 syms_260; AGroup 17938 7 syms_47]);
   (403555, 5, [AGroup 5 1 [sym_ppDirective]; AGroup 21017 1 [sym_identifier]; AGroup 3 2 syms_5;
     AGroup 17342 4 syms_25; AGroup 17340 25 syms_153]);
   (403599, 5, [AGroup 5 1 [sym_ppDirective]; AGroup 21019 1 [sym_identifier]; AGroup 3 2 syms_5;
     AGroup 17348 4 syms_25; AGroup 17346 25 syms_153]);
   (403643, 15, [AGroup 20009 1 [sym_kElse]; AGroup 20335 1 [sym_kHat]; AGroup 20339 1 [sym_kAs];
     AGroup 20355 1 [sym_kIs]; AGroup 20357 1 [sym_kNot]; AGroup 21021 1 [anon_sym_SEMI];
     SGroup 4961 1 [sym__exprIsNot]; AGroup 20331 2 syms_9; AGroup 20333 2 syms_258;
     AGroup 20341 2 syms_259; AGroup 20351 2 syms_83; AGroup 3 3 syms_1; AGroup 20337 5 syms_260;
     AGroup 20353 5 syms_85; AGroup 20859 5 syms_313]);
   (403707, 9, [AGroup 5 1 [sym_ppDirective]; AGroup 17042 1 [anon_sym_DOT];
     AGroup 21023 1 [anon_sym_LBRACK]; AGroup 21025 1 [anon_sym_LPAREN];
     AGroup 21027 1 [sym_kLt]; SGroup 4419 1 [sym_kDot]; AGroup 3 2 syms_5;
     AGroup 17046 2 syms_101; AGroup 17036 23 syms_480]);
   (403759, 4, [AGroup 5 1 [sym_ppDirective]; AGroup 3 2 syms_5; AGroup 17550 4 syms_25;
     AGroup 17548 26 syms_138]);
   (403801, 4, [AGroup 5 1 [sym_ppDirective]; AGroup 3 2 syms_5; AGroup 17362 4 syms_25;
     AGroup 17360 26 syms_136]);
   (403843, 4, [AGroup 5 1 [sym_ppDirective]; AGroup 3 2 syms_5; AGroup 17380 4 syms_25;
     AGroup 17378 26 syms_134]);
   (403885, 12, [AGroup 20440 1 [sym_kHat]; AGroup 20446 1 [sym_kFdiv]; AGroup 20448 1 [sym_kAs];
     AGroup 20454 1 [sym_kIs]; AGroup 20456 1 [sym_kNot]; SGroup 4332 1 [sym__exprIsNot];
     AGroup 20450 2 syms_83; AGroup 3 3 syms_1; AGroup 20442 4 syms_84; AGroup 20452 5 syms_85;
     AGroup 20444 6 syms_86; AGroup 21029 7 syms_481]);
   (403943, 12, [AGroup 20440 1 [sym_kHat]; AGroup 20446 1 [sym_kFdiv]; AGroup 20448 1 [sym_kAs];
     AGroup 20454 1 [sym_kIs]; AGroup 20456 1 [sym_kNot]; SGroup 4332 1 [sym__exprIsNot];
     AGroup 20450 2 syms_83; AGroup 3 3 syms_1; AGroup 20442 4 syms_84; AGroup 20452 5 syms_85;
     AGroup 20444 6 syms_86; AGroup 21031 7 syms_481]);
   (404001, 6, [AGroup 5 1 [sym_ppDirective]; AGroup 21033 1 [sym_kHat]; SGroup 4416 1 [sym__exprIsNot];
     AGroup 3 2 syms_5; AGroup 16914 4 syms_25; AGroup 16912 24 syms_482]);
   (404047, 6, [AGroup 5 1 [sym_ppDirective]; AGroup 21033 1 [sym_kHat]; SGroup 4416 1 [sym__exprIsNot];
     AGroup 3 2 syms_5; AGroup 16904 4 syms_25; AGroup 16902 24 syms_482]);
   (404093, 10, [AGroup 5 1 [sym_ppDirective]; AGroup 21033 1 [sym_kHat]; AGroup 21039 1 [sym_kFdiv];
     AGroup 21041 1 [sym_kAs]; SGroup 4416 1 [sym__exprIsNot]; AGroup 3 2 syms_5;
     AGroup 16914 3 syms_94; AGroup 21035 4 syms_84; AGroup 21037 6 syms_86;
     AGroup 16912 13 syms_483]);
   (404147, 9, [AGroup 5 1 [sym_ppDirective]; AGroup 21033 1 [sym_kHat]; AGroup 21039 1 [sym_kFdiv];
     AGroup 21041 1 [sym_kAs]; SGroup 4416 1 [sym__exprIsNot]; AGroup 3 2 syms_5;
     AGroup 16914 3 syms_94; AGroup 21037 6 syms_86; AGroup 16912 17 syms_484]);
   (404199, 5, [AGroup 5 1 [sym_ppDirective]; SGroup 4419 1 [sym_kDot]; AGroup 3 2 syms_5;
     AGroup 16970 4 syms_25; AGroup 16968 25 syms_153]);
   (404243, 15, [AGroup 20009 1 [sym_kElse]; AGroup 20335 1 [sym_kHat]; AGroup 20339 1 [sym_kAs];
     AGroup 20355 1 [sym_kIs]; AGroup 20357 1 [sym_kNot]; AGroup 21043 1 [anon_sym_SEMI];
     SGroup 4961 1 [sym__exprIsNot]; AGroup 20331 2 syms_9; AGroup 20333 2 syms_258;
     AGroup 20341 2 syms_259; AGroup 20351 2 syms_83; AGroup 3 3 syms_1; AGroup 20337 5 syms_260;
     AGroup 20353 5 syms_85; AGroup 20859 5 syms_313]);
   (404307, 4, [AGroup 5 1 [sym_ppDirective]; AGroup 3 2 syms_5; AGroup 17550 4 syms_25;
     AGroup 17548 26 syms_136]);
   (404349, 10, [AGroup 5 1 [sym_ppDirective]; AGroup 21033 1 [sym_kHat]; AGroup 21039 1 [sym_kFdiv];
     AGroup 21041 1 [sym_kAs]; SGroup 4416 1 [sym__exprIsNot]; AGroup 3 2 syms_5;
     AGroup 17016 3 syms_94; AGroup 21035 4 syms_84; AGroup 21037 6 syms_86;
     AGroup 17014 13 syms_483]);
   (404403, 4, [AGroup 5 1 [sym_ppDirective]; AGroup 3 2 syms_5; AGroup 17386 4 syms_25;
     AGroup 17384 26 syms_134]);
   (404445, 14, [AGroup 5 1 [sym_ppDirective]; AGroup 16886 1 [anon_sym_LPAREN]; AGroup 21033 1 [sym_kHat];
     AGroup 21039 1 [sym_kFdiv]; AGroup 21041 1 [sym_kAs]; AGroup 21049 1 [sym_kIs];
     AGroup 21051 1 [sym_kNot]; SGroup 4416 1 [sym__exprIsNot]; AGroup 3 2 syms_5;
     AGroup 21045 2 syms_83; AGroup 21035 4 syms_84; AGroup 21047 5 syms_85;
     AGroup 16884 6 syms_485; AGroup 21037 6 syms_86]);
   (404507, 4, [AGroup 5 1 [sym_ppDirective]; AGroup 3 2 syms_5; AGroup 17398 4 syms_25;
     AGroup 17396 26 syms_134]);
   (404549, 5, [AGroup 5 1 [sym_ppDirective]; AGroup 21053 1 [sym_identifier]; AGroup 3 2 syms_5;
     AGroup 17342 4 syms_25; AGroup 17340 25 syms_154]);
   (404593, 5, [AGroup 5 1 [sym_ppDirective]; AGroup 21055 1 [sym_identifier]; AGroup 3 2 syms_5;
     AGroup 17348 4 syms_25; AGroup 17346 25 syms_154]);
   (404637, 4, [AGroup 5 1 [sym_ppDirective]; AGroup 3 2 syms_5; AGroup 17408 4 syms_25;
     AGroup 17406 26 syms_134]);
   (404679, 4, [AGroup 5 1 [sym_ppDirective]; AGroup 3 2 syms_5; AGroup 17412 4 syms_25;
     AGroup 17410 26 syms_134]);
   (404721, 7, [AGroup 5 1 [sym_ppDirective]; AGroup 16974 1 [anon_sym_COMMA];
     AGroup 16978 1 [anon_sym_DOT]; AGroup 3 2 syms_5; AGroup 16976 2 syms_97;
     AGroup 16981 2 syms_83; AGroup 16972 24 syms_486]);
   (404769, 10, [AGroup 5 1 [sym_ppDirective]; AGroup 20882 1 [sym_kFdiv]; AGroup 20884 1 [sym_kHat];
     AGroup 20886 1 [sym_kAs]; SGroup 5346 1 [sym__exprIsNot]; AGroup 3 2 syms_5;
     AGroup 16914 3 syms_94; AGroup 20878 4 syms_84; AGroup 20880 6 syms_86;
     AGroup 16912 13 syms_456]);
   (404823, 5, [AGroup 5 1 [sym_ppDirective]; SGroup 5025 1 [sym__exprIsNot]; AGroup 3 2 syms_5;
     AGroup 17032 4 syms_25; AGroup 17030 25 syms_154]);
   (404867, 4, [AGroup 5 1 [sym_ppDirective]; AGroup 3 2 syms_5; AGroup 11316 4 syms_25;
     AGroup 11311 26 syms_136]);
   (404909, 15, [AGroup 20009 1 [sym_kElse]; AGroup 20335 1 [sym_kHat]; AGroup 20339 1 [sym_kAs];
     AGroup 20355 1 [sym_kIs]; AGroup 20357 1 [sym_kNot]; AGroup 20973 1 [anon_sym_SEMI];
     SGroup 4961 1 [sym__exprIsNot]; AGroup 20331 2 syms_9; AGroup 20333 2 syms_258;
     AGroup 20341 2 syms_259; AGroup 20351 2 syms_83; AGroup 3 3 syms_1; AGroup 20337 5 syms_260;
     AGroup 20353 5 syms_85; AGroup 20859 5 syms_313])
  ].

(** States 8059 to 8158. *)
Definition small_runs_8059 : list small_run :=
  [
   (404973, 5, [AGroup 5 1 [sym_ppDirective]; SGroup 4537 1 [sym__exprIsNot]; AGroup 3 2 syms_5;
     AGroup 17032 4 syms_25; AGroup 17030 25 syms_157]);
   (405017, 4, [AGroup 5 1 [sym_ppDirective]; AGroup 3 2 syms_5; AGroup 17328 4 syms_25;
     AGroup 17326 26 syms_134]);
   (405059, 15, [AGroup 20009 1 [sym_kElse]; AGroup 20335 1 [sym_kHat]; AGroup 20339 1 [sym_kAs];
     AGroup 20355 1 [sym_kIs]; AGroup 20357 1 [sym_kNot]; AGroup 21015 1 [anon_sym_SEMI];
     SGroup 4961 1 [sym__exprIsNot]; AGroup 20331 2 syms_9; AGroup 20333 2 syms_258;
     AGroup 20341 2 syms_259; AGroup 20351 2 syms_83; AGroup 3 3 syms_1; AGroup 20337 5 syms_260;
     AGroup 20353 5 syms_85; AGroup 20859 5 syms_313]);
   (405123, 13, [AGroup 20440 1 [sym_kHat]; AGroup 20446 1 [sym_kFdiv]; AGroup 20448 1 [sym_kAs];
     AGroup 20454 1 [sym_kIs]; AGroup 20456 1 [sym_kNot]; AGroup 21057 1 [anon_sym_SEMI];
     SGroup 4332 1 [sym__exprIsNot]; AGroup 20450 2 syms_83; AGroup 3 3 syms_1;
     AGroup 20442 4 syms_84; AGroup 20452 5 syms_85; AGroup 20444 6 syms_86;
     AGroup 20898 6 syms_45]);
   (405183, 15, [AGroup 20009 1 [sym_kElse]; AGroup 20335 1 [sym_kHat]; AGroup 20339 1 [sym_kAs];
     AGroup 20355 1 [sym_kIs]; AGroup 20357 1 [sym_kNot]; AGroup 20659 1 [anon_sym_SEMI];
     SGroup 4961 1 [sym__exprIsNot]; AGroup 20331 2 syms_9; AGroup 20333 2 syms_258;
     AGroup 20341 2 syms_259; AGroup 20351 2 syms_83; AGroup 3 3 syms_1; AGroup 20337 5 syms_260;
     AGroup 20353 5 syms_85; AGroup 20859 5 syms_313]);
   (405247, 13, [AGroup 20440 1 [sym_kHat]; AGroup 20446 1 [sym_kFdiv]; AGroup 20448 1 [sym_kAs];
     AGroup 20454 1 [sym_kIs]; AGroup 20456 1 [sym_kNot]; AGroup 21059 1 [anon_sym_SEMI];
     SGroup 4332 1 [sym__exprIsNot]; AGroup 20450 2 syms_83; AGroup 3 3 syms_1;
     AGroup 20442 4 syms_84; AGroup 20452 5 syms_85; AGroup 20444 6 syms_86;
     AGroup 20914 6 syms_45]);
   (405307, 13, [AGroup 20440 1 [sym_kHat]; AGroup 20446 1 [sym_kFdiv]; AGroup 20448 1 [sym_kAs];
     AGroup 20454 1 [sym_kIs]; AGroup 20456 1 [sym_kNot]; AGroup 21061 1 [anon_sym_SEMI];
     SGroup 4332 1 [sym__exprIsNot]; AGroup 20450 2 syms_83; AGroup 3 3 syms_1;
     AGroup 20442 4 syms_84; AGroup 20452 5 syms_85; AGroup 20444 6 syms_86;
     AGroup 20933 6 syms_45]);
   (405367, 6, [AGroup 5 1 [sym_ppDirective]; AGroup 21063 1 [sym_kHat]; SGroup 5025 1 [sym__exprIsNot];
     AGroup 3 2 syms_5; AGroup 16914 4 syms_25; AGroup 16912 24 syms_487]);
   (405413, 6, [AGroup 5 1 [sym_ppDirective]; AGroup 21063 1 [sym_kHat]; SGroup 5025 1 [sym__exprIsNot];
     AGroup 3 2 syms_5; AGroup 16904 4 syms_25; AGroup 16902 24 syms_487]);
   (405459, 10, [AGroup 5 1 [sym_ppDirective]; AGroup 21063 1 [sym_kHat]; AGroup 21069 1 [sym_kFdiv];
     AGroup 21071 1 [sym_kAs]; SGroup 5025 1 [sym__exprIsNot]; AGroup 3 2 syms_5;
     AGroup 16914 3 syms_94; AGroup 21065 4 syms_84; AGroup 21067 6 syms_86;
     AGroup 16912 13 syms_488]);
   (405513, 9, [AGroup 5 1 [sym_ppDirective]; AGroup 21063 1 [sym_kHat]; AGroup 21069 1 [sym_kFdiv];
     AGroup 21071 1 [sym_kAs]; SGroup 5025 1 [sym__exprIsNot]; AGroup 3 2 syms_5;
     AGroup 16914 3 syms_94; AGroup 21067 6 syms_86; AGroup 16912 17 syms_489]);
   (405565, 7, [AGroup 5 1 [sym_ppDirective]; AGroup 16974 1 [anon_sym_COMMA];
     AGroup 16978 1 [anon_sym_DOT]; AGroup 3 2 syms_5; AGroup 16976 2 syms_97;
     AGroup 16981 2 syms_83; AGroup 16972 24 syms_490]);
   (405613, 5, [AGroup 5 1 [sym_ppDirective]; SGroup 5033 1 [sym_kDot]; AGroup 3 2 syms_5;
     AGroup 16970 4 syms_25; AGroup 16968 25 syms_154]);
   (405657, 5, [AGroup 5 1 [sym_ppDirective]; AGroup 21073 1 [sym_identifier]; AGroup 3 2 syms_5;
     AGroup 17342 4 syms_25; AGroup 17340 25 syms_157]);
   (405701, 5, [AGroup 5 1 [sym_ppDirective]; AGroup 21075 1 [sym_identifier]; AGroup 3 2 syms_5;
     AGroup 17348 4 syms_25; AGroup 17346 25 syms_157]);
   (405745, 9, [AGroup 5 1 [sym_ppDirective]; AGroup 17042 1 [anon_sym_DOT];
     AGroup 21077 1 [anon_sym_LBRACK]; AGroup 21079 1 [anon_sym_LPAREN];
     AGroup 21081 1 [sym_kLt]; SGroup 4542 1 [sym_kDot]; AGroup 3 2 syms_5;
     AGroup 17046 2 syms_101; AGroup 17036 23 syms_491]);
   (405797, 5, [AGroup 5 1 [sym_ppDirective]; SGroup 4576 1 [sym__exprIsNot]; AGroup 3 2 syms_5;
     AGroup 17032 4 syms_25; AGroup 17030 25 syms_158]);
   (405841, 4, [AGroup 5 1 [sym_ppDirective]; AGroup 3 2 syms_5; AGroup 16467 4 syms_25;
     AGroup 16465 26 syms_492]);
   (405883, 4, [AGroup 5 1 [sym_ppDirective]; AGroup 3 2 syms_5; AGroup 17550 4 syms_25;
     AGroup 17548 26 syms_134]);
   (405925, 6, [AGroup 5 1 [sym_ppDirective]; AGroup 21083 1 [sym_kHat]; SGroup 4537 1 [sym__exprIsNot];
     AGroup 3 2 syms_5; AGroup 16914 4 syms_25; AGroup 16912 24 syms_493]);
   (405971, 6, [AGroup 5 1 [sym_ppDirective]; AGroup 21083 1 [sym_kHat]; SGroup 4537 1 [sym__exprIsNot];
     AGroup 3 2 syms_5; AGroup 16904 4 syms_25; AGroup 16902 24 syms_493]);
   (406017, 10, [AGroup 5 1 [sym_ppDirective]; AGroup 21083 1 [sym_kHat]; AGroup 21089 1 [sym_kFdiv];
     AGroup 21091 1 [sym_kAs]; SGroup 4537 1 [sym__exprIsNot]; AGroup 3 2 syms_5;
     AGroup 16914 3 syms_94; AGroup 21085 4 syms_84; AGroup 21087 6 syms_86;
     AGroup 16912 13 syms_494]);
   (406071, 9, [AGroup 5 1 [sym_ppDirective]; AGroup 21083 1 [sym_kHat]; AGroup 21089 1 [sym_kFdiv];
     AGroup 21091 1 [sym_kAs]; SGroup 4537 1 [sym__exprIsNot]; AGroup 3 2 syms_5;
     AGroup 16914 3 syms_94; AGroup 21087 6 syms_86; AGroup 16912 17 syms_495]);
   (406123, 5, [AGroup 5 1 [sym_ppDirective]; SGroup 4542 1 [sym_kDot]; AGroup 3 2 syms_5;
     AGroup 16970 4 syms_25; AGroup 16968 25 syms_157]);
   (406167, 10, [AGroup 5 1 [sym_ppDirective]; AGroup 21083 1 [sym_kHat]; AGroup 21089 1 [sym_kFdiv];
     AGroup 21091 1 [sym_kAs]; SGroup 4537 1 [sym__exprIsNot]; AGroup 3 2 syms_5;
     AGroup 17016 3 syms_94; AGroup 21085 4 syms_84; AGroup 21087 6 syms_86;
     AGroup 17014 13 syms_494]);
   (406221, 10, [AGroup 5 1 [sym_ppDirective]; AGroup 21063 1 [sym_kHat]; AGroup 21069 1 [sym_kFdiv];
     AGroup 21071 1 [sym_kAs]; SGroup 5025 1 [sym__exprIsNot]; AGroup 3 2 syms_5;
     AGroup 17016 3 syms_94; AGroup 21065 4 syms_84; AGroup 21067 6 syms_86;
     AGroup 17014 13 syms_488]);
   (406275, 4, [AGroup 5 1 [sym_ppDirective]; AGroup 3 2 syms_5; AGroup 17592 4 syms_25;
     AGroup 17590 26 syms_134]);
   (406317, 14, [AGroup 5 1 [sym_ppDirective]; AGroup 16886 1 [anon_sym_LPAREN]; AGroup 21083 1 [sym_kHat];
     AGroup 21089 1 [sym_kFdiv]; AGroup 21091 1 [sym_kAs]; AGroup 21097 1 [sym_kIs];
     AGroup 21099 1 [sym_kNot]; SGroup 4537 1 [sym__exprIsNot]; AGroup 3 2 syms_5;
     AGroup 21093 2 syms_83; AGroup 21085 4 syms_84; AGroup 21095 5 syms_85;
     AGroup 16884 6 syms_496; AGroup 21087 6 syms_86]);
   (406379, 4, [AGroup 5 1 [sym_ppDirective]; AGroup 3 2 syms_5; AGroup 17082 4 syms_25;
     AGroup 17080 26 syms_134]);
   (406421, 4, [AGroup 5 1 [sym_ppDirective]; AGroup 3 2 syms_5; AGroup 17096 4 syms_25;
     AGroup 17094 26 syms_134]);
   (406463, 4, [AGroup 5 1 [sym_ppDirective]; AGroup 3 2 syms_5; AGroup 17108 4 syms_25;
     AGroup 17106 26 syms_134]);
   (406505, 4, [AGroup 5 1 [sym_ppDirective]; AGroup 3 2 syms_5; AGroup 17116 4 syms_25;
     AGroup 17114 26 syms_134]);
   (406547, 4, [AGroup 5 1 [sym_ppDirective]; AGroup 3 2 syms_5; AGroup 17120 4 syms_25;
     AGroup 17118 26 syms_134]);
   (406589, 5, [AGroup 5 1 [sym_ppDirective]; AGroup 21101 1 [sym_identifier]; AGroup 3 2 syms_5;
     AGroup 17342 4 syms_25; AGroup 17340 25 syms_158]);
   (406633, 5, [AGroup 5 1 [sym_ppDirective]; AGroup 21103 1 [sym_identifier]; AGroup 3 2 syms_5;
     AGroup 17348 4 syms_25; AGroup 17346 25 syms_158]);
   (406677, 15, [AGroup 20009 1 [sym_kElse]; AGroup 20335 1 [sym_kHat]; AGroup 20339 1 [sym_kAs];
     AGroup 20355 1 [sym_kIs]; AGroup 20357 1 [sym_kNot]; AGroup 21043 1 [anon_sym_SEMI];
     SGroup 4961 1 [sym__exprIsNot]; AGroup 20331 2 syms_9; AGroup 20333 2 syms_258;
     AGroup 20341 2 syms_259; AGroup 20351 2 syms_83; AGroup 3 3 syms_1; AGroup 20337 5 syms_260;
     AGroup 20353 5 syms_85; AGroup 20859 5 syms_313]);
   (406741, 9, [AGroup 5 1 [sym_ppDirective]; AGroup 17042 1 [anon_sym_DOT];
     AGroup 21105 1 [anon_sym_LBRACK]; AGroup 21107 1 [anon_sym_LPAREN];
     AGroup 21109 1 [sym_kLt]; SGroup 4580 1 [sym_kDot]; AGroup 3 2 syms_5;
     AGroup 17046 2 syms_101; AGroup 17036 23 syms_497]);
   (406793, 4, [AGroup 5 1 [sym_ppDirective]; AGroup 3 2 syms_5; AGroup 17124 4 syms_25;
     AGroup 17122 26 syms_134]);
   (406835, 4, [AGroup 5 1 [sym_ppDirective]; AGroup 3 2 syms_5; AGroup 17128 4 syms_25;
     AGroup 17126 26 syms_134]);
   (406877, 6, [AGroup 5 1 [sym_ppDirective]; AGroup 21111 1 [sym_kHat]; SGroup 4576 1 [sym__exprIsNot];
     AGroup 3 2 syms_5; AGroup 16914 4 syms_25; AGroup 16912 24 syms_498]);
   (406923, 6, [AGroup 5 1 [sym_ppDirective]; AGroup 21111 1 [sym_kHat]; SGroup 4576 1 [sym__exprIsNot];
     AGroup 3 2 syms_5; AGroup 16904 4 syms_25; AGroup 16902 24 syms_498]);
   (406969, 10, [AGroup 5 1 [sym_ppDirective]; AGroup 21111 1 [sym_kHat]; AGroup 21117 1 [sym_kFdiv];
     AGroup 21119 1 [sym_kAs]; SGroup 4576 1 [sym__exprIsNot]; AGroup 3 2 syms_5;
     AGroup 16914 3 syms_94; AGroup 21113 4 syms_84; AGroup 21115 6 syms_86;
     AGroup 16912 13 syms_499]);
   (407023, 9, [AGroup 5 1 [sym_ppDirective]; AGroup 21111 1 [sym_kHat]; AGroup 21117 1 [sym_kFdiv];
     AGroup 21119 1 [sym_kAs]; SGroup 4576 1 [sym__exprIsNot]; AGroup 3 2 syms_5;
     AGroup 16914 3 syms_94; AGroup 21115 6 syms_86; AGroup 16912 17 syms_500]);
   (407075, 6, [AGroup 5 1 [sym_ppDirective]; AGroup 3 2 syms_5; AGroup 16976 2 syms_97;
     AGroup 16978 2 syms_298; AGroup 16981 2 syms_83; AGroup 16972 24 syms_501]);
   (407121, 5, [AGroup 5 1 [sym_ppDirective]; SGroup 4580 1 [sym_kDot]; AGroup 3 2 syms_5;
     AGroup 16970 4 syms_25; AGroup 16968 25 syms_158]);
   (407165, 10, [AGroup 5 1 [sym_ppDirective]; AGroup 21111 1 [sym_kHat]; AGroup 21117 1 [sym_kFdiv];
     AGroup 21119 1 [sym_kAs]; SGroup 4576 1 [sym__exprIsNot]; AGroup 3 2 syms_5;
     AGroup 17016 3 syms_94; AGroup 21113 4 syms_84; AGroup 21115 6 syms_86;
     AGroup 17014 13 syms_499]);
   (407219, 4, [AGroup 5 1 [sym_ppDirective]; AGroup 3 2 syms_5; AGroup 17154 4 syms_25;
     AGroup 17152 26 syms_134]);
   (407261, 4, [AGroup 5 1 [sym_ppDirective]; AGroup 3 2 syms_5; AGroup 17158 4 syms_25;
     AGroup 17156 26 syms_134]);
   (407303, 14, [AGroup 5 1 [sym_ppDirective]; AGroup 16886 1 [anon_sym_LPAREN]; AGroup 21111 1 [sym_kHat];
     AGroup 21117 1 [sym_kFdiv]; AGroup 21119 1 [sym_kAs]; AGroup 21125 1 [sym_kIs];
     AGroup 21127 1 [sym_kNot]; SGroup 4576 1 [sym__exprIsNot]; AGroup 3 2 syms_5;
     AGroup 21121 2 syms_83; AGroup 21113 4 syms_84; AGroup 21123 5 syms_85;
     AGroup 16884 6 syms_502; AGroup 21115 6 syms_86]);
   (407365, 7, [AGroup 5 1 [sym_ppDirective]; AGroup 16974 1 [anon_sym_COMMA];
     AGroup 16978 1 [anon_sym_DOT]; AGroup 3 2 syms_5; AGroup 16976 2 syms_97;
     AGroup 16981 2 syms_83; AGroup 16972 24 syms_503]);
   (407413, 4, [AGroup 5 1 [sym_ppDirective]; AGroup 3 2 syms_5; AGroup 17172 4 syms_25;
     AGroup 17170 26 syms_134]);
   (407455, 7, [AGroup 5 1 [sym_ppDirective]; AGroup 16974 1 [anon_sym_COMMA];
     AGroup 16978 1 [anon_sym_DOT]; AGroup 3 2 syms_5; AGroup 16976 2 syms_97;
     AGroup 16981 2 syms_83; AGroup 16972 24 syms_504]);
   (407503, 9, [AGroup 5 1 [sym_ppDirective]; AGroup 20882 1 [sym_kFdiv]; AGroup 20884 1 [sym_kHat];
     AGroup 20886 1 [sym_kAs]; SGroup 5346 1 [sym__exprIsNot]; AGroup 3 2 syms_5;
     AGroup 16914 3 syms_94; AGroup 20880 6 syms_86; AGroup 16912 17 syms_505]);
   (407555, 15, [AGroup 20009 1 [sym_kElse]; AGroup 20335 1 [sym_kHat]; AGroup 20339 1 [sym_kAs];
     AGroup 20355 1 [sym_kIs]; AGroup 20357 1 [sym_kNot]; AGroup 20943 1 [anon_sym_SEMI];
     SGroup 4961 1 [sym__exprIsNot]; AGroup 20331 2 syms_9; AGroup 20333 2 syms_258;
     AGroup 20341 2 syms_259; AGroup 20351 2 syms_83; AGroup 3 3 syms_1; AGroup 20337 5 syms_260;
     AGroup 20353 5 syms_85; AGroup 20859 5 syms_313]);
   (407619, 14, [AGroup 5 1 [sym_ppDirective]; AGroup 16886 1 [anon_sym_LPAREN]; AGroup 21063 1 [sym_kHat];
     AGroup 21069 1 [sym_kFdiv]; AGroup 21071 1 [sym_kAs]; AGroup 21133 1 [sym_kIs];
     AGroup 21135 1 [sym_kNot]; SGroup 5025 1 [sym__exprIsNot]; AGroup 3 2 syms_5;
     AGroup 21129 2 syms_83; AGroup 21065 4 syms_84; AGroup 21131 5 syms_85;
     AGroup 16884 6 syms_506; AGroup 21067 6 syms_86]);
   (407681, 15, [AGroup 20009 1 [sym_kElse]; AGroup 20335 1 [sym_kHat]; AGroup 20339 1 [sym_kAs];
     AGroup 20355 1 [sym_kIs]; AGroup 20357 1 [sym_kNot]; AGroup 20659 1 [anon_sym_SEMI];
     SGroup 4961 1 [sym__exprIsNot]; AGroup 20331 2 syms_9; AGroup 20333 2 syms_258;
     AGroup 20341 2 syms_259; AGroup 20351 2 syms_83; AGroup 3 3 syms_1; AGroup 20337 5 syms_260;
     AGroup 20353 5 syms_85; AGroup 20859 5 syms_313]);
   (407745, 4, [AGroup 5 1 [sym_ppDirective]; AGroup 3 2 syms_5; AGroup 17108 4 syms_25;
     AGroup 17106 26 syms_138]);
   (407787, 5, [AGroup 5 1 [sym_ppDirective]; SGroup 4914 1 [sym__exprIsNot]; AGroup 3 2 syms_5;
     AGroup 17032 4 syms_25; AGroup 17030 25 syms_161]);
   (407831, 4, [AGroup 5 1 [sym_ppDirective]; AGroup 3 2 syms_5; AGroup 16467 4 syms_25;
     AGroup 16465 26 syms_507]);
   (407873, 4, [AGroup 5 1 [sym_ppDirective]; AGroup 3 2 syms_5; AGroup 16467 4 syms_25;
     AGroup 16465 26 syms_508]);
   (407915, 5, [AGroup 5 1 [sym_ppDirective]; SGroup 5354 1 [sym_kDot]; AGroup 3 2 syms_5;
     AGroup 16970 4 syms_25; AGroup 16968 25 syms_163]);
   (407959, 4, [AGroup 5 1 [sym_ppDirective]; AGroup 3 2 syms_5; AGroup 17592 4 syms_25;
     AGroup 17590 26 syms_136]);
   (408001, 4, [AGroup 5 1 [sym_ppDirective]; AGroup 3 2 syms_5; AGroup 17116 4 syms_25;
     AGroup 17114 26 syms_138]);
   (408043, 4, [AGroup 5 1 [sym_ppDirective]; AGroup 3 2 syms_5; AGroup 17242 4 syms_25;
     AGroup 17240 26 syms_134]);
   (408085, 4, [AGroup 5 1 [sym_ppDirective]; AGroup 3 2 syms_5; AGroup 17120 4 syms_25;
     AGroup 17118 26 syms_138]);
   (408127, 4, [AGroup 5 1 [sym_ppDirective]; AGroup 3 2 syms_5; AGroup 17082 4 syms_25;
     AGroup 17080 26 syms_136]);
   (408169, 4, [AGroup 5 1 [sym_ppDirective]; AGroup 3 2 syms_5; AGroup 17124 4 syms_25;
     AGroup 17122 26 syms_138]);
   (408211, 4, [AGroup 5 1 [sym_ppDirective]; AGroup 3 2 syms_5; AGroup 17128 4 syms_25;
     AGroup 17126 26 syms_138]);
   (408253, 4, [AGroup 5 1 [sym_ppDirective]; AGroup 3 2 syms_5; AGroup 17154 4 syms_25;
     AGroup 17152 26 syms_138]);
   (408295, 15, [AGroup 20009 1 [sym_kUntil]; AGroup 20423 1 [sym_kHat]; AGroup 20427 1 [sym_kAs];
     AGroup 20429 1 [sym_kIs]; AGroup 20431 1 [sym_kNot]; AGroup 20750 1 [anon_sym_SEMI];
     SGroup 4635 1 [sym__exprIsNot]; AGroup 20415 2 syms_83; AGroup 20419 2 syms_9;
     AGroup 20421 2 syms_258; AGroup 20433 2 syms_259; AGroup 3 3 syms_1; AGroup 20417 5 syms_85;
     AGroup 20425 5 syms_260; AGroup 21137 5 syms_313]);
   (408359, 4, [AGroup 5 1 [sym_ppDirective]; AGroup 3 2 syms_5; AGroup 17328 4 syms_25;
     AGroup 17326 26 syms_138]);
   (408401, 4, [AGroup 5 1 [sym_ppDirective]; AGroup 3 2 syms_5; AGroup 17096 4 syms_25;
     AGroup 17094 26 syms_136]);
   (408443, 4, [AGroup 5 1 [sym_ppDirective]; AGroup 3 2 syms_5; AGroup 17108 4 syms_25;
     AGroup 17106 26 syms_136]);
   (408485, 4, [AGroup 5 1 [sym_ppDirective]; AGroup 3 2 syms_5; AGroup 17372 4 syms_25;
     AGroup 17370 26 syms_136]);
   (408527, 4, [AGroup 5 1 [sym_ppDirective]; AGroup 3 2 syms_5; AGroup 17116 4 syms_25;
     AGroup 17114 26 syms_136]);
   (408569, 13, [AGroup 20335 1 [sym_kHat]; AGroup 20339 1 [sym_kAs]; AGroup 20355 1 [sym_kIs];
     AGroup 20357 1 [sym_kNot]; SGroup 4961 1 [sym__exprIsNot]; AGroup 20331 2 syms_9;
     AGroup 20333 2 syms_258; AGroup 20341 2 syms_259; AGroup 20351 2 syms_83; AGroup 3 3 syms_1;
     AGroup 20337 5 syms_260; AGroup 20353 5 syms_85; AGroup 17936 7 syms_48]);
   (408629, 4, [AGroup 5 1 [sym_ppDirective]; AGroup 3 2 syms_5; AGroup 17120 4 syms_25;
     AGroup 17118 26 syms_136]);
   (408671, 4, [AGroup 5 1 [sym_ppDirective]; AGroup 3 2 syms_5; AGroup 17124 4 syms_25;
     AGroup 17122 26 syms_136]);
   (408713, 10, [AGroup 5 1 [sym_ppDirective]; AGroup 4623 1 [anon_sym_LBRACK];
     AGroup 4628 1 [aux_sym_ppUsesBlock_token1]; AGroup 20863 1 [sym_identifier];
     SGroup 36 1 [sym__ppIf]; SGroup 12776 1 [aux_sym_rttiAttributes_repeat2];
     SGroup 15607 1 [sym_rttiAttributes]; AGroup 3 2 syms_5; SGroup 7930 3 syms_444;
     AGroup 4621 21 syms_452]);
   (408767, 13, [AGroup 20335 1 [sym_kHat]; AGroup 20339 1 [sym_kAs]; AGroup 20355 1 [sym_kIs];
     AGroup 20357 1 [sym_kNot]; SGroup 4961 1 [sym__exprIsNot]; AGroup 20331 2 syms_9;
     AGroup 20333 2 syms_258; AGroup 20341 2 syms_259; AGroup 20351 2 syms_83; AGroup 3 3 syms_1;
     AGroup 20337 5 syms_260; AGroup 20353 5 syms_85; AGroup 17938 7 syms_48]);
   (408827, 4, [AGroup 5 1 [sym_ppDirective]; AGroup 3 2 syms_5; AGroup 17386 4 syms_25;
     AGroup 17384 26 syms_138]);
   (408869, 15, [AGroup 20009 1 [sym_kElse]; AGroup 20335 1 [sym_kHat]; AGroup 20339 1 [sym_kAs];
     AGroup 20355 1 [sym_kIs]; AGroup 20357 1 [sym_kNot]; AGroup 20961 1 [anon_sym_SEMI];
     SGroup 4961 1 [sym__exprIsNot]; AGroup 20331 2 syms_9; AGroup 20333 2 syms_258;
     AGroup 20341 2 syms_259; AGroup 20351 2 syms_83; AGroup 3 3 syms_1; AGroup 20337 5 syms_260;
     AGroup 20353 5 syms_85; AGroup 20859 5 syms_313]);
   (408933, 4, [AGroup 5 1 [sym_ppDirective]; AGroup 3 2 syms_5; AGroup 17242 4 syms_25;
     AGroup 17240 26 syms_138]);
   (408975, 4, [AGroup 5 1 [sym_ppDirective]; AGroup 3 2 syms_5; AGroup 17256 4 syms_25;
     AGroup 17254 26 syms_134]);
   (409017, 4, [AGroup 5 1 [sym_ppDirective]; AGroup 3 2 syms_5; AGroup 17128 4 syms_25;
     AGroup 17126 26 syms_136]);
   (409059, 13, [AGroup 20377 1 [sym_kHat]; AGroup 20381 1 [sym_kAs]; AGroup 20537 1 [sym_kIs];
     AGroup 20539 1 [sym_kNot]; SGroup 4521 1 [sym__exprIsNot]; AGroup 20373 2 syms_9;
     AGroup 20375 2 syms_258; AGroup 20383 2 syms_259; AGroup 20533 2 syms_83; AGroup 3 3 syms_1;
     AGroup 20379 5 syms_260; AGroup 20535 5 syms_85; AGroup 17938 7 syms_51]);
   (409119, 4, [AGroup 5 1 [sym_ppDirective]; AGroup 3 2 syms_5; AGroup 16467 4 syms_25;
     AGroup 16465 26 syms_509]);
   (409161, 4, [AGroup 5 1 [sym_ppDirective]; AGroup 3 2 syms_5; AGroup 17154 4 syms_25;
     AGroup 17152 26 syms_136]);
   (409203, 7, [AGroup 5 1 [sym_ppDirective]; AGroup 16974 1 [anon_sym_COMMA];
     AGroup 16978 1 [anon_sym_DOT]; AGroup 3 2 syms_5; AGroup 16976 2 syms_97;
     AGroup 16981 2 syms_83; AGroup 16972 24 syms_510]);
   (409251, 5, [AGroup 5 1 [sym_ppDirective]; AGroup 21139 1 [sym_identifier]; AGroup 3 2 syms_5;
     AGroup 17342 4 syms_25; AGroup 17340 25 syms_161]);
   (409295, 5, [AGroup 5 1 [sym_ppDirective]; AGroup 21141 1 [sym_identifier]; AGroup 3 2 syms_5;
     AGroup 17348 4 syms_25; AGroup 17346 25 syms_161]);
   (409339, 9, [AGroup 5 1 [sym_ppDirective]; AGroup 17042 1 [anon_sym_DOT];
     AGroup 21143 1 [anon_sym_LBRACK]; AGroup 21145 1 [anon_sym_LPAREN];
     AGroup 21147 1 [sym_kLt]; SGroup 4942 1 [sym_kDot]; AGroup 3 2 syms_5;
     AGroup 17046 2 syms_101; AGroup 17036 23 syms_511]);
   (409391, 4, [AGroup 5 1 [sym_ppDirective]; AGroup 3 2 syms_5; AGroup 17158 4 syms_25;
     AGroup 17156 26 syms_136]);
   (409433, 4, [AGroup 5 1 [sym_ppDirective]; AGroup 3 2 syms_5; AGroup 18831 4 syms_25;
     AGroup 18829 26 syms_138]);
   (409475, 10, [AGroup 5 1 [sym_ppDirective]; AGroup 5064 1 [anon_sym_LBRACK];
     AGroup 5069 1 [aux_sym_ppUsesBlock_token1]; AGroup 20861 1 [sym_identifier];
     SGroup 40 1 [sym__ppIf]; SGroup 12776 1 [aux_sym_rttiAttributes_repeat2];
     SGroup 15642 1 [sym_rttiAttributes]; AGroup 3 2 syms_5; SGroup 7927 3 syms_444;
     AGroup 5062 21 syms_451]);
   (409529, 4, [AGroup 5 1 [sym_ppDirective]; AGroup 3 2 syms_5; AGroup 17172 4 syms_25;
     AGroup 17170 26 syms_136]);
   (409571, 4, [AGroup 5 1 [sym_ppDirective]; AGroup 3 2 syms_5; AGroup 17358 4 syms_25;
     AGroup 17356 26 syms_138]);
   (409613, 6, [AGroup 5 1 [sym_ppDirective]; AGroup 21149 1 [sym_kHat]; SGroup 4914 1 [sym__exprIsNot];
     AGroup 3 2 syms_5; AGroup 16914 4 syms_25; AGroup 16912 24 syms_512]);
   (409659, 4, [AGroup 5 1 [sym_ppDirective]; AGroup 3 2 syms_5; AGroup 17362 4 syms_25;
     AGroup 17360 26 syms_138]);
   (409701, 14, [AGroup 20329 1 [sym_kHat]; AGroup 20347 1 [sym_kFdiv]; AGroup 20349 1 [sym_kAs];
     AGroup 20369 1 [sym_kIs]; AGroup 20371 1 [sym_kNot]; AGroup 20796 1 [anon_sym_SEMI];
     AGroup 21151 1 [sym_kRaiseAt]; SGroup 5095 1 [sym__exprIsNot]; AGroup 20365 2 syms_83;
     AGroup 3 3 syms_1; AGroup 20343 4 syms_84; AGroup 20367 5 syms_85; AGroup 20764 5 syms_60;
     AGroup 20345 6 syms_86])
  ].

(** States 8159 to 8258. *)
Definition small_runs_8159 : list small_run :=
  [
   (409763, 6, [AGroup 5 1 [sym_ppDirective]; AGroup 21149 1 [sym_kHat]; SGroup 4914 1 [sym__exprIsNot];
     AGroup 3 2 syms_5; AGroup 16904 4 syms_25; AGroup 16902 24 syms_512]);
   (409809, 10, [AGroup 5 1 [sym_ppDirective]; AGroup 21149 1 [sym_kHat]; AGroup 21157 1 [sym_kFdiv];
     AGroup 21159 1 [sym_kAs]; SGroup 4914 1 [sym__exprIsNot]; AGroup 3 2 syms_5;
     AGroup 16914 3 syms_94; AGroup 21153 4 syms_84; AGroup 21155 6 syms_86;
     AGroup 16912 13 syms_513]);
   (409863, 9, [AGroup 5 1 [sym_ppDirective]; AGroup 21149 1 [sym_kHat]; AGroup 21157 1 [sym_kFdiv];
     AGroup 21159 1 [sym_kAs]; SGroup 4914 1 [sym__exprIsNot]; AGroup 3 2 syms_5;
     AGroup 16914 3 syms_94; AGroup 21155 6 syms_86; AGroup 16912 17 syms_514]);
   (409915, 4, [AGroup 5 1 [sym_ppDirective]; AGroup 3 2 syms_5; AGroup 11316 4 syms_25;
     AGroup 11311 26 syms_138]);
   (409957, 5, [AGroup 5 1 [sym_ppDirective]; SGroup 4942 1 [sym_kDot]; AGroup 3 2 syms_5;
     AGroup 16970 4 syms_25; AGroup 16968 25 syms_161]);
   (410001, 4, [AGroup 5 1 [sym_ppDirective]; AGroup 3 2 syms_5; AGroup 16467 4 syms_25;
     AGroup 16465 26 syms_515]);
   (410043, 15, [AGroup 20009 1 [sym_kElse]; AGroup 20335 1 [sym_kHat]; AGroup 20339 1 [sym_kAs];
     AGroup 20355 1 [sym_kIs]; AGroup 20357 1 [sym_kNot]; AGroup 21021 1 [anon_sym_SEMI];
     SGroup 4961 1 [sym__exprIsNot]; AGroup 20331 2 syms_9; AGroup 20333 2 syms_258;
     AGroup 20341 2 syms_259; AGroup 20351 2 syms_83; AGroup 3 3 syms_1; AGroup 20337 5 syms_260;
     AGroup 20353 5 syms_85; AGroup 20859 5 syms_313]);
   (410107, 4, [AGroup 5 1 [sym_ppDirective]; AGroup 3 2 syms_5; AGroup 17372 4 syms_25;
     AGroup 17370 26 syms_138]);
   (410149, 5, [AGroup 5 1 [sym_ppDirective]; AGroup 21161 1 [sym_identifier]; AGroup 3 2 syms_5;
     AGroup 17342 4 syms_25; AGroup 17340 25 syms_143]);
   (410193, 5, [AGroup 5 1 [sym_ppDirective]; AGroup 21163 1 [sym_identifier]; AGroup 3 2 syms_5;
     AGroup 17348 4 syms_25; AGroup 17346 25 syms_143]);
   (410237, 10, [AGroup 5 1 [sym_ppDirective]; AGroup 21149 1 [sym_kHat]; AGroup 21157 1 [sym_kFdiv];
     AGroup 21159 1 [sym_kAs]; SGroup 4914 1 [sym__exprIsNot]; AGroup 3 2 syms_5;
     AGroup 17016 3 syms_94; AGroup 21153 4 syms_84; AGroup 21155 6 syms_86;
     AGroup 17014 13 syms_513]);
   (410291, 9, [AGroup 5 1 [sym_ppDirective]; AGroup 17042 1 [anon_sym_DOT];
     AGroup 21165 1 [anon_sym_LBRACK]; AGroup 21167 1 [anon_sym_LPAREN];
     AGroup 21169 1 [sym_kLt]; SGroup 4236 1 [sym_kDot]; AGroup 3 2 syms_5;
     AGroup 17046 2 syms_101; AGroup 17036 23 syms_516]);
   (410343, 14, [AGroup 5 1 [sym_ppDirective]; AGroup 16886 1 [anon_sym_LPAREN]; AGroup 21149 1 [sym_kHat];
     AGroup 21157 1 [sym_kFdiv]; AGroup 21159 1 [sym_kAs]; AGroup 21175 1 [sym_kIs];
     AGroup 21177 1 [sym_kNot]; SGroup 4914 1 [sym__exprIsNot]; AGroup 3 2 syms_5;
     AGroup 21171 2 syms_83; AGroup 21153 4 syms_84; AGroup 21173 5 syms_85;
     AGroup 16884 6 syms_517; AGroup 21155 6 syms_86]);
   (410405, 4, [AGroup 5 1 [sym_ppDirective]; AGroup 3 2 syms_5; AGroup 17398 4 syms_25;
     AGroup 17396 26 syms_138]);
   (410447, 15, [AGroup 20009 1 [sym_kElse]; AGroup 20335 1 [sym_kHat]; AGroup 20339 1 [sym_kAs];
     AGroup 20355 1 [sym_kIs]; AGroup 20357 1 [sym_kNot]; AGroup 20900 1 [anon_sym_SEMI];
     SGroup 4961 1 [sym__exprIsNot]; AGroup 20331 2 syms_9; AGroup 20333 2 syms_258;
     AGroup 20341 2 syms_259; AGroup 20351 2 syms_83; AGroup 3 3 syms_1; AGroup 20337 5 syms_260;
     AGroup 20353 5 syms_85; AGroup 20859 5 syms_313]);
   (410511, 4, [AGroup 5 1 [sym_ppDirective]; AGroup 3 2 syms_5; AGroup 17386 4 syms_25;
     AGroup 17384 25 syms_163]);
   (410552, 4, [AGroup 5 1 [sym_ppDirective]; AGroup 3 2 syms_5; AGroup 17154 4 syms_25;
     AGroup 17152 25 syms_163]);
   (410593, 5, [AGroup 5 1 [sym_ppDirective]; SGroup 4805 1 [sym__exprIsNot]; AGroup 3 2 syms_5;
     AGroup 17032 4 syms_25; AGroup 17030 24 syms_175]);
   (410636, 4, [AGroup 5 1 [sym_ppDirective]; AGroup 3 2 syms_5; AGroup 17380 4 syms_25;
     AGroup 17378 25 syms_144]);
   (410677, 5, [AGroup 5 1 [sym_ppDirective]; SGroup 4366 1 [sym_kDot]; AGroup 3 2 syms_5;
     AGroup 16970 4 syms_25; AGroup 16968 24 syms_176]);
   (410720, 11, [AGroup 20690 1 [sym_kHat]; AGroup 20698 1 [sym_kAs]; AGroup 21179 1 [sym_kDo];
     SGroup 4677 1 [sym__exprIsNot]; AGroup 16914 2 syms_83; AGroup 20692 2 syms_9;
     AGroup 20694 2 syms_258; AGroup 20700 2 syms_259; AGroup 3 3 syms_1;
     AGroup 20696 5 syms_260; AGroup 16912 12 syms_518]);
   (410775, 4, [AGroup 5 1 [sym_ppDirective]; AGroup 3 2 syms_5; AGroup 17386 4 syms_25;
     AGroup 17384 25 syms_144]);
   (410816, 5, [AGroup 5 1 [sym_ppDirective]; SGroup 4300 1 [sym__exprIsNot]; AGroup 3 2 syms_5;
     AGroup 17032 4 syms_25; AGroup 17030 24 syms_170]);
   (410859, 4, [AGroup 5 1 [sym_ppDirective]; SGroup 11330 1 [sym_kDot]; AGroup 3 2 syms_5;
     AGroup 21181 28 syms_519]);
   (410900, 4, [AGroup 5 1 [sym_ppDirective]; AGroup 3 2 syms_5; AGroup 17398 4 syms_25;
     AGroup 17396 25 syms_144]);
   (410941, 4, [AGroup 5 1 [sym_ppDirective]; AGroup 3 2 syms_5; AGroup 17408 4 syms_25;
     AGroup 17406 25 syms_144]);
   (410982, 4, [AGroup 5 1 [sym_ppDirective]; AGroup 3 2 syms_5; AGroup 17242 5 syms_148;
     AGroup 17240 24 syms_149]);
   (411023, 11, [AGroup 20690 1 [sym_kHat]; AGroup 20698 1 [sym_kAs]; AGroup 21183 1 [sym_kDo];
     SGroup 4677 1 [sym__exprIsNot]; AGroup 16914 2 syms_83; AGroup 20692 2 syms_9;
     AGroup 20694 2 syms_258; AGroup 20700 2 syms_259; AGroup 3 3 syms_1;
     AGroup 20696 5 syms_260; AGroup 16912 12 syms_518]);
   (411078, 6, [AGroup 5 1 [sym_ppDirective]; AGroup 16978 1 [anon_sym_COMMA]; AGroup 3 2 syms_5;
     AGroup 16976 2 syms_97; AGroup 16981 3 syms_520; AGroup 16972 23 syms_521]);
   (411123, 4, [AGroup 5 1 [sym_ppDirective]; AGroup 3 2 syms_5; AGroup 17256 5 syms_148;
     AGroup 17254 24 syms_149]);
   (411164, 11, [AGroup 20690 1 [sym_kHat]; AGroup 20698 1 [sym_kAs]; AGroup 21185 1 [sym_kDo];
     SGroup 4677 1 [sym__exprIsNot]; AGroup 16914 2 syms_83; AGroup 20692 2 syms_9;
     AGroup 20694 2 syms_258; AGroup 20700 2 syms_259; AGroup 3 3 syms_1;
     AGroup 20696 5 syms_260; AGroup 16912 12 syms_518]);
   (411219, 4, [AGroup 5 1 [sym_ppDirective]; AGroup 3 2 syms_5; AGroup 17412 4 syms_25;
     AGroup 17410 25 syms_144]);
   (411260, 11, [AGroup 20690 1 [sym_kHat]; AGroup 20698 1 [sym_kAs]; AGroup 21187 1 [sym_kDo];
     SGroup 4677 1 [sym__exprIsNot]; AGroup 16914 2 syms_83; AGroup 20692 2 syms_9;
     AGroup 20694 2 syms_258; AGroup 20700 2 syms_259; AGroup 3 3 syms_1;
     AGroup 20696 5 syms_260; AGroup 16912 12 syms_518]);
   (411315, 4, [AGroup 5 1 [sym_ppDirective]; AGroup 3 2 syms_5; AGroup 17128 4 syms_25;
     AGroup 17126 25 syms_143]);
   (411356, 11, [AGroup 20690 1 [sym_kHat]; AGroup 20698 1 [sym_kAs]; AGroup 21189 1 [sym_kDo];
     SGroup 4677 1 [sym__exprIsNot]; AGroup 16914 2 syms_83; AGroup 20692 2 syms_9;
     AGroup 20694 2 syms_258; AGroup 20700 2 syms_259; AGroup 3 3 syms_1;
     AGroup 20696 5 syms_260; AGroup 16912 12 syms_518]);
   (411411, 4, [AGroup 5 1 [sym_ppDirective]; AGroup 3 2 syms_5; AGroup 17154 4 syms_25;
     AGroup 17152 25 syms_143]);
   (411452, 11, [AGroup 20690 1 [sym_kHat]; AGroup 20698 1 [sym_kAs]; AGroup 21191 1 [sym_kDo];
     SGroup 4677 1 [sym__exprIsNot]; AGroup 16914 2 syms_83; AGroup 20692 2 syms_9;
     AGroup 20694 2 syms_258; AGroup 20700 2 syms_259; AGroup 3 3 syms_1;
     AGroup 20696 5 syms_260; AGroup 16912 12 syms_518]);
   (411507, 4, [AGroup 5 1 [sym_ppDirective]; AGroup 3 2 syms_5; AGroup 17158 4 syms_25;
     AGroup 17156 25 syms_143]);
   (411548, 4, [AGroup 5 1 [sym_ppDirective]; AGroup 3 2 syms_5; AGroup 17172 4 syms_25;
     AGroup 17170 25 syms_143]);
   (411589, 4, [AGroup 5 1 [sym_ppDirective]; AGroup 3 2 syms_5; AGroup 17372 4 syms_25;
     AGroup 17370 25 syms_143]);
   (411630, 5, [AGroup 5 1 [sym_ppDirective]; AGroup 21193 1 [sym_identifier]; AGroup 3 2 syms_5;
     AGroup 17342 4 syms_25; AGroup 17340 24 syms_182]);
   (411673, 4, [AGroup 5 1 [sym_ppDirective]; AGroup 3 2 syms_5; AGroup 17328 4 syms_25;
     AGroup 17326 25 syms_153]);
   (411714, 5, [AGroup 5 1 [sym_ppDirective]; AGroup 21195 1 [sym_identifier]; AGroup 3 2 syms_5;
     AGroup 17348 4 syms_25; AGroup 17346 24 syms_182]);
   (411757, 4, [AGroup 5 1 [sym_ppDirective]; AGroup 3 2 syms_5; AGroup 18831 4 syms_25;
     AGroup 18829 25 syms_153]);
   (411798, 4, [AGroup 5 1 [sym_ppDirective]; AGroup 3 2 syms_5; AGroup 17358 4 syms_25;
     AGroup 17356 25 syms_153]);
   (411839, 4, [AGroup 5 1 [sym_ppDirective]; AGroup 3 2 syms_5; AGroup 17362 4 syms_25;
     AGroup 17360 25 syms_153]);
   (411880, 5, [AGroup 5 1 [sym_ppDirective]; SGroup 4455 1 [sym__exprIsNot]; AGroup 3 2 syms_5;
     AGroup 17032 4 syms_25; AGroup 17030 24 syms_179]);
   (411923, 4, [AGroup 5 1 [sym_ppDirective]; AGroup 3 2 syms_5; AGroup 11316 4 syms_25;
     AGroup 11311 25 syms_153]);
   (411964, 9, [AGroup 5 1 [sym_ppDirective]; AGroup 17042 1 [anon_sym_DOT];
     AGroup 21197 1 [anon_sym_LBRACK]; AGroup 21199 1 [anon_sym_LPAREN];
     AGroup 21201 1 [sym_kLt]; SGroup 4253 1 [sym_kDot]; AGroup 3 2 syms_5;
     AGroup 17046 2 syms_101; AGroup 17036 22 syms_522]);
   (412015, 11, [AGroup 20690 1 [sym_kHat]; AGroup 20698 1 [sym_kAs]; AGroup 21203 1 [sym_kDo];
     SGroup 4677 1 [sym__exprIsNot]; AGroup 16914 2 syms_83; AGroup 20692 2 syms_9;
     AGroup 20694 2 syms_258; AGroup 20700 2 syms_259; AGroup 3 3 syms_1;
     AGroup 20696 5 syms_260; AGroup 16912 12 syms_518]);
   (412070, 4, [AGroup 5 1 [sym_ppDirective]; AGroup 3 2 syms_5; AGroup 17372 4 syms_25;
     AGroup 17370 25 syms_153]);
   (412111, 14, [AGroup 20631 1 [sym_kHat]; AGroup 20639 1 [sym_kAs]; AGroup 20655 1 [sym_kIs];
     AGroup 20657 1 [sym_kNot]; AGroup 21021 1 [anon_sym_SEMI]; SGroup 4762 1 [sym__exprIsNot];
     AGroup 20633 2 syms_9; AGroup 20635 2 syms_258; AGroup 20641 2 syms_259;
     AGroup 20651 2 syms_83; AGroup 3 3 syms_1; AGroup 20637 5 syms_260; AGroup 20653 5 syms_85;
     AGroup 21205 5 syms_313]);
   (412172, 4, [AGroup 5 1 [sym_ppDirective]; AGroup 3 2 syms_5; AGroup 17550 4 syms_25;
     AGroup 17548 25 syms_144]);
   (412213, 4, [AGroup 5 1 [sym_ppDirective]; AGroup 3 2 syms_5; AGroup 17380 4 syms_25;
     AGroup 17378 25 syms_153]);
   (412254, 4, [AGroup 5 1 [sym_ppDirective]; AGroup 3 2 syms_5; AGroup 17386 4 syms_25;
     AGroup 17384 25 syms_153]);
   (412295, 11, [AGroup 20690 1 [sym_kHat]; AGroup 20698 1 [sym_kAs]; AGroup 21207 1 [sym_kDo];
     SGroup 4677 1 [sym__exprIsNot]; AGroup 16914 2 syms_83; AGroup 20692 2 syms_9;
     AGroup 20694 2 syms_258; AGroup 20700 2 syms_259; AGroup 3 3 syms_1;
     AGroup 20696 5 syms_260; AGroup 16912 12 syms_518]);
   (412350, 4, [AGroup 5 1 [sym_ppDirective]; AGroup 3 2 syms_5; AGroup 17398 4 syms_25;
     AGroup 17396 25 syms_153]);
   (412391, 4, [AGroup 5 1 [sym_ppDirective]; AGroup 3 2 syms_5; AGroup 17408 4 syms_25;
     AGroup 17406 25 syms_153]);
   (412432, 4, [AGroup 5 1 [sym_ppDirective]; AGroup 3 2 syms_5; AGroup 17412 4 syms_25;
     AGroup 17410 25 syms_153]);
   (412473, 4, [AGroup 5 1 [sym_ppDirective]; AGroup 3 2 syms_5; AGroup 17158 4 syms_25;
     AGroup 17156 25 syms_163]);
   (412514, 10, [AGroup 5 1 [sym_ppDirective]; AGroup 21213 1 [sym_kFdiv]; AGroup 21215 1 [sym_kHat];
     AGroup 21217 1 [sym_kAs]; SGroup 4347 1 [sym__exprIsNot]; AGroup 3 2 syms_5;
     AGroup 17016 3 syms_94; AGroup 21209 4 syms_84; AGroup 21211 6 syms_86;
     AGroup 17014 12 syms_523]);
   (412567, 14, [AGroup 20631 1 [sym_kHat]; AGroup 20639 1 [sym_kAs]; AGroup 20655 1 [sym_kIs];
     AGroup 20657 1 [sym_kNot]; AGroup 20900 1 [anon_sym_SEMI]; SGroup 4762 1 [sym__exprIsNot];
     AGroup 20633 2 syms_9; AGroup 20635 2 syms_258; AGroup 20641 2 syms_259;
     AGroup 20651 2 syms_83; AGroup 3 3 syms_1; AGroup 20637 5 syms_260; AGroup 20653 5 syms_85;
     AGroup 21205 5 syms_313]);
   (412628, 4, [AGroup 5 1 [sym_ppDirective]; AGroup 3 2 syms_5; AGroup 17380 4 syms_25;
     AGroup 17378 25 syms_143]);
   (412669, 12, [AGroup 5 1 [sym_ppDirective]; AGroup 783 1 [anon_sym_LBRACK];
     AGroup 788 1 [aux_sym_ppUsesBlock_token1]; AGroup 21219 1 [sym_identifier];
     AGroup 21221 1 [sym_kGeneric]; SGroup 20 1 [sym__ppIf]; SGroup 12030 1 [sym_rttiAttributes];
     SGroup 12404 1 [aux_sym_rttiAttributes_repeat2]; AGroup 3 2 syms_5; SGroup 8243 3 syms_320;
     SGroup 12305 3 syms_2; AGroup 781 16 syms_524]);
   (412726, 4, [AGroup 5 1 [sym_ppDirective]; AGroup 3 2 syms_5; AGroup 17550 4 syms_25;
     AGroup 17548 25 syms_153]);
   (412767, 4, [AGroup 5 1 [sym_ppDirective]; AGroup 3 2 syms_5; AGroup 17592 4 syms_25;
     AGroup 17590 25 syms_144]);
   (412808, 11, [AGroup 20690 1 [sym_kHat]; AGroup 20698 1 [sym_kAs]; AGroup 21224 1 [sym_kDo];
     SGroup 4677 1 [sym__exprIsNot]; AGroup 16914 2 syms_83; AGroup 20692 2 syms_9;
     AGroup 20694 2 syms_258; AGroup 20700 2 syms_259; AGroup 3 3 syms_1;
     AGroup 20696 5 syms_260; AGroup 16912 12 syms_518]);
   (412863, 4, [AGroup 5 1 [sym_ppDirective]; AGroup 3 2 syms_5; AGroup 17592 4 syms_25;
     AGroup 17590 25 syms_153]);
   (412904, 4, [AGroup 5 1 [sym_ppDirective]; AGroup 3 2 syms_5; AGroup 17082 4 syms_25;
     AGroup 17080 25 syms_153]);
   (412945, 8, [AGroup 20772 1 [anon_sym_DOT]; AGroup 20778 1 [sym_identifier]; SGroup 12033 1 [sym_kDot];
     AGroup 3 3 syms_1; AGroup 20774 3 syms_429; SGroup 11251 3 syms_2; SGroup 11492 3 syms_430;
     AGroup 20776 17 syms_431]);
   (412994, 4, [AGroup 5 1 [sym_ppDirective]; AGroup 3 2 syms_5; AGroup 17082 4 syms_25;
     AGroup 17080 25 syms_144]);
   (413035, 4, [AGroup 5 1 [sym_ppDirective]; AGroup 3 2 syms_5; AGroup 17096 4 syms_25;
     AGroup 17094 25 syms_153]);
   (413076, 4, [AGroup 5 1 [sym_ppDirective]; AGroup 3 2 syms_5; AGroup 17550 4 syms_25;
     AGroup 17548 25 syms_143]);
   (413117, 4, [AGroup 5 1 [sym_ppDirective]; AGroup 3 2 syms_5; AGroup 17108 4 syms_25;
     AGroup 17106 25 syms_153]);
   (413158, 4, [AGroup 5 1 [sym_ppDirective]; AGroup 3 2 syms_5; AGroup 17096 4 syms_25;
     AGroup 17094 25 syms_144]);
   (413199, 4, [AGroup 5 1 [sym_ppDirective]; AGroup 3 2 syms_5; AGroup 17116 4 syms_25;
     AGroup 17114 25 syms_153]);
   (413240, 4, [AGroup 5 1 [sym_ppDirective]; AGroup 3 2 syms_5; AGroup 17120 4 syms_25;
     AGroup 17118 25 syms_153]);
   (413281, 4, [AGroup 5 1 [sym_ppDirective]; AGroup 3 2 syms_5; AGroup 17124 4 syms_25;
     AGroup 17122 25 syms_153]);
   (413322, 11, [AGroup 20690 1 [sym_kHat]; AGroup 20698 1 [sym_kAs]; AGroup 21226 1 [sym_kDo];
     SGroup 4677 1 [sym__exprIsNot]; AGroup 16914 2 syms_83; AGroup 20692 2 syms_9;
     AGroup 20694 2 syms_258; AGroup 20700 2 syms_259; AGroup 3 3 syms_1;
     AGroup 20696 5 syms_260; AGroup 16912 12 syms_518]);
   (413377, 4, [AGroup 5 1 [sym_ppDirective]; AGroup 3 2 syms_5; AGroup 17372 4 syms_25;
     AGroup 17370 25 syms_163]);
   (413418, 4, [AGroup 5 1 [sym_ppDirective]; AGroup 3 2 syms_5; AGroup 17108 4 syms_25;
     AGroup 17106 25 syms_144]);
   (413459, 4, [AGroup 5 1 [sym_ppDirective]; AGroup 3 2 syms_5; AGroup 17128 4 syms_25;
     AGroup 17126 25 syms_153]);
   (413500, 4, [AGroup 5 1 [sym_ppDirective]; AGroup 3 2 syms_5; AGroup 17154 4 syms_25;
     AGroup 17152 25 syms_153]);
   (413541, 4, [AGroup 5 1 [sym_ppDirective]; AGroup 3 2 syms_5; AGroup 17158 4 syms_25;
     AGroup 17156 25 syms_153]);
   (413582, 12, [AGroup 5 1 [sym_ppDirective]; AGroup 863 1 [anon_sym_LBRACK];
     AGroup 868 1 [aux_sym_ppUsesBlock_token1]; AGroup 21219 1 [sym_identifier];
     AGroup 21228 1 [sym_kGeneric]; SGroup 20 1 [sym__ppIf]; SGroup 12030 1 [sym_rttiAttributes];
     SGroup 12404 1 [aux_sym_rttiAttributes_repeat2]; AGroup 3 2 syms_5; SGroup 8493 3 syms_320;
     SGroup 12305 3 syms_2; AGroup 861 16 syms_524]);
   (413639, 11, [AGroup 20690 1 [sym_kHat]; AGroup 20698 1 [sym_kAs]; AGroup 21231 1 [sym_kDo];
     SGroup 4677 1 [sym__exprIsNot]; AGroup 16914 2 syms_83; AGroup 20692 2 syms_9;
     AGroup 20694 2 syms_258; AGroup 20700 2 syms_259; AGroup 3 3 syms_1;
     AGroup 20696 5 syms_260; AGroup 16912 12 syms_518]);
   (413694, 4, [AGroup 5 1 [sym_ppDirective]; AGroup 3 2 syms_5; AGroup 17172 4 syms_25;
     AGroup 17170 25 syms_153]);
   (413735, 4, [AGroup 5 1 [sym_ppDirective]; AGroup 3 2 syms_5; AGroup 17386 4 syms_25;
     AGroup 17384 25 syms_143]);
   (413776, 12, [AGroup 5 1 [sym_ppDirective]; AGroup 783 1 [anon_sym_LBRACK];
     AGroup 788 1 [aux_sym_ppUsesBlock_token1]; AGroup 21233 1 [sym_identifier];
     AGroup 21235 1 [sym_kGeneric]; SGroup 25 1 [sym__ppIf]; SGroup 12032 1 [sym_rttiAttributes];
     SGroup 12404 1 [aux_sym_rttiAttributes_repeat2]; AGroup 3 2 syms_5; SGroup 8261 3 syms_320;
     SGroup 12321 3 syms_2; AGroup 781 16 syms_525]);
   (413833, 5, [AGroup 5 1 [sym_ppDirective]; AGroup 21238 1 [sym_identifier]; AGroup 3 2 syms_5;
     AGroup 17342 4 syms_25; AGroup 17340 24 syms_179]);
   (413876, 5, [AGroup 5 1 [sym_ppDirective]; AGroup 21240 1 [sym_identifier]; AGroup 3 2 syms_5;
     AGroup 17348 4 syms_25; AGroup 17346 24 syms_179]);
   (413919, 11, [AGroup 20690 1 [sym_kHat]; AGroup 20698 1 [sym_kAs]; AGroup 21242 1 [sym_kDo];
     SGroup 4677 1 [sym__exprIsNot]; AGroup 16914 2 syms_83; AGroup 20692 2 syms_9;
     AGroup 20694 2 syms_258; AGroup 20700 2 syms_259; AGroup 3 3 syms_1;
     AGroup 20696 5 syms_260; AGroup 16912 12 syms_518]);
   (413974, 4, [AGroup 5 1 [sym_ppDirective]; AGroup 3 2 syms_5; AGroup 17116 4 syms_25;
     AGroup 17114 25 syms_144]);
   (414015, 9, [AGroup 5 1 [sym_ppDirective]; AGroup 17042 1 [anon_sym_DOT];
     AGroup 21244 1 [anon_sym_LBRACK]; AGroup 21246 1 [anon_sym_LPAREN];
     AGroup 21248 1 [sym_kLt]; SGroup 4458 1 [sym_kDot]; AGroup 3 2 syms_5;
     AGroup 17046 2 syms_101; AGroup 17036 22 syms_526]);
   (414066, 7, [AGroup 5 1 [sym_ppDirective]; AGroup 16974 1 [anon_sym_COMMA];
     AGroup 16978 1 [anon_sym_DOT]; AGroup 3 2 syms_5; AGroup 16976 2 syms_97;
     AGroup 16981 2 syms_83; AGroup 16972 23 syms_527]);
   (414113, 11, [AGroup 20690 1 [sym_kHat]; AGroup 20698 1 [sym_kAs]; AGroup 21250 1 [sym_kDo];
     SGroup 4677 1 [sym__exprIsNot]; AGroup 16914 2 syms_83; AGroup 20692 2 syms_9;
     AGroup 20694 2 syms_258; AGroup 20700 2 syms_259; AGroup 3 3 syms_1;
     AGroup 20696 5 syms_260; AGroup 16912 12 syms_518]);
   (414168, 4, [AGroup 5 1 [sym_ppDirective]; AGroup 3 2 syms_5; AGroup 17120 4 syms_25;
     AGroup 17118 25 syms_144]);
   (414209, 4, [AGroup 5 1 [sym_ppDirective]; AGroup 3 2 syms_5; AGroup 17124 4 syms_25;
     AGroup 17122 25 syms_144]);
   (414250, 11, [AGroup 20690 1 [sym_kHat]; AGroup 20698 1 [sym_kAs]; AGroup 21252 1 [sym_kDo];
     SGroup 4677 1 [sym__exprIsNot]; AGroup 16914 2 syms_83; AGroup 20692 2 syms_9;
     AGroup 20694 2 syms_258; AGroup 20700 2 syms_259; AGroup 3 3 syms_1;
     AGroup 20696 5 syms_260; AGroup 16912 12 syms_518]);
   (414305, 4, [AGroup 5 1 [sym_ppDirective]; AGroup 3 2 syms_5; AGroup 17328 4 syms_25;
     AGroup 17326 25 syms_154])
  ].

Definition small_part5 : list small_run :=
  small_runs_6659
  ++ small_runs_6759
  ++ small_runs_6859
  ++ small_runs_6959
  ++ small_runs_7059
  ++ small_runs_7159
  ++ small_runs_7259
  ++ small_runs_7359
  ++ small_runs_7459
  ++ small_runs_7559
  ++ small_runs_7659
  ++ small_runs_7759
  ++ small_runs_7859
  ++ small_runs_7959
  ++ small_runs_8059
  ++ small_runs_8159.
