(* ===== verification/SmallTable6.v ===== *)
(** * The compressed parse table of [parser.c], states 8259 to 10158

    The record of each small state in [ts_small_parse_table], as the source
    writes it: its index in the array, the number of its groups, and the groups
    in their order, each with its value, the number of its symbols and the
    symbols. *)

From S2P Require Import Prelude.
From S2P Require Import Symbols.
From S2P Require Import ParseTypes.
From S2P Require Import SmallSymbols.

(** States 8259 to 8358. *)
Definition small_runs_8259 : list small_run :=
  [
   (414346, 4, [AGroup 5 1 [sym_ppDirective]; AGroup 3 2 syms_5; AGroup 17242 4 syms_25;
     AGroup 17240 25 syms_153]);
   (414387, 4, [AGroup 5 1 [sym_ppDirective]; AGroup 3 2 syms_5; AGroup 17128 4 syms_25;
     AGroup 17126 25 syms_144]);
   (414428, 12, [AGroup 5 1 [sym_ppDirective]; AGroup 863 1 [anon_sym_LBRACK];
     AGroup 868 1 [aux_sym_ppUsesBlock_token1]; AGroup 21233 1 [sym_identifier];
     AGroup 21254 1 [sym_kGeneric]; SGroup 25 1 [sym__ppIf]; SGroup 12032 1 [sym_rttiAttributes];
     SGroup 12404 1 [aux_sym_rttiAttributes_repeat2]; AGroup 3 2 syms_5; SGroup 8282 3 syms_320;
     SGroup 12321 3 syms_2; AGroup 861 16 syms_525]);
   (414485, 6, [AGroup 5 1 [sym_ppDirective]; AGroup 21257 1 [sym_kHat]; SGroup 4455 1 [sym__exprIsNot];
     AGroup 3 2 syms_5; AGroup 16914 4 syms_25; AGroup 16912 23 syms_528]);
   (414530, 11, [AGroup 20690 1 [sym_kHat]; AGroup 20698 1 [sym_kAs]; AGroup 21259 1 [sym_kDo];
     SGroup 4677 1 [sym__exprIsNot]; AGroup 16914 2 syms_83; AGroup 20692 2 syms_9;
     AGroup 20694 2 syms_258; AGroup 20700 2 syms_259; AGroup 3 3 syms_1;
     AGroup 20696 5 syms_260; AGroup 16912 12 syms_518]);
   (414585, 6, [AGroup 5 1 [sym_ppDirective]; AGroup 21257 1 [sym_kHat]; SGroup 4455 1 [sym__exprIsNot];
     AGroup 3 2 syms_5; AGroup 16904 4 syms_25; AGroup 16902 23 syms_528]);
   (414630, 10, [AGroup 5 1 [sym_ppDirective]; AGroup 21257 1 [sym_kHat]; AGroup 21265 1 [sym_kFdiv];
     AGroup 21267 1 [sym_kAs]; SGroup 4455 1 [sym__exprIsNot]; AGroup 3 2 syms_5;
     AGroup 16914 3 syms_94; AGroup 21261 4 syms_84; AGroup 21263 6 syms_86;
     AGroup 16912 12 syms_529]);
   (414683, 9, [AGroup 5 1 [sym_ppDirective]; AGroup 21257 1 [sym_kHat]; AGroup 21265 1 [sym_kFdiv];
     AGroup 21267 1 [sym_kAs]; SGroup 4455 1 [sym__exprIsNot]; AGroup 3 2 syms_5;
     AGroup 16914 3 syms_94; AGroup 21263 6 syms_86; AGroup 16912 16 syms_530]);
   (414734, 4, [AGroup 5 1 [sym_ppDirective]; AGroup 3 2 syms_5; AGroup 17154 4 syms_25;
     AGroup 17152 25 syms_144]);
   (414775, 5, [AGroup 5 1 [sym_ppDirective]; SGroup 4458 1 [sym_kDot]; AGroup 3 2 syms_5;
     AGroup 16970 4 syms_25; AGroup 16968 24 syms_179]);
   (414818, 4, [AGroup 5 1 [sym_ppDirective]; AGroup 3 2 syms_5; AGroup 17256 4 syms_25;
     AGroup 17254 25 syms_153]);
   (414859, 4, [AGroup 5 1 [sym_ppDirective]; AGroup 3 2 syms_5; AGroup 17158 4 syms_25;
     AGroup 17156 25 syms_144]);
   (414900, 4, [AGroup 5 1 [sym_ppDirective]; AGroup 3 2 syms_5; AGroup 18831 4 syms_25;
     AGroup 18829 25 syms_154]);
   (414941, 4, [AGroup 5 1 [sym_ppDirective]; AGroup 3 2 syms_5; AGroup 17358 4 syms_25;
     AGroup 17356 25 syms_154]);
   (414982, 10, [AGroup 5 1 [sym_ppDirective]; AGroup 21257 1 [sym_kHat]; AGroup 21265 1 [sym_kFdiv];
     AGroup 21267 1 [sym_kAs]; SGroup 4455 1 [sym__exprIsNot]; AGroup 3 2 syms_5;
     AGroup 17016 3 syms_94; AGroup 21261 4 syms_84; AGroup 21263 6 syms_86;
     AGroup 17014 12 syms_529]);
   (415035, 4, [AGroup 5 1 [sym_ppDirective]; AGroup 3 2 syms_5; AGroup 17362 4 syms_25;
     AGroup 17360 25 syms_154]);
   (415076, 4, [AGroup 5 1 [sym_ppDirective]; AGroup 3 2 syms_5; AGroup 17172 4 syms_25;
     AGroup 17170 25 syms_144]);
   (415117, 4, [AGroup 5 1 [sym_ppDirective]; SGroup 11330 1 [sym_kDot]; AGroup 3 2 syms_5;
     AGroup 21269 28 syms_519]);
   (415158, 4, [AGroup 5 1 [sym_ppDirective]; AGroup 3 2 syms_5; AGroup 17380 4 syms_25;
     AGroup 17378 25 syms_163]);
   (415199, 4, [AGroup 5 1 [sym_ppDirective]; AGroup 3 2 syms_5; AGroup 17372 4 syms_25;
     AGroup 17370 25 syms_154]);
   (415240, 6, [AGroup 5 1 [sym_ppDirective]; AGroup 21215 1 [sym_kHat]; SGroup 4347 1 [sym__exprIsNot];
     AGroup 3 2 syms_5; AGroup 16914 4 syms_25; AGroup 16912 23 syms_531]);
   (415285, 6, [AGroup 5 1 [sym_ppDirective]; AGroup 21215 1 [sym_kHat]; SGroup 4347 1 [sym__exprIsNot];
     AGroup 3 2 syms_5; AGroup 16904 4 syms_25; AGroup 16902 23 syms_531]);
   (415330, 14, [AGroup 5 1 [sym_ppDirective]; AGroup 16886 1 [anon_sym_LPAREN]; AGroup 21257 1 [sym_kHat];
     AGroup 21265 1 [sym_kFdiv]; AGroup 21267 1 [sym_kAs]; AGroup 21275 1 [sym_kIs];
     AGroup 21277 1 [sym_kNot]; SGroup 4455 1 [sym__exprIsNot]; AGroup 3 2 syms_5;
     AGroup 21271 2 syms_83; AGroup 21261 4 syms_84; AGroup 16884 5 syms_532;
     AGroup 21273 5 syms_85; AGroup 21263 6 syms_86]);
   (415391, 12, [AGroup 5 1 [sym_ppDirective]; AGroup 735 1 [anon_sym_LBRACK];
     AGroup 740 1 [aux_sym_ppUsesBlock_token1]; AGroup 21279 1 [sym_identifier];
     AGroup 21282 1 [sym_kGeneric]; SGroup 25 1 [sym__ppIf]; SGroup 12032 1 [sym_rttiAttributes];
     SGroup 12404 1 [aux_sym_rttiAttributes_repeat2]; AGroup 3 2 syms_5; SGroup 8282 3 syms_320;
     SGroup 12321 3 syms_2; AGroup 733 16 syms_525]);
   (415448, 5, [AGroup 5 1 [sym_ppDirective]; AGroup 21285 1 [sym_identifier]; AGroup 3 2 syms_5;
     AGroup 17342 4 syms_25; AGroup 17340 24 syms_170]);
   (415491, 4, [AGroup 5 1 [sym_ppDirective]; AGroup 3 2 syms_5; AGroup 17116 4 syms_25;
     AGroup 17114 25 syms_163]);
   (415532, 5, [AGroup 5 1 [sym_ppDirective]; AGroup 21287 1 [sym_identifier]; AGroup 3 2 syms_5;
     AGroup 17348 4 syms_25; AGroup 17346 24 syms_170]);
   (415575, 4, [AGroup 5 1 [sym_ppDirective]; AGroup 3 2 syms_5; AGroup 17398 4 syms_25;
     AGroup 17396 25 syms_143]);
   (415616, 9, [AGroup 5 1 [sym_ppDirective]; AGroup 17042 1 [anon_sym_DOT];
     AGroup 21289 1 [anon_sym_LBRACK]; AGroup 21291 1 [anon_sym_LPAREN];
     AGroup 21293 1 [sym_kLt]; SGroup 4303 1 [sym_kDot]; AGroup 3 2 syms_5;
     AGroup 17046 2 syms_101; AGroup 17036 22 syms_533]);
   (415667, 5, [AGroup 5 1 [sym_ppDirective]; AGroup 21295 1 [sym_identifier]; AGroup 3 2 syms_5;
     AGroup 17342 4 syms_25; AGroup 17340 24 syms_167]);
   (415710, 12, [AGroup 20601 1 [sym_kHat]; AGroup 20607 1 [sym_kFdiv]; AGroup 20609 1 [sym_kAs];
     AGroup 20615 1 [sym_kIs]; AGroup 20617 1 [sym_kNot]; SGroup 4203 1 [sym__exprIsNot];
     AGroup 20611 2 syms_83; AGroup 3 3 syms_1; AGroup 20603 4 syms_84; AGroup 20613 5 syms_85;
     AGroup 20605 6 syms_86; AGroup 21029 6 syms_534]);
   (415767, 7, [AGroup 5 1 [sym_ppDirective]; AGroup 21299 1 [anon_sym_DOT]; AGroup 21301 1 [sym_kLt];
     AGroup 21303 1 [sym_kDeprecated]; SGroup 11330 1 [sym_kDot]; AGroup 3 2 syms_5;
     AGroup 21297 25 syms_140]);
   (415814, 5, [AGroup 5 1 [sym_ppDirective]; AGroup 21305 1 [sym_identifier]; AGroup 3 2 syms_5;
     AGroup 17348 4 syms_25; AGroup 17346 24 syms_167]);
   (415857, 7, [AGroup 5 1 [sym_ppDirective]; AGroup 16974 1 [anon_sym_COMMA];
     AGroup 16978 1 [anon_sym_DOT]; AGroup 3 2 syms_5; AGroup 16976 2 syms_97;
     AGroup 16981 2 syms_83; AGroup 16972 23 syms_535]);
   (415904, 4, [AGroup 5 1 [sym_ppDirective]; AGroup 3 2 syms_5; AGroup 17380 4 syms_25;
     AGroup 17378 25 syms_154]);
   (415945, 7, [AGroup 5 1 [sym_ppDirective]; AGroup 21299 1 [anon_sym_DOT]; AGroup 21301 1 [sym_kLt];
     AGroup 21309 1 [sym_kDeprecated]; SGroup 11330 1 [sym_kDot]; AGroup 3 2 syms_5;
     AGroup 21307 25 syms_140]);
   (415992, 4, [AGroup 5 1 [sym_ppDirective]; AGroup 3 2 syms_5; AGroup 17386 4 syms_25;
     AGroup 17384 25 syms_154]);
   (416033, 4, [AGroup 5 1 [sym_ppDirective]; AGroup 3 2 syms_5; AGroup 17398 4 syms_25;
     AGroup 17396 25 syms_154]);
   (416074, 4, [AGroup 5 1 [sym_ppDirective]; AGroup 3 2 syms_5; AGroup 17242 4 syms_25;
     AGroup 17240 25 syms_143]);
   (416115, 14, [AGroup 20631 1 [sym_kHat]; AGroup 20639 1 [sym_kAs]; AGroup 20655 1 [sym_kIs];
     AGroup 20657 1 [sym_kNot]; AGroup 21043 1 [anon_sym_SEMI]; SGroup 4762 1 [sym__exprIsNot];
     AGroup 20633 2 syms_9; AGroup 20635 2 syms_258; AGroup 20641 2 syms_259;
     AGroup 20651 2 syms_83; AGroup 3 3 syms_1; AGroup 20637 5 syms_260; AGroup 20653 5 syms_85;
     AGroup 21205 5 syms_313]);
   (416176, 9, [AGroup 5 1 [sym_ppDirective]; AGroup 17042 1 [anon_sym_DOT];
     AGroup 21311 1 [anon_sym_LBRACK]; AGroup 21313 1 [anon_sym_LPAREN];
     AGroup 21315 1 [sym_kLt]; SGroup 4282 1 [sym_kDot]; AGroup 3 2 syms_5;
     AGroup 17046 2 syms_101; AGroup 17036 22 syms_536]);
   (416227, 4, [AGroup 5 1 [sym_ppDirective]; AGroup 3 2 syms_5; AGroup 17408 4 syms_25;
     AGroup 17406 25 syms_154]);
   (416268, 4, [AGroup 5 1 [sym_ppDirective]; AGroup 3 2 syms_5; AGroup 17412 4 syms_25;
     AGroup 17410 25 syms_154]);
   (416309, 7, [AGroup 5 1 [sym_ppDirective]; AGroup 16974 1 [anon_sym_COMMA];
     AGroup 16978 1 [anon_sym_DOT]; AGroup 3 2 syms_5; AGroup 16976 2 syms_97;
     AGroup 16981 2 syms_83; AGroup 16972 23 syms_537]);
   (416356, 6, [AGroup 5 1 [sym_ppDirective]; AGroup 21317 1 [sym_kHat]; SGroup 4250 1 [sym__exprIsNot];
     AGroup 3 2 syms_5; AGroup 16914 4 syms_25; AGroup 16912 23 syms_538]);
   (416401, 5, [AGroup 5 1 [sym_ppDirective]; AGroup 21319 1 [sym_identifier]; AGroup 3 2 syms_5;
     AGroup 17342 4 syms_25; AGroup 17340 24 syms_174]);
   (416444, 5, [AGroup 5 1 [sym_ppDirective]; AGroup 21321 1 [sym_identifier]; AGroup 3 2 syms_5;
     AGroup 17348 4 syms_25; AGroup 17346 24 syms_174]);
   (416487, 4, [AGroup 5 1 [sym_ppDirective]; AGroup 3 2 syms_5; AGroup 17550 4 syms_25;
     AGroup 17548 25 syms_154]);
   (416528, 4, [AGroup 5 1 [sym_ppDirective]; AGroup 3 2 syms_5; AGroup 17172 4 syms_25;
     AGroup 17170 25 syms_163]);
   (416569, 6, [AGroup 5 1 [sym_ppDirective]; AGroup 21317 1 [sym_kHat]; SGroup 4250 1 [sym__exprIsNot];
     AGroup 3 2 syms_5; AGroup 16904 4 syms_25; AGroup 16902 23 syms_538]);
   (416614, 4, [AGroup 5 1 [sym_ppDirective]; AGroup 3 2 syms_5; AGroup 11316 4 syms_25;
     AGroup 11311 25 syms_154]);
   (416655, 9, [AGroup 5 1 [sym_ppDirective]; AGroup 17042 1 [anon_sym_DOT];
     AGroup 21323 1 [anon_sym_LBRACK]; AGroup 21325 1 [anon_sym_LPAREN];
     AGroup 21327 1 [sym_kLt]; SGroup 4403 1 [sym_kDot]; AGroup 3 2 syms_5;
     AGroup 17046 2 syms_101; AGroup 17036 22 syms_539]);
   (416706, 11, [AGroup 20690 1 [sym_kHat]; AGroup 20698 1 [sym_kAs]; AGroup 21329 1 [sym_kDo];
     SGroup 4677 1 [sym__exprIsNot]; AGroup 16914 2 syms_83; AGroup 20692 2 syms_9;
     AGroup 20694 2 syms_258; AGroup 20700 2 syms_259; AGroup 3 3 syms_1;
     AGroup 20696 5 syms_260; AGroup 16912 12 syms_518]);
   (416761, 4, [AGroup 5 1 [sym_ppDirective]; AGroup 3 2 syms_5; AGroup 17256 4 syms_25;
     AGroup 17254 25 syms_161]);
   (416802, 4, [AGroup 5 1 [sym_ppDirective]; AGroup 3 2 syms_5; AGroup 17408 4 syms_25;
     AGroup 17406 25 syms_163]);
   (416843, 4, [AGroup 5 1 [sym_ppDirective]; AGroup 3 2 syms_5; AGroup 17328 4 syms_25;
     AGroup 17326 25 syms_163]);
   (416884, 4, [AGroup 5 1 [sym_ppDirective]; AGroup 3 2 syms_5; AGroup 18831 4 syms_25;
     AGroup 18829 25 syms_157]);
   (416925, 4, [AGroup 5 1 [sym_ppDirective]; AGroup 3 2 syms_5; AGroup 17358 4 syms_25;
     AGroup 17356 25 syms_157]);
   (416966, 4, [AGroup 5 1 [sym_ppDirective]; AGroup 3 2 syms_5; AGroup 17362 4 syms_25;
     AGroup 17360 25 syms_157]);
   (417007, 10, [AGroup 5 1 [sym_ppDirective]; AGroup 21317 1 [sym_kHat]; AGroup 21335 1 [sym_kFdiv];
     AGroup 21337 1 [sym_kAs]; SGroup 4250 1 [sym__exprIsNot]; AGroup 3 2 syms_5;
     AGroup 16914 3 syms_94; AGroup 21331 4 syms_84; AGroup 21333 6 syms_86;
     AGroup 16912 12 syms_540]);
   (417060, 4, [AGroup 5 1 [sym_ppDirective]; AGroup 3 2 syms_5; AGroup 11316 4 syms_25;
     AGroup 11311 25 syms_157]);
   (417101, 5, [AGroup 5 1 [sym_ppDirective]; SGroup 4347 1 [sym__exprIsNot]; AGroup 3 2 syms_5;
     AGroup 17032 4 syms_25; AGroup 17030 24 syms_176]);
   (417144, 4, [AGroup 5 1 [sym_ppDirective]; AGroup 3 2 syms_5; AGroup 17372 4 syms_25;
     AGroup 17370 25 syms_157]);
   (417185, 8, [AGroup 20772 1 [anon_sym_DOT]; AGroup 20778 1 [sym_identifier]; SGroup 12033 1 [sym_kDot];
     AGroup 3 3 syms_1; AGroup 20774 3 syms_429; SGroup 11251 3 syms_2; SGroup 11412 3 syms_430;
     AGroup 20776 17 syms_431]);
   (417234, 7, [AGroup 5 1 [sym_ppDirective]; AGroup 16974 1 [anon_sym_COMMA];
     AGroup 16978 1 [anon_sym_DOT]; AGroup 3 2 syms_5; AGroup 16976 2 syms_97;
     AGroup 16981 2 syms_83; AGroup 16972 23 syms_541]);
   (417281, 8, [AGroup 20772 1 [anon_sym_DOT]; AGroup 20778 1 [sym_identifier]; SGroup 12033 1 [sym_kDot];
     AGroup 3 3 syms_1; AGroup 20774 3 syms_429; SGroup 11251 3 syms_2; SGroup 11367 3 syms_430;
     AGroup 20776 17 syms_431]);
   (417330, 4, [AGroup 5 1 [sym_ppDirective]; AGroup 3 2 syms_5; AGroup 17592 4 syms_25;
     AGroup 17590 25 syms_154]);
   (417371, 4, [AGroup 5 1 [sym_ppDirective]; AGroup 3 2 syms_5; AGroup 17380 4 syms_25;
     AGroup 17378 25 syms_157]);
   (417412, 4, [AGroup 5 1 [sym_ppDirective]; AGroup 3 2 syms_5; AGroup 17082 4 syms_25;
     AGroup 17080 25 syms_154]);
   (417453, 4, [AGroup 5 1 [sym_ppDirective]; AGroup 3 2 syms_5; AGroup 17386 4 syms_25;
     AGroup 17384 25 syms_157]);
   (417494, 4, [AGroup 5 1 [sym_ppDirective]; AGroup 3 2 syms_5; AGroup 17398 4 syms_25;
     AGroup 17396 25 syms_157]);
   (417535, 4, [AGroup 5 1 [sym_ppDirective]; AGroup 3 2 syms_5; AGroup 17408 4 syms_25;
     AGroup 17406 25 syms_157]);
   (417576, 4, [AGroup 5 1 [sym_ppDirective]; AGroup 3 2 syms_5; AGroup 17412 4 syms_25;
     AGroup 17410 25 syms_157]);
   (417617, 4, [AGroup 5 1 [sym_ppDirective]; AGroup 3 2 syms_5; AGroup 17412 4 syms_25;
     AGroup 17410 25 syms_163]);
   (417658, 6, [AGroup 5 1 [sym_ppDirective]; AGroup 21339 1 [sym_kHat]; SGroup 4349 1 [sym__exprIsNot];
     AGroup 3 2 syms_5; AGroup 16914 4 syms_25; AGroup 16912 23 syms_542]);
   (417703, 6, [AGroup 5 1 [sym_ppDirective]; AGroup 21339 1 [sym_kHat]; SGroup 4349 1 [sym__exprIsNot];
     AGroup 3 2 syms_5; AGroup 16904 4 syms_25; AGroup 16902 23 syms_542]);
   (417748, 10, [AGroup 5 1 [sym_ppDirective]; AGroup 21339 1 [sym_kHat]; AGroup 21345 1 [sym_kFdiv];
     AGroup 21347 1 [sym_kAs]; SGroup 4349 1 [sym__exprIsNot]; AGroup 3 2 syms_5;
     AGroup 16914 3 syms_94; AGroup 21341 4 syms_84; AGroup 21343 6 syms_86;
     AGroup 16912 12 syms_543]);
   (417801, 4, [AGroup 5 1 [sym_ppDirective]; AGroup 3 2 syms_5; AGroup 17550 4 syms_25;
     AGroup 17548 25 syms_157]);
   (417842, 14, [AGroup 20631 1 [sym_kHat]; AGroup 20639 1 [sym_kAs]; AGroup 20655 1 [sym_kIs];
     AGroup 20657 1 [sym_kNot]; AGroup 20943 1 [anon_sym_SEMI]; SGroup 4762 1 [sym__exprIsNot];
     AGroup 20633 2 syms_9; AGroup 20635 2 syms_258; AGroup 20641 2 syms_259;
     AGroup 20651 2 syms_83; AGroup 3 3 syms_1; AGroup 20637 5 syms_260; AGroup 20653 5 syms_85;
     AGroup 21205 5 syms_313]);
   (417903, 4, [AGroup 5 1 [sym_ppDirective]; AGroup 3 2 syms_5; AGroup 11316 4 syms_25;
     AGroup 11311 25 syms_143]);
   (417944, 4, [AGroup 5 1 [sym_ppDirective]; AGroup 3 2 syms_5; AGroup 17096 4 syms_25;
     AGroup 17094 25 syms_154]);
   (417985, 4, [AGroup 5 1 [sym_ppDirective]; AGroup 3 2 syms_5; AGroup 17592 4 syms_25;
     AGroup 17590 25 syms_157]);
   (418026, 4, [AGroup 5 1 [sym_ppDirective]; AGroup 3 2 syms_5; AGroup 17082 4 syms_25;
     AGroup 17080 25 syms_157]);
   (418067, 6, [AGroup 5 1 [sym_ppDirective]; AGroup 21349 1 [sym_kHat]; SGroup 4300 1 [sym__exprIsNot];
     AGroup 3 2 syms_5; AGroup 16914 4 syms_25; AGroup 16912 23 syms_544]);
   (418112, 4, [AGroup 5 1 [sym_ppDirective]; AGroup 3 2 syms_5; AGroup 17096 4 syms_25;
     AGroup 17094 25 syms_157]);
   (418153, 4, [AGroup 5 1 [sym_ppDirective]; AGroup 3 2 syms_5; AGroup 17108 4 syms_25;
     AGroup 17106 25 syms_157]);
   (418194, 4, [AGroup 5 1 [sym_ppDirective]; AGroup 3 2 syms_5; AGroup 17592 4 syms_25;
     AGroup 17590 25 syms_143]);
   (418235, 4, [AGroup 5 1 [sym_ppDirective]; AGroup 3 2 syms_5; AGroup 17116 4 syms_25;
     AGroup 17114 25 syms_157]);
   (418276, 4, [AGroup 5 1 [sym_ppDirective]; AGroup 3 2 syms_5; AGroup 17120 4 syms_25;
     AGroup 17118 25 syms_157]);
   (418317, 4, [AGroup 5 1 [sym_ppDirective]; AGroup 3 2 syms_5; AGroup 17124 4 syms_25;
     AGroup 17122 25 syms_157]);
   (418358, 11, [AGroup 20690 1 [sym_kHat]; AGroup 20698 1 [sym_kAs]; AGroup 21351 1 [sym_kDo];
     SGroup 4677 1 [sym__exprIsNot]; AGroup 16914 2 syms_83; AGroup 20692 2 syms_9;
     AGroup 20694 2 syms_258; AGroup 20700 2 syms_259; AGroup 3 3 syms_1;
     AGroup 20696 5 syms_260; AGroup 16912 12 syms_518]);
   (418413, 4, [AGroup 5 1 [sym_ppDirective]; AGroup 3 2 syms_5; AGroup 17108 4 syms_25;
     AGroup 17106 25 syms_154]);
   (418454, 9, [AGroup 5 1 [sym_ppDirective]; AGroup 21339 1 [sym_kHat]; AGroup 21345 1 [sym_kFdiv];
     AGroup 21347 1 [sym_kAs]; SGroup 4349 1 [sym__exprIsNot]; AGroup 3 2 syms_5;
     AGroup 16914 3 syms_94; AGroup 21343 6 syms_86; AGroup 16912 16 syms_545]);
   (418505, 4, [AGroup 5 1 [sym_ppDirective]; AGroup 3 2 syms_5; AGroup 17128 4 syms_25;
     AGroup 17126 25 syms_157]);
   (418546, 4, [AGroup 5 1 [sym_ppDirective]; AGroup 3 2 syms_5; AGroup 17116 4 syms_25;
     AGroup 17114 25 syms_154]);
   (418587, 4, [AGroup 5 1 [sym_ppDirective]; AGroup 3 2 syms_5; AGroup 17154 4 syms_25;
     AGroup 17152 25 syms_157]);
   (418628, 4, [AGroup 5 1 [sym_ppDirective]; AGroup 3 2 syms_5; AGroup 17120 4 syms_25;
     AGroup 17118 25 syms_154]);
   (418669, 4, [AGroup 5 1 [sym_ppDirective]; AGroup 3 2 syms_5; AGroup 17124 4 syms_25;
     AGroup 17122 25 syms_154]);
   (418710, 4, [AGroup 5 1 [sym_ppDirective]; AGroup 3 2 syms_5; AGroup 17158 4 syms_25;
     AGroup 17156 25 syms_157]);
   (418751, 4, [AGroup 5 1 [sym_ppDirective]; AGroup 3 2 syms_5; AGroup 17172 4 syms_25;
     AGroup 17170 25 syms_157])
  ].

(** States 8359 to 8458. *)
Definition small_runs_8359 : list small_run :=
  [
   (418792, 9, [AGroup 5 1 [sym_ppDirective]; AGroup 21317 1 [sym_kHat]; AGroup 21335 1 [sym_kFdiv];
     AGroup 21337 1 [sym_kAs]; SGroup 4250 1 [sym__exprIsNot]; AGroup 3 2 syms_5;
     AGroup 16914 3 syms_94; AGroup 21333 6 syms_86; AGroup 16912 16 syms_546]);
   (418843, 4, [AGroup 5 1 [sym_ppDirective]; AGroup 3 2 syms_5; AGroup 17082 4 syms_25;
     AGroup 17080 25 syms_143]);
   (418884, 11, [AGroup 20690 1 [sym_kHat]; AGroup 20698 1 [sym_kAs]; AGroup 21353 1 [sym_kDo];
     SGroup 4677 1 [sym__exprIsNot]; AGroup 16914 2 syms_83; AGroup 20692 2 syms_9;
     AGroup 20694 2 syms_258; AGroup 20700 2 syms_259; AGroup 3 3 syms_1;
     AGroup 20696 5 syms_260; AGroup 16912 12 syms_518]);
   (418939, 5, [AGroup 5 1 [sym_ppDirective]; SGroup 4253 1 [sym_kDot]; AGroup 3 2 syms_5;
     AGroup 16970 4 syms_25; AGroup 16968 24 syms_182]);
   (418982, 4, [AGroup 5 1 [sym_ppDirective]; AGroup 3 2 syms_5; AGroup 17242 4 syms_25;
     AGroup 17240 25 syms_144]);
   (419023, 6, [AGroup 5 1 [sym_ppDirective]; AGroup 21349 1 [sym_kHat]; SGroup 4300 1 [sym__exprIsNot];
     AGroup 3 2 syms_5; AGroup 16904 4 syms_25; AGroup 16902 23 syms_544]);
   (419068, 5, [AGroup 5 1 [sym_ppDirective]; SGroup 4403 1 [sym_kDot]; AGroup 3 2 syms_5;
     AGroup 16970 4 syms_25; AGroup 16968 24 syms_174]);
   (419111, 14, [AGroup 20631 1 [sym_kHat]; AGroup 20639 1 [sym_kAs]; AGroup 20655 1 [sym_kIs];
     AGroup 20657 1 [sym_kNot]; AGroup 20659 1 [anon_sym_SEMI]; SGroup 4762 1 [sym__exprIsNot];
     AGroup 20633 2 syms_9; AGroup 20635 2 syms_258; AGroup 20641 2 syms_259;
     AGroup 20651 2 syms_83; AGroup 3 3 syms_1; AGroup 20637 5 syms_260; AGroup 20653 5 syms_85;
     AGroup 21205 5 syms_313]);
   (419172, 9, [AGroup 5 1 [sym_ppDirective]; AGroup 17042 1 [anon_sym_DOT];
     AGroup 20754 1 [anon_sym_LBRACK]; AGroup 20756 1 [anon_sym_LPAREN];
     AGroup 21355 1 [sym_kLt]; SGroup 5433 1 [sym_kDot]; AGroup 3 2 syms_5;
     AGroup 17046 2 syms_101; AGroup 17036 22 syms_547]);
   (419223, 8, [AGroup 20772 1 [anon_sym_DOT]; AGroup 20778 1 [sym_identifier]; SGroup 12033 1 [sym_kDot];
     AGroup 3 3 syms_1; AGroup 20774 3 syms_429; SGroup 11251 3 syms_2; SGroup 11455 3 syms_430;
     AGroup 20776 17 syms_431]);
   (419272, 6, [AGroup 5 1 [sym_ppDirective]; AGroup 21357 1 [sym_kHat]; SGroup 4278 1 [sym__exprIsNot];
     AGroup 3 2 syms_5; AGroup 16914 4 syms_25; AGroup 16912 23 syms_548]);
   (419317, 6, [AGroup 5 1 [sym_ppDirective]; AGroup 21357 1 [sym_kHat]; SGroup 4278 1 [sym__exprIsNot];
     AGroup 3 2 syms_5; AGroup 16904 4 syms_25; AGroup 16902 23 syms_548]);
   (419362, 8, [AGroup 20772 1 [anon_sym_DOT]; AGroup 20778 1 [sym_identifier]; SGroup 12033 1 [sym_kDot];
     AGroup 3 3 syms_1; AGroup 20774 3 syms_429; SGroup 11251 3 syms_2; SGroup 11420 3 syms_430;
     AGroup 20776 17 syms_431]);
   (419411, 4, [AGroup 5 1 [sym_ppDirective]; AGroup 3 2 syms_5; AGroup 17256 4 syms_25;
     AGroup 17254 25 syms_143]);
   (419452, 10, [AGroup 5 1 [sym_ppDirective]; AGroup 21339 1 [sym_kHat]; AGroup 21345 1 [sym_kFdiv];
     AGroup 21347 1 [sym_kAs]; SGroup 4349 1 [sym__exprIsNot]; AGroup 3 2 syms_5;
     AGroup 17016 3 syms_94; AGroup 21341 4 syms_84; AGroup 21343 6 syms_86;
     AGroup 17014 12 syms_543]);
   (419505, 4, [AGroup 5 1 [sym_ppDirective]; AGroup 3 2 syms_5; AGroup 17328 4 syms_25;
     AGroup 17326 25 syms_157]);
   (419546, 4, [AGroup 5 1 [sym_ppDirective]; AGroup 3 2 syms_5; AGroup 17408 4 syms_25;
     AGroup 17406 25 syms_143]);
   (419587, 4, [AGroup 5 1 [sym_ppDirective]; AGroup 3 2 syms_5; AGroup 18831 4 syms_25;
     AGroup 18829 25 syms_158]);
   (419628, 4, [AGroup 5 1 [sym_ppDirective]; AGroup 3 2 syms_5; AGroup 17358 4 syms_25;
     AGroup 17356 25 syms_158]);
   (419669, 4, [AGroup 5 1 [sym_ppDirective]; AGroup 3 2 syms_5; AGroup 17362 4 syms_25;
     AGroup 17360 25 syms_158]);
   (419710, 4, [AGroup 5 1 [sym_ppDirective]; AGroup 3 2 syms_5; AGroup 11316 4 syms_25;
     AGroup 11311 25 syms_158]);
   (419751, 10, [AGroup 5 1 [sym_ppDirective]; AGroup 21349 1 [sym_kHat]; AGroup 21363 1 [sym_kFdiv];
     AGroup 21365 1 [sym_kAs]; SGroup 4300 1 [sym__exprIsNot]; AGroup 3 2 syms_5;
     AGroup 16914 3 syms_94; AGroup 21359 4 syms_84; AGroup 21361 6 syms_86;
     AGroup 16912 12 syms_549]);
   (419804, 4, [AGroup 5 1 [sym_ppDirective]; AGroup 3 2 syms_5; AGroup 17372 4 syms_25;
     AGroup 17370 25 syms_158]);
   (419845, 10, [AGroup 5 1 [sym_ppDirective]; AGroup 21357 1 [sym_kHat]; AGroup 21371 1 [sym_kFdiv];
     AGroup 21373 1 [sym_kAs]; SGroup 4278 1 [sym__exprIsNot]; AGroup 3 2 syms_5;
     AGroup 16914 3 syms_94; AGroup 21367 4 syms_84; AGroup 21369 6 syms_86;
     AGroup 16912 12 syms_550]);
   (419898, 4, [AGroup 5 1 [sym_ppDirective]; AGroup 3 2 syms_5; AGroup 17242 4 syms_25;
     AGroup 17240 25 syms_157]);
   (419939, 4, [AGroup 5 1 [sym_ppDirective]; AGroup 3 2 syms_5; AGroup 17380 4 syms_25;
     AGroup 17378 25 syms_158]);
   (419980, 4, [AGroup 5 1 [sym_ppDirective]; AGroup 3 2 syms_5; AGroup 17386 4 syms_25;
     AGroup 17384 25 syms_158]);
   (420021, 4, [AGroup 5 1 [sym_ppDirective]; AGroup 3 2 syms_5; AGroup 17398 4 syms_25;
     AGroup 17396 25 syms_158]);
   (420062, 4, [AGroup 5 1 [sym_ppDirective]; AGroup 3 2 syms_5; AGroup 17408 4 syms_25;
     AGroup 17406 25 syms_158]);
   (420103, 4, [AGroup 5 1 [sym_ppDirective]; AGroup 3 2 syms_5; AGroup 17412 4 syms_25;
     AGroup 17410 25 syms_158]);
   (420144, 9, [AGroup 5 1 [sym_ppDirective]; AGroup 21357 1 [sym_kHat]; AGroup 21371 1 [sym_kFdiv];
     AGroup 21373 1 [sym_kAs]; SGroup 4278 1 [sym__exprIsNot]; AGroup 3 2 syms_5;
     AGroup 16914 3 syms_94; AGroup 21369 6 syms_86; AGroup 16912 16 syms_551]);
   (420195, 11, [AGroup 20690 1 [sym_kHat]; AGroup 20698 1 [sym_kAs]; AGroup 21375 1 [sym_kDo];
     SGroup 4677 1 [sym__exprIsNot]; AGroup 16914 2 syms_83; AGroup 20692 2 syms_9;
     AGroup 20694 2 syms_258; AGroup 20700 2 syms_259; AGroup 3 3 syms_1;
     AGroup 20696 5 syms_260; AGroup 16912 12 syms_518]);
   (420250, 11, [AGroup 20690 1 [sym_kHat]; AGroup 20698 1 [sym_kAs]; AGroup 21377 1 [sym_kDo];
     SGroup 4677 1 [sym__exprIsNot]; AGroup 16914 2 syms_83; AGroup 20692 2 syms_9;
     AGroup 20694 2 syms_258; AGroup 20700 2 syms_259; AGroup 3 3 syms_1;
     AGroup 20696 5 syms_260; AGroup 16912 12 syms_518]);
   (420305, 14, [AGroup 5 1 [sym_ppDirective]; AGroup 16886 1 [anon_sym_LPAREN]; AGroup 21339 1 [sym_kHat];
     AGroup 21345 1 [sym_kFdiv]; AGroup 21347 1 [sym_kAs]; AGroup 21383 1 [sym_kIs];
     AGroup 21385 1 [sym_kNot]; SGroup 4349 1 [sym__exprIsNot]; AGroup 3 2 syms_5;
     AGroup 21379 2 syms_83; AGroup 21341 4 syms_84; AGroup 16884 5 syms_552;
     AGroup 21381 5 syms_85; AGroup 21343 6 syms_86]);
   (420366, 10, [AGroup 5 1 [sym_ppDirective]; AGroup 21317 1 [sym_kHat]; AGroup 21335 1 [sym_kFdiv];
     AGroup 21337 1 [sym_kAs]; SGroup 4250 1 [sym__exprIsNot]; AGroup 3 2 syms_5;
     AGroup 17016 3 syms_94; AGroup 21331 4 syms_84; AGroup 21333 6 syms_86;
     AGroup 17014 12 syms_540]);
   (420419, 4, [AGroup 5 1 [sym_ppDirective]; AGroup 3 2 syms_5; AGroup 17550 4 syms_25;
     AGroup 17548 25 syms_158]);
   (420460, 5, [AGroup 5 1 [sym_ppDirective]; SGroup 4282 1 [sym_kDot]; AGroup 3 2 syms_5;
     AGroup 16970 4 syms_25; AGroup 16968 24 syms_167]);
   (420503, 12, [AGroup 5 1 [sym_ppDirective]; AGroup 783 1 [anon_sym_LBRACK];
     AGroup 788 1 [aux_sym_ppUsesBlock_token1]; AGroup 21387 1 [sym_identifier];
     AGroup 21389 1 [sym_kGeneric]; SGroup 24 1 [sym__ppIf]; SGroup 11942 1 [sym_rttiAttributes];
     SGroup 12404 1 [aux_sym_rttiAttributes_repeat2]; AGroup 3 2 syms_5; SGroup 8470 3 syms_320;
     SGroup 12061 3 syms_2; AGroup 781 16 syms_553]);
   (420560, 4, [AGroup 5 1 [sym_ppDirective]; AGroup 3 2 syms_5; AGroup 17256 4 syms_25;
     AGroup 17254 25 syms_157]);
   (420601, 9, [AGroup 5 1 [sym_ppDirective]; AGroup 21349 1 [sym_kHat]; AGroup 21363 1 [sym_kFdiv];
     AGroup 21365 1 [sym_kAs]; SGroup 4300 1 [sym__exprIsNot]; AGroup 3 2 syms_5;
     AGroup 16914 3 syms_94; AGroup 21361 6 syms_86; AGroup 16912 16 syms_554]);
   (420652, 8, [AGroup 20772 1 [anon_sym_DOT]; AGroup 20778 1 [sym_identifier]; SGroup 12033 1 [sym_kDot];
     AGroup 3 3 syms_1; AGroup 20774 3 syms_429; SGroup 11251 3 syms_2; SGroup 11497 3 syms_430;
     AGroup 20776 17 syms_431]);
   (420701, 4, [AGroup 5 1 [sym_ppDirective]; AGroup 3 2 syms_5; AGroup 17592 4 syms_25;
     AGroup 17590 25 syms_158]);
   (420742, 4, [AGroup 5 1 [sym_ppDirective]; AGroup 3 2 syms_5; AGroup 17082 4 syms_25;
     AGroup 17080 25 syms_158]);
   (420783, 8, [AGroup 20772 1 [anon_sym_DOT]; AGroup 20778 1 [sym_identifier]; SGroup 12033 1 [sym_kDot];
     AGroup 3 3 syms_1; AGroup 20774 3 syms_429; SGroup 11251 3 syms_2; SGroup 11468 3 syms_430;
     AGroup 20776 17 syms_431]);
   (420832, 4, [AGroup 5 1 [sym_ppDirective]; AGroup 3 2 syms_5; AGroup 17096 4 syms_25;
     AGroup 17094 25 syms_158]);
   (420873, 4, [AGroup 5 1 [sym_ppDirective]; AGroup 3 2 syms_5; AGroup 17108 4 syms_25;
     AGroup 17106 25 syms_158]);
   (420914, 14, [AGroup 5 1 [sym_ppDirective]; AGroup 16886 1 [anon_sym_LPAREN]; AGroup 21317 1 [sym_kHat];
     AGroup 21335 1 [sym_kFdiv]; AGroup 21337 1 [sym_kAs]; AGroup 21396 1 [sym_kIs];
     AGroup 21398 1 [sym_kNot]; SGroup 4250 1 [sym__exprIsNot]; AGroup 3 2 syms_5;
     AGroup 21392 2 syms_83; AGroup 21331 4 syms_84; AGroup 16884 5 syms_555;
     AGroup 21394 5 syms_85; AGroup 21333 6 syms_86]);
   (420975, 4, [AGroup 5 1 [sym_ppDirective]; AGroup 3 2 syms_5; AGroup 17116 4 syms_25;
     AGroup 17114 25 syms_158]);
   (421016, 4, [AGroup 5 1 [sym_ppDirective]; AGroup 3 2 syms_5; AGroup 17120 4 syms_25;
     AGroup 17118 25 syms_158]);
   (421057, 4, [AGroup 5 1 [sym_ppDirective]; AGroup 3 2 syms_5; AGroup 17124 4 syms_25;
     AGroup 17122 25 syms_158]);
   (421098, 14, [AGroup 20631 1 [sym_kHat]; AGroup 20639 1 [sym_kAs]; AGroup 20655 1 [sym_kIs];
     AGroup 20657 1 [sym_kNot]; AGroup 20961 1 [anon_sym_SEMI]; SGroup 4762 1 [sym__exprIsNot];
     AGroup 20633 2 syms_9; AGroup 20635 2 syms_258; AGroup 20641 2 syms_259;
     AGroup 20651 2 syms_83; AGroup 3 3 syms_1; AGroup 20637 5 syms_260; AGroup 20653 5 syms_85;
     AGroup 21205 5 syms_313]);
   (421159, 4, [AGroup 5 1 [sym_ppDirective]; AGroup 3 2 syms_5; AGroup 17242 4 syms_25;
     AGroup 17240 25 syms_161]);
   (421200, 4, [AGroup 5 1 [sym_ppDirective]; AGroup 3 2 syms_5; AGroup 17154 4 syms_25;
     AGroup 17152 25 syms_158]);
   (421241, 4, [AGroup 5 1 [sym_ppDirective]; AGroup 3 2 syms_5; AGroup 17158 4 syms_25;
     AGroup 17156 25 syms_158]);
   (421282, 4, [AGroup 5 1 [sym_ppDirective]; AGroup 3 2 syms_5; AGroup 17256 4 syms_25;
     AGroup 17254 25 syms_144]);
   (421323, 4, [AGroup 5 1 [sym_ppDirective]; AGroup 3 2 syms_5; AGroup 17172 4 syms_25;
     AGroup 17170 25 syms_158]);
   (421364, 11, [AGroup 20690 1 [sym_kHat]; AGroup 20698 1 [sym_kAs]; AGroup 21400 1 [sym_kDo];
     SGroup 4677 1 [sym__exprIsNot]; AGroup 16914 2 syms_83; AGroup 20692 2 syms_9;
     AGroup 20694 2 syms_258; AGroup 20700 2 syms_259; AGroup 3 3 syms_1;
     AGroup 20696 5 syms_260; AGroup 16912 12 syms_518]);
   (421419, 4, [AGroup 5 1 [sym_ppDirective]; AGroup 3 2 syms_5; AGroup 17412 4 syms_25;
     AGroup 17410 25 syms_143]);
   (421460, 4, [AGroup 5 1 [sym_ppDirective]; AGroup 3 2 syms_5; AGroup 17128 4 syms_25;
     AGroup 17126 25 syms_154]);
   (421501, 8, [AGroup 20772 1 [anon_sym_DOT]; AGroup 20778 1 [sym_identifier]; SGroup 12033 1 [sym_kDot];
     AGroup 3 3 syms_1; AGroup 20774 3 syms_429; SGroup 11251 3 syms_2; SGroup 11502 3 syms_430;
     AGroup 20776 17 syms_431]);
   (421550, 10, [AGroup 5 1 [sym_ppDirective]; AGroup 21357 1 [sym_kHat]; AGroup 21371 1 [sym_kFdiv];
     AGroup 21373 1 [sym_kAs]; SGroup 4278 1 [sym__exprIsNot]; AGroup 3 2 syms_5;
     AGroup 17016 3 syms_94; AGroup 21367 4 syms_84; AGroup 21369 6 syms_86;
     AGroup 17014 12 syms_550]);
   (421603, 4, [AGroup 5 1 [sym_ppDirective]; AGroup 3 2 syms_5; AGroup 17328 4 syms_25;
     AGroup 17326 25 syms_158]);
   (421644, 11, [AGroup 20690 1 [sym_kHat]; AGroup 20698 1 [sym_kAs]; AGroup 21402 1 [sym_kDo];
     SGroup 4677 1 [sym__exprIsNot]; AGroup 16914 2 syms_83; AGroup 20692 2 syms_9;
     AGroup 20694 2 syms_258; AGroup 20700 2 syms_259; AGroup 3 3 syms_1;
     AGroup 20696 5 syms_260; AGroup 16912 12 syms_518]);
   (421699, 4, [AGroup 5 1 [sym_ppDirective]; AGroup 3 2 syms_5; AGroup 17154 4 syms_25;
     AGroup 17152 25 syms_154]);
   (421740, 5, [AGroup 5 1 [sym_ppDirective]; SGroup 4303 1 [sym_kDot]; AGroup 3 2 syms_5;
     AGroup 16970 4 syms_25; AGroup 16968 24 syms_170]);
   (421783, 10, [AGroup 5 1 [sym_ppDirective]; AGroup 21349 1 [sym_kHat]; AGroup 21363 1 [sym_kFdiv];
     AGroup 21365 1 [sym_kAs]; SGroup 4300 1 [sym__exprIsNot]; AGroup 3 2 syms_5;
     AGroup 17016 3 syms_94; AGroup 21359 4 syms_84; AGroup 21361 6 syms_86;
     AGroup 17014 12 syms_549]);
   (421836, 4, [AGroup 5 1 [sym_ppDirective]; AGroup 3 2 syms_5; AGroup 17242 4 syms_25;
     AGroup 17240 25 syms_158]);
   (421877, 4, [AGroup 5 1 [sym_ppDirective]; AGroup 3 2 syms_5; AGroup 17158 4 syms_25;
     AGroup 17156 25 syms_154]);
   (421918, 11, [AGroup 20690 1 [sym_kHat]; AGroup 20698 1 [sym_kAs]; AGroup 21404 1 [sym_kDo];
     SGroup 4677 1 [sym__exprIsNot]; AGroup 16914 2 syms_83; AGroup 20692 2 syms_9;
     AGroup 20694 2 syms_258; AGroup 20700 2 syms_259; AGroup 3 3 syms_1;
     AGroup 20696 5 syms_260; AGroup 16912 12 syms_518]);
   (421973, 4, [AGroup 5 1 [sym_ppDirective]; AGroup 3 2 syms_5; AGroup 17096 4 syms_25;
     AGroup 17094 25 syms_143]);
   (422014, 4, [AGroup 5 1 [sym_ppDirective]; AGroup 3 2 syms_5; AGroup 17256 4 syms_25;
     AGroup 17254 25 syms_158]);
   (422055, 4, [AGroup 5 1 [sym_ppDirective]; AGroup 3 2 syms_5; AGroup 17108 4 syms_25;
     AGroup 17106 25 syms_143]);
   (422096, 11, [AGroup 20690 1 [sym_kHat]; AGroup 20698 1 [sym_kAs]; AGroup 21406 1 [sym_kDo];
     SGroup 4677 1 [sym__exprIsNot]; AGroup 16914 2 syms_83; AGroup 20692 2 syms_9;
     AGroup 20694 2 syms_258; AGroup 20700 2 syms_259; AGroup 3 3 syms_1;
     AGroup 20696 5 syms_260; AGroup 16912 12 syms_518]);
   (422151, 14, [AGroup 5 1 [sym_ppDirective]; AGroup 16886 1 [anon_sym_LPAREN]; AGroup 21349 1 [sym_kHat];
     AGroup 21363 1 [sym_kFdiv]; AGroup 21365 1 [sym_kAs]; AGroup 21412 1 [sym_kIs];
     AGroup 21414 1 [sym_kNot]; SGroup 4300 1 [sym__exprIsNot]; AGroup 3 2 syms_5;
     AGroup 21408 2 syms_83; AGroup 21359 4 syms_84; AGroup 16884 5 syms_556;
     AGroup 21410 5 syms_85; AGroup 21361 6 syms_86]);
   (422212, 7, [AGroup 5 1 [sym_ppDirective]; AGroup 16974 1 [anon_sym_COMMA];
     AGroup 16978 1 [anon_sym_DOT]; AGroup 3 2 syms_5; AGroup 16976 2 syms_97;
     AGroup 16981 2 syms_83; AGroup 16972 23 syms_557]);
   (422259, 5, [AGroup 5 1 [sym_ppDirective]; AGroup 21416 1 [sym_identifier]; AGroup 3 2 syms_5;
     AGroup 17342 4 syms_25; AGroup 17340 24 syms_184]);
   (422302, 11, [AGroup 20690 1 [sym_kHat]; AGroup 20698 1 [sym_kAs]; AGroup 21418 1 [sym_kDo];
     SGroup 4677 1 [sym__exprIsNot]; AGroup 16914 2 syms_83; AGroup 20692 2 syms_9;
     AGroup 20694 2 syms_258; AGroup 20700 2 syms_259; AGroup 3 3 syms_1;
     AGroup 20696 5 syms_260; AGroup 16912 12 syms_518]);
   (422357, 4, [AGroup 5 1 [sym_ppDirective]; AGroup 3 2 syms_5; AGroup 17172 4 syms_25;
     AGroup 17170 25 syms_154]);
   (422398, 4, [AGroup 5 1 [sym_ppDirective]; AGroup 3 2 syms_5; AGroup 18831 4 syms_25;
     AGroup 18829 25 syms_144]);
   (422439, 6, [AGroup 5 1 [sym_ppDirective]; AGroup 3 2 syms_5; AGroup 16976 2 syms_97;
     AGroup 16978 2 syms_298; AGroup 16981 2 syms_83; AGroup 16972 23 syms_558]);
   (422484, 11, [AGroup 20690 1 [sym_kHat]; AGroup 20698 1 [sym_kAs]; AGroup 21420 1 [sym_kDo];
     SGroup 4677 1 [sym__exprIsNot]; AGroup 16914 2 syms_83; AGroup 20692 2 syms_9;
     AGroup 20694 2 syms_258; AGroup 20700 2 syms_259; AGroup 3 3 syms_1;
     AGroup 20696 5 syms_260; AGroup 16912 12 syms_518]);
   (422539, 5, [AGroup 5 1 [sym_ppDirective]; AGroup 21422 1 [sym_identifier]; AGroup 3 2 syms_5;
     AGroup 17342 4 syms_25; AGroup 17340 24 syms_175]);
   (422582, 5, [AGroup 5 1 [sym_ppDirective]; AGroup 21424 1 [sym_identifier]; AGroup 3 2 syms_5;
     AGroup 17348 4 syms_25; AGroup 17346 24 syms_175]);
   (422625, 5, [AGroup 5 1 [sym_ppDirective]; AGroup 21426 1 [sym_identifier]; AGroup 3 2 syms_5;
     AGroup 17348 4 syms_25; AGroup 17346 24 syms_184]);
   (422668, 9, [AGroup 5 1 [sym_ppDirective]; AGroup 17042 1 [anon_sym_DOT];
     AGroup 21428 1 [anon_sym_LBRACK]; AGroup 21430 1 [anon_sym_LPAREN];
     AGroup 21432 1 [sym_kLt]; SGroup 5089 1 [sym_kDot]; AGroup 3 2 syms_5;
     AGroup 17046 2 syms_101; AGroup 17036 22 syms_559]);
   (422719, 14, [AGroup 20631 1 [sym_kHat]; AGroup 20639 1 [sym_kAs]; AGroup 20655 1 [sym_kIs];
     AGroup 20657 1 [sym_kNot]; AGroup 20857 1 [anon_sym_SEMI]; SGroup 4762 1 [sym__exprIsNot];
     AGroup 20633 2 syms_9; AGroup 20635 2 syms_258; AGroup 20641 2 syms_259;
     AGroup 20651 2 syms_83; AGroup 3 3 syms_1; AGroup 20637 5 syms_260; AGroup 20653 5 syms_85;
     AGroup 21205 5 syms_313]);
   (422780, 4, [AGroup 5 1 [sym_ppDirective]; AGroup 3 2 syms_5; AGroup 17328 4 syms_25;
     AGroup 17326 25 syms_144]);
   (422821, 9, [AGroup 5 1 [sym_ppDirective]; AGroup 17042 1 [anon_sym_DOT];
     AGroup 21434 1 [anon_sym_LBRACK]; AGroup 21436 1 [anon_sym_LPAREN];
     AGroup 21438 1 [sym_kLt]; SGroup 4838 1 [sym_kDot]; AGroup 3 2 syms_5;
     AGroup 17046 2 syms_101; AGroup 17036 22 syms_560]);
   (422872, 4, [AGroup 5 1 [sym_ppDirective]; AGroup 3 2 syms_5; AGroup 17550 4 syms_25;
     AGroup 17548 25 syms_163]);
   (422913, 7, [AGroup 5 1 [sym_ppDirective]; AGroup 16974 1 [anon_sym_COMMA];
     AGroup 16978 1 [anon_sym_DOT]; AGroup 3 2 syms_5; AGroup 16976 2 syms_97;
     AGroup 16981 2 syms_83; AGroup 16972 23 syms_561]);
   (422960, 11, [AGroup 20690 1 [sym_kHat]; AGroup 20698 1 [sym_kAs]; AGroup 21440 1 [sym_kDo];
     SGroup 4677 1 [sym__exprIsNot]; AGroup 16914 2 syms_83; AGroup 20692 2 syms_9;
     AGroup 20694 2 syms_258; AGroup 20700 2 syms_259; AGroup 3 3 syms_1;
     AGroup 20696 5 syms_260; AGroup 16912 12 syms_518]);
   (423015, 14, [AGroup 20631 1 [sym_kHat]; AGroup 20639 1 [sym_kAs]; AGroup 20655 1 [sym_kIs];
     AGroup 20657 1 [sym_kNot]; AGroup 21015 1 [anon_sym_SEMI]; SGroup 4762 1 [sym__exprIsNot];
     AGroup 20633 2 syms_9; AGroup 20635 2 syms_258; AGroup 20641 2 syms_259;
     AGroup 20651 2 syms_83; AGroup 3 3 syms_1; AGroup 20637 5 syms_260; AGroup 20653 5 syms_85;
     AGroup 21205 5 syms_313]);
   (423076, 4, [AGroup 5 1 [sym_ppDirective]; AGroup 3 2 syms_5; AGroup 17242 4 syms_25;
     AGroup 17240 25 syms_163]);
   (423117, 5, [AGroup 5 1 [sym_ppDirective]; SGroup 5074 1 [sym__exprIsNot]; AGroup 3 2 syms_5;
     AGroup 17032 4 syms_25; AGroup 17030 24 syms_184]);
   (423160, 11, [AGroup 20690 1 [sym_kHat]; AGroup 20698 1 [sym_kAs]; AGroup 21442 1 [sym_kDo];
     SGroup 4677 1 [sym__exprIsNot]; AGroup 16914 2 syms_83; AGroup 20692 2 syms_9;
     AGroup 20694 2 syms_258; AGroup 20700 2 syms_259; AGroup 3 3 syms_1;
     AGroup 20696 5 syms_260; AGroup 16912 12 syms_518]);
   (423215, 5, [AGroup 5 1 [sym_ppDirective]; AGroup 21444 1 [anon_sym_COLON]; AGroup 3 2 syms_5;
     AGroup 16976 4 syms_25; AGroup 16972 24 syms_562]);
   (423258, 4, [AGroup 5 1 [sym_ppDirective]; AGroup 3 2 syms_5; AGroup 17358 4 syms_25;
     AGroup 17356 25 syms_144]);
   (423299, 16, [AGroup 20826 1 [sym_kHat]; AGroup 20834 1 [sym_kAs]; AGroup 21446 1 [anon_sym_COLON];
     AGroup 21448 1 [anon_sym_COMMA]; AGroup 21460 1 [sym_kFdiv]; AGroup 21462 1 [sym_kIs];
     AGroup 21464 1 [sym_kNot]; SGroup 4778 1 [sym__exprIsNot];
     SGroup 11980 1 [aux_sym_legacyFormat_repeat1]; SGroup 12872 1 [sym_legacyFormat];
     AGroup 21450 2 syms_563; AGroup 21452 2 syms_83; AGroup 3 3 syms_1; AGroup 21456 4 syms_84;
     AGroup 21454 5 syms_85; AGroup 21458 6 syms_86]);
   (423364, 4, [AGroup 5 1 [sym_ppDirective]; AGroup 3 2 syms_5; AGroup 17362 4 syms_25;
     AGroup 17360 25 syms_144]);
   (423405, 5, [AGroup 5 1 [sym_ppDirective]; SGroup 4349 1 [sym__exprIsNot]; AGroup 3 2 syms_5;
     AGroup 17032 4 syms_25; AGroup 17030 24 syms_174])
  ].

(** States 8459 to 8558. *)
Definition small_runs_8459 : list small_run :=
  [
   (423448, 5, [AGroup 5 1 [sym_ppDirective]; SGroup 4278 1 [sym__exprIsNot]; AGroup 3 2 syms_5;
     AGroup 17032 4 syms_25; AGroup 17030 24 syms_167]);
   (423491, 6, [AGroup 5 1 [sym_ppDirective]; AGroup 21466 1 [sym_kHat]; SGroup 5074 1 [sym__exprIsNot];
     AGroup 3 2 syms_5; AGroup 16914 4 syms_25; AGroup 16912 23 syms_564]);
   (423536, 6, [AGroup 5 1 [sym_ppDirective]; AGroup 21466 1 [sym_kHat]; SGroup 5074 1 [sym__exprIsNot];
     AGroup 3 2 syms_5; AGroup 16904 4 syms_25; AGroup 16902 23 syms_564]);
   (423581, 10, [AGroup 5 1 [sym_ppDirective]; AGroup 21466 1 [sym_kHat]; AGroup 21472 1 [sym_kFdiv];
     AGroup 21474 1 [sym_kAs]; SGroup 5074 1 [sym__exprIsNot]; AGroup 3 2 syms_5;
     AGroup 16914 3 syms_94; AGroup 21468 4 syms_84; AGroup 21470 6 syms_86;
     AGroup 16912 12 syms_565]);
   (423634, 9, [AGroup 5 1 [sym_ppDirective]; AGroup 21466 1 [sym_kHat]; AGroup 21472 1 [sym_kFdiv];
     AGroup 21474 1 [sym_kAs]; SGroup 5074 1 [sym__exprIsNot]; AGroup 3 2 syms_5;
     AGroup 16914 3 syms_94; AGroup 21470 6 syms_86; AGroup 16912 16 syms_566]);
   (423685, 9, [AGroup 5 1 [sym_ppDirective]; AGroup 17042 1 [anon_sym_DOT];
     AGroup 20754 1 [anon_sym_LBRACK]; AGroup 20756 1 [anon_sym_LPAREN];
     AGroup 21476 1 [sym_kLt]; SGroup 5433 1 [sym_kDot]; AGroup 3 2 syms_5;
     AGroup 17046 2 syms_101; AGroup 17036 22 syms_547]);
   (423736, 5, [AGroup 5 1 [sym_ppDirective]; SGroup 5089 1 [sym_kDot]; AGroup 3 2 syms_5;
     AGroup 16970 4 syms_25; AGroup 16968 24 syms_184]);
   (423779, 4, [AGroup 5 1 [sym_ppDirective]; AGroup 3 2 syms_5; AGroup 17328 5 syms_148;
     AGroup 17326 24 syms_149]);
   (423820, 11, [AGroup 20690 1 [sym_kHat]; AGroup 20698 1 [sym_kAs]; AGroup 21478 1 [sym_kDo];
     SGroup 4677 1 [sym__exprIsNot]; AGroup 16914 2 syms_83; AGroup 20692 2 syms_9;
     AGroup 20694 2 syms_258; AGroup 20700 2 syms_259; AGroup 3 3 syms_1;
     AGroup 20696 5 syms_260; AGroup 16912 12 syms_518]);
   (423875, 11, [AGroup 20690 1 [sym_kHat]; AGroup 20698 1 [sym_kAs]; AGroup 21480 1 [sym_kDo];
     SGroup 4677 1 [sym__exprIsNot]; AGroup 16914 2 syms_83; AGroup 20692 2 syms_9;
     AGroup 20694 2 syms_258; AGroup 20700 2 syms_259; AGroup 3 3 syms_1;
     AGroup 20696 5 syms_260; AGroup 16912 12 syms_518]);
   (423930, 4, [AGroup 5 1 [sym_ppDirective]; AGroup 3 2 syms_5; AGroup 17256 4 syms_25;
     AGroup 17254 25 syms_163]);
   (423971, 12, [AGroup 5 1 [sym_ppDirective]; AGroup 863 1 [anon_sym_LBRACK];
     AGroup 868 1 [aux_sym_ppUsesBlock_token1]; AGroup 21387 1 [sym_identifier];
     AGroup 21482 1 [sym_kGeneric]; SGroup 24 1 [sym__ppIf]; SGroup 11942 1 [sym_rttiAttributes];
     SGroup 12404 1 [aux_sym_rttiAttributes_repeat2]; AGroup 3 2 syms_5; SGroup 8548 3 syms_320;
     SGroup 12061 3 syms_2; AGroup 861 16 syms_553]);
   (424028, 7, [AGroup 5 1 [sym_ppDirective]; AGroup 16974 1 [anon_sym_COMMA];
     AGroup 16978 1 [anon_sym_DOT]; AGroup 3 2 syms_5; AGroup 16976 2 syms_97;
     AGroup 16981 2 syms_83; AGroup 16972 23 syms_567]);
   (424075, 4, [AGroup 5 1 [sym_ppDirective]; AGroup 3 2 syms_5; AGroup 18831 5 syms_148;
     AGroup 18829 24 syms_149]);
   (424116, 8, [AGroup 20772 1 [anon_sym_DOT]; AGroup 20778 1 [sym_identifier]; SGroup 12033 1 [sym_kDot];
     AGroup 3 3 syms_1; AGroup 20774 3 syms_429; SGroup 11251 3 syms_2; SGroup 11495 3 syms_430;
     AGroup 20776 17 syms_431]);
   (424165, 10, [AGroup 5 1 [sym_ppDirective]; AGroup 21466 1 [sym_kHat]; AGroup 21472 1 [sym_kFdiv];
     AGroup 21474 1 [sym_kAs]; SGroup 5074 1 [sym__exprIsNot]; AGroup 3 2 syms_5;
     AGroup 17016 3 syms_94; AGroup 21468 4 syms_84; AGroup 21470 6 syms_86;
     AGroup 17014 12 syms_565]);
   (424218, 11, [AGroup 20690 1 [sym_kHat]; AGroup 20698 1 [sym_kAs]; AGroup 21485 1 [sym_kDo];
     SGroup 4677 1 [sym__exprIsNot]; AGroup 16914 2 syms_83; AGroup 20692 2 syms_9;
     AGroup 20694 2 syms_258; AGroup 20700 2 syms_259; AGroup 3 3 syms_1;
     AGroup 20696 5 syms_260; AGroup 16912 12 syms_518]);
   (424273, 10, [AGroup 5 1 [sym_ppDirective]; AGroup 21213 1 [sym_kFdiv]; AGroup 21215 1 [sym_kHat];
     AGroup 21217 1 [sym_kAs]; SGroup 4347 1 [sym__exprIsNot]; AGroup 3 2 syms_5;
     AGroup 16914 3 syms_94; AGroup 21209 4 syms_84; AGroup 21211 6 syms_86;
     AGroup 16912 12 syms_523]);
   (424326, 4, [AGroup 5 1 [sym_ppDirective]; AGroup 3 2 syms_5; AGroup 17358 5 syms_148;
     AGroup 17356 24 syms_149]);
   (424367, 14, [AGroup 5 1 [sym_ppDirective]; AGroup 16886 1 [anon_sym_LPAREN]; AGroup 21466 1 [sym_kHat];
     AGroup 21472 1 [sym_kFdiv]; AGroup 21474 1 [sym_kAs]; AGroup 21491 1 [sym_kIs];
     AGroup 21493 1 [sym_kNot]; SGroup 5074 1 [sym__exprIsNot]; AGroup 3 2 syms_5;
     AGroup 21487 2 syms_83; AGroup 21468 4 syms_84; AGroup 16884 5 syms_568;
     AGroup 21489 5 syms_85; AGroup 21470 6 syms_86]);
   (424428, 4, [AGroup 5 1 [sym_ppDirective]; AGroup 3 2 syms_5; AGroup 17362 5 syms_148;
     AGroup 17360 24 syms_149]);
   (424469, 4, [AGroup 5 1 [sym_ppDirective]; AGroup 3 2 syms_5; AGroup 11316 5 syms_148;
     AGroup 11311 24 syms_149]);
   (424510, 4, [AGroup 5 1 [sym_ppDirective]; AGroup 3 2 syms_5; AGroup 17328 4 syms_25;
     AGroup 17326 25 syms_161]);
   (424551, 4, [AGroup 5 1 [sym_ppDirective]; AGroup 3 2 syms_5; AGroup 11316 4 syms_25;
     AGroup 11311 25 syms_144]);
   (424592, 4, [AGroup 5 1 [sym_ppDirective]; AGroup 3 2 syms_5; AGroup 17362 4 syms_25;
     AGroup 17360 25 syms_163]);
   (424633, 4, [AGroup 5 1 [sym_ppDirective]; AGroup 3 2 syms_5; AGroup 17372 5 syms_148;
     AGroup 17370 24 syms_149]);
   (424674, 4, [AGroup 5 1 [sym_ppDirective]; AGroup 3 2 syms_5; AGroup 17108 4 syms_25;
     AGroup 17106 25 syms_163]);
   (424715, 5, [AGroup 5 1 [sym_ppDirective]; AGroup 21495 1 [anon_sym_COLON]; AGroup 3 2 syms_5;
     AGroup 16976 5 syms_148; AGroup 16972 23 syms_569]);
   (424758, 11, [AGroup 5 1 [sym_ppDirective]; AGroup 20963 1 [anon_sym_LBRACK];
     AGroup 20965 1 [anon_sym_LPAREN]; AGroup 20967 1 [anon_sym_DOT]; AGroup 20969 1 [sym_kLt];
     AGroup 21497 1 [anon_sym_COMMA]; AGroup 21500 1 [anon_sym_RBRACK]; SGroup 4363 1 [sym_kDot];
     AGroup 3 2 syms_5; AGroup 17046 2 syms_101; AGroup 17036 20 syms_570]);
   (424813, 11, [AGroup 20690 1 [sym_kHat]; AGroup 20698 1 [sym_kAs]; AGroup 21503 1 [sym_kDo];
     SGroup 4677 1 [sym__exprIsNot]; AGroup 16914 2 syms_83; AGroup 20692 2 syms_9;
     AGroup 20694 2 syms_258; AGroup 20700 2 syms_259; AGroup 3 3 syms_1;
     AGroup 20696 5 syms_260; AGroup 16912 12 syms_518]);
   (424868, 4, [AGroup 5 1 [sym_ppDirective]; AGroup 3 2 syms_5; AGroup 17380 5 syms_148;
     AGroup 17378 24 syms_149]);
   (424909, 4, [AGroup 5 1 [sym_ppDirective]; AGroup 3 2 syms_5; AGroup 17398 4 syms_25;
     AGroup 17396 25 syms_163]);
   (424950, 4, [AGroup 5 1 [sym_ppDirective]; AGroup 3 2 syms_5; AGroup 17592 4 syms_25;
     AGroup 17590 25 syms_163]);
   (424991, 6, [AGroup 5 1 [sym_ppDirective]; AGroup 21505 1 [sym_kHat]; SGroup 4805 1 [sym__exprIsNot];
     AGroup 3 2 syms_5; AGroup 16914 4 syms_25; AGroup 16912 23 syms_571]);
   (425036, 12, [AGroup 5 1 [sym_ppDirective]; AGroup 735 1 [anon_sym_LBRACK];
     AGroup 740 1 [aux_sym_ppUsesBlock_token1]; AGroup 21507 1 [sym_identifier];
     AGroup 21510 1 [sym_kGeneric]; SGroup 20 1 [sym__ppIf]; SGroup 12030 1 [sym_rttiAttributes];
     SGroup 12404 1 [aux_sym_rttiAttributes_repeat2]; AGroup 3 2 syms_5; SGroup 8493 3 syms_320;
     SGroup 12305 3 syms_2; AGroup 733 16 syms_524]);
   (425093, 6, [AGroup 5 1 [sym_ppDirective]; AGroup 21505 1 [sym_kHat]; SGroup 4805 1 [sym__exprIsNot];
     AGroup 3 2 syms_5; AGroup 16904 4 syms_25; AGroup 16902 23 syms_571]);
   (425138, 10, [AGroup 5 1 [sym_ppDirective]; AGroup 21505 1 [sym_kHat]; AGroup 21517 1 [sym_kFdiv];
     AGroup 21519 1 [sym_kAs]; SGroup 4805 1 [sym__exprIsNot]; AGroup 3 2 syms_5;
     AGroup 16914 3 syms_94; AGroup 21513 4 syms_84; AGroup 21515 6 syms_86;
     AGroup 16912 12 syms_572]);
   (425191, 9, [AGroup 5 1 [sym_ppDirective]; AGroup 21505 1 [sym_kHat]; AGroup 21517 1 [sym_kFdiv];
     AGroup 21519 1 [sym_kAs]; SGroup 4805 1 [sym__exprIsNot]; AGroup 3 2 syms_5;
     AGroup 16914 3 syms_94; AGroup 21515 6 syms_86; AGroup 16912 16 syms_573]);
   (425242, 11, [AGroup 20690 1 [sym_kHat]; AGroup 20698 1 [sym_kAs]; AGroup 21521 1 [sym_kDo];
     SGroup 4677 1 [sym__exprIsNot]; AGroup 16914 2 syms_83; AGroup 20692 2 syms_9;
     AGroup 20694 2 syms_258; AGroup 20700 2 syms_259; AGroup 3 3 syms_1;
     AGroup 20696 5 syms_260; AGroup 16912 12 syms_518]);
   (425297, 4, [AGroup 5 1 [sym_ppDirective]; AGroup 3 2 syms_5; AGroup 17386 5 syms_148;
     AGroup 17384 24 syms_149]);
   (425338, 4, [AGroup 5 1 [sym_ppDirective]; AGroup 3 2 syms_5; AGroup 18831 4 syms_25;
     AGroup 18829 25 syms_163]);
   (425379, 4, [AGroup 5 1 [sym_ppDirective]; AGroup 3 2 syms_5; AGroup 17398 5 syms_148;
     AGroup 17396 24 syms_149]);
   (425420, 5, [AGroup 5 1 [sym_ppDirective]; SGroup 4838 1 [sym_kDot]; AGroup 3 2 syms_5;
     AGroup 16970 4 syms_25; AGroup 16968 24 syms_175]);
   (425463, 14, [AGroup 5 1 [sym_ppDirective]; AGroup 16886 1 [anon_sym_LPAREN]; AGroup 21357 1 [sym_kHat];
     AGroup 21371 1 [sym_kFdiv]; AGroup 21373 1 [sym_kAs]; AGroup 21527 1 [sym_kIs];
     AGroup 21529 1 [sym_kNot]; SGroup 4278 1 [sym__exprIsNot]; AGroup 3 2 syms_5;
     AGroup 21523 2 syms_83; AGroup 21367 4 syms_84; AGroup 16884 5 syms_574;
     AGroup 21525 5 syms_85; AGroup 21369 6 syms_86]);
   (425524, 4, [AGroup 5 1 [sym_ppDirective]; AGroup 3 2 syms_5; AGroup 17408 5 syms_148;
     AGroup 17406 24 syms_149]);
   (425565, 10, [AGroup 5 1 [sym_ppDirective]; AGroup 21505 1 [sym_kHat]; AGroup 21517 1 [sym_kFdiv];
     AGroup 21519 1 [sym_kAs]; SGroup 4805 1 [sym__exprIsNot]; AGroup 3 2 syms_5;
     AGroup 17016 3 syms_94; AGroup 21513 4 syms_84; AGroup 21515 6 syms_86;
     AGroup 17014 12 syms_572]);
   (425618, 4, [AGroup 5 1 [sym_ppDirective]; AGroup 3 2 syms_5; AGroup 17412 5 syms_148;
     AGroup 17410 24 syms_149]);
   (425659, 9, [AGroup 5 1 [sym_ppDirective]; AGroup 17042 1 [anon_sym_DOT];
     AGroup 21531 1 [anon_sym_LBRACK]; AGroup 21533 1 [anon_sym_LPAREN];
     AGroup 21535 1 [sym_kLt]; SGroup 4366 1 [sym_kDot]; AGroup 3 2 syms_5;
     AGroup 17046 2 syms_101; AGroup 17036 22 syms_575]);
   (425710, 14, [AGroup 5 1 [sym_ppDirective]; AGroup 16886 1 [anon_sym_LPAREN]; AGroup 21505 1 [sym_kHat];
     AGroup 21517 1 [sym_kFdiv]; AGroup 21519 1 [sym_kAs]; AGroup 21541 1 [sym_kIs];
     AGroup 21543 1 [sym_kNot]; SGroup 4805 1 [sym__exprIsNot]; AGroup 3 2 syms_5;
     AGroup 21537 2 syms_83; AGroup 21513 4 syms_84; AGroup 16884 5 syms_576;
     AGroup 21539 5 syms_85; AGroup 21515 6 syms_86]);
   (425771, 4, [AGroup 5 1 [sym_ppDirective]; AGroup 3 2 syms_5; AGroup 17116 4 syms_25;
     AGroup 17114 25 syms_143]);
   (425812, 12, [AGroup 20601 1 [sym_kHat]; AGroup 20607 1 [sym_kFdiv]; AGroup 20609 1 [sym_kAs];
     AGroup 20615 1 [sym_kIs]; AGroup 20617 1 [sym_kNot]; SGroup 4203 1 [sym__exprIsNot];
     AGroup 20611 2 syms_83; AGroup 3 3 syms_1; AGroup 20603 4 syms_84; AGroup 20613 5 syms_85;
     AGroup 20605 6 syms_86; AGroup 21031 6 syms_534]);
   (425869, 4, [AGroup 5 1 [sym_ppDirective]; AGroup 3 2 syms_5; AGroup 17120 4 syms_25;
     AGroup 17118 25 syms_163]);
   (425910, 9, [AGroup 5 1 [sym_ppDirective]; AGroup 21213 1 [sym_kFdiv]; AGroup 21215 1 [sym_kHat];
     AGroup 21217 1 [sym_kAs]; SGroup 4347 1 [sym__exprIsNot]; AGroup 3 2 syms_5;
     AGroup 16914 3 syms_94; AGroup 21211 6 syms_86; AGroup 16912 16 syms_577]);
   (425961, 4, [AGroup 5 1 [sym_ppDirective]; AGroup 3 2 syms_5; AGroup 17124 4 syms_25;
     AGroup 17122 25 syms_163]);
   (426002, 4, [AGroup 5 1 [sym_ppDirective]; AGroup 3 2 syms_5; AGroup 17550 5 syms_148;
     AGroup 17548 24 syms_149]);
   (426043, 4, [AGroup 5 1 [sym_ppDirective]; AGroup 3 2 syms_5; AGroup 17128 4 syms_25;
     AGroup 17126 25 syms_163]);
   (426084, 4, [AGroup 5 1 [sym_ppDirective]; AGroup 3 2 syms_5; AGroup 11316 4 syms_25;
     AGroup 11311 25 syms_163]);
   (426125, 5, [AGroup 5 1 [sym_ppDirective]; AGroup 21545 1 [sym_identifier]; AGroup 3 2 syms_5;
     AGroup 17342 4 syms_25; AGroup 17340 24 syms_176]);
   (426168, 11, [AGroup 20690 1 [sym_kHat]; AGroup 20698 1 [sym_kAs]; AGroup 21547 1 [sym_kDo];
     SGroup 4677 1 [sym__exprIsNot]; AGroup 16914 2 syms_83; AGroup 20692 2 syms_9;
     AGroup 20694 2 syms_258; AGroup 20700 2 syms_259; AGroup 3 3 syms_1;
     AGroup 20696 5 syms_260; AGroup 16912 12 syms_518]);
   (426223, 4, [AGroup 5 1 [sym_ppDirective]; AGroup 3 2 syms_5; AGroup 18831 4 syms_25;
     AGroup 18829 25 syms_161]);
   (426264, 4, [AGroup 5 1 [sym_ppDirective]; AGroup 3 2 syms_5; AGroup 17358 4 syms_25;
     AGroup 17356 25 syms_161]);
   (426305, 4, [AGroup 5 1 [sym_ppDirective]; AGroup 3 2 syms_5; AGroup 17362 4 syms_25;
     AGroup 17360 25 syms_161]);
   (426346, 4, [AGroup 5 1 [sym_ppDirective]; AGroup 3 2 syms_5; AGroup 17592 5 syms_148;
     AGroup 17590 24 syms_149]);
   (426387, 4, [AGroup 5 1 [sym_ppDirective]; AGroup 3 2 syms_5; AGroup 11316 4 syms_25;
     AGroup 11311 25 syms_161]);
   (426428, 4, [AGroup 5 1 [sym_ppDirective]; AGroup 3 2 syms_5; AGroup 17358 4 syms_25;
     AGroup 17356 25 syms_163]);
   (426469, 4, [AGroup 5 1 [sym_ppDirective]; AGroup 3 2 syms_5; AGroup 17372 4 syms_25;
     AGroup 17370 25 syms_161]);
   (426510, 4, [AGroup 5 1 [sym_ppDirective]; AGroup 3 2 syms_5; AGroup 17380 4 syms_25;
     AGroup 17378 25 syms_161]);
   (426551, 14, [AGroup 5 1 [sym_ppDirective]; AGroup 16886 1 [anon_sym_LPAREN]; AGroup 21213 1 [sym_kFdiv];
     AGroup 21215 1 [sym_kHat]; AGroup 21217 1 [sym_kAs]; AGroup 21553 1 [sym_kIs];
     AGroup 21555 1 [sym_kNot]; SGroup 4347 1 [sym__exprIsNot]; AGroup 3 2 syms_5;
     AGroup 21549 2 syms_83; AGroup 21209 4 syms_84; AGroup 16884 5 syms_578;
     AGroup 21551 5 syms_85; AGroup 21211 6 syms_86]);
   (426612, 4, [AGroup 5 1 [sym_ppDirective]; AGroup 3 2 syms_5; AGroup 17386 4 syms_25;
     AGroup 17384 25 syms_161]);
   (426653, 4, [AGroup 5 1 [sym_ppDirective]; AGroup 3 2 syms_5; AGroup 17398 4 syms_25;
     AGroup 17396 25 syms_161]);
   (426694, 4, [AGroup 5 1 [sym_ppDirective]; AGroup 3 2 syms_5; AGroup 17082 5 syms_148;
     AGroup 17080 24 syms_149]);
   (426735, 4, [AGroup 5 1 [sym_ppDirective]; AGroup 3 2 syms_5; AGroup 17328 4 syms_25;
     AGroup 17326 25 syms_143]);
   (426776, 4, [AGroup 5 1 [sym_ppDirective]; AGroup 3 2 syms_5; AGroup 17408 4 syms_25;
     AGroup 17406 25 syms_161]);
   (426817, 4, [AGroup 5 1 [sym_ppDirective]; AGroup 3 2 syms_5; AGroup 17412 4 syms_25;
     AGroup 17410 25 syms_161]);
   (426858, 4, [AGroup 5 1 [sym_ppDirective]; AGroup 3 2 syms_5; AGroup 17096 5 syms_148;
     AGroup 17094 24 syms_149]);
   (426899, 4, [AGroup 5 1 [sym_ppDirective]; AGroup 3 2 syms_5; AGroup 17108 5 syms_148;
     AGroup 17106 24 syms_149]);
   (426940, 4, [AGroup 5 1 [sym_ppDirective]; AGroup 3 2 syms_5; AGroup 17120 4 syms_25;
     AGroup 17118 25 syms_143]);
   (426981, 4, [AGroup 5 1 [sym_ppDirective]; AGroup 3 2 syms_5; AGroup 16467 4 syms_25;
     AGroup 16465 25 syms_579]);
   (427022, 11, [AGroup 20690 1 [sym_kHat]; AGroup 20698 1 [sym_kAs]; AGroup 21557 1 [sym_kDo];
     SGroup 4677 1 [sym__exprIsNot]; AGroup 16914 2 syms_83; AGroup 20692 2 syms_9;
     AGroup 20694 2 syms_258; AGroup 20700 2 syms_259; AGroup 3 3 syms_1;
     AGroup 20696 5 syms_260; AGroup 16912 12 syms_518]);
   (427077, 4, [AGroup 5 1 [sym_ppDirective]; AGroup 3 2 syms_5; AGroup 17116 5 syms_148;
     AGroup 17114 24 syms_149]);
   (427118, 4, [AGroup 5 1 [sym_ppDirective]; AGroup 3 2 syms_5; AGroup 17120 5 syms_148;
     AGroup 17118 24 syms_149]);
   (427159, 4, [AGroup 5 1 [sym_ppDirective]; AGroup 3 2 syms_5; AGroup 17550 4 syms_25;
     AGroup 17548 25 syms_161]);
   (427200, 7, [AGroup 5 1 [sym_ppDirective]; AGroup 16974 1 [anon_sym_COMMA];
     AGroup 16978 1 [anon_sym_DOT]; AGroup 3 2 syms_5; AGroup 16976 2 syms_97;
     AGroup 16981 2 syms_83; AGroup 16972 23 syms_580]);
   (427247, 5, [AGroup 5 1 [sym_ppDirective]; AGroup 21559 1 [sym_identifier]; AGroup 3 2 syms_5;
     AGroup 17348 4 syms_25; AGroup 17346 24 syms_176]);
   (427290, 4, [AGroup 5 1 [sym_ppDirective]; AGroup 3 2 syms_5; AGroup 17124 5 syms_148;
     AGroup 17122 24 syms_149]);
   (427331, 13, [AGroup 20631 1 [sym_kHat]; AGroup 20639 1 [sym_kAs]; AGroup 20655 1 [sym_kIs];
     AGroup 20657 1 [sym_kNot]; SGroup 4762 1 [sym__exprIsNot]; AGroup 20633 2 syms_9;
     AGroup 20635 2 syms_258; AGroup 20641 2 syms_259; AGroup 20651 2 syms_83; AGroup 3 3 syms_1;
     AGroup 20637 5 syms_260; AGroup 20653 5 syms_85; AGroup 17936 6 syms_58]);
   (427390, 4, [AGroup 5 1 [sym_ppDirective]; AGroup 3 2 syms_5; AGroup 17592 4 syms_25;
     AGroup 17590 25 syms_161]);
   (427431, 4, [AGroup 5 1 [sym_ppDirective]; AGroup 3 2 syms_5; AGroup 17082 4 syms_25;
     AGroup 17080 25 syms_161]);
   (427472, 4, [AGroup 5 1 [sym_ppDirective]; AGroup 3 2 syms_5; AGroup 17128 5 syms_148;
     AGroup 17126 24 syms_149]);
   (427513, 12, [AGroup 5 1 [sym_ppDirective]; AGroup 735 1 [anon_sym_LBRACK];
     AGroup 740 1 [aux_sym_ppUsesBlock_token1]; AGroup 21561 1 [sym_identifier];
     AGroup 21564 1 [sym_kGeneric]; SGroup 24 1 [sym__ppIf]; SGroup 11942 1 [sym_rttiAttributes];
     SGroup 12404 1 [aux_sym_rttiAttributes_repeat2]; AGroup 3 2 syms_5; SGroup 8548 3 syms_320;
     SGroup 12061 3 syms_2; AGroup 733 16 syms_553]);
   (427570, 7, [AGroup 5 1 [sym_ppDirective]; AGroup 16974 1 [anon_sym_COMMA];
     AGroup 16978 1 [anon_sym_DOT]; AGroup 3 2 syms_5; AGroup 16976 2 syms_97;
     AGroup 16981 2 syms_83; AGroup 16972 23 syms_581]);
   (427617, 4, [AGroup 5 1 [sym_ppDirective]; AGroup 3 2 syms_5; AGroup 17082 4 syms_25;
     AGroup 17080 25 syms_163]);
   (427658, 4, [AGroup 5 1 [sym_ppDirective]; AGroup 3 2 syms_5; AGroup 17154 5 syms_148;
     AGroup 17152 24 syms_149]);
   (427699, 4, [AGroup 5 1 [sym_ppDirective]; AGroup 3 2 syms_5; AGroup 17096 4 syms_25;
     AGroup 17094 25 syms_161]);
   (427740, 11, [AGroup 20690 1 [sym_kHat]; AGroup 20698 1 [sym_kAs]; AGroup 21567 1 [sym_kDo];
     SGroup 4677 1 [sym__exprIsNot]; AGroup 16914 2 syms_83; AGroup 20692 2 syms_9;
     AGroup 20694 2 syms_258; AGroup 20700 2 syms_259; AGroup 3 3 syms_1;
     AGroup 20696 5 syms_260; AGroup 16912 12 syms_518]);
   (427795, 4, [AGroup 5 1 [sym_ppDirective]; AGroup 3 2 syms_5; AGroup 17158 5 syms_148;
     AGroup 17156 24 syms_149]);
   (427836, 4, [AGroup 5 1 [sym_ppDirective]; AGroup 3 2 syms_5; AGroup 17108 4 syms_25;
     AGroup 17106 25 syms_161]);
   (427877, 13, [AGroup 20631 1 [sym_kHat]; AGroup 20639 1 [sym_kAs]; AGroup 20655 1 [sym_kIs];
     AGroup 20657 1 [sym_kNot]; SGroup 4762 1 [sym__exprIsNot]; AGroup 20633 2 syms_9;
     AGroup 20635 2 syms_258; AGroup 20641 2 syms_259; AGroup 20651 2 syms_83; AGroup 3 3 syms_1;
     AGroup 20637 5 syms_260; AGroup 20653 5 syms_85; AGroup 17938 6 syms_58]);
   (427936, 4, [AGroup 5 1 [sym_ppDirective]; AGroup 3 2 syms_5; AGroup 17172 5 syms_148;
     AGroup 17170 24 syms_149]);
   (427977, 4, [AGroup 5 1 [sym_ppDirective]; AGroup 3 2 syms_5; AGroup 17242 4 syms_25;
     AGroup 17240 25 syms_154])
  ].

(** States 8559 to 8658. *)
Definition small_runs_8559 : list small_run :=
  [
   (428018, 4, [AGroup 5 1 [sym_ppDirective]; AGroup 3 2 syms_5; AGroup 17116 4 syms_25;
     AGroup 17114 25 syms_161]);
   (428059, 4, [AGroup 5 1 [sym_ppDirective]; AGroup 3 2 syms_5; AGroup 17120 4 syms_25;
     AGroup 17118 25 syms_161]);
   (428100, 4, [AGroup 5 1 [sym_ppDirective]; AGroup 3 2 syms_5; AGroup 17124 4 syms_25;
     AGroup 17122 25 syms_161]);
   (428141, 5, [AGroup 5 1 [sym_ppDirective]; SGroup 4822 1 [sym__exprIsNot]; AGroup 3 2 syms_5;
     AGroup 17032 4 syms_25; AGroup 17030 24 syms_169]);
   (428184, 4, [AGroup 5 1 [sym_ppDirective]; AGroup 3 2 syms_5; AGroup 17128 4 syms_25;
     AGroup 17126 25 syms_161]);
   (428225, 4, [AGroup 5 1 [sym_ppDirective]; AGroup 3 2 syms_5; AGroup 17372 4 syms_25;
     AGroup 17370 25 syms_144]);
   (428266, 4, [AGroup 5 1 [sym_ppDirective]; AGroup 3 2 syms_5; AGroup 17154 4 syms_25;
     AGroup 17152 25 syms_161]);
   (428307, 14, [AGroup 5 1 [sym_ppDirective]; AGroup 16886 1 [anon_sym_LPAREN]; AGroup 21577 1 [sym_kFdiv];
     AGroup 21579 1 [sym_kHat]; AGroup 21581 1 [sym_kAs]; AGroup 21583 1 [sym_kIs];
     AGroup 21585 1 [sym_kNot]; SGroup 4822 1 [sym__exprIsNot]; AGroup 3 2 syms_5;
     AGroup 21569 2 syms_83; AGroup 21573 4 syms_84; AGroup 16884 5 syms_582;
     AGroup 21571 5 syms_85; AGroup 21575 6 syms_86]);
   (428368, 4, [AGroup 5 1 [sym_ppDirective]; AGroup 3 2 syms_5; AGroup 17158 4 syms_25;
     AGroup 17156 25 syms_161]);
   (428409, 4, [AGroup 5 1 [sym_ppDirective]; AGroup 3 2 syms_5; AGroup 17172 4 syms_25;
     AGroup 17170 25 syms_161]);
   (428450, 16, [AGroup 20826 1 [sym_kHat]; AGroup 20834 1 [sym_kAs]; AGroup 21446 1 [anon_sym_COLON];
     AGroup 21448 1 [anon_sym_COMMA]; AGroup 21460 1 [sym_kFdiv]; AGroup 21462 1 [sym_kIs];
     AGroup 21464 1 [sym_kNot]; SGroup 4778 1 [sym__exprIsNot];
     SGroup 11980 1 [aux_sym_legacyFormat_repeat1]; SGroup 12466 1 [sym_legacyFormat];
     AGroup 21452 2 syms_83; AGroup 21587 2 syms_563; AGroup 3 3 syms_1; AGroup 21456 4 syms_84;
     AGroup 21454 5 syms_85; AGroup 21458 6 syms_86]);
   (428515, 6, [AGroup 5 1 [sym_ppDirective]; AGroup 20826 1 [sym_kHat]; SGroup 5322 1 [sym__exprIsNot];
     AGroup 3 2 syms_5; AGroup 16914 4 syms_25; AGroup 16912 23 syms_583]);
   (428560, 10, [AGroup 5 1 [sym_ppDirective]; AGroup 20826 1 [sym_kHat]; AGroup 21593 1 [sym_kFdiv];
     AGroup 21595 1 [sym_kAs]; SGroup 5322 1 [sym__exprIsNot]; AGroup 3 2 syms_5;
     AGroup 16914 3 syms_94; AGroup 21589 4 syms_84; AGroup 21591 6 syms_86;
     AGroup 16912 12 syms_584]);
   (428613, 9, [AGroup 5 1 [sym_ppDirective]; AGroup 20826 1 [sym_kHat]; AGroup 21593 1 [sym_kFdiv];
     AGroup 21595 1 [sym_kAs]; SGroup 5322 1 [sym__exprIsNot]; AGroup 3 2 syms_5;
     AGroup 16914 3 syms_94; AGroup 21591 6 syms_86; AGroup 16912 16 syms_585]);
   (428664, 10, [AGroup 5 1 [sym_ppDirective]; AGroup 20826 1 [sym_kHat]; AGroup 21593 1 [sym_kFdiv];
     AGroup 21595 1 [sym_kAs]; SGroup 5322 1 [sym__exprIsNot]; AGroup 3 2 syms_5;
     AGroup 17016 3 syms_94; AGroup 21589 4 syms_84; AGroup 21591 6 syms_86;
     AGroup 17014 12 syms_584]);
   (428717, 14, [AGroup 5 1 [sym_ppDirective]; AGroup 16886 1 [anon_sym_LPAREN]; AGroup 20826 1 [sym_kHat];
     AGroup 21593 1 [sym_kFdiv]; AGroup 21595 1 [sym_kAs]; AGroup 21601 1 [sym_kIs];
     AGroup 21603 1 [sym_kNot]; SGroup 5322 1 [sym__exprIsNot]; AGroup 3 2 syms_5;
     AGroup 21597 2 syms_83; AGroup 21589 4 syms_84; AGroup 16884 5 syms_586;
     AGroup 21599 5 syms_85; AGroup 21591 6 syms_86]);
   (428778, 13, [AGroup 20601 1 [sym_kHat]; AGroup 20607 1 [sym_kFdiv]; AGroup 20609 1 [sym_kAs];
     AGroup 20615 1 [sym_kIs]; AGroup 20617 1 [sym_kNot]; AGroup 21057 1 [anon_sym_SEMI];
     SGroup 4203 1 [sym__exprIsNot]; AGroup 20611 2 syms_83; AGroup 3 3 syms_1;
     AGroup 20603 4 syms_84; AGroup 20613 5 syms_85; AGroup 20898 5 syms_60;
     AGroup 20605 6 syms_86]);
   (428837, 4, [AGroup 5 1 [sym_ppDirective]; AGroup 3 2 syms_5; AGroup 17096 4 syms_25;
     AGroup 17094 25 syms_163]);
   (428878, 11, [AGroup 20690 1 [sym_kHat]; AGroup 20698 1 [sym_kAs]; AGroup 21605 1 [sym_kDo];
     SGroup 4677 1 [sym__exprIsNot]; AGroup 16914 2 syms_83; AGroup 20692 2 syms_9;
     AGroup 20694 2 syms_258; AGroup 20700 2 syms_259; AGroup 3 3 syms_1;
     AGroup 20696 5 syms_260; AGroup 16912 12 syms_518]);
   (428933, 7, [AGroup 5 1 [sym_ppDirective]; AGroup 16974 1 [anon_sym_COMMA];
     AGroup 16978 1 [anon_sym_DOT]; AGroup 3 2 syms_5; AGroup 16976 2 syms_97;
     AGroup 16981 2 syms_83; AGroup 16972 23 syms_587]);
   (428980, 4, [AGroup 5 1 [sym_ppDirective]; AGroup 3 2 syms_5; AGroup 18831 4 syms_25;
     AGroup 18829 25 syms_143]);
   (429021, 4, [AGroup 5 1 [sym_ppDirective]; AGroup 3 2 syms_5; AGroup 17256 4 syms_25;
     AGroup 17254 25 syms_154]);
   (429062, 4, [AGroup 5 1 [sym_ppDirective]; AGroup 3 2 syms_5; AGroup 17358 4 syms_25;
     AGroup 17356 25 syms_143]);
   (429103, 5, [AGroup 5 1 [sym_ppDirective]; AGroup 21607 1 [sym_identifier]; AGroup 3 2 syms_5;
     AGroup 17342 4 syms_25; AGroup 17340 24 syms_169]);
   (429146, 5, [AGroup 5 1 [sym_ppDirective]; AGroup 21609 1 [sym_identifier]; AGroup 3 2 syms_5;
     AGroup 17348 4 syms_25; AGroup 17346 24 syms_169]);
   (429189, 9, [AGroup 5 1 [sym_ppDirective]; AGroup 17042 1 [anon_sym_DOT];
     AGroup 21611 1 [anon_sym_LBRACK]; AGroup 21613 1 [anon_sym_LPAREN];
     AGroup 21615 1 [sym_kLt]; SGroup 4828 1 [sym_kDot]; AGroup 3 2 syms_5;
     AGroup 17046 2 syms_101; AGroup 17036 22 syms_588]);
   (429240, 6, [AGroup 5 1 [sym_ppDirective]; AGroup 20826 1 [sym_kHat]; SGroup 5322 1 [sym__exprIsNot];
     AGroup 3 2 syms_5; AGroup 16904 4 syms_25; AGroup 16902 23 syms_583]);
   (429285, 5, [AGroup 5 1 [sym_ppDirective]; SGroup 5433 1 [sym_kDot]; AGroup 3 2 syms_5;
     AGroup 16970 4 syms_25; AGroup 16968 24 syms_589]);
   (429328, 5, [AGroup 5 1 [sym_ppDirective]; SGroup 5322 1 [sym__exprIsNot]; AGroup 3 2 syms_5;
     AGroup 17032 4 syms_25; AGroup 17030 24 syms_589]);
   (429371, 4, [AGroup 5 1 [sym_ppDirective]; AGroup 3 2 syms_5; AGroup 17124 4 syms_25;
     AGroup 17122 25 syms_143]);
   (429412, 6, [AGroup 5 1 [sym_ppDirective]; AGroup 21579 1 [sym_kHat]; SGroup 4822 1 [sym__exprIsNot];
     AGroup 3 2 syms_5; AGroup 16914 4 syms_25; AGroup 16912 23 syms_590]);
   (429457, 6, [AGroup 5 1 [sym_ppDirective]; AGroup 21579 1 [sym_kHat]; SGroup 4822 1 [sym__exprIsNot];
     AGroup 3 2 syms_5; AGroup 16904 4 syms_25; AGroup 16902 23 syms_590]);
   (429502, 10, [AGroup 5 1 [sym_ppDirective]; AGroup 21577 1 [sym_kFdiv]; AGroup 21579 1 [sym_kHat];
     AGroup 21581 1 [sym_kAs]; SGroup 4822 1 [sym__exprIsNot]; AGroup 3 2 syms_5;
     AGroup 16914 3 syms_94; AGroup 21573 4 syms_84; AGroup 21575 6 syms_86;
     AGroup 16912 12 syms_591]);
   (429555, 13, [AGroup 20601 1 [sym_kHat]; AGroup 20607 1 [sym_kFdiv]; AGroup 20609 1 [sym_kAs];
     AGroup 20615 1 [sym_kIs]; AGroup 20617 1 [sym_kNot]; AGroup 21059 1 [anon_sym_SEMI];
     SGroup 4203 1 [sym__exprIsNot]; AGroup 20611 2 syms_83; AGroup 3 3 syms_1;
     AGroup 20603 4 syms_84; AGroup 20613 5 syms_85; AGroup 20914 5 syms_60;
     AGroup 20605 6 syms_86]);
   (429614, 9, [AGroup 5 1 [sym_ppDirective]; AGroup 21577 1 [sym_kFdiv]; AGroup 21579 1 [sym_kHat];
     AGroup 21581 1 [sym_kAs]; SGroup 4822 1 [sym__exprIsNot]; AGroup 3 2 syms_5;
     AGroup 16914 3 syms_94; AGroup 21575 6 syms_86; AGroup 16912 16 syms_592]);
   (429665, 4, [AGroup 5 1 [sym_ppDirective]; AGroup 3 2 syms_5; AGroup 17362 4 syms_25;
     AGroup 17360 25 syms_143]);
   (429706, 5, [AGroup 5 1 [sym_ppDirective]; SGroup 4828 1 [sym_kDot]; AGroup 3 2 syms_5;
     AGroup 16970 4 syms_25; AGroup 16968 24 syms_169]);
   (429749, 13, [AGroup 20601 1 [sym_kHat]; AGroup 20607 1 [sym_kFdiv]; AGroup 20609 1 [sym_kAs];
     AGroup 20615 1 [sym_kIs]; AGroup 20617 1 [sym_kNot]; AGroup 21061 1 [anon_sym_SEMI];
     SGroup 4203 1 [sym__exprIsNot]; AGroup 20611 2 syms_83; AGroup 3 3 syms_1;
     AGroup 20603 4 syms_84; AGroup 20613 5 syms_85; AGroup 20933 5 syms_60;
     AGroup 20605 6 syms_86]);
   (429808, 10, [AGroup 5 1 [sym_ppDirective]; AGroup 21577 1 [sym_kFdiv]; AGroup 21579 1 [sym_kHat];
     AGroup 21581 1 [sym_kAs]; SGroup 4822 1 [sym__exprIsNot]; AGroup 3 2 syms_5;
     AGroup 17016 3 syms_94; AGroup 21573 4 syms_84; AGroup 21575 6 syms_86;
     AGroup 17014 12 syms_591]);
   (429861, 5, [AGroup 5 1 [sym_ppDirective]; SGroup 4250 1 [sym__exprIsNot]; AGroup 3 2 syms_5;
     AGroup 17032 4 syms_25; AGroup 17030 24 syms_182]);
   (429904, 4, [AGroup 5 1 [sym_ppDirective]; AGroup 3 2 syms_5; AGroup 17128 4 syms_25;
     AGroup 17126 25 syms_158]);
   (429945, 5, [AGroup 5 1 [sym_ppDirective]; SGroup 5317 1 [sym_kDot]; AGroup 3 2 syms_5;
     AGroup 16970 4 syms_25; AGroup 16968 23 syms_204]);
   (429987, 4, [AGroup 5 1 [sym_ppDirective]; AGroup 3 2 syms_5; AGroup 17328 4 syms_25;
     AGroup 17326 24 syms_170]);
   (430027, 4, [AGroup 5 1 [sym_ppDirective]; AGroup 3 2 syms_5; AGroup 17172 4 syms_25;
     AGroup 17170 24 syms_176]);
   (430067, 4, [AGroup 5 1 [sym_ppDirective]; AGroup 3 2 syms_5; AGroup 17242 4 syms_25;
     AGroup 17240 24 syms_175]);
   (430107, 4, [AGroup 5 1 [sym_ppDirective]; AGroup 3 2 syms_5; AGroup 17256 4 syms_25;
     AGroup 17254 24 syms_175]);
   (430147, 11, [AGroup 5 1 [sym_ppDirective]; AGroup 17042 1 [anon_sym_DOT];
     AGroup 20754 1 [anon_sym_LBRACK]; AGroup 20756 1 [anon_sym_LPAREN];
     AGroup 21476 1 [sym_kLt]; AGroup 21617 1 [anon_sym_COMMA]; AGroup 21619 1 [anon_sym_RBRACK];
     SGroup 4459 1 [sym_kDot]; AGroup 3 2 syms_5; AGroup 17046 2 syms_101;
     AGroup 17036 19 syms_593]);
   (430201, 11, [AGroup 5 1 [sym_ppDirective]; AGroup 17042 1 [anon_sym_DOT];
     AGroup 20754 1 [anon_sym_LBRACK]; AGroup 20756 1 [anon_sym_LPAREN];
     AGroup 21476 1 [sym_kLt]; AGroup 21617 1 [anon_sym_COMMA]; AGroup 21621 1 [anon_sym_RBRACK];
     SGroup 4459 1 [sym_kDot]; AGroup 3 2 syms_5; AGroup 17046 2 syms_101;
     AGroup 17036 19 syms_593]);
   (430255, 11, [AGroup 5 1 [sym_ppDirective]; AGroup 17042 1 [anon_sym_DOT];
     AGroup 17746 1 [anon_sym_RBRACK]; AGroup 20754 1 [anon_sym_LBRACK];
     AGroup 20756 1 [anon_sym_LPAREN]; AGroup 21476 1 [sym_kLt]; AGroup 21617 1 [anon_sym_COMMA];
     SGroup 4459 1 [sym_kDot]; AGroup 3 2 syms_5; AGroup 17046 2 syms_101;
     AGroup 17036 19 syms_593]);
   (430309, 17, [AGroup 14853 1 [anon_sym_POUND]; AGroup 21625 1 [sym_kHat];
     AGroup 21627 1 [sym_ppFragmentExpr]; AGroup 21629 1 [sym_identifier];
     AGroup 21631 1 [sym_kString]; SGroup 10605 1 [sym__subRangeUnary];
     SGroup 10614 1 [sym__subRangeBinary]; SGroup 10620 1 [sym__subRangeCall];
     AGroup 14851 2 syms_6; AGroup 14855 2 syms_7; AGroup 14857 2 syms_8; AGroup 21623 2 syms_9;
     SGroup 10647 2 syms_12; AGroup 3 3 syms_1; SGroup 10482 3 syms_13; SGroup 10607 3 syms_30;
     SGroup 10551 4 syms_31]);
   (430375, 11, [AGroup 5 1 [sym_ppDirective]; AGroup 17042 1 [anon_sym_DOT];
     AGroup 20754 1 [anon_sym_LBRACK]; AGroup 20756 1 [anon_sym_LPAREN];
     AGroup 21476 1 [sym_kLt]; AGroup 21617 1 [anon_sym_COMMA]; AGroup 21633 1 [anon_sym_RBRACK];
     SGroup 4459 1 [sym_kDot]; AGroup 3 2 syms_5; AGroup 17046 2 syms_101;
     AGroup 17036 19 syms_593]);
   (430429, 17, [AGroup 14853 1 [anon_sym_POUND]; AGroup 21625 1 [sym_kHat];
     AGroup 21627 1 [sym_ppFragmentExpr]; AGroup 21629 1 [sym_identifier];
     AGroup 21631 1 [sym_kString]; SGroup 10605 1 [sym__subRangeUnary];
     SGroup 10614 1 [sym__subRangeBinary]; SGroup 10620 1 [sym__subRangeCall];
     AGroup 14851 2 syms_6; AGroup 14855 2 syms_7; AGroup 14857 2 syms_8; AGroup 21623 2 syms_9;
     SGroup 10647 2 syms_12; AGroup 3 3 syms_1; SGroup 10482 3 syms_13; SGroup 10599 3 syms_30;
     SGroup 10551 4 syms_31]);
   (430495, 17, [AGroup 21637 1 [anon_sym_POUND]; AGroup 21645 1 [sym_kHat];
     AGroup 21647 1 [sym_ppFragmentExpr]; AGroup 21649 1 [sym_identifier];
     AGroup 21651 1 [sym_kString]; SGroup 11019 1 [sym__subRangeCall];
     SGroup 11036 1 [sym__subRangeUnary]; SGroup 11037 1 [sym__subRangeBinary];
     AGroup 21635 2 syms_6; AGroup 21639 2 syms_7; AGroup 21641 2 syms_8; AGroup 21643 2 syms_9;
     SGroup 10984 2 syms_12; AGroup 3 3 syms_1; SGroup 10511 3 syms_13; SGroup 11007 3 syms_30;
     SGroup 10582 4 syms_31]);
   (430561, 17, [AGroup 14853 1 [anon_sym_POUND]; AGroup 21625 1 [sym_kHat];
     AGroup 21627 1 [sym_ppFragmentExpr]; AGroup 21629 1 [sym_identifier];
     AGroup 21631 1 [sym_kString]; SGroup 10605 1 [sym__subRangeUnary];
     SGroup 10614 1 [sym__subRangeBinary]; SGroup 10620 1 [sym__subRangeCall];
     AGroup 14851 2 syms_6; AGroup 14855 2 syms_7; AGroup 14857 2 syms_8; AGroup 21623 2 syms_9;
     SGroup 10647 2 syms_12; AGroup 3 3 syms_1; SGroup 10482 3 syms_13; SGroup 10669 3 syms_30;
     SGroup 10551 4 syms_31]);
   (430627, 11, [AGroup 5 1 [sym_ppDirective]; AGroup 17042 1 [anon_sym_DOT];
     AGroup 20754 1 [anon_sym_LBRACK]; AGroup 20756 1 [anon_sym_LPAREN];
     AGroup 21476 1 [sym_kLt]; AGroup 21617 1 [anon_sym_COMMA]; AGroup 21653 1 [anon_sym_RBRACK];
     SGroup 4459 1 [sym_kDot]; AGroup 3 2 syms_5; AGroup 17046 2 syms_101;
     AGroup 17036 19 syms_593]);
   (430681, 4, [AGroup 5 1 [sym_ppDirective]; AGroup 3 2 syms_5; AGroup 17380 4 syms_25;
     AGroup 17378 24 syms_176]);
   (430721, 4, [AGroup 5 1 [sym_ppDirective]; AGroup 3 2 syms_5; AGroup 17386 4 syms_25;
     AGroup 17384 24 syms_176]);
   (430761, 11, [AGroup 5 1 [sym_ppDirective]; AGroup 17042 1 [anon_sym_DOT];
     AGroup 17712 1 [anon_sym_RBRACK]; AGroup 20754 1 [anon_sym_LBRACK];
     AGroup 20756 1 [anon_sym_LPAREN]; AGroup 21476 1 [sym_kLt]; AGroup 21617 1 [anon_sym_COMMA];
     SGroup 4459 1 [sym_kDot]; AGroup 3 2 syms_5; AGroup 17046 2 syms_101;
     AGroup 17036 19 syms_593]);
   (430815, 11, [AGroup 5 1 [sym_ppDirective]; AGroup 17042 1 [anon_sym_DOT];
     AGroup 20754 1 [anon_sym_LBRACK]; AGroup 20756 1 [anon_sym_LPAREN];
     AGroup 21476 1 [sym_kLt]; AGroup 21617 1 [anon_sym_COMMA]; AGroup 21655 1 [anon_sym_RBRACK];
     SGroup 4459 1 [sym_kDot]; AGroup 3 2 syms_5; AGroup 17046 2 syms_101;
     AGroup 17036 19 syms_593]);
   (430869, 4, [AGroup 5 1 [sym_ppDirective]; AGroup 3 2 syms_5; AGroup 17398 4 syms_25;
     AGroup 17396 24 syms_176]);
   (430909, 4, [AGroup 5 1 [sym_ppDirective]; AGroup 3 2 syms_5; AGroup 17408 4 syms_25;
     AGroup 17406 24 syms_176]);
   (430949, 4, [AGroup 5 1 [sym_ppDirective]; AGroup 3 2 syms_5; AGroup 17412 4 syms_25;
     AGroup 17410 24 syms_176]);
   (430989, 11, [AGroup 5 1 [sym_ppDirective]; AGroup 17042 1 [anon_sym_DOT];
     AGroup 20754 1 [anon_sym_LBRACK]; AGroup 20756 1 [anon_sym_LPAREN];
     AGroup 21476 1 [sym_kLt]; AGroup 21617 1 [anon_sym_COMMA]; AGroup 21657 1 [anon_sym_RBRACK];
     SGroup 4459 1 [sym_kDot]; AGroup 3 2 syms_5; AGroup 17046 2 syms_101;
     AGroup 17036 19 syms_593]);
   (431043, 4, [AGroup 5 1 [sym_ppDirective]; AGroup 3 2 syms_5; AGroup 17328 4 syms_25;
     AGroup 17326 24 syms_169]);
   (431083, 11, [AGroup 5 1 [sym_ppDirective]; AGroup 17042 1 [anon_sym_DOT];
     AGroup 17718 1 [anon_sym_RBRACK]; AGroup 20754 1 [anon_sym_LBRACK];
     AGroup 20756 1 [anon_sym_LPAREN]; AGroup 21476 1 [sym_kLt]; AGroup 21617 1 [anon_sym_COMMA];
     SGroup 4459 1 [sym_kDot]; AGroup 3 2 syms_5; AGroup 17046 2 syms_101;
     AGroup 17036 19 syms_593]);
   (431137, 17, [AGroup 21637 1 [anon_sym_POUND]; AGroup 21645 1 [sym_kHat];
     AGroup 21647 1 [sym_ppFragmentExpr]; AGroup 21649 1 [sym_identifier];
     AGroup 21651 1 [sym_kString]; SGroup 11019 1 [sym__subRangeCall];
     SGroup 11036 1 [sym__subRangeUnary]; SGroup 11037 1 [sym__subRangeBinary];
     AGroup 21635 2 syms_6; AGroup 21639 2 syms_7; AGroup 21641 2 syms_8; AGroup 21643 2 syms_9;
     SGroup 10984 2 syms_12; AGroup 3 3 syms_1; SGroup 10511 3 syms_13; SGroup 10965 3 syms_30;
     SGroup 10582 4 syms_31]);
   (431203, 11, [AGroup 5 1 [sym_ppDirective]; AGroup 17042 1 [anon_sym_DOT];
     AGroup 20754 1 [anon_sym_LBRACK]; AGroup 20756 1 [anon_sym_LPAREN];
     AGroup 21476 1 [sym_kLt]; AGroup 21617 1 [anon_sym_COMMA]; AGroup 21659 1 [anon_sym_RBRACK];
     SGroup 4459 1 [sym_kDot]; AGroup 3 2 syms_5; AGroup 17046 2 syms_101;
     AGroup 17036 19 syms_593]);
   (431257, 17, [AGroup 21637 1 [anon_sym_POUND]; AGroup 21645 1 [sym_kHat];
     AGroup 21647 1 [sym_ppFragmentExpr]; AGroup 21649 1 [sym_identifier];
     AGroup 21651 1 [sym_kString]; SGroup 11019 1 [sym__subRangeCall];
     SGroup 11036 1 [sym__subRangeUnary]; SGroup 11037 1 [sym__subRangeBinary];
     AGroup 21635 2 syms_6; AGroup 21639 2 syms_7; AGroup 21641 2 syms_8; AGroup 21643 2 syms_9;
     SGroup 10984 2 syms_12; AGroup 3 3 syms_1; SGroup 10511 3 syms_13; SGroup 11000 3 syms_30;
     SGroup 10582 4 syms_31]);
   (431323, 17, [AGroup 21663 1 [anon_sym_POUND]; AGroup 21671 1 [sym_kHat];
     AGroup 21673 1 [sym_ppFragmentExpr]; AGroup 21675 1 [sym_identifier];
     AGroup 21677 1 [sym_kString]; SGroup 11107 1 [sym__subRangeCall];
     SGroup 11108 1 [sym__subRangeUnary]; SGroup 11109 1 [sym__subRangeBinary];
     AGroup 21661 2 syms_6; AGroup 21665 2 syms_7; AGroup 21667 2 syms_8; AGroup 21669 2 syms_9;
     SGroup 11088 2 syms_12; AGroup 3 3 syms_1; SGroup 10518 3 syms_13; SGroup 11137 3 syms_30;
     SGroup 10636 4 syms_31]);
   (431389, 17, [AGroup 21637 1 [anon_sym_POUND]; AGroup 21645 1 [sym_kHat];
     AGroup 21647 1 [sym_ppFragmentExpr]; AGroup 21649 1 [sym_identifier];
     AGroup 21651 1 [sym_kString]; SGroup 11019 1 [sym__subRangeCall];
     SGroup 11036 1 [sym__subRangeUnary]; SGroup 11037 1 [sym__subRangeBinary];
     AGroup 21635 2 syms_6; AGroup 21639 2 syms_7; AGroup 21641 2 syms_8; AGroup 21643 2 syms_9;
     SGroup 10984 2 syms_12; AGroup 3 3 syms_1; SGroup 10511 3 syms_13; SGroup 11020 3 syms_30;
     SGroup 10582 4 syms_31]);
   (431455, 11, [AGroup 5 1 [sym_ppDirective]; AGroup 17042 1 [anon_sym_DOT];
     AGroup 20754 1 [anon_sym_LBRACK]; AGroup 20756 1 [anon_sym_LPAREN];
     AGroup 21476 1 [sym_kLt]; AGroup 21617 1 [anon_sym_COMMA]; AGroup 21679 1 [anon_sym_RBRACK];
     SGroup 4459 1 [sym_kDot]; AGroup 3 2 syms_5; AGroup 17046 2 syms_101;
     AGroup 17036 19 syms_593]);
   (431509, 4, [AGroup 5 1 [sym_ppDirective]; AGroup 3 2 syms_5; AGroup 17328 4 syms_25;
     AGroup 17326 24 syms_175]);
   (431549, 11, [AGroup 5 1 [sym_ppDirective]; AGroup 17042 1 [anon_sym_DOT];
     AGroup 20754 1 [anon_sym_LBRACK]; AGroup 20756 1 [anon_sym_LPAREN];
     AGroup 21476 1 [sym_kLt]; AGroup 21617 1 [anon_sym_COMMA]; AGroup 21681 1 [anon_sym_RBRACK];
     SGroup 4459 1 [sym_kDot]; AGroup 3 2 syms_5; AGroup 17046 2 syms_101;
     AGroup 17036 19 syms_593]);
   (431603, 11, [AGroup 5 1 [sym_ppDirective]; AGroup 17042 1 [anon_sym_DOT];
     AGroup 17722 1 [anon_sym_RBRACK]; AGroup 20754 1 [anon_sym_LBRACK];
     AGroup 20756 1 [anon_sym_LPAREN]; AGroup 21476 1 [sym_kLt]; AGroup 21617 1 [anon_sym_COMMA];
     SGroup 4459 1 [sym_kDot]; AGroup 3 2 syms_5; AGroup 17046 2 syms_101;
     AGroup 17036 19 syms_593]);
   (431657, 17, [AGroup 21663 1 [anon_sym_POUND]; AGroup 21671 1 [sym_kHat];
     AGroup 21673 1 [sym_ppFragmentExpr]; AGroup 21675 1 [sym_identifier];
     AGroup 21677 1 [sym_kString]; SGroup 11107 1 [sym__subRangeCall];
     SGroup 11108 1 [sym__subRangeUnary]; SGroup 11109 1 [sym__subRangeBinary];
     AGroup 21661 2 syms_6; AGroup 21665 2 syms_7; AGroup 21667 2 syms_8; AGroup 21669 2 syms_9;
     SGroup 11088 2 syms_12; AGroup 3 3 syms_1; SGroup 10518 3 syms_13; SGroup 11208 3 syms_30;
     SGroup 10636 4 syms_31]);
   (431723, 11, [AGroup 5 1 [sym_ppDirective]; AGroup 17042 1 [anon_sym_DOT];
     AGroup 20754 1 [anon_sym_LBRACK]; AGroup 20756 1 [anon_sym_LPAREN];
     AGroup 21476 1 [sym_kLt]; AGroup 21617 1 [anon_sym_COMMA]; AGroup 21683 1 [anon_sym_RBRACK];
     SGroup 4459 1 [sym_kDot]; AGroup 3 2 syms_5; AGroup 17046 2 syms_101;
     AGroup 17036 19 syms_593]);
   (431777, 17, [AGroup 21663 1 [anon_sym_POUND]; AGroup 21671 1 [sym_kHat];
     AGroup 21673 1 [sym_ppFragmentExpr]; AGroup 21675 1 [sym_identifier];
     AGroup 21677 1 [sym_kString]; SGroup 11107 1 [sym__subRangeCall];
     SGroup 11108 1 [sym__subRangeUnary]; SGroup 11109 1 [sym__subRangeBinary];
     AGroup 21661 2 syms_6; AGroup 21665 2 syms_7; AGroup 21667 2 syms_8; AGroup 21669 2 syms_9;
     SGroup 11088 2 syms_12; AGroup 3 3 syms_1; SGroup 10518 3 syms_13; SGroup 11136 3 syms_30;
     SGroup 10636 4 syms_31]);
   (431843, 17, [AGroup 21687 1 [anon_sym_POUND]; AGroup 21695 1 [sym_kHat];
     AGroup 21697 1 [sym_ppFragmentExpr]; AGroup 21699 1 [sym_identifier];
     AGroup 21701 1 [sym_kString]; SGroup 10486 1 [sym__subRangeCall];
     SGroup 10502 1 [sym__subRangeUnary]; SGroup 10504 1 [sym__subRangeBinary];
     AGroup 21685 2 syms_6; AGroup 21689 2 syms_7; AGroup 21691 2 syms_8; AGroup 21693 2 syms_9;
     SGroup 10506 2 syms_12; AGroup 3 3 syms_1; SGroup 10353 3 syms_13; SGroup 10494 3 syms_30;
     SGroup 10471 4 syms_31]);
   (431909, 17, [AGroup 21663 1 [anon_sym_POUND]; AGroup 21671 1 [sym_kHat];
     AGroup 21673 1 [sym_ppFragmentExpr]; AGroup 21675 1 [sym_identifier];
     AGroup 21677 1 [sym_kString]; SGroup 11107 1 [sym__subRangeCall];
     SGroup 11108 1 [sym__subRangeUnary]; SGroup 11109 1 [sym__subRangeBinary];
     AGroup 21661 2 syms_6; AGroup 21665 2 syms_7; AGroup 21667 2 syms_8; AGroup 21669 2 syms_9;
     SGroup 11088 2 syms_12; AGroup 3 3 syms_1; SGroup 10518 3 syms_13; SGroup 11140 3 syms_30;
     SGroup 10636 4 syms_31]);
   (431975, 11, [AGroup 5 1 [sym_ppDirective]; AGroup 17042 1 [anon_sym_DOT];
     AGroup 20754 1 [anon_sym_LBRACK]; AGroup 20756 1 [anon_sym_LPAREN];
     AGroup 21476 1 [sym_kLt]; AGroup 21617 1 [anon_sym_COMMA]; AGroup 21703 1 [anon_sym_RBRACK];
     SGroup 4459 1 [sym_kDot]; AGroup 3 2 syms_5; AGroup 17046 2 syms_101;
     AGroup 17036 19 syms_593]);
   (432029, 5, [AGroup 5 1 [sym_ppDirective]; AGroup 21705 1 [sym_identifier]; AGroup 3 2 syms_5;
     AGroup 17342 4 syms_25; AGroup 17340 23 syms_193]);
   (432071, 11, [AGroup 5 1 [sym_ppDirective]; AGroup 17042 1 [anon_sym_DOT];
     AGroup 20754 1 [anon_sym_LBRACK]; AGroup 20756 1 [anon_sym_LPAREN];
     AGroup 21476 1 [sym_kLt]; AGroup 21617 1 [anon_sym_COMMA]; AGroup 21707 1 [anon_sym_RBRACK];
     SGroup 4459 1 [sym_kDot]; AGroup 3 2 syms_5; AGroup 17046 2 syms_101;
     AGroup 17036 19 syms_593]);
   (432125, 11, [AGroup 5 1 [sym_ppDirective]; AGroup 17042 1 [anon_sym_DOT];
     AGroup 17850 1 [anon_sym_RBRACK]; AGroup 20754 1 [anon_sym_LBRACK];
     AGroup 20756 1 [anon_sym_LPAREN]; AGroup 21476 1 [sym_kLt]; AGroup 21617 1 [anon_sym_COMMA];
     SGroup 4459 1 [sym_kDot]; AGroup 3 2 syms_5; AGroup 17046 2 syms_101;
     AGroup 17036 19 syms_593]);
   (432179, 17, [AGroup 21687 1 [anon_sym_POUND]; AGroup 21695 1 [sym_kHat];
     AGroup 21697 1 [sym_ppFragmentExpr]; AGroup 21699 1 [sym_identifier];
     AGroup 21701 1 [sym_kString]; SGroup 10486 1 [sym__subRangeCall];
     SGroup 10502 1 [sym__subRangeUnary]; SGroup 10504 1 [sym__subRangeBinary];
     AGroup 21685 2 syms_6; AGroup 21689 2 syms_7; AGroup 21691 2 syms_8; AGroup 21693 2 syms_9;
     SGroup 10506 2 syms_12; AGroup 3 3 syms_1; SGroup 10353 3 syms_13; SGroup 10488 3 syms_30;
     SGroup 10471 4 syms_31]);
   (432245, 4, [AGroup 5 1 [sym_ppDirective]; AGroup 3 2 syms_5; AGroup 17550 4 syms_25;
     AGroup 17548 24 syms_176]);
   (432285, 5, [AGroup 5 1 [sym_ppDirective]; AGroup 21709 1 [sym_identifier]; AGroup 3 2 syms_5;
     AGroup 17348 4 syms_25; AGroup 17346 23 syms_193]);
   (432327, 11, [AGroup 5 1 [sym_ppDirective]; AGroup 17042 1 [anon_sym_DOT];
     AGroup 20754 1 [anon_sym_LBRACK]; AGroup 20756 1 [anon_sym_LPAREN];
     AGroup 21476 1 [sym_kLt]; AGroup 21617 1 [anon_sym_COMMA]; AGroup 21711 1 [anon_sym_RBRACK];
     SGroup 4459 1 [sym_kDot]; AGroup 3 2 syms_5; AGroup 17046 2 syms_101;
     AGroup 17036 19 syms_593]);
   (432381, 17, [AGroup 21687 1 [anon_sym_POUND]; AGroup 21695 1 [sym_kHat];
     AGroup 21697 1 [sym_ppFragmentExpr]; AGroup 21699 1 [sym_identifier];
     AGroup 21701 1 [sym_kString]; SGroup 10486 1 [sym__subRangeCall];
     SGroup 10502 1 [sym__subRangeUnary]; SGroup 10504 1 [sym__subRangeBinary];
     AGroup 21685 2 syms_6; AGroup 21689 2 syms_7; AGroup 21691 2 syms_8; AGroup 21693 2 syms_9;
     SGroup 10506 2 syms_12; AGroup 3 3 syms_1; SGroup 10353 3 syms_13; SGroup 10510 3 syms_30;
     SGroup 10471 4 syms_31]);
   (432447, 17, [AGroup 21687 1 [anon_sym_POUND]; AGroup 21695 1 [sym_kHat];
     AGroup 21697 1 [sym_ppFragmentExpr]; AGroup 21699 1 [sym_identifier];
     AGroup 21701 1 [sym_kString]; SGroup 10486 1 [sym__subRangeCall];
     SGroup 10502 1 [sym__subRangeUnary]; SGroup 10504 1 [sym__subRangeBinary];
     AGroup 21685 2 syms_6; AGroup 21689 2 syms_7; AGroup 21691 2 syms_8; AGroup 21693 2 syms_9;
     SGroup 10506 2 syms_12; AGroup 3 3 syms_1; SGroup 10353 3 syms_13; SGroup 10493 3 syms_30;
     SGroup 10471 4 syms_31]);
   (432513, 11, [AGroup 5 1 [sym_ppDirective]; AGroup 17042 1 [anon_sym_DOT];
     AGroup 20754 1 [anon_sym_LBRACK]; AGroup 20756 1 [anon_sym_LPAREN];
     AGroup 21476 1 [sym_kLt]; AGroup 21617 1 [anon_sym_COMMA]; AGroup 21713 1 [anon_sym_RBRACK];
     SGroup 4459 1 [sym_kDot]; AGroup 3 2 syms_5; AGroup 17046 2 syms_101;
     AGroup 17036 19 syms_593]);
   (432567, 9, [AGroup 5 1 [sym_ppDirective]; AGroup 17042 1 [anon_sym_DOT];
     AGroup 21715 1 [anon_sym_LBRACK]; AGroup 21717 1 [anon_sym_LPAREN];
     AGroup 21719 1 [sym_kLt]; SGroup 4929 1 [sym_kDot]; AGroup 3 2 syms_5;
     AGroup 17046 2 syms_101; AGroup 17036 21 syms_594]);
   (432617, 5, [AGroup 5 1 [sym_ppDirective]; AGroup 21721 1 [sym_identifier]; AGroup 3 2 syms_5;
     AGroup 17342 4 syms_25; AGroup 17340 23 syms_204]);
   (432659, 11, [AGroup 5 1 [sym_ppDirective]; AGroup 17042 1 [anon_sym_DOT];
     AGroup 20754 1 [anon_sym_LBRACK]; AGroup 20756 1 [anon_sym_LPAREN];
     AGroup 21476 1 [sym_kLt]; AGroup 21617 1 [anon_sym_COMMA]; AGroup 21723 1 [anon_sym_RBRACK];
     SGroup 4459 1 [sym_kDot]; AGroup 3 2 syms_5; AGroup 17046 2 syms_101;
     AGroup 17036 19 syms_593]);
   (432713, 5, [AGroup 5 1 [sym_ppDirective]; AGroup 21725 1 [sym_identifier]; AGroup 3 2 syms_5;
     AGroup 17348 4 syms_25; AGroup 17346 23 syms_204]);
   (432755, 11, [AGroup 5 1 [sym_ppDirective]; AGroup 17042 1 [anon_sym_DOT];
     AGroup 17772 1 [anon_sym_RBRACK]; AGroup 20754 1 [anon_sym_LBRACK];
     AGroup 20756 1 [anon_sym_LPAREN]; AGroup 21476 1 [sym_kLt]; AGroup 21617 1 [anon_sym_COMMA];
     SGroup 4459 1 [sym_kDot]; AGroup 3 2 syms_5; AGroup 17046 2 syms_101;
     AGroup 17036 19 syms_593]);
   (432809, 14, [AGroup 20734 1 [sym_kFdiv]; AGroup 20736 1 [sym_kHat]; AGroup 20738 1 [sym_kAs];
     AGroup 20740 1 [sym_kIs]; AGroup 20742 1 [sym_kNot]; AGroup 21727 1 [anon_sym_SEMI];
     AGroup 21729 1 [sym_kRaiseAt]; SGroup 5044 1 [sym__exprIsNot]; AGroup 20726 2 syms_83;
     AGroup 3 3 syms_1; AGroup 20764 3 syms_79; AGroup 20730 4 syms_84; AGroup 20728 5 syms_85;
     AGroup 20732 6 syms_86]);
   (432869, 11, [AGroup 5 1 [sym_ppDirective]; AGroup 17042 1 [anon_sym_DOT];
     AGroup 20754 1 [anon_sym_LBRACK]; AGroup 20756 1 [anon_sym_LPAREN];
     AGroup 21476 1 [sym_kLt]; AGroup 21617 1 [anon_sym_COMMA]; AGroup 21731 1 [anon_sym_RBRACK];
     SGroup 4459 1 [sym_kDot]; AGroup 3 2 syms_5; AGroup 17046 2 syms_101;
     AGroup 17036 19 syms_593]);
   (432923, 17, [AGroup 14853 1 [anon_sym_POUND]; AGroup 21733 1 [sym_kHat];
     AGroup 21735 1 [sym_ppFragmentExpr]; AGroup 21737 1 [sym_identifier];
     AGroup 21739 1 [sym_kString]; SGroup 10605 1 [sym__subRangeUnary];
     SGroup 10614 1 [sym__subRangeBinary]; SGroup 10620 1 [sym__subRangeCall];
     AGroup 14851 2 syms_6; AGroup 14855 2 syms_7; AGroup 14857 2 syms_8; AGroup 14861 2 syms_9;
     SGroup 10647 2 syms_12; AGroup 3 3 syms_1; SGroup 10482 3 syms_13; SGroup 10607 3 syms_30;
     SGroup 10689 4 syms_31]);
   (432989, 11, [AGroup 5 1 [sym_ppDirective]; AGroup 17042 1 [anon_sym_DOT];
     AGroup 20754 1 [anon_sym_LBRACK]; AGroup 20756 1 [anon_sym_LPAREN];
     AGroup 21476 1 [sym_kLt]; AGroup 21617 1 [anon_sym_COMMA]; AGroup 21741 1 [anon_sym_RBRACK];
     SGroup 4459 1 [sym_kDot]; AGroup 3 2 syms_5; AGroup 17046 2 syms_101;
     AGroup 17036 19 syms_593]);
   (433043, 11, [AGroup 5 1 [sym_ppDirective]; AGroup 17042 1 [anon_sym_DOT];
     AGroup 20754 1 [anon_sym_LBRACK]; AGroup 20756 1 [anon_sym_LPAREN];
     AGroup 21476 1 [sym_kLt]; AGroup 21617 1 [anon_sym_COMMA]; AGroup 21743 1 [anon_sym_RBRACK];
     SGroup 4459 1 [sym_kDot]; AGroup 3 2 syms_5; AGroup 17046 2 syms_101;
     AGroup 17036 19 syms_593])
  ].

(** States 8659 to 8758. *)
Definition small_runs_8659 : list small_run :=
  [
   (433097, 11, [AGroup 5 1 [sym_ppDirective]; AGroup 17042 1 [anon_sym_DOT];
     AGroup 20754 1 [anon_sym_LBRACK]; AGroup 20756 1 [anon_sym_LPAREN];
     AGroup 21476 1 [sym_kLt]; AGroup 21617 1 [anon_sym_COMMA]; AGroup 21745 1 [anon_sym_RBRACK];
     SGroup 4459 1 [sym_kDot]; AGroup 3 2 syms_5; AGroup 17046 2 syms_101;
     AGroup 17036 19 syms_593]);
   (433151, 11, [AGroup 5 1 [sym_ppDirective]; AGroup 17042 1 [anon_sym_DOT];
     AGroup 17738 1 [anon_sym_RBRACK]; AGroup 20754 1 [anon_sym_LBRACK];
     AGroup 20756 1 [anon_sym_LPAREN]; AGroup 21476 1 [sym_kLt]; AGroup 21617 1 [anon_sym_COMMA];
     SGroup 4459 1 [sym_kDot]; AGroup 3 2 syms_5; AGroup 17046 2 syms_101;
     AGroup 17036 19 syms_593]);
   (433205, 7, [AGroup 5 1 [sym_ppDirective]; AGroup 16974 1 [anon_sym_COMMA];
     AGroup 16978 1 [anon_sym_DOT]; AGroup 3 2 syms_5; AGroup 16976 2 syms_97;
     AGroup 16981 2 syms_83; AGroup 16972 22 syms_595]);
   (433251, 11, [AGroup 5 1 [sym_ppDirective]; AGroup 17042 1 [anon_sym_DOT];
     AGroup 20754 1 [anon_sym_LBRACK]; AGroup 20756 1 [anon_sym_LPAREN];
     AGroup 21476 1 [sym_kLt]; AGroup 21617 1 [anon_sym_COMMA]; AGroup 21747 1 [anon_sym_RBRACK];
     SGroup 4459 1 [sym_kDot]; AGroup 3 2 syms_5; AGroup 17046 2 syms_101;
     AGroup 17036 19 syms_593]);
   (433305, 11, [AGroup 5 1 [sym_ppDirective]; AGroup 17042 1 [anon_sym_DOT];
     AGroup 20754 1 [anon_sym_LBRACK]; AGroup 20756 1 [anon_sym_LPAREN];
     AGroup 21476 1 [sym_kLt]; AGroup 21617 1 [anon_sym_COMMA]; AGroup 21749 1 [anon_sym_RBRACK];
     SGroup 4459 1 [sym_kDot]; AGroup 3 2 syms_5; AGroup 17046 2 syms_101;
     AGroup 17036 19 syms_593]);
   (433359, 4, [AGroup 5 1 [sym_ppDirective]; AGroup 3 2 syms_5; AGroup 17242 4 syms_25;
     AGroup 17240 24 syms_169]);
   (433399, 5, [AGroup 5 1 [sym_ppDirective]; SGroup 4394 1 [sym__exprIsNot]; AGroup 3 2 syms_5;
     AGroup 17032 4 syms_25; AGroup 17030 23 syms_196]);
   (433441, 3, [AGroup 5 1 [sym_ppDirective]; AGroup 3 2 syms_5; AGroup 21751 28 syms_519]);
   (433479, 14, [AGroup 20631 1 [sym_kHat]; AGroup 20639 1 [sym_kAs]; AGroup 20655 1 [sym_kIs];
     AGroup 20657 1 [sym_kNot]; AGroup 21755 1 [sym_kIn]; SGroup 4762 1 [sym__exprIsNot];
     AGroup 20633 2 syms_9; AGroup 20635 2 syms_258; AGroup 20641 2 syms_259;
     AGroup 20651 2 syms_83; AGroup 3 3 syms_1; AGroup 20653 4 syms_596; AGroup 20637 5 syms_260;
     AGroup 21753 5 syms_313]);
   (433539, 14, [AGroup 20631 1 [sym_kHat]; AGroup 20639 1 [sym_kAs]; AGroup 20655 1 [sym_kIs];
     AGroup 20657 1 [sym_kNot]; AGroup 21757 1 [sym_kIn]; SGroup 4762 1 [sym__exprIsNot];
     AGroup 20633 2 syms_9; AGroup 20635 2 syms_258; AGroup 20641 2 syms_259;
     AGroup 20651 2 syms_83; AGroup 3 3 syms_1; AGroup 20653 4 syms_596; AGroup 20637 5 syms_260;
     AGroup 21753 5 syms_313]);
   (433599, 4, [AGroup 5 1 [sym_ppDirective]; AGroup 3 2 syms_5; AGroup 18831 4 syms_25;
     AGroup 18829 24 syms_184]);
   (433639, 4, [AGroup 5 1 [sym_ppDirective]; AGroup 3 2 syms_5; AGroup 17358 4 syms_25;
     AGroup 17356 24 syms_184]);
   (433679, 4, [AGroup 5 1 [sym_ppDirective]; AGroup 3 2 syms_5; AGroup 17362 4 syms_25;
     AGroup 17360 24 syms_184]);
   (433719, 14, [AGroup 20794 1 [sym_kHat]; AGroup 20804 1 [sym_kFdiv]; AGroup 20806 1 [sym_kAs];
     AGroup 20853 1 [sym_kIs]; AGroup 20855 1 [sym_kNot]; AGroup 21759 1 [anon_sym_SEMI];
     AGroup 21761 1 [sym_kRaiseAt]; SGroup 4526 1 [sym__exprIsNot]; AGroup 20849 2 syms_83;
     AGroup 3 3 syms_1; AGroup 20764 3 syms_43; AGroup 20800 4 syms_84; AGroup 20851 5 syms_85;
     AGroup 20802 6 syms_86]);
   (433779, 4, [AGroup 5 1 [sym_ppDirective]; AGroup 3 2 syms_5; AGroup 11316 4 syms_25;
     AGroup 11311 24 syms_184]);
   (433819, 5, [AGroup 5 1 [sym_ppDirective]; SGroup 4743 1 [sym__exprIsNot]; AGroup 3 2 syms_5;
     AGroup 17032 4 syms_25; AGroup 17030 23 syms_197]);
   (433861, 5, [AGroup 5 1 [sym_ppDirective]; AGroup 21763 1 [sym_identifier]; AGroup 3 2 syms_5;
     AGroup 17342 4 syms_25; AGroup 17340 23 syms_196]);
   (433903, 4, [AGroup 5 1 [sym_ppDirective]; AGroup 3 2 syms_5; AGroup 17592 4 syms_25;
     AGroup 17590 24 syms_176]);
   (433943, 5, [AGroup 5 1 [sym_ppDirective]; AGroup 21765 1 [sym_identifier]; AGroup 3 2 syms_5;
     AGroup 17348 4 syms_25; AGroup 17346 23 syms_196]);
   (433985, 4, [AGroup 5 1 [sym_ppDirective]; AGroup 3 2 syms_5; AGroup 17082 4 syms_25;
     AGroup 17080 24 syms_176]);
   (434025, 4, [AGroup 5 1 [sym_ppDirective]; AGroup 3 2 syms_5; AGroup 17372 4 syms_25;
     AGroup 17370 24 syms_184]);
   (434065, 9, [AGroup 5 1 [sym_ppDirective]; AGroup 17042 1 [anon_sym_DOT];
     AGroup 21767 1 [anon_sym_LBRACK]; AGroup 21769 1 [anon_sym_LPAREN];
     AGroup 21771 1 [sym_kLt]; SGroup 4399 1 [sym_kDot]; AGroup 3 2 syms_5;
     AGroup 17046 2 syms_101; AGroup 17036 21 syms_597]);
   (434115, 6, [AGroup 5 1 [sym_ppDirective]; AGroup 21773 1 [sym_kHat]; SGroup 4394 1 [sym__exprIsNot];
     AGroup 3 2 syms_5; AGroup 16914 4 syms_25; AGroup 16912 22 syms_598]);
   (434159, 6, [AGroup 5 1 [sym_ppDirective]; AGroup 21773 1 [sym_kHat]; SGroup 4394 1 [sym__exprIsNot];
     AGroup 3 2 syms_5; AGroup 16904 4 syms_25; AGroup 16902 22 syms_598]);
   (434203, 10, [AGroup 5 1 [sym_ppDirective]; AGroup 21773 1 [sym_kHat]; AGroup 21779 1 [sym_kFdiv];
     AGroup 21781 1 [sym_kAs]; SGroup 4394 1 [sym__exprIsNot]; AGroup 3 2 syms_5;
     AGroup 16914 3 syms_94; AGroup 21775 4 syms_84; AGroup 21777 6 syms_86;
     AGroup 16912 11 syms_599]);
   (434255, 9, [AGroup 5 1 [sym_ppDirective]; AGroup 21773 1 [sym_kHat]; AGroup 21779 1 [sym_kFdiv];
     AGroup 21781 1 [sym_kAs]; SGroup 4394 1 [sym__exprIsNot]; AGroup 3 2 syms_5;
     AGroup 16914 3 syms_94; AGroup 21777 6 syms_86; AGroup 16912 15 syms_600]);
   (434305, 4, [AGroup 5 1 [sym_ppDirective]; AGroup 3 2 syms_5; AGroup 17380 4 syms_25;
     AGroup 17378 24 syms_184]);
   (434345, 5, [AGroup 5 1 [sym_ppDirective]; SGroup 4399 1 [sym_kDot]; AGroup 3 2 syms_5;
     AGroup 16970 4 syms_25; AGroup 16968 23 syms_196]);
   (434387, 4, [AGroup 5 1 [sym_ppDirective]; AGroup 3 2 syms_5; AGroup 17386 4 syms_25;
     AGroup 17384 24 syms_184]);
   (434427, 10, [AGroup 5 1 [sym_ppDirective]; AGroup 21773 1 [sym_kHat]; AGroup 21779 1 [sym_kFdiv];
     AGroup 21781 1 [sym_kAs]; SGroup 4394 1 [sym__exprIsNot]; AGroup 3 2 syms_5;
     AGroup 17016 3 syms_94; AGroup 21775 4 syms_84; AGroup 21777 6 syms_86;
     AGroup 17014 11 syms_599]);
   (434479, 4, [AGroup 5 1 [sym_ppDirective]; AGroup 3 2 syms_5; AGroup 17398 4 syms_25;
     AGroup 17396 24 syms_184]);
   (434519, 4, [AGroup 5 1 [sym_ppDirective]; AGroup 3 2 syms_5; AGroup 17408 4 syms_25;
     AGroup 17406 24 syms_184]);
   (434559, 14, [AGroup 5 1 [sym_ppDirective]; AGroup 16886 1 [anon_sym_LPAREN]; AGroup 21773 1 [sym_kHat];
     AGroup 21779 1 [sym_kFdiv]; AGroup 21781 1 [sym_kAs]; AGroup 21787 1 [sym_kIs];
     AGroup 21789 1 [sym_kNot]; SGroup 4394 1 [sym__exprIsNot]; AGroup 3 2 syms_5;
     AGroup 21783 2 syms_83; AGroup 16884 4 syms_601; AGroup 21775 4 syms_84;
     AGroup 21785 5 syms_85; AGroup 21777 6 syms_86]);
   (434619, 4, [AGroup 5 1 [sym_ppDirective]; AGroup 3 2 syms_5; AGroup 17412 4 syms_25;
     AGroup 17410 24 syms_184]);
   (434659, 6, [AGroup 5 1 [sym_ppDirective]; AGroup 21791 1 [sym_kHat]; SGroup 4923 1 [sym__exprIsNot];
     AGroup 3 2 syms_5; AGroup 16914 4 syms_25; AGroup 16912 22 syms_602]);
   (434703, 6, [AGroup 5 1 [sym_ppDirective]; AGroup 21791 1 [sym_kHat]; SGroup 4923 1 [sym__exprIsNot];
     AGroup 3 2 syms_5; AGroup 16904 4 syms_25; AGroup 16902 22 syms_602]);
   (434747, 4, [AGroup 5 1 [sym_ppDirective]; AGroup 3 2 syms_5; AGroup 17096 4 syms_25;
     AGroup 17094 24 syms_176]);
   (434787, 10, [AGroup 5 1 [sym_ppDirective]; AGroup 21791 1 [sym_kHat]; AGroup 21797 1 [sym_kFdiv];
     AGroup 21799 1 [sym_kAs]; SGroup 4923 1 [sym__exprIsNot]; AGroup 3 2 syms_5;
     AGroup 16914 3 syms_94; AGroup 21793 4 syms_84; AGroup 21795 6 syms_86;
     AGroup 16912 11 syms_603]);
   (434839, 4, [AGroup 5 1 [sym_ppDirective]; AGroup 3 2 syms_5; AGroup 17550 4 syms_25;
     AGroup 17548 24 syms_184]);
   (434879, 9, [AGroup 5 1 [sym_ppDirective]; AGroup 21791 1 [sym_kHat]; AGroup 21797 1 [sym_kFdiv];
     AGroup 21799 1 [sym_kAs]; SGroup 4923 1 [sym__exprIsNot]; AGroup 3 2 syms_5;
     AGroup 16914 3 syms_94; AGroup 21795 6 syms_86; AGroup 16912 15 syms_604]);
   (434929, 11, [AGroup 5 1 [sym_ppDirective]; AGroup 17042 1 [anon_sym_DOT];
     AGroup 20754 1 [anon_sym_LBRACK]; AGroup 20756 1 [anon_sym_LPAREN];
     AGroup 21476 1 [sym_kLt]; AGroup 21617 1 [anon_sym_COMMA]; AGroup 21801 1 [anon_sym_RBRACK];
     SGroup 4459 1 [sym_kDot]; AGroup 3 2 syms_5; AGroup 17046 2 syms_101;
     AGroup 17036 19 syms_593]);
   (434983, 4, [AGroup 5 1 [sym_ppDirective]; AGroup 3 2 syms_5; AGroup 17592 4 syms_25;
     AGroup 17590 24 syms_184]);
   (435023, 4, [AGroup 5 1 [sym_ppDirective]; AGroup 3 2 syms_5; AGroup 17082 4 syms_25;
     AGroup 17080 24 syms_184]);
   (435063, 5, [AGroup 5 1 [sym_ppDirective]; AGroup 21803 1 [sym_identifier]; AGroup 3 2 syms_5;
     AGroup 17342 4 syms_25; AGroup 17340 23 syms_197]);
   (435105, 5, [AGroup 5 1 [sym_ppDirective]; AGroup 21805 1 [sym_identifier]; AGroup 3 2 syms_5;
     AGroup 17348 4 syms_25; AGroup 17346 23 syms_197]);
   (435147, 7, [AGroup 5 1 [sym_ppDirective]; AGroup 16974 1 [anon_sym_COMMA];
     AGroup 16978 1 [anon_sym_DOT]; AGroup 3 2 syms_5; AGroup 16976 2 syms_97;
     AGroup 16981 2 syms_83; AGroup 16972 22 syms_605]);
   (435193, 9, [AGroup 5 1 [sym_ppDirective]; AGroup 17042 1 [anon_sym_DOT];
     AGroup 21807 1 [anon_sym_LBRACK]; AGroup 21809 1 [anon_sym_LPAREN];
     AGroup 21811 1 [sym_kLt]; SGroup 4592 1 [sym_kDot]; AGroup 3 2 syms_5;
     AGroup 17046 2 syms_101; AGroup 17036 21 syms_606]);
   (435243, 5, [AGroup 5 1 [sym_ppDirective]; SGroup 4929 1 [sym_kDot]; AGroup 3 2 syms_5;
     AGroup 16970 4 syms_25; AGroup 16968 23 syms_193]);
   (435285, 4, [AGroup 5 1 [sym_ppDirective]; AGroup 3 2 syms_5; AGroup 17242 4 syms_25;
     AGroup 17240 24 syms_176]);
   (435325, 4, [AGroup 5 1 [sym_ppDirective]; AGroup 3 2 syms_5; AGroup 17108 4 syms_25;
     AGroup 17106 24 syms_176]);
   (435365, 4, [AGroup 5 1 [sym_ppDirective]; AGroup 3 2 syms_5; AGroup 17096 4 syms_25;
     AGroup 17094 24 syms_184]);
   (435405, 4, [AGroup 5 1 [sym_ppDirective]; AGroup 3 2 syms_5; AGroup 18831 4 syms_25;
     AGroup 18829 24 syms_182]);
   (435445, 4, [AGroup 5 1 [sym_ppDirective]; AGroup 3 2 syms_5; AGroup 17358 4 syms_25;
     AGroup 17356 24 syms_182]);
   (435485, 4, [AGroup 5 1 [sym_ppDirective]; AGroup 3 2 syms_5; AGroup 17362 4 syms_25;
     AGroup 17360 24 syms_182]);
   (435525, 4, [AGroup 5 1 [sym_ppDirective]; AGroup 3 2 syms_5; AGroup 11316 4 syms_25;
     AGroup 11311 24 syms_182]);
   (435565, 4, [AGroup 5 1 [sym_ppDirective]; AGroup 3 2 syms_5; AGroup 17108 4 syms_25;
     AGroup 17106 24 syms_184]);
   (435605, 4, [AGroup 5 1 [sym_ppDirective]; AGroup 3 2 syms_5; AGroup 17372 4 syms_25;
     AGroup 17370 24 syms_182]);
   (435645, 4, [AGroup 5 1 [sym_ppDirective]; AGroup 3 2 syms_5; AGroup 18831 4 syms_25;
     AGroup 18829 24 syms_179]);
   (435685, 4, [AGroup 5 1 [sym_ppDirective]; AGroup 3 2 syms_5; AGroup 17358 4 syms_25;
     AGroup 17356 24 syms_179]);
   (435725, 4, [AGroup 5 1 [sym_ppDirective]; AGroup 3 2 syms_5; AGroup 17362 4 syms_25;
     AGroup 17360 24 syms_179]);
   (435765, 5, [AGroup 5 1 [sym_ppDirective]; SGroup 4481 1 [sym__exprIsNot]; AGroup 3 2 syms_5;
     AGroup 17032 4 syms_25; AGroup 17030 23 syms_191]);
   (435807, 4, [AGroup 5 1 [sym_ppDirective]; AGroup 3 2 syms_5; AGroup 17380 4 syms_25;
     AGroup 17378 24 syms_182]);
   (435847, 4, [AGroup 5 1 [sym_ppDirective]; AGroup 3 2 syms_5; AGroup 11316 4 syms_25;
     AGroup 11311 24 syms_179]);
   (435887, 4, [AGroup 5 1 [sym_ppDirective]; AGroup 3 2 syms_5; AGroup 17386 4 syms_25;
     AGroup 17384 24 syms_182]);
   (435927, 4, [AGroup 5 1 [sym_ppDirective]; AGroup 3 2 syms_5; AGroup 17372 4 syms_25;
     AGroup 17370 24 syms_179]);
   (435967, 4, [AGroup 5 1 [sym_ppDirective]; AGroup 3 2 syms_5; AGroup 17398 4 syms_25;
     AGroup 17396 24 syms_182]);
   (436007, 4, [AGroup 5 1 [sym_ppDirective]; AGroup 3 2 syms_5; AGroup 17408 4 syms_25;
     AGroup 17406 24 syms_182]);
   (436047, 4, [AGroup 5 1 [sym_ppDirective]; AGroup 3 2 syms_5; AGroup 17412 4 syms_25;
     AGroup 17410 24 syms_182]);
   (436087, 4, [AGroup 5 1 [sym_ppDirective]; AGroup 3 2 syms_5; AGroup 17116 4 syms_25;
     AGroup 17114 24 syms_176]);
   (436127, 4, [AGroup 5 1 [sym_ppDirective]; AGroup 3 2 syms_5; AGroup 17380 4 syms_25;
     AGroup 17378 24 syms_179]);
   (436167, 4, [AGroup 5 1 [sym_ppDirective]; AGroup 3 2 syms_5; AGroup 17386 4 syms_25;
     AGroup 17384 24 syms_179]);
   (436207, 4, [AGroup 5 1 [sym_ppDirective]; AGroup 3 2 syms_5; AGroup 17398 4 syms_25;
     AGroup 17396 24 syms_179]);
   (436247, 4, [AGroup 5 1 [sym_ppDirective]; AGroup 3 2 syms_5; AGroup 17408 4 syms_25;
     AGroup 17406 24 syms_179]);
   (436287, 4, [AGroup 5 1 [sym_ppDirective]; AGroup 3 2 syms_5; AGroup 17412 4 syms_25;
     AGroup 17410 24 syms_179]);
   (436327, 4, [AGroup 5 1 [sym_ppDirective]; AGroup 3 2 syms_5; AGroup 17120 4 syms_25;
     AGroup 17118 24 syms_176]);
   (436367, 4, [AGroup 5 1 [sym_ppDirective]; AGroup 3 2 syms_5; AGroup 17550 4 syms_25;
     AGroup 17548 24 syms_182]);
   (436407, 4, [AGroup 5 1 [sym_ppDirective]; AGroup 3 2 syms_5; AGroup 17550 4 syms_25;
     AGroup 17548 24 syms_179]);
   (436447, 6, [AGroup 5 1 [sym_ppDirective]; AGroup 21813 1 [sym_kHat]; SGroup 4743 1 [sym__exprIsNot];
     AGroup 3 2 syms_5; AGroup 16914 4 syms_25; AGroup 16912 22 syms_607]);
   (436491, 4, [AGroup 5 1 [sym_ppDirective]; AGroup 3 2 syms_5; AGroup 17592 4 syms_25;
     AGroup 17590 24 syms_182]);
   (436531, 4, [AGroup 5 1 [sym_ppDirective]; AGroup 3 2 syms_5; AGroup 17592 4 syms_25;
     AGroup 17590 24 syms_179]);
   (436571, 4, [AGroup 5 1 [sym_ppDirective]; AGroup 3 2 syms_5; AGroup 17082 4 syms_25;
     AGroup 17080 24 syms_179]);
   (436611, 6, [AGroup 5 1 [sym_ppDirective]; AGroup 21813 1 [sym_kHat]; SGroup 4743 1 [sym__exprIsNot];
     AGroup 3 2 syms_5; AGroup 16904 4 syms_25; AGroup 16902 22 syms_607]);
   (436655, 4, [AGroup 5 1 [sym_ppDirective]; AGroup 3 2 syms_5; AGroup 17082 4 syms_25;
     AGroup 17080 24 syms_182]);
   (436695, 4, [AGroup 5 1 [sym_ppDirective]; AGroup 3 2 syms_5; AGroup 17096 4 syms_25;
     AGroup 17094 24 syms_179]);
   (436735, 4, [AGroup 5 1 [sym_ppDirective]; AGroup 3 2 syms_5; AGroup 17096 4 syms_25;
     AGroup 17094 24 syms_182]);
   (436775, 4, [AGroup 5 1 [sym_ppDirective]; AGroup 3 2 syms_5; AGroup 17108 4 syms_25;
     AGroup 17106 24 syms_179]);
   (436815, 4, [AGroup 5 1 [sym_ppDirective]; AGroup 3 2 syms_5; AGroup 17108 4 syms_25;
     AGroup 17106 24 syms_182]);
   (436855, 4, [AGroup 5 1 [sym_ppDirective]; AGroup 3 2 syms_5; AGroup 17116 4 syms_25;
     AGroup 17114 24 syms_179]);
   (436895, 4, [AGroup 5 1 [sym_ppDirective]; AGroup 3 2 syms_5; AGroup 17120 4 syms_25;
     AGroup 17118 24 syms_179]);
   (436935, 4, [AGroup 5 1 [sym_ppDirective]; AGroup 3 2 syms_5; AGroup 17124 4 syms_25;
     AGroup 17122 24 syms_179]);
   (436975, 10, [AGroup 5 1 [sym_ppDirective]; AGroup 21813 1 [sym_kHat]; AGroup 21819 1 [sym_kFdiv];
     AGroup 21821 1 [sym_kAs]; SGroup 4743 1 [sym__exprIsNot]; AGroup 3 2 syms_5;
     AGroup 16914 3 syms_94; AGroup 21815 4 syms_84; AGroup 21817 6 syms_86;
     AGroup 16912 11 syms_608]);
   (437027, 4, [AGroup 5 1 [sym_ppDirective]; AGroup 3 2 syms_5; AGroup 17116 4 syms_25;
     AGroup 17114 24 syms_182]);
   (437067, 4, [AGroup 5 1 [sym_ppDirective]; AGroup 3 2 syms_5; AGroup 17120 4 syms_25;
     AGroup 17118 24 syms_182]);
   (437107, 4, [AGroup 5 1 [sym_ppDirective]; AGroup 3 2 syms_5; AGroup 17124 4 syms_25;
     AGroup 17122 24 syms_182]);
   (437147, 4, [AGroup 5 1 [sym_ppDirective]; AGroup 3 2 syms_5; AGroup 17128 4 syms_25;
     AGroup 17126 24 syms_179]);
   (437187, 4, [AGroup 5 1 [sym_ppDirective]; AGroup 3 2 syms_5; AGroup 17154 4 syms_25;
     AGroup 17152 24 syms_179]);
   (437227, 4, [AGroup 5 1 [sym_ppDirective]; AGroup 3 2 syms_5; AGroup 17128 4 syms_25;
     AGroup 17126 24 syms_182]);
   (437267, 4, [AGroup 5 1 [sym_ppDirective]; AGroup 3 2 syms_5; AGroup 17158 4 syms_25;
     AGroup 17156 24 syms_179]);
   (437307, 4, [AGroup 5 1 [sym_ppDirective]; AGroup 3 2 syms_5; AGroup 17154 4 syms_25;
     AGroup 17152 24 syms_182]);
   (437347, 4, [AGroup 5 1 [sym_ppDirective]; AGroup 3 2 syms_5; AGroup 17172 4 syms_25;
     AGroup 17170 24 syms_179])
  ].

(** States 8759 to 8858. *)
Definition small_runs_8759 : list small_run :=
  [
   (437387, 4, [AGroup 5 1 [sym_ppDirective]; AGroup 3 2 syms_5; AGroup 17158 4 syms_25;
     AGroup 17156 24 syms_182]);
   (437427, 4, [AGroup 5 1 [sym_ppDirective]; AGroup 3 2 syms_5; AGroup 17172 4 syms_25;
     AGroup 17170 24 syms_182]);
   (437467, 5, [AGroup 5 1 [sym_ppDirective]; AGroup 21823 1 [sym_identifier]; AGroup 3 2 syms_5;
     AGroup 17342 4 syms_25; AGroup 17340 23 syms_191]);
   (437509, 5, [AGroup 5 1 [sym_ppDirective]; AGroup 21825 1 [sym_identifier]; AGroup 3 2 syms_5;
     AGroup 17348 4 syms_25; AGroup 17346 23 syms_191]);
   (437551, 4, [AGroup 5 1 [sym_ppDirective]; AGroup 3 2 syms_5; AGroup 17124 4 syms_25;
     AGroup 17122 24 syms_176]);
   (437591, 9, [AGroup 5 1 [sym_ppDirective]; AGroup 17042 1 [anon_sym_DOT];
     AGroup 21827 1 [anon_sym_LBRACK]; AGroup 21829 1 [anon_sym_LPAREN];
     AGroup 21831 1 [sym_kLt]; SGroup 4486 1 [sym_kDot]; AGroup 3 2 syms_5;
     AGroup 17046 2 syms_101; AGroup 17036 21 syms_609]);
   (437641, 4, [AGroup 5 1 [sym_ppDirective]; AGroup 3 2 syms_5; AGroup 17328 4 syms_25;
     AGroup 17326 24 syms_179]);
   (437681, 9, [AGroup 5 1 [sym_ppDirective]; AGroup 21813 1 [sym_kHat]; AGroup 21819 1 [sym_kFdiv];
     AGroup 21821 1 [sym_kAs]; SGroup 4743 1 [sym__exprIsNot]; AGroup 3 2 syms_5;
     AGroup 16914 3 syms_94; AGroup 21817 6 syms_86; AGroup 16912 15 syms_610]);
   (437731, 5, [AGroup 5 1 [sym_ppDirective]; SGroup 4592 1 [sym_kDot]; AGroup 3 2 syms_5;
     AGroup 16970 4 syms_25; AGroup 16968 23 syms_197]);
   (437773, 4, [AGroup 5 1 [sym_ppDirective]; AGroup 3 2 syms_5; AGroup 17242 4 syms_25;
     AGroup 17240 24 syms_179]);
   (437813, 4, [AGroup 5 1 [sym_ppDirective]; AGroup 3 2 syms_5; AGroup 17116 4 syms_25;
     AGroup 17114 24 syms_184]);
   (437853, 6, [AGroup 5 1 [sym_ppDirective]; AGroup 21833 1 [sym_kHat]; SGroup 4481 1 [sym__exprIsNot];
     AGroup 3 2 syms_5; AGroup 16914 4 syms_25; AGroup 16912 22 syms_611]);
   (437897, 6, [AGroup 5 1 [sym_ppDirective]; AGroup 21833 1 [sym_kHat]; SGroup 4481 1 [sym__exprIsNot];
     AGroup 3 2 syms_5; AGroup 16904 4 syms_25; AGroup 16902 22 syms_611]);
   (437941, 10, [AGroup 5 1 [sym_ppDirective]; AGroup 21833 1 [sym_kHat]; AGroup 21839 1 [sym_kFdiv];
     AGroup 21841 1 [sym_kAs]; SGroup 4481 1 [sym__exprIsNot]; AGroup 3 2 syms_5;
     AGroup 16914 3 syms_94; AGroup 21835 4 syms_84; AGroup 21837 6 syms_86;
     AGroup 16912 11 syms_612]);
   (437993, 9, [AGroup 5 1 [sym_ppDirective]; AGroup 21833 1 [sym_kHat]; AGroup 21839 1 [sym_kFdiv];
     AGroup 21841 1 [sym_kAs]; SGroup 4481 1 [sym__exprIsNot]; AGroup 3 2 syms_5;
     AGroup 16914 3 syms_94; AGroup 21837 6 syms_86; AGroup 16912 15 syms_613]);
   (438043, 5, [AGroup 5 1 [sym_ppDirective]; SGroup 4486 1 [sym_kDot]; AGroup 3 2 syms_5;
     AGroup 16970 4 syms_25; AGroup 16968 23 syms_191]);
   (438085, 4, [AGroup 5 1 [sym_ppDirective]; AGroup 3 2 syms_5; AGroup 17256 4 syms_25;
     AGroup 17254 24 syms_179]);
   (438125, 10, [AGroup 5 1 [sym_ppDirective]; AGroup 21813 1 [sym_kHat]; AGroup 21819 1 [sym_kFdiv];
     AGroup 21821 1 [sym_kAs]; SGroup 4743 1 [sym__exprIsNot]; AGroup 3 2 syms_5;
     AGroup 17016 3 syms_94; AGroup 21815 4 syms_84; AGroup 21817 6 syms_86;
     AGroup 17014 11 syms_608]);
   (438177, 10, [AGroup 5 1 [sym_ppDirective]; AGroup 21833 1 [sym_kHat]; AGroup 21839 1 [sym_kFdiv];
     AGroup 21841 1 [sym_kAs]; SGroup 4481 1 [sym__exprIsNot]; AGroup 3 2 syms_5;
     AGroup 17016 3 syms_94; AGroup 21835 4 syms_84; AGroup 21837 6 syms_86;
     AGroup 17014 11 syms_612]);
   (438229, 4, [AGroup 5 1 [sym_ppDirective]; AGroup 3 2 syms_5; AGroup 17242 4 syms_25;
     AGroup 17240 24 syms_182]);
   (438269, 14, [AGroup 5 1 [sym_ppDirective]; AGroup 16886 1 [anon_sym_LPAREN]; AGroup 21833 1 [sym_kHat];
     AGroup 21839 1 [sym_kFdiv]; AGroup 21841 1 [sym_kAs]; AGroup 21847 1 [sym_kIs];
     AGroup 21849 1 [sym_kNot]; SGroup 4481 1 [sym__exprIsNot]; AGroup 3 2 syms_5;
     AGroup 21843 2 syms_83; AGroup 16884 4 syms_614; AGroup 21835 4 syms_84;
     AGroup 21845 5 syms_85; AGroup 21837 6 syms_86]);
   (438329, 14, [AGroup 5 1 [sym_ppDirective]; AGroup 16886 1 [anon_sym_LPAREN]; AGroup 21813 1 [sym_kHat];
     AGroup 21819 1 [sym_kFdiv]; AGroup 21821 1 [sym_kAs]; AGroup 21855 1 [sym_kIs];
     AGroup 21857 1 [sym_kNot]; SGroup 4743 1 [sym__exprIsNot]; AGroup 3 2 syms_5;
     AGroup 21851 2 syms_83; AGroup 16884 4 syms_615; AGroup 21815 4 syms_84;
     AGroup 21853 5 syms_85; AGroup 21817 6 syms_86]);
   (438389, 4, [AGroup 5 1 [sym_ppDirective]; AGroup 3 2 syms_5; AGroup 17120 4 syms_25;
     AGroup 17118 24 syms_184]);
   (438429, 4, [AGroup 5 1 [sym_ppDirective]; AGroup 3 2 syms_5; AGroup 17124 4 syms_25;
     AGroup 17122 24 syms_184]);
   (438469, 4, [AGroup 5 1 [sym_ppDirective]; AGroup 3 2 syms_5; AGroup 17128 4 syms_25;
     AGroup 17126 24 syms_184]);
   (438509, 4, [AGroup 5 1 [sym_ppDirective]; AGroup 3 2 syms_5; AGroup 17154 4 syms_25;
     AGroup 17152 24 syms_184]);
   (438549, 4, [AGroup 5 1 [sym_ppDirective]; AGroup 3 2 syms_5; AGroup 17256 4 syms_25;
     AGroup 17254 24 syms_182]);
   (438589, 4, [AGroup 5 1 [sym_ppDirective]; AGroup 3 2 syms_5; AGroup 17158 4 syms_25;
     AGroup 17156 24 syms_184]);
   (438629, 5, [AGroup 5 1 [sym_ppDirective]; AGroup 21859 1 [anon_sym_COLON]; AGroup 3 2 syms_5;
     AGroup 16976 4 syms_25; AGroup 16972 23 syms_616]);
   (438671, 4, [AGroup 5 1 [sym_ppDirective]; AGroup 3 2 syms_5; AGroup 17172 4 syms_25;
     AGroup 17170 24 syms_184]);
   (438711, 4, [AGroup 5 1 [sym_ppDirective]; AGroup 3 2 syms_5; AGroup 17372 4 syms_25;
     AGroup 17370 24 syms_176]);
   (438751, 4, [AGroup 5 1 [sym_ppDirective]; AGroup 3 2 syms_5; AGroup 17256 4 syms_25;
     AGroup 17254 24 syms_176]);
   (438791, 7, [AGroup 5 1 [sym_ppDirective]; AGroup 16974 1 [anon_sym_COMMA];
     AGroup 16978 1 [anon_sym_DOT]; AGroup 3 2 syms_5; AGroup 16976 2 syms_97;
     AGroup 16981 2 syms_83; AGroup 16972 22 syms_617]);
   (438837, 4, [AGroup 5 1 [sym_ppDirective]; AGroup 3 2 syms_5; AGroup 17328 4 syms_25;
     AGroup 17326 24 syms_184]);
   (438877, 4, [AGroup 5 1 [sym_ppDirective]; AGroup 3 2 syms_5; AGroup 18831 4 syms_25;
     AGroup 18829 24 syms_167]);
   (438917, 4, [AGroup 5 1 [sym_ppDirective]; AGroup 3 2 syms_5; AGroup 17358 4 syms_25;
     AGroup 17356 24 syms_167]);
   (438957, 4, [AGroup 5 1 [sym_ppDirective]; AGroup 3 2 syms_5; AGroup 17362 4 syms_25;
     AGroup 17360 24 syms_167]);
   (438997, 4, [AGroup 5 1 [sym_ppDirective]; AGroup 3 2 syms_5; AGroup 11316 4 syms_25;
     AGroup 11311 24 syms_167]);
   (439037, 10, [AGroup 5 1 [sym_ppDirective]; AGroup 21791 1 [sym_kHat]; AGroup 21797 1 [sym_kFdiv];
     AGroup 21799 1 [sym_kAs]; SGroup 4923 1 [sym__exprIsNot]; AGroup 3 2 syms_5;
     AGroup 17016 3 syms_94; AGroup 21793 4 syms_84; AGroup 21795 6 syms_86;
     AGroup 17014 11 syms_603]);
   (439089, 4, [AGroup 5 1 [sym_ppDirective]; AGroup 3 2 syms_5; AGroup 17372 4 syms_25;
     AGroup 17370 24 syms_167]);
   (439129, 5, [AGroup 20826 1 [sym_kHat]; SGroup 4778 1 [sym__exprIsNot]; AGroup 3 3 syms_1;
     AGroup 16914 3 syms_429; AGroup 16912 23 syms_618]);
   (439171, 9, [AGroup 20826 1 [sym_kHat]; AGroup 20834 1 [sym_kAs]; AGroup 21460 1 [sym_kFdiv];
     SGroup 4778 1 [sym__exprIsNot]; AGroup 16914 2 syms_83; AGroup 3 3 syms_1;
     AGroup 21456 4 syms_84; AGroup 21458 6 syms_86; AGroup 16912 12 syms_619]);
   (439221, 8, [AGroup 20826 1 [sym_kHat]; AGroup 20834 1 [sym_kAs]; AGroup 21460 1 [sym_kFdiv];
     SGroup 4778 1 [sym__exprIsNot]; AGroup 16914 2 syms_83; AGroup 3 3 syms_1;
     AGroup 21458 6 syms_86; AGroup 16912 16 syms_620]);
   (439269, 9, [AGroup 20826 1 [sym_kHat]; AGroup 20834 1 [sym_kAs]; AGroup 21460 1 [sym_kFdiv];
     SGroup 4778 1 [sym__exprIsNot]; AGroup 17016 2 syms_83; AGroup 3 3 syms_1;
     AGroup 21456 4 syms_84; AGroup 21458 6 syms_86; AGroup 17014 12 syms_619]);
   (439319, 12, [AGroup 20826 1 [sym_kHat]; AGroup 20834 1 [sym_kAs]; AGroup 21460 1 [sym_kFdiv];
     AGroup 21462 1 [sym_kIs]; AGroup 21464 1 [sym_kNot]; SGroup 4778 1 [sym__exprIsNot];
     AGroup 21452 2 syms_83; AGroup 3 3 syms_1; AGroup 21456 4 syms_84; AGroup 16884 5 syms_621;
     AGroup 21454 5 syms_85; AGroup 21458 6 syms_86]);
   (439375, 9, [AGroup 5 1 [sym_ppDirective]; AGroup 17042 1 [anon_sym_DOT];
     AGroup 21861 1 [anon_sym_LBRACK]; AGroup 21863 1 [anon_sym_LPAREN];
     AGroup 21865 1 [sym_kLt]; SGroup 5317 1 [sym_kDot]; AGroup 3 2 syms_5;
     AGroup 17046 2 syms_101; AGroup 17036 21 syms_622]);
   (439425, 4, [AGroup 5 1 [sym_ppDirective]; AGroup 3 2 syms_5; AGroup 17380 4 syms_25;
     AGroup 17378 24 syms_167]);
   (439465, 6, [AGroup 5 1 [sym_ppDirective]; AGroup 21867 1 [sym_kHat]; SGroup 5529 1 [sym__exprIsNot];
     AGroup 3 2 syms_5; AGroup 16914 4 syms_25; AGroup 16912 22 syms_623]);
   (439509, 6, [AGroup 5 1 [sym_ppDirective]; AGroup 21867 1 [sym_kHat]; SGroup 5529 1 [sym__exprIsNot];
     AGroup 3 2 syms_5; AGroup 16904 4 syms_25; AGroup 16902 22 syms_623]);
   (439553, 10, [AGroup 5 1 [sym_ppDirective]; AGroup 21867 1 [sym_kHat]; AGroup 21873 1 [sym_kFdiv];
     AGroup 21875 1 [sym_kAs]; SGroup 5529 1 [sym__exprIsNot]; AGroup 3 2 syms_5;
     AGroup 16914 3 syms_94; AGroup 21869 4 syms_84; AGroup 21871 6 syms_86;
     AGroup 16912 11 syms_624]);
   (439605, 9, [AGroup 5 1 [sym_ppDirective]; AGroup 21867 1 [sym_kHat]; AGroup 21873 1 [sym_kFdiv];
     AGroup 21875 1 [sym_kAs]; SGroup 5529 1 [sym__exprIsNot]; AGroup 3 2 syms_5;
     AGroup 16914 3 syms_94; AGroup 21871 6 syms_86; AGroup 16912 15 syms_625]);
   (439655, 10, [AGroup 5 1 [sym_ppDirective]; AGroup 21867 1 [sym_kHat]; AGroup 21873 1 [sym_kFdiv];
     AGroup 21875 1 [sym_kAs]; SGroup 5529 1 [sym__exprIsNot]; AGroup 3 2 syms_5;
     AGroup 17016 3 syms_94; AGroup 21869 4 syms_84; AGroup 21871 6 syms_86;
     AGroup 17014 11 syms_624]);
   (439707, 14, [AGroup 5 1 [sym_ppDirective]; AGroup 16886 1 [anon_sym_LPAREN]; AGroup 21867 1 [sym_kHat];
     AGroup 21873 1 [sym_kFdiv]; AGroup 21875 1 [sym_kAs]; AGroup 21881 1 [sym_kIs];
     AGroup 21883 1 [sym_kNot]; SGroup 5529 1 [sym__exprIsNot]; AGroup 3 2 syms_5;
     AGroup 21877 2 syms_83; AGroup 16884 4 syms_626; AGroup 21869 4 syms_84;
     AGroup 21879 5 syms_85; AGroup 21871 6 syms_86]);
   (439767, 4, [AGroup 5 1 [sym_ppDirective]; AGroup 3 2 syms_5; AGroup 17386 4 syms_25;
     AGroup 17384 24 syms_167]);
   (439807, 4, [AGroup 5 1 [sym_ppDirective]; AGroup 3 2 syms_5; AGroup 17398 4 syms_25;
     AGroup 17396 24 syms_167]);
   (439847, 4, [AGroup 5 1 [sym_ppDirective]; AGroup 3 2 syms_5; AGroup 17408 4 syms_25;
     AGroup 17406 24 syms_167]);
   (439887, 4, [AGroup 5 1 [sym_ppDirective]; AGroup 3 2 syms_5; AGroup 17412 4 syms_25;
     AGroup 17410 24 syms_167]);
   (439927, 4, [AGroup 5 1 [sym_ppDirective]; AGroup 3 2 syms_5; AGroup 17550 4 syms_25;
     AGroup 17548 24 syms_167]);
   (439967, 4, [AGroup 5 1 [sym_ppDirective]; AGroup 3 2 syms_5; AGroup 17592 4 syms_25;
     AGroup 17590 24 syms_167]);
   (440007, 5, [AGroup 5 1 [sym_ppDirective]; AGroup 21885 1 [anon_sym_COLON]; AGroup 3 2 syms_5;
     AGroup 16976 4 syms_25; AGroup 16972 23 syms_616]);
   (440049, 3, [AGroup 5 1 [sym_ppDirective]; AGroup 3 2 syms_5; AGroup 21887 28 syms_519]);
   (440087, 4, [AGroup 5 1 [sym_ppDirective]; AGroup 3 2 syms_5; AGroup 17082 4 syms_25;
     AGroup 17080 24 syms_167]);
   (440127, 4, [AGroup 5 1 [sym_ppDirective]; AGroup 3 2 syms_5; AGroup 17096 4 syms_25;
     AGroup 17094 24 syms_167]);
   (440167, 4, [AGroup 5 1 [sym_ppDirective]; AGroup 3 2 syms_5; AGroup 17108 4 syms_25;
     AGroup 17106 24 syms_167]);
   (440207, 4, [AGroup 5 1 [sym_ppDirective]; AGroup 3 2 syms_5; AGroup 17116 4 syms_25;
     AGroup 17114 24 syms_167]);
   (440247, 4, [AGroup 5 1 [sym_ppDirective]; AGroup 3 2 syms_5; AGroup 17120 4 syms_25;
     AGroup 17118 24 syms_167]);
   (440287, 5, [AGroup 5 1 [sym_ppDirective]; SGroup 4605 1 [sym__exprIsNot]; AGroup 3 2 syms_5;
     AGroup 17032 4 syms_25; AGroup 17030 23 syms_205]);
   (440329, 4, [AGroup 5 1 [sym_ppDirective]; AGroup 3 2 syms_5; AGroup 17124 4 syms_25;
     AGroup 17122 24 syms_167]);
   (440369, 14, [AGroup 5 1 [sym_ppDirective]; AGroup 16886 1 [anon_sym_LPAREN]; AGroup 21791 1 [sym_kHat];
     AGroup 21797 1 [sym_kFdiv]; AGroup 21799 1 [sym_kAs]; AGroup 21893 1 [sym_kIs];
     AGroup 21895 1 [sym_kNot]; SGroup 4923 1 [sym__exprIsNot]; AGroup 3 2 syms_5;
     AGroup 21889 2 syms_83; AGroup 16884 4 syms_627; AGroup 21793 4 syms_84;
     AGroup 21891 5 syms_85; AGroup 21795 6 syms_86]);
   (440429, 4, [AGroup 5 1 [sym_ppDirective]; AGroup 3 2 syms_5; AGroup 17128 4 syms_25;
     AGroup 17126 24 syms_167]);
   (440469, 4, [AGroup 5 1 [sym_ppDirective]; AGroup 3 2 syms_5; AGroup 17154 4 syms_25;
     AGroup 17152 24 syms_167]);
   (440509, 4, [AGroup 5 1 [sym_ppDirective]; AGroup 3 2 syms_5; AGroup 17242 4 syms_25;
     AGroup 17240 24 syms_184]);
   (440549, 4, [AGroup 5 1 [sym_ppDirective]; AGroup 3 2 syms_5; AGroup 17158 4 syms_25;
     AGroup 17156 24 syms_167]);
   (440589, 4, [AGroup 5 1 [sym_ppDirective]; AGroup 3 2 syms_5; AGroup 17172 4 syms_25;
     AGroup 17170 24 syms_169]);
   (440629, 5, [AGroup 5 1 [sym_ppDirective]; AGroup 21897 1 [anon_sym_COLON]; AGroup 3 2 syms_5;
     AGroup 16976 4 syms_25; AGroup 16972 23 syms_616]);
   (440671, 4, [AGroup 5 1 [sym_ppDirective]; AGroup 3 2 syms_5; AGroup 17242 4 syms_25;
     AGroup 17240 24 syms_167]);
   (440711, 5, [AGroup 5 1 [sym_ppDirective]; SGroup 4923 1 [sym__exprIsNot]; AGroup 3 2 syms_5;
     AGroup 17032 4 syms_25; AGroup 17030 23 syms_193]);
   (440753, 4, [AGroup 5 1 [sym_ppDirective]; AGroup 3 2 syms_5; AGroup 18831 4 syms_25;
     AGroup 18829 24 syms_174]);
   (440793, 4, [AGroup 5 1 [sym_ppDirective]; AGroup 3 2 syms_5; AGroup 17358 4 syms_25;
     AGroup 17356 24 syms_174]);
   (440833, 4, [AGroup 5 1 [sym_ppDirective]; AGroup 3 2 syms_5; AGroup 17362 4 syms_25;
     AGroup 17360 24 syms_174]);
   (440873, 4, [AGroup 5 1 [sym_ppDirective]; AGroup 3 2 syms_5; AGroup 11316 4 syms_25;
     AGroup 11311 24 syms_174]);
   (440913, 4, [AGroup 5 1 [sym_ppDirective]; AGroup 3 2 syms_5; AGroup 17256 4 syms_25;
     AGroup 17254 24 syms_167]);
   (440953, 5, [AGroup 5 1 [sym_ppDirective]; AGroup 21899 1 [sym_identifier]; AGroup 3 2 syms_5;
     AGroup 17342 4 syms_25; AGroup 17340 23 syms_205]);
   (440995, 5, [AGroup 5 1 [sym_ppDirective]; AGroup 21901 1 [sym_identifier]; AGroup 3 2 syms_5;
     AGroup 17348 4 syms_25; AGroup 17346 23 syms_205]);
   (441037, 5, [AGroup 5 1 [sym_ppDirective]; AGroup 21495 1 [anon_sym_COLON]; AGroup 3 2 syms_5;
     AGroup 16976 4 syms_25; AGroup 16972 23 syms_616]);
   (441079, 9, [AGroup 5 1 [sym_ppDirective]; AGroup 17042 1 [anon_sym_DOT];
     AGroup 21903 1 [anon_sym_LBRACK]; AGroup 21905 1 [anon_sym_LPAREN];
     AGroup 21907 1 [sym_kLt]; SGroup 4609 1 [sym_kDot]; AGroup 3 2 syms_5;
     AGroup 17046 2 syms_101; AGroup 17036 21 syms_628]);
   (441129, 4, [AGroup 5 1 [sym_ppDirective]; AGroup 3 2 syms_5; AGroup 17128 4 syms_25;
     AGroup 17126 24 syms_176]);
   (441169, 4, [AGroup 5 1 [sym_ppDirective]; AGroup 3 2 syms_5; AGroup 17154 4 syms_25;
     AGroup 17152 24 syms_176]);
   (441209, 5, [AGroup 5 1 [sym_ppDirective]; SGroup 4645 1 [sym__exprIsNot]; AGroup 3 2 syms_5;
     AGroup 17032 4 syms_25; AGroup 17030 23 syms_198]);
   (441251, 4, [AGroup 5 1 [sym_ppDirective]; AGroup 3 2 syms_5; AGroup 17372 4 syms_25;
     AGroup 17370 24 syms_174]);
   (441291, 4, [AGroup 5 1 [sym_ppDirective]; AGroup 3 2 syms_5; AGroup 17380 4 syms_25;
     AGroup 17378 24 syms_174]);
   (441331, 4, [AGroup 5 1 [sym_ppDirective]; AGroup 3 2 syms_5; AGroup 17386 4 syms_25;
     AGroup 17384 24 syms_174]);
   (441371, 6, [AGroup 5 1 [sym_ppDirective]; AGroup 21909 1 [sym_kHat]; SGroup 4605 1 [sym__exprIsNot];
     AGroup 3 2 syms_5; AGroup 16914 4 syms_25; AGroup 16912 22 syms_629]);
   (441415, 6, [AGroup 5 1 [sym_ppDirective]; AGroup 21909 1 [sym_kHat]; SGroup 4605 1 [sym__exprIsNot];
     AGroup 3 2 syms_5; AGroup 16904 4 syms_25; AGroup 16902 22 syms_629]);
   (441459, 10, [AGroup 5 1 [sym_ppDirective]; AGroup 21909 1 [sym_kHat]; AGroup 21915 1 [sym_kFdiv];
     AGroup 21917 1 [sym_kAs]; SGroup 4605 1 [sym__exprIsNot]; AGroup 3 2 syms_5;
     AGroup 16914 3 syms_94; AGroup 21911 4 syms_84; AGroup 21913 6 syms_86;
     AGroup 16912 11 syms_630]);
   (441511, 9, [AGroup 5 1 [sym_ppDirective]; AGroup 21909 1 [sym_kHat]; AGroup 21915 1 [sym_kFdiv];
     AGroup 21917 1 [sym_kAs]; SGroup 4605 1 [sym__exprIsNot]; AGroup 3 2 syms_5;
     AGroup 16914 3 syms_94; AGroup 21913 6 syms_86; AGroup 16912 15 syms_631]);
   (441561, 5, [AGroup 5 1 [sym_ppDirective]; SGroup 4609 1 [sym_kDot]; AGroup 3 2 syms_5;
     AGroup 16970 4 syms_25; AGroup 16968 23 syms_205]);
   (441603, 4, [AGroup 5 1 [sym_ppDirective]; AGroup 3 2 syms_5; AGroup 17398 4 syms_25;
     AGroup 17396 24 syms_174]);
   (441643, 5, [AGroup 5 1 [sym_ppDirective]; AGroup 21919 1 [anon_sym_COLON]; AGroup 3 2 syms_5;
     AGroup 16976 4 syms_25; AGroup 16972 23 syms_616]);
   (441685, 10, [AGroup 5 1 [sym_ppDirective]; AGroup 21909 1 [sym_kHat]; AGroup 21915 1 [sym_kFdiv];
     AGroup 21917 1 [sym_kAs]; SGroup 4605 1 [sym__exprIsNot]; AGroup 3 2 syms_5;
     AGroup 17016 3 syms_94; AGroup 21911 4 syms_84; AGroup 21913 6 syms_86;
     AGroup 17014 11 syms_630])
  ].

(** States 8859 to 8958. *)
Definition small_runs_8859 : list small_run :=
  [
   (441737, 4, [AGroup 5 1 [sym_ppDirective]; AGroup 3 2 syms_5; AGroup 17328 4 syms_25;
     AGroup 17326 24 syms_182]);
   (441777, 4, [AGroup 5 1 [sym_ppDirective]; AGroup 3 2 syms_5; AGroup 18831 4 syms_25;
     AGroup 18829 24 syms_170]);
   (441817, 4, [AGroup 5 1 [sym_ppDirective]; AGroup 3 2 syms_5; AGroup 17358 4 syms_25;
     AGroup 17356 24 syms_170]);
   (441857, 5, [AGroup 5 1 [sym_ppDirective]; AGroup 21921 1 [anon_sym_COLON]; AGroup 3 2 syms_5;
     AGroup 16976 4 syms_25; AGroup 16972 23 syms_616]);
   (441899, 14, [AGroup 5 1 [sym_ppDirective]; AGroup 16886 1 [anon_sym_LPAREN]; AGroup 21909 1 [sym_kHat];
     AGroup 21915 1 [sym_kFdiv]; AGroup 21917 1 [sym_kAs]; AGroup 21927 1 [sym_kIs];
     AGroup 21929 1 [sym_kNot]; SGroup 4605 1 [sym__exprIsNot]; AGroup 3 2 syms_5;
     AGroup 21923 2 syms_83; AGroup 16884 4 syms_632; AGroup 21911 4 syms_84;
     AGroup 21925 5 syms_85; AGroup 21913 6 syms_86]);
   (441959, 5, [AGroup 5 1 [sym_ppDirective]; AGroup 21931 1 [sym_identifier]; AGroup 3 2 syms_5;
     AGroup 17342 4 syms_25; AGroup 17340 23 syms_198]);
   (442001, 5, [AGroup 5 1 [sym_ppDirective]; AGroup 21933 1 [sym_identifier]; AGroup 3 2 syms_5;
     AGroup 17348 4 syms_25; AGroup 17346 23 syms_198]);
   (442043, 4, [AGroup 5 1 [sym_ppDirective]; AGroup 3 2 syms_5; AGroup 17362 4 syms_25;
     AGroup 17360 24 syms_170]);
   (442083, 9, [AGroup 5 1 [sym_ppDirective]; AGroup 17042 1 [anon_sym_DOT];
     AGroup 21935 1 [anon_sym_LBRACK]; AGroup 21937 1 [anon_sym_LPAREN];
     AGroup 21939 1 [sym_kLt]; SGroup 4650 1 [sym_kDot]; AGroup 3 2 syms_5;
     AGroup 17046 2 syms_101; AGroup 17036 21 syms_633]);
   (442133, 4, [AGroup 5 1 [sym_ppDirective]; AGroup 3 2 syms_5; AGroup 17408 4 syms_25;
     AGroup 17406 24 syms_174]);
   (442173, 14, [AGroup 20734 1 [sym_kFdiv]; AGroup 20736 1 [sym_kHat]; AGroup 20738 1 [sym_kAs];
     AGroup 20740 1 [sym_kIs]; AGroup 20742 1 [sym_kNot]; AGroup 21941 1 [anon_sym_SEMI];
     AGroup 21943 1 [sym_kRaiseAt]; SGroup 5044 1 [sym__exprIsNot]; AGroup 20726 2 syms_83;
     AGroup 3 3 syms_1; AGroup 20764 3 syms_79; AGroup 20730 4 syms_84; AGroup 20728 5 syms_85;
     AGroup 20732 6 syms_86]);
   (442233, 4, [AGroup 5 1 [sym_ppDirective]; AGroup 3 2 syms_5; AGroup 11316 4 syms_25;
     AGroup 11311 24 syms_170]);
   (442273, 4, [AGroup 5 1 [sym_ppDirective]; AGroup 3 2 syms_5; AGroup 17412 4 syms_25;
     AGroup 17410 24 syms_174]);
   (442313, 17, [AGroup 14853 1 [anon_sym_POUND]; AGroup 21733 1 [sym_kHat];
     AGroup 21735 1 [sym_ppFragmentExpr]; AGroup 21737 1 [sym_identifier];
     AGroup 21739 1 [sym_kString]; SGroup 10605 1 [sym__subRangeUnary];
     SGroup 10614 1 [sym__subRangeBinary]; SGroup 10620 1 [sym__subRangeCall];
     AGroup 14851 2 syms_6; AGroup 14855 2 syms_7; AGroup 14857 2 syms_8; AGroup 14861 2 syms_9;
     SGroup 10647 2 syms_12; AGroup 3 3 syms_1; SGroup 10482 3 syms_13; SGroup 10599 3 syms_30;
     SGroup 10689 4 syms_31]);
   (442379, 6, [AGroup 5 1 [sym_ppDirective]; AGroup 21945 1 [sym_kHat]; SGroup 4645 1 [sym__exprIsNot];
     AGroup 3 2 syms_5; AGroup 16914 4 syms_25; AGroup 16912 22 syms_634]);
   (442423, 6, [AGroup 5 1 [sym_ppDirective]; AGroup 21945 1 [sym_kHat]; SGroup 4645 1 [sym__exprIsNot];
     AGroup 3 2 syms_5; AGroup 16904 4 syms_25; AGroup 16902 22 syms_634]);
   (442467, 10, [AGroup 5 1 [sym_ppDirective]; AGroup 21945 1 [sym_kHat]; AGroup 21951 1 [sym_kFdiv];
     AGroup 21953 1 [sym_kAs]; SGroup 4645 1 [sym__exprIsNot]; AGroup 3 2 syms_5;
     AGroup 16914 3 syms_94; AGroup 21947 4 syms_84; AGroup 21949 6 syms_86;
     AGroup 16912 11 syms_635]);
   (442519, 17, [AGroup 14853 1 [anon_sym_POUND]; AGroup 21625 1 [sym_kHat];
     AGroup 21627 1 [sym_ppFragmentExpr]; AGroup 21629 1 [sym_identifier];
     AGroup 21631 1 [sym_kString]; SGroup 10605 1 [sym__subRangeUnary];
     SGroup 10614 1 [sym__subRangeBinary]; SGroup 10620 1 [sym__subRangeCall];
     AGroup 14851 2 syms_6; AGroup 14855 2 syms_7; AGroup 14857 2 syms_8; AGroup 21623 2 syms_9;
     SGroup 10647 2 syms_12; AGroup 3 3 syms_1; SGroup 10482 3 syms_13; SGroup 10697 3 syms_30;
     SGroup 10551 4 syms_31]);
   (442585, 9, [AGroup 5 1 [sym_ppDirective]; AGroup 21945 1 [sym_kHat]; AGroup 21951 1 [sym_kFdiv];
     AGroup 21953 1 [sym_kAs]; SGroup 4645 1 [sym__exprIsNot]; AGroup 3 2 syms_5;
     AGroup 16914 3 syms_94; AGroup 21949 6 syms_86; AGroup 16912 15 syms_636]);
   (442635, 5, [AGroup 5 1 [sym_ppDirective]; SGroup 4650 1 [sym_kDot]; AGroup 3 2 syms_5;
     AGroup 16970 4 syms_25; AGroup 16968 23 syms_198]);
   (442677, 4, [AGroup 5 1 [sym_ppDirective]; AGroup 3 2 syms_5; AGroup 17372 4 syms_25;
     AGroup 17370 24 syms_170]);
   (442717, 17, [AGroup 14853 1 [anon_sym_POUND]; AGroup 21733 1 [sym_kHat];
     AGroup 21735 1 [sym_ppFragmentExpr]; AGroup 21737 1 [sym_identifier];
     AGroup 21739 1 [sym_kString]; SGroup 10605 1 [sym__subRangeUnary];
     SGroup 10614 1 [sym__subRangeBinary]; SGroup 10620 1 [sym__subRangeCall];
     AGroup 14851 2 syms_6; AGroup 14855 2 syms_7; AGroup 14857 2 syms_8; AGroup 14861 2 syms_9;
     SGroup 10647 2 syms_12; AGroup 3 3 syms_1; SGroup 10482 3 syms_13; SGroup 11317 3 syms_30;
     SGroup 10689 4 syms_31]);
   (442783, 10, [AGroup 5 1 [sym_ppDirective]; AGroup 21945 1 [sym_kHat]; AGroup 21951 1 [sym_kFdiv];
     AGroup 21953 1 [sym_kAs]; SGroup 4645 1 [sym__exprIsNot]; AGroup 3 2 syms_5;
     AGroup 17016 3 syms_94; AGroup 21947 4 syms_84; AGroup 21949 6 syms_86;
     AGroup 17014 11 syms_635]);
   (442835, 14, [AGroup 5 1 [sym_ppDirective]; AGroup 16886 1 [anon_sym_LPAREN]; AGroup 21945 1 [sym_kHat];
     AGroup 21951 1 [sym_kFdiv]; AGroup 21953 1 [sym_kAs]; AGroup 21959 1 [sym_kIs];
     AGroup 21961 1 [sym_kNot]; SGroup 4645 1 [sym__exprIsNot]; AGroup 3 2 syms_5;
     AGroup 21955 2 syms_83; AGroup 16884 4 syms_637; AGroup 21947 4 syms_84;
     AGroup 21957 5 syms_85; AGroup 21949 6 syms_86]);
   (442895, 4, [AGroup 5 1 [sym_ppDirective]; AGroup 3 2 syms_5; AGroup 17380 4 syms_25;
     AGroup 17378 24 syms_170]);
   (442935, 4, [AGroup 5 1 [sym_ppDirective]; AGroup 3 2 syms_5; AGroup 17386 4 syms_25;
     AGroup 17384 24 syms_170]);
   (442975, 4, [AGroup 5 1 [sym_ppDirective]; AGroup 3 2 syms_5; AGroup 17398 4 syms_25;
     AGroup 17396 24 syms_170]);
   (443015, 4, [AGroup 5 1 [sym_ppDirective]; AGroup 3 2 syms_5; AGroup 17408 4 syms_25;
     AGroup 17406 24 syms_170]);
   (443055, 4, [AGroup 5 1 [sym_ppDirective]; AGroup 3 2 syms_5; AGroup 17412 4 syms_25;
     AGroup 17410 24 syms_170]);
   (443095, 4, [AGroup 5 1 [sym_ppDirective]; AGroup 3 2 syms_5; AGroup 17550 4 syms_25;
     AGroup 17548 24 syms_174]);
   (443135, 4, [AGroup 5 1 [sym_ppDirective]; AGroup 3 2 syms_5; AGroup 17328 4 syms_25;
     AGroup 17326 24 syms_176]);
   (443175, 4, [AGroup 5 1 [sym_ppDirective]; AGroup 3 2 syms_5; AGroup 17550 4 syms_25;
     AGroup 17548 24 syms_170]);
   (443215, 4, [AGroup 5 1 [sym_ppDirective]; AGroup 3 2 syms_5; AGroup 17592 4 syms_25;
     AGroup 17590 24 syms_170]);
   (443255, 4, [AGroup 5 1 [sym_ppDirective]; AGroup 3 2 syms_5; AGroup 17082 4 syms_25;
     AGroup 17080 24 syms_170]);
   (443295, 4, [AGroup 5 1 [sym_ppDirective]; AGroup 3 2 syms_5; AGroup 17096 4 syms_25;
     AGroup 17094 24 syms_170]);
   (443335, 4, [AGroup 5 1 [sym_ppDirective]; AGroup 3 2 syms_5; AGroup 17108 4 syms_25;
     AGroup 17106 24 syms_170]);
   (443375, 4, [AGroup 5 1 [sym_ppDirective]; AGroup 3 2 syms_5; AGroup 17592 4 syms_25;
     AGroup 17590 24 syms_174]);
   (443415, 4, [AGroup 5 1 [sym_ppDirective]; AGroup 3 2 syms_5; AGroup 17116 4 syms_25;
     AGroup 17114 24 syms_170]);
   (443455, 4, [AGroup 5 1 [sym_ppDirective]; AGroup 3 2 syms_5; AGroup 17120 4 syms_25;
     AGroup 17118 24 syms_170]);
   (443495, 4, [AGroup 5 1 [sym_ppDirective]; AGroup 3 2 syms_5; AGroup 17124 4 syms_25;
     AGroup 17122 24 syms_170]);
   (443535, 4, [AGroup 5 1 [sym_ppDirective]; AGroup 3 2 syms_5; AGroup 17128 4 syms_25;
     AGroup 17126 24 syms_170]);
   (443575, 4, [AGroup 5 1 [sym_ppDirective]; AGroup 3 2 syms_5; AGroup 17154 4 syms_25;
     AGroup 17152 24 syms_170]);
   (443615, 4, [AGroup 5 1 [sym_ppDirective]; AGroup 3 2 syms_5; AGroup 17158 4 syms_25;
     AGroup 17156 24 syms_170]);
   (443655, 4, [AGroup 5 1 [sym_ppDirective]; AGroup 3 2 syms_5; AGroup 17082 4 syms_25;
     AGroup 17080 24 syms_174]);
   (443695, 4, [AGroup 5 1 [sym_ppDirective]; AGroup 3 2 syms_5; AGroup 17172 4 syms_25;
     AGroup 17170 24 syms_170]);
   (443735, 4, [AGroup 5 1 [sym_ppDirective]; AGroup 3 2 syms_5; AGroup 17096 4 syms_25;
     AGroup 17094 24 syms_174]);
   (443775, 7, [AGroup 5 1 [sym_ppDirective]; AGroup 16974 1 [anon_sym_COMMA];
     AGroup 16978 1 [anon_sym_DOT]; AGroup 3 2 syms_5; AGroup 16976 2 syms_97;
     AGroup 16981 2 syms_83; AGroup 16972 22 syms_638]);
   (443821, 4, [AGroup 5 1 [sym_ppDirective]; AGroup 3 2 syms_5; AGroup 17108 4 syms_25;
     AGroup 17106 24 syms_174]);
   (443861, 4, [AGroup 5 1 [sym_ppDirective]; AGroup 3 2 syms_5; AGroup 17116 4 syms_25;
     AGroup 17114 24 syms_174]);
   (443901, 4, [AGroup 5 1 [sym_ppDirective]; AGroup 3 2 syms_5; AGroup 17120 4 syms_25;
     AGroup 17118 24 syms_174]);
   (443941, 4, [AGroup 5 1 [sym_ppDirective]; AGroup 3 2 syms_5; AGroup 17124 4 syms_25;
     AGroup 17122 24 syms_174]);
   (443981, 4, [AGroup 5 1 [sym_ppDirective]; AGroup 3 2 syms_5; AGroup 17128 4 syms_25;
     AGroup 17126 24 syms_174]);
   (444021, 4, [AGroup 5 1 [sym_ppDirective]; AGroup 3 2 syms_5; AGroup 17154 4 syms_25;
     AGroup 17152 24 syms_174]);
   (444061, 4, [AGroup 5 1 [sym_ppDirective]; AGroup 3 2 syms_5; AGroup 17158 4 syms_25;
     AGroup 17156 24 syms_174]);
   (444101, 4, [AGroup 5 1 [sym_ppDirective]; AGroup 3 2 syms_5; AGroup 17172 4 syms_25;
     AGroup 17170 24 syms_174]);
   (444141, 4, [AGroup 5 1 [sym_ppDirective]; AGroup 3 2 syms_5; AGroup 17256 4 syms_25;
     AGroup 17254 24 syms_184]);
   (444181, 4, [AGroup 5 1 [sym_ppDirective]; AGroup 3 2 syms_5; AGroup 17242 4 syms_25;
     AGroup 17240 24 syms_170]);
   (444221, 5, [AGroup 5 1 [sym_ppDirective]; AGroup 21963 1 [anon_sym_COLON]; AGroup 3 2 syms_5;
     AGroup 16976 4 syms_25; AGroup 16972 23 syms_616]);
   (444263, 7, [AGroup 5 1 [sym_ppDirective]; AGroup 16974 1 [anon_sym_COMMA];
     AGroup 16978 1 [anon_sym_DOT]; AGroup 3 2 syms_5; AGroup 16976 2 syms_97;
     AGroup 16981 2 syms_83; AGroup 16972 22 syms_639]);
   (444309, 4, [AGroup 5 1 [sym_ppDirective]; AGroup 3 2 syms_5; AGroup 17158 4 syms_25;
     AGroup 17156 24 syms_176]);
   (444349, 4, [AGroup 5 1 [sym_ppDirective]; AGroup 3 2 syms_5; AGroup 17256 4 syms_25;
     AGroup 17254 24 syms_170]);
   (444389, 4, [AGroup 5 1 [sym_ppDirective]; AGroup 3 2 syms_5; AGroup 17242 4 syms_25;
     AGroup 17240 24 syms_174]);
   (444429, 5, [AGroup 5 1 [sym_ppDirective]; SGroup 4755 1 [sym__exprIsNot]; AGroup 3 2 syms_5;
     AGroup 17032 4 syms_25; AGroup 17030 23 syms_211]);
   (444471, 4, [AGroup 5 1 [sym_ppDirective]; AGroup 3 2 syms_5; AGroup 17256 4 syms_25;
     AGroup 17254 24 syms_169]);
   (444511, 7, [AGroup 5 1 [sym_ppDirective]; AGroup 16974 1 [anon_sym_COMMA];
     AGroup 16978 1 [anon_sym_DOT]; AGroup 3 2 syms_5; AGroup 16976 2 syms_97;
     AGroup 16981 2 syms_83; AGroup 16972 22 syms_640]);
   (444557, 4, [AGroup 5 1 [sym_ppDirective]; AGroup 3 2 syms_5; AGroup 17328 4 syms_25;
     AGroup 17326 24 syms_167]);
   (444597, 4, [AGroup 5 1 [sym_ppDirective]; AGroup 3 2 syms_5; AGroup 17256 4 syms_25;
     AGroup 17254 24 syms_174]);
   (444637, 7, [AGroup 5 1 [sym_ppDirective]; AGroup 16974 1 [anon_sym_COMMA];
     AGroup 16978 1 [anon_sym_DOT]; AGroup 3 2 syms_5; AGroup 16976 2 syms_97;
     AGroup 16981 2 syms_83; AGroup 16972 22 syms_641]);
   (444683, 4, [AGroup 5 1 [sym_ppDirective]; AGroup 3 2 syms_5; AGroup 18831 4 syms_25;
     AGroup 18829 24 syms_176]);
   (444723, 4, [AGroup 5 1 [sym_ppDirective]; AGroup 3 2 syms_5; AGroup 17358 4 syms_25;
     AGroup 17356 24 syms_176]);
   (444763, 4, [AGroup 5 1 [sym_ppDirective]; AGroup 3 2 syms_5; AGroup 17362 4 syms_25;
     AGroup 17360 24 syms_176]);
   (444803, 4, [AGroup 5 1 [sym_ppDirective]; AGroup 3 2 syms_5; AGroup 17328 4 syms_25;
     AGroup 17326 24 syms_174]);
   (444843, 4, [AGroup 5 1 [sym_ppDirective]; AGroup 3 2 syms_5; AGroup 18831 4 syms_25;
     AGroup 18829 24 syms_175]);
   (444883, 4, [AGroup 5 1 [sym_ppDirective]; AGroup 3 2 syms_5; AGroup 17358 4 syms_25;
     AGroup 17356 24 syms_175]);
   (444923, 4, [AGroup 5 1 [sym_ppDirective]; AGroup 3 2 syms_5; AGroup 17362 4 syms_25;
     AGroup 17360 24 syms_175]);
   (444963, 4, [AGroup 5 1 [sym_ppDirective]; AGroup 3 2 syms_5; AGroup 11316 4 syms_25;
     AGroup 11311 24 syms_175]);
   (445003, 4, [AGroup 5 1 [sym_ppDirective]; AGroup 3 2 syms_5; AGroup 17372 4 syms_25;
     AGroup 17370 24 syms_175]);
   (445043, 5, [AGroup 5 1 [sym_ppDirective]; AGroup 21965 1 [sym_identifier]; AGroup 3 2 syms_5;
     AGroup 17342 4 syms_25; AGroup 17340 23 syms_211]);
   (445085, 5, [AGroup 5 1 [sym_ppDirective]; AGroup 21967 1 [sym_identifier]; AGroup 3 2 syms_5;
     AGroup 17348 4 syms_25; AGroup 17346 23 syms_211]);
   (445127, 9, [AGroup 5 1 [sym_ppDirective]; AGroup 17042 1 [anon_sym_DOT];
     AGroup 21969 1 [anon_sym_LBRACK]; AGroup 21971 1 [anon_sym_LPAREN];
     AGroup 21973 1 [sym_kLt]; SGroup 4763 1 [sym_kDot]; AGroup 3 2 syms_5;
     AGroup 17046 2 syms_101; AGroup 17036 21 syms_642]);
   (445177, 14, [AGroup 20631 1 [sym_kHat]; AGroup 20639 1 [sym_kAs]; AGroup 20655 1 [sym_kIs];
     AGroup 20657 1 [sym_kNot]; AGroup 21975 1 [sym_kIn]; SGroup 4762 1 [sym__exprIsNot];
     AGroup 20633 2 syms_9; AGroup 20635 2 syms_258; AGroup 20641 2 syms_259;
     AGroup 20651 2 syms_83; AGroup 3 3 syms_1; AGroup 20653 4 syms_596; AGroup 20637 5 syms_260;
     AGroup 21753 5 syms_313]);
   (445237, 4, [AGroup 5 1 [sym_ppDirective]; AGroup 3 2 syms_5; AGroup 17380 4 syms_25;
     AGroup 17378 24 syms_175]);
   (445277, 4, [SGroup 4778 1 [sym__exprIsNot]; AGroup 3 3 syms_1; AGroup 17032 3 syms_429;
     AGroup 17030 24 syms_423]);
   (445317, 5, [AGroup 5 1 [sym_ppDirective]; SGroup 5529 1 [sym__exprIsNot]; AGroup 3 2 syms_5;
     AGroup 17032 4 syms_25; AGroup 17030 23 syms_204]);
   (445359, 4, [AGroup 5 1 [sym_ppDirective]; AGroup 3 2 syms_5; AGroup 17386 4 syms_25;
     AGroup 17384 24 syms_175]);
   (445399, 4, [AGroup 5 1 [sym_ppDirective]; AGroup 3 2 syms_5; AGroup 17398 4 syms_25;
     AGroup 17396 24 syms_175]);
   (445439, 4, [AGroup 5 1 [sym_ppDirective]; AGroup 3 2 syms_5; AGroup 17408 4 syms_25;
     AGroup 17406 24 syms_175]);
   (445479, 4, [AGroup 5 1 [sym_ppDirective]; AGroup 3 2 syms_5; AGroup 17412 4 syms_25;
     AGroup 17410 24 syms_175]);
   (445519, 14, [AGroup 20631 1 [sym_kHat]; AGroup 20639 1 [sym_kAs]; AGroup 20655 1 [sym_kIs];
     AGroup 20657 1 [sym_kNot]; AGroup 21977 1 [sym_kIn]; SGroup 4762 1 [sym__exprIsNot];
     AGroup 20633 2 syms_9; AGroup 20635 2 syms_258; AGroup 20641 2 syms_259;
     AGroup 20651 2 syms_83; AGroup 3 3 syms_1; AGroup 20653 4 syms_596; AGroup 20637 5 syms_260;
     AGroup 21753 5 syms_313]);
   (445579, 6, [AGroup 5 1 [sym_ppDirective]; AGroup 21979 1 [sym_kHat]; SGroup 4755 1 [sym__exprIsNot];
     AGroup 3 2 syms_5; AGroup 16914 4 syms_25; AGroup 16912 22 syms_643]);
   (445623, 6, [AGroup 5 1 [sym_ppDirective]; AGroup 21979 1 [sym_kHat]; SGroup 4755 1 [sym__exprIsNot];
     AGroup 3 2 syms_5; AGroup 16904 4 syms_25; AGroup 16902 22 syms_643]);
   (445667, 10, [AGroup 5 1 [sym_ppDirective]; AGroup 21979 1 [sym_kHat]; AGroup 21985 1 [sym_kFdiv];
     AGroup 21987 1 [sym_kAs]; SGroup 4755 1 [sym__exprIsNot]; AGroup 3 2 syms_5;
     AGroup 16914 3 syms_94; AGroup 21981 4 syms_84; AGroup 21983 6 syms_86;
     AGroup 16912 11 syms_644]);
   (445719, 9, [AGroup 5 1 [sym_ppDirective]; AGroup 21979 1 [sym_kHat]; AGroup 21985 1 [sym_kFdiv];
     AGroup 21987 1 [sym_kAs]; SGroup 4755 1 [sym__exprIsNot]; AGroup 3 2 syms_5;
     AGroup 16914 3 syms_94; AGroup 21983 6 syms_86; AGroup 16912 15 syms_645]);
   (445769, 4, [AGroup 5 1 [sym_ppDirective]; AGroup 3 2 syms_5; AGroup 11316 4 syms_25;
     AGroup 11311 24 syms_176]);
   (445809, 5, [AGroup 5 1 [sym_ppDirective]; SGroup 4763 1 [sym_kDot]; AGroup 3 2 syms_5;
     AGroup 16970 4 syms_25; AGroup 16968 23 syms_211]);
   (445851, 14, [AGroup 20631 1 [sym_kHat]; AGroup 20639 1 [sym_kAs]; AGroup 20655 1 [sym_kIs];
     AGroup 20657 1 [sym_kNot]; AGroup 21989 1 [sym_kIn]; SGroup 4762 1 [sym__exprIsNot];
     AGroup 20633 2 syms_9; AGroup 20635 2 syms_258; AGroup 20641 2 syms_259;
     AGroup 20651 2 syms_83; AGroup 3 3 syms_1; AGroup 20653 4 syms_596; AGroup 20637 5 syms_260;
     AGroup 21753 5 syms_313]);
   (445911, 14, [AGroup 20631 1 [sym_kHat]; AGroup 20639 1 [sym_kAs]; AGroup 20655 1 [sym_kIs];
     AGroup 20657 1 [sym_kNot]; AGroup 21991 1 [sym_kIn]; SGroup 4762 1 [sym__exprIsNot];
     AGroup 20633 2 syms_9; AGroup 20635 2 syms_258; AGroup 20641 2 syms_259;
     AGroup 20651 2 syms_83; AGroup 3 3 syms_1; AGroup 20653 4 syms_596; AGroup 20637 5 syms_260;
     AGroup 21753 5 syms_313]);
   (445971, 10, [AGroup 5 1 [sym_ppDirective]; AGroup 21979 1 [sym_kHat]; AGroup 21985 1 [sym_kFdiv];
     AGroup 21987 1 [sym_kAs]; SGroup 4755 1 [sym__exprIsNot]; AGroup 3 2 syms_5;
     AGroup 17016 3 syms_94; AGroup 21981 4 syms_84; AGroup 21983 6 syms_86;
     AGroup 17014 11 syms_644]);
   (446023, 14, [AGroup 20631 1 [sym_kHat]; AGroup 20639 1 [sym_kAs]; AGroup 20655 1 [sym_kIs];
     AGroup 20657 1 [sym_kNot]; AGroup 21993 1 [sym_kIn]; SGroup 4762 1 [sym__exprIsNot];
     AGroup 20633 2 syms_9; AGroup 20635 2 syms_258; AGroup 20641 2 syms_259;
     AGroup 20651 2 syms_83; AGroup 3 3 syms_1; AGroup 20653 4 syms_596; AGroup 20637 5 syms_260;
     AGroup 21753 5 syms_313]);
   (446083, 14, [AGroup 20631 1 [sym_kHat]; AGroup 20639 1 [sym_kAs]; AGroup 20655 1 [sym_kIs];
     AGroup 20657 1 [sym_kNot]; AGroup 21995 1 [sym_kIn]; SGroup 4762 1 [sym__exprIsNot];
     AGroup 20633 2 syms_9; AGroup 20635 2 syms_258; AGroup 20641 2 syms_259;
     AGroup 20651 2 syms_83; AGroup 3 3 syms_1; AGroup 20653 4 syms_596; AGroup 20637 5 syms_260;
     AGroup 21753 5 syms_313])
  ].

(** States 8959 to 9058. *)
Definition small_runs_8959 : list small_run :=
  [
   (446143, 4, [AGroup 5 1 [sym_ppDirective]; AGroup 3 2 syms_5; AGroup 17550 4 syms_25;
     AGroup 17548 24 syms_175]);
   (446183, 14, [AGroup 20631 1 [sym_kHat]; AGroup 20639 1 [sym_kAs]; AGroup 20655 1 [sym_kIs];
     AGroup 20657 1 [sym_kNot]; AGroup 21997 1 [sym_kIn]; SGroup 4762 1 [sym__exprIsNot];
     AGroup 20633 2 syms_9; AGroup 20635 2 syms_258; AGroup 20641 2 syms_259;
     AGroup 20651 2 syms_83; AGroup 3 3 syms_1; AGroup 20653 4 syms_596; AGroup 20637 5 syms_260;
     AGroup 21753 5 syms_313]);
   (446243, 14, [AGroup 5 1 [sym_ppDirective]; AGroup 16886 1 [anon_sym_LPAREN]; AGroup 21979 1 [sym_kHat];
     AGroup 21985 1 [sym_kFdiv]; AGroup 21987 1 [sym_kAs]; AGroup 22003 1 [sym_kIs];
     AGroup 22005 1 [sym_kNot]; SGroup 4755 1 [sym__exprIsNot]; AGroup 3 2 syms_5;
     AGroup 21999 2 syms_83; AGroup 16884 4 syms_646; AGroup 21981 4 syms_84;
     AGroup 22001 5 syms_85; AGroup 21983 6 syms_86]);
   (446303, 14, [AGroup 20631 1 [sym_kHat]; AGroup 20639 1 [sym_kAs]; AGroup 20655 1 [sym_kIs];
     AGroup 20657 1 [sym_kNot]; AGroup 22007 1 [sym_kIn]; SGroup 4762 1 [sym__exprIsNot];
     AGroup 20633 2 syms_9; AGroup 20635 2 syms_258; AGroup 20641 2 syms_259;
     AGroup 20651 2 syms_83; AGroup 3 3 syms_1; AGroup 20653 4 syms_596; AGroup 20637 5 syms_260;
     AGroup 21753 5 syms_313]);
   (446363, 14, [AGroup 20631 1 [sym_kHat]; AGroup 20639 1 [sym_kAs]; AGroup 20655 1 [sym_kIs];
     AGroup 20657 1 [sym_kNot]; AGroup 22009 1 [sym_kIn]; SGroup 4762 1 [sym__exprIsNot];
     AGroup 20633 2 syms_9; AGroup 20635 2 syms_258; AGroup 20641 2 syms_259;
     AGroup 20651 2 syms_83; AGroup 3 3 syms_1; AGroup 20653 4 syms_596; AGroup 20637 5 syms_260;
     AGroup 21753 5 syms_313]);
   (446423, 14, [AGroup 20631 1 [sym_kHat]; AGroup 20639 1 [sym_kAs]; AGroup 20655 1 [sym_kIs];
     AGroup 20657 1 [sym_kNot]; AGroup 22011 1 [sym_kIn]; SGroup 4762 1 [sym__exprIsNot];
     AGroup 20633 2 syms_9; AGroup 20635 2 syms_258; AGroup 20641 2 syms_259;
     AGroup 20651 2 syms_83; AGroup 3 3 syms_1; AGroup 20653 4 syms_596; AGroup 20637 5 syms_260;
     AGroup 21753 5 syms_313]);
   (446483, 14, [AGroup 20631 1 [sym_kHat]; AGroup 20639 1 [sym_kAs]; AGroup 20655 1 [sym_kIs];
     AGroup 20657 1 [sym_kNot]; AGroup 22013 1 [sym_kIn]; SGroup 4762 1 [sym__exprIsNot];
     AGroup 20633 2 syms_9; AGroup 20635 2 syms_258; AGroup 20641 2 syms_259;
     AGroup 20651 2 syms_83; AGroup 3 3 syms_1; AGroup 20653 4 syms_596; AGroup 20637 5 syms_260;
     AGroup 21753 5 syms_313]);
   (446543, 14, [AGroup 20631 1 [sym_kHat]; AGroup 20639 1 [sym_kAs]; AGroup 20655 1 [sym_kIs];
     AGroup 20657 1 [sym_kNot]; AGroup 22015 1 [sym_kIn]; SGroup 4762 1 [sym__exprIsNot];
     AGroup 20633 2 syms_9; AGroup 20635 2 syms_258; AGroup 20641 2 syms_259;
     AGroup 20651 2 syms_83; AGroup 3 3 syms_1; AGroup 20653 4 syms_596; AGroup 20637 5 syms_260;
     AGroup 21753 5 syms_313]);
   (446603, 14, [AGroup 20631 1 [sym_kHat]; AGroup 20639 1 [sym_kAs]; AGroup 20655 1 [sym_kIs];
     AGroup 20657 1 [sym_kNot]; AGroup 22017 1 [sym_kIn]; SGroup 4762 1 [sym__exprIsNot];
     AGroup 20633 2 syms_9; AGroup 20635 2 syms_258; AGroup 20641 2 syms_259;
     AGroup 20651 2 syms_83; AGroup 3 3 syms_1; AGroup 20653 4 syms_596; AGroup 20637 5 syms_260;
     AGroup 21753 5 syms_313]);
   (446663, 14, [AGroup 20631 1 [sym_kHat]; AGroup 20639 1 [sym_kAs]; AGroup 20655 1 [sym_kIs];
     AGroup 20657 1 [sym_kNot]; AGroup 22019 1 [sym_kIn]; SGroup 4762 1 [sym__exprIsNot];
     AGroup 20633 2 syms_9; AGroup 20635 2 syms_258; AGroup 20641 2 syms_259;
     AGroup 20651 2 syms_83; AGroup 3 3 syms_1; AGroup 20653 4 syms_596; AGroup 20637 5 syms_260;
     AGroup 21753 5 syms_313]);
   (446723, 14, [AGroup 20631 1 [sym_kHat]; AGroup 20639 1 [sym_kAs]; AGroup 20655 1 [sym_kIs];
     AGroup 20657 1 [sym_kNot]; AGroup 22021 1 [sym_kIn]; SGroup 4762 1 [sym__exprIsNot];
     AGroup 20633 2 syms_9; AGroup 20635 2 syms_258; AGroup 20641 2 syms_259;
     AGroup 20651 2 syms_83; AGroup 3 3 syms_1; AGroup 20653 4 syms_596; AGroup 20637 5 syms_260;
     AGroup 21753 5 syms_313]);
   (446783, 14, [AGroup 20631 1 [sym_kHat]; AGroup 20639 1 [sym_kAs]; AGroup 20655 1 [sym_kIs];
     AGroup 20657 1 [sym_kNot]; AGroup 22023 1 [sym_kIn]; SGroup 4762 1 [sym__exprIsNot];
     AGroup 20633 2 syms_9; AGroup 20635 2 syms_258; AGroup 20641 2 syms_259;
     AGroup 20651 2 syms_83; AGroup 3 3 syms_1; AGroup 20653 4 syms_596; AGroup 20637 5 syms_260;
     AGroup 21753 5 syms_313]);
   (446843, 14, [AGroup 20631 1 [sym_kHat]; AGroup 20639 1 [sym_kAs]; AGroup 20655 1 [sym_kIs];
     AGroup 20657 1 [sym_kNot]; AGroup 22025 1 [sym_kIn]; SGroup 4762 1 [sym__exprIsNot];
     AGroup 20633 2 syms_9; AGroup 20635 2 syms_258; AGroup 20641 2 syms_259;
     AGroup 20651 2 syms_83; AGroup 3 3 syms_1; AGroup 20653 4 syms_596; AGroup 20637 5 syms_260;
     AGroup 21753 5 syms_313]);
   (446903, 14, [AGroup 20631 1 [sym_kHat]; AGroup 20639 1 [sym_kAs]; AGroup 20655 1 [sym_kIs];
     AGroup 20657 1 [sym_kNot]; AGroup 22027 1 [sym_kIn]; SGroup 4762 1 [sym__exprIsNot];
     AGroup 20633 2 syms_9; AGroup 20635 2 syms_258; AGroup 20641 2 syms_259;
     AGroup 20651 2 syms_83; AGroup 3 3 syms_1; AGroup 20653 4 syms_596; AGroup 20637 5 syms_260;
     AGroup 21753 5 syms_313]);
   (446963, 4, [AGroup 5 1 [sym_ppDirective]; AGroup 3 2 syms_5; AGroup 17172 4 syms_25;
     AGroup 17170 24 syms_175]);
   (447003, 4, [AGroup 5 1 [sym_ppDirective]; AGroup 3 2 syms_5; AGroup 18831 4 syms_25;
     AGroup 18829 24 syms_169]);
   (447043, 14, [AGroup 20631 1 [sym_kHat]; AGroup 20639 1 [sym_kAs]; AGroup 20655 1 [sym_kIs];
     AGroup 20657 1 [sym_kNot]; AGroup 22029 1 [sym_kIn]; SGroup 4762 1 [sym__exprIsNot];
     AGroup 20633 2 syms_9; AGroup 20635 2 syms_258; AGroup 20641 2 syms_259;
     AGroup 20651 2 syms_83; AGroup 3 3 syms_1; AGroup 20653 4 syms_596; AGroup 20637 5 syms_260;
     AGroup 21753 5 syms_313]);
   (447103, 14, [AGroup 20631 1 [sym_kHat]; AGroup 20639 1 [sym_kAs]; AGroup 20655 1 [sym_kIs];
     AGroup 20657 1 [sym_kNot]; AGroup 22031 1 [sym_kIn]; SGroup 4762 1 [sym__exprIsNot];
     AGroup 20633 2 syms_9; AGroup 20635 2 syms_258; AGroup 20641 2 syms_259;
     AGroup 20651 2 syms_83; AGroup 3 3 syms_1; AGroup 20653 4 syms_596; AGroup 20637 5 syms_260;
     AGroup 21753 5 syms_313]);
   (447163, 4, [AGroup 5 1 [sym_ppDirective]; AGroup 3 2 syms_5; AGroup 17358 4 syms_25;
     AGroup 17356 24 syms_169]);
   (447203, 14, [AGroup 20631 1 [sym_kHat]; AGroup 20639 1 [sym_kAs]; AGroup 20655 1 [sym_kIs];
     AGroup 20657 1 [sym_kNot]; AGroup 22033 1 [sym_kIn]; SGroup 4762 1 [sym__exprIsNot];
     AGroup 20633 2 syms_9; AGroup 20635 2 syms_258; AGroup 20641 2 syms_259;
     AGroup 20651 2 syms_83; AGroup 3 3 syms_1; AGroup 20653 4 syms_596; AGroup 20637 5 syms_260;
     AGroup 21753 5 syms_313]);
   (447263, 14, [AGroup 20631 1 [sym_kHat]; AGroup 20639 1 [sym_kAs]; AGroup 20655 1 [sym_kIs];
     AGroup 20657 1 [sym_kNot]; AGroup 22035 1 [sym_kIn]; SGroup 4762 1 [sym__exprIsNot];
     AGroup 20633 2 syms_9; AGroup 20635 2 syms_258; AGroup 20641 2 syms_259;
     AGroup 20651 2 syms_83; AGroup 3 3 syms_1; AGroup 20653 4 syms_596; AGroup 20637 5 syms_260;
     AGroup 21753 5 syms_313]);
   (447323, 4, [AGroup 5 1 [sym_ppDirective]; AGroup 3 2 syms_5; AGroup 17362 4 syms_25;
     AGroup 17360 24 syms_169]);
   (447363, 14, [AGroup 20631 1 [sym_kHat]; AGroup 20639 1 [sym_kAs]; AGroup 20655 1 [sym_kIs];
     AGroup 20657 1 [sym_kNot]; AGroup 22037 1 [sym_kIn]; SGroup 4762 1 [sym__exprIsNot];
     AGroup 20633 2 syms_9; AGroup 20635 2 syms_258; AGroup 20641 2 syms_259;
     AGroup 20651 2 syms_83; AGroup 3 3 syms_1; AGroup 20653 4 syms_596; AGroup 20637 5 syms_260;
     AGroup 21753 5 syms_313]);
   (447423, 14, [AGroup 20631 1 [sym_kHat]; AGroup 20639 1 [sym_kAs]; AGroup 20655 1 [sym_kIs];
     AGroup 20657 1 [sym_kNot]; AGroup 22039 1 [sym_kIn]; SGroup 4762 1 [sym__exprIsNot];
     AGroup 20633 2 syms_9; AGroup 20635 2 syms_258; AGroup 20641 2 syms_259;
     AGroup 20651 2 syms_83; AGroup 3 3 syms_1; AGroup 20653 4 syms_596; AGroup 20637 5 syms_260;
     AGroup 21753 5 syms_313]);
   (447483, 14, [AGroup 20631 1 [sym_kHat]; AGroup 20639 1 [sym_kAs]; AGroup 20655 1 [sym_kIs];
     AGroup 20657 1 [sym_kNot]; AGroup 22041 1 [sym_kIn]; SGroup 4762 1 [sym__exprIsNot];
     AGroup 20633 2 syms_9; AGroup 20635 2 syms_258; AGroup 20641 2 syms_259;
     AGroup 20651 2 syms_83; AGroup 3 3 syms_1; AGroup 20653 4 syms_596; AGroup 20637 5 syms_260;
     AGroup 21753 5 syms_313]);
   (447543, 14, [AGroup 20631 1 [sym_kHat]; AGroup 20639 1 [sym_kAs]; AGroup 20655 1 [sym_kIs];
     AGroup 20657 1 [sym_kNot]; AGroup 22043 1 [sym_kIn]; SGroup 4762 1 [sym__exprIsNot];
     AGroup 20633 2 syms_9; AGroup 20635 2 syms_258; AGroup 20641 2 syms_259;
     AGroup 20651 2 syms_83; AGroup 3 3 syms_1; AGroup 20653 4 syms_596; AGroup 20637 5 syms_260;
     AGroup 21753 5 syms_313]);
   (447603, 4, [AGroup 5 1 [sym_ppDirective]; AGroup 3 2 syms_5; AGroup 11316 4 syms_25;
     AGroup 11311 24 syms_169]);
   (447643, 14, [AGroup 20631 1 [sym_kHat]; AGroup 20639 1 [sym_kAs]; AGroup 20655 1 [sym_kIs];
     AGroup 20657 1 [sym_kNot]; AGroup 22045 1 [sym_kIn]; SGroup 4762 1 [sym__exprIsNot];
     AGroup 20633 2 syms_9; AGroup 20635 2 syms_258; AGroup 20641 2 syms_259;
     AGroup 20651 2 syms_83; AGroup 3 3 syms_1; AGroup 20653 4 syms_596; AGroup 20637 5 syms_260;
     AGroup 21753 5 syms_313]);
   (447703, 14, [AGroup 20631 1 [sym_kHat]; AGroup 20639 1 [sym_kAs]; AGroup 20655 1 [sym_kIs];
     AGroup 20657 1 [sym_kNot]; AGroup 22047 1 [sym_kIn]; SGroup 4762 1 [sym__exprIsNot];
     AGroup 20633 2 syms_9; AGroup 20635 2 syms_258; AGroup 20641 2 syms_259;
     AGroup 20651 2 syms_83; AGroup 3 3 syms_1; AGroup 20653 4 syms_596; AGroup 20637 5 syms_260;
     AGroup 21753 5 syms_313]);
   (447763, 14, [AGroup 20631 1 [sym_kHat]; AGroup 20639 1 [sym_kAs]; AGroup 20655 1 [sym_kIs];
     AGroup 20657 1 [sym_kNot]; AGroup 22049 1 [sym_kIn]; SGroup 4762 1 [sym__exprIsNot];
     AGroup 20633 2 syms_9; AGroup 20635 2 syms_258; AGroup 20641 2 syms_259;
     AGroup 20651 2 syms_83; AGroup 3 3 syms_1; AGroup 20653 4 syms_596; AGroup 20637 5 syms_260;
     AGroup 21753 5 syms_313]);
   (447823, 4, [AGroup 5 1 [sym_ppDirective]; AGroup 3 2 syms_5; AGroup 17592 4 syms_25;
     AGroup 17590 24 syms_175]);
   (447863, 4, [AGroup 5 1 [sym_ppDirective]; AGroup 3 2 syms_5; AGroup 17082 4 syms_25;
     AGroup 17080 24 syms_175]);
   (447903, 4, [AGroup 5 1 [sym_ppDirective]; AGroup 3 2 syms_5; AGroup 17372 4 syms_25;
     AGroup 17370 24 syms_169]);
   (447943, 14, [AGroup 20631 1 [sym_kHat]; AGroup 20639 1 [sym_kAs]; AGroup 20655 1 [sym_kIs];
     AGroup 20657 1 [sym_kNot]; AGroup 22051 1 [sym_kIn]; SGroup 4762 1 [sym__exprIsNot];
     AGroup 20633 2 syms_9; AGroup 20635 2 syms_258; AGroup 20641 2 syms_259;
     AGroup 20651 2 syms_83; AGroup 3 3 syms_1; AGroup 20653 4 syms_596; AGroup 20637 5 syms_260;
     AGroup 21753 5 syms_313]);
   (448003, 14, [AGroup 20631 1 [sym_kHat]; AGroup 20639 1 [sym_kAs]; AGroup 20655 1 [sym_kIs];
     AGroup 20657 1 [sym_kNot]; AGroup 22053 1 [sym_kIn]; SGroup 4762 1 [sym__exprIsNot];
     AGroup 20633 2 syms_9; AGroup 20635 2 syms_258; AGroup 20641 2 syms_259;
     AGroup 20651 2 syms_83; AGroup 3 3 syms_1; AGroup 20653 4 syms_596; AGroup 20637 5 syms_260;
     AGroup 21753 5 syms_313]);
   (448063, 4, [AGroup 5 1 [sym_ppDirective]; AGroup 3 2 syms_5; AGroup 17380 4 syms_25;
     AGroup 17378 24 syms_169]);
   (448103, 4, [AGroup 5 1 [sym_ppDirective]; AGroup 3 2 syms_5; AGroup 17386 4 syms_25;
     AGroup 17384 24 syms_169]);
   (448143, 14, [AGroup 20631 1 [sym_kHat]; AGroup 20639 1 [sym_kAs]; AGroup 20655 1 [sym_kIs];
     AGroup 20657 1 [sym_kNot]; AGroup 22055 1 [sym_kIn]; SGroup 4762 1 [sym__exprIsNot];
     AGroup 20633 2 syms_9; AGroup 20635 2 syms_258; AGroup 20641 2 syms_259;
     AGroup 20651 2 syms_83; AGroup 3 3 syms_1; AGroup 20653 4 syms_596; AGroup 20637 5 syms_260;
     AGroup 21753 5 syms_313]);
   (448203, 4, [AGroup 5 1 [sym_ppDirective]; AGroup 3 2 syms_5; AGroup 17398 4 syms_25;
     AGroup 17396 24 syms_169]);
   (448243, 4, [AGroup 5 1 [sym_ppDirective]; AGroup 3 2 syms_5; AGroup 17096 4 syms_25;
     AGroup 17094 24 syms_175]);
   (448283, 14, [AGroup 20631 1 [sym_kHat]; AGroup 20639 1 [sym_kAs]; AGroup 20655 1 [sym_kIs];
     AGroup 20657 1 [sym_kNot]; AGroup 22057 1 [sym_kIn]; SGroup 4762 1 [sym__exprIsNot];
     AGroup 20633 2 syms_9; AGroup 20635 2 syms_258; AGroup 20641 2 syms_259;
     AGroup 20651 2 syms_83; AGroup 3 3 syms_1; AGroup 20653 4 syms_596; AGroup 20637 5 syms_260;
     AGroup 21753 5 syms_313]);
   (448343, 4, [AGroup 5 1 [sym_ppDirective]; AGroup 3 2 syms_5; AGroup 17408 4 syms_25;
     AGroup 17406 24 syms_169]);
   (448383, 4, [AGroup 5 1 [sym_ppDirective]; AGroup 3 2 syms_5; AGroup 17412 4 syms_25;
     AGroup 17410 24 syms_169]);
   (448423, 4, [AGroup 5 1 [sym_ppDirective]; AGroup 3 2 syms_5; AGroup 17108 4 syms_25;
     AGroup 17106 24 syms_175]);
   (448463, 4, [AGroup 5 1 [sym_ppDirective]; AGroup 3 2 syms_5; AGroup 17116 4 syms_25;
     AGroup 17114 24 syms_175]);
   (448503, 4, [AGroup 5 1 [sym_ppDirective]; AGroup 3 2 syms_5; AGroup 17120 4 syms_25;
     AGroup 17118 24 syms_175]);
   (448543, 14, [AGroup 20631 1 [sym_kHat]; AGroup 20639 1 [sym_kAs]; AGroup 20655 1 [sym_kIs];
     AGroup 20657 1 [sym_kNot]; AGroup 22059 1 [sym_kIn]; SGroup 4762 1 [sym__exprIsNot];
     AGroup 20633 2 syms_9; AGroup 20635 2 syms_258; AGroup 20641 2 syms_259;
     AGroup 20651 2 syms_83; AGroup 3 3 syms_1; AGroup 20653 4 syms_596; AGroup 20637 5 syms_260;
     AGroup 21753 5 syms_313]);
   (448603, 4, [AGroup 5 1 [sym_ppDirective]; AGroup 3 2 syms_5; AGroup 17124 4 syms_25;
     AGroup 17122 24 syms_175]);
   (448643, 4, [AGroup 5 1 [sym_ppDirective]; AGroup 3 2 syms_5; AGroup 17550 4 syms_25;
     AGroup 17548 24 syms_169]);
   (448683, 4, [AGroup 5 1 [sym_ppDirective]; AGroup 3 2 syms_5; AGroup 17128 4 syms_25;
     AGroup 17126 24 syms_175]);
   (448723, 14, [AGroup 20631 1 [sym_kHat]; AGroup 20639 1 [sym_kAs]; AGroup 20655 1 [sym_kIs];
     AGroup 20657 1 [sym_kNot]; AGroup 22061 1 [sym_kIn]; SGroup 4762 1 [sym__exprIsNot];
     AGroup 20633 2 syms_9; AGroup 20635 2 syms_258; AGroup 20641 2 syms_259;
     AGroup 20651 2 syms_83; AGroup 3 3 syms_1; AGroup 20653 4 syms_596; AGroup 20637 5 syms_260;
     AGroup 21753 5 syms_313]);
   (448783, 4, [AGroup 5 1 [sym_ppDirective]; AGroup 3 2 syms_5; AGroup 17154 4 syms_25;
     AGroup 17152 24 syms_175]);
   (448823, 4, [AGroup 5 1 [sym_ppDirective]; AGroup 3 2 syms_5; AGroup 17592 4 syms_25;
     AGroup 17590 24 syms_169]);
   (448863, 4, [AGroup 5 1 [sym_ppDirective]; AGroup 3 2 syms_5; AGroup 17082 4 syms_25;
     AGroup 17080 24 syms_169]);
   (448903, 4, [AGroup 5 1 [sym_ppDirective]; AGroup 3 2 syms_5; AGroup 17096 4 syms_25;
     AGroup 17094 24 syms_169]);
   (448943, 4, [AGroup 5 1 [sym_ppDirective]; AGroup 3 2 syms_5; AGroup 17108 4 syms_25;
     AGroup 17106 24 syms_169]);
   (448983, 4, [AGroup 5 1 [sym_ppDirective]; AGroup 3 2 syms_5; AGroup 17116 4 syms_25;
     AGroup 17114 24 syms_169]);
   (449023, 4, [AGroup 5 1 [sym_ppDirective]; AGroup 3 2 syms_5; AGroup 17120 4 syms_25;
     AGroup 17118 24 syms_169]);
   (449063, 4, [AGroup 5 1 [sym_ppDirective]; AGroup 3 2 syms_5; AGroup 17124 4 syms_25;
     AGroup 17122 24 syms_169]);
   (449103, 4, [AGroup 5 1 [sym_ppDirective]; AGroup 3 2 syms_5; AGroup 17158 4 syms_25;
     AGroup 17156 24 syms_175]);
   (449143, 4, [AGroup 5 1 [sym_ppDirective]; AGroup 3 2 syms_5; AGroup 17128 4 syms_25;
     AGroup 17126 24 syms_169]);
   (449183, 4, [AGroup 5 1 [sym_ppDirective]; AGroup 3 2 syms_5; AGroup 17154 4 syms_25;
     AGroup 17152 24 syms_169]);
   (449223, 4, [AGroup 5 1 [sym_ppDirective]; AGroup 3 2 syms_5; AGroup 17158 4 syms_25;
     AGroup 17156 24 syms_169]);
   (449263, 4, [AGroup 5 1 [sym_ppDirective]; AGroup 3 2 syms_5; AGroup 17172 4 syms_25;
     AGroup 17170 24 syms_167]);
   (449303, 4, [AGroup 5 1 [sym_ppDirective]; AGroup 3 2 syms_5; AGroup 17242 4 syms_25;
     AGroup 17240 23 syms_197]);
   (449342, 4, [AGroup 5 1 [sym_ppDirective]; AGroup 3 2 syms_5; AGroup 17380 4 syms_25;
     AGroup 17378 23 syms_196]);
   (449381, 10, [AGroup 5 1 [sym_ppDirective]; AGroup 17042 1 [anon_sym_DOT];
     AGroup 20754 1 [anon_sym_LBRACK]; AGroup 20756 1 [anon_sym_LPAREN];
     AGroup 21476 1 [sym_kLt]; AGroup 22063 1 [anon_sym_SEMI]; SGroup 5433 1 [sym_kDot];
     AGroup 3 2 syms_5; AGroup 17046 2 syms_101; AGroup 17036 19 syms_593]);
   (449432, 4, [AGroup 5 1 [sym_ppDirective]; AGroup 3 2 syms_5; AGroup 17386 4 syms_25;
     AGroup 17384 23 syms_196]);
   (449471, 4, [AGroup 5 1 [sym_ppDirective]; AGroup 3 2 syms_5; AGroup 17398 4 syms_25;
     AGroup 17396 23 syms_196]);
   (449510, 4, [AGroup 5 1 [sym_ppDirective]; AGroup 3 2 syms_5; AGroup 17408 4 syms_25;
     AGroup 17406 23 syms_196]);
   (449549, 4, [AGroup 5 1 [sym_ppDirective]; AGroup 3 2 syms_5; AGroup 17412 4 syms_25;
     AGroup 17410 23 syms_196]);
   (449588, 12, [AGroup 20916 1 [sym_kHat]; AGroup 20922 1 [sym_kFdiv]; AGroup 20924 1 [sym_kAs];
     AGroup 20939 1 [sym_kIs]; AGroup 20941 1 [sym_kNot]; SGroup 4260 1 [sym__exprIsNot];
     AGroup 20935 2 syms_83; AGroup 3 3 syms_1; AGroup 20918 4 syms_84; AGroup 21031 4 syms_647;
     AGroup 20937 5 syms_85; AGroup 20920 6 syms_86]);
   (449643, 14, [AGroup 21033 1 [sym_kHat]; AGroup 21039 1 [sym_kFdiv]; AGroup 21041 1 [sym_kAs];
     AGroup 21049 1 [sym_kIs]; AGroup 21051 1 [sym_kNot]; AGroup 22065 1 [anon_sym_SEMI];
     AGroup 22069 1 [sym_kDelayed]; SGroup 4416 1 [sym__exprIsNot]; AGroup 21045 2 syms_83;
     AGroup 22067 2 syms_78; AGroup 3 3 syms_1; AGroup 21035 4 syms_84; AGroup 21047 5 syms_85;
     AGroup 21037 6 syms_86]);
   (449702, 4, [AGroup 5 1 [sym_ppDirective]; AGroup 3 2 syms_5; AGroup 17550 4 syms_25;
     AGroup 17548 23 syms_196]);
   (449741, 4, [AGroup 5 1 [sym_ppDirective]; AGroup 3 2 syms_5; AGroup 17592 4 syms_25;
     AGroup 17590 23 syms_196]);
   (449780, 4, [AGroup 5 1 [sym_ppDirective]; AGroup 3 2 syms_5; AGroup 17082 4 syms_25;
     AGroup 17080 23 syms_196]);
   (449819, 4, [AGroup 5 1 [sym_ppDirective]; AGroup 3 2 syms_5; AGroup 17096 4 syms_25;
     AGroup 17094 23 syms_196]);
   (449858, 4, [AGroup 5 1 [sym_ppDirective]; AGroup 3 2 syms_5; AGroup 17108 4 syms_25;
     AGroup 17106 23 syms_196]);
   (449897, 4, [AGroup 5 1 [sym_ppDirective]; AGroup 3 2 syms_5; AGroup 17116 4 syms_25;
     AGroup 17114 23 syms_196]);
   (449936, 4, [AGroup 5 1 [sym_ppDirective]; AGroup 3 2 syms_5; AGroup 17120 4 syms_25;
     AGroup 17118 23 syms_196]);
   (449975, 4, [AGroup 5 1 [sym_ppDirective]; AGroup 3 2 syms_5; AGroup 17124 4 syms_25;
     AGroup 17122 23 syms_196]);
   (450014, 4, [AGroup 5 1 [sym_ppDirective]; AGroup 3 2 syms_5; AGroup 17128 4 syms_25;
     AGroup 17126 23 syms_196]);
   (450053, 4, [AGroup 5 1 [sym_ppDirective]; AGroup 3 2 syms_5; AGroup 17154 4 syms_25;
     AGroup 17152 23 syms_196]);
   (450092, 4, [AGroup 5 1 [sym_ppDirective]; AGroup 3 2 syms_5; AGroup 17158 4 syms_25;
     AGroup 17156 23 syms_196]);
   (450131, 4, [AGroup 5 1 [sym_ppDirective]; AGroup 3 2 syms_5; AGroup 17172 4 syms_25;
     AGroup 17170 23 syms_196]);
   (450170, 4, [AGroup 5 1 [sym_ppDirective]; AGroup 3 2 syms_5; AGroup 17256 4 syms_25;
     AGroup 17254 23 syms_193]);
   (450209, 4, [AGroup 5 1 [sym_ppDirective]; AGroup 3 2 syms_5; AGroup 10884 5 syms_150;
     AGroup 10882 22 syms_648]);
   (450248, 4, [AGroup 5 1 [sym_ppDirective]; AGroup 3 2 syms_5; AGroup 10708 5 syms_150;
     AGroup 10706 22 syms_648]);
   (450287, 4, [AGroup 5 1 [sym_ppDirective]; AGroup 3 2 syms_5; AGroup 17550 4 syms_25;
     AGroup 17548 23 syms_193]);
   (450326, 4, [AGroup 5 1 [sym_ppDirective]; AGroup 3 2 syms_5; AGroup 17242 4 syms_25;
     AGroup 17240 23 syms_196]);
   (450365, 10, [AGroup 5 1 [sym_ppDirective]; AGroup 17042 1 [anon_sym_DOT];
     AGroup 20754 1 [anon_sym_LBRACK]; AGroup 20756 1 [anon_sym_LPAREN];
     AGroup 21476 1 [sym_kLt]; AGroup 21617 1 [anon_sym_COMMA]; SGroup 4459 1 [sym_kDot];
     AGroup 3 2 syms_5; AGroup 17046 2 syms_101; AGroup 17036 19 syms_593]);
   (450416, 10, [AGroup 5 1 [sym_ppDirective]; AGroup 17042 1 [anon_sym_DOT];
     AGroup 20754 1 [anon_sym_LBRACK]; AGroup 20756 1 [anon_sym_LPAREN];
     AGroup 21476 1 [sym_kLt]; AGroup 22071 1 [anon_sym_SEMI]; SGroup 5433 1 [sym_kDot];
     AGroup 3 2 syms_5; AGroup 17046 2 syms_101; AGroup 17036 19 syms_593]);
   (450467, 10, [AGroup 5 1 [sym_ppDirective]; AGroup 17042 1 [anon_sym_DOT];
     AGroup 20754 1 [anon_sym_LBRACK]; AGroup 20756 1 [anon_sym_LPAREN];
     AGroup 21476 1 [sym_kLt]; AGroup 22073 1 [anon_sym_SEMI]; SGroup 5433 1 [sym_kDot];
     AGroup 3 2 syms_5; AGroup 17046 2 syms_101; AGroup 17036 19 syms_593]);
   (450518, 10, [AGroup 5 1 [sym_ppDirective]; AGroup 17042 1 [anon_sym_DOT];
     AGroup 20754 1 [anon_sym_LBRACK]; AGroup 20756 1 [anon_sym_LPAREN];
     AGroup 21476 1 [sym_kLt]; AGroup 22075 1 [anon_sym_SEMI]; SGroup 5433 1 [sym_kDot];
     AGroup 3 2 syms_5; AGroup 17046 2 syms_101; AGroup 17036 19 syms_593]);
   (450569, 10, [AGroup 5 1 [sym_ppDirective]; AGroup 17042 1 [anon_sym_DOT];
     AGroup 20754 1 [anon_sym_LBRACK]; AGroup 20756 1 [anon_sym_LPAREN];
     AGroup 21476 1 [sym_kLt]; AGroup 22077 1 [anon_sym_SEMI]; SGroup 5433 1 [sym_kDot];
     AGroup 3 2 syms_5; AGroup 17046 2 syms_101; AGroup 17036 19 syms_593]);
   (450620, 10, [AGroup 5 1 [sym_ppDirective]; AGroup 17042 1 [anon_sym_DOT];
     AGroup 20754 1 [anon_sym_LBRACK]; AGroup 20756 1 [anon_sym_LPAREN];
     AGroup 21476 1 [sym_kLt]; AGroup 22079 1 [anon_sym_SEMI]; SGroup 5433 1 [sym_kDot];
     AGroup 3 2 syms_5; AGroup 17046 2 syms_101; AGroup 17036 19 syms_593]);
   (450671, 10, [AGroup 5 1 [sym_ppDirective]; AGroup 17042 1 [anon_sym_DOT];
     AGroup 20754 1 [anon_sym_LBRACK]; AGroup 20756 1 [anon_sym_LPAREN];
     AGroup 21476 1 [sym_kLt]; AGroup 22081 1 [anon_sym_SEMI]; SGroup 5433 1 [sym_kDot];
     AGroup 3 2 syms_5; AGroup 17046 2 syms_101; AGroup 17036 19 syms_593]);
   (450722, 4, [AGroup 5 1 [sym_ppDirective]; AGroup 3 2 syms_5; AGroup 17256 4 syms_25;
     AGroup 17254 23 syms_196]);
   (450761, 10, [AGroup 5 1 [sym_ppDirective]; AGroup 17042 1 [anon_sym_DOT];
     AGroup 20754 1 [anon_sym_LBRACK]; AGroup 20756 1 [anon_sym_LPAREN];
     AGroup 21476 1 [sym_kLt]; AGroup 22083 1 [anon_sym_SEMI]; SGroup 5433 1 [sym_kDot];
     AGroup 3 2 syms_5; AGroup 17046 2 syms_101; AGroup 17036 19 syms_593]);
   (450812, 4, [AGroup 5 1 [sym_ppDirective]; AGroup 3 2 syms_5; AGroup 18831 4 syms_25;
     AGroup 18829 23 syms_197])
  ].

(** States 9059 to 9158. *)
Definition small_runs_9059 : list small_run :=
  [
   (450851, 10, [AGroup 5 1 [sym_ppDirective]; AGroup 17042 1 [anon_sym_DOT];
     AGroup 20754 1 [anon_sym_LBRACK]; AGroup 20756 1 [anon_sym_LPAREN];
     AGroup 21476 1 [sym_kLt]; AGroup 22085 1 [anon_sym_SEMI]; SGroup 5433 1 [sym_kDot];
     AGroup 3 2 syms_5; AGroup 17046 2 syms_101; AGroup 17036 19 syms_593]);
   (450902, 4, [AGroup 5 1 [sym_ppDirective]; AGroup 3 2 syms_5; AGroup 17358 4 syms_25;
     AGroup 17356 23 syms_197]);
   (450941, 4, [AGroup 5 1 [sym_ppDirective]; AGroup 3 2 syms_5; AGroup 17362 4 syms_25;
     AGroup 17360 23 syms_197]);
   (450980, 4, [AGroup 5 1 [sym_ppDirective]; AGroup 3 2 syms_5; AGroup 11316 4 syms_25;
     AGroup 11311 23 syms_197]);
   (451019, 4, [AGroup 5 1 [sym_ppDirective]; AGroup 3 2 syms_5; AGroup 17372 4 syms_25;
     AGroup 17370 23 syms_197]);
   (451058, 4, [AGroup 5 1 [sym_ppDirective]; AGroup 3 2 syms_5; AGroup 10888 5 syms_150;
     AGroup 10886 22 syms_648]);
   (451097, 4, [AGroup 5 1 [sym_ppDirective]; AGroup 3 2 syms_5; AGroup 10892 5 syms_150;
     AGroup 10890 22 syms_648]);
   (451136, 4, [AGroup 5 1 [sym_ppDirective]; AGroup 3 2 syms_5; AGroup 10896 5 syms_150;
     AGroup 10894 22 syms_648]);
   (451175, 4, [AGroup 5 1 [sym_ppDirective]; AGroup 3 2 syms_5; AGroup 10900 5 syms_150;
     AGroup 10898 22 syms_648]);
   (451214, 4, [AGroup 5 1 [sym_ppDirective]; AGroup 3 2 syms_5; AGroup 10904 5 syms_150;
     AGroup 10902 22 syms_648]);
   (451253, 4, [AGroup 5 1 [sym_ppDirective]; AGroup 3 2 syms_5; AGroup 22089 5 syms_150;
     AGroup 22087 22 syms_648]);
   (451292, 14, [AGroup 20882 1 [sym_kFdiv]; AGroup 20884 1 [sym_kHat]; AGroup 20886 1 [sym_kAs];
     AGroup 20953 1 [sym_kIs]; AGroup 20955 1 [sym_kNot]; AGroup 22091 1 [anon_sym_SEMI];
     AGroup 22093 1 [sym_kRaiseAt]; SGroup 5346 1 [sym__exprIsNot]; AGroup 20764 2 syms_112;
     AGroup 20949 2 syms_83; AGroup 3 3 syms_1; AGroup 20878 4 syms_84; AGroup 20951 5 syms_85;
     AGroup 20880 6 syms_86]);
   (451351, 4, [AGroup 5 1 [sym_ppDirective]; AGroup 3 2 syms_5; AGroup 10722 5 syms_150;
     AGroup 10720 22 syms_648]);
   (451390, 9, [AGroup 5 1 [sym_ppDirective]; AGroup 17042 1 [anon_sym_DOT];
     AGroup 22095 1 [anon_sym_LBRACK]; AGroup 22097 1 [anon_sym_LPAREN];
     AGroup 22099 1 [sym_kLt]; SGroup 4657 1 [sym_kDot]; AGroup 3 2 syms_5;
     AGroup 17046 2 syms_101; AGroup 17036 20 syms_649]);
   (451439, 14, [AGroup 21033 1 [sym_kHat]; AGroup 21039 1 [sym_kFdiv]; AGroup 21041 1 [sym_kAs];
     AGroup 21049 1 [sym_kIs]; AGroup 21051 1 [sym_kNot]; AGroup 22101 1 [anon_sym_SEMI];
     AGroup 22105 1 [sym_kDelayed]; SGroup 4416 1 [sym__exprIsNot]; AGroup 21045 2 syms_83;
     AGroup 22103 2 syms_78; AGroup 3 3 syms_1; AGroup 21035 4 syms_84; AGroup 21047 5 syms_85;
     AGroup 21037 6 syms_86]);
   (451498, 4, [AGroup 5 1 [sym_ppDirective]; AGroup 3 2 syms_5; AGroup 17380 4 syms_25;
     AGroup 17378 23 syms_197]);
   (451537, 4, [AGroup 5 1 [sym_ppDirective]; AGroup 3 2 syms_5; AGroup 10908 5 syms_150;
     AGroup 10906 22 syms_648]);
   (451576, 9, [AGroup 5 1 [sym_ppDirective]; AGroup 17042 1 [anon_sym_DOT];
     AGroup 21861 1 [anon_sym_LBRACK]; AGroup 21863 1 [anon_sym_LPAREN];
     AGroup 22107 1 [sym_kLt]; SGroup 4235 1 [sym_kDot]; AGroup 3 2 syms_5;
     AGroup 17046 2 syms_101; AGroup 17036 20 syms_650]);
   (451625, 4, [AGroup 5 1 [sym_ppDirective]; AGroup 3 2 syms_5; AGroup 17386 4 syms_25;
     AGroup 17384 23 syms_197]);
   (451664, 4, [AGroup 5 1 [sym_ppDirective]; AGroup 3 2 syms_5; AGroup 17398 4 syms_25;
     AGroup 17396 23 syms_197]);
   (451703, 4, [AGroup 5 1 [sym_ppDirective]; AGroup 3 2 syms_5; AGroup 17408 4 syms_25;
     AGroup 17406 23 syms_197]);
   (451742, 4, [AGroup 5 1 [sym_ppDirective]; AGroup 3 2 syms_5; AGroup 17412 4 syms_25;
     AGroup 17410 23 syms_197]);
   (451781, 4, [AGroup 5 1 [sym_ppDirective]; AGroup 3 2 syms_5; AGroup 10912 5 syms_150;
     AGroup 10910 22 syms_648]);
   (451820, 10, [AGroup 5 1 [sym_ppDirective]; AGroup 17042 1 [anon_sym_DOT];
     AGroup 20754 1 [anon_sym_LBRACK]; AGroup 20756 1 [anon_sym_LPAREN];
     AGroup 21476 1 [sym_kLt]; AGroup 22109 1 [anon_sym_SEMI]; SGroup 5433 1 [sym_kDot];
     AGroup 3 2 syms_5; AGroup 17046 2 syms_101; AGroup 17036 19 syms_593]);
   (451871, 4, [AGroup 5 1 [sym_ppDirective]; AGroup 3 2 syms_5; AGroup 10916 5 syms_150;
     AGroup 10914 22 syms_648]);
   (451910, 10, [AGroup 5 1 [sym_ppDirective]; AGroup 17042 1 [anon_sym_DOT];
     AGroup 20754 1 [anon_sym_LBRACK]; AGroup 20756 1 [anon_sym_LPAREN];
     AGroup 21476 1 [sym_kLt]; AGroup 22111 1 [anon_sym_SEMI]; SGroup 5433 1 [sym_kDot];
     AGroup 3 2 syms_5; AGroup 17046 2 syms_101; AGroup 17036 19 syms_593]);
   (451961, 10, [AGroup 5 1 [sym_ppDirective]; AGroup 17042 1 [anon_sym_DOT];
     AGroup 20754 1 [anon_sym_LBRACK]; AGroup 20756 1 [anon_sym_LPAREN];
     AGroup 21476 1 [sym_kLt]; AGroup 22113 1 [anon_sym_SEMI]; SGroup 5433 1 [sym_kDot];
     AGroup 3 2 syms_5; AGroup 17046 2 syms_101; AGroup 17036 19 syms_593]);
   (452012, 4, [AGroup 5 1 [sym_ppDirective]; AGroup 3 2 syms_5; AGroup 10768 5 syms_150;
     AGroup 10766 22 syms_648]);
   (452051, 4, [AGroup 5 1 [sym_ppDirective]; AGroup 3 2 syms_5; AGroup 10848 5 syms_150;
     AGroup 10846 22 syms_648]);
   (452090, 4, [AGroup 5 1 [sym_ppDirective]; AGroup 3 2 syms_5; AGroup 10828 5 syms_150;
     AGroup 10826 22 syms_648]);
   (452129, 4, [AGroup 5 1 [sym_ppDirective]; AGroup 3 2 syms_5; AGroup 10880 5 syms_150;
     AGroup 10878 22 syms_648]);
   (452168, 14, [AGroup 20882 1 [sym_kFdiv]; AGroup 20884 1 [sym_kHat]; AGroup 20886 1 [sym_kAs];
     AGroup 20953 1 [sym_kIs]; AGroup 20955 1 [sym_kNot]; AGroup 22115 1 [anon_sym_SEMI];
     AGroup 22117 1 [sym_kRaiseAt]; SGroup 5346 1 [sym__exprIsNot]; AGroup 20764 2 syms_112;
     AGroup 20949 2 syms_83; AGroup 3 3 syms_1; AGroup 20878 4 syms_84; AGroup 20951 5 syms_85;
     AGroup 20880 6 syms_86]);
   (452227, 4, [AGroup 5 1 [sym_ppDirective]; AGroup 3 2 syms_5; AGroup 10712 5 syms_150;
     AGroup 10710 22 syms_648]);
   (452266, 10, [AGroup 5 1 [sym_ppDirective]; AGroup 17042 1 [anon_sym_DOT];
     AGroup 20754 1 [anon_sym_LBRACK]; AGroup 20756 1 [anon_sym_LPAREN];
     AGroup 21476 1 [sym_kLt]; AGroup 22119 1 [anon_sym_SEMI]; SGroup 5433 1 [sym_kDot];
     AGroup 3 2 syms_5; AGroup 17046 2 syms_101; AGroup 17036 19 syms_593]);
   (452317, 10, [AGroup 5 1 [sym_ppDirective]; AGroup 17042 1 [anon_sym_DOT];
     AGroup 20754 1 [anon_sym_LBRACK]; AGroup 20756 1 [anon_sym_LPAREN];
     AGroup 21476 1 [sym_kLt]; AGroup 22121 1 [anon_sym_SEMI]; SGroup 5433 1 [sym_kDot];
     AGroup 3 2 syms_5; AGroup 17046 2 syms_101; AGroup 17036 19 syms_593]);
   (452368, 10, [AGroup 5 1 [sym_ppDirective]; AGroup 17042 1 [anon_sym_DOT];
     AGroup 20754 1 [anon_sym_LBRACK]; AGroup 20756 1 [anon_sym_LPAREN];
     AGroup 21476 1 [sym_kLt]; AGroup 22123 1 [anon_sym_SEMI]; SGroup 5433 1 [sym_kDot];
     AGroup 3 2 syms_5; AGroup 17046 2 syms_101; AGroup 17036 19 syms_593]);
   (452419, 10, [AGroup 5 1 [sym_ppDirective]; AGroup 17042 1 [anon_sym_DOT];
     AGroup 20754 1 [anon_sym_LBRACK]; AGroup 20756 1 [anon_sym_LPAREN];
     AGroup 21476 1 [sym_kLt]; AGroup 22125 1 [anon_sym_SEMI]; SGroup 5433 1 [sym_kDot];
     AGroup 3 2 syms_5; AGroup 17046 2 syms_101; AGroup 17036 19 syms_593]);
   (452470, 10, [AGroup 5 1 [sym_ppDirective]; AGroup 17042 1 [anon_sym_DOT];
     AGroup 20754 1 [anon_sym_LBRACK]; AGroup 20756 1 [anon_sym_LPAREN];
     AGroup 21476 1 [sym_kLt]; AGroup 22127 1 [anon_sym_SEMI]; SGroup 5433 1 [sym_kDot];
     AGroup 3 2 syms_5; AGroup 17046 2 syms_101; AGroup 17036 19 syms_593]);
   (452521, 10, [AGroup 5 1 [sym_ppDirective]; AGroup 17042 1 [anon_sym_DOT];
     AGroup 20754 1 [anon_sym_LBRACK]; AGroup 20756 1 [anon_sym_LPAREN];
     AGroup 21476 1 [sym_kLt]; AGroup 22129 1 [anon_sym_SEMI]; SGroup 5433 1 [sym_kDot];
     AGroup 3 2 syms_5; AGroup 17046 2 syms_101; AGroup 17036 19 syms_593]);
   (452572, 4, [AGroup 5 1 [sym_ppDirective]; AGroup 3 2 syms_5; AGroup 10734 5 syms_150;
     AGroup 10732 22 syms_648]);
   (452611, 4, [AGroup 5 1 [sym_ppDirective]; AGroup 3 2 syms_5; AGroup 10734 5 syms_150;
     AGroup 10732 22 syms_648]);
   (452650, 13, [AGroup 20868 1 [sym_kHat]; AGroup 20874 1 [sym_kFdiv]; AGroup 20876 1 [sym_kAs];
     AGroup 20892 1 [sym_kIs]; AGroup 20894 1 [sym_kNot]; AGroup 22131 1 [anon_sym_SEMI];
     SGroup 4232 1 [sym__exprIsNot]; AGroup 20888 2 syms_83; AGroup 3 3 syms_1;
     AGroup 20898 3 syms_43; AGroup 20870 4 syms_84; AGroup 20890 5 syms_85;
     AGroup 20872 6 syms_86]);
   (452707, 10, [AGroup 5 1 [sym_ppDirective]; AGroup 17042 1 [anon_sym_DOT];
     AGroup 20754 1 [anon_sym_LBRACK]; AGroup 20756 1 [anon_sym_LPAREN];
     AGroup 21476 1 [sym_kLt]; AGroup 22133 1 [anon_sym_SEMI]; SGroup 5433 1 [sym_kDot];
     AGroup 3 2 syms_5; AGroup 17046 2 syms_101; AGroup 17036 19 syms_593]);
   (452758, 4, [AGroup 5 1 [sym_ppDirective]; AGroup 3 2 syms_5; AGroup 10742 5 syms_150;
     AGroup 10740 22 syms_648]);
   (452797, 4, [AGroup 5 1 [sym_ppDirective]; AGroup 3 2 syms_5; AGroup 18831 4 syms_25;
     AGroup 18829 23 syms_191]);
   (452836, 10, [AGroup 5 1 [sym_ppDirective]; AGroup 17042 1 [anon_sym_DOT];
     AGroup 20754 1 [anon_sym_LBRACK]; AGroup 20756 1 [anon_sym_LPAREN];
     AGroup 21476 1 [sym_kLt]; AGroup 22135 1 [anon_sym_SEMI]; SGroup 5433 1 [sym_kDot];
     AGroup 3 2 syms_5; AGroup 17046 2 syms_101; AGroup 17036 19 syms_593]);
   (452887, 4, [AGroup 5 1 [sym_ppDirective]; AGroup 3 2 syms_5; AGroup 17358 4 syms_25;
     AGroup 17356 23 syms_191]);
   (452926, 4, [AGroup 5 1 [sym_ppDirective]; AGroup 3 2 syms_5; AGroup 17362 4 syms_25;
     AGroup 17360 23 syms_191]);
   (452965, 4, [AGroup 5 1 [sym_ppDirective]; AGroup 3 2 syms_5; AGroup 17550 4 syms_25;
     AGroup 17548 23 syms_197]);
   (453004, 4, [AGroup 5 1 [sym_ppDirective]; AGroup 3 2 syms_5; AGroup 11316 4 syms_25;
     AGroup 11311 23 syms_191]);
   (453043, 4, [AGroup 5 1 [sym_ppDirective]; AGroup 3 2 syms_5; AGroup 10752 5 syms_150;
     AGroup 10750 22 syms_648]);
   (453082, 4, [AGroup 5 1 [sym_ppDirective]; AGroup 3 2 syms_5; AGroup 17372 4 syms_25;
     AGroup 17370 23 syms_191]);
   (453121, 10, [AGroup 5 1 [sym_ppDirective]; AGroup 17042 1 [anon_sym_DOT];
     AGroup 20754 1 [anon_sym_LBRACK]; AGroup 20756 1 [anon_sym_LPAREN];
     AGroup 21476 1 [sym_kLt]; AGroup 22137 1 [anon_sym_SEMI]; SGroup 5433 1 [sym_kDot];
     AGroup 3 2 syms_5; AGroup 17046 2 syms_101; AGroup 17036 19 syms_593]);
   (453172, 4, [AGroup 5 1 [sym_ppDirective]; AGroup 3 2 syms_5; AGroup 17380 4 syms_25;
     AGroup 17378 23 syms_191]);
   (453211, 4, [AGroup 5 1 [sym_ppDirective]; AGroup 3 2 syms_5; AGroup 17386 4 syms_25;
     AGroup 17384 23 syms_191]);
   (453250, 4, [AGroup 5 1 [sym_ppDirective]; AGroup 3 2 syms_5; AGroup 17398 4 syms_25;
     AGroup 17396 23 syms_191]);
   (453289, 4, [AGroup 5 1 [sym_ppDirective]; AGroup 3 2 syms_5; AGroup 17408 4 syms_25;
     AGroup 17406 23 syms_191]);
   (453328, 4, [AGroup 5 1 [sym_ppDirective]; AGroup 3 2 syms_5; AGroup 17412 4 syms_25;
     AGroup 17410 23 syms_191]);
   (453367, 4, [AGroup 5 1 [sym_ppDirective]; AGroup 3 2 syms_5; AGroup 10762 5 syms_150;
     AGroup 10760 22 syms_648]);
   (453406, 14, [AGroup 21033 1 [sym_kHat]; AGroup 21039 1 [sym_kFdiv]; AGroup 21041 1 [sym_kAs];
     AGroup 21049 1 [sym_kIs]; AGroup 21051 1 [sym_kNot]; AGroup 22139 1 [anon_sym_SEMI];
     AGroup 22143 1 [sym_kDelayed]; SGroup 4416 1 [sym__exprIsNot]; AGroup 21045 2 syms_83;
     AGroup 22141 2 syms_78; AGroup 3 3 syms_1; AGroup 21035 4 syms_84; AGroup 21047 5 syms_85;
     AGroup 21037 6 syms_86]);
   (453465, 10, [AGroup 5 1 [sym_ppDirective]; AGroup 17042 1 [anon_sym_DOT];
     AGroup 20754 1 [anon_sym_LBRACK]; AGroup 20756 1 [anon_sym_LPAREN];
     AGroup 21476 1 [sym_kLt]; AGroup 22145 1 [anon_sym_SEMI]; SGroup 5433 1 [sym_kDot];
     AGroup 3 2 syms_5; AGroup 17046 2 syms_101; AGroup 17036 19 syms_593]);
   (453516, 4, [AGroup 5 1 [sym_ppDirective]; AGroup 3 2 syms_5; AGroup 17550 4 syms_25;
     AGroup 17548 23 syms_191]);
   (453555, 4, [AGroup 5 1 [sym_ppDirective]; AGroup 3 2 syms_5; AGroup 10776 5 syms_150;
     AGroup 10774 22 syms_648]);
   (453594, 10, [AGroup 5 1 [sym_ppDirective]; AGroup 17042 1 [anon_sym_DOT];
     AGroup 20754 1 [anon_sym_LBRACK]; AGroup 20756 1 [anon_sym_LPAREN];
     AGroup 21476 1 [sym_kLt]; AGroup 22147 1 [anon_sym_SEMI]; SGroup 5433 1 [sym_kDot];
     AGroup 3 2 syms_5; AGroup 17046 2 syms_101; AGroup 17036 19 syms_593]);
   (453645, 4, [AGroup 5 1 [sym_ppDirective]; AGroup 3 2 syms_5; AGroup 17592 4 syms_25;
     AGroup 17590 23 syms_197]);
   (453684, 4, [AGroup 5 1 [sym_ppDirective]; AGroup 3 2 syms_5; AGroup 17082 4 syms_25;
     AGroup 17080 23 syms_197]);
   (453723, 4, [AGroup 5 1 [sym_ppDirective]; AGroup 3 2 syms_5; AGroup 17096 4 syms_25;
     AGroup 17094 23 syms_197]);
   (453762, 4, [AGroup 5 1 [sym_ppDirective]; AGroup 3 2 syms_5; AGroup 17592 4 syms_25;
     AGroup 17590 23 syms_191]);
   (453801, 4, [AGroup 5 1 [sym_ppDirective]; AGroup 3 2 syms_5; AGroup 17082 4 syms_25;
     AGroup 17080 23 syms_191]);
   (453840, 4, [AGroup 5 1 [sym_ppDirective]; AGroup 3 2 syms_5; AGroup 17108 4 syms_25;
     AGroup 17106 23 syms_197]);
   (453879, 4, [AGroup 5 1 [sym_ppDirective]; AGroup 3 2 syms_5; AGroup 17116 4 syms_25;
     AGroup 17114 23 syms_197]);
   (453918, 4, [AGroup 5 1 [sym_ppDirective]; AGroup 3 2 syms_5; AGroup 17120 4 syms_25;
     AGroup 17118 23 syms_197]);
   (453957, 4, [AGroup 5 1 [sym_ppDirective]; AGroup 3 2 syms_5; AGroup 17096 4 syms_25;
     AGroup 17094 23 syms_191]);
   (453996, 4, [AGroup 5 1 [sym_ppDirective]; AGroup 3 2 syms_5; AGroup 17124 4 syms_25;
     AGroup 17122 23 syms_197]);
   (454035, 4, [AGroup 5 1 [sym_ppDirective]; AGroup 3 2 syms_5; AGroup 17108 4 syms_25;
     AGroup 17106 23 syms_191]);
   (454074, 4, [AGroup 5 1 [sym_ppDirective]; AGroup 3 2 syms_5; AGroup 17116 4 syms_25;
     AGroup 17114 23 syms_191]);
   (454113, 4, [AGroup 5 1 [sym_ppDirective]; AGroup 3 2 syms_5; AGroup 17120 4 syms_25;
     AGroup 17118 23 syms_191]);
   (454152, 4, [AGroup 5 1 [sym_ppDirective]; AGroup 3 2 syms_5; AGroup 17124 4 syms_25;
     AGroup 17122 23 syms_191]);
   (454191, 4, [AGroup 5 1 [sym_ppDirective]; AGroup 3 2 syms_5; AGroup 17128 4 syms_25;
     AGroup 17126 23 syms_197]);
   (454230, 4, [AGroup 5 1 [sym_ppDirective]; AGroup 3 2 syms_5; AGroup 10780 5 syms_150;
     AGroup 10778 22 syms_648]);
   (454269, 4, [AGroup 5 1 [sym_ppDirective]; AGroup 3 2 syms_5; AGroup 17154 4 syms_25;
     AGroup 17152 23 syms_197]);
   (454308, 14, [AGroup 21033 1 [sym_kHat]; AGroup 21039 1 [sym_kFdiv]; AGroup 21041 1 [sym_kAs];
     AGroup 21049 1 [sym_kIs]; AGroup 21051 1 [sym_kNot]; AGroup 22149 1 [anon_sym_SEMI];
     AGroup 22153 1 [sym_kDelayed]; SGroup 4416 1 [sym__exprIsNot]; AGroup 21045 2 syms_83;
     AGroup 22151 2 syms_78; AGroup 3 3 syms_1; AGroup 21035 4 syms_84; AGroup 21047 5 syms_85;
     AGroup 21037 6 syms_86]);
   (454367, 4, [AGroup 5 1 [sym_ppDirective]; AGroup 3 2 syms_5; AGroup 17128 4 syms_25;
     AGroup 17126 23 syms_191]);
   (454406, 4, [AGroup 5 1 [sym_ppDirective]; AGroup 3 2 syms_5; AGroup 17158 4 syms_25;
     AGroup 17156 23 syms_197]);
   (454445, 4, [AGroup 5 1 [sym_ppDirective]; AGroup 3 2 syms_5; AGroup 17154 4 syms_25;
     AGroup 17152 23 syms_191]);
   (454484, 4, [AGroup 5 1 [sym_ppDirective]; AGroup 3 2 syms_5; AGroup 17158 4 syms_25;
     AGroup 17156 23 syms_191]);
   (454523, 4, [AGroup 5 1 [sym_ppDirective]; AGroup 3 2 syms_5; AGroup 17172 4 syms_25;
     AGroup 17170 23 syms_191]);
   (454562, 10, [AGroup 5 1 [sym_ppDirective]; AGroup 17042 1 [anon_sym_DOT];
     AGroup 20754 1 [anon_sym_LBRACK]; AGroup 20756 1 [anon_sym_LPAREN];
     AGroup 21476 1 [sym_kLt]; AGroup 22155 1 [anon_sym_SEMI]; SGroup 5433 1 [sym_kDot];
     AGroup 3 2 syms_5; AGroup 17046 2 syms_101; AGroup 17036 19 syms_593]);
   (454613, 4, [AGroup 5 1 [sym_ppDirective]; AGroup 3 2 syms_5; AGroup 17172 4 syms_25;
     AGroup 17170 23 syms_197]);
   (454652, 4, [AGroup 5 1 [sym_ppDirective]; AGroup 3 2 syms_5; AGroup 10786 5 syms_150;
     AGroup 10784 22 syms_648]);
   (454691, 10, [AGroup 5 1 [sym_ppDirective]; AGroup 17042 1 [anon_sym_DOT];
     AGroup 20754 1 [anon_sym_LBRACK]; AGroup 20756 1 [anon_sym_LPAREN];
     AGroup 21476 1 [sym_kLt]; AGroup 22157 1 [anon_sym_SEMI]; SGroup 5433 1 [sym_kDot];
     AGroup 3 2 syms_5; AGroup 17046 2 syms_101; AGroup 17036 19 syms_593]);
   (454742, 4, [AGroup 5 1 [sym_ppDirective]; AGroup 3 2 syms_5; AGroup 17328 4 syms_25;
     AGroup 17326 23 syms_191]);
   (454781, 4, [AGroup 5 1 [sym_ppDirective]; AGroup 3 2 syms_5; AGroup 17328 4 syms_25;
     AGroup 17326 23 syms_197]);
   (454820, 4, [AGroup 5 1 [sym_ppDirective]; AGroup 3 2 syms_5; AGroup 10852 5 syms_150;
     AGroup 10850 22 syms_648]);
   (454859, 10, [AGroup 5 1 [sym_ppDirective]; AGroup 17042 1 [anon_sym_DOT];
     AGroup 20754 1 [anon_sym_LBRACK]; AGroup 20756 1 [anon_sym_LPAREN];
     AGroup 21476 1 [sym_kLt]; AGroup 22159 1 [anon_sym_SEMI]; SGroup 5433 1 [sym_kDot];
     AGroup 3 2 syms_5; AGroup 17046 2 syms_101; AGroup 17036 19 syms_593]);
   (454910, 4, [AGroup 5 1 [sym_ppDirective]; AGroup 3 2 syms_5; AGroup 17242 4 syms_25;
     AGroup 17240 23 syms_191]);
   (454949, 5, [AGroup 5 1 [sym_ppDirective]; AGroup 22161 1 [sym_kElse]; AGroup 3 2 syms_5;
     AGroup 10722 5 syms_150; AGroup 10720 21 syms_651]);
   (454990, 10, [AGroup 5 1 [sym_ppDirective]; AGroup 17042 1 [anon_sym_DOT];
     AGroup 20754 1 [anon_sym_LBRACK]; AGroup 20756 1 [anon_sym_LPAREN];
     AGroup 21476 1 [sym_kLt]; AGroup 22163 1 [anon_sym_SEMI]; SGroup 5433 1 [sym_kDot];
     AGroup 3 2 syms_5; AGroup 17046 2 syms_101; AGroup 17036 19 syms_593]);
   (455041, 4, [AGroup 5 1 [sym_ppDirective]; AGroup 3 2 syms_5; AGroup 17592 4 syms_25;
     AGroup 17590 23 syms_193]);
   (455080, 10, [AGroup 5 1 [sym_ppDirective]; AGroup 17042 1 [anon_sym_DOT];
     AGroup 20754 1 [anon_sym_LBRACK]; AGroup 20756 1 [anon_sym_LPAREN];
     AGroup 21476 1 [sym_kLt]; AGroup 22165 1 [anon_sym_SEMI]; SGroup 5433 1 [sym_kDot];
     AGroup 3 2 syms_5; AGroup 17046 2 syms_101; AGroup 17036 19 syms_593])
  ].

(** States 9159 to 9258. *)
Definition small_runs_9159 : list small_run :=
  [
   (455131, 4, [AGroup 5 1 [sym_ppDirective]; AGroup 3 2 syms_5; AGroup 17082 4 syms_25;
     AGroup 17080 23 syms_193]);
   (455170, 4, [AGroup 5 1 [sym_ppDirective]; AGroup 3 2 syms_5; AGroup 10794 5 syms_150;
     AGroup 10792 22 syms_648]);
   (455209, 4, [AGroup 5 1 [sym_ppDirective]; AGroup 3 2 syms_5; AGroup 17256 4 syms_25;
     AGroup 17254 23 syms_191]);
   (455248, 10, [AGroup 5 1 [sym_ppDirective]; AGroup 22171 1 [sym_kFdiv]; AGroup 22173 1 [sym_kHat];
     AGroup 22175 1 [sym_kAs]; SGroup 4618 1 [sym__exprIsNot]; AGroup 3 2 syms_5;
     AGroup 17016 3 syms_94; AGroup 22167 4 syms_84; AGroup 22169 6 syms_86;
     AGroup 17014 10 syms_652]);
   (455299, 4, [AGroup 5 1 [sym_ppDirective]; AGroup 3 2 syms_5; AGroup 17096 4 syms_25;
     AGroup 17094 23 syms_193]);
   (455338, 10, [AGroup 5 1 [sym_ppDirective]; AGroup 17042 1 [anon_sym_DOT];
     AGroup 20754 1 [anon_sym_LBRACK]; AGroup 20756 1 [anon_sym_LPAREN];
     AGroup 21476 1 [sym_kLt]; AGroup 22177 1 [anon_sym_SEMI]; SGroup 5433 1 [sym_kDot];
     AGroup 3 2 syms_5; AGroup 17046 2 syms_101; AGroup 17036 19 syms_593]);
   (455389, 10, [AGroup 5 1 [sym_ppDirective]; AGroup 17042 1 [anon_sym_DOT];
     AGroup 20754 1 [anon_sym_LBRACK]; AGroup 20756 1 [anon_sym_LPAREN];
     AGroup 21476 1 [sym_kLt]; AGroup 22179 1 [anon_sym_SEMI]; SGroup 5433 1 [sym_kDot];
     AGroup 3 2 syms_5; AGroup 17046 2 syms_101; AGroup 17036 19 syms_593]);
   (455440, 10, [AGroup 5 1 [sym_ppDirective]; AGroup 17042 1 [anon_sym_DOT];
     AGroup 20754 1 [anon_sym_LBRACK]; AGroup 20756 1 [anon_sym_LPAREN];
     AGroup 21476 1 [sym_kLt]; AGroup 22181 1 [anon_sym_SEMI]; SGroup 5433 1 [sym_kDot];
     AGroup 3 2 syms_5; AGroup 17046 2 syms_101; AGroup 17036 19 syms_593]);
   (455491, 10, [AGroup 5 1 [sym_ppDirective]; AGroup 17042 1 [anon_sym_DOT];
     AGroup 20754 1 [anon_sym_LBRACK]; AGroup 20756 1 [anon_sym_LPAREN];
     AGroup 21476 1 [sym_kLt]; AGroup 22183 1 [anon_sym_SEMI]; SGroup 5433 1 [sym_kDot];
     AGroup 3 2 syms_5; AGroup 17046 2 syms_101; AGroup 17036 19 syms_593]);
   (455542, 4, [AGroup 5 1 [sym_ppDirective]; AGroup 3 2 syms_5; AGroup 17108 4 syms_25;
     AGroup 17106 23 syms_193]);
   (455581, 10, [AGroup 5 1 [sym_ppDirective]; AGroup 17042 1 [anon_sym_DOT];
     AGroup 20754 1 [anon_sym_LBRACK]; AGroup 20756 1 [anon_sym_LPAREN];
     AGroup 21476 1 [sym_kLt]; AGroup 22185 1 [anon_sym_SEMI]; SGroup 5433 1 [sym_kDot];
     AGroup 3 2 syms_5; AGroup 17046 2 syms_101; AGroup 17036 19 syms_593]);
   (455632, 10, [AGroup 5 1 [sym_ppDirective]; AGroup 17042 1 [anon_sym_DOT];
     AGroup 20754 1 [anon_sym_LBRACK]; AGroup 20756 1 [anon_sym_LPAREN];
     AGroup 21476 1 [sym_kLt]; AGroup 22187 1 [anon_sym_SEMI]; SGroup 5433 1 [sym_kDot];
     AGroup 3 2 syms_5; AGroup 17046 2 syms_101; AGroup 17036 19 syms_593]);
   (455683, 4, [AGroup 5 1 [sym_ppDirective]; AGroup 3 2 syms_5; AGroup 17116 4 syms_25;
     AGroup 17114 23 syms_193]);
   (455722, 4, [AGroup 5 1 [sym_ppDirective]; AGroup 3 2 syms_5; AGroup 17120 4 syms_25;
     AGroup 17118 23 syms_193]);
   (455761, 4, [AGroup 5 1 [sym_ppDirective]; AGroup 3 2 syms_5; AGroup 10804 5 syms_150;
     AGroup 10802 22 syms_648]);
   (455800, 4, [AGroup 5 1 [sym_ppDirective]; AGroup 3 2 syms_5; AGroup 17256 4 syms_25;
     AGroup 17254 23 syms_197]);
   (455839, 10, [AGroup 5 1 [sym_ppDirective]; AGroup 17042 1 [anon_sym_DOT];
     AGroup 20754 1 [anon_sym_LBRACK]; AGroup 20756 1 [anon_sym_LPAREN];
     AGroup 21476 1 [sym_kLt]; AGroup 22189 1 [anon_sym_SEMI]; SGroup 5433 1 [sym_kDot];
     AGroup 3 2 syms_5; AGroup 17046 2 syms_101; AGroup 17036 19 syms_593]);
   (455890, 4, [AGroup 5 1 [sym_ppDirective]; AGroup 3 2 syms_5; AGroup 10808 5 syms_150;
     AGroup 10806 22 syms_648]);
   (455929, 4, [AGroup 5 1 [sym_ppDirective]; AGroup 3 2 syms_5; AGroup 10812 5 syms_150;
     AGroup 10810 22 syms_648]);
   (455968, 14, [AGroup 21149 1 [sym_kHat]; AGroup 21157 1 [sym_kFdiv]; AGroup 21159 1 [sym_kAs];
     AGroup 21175 1 [sym_kIs]; AGroup 21177 1 [sym_kNot]; AGroup 22191 1 [anon_sym_SEMI];
     AGroup 22193 1 [sym_kRaiseAt]; SGroup 4914 1 [sym__exprIsNot]; AGroup 20764 2 syms_109;
     AGroup 21171 2 syms_83; AGroup 3 3 syms_1; AGroup 21153 4 syms_84; AGroup 21173 5 syms_85;
     AGroup 21155 6 syms_86]);
   (456027, 4, [AGroup 5 1 [sym_ppDirective]; AGroup 3 2 syms_5; AGroup 10856 5 syms_150;
     AGroup 10854 22 syms_648]);
   (456066, 4, [AGroup 5 1 [sym_ppDirective]; AGroup 3 2 syms_5; AGroup 17328 4 syms_25;
     AGroup 17326 23 syms_204]);
   (456105, 4, [AGroup 5 1 [sym_ppDirective]; AGroup 3 2 syms_5; AGroup 18831 4 syms_25;
     AGroup 18829 23 syms_204]);
   (456144, 4, [AGroup 5 1 [sym_ppDirective]; AGroup 3 2 syms_5; AGroup 10860 5 syms_150;
     AGroup 10858 22 syms_648]);
   (456183, 14, [AGroup 21033 1 [sym_kHat]; AGroup 21039 1 [sym_kFdiv]; AGroup 21041 1 [sym_kAs];
     AGroup 21049 1 [sym_kIs]; AGroup 21051 1 [sym_kNot]; AGroup 22195 1 [anon_sym_SEMI];
     AGroup 22199 1 [sym_kDelayed]; SGroup 4416 1 [sym__exprIsNot]; AGroup 21045 2 syms_83;
     AGroup 22197 2 syms_78; AGroup 3 3 syms_1; AGroup 21035 4 syms_84; AGroup 21047 5 syms_85;
     AGroup 21037 6 syms_86]);
   (456242, 4, [AGroup 5 1 [sym_ppDirective]; AGroup 3 2 syms_5; AGroup 17124 4 syms_25;
     AGroup 17122 23 syms_193]);
   (456281, 4, [AGroup 5 1 [sym_ppDirective]; AGroup 3 2 syms_5; AGroup 17128 4 syms_25;
     AGroup 17126 23 syms_193]);
   (456320, 4, [AGroup 5 1 [sym_ppDirective]; AGroup 3 2 syms_5; AGroup 17358 4 syms_25;
     AGroup 17356 23 syms_204]);
   (456359, 4, [AGroup 5 1 [sym_ppDirective]; AGroup 3 2 syms_5; AGroup 17154 4 syms_25;
     AGroup 17152 23 syms_193]);
   (456398, 4, [AGroup 5 1 [sym_ppDirective]; AGroup 3 2 syms_5; AGroup 17158 4 syms_25;
     AGroup 17156 23 syms_193]);
   (456437, 4, [AGroup 5 1 [sym_ppDirective]; AGroup 3 2 syms_5; AGroup 17362 4 syms_25;
     AGroup 17360 23 syms_204]);
   (456476, 5, [AGroup 5 1 [sym_ppDirective]; SGroup 4223 1 [sym__exprIsNot]; AGroup 3 2 syms_5;
     AGroup 17032 4 syms_25; AGroup 17030 22 syms_653]);
   (456517, 4, [AGroup 5 1 [sym_ppDirective]; AGroup 3 2 syms_5; AGroup 11316 4 syms_25;
     AGroup 11311 23 syms_204]);
   (456556, 4, [AGroup 5 1 [sym_ppDirective]; AGroup 3 2 syms_5; AGroup 17172 4 syms_25;
     AGroup 17170 23 syms_193]);
   (456595, 14, [AGroup 21149 1 [sym_kHat]; AGroup 21157 1 [sym_kFdiv]; AGroup 21159 1 [sym_kAs];
     AGroup 21175 1 [sym_kIs]; AGroup 21177 1 [sym_kNot]; AGroup 22201 1 [anon_sym_SEMI];
     AGroup 22203 1 [sym_kRaiseAt]; SGroup 4914 1 [sym__exprIsNot]; AGroup 20764 2 syms_109;
     AGroup 21171 2 syms_83; AGroup 3 3 syms_1; AGroup 21153 4 syms_84; AGroup 21173 5 syms_85;
     AGroup 21155 6 syms_86]);
   (456654, 4, [AGroup 5 1 [sym_ppDirective]; AGroup 3 2 syms_5; AGroup 18831 4 syms_25;
     AGroup 18829 23 syms_193]);
   (456693, 4, [AGroup 5 1 [sym_ppDirective]; AGroup 3 2 syms_5; AGroup 10840 5 syms_150;
     AGroup 10838 22 syms_648]);
   (456732, 4, [AGroup 5 1 [sym_ppDirective]; AGroup 3 2 syms_5; AGroup 17372 4 syms_25;
     AGroup 17370 23 syms_204]);
   (456771, 13, [AGroup 20868 1 [sym_kHat]; AGroup 20874 1 [sym_kFdiv]; AGroup 20876 1 [sym_kAs];
     AGroup 20892 1 [sym_kIs]; AGroup 20894 1 [sym_kNot]; AGroup 22205 1 [anon_sym_SEMI];
     SGroup 4232 1 [sym__exprIsNot]; AGroup 20888 2 syms_83; AGroup 3 3 syms_1;
     AGroup 20914 3 syms_43; AGroup 20870 4 syms_84; AGroup 20890 5 syms_85;
     AGroup 20872 6 syms_86]);
   (456828, 13, [AGroup 20868 1 [sym_kHat]; AGroup 20874 1 [sym_kFdiv]; AGroup 20876 1 [sym_kAs];
     AGroup 20892 1 [sym_kIs]; AGroup 20894 1 [sym_kNot]; AGroup 22207 1 [anon_sym_SEMI];
     SGroup 4232 1 [sym__exprIsNot]; AGroup 20888 2 syms_83; AGroup 3 3 syms_1;
     AGroup 20933 3 syms_43; AGroup 20870 4 syms_84; AGroup 20890 5 syms_85;
     AGroup 20872 6 syms_86]);
   (456885, 10, [AGroup 5 1 [sym_ppDirective]; AGroup 17042 1 [anon_sym_DOT];
     AGroup 20754 1 [anon_sym_LBRACK]; AGroup 20756 1 [anon_sym_LPAREN];
     AGroup 21476 1 [sym_kLt]; AGroup 22209 1 [anon_sym_SEMI]; SGroup 5433 1 [sym_kDot];
     AGroup 3 2 syms_5; AGroup 17046 2 syms_101; AGroup 17036 19 syms_593]);
   (456936, 10, [AGroup 5 1 [sym_ppDirective]; AGroup 17042 1 [anon_sym_DOT];
     AGroup 20754 1 [anon_sym_LBRACK]; AGroup 20756 1 [anon_sym_LPAREN];
     AGroup 21476 1 [sym_kLt]; AGroup 22211 1 [anon_sym_SEMI]; SGroup 5433 1 [sym_kDot];
     AGroup 3 2 syms_5; AGroup 17046 2 syms_101; AGroup 17036 19 syms_593]);
   (456987, 10, [AGroup 5 1 [sym_ppDirective]; AGroup 17042 1 [anon_sym_DOT];
     AGroup 20754 1 [anon_sym_LBRACK]; AGroup 20756 1 [anon_sym_LPAREN];
     AGroup 21476 1 [sym_kLt]; AGroup 22213 1 [anon_sym_SEMI]; SGroup 5433 1 [sym_kDot];
     AGroup 3 2 syms_5; AGroup 17046 2 syms_101; AGroup 17036 19 syms_593]);
   (457038, 10, [AGroup 5 1 [sym_ppDirective]; AGroup 17042 1 [anon_sym_DOT];
     AGroup 20754 1 [anon_sym_LBRACK]; AGroup 20756 1 [anon_sym_LPAREN];
     AGroup 21476 1 [sym_kLt]; AGroup 22215 1 [anon_sym_SEMI]; SGroup 5433 1 [sym_kDot];
     AGroup 3 2 syms_5; AGroup 17046 2 syms_101; AGroup 17036 19 syms_593]);
   (457089, 10, [AGroup 5 1 [sym_ppDirective]; AGroup 17042 1 [anon_sym_DOT];
     AGroup 20754 1 [anon_sym_LBRACK]; AGroup 20756 1 [anon_sym_LPAREN];
     AGroup 21476 1 [sym_kLt]; AGroup 22217 1 [anon_sym_SEMI]; SGroup 5433 1 [sym_kDot];
     AGroup 3 2 syms_5; AGroup 17046 2 syms_101; AGroup 17036 19 syms_593]);
   (457140, 10, [AGroup 5 1 [sym_ppDirective]; AGroup 17042 1 [anon_sym_DOT];
     AGroup 20754 1 [anon_sym_LBRACK]; AGroup 20756 1 [anon_sym_LPAREN];
     AGroup 21476 1 [sym_kLt]; AGroup 22219 1 [anon_sym_SEMI]; SGroup 5433 1 [sym_kDot];
     AGroup 3 2 syms_5; AGroup 17046 2 syms_101; AGroup 17036 19 syms_593]);
   (457191, 12, [AGroup 20868 1 [sym_kHat]; AGroup 20874 1 [sym_kFdiv]; AGroup 20876 1 [sym_kAs];
     AGroup 20892 1 [sym_kIs]; AGroup 20894 1 [sym_kNot]; SGroup 4232 1 [sym__exprIsNot];
     AGroup 20888 2 syms_83; AGroup 3 3 syms_1; AGroup 20870 4 syms_84; AGroup 21029 4 syms_654;
     AGroup 20890 5 syms_85; AGroup 20872 6 syms_86]);
   (457246, 10, [AGroup 5 1 [sym_ppDirective]; AGroup 17042 1 [anon_sym_DOT];
     AGroup 20754 1 [anon_sym_LBRACK]; AGroup 20756 1 [anon_sym_LPAREN];
     AGroup 21476 1 [sym_kLt]; AGroup 22221 1 [anon_sym_SEMI]; SGroup 5433 1 [sym_kDot];
     AGroup 3 2 syms_5; AGroup 17046 2 syms_101; AGroup 17036 19 syms_593]);
   (457297, 10, [AGroup 5 1 [sym_ppDirective]; AGroup 17042 1 [anon_sym_DOT];
     AGroup 20754 1 [anon_sym_LBRACK]; AGroup 20756 1 [anon_sym_LPAREN];
     AGroup 21476 1 [sym_kLt]; AGroup 22223 1 [anon_sym_SEMI]; SGroup 5433 1 [sym_kDot];
     AGroup 3 2 syms_5; AGroup 17046 2 syms_101; AGroup 17036 19 syms_593]);
   (457348, 4, [AGroup 5 1 [sym_ppDirective]; AGroup 3 2 syms_5; AGroup 17380 4 syms_25;
     AGroup 17378 23 syms_204]);
   (457387, 4, [AGroup 5 1 [sym_ppDirective]; AGroup 3 2 syms_5; AGroup 17386 4 syms_25;
     AGroup 17384 23 syms_204]);
   (457426, 4, [AGroup 5 1 [sym_ppDirective]; AGroup 3 2 syms_5; AGroup 18831 4 syms_25;
     AGroup 18829 23 syms_205]);
   (457465, 4, [AGroup 5 1 [sym_ppDirective]; AGroup 3 2 syms_5; AGroup 17358 4 syms_25;
     AGroup 17356 23 syms_205]);
   (457504, 4, [AGroup 5 1 [sym_ppDirective]; AGroup 3 2 syms_5; AGroup 17362 4 syms_25;
     AGroup 17360 23 syms_205]);
   (457543, 13, [AGroup 20916 1 [sym_kHat]; AGroup 20922 1 [sym_kFdiv]; AGroup 20924 1 [sym_kAs];
     AGroup 20939 1 [sym_kIs]; AGroup 20941 1 [sym_kNot]; AGroup 22225 1 [anon_sym_SEMI];
     SGroup 4260 1 [sym__exprIsNot]; AGroup 20935 2 syms_83; AGroup 3 3 syms_1;
     AGroup 20898 3 syms_79; AGroup 20918 4 syms_84; AGroup 20937 5 syms_85;
     AGroup 20920 6 syms_86]);
   (457600, 4, [AGroup 5 1 [sym_ppDirective]; AGroup 3 2 syms_5; AGroup 11316 4 syms_25;
     AGroup 11311 23 syms_205]);
   (457639, 4, [AGroup 5 1 [sym_ppDirective]; AGroup 3 2 syms_5; AGroup 17398 4 syms_25;
     AGroup 17396 23 syms_204]);
   (457678, 4, [AGroup 5 1 [sym_ppDirective]; AGroup 3 2 syms_5; AGroup 17372 4 syms_25;
     AGroup 17370 23 syms_205]);
   (457717, 4, [AGroup 5 1 [sym_ppDirective]; AGroup 3 2 syms_5; AGroup 17380 4 syms_25;
     AGroup 17378 23 syms_205]);
   (457756, 4, [AGroup 5 1 [sym_ppDirective]; AGroup 3 2 syms_5; AGroup 17386 4 syms_25;
     AGroup 17384 23 syms_205]);
   (457795, 4, [AGroup 5 1 [sym_ppDirective]; AGroup 3 2 syms_5; AGroup 17398 4 syms_25;
     AGroup 17396 23 syms_205]);
   (457834, 4, [AGroup 5 1 [sym_ppDirective]; AGroup 3 2 syms_5; AGroup 17408 4 syms_25;
     AGroup 17406 23 syms_205]);
   (457873, 4, [AGroup 5 1 [sym_ppDirective]; AGroup 3 2 syms_5; AGroup 17412 4 syms_25;
     AGroup 17410 23 syms_205]);
   (457912, 5, [AGroup 5 1 [sym_ppDirective]; AGroup 22227 1 [sym_kElse]; AGroup 3 2 syms_5;
     AGroup 10722 5 syms_150; AGroup 10720 21 syms_651]);
   (457953, 12, [AGroup 20916 1 [sym_kHat]; AGroup 20922 1 [sym_kFdiv]; AGroup 20924 1 [sym_kAs];
     AGroup 20939 1 [sym_kIs]; AGroup 20941 1 [sym_kNot]; SGroup 4260 1 [sym__exprIsNot];
     AGroup 20935 2 syms_83; AGroup 3 3 syms_1; AGroup 20918 4 syms_84; AGroup 21029 4 syms_647;
     AGroup 20937 5 syms_85; AGroup 20920 6 syms_86]);
   (458008, 4, [AGroup 5 1 [sym_ppDirective]; AGroup 3 2 syms_5; AGroup 17408 4 syms_25;
     AGroup 17406 23 syms_204]);
   (458047, 4, [AGroup 5 1 [sym_ppDirective]; AGroup 3 2 syms_5; AGroup 17550 4 syms_25;
     AGroup 17548 23 syms_205]);
   (458086, 4, [AGroup 5 1 [sym_ppDirective]; AGroup 3 2 syms_5; AGroup 17412 4 syms_25;
     AGroup 17410 23 syms_204]);
   (458125, 12, [AGroup 20868 1 [sym_kHat]; AGroup 20874 1 [sym_kFdiv]; AGroup 20876 1 [sym_kAs];
     AGroup 20892 1 [sym_kIs]; AGroup 20894 1 [sym_kNot]; SGroup 4232 1 [sym__exprIsNot];
     AGroup 20888 2 syms_83; AGroup 3 3 syms_1; AGroup 20870 4 syms_84; AGroup 21031 4 syms_654;
     AGroup 20890 5 syms_85; AGroup 20872 6 syms_86]);
   (458180, 6, [AGroup 5 1 [sym_ppDirective]; AGroup 21867 1 [sym_kHat]; SGroup 4223 1 [sym__exprIsNot];
     AGroup 3 2 syms_5; AGroup 16914 4 syms_25; AGroup 16912 21 syms_655]);
   (458223, 4, [AGroup 5 1 [sym_ppDirective]; AGroup 3 2 syms_5; AGroup 17592 4 syms_25;
     AGroup 17590 23 syms_205]);
   (458262, 4, [AGroup 5 1 [sym_ppDirective]; AGroup 3 2 syms_5; AGroup 17082 4 syms_25;
     AGroup 17080 23 syms_205]);
   (458301, 4, [AGroup 5 1 [sym_ppDirective]; AGroup 3 2 syms_5; AGroup 17096 4 syms_25;
     AGroup 17094 23 syms_205]);
   (458340, 4, [AGroup 5 1 [sym_ppDirective]; AGroup 3 2 syms_5; AGroup 17108 4 syms_25;
     AGroup 17106 23 syms_205]);
   (458379, 6, [AGroup 5 1 [sym_ppDirective]; AGroup 21867 1 [sym_kHat]; SGroup 4223 1 [sym__exprIsNot];
     AGroup 3 2 syms_5; AGroup 16904 4 syms_25; AGroup 16902 21 syms_655]);
   (458422, 4, [AGroup 5 1 [sym_ppDirective]; AGroup 3 2 syms_5; AGroup 17116 4 syms_25;
     AGroup 17114 23 syms_205]);
   (458461, 4, [AGroup 5 1 [sym_ppDirective]; AGroup 3 2 syms_5; AGroup 17120 4 syms_25;
     AGroup 17118 23 syms_205]);
   (458500, 4, [AGroup 5 1 [sym_ppDirective]; AGroup 3 2 syms_5; AGroup 17124 4 syms_25;
     AGroup 17122 23 syms_205]);
   (458539, 10, [AGroup 5 1 [sym_ppDirective]; AGroup 21867 1 [sym_kHat]; AGroup 22233 1 [sym_kFdiv];
     AGroup 22235 1 [sym_kAs]; SGroup 4223 1 [sym__exprIsNot]; AGroup 3 2 syms_5;
     AGroup 16914 3 syms_94; AGroup 22229 4 syms_84; AGroup 22231 6 syms_86;
     AGroup 16912 10 syms_656]);
   (458590, 4, [AGroup 5 1 [sym_ppDirective]; AGroup 3 2 syms_5; AGroup 17128 4 syms_25;
     AGroup 17126 23 syms_205]);
   (458629, 4, [AGroup 5 1 [sym_ppDirective]; AGroup 3 2 syms_5; AGroup 17154 4 syms_25;
     AGroup 17152 23 syms_205]);
   (458668, 14, [AGroup 21033 1 [sym_kHat]; AGroup 21039 1 [sym_kFdiv]; AGroup 21041 1 [sym_kAs];
     AGroup 21049 1 [sym_kIs]; AGroup 21051 1 [sym_kNot]; AGroup 22237 1 [anon_sym_SEMI];
     AGroup 22241 1 [sym_kDelayed]; SGroup 4416 1 [sym__exprIsNot]; AGroup 21045 2 syms_83;
     AGroup 22239 2 syms_78; AGroup 3 3 syms_1; AGroup 21035 4 syms_84; AGroup 21047 5 syms_85;
     AGroup 21037 6 syms_86]);
   (458727, 4, [AGroup 5 1 [sym_ppDirective]; AGroup 3 2 syms_5; AGroup 17158 4 syms_25;
     AGroup 17156 23 syms_205]);
   (458766, 9, [AGroup 5 1 [sym_ppDirective]; AGroup 21867 1 [sym_kHat]; AGroup 22233 1 [sym_kFdiv];
     AGroup 22235 1 [sym_kAs]; SGroup 4223 1 [sym__exprIsNot]; AGroup 3 2 syms_5;
     AGroup 16914 3 syms_94; AGroup 22231 6 syms_86; AGroup 16912 14 syms_657]);
   (458815, 4, [AGroup 5 1 [sym_ppDirective]; AGroup 3 2 syms_5; AGroup 17172 4 syms_25;
     AGroup 17170 23 syms_205]);
   (458854, 4, [AGroup 5 1 [sym_ppDirective]; AGroup 3 2 syms_5; AGroup 17550 4 syms_25;
     AGroup 17548 23 syms_204]);
   (458893, 7, [AGroup 5 1 [sym_ppDirective]; AGroup 16974 1 [anon_sym_COMMA];
     AGroup 16978 1 [anon_sym_DOT]; AGroup 3 2 syms_5; AGroup 16976 2 syms_97;
     AGroup 16981 2 syms_83; AGroup 16972 21 syms_658]);
   (458938, 5, [AGroup 5 1 [sym_ppDirective]; SGroup 4235 1 [sym_kDot]; AGroup 3 2 syms_5;
     AGroup 16970 4 syms_25; AGroup 16968 22 syms_653]);
   (458979, 4, [AGroup 5 1 [sym_ppDirective]; AGroup 3 2 syms_5; AGroup 17328 4 syms_25;
     AGroup 17326 23 syms_205]);
   (459018, 4, [AGroup 5 1 [sym_ppDirective]; AGroup 3 2 syms_5; AGroup 18831 4 syms_25;
     AGroup 18829 23 syms_198]);
   (459057, 4, [AGroup 5 1 [sym_ppDirective]; AGroup 3 2 syms_5; AGroup 17358 4 syms_25;
     AGroup 17356 23 syms_198]);
   (459096, 4, [AGroup 5 1 [sym_ppDirective]; AGroup 3 2 syms_5; AGroup 17362 4 syms_25;
     AGroup 17360 23 syms_198]);
   (459135, 4, [AGroup 5 1 [sym_ppDirective]; AGroup 3 2 syms_5; AGroup 11316 4 syms_25;
     AGroup 11311 23 syms_198]);
   (459174, 4, [AGroup 5 1 [sym_ppDirective]; AGroup 3 2 syms_5; AGroup 17358 4 syms_25;
     AGroup 17356 23 syms_193]);
   (459213, 4, [AGroup 5 1 [sym_ppDirective]; AGroup 3 2 syms_5; AGroup 17372 4 syms_25;
     AGroup 17370 23 syms_198]);
   (459252, 4, [AGroup 5 1 [sym_ppDirective]; AGroup 3 2 syms_5; AGroup 17242 4 syms_25;
     AGroup 17240 23 syms_205]);
   (459291, 14, [AGroup 21083 1 [sym_kHat]; AGroup 21089 1 [sym_kFdiv]; AGroup 21091 1 [sym_kAs];
     AGroup 21097 1 [sym_kIs]; AGroup 21099 1 [sym_kNot]; AGroup 21727 1 [anon_sym_SEMI];
     AGroup 22243 1 [sym_kRaiseAt]; SGroup 4537 1 [sym__exprIsNot]; AGroup 20764 2 syms_110;
     AGroup 21093 2 syms_83; AGroup 3 3 syms_1; AGroup 21085 4 syms_84; AGroup 21095 5 syms_85;
     AGroup 21087 6 syms_86]);
   (459350, 4, [AGroup 5 1 [sym_ppDirective]; AGroup 3 2 syms_5; AGroup 17380 4 syms_25;
     AGroup 17378 23 syms_198]);
   (459389, 4, [AGroup 5 1 [sym_ppDirective]; AGroup 3 2 syms_5; AGroup 17386 4 syms_25;
     AGroup 17384 23 syms_198]);
   (459428, 13, [AGroup 20916 1 [sym_kHat]; AGroup 20922 1 [sym_kFdiv]; AGroup 20924 1 [sym_kAs];
     AGroup 20939 1 [sym_kIs]; AGroup 20941 1 [sym_kNot]; AGroup 22245 1 [anon_sym_SEMI];
     SGroup 4260 1 [sym__exprIsNot]; AGroup 20935 2 syms_83; AGroup 3 3 syms_1;
     AGroup 20898 3 syms_79; AGroup 20918 4 syms_84; AGroup 20937 5 syms_85;
     AGroup 20920 6 syms_86])
  ].

(** States 9259 to 9358. *)
Definition small_runs_9259 : list small_run :=
  [
   (459485, 4, [AGroup 5 1 [sym_ppDirective]; AGroup 3 2 syms_5; AGroup 17398 4 syms_25;
     AGroup 17396 23 syms_198]);
   (459524, 4, [AGroup 5 1 [sym_ppDirective]; AGroup 3 2 syms_5; AGroup 17408 4 syms_25;
     AGroup 17406 23 syms_198]);
   (459563, 4, [AGroup 5 1 [sym_ppDirective]; AGroup 3 2 syms_5; AGroup 17412 4 syms_25;
     AGroup 17410 23 syms_198]);
   (459602, 10, [AGroup 5 1 [sym_ppDirective]; AGroup 17042 1 [anon_sym_DOT];
     AGroup 20754 1 [anon_sym_LBRACK]; AGroup 20756 1 [anon_sym_LPAREN];
     AGroup 21476 1 [sym_kLt]; AGroup 22247 1 [anon_sym_SEMI]; SGroup 5433 1 [sym_kDot];
     AGroup 3 2 syms_5; AGroup 17046 2 syms_101; AGroup 17036 19 syms_593]);
   (459653, 10, [AGroup 5 1 [sym_ppDirective]; AGroup 17042 1 [anon_sym_DOT];
     AGroup 20754 1 [anon_sym_LBRACK]; AGroup 20756 1 [anon_sym_LPAREN];
     AGroup 21476 1 [sym_kLt]; AGroup 22249 1 [anon_sym_SEMI]; SGroup 5433 1 [sym_kDot];
     AGroup 3 2 syms_5; AGroup 17046 2 syms_101; AGroup 17036 19 syms_593]);
   (459704, 4, [AGroup 5 1 [sym_ppDirective]; AGroup 3 2 syms_5; AGroup 17592 4 syms_25;
     AGroup 17590 23 syms_204]);
   (459743, 4, [AGroup 5 1 [sym_ppDirective]; AGroup 3 2 syms_5; AGroup 17082 4 syms_25;
     AGroup 17080 23 syms_204]);
   (459782, 4, [AGroup 5 1 [sym_ppDirective]; AGroup 3 2 syms_5; AGroup 17550 4 syms_25;
     AGroup 17548 23 syms_198]);
   (459821, 4, [AGroup 5 1 [sym_ppDirective]; AGroup 3 2 syms_5; AGroup 17328 4 syms_25;
     AGroup 17326 23 syms_193]);
   (459860, 10, [AGroup 5 1 [sym_ppDirective]; AGroup 17042 1 [anon_sym_DOT];
     AGroup 20754 1 [anon_sym_LBRACK]; AGroup 20756 1 [anon_sym_LPAREN];
     AGroup 21476 1 [sym_kLt]; AGroup 22251 1 [anon_sym_SEMI]; SGroup 5433 1 [sym_kDot];
     AGroup 3 2 syms_5; AGroup 17046 2 syms_101; AGroup 17036 19 syms_593]);
   (459911, 10, [AGroup 5 1 [sym_ppDirective]; AGroup 17042 1 [anon_sym_DOT];
     AGroup 20754 1 [anon_sym_LBRACK]; AGroup 20756 1 [anon_sym_LPAREN];
     AGroup 21476 1 [sym_kLt]; AGroup 22253 1 [anon_sym_SEMI]; SGroup 5433 1 [sym_kDot];
     AGroup 3 2 syms_5; AGroup 17046 2 syms_101; AGroup 17036 19 syms_593]);
   (459962, 4, [AGroup 5 1 [sym_ppDirective]; AGroup 3 2 syms_5; AGroup 17256 4 syms_25;
     AGroup 17254 23 syms_205]);
   (460001, 10, [AGroup 5 1 [sym_ppDirective]; AGroup 17042 1 [anon_sym_DOT];
     AGroup 20754 1 [anon_sym_LBRACK]; AGroup 20756 1 [anon_sym_LPAREN];
     AGroup 21476 1 [sym_kLt]; AGroup 22255 1 [anon_sym_SEMI]; SGroup 5433 1 [sym_kDot];
     AGroup 3 2 syms_5; AGroup 17046 2 syms_101; AGroup 17036 19 syms_593]);
   (460052, 4, [AGroup 5 1 [sym_ppDirective]; AGroup 3 2 syms_5; AGroup 17592 4 syms_25;
     AGroup 17590 23 syms_198]);
   (460091, 4, [AGroup 5 1 [sym_ppDirective]; AGroup 3 2 syms_5; AGroup 17082 4 syms_25;
     AGroup 17080 23 syms_198]);
   (460130, 13, [AGroup 20916 1 [sym_kHat]; AGroup 20922 1 [sym_kFdiv]; AGroup 20924 1 [sym_kAs];
     AGroup 20939 1 [sym_kIs]; AGroup 20941 1 [sym_kNot]; AGroup 22257 1 [anon_sym_SEMI];
     SGroup 4260 1 [sym__exprIsNot]; AGroup 20935 2 syms_83; AGroup 3 3 syms_1;
     AGroup 20914 3 syms_79; AGroup 20918 4 syms_84; AGroup 20937 5 syms_85;
     AGroup 20920 6 syms_86]);
   (460187, 13, [AGroup 20916 1 [sym_kHat]; AGroup 20922 1 [sym_kFdiv]; AGroup 20924 1 [sym_kAs];
     AGroup 20939 1 [sym_kIs]; AGroup 20941 1 [sym_kNot]; AGroup 22259 1 [anon_sym_SEMI];
     SGroup 4260 1 [sym__exprIsNot]; AGroup 20935 2 syms_83; AGroup 3 3 syms_1;
     AGroup 20933 3 syms_79; AGroup 20918 4 syms_84; AGroup 20937 5 syms_85;
     AGroup 20920 6 syms_86]);
   (460244, 4, [AGroup 5 1 [sym_ppDirective]; AGroup 3 2 syms_5; AGroup 17096 4 syms_25;
     AGroup 17094 23 syms_198]);
   (460283, 4, [AGroup 5 1 [sym_ppDirective]; AGroup 3 2 syms_5; AGroup 17108 4 syms_25;
     AGroup 17106 23 syms_198]);
   (460322, 10, [AGroup 5 1 [sym_ppDirective]; AGroup 17042 1 [anon_sym_DOT];
     AGroup 20754 1 [anon_sym_LBRACK]; AGroup 20756 1 [anon_sym_LPAREN];
     AGroup 21476 1 [sym_kLt]; AGroup 22261 1 [anon_sym_SEMI]; SGroup 5433 1 [sym_kDot];
     AGroup 3 2 syms_5; AGroup 17046 2 syms_101; AGroup 17036 19 syms_593]);
   (460373, 4, [AGroup 5 1 [sym_ppDirective]; AGroup 3 2 syms_5; AGroup 17116 4 syms_25;
     AGroup 17114 23 syms_198]);
   (460412, 4, [AGroup 5 1 [sym_ppDirective]; AGroup 3 2 syms_5; AGroup 17120 4 syms_25;
     AGroup 17118 23 syms_198]);
   (460451, 4, [AGroup 5 1 [sym_ppDirective]; AGroup 3 2 syms_5; AGroup 17124 4 syms_25;
     AGroup 17122 23 syms_198]);
   (460490, 4, [AGroup 5 1 [sym_ppDirective]; AGroup 3 2 syms_5; AGroup 17128 4 syms_25;
     AGroup 17126 23 syms_198]);
   (460529, 4, [AGroup 5 1 [sym_ppDirective]; AGroup 3 2 syms_5; AGroup 17154 4 syms_25;
     AGroup 17152 23 syms_198]);
   (460568, 4, [AGroup 5 1 [sym_ppDirective]; AGroup 3 2 syms_5; AGroup 17158 4 syms_25;
     AGroup 17156 23 syms_198]);
   (460607, 4, [AGroup 5 1 [sym_ppDirective]; AGroup 3 2 syms_5; AGroup 17172 4 syms_25;
     AGroup 17170 23 syms_198]);
   (460646, 10, [AGroup 5 1 [sym_ppDirective]; AGroup 17042 1 [anon_sym_DOT];
     AGroup 20754 1 [anon_sym_LBRACK]; AGroup 20756 1 [anon_sym_LPAREN];
     AGroup 21476 1 [sym_kLt]; AGroup 22263 1 [anon_sym_SEMI]; SGroup 5433 1 [sym_kDot];
     AGroup 3 2 syms_5; AGroup 17046 2 syms_101; AGroup 17036 19 syms_593]);
   (460697, 10, [AGroup 5 1 [sym_ppDirective]; AGroup 17042 1 [anon_sym_DOT];
     AGroup 20754 1 [anon_sym_LBRACK]; AGroup 20756 1 [anon_sym_LPAREN];
     AGroup 21476 1 [sym_kLt]; AGroup 22265 1 [anon_sym_SEMI]; SGroup 5433 1 [sym_kDot];
     AGroup 3 2 syms_5; AGroup 17046 2 syms_101; AGroup 17036 19 syms_593]);
   (460748, 13, [AGroup 20916 1 [sym_kHat]; AGroup 20922 1 [sym_kFdiv]; AGroup 20924 1 [sym_kAs];
     AGroup 20939 1 [sym_kIs]; AGroup 20941 1 [sym_kNot]; AGroup 22267 1 [anon_sym_SEMI];
     SGroup 4260 1 [sym__exprIsNot]; AGroup 20935 2 syms_83; AGroup 3 3 syms_1;
     AGroup 20914 3 syms_79; AGroup 20918 4 syms_84; AGroup 20937 5 syms_85;
     AGroup 20920 6 syms_86]);
   (460805, 4, [AGroup 5 1 [sym_ppDirective]; AGroup 3 2 syms_5; AGroup 17328 4 syms_25;
     AGroup 17326 23 syms_198]);
   (460844, 13, [AGroup 20916 1 [sym_kHat]; AGroup 20922 1 [sym_kFdiv]; AGroup 20924 1 [sym_kAs];
     AGroup 20939 1 [sym_kIs]; AGroup 20941 1 [sym_kNot]; AGroup 22269 1 [anon_sym_SEMI];
     SGroup 4260 1 [sym__exprIsNot]; AGroup 20935 2 syms_83; AGroup 3 3 syms_1;
     AGroup 20933 3 syms_79; AGroup 20918 4 syms_84; AGroup 20937 5 syms_85;
     AGroup 20920 6 syms_86]);
   (460901, 4, [AGroup 5 1 [sym_ppDirective]; AGroup 3 2 syms_5; AGroup 17096 4 syms_25;
     AGroup 17094 23 syms_204]);
   (460940, 14, [AGroup 5 1 [sym_ppDirective]; AGroup 16886 1 [anon_sym_LPAREN]; AGroup 22171 1 [sym_kFdiv];
     AGroup 22173 1 [sym_kHat]; AGroup 22175 1 [sym_kAs]; AGroup 22275 1 [sym_kIs];
     AGroup 22277 1 [sym_kNot]; SGroup 4618 1 [sym__exprIsNot]; AGroup 3 2 syms_5;
     AGroup 22271 2 syms_83; AGroup 16884 3 syms_659; AGroup 22167 4 syms_84;
     AGroup 22273 5 syms_85; AGroup 22169 6 syms_86]);
   (460999, 14, [AGroup 21033 1 [sym_kHat]; AGroup 21039 1 [sym_kFdiv]; AGroup 21041 1 [sym_kAs];
     AGroup 21049 1 [sym_kIs]; AGroup 21051 1 [sym_kNot]; AGroup 22279 1 [anon_sym_SEMI];
     AGroup 22283 1 [sym_kDelayed]; SGroup 4416 1 [sym__exprIsNot]; AGroup 21045 2 syms_83;
     AGroup 22281 2 syms_78; AGroup 3 3 syms_1; AGroup 21035 4 syms_84; AGroup 21047 5 syms_85;
     AGroup 21037 6 syms_86]);
   (461058, 4, [AGroup 5 1 [sym_ppDirective]; AGroup 3 2 syms_5; AGroup 17242 4 syms_25;
     AGroup 17240 23 syms_198]);
   (461097, 4, [AGroup 5 1 [sym_ppDirective]; AGroup 3 2 syms_5; AGroup 17108 4 syms_25;
     AGroup 17106 23 syms_204]);
   (461136, 10, [AGroup 5 1 [sym_ppDirective]; AGroup 21867 1 [sym_kHat]; AGroup 22233 1 [sym_kFdiv];
     AGroup 22235 1 [sym_kAs]; SGroup 4223 1 [sym__exprIsNot]; AGroup 3 2 syms_5;
     AGroup 17016 3 syms_94; AGroup 22229 4 syms_84; AGroup 22231 6 syms_86;
     AGroup 17014 10 syms_656]);
   (461187, 4, [AGroup 5 1 [sym_ppDirective]; AGroup 3 2 syms_5; AGroup 17116 4 syms_25;
     AGroup 17114 23 syms_204]);
   (461226, 4, [AGroup 5 1 [sym_ppDirective]; AGroup 3 2 syms_5; AGroup 17120 4 syms_25;
     AGroup 17118 23 syms_204]);
   (461265, 4, [AGroup 5 1 [sym_ppDirective]; AGroup 3 2 syms_5; AGroup 17124 4 syms_25;
     AGroup 17122 23 syms_204]);
   (461304, 12, [AGroup 21063 1 [sym_kHat]; AGroup 21069 1 [sym_kFdiv]; AGroup 21071 1 [sym_kAs];
     AGroup 21133 1 [sym_kIs]; AGroup 21135 1 [sym_kNot]; SGroup 5025 1 [sym__exprIsNot];
     AGroup 21129 2 syms_83; AGroup 3 3 syms_1; AGroup 17936 4 syms_660; AGroup 21065 4 syms_84;
     AGroup 21131 5 syms_85; AGroup 21067 6 syms_86]);
   (461359, 4, [AGroup 5 1 [sym_ppDirective]; AGroup 3 2 syms_5; AGroup 17128 4 syms_25;
     AGroup 17126 23 syms_204]);
   (461398, 4, [AGroup 5 1 [sym_ppDirective]; AGroup 3 2 syms_5; AGroup 17154 4 syms_25;
     AGroup 17152 23 syms_204]);
   (461437, 4, [AGroup 5 1 [sym_ppDirective]; AGroup 3 2 syms_5; AGroup 17158 4 syms_25;
     AGroup 17156 23 syms_204]);
   (461476, 4, [AGroup 5 1 [sym_ppDirective]; AGroup 3 2 syms_5; AGroup 17256 4 syms_25;
     AGroup 17254 23 syms_198]);
   (461515, 12, [AGroup 21063 1 [sym_kHat]; AGroup 21069 1 [sym_kFdiv]; AGroup 21071 1 [sym_kAs];
     AGroup 21133 1 [sym_kIs]; AGroup 21135 1 [sym_kNot]; SGroup 5025 1 [sym__exprIsNot];
     AGroup 21129 2 syms_83; AGroup 3 3 syms_1; AGroup 17938 4 syms_660; AGroup 21065 4 syms_84;
     AGroup 21131 5 syms_85; AGroup 21067 6 syms_86]);
   (461570, 14, [AGroup 21033 1 [sym_kHat]; AGroup 21039 1 [sym_kFdiv]; AGroup 21041 1 [sym_kAs];
     AGroup 21049 1 [sym_kIs]; AGroup 21051 1 [sym_kNot]; AGroup 22285 1 [anon_sym_SEMI];
     AGroup 22289 1 [sym_kDelayed]; SGroup 4416 1 [sym__exprIsNot]; AGroup 21045 2 syms_83;
     AGroup 22287 2 syms_78; AGroup 3 3 syms_1; AGroup 21035 4 syms_84; AGroup 21047 5 syms_85;
     AGroup 21037 6 syms_86]);
   (461629, 10, [AGroup 5 1 [sym_ppDirective]; AGroup 17042 1 [anon_sym_DOT];
     AGroup 20754 1 [anon_sym_LBRACK]; AGroup 20756 1 [anon_sym_LPAREN];
     AGroup 21476 1 [sym_kLt]; AGroup 22291 1 [anon_sym_SEMI]; SGroup 5433 1 [sym_kDot];
     AGroup 3 2 syms_5; AGroup 17046 2 syms_101; AGroup 17036 19 syms_593]);
   (461680, 4, [AGroup 5 1 [sym_ppDirective]; AGroup 3 2 syms_5; AGroup 17172 4 syms_25;
     AGroup 17170 23 syms_204]);
   (461719, 14, [AGroup 5 1 [sym_ppDirective]; AGroup 16886 1 [anon_sym_LPAREN]; AGroup 21867 1 [sym_kHat];
     AGroup 22233 1 [sym_kFdiv]; AGroup 22235 1 [sym_kAs]; AGroup 22297 1 [sym_kIs];
     AGroup 22299 1 [sym_kNot]; SGroup 4223 1 [sym__exprIsNot]; AGroup 3 2 syms_5;
     AGroup 22293 2 syms_83; AGroup 16884 3 syms_661; AGroup 22229 4 syms_84;
     AGroup 22295 5 syms_85; AGroup 22231 6 syms_86]);
   (461778, 4, [AGroup 5 1 [sym_ppDirective]; AGroup 3 2 syms_5; AGroup 17242 4 syms_25;
     AGroup 17240 23 syms_193]);
   (461817, 5, [AGroup 5 1 [sym_ppDirective]; AGroup 22301 1 [sym_identifier]; AGroup 3 2 syms_5;
     AGroup 17342 4 syms_25; AGroup 17340 22 syms_216]);
   (461858, 5, [AGroup 5 1 [sym_ppDirective]; AGroup 22303 1 [sym_identifier]; AGroup 3 2 syms_5;
     AGroup 17348 4 syms_25; AGroup 17346 22 syms_216]);
   (461899, 10, [AGroup 5 1 [sym_ppDirective]; AGroup 17042 1 [anon_sym_DOT];
     AGroup 20754 1 [anon_sym_LBRACK]; AGroup 20756 1 [anon_sym_LPAREN];
     AGroup 21476 1 [sym_kLt]; AGroup 22305 1 [anon_sym_SEMI]; SGroup 5433 1 [sym_kDot];
     AGroup 3 2 syms_5; AGroup 17046 2 syms_101; AGroup 17036 19 syms_593]);
   (461950, 4, [AGroup 5 1 [sym_ppDirective]; AGroup 3 2 syms_5; AGroup 17362 4 syms_25;
     AGroup 17360 23 syms_193]);
   (461989, 14, [AGroup 21033 1 [sym_kHat]; AGroup 21039 1 [sym_kFdiv]; AGroup 21041 1 [sym_kAs];
     AGroup 21049 1 [sym_kIs]; AGroup 21051 1 [sym_kNot]; AGroup 22307 1 [anon_sym_SEMI];
     AGroup 22311 1 [sym_kDelayed]; SGroup 4416 1 [sym__exprIsNot]; AGroup 21045 2 syms_83;
     AGroup 22309 2 syms_78; AGroup 3 3 syms_1; AGroup 21035 4 syms_84; AGroup 21047 5 syms_85;
     AGroup 21037 6 syms_86]);
   (462048, 4, [AGroup 5 1 [sym_ppDirective]; AGroup 3 2 syms_5; AGroup 11316 4 syms_25;
     AGroup 11311 23 syms_193]);
   (462087, 5, [AGroup 5 1 [sym_ppDirective]; SGroup 4618 1 [sym__exprIsNot]; AGroup 3 2 syms_5;
     AGroup 17032 4 syms_25; AGroup 17030 22 syms_216]);
   (462128, 8, [AGroup 20772 1 [anon_sym_DOT]; AGroup 22313 1 [sym_identifier];
     SGroup 11932 1 [sym_operatorName]; SGroup 12033 1 [sym_kDot]; AGroup 3 3 syms_1;
     AGroup 20774 3 syms_429; SGroup 11241 3 syms_2; AGroup 20776 17 syms_431]);
   (462175, 4, [AGroup 5 1 [sym_ppDirective]; AGroup 3 2 syms_5; AGroup 17372 4 syms_25;
     AGroup 17370 23 syms_193]);
   (462214, 12, [AGroup 20826 1 [sym_kHat]; AGroup 20834 1 [sym_kAs]; AGroup 21460 1 [sym_kFdiv];
     AGroup 21462 1 [sym_kIs]; AGroup 21464 1 [sym_kNot]; SGroup 4778 1 [sym__exprIsNot];
     AGroup 21452 2 syms_83; AGroup 3 3 syms_1; AGroup 21456 4 syms_84; AGroup 22315 4 syms_662;
     AGroup 21454 5 syms_85; AGroup 21458 6 syms_86]);
   (462269, 4, [AGroup 5 1 [sym_ppDirective]; AGroup 3 2 syms_5; AGroup 17242 4 syms_25;
     AGroup 17240 23 syms_204]);
   (462308, 4, [AGroup 5 1 [sym_ppDirective]; AGroup 3 2 syms_5; AGroup 18831 4 syms_25;
     AGroup 18829 23 syms_211]);
   (462347, 4, [AGroup 5 1 [sym_ppDirective]; AGroup 3 2 syms_5; AGroup 17358 4 syms_25;
     AGroup 17356 23 syms_211]);
   (462386, 4, [AGroup 5 1 [sym_ppDirective]; AGroup 3 2 syms_5; AGroup 17362 4 syms_25;
     AGroup 17360 23 syms_211]);
   (462425, 4, [AGroup 5 1 [sym_ppDirective]; AGroup 3 2 syms_5; AGroup 11316 4 syms_25;
     AGroup 11311 23 syms_211]);
   (462464, 14, [AGroup 21033 1 [sym_kHat]; AGroup 21039 1 [sym_kFdiv]; AGroup 21041 1 [sym_kAs];
     AGroup 21049 1 [sym_kIs]; AGroup 21051 1 [sym_kNot]; AGroup 22317 1 [anon_sym_SEMI];
     AGroup 22321 1 [sym_kDelayed]; SGroup 4416 1 [sym__exprIsNot]; AGroup 21045 2 syms_83;
     AGroup 22319 2 syms_78; AGroup 3 3 syms_1; AGroup 21035 4 syms_84; AGroup 21047 5 syms_85;
     AGroup 21037 6 syms_86]);
   (462523, 4, [AGroup 5 1 [sym_ppDirective]; AGroup 3 2 syms_5; AGroup 17372 4 syms_25;
     AGroup 17370 23 syms_211]);
   (462562, 4, [AGroup 5 1 [sym_ppDirective]; AGroup 3 2 syms_5; AGroup 17380 4 syms_25;
     AGroup 17378 23 syms_211]);
   (462601, 4, [AGroup 5 1 [sym_ppDirective]; AGroup 3 2 syms_5; AGroup 17386 4 syms_25;
     AGroup 17384 23 syms_211]);
   (462640, 4, [AGroup 5 1 [sym_ppDirective]; AGroup 3 2 syms_5; AGroup 17398 4 syms_25;
     AGroup 17396 23 syms_211]);
   (462679, 4, [AGroup 5 1 [sym_ppDirective]; AGroup 3 2 syms_5; AGroup 17408 4 syms_25;
     AGroup 17406 23 syms_211]);
   (462718, 4, [AGroup 5 1 [sym_ppDirective]; AGroup 3 2 syms_5; AGroup 17412 4 syms_25;
     AGroup 17410 23 syms_211]);
   (462757, 4, [AGroup 5 1 [sym_ppDirective]; AGroup 3 2 syms_5; AGroup 17550 4 syms_25;
     AGroup 17548 23 syms_211]);
   (462796, 4, [AGroup 5 1 [sym_ppDirective]; AGroup 3 2 syms_5; AGroup 10864 5 syms_150;
     AGroup 10862 22 syms_648]);
   (462835, 14, [AGroup 21033 1 [sym_kHat]; AGroup 21039 1 [sym_kFdiv]; AGroup 21041 1 [sym_kAs];
     AGroup 21049 1 [sym_kIs]; AGroup 21051 1 [sym_kNot]; AGroup 22323 1 [anon_sym_SEMI];
     AGroup 22327 1 [sym_kDelayed]; SGroup 4416 1 [sym__exprIsNot]; AGroup 21045 2 syms_83;
     AGroup 22325 2 syms_78; AGroup 3 3 syms_1; AGroup 21035 4 syms_84; AGroup 21047 5 syms_85;
     AGroup 21037 6 syms_86]);
   (462894, 6, [AGroup 5 1 [sym_ppDirective]; AGroup 3 2 syms_5; AGroup 16976 2 syms_97;
     AGroup 16978 2 syms_298; AGroup 16981 2 syms_83; AGroup 16972 21 syms_658]);
   (462937, 4, [AGroup 5 1 [sym_ppDirective]; AGroup 3 2 syms_5; AGroup 17592 4 syms_25;
     AGroup 17590 23 syms_211]);
   (462976, 4, [AGroup 5 1 [sym_ppDirective]; AGroup 3 2 syms_5; AGroup 17082 4 syms_25;
     AGroup 17080 23 syms_211]);
   (463015, 6, [AGroup 5 1 [sym_ppDirective]; AGroup 22173 1 [sym_kHat]; SGroup 4618 1 [sym__exprIsNot];
     AGroup 3 2 syms_5; AGroup 16914 4 syms_25; AGroup 16912 21 syms_663]);
   (463058, 6, [AGroup 5 1 [sym_ppDirective]; AGroup 22173 1 [sym_kHat]; SGroup 4618 1 [sym__exprIsNot];
     AGroup 3 2 syms_5; AGroup 16904 4 syms_25; AGroup 16902 21 syms_663]);
   (463101, 10, [AGroup 5 1 [sym_ppDirective]; AGroup 22171 1 [sym_kFdiv]; AGroup 22173 1 [sym_kHat];
     AGroup 22175 1 [sym_kAs]; SGroup 4618 1 [sym__exprIsNot]; AGroup 3 2 syms_5;
     AGroup 16914 3 syms_94; AGroup 22167 4 syms_84; AGroup 22169 6 syms_86;
     AGroup 16912 10 syms_652]);
   (463152, 4, [AGroup 5 1 [sym_ppDirective]; AGroup 3 2 syms_5; AGroup 17096 4 syms_25;
     AGroup 17094 23 syms_211]);
   (463191, 9, [AGroup 5 1 [sym_ppDirective]; AGroup 22171 1 [sym_kFdiv]; AGroup 22173 1 [sym_kHat];
     AGroup 22175 1 [sym_kAs]; SGroup 4618 1 [sym__exprIsNot]; AGroup 3 2 syms_5;
     AGroup 16914 3 syms_94; AGroup 22169 6 syms_86; AGroup 16912 14 syms_664]);
   (463240, 4, [AGroup 5 1 [sym_ppDirective]; AGroup 3 2 syms_5; AGroup 17256 4 syms_25;
     AGroup 17254 23 syms_204]);
   (463279, 7, [AGroup 5 1 [sym_ppDirective]; AGroup 16974 1 [anon_sym_COMMA];
     AGroup 16978 1 [anon_sym_DOT]; AGroup 3 2 syms_5; AGroup 16976 2 syms_97;
     AGroup 16981 2 syms_83; AGroup 16972 21 syms_665]);
   (463324, 5, [AGroup 5 1 [sym_ppDirective]; SGroup 4657 1 [sym_kDot]; AGroup 3 2 syms_5;
     AGroup 16970 4 syms_25; AGroup 16968 22 syms_216]);
   (463365, 4, [AGroup 5 1 [sym_ppDirective]; AGroup 3 2 syms_5; AGroup 17108 4 syms_25;
     AGroup 17106 23 syms_211]);
   (463404, 4, [AGroup 5 1 [sym_ppDirective]; AGroup 3 2 syms_5; AGroup 10844 5 syms_150;
     AGroup 10842 22 syms_648]);
   (463443, 4, [AGroup 5 1 [sym_ppDirective]; AGroup 3 2 syms_5; AGroup 17116 4 syms_25;
     AGroup 17114 23 syms_211]);
   (463482, 4, [AGroup 5 1 [sym_ppDirective]; AGroup 3 2 syms_5; AGroup 17120 4 syms_25;
     AGroup 17118 23 syms_211]);
   (463521, 4, [AGroup 5 1 [sym_ppDirective]; AGroup 3 2 syms_5; AGroup 17124 4 syms_25;
     AGroup 17122 23 syms_211]);
   (463560, 4, [AGroup 5 1 [sym_ppDirective]; AGroup 3 2 syms_5; AGroup 17128 4 syms_25;
     AGroup 17126 23 syms_211]);
   (463599, 4, [AGroup 5 1 [sym_ppDirective]; AGroup 3 2 syms_5; AGroup 17154 4 syms_25;
     AGroup 17152 23 syms_211]);
   (463638, 4, [AGroup 5 1 [sym_ppDirective]; AGroup 3 2 syms_5; AGroup 17158 4 syms_25;
     AGroup 17156 23 syms_211]);
   (463677, 4, [AGroup 5 1 [sym_ppDirective]; AGroup 3 2 syms_5; AGroup 17172 4 syms_25;
     AGroup 17170 23 syms_211]);
   (463716, 4, [AGroup 5 1 [sym_ppDirective]; AGroup 3 2 syms_5; AGroup 17380 4 syms_25;
     AGroup 17378 23 syms_193]);
   (463755, 4, [AGroup 5 1 [sym_ppDirective]; AGroup 3 2 syms_5; AGroup 10868 5 syms_150;
     AGroup 10866 22 syms_648]);
   (463794, 4, [AGroup 5 1 [sym_ppDirective]; AGroup 3 2 syms_5; AGroup 10820 5 syms_150;
     AGroup 10818 22 syms_648])
  ].

(** States 9359 to 9458. *)
Definition small_runs_9359 : list small_run :=
  [
   (463833, 4, [AGroup 5 1 [sym_ppDirective]; AGroup 3 2 syms_5; AGroup 17386 4 syms_25;
     AGroup 17384 23 syms_193]);
   (463872, 14, [AGroup 21033 1 [sym_kHat]; AGroup 21039 1 [sym_kFdiv]; AGroup 21041 1 [sym_kAs];
     AGroup 21049 1 [sym_kIs]; AGroup 21051 1 [sym_kNot]; AGroup 22329 1 [anon_sym_SEMI];
     AGroup 22333 1 [sym_kDelayed]; SGroup 4416 1 [sym__exprIsNot]; AGroup 21045 2 syms_83;
     AGroup 22331 2 syms_78; AGroup 3 3 syms_1; AGroup 21035 4 syms_84; AGroup 21047 5 syms_85;
     AGroup 21037 6 syms_86]);
   (463931, 4, [AGroup 5 1 [sym_ppDirective]; AGroup 3 2 syms_5; AGroup 17328 4 syms_25;
     AGroup 17326 23 syms_211]);
   (463970, 12, [AGroup 21111 1 [sym_kHat]; AGroup 21117 1 [sym_kFdiv]; AGroup 21119 1 [sym_kAs];
     AGroup 21125 1 [sym_kIs]; AGroup 21127 1 [sym_kNot]; SGroup 4576 1 [sym__exprIsNot];
     AGroup 21121 2 syms_83; AGroup 3 3 syms_1; AGroup 21113 4 syms_84; AGroup 22335 4 syms_666;
     AGroup 21123 5 syms_85; AGroup 21115 6 syms_86]);
   (464025, 4, [AGroup 5 1 [sym_ppDirective]; AGroup 3 2 syms_5; AGroup 17398 4 syms_25;
     AGroup 17396 23 syms_193]);
   (464064, 14, [AGroup 21033 1 [sym_kHat]; AGroup 21039 1 [sym_kFdiv]; AGroup 21041 1 [sym_kAs];
     AGroup 21049 1 [sym_kIs]; AGroup 21051 1 [sym_kNot]; AGroup 22337 1 [anon_sym_SEMI];
     AGroup 22341 1 [sym_kDelayed]; SGroup 4416 1 [sym__exprIsNot]; AGroup 21045 2 syms_83;
     AGroup 22339 2 syms_78; AGroup 3 3 syms_1; AGroup 21035 4 syms_84; AGroup 21047 5 syms_85;
     AGroup 21037 6 syms_86]);
   (464123, 4, [AGroup 5 1 [sym_ppDirective]; AGroup 3 2 syms_5; AGroup 10872 5 syms_150;
     AGroup 10870 22 syms_648]);
   (464162, 4, [AGroup 5 1 [sym_ppDirective]; AGroup 3 2 syms_5; AGroup 10876 5 syms_150;
     AGroup 10874 22 syms_648]);
   (464201, 4, [AGroup 5 1 [sym_ppDirective]; AGroup 3 2 syms_5; AGroup 17242 4 syms_25;
     AGroup 17240 23 syms_211]);
   (464240, 4, [AGroup 5 1 [sym_ppDirective]; AGroup 3 2 syms_5; AGroup 17328 4 syms_25;
     AGroup 17326 23 syms_196]);
   (464279, 5, [AGroup 5 1 [sym_ppDirective]; AGroup 22343 1 [sym_kElse]; AGroup 3 2 syms_5;
     AGroup 10722 5 syms_150; AGroup 10720 21 syms_651]);
   (464320, 10, [AGroup 5 1 [sym_ppDirective]; AGroup 17042 1 [anon_sym_DOT];
     AGroup 20754 1 [anon_sym_LBRACK]; AGroup 20756 1 [anon_sym_LPAREN];
     AGroup 21476 1 [sym_kLt]; AGroup 22345 1 [anon_sym_SEMI]; SGroup 5433 1 [sym_kDot];
     AGroup 3 2 syms_5; AGroup 17046 2 syms_101; AGroup 17036 19 syms_593]);
   (464371, 4, [AGroup 5 1 [sym_ppDirective]; AGroup 3 2 syms_5; AGroup 18831 4 syms_25;
     AGroup 18829 23 syms_196]);
   (464410, 4, [AGroup 5 1 [sym_ppDirective]; AGroup 3 2 syms_5; AGroup 17358 4 syms_25;
     AGroup 17356 23 syms_196]);
   (464449, 4, [AGroup 5 1 [sym_ppDirective]; AGroup 3 2 syms_5; AGroup 17362 4 syms_25;
     AGroup 17360 23 syms_196]);
   (464488, 4, [AGroup 5 1 [sym_ppDirective]; AGroup 3 2 syms_5; AGroup 17256 4 syms_25;
     AGroup 17254 23 syms_211]);
   (464527, 14, [AGroup 20882 1 [sym_kFdiv]; AGroup 20884 1 [sym_kHat]; AGroup 20886 1 [sym_kAs];
     AGroup 20953 1 [sym_kIs]; AGroup 20955 1 [sym_kNot]; AGroup 22347 1 [anon_sym_SEMI];
     AGroup 22349 1 [sym_kRaiseAt]; SGroup 5346 1 [sym__exprIsNot]; AGroup 20764 2 syms_112;
     AGroup 20949 2 syms_83; AGroup 3 3 syms_1; AGroup 20878 4 syms_84; AGroup 20951 5 syms_85;
     AGroup 20880 6 syms_86]);
   (464586, 4, [AGroup 5 1 [sym_ppDirective]; AGroup 3 2 syms_5; AGroup 11316 4 syms_25;
     AGroup 11311 23 syms_196]);
   (464625, 4, [AGroup 5 1 [sym_ppDirective]; AGroup 3 2 syms_5; AGroup 17408 4 syms_25;
     AGroup 17406 23 syms_193]);
   (464664, 10, [AGroup 5 1 [sym_ppDirective]; AGroup 17042 1 [anon_sym_DOT];
     AGroup 20754 1 [anon_sym_LBRACK]; AGroup 20756 1 [anon_sym_LPAREN];
     AGroup 21476 1 [sym_kLt]; AGroup 22351 1 [anon_sym_SEMI]; SGroup 5433 1 [sym_kDot];
     AGroup 3 2 syms_5; AGroup 17046 2 syms_101; AGroup 17036 19 syms_593]);
   (464715, 15, [AGroup 20826 1 [sym_kHat]; AGroup 20834 1 [sym_kAs]; AGroup 21446 1 [anon_sym_COLON];
     AGroup 21448 1 [anon_sym_COMMA]; AGroup 21460 1 [sym_kFdiv]; AGroup 21462 1 [sym_kIs];
     AGroup 21464 1 [sym_kNot]; SGroup 4778 1 [sym__exprIsNot];
     SGroup 11980 1 [aux_sym_legacyFormat_repeat1]; SGroup 14270 1 [sym_legacyFormat];
     AGroup 21452 2 syms_83; AGroup 3 3 syms_1; AGroup 21456 4 syms_84; AGroup 21454 5 syms_85;
     AGroup 21458 6 syms_86]);
   (464776, 4, [AGroup 5 1 [sym_ppDirective]; AGroup 3 2 syms_5; AGroup 17412 4 syms_25;
     AGroup 17410 23 syms_193]);
   (464815, 4, [AGroup 5 1 [sym_ppDirective]; AGroup 3 2 syms_5; AGroup 17372 4 syms_25;
     AGroup 17370 23 syms_196]);
   (464854, 10, [AGroup 5 1 [sym_ppDirective]; AGroup 17042 1 [anon_sym_DOT];
     AGroup 20754 1 [anon_sym_LBRACK]; AGroup 20756 1 [anon_sym_LPAREN];
     AGroup 21476 1 [sym_kLt]; AGroup 22353 1 [anon_sym_SEMI]; SGroup 5433 1 [sym_kDot];
     AGroup 3 2 syms_5; AGroup 17046 2 syms_101; AGroup 17036 19 syms_593]);
   (464905, 14, [AGroup 21033 1 [sym_kHat]; AGroup 21039 1 [sym_kFdiv]; AGroup 21041 1 [sym_kAs];
     AGroup 21049 1 [sym_kIs]; AGroup 21051 1 [sym_kNot]; AGroup 22355 1 [anon_sym_SEMI];
     AGroup 22359 1 [sym_kDelayed]; SGroup 4416 1 [sym__exprIsNot]; AGroup 21045 2 syms_83;
     AGroup 22357 2 syms_78; AGroup 3 3 syms_1; AGroup 21035 4 syms_84; AGroup 21047 5 syms_85;
     AGroup 21037 6 syms_86]);
   (464964, 14, [AGroup 20764 1 [sym_kElse]; AGroup 21339 1 [sym_kHat]; AGroup 21345 1 [sym_kFdiv];
     AGroup 21347 1 [sym_kAs]; AGroup 21383 1 [sym_kIs]; AGroup 21385 1 [sym_kNot];
     AGroup 22361 1 [anon_sym_SEMI]; AGroup 22363 1 [sym_kRaiseAt];
     SGroup 4349 1 [sym__exprIsNot]; AGroup 21379 2 syms_83; AGroup 3 3 syms_1;
     AGroup 21341 4 syms_84; AGroup 21381 5 syms_85; AGroup 21343 6 syms_86]);
   (465022, 14, [AGroup 20995 1 [sym_kHat]; AGroup 21001 1 [sym_kFdiv]; AGroup 21003 1 [sym_kAs];
     AGroup 21009 1 [sym_kIs]; AGroup 21011 1 [sym_kNot]; AGroup 22365 1 [anon_sym_COMMA];
     AGroup 22367 1 [anon_sym_RBRACK]; AGroup 22369 1 [anon_sym_DOT_DOT];
     SGroup 4357 1 [sym__exprIsNot]; AGroup 21005 2 syms_83; AGroup 3 3 syms_1;
     AGroup 20997 4 syms_84; AGroup 21007 5 syms_85; AGroup 20999 6 syms_86]);
   (465080, 13, [AGroup 21505 1 [sym_kHat]; AGroup 21517 1 [sym_kFdiv]; AGroup 21519 1 [sym_kAs];
     AGroup 21541 1 [sym_kIs]; AGroup 21543 1 [sym_kNot]; AGroup 22371 1 [anon_sym_SEMI];
     SGroup 4805 1 [sym__exprIsNot]; AGroup 20898 2 syms_112; AGroup 21537 2 syms_83;
     AGroup 3 3 syms_1; AGroup 21513 4 syms_84; AGroup 21539 5 syms_85; AGroup 21515 6 syms_86]);
   (465136, 4, [AGroup 5 1 [sym_ppDirective]; AGroup 3 2 syms_5; AGroup 17242 4 syms_25;
     AGroup 17240 22 syms_216]);
   (465174, 14, [AGroup 20995 1 [sym_kHat]; AGroup 21001 1 [sym_kFdiv]; AGroup 21003 1 [sym_kAs];
     AGroup 21009 1 [sym_kIs]; AGroup 21011 1 [sym_kNot]; AGroup 22365 1 [anon_sym_COMMA];
     AGroup 22369 1 [anon_sym_DOT_DOT]; AGroup 22373 1 [anon_sym_RBRACK];
     SGroup 4357 1 [sym__exprIsNot]; AGroup 21005 2 syms_83; AGroup 3 3 syms_1;
     AGroup 20997 4 syms_84; AGroup 21007 5 syms_85; AGroup 20999 6 syms_86]);
   (465232, 14, [AGroup 20995 1 [sym_kHat]; AGroup 21001 1 [sym_kFdiv]; AGroup 21003 1 [sym_kAs];
     AGroup 21009 1 [sym_kIs]; AGroup 21011 1 [sym_kNot]; AGroup 22365 1 [anon_sym_COMMA];
     AGroup 22369 1 [anon_sym_DOT_DOT]; AGroup 22375 1 [anon_sym_RBRACK];
     SGroup 4357 1 [sym__exprIsNot]; AGroup 21005 2 syms_83; AGroup 3 3 syms_1;
     AGroup 20997 4 syms_84; AGroup 21007 5 syms_85; AGroup 20999 6 syms_86]);
   (465290, 14, [AGroup 20995 1 [sym_kHat]; AGroup 21001 1 [sym_kFdiv]; AGroup 21003 1 [sym_kAs];
     AGroup 21009 1 [sym_kIs]; AGroup 21011 1 [sym_kNot]; AGroup 22365 1 [anon_sym_COMMA];
     AGroup 22369 1 [anon_sym_DOT_DOT]; AGroup 22377 1 [anon_sym_RBRACK];
     SGroup 4357 1 [sym__exprIsNot]; AGroup 21005 2 syms_83; AGroup 3 3 syms_1;
     AGroup 20997 4 syms_84; AGroup 21007 5 syms_85; AGroup 20999 6 syms_86]);
   (465348, 12, [AGroup 20826 1 [sym_kHat]; AGroup 21595 1 [sym_kAs]; AGroup 22387 1 [sym_kFdiv];
     AGroup 22389 1 [sym_kIs]; AGroup 22391 1 [sym_kNot]; SGroup 4442 1 [sym__exprIsNot];
     AGroup 22379 2 syms_83; AGroup 3 3 syms_1; AGroup 17938 3 syms_667; AGroup 22383 4 syms_84;
     AGroup 22381 5 syms_85; AGroup 22385 6 syms_86]);
   (465402, 13, [AGroup 20826 1 [sym_kHat]; AGroup 20834 1 [sym_kAs]; AGroup 21460 1 [sym_kFdiv];
     AGroup 21462 1 [sym_kIs]; AGroup 21464 1 [sym_kNot]; AGroup 22393 1 [anon_sym_RPAREN];
     SGroup 4778 1 [sym__exprIsNot]; AGroup 21029 2 syms_668; AGroup 21452 2 syms_83;
     AGroup 3 3 syms_1; AGroup 21456 4 syms_84; AGroup 21454 5 syms_85; AGroup 21458 6 syms_86]);
   (465458, 14, [AGroup 20764 1 [sym_kElse]; AGroup 21339 1 [sym_kHat]; AGroup 21345 1 [sym_kFdiv];
     AGroup 21347 1 [sym_kAs]; AGroup 21383 1 [sym_kIs]; AGroup 21385 1 [sym_kNot];
     AGroup 22395 1 [anon_sym_SEMI]; AGroup 22397 1 [sym_kRaiseAt];
     SGroup 4349 1 [sym__exprIsNot]; AGroup 21379 2 syms_83; AGroup 3 3 syms_1;
     AGroup 21341 4 syms_84; AGroup 21381 5 syms_85; AGroup 21343 6 syms_86]);
   (465516, 5, [AGroup 5 1 [sym_ppDirective]; AGroup 3 2 syms_5; AGroup 22399 2 syms_669;
     AGroup 22403 5 syms_150; AGroup 22401 19 syms_151]);
   (465556, 12, [AGroup 20826 1 [sym_kHat]; AGroup 21595 1 [sym_kAs]; AGroup 22387 1 [sym_kFdiv];
     AGroup 22389 1 [sym_kIs]; AGroup 22391 1 [sym_kNot]; SGroup 4442 1 [sym__exprIsNot];
     AGroup 22379 2 syms_83; AGroup 3 3 syms_1; AGroup 20702 3 syms_667; AGroup 22383 4 syms_84;
     AGroup 22381 5 syms_85; AGroup 22385 6 syms_86]);
   (465610, 14, [AGroup 20995 1 [sym_kHat]; AGroup 21001 1 [sym_kFdiv]; AGroup 21003 1 [sym_kAs];
     AGroup 21009 1 [sym_kIs]; AGroup 21011 1 [sym_kNot]; AGroup 22365 1 [anon_sym_COMMA];
     AGroup 22369 1 [anon_sym_DOT_DOT]; AGroup 22405 1 [anon_sym_COLON];
     SGroup 4357 1 [sym__exprIsNot]; AGroup 21005 2 syms_83; AGroup 3 3 syms_1;
     AGroup 20997 4 syms_84; AGroup 21007 5 syms_85; AGroup 20999 6 syms_86]);
   (465668, 13, [AGroup 20826 1 [sym_kHat]; AGroup 20834 1 [sym_kAs]; AGroup 21460 1 [sym_kFdiv];
     AGroup 21462 1 [sym_kIs]; AGroup 21464 1 [sym_kNot]; AGroup 22407 1 [anon_sym_RPAREN];
     SGroup 4778 1 [sym__exprIsNot]; AGroup 21029 2 syms_668; AGroup 21452 2 syms_83;
     AGroup 3 3 syms_1; AGroup 21456 4 syms_84; AGroup 21454 5 syms_85; AGroup 21458 6 syms_86]);
   (465724, 13, [AGroup 5 1 [sym_ppDirective]; AGroup 21466 1 [sym_kHat]; AGroup 21472 1 [sym_kFdiv];
     AGroup 21474 1 [sym_kAs]; AGroup 21491 1 [sym_kIs]; AGroup 21493 1 [sym_kNot];
     SGroup 5074 1 [sym__exprIsNot]; AGroup 3 2 syms_5; AGroup 21487 2 syms_83;
     AGroup 22409 3 syms_111; AGroup 21468 4 syms_84; AGroup 21489 5 syms_85;
     AGroup 21470 6 syms_86]);
   (465780, 14, [AGroup 20995 1 [sym_kHat]; AGroup 21001 1 [sym_kFdiv]; AGroup 21003 1 [sym_kAs];
     AGroup 21009 1 [sym_kIs]; AGroup 21011 1 [sym_kNot]; AGroup 22365 1 [anon_sym_COMMA];
     AGroup 22369 1 [anon_sym_DOT_DOT]; AGroup 22411 1 [anon_sym_RBRACK];
     SGroup 4357 1 [sym__exprIsNot]; AGroup 21005 2 syms_83; AGroup 3 3 syms_1;
     AGroup 20997 4 syms_84; AGroup 21007 5 syms_85; AGroup 20999 6 syms_86]);
   (465838, 13, [AGroup 5 1 [sym_ppDirective]; AGroup 21466 1 [sym_kHat]; AGroup 21472 1 [sym_kFdiv];
     AGroup 21474 1 [sym_kAs]; AGroup 21491 1 [sym_kIs]; AGroup 21493 1 [sym_kNot];
     SGroup 5074 1 [sym__exprIsNot]; AGroup 3 2 syms_5; AGroup 21487 2 syms_83;
     AGroup 22413 3 syms_111; AGroup 21468 4 syms_84; AGroup 21489 5 syms_85;
     AGroup 21470 6 syms_86]);
   (465894, 14, [AGroup 20995 1 [sym_kHat]; AGroup 21001 1 [sym_kFdiv]; AGroup 21003 1 [sym_kAs];
     AGroup 21009 1 [sym_kIs]; AGroup 21011 1 [sym_kNot]; AGroup 22365 1 [anon_sym_COMMA];
     AGroup 22369 1 [anon_sym_DOT_DOT]; AGroup 22415 1 [anon_sym_RBRACK];
     SGroup 4357 1 [sym__exprIsNot]; AGroup 21005 2 syms_83; AGroup 3 3 syms_1;
     AGroup 20997 4 syms_84; AGroup 21007 5 syms_85; AGroup 20999 6 syms_86]);
   (465952, 13, [AGroup 5 1 [sym_ppDirective]; AGroup 21466 1 [sym_kHat]; AGroup 21472 1 [sym_kFdiv];
     AGroup 21474 1 [sym_kAs]; AGroup 21491 1 [sym_kIs]; AGroup 21493 1 [sym_kNot];
     SGroup 5074 1 [sym__exprIsNot]; AGroup 3 2 syms_5; AGroup 21487 2 syms_83;
     AGroup 22417 3 syms_111; AGroup 21468 4 syms_84; AGroup 21489 5 syms_85;
     AGroup 21470 6 syms_86]);
   (466008, 14, [AGroup 20995 1 [sym_kHat]; AGroup 21001 1 [sym_kFdiv]; AGroup 21003 1 [sym_kAs];
     AGroup 21009 1 [sym_kIs]; AGroup 21011 1 [sym_kNot]; AGroup 22365 1 [anon_sym_COMMA];
     AGroup 22369 1 [anon_sym_DOT_DOT]; AGroup 22419 1 [anon_sym_RBRACK];
     SGroup 4357 1 [sym__exprIsNot]; AGroup 21005 2 syms_83; AGroup 3 3 syms_1;
     AGroup 20997 4 syms_84; AGroup 21007 5 syms_85; AGroup 20999 6 syms_86]);
   (466066, 13, [AGroup 20826 1 [sym_kHat]; AGroup 20834 1 [sym_kAs]; AGroup 21460 1 [sym_kFdiv];
     AGroup 21462 1 [sym_kIs]; AGroup 21464 1 [sym_kNot]; AGroup 22421 1 [anon_sym_RPAREN];
     SGroup 4778 1 [sym__exprIsNot]; AGroup 21029 2 syms_668; AGroup 21452 2 syms_83;
     AGroup 3 3 syms_1; AGroup 21456 4 syms_84; AGroup 21454 5 syms_85; AGroup 21458 6 syms_86]);
   (466122, 5, [AGroup 5 1 [sym_ppDirective]; AGroup 3 2 syms_5; AGroup 22423 2 syms_669;
     AGroup 22403 5 syms_150; AGroup 22401 19 syms_151]);
   (466162, 12, [AGroup 20826 1 [sym_kHat]; AGroup 21595 1 [sym_kAs]; AGroup 22387 1 [sym_kFdiv];
     AGroup 22389 1 [sym_kIs]; AGroup 22391 1 [sym_kNot]; SGroup 4442 1 [sym__exprIsNot];
     AGroup 22379 2 syms_83; AGroup 3 3 syms_1; AGroup 17936 3 syms_667; AGroup 22383 4 syms_84;
     AGroup 22381 5 syms_85; AGroup 22385 6 syms_86]);
   (466216, 10, [AGroup 5 1 [sym_ppDirective]; AGroup 5064 1 [anon_sym_LBRACK];
     AGroup 5069 1 [aux_sym_ppUsesBlock_token1]; AGroup 22425 1 [sym_identifier];
     SGroup 24 1 [sym__ppIf]; SGroup 12776 1 [aux_sym_rttiAttributes_repeat2];
     SGroup 15959 1 [sym_rttiAttributes]; AGroup 3 2 syms_5; SGroup 9425 3 syms_444;
     AGroup 5062 17 syms_670]);
   (466266, 13, [AGroup 21317 1 [sym_kHat]; AGroup 21335 1 [sym_kFdiv]; AGroup 21337 1 [sym_kAs];
     AGroup 21396 1 [sym_kIs]; AGroup 21398 1 [sym_kNot]; AGroup 22427 1 [anon_sym_SEMI];
     SGroup 4250 1 [sym__exprIsNot]; AGroup 20898 2 syms_109; AGroup 21392 2 syms_83;
     AGroup 3 3 syms_1; AGroup 21331 4 syms_84; AGroup 21394 5 syms_85; AGroup 21333 6 syms_86]);
   (466322, 14, [AGroup 20995 1 [sym_kHat]; AGroup 21001 1 [sym_kFdiv]; AGroup 21003 1 [sym_kAs];
     AGroup 21009 1 [sym_kIs]; AGroup 21011 1 [sym_kNot]; AGroup 22369 1 [anon_sym_DOT_DOT];
     AGroup 22429 1 [anon_sym_COMMA]; AGroup 22431 1 [anon_sym_RBRACK];
     SGroup 4357 1 [sym__exprIsNot]; AGroup 21005 2 syms_83; AGroup 3 3 syms_1;
     AGroup 20997 4 syms_84; AGroup 21007 5 syms_85; AGroup 20999 6 syms_86]);
   (466380, 14, [AGroup 20995 1 [sym_kHat]; AGroup 21001 1 [sym_kFdiv]; AGroup 21003 1 [sym_kAs];
     AGroup 21009 1 [sym_kIs]; AGroup 21011 1 [sym_kNot]; AGroup 22365 1 [anon_sym_COMMA];
     AGroup 22369 1 [anon_sym_DOT_DOT]; AGroup 22433 1 [anon_sym_RBRACK];
     SGroup 4357 1 [sym__exprIsNot]; AGroup 21005 2 syms_83; AGroup 3 3 syms_1;
     AGroup 20997 4 syms_84; AGroup 21007 5 syms_85; AGroup 20999 6 syms_86]);
   (466438, 14, [AGroup 17250 1 [anon_sym_RBRACK]; AGroup 20995 1 [sym_kHat]; AGroup 21001 1 [sym_kFdiv];
     AGroup 21003 1 [sym_kAs]; AGroup 21009 1 [sym_kIs]; AGroup 21011 1 [sym_kNot];
     AGroup 22369 1 [anon_sym_DOT_DOT]; AGroup 22429 1 [anon_sym_COMMA];
     SGroup 4357 1 [sym__exprIsNot]; AGroup 21005 2 syms_83; AGroup 3 3 syms_1;
     AGroup 20997 4 syms_84; AGroup 21007 5 syms_85; AGroup 20999 6 syms_86]);
   (466496, 4, [AGroup 5 1 [sym_ppDirective]; AGroup 3 2 syms_5; AGroup 17116 4 syms_25;
     AGroup 17114 22 syms_216]);
   (466534, 10, [AGroup 5 1 [sym_ppDirective]; AGroup 5064 1 [anon_sym_LBRACK];
     AGroup 5069 1 [aux_sym_ppUsesBlock_token1]; AGroup 22435 1 [sym_identifier];
     SGroup 20 1 [sym__ppIf]; SGroup 12776 1 [aux_sym_rttiAttributes_repeat2];
     SGroup 15493 1 [sym_rttiAttributes]; AGroup 3 2 syms_5; SGroup 9514 3 syms_444;
     AGroup 5062 17 syms_671]);
   (466584, 14, [AGroup 20995 1 [sym_kHat]; AGroup 21001 1 [sym_kFdiv]; AGroup 21003 1 [sym_kAs];
     AGroup 21009 1 [sym_kIs]; AGroup 21011 1 [sym_kNot]; AGroup 22365 1 [anon_sym_COMMA];
     AGroup 22369 1 [anon_sym_DOT_DOT]; AGroup 22437 1 [anon_sym_RBRACK];
     SGroup 4357 1 [sym__exprIsNot]; AGroup 21005 2 syms_83; AGroup 3 3 syms_1;
     AGroup 20997 4 syms_84; AGroup 21007 5 syms_85; AGroup 20999 6 syms_86]);
   (466642, 4, [AGroup 5 1 [sym_ppDirective]; AGroup 3 2 syms_5; AGroup 17172 4 syms_25;
     AGroup 17170 22 syms_216]);
   (466680, 14, [AGroup 20995 1 [sym_kHat]; AGroup 21001 1 [sym_kFdiv]; AGroup 21003 1 [sym_kAs];
     AGroup 21009 1 [sym_kIs]; AGroup 21011 1 [sym_kNot]; AGroup 22369 1 [anon_sym_DOT_DOT];
     AGroup 22429 1 [anon_sym_COMMA]; AGroup 22439 1 [anon_sym_RBRACK];
     SGroup 4357 1 [sym__exprIsNot]; AGroup 21005 2 syms_83; AGroup 3 3 syms_1;
     AGroup 20997 4 syms_84; AGroup 21007 5 syms_85; AGroup 20999 6 syms_86]);
   (466738, 14, [AGroup 20995 1 [sym_kHat]; AGroup 21001 1 [sym_kFdiv]; AGroup 21003 1 [sym_kAs];
     AGroup 21009 1 [sym_kIs]; AGroup 21011 1 [sym_kNot]; AGroup 22369 1 [anon_sym_DOT_DOT];
     AGroup 22429 1 [anon_sym_COMMA]; AGroup 22441 1 [anon_sym_RBRACK];
     SGroup 4357 1 [sym__exprIsNot]; AGroup 21005 2 syms_83; AGroup 3 3 syms_1;
     AGroup 20997 4 syms_84; AGroup 21007 5 syms_85; AGroup 20999 6 syms_86]);
   (466796, 10, [AGroup 5 1 [sym_ppDirective]; AGroup 5064 1 [anon_sym_LBRACK];
     AGroup 5069 1 [aux_sym_ppUsesBlock_token1]; AGroup 22435 1 [sym_identifier];
     SGroup 20 1 [sym__ppIf]; SGroup 12776 1 [aux_sym_rttiAttributes_repeat2];
     SGroup 15493 1 [sym_rttiAttributes]; AGroup 3 2 syms_5; SGroup 9522 3 syms_444;
     AGroup 5062 17 syms_671]);
   (466846, 13, [AGroup 21505 1 [sym_kHat]; AGroup 21517 1 [sym_kFdiv]; AGroup 21519 1 [sym_kAs];
     AGroup 21541 1 [sym_kIs]; AGroup 21543 1 [sym_kNot]; AGroup 22443 1 [anon_sym_SEMI];
     SGroup 4805 1 [sym__exprIsNot]; AGroup 20914 2 syms_112; AGroup 21537 2 syms_83;
     AGroup 3 3 syms_1; AGroup 21513 4 syms_84; AGroup 21539 5 syms_85; AGroup 21515 6 syms_86]);
   (466902, 13, [AGroup 21317 1 [sym_kHat]; AGroup 21335 1 [sym_kFdiv]; AGroup 21337 1 [sym_kAs];
     AGroup 21396 1 [sym_kIs]; AGroup 21398 1 [sym_kNot]; AGroup 22445 1 [anon_sym_SEMI];
     SGroup 4250 1 [sym__exprIsNot]; AGroup 20914 2 syms_109; AGroup 21392 2 syms_83;
     AGroup 3 3 syms_1; AGroup 21331 4 syms_84; AGroup 21394 5 syms_85; AGroup 21333 6 syms_86]);
   (466958, 13, [AGroup 21317 1 [sym_kHat]; AGroup 21335 1 [sym_kFdiv]; AGroup 21337 1 [sym_kAs];
     AGroup 21396 1 [sym_kIs]; AGroup 21398 1 [sym_kNot]; AGroup 22447 1 [anon_sym_SEMI];
     SGroup 4250 1 [sym__exprIsNot]; AGroup 20933 2 syms_109; AGroup 21392 2 syms_83;
     AGroup 3 3 syms_1; AGroup 21331 4 syms_84; AGroup 21394 5 syms_85; AGroup 21333 6 syms_86]);
   (467014, 14, [AGroup 20995 1 [sym_kHat]; AGroup 21001 1 [sym_kFdiv]; AGroup 21003 1 [sym_kAs];
     AGroup 21009 1 [sym_kIs]; AGroup 21011 1 [sym_kNot]; AGroup 22365 1 [anon_sym_COMMA];
     AGroup 22369 1 [anon_sym_DOT_DOT]; AGroup 22449 1 [anon_sym_COLON];
     SGroup 4357 1 [sym__exprIsNot]; AGroup 21005 2 syms_83; AGroup 3 3 syms_1;
     AGroup 20997 4 syms_84; AGroup 21007 5 syms_85; AGroup 20999 6 syms_86]);
   (467072, 13, [AGroup 21505 1 [sym_kHat]; AGroup 21517 1 [sym_kFdiv]; AGroup 21519 1 [sym_kAs];
     AGroup 21541 1 [sym_kIs]; AGroup 21543 1 [sym_kNot]; AGroup 22451 1 [anon_sym_SEMI];
     SGroup 4805 1 [sym__exprIsNot]; AGroup 20933 2 syms_112; AGroup 21537 2 syms_83;
     AGroup 3 3 syms_1; AGroup 21513 4 syms_84; AGroup 21539 5 syms_85; AGroup 21515 6 syms_86]);
   (467128, 14, [AGroup 20995 1 [sym_kHat]; AGroup 21001 1 [sym_kFdiv]; AGroup 21003 1 [sym_kAs];
     AGroup 21009 1 [sym_kIs]; AGroup 21011 1 [sym_kNot]; AGroup 22365 1 [anon_sym_COMMA];
     AGroup 22369 1 [anon_sym_DOT_DOT]; AGroup 22453 1 [anon_sym_RBRACK];
     SGroup 4357 1 [sym__exprIsNot]; AGroup 21005 2 syms_83; AGroup 3 3 syms_1;
     AGroup 20997 4 syms_84; AGroup 21007 5 syms_85; AGroup 20999 6 syms_86]);
   (467186, 10, [AGroup 5 1 [sym_ppDirective]; AGroup 6198 1 [anon_sym_LBRACK];
     AGroup 6203 1 [aux_sym_ppUsesBlock_token1]; AGroup 22455 1 [sym_identifier];
     SGroup 24 1 [sym__ppIf]; SGroup 12776 1 [aux_sym_rttiAttributes_repeat2];
     SGroup 15959 1 [sym_rttiAttributes]; AGroup 3 2 syms_5; SGroup 9425 3 syms_444;
     AGroup 6196 17 syms_670]);
   (467236, 12, [AGroup 20826 1 [sym_kHat]; AGroup 21595 1 [sym_kAs]; AGroup 22387 1 [sym_kFdiv];
     AGroup 22389 1 [sym_kIs]; AGroup 22391 1 [sym_kNot]; SGroup 4442 1 [sym__exprIsNot];
     AGroup 22379 2 syms_83; AGroup 3 3 syms_1; AGroup 21029 3 syms_667; AGroup 22383 4 syms_84;
     AGroup 22381 5 syms_85; AGroup 22385 6 syms_86]);
   (467290, 14, [AGroup 17286 1 [anon_sym_RBRACK]; AGroup 20995 1 [sym_kHat]; AGroup 21001 1 [sym_kFdiv];
     AGroup 21003 1 [sym_kAs]; AGroup 21009 1 [sym_kIs]; AGroup 21011 1 [sym_kNot];
     AGroup 22369 1 [anon_sym_DOT_DOT]; AGroup 22429 1 [anon_sym_COMMA];
     SGroup 4357 1 [sym__exprIsNot]; AGroup 21005 2 syms_83; AGroup 3 3 syms_1;
     AGroup 20997 4 syms_84; AGroup 21007 5 syms_85; AGroup 20999 6 syms_86]);
   (467348, 14, [AGroup 20995 1 [sym_kHat]; AGroup 21001 1 [sym_kFdiv]; AGroup 21003 1 [sym_kAs];
     AGroup 21009 1 [sym_kIs]; AGroup 21011 1 [sym_kNot]; AGroup 22365 1 [anon_sym_COMMA];
     AGroup 22369 1 [anon_sym_DOT_DOT]; AGroup 22458 1 [anon_sym_RBRACK];
     SGroup 4357 1 [sym__exprIsNot]; AGroup 21005 2 syms_83; AGroup 3 3 syms_1;
     AGroup 20997 4 syms_84; AGroup 21007 5 syms_85; AGroup 20999 6 syms_86]);
   (467406, 14, [AGroup 20995 1 [sym_kHat]; AGroup 21001 1 [sym_kFdiv]; AGroup 21003 1 [sym_kAs];
     AGroup 21009 1 [sym_kIs]; AGroup 21011 1 [sym_kNot]; AGroup 22369 1 [anon_sym_DOT_DOT];
     AGroup 22429 1 [anon_sym_COMMA]; AGroup 22460 1 [anon_sym_RBRACK];
     SGroup 4357 1 [sym__exprIsNot]; AGroup 21005 2 syms_83; AGroup 3 3 syms_1;
     AGroup 20997 4 syms_84; AGroup 21007 5 syms_85; AGroup 20999 6 syms_86]);
   (467464, 14, [AGroup 20995 1 [sym_kHat]; AGroup 21001 1 [sym_kFdiv]; AGroup 21003 1 [sym_kAs];
     AGroup 21009 1 [sym_kIs]; AGroup 21011 1 [sym_kNot]; AGroup 22369 1 [anon_sym_DOT_DOT];
     AGroup 22429 1 [anon_sym_COMMA]; AGroup 22462 1 [anon_sym_RBRACK];
     SGroup 4357 1 [sym__exprIsNot]; AGroup 21005 2 syms_83; AGroup 3 3 syms_1;
     AGroup 20997 4 syms_84; AGroup 21007 5 syms_85; AGroup 20999 6 syms_86]);
   (467522, 14, [AGroup 20995 1 [sym_kHat]; AGroup 21001 1 [sym_kFdiv]; AGroup 21003 1 [sym_kAs];
     AGroup 21009 1 [sym_kIs]; AGroup 21011 1 [sym_kNot]; AGroup 22365 1 [anon_sym_COMMA];
     AGroup 22369 1 [anon_sym_DOT_DOT]; AGroup 22464 1 [anon_sym_RBRACK];
     SGroup 4357 1 [sym__exprIsNot]; AGroup 21005 2 syms_83; AGroup 3 3 syms_1;
     AGroup 20997 4 syms_84; AGroup 21007 5 syms_85; AGroup 20999 6 syms_86]);
   (467580, 13, [AGroup 21577 1 [sym_kFdiv]; AGroup 21579 1 [sym_kHat]; AGroup 21581 1 [sym_kAs];
     AGroup 21583 1 [sym_kIs]; AGroup 21585 1 [sym_kNot]; AGroup 22225 1 [anon_sym_SEMI];
     SGroup 4822 1 [sym__exprIsNot]; AGroup 20898 2 syms_110; AGroup 21569 2 syms_83;
     AGroup 3 3 syms_1; AGroup 21573 4 syms_84; AGroup 21571 5 syms_85; AGroup 21575 6 syms_86]);
   (467636, 14, [AGroup 20764 1 [sym_kElse]; AGroup 21339 1 [sym_kHat]; AGroup 21345 1 [sym_kFdiv];
     AGroup 21347 1 [sym_kAs]; AGroup 21383 1 [sym_kIs]; AGroup 21385 1 [sym_kNot];
     AGroup 22466 1 [anon_sym_SEMI]; AGroup 22468 1 [sym_kRaiseAt];
     SGroup 4349 1 [sym__exprIsNot]; AGroup 21379 2 syms_83; AGroup 3 3 syms_1;
     AGroup 21341 4 syms_84; AGroup 21381 5 syms_85; AGroup 21343 6 syms_86]);
   (467694, 14, [AGroup 20995 1 [sym_kHat]; AGroup 21001 1 [sym_kFdiv]; AGroup 21003 1 [sym_kAs];
     AGroup 21009 1 [sym_kIs]; AGroup 21011 1 [sym_kNot]; AGroup 22365 1 [anon_sym_COMMA];
     AGroup 22369 1 [anon_sym_DOT_DOT]; AGroup 22470 1 [anon_sym_RBRACK];
     SGroup 4357 1 [sym__exprIsNot]; AGroup 21005 2 syms_83; AGroup 3 3 syms_1;
     AGroup 20997 4 syms_84; AGroup 21007 5 syms_85; AGroup 20999 6 syms_86]);
   (467752, 14, [AGroup 20995 1 [sym_kHat]; AGroup 21001 1 [sym_kFdiv]; AGroup 21003 1 [sym_kAs];
     AGroup 21009 1 [sym_kIs]; AGroup 21011 1 [sym_kNot]; AGroup 22365 1 [anon_sym_COMMA];
     AGroup 22369 1 [anon_sym_DOT_DOT]; AGroup 22472 1 [anon_sym_RBRACK];
     SGroup 4357 1 [sym__exprIsNot]; AGroup 21005 2 syms_83; AGroup 3 3 syms_1;
     AGroup 20997 4 syms_84; AGroup 21007 5 syms_85; AGroup 20999 6 syms_86]);
   (467810, 13, [AGroup 21505 1 [sym_kHat]; AGroup 21517 1 [sym_kFdiv]; AGroup 21519 1 [sym_kAs];
     AGroup 21541 1 [sym_kIs]; AGroup 21543 1 [sym_kNot]; AGroup 22474 1 [anon_sym_SEMI];
     SGroup 4805 1 [sym__exprIsNot]; AGroup 20898 2 syms_112; AGroup 21537 2 syms_83;
     AGroup 3 3 syms_1; AGroup 21513 4 syms_84; AGroup 21539 5 syms_85; AGroup 21515 6 syms_86]);
   (467866, 14, [AGroup 20764 1 [sym_kElse]; AGroup 21339 1 [sym_kHat]; AGroup 21345 1 [sym_kFdiv];
     AGroup 21347 1 [sym_kAs]; AGroup 21383 1 [sym_kIs]; AGroup 21385 1 [sym_kNot];
     AGroup 22476 1 [anon_sym_SEMI]; AGroup 22478 1 [sym_kRaiseAt];
     SGroup 4349 1 [sym__exprIsNot]; AGroup 21379 2 syms_83; AGroup 3 3 syms_1;
     AGroup 21341 4 syms_84; AGroup 21381 5 syms_85; AGroup 21343 6 syms_86]);
   (467924, 12, [AGroup 21357 1 [sym_kHat]; AGroup 21371 1 [sym_kFdiv]; AGroup 21373 1 [sym_kAs];
     AGroup 21527 1 [sym_kIs]; AGroup 21529 1 [sym_kNot]; SGroup 4278 1 [sym__exprIsNot];
     AGroup 21523 2 syms_83; AGroup 3 3 syms_1; AGroup 17936 3 syms_672; AGroup 21367 4 syms_84;
     AGroup 21525 5 syms_85; AGroup 21369 6 syms_86]);
   (467978, 14, [AGroup 20995 1 [sym_kHat]; AGroup 21001 1 [sym_kFdiv]; AGroup 21003 1 [sym_kAs];
     AGroup 21009 1 [sym_kIs]; AGroup 21011 1 [sym_kNot]; AGroup 22365 1 [anon_sym_COMMA];
     AGroup 22369 1 [anon_sym_DOT_DOT]; AGroup 22480 1 [anon_sym_COLON];
     SGroup 4357 1 [sym__exprIsNot]; AGroup 21005 2 syms_83; AGroup 3 3 syms_1;
     AGroup 20997 4 syms_84; AGroup 21007 5 syms_85; AGroup 20999 6 syms_86]);
   (468036, 14, [AGroup 20995 1 [sym_kHat]; AGroup 21001 1 [sym_kFdiv]; AGroup 21003 1 [sym_kAs];
     AGroup 21009 1 [sym_kIs]; AGroup 21011 1 [sym_kNot]; AGroup 22365 1 [anon_sym_COMMA];
     AGroup 22369 1 [anon_sym_DOT_DOT]; AGroup 22482 1 [anon_sym_RBRACK];
     SGroup 4357 1 [sym__exprIsNot]; AGroup 21005 2 syms_83; AGroup 3 3 syms_1;
     AGroup 20997 4 syms_84; AGroup 21007 5 syms_85; AGroup 20999 6 syms_86]);
   (468094, 13, [AGroup 21505 1 [sym_kHat]; AGroup 21517 1 [sym_kFdiv]; AGroup 21519 1 [sym_kAs];
     AGroup 21541 1 [sym_kIs]; AGroup 21543 1 [sym_kNot]; AGroup 22484 1 [anon_sym_SEMI];
     SGroup 4805 1 [sym__exprIsNot]; AGroup 20914 2 syms_112; AGroup 21537 2 syms_83;
     AGroup 3 3 syms_1; AGroup 21513 4 syms_84; AGroup 21539 5 syms_85; AGroup 21515 6 syms_86]);
   (468150, 13, [AGroup 21505 1 [sym_kHat]; AGroup 21517 1 [sym_kFdiv]; AGroup 21519 1 [sym_kAs];
     AGroup 21541 1 [sym_kIs]; AGroup 21543 1 [sym_kNot]; AGroup 22486 1 [anon_sym_SEMI];
     SGroup 4805 1 [sym__exprIsNot]; AGroup 20933 2 syms_112; AGroup 21537 2 syms_83;
     AGroup 3 3 syms_1; AGroup 21513 4 syms_84; AGroup 21539 5 syms_85; AGroup 21515 6 syms_86]);
   (468206, 14, [AGroup 20995 1 [sym_kHat]; AGroup 21001 1 [sym_kFdiv]; AGroup 21003 1 [sym_kAs];
     AGroup 21009 1 [sym_kIs]; AGroup 21011 1 [sym_kNot]; AGroup 22365 1 [anon_sym_COMMA];
     AGroup 22369 1 [anon_sym_DOT_DOT]; AGroup 22488 1 [anon_sym_RBRACK];
     SGroup 4357 1 [sym__exprIsNot]; AGroup 21005 2 syms_83; AGroup 3 3 syms_1;
     AGroup 20997 4 syms_84; AGroup 21007 5 syms_85; AGroup 20999 6 syms_86]);
   (468264, 14, [AGroup 20995 1 [sym_kHat]; AGroup 21001 1 [sym_kFdiv]; AGroup 21003 1 [sym_kAs];
     AGroup 21009 1 [sym_kIs]; AGroup 21011 1 [sym_kNot]; AGroup 22365 1 [anon_sym_COMMA];
     AGroup 22369 1 [anon_sym_DOT_DOT]; AGroup 22490 1 [anon_sym_RBRACK];
     SGroup 4357 1 [sym__exprIsNot]; AGroup 21005 2 syms_83; AGroup 3 3 syms_1;
     AGroup 20997 4 syms_84; AGroup 21007 5 syms_85; AGroup 20999 6 syms_86]);
   (468322, 5, [AGroup 20826 1 [sym_kHat]; SGroup 4442 1 [sym__exprIsNot]; AGroup 3 3 syms_1;
     AGroup 16914 3 syms_429; AGroup 16912 21 syms_673]);
   (468362, 5, [AGroup 5 1 [sym_ppDirective]; AGroup 3 2 syms_5; AGroup 22492 2 syms_669;
     AGroup 22403 5 syms_150; AGroup 22401 19 syms_151]);
   (468402, 14, [AGroup 20995 1 [sym_kHat]; AGroup 21001 1 [sym_kFdiv]; AGroup 21003 1 [sym_kAs];
     AGroup 21009 1 [sym_kIs]; AGroup 21011 1 [sym_kNot]; AGroup 22365 1 [anon_sym_COMMA];
     AGroup 22369 1 [anon_sym_DOT_DOT]; AGroup 22494 1 [anon_sym_RBRACK];
     SGroup 4357 1 [sym__exprIsNot]; AGroup 21005 2 syms_83; AGroup 3 3 syms_1;
     AGroup 20997 4 syms_84; AGroup 21007 5 syms_85; AGroup 20999 6 syms_86]);
   (468460, 14, [AGroup 20995 1 [sym_kHat]; AGroup 21001 1 [sym_kFdiv]; AGroup 21003 1 [sym_kAs];
     AGroup 21009 1 [sym_kIs]; AGroup 21011 1 [sym_kNot]; AGroup 22365 1 [anon_sym_COMMA];
     AGroup 22369 1 [anon_sym_DOT_DOT]; AGroup 22496 1 [anon_sym_RBRACK];
     SGroup 4357 1 [sym__exprIsNot]; AGroup 21005 2 syms_83; AGroup 3 3 syms_1;
     AGroup 20997 4 syms_84; AGroup 21007 5 syms_85; AGroup 20999 6 syms_86]);
   (468518, 14, [AGroup 20995 1 [sym_kHat]; AGroup 21001 1 [sym_kFdiv]; AGroup 21003 1 [sym_kAs];
     AGroup 21009 1 [sym_kIs]; AGroup 21011 1 [sym_kNot]; AGroup 22365 1 [anon_sym_COMMA];
     AGroup 22369 1 [anon_sym_DOT_DOT]; AGroup 22498 1 [anon_sym_RBRACK];
     SGroup 4357 1 [sym__exprIsNot]; AGroup 21005 2 syms_83; AGroup 3 3 syms_1;
     AGroup 20997 4 syms_84; AGroup 21007 5 syms_85; AGroup 20999 6 syms_86]);
   (468576, 12, [AGroup 21357 1 [sym_kHat]; AGroup 21371 1 [sym_kFdiv]; AGroup 21373 1 [sym_kAs];
     AGroup 21527 1 [sym_kIs]; AGroup 21529 1 [sym_kNot]; SGroup 4278 1 [sym__exprIsNot];
     AGroup 21523 2 syms_83; AGroup 3 3 syms_1; AGroup 17938 3 syms_672; AGroup 21367 4 syms_84;
     AGroup 21525 5 syms_85; AGroup 21369 6 syms_86]);
   (468630, 10, [AGroup 5 1 [sym_ppDirective]; AGroup 5783 1 [anon_sym_LBRACK];
     AGroup 5788 1 [aux_sym_ppUsesBlock_token1]; AGroup 22500 1 [sym_identifier];
     SGroup 25 1 [sym__ppIf]; SGroup 12776 1 [aux_sym_rttiAttributes_repeat2];
     SGroup 15533 1 [sym_rttiAttributes]; AGroup 3 2 syms_5; SGroup 9453 3 syms_444;
     AGroup 5781 17 syms_674]);
   (468680, 14, [AGroup 20995 1 [sym_kHat]; AGroup 21001 1 [sym_kFdiv]; AGroup 21003 1 [sym_kAs];
     AGroup 21009 1 [sym_kIs]; AGroup 21011 1 [sym_kNot]; AGroup 22365 1 [anon_sym_COMMA];
     AGroup 22369 1 [anon_sym_DOT_DOT]; AGroup 22502 1 [anon_sym_RBRACK];
     SGroup 4357 1 [sym__exprIsNot]; AGroup 21005 2 syms_83; AGroup 3 3 syms_1;
     AGroup 20997 4 syms_84; AGroup 21007 5 syms_85; AGroup 20999 6 syms_86]);
   (468738, 10, [AGroup 5 1 [sym_ppDirective]; AGroup 6198 1 [anon_sym_LBRACK];
     AGroup 6203 1 [aux_sym_ppUsesBlock_token1]; AGroup 22504 1 [sym_identifier];
     SGroup 25 1 [sym__ppIf]; SGroup 12776 1 [aux_sym_rttiAttributes_repeat2];
     SGroup 15533 1 [sym_rttiAttributes]; AGroup 3 2 syms_5; SGroup 9453 3 syms_444;
     AGroup 6196 17 syms_674]);
   (468788, 14, [AGroup 20995 1 [sym_kHat]; AGroup 21001 1 [sym_kFdiv]; AGroup 21003 1 [sym_kAs];
     AGroup 21009 1 [sym_kIs]; AGroup 21011 1 [sym_kNot]; AGroup 22365 1 [anon_sym_COMMA];
     AGroup 22369 1 [anon_sym_DOT_DOT]; AGroup 22507 1 [anon_sym_RBRACK];
     SGroup 4357 1 [sym__exprIsNot]; AGroup 21005 2 syms_83; AGroup 3 3 syms_1;
     AGroup 20997 4 syms_84; AGroup 21007 5 syms_85; AGroup 20999 6 syms_86]);
   (468846, 14, [AGroup 20995 1 [sym_kHat]; AGroup 21001 1 [sym_kFdiv]; AGroup 21003 1 [sym_kAs];
     AGroup 21009 1 [sym_kIs]; AGroup 21011 1 [sym_kNot]; AGroup 22365 1 [anon_sym_COMMA];
     AGroup 22369 1 [anon_sym_DOT_DOT]; AGroup 22509 1 [anon_sym_RBRACK];
     SGroup 4357 1 [sym__exprIsNot]; AGroup 21005 2 syms_83; AGroup 3 3 syms_1;
     AGroup 20997 4 syms_84; AGroup 21007 5 syms_85; AGroup 20999 6 syms_86]);
   (468904, 14, [AGroup 20995 1 [sym_kHat]; AGroup 21001 1 [sym_kFdiv]; AGroup 21003 1 [sym_kAs];
     AGroup 21009 1 [sym_kIs]; AGroup 21011 1 [sym_kNot]; AGroup 22365 1 [anon_sym_COMMA];
     AGroup 22369 1 [anon_sym_DOT_DOT]; AGroup 22511 1 [anon_sym_RBRACK];
     SGroup 4357 1 [sym__exprIsNot]; AGroup 21005 2 syms_83; AGroup 3 3 syms_1;
     AGroup 20997 4 syms_84; AGroup 21007 5 syms_85; AGroup 20999 6 syms_86]);
   (468962, 10, [AGroup 5 1 [sym_ppDirective]; AGroup 4623 1 [anon_sym_LBRACK];
     AGroup 4628 1 [aux_sym_ppUsesBlock_token1]; AGroup 22425 1 [sym_identifier];
     SGroup 24 1 [sym__ppIf]; SGroup 12776 1 [aux_sym_rttiAttributes_repeat2];
     SGroup 15959 1 [sym_rttiAttributes]; AGroup 3 2 syms_5; SGroup 9407 3 syms_444;
     AGroup 4621 17 syms_670]);
   (469012, 14, [AGroup 20995 1 [sym_kHat]; AGroup 21001 1 [sym_kFdiv]; AGroup 21003 1 [sym_kAs];
     AGroup 21009 1 [sym_kIs]; AGroup 21011 1 [sym_kNot]; AGroup 22365 1 [anon_sym_COMMA];
     AGroup 22369 1 [anon_sym_DOT_DOT]; AGroup 22513 1 [anon_sym_RBRACK];
     SGroup 4357 1 [sym__exprIsNot]; AGroup 21005 2 syms_83; AGroup 3 3 syms_1;
     AGroup 20997 4 syms_84; AGroup 21007 5 syms_85; AGroup 20999 6 syms_86])
  ].

(** States 9459 to 9558. *)
Definition small_runs_9459 : list small_run :=
  [
   (469070, 14, [AGroup 20995 1 [sym_kHat]; AGroup 21001 1 [sym_kFdiv]; AGroup 21003 1 [sym_kAs];
     AGroup 21009 1 [sym_kIs]; AGroup 21011 1 [sym_kNot]; AGroup 22365 1 [anon_sym_COMMA];
     AGroup 22369 1 [anon_sym_DOT_DOT]; AGroup 22515 1 [anon_sym_RBRACK];
     SGroup 4357 1 [sym__exprIsNot]; AGroup 21005 2 syms_83; AGroup 3 3 syms_1;
     AGroup 20997 4 syms_84; AGroup 21007 5 syms_85; AGroup 20999 6 syms_86]);
   (469128, 14, [AGroup 20995 1 [sym_kHat]; AGroup 21001 1 [sym_kFdiv]; AGroup 21003 1 [sym_kAs];
     AGroup 21009 1 [sym_kIs]; AGroup 21011 1 [sym_kNot]; AGroup 22365 1 [anon_sym_COMMA];
     AGroup 22369 1 [anon_sym_DOT_DOT]; AGroup 22517 1 [anon_sym_RBRACK];
     SGroup 4357 1 [sym__exprIsNot]; AGroup 21005 2 syms_83; AGroup 3 3 syms_1;
     AGroup 20997 4 syms_84; AGroup 21007 5 syms_85; AGroup 20999 6 syms_86]);
   (469186, 14, [AGroup 20995 1 [sym_kHat]; AGroup 21001 1 [sym_kFdiv]; AGroup 21003 1 [sym_kAs];
     AGroup 21009 1 [sym_kIs]; AGroup 21011 1 [sym_kNot]; AGroup 22365 1 [anon_sym_COMMA];
     AGroup 22369 1 [anon_sym_DOT_DOT]; AGroup 22519 1 [anon_sym_RBRACK];
     SGroup 4357 1 [sym__exprIsNot]; AGroup 21005 2 syms_83; AGroup 3 3 syms_1;
     AGroup 20997 4 syms_84; AGroup 21007 5 syms_85; AGroup 20999 6 syms_86]);
   (469244, 14, [AGroup 20995 1 [sym_kHat]; AGroup 21001 1 [sym_kFdiv]; AGroup 21003 1 [sym_kAs];
     AGroup 21009 1 [sym_kIs]; AGroup 21011 1 [sym_kNot]; AGroup 22365 1 [anon_sym_COMMA];
     AGroup 22369 1 [anon_sym_DOT_DOT]; AGroup 22521 1 [anon_sym_RBRACK];
     SGroup 4357 1 [sym__exprIsNot]; AGroup 21005 2 syms_83; AGroup 3 3 syms_1;
     AGroup 20997 4 syms_84; AGroup 21007 5 syms_85; AGroup 20999 6 syms_86]);
   (469302, 14, [AGroup 20995 1 [sym_kHat]; AGroup 21001 1 [sym_kFdiv]; AGroup 21003 1 [sym_kAs];
     AGroup 21009 1 [sym_kIs]; AGroup 21011 1 [sym_kNot]; AGroup 22365 1 [anon_sym_COMMA];
     AGroup 22369 1 [anon_sym_DOT_DOT]; AGroup 22523 1 [anon_sym_RBRACK];
     SGroup 4357 1 [sym__exprIsNot]; AGroup 21005 2 syms_83; AGroup 3 3 syms_1;
     AGroup 20997 4 syms_84; AGroup 21007 5 syms_85; AGroup 20999 6 syms_86]);
   (469360, 14, [AGroup 20995 1 [sym_kHat]; AGroup 21001 1 [sym_kFdiv]; AGroup 21003 1 [sym_kAs];
     AGroup 21009 1 [sym_kIs]; AGroup 21011 1 [sym_kNot]; AGroup 22365 1 [anon_sym_COMMA];
     AGroup 22369 1 [anon_sym_DOT_DOT]; AGroup 22525 1 [anon_sym_RBRACK];
     SGroup 4357 1 [sym__exprIsNot]; AGroup 21005 2 syms_83; AGroup 3 3 syms_1;
     AGroup 20997 4 syms_84; AGroup 21007 5 syms_85; AGroup 20999 6 syms_86]);
   (469418, 12, [AGroup 21505 1 [sym_kHat]; AGroup 21517 1 [sym_kFdiv]; AGroup 21519 1 [sym_kAs];
     AGroup 21541 1 [sym_kIs]; AGroup 21543 1 [sym_kNot]; SGroup 4805 1 [sym__exprIsNot];
     AGroup 21537 2 syms_83; AGroup 3 3 syms_1; AGroup 21029 3 syms_675; AGroup 21513 4 syms_84;
     AGroup 21539 5 syms_85; AGroup 21515 6 syms_86]);
   (469472, 14, [AGroup 20995 1 [sym_kHat]; AGroup 21001 1 [sym_kFdiv]; AGroup 21003 1 [sym_kAs];
     AGroup 21009 1 [sym_kIs]; AGroup 21011 1 [sym_kNot]; AGroup 22365 1 [anon_sym_COMMA];
     AGroup 22369 1 [anon_sym_DOT_DOT]; AGroup 22527 1 [anon_sym_RBRACK];
     SGroup 4357 1 [sym__exprIsNot]; AGroup 21005 2 syms_83; AGroup 3 3 syms_1;
     AGroup 20997 4 syms_84; AGroup 21007 5 syms_85; AGroup 20999 6 syms_86]);
   (469530, 14, [AGroup 20995 1 [sym_kHat]; AGroup 21001 1 [sym_kFdiv]; AGroup 21003 1 [sym_kAs];
     AGroup 21009 1 [sym_kIs]; AGroup 21011 1 [sym_kNot]; AGroup 22365 1 [anon_sym_COMMA];
     AGroup 22369 1 [anon_sym_DOT_DOT]; AGroup 22529 1 [anon_sym_RBRACK];
     SGroup 4357 1 [sym__exprIsNot]; AGroup 21005 2 syms_83; AGroup 3 3 syms_1;
     AGroup 20997 4 syms_84; AGroup 21007 5 syms_85; AGroup 20999 6 syms_86]);
   (469588, 13, [AGroup 20826 1 [sym_kHat]; AGroup 20834 1 [sym_kAs]; AGroup 21460 1 [sym_kFdiv];
     AGroup 21462 1 [sym_kIs]; AGroup 21464 1 [sym_kNot]; AGroup 22531 1 [anon_sym_RPAREN];
     SGroup 4778 1 [sym__exprIsNot]; AGroup 21029 2 syms_668; AGroup 21452 2 syms_83;
     AGroup 3 3 syms_1; AGroup 21456 4 syms_84; AGroup 21454 5 syms_85; AGroup 21458 6 syms_86]);
   (469644, 14, [AGroup 20995 1 [sym_kHat]; AGroup 21001 1 [sym_kFdiv]; AGroup 21003 1 [sym_kAs];
     AGroup 21009 1 [sym_kIs]; AGroup 21011 1 [sym_kNot]; AGroup 22365 1 [anon_sym_COMMA];
     AGroup 22369 1 [anon_sym_DOT_DOT]; AGroup 22533 1 [anon_sym_RBRACK];
     SGroup 4357 1 [sym__exprIsNot]; AGroup 21005 2 syms_83; AGroup 3 3 syms_1;
     AGroup 20997 4 syms_84; AGroup 21007 5 syms_85; AGroup 20999 6 syms_86]);
   (469702, 14, [AGroup 20995 1 [sym_kHat]; AGroup 21001 1 [sym_kFdiv]; AGroup 21003 1 [sym_kAs];
     AGroup 21009 1 [sym_kIs]; AGroup 21011 1 [sym_kNot]; AGroup 22365 1 [anon_sym_COMMA];
     AGroup 22369 1 [anon_sym_DOT_DOT]; AGroup 22535 1 [anon_sym_RBRACK];
     SGroup 4357 1 [sym__exprIsNot]; AGroup 21005 2 syms_83; AGroup 3 3 syms_1;
     AGroup 20997 4 syms_84; AGroup 21007 5 syms_85; AGroup 20999 6 syms_86]);
   (469760, 14, [AGroup 20995 1 [sym_kHat]; AGroup 21001 1 [sym_kFdiv]; AGroup 21003 1 [sym_kAs];
     AGroup 21009 1 [sym_kIs]; AGroup 21011 1 [sym_kNot]; AGroup 22365 1 [anon_sym_COMMA];
     AGroup 22369 1 [anon_sym_DOT_DOT]; AGroup 22537 1 [anon_sym_RBRACK];
     SGroup 4357 1 [sym__exprIsNot]; AGroup 21005 2 syms_83; AGroup 3 3 syms_1;
     AGroup 20997 4 syms_84; AGroup 21007 5 syms_85; AGroup 20999 6 syms_86]);
   (469818, 14, [AGroup 20995 1 [sym_kHat]; AGroup 21001 1 [sym_kFdiv]; AGroup 21003 1 [sym_kAs];
     AGroup 21009 1 [sym_kIs]; AGroup 21011 1 [sym_kNot]; AGroup 22365 1 [anon_sym_COMMA];
     AGroup 22369 1 [anon_sym_DOT_DOT]; AGroup 22539 1 [anon_sym_RBRACK];
     SGroup 4357 1 [sym__exprIsNot]; AGroup 21005 2 syms_83; AGroup 3 3 syms_1;
     AGroup 20997 4 syms_84; AGroup 21007 5 syms_85; AGroup 20999 6 syms_86]);
   (469876, 13, [AGroup 21577 1 [sym_kFdiv]; AGroup 21579 1 [sym_kHat]; AGroup 21581 1 [sym_kAs];
     AGroup 21583 1 [sym_kIs]; AGroup 21585 1 [sym_kNot]; AGroup 22267 1 [anon_sym_SEMI];
     SGroup 4822 1 [sym__exprIsNot]; AGroup 20914 2 syms_110; AGroup 21569 2 syms_83;
     AGroup 3 3 syms_1; AGroup 21573 4 syms_84; AGroup 21571 5 syms_85; AGroup 21575 6 syms_86]);
   (469932, 14, [AGroup 20995 1 [sym_kHat]; AGroup 21001 1 [sym_kFdiv]; AGroup 21003 1 [sym_kAs];
     AGroup 21009 1 [sym_kIs]; AGroup 21011 1 [sym_kNot]; AGroup 22365 1 [anon_sym_COMMA];
     AGroup 22369 1 [anon_sym_DOT_DOT]; AGroup 22541 1 [anon_sym_RBRACK];
     SGroup 4357 1 [sym__exprIsNot]; AGroup 21005 2 syms_83; AGroup 3 3 syms_1;
     AGroup 20997 4 syms_84; AGroup 21007 5 syms_85; AGroup 20999 6 syms_86]);
   (469990, 14, [AGroup 20995 1 [sym_kHat]; AGroup 21001 1 [sym_kFdiv]; AGroup 21003 1 [sym_kAs];
     AGroup 21009 1 [sym_kIs]; AGroup 21011 1 [sym_kNot]; AGroup 22365 1 [anon_sym_COMMA];
     AGroup 22369 1 [anon_sym_DOT_DOT]; AGroup 22543 1 [anon_sym_RBRACK];
     SGroup 4357 1 [sym__exprIsNot]; AGroup 21005 2 syms_83; AGroup 3 3 syms_1;
     AGroup 20997 4 syms_84; AGroup 21007 5 syms_85; AGroup 20999 6 syms_86]);
   (470048, 14, [AGroup 20995 1 [sym_kHat]; AGroup 21001 1 [sym_kFdiv]; AGroup 21003 1 [sym_kAs];
     AGroup 21009 1 [sym_kIs]; AGroup 21011 1 [sym_kNot]; AGroup 22365 1 [anon_sym_COMMA];
     AGroup 22369 1 [anon_sym_DOT_DOT]; AGroup 22545 1 [anon_sym_RBRACK];
     SGroup 4357 1 [sym__exprIsNot]; AGroup 21005 2 syms_83; AGroup 3 3 syms_1;
     AGroup 20997 4 syms_84; AGroup 21007 5 syms_85; AGroup 20999 6 syms_86]);
   (470106, 14, [AGroup 20995 1 [sym_kHat]; AGroup 21001 1 [sym_kFdiv]; AGroup 21003 1 [sym_kAs];
     AGroup 21009 1 [sym_kIs]; AGroup 21011 1 [sym_kNot]; AGroup 22365 1 [anon_sym_COMMA];
     AGroup 22369 1 [anon_sym_DOT_DOT]; AGroup 22547 1 [anon_sym_RBRACK];
     SGroup 4357 1 [sym__exprIsNot]; AGroup 21005 2 syms_83; AGroup 3 3 syms_1;
     AGroup 20997 4 syms_84; AGroup 21007 5 syms_85; AGroup 20999 6 syms_86]);
   (470164, 14, [AGroup 20995 1 [sym_kHat]; AGroup 21001 1 [sym_kFdiv]; AGroup 21003 1 [sym_kAs];
     AGroup 21009 1 [sym_kIs]; AGroup 21011 1 [sym_kNot]; AGroup 22365 1 [anon_sym_COMMA];
     AGroup 22369 1 [anon_sym_DOT_DOT]; AGroup 22549 1 [anon_sym_RBRACK];
     SGroup 4357 1 [sym__exprIsNot]; AGroup 21005 2 syms_83; AGroup 3 3 syms_1;
     AGroup 20997 4 syms_84; AGroup 21007 5 syms_85; AGroup 20999 6 syms_86]);
   (470222, 14, [AGroup 20995 1 [sym_kHat]; AGroup 21001 1 [sym_kFdiv]; AGroup 21003 1 [sym_kAs];
     AGroup 21009 1 [sym_kIs]; AGroup 21011 1 [sym_kNot]; AGroup 22365 1 [anon_sym_COMMA];
     AGroup 22369 1 [anon_sym_DOT_DOT]; AGroup 22551 1 [anon_sym_RBRACK];
     SGroup 4357 1 [sym__exprIsNot]; AGroup 21005 2 syms_83; AGroup 3 3 syms_1;
     AGroup 20997 4 syms_84; AGroup 21007 5 syms_85; AGroup 20999 6 syms_86]);
   (470280, 14, [AGroup 20995 1 [sym_kHat]; AGroup 21001 1 [sym_kFdiv]; AGroup 21003 1 [sym_kAs];
     AGroup 21009 1 [sym_kIs]; AGroup 21011 1 [sym_kNot]; AGroup 22365 1 [anon_sym_COMMA];
     AGroup 22369 1 [anon_sym_DOT_DOT]; AGroup 22553 1 [anon_sym_RBRACK];
     SGroup 4357 1 [sym__exprIsNot]; AGroup 21005 2 syms_83; AGroup 3 3 syms_1;
     AGroup 20997 4 syms_84; AGroup 21007 5 syms_85; AGroup 20999 6 syms_86]);
   (470338, 14, [AGroup 20995 1 [sym_kHat]; AGroup 21001 1 [sym_kFdiv]; AGroup 21003 1 [sym_kAs];
     AGroup 21009 1 [sym_kIs]; AGroup 21011 1 [sym_kNot]; AGroup 22365 1 [anon_sym_COMMA];
     AGroup 22369 1 [anon_sym_DOT_DOT]; AGroup 22555 1 [anon_sym_RBRACK];
     SGroup 4357 1 [sym__exprIsNot]; AGroup 21005 2 syms_83; AGroup 3 3 syms_1;
     AGroup 20997 4 syms_84; AGroup 21007 5 syms_85; AGroup 20999 6 syms_86]);
   (470396, 14, [AGroup 20995 1 [sym_kHat]; AGroup 21001 1 [sym_kFdiv]; AGroup 21003 1 [sym_kAs];
     AGroup 21009 1 [sym_kIs]; AGroup 21011 1 [sym_kNot]; AGroup 22365 1 [anon_sym_COMMA];
     AGroup 22369 1 [anon_sym_DOT_DOT]; AGroup 22557 1 [anon_sym_RBRACK];
     SGroup 4357 1 [sym__exprIsNot]; AGroup 21005 2 syms_83; AGroup 3 3 syms_1;
     AGroup 20997 4 syms_84; AGroup 21007 5 syms_85; AGroup 20999 6 syms_86]);
   (470454, 14, [AGroup 20995 1 [sym_kHat]; AGroup 21001 1 [sym_kFdiv]; AGroup 21003 1 [sym_kAs];
     AGroup 21009 1 [sym_kIs]; AGroup 21011 1 [sym_kNot]; AGroup 22365 1 [anon_sym_COMMA];
     AGroup 22369 1 [anon_sym_DOT_DOT]; AGroup 22559 1 [anon_sym_RBRACK];
     SGroup 4357 1 [sym__exprIsNot]; AGroup 21005 2 syms_83; AGroup 3 3 syms_1;
     AGroup 20997 4 syms_84; AGroup 21007 5 syms_85; AGroup 20999 6 syms_86]);
   (470512, 14, [AGroup 20995 1 [sym_kHat]; AGroup 21001 1 [sym_kFdiv]; AGroup 21003 1 [sym_kAs];
     AGroup 21009 1 [sym_kIs]; AGroup 21011 1 [sym_kNot]; AGroup 22365 1 [anon_sym_COMMA];
     AGroup 22369 1 [anon_sym_DOT_DOT]; AGroup 22561 1 [anon_sym_RBRACK];
     SGroup 4357 1 [sym__exprIsNot]; AGroup 21005 2 syms_83; AGroup 3 3 syms_1;
     AGroup 20997 4 syms_84; AGroup 21007 5 syms_85; AGroup 20999 6 syms_86]);
   (470570, 14, [AGroup 20995 1 [sym_kHat]; AGroup 21001 1 [sym_kFdiv]; AGroup 21003 1 [sym_kAs];
     AGroup 21009 1 [sym_kIs]; AGroup 21011 1 [sym_kNot]; AGroup 22365 1 [anon_sym_COMMA];
     AGroup 22369 1 [anon_sym_DOT_DOT]; AGroup 22563 1 [anon_sym_RBRACK];
     SGroup 4357 1 [sym__exprIsNot]; AGroup 21005 2 syms_83; AGroup 3 3 syms_1;
     AGroup 20997 4 syms_84; AGroup 21007 5 syms_85; AGroup 20999 6 syms_86]);
   (470628, 4, [AGroup 5 1 [sym_ppDirective]; AGroup 3 2 syms_5; AGroup 17256 4 syms_25;
     AGroup 17254 22 syms_216]);
   (470666, 14, [AGroup 20995 1 [sym_kHat]; AGroup 21001 1 [sym_kFdiv]; AGroup 21003 1 [sym_kAs];
     AGroup 21009 1 [sym_kIs]; AGroup 21011 1 [sym_kNot]; AGroup 22365 1 [anon_sym_COMMA];
     AGroup 22369 1 [anon_sym_DOT_DOT]; AGroup 22565 1 [anon_sym_RBRACK];
     SGroup 4357 1 [sym__exprIsNot]; AGroup 21005 2 syms_83; AGroup 3 3 syms_1;
     AGroup 20997 4 syms_84; AGroup 21007 5 syms_85; AGroup 20999 6 syms_86]);
   (470724, 13, [AGroup 21505 1 [sym_kHat]; AGroup 21517 1 [sym_kFdiv]; AGroup 21519 1 [sym_kAs];
     AGroup 21541 1 [sym_kIs]; AGroup 21543 1 [sym_kNot]; AGroup 22567 1 [anon_sym_SEMI];
     SGroup 4805 1 [sym__exprIsNot]; AGroup 20898 2 syms_112; AGroup 21537 2 syms_83;
     AGroup 3 3 syms_1; AGroup 21513 4 syms_84; AGroup 21539 5 syms_85; AGroup 21515 6 syms_86]);
   (470780, 14, [AGroup 20995 1 [sym_kHat]; AGroup 21001 1 [sym_kFdiv]; AGroup 21003 1 [sym_kAs];
     AGroup 21009 1 [sym_kIs]; AGroup 21011 1 [sym_kNot]; AGroup 22365 1 [anon_sym_COMMA];
     AGroup 22369 1 [anon_sym_DOT_DOT]; AGroup 22569 1 [anon_sym_RBRACK];
     SGroup 4357 1 [sym__exprIsNot]; AGroup 21005 2 syms_83; AGroup 3 3 syms_1;
     AGroup 20997 4 syms_84; AGroup 21007 5 syms_85; AGroup 20999 6 syms_86]);
   (470838, 14, [AGroup 20764 1 [sym_kElse]; AGroup 21339 1 [sym_kHat]; AGroup 21345 1 [sym_kFdiv];
     AGroup 21347 1 [sym_kAs]; AGroup 21383 1 [sym_kIs]; AGroup 21385 1 [sym_kNot];
     AGroup 22571 1 [anon_sym_SEMI]; AGroup 22573 1 [sym_kRaiseAt];
     SGroup 4349 1 [sym__exprIsNot]; AGroup 21379 2 syms_83; AGroup 3 3 syms_1;
     AGroup 21341 4 syms_84; AGroup 21381 5 syms_85; AGroup 21343 6 syms_86]);
   (470896, 4, [AGroup 5 1 [sym_ppDirective]; AGroup 3 2 syms_5; AGroup 17120 4 syms_25;
     AGroup 17118 22 syms_216]);
   (470934, 14, [AGroup 20764 1 [sym_kElse]; AGroup 21339 1 [sym_kHat]; AGroup 21345 1 [sym_kFdiv];
     AGroup 21347 1 [sym_kAs]; AGroup 21383 1 [sym_kIs]; AGroup 21385 1 [sym_kNot];
     AGroup 22575 1 [anon_sym_SEMI]; AGroup 22577 1 [sym_kRaiseAt];
     SGroup 4349 1 [sym__exprIsNot]; AGroup 21379 2 syms_83; AGroup 3 3 syms_1;
     AGroup 21341 4 syms_84; AGroup 21381 5 syms_85; AGroup 21343 6 syms_86]);
   (470992, 14, [AGroup 20995 1 [sym_kHat]; AGroup 21001 1 [sym_kFdiv]; AGroup 21003 1 [sym_kAs];
     AGroup 21009 1 [sym_kIs]; AGroup 21011 1 [sym_kNot]; AGroup 22365 1 [anon_sym_COMMA];
     AGroup 22369 1 [anon_sym_DOT_DOT]; AGroup 22579 1 [anon_sym_RBRACK];
     SGroup 4357 1 [sym__exprIsNot]; AGroup 21005 2 syms_83; AGroup 3 3 syms_1;
     AGroup 20997 4 syms_84; AGroup 21007 5 syms_85; AGroup 20999 6 syms_86]);
   (471050, 14, [AGroup 20995 1 [sym_kHat]; AGroup 21001 1 [sym_kFdiv]; AGroup 21003 1 [sym_kAs];
     AGroup 21009 1 [sym_kIs]; AGroup 21011 1 [sym_kNot]; AGroup 22365 1 [anon_sym_COMMA];
     AGroup 22369 1 [anon_sym_DOT_DOT]; AGroup 22581 1 [anon_sym_RBRACK];
     SGroup 4357 1 [sym__exprIsNot]; AGroup 21005 2 syms_83; AGroup 3 3 syms_1;
     AGroup 20997 4 syms_84; AGroup 21007 5 syms_85; AGroup 20999 6 syms_86]);
   (471108, 13, [AGroup 20826 1 [sym_kHat]; AGroup 20834 1 [sym_kAs]; AGroup 21460 1 [sym_kFdiv];
     AGroup 21462 1 [sym_kIs]; AGroup 21464 1 [sym_kNot]; AGroup 22583 1 [anon_sym_RPAREN];
     SGroup 4778 1 [sym__exprIsNot]; AGroup 21029 2 syms_668; AGroup 21452 2 syms_83;
     AGroup 3 3 syms_1; AGroup 21456 4 syms_84; AGroup 21454 5 syms_85; AGroup 21458 6 syms_86]);
   (471164, 10, [AGroup 5 1 [sym_ppDirective]; AGroup 5064 1 [anon_sym_LBRACK];
     AGroup 5069 1 [aux_sym_ppUsesBlock_token1]; AGroup 22425 1 [sym_identifier];
     SGroup 24 1 [sym__ppIf]; SGroup 12776 1 [aux_sym_rttiAttributes_repeat2];
     SGroup 15959 1 [sym_rttiAttributes]; AGroup 3 2 syms_5; SGroup 9512 3 syms_444;
     AGroup 5062 17 syms_670]);
   (471214, 3, [AGroup 5 1 [sym_ppDirective]; AGroup 3 2 syms_5; AGroup 22585 26 syms_676]);
   (471250, 5, [AGroup 5 1 [sym_ppDirective]; AGroup 3 2 syms_5; AGroup 22587 2 syms_669;
     AGroup 22403 5 syms_150; AGroup 22401 19 syms_151]);
   (471290, 14, [AGroup 20995 1 [sym_kHat]; AGroup 21001 1 [sym_kFdiv]; AGroup 21003 1 [sym_kAs];
     AGroup 21009 1 [sym_kIs]; AGroup 21011 1 [sym_kNot]; AGroup 22365 1 [anon_sym_COMMA];
     AGroup 22369 1 [anon_sym_DOT_DOT]; AGroup 22589 1 [anon_sym_RBRACK];
     SGroup 4357 1 [sym__exprIsNot]; AGroup 21005 2 syms_83; AGroup 3 3 syms_1;
     AGroup 20997 4 syms_84; AGroup 21007 5 syms_85; AGroup 20999 6 syms_86]);
   (471348, 14, [AGroup 20995 1 [sym_kHat]; AGroup 21001 1 [sym_kFdiv]; AGroup 21003 1 [sym_kAs];
     AGroup 21009 1 [sym_kIs]; AGroup 21011 1 [sym_kNot]; AGroup 22365 1 [anon_sym_COMMA];
     AGroup 22369 1 [anon_sym_DOT_DOT]; AGroup 22591 1 [anon_sym_RBRACK];
     SGroup 4357 1 [sym__exprIsNot]; AGroup 21005 2 syms_83; AGroup 3 3 syms_1;
     AGroup 20997 4 syms_84; AGroup 21007 5 syms_85; AGroup 20999 6 syms_86]);
   (471406, 14, [AGroup 20995 1 [sym_kHat]; AGroup 21001 1 [sym_kFdiv]; AGroup 21003 1 [sym_kAs];
     AGroup 21009 1 [sym_kIs]; AGroup 21011 1 [sym_kNot]; AGroup 22365 1 [anon_sym_COMMA];
     AGroup 22369 1 [anon_sym_DOT_DOT]; AGroup 22593 1 [anon_sym_RBRACK];
     SGroup 4357 1 [sym__exprIsNot]; AGroup 21005 2 syms_83; AGroup 3 3 syms_1;
     AGroup 20997 4 syms_84; AGroup 21007 5 syms_85; AGroup 20999 6 syms_86]);
   (471464, 13, [AGroup 20826 1 [sym_kHat]; AGroup 20834 1 [sym_kAs]; AGroup 21460 1 [sym_kFdiv];
     AGroup 21462 1 [sym_kIs]; AGroup 21464 1 [sym_kNot]; AGroup 22595 1 [anon_sym_RPAREN];
     SGroup 4778 1 [sym__exprIsNot]; AGroup 21029 2 syms_668; AGroup 21452 2 syms_83;
     AGroup 3 3 syms_1; AGroup 21456 4 syms_84; AGroup 21454 5 syms_85; AGroup 21458 6 syms_86]);
   (471520, 13, [AGroup 20826 1 [sym_kHat]; AGroup 20834 1 [sym_kAs]; AGroup 21460 1 [sym_kFdiv];
     AGroup 21462 1 [sym_kIs]; AGroup 21464 1 [sym_kNot]; AGroup 22597 1 [anon_sym_RPAREN];
     SGroup 4778 1 [sym__exprIsNot]; AGroup 21029 2 syms_668; AGroup 21452 2 syms_83;
     AGroup 3 3 syms_1; AGroup 21456 4 syms_84; AGroup 21454 5 syms_85; AGroup 21458 6 syms_86]);
   (471576, 13, [AGroup 21317 1 [sym_kHat]; AGroup 21335 1 [sym_kFdiv]; AGroup 21337 1 [sym_kAs];
     AGroup 21396 1 [sym_kIs]; AGroup 21398 1 [sym_kNot]; AGroup 22599 1 [anon_sym_SEMI];
     SGroup 4250 1 [sym__exprIsNot]; AGroup 20914 2 syms_109; AGroup 21392 2 syms_83;
     AGroup 3 3 syms_1; AGroup 21331 4 syms_84; AGroup 21394 5 syms_85; AGroup 21333 6 syms_86]);
   (471632, 14, [AGroup 20995 1 [sym_kHat]; AGroup 21001 1 [sym_kFdiv]; AGroup 21003 1 [sym_kAs];
     AGroup 21009 1 [sym_kIs]; AGroup 21011 1 [sym_kNot]; AGroup 22365 1 [anon_sym_COMMA];
     AGroup 22369 1 [anon_sym_DOT_DOT]; AGroup 22601 1 [anon_sym_RBRACK];
     SGroup 4357 1 [sym__exprIsNot]; AGroup 21005 2 syms_83; AGroup 3 3 syms_1;
     AGroup 20997 4 syms_84; AGroup 21007 5 syms_85; AGroup 20999 6 syms_86]);
   (471690, 14, [AGroup 20764 1 [sym_kElse]; AGroup 21339 1 [sym_kHat]; AGroup 21345 1 [sym_kFdiv];
     AGroup 21347 1 [sym_kAs]; AGroup 21383 1 [sym_kIs]; AGroup 21385 1 [sym_kNot];
     AGroup 22603 1 [anon_sym_SEMI]; AGroup 22605 1 [sym_kRaiseAt];
     SGroup 4349 1 [sym__exprIsNot]; AGroup 21379 2 syms_83; AGroup 3 3 syms_1;
     AGroup 21341 4 syms_84; AGroup 21381 5 syms_85; AGroup 21343 6 syms_86]);
   (471748, 14, [AGroup 20995 1 [sym_kHat]; AGroup 21001 1 [sym_kFdiv]; AGroup 21003 1 [sym_kAs];
     AGroup 21009 1 [sym_kIs]; AGroup 21011 1 [sym_kNot]; AGroup 22365 1 [anon_sym_COMMA];
     AGroup 22369 1 [anon_sym_DOT_DOT]; AGroup 22607 1 [anon_sym_RBRACK];
     SGroup 4357 1 [sym__exprIsNot]; AGroup 21005 2 syms_83; AGroup 3 3 syms_1;
     AGroup 20997 4 syms_84; AGroup 21007 5 syms_85; AGroup 20999 6 syms_86]);
   (471806, 14, [AGroup 20995 1 [sym_kHat]; AGroup 21001 1 [sym_kFdiv]; AGroup 21003 1 [sym_kAs];
     AGroup 21009 1 [sym_kIs]; AGroup 21011 1 [sym_kNot]; AGroup 22365 1 [anon_sym_COMMA];
     AGroup 22369 1 [anon_sym_DOT_DOT]; AGroup 22609 1 [anon_sym_RBRACK];
     SGroup 4357 1 [sym__exprIsNot]; AGroup 21005 2 syms_83; AGroup 3 3 syms_1;
     AGroup 20997 4 syms_84; AGroup 21007 5 syms_85; AGroup 20999 6 syms_86]);
   (471864, 10, [AGroup 5 1 [sym_ppDirective]; AGroup 4623 1 [anon_sym_LBRACK];
     AGroup 4628 1 [aux_sym_ppUsesBlock_token1]; AGroup 22435 1 [sym_identifier];
     SGroup 20 1 [sym__ppIf]; SGroup 12776 1 [aux_sym_rttiAttributes_repeat2];
     SGroup 15493 1 [sym_rttiAttributes]; AGroup 3 2 syms_5; SGroup 9418 3 syms_444;
     AGroup 4621 17 syms_671]);
   (471914, 14, [AGroup 20995 1 [sym_kHat]; AGroup 21001 1 [sym_kFdiv]; AGroup 21003 1 [sym_kAs];
     AGroup 21009 1 [sym_kIs]; AGroup 21011 1 [sym_kNot]; AGroup 22365 1 [anon_sym_COMMA];
     AGroup 22369 1 [anon_sym_DOT_DOT]; AGroup 22611 1 [anon_sym_RBRACK];
     SGroup 4357 1 [sym__exprIsNot]; AGroup 21005 2 syms_83; AGroup 3 3 syms_1;
     AGroup 20997 4 syms_84; AGroup 21007 5 syms_85; AGroup 20999 6 syms_86]);
   (471972, 14, [AGroup 17436 1 [anon_sym_RBRACK]; AGroup 20995 1 [sym_kHat]; AGroup 21001 1 [sym_kFdiv];
     AGroup 21003 1 [sym_kAs]; AGroup 21009 1 [sym_kIs]; AGroup 21011 1 [sym_kNot];
     AGroup 22369 1 [anon_sym_DOT_DOT]; AGroup 22429 1 [anon_sym_COMMA];
     SGroup 4357 1 [sym__exprIsNot]; AGroup 21005 2 syms_83; AGroup 3 3 syms_1;
     AGroup 20997 4 syms_84; AGroup 21007 5 syms_85; AGroup 20999 6 syms_86]);
   (472030, 10, [AGroup 5 1 [sym_ppDirective]; AGroup 5783 1 [anon_sym_LBRACK];
     AGroup 5788 1 [aux_sym_ppUsesBlock_token1]; AGroup 22425 1 [sym_identifier];
     SGroup 24 1 [sym__ppIf]; SGroup 12776 1 [aux_sym_rttiAttributes_repeat2];
     SGroup 15959 1 [sym_rttiAttributes]; AGroup 3 2 syms_5; SGroup 9425 3 syms_444;
     AGroup 5781 17 syms_670]);
   (472080, 14, [AGroup 20995 1 [sym_kHat]; AGroup 21001 1 [sym_kFdiv]; AGroup 21003 1 [sym_kAs];
     AGroup 21009 1 [sym_kIs]; AGroup 21011 1 [sym_kNot]; AGroup 22365 1 [anon_sym_COMMA];
     AGroup 22369 1 [anon_sym_DOT_DOT]; AGroup 22613 1 [anon_sym_RBRACK];
     SGroup 4357 1 [sym__exprIsNot]; AGroup 21005 2 syms_83; AGroup 3 3 syms_1;
     AGroup 20997 4 syms_84; AGroup 21007 5 syms_85; AGroup 20999 6 syms_86]);
   (472138, 10, [AGroup 5 1 [sym_ppDirective]; AGroup 5783 1 [anon_sym_LBRACK];
     AGroup 5788 1 [aux_sym_ppUsesBlock_token1]; AGroup 22435 1 [sym_identifier];
     SGroup 20 1 [sym__ppIf]; SGroup 12776 1 [aux_sym_rttiAttributes_repeat2];
     SGroup 15493 1 [sym_rttiAttributes]; AGroup 3 2 syms_5; SGroup 9522 3 syms_444;
     AGroup 5781 17 syms_671]);
   (472188, 14, [AGroup 20995 1 [sym_kHat]; AGroup 21001 1 [sym_kFdiv]; AGroup 21003 1 [sym_kAs];
     AGroup 21009 1 [sym_kIs]; AGroup 21011 1 [sym_kNot]; AGroup 22365 1 [anon_sym_COMMA];
     AGroup 22369 1 [anon_sym_DOT_DOT]; AGroup 22615 1 [anon_sym_COLON];
     SGroup 4357 1 [sym__exprIsNot]; AGroup 21005 2 syms_83; AGroup 3 3 syms_1;
     AGroup 20997 4 syms_84; AGroup 21007 5 syms_85; AGroup 20999 6 syms_86]);
   (472246, 9, [AGroup 20826 1 [sym_kHat]; AGroup 21595 1 [sym_kAs]; AGroup 22387 1 [sym_kFdiv];
     SGroup 4442 1 [sym__exprIsNot]; AGroup 17016 2 syms_83; AGroup 3 3 syms_1;
     AGroup 22383 4 syms_84; AGroup 22385 6 syms_86; AGroup 17014 10 syms_677]);
   (472294, 13, [AGroup 5 1 [sym_ppDirective]; AGroup 21349 1 [sym_kHat]; AGroup 21363 1 [sym_kFdiv];
     AGroup 21365 1 [sym_kAs]; AGroup 21412 1 [sym_kIs]; AGroup 21414 1 [sym_kNot];
     SGroup 4300 1 [sym__exprIsNot]; AGroup 3 2 syms_5; AGroup 21408 2 syms_83;
     AGroup 17936 3 syms_105; AGroup 21359 4 syms_84; AGroup 21410 5 syms_85;
     AGroup 21361 6 syms_86]);
   (472350, 14, [AGroup 20995 1 [sym_kHat]; AGroup 21001 1 [sym_kFdiv]; AGroup 21003 1 [sym_kAs];
     AGroup 21009 1 [sym_kIs]; AGroup 21011 1 [sym_kNot]; AGroup 22365 1 [anon_sym_COMMA];
     AGroup 22369 1 [anon_sym_DOT_DOT]; AGroup 22617 1 [anon_sym_RBRACK];
     SGroup 4357 1 [sym__exprIsNot]; AGroup 21005 2 syms_83; AGroup 3 3 syms_1;
     AGroup 20997 4 syms_84; AGroup 21007 5 syms_85; AGroup 20999 6 syms_86]);
   (472408, 14, [AGroup 20995 1 [sym_kHat]; AGroup 21001 1 [sym_kFdiv]; AGroup 21003 1 [sym_kAs];
     AGroup 21009 1 [sym_kIs]; AGroup 21011 1 [sym_kNot]; AGroup 22365 1 [anon_sym_COMMA];
     AGroup 22369 1 [anon_sym_DOT_DOT]; AGroup 22619 1 [anon_sym_RBRACK];
     SGroup 4357 1 [sym__exprIsNot]; AGroup 21005 2 syms_83; AGroup 3 3 syms_1;
     AGroup 20997 4 syms_84; AGroup 21007 5 syms_85; AGroup 20999 6 syms_86]);
   (472466, 14, [AGroup 20995 1 [sym_kHat]; AGroup 21001 1 [sym_kFdiv]; AGroup 21003 1 [sym_kAs];
     AGroup 21009 1 [sym_kIs]; AGroup 21011 1 [sym_kNot]; AGroup 22369 1 [anon_sym_DOT_DOT];
     AGroup 22429 1 [anon_sym_COMMA]; AGroup 22621 1 [anon_sym_RBRACK];
     SGroup 4357 1 [sym__exprIsNot]; AGroup 21005 2 syms_83; AGroup 3 3 syms_1;
     AGroup 20997 4 syms_84; AGroup 21007 5 syms_85; AGroup 20999 6 syms_86]);
   (472524, 4, [AGroup 5 1 [sym_ppDirective]; AGroup 3 2 syms_5; AGroup 17108 4 syms_25;
     AGroup 17106 22 syms_216]);
   (472562, 10, [AGroup 5 1 [sym_ppDirective]; AGroup 6198 1 [anon_sym_LBRACK];
     AGroup 6203 1 [aux_sym_ppUsesBlock_token1]; AGroup 22623 1 [sym_identifier];
     SGroup 20 1 [sym__ppIf]; SGroup 12776 1 [aux_sym_rttiAttributes_repeat2];
     SGroup 15493 1 [sym_rttiAttributes]; AGroup 3 2 syms_5; SGroup 9522 3 syms_444;
     AGroup 6196 17 syms_671]);
   (472612, 14, [AGroup 20764 1 [sym_kElse]; AGroup 21339 1 [sym_kHat]; AGroup 21345 1 [sym_kFdiv];
     AGroup 21347 1 [sym_kAs]; AGroup 21383 1 [sym_kIs]; AGroup 21385 1 [sym_kNot];
     AGroup 22626 1 [anon_sym_SEMI]; AGroup 22628 1 [sym_kRaiseAt];
     SGroup 4349 1 [sym__exprIsNot]; AGroup 21379 2 syms_83; AGroup 3 3 syms_1;
     AGroup 21341 4 syms_84; AGroup 21381 5 syms_85; AGroup 21343 6 syms_86]);
   (472670, 14, [AGroup 20995 1 [sym_kHat]; AGroup 21001 1 [sym_kFdiv]; AGroup 21003 1 [sym_kAs];
     AGroup 21009 1 [sym_kIs]; AGroup 21011 1 [sym_kNot]; AGroup 22365 1 [anon_sym_COMMA];
     AGroup 22369 1 [anon_sym_DOT_DOT]; AGroup 22630 1 [anon_sym_RBRACK];
     SGroup 4357 1 [sym__exprIsNot]; AGroup 21005 2 syms_83; AGroup 3 3 syms_1;
     AGroup 20997 4 syms_84; AGroup 21007 5 syms_85; AGroup 20999 6 syms_86]);
   (472728, 4, [AGroup 5 1 [sym_ppDirective]; AGroup 3 2 syms_5; AGroup 17328 4 syms_25;
     AGroup 17326 22 syms_216]);
   (472766, 13, [AGroup 21317 1 [sym_kHat]; AGroup 21335 1 [sym_kFdiv]; AGroup 21337 1 [sym_kAs];
     AGroup 21396 1 [sym_kIs]; AGroup 21398 1 [sym_kNot]; AGroup 22632 1 [anon_sym_SEMI];
     SGroup 4250 1 [sym__exprIsNot]; AGroup 20933 2 syms_109; AGroup 21392 2 syms_83;
     AGroup 3 3 syms_1; AGroup 21331 4 syms_84; AGroup 21394 5 syms_85; AGroup 21333 6 syms_86]);
   (472822, 4, [AGroup 5 1 [sym_ppDirective]; AGroup 3 2 syms_5; AGroup 18831 4 syms_25;
     AGroup 18829 22 syms_216]);
   (472860, 4, [AGroup 5 1 [sym_ppDirective]; AGroup 3 2 syms_5; AGroup 17358 4 syms_25;
     AGroup 17356 22 syms_216]);
   (472898, 4, [AGroup 5 1 [sym_ppDirective]; AGroup 3 2 syms_5; AGroup 17362 4 syms_25;
     AGroup 17360 22 syms_216]);
   (472936, 14, [AGroup 20995 1 [sym_kHat]; AGroup 21001 1 [sym_kFdiv]; AGroup 21003 1 [sym_kAs];
     AGroup 21009 1 [sym_kIs]; AGroup 21011 1 [sym_kNot]; AGroup 22365 1 [anon_sym_COMMA];
     AGroup 22369 1 [anon_sym_DOT_DOT]; AGroup 22634 1 [anon_sym_RBRACK];
     SGroup 4357 1 [sym__exprIsNot]; AGroup 21005 2 syms_83; AGroup 3 3 syms_1;
     AGroup 20997 4 syms_84; AGroup 21007 5 syms_85; AGroup 20999 6 syms_86]);
   (472994, 4, [AGroup 5 1 [sym_ppDirective]; AGroup 3 2 syms_5; AGroup 11316 4 syms_25;
     AGroup 11311 22 syms_216]);
   (473032, 14, [AGroup 20995 1 [sym_kHat]; AGroup 21001 1 [sym_kFdiv]; AGroup 21003 1 [sym_kAs];
     AGroup 21009 1 [sym_kIs]; AGroup 21011 1 [sym_kNot]; AGroup 22365 1 [anon_sym_COMMA];
     AGroup 22369 1 [anon_sym_DOT_DOT]; AGroup 22636 1 [anon_sym_RBRACK];
     SGroup 4357 1 [sym__exprIsNot]; AGroup 21005 2 syms_83; AGroup 3 3 syms_1;
     AGroup 20997 4 syms_84; AGroup 21007 5 syms_85; AGroup 20999 6 syms_86]);
   (473090, 4, [SGroup 4442 1 [sym__exprIsNot]; AGroup 3 3 syms_1; AGroup 17032 3 syms_429;
     AGroup 17030 22 syms_547]);
   (473128, 14, [AGroup 20764 1 [sym_kUntil]; AGroup 21257 1 [sym_kHat]; AGroup 21265 1 [sym_kFdiv];
     AGroup 21267 1 [sym_kAs]; AGroup 21275 1 [sym_kIs]; AGroup 21277 1 [sym_kNot];
     AGroup 22191 1 [anon_sym_SEMI]; AGroup 22638 1 [sym_kRaiseAt];
     SGroup 4455 1 [sym__exprIsNot]; AGroup 21271 2 syms_83; AGroup 3 3 syms_1;
     AGroup 21261 4 syms_84; AGroup 21273 5 syms_85; AGroup 21263 6 syms_86]);
   (473186, 13, [AGroup 20826 1 [sym_kHat]; AGroup 20834 1 [sym_kAs]; AGroup 21460 1 [sym_kFdiv];
     AGroup 21462 1 [sym_kIs]; AGroup 21464 1 [sym_kNot]; AGroup 22640 1 [anon_sym_RPAREN];
     SGroup 4778 1 [sym__exprIsNot]; AGroup 21029 2 syms_668; AGroup 21452 2 syms_83;
     AGroup 3 3 syms_1; AGroup 21456 4 syms_84; AGroup 21454 5 syms_85; AGroup 21458 6 syms_86]);
   (473242, 4, [AGroup 5 1 [sym_ppDirective]; AGroup 3 2 syms_5; AGroup 17372 4 syms_25;
     AGroup 17370 22 syms_216]);
   (473280, 14, [AGroup 20995 1 [sym_kHat]; AGroup 21001 1 [sym_kFdiv]; AGroup 21003 1 [sym_kAs];
     AGroup 21009 1 [sym_kIs]; AGroup 21011 1 [sym_kNot]; AGroup 22365 1 [anon_sym_COMMA];
     AGroup 22369 1 [anon_sym_DOT_DOT]; AGroup 22642 1 [anon_sym_RBRACK];
     SGroup 4357 1 [sym__exprIsNot]; AGroup 21005 2 syms_83; AGroup 3 3 syms_1;
     AGroup 20997 4 syms_84; AGroup 21007 5 syms_85; AGroup 20999 6 syms_86]);
   (473338, 14, [AGroup 20764 1 [sym_kElse]; AGroup 21339 1 [sym_kHat]; AGroup 21345 1 [sym_kFdiv];
     AGroup 21347 1 [sym_kAs]; AGroup 21383 1 [sym_kIs]; AGroup 21385 1 [sym_kNot];
     AGroup 22644 1 [anon_sym_SEMI]; AGroup 22646 1 [sym_kRaiseAt];
     SGroup 4349 1 [sym__exprIsNot]; AGroup 21379 2 syms_83; AGroup 3 3 syms_1;
     AGroup 21341 4 syms_84; AGroup 21381 5 syms_85; AGroup 21343 6 syms_86]);
   (473396, 4, [AGroup 5 1 [sym_ppDirective]; AGroup 3 2 syms_5; AGroup 17128 4 syms_25;
     AGroup 17126 22 syms_216]);
   (473434, 14, [AGroup 20995 1 [sym_kHat]; AGroup 21001 1 [sym_kFdiv]; AGroup 21003 1 [sym_kAs];
     AGroup 21009 1 [sym_kIs]; AGroup 21011 1 [sym_kNot]; AGroup 22365 1 [anon_sym_COMMA];
     AGroup 22369 1 [anon_sym_DOT_DOT]; AGroup 22648 1 [anon_sym_RBRACK];
     SGroup 4357 1 [sym__exprIsNot]; AGroup 21005 2 syms_83; AGroup 3 3 syms_1;
     AGroup 20997 4 syms_84; AGroup 21007 5 syms_85; AGroup 20999 6 syms_86]);
   (473492, 14, [AGroup 20995 1 [sym_kHat]; AGroup 21001 1 [sym_kFdiv]; AGroup 21003 1 [sym_kAs];
     AGroup 21009 1 [sym_kIs]; AGroup 21011 1 [sym_kNot]; AGroup 22365 1 [anon_sym_COMMA];
     AGroup 22369 1 [anon_sym_DOT_DOT]; AGroup 22650 1 [anon_sym_RBRACK];
     SGroup 4357 1 [sym__exprIsNot]; AGroup 21005 2 syms_83; AGroup 3 3 syms_1;
     AGroup 20997 4 syms_84; AGroup 21007 5 syms_85; AGroup 20999 6 syms_86]);
   (473550, 14, [AGroup 20764 1 [sym_kElse]; AGroup 21339 1 [sym_kHat]; AGroup 21345 1 [sym_kFdiv];
     AGroup 21347 1 [sym_kAs]; AGroup 21383 1 [sym_kIs]; AGroup 21385 1 [sym_kNot];
     AGroup 22652 1 [anon_sym_SEMI]; AGroup 22654 1 [sym_kRaiseAt];
     SGroup 4349 1 [sym__exprIsNot]; AGroup 21379 2 syms_83; AGroup 3 3 syms_1;
     AGroup 21341 4 syms_84; AGroup 21381 5 syms_85; AGroup 21343 6 syms_86]);
   (473608, 14, [AGroup 20995 1 [sym_kHat]; AGroup 21001 1 [sym_kFdiv]; AGroup 21003 1 [sym_kAs];
     AGroup 21009 1 [sym_kIs]; AGroup 21011 1 [sym_kNot]; AGroup 22365 1 [anon_sym_COMMA];
     AGroup 22369 1 [anon_sym_DOT_DOT]; AGroup 22656 1 [anon_sym_RBRACK];
     SGroup 4357 1 [sym__exprIsNot]; AGroup 21005 2 syms_83; AGroup 3 3 syms_1;
     AGroup 20997 4 syms_84; AGroup 21007 5 syms_85; AGroup 20999 6 syms_86]);
   (473666, 10, [AGroup 5 1 [sym_ppDirective]; AGroup 4623 1 [anon_sym_LBRACK];
     AGroup 4628 1 [aux_sym_ppUsesBlock_token1]; AGroup 22500 1 [sym_identifier];
     SGroup 25 1 [sym__ppIf]; SGroup 12776 1 [aux_sym_rttiAttributes_repeat2];
     SGroup 15533 1 [sym_rttiAttributes]; AGroup 3 2 syms_5; SGroup 9612 3 syms_444;
     AGroup 4621 17 syms_674]);
   (473716, 14, [AGroup 20995 1 [sym_kHat]; AGroup 21001 1 [sym_kFdiv]; AGroup 21003 1 [sym_kAs];
     AGroup 21009 1 [sym_kIs]; AGroup 21011 1 [sym_kNot]; AGroup 22365 1 [anon_sym_COMMA];
     AGroup 22369 1 [anon_sym_DOT_DOT]; AGroup 22658 1 [anon_sym_RBRACK];
     SGroup 4357 1 [sym__exprIsNot]; AGroup 21005 2 syms_83; AGroup 3 3 syms_1;
     AGroup 20997 4 syms_84; AGroup 21007 5 syms_85; AGroup 20999 6 syms_86]);
   (473774, 12, [AGroup 21577 1 [sym_kFdiv]; AGroup 21579 1 [sym_kHat]; AGroup 21581 1 [sym_kAs];
     AGroup 21583 1 [sym_kIs]; AGroup 21585 1 [sym_kNot]; SGroup 4822 1 [sym__exprIsNot];
     AGroup 21569 2 syms_83; AGroup 3 3 syms_1; AGroup 21029 3 syms_678; AGroup 21573 4 syms_84;
     AGroup 21571 5 syms_85; AGroup 21575 6 syms_86]);
   (473828, 13, [AGroup 5 1 [sym_ppDirective]; AGroup 21349 1 [sym_kHat]; AGroup 21363 1 [sym_kFdiv];
     AGroup 21365 1 [sym_kAs]; AGroup 21412 1 [sym_kIs]; AGroup 21414 1 [sym_kNot];
     SGroup 4300 1 [sym__exprIsNot]; AGroup 3 2 syms_5; AGroup 21408 2 syms_83;
     AGroup 17938 3 syms_105; AGroup 21359 4 syms_84; AGroup 21410 5 syms_85;
     AGroup 21361 6 syms_86]);
   (473884, 14, [AGroup 20764 1 [sym_kElse]; AGroup 21339 1 [sym_kHat]; AGroup 21345 1 [sym_kFdiv];
     AGroup 21347 1 [sym_kAs]; AGroup 21383 1 [sym_kIs]; AGroup 21385 1 [sym_kNot];
     AGroup 22660 1 [anon_sym_SEMI]; AGroup 22662 1 [sym_kRaiseAt];
     SGroup 4349 1 [sym__exprIsNot]; AGroup 21379 2 syms_83; AGroup 3 3 syms_1;
     AGroup 21341 4 syms_84; AGroup 21381 5 syms_85; AGroup 21343 6 syms_86]);
   (473942, 14, [AGroup 20995 1 [sym_kHat]; AGroup 21001 1 [sym_kFdiv]; AGroup 21003 1 [sym_kAs];
     AGroup 21009 1 [sym_kIs]; AGroup 21011 1 [sym_kNot]; AGroup 22365 1 [anon_sym_COMMA];
     AGroup 22369 1 [anon_sym_DOT_DOT]; AGroup 22664 1 [anon_sym_RBRACK];
     SGroup 4357 1 [sym__exprIsNot]; AGroup 21005 2 syms_83; AGroup 3 3 syms_1;
     AGroup 20997 4 syms_84; AGroup 21007 5 syms_85; AGroup 20999 6 syms_86]);
   (474000, 14, [AGroup 20995 1 [sym_kHat]; AGroup 21001 1 [sym_kFdiv]; AGroup 21003 1 [sym_kAs];
     AGroup 21009 1 [sym_kIs]; AGroup 21011 1 [sym_kNot]; AGroup 22365 1 [anon_sym_COMMA];
     AGroup 22369 1 [anon_sym_DOT_DOT]; AGroup 22666 1 [anon_sym_RBRACK];
     SGroup 4357 1 [sym__exprIsNot]; AGroup 21005 2 syms_83; AGroup 3 3 syms_1;
     AGroup 20997 4 syms_84; AGroup 21007 5 syms_85; AGroup 20999 6 syms_86]);
   (474058, 4, [AGroup 5 1 [sym_ppDirective]; AGroup 3 2 syms_5; AGroup 17380 4 syms_25;
     AGroup 17378 22 syms_216]);
   (474096, 12, [AGroup 21317 1 [sym_kHat]; AGroup 21335 1 [sym_kFdiv]; AGroup 21337 1 [sym_kAs];
     AGroup 21396 1 [sym_kIs]; AGroup 21398 1 [sym_kNot]; SGroup 4250 1 [sym__exprIsNot];
     AGroup 21392 2 syms_83; AGroup 3 3 syms_1; AGroup 21029 3 syms_679; AGroup 21331 4 syms_84;
     AGroup 21394 5 syms_85; AGroup 21333 6 syms_86]);
   (474150, 14, [AGroup 20995 1 [sym_kHat]; AGroup 21001 1 [sym_kFdiv]; AGroup 21003 1 [sym_kAs];
     AGroup 21009 1 [sym_kIs]; AGroup 21011 1 [sym_kNot]; AGroup 22365 1 [anon_sym_COMMA];
     AGroup 22369 1 [anon_sym_DOT_DOT]; AGroup 22668 1 [anon_sym_RBRACK];
     SGroup 4357 1 [sym__exprIsNot]; AGroup 21005 2 syms_83; AGroup 3 3 syms_1;
     AGroup 20997 4 syms_84; AGroup 21007 5 syms_85; AGroup 20999 6 syms_86]);
   (474208, 4, [AGroup 5 1 [sym_ppDirective]; AGroup 3 2 syms_5; AGroup 17386 4 syms_25;
     AGroup 17384 22 syms_216]);
   (474246, 13, [AGroup 20826 1 [sym_kHat]; AGroup 20834 1 [sym_kAs]; AGroup 21460 1 [sym_kFdiv];
     AGroup 21462 1 [sym_kIs]; AGroup 21464 1 [sym_kNot]; AGroup 22670 1 [anon_sym_RPAREN];
     SGroup 4778 1 [sym__exprIsNot]; AGroup 21029 2 syms_668; AGroup 21452 2 syms_83;
     AGroup 3 3 syms_1; AGroup 21456 4 syms_84; AGroup 21454 5 syms_85; AGroup 21458 6 syms_86]);
   (474302, 14, [AGroup 20995 1 [sym_kHat]; AGroup 21001 1 [sym_kFdiv]; AGroup 21003 1 [sym_kAs];
     AGroup 21009 1 [sym_kIs]; AGroup 21011 1 [sym_kNot]; AGroup 22365 1 [anon_sym_COMMA];
     AGroup 22369 1 [anon_sym_DOT_DOT]; AGroup 22672 1 [anon_sym_RBRACK];
     SGroup 4357 1 [sym__exprIsNot]; AGroup 21005 2 syms_83; AGroup 3 3 syms_1;
     AGroup 20997 4 syms_84; AGroup 21007 5 syms_85; AGroup 20999 6 syms_86]);
   (474360, 14, [AGroup 20764 1 [sym_kElse]; AGroup 21339 1 [sym_kHat]; AGroup 21345 1 [sym_kFdiv];
     AGroup 21347 1 [sym_kAs]; AGroup 21383 1 [sym_kIs]; AGroup 21385 1 [sym_kNot];
     AGroup 22674 1 [anon_sym_SEMI]; AGroup 22676 1 [sym_kRaiseAt];
     SGroup 4349 1 [sym__exprIsNot]; AGroup 21379 2 syms_83; AGroup 3 3 syms_1;
     AGroup 21341 4 syms_84; AGroup 21381 5 syms_85; AGroup 21343 6 syms_86]);
   (474418, 14, [AGroup 20995 1 [sym_kHat]; AGroup 21001 1 [sym_kFdiv]; AGroup 21003 1 [sym_kAs];
     AGroup 21009 1 [sym_kIs]; AGroup 21011 1 [sym_kNot]; AGroup 22365 1 [anon_sym_COMMA];
     AGroup 22369 1 [anon_sym_DOT_DOT]; AGroup 22678 1 [anon_sym_RBRACK];
     SGroup 4357 1 [sym__exprIsNot]; AGroup 21005 2 syms_83; AGroup 3 3 syms_1;
     AGroup 20997 4 syms_84; AGroup 21007 5 syms_85; AGroup 20999 6 syms_86])
  ].

(** States 9559 to 9658. *)
Definition small_runs_9559 : list small_run :=
  [
   (474476, 14, [AGroup 20764 1 [sym_kElse]; AGroup 21339 1 [sym_kHat]; AGroup 21345 1 [sym_kFdiv];
     AGroup 21347 1 [sym_kAs]; AGroup 21383 1 [sym_kIs]; AGroup 21385 1 [sym_kNot];
     AGroup 22680 1 [anon_sym_SEMI]; AGroup 22682 1 [sym_kRaiseAt];
     SGroup 4349 1 [sym__exprIsNot]; AGroup 21379 2 syms_83; AGroup 3 3 syms_1;
     AGroup 21341 4 syms_84; AGroup 21381 5 syms_85; AGroup 21343 6 syms_86]);
   (474534, 4, [AGroup 5 1 [sym_ppDirective]; AGroup 3 2 syms_5; AGroup 17398 4 syms_25;
     AGroup 17396 22 syms_216]);
   (474572, 14, [AGroup 20995 1 [sym_kHat]; AGroup 21001 1 [sym_kFdiv]; AGroup 21003 1 [sym_kAs];
     AGroup 21009 1 [sym_kIs]; AGroup 21011 1 [sym_kNot]; AGroup 22365 1 [anon_sym_COMMA];
     AGroup 22369 1 [anon_sym_DOT_DOT]; AGroup 22684 1 [anon_sym_RBRACK];
     SGroup 4357 1 [sym__exprIsNot]; AGroup 21005 2 syms_83; AGroup 3 3 syms_1;
     AGroup 20997 4 syms_84; AGroup 21007 5 syms_85; AGroup 20999 6 syms_86]);
   (474630, 12, [AGroup 21317 1 [sym_kHat]; AGroup 21335 1 [sym_kFdiv]; AGroup 21337 1 [sym_kAs];
     AGroup 21396 1 [sym_kIs]; AGroup 21398 1 [sym_kNot]; SGroup 4250 1 [sym__exprIsNot];
     AGroup 21392 2 syms_83; AGroup 3 3 syms_1; AGroup 21031 3 syms_679; AGroup 21331 4 syms_84;
     AGroup 21394 5 syms_85; AGroup 21333 6 syms_86]);
   (474684, 14, [AGroup 20995 1 [sym_kHat]; AGroup 21001 1 [sym_kFdiv]; AGroup 21003 1 [sym_kAs];
     AGroup 21009 1 [sym_kIs]; AGroup 21011 1 [sym_kNot]; AGroup 22365 1 [anon_sym_COMMA];
     AGroup 22369 1 [anon_sym_DOT_DOT]; AGroup 22686 1 [anon_sym_RBRACK];
     SGroup 4357 1 [sym__exprIsNot]; AGroup 21005 2 syms_83; AGroup 3 3 syms_1;
     AGroup 20997 4 syms_84; AGroup 21007 5 syms_85; AGroup 20999 6 syms_86]);
   (474742, 14, [AGroup 20995 1 [sym_kHat]; AGroup 21001 1 [sym_kFdiv]; AGroup 21003 1 [sym_kAs];
     AGroup 21009 1 [sym_kIs]; AGroup 21011 1 [sym_kNot]; AGroup 22365 1 [anon_sym_COMMA];
     AGroup 22369 1 [anon_sym_DOT_DOT]; AGroup 22688 1 [anon_sym_RBRACK];
     SGroup 4357 1 [sym__exprIsNot]; AGroup 21005 2 syms_83; AGroup 3 3 syms_1;
     AGroup 20997 4 syms_84; AGroup 21007 5 syms_85; AGroup 20999 6 syms_86]);
   (474800, 14, [AGroup 20995 1 [sym_kHat]; AGroup 21001 1 [sym_kFdiv]; AGroup 21003 1 [sym_kAs];
     AGroup 21009 1 [sym_kIs]; AGroup 21011 1 [sym_kNot]; AGroup 22365 1 [anon_sym_COMMA];
     AGroup 22369 1 [anon_sym_DOT_DOT]; AGroup 22690 1 [anon_sym_RBRACK];
     SGroup 4357 1 [sym__exprIsNot]; AGroup 21005 2 syms_83; AGroup 3 3 syms_1;
     AGroup 20997 4 syms_84; AGroup 21007 5 syms_85; AGroup 20999 6 syms_86]);
   (474858, 14, [AGroup 20995 1 [sym_kHat]; AGroup 21001 1 [sym_kFdiv]; AGroup 21003 1 [sym_kAs];
     AGroup 21009 1 [sym_kIs]; AGroup 21011 1 [sym_kNot]; AGroup 22365 1 [anon_sym_COMMA];
     AGroup 22369 1 [anon_sym_DOT_DOT]; AGroup 22692 1 [anon_sym_RBRACK];
     SGroup 4357 1 [sym__exprIsNot]; AGroup 21005 2 syms_83; AGroup 3 3 syms_1;
     AGroup 20997 4 syms_84; AGroup 21007 5 syms_85; AGroup 20999 6 syms_86]);
   (474916, 4, [AGroup 5 1 [sym_ppDirective]; AGroup 3 2 syms_5; AGroup 17408 4 syms_25;
     AGroup 17406 22 syms_216]);
   (474954, 4, [AGroup 5 1 [sym_ppDirective]; AGroup 3 2 syms_5; AGroup 17412 4 syms_25;
     AGroup 17410 22 syms_216]);
   (474992, 14, [AGroup 20995 1 [sym_kHat]; AGroup 21001 1 [sym_kFdiv]; AGroup 21003 1 [sym_kAs];
     AGroup 21009 1 [sym_kIs]; AGroup 21011 1 [sym_kNot]; AGroup 22365 1 [anon_sym_COMMA];
     AGroup 22369 1 [anon_sym_DOT_DOT]; AGroup 22694 1 [anon_sym_RBRACK];
     SGroup 4357 1 [sym__exprIsNot]; AGroup 21005 2 syms_83; AGroup 3 3 syms_1;
     AGroup 20997 4 syms_84; AGroup 21007 5 syms_85; AGroup 20999 6 syms_86]);
   (475050, 12, [AGroup 21577 1 [sym_kFdiv]; AGroup 21579 1 [sym_kHat]; AGroup 21581 1 [sym_kAs];
     AGroup 21583 1 [sym_kIs]; AGroup 21585 1 [sym_kNot]; SGroup 4822 1 [sym__exprIsNot];
     AGroup 21569 2 syms_83; AGroup 3 3 syms_1; AGroup 21031 3 syms_678; AGroup 21573 4 syms_84;
     AGroup 21571 5 syms_85; AGroup 21575 6 syms_86]);
   (475104, 14, [AGroup 20764 1 [sym_kElse]; AGroup 21339 1 [sym_kHat]; AGroup 21345 1 [sym_kFdiv];
     AGroup 21347 1 [sym_kAs]; AGroup 21383 1 [sym_kIs]; AGroup 21385 1 [sym_kNot];
     AGroup 22696 1 [anon_sym_SEMI]; AGroup 22698 1 [sym_kRaiseAt];
     SGroup 4349 1 [sym__exprIsNot]; AGroup 21379 2 syms_83; AGroup 3 3 syms_1;
     AGroup 21341 4 syms_84; AGroup 21381 5 syms_85; AGroup 21343 6 syms_86]);
   (475162, 13, [AGroup 20826 1 [sym_kHat]; AGroup 20834 1 [sym_kAs]; AGroup 21460 1 [sym_kFdiv];
     AGroup 21462 1 [sym_kIs]; AGroup 21464 1 [sym_kNot]; AGroup 22700 1 [anon_sym_RPAREN];
     SGroup 4778 1 [sym__exprIsNot]; AGroup 21029 2 syms_668; AGroup 21452 2 syms_83;
     AGroup 3 3 syms_1; AGroup 21456 4 syms_84; AGroup 21454 5 syms_85; AGroup 21458 6 syms_86]);
   (475218, 14, [AGroup 20995 1 [sym_kHat]; AGroup 21001 1 [sym_kFdiv]; AGroup 21003 1 [sym_kAs];
     AGroup 21009 1 [sym_kIs]; AGroup 21011 1 [sym_kNot]; AGroup 22365 1 [anon_sym_COMMA];
     AGroup 22369 1 [anon_sym_DOT_DOT]; AGroup 22702 1 [anon_sym_RBRACK];
     SGroup 4357 1 [sym__exprIsNot]; AGroup 21005 2 syms_83; AGroup 3 3 syms_1;
     AGroup 20997 4 syms_84; AGroup 21007 5 syms_85; AGroup 20999 6 syms_86]);
   (475276, 14, [AGroup 20995 1 [sym_kHat]; AGroup 21001 1 [sym_kFdiv]; AGroup 21003 1 [sym_kAs];
     AGroup 21009 1 [sym_kIs]; AGroup 21011 1 [sym_kNot]; AGroup 22365 1 [anon_sym_COMMA];
     AGroup 22369 1 [anon_sym_DOT_DOT]; AGroup 22704 1 [anon_sym_RBRACK];
     SGroup 4357 1 [sym__exprIsNot]; AGroup 21005 2 syms_83; AGroup 3 3 syms_1;
     AGroup 20997 4 syms_84; AGroup 21007 5 syms_85; AGroup 20999 6 syms_86]);
   (475334, 14, [AGroup 20995 1 [sym_kHat]; AGroup 21001 1 [sym_kFdiv]; AGroup 21003 1 [sym_kAs];
     AGroup 21009 1 [sym_kIs]; AGroup 21011 1 [sym_kNot]; AGroup 22365 1 [anon_sym_COMMA];
     AGroup 22369 1 [anon_sym_DOT_DOT]; AGroup 22706 1 [anon_sym_COLON];
     SGroup 4357 1 [sym__exprIsNot]; AGroup 21005 2 syms_83; AGroup 3 3 syms_1;
     AGroup 20997 4 syms_84; AGroup 21007 5 syms_85; AGroup 20999 6 syms_86]);
   (475392, 4, [AGroup 5 1 [sym_ppDirective]; AGroup 3 2 syms_5; AGroup 17550 4 syms_25;
     AGroup 17548 22 syms_216]);
   (475430, 6, [AGroup 5 1 [sym_ppDirective]; AGroup 22708 1 [sym_kForward]; AGroup 22710 1 [sym_kExternal];
     SGroup 2127 1 [sym_procExternal]; AGroup 3 2 syms_5; AGroup 9918 23 syms_680]);
   (475472, 14, [AGroup 20995 1 [sym_kHat]; AGroup 21001 1 [sym_kFdiv]; AGroup 21003 1 [sym_kAs];
     AGroup 21009 1 [sym_kIs]; AGroup 21011 1 [sym_kNot]; AGroup 22365 1 [anon_sym_COMMA];
     AGroup 22369 1 [anon_sym_DOT_DOT]; AGroup 22712 1 [anon_sym_RBRACK];
     SGroup 4357 1 [sym__exprIsNot]; AGroup 21005 2 syms_83; AGroup 3 3 syms_1;
     AGroup 20997 4 syms_84; AGroup 21007 5 syms_85; AGroup 20999 6 syms_86]);
   (475530, 14, [AGroup 20995 1 [sym_kHat]; AGroup 21001 1 [sym_kFdiv]; AGroup 21003 1 [sym_kAs];
     AGroup 21009 1 [sym_kIs]; AGroup 21011 1 [sym_kNot]; AGroup 22365 1 [anon_sym_COMMA];
     AGroup 22369 1 [anon_sym_DOT_DOT]; AGroup 22714 1 [anon_sym_RBRACK];
     SGroup 4357 1 [sym__exprIsNot]; AGroup 21005 2 syms_83; AGroup 3 3 syms_1;
     AGroup 20997 4 syms_84; AGroup 21007 5 syms_85; AGroup 20999 6 syms_86]);
   (475588, 12, [AGroup 20826 1 [sym_kHat]; AGroup 21595 1 [sym_kAs]; AGroup 22387 1 [sym_kFdiv];
     AGroup 22389 1 [sym_kIs]; AGroup 22391 1 [sym_kNot]; SGroup 4442 1 [sym__exprIsNot];
     AGroup 22379 2 syms_83; AGroup 3 3 syms_1; AGroup 16884 3 syms_667; AGroup 22383 4 syms_84;
     AGroup 22381 5 syms_85; AGroup 22385 6 syms_86]);
   (475642, 14, [AGroup 20995 1 [sym_kHat]; AGroup 21001 1 [sym_kFdiv]; AGroup 21003 1 [sym_kAs];
     AGroup 21009 1 [sym_kIs]; AGroup 21011 1 [sym_kNot]; AGroup 22365 1 [anon_sym_COMMA];
     AGroup 22369 1 [anon_sym_DOT_DOT]; AGroup 22716 1 [anon_sym_RBRACK];
     SGroup 4357 1 [sym__exprIsNot]; AGroup 21005 2 syms_83; AGroup 3 3 syms_1;
     AGroup 20997 4 syms_84; AGroup 21007 5 syms_85; AGroup 20999 6 syms_86]);
   (475700, 14, [AGroup 20995 1 [sym_kHat]; AGroup 21001 1 [sym_kFdiv]; AGroup 21003 1 [sym_kAs];
     AGroup 21009 1 [sym_kIs]; AGroup 21011 1 [sym_kNot]; AGroup 22365 1 [anon_sym_COMMA];
     AGroup 22369 1 [anon_sym_DOT_DOT]; AGroup 22718 1 [anon_sym_RBRACK];
     SGroup 4357 1 [sym__exprIsNot]; AGroup 21005 2 syms_83; AGroup 3 3 syms_1;
     AGroup 20997 4 syms_84; AGroup 21007 5 syms_85; AGroup 20999 6 syms_86]);
   (475758, 14, [AGroup 20995 1 [sym_kHat]; AGroup 21001 1 [sym_kFdiv]; AGroup 21003 1 [sym_kAs];
     AGroup 21009 1 [sym_kIs]; AGroup 21011 1 [sym_kNot]; AGroup 22365 1 [anon_sym_COMMA];
     AGroup 22369 1 [anon_sym_DOT_DOT]; AGroup 22720 1 [anon_sym_RBRACK];
     SGroup 4357 1 [sym__exprIsNot]; AGroup 21005 2 syms_83; AGroup 3 3 syms_1;
     AGroup 20997 4 syms_84; AGroup 21007 5 syms_85; AGroup 20999 6 syms_86]);
   (475816, 9, [AGroup 20826 1 [sym_kHat]; AGroup 21595 1 [sym_kAs]; AGroup 22387 1 [sym_kFdiv];
     SGroup 4442 1 [sym__exprIsNot]; AGroup 16914 2 syms_83; AGroup 3 3 syms_1;
     AGroup 22383 4 syms_84; AGroup 22385 6 syms_86; AGroup 16912 10 syms_677]);
   (475864, 13, [AGroup 21505 1 [sym_kHat]; AGroup 21517 1 [sym_kFdiv]; AGroup 21519 1 [sym_kAs];
     AGroup 21541 1 [sym_kIs]; AGroup 21543 1 [sym_kNot]; AGroup 22722 1 [anon_sym_SEMI];
     SGroup 4805 1 [sym__exprIsNot]; AGroup 20914 2 syms_112; AGroup 21537 2 syms_83;
     AGroup 3 3 syms_1; AGroup 21513 4 syms_84; AGroup 21539 5 syms_85; AGroup 21515 6 syms_86]);
   (475920, 14, [AGroup 20995 1 [sym_kHat]; AGroup 21001 1 [sym_kFdiv]; AGroup 21003 1 [sym_kAs];
     AGroup 21009 1 [sym_kIs]; AGroup 21011 1 [sym_kNot]; AGroup 22365 1 [anon_sym_COMMA];
     AGroup 22369 1 [anon_sym_DOT_DOT]; AGroup 22724 1 [anon_sym_RBRACK];
     SGroup 4357 1 [sym__exprIsNot]; AGroup 21005 2 syms_83; AGroup 3 3 syms_1;
     AGroup 20997 4 syms_84; AGroup 21007 5 syms_85; AGroup 20999 6 syms_86]);
   (475978, 13, [AGroup 21577 1 [sym_kFdiv]; AGroup 21579 1 [sym_kHat]; AGroup 21581 1 [sym_kAs];
     AGroup 21583 1 [sym_kIs]; AGroup 21585 1 [sym_kNot]; AGroup 22269 1 [anon_sym_SEMI];
     SGroup 4822 1 [sym__exprIsNot]; AGroup 20933 2 syms_110; AGroup 21569 2 syms_83;
     AGroup 3 3 syms_1; AGroup 21573 4 syms_84; AGroup 21571 5 syms_85; AGroup 21575 6 syms_86]);
   (476034, 13, [AGroup 21505 1 [sym_kHat]; AGroup 21517 1 [sym_kFdiv]; AGroup 21519 1 [sym_kAs];
     AGroup 21541 1 [sym_kIs]; AGroup 21543 1 [sym_kNot]; AGroup 22726 1 [anon_sym_SEMI];
     SGroup 4805 1 [sym__exprIsNot]; AGroup 20933 2 syms_112; AGroup 21537 2 syms_83;
     AGroup 3 3 syms_1; AGroup 21513 4 syms_84; AGroup 21539 5 syms_85; AGroup 21515 6 syms_86]);
   (476090, 12, [AGroup 21505 1 [sym_kHat]; AGroup 21517 1 [sym_kFdiv]; AGroup 21519 1 [sym_kAs];
     AGroup 21541 1 [sym_kIs]; AGroup 21543 1 [sym_kNot]; SGroup 4805 1 [sym__exprIsNot];
     AGroup 21537 2 syms_83; AGroup 3 3 syms_1; AGroup 21031 3 syms_675; AGroup 21513 4 syms_84;
     AGroup 21539 5 syms_85; AGroup 21515 6 syms_86]);
   (476144, 14, [AGroup 20995 1 [sym_kHat]; AGroup 21001 1 [sym_kFdiv]; AGroup 21003 1 [sym_kAs];
     AGroup 21009 1 [sym_kIs]; AGroup 21011 1 [sym_kNot]; AGroup 22365 1 [anon_sym_COMMA];
     AGroup 22369 1 [anon_sym_DOT_DOT]; AGroup 22728 1 [anon_sym_RBRACK];
     SGroup 4357 1 [sym__exprIsNot]; AGroup 21005 2 syms_83; AGroup 3 3 syms_1;
     AGroup 20997 4 syms_84; AGroup 21007 5 syms_85; AGroup 20999 6 syms_86]);
   (476202, 14, [AGroup 20995 1 [sym_kHat]; AGroup 21001 1 [sym_kFdiv]; AGroup 21003 1 [sym_kAs];
     AGroup 21009 1 [sym_kIs]; AGroup 21011 1 [sym_kNot]; AGroup 22365 1 [anon_sym_COMMA];
     AGroup 22369 1 [anon_sym_DOT_DOT]; AGroup 22730 1 [anon_sym_RBRACK];
     SGroup 4357 1 [sym__exprIsNot]; AGroup 21005 2 syms_83; AGroup 3 3 syms_1;
     AGroup 20997 4 syms_84; AGroup 21007 5 syms_85; AGroup 20999 6 syms_86]);
   (476260, 14, [AGroup 20995 1 [sym_kHat]; AGroup 21001 1 [sym_kFdiv]; AGroup 21003 1 [sym_kAs];
     AGroup 21009 1 [sym_kIs]; AGroup 21011 1 [sym_kNot]; AGroup 22365 1 [anon_sym_COMMA];
     AGroup 22369 1 [anon_sym_DOT_DOT]; AGroup 22732 1 [anon_sym_RBRACK];
     SGroup 4357 1 [sym__exprIsNot]; AGroup 21005 2 syms_83; AGroup 3 3 syms_1;
     AGroup 20997 4 syms_84; AGroup 21007 5 syms_85; AGroup 20999 6 syms_86]);
   (476318, 14, [AGroup 20764 1 [sym_kElse]; AGroup 21339 1 [sym_kHat]; AGroup 21345 1 [sym_kFdiv];
     AGroup 21347 1 [sym_kAs]; AGroup 21383 1 [sym_kIs]; AGroup 21385 1 [sym_kNot];
     AGroup 21759 1 [anon_sym_SEMI]; AGroup 22734 1 [sym_kRaiseAt];
     SGroup 4349 1 [sym__exprIsNot]; AGroup 21379 2 syms_83; AGroup 3 3 syms_1;
     AGroup 21341 4 syms_84; AGroup 21381 5 syms_85; AGroup 21343 6 syms_86]);
   (476376, 4, [AGroup 5 1 [sym_ppDirective]; AGroup 3 2 syms_5; AGroup 17592 4 syms_25;
     AGroup 17590 22 syms_216]);
   (476414, 12, [AGroup 20826 1 [sym_kHat]; AGroup 20834 1 [sym_kAs]; AGroup 21460 1 [sym_kFdiv];
     AGroup 21462 1 [sym_kIs]; AGroup 21464 1 [sym_kNot]; SGroup 4778 1 [sym__exprIsNot];
     AGroup 21452 2 syms_83; AGroup 3 3 syms_1; AGroup 22736 3 syms_681; AGroup 21456 4 syms_84;
     AGroup 21454 5 syms_85; AGroup 21458 6 syms_86]);
   (476468, 14, [AGroup 20995 1 [sym_kHat]; AGroup 21001 1 [sym_kFdiv]; AGroup 21003 1 [sym_kAs];
     AGroup 21009 1 [sym_kIs]; AGroup 21011 1 [sym_kNot]; AGroup 22365 1 [anon_sym_COMMA];
     AGroup 22369 1 [anon_sym_DOT_DOT]; AGroup 22738 1 [anon_sym_RBRACK];
     SGroup 4357 1 [sym__exprIsNot]; AGroup 21005 2 syms_83; AGroup 3 3 syms_1;
     AGroup 20997 4 syms_84; AGroup 21007 5 syms_85; AGroup 20999 6 syms_86]);
   (476526, 4, [AGroup 5 1 [sym_ppDirective]; AGroup 3 2 syms_5; AGroup 17082 4 syms_25;
     AGroup 17080 22 syms_216]);
   (476564, 14, [AGroup 20995 1 [sym_kHat]; AGroup 21001 1 [sym_kFdiv]; AGroup 21003 1 [sym_kAs];
     AGroup 21009 1 [sym_kIs]; AGroup 21011 1 [sym_kNot]; AGroup 22365 1 [anon_sym_COMMA];
     AGroup 22369 1 [anon_sym_DOT_DOT]; AGroup 22740 1 [anon_sym_RBRACK];
     SGroup 4357 1 [sym__exprIsNot]; AGroup 21005 2 syms_83; AGroup 3 3 syms_1;
     AGroup 20997 4 syms_84; AGroup 21007 5 syms_85; AGroup 20999 6 syms_86]);
   (476622, 13, [AGroup 21317 1 [sym_kHat]; AGroup 21335 1 [sym_kFdiv]; AGroup 21337 1 [sym_kAs];
     AGroup 21396 1 [sym_kIs]; AGroup 21398 1 [sym_kNot]; AGroup 22742 1 [anon_sym_SEMI];
     SGroup 4250 1 [sym__exprIsNot]; AGroup 20898 2 syms_109; AGroup 21392 2 syms_83;
     AGroup 3 3 syms_1; AGroup 21331 4 syms_84; AGroup 21394 5 syms_85; AGroup 21333 6 syms_86]);
   (476678, 4, [AGroup 5 1 [sym_ppDirective]; AGroup 3 2 syms_5; AGroup 17158 4 syms_25;
     AGroup 17156 22 syms_216]);
   (476716, 14, [AGroup 20995 1 [sym_kHat]; AGroup 21001 1 [sym_kFdiv]; AGroup 21003 1 [sym_kAs];
     AGroup 21009 1 [sym_kIs]; AGroup 21011 1 [sym_kNot]; AGroup 22365 1 [anon_sym_COMMA];
     AGroup 22369 1 [anon_sym_DOT_DOT]; AGroup 22744 1 [anon_sym_RBRACK];
     SGroup 4357 1 [sym__exprIsNot]; AGroup 21005 2 syms_83; AGroup 3 3 syms_1;
     AGroup 20997 4 syms_84; AGroup 21007 5 syms_85; AGroup 20999 6 syms_86]);
   (476774, 8, [AGroup 20826 1 [sym_kHat]; AGroup 21595 1 [sym_kAs]; AGroup 22387 1 [sym_kFdiv];
     SGroup 4442 1 [sym__exprIsNot]; AGroup 16914 2 syms_83; AGroup 3 3 syms_1;
     AGroup 22385 6 syms_86; AGroup 16912 14 syms_682]);
   (476820, 14, [AGroup 20995 1 [sym_kHat]; AGroup 21001 1 [sym_kFdiv]; AGroup 21003 1 [sym_kAs];
     AGroup 21009 1 [sym_kIs]; AGroup 21011 1 [sym_kNot]; AGroup 22365 1 [anon_sym_COMMA];
     AGroup 22369 1 [anon_sym_DOT_DOT]; AGroup 22746 1 [anon_sym_RBRACK];
     SGroup 4357 1 [sym__exprIsNot]; AGroup 21005 2 syms_83; AGroup 3 3 syms_1;
     AGroup 20997 4 syms_84; AGroup 21007 5 syms_85; AGroup 20999 6 syms_86]);
   (476878, 14, [AGroup 20995 1 [sym_kHat]; AGroup 21001 1 [sym_kFdiv]; AGroup 21003 1 [sym_kAs];
     AGroup 21009 1 [sym_kIs]; AGroup 21011 1 [sym_kNot]; AGroup 22365 1 [anon_sym_COMMA];
     AGroup 22369 1 [anon_sym_DOT_DOT]; AGroup 22748 1 [anon_sym_RBRACK];
     SGroup 4357 1 [sym__exprIsNot]; AGroup 21005 2 syms_83; AGroup 3 3 syms_1;
     AGroup 20997 4 syms_84; AGroup 21007 5 syms_85; AGroup 20999 6 syms_86]);
   (476936, 4, [AGroup 5 1 [sym_ppDirective]; AGroup 3 2 syms_5; AGroup 17124 4 syms_25;
     AGroup 17122 22 syms_216]);
   (476974, 14, [AGroup 20995 1 [sym_kHat]; AGroup 21001 1 [sym_kFdiv]; AGroup 21003 1 [sym_kAs];
     AGroup 21009 1 [sym_kIs]; AGroup 21011 1 [sym_kNot]; AGroup 22365 1 [anon_sym_COMMA];
     AGroup 22369 1 [anon_sym_DOT_DOT]; AGroup 22750 1 [anon_sym_RBRACK];
     SGroup 4357 1 [sym__exprIsNot]; AGroup 21005 2 syms_83; AGroup 3 3 syms_1;
     AGroup 20997 4 syms_84; AGroup 21007 5 syms_85; AGroup 20999 6 syms_86]);
   (477032, 12, [AGroup 20826 1 [sym_kHat]; AGroup 21595 1 [sym_kAs]; AGroup 22387 1 [sym_kFdiv];
     AGroup 22389 1 [sym_kIs]; AGroup 22391 1 [sym_kNot]; SGroup 4442 1 [sym__exprIsNot];
     AGroup 22379 2 syms_83; AGroup 3 3 syms_1; AGroup 20667 3 syms_667; AGroup 22383 4 syms_84;
     AGroup 22381 5 syms_85; AGroup 22385 6 syms_86]);
   (477086, 14, [AGroup 20995 1 [sym_kHat]; AGroup 21001 1 [sym_kFdiv]; AGroup 21003 1 [sym_kAs];
     AGroup 21009 1 [sym_kIs]; AGroup 21011 1 [sym_kNot]; AGroup 22365 1 [anon_sym_COMMA];
     AGroup 22369 1 [anon_sym_DOT_DOT]; AGroup 22752 1 [anon_sym_COLON];
     SGroup 4357 1 [sym__exprIsNot]; AGroup 21005 2 syms_83; AGroup 3 3 syms_1;
     AGroup 20997 4 syms_84; AGroup 21007 5 syms_85; AGroup 20999 6 syms_86]);
   (477144, 10, [AGroup 5 1 [sym_ppDirective]; AGroup 5064 1 [anon_sym_LBRACK];
     AGroup 5069 1 [aux_sym_ppUsesBlock_token1]; AGroup 22500 1 [sym_identifier];
     SGroup 25 1 [sym__ppIf]; SGroup 12776 1 [aux_sym_rttiAttributes_repeat2];
     SGroup 15533 1 [sym_rttiAttributes]; AGroup 3 2 syms_5; SGroup 9451 3 syms_444;
     AGroup 5062 17 syms_674]);
   (477194, 14, [AGroup 17176 1 [anon_sym_RBRACK]; AGroup 20995 1 [sym_kHat]; AGroup 21001 1 [sym_kFdiv];
     AGroup 21003 1 [sym_kAs]; AGroup 21009 1 [sym_kIs]; AGroup 21011 1 [sym_kNot];
     AGroup 22369 1 [anon_sym_DOT_DOT]; AGroup 22429 1 [anon_sym_COMMA];
     SGroup 4357 1 [sym__exprIsNot]; AGroup 21005 2 syms_83; AGroup 3 3 syms_1;
     AGroup 20997 4 syms_84; AGroup 21007 5 syms_85; AGroup 20999 6 syms_86]);
   (477252, 4, [AGroup 5 1 [sym_ppDirective]; AGroup 3 2 syms_5; AGroup 17096 4 syms_25;
     AGroup 17094 22 syms_216]);
   (477290, 10, [AGroup 5 1 [sym_ppDirective]; AGroup 5064 1 [anon_sym_LBRACK];
     AGroup 5069 1 [aux_sym_ppUsesBlock_token1]; AGroup 22500 1 [sym_identifier];
     SGroup 25 1 [sym__ppIf]; SGroup 12776 1 [aux_sym_rttiAttributes_repeat2];
     SGroup 15533 1 [sym_rttiAttributes]; AGroup 3 2 syms_5; SGroup 9453 3 syms_444;
     AGroup 5062 17 syms_674]);
   (477340, 14, [AGroup 20995 1 [sym_kHat]; AGroup 21001 1 [sym_kFdiv]; AGroup 21003 1 [sym_kAs];
     AGroup 21009 1 [sym_kIs]; AGroup 21011 1 [sym_kNot]; AGroup 22365 1 [anon_sym_COMMA];
     AGroup 22369 1 [anon_sym_DOT_DOT]; AGroup 22754 1 [anon_sym_RBRACK];
     SGroup 4357 1 [sym__exprIsNot]; AGroup 21005 2 syms_83; AGroup 3 3 syms_1;
     AGroup 20997 4 syms_84; AGroup 21007 5 syms_85; AGroup 20999 6 syms_86]);
   (477398, 14, [AGroup 20995 1 [sym_kHat]; AGroup 21001 1 [sym_kFdiv]; AGroup 21003 1 [sym_kAs];
     AGroup 21009 1 [sym_kIs]; AGroup 21011 1 [sym_kNot]; AGroup 22365 1 [anon_sym_COMMA];
     AGroup 22369 1 [anon_sym_DOT_DOT]; AGroup 22756 1 [anon_sym_RBRACK];
     SGroup 4357 1 [sym__exprIsNot]; AGroup 21005 2 syms_83; AGroup 3 3 syms_1;
     AGroup 20997 4 syms_84; AGroup 21007 5 syms_85; AGroup 20999 6 syms_86]);
   (477456, 4, [AGroup 5 1 [sym_ppDirective]; AGroup 3 2 syms_5; AGroup 17154 4 syms_25;
     AGroup 17152 22 syms_216]);
   (477494, 14, [AGroup 20995 1 [sym_kHat]; AGroup 21001 1 [sym_kFdiv]; AGroup 21003 1 [sym_kAs];
     AGroup 21009 1 [sym_kIs]; AGroup 21011 1 [sym_kNot]; AGroup 22369 1 [anon_sym_DOT_DOT];
     AGroup 22429 1 [anon_sym_COMMA]; AGroup 22758 1 [anon_sym_RBRACK];
     SGroup 4357 1 [sym__exprIsNot]; AGroup 21005 2 syms_83; AGroup 3 3 syms_1;
     AGroup 20997 4 syms_84; AGroup 21007 5 syms_85; AGroup 20999 6 syms_86]);
   (477552, 14, [AGroup 20995 1 [sym_kHat]; AGroup 21001 1 [sym_kFdiv]; AGroup 21003 1 [sym_kAs];
     AGroup 21009 1 [sym_kIs]; AGroup 21011 1 [sym_kNot]; AGroup 22369 1 [anon_sym_DOT_DOT];
     AGroup 22429 1 [anon_sym_COMMA]; AGroup 22760 1 [anon_sym_RBRACK];
     SGroup 4357 1 [sym__exprIsNot]; AGroup 21005 2 syms_83; AGroup 3 3 syms_1;
     AGroup 20997 4 syms_84; AGroup 21007 5 syms_85; AGroup 20999 6 syms_86]);
   (477610, 14, [AGroup 20764 1 [sym_kEnd]; AGroup 21213 1 [sym_kFdiv]; AGroup 21215 1 [sym_kHat];
     AGroup 21217 1 [sym_kAs]; AGroup 21553 1 [sym_kIs]; AGroup 21555 1 [sym_kNot];
     AGroup 22115 1 [anon_sym_SEMI]; AGroup 22762 1 [sym_kRaiseAt];
     SGroup 4347 1 [sym__exprIsNot]; AGroup 21549 2 syms_83; AGroup 3 3 syms_1;
     AGroup 21209 4 syms_84; AGroup 21551 5 syms_85; AGroup 21211 6 syms_86]);
   (477668, 14, [AGroup 20995 1 [sym_kHat]; AGroup 21001 1 [sym_kFdiv]; AGroup 21003 1 [sym_kAs];
     AGroup 21009 1 [sym_kIs]; AGroup 21011 1 [sym_kNot]; AGroup 22365 1 [anon_sym_COMMA];
     AGroup 22369 1 [anon_sym_DOT_DOT]; AGroup 22764 1 [anon_sym_RBRACK];
     SGroup 4357 1 [sym__exprIsNot]; AGroup 21005 2 syms_83; AGroup 3 3 syms_1;
     AGroup 20997 4 syms_84; AGroup 21007 5 syms_85; AGroup 20999 6 syms_86]);
   (477726, 13, [AGroup 20826 1 [sym_kHat]; AGroup 20834 1 [sym_kAs]; AGroup 21460 1 [sym_kFdiv];
     AGroup 21462 1 [sym_kIs]; AGroup 21464 1 [sym_kNot]; AGroup 22766 1 [anon_sym_RPAREN];
     SGroup 4778 1 [sym__exprIsNot]; AGroup 21029 2 syms_668; AGroup 21452 2 syms_83;
     AGroup 3 3 syms_1; AGroup 21456 4 syms_84; AGroup 21454 5 syms_85; AGroup 21458 6 syms_86]);
   (477782, 13, [AGroup 20914 1 [sym_kElse]; AGroup 21791 1 [sym_kHat]; AGroup 21797 1 [sym_kFdiv];
     AGroup 21799 1 [sym_kAs]; AGroup 21893 1 [sym_kIs]; AGroup 21895 1 [sym_kNot];
     AGroup 22205 1 [anon_sym_SEMI]; SGroup 4923 1 [sym__exprIsNot]; AGroup 21889 2 syms_83;
     AGroup 3 3 syms_1; AGroup 21793 4 syms_84; AGroup 21891 5 syms_85; AGroup 21795 6 syms_86]);
   (477837, 13, [AGroup 21909 1 [sym_kHat]; AGroup 21915 1 [sym_kFdiv]; AGroup 21917 1 [sym_kAs];
     AGroup 21927 1 [sym_kIs]; AGroup 21929 1 [sym_kNot]; AGroup 22768 1 [anon_sym_SEMI];
     AGroup 22770 1 [sym_kDelayed]; SGroup 4605 1 [sym__exprIsNot]; AGroup 21923 2 syms_83;
     AGroup 3 3 syms_1; AGroup 21911 4 syms_84; AGroup 21925 5 syms_85; AGroup 21913 6 syms_86]);
   (477892, 13, [AGroup 5 1 [sym_ppDirective]; AGroup 21466 1 [sym_kHat]; AGroup 21472 1 [sym_kFdiv];
     AGroup 21474 1 [sym_kAs]; AGroup 21491 1 [sym_kIs]; AGroup 21493 1 [sym_kNot];
     SGroup 5074 1 [sym__exprIsNot]; AGroup 3 2 syms_5; AGroup 17938 2 syms_44;
     AGroup 21487 2 syms_83; AGroup 21468 4 syms_84; AGroup 21489 5 syms_85;
     AGroup 21470 6 syms_86]);
   (477947, 13, [AGroup 20914 1 [sym_kElse]; AGroup 21791 1 [sym_kHat]; AGroup 21797 1 [sym_kFdiv];
     AGroup 21799 1 [sym_kAs]; AGroup 21893 1 [sym_kIs]; AGroup 21895 1 [sym_kNot];
     AGroup 22772 1 [anon_sym_SEMI]; SGroup 4923 1 [sym__exprIsNot]; AGroup 21889 2 syms_83;
     AGroup 3 3 syms_1; AGroup 21793 4 syms_84; AGroup 21891 5 syms_85; AGroup 21795 6 syms_86]);
   (478002, 13, [AGroup 21867 1 [sym_kHat]; AGroup 21873 1 [sym_kFdiv]; AGroup 21875 1 [sym_kAs];
     AGroup 21881 1 [sym_kIs]; AGroup 21883 1 [sym_kNot]; AGroup 22774 1 [anon_sym_COMMA];
     AGroup 22776 1 [sym_kDo]; SGroup 5529 1 [sym__exprIsNot]; AGroup 21877 2 syms_83;
     AGroup 3 3 syms_1; AGroup 21869 4 syms_84; AGroup 21879 5 syms_85; AGroup 21871 6 syms_86]);
   (478057, 13, [AGroup 20898 1 [sym_kUntil]; AGroup 21979 1 [sym_kHat]; AGroup 21985 1 [sym_kFdiv];
     AGroup 21987 1 [sym_kAs]; AGroup 22003 1 [sym_kIs]; AGroup 22005 1 [sym_kNot];
     AGroup 22742 1 [anon_sym_SEMI]; SGroup 4755 1 [sym__exprIsNot]; AGroup 21999 2 syms_83;
     AGroup 3 3 syms_1; AGroup 21981 4 syms_84; AGroup 22001 5 syms_85; AGroup 21983 6 syms_86]);
   (478112, 3, [AGroup 5 1 [sym_ppDirective]; AGroup 3 2 syms_5; AGroup 22778 25 syms_140]);
   (478147, 12, [AGroup 21813 1 [sym_kHat]; AGroup 21819 1 [sym_kFdiv]; AGroup 21821 1 [sym_kAs];
     AGroup 21855 1 [sym_kIs]; AGroup 21857 1 [sym_kNot]; SGroup 4743 1 [sym__exprIsNot];
     AGroup 17938 2 syms_683; AGroup 21851 2 syms_83; AGroup 3 3 syms_1; AGroup 21815 4 syms_84;
     AGroup 21853 5 syms_85; AGroup 21817 6 syms_86]);
   (478200, 13, [AGroup 21909 1 [sym_kHat]; AGroup 21915 1 [sym_kFdiv]; AGroup 21917 1 [sym_kAs];
     AGroup 21927 1 [sym_kIs]; AGroup 21929 1 [sym_kNot]; AGroup 22780 1 [anon_sym_SEMI];
     AGroup 22782 1 [sym_kDelayed]; SGroup 4605 1 [sym__exprIsNot]; AGroup 21923 2 syms_83;
     AGroup 3 3 syms_1; AGroup 21911 4 syms_84; AGroup 21925 5 syms_85; AGroup 21913 6 syms_86]);
   (478255, 13, [AGroup 21867 1 [sym_kHat]; AGroup 21873 1 [sym_kFdiv]; AGroup 21875 1 [sym_kAs];
     AGroup 21881 1 [sym_kIs]; AGroup 21883 1 [sym_kNot]; AGroup 22774 1 [anon_sym_COMMA];
     AGroup 22784 1 [sym_kDo]; SGroup 5529 1 [sym__exprIsNot]; AGroup 21877 2 syms_83;
     AGroup 3 3 syms_1; AGroup 21869 4 syms_84; AGroup 21879 5 syms_85; AGroup 21871 6 syms_86]);
   (478310, 13, [AGroup 21867 1 [sym_kHat]; AGroup 21873 1 [sym_kFdiv]; AGroup 21875 1 [sym_kAs];
     AGroup 21881 1 [sym_kIs]; AGroup 21883 1 [sym_kNot]; AGroup 22774 1 [anon_sym_COMMA];
     AGroup 22786 1 [sym_kDo]; SGroup 5529 1 [sym__exprIsNot]; AGroup 21877 2 syms_83;
     AGroup 3 3 syms_1; AGroup 21869 4 syms_84; AGroup 21879 5 syms_85; AGroup 21871 6 syms_86]);
   (478365, 13, [AGroup 21867 1 [sym_kHat]; AGroup 21873 1 [sym_kFdiv]; AGroup 21875 1 [sym_kAs];
     AGroup 21881 1 [sym_kIs]; AGroup 21883 1 [sym_kNot]; AGroup 22774 1 [anon_sym_COMMA];
     AGroup 22788 1 [sym_kDo]; SGroup 5529 1 [sym__exprIsNot]; AGroup 21877 2 syms_83;
     AGroup 3 3 syms_1; AGroup 21869 4 syms_84; AGroup 21879 5 syms_85; AGroup 21871 6 syms_86]);
   (478420, 13, [AGroup 20914 1 [sym_kElse]; AGroup 21791 1 [sym_kHat]; AGroup 21797 1 [sym_kFdiv];
     AGroup 21799 1 [sym_kAs]; AGroup 21893 1 [sym_kIs]; AGroup 21895 1 [sym_kNot];
     AGroup 22790 1 [anon_sym_SEMI]; SGroup 4923 1 [sym__exprIsNot]; AGroup 21889 2 syms_83;
     AGroup 3 3 syms_1; AGroup 21793 4 syms_84; AGroup 21891 5 syms_85; AGroup 21795 6 syms_86]);
   (478475, 13, [AGroup 20933 1 [sym_kElse]; AGroup 21791 1 [sym_kHat]; AGroup 21797 1 [sym_kFdiv];
     AGroup 21799 1 [sym_kAs]; AGroup 21893 1 [sym_kIs]; AGroup 21895 1 [sym_kNot];
     AGroup 22792 1 [anon_sym_SEMI]; SGroup 4923 1 [sym__exprIsNot]; AGroup 21889 2 syms_83;
     AGroup 3 3 syms_1; AGroup 21793 4 syms_84; AGroup 21891 5 syms_85; AGroup 21795 6 syms_86]);
   (478530, 12, [AGroup 20826 1 [sym_kHat]; AGroup 21595 1 [sym_kAs]; AGroup 22387 1 [sym_kFdiv];
     AGroup 22389 1 [sym_kIs]; AGroup 22391 1 [sym_kNot]; SGroup 4442 1 [sym__exprIsNot];
     AGroup 22379 2 syms_83; AGroup 22413 2 syms_132; AGroup 3 3 syms_1; AGroup 22383 4 syms_84;
     AGroup 22381 5 syms_85; AGroup 22385 6 syms_86]);
   (478583, 3, [AGroup 5 1 [sym_ppDirective]; AGroup 3 2 syms_5; AGroup 22794 25 syms_140]);
   (478618, 13, [AGroup 20933 1 [sym_kElse]; AGroup 21791 1 [sym_kHat]; AGroup 21797 1 [sym_kFdiv];
     AGroup 21799 1 [sym_kAs]; AGroup 21893 1 [sym_kIs]; AGroup 21895 1 [sym_kNot];
     AGroup 22796 1 [anon_sym_SEMI]; SGroup 4923 1 [sym__exprIsNot]; AGroup 21889 2 syms_83;
     AGroup 3 3 syms_1; AGroup 21793 4 syms_84; AGroup 21891 5 syms_85; AGroup 21795 6 syms_86]);
   (478673, 13, [AGroup 20914 1 [sym_kElse]; AGroup 21791 1 [sym_kHat]; AGroup 21797 1 [sym_kFdiv];
     AGroup 21799 1 [sym_kAs]; AGroup 21893 1 [sym_kIs]; AGroup 21895 1 [sym_kNot];
     AGroup 22798 1 [anon_sym_SEMI]; SGroup 4923 1 [sym__exprIsNot]; AGroup 21889 2 syms_83;
     AGroup 3 3 syms_1; AGroup 21793 4 syms_84; AGroup 21891 5 syms_85; AGroup 21795 6 syms_86]);
   (478728, 13, [AGroup 21867 1 [sym_kHat]; AGroup 21873 1 [sym_kFdiv]; AGroup 21875 1 [sym_kAs];
     AGroup 21881 1 [sym_kIs]; AGroup 21883 1 [sym_kNot]; AGroup 22774 1 [anon_sym_COMMA];
     AGroup 22800 1 [sym_kDo]; SGroup 5529 1 [sym__exprIsNot]; AGroup 21877 2 syms_83;
     AGroup 3 3 syms_1; AGroup 21869 4 syms_84; AGroup 21879 5 syms_85; AGroup 21871 6 syms_86]);
   (478783, 13, [AGroup 21909 1 [sym_kHat]; AGroup 21915 1 [sym_kFdiv]; AGroup 21917 1 [sym_kAs];
     AGroup 21927 1 [sym_kIs]; AGroup 21929 1 [sym_kNot]; AGroup 22802 1 [anon_sym_SEMI];
     AGroup 22804 1 [sym_kDelayed]; SGroup 4605 1 [sym__exprIsNot]; AGroup 21923 2 syms_83;
     AGroup 3 3 syms_1; AGroup 21911 4 syms_84; AGroup 21925 5 syms_85; AGroup 21913 6 syms_86]);
   (478838, 13, [AGroup 21867 1 [sym_kHat]; AGroup 21873 1 [sym_kFdiv]; AGroup 21875 1 [sym_kAs];
     AGroup 21881 1 [sym_kIs]; AGroup 21883 1 [sym_kNot]; AGroup 22774 1 [anon_sym_COMMA];
     AGroup 22806 1 [sym_kDo]; SGroup 5529 1 [sym__exprIsNot]; AGroup 21877 2 syms_83;
     AGroup 3 3 syms_1; AGroup 21869 4 syms_84; AGroup 21879 5 syms_85; AGroup 21871 6 syms_86]);
   (478893, 13, [AGroup 20898 1 [sym_kElse]; AGroup 21791 1 [sym_kHat]; AGroup 21797 1 [sym_kFdiv];
     AGroup 21799 1 [sym_kAs]; AGroup 21893 1 [sym_kIs]; AGroup 21895 1 [sym_kNot];
     AGroup 22808 1 [anon_sym_SEMI]; SGroup 4923 1 [sym__exprIsNot]; AGroup 21889 2 syms_83;
     AGroup 3 3 syms_1; AGroup 21793 4 syms_84; AGroup 21891 5 syms_85; AGroup 21795 6 syms_86]);
   (478948, 13, [AGroup 20898 1 [sym_kElse]; AGroup 21791 1 [sym_kHat]; AGroup 21797 1 [sym_kFdiv];
     AGroup 21799 1 [sym_kAs]; AGroup 21893 1 [sym_kIs]; AGroup 21895 1 [sym_kNot];
     AGroup 22810 1 [anon_sym_SEMI]; SGroup 4923 1 [sym__exprIsNot]; AGroup 21889 2 syms_83;
     AGroup 3 3 syms_1; AGroup 21793 4 syms_84; AGroup 21891 5 syms_85; AGroup 21795 6 syms_86]);
   (479003, 13, [AGroup 20898 1 [sym_kElse]; AGroup 21791 1 [sym_kHat]; AGroup 21797 1 [sym_kFdiv];
     AGroup 21799 1 [sym_kAs]; AGroup 21893 1 [sym_kIs]; AGroup 21895 1 [sym_kNot];
     AGroup 22812 1 [anon_sym_SEMI]; SGroup 4923 1 [sym__exprIsNot]; AGroup 21889 2 syms_83;
     AGroup 3 3 syms_1; AGroup 21793 4 syms_84; AGroup 21891 5 syms_85; AGroup 21795 6 syms_86]);
   (479058, 13, [AGroup 21867 1 [sym_kHat]; AGroup 21873 1 [sym_kFdiv]; AGroup 21875 1 [sym_kAs];
     AGroup 21881 1 [sym_kIs]; AGroup 21883 1 [sym_kNot]; AGroup 22774 1 [anon_sym_COMMA];
     AGroup 22814 1 [sym_kDo]; SGroup 5529 1 [sym__exprIsNot]; AGroup 21877 2 syms_83;
     AGroup 3 3 syms_1; AGroup 21869 4 syms_84; AGroup 21879 5 syms_85; AGroup 21871 6 syms_86]);
   (479113, 13, [AGroup 20933 1 [sym_kElse]; AGroup 21791 1 [sym_kHat]; AGroup 21797 1 [sym_kFdiv];
     AGroup 21799 1 [sym_kAs]; AGroup 21893 1 [sym_kIs]; AGroup 21895 1 [sym_kNot];
     AGroup 22816 1 [anon_sym_SEMI]; SGroup 4923 1 [sym__exprIsNot]; AGroup 21889 2 syms_83;
     AGroup 3 3 syms_1; AGroup 21793 4 syms_84; AGroup 21891 5 syms_85; AGroup 21795 6 syms_86]);
   (479168, 13, [AGroup 20898 1 [sym_kEnd]; AGroup 21833 1 [sym_kHat]; AGroup 21839 1 [sym_kFdiv];
     AGroup 21841 1 [sym_kAs]; AGroup 21847 1 [sym_kIs]; AGroup 21849 1 [sym_kNot];
     AGroup 22567 1 [anon_sym_SEMI]; SGroup 4481 1 [sym__exprIsNot]; AGroup 21843 2 syms_83;
     AGroup 3 3 syms_1; AGroup 21835 4 syms_84; AGroup 21845 5 syms_85; AGroup 21837 6 syms_86]);
   (479223, 13, [AGroup 20914 1 [sym_kElse]; AGroup 21791 1 [sym_kHat]; AGroup 21797 1 [sym_kFdiv];
     AGroup 21799 1 [sym_kAs]; AGroup 21893 1 [sym_kIs]; AGroup 21895 1 [sym_kNot];
     AGroup 22818 1 [anon_sym_SEMI]; SGroup 4923 1 [sym__exprIsNot]; AGroup 21889 2 syms_83;
     AGroup 3 3 syms_1; AGroup 21793 4 syms_84; AGroup 21891 5 syms_85; AGroup 21795 6 syms_86]);
   (479278, 3, [AGroup 5 1 [sym_ppDirective]; AGroup 3 2 syms_5; AGroup 22820 25 syms_140]);
   (479313, 13, [AGroup 21867 1 [sym_kHat]; AGroup 21873 1 [sym_kFdiv]; AGroup 21875 1 [sym_kAs];
     AGroup 21881 1 [sym_kIs]; AGroup 21883 1 [sym_kNot]; AGroup 22774 1 [anon_sym_COMMA];
     AGroup 22822 1 [sym_kDo]; SGroup 5529 1 [sym__exprIsNot]; AGroup 21877 2 syms_83;
     AGroup 3 3 syms_1; AGroup 21869 4 syms_84; AGroup 21879 5 syms_85; AGroup 21871 6 syms_86]);
   (479368, 13, [AGroup 20933 1 [sym_kElse]; AGroup 21791 1 [sym_kHat]; AGroup 21797 1 [sym_kFdiv];
     AGroup 21799 1 [sym_kAs]; AGroup 21893 1 [sym_kIs]; AGroup 21895 1 [sym_kNot];
     AGroup 22824 1 [anon_sym_SEMI]; SGroup 4923 1 [sym__exprIsNot]; AGroup 21889 2 syms_83;
     AGroup 3 3 syms_1; AGroup 21793 4 syms_84; AGroup 21891 5 syms_85; AGroup 21795 6 syms_86]);
   (479423, 3, [AGroup 5 1 [sym_ppDirective]; AGroup 3 2 syms_5; AGroup 10932 25 syms_140]);
   (479458, 13, [AGroup 20914 1 [sym_kElse]; AGroup 21791 1 [sym_kHat]; AGroup 21797 1 [sym_kFdiv];
     AGroup 21799 1 [sym_kAs]; AGroup 21893 1 [sym_kIs]; AGroup 21895 1 [sym_kNot];
     AGroup 22826 1 [anon_sym_SEMI]; SGroup 4923 1 [sym__exprIsNot]; AGroup 21889 2 syms_83;
     AGroup 3 3 syms_1; AGroup 21793 4 syms_84; AGroup 21891 5 syms_85; AGroup 21795 6 syms_86]);
   (479513, 13, [AGroup 21909 1 [sym_kHat]; AGroup 21915 1 [sym_kFdiv]; AGroup 21917 1 [sym_kAs];
     AGroup 21927 1 [sym_kIs]; AGroup 21929 1 [sym_kNot]; AGroup 22828 1 [anon_sym_SEMI];
     AGroup 22830 1 [sym_kDelayed]; SGroup 4605 1 [sym__exprIsNot]; AGroup 21923 2 syms_83;
     AGroup 3 3 syms_1; AGroup 21911 4 syms_84; AGroup 21925 5 syms_85; AGroup 21913 6 syms_86]);
   (479568, 13, [AGroup 20933 1 [sym_kElse]; AGroup 21791 1 [sym_kHat]; AGroup 21797 1 [sym_kFdiv];
     AGroup 21799 1 [sym_kAs]; AGroup 21893 1 [sym_kIs]; AGroup 21895 1 [sym_kNot];
     AGroup 22832 1 [anon_sym_SEMI]; SGroup 4923 1 [sym__exprIsNot]; AGroup 21889 2 syms_83;
     AGroup 3 3 syms_1; AGroup 21793 4 syms_84; AGroup 21891 5 syms_85; AGroup 21795 6 syms_86]);
   (479623, 13, [AGroup 21867 1 [sym_kHat]; AGroup 21873 1 [sym_kFdiv]; AGroup 21875 1 [sym_kAs];
     AGroup 21881 1 [sym_kIs]; AGroup 21883 1 [sym_kNot]; AGroup 22774 1 [anon_sym_COMMA];
     AGroup 22834 1 [sym_kDo]; SGroup 5529 1 [sym__exprIsNot]; AGroup 21877 2 syms_83;
     AGroup 3 3 syms_1; AGroup 21869 4 syms_84; AGroup 21879 5 syms_85; AGroup 21871 6 syms_86]);
   (479678, 13, [AGroup 20914 1 [sym_kUntil]; AGroup 21979 1 [sym_kHat]; AGroup 21985 1 [sym_kFdiv];
     AGroup 21987 1 [sym_kAs]; AGroup 22003 1 [sym_kIs]; AGroup 22005 1 [sym_kNot];
     AGroup 22599 1 [anon_sym_SEMI]; SGroup 4755 1 [sym__exprIsNot]; AGroup 21999 2 syms_83;
     AGroup 3 3 syms_1; AGroup 21981 4 syms_84; AGroup 22001 5 syms_85; AGroup 21983 6 syms_86]);
   (479733, 13, [AGroup 21867 1 [sym_kHat]; AGroup 21873 1 [sym_kFdiv]; AGroup 21875 1 [sym_kAs];
     AGroup 21881 1 [sym_kIs]; AGroup 21883 1 [sym_kNot]; AGroup 22774 1 [anon_sym_COMMA];
     AGroup 22836 1 [sym_kDo]; SGroup 5529 1 [sym__exprIsNot]; AGroup 21877 2 syms_83;
     AGroup 3 3 syms_1; AGroup 21869 4 syms_84; AGroup 21879 5 syms_85; AGroup 21871 6 syms_86])
  ].

(** States 9659 to 9758. *)
Definition small_runs_9659 : list small_run :=
  [
   (479788, 13, [AGroup 21867 1 [sym_kHat]; AGroup 21873 1 [sym_kFdiv]; AGroup 21875 1 [sym_kAs];
     AGroup 21881 1 [sym_kIs]; AGroup 21883 1 [sym_kNot]; AGroup 22774 1 [anon_sym_COMMA];
     AGroup 22838 1 [sym_kDo]; SGroup 5529 1 [sym__exprIsNot]; AGroup 21877 2 syms_83;
     AGroup 3 3 syms_1; AGroup 21869 4 syms_84; AGroup 21879 5 syms_85; AGroup 21871 6 syms_86]);
   (479843, 13, [AGroup 21867 1 [sym_kHat]; AGroup 21873 1 [sym_kFdiv]; AGroup 21875 1 [sym_kAs];
     AGroup 21881 1 [sym_kIs]; AGroup 21883 1 [sym_kNot]; AGroup 22774 1 [anon_sym_COMMA];
     AGroup 22840 1 [sym_kDo]; SGroup 5529 1 [sym__exprIsNot]; AGroup 21877 2 syms_83;
     AGroup 3 3 syms_1; AGroup 21869 4 syms_84; AGroup 21879 5 syms_85; AGroup 21871 6 syms_86]);
   (479898, 13, [AGroup 21867 1 [sym_kHat]; AGroup 21873 1 [sym_kFdiv]; AGroup 21875 1 [sym_kAs];
     AGroup 21881 1 [sym_kIs]; AGroup 21883 1 [sym_kNot]; AGroup 22774 1 [anon_sym_COMMA];
     AGroup 22842 1 [sym_kDo]; SGroup 5529 1 [sym__exprIsNot]; AGroup 21877 2 syms_83;
     AGroup 3 3 syms_1; AGroup 21869 4 syms_84; AGroup 21879 5 syms_85; AGroup 21871 6 syms_86]);
   (479953, 13, [AGroup 21909 1 [sym_kHat]; AGroup 21915 1 [sym_kFdiv]; AGroup 21917 1 [sym_kAs];
     AGroup 21927 1 [sym_kIs]; AGroup 21929 1 [sym_kNot]; AGroup 22844 1 [anon_sym_SEMI];
     AGroup 22846 1 [sym_kDelayed]; SGroup 4605 1 [sym__exprIsNot]; AGroup 21923 2 syms_83;
     AGroup 3 3 syms_1; AGroup 21911 4 syms_84; AGroup 21925 5 syms_85; AGroup 21913 6 syms_86]);
   (480008, 13, [AGroup 21773 1 [sym_kHat]; AGroup 21779 1 [sym_kFdiv]; AGroup 21781 1 [sym_kAs];
     AGroup 21787 1 [sym_kIs]; AGroup 21789 1 [sym_kNot]; AGroup 22674 1 [anon_sym_SEMI];
     AGroup 22848 1 [sym_kRaiseAt]; SGroup 4394 1 [sym__exprIsNot]; AGroup 21783 2 syms_83;
     AGroup 3 3 syms_1; AGroup 21775 4 syms_84; AGroup 21785 5 syms_85; AGroup 21777 6 syms_86]);
   (480063, 13, [AGroup 21867 1 [sym_kHat]; AGroup 21873 1 [sym_kFdiv]; AGroup 21875 1 [sym_kAs];
     AGroup 21881 1 [sym_kIs]; AGroup 21883 1 [sym_kNot]; AGroup 22774 1 [anon_sym_COMMA];
     AGroup 22850 1 [sym_kDo]; SGroup 5529 1 [sym__exprIsNot]; AGroup 21877 2 syms_83;
     AGroup 3 3 syms_1; AGroup 21869 4 syms_84; AGroup 21879 5 syms_85; AGroup 21871 6 syms_86]);
   (480118, 13, [AGroup 21867 1 [sym_kHat]; AGroup 21873 1 [sym_kFdiv]; AGroup 21875 1 [sym_kAs];
     AGroup 21881 1 [sym_kIs]; AGroup 21883 1 [sym_kNot]; AGroup 22774 1 [anon_sym_COMMA];
     AGroup 22852 1 [sym_kDo]; SGroup 5529 1 [sym__exprIsNot]; AGroup 21877 2 syms_83;
     AGroup 3 3 syms_1; AGroup 21869 4 syms_84; AGroup 21879 5 syms_85; AGroup 21871 6 syms_86]);
   (480173, 13, [AGroup 21909 1 [sym_kHat]; AGroup 21915 1 [sym_kFdiv]; AGroup 21917 1 [sym_kAs];
     AGroup 21927 1 [sym_kIs]; AGroup 21929 1 [sym_kNot]; AGroup 22854 1 [anon_sym_SEMI];
     AGroup 22856 1 [sym_kDelayed]; SGroup 4605 1 [sym__exprIsNot]; AGroup 21923 2 syms_83;
     AGroup 3 3 syms_1; AGroup 21911 4 syms_84; AGroup 21925 5 syms_85; AGroup 21913 6 syms_86]);
   (480228, 13, [AGroup 21867 1 [sym_kHat]; AGroup 21873 1 [sym_kFdiv]; AGroup 21875 1 [sym_kAs];
     AGroup 21881 1 [sym_kIs]; AGroup 21883 1 [sym_kNot]; AGroup 22774 1 [anon_sym_COMMA];
     AGroup 22858 1 [sym_kDo]; SGroup 5529 1 [sym__exprIsNot]; AGroup 21877 2 syms_83;
     AGroup 3 3 syms_1; AGroup 21869 4 syms_84; AGroup 21879 5 syms_85; AGroup 21871 6 syms_86]);
   (480283, 3, [AGroup 5 1 [sym_ppDirective]; AGroup 3 2 syms_5; AGroup 11005 25 syms_140]);
   (480318, 13, [AGroup 21867 1 [sym_kHat]; AGroup 21873 1 [sym_kFdiv]; AGroup 21875 1 [sym_kAs];
     AGroup 21881 1 [sym_kIs]; AGroup 21883 1 [sym_kNot]; AGroup 22774 1 [anon_sym_COMMA];
     AGroup 22860 1 [sym_kDo]; SGroup 5529 1 [sym__exprIsNot]; AGroup 21877 2 syms_83;
     AGroup 3 3 syms_1; AGroup 21869 4 syms_84; AGroup 21879 5 syms_85; AGroup 21871 6 syms_86]);
   (480373, 13, [AGroup 21867 1 [sym_kHat]; AGroup 21873 1 [sym_kFdiv]; AGroup 21875 1 [sym_kAs];
     AGroup 21881 1 [sym_kIs]; AGroup 21883 1 [sym_kNot]; AGroup 22774 1 [anon_sym_COMMA];
     AGroup 22862 1 [sym_kDo]; SGroup 5529 1 [sym__exprIsNot]; AGroup 21877 2 syms_83;
     AGroup 3 3 syms_1; AGroup 21869 4 syms_84; AGroup 21879 5 syms_85; AGroup 21871 6 syms_86]);
   (480428, 13, [AGroup 21867 1 [sym_kHat]; AGroup 21873 1 [sym_kFdiv]; AGroup 21875 1 [sym_kAs];
     AGroup 21881 1 [sym_kIs]; AGroup 21883 1 [sym_kNot]; AGroup 22774 1 [anon_sym_COMMA];
     AGroup 22864 1 [sym_kDo]; SGroup 5529 1 [sym__exprIsNot]; AGroup 21877 2 syms_83;
     AGroup 3 3 syms_1; AGroup 21869 4 syms_84; AGroup 21879 5 syms_85; AGroup 21871 6 syms_86]);
   (480483, 13, [AGroup 20898 1 [sym_kElse]; AGroup 21791 1 [sym_kHat]; AGroup 21797 1 [sym_kFdiv];
     AGroup 21799 1 [sym_kAs]; AGroup 21893 1 [sym_kIs]; AGroup 21895 1 [sym_kNot];
     AGroup 22866 1 [anon_sym_SEMI]; SGroup 4923 1 [sym__exprIsNot]; AGroup 21889 2 syms_83;
     AGroup 3 3 syms_1; AGroup 21793 4 syms_84; AGroup 21891 5 syms_85; AGroup 21795 6 syms_86]);
   (480538, 13, [AGroup 20914 1 [sym_kEnd]; AGroup 21833 1 [sym_kHat]; AGroup 21839 1 [sym_kFdiv];
     AGroup 21841 1 [sym_kAs]; AGroup 21847 1 [sym_kIs]; AGroup 21849 1 [sym_kNot];
     AGroup 22722 1 [anon_sym_SEMI]; SGroup 4481 1 [sym__exprIsNot]; AGroup 21843 2 syms_83;
     AGroup 3 3 syms_1; AGroup 21835 4 syms_84; AGroup 21845 5 syms_85; AGroup 21837 6 syms_86]);
   (480593, 13, [AGroup 20933 1 [sym_kEnd]; AGroup 21833 1 [sym_kHat]; AGroup 21839 1 [sym_kFdiv];
     AGroup 21841 1 [sym_kAs]; AGroup 21847 1 [sym_kIs]; AGroup 21849 1 [sym_kNot];
     AGroup 22726 1 [anon_sym_SEMI]; SGroup 4481 1 [sym__exprIsNot]; AGroup 21843 2 syms_83;
     AGroup 3 3 syms_1; AGroup 21835 4 syms_84; AGroup 21845 5 syms_85; AGroup 21837 6 syms_86]);
   (480648, 13, [AGroup 21867 1 [sym_kHat]; AGroup 21873 1 [sym_kFdiv]; AGroup 21875 1 [sym_kAs];
     AGroup 21881 1 [sym_kIs]; AGroup 21883 1 [sym_kNot]; AGroup 22774 1 [anon_sym_COMMA];
     AGroup 22868 1 [sym_kDo]; SGroup 5529 1 [sym__exprIsNot]; AGroup 21877 2 syms_83;
     AGroup 3 3 syms_1; AGroup 21869 4 syms_84; AGroup 21879 5 syms_85; AGroup 21871 6 syms_86]);
   (480703, 12, [AGroup 21979 1 [sym_kHat]; AGroup 21985 1 [sym_kFdiv]; AGroup 21987 1 [sym_kAs];
     AGroup 22003 1 [sym_kIs]; AGroup 22005 1 [sym_kNot]; SGroup 4755 1 [sym__exprIsNot];
     AGroup 21029 2 syms_684; AGroup 21999 2 syms_83; AGroup 3 3 syms_1; AGroup 21981 4 syms_84;
     AGroup 22001 5 syms_85; AGroup 21983 6 syms_86]);
   (480756, 13, [AGroup 21909 1 [sym_kHat]; AGroup 21915 1 [sym_kFdiv]; AGroup 21917 1 [sym_kAs];
     AGroup 21927 1 [sym_kIs]; AGroup 21929 1 [sym_kNot]; AGroup 22870 1 [anon_sym_SEMI];
     AGroup 22872 1 [sym_kDelayed]; SGroup 4605 1 [sym__exprIsNot]; AGroup 21923 2 syms_83;
     AGroup 3 3 syms_1; AGroup 21911 4 syms_84; AGroup 21925 5 syms_85; AGroup 21913 6 syms_86]);
   (480811, 13, [AGroup 20898 1 [sym_kElse]; AGroup 21791 1 [sym_kHat]; AGroup 21797 1 [sym_kFdiv];
     AGroup 21799 1 [sym_kAs]; AGroup 21893 1 [sym_kIs]; AGroup 21895 1 [sym_kNot];
     AGroup 22874 1 [anon_sym_SEMI]; SGroup 4923 1 [sym__exprIsNot]; AGroup 21889 2 syms_83;
     AGroup 3 3 syms_1; AGroup 21793 4 syms_84; AGroup 21891 5 syms_85; AGroup 21795 6 syms_86]);
   (480866, 13, [AGroup 21867 1 [sym_kHat]; AGroup 21873 1 [sym_kFdiv]; AGroup 21875 1 [sym_kAs];
     AGroup 21881 1 [sym_kIs]; AGroup 21883 1 [sym_kNot]; AGroup 22774 1 [anon_sym_COMMA];
     AGroup 22876 1 [sym_kDo]; SGroup 5529 1 [sym__exprIsNot]; AGroup 21877 2 syms_83;
     AGroup 3 3 syms_1; AGroup 21869 4 syms_84; AGroup 21879 5 syms_85; AGroup 21871 6 syms_86]);
   (480921, 13, [AGroup 21867 1 [sym_kHat]; AGroup 21873 1 [sym_kFdiv]; AGroup 21875 1 [sym_kAs];
     AGroup 21881 1 [sym_kIs]; AGroup 21883 1 [sym_kNot]; AGroup 22774 1 [anon_sym_COMMA];
     AGroup 22878 1 [sym_kDo]; SGroup 5529 1 [sym__exprIsNot]; AGroup 21877 2 syms_83;
     AGroup 3 3 syms_1; AGroup 21869 4 syms_84; AGroup 21879 5 syms_85; AGroup 21871 6 syms_86]);
   (480976, 13, [AGroup 21867 1 [sym_kHat]; AGroup 21873 1 [sym_kFdiv]; AGroup 21875 1 [sym_kAs];
     AGroup 21881 1 [sym_kIs]; AGroup 21883 1 [sym_kNot]; AGroup 22774 1 [anon_sym_COMMA];
     AGroup 22880 1 [sym_kDo]; SGroup 5529 1 [sym__exprIsNot]; AGroup 21877 2 syms_83;
     AGroup 3 3 syms_1; AGroup 21869 4 syms_84; AGroup 21879 5 syms_85; AGroup 21871 6 syms_86]);
   (481031, 13, [AGroup 21867 1 [sym_kHat]; AGroup 21873 1 [sym_kFdiv]; AGroup 21875 1 [sym_kAs];
     AGroup 21881 1 [sym_kIs]; AGroup 21883 1 [sym_kNot]; AGroup 22774 1 [anon_sym_COMMA];
     AGroup 22882 1 [sym_kDo]; SGroup 5529 1 [sym__exprIsNot]; AGroup 21877 2 syms_83;
     AGroup 3 3 syms_1; AGroup 21869 4 syms_84; AGroup 21879 5 syms_85; AGroup 21871 6 syms_86]);
   (481086, 13, [AGroup 21773 1 [sym_kHat]; AGroup 21779 1 [sym_kFdiv]; AGroup 21781 1 [sym_kAs];
     AGroup 21787 1 [sym_kIs]; AGroup 21789 1 [sym_kNot]; AGroup 22626 1 [anon_sym_SEMI];
     AGroup 22884 1 [sym_kRaiseAt]; SGroup 4394 1 [sym__exprIsNot]; AGroup 21783 2 syms_83;
     AGroup 3 3 syms_1; AGroup 21775 4 syms_84; AGroup 21785 5 syms_85; AGroup 21777 6 syms_86]);
   (481141, 13, [AGroup 21867 1 [sym_kHat]; AGroup 21873 1 [sym_kFdiv]; AGroup 21875 1 [sym_kAs];
     AGroup 21881 1 [sym_kIs]; AGroup 21883 1 [sym_kNot]; AGroup 22774 1 [anon_sym_COMMA];
     AGroup 22886 1 [sym_kDo]; SGroup 5529 1 [sym__exprIsNot]; AGroup 21877 2 syms_83;
     AGroup 3 3 syms_1; AGroup 21869 4 syms_84; AGroup 21879 5 syms_85; AGroup 21871 6 syms_86]);
   (481196, 3, [AGroup 5 1 [sym_ppDirective]; AGroup 3 2 syms_5; AGroup 10997 25 syms_140]);
   (481231, 12, [AGroup 20826 1 [sym_kHat]; AGroup 20834 1 [sym_kAs]; AGroup 21460 1 [sym_kFdiv];
     AGroup 21462 1 [sym_kIs]; AGroup 21464 1 [sym_kNot]; SGroup 4778 1 [sym__exprIsNot];
     AGroup 21029 2 syms_129; AGroup 21452 2 syms_83; AGroup 3 3 syms_1; AGroup 21456 4 syms_84;
     AGroup 21454 5 syms_85; AGroup 21458 6 syms_86]);
   (481284, 13, [AGroup 21867 1 [sym_kHat]; AGroup 21873 1 [sym_kFdiv]; AGroup 21875 1 [sym_kAs];
     AGroup 21881 1 [sym_kIs]; AGroup 21883 1 [sym_kNot]; AGroup 22774 1 [anon_sym_COMMA];
     AGroup 22888 1 [sym_kDo]; SGroup 5529 1 [sym__exprIsNot]; AGroup 21877 2 syms_83;
     AGroup 3 3 syms_1; AGroup 21869 4 syms_84; AGroup 21879 5 syms_85; AGroup 21871 6 syms_86]);
   (481339, 12, [AGroup 20826 1 [sym_kHat]; AGroup 20834 1 [sym_kAs]; AGroup 21460 1 [sym_kFdiv];
     AGroup 21462 1 [sym_kIs]; AGroup 21464 1 [sym_kNot]; SGroup 4778 1 [sym__exprIsNot];
     AGroup 21452 2 syms_83; AGroup 22409 2 syms_133; AGroup 3 3 syms_1; AGroup 21456 4 syms_84;
     AGroup 21454 5 syms_85; AGroup 21458 6 syms_86]);
   (481392, 12, [AGroup 20826 1 [sym_kHat]; AGroup 20834 1 [sym_kAs]; AGroup 21460 1 [sym_kFdiv];
     AGroup 21462 1 [sym_kIs]; AGroup 21464 1 [sym_kNot]; SGroup 4778 1 [sym__exprIsNot];
     AGroup 21452 2 syms_83; AGroup 22417 2 syms_133; AGroup 3 3 syms_1; AGroup 21456 4 syms_84;
     AGroup 21454 5 syms_85; AGroup 21458 6 syms_86]);
   (481445, 13, [AGroup 21909 1 [sym_kHat]; AGroup 21915 1 [sym_kFdiv]; AGroup 21917 1 [sym_kAs];
     AGroup 21927 1 [sym_kIs]; AGroup 21929 1 [sym_kNot]; AGroup 22890 1 [anon_sym_SEMI];
     AGroup 22892 1 [sym_kDelayed]; SGroup 4605 1 [sym__exprIsNot]; AGroup 21923 2 syms_83;
     AGroup 3 3 syms_1; AGroup 21911 4 syms_84; AGroup 21925 5 syms_85; AGroup 21913 6 syms_86]);
   (481500, 12, [AGroup 20826 1 [sym_kHat]; AGroup 20834 1 [sym_kAs]; AGroup 21460 1 [sym_kFdiv];
     AGroup 21462 1 [sym_kIs]; AGroup 21464 1 [sym_kNot]; SGroup 4778 1 [sym__exprIsNot];
     AGroup 21452 2 syms_83; AGroup 22413 2 syms_133; AGroup 3 3 syms_1; AGroup 21456 4 syms_84;
     AGroup 21454 5 syms_85; AGroup 21458 6 syms_86]);
   (481553, 13, [AGroup 5 1 [sym_ppDirective]; AGroup 21466 1 [sym_kHat]; AGroup 21472 1 [sym_kFdiv];
     AGroup 21474 1 [sym_kAs]; AGroup 21491 1 [sym_kIs]; AGroup 21493 1 [sym_kNot];
     SGroup 5074 1 [sym__exprIsNot]; AGroup 3 2 syms_5; AGroup 20702 2 syms_44;
     AGroup 21487 2 syms_83; AGroup 21468 4 syms_84; AGroup 21489 5 syms_85;
     AGroup 21470 6 syms_86]);
   (481608, 12, [AGroup 20826 1 [sym_kHat]; AGroup 20834 1 [sym_kAs]; AGroup 21460 1 [sym_kFdiv];
     AGroup 21462 1 [sym_kIs]; AGroup 21464 1 [sym_kNot]; SGroup 4778 1 [sym__exprIsNot];
     AGroup 17936 2 syms_129; AGroup 21452 2 syms_83; AGroup 3 3 syms_1; AGroup 21456 4 syms_84;
     AGroup 21454 5 syms_85; AGroup 21458 6 syms_86]);
   (481661, 12, [AGroup 20826 1 [sym_kHat]; AGroup 20834 1 [sym_kAs]; AGroup 21460 1 [sym_kFdiv];
     AGroup 21462 1 [sym_kIs]; AGroup 21464 1 [sym_kNot]; SGroup 4778 1 [sym__exprIsNot];
     AGroup 17938 2 syms_129; AGroup 21452 2 syms_83; AGroup 3 3 syms_1; AGroup 21456 4 syms_84;
     AGroup 21454 5 syms_85; AGroup 21458 6 syms_86]);
   (481714, 13, [AGroup 21867 1 [sym_kHat]; AGroup 21873 1 [sym_kFdiv]; AGroup 21875 1 [sym_kAs];
     AGroup 21881 1 [sym_kIs]; AGroup 21883 1 [sym_kNot]; AGroup 22774 1 [anon_sym_COMMA];
     AGroup 22894 1 [sym_kDo]; SGroup 5529 1 [sym__exprIsNot]; AGroup 21877 2 syms_83;
     AGroup 3 3 syms_1; AGroup 21869 4 syms_84; AGroup 21879 5 syms_85; AGroup 21871 6 syms_86]);
   (481769, 13, [AGroup 21867 1 [sym_kHat]; AGroup 21873 1 [sym_kFdiv]; AGroup 21875 1 [sym_kAs];
     AGroup 21881 1 [sym_kIs]; AGroup 21883 1 [sym_kNot]; AGroup 22774 1 [anon_sym_COMMA];
     AGroup 22896 1 [sym_kDo]; SGroup 5529 1 [sym__exprIsNot]; AGroup 21877 2 syms_83;
     AGroup 3 3 syms_1; AGroup 21869 4 syms_84; AGroup 21879 5 syms_85; AGroup 21871 6 syms_86]);
   (481824, 3, [AGroup 5 1 [sym_ppDirective]; AGroup 3 2 syms_5; AGroup 10920 25 syms_140]);
   (481859, 13, [AGroup 21909 1 [sym_kHat]; AGroup 21915 1 [sym_kFdiv]; AGroup 21917 1 [sym_kAs];
     AGroup 21927 1 [sym_kIs]; AGroup 21929 1 [sym_kNot]; AGroup 22898 1 [anon_sym_SEMI];
     AGroup 22900 1 [sym_kDelayed]; SGroup 4605 1 [sym__exprIsNot]; AGroup 21923 2 syms_83;
     AGroup 3 3 syms_1; AGroup 21911 4 syms_84; AGroup 21925 5 syms_85; AGroup 21913 6 syms_86]);
   (481914, 13, [AGroup 21909 1 [sym_kHat]; AGroup 21915 1 [sym_kFdiv]; AGroup 21917 1 [sym_kAs];
     AGroup 21927 1 [sym_kIs]; AGroup 21929 1 [sym_kNot]; AGroup 22902 1 [anon_sym_SEMI];
     AGroup 22904 1 [sym_kDelayed]; SGroup 4605 1 [sym__exprIsNot]; AGroup 21923 2 syms_83;
     AGroup 3 3 syms_1; AGroup 21911 4 syms_84; AGroup 21925 5 syms_85; AGroup 21913 6 syms_86]);
   (481969, 13, [AGroup 21759 1 [anon_sym_SEMI]; AGroup 21773 1 [sym_kHat]; AGroup 21779 1 [sym_kFdiv];
     AGroup 21781 1 [sym_kAs]; AGroup 21787 1 [sym_kIs]; AGroup 21789 1 [sym_kNot];
     AGroup 22906 1 [sym_kRaiseAt]; SGroup 4394 1 [sym__exprIsNot]; AGroup 21783 2 syms_83;
     AGroup 3 3 syms_1; AGroup 21775 4 syms_84; AGroup 21785 5 syms_85; AGroup 21777 6 syms_86]);
   (482024, 13, [AGroup 21909 1 [sym_kHat]; AGroup 21915 1 [sym_kFdiv]; AGroup 21917 1 [sym_kAs];
     AGroup 21927 1 [sym_kIs]; AGroup 21929 1 [sym_kNot]; AGroup 22908 1 [anon_sym_SEMI];
     AGroup 22910 1 [sym_kDelayed]; SGroup 4605 1 [sym__exprIsNot]; AGroup 21923 2 syms_83;
     AGroup 3 3 syms_1; AGroup 21911 4 syms_84; AGroup 21925 5 syms_85; AGroup 21913 6 syms_86]);
   (482079, 13, [AGroup 21867 1 [sym_kHat]; AGroup 21873 1 [sym_kFdiv]; AGroup 21875 1 [sym_kAs];
     AGroup 21881 1 [sym_kIs]; AGroup 21883 1 [sym_kNot]; AGroup 22774 1 [anon_sym_COMMA];
     AGroup 22912 1 [sym_kDo]; SGroup 5529 1 [sym__exprIsNot]; AGroup 21877 2 syms_83;
     AGroup 3 3 syms_1; AGroup 21869 4 syms_84; AGroup 21879 5 syms_85; AGroup 21871 6 syms_86]);
   (482134, 12, [AGroup 21813 1 [sym_kHat]; AGroup 21819 1 [sym_kFdiv]; AGroup 21821 1 [sym_kAs];
     AGroup 21855 1 [sym_kIs]; AGroup 21857 1 [sym_kNot]; SGroup 4743 1 [sym__exprIsNot];
     AGroup 20667 2 syms_683; AGroup 21851 2 syms_83; AGroup 3 3 syms_1; AGroup 21815 4 syms_84;
     AGroup 21853 5 syms_85; AGroup 21817 6 syms_86]);
   (482187, 13, [AGroup 21909 1 [sym_kHat]; AGroup 21915 1 [sym_kFdiv]; AGroup 21917 1 [sym_kAs];
     AGroup 21927 1 [sym_kIs]; AGroup 21929 1 [sym_kNot]; AGroup 22914 1 [anon_sym_SEMI];
     AGroup 22916 1 [sym_kDelayed]; SGroup 4605 1 [sym__exprIsNot]; AGroup 21923 2 syms_83;
     AGroup 3 3 syms_1; AGroup 21911 4 syms_84; AGroup 21925 5 syms_85; AGroup 21913 6 syms_86]);
   (482242, 13, [AGroup 20914 1 [sym_kElse]; AGroup 21791 1 [sym_kHat]; AGroup 21797 1 [sym_kFdiv];
     AGroup 21799 1 [sym_kAs]; AGroup 21893 1 [sym_kIs]; AGroup 21895 1 [sym_kNot];
     AGroup 22918 1 [anon_sym_SEMI]; SGroup 4923 1 [sym__exprIsNot]; AGroup 21889 2 syms_83;
     AGroup 3 3 syms_1; AGroup 21793 4 syms_84; AGroup 21891 5 syms_85; AGroup 21795 6 syms_86]);
   (482297, 13, [AGroup 20898 1 [sym_kElse]; AGroup 21791 1 [sym_kHat]; AGroup 21797 1 [sym_kFdiv];
     AGroup 21799 1 [sym_kAs]; AGroup 21893 1 [sym_kIs]; AGroup 21895 1 [sym_kNot];
     AGroup 22920 1 [anon_sym_SEMI]; SGroup 4923 1 [sym__exprIsNot]; AGroup 21889 2 syms_83;
     AGroup 3 3 syms_1; AGroup 21793 4 syms_84; AGroup 21891 5 syms_85; AGroup 21795 6 syms_86]);
   (482352, 13, [AGroup 20933 1 [sym_kElse]; AGroup 21791 1 [sym_kHat]; AGroup 21797 1 [sym_kFdiv];
     AGroup 21799 1 [sym_kAs]; AGroup 21893 1 [sym_kIs]; AGroup 21895 1 [sym_kNot];
     AGroup 22922 1 [anon_sym_SEMI]; SGroup 4923 1 [sym__exprIsNot]; AGroup 21889 2 syms_83;
     AGroup 3 3 syms_1; AGroup 21793 4 syms_84; AGroup 21891 5 syms_85; AGroup 21795 6 syms_86]);
   (482407, 13, [AGroup 20933 1 [sym_kElse]; AGroup 21791 1 [sym_kHat]; AGroup 21797 1 [sym_kFdiv];
     AGroup 21799 1 [sym_kAs]; AGroup 21893 1 [sym_kIs]; AGroup 21895 1 [sym_kNot];
     AGroup 22924 1 [anon_sym_SEMI]; SGroup 4923 1 [sym__exprIsNot]; AGroup 21889 2 syms_83;
     AGroup 3 3 syms_1; AGroup 21793 4 syms_84; AGroup 21891 5 syms_85; AGroup 21795 6 syms_86]);
   (482462, 13, [AGroup 20898 1 [sym_kElse]; AGroup 21791 1 [sym_kHat]; AGroup 21797 1 [sym_kFdiv];
     AGroup 21799 1 [sym_kAs]; AGroup 21893 1 [sym_kIs]; AGroup 21895 1 [sym_kNot];
     AGroup 22926 1 [anon_sym_SEMI]; SGroup 4923 1 [sym__exprIsNot]; AGroup 21889 2 syms_83;
     AGroup 3 3 syms_1; AGroup 21793 4 syms_84; AGroup 21891 5 syms_85; AGroup 21795 6 syms_86]);
   (482517, 5, [AGroup 5 1 [sym_ppDirective]; AGroup 22587 1 [sym_kEnd]; AGroup 3 2 syms_5;
     AGroup 22403 5 syms_150; AGroup 22401 19 syms_151]);
   (482556, 13, [AGroup 21909 1 [sym_kHat]; AGroup 21915 1 [sym_kFdiv]; AGroup 21917 1 [sym_kAs];
     AGroup 21927 1 [sym_kIs]; AGroup 21929 1 [sym_kNot]; AGroup 22928 1 [anon_sym_SEMI];
     AGroup 22930 1 [sym_kDelayed]; SGroup 4605 1 [sym__exprIsNot]; AGroup 21923 2 syms_83;
     AGroup 3 3 syms_1; AGroup 21911 4 syms_84; AGroup 21925 5 syms_85; AGroup 21913 6 syms_86]);
   (482611, 13, [AGroup 20914 1 [sym_kElse]; AGroup 21791 1 [sym_kHat]; AGroup 21797 1 [sym_kFdiv];
     AGroup 21799 1 [sym_kAs]; AGroup 21893 1 [sym_kIs]; AGroup 21895 1 [sym_kNot];
     AGroup 22932 1 [anon_sym_SEMI]; SGroup 4923 1 [sym__exprIsNot]; AGroup 21889 2 syms_83;
     AGroup 3 3 syms_1; AGroup 21793 4 syms_84; AGroup 21891 5 syms_85; AGroup 21795 6 syms_86]);
   (482666, 12, [AGroup 21791 1 [sym_kHat]; AGroup 21797 1 [sym_kFdiv]; AGroup 21799 1 [sym_kAs];
     AGroup 21893 1 [sym_kIs]; AGroup 21895 1 [sym_kNot]; SGroup 4923 1 [sym__exprIsNot];
     AGroup 21029 2 syms_685; AGroup 21889 2 syms_83; AGroup 3 3 syms_1; AGroup 21793 4 syms_84;
     AGroup 21891 5 syms_85; AGroup 21795 6 syms_86]);
   (482719, 13, [AGroup 21867 1 [sym_kHat]; AGroup 21873 1 [sym_kFdiv]; AGroup 21875 1 [sym_kAs];
     AGroup 21881 1 [sym_kIs]; AGroup 21883 1 [sym_kNot]; AGroup 22774 1 [anon_sym_COMMA];
     AGroup 22934 1 [sym_kDo]; SGroup 5529 1 [sym__exprIsNot]; AGroup 21877 2 syms_83;
     AGroup 3 3 syms_1; AGroup 21869 4 syms_84; AGroup 21879 5 syms_85; AGroup 21871 6 syms_86]);
   (482774, 13, [AGroup 20898 1 [sym_kElse]; AGroup 21791 1 [sym_kHat]; AGroup 21797 1 [sym_kFdiv];
     AGroup 21799 1 [sym_kAs]; AGroup 21893 1 [sym_kIs]; AGroup 21895 1 [sym_kNot];
     AGroup 22936 1 [anon_sym_SEMI]; SGroup 4923 1 [sym__exprIsNot]; AGroup 21889 2 syms_83;
     AGroup 3 3 syms_1; AGroup 21793 4 syms_84; AGroup 21891 5 syms_85; AGroup 21795 6 syms_86]);
   (482829, 13, [AGroup 21867 1 [sym_kHat]; AGroup 21873 1 [sym_kFdiv]; AGroup 21875 1 [sym_kAs];
     AGroup 21881 1 [sym_kIs]; AGroup 21883 1 [sym_kNot]; AGroup 22774 1 [anon_sym_COMMA];
     AGroup 22938 1 [sym_kDo]; SGroup 5529 1 [sym__exprIsNot]; AGroup 21877 2 syms_83;
     AGroup 3 3 syms_1; AGroup 21869 4 syms_84; AGroup 21879 5 syms_85; AGroup 21871 6 syms_86]);
   (482884, 13, [AGroup 21867 1 [sym_kHat]; AGroup 21873 1 [sym_kFdiv]; AGroup 21875 1 [sym_kAs];
     AGroup 21881 1 [sym_kIs]; AGroup 21883 1 [sym_kNot]; AGroup 22774 1 [anon_sym_COMMA];
     AGroup 22940 1 [sym_kDo]; SGroup 5529 1 [sym__exprIsNot]; AGroup 21877 2 syms_83;
     AGroup 3 3 syms_1; AGroup 21869 4 syms_84; AGroup 21879 5 syms_85; AGroup 21871 6 syms_86]);
   (482939, 13, [AGroup 20933 1 [sym_kElse]; AGroup 21791 1 [sym_kHat]; AGroup 21797 1 [sym_kFdiv];
     AGroup 21799 1 [sym_kAs]; AGroup 21893 1 [sym_kIs]; AGroup 21895 1 [sym_kNot];
     AGroup 22942 1 [anon_sym_SEMI]; SGroup 4923 1 [sym__exprIsNot]; AGroup 21889 2 syms_83;
     AGroup 3 3 syms_1; AGroup 21793 4 syms_84; AGroup 21891 5 syms_85; AGroup 21795 6 syms_86]);
   (482994, 13, [AGroup 21867 1 [sym_kHat]; AGroup 21873 1 [sym_kFdiv]; AGroup 21875 1 [sym_kAs];
     AGroup 21881 1 [sym_kIs]; AGroup 21883 1 [sym_kNot]; AGroup 22774 1 [anon_sym_COMMA];
     AGroup 22944 1 [sym_kDo]; SGroup 5529 1 [sym__exprIsNot]; AGroup 21877 2 syms_83;
     AGroup 3 3 syms_1; AGroup 21869 4 syms_84; AGroup 21879 5 syms_85; AGroup 21871 6 syms_86]);
   (483049, 5, [AGroup 5 1 [sym_ppDirective]; AGroup 22423 1 [sym_kEnd]; AGroup 3 2 syms_5;
     AGroup 22403 5 syms_150; AGroup 22401 19 syms_151]);
   (483088, 13, [AGroup 21773 1 [sym_kHat]; AGroup 21779 1 [sym_kFdiv]; AGroup 21781 1 [sym_kAs];
     AGroup 21787 1 [sym_kIs]; AGroup 21789 1 [sym_kNot]; AGroup 22644 1 [anon_sym_SEMI];
     AGroup 22946 1 [sym_kRaiseAt]; SGroup 4394 1 [sym__exprIsNot]; AGroup 21783 2 syms_83;
     AGroup 3 3 syms_1; AGroup 21775 4 syms_84; AGroup 21785 5 syms_85; AGroup 21777 6 syms_86]);
   (483143, 13, [AGroup 20914 1 [sym_kElse]; AGroup 21791 1 [sym_kHat]; AGroup 21797 1 [sym_kFdiv];
     AGroup 21799 1 [sym_kAs]; AGroup 21893 1 [sym_kIs]; AGroup 21895 1 [sym_kNot];
     AGroup 22948 1 [anon_sym_SEMI]; SGroup 4923 1 [sym__exprIsNot]; AGroup 21889 2 syms_83;
     AGroup 3 3 syms_1; AGroup 21793 4 syms_84; AGroup 21891 5 syms_85; AGroup 21795 6 syms_86]);
   (483198, 5, [AGroup 5 1 [sym_ppDirective]; AGroup 22492 1 [sym_kEnd]; AGroup 3 2 syms_5;
     AGroup 22403 5 syms_150; AGroup 22401 19 syms_151]);
   (483237, 13, [AGroup 21867 1 [sym_kHat]; AGroup 21873 1 [sym_kFdiv]; AGroup 21875 1 [sym_kAs];
     AGroup 21881 1 [sym_kIs]; AGroup 21883 1 [sym_kNot]; AGroup 22774 1 [anon_sym_COMMA];
     AGroup 22950 1 [sym_kDo]; SGroup 5529 1 [sym__exprIsNot]; AGroup 21877 2 syms_83;
     AGroup 3 3 syms_1; AGroup 21869 4 syms_84; AGroup 21879 5 syms_85; AGroup 21871 6 syms_86]);
   (483292, 13, [AGroup 20995 1 [sym_kHat]; AGroup 21001 1 [sym_kFdiv]; AGroup 21003 1 [sym_kAs];
     AGroup 21009 1 [sym_kIs]; AGroup 21011 1 [sym_kNot]; AGroup 22365 1 [anon_sym_COMMA];
     AGroup 22369 1 [anon_sym_DOT_DOT]; SGroup 4357 1 [sym__exprIsNot]; AGroup 21005 2 syms_83;
     AGroup 3 3 syms_1; AGroup 20997 4 syms_84; AGroup 21007 5 syms_85; AGroup 20999 6 syms_86]);
   (483347, 13, [AGroup 21867 1 [sym_kHat]; AGroup 21873 1 [sym_kFdiv]; AGroup 21875 1 [sym_kAs];
     AGroup 21881 1 [sym_kIs]; AGroup 21883 1 [sym_kNot]; AGroup 22774 1 [anon_sym_COMMA];
     AGroup 22952 1 [sym_kDo]; SGroup 5529 1 [sym__exprIsNot]; AGroup 21877 2 syms_83;
     AGroup 3 3 syms_1; AGroup 21869 4 syms_84; AGroup 21879 5 syms_85; AGroup 21871 6 syms_86]);
   (483402, 13, [AGroup 20914 1 [sym_kElse]; AGroup 21791 1 [sym_kHat]; AGroup 21797 1 [sym_kFdiv];
     AGroup 21799 1 [sym_kAs]; AGroup 21893 1 [sym_kIs]; AGroup 21895 1 [sym_kNot];
     AGroup 22954 1 [anon_sym_SEMI]; SGroup 4923 1 [sym__exprIsNot]; AGroup 21889 2 syms_83;
     AGroup 3 3 syms_1; AGroup 21793 4 syms_84; AGroup 21891 5 syms_85; AGroup 21795 6 syms_86]);
   (483457, 13, [AGroup 5 1 [sym_ppDirective]; AGroup 21466 1 [sym_kHat]; AGroup 21472 1 [sym_kFdiv];
     AGroup 21474 1 [sym_kAs]; AGroup 21491 1 [sym_kIs]; AGroup 21493 1 [sym_kNot];
     SGroup 5074 1 [sym__exprIsNot]; AGroup 3 2 syms_5; AGroup 20667 2 syms_44;
     AGroup 21487 2 syms_83; AGroup 21468 4 syms_84; AGroup 21489 5 syms_85;
     AGroup 21470 6 syms_86]);
   (483512, 13, [AGroup 20933 1 [sym_kElse]; AGroup 21791 1 [sym_kHat]; AGroup 21797 1 [sym_kFdiv];
     AGroup 21799 1 [sym_kAs]; AGroup 21893 1 [sym_kIs]; AGroup 21895 1 [sym_kNot];
     AGroup 22956 1 [anon_sym_SEMI]; SGroup 4923 1 [sym__exprIsNot]; AGroup 21889 2 syms_83;
     AGroup 3 3 syms_1; AGroup 21793 4 syms_84; AGroup 21891 5 syms_85; AGroup 21795 6 syms_86]);
   (483567, 12, [AGroup 20826 1 [sym_kHat]; AGroup 21595 1 [sym_kAs]; AGroup 22387 1 [sym_kFdiv];
     AGroup 22389 1 [sym_kIs]; AGroup 22391 1 [sym_kNot]; SGroup 4442 1 [sym__exprIsNot];
     AGroup 22379 2 syms_83; AGroup 22409 2 syms_132; AGroup 3 3 syms_1; AGroup 22383 4 syms_84;
     AGroup 22381 5 syms_85; AGroup 22385 6 syms_86]);
   (483620, 13, [AGroup 20933 1 [sym_kElse]; AGroup 21791 1 [sym_kHat]; AGroup 21797 1 [sym_kFdiv];
     AGroup 21799 1 [sym_kAs]; AGroup 21893 1 [sym_kIs]; AGroup 21895 1 [sym_kNot];
     AGroup 22958 1 [anon_sym_SEMI]; SGroup 4923 1 [sym__exprIsNot]; AGroup 21889 2 syms_83;
     AGroup 3 3 syms_1; AGroup 21793 4 syms_84; AGroup 21891 5 syms_85; AGroup 21795 6 syms_86]);
   (483675, 13, [AGroup 21773 1 [sym_kHat]; AGroup 21779 1 [sym_kFdiv]; AGroup 21781 1 [sym_kAs];
     AGroup 21787 1 [sym_kIs]; AGroup 21789 1 [sym_kNot]; AGroup 22571 1 [anon_sym_SEMI];
     AGroup 22960 1 [sym_kRaiseAt]; SGroup 4394 1 [sym__exprIsNot]; AGroup 21783 2 syms_83;
     AGroup 3 3 syms_1; AGroup 21775 4 syms_84; AGroup 21785 5 syms_85; AGroup 21777 6 syms_86]);
   (483730, 13, [AGroup 21867 1 [sym_kHat]; AGroup 21873 1 [sym_kFdiv]; AGroup 21875 1 [sym_kAs];
     AGroup 21881 1 [sym_kIs]; AGroup 21883 1 [sym_kNot]; AGroup 22774 1 [anon_sym_COMMA];
     AGroup 22962 1 [sym_kDo]; SGroup 5529 1 [sym__exprIsNot]; AGroup 21877 2 syms_83;
     AGroup 3 3 syms_1; AGroup 21869 4 syms_84; AGroup 21879 5 syms_85; AGroup 21871 6 syms_86]);
   (483785, 13, [AGroup 21909 1 [sym_kHat]; AGroup 21915 1 [sym_kFdiv]; AGroup 21917 1 [sym_kAs];
     AGroup 21927 1 [sym_kIs]; AGroup 21929 1 [sym_kNot]; AGroup 22964 1 [anon_sym_SEMI];
     AGroup 22966 1 [sym_kDelayed]; SGroup 4605 1 [sym__exprIsNot]; AGroup 21923 2 syms_83;
     AGroup 3 3 syms_1; AGroup 21911 4 syms_84; AGroup 21925 5 syms_85; AGroup 21913 6 syms_86]);
   (483840, 13, [AGroup 21909 1 [sym_kHat]; AGroup 21915 1 [sym_kFdiv]; AGroup 21917 1 [sym_kAs];
     AGroup 21927 1 [sym_kIs]; AGroup 21929 1 [sym_kNot]; AGroup 22968 1 [anon_sym_SEMI];
     AGroup 22970 1 [sym_kDelayed]; SGroup 4605 1 [sym__exprIsNot]; AGroup 21923 2 syms_83;
     AGroup 3 3 syms_1; AGroup 21911 4 syms_84; AGroup 21925 5 syms_85; AGroup 21913 6 syms_86]);
   (483895, 3, [AGroup 5 1 [sym_ppDirective]; AGroup 3 2 syms_5; AGroup 11033 25 syms_140]);
   (483930, 13, [AGroup 20898 1 [sym_kElse]; AGroup 21791 1 [sym_kHat]; AGroup 21797 1 [sym_kFdiv];
     AGroup 21799 1 [sym_kAs]; AGroup 21893 1 [sym_kIs]; AGroup 21895 1 [sym_kNot];
     AGroup 22972 1 [anon_sym_SEMI]; SGroup 4923 1 [sym__exprIsNot]; AGroup 21889 2 syms_83;
     AGroup 3 3 syms_1; AGroup 21793 4 syms_84; AGroup 21891 5 syms_85; AGroup 21795 6 syms_86]);
   (483985, 12, [AGroup 21813 1 [sym_kHat]; AGroup 21819 1 [sym_kFdiv]; AGroup 21821 1 [sym_kAs];
     AGroup 21855 1 [sym_kIs]; AGroup 21857 1 [sym_kNot]; SGroup 4743 1 [sym__exprIsNot];
     AGroup 17936 2 syms_683; AGroup 21851 2 syms_83; AGroup 3 3 syms_1; AGroup 21815 4 syms_84;
     AGroup 21853 5 syms_85; AGroup 21817 6 syms_86]);
   (484038, 13, [AGroup 21867 1 [sym_kHat]; AGroup 21873 1 [sym_kFdiv]; AGroup 21875 1 [sym_kAs];
     AGroup 21881 1 [sym_kIs]; AGroup 21883 1 [sym_kNot]; AGroup 22774 1 [anon_sym_COMMA];
     AGroup 22974 1 [sym_kDo]; SGroup 5529 1 [sym__exprIsNot]; AGroup 21877 2 syms_83;
     AGroup 3 3 syms_1; AGroup 21869 4 syms_84; AGroup 21879 5 syms_85; AGroup 21871 6 syms_86]);
   (484093, 13, [AGroup 21867 1 [sym_kHat]; AGroup 21873 1 [sym_kFdiv]; AGroup 21875 1 [sym_kAs];
     AGroup 21881 1 [sym_kIs]; AGroup 21883 1 [sym_kNot]; AGroup 22774 1 [anon_sym_COMMA];
     AGroup 22976 1 [sym_kDo]; SGroup 5529 1 [sym__exprIsNot]; AGroup 21877 2 syms_83;
     AGroup 3 3 syms_1; AGroup 21869 4 syms_84; AGroup 21879 5 syms_85; AGroup 21871 6 syms_86]);
   (484148, 13, [AGroup 21867 1 [sym_kHat]; AGroup 21873 1 [sym_kFdiv]; AGroup 21875 1 [sym_kAs];
     AGroup 21881 1 [sym_kIs]; AGroup 21883 1 [sym_kNot]; AGroup 22774 1 [anon_sym_COMMA];
     AGroup 22978 1 [sym_kDo]; SGroup 5529 1 [sym__exprIsNot]; AGroup 21877 2 syms_83;
     AGroup 3 3 syms_1; AGroup 21869 4 syms_84; AGroup 21879 5 syms_85; AGroup 21871 6 syms_86]);
   (484203, 13, [AGroup 21867 1 [sym_kHat]; AGroup 21873 1 [sym_kFdiv]; AGroup 21875 1 [sym_kAs];
     AGroup 21881 1 [sym_kIs]; AGroup 21883 1 [sym_kNot]; AGroup 22774 1 [anon_sym_COMMA];
     AGroup 22980 1 [sym_kDo]; SGroup 5529 1 [sym__exprIsNot]; AGroup 21877 2 syms_83;
     AGroup 3 3 syms_1; AGroup 21869 4 syms_84; AGroup 21879 5 syms_85; AGroup 21871 6 syms_86]);
   (484258, 13, [AGroup 21867 1 [sym_kHat]; AGroup 21873 1 [sym_kFdiv]; AGroup 21875 1 [sym_kAs];
     AGroup 21881 1 [sym_kIs]; AGroup 21883 1 [sym_kNot]; AGroup 22774 1 [anon_sym_COMMA];
     AGroup 22982 1 [sym_kDo]; SGroup 5529 1 [sym__exprIsNot]; AGroup 21877 2 syms_83;
     AGroup 3 3 syms_1; AGroup 21869 4 syms_84; AGroup 21879 5 syms_85; AGroup 21871 6 syms_86]);
   (484313, 3, [AGroup 5 1 [sym_ppDirective]; AGroup 3 2 syms_5; AGroup 9810 25 syms_140]);
   (484348, 13, [AGroup 21909 1 [sym_kHat]; AGroup 21915 1 [sym_kFdiv]; AGroup 21917 1 [sym_kAs];
     AGroup 21927 1 [sym_kIs]; AGroup 21929 1 [sym_kNot]; AGroup 22984 1 [anon_sym_SEMI];
     AGroup 22986 1 [sym_kDelayed]; SGroup 4605 1 [sym__exprIsNot]; AGroup 21923 2 syms_83;
     AGroup 3 3 syms_1; AGroup 21911 4 syms_84; AGroup 21925 5 syms_85; AGroup 21913 6 syms_86]);
   (484403, 13, [AGroup 21867 1 [sym_kHat]; AGroup 21873 1 [sym_kFdiv]; AGroup 21875 1 [sym_kAs];
     AGroup 21881 1 [sym_kIs]; AGroup 21883 1 [sym_kNot]; AGroup 22774 1 [anon_sym_COMMA];
     AGroup 22988 1 [sym_kDo]; SGroup 5529 1 [sym__exprIsNot]; AGroup 21877 2 syms_83;
     AGroup 3 3 syms_1; AGroup 21869 4 syms_84; AGroup 21879 5 syms_85; AGroup 21871 6 syms_86]);
   (484458, 13, [AGroup 21909 1 [sym_kHat]; AGroup 21915 1 [sym_kFdiv]; AGroup 21917 1 [sym_kAs];
     AGroup 21927 1 [sym_kIs]; AGroup 21929 1 [sym_kNot]; AGroup 22990 1 [anon_sym_SEMI];
     AGroup 22992 1 [sym_kDelayed]; SGroup 4605 1 [sym__exprIsNot]; AGroup 21923 2 syms_83;
     AGroup 3 3 syms_1; AGroup 21911 4 syms_84; AGroup 21925 5 syms_85; AGroup 21913 6 syms_86]);
   (484513, 3, [AGroup 5 1 [sym_ppDirective]; AGroup 3 2 syms_5; AGroup 11049 25 syms_140]);
   (484548, 13, [AGroup 21867 1 [sym_kHat]; AGroup 21873 1 [sym_kFdiv]; AGroup 21875 1 [sym_kAs];
     AGroup 21881 1 [sym_kIs]; AGroup 21883 1 [sym_kNot]; AGroup 22774 1 [anon_sym_COMMA];
     AGroup 22994 1 [sym_kDo]; SGroup 5529 1 [sym__exprIsNot]; AGroup 21877 2 syms_83;
     AGroup 3 3 syms_1; AGroup 21869 4 syms_84; AGroup 21879 5 syms_85; AGroup 21871 6 syms_86]);
   (484603, 13, [AGroup 21867 1 [sym_kHat]; AGroup 21873 1 [sym_kFdiv]; AGroup 21875 1 [sym_kAs];
     AGroup 21881 1 [sym_kIs]; AGroup 21883 1 [sym_kNot]; AGroup 22774 1 [anon_sym_COMMA];
     AGroup 22996 1 [sym_kDo]; SGroup 5529 1 [sym__exprIsNot]; AGroup 21877 2 syms_83;
     AGroup 3 3 syms_1; AGroup 21869 4 syms_84; AGroup 21879 5 syms_85; AGroup 21871 6 syms_86]);
   (484658, 13, [AGroup 20933 1 [sym_kUntil]; AGroup 21979 1 [sym_kHat]; AGroup 21985 1 [sym_kFdiv];
     AGroup 21987 1 [sym_kAs]; AGroup 22003 1 [sym_kIs]; AGroup 22005 1 [sym_kNot];
     AGroup 22632 1 [anon_sym_SEMI]; SGroup 4755 1 [sym__exprIsNot]; AGroup 21999 2 syms_83;
     AGroup 3 3 syms_1; AGroup 21981 4 syms_84; AGroup 22001 5 syms_85; AGroup 21983 6 syms_86]);
   (484713, 13, [AGroup 21867 1 [sym_kHat]; AGroup 21873 1 [sym_kFdiv]; AGroup 21875 1 [sym_kAs];
     AGroup 21881 1 [sym_kIs]; AGroup 21883 1 [sym_kNot]; AGroup 22774 1 [anon_sym_COMMA];
     AGroup 22998 1 [sym_kDo]; SGroup 5529 1 [sym__exprIsNot]; AGroup 21877 2 syms_83;
     AGroup 3 3 syms_1; AGroup 21869 4 syms_84; AGroup 21879 5 syms_85; AGroup 21871 6 syms_86]);
   (484768, 13, [AGroup 20914 1 [sym_kElse]; AGroup 21791 1 [sym_kHat]; AGroup 21797 1 [sym_kFdiv];
     AGroup 21799 1 [sym_kAs]; AGroup 21893 1 [sym_kIs]; AGroup 21895 1 [sym_kNot];
     AGroup 23000 1 [anon_sym_SEMI]; SGroup 4923 1 [sym__exprIsNot]; AGroup 21889 2 syms_83;
     AGroup 3 3 syms_1; AGroup 21793 4 syms_84; AGroup 21891 5 syms_85; AGroup 21795 6 syms_86]);
   (484823, 13, [AGroup 20933 1 [sym_kElse]; AGroup 21791 1 [sym_kHat]; AGroup 21797 1 [sym_kFdiv];
     AGroup 21799 1 [sym_kAs]; AGroup 21893 1 [sym_kIs]; AGroup 21895 1 [sym_kNot];
     AGroup 23002 1 [anon_sym_SEMI]; SGroup 4923 1 [sym__exprIsNot]; AGroup 21889 2 syms_83;
     AGroup 3 3 syms_1; AGroup 21793 4 syms_84; AGroup 21891 5 syms_85; AGroup 21795 6 syms_86]);
   (484878, 13, [AGroup 21867 1 [sym_kHat]; AGroup 21873 1 [sym_kFdiv]; AGroup 21875 1 [sym_kAs];
     AGroup 21881 1 [sym_kIs]; AGroup 21883 1 [sym_kNot]; AGroup 22774 1 [anon_sym_COMMA];
     AGroup 23004 1 [sym_kDo]; SGroup 5529 1 [sym__exprIsNot]; AGroup 21877 2 syms_83;
     AGroup 3 3 syms_1; AGroup 21869 4 syms_84; AGroup 21879 5 syms_85; AGroup 21871 6 syms_86]);
   (484933, 13, [AGroup 21909 1 [sym_kHat]; AGroup 21915 1 [sym_kFdiv]; AGroup 21917 1 [sym_kAs];
     AGroup 21927 1 [sym_kIs]; AGroup 21929 1 [sym_kNot]; AGroup 23006 1 [anon_sym_SEMI];
     AGroup 23008 1 [sym_kDelayed]; SGroup 4605 1 [sym__exprIsNot]; AGroup 21923 2 syms_83;
     AGroup 3 3 syms_1; AGroup 21911 4 syms_84; AGroup 21925 5 syms_85; AGroup 21913 6 syms_86]);
   (484988, 13, [AGroup 20914 1 [sym_kElse]; AGroup 21791 1 [sym_kHat]; AGroup 21797 1 [sym_kFdiv];
     AGroup 21799 1 [sym_kAs]; AGroup 21893 1 [sym_kIs]; AGroup 21895 1 [sym_kNot];
     AGroup 23010 1 [anon_sym_SEMI]; SGroup 4923 1 [sym__exprIsNot]; AGroup 21889 2 syms_83;
     AGroup 3 3 syms_1; AGroup 21793 4 syms_84; AGroup 21891 5 syms_85; AGroup 21795 6 syms_86]);
   (485043, 13, [AGroup 21867 1 [sym_kHat]; AGroup 21873 1 [sym_kFdiv]; AGroup 21875 1 [sym_kAs];
     AGroup 21881 1 [sym_kIs]; AGroup 21883 1 [sym_kNot]; AGroup 22774 1 [anon_sym_COMMA];
     AGroup 23012 1 [sym_kDo]; SGroup 5529 1 [sym__exprIsNot]; AGroup 21877 2 syms_83;
     AGroup 3 3 syms_1; AGroup 21869 4 syms_84; AGroup 21879 5 syms_85; AGroup 21871 6 syms_86])
  ].

(** States 9759 to 9858. *)
Definition small_runs_9759 : list small_run :=
  [
   (485098, 3, [AGroup 5 1 [sym_ppDirective]; AGroup 3 2 syms_5; AGroup 10949 25 syms_140]);
   (485133, 13, [AGroup 21773 1 [sym_kHat]; AGroup 21779 1 [sym_kFdiv]; AGroup 21781 1 [sym_kAs];
     AGroup 21787 1 [sym_kIs]; AGroup 21789 1 [sym_kNot]; AGroup 22680 1 [anon_sym_SEMI];
     AGroup 23014 1 [sym_kRaiseAt]; SGroup 4394 1 [sym__exprIsNot]; AGroup 21783 2 syms_83;
     AGroup 3 3 syms_1; AGroup 21775 4 syms_84; AGroup 21785 5 syms_85; AGroup 21777 6 syms_86]);
   (485188, 13, [AGroup 21909 1 [sym_kHat]; AGroup 21915 1 [sym_kFdiv]; AGroup 21917 1 [sym_kAs];
     AGroup 21927 1 [sym_kIs]; AGroup 21929 1 [sym_kNot]; AGroup 23016 1 [anon_sym_SEMI];
     AGroup 23018 1 [sym_kDelayed]; SGroup 4605 1 [sym__exprIsNot]; AGroup 21923 2 syms_83;
     AGroup 3 3 syms_1; AGroup 21911 4 syms_84; AGroup 21925 5 syms_85; AGroup 21913 6 syms_86]);
   (485243, 12, [AGroup 21945 1 [sym_kHat]; AGroup 21951 1 [sym_kFdiv]; AGroup 21953 1 [sym_kAs];
     AGroup 21959 1 [sym_kIs]; AGroup 21961 1 [sym_kNot]; SGroup 4645 1 [sym__exprIsNot];
     AGroup 21031 2 syms_686; AGroup 21955 2 syms_83; AGroup 3 3 syms_1; AGroup 21947 4 syms_84;
     AGroup 21957 5 syms_85; AGroup 21949 6 syms_86]);
   (485296, 13, [AGroup 20898 1 [sym_kElse]; AGroup 21791 1 [sym_kHat]; AGroup 21797 1 [sym_kFdiv];
     AGroup 21799 1 [sym_kAs]; AGroup 21893 1 [sym_kIs]; AGroup 21895 1 [sym_kNot];
     AGroup 23020 1 [anon_sym_SEMI]; SGroup 4923 1 [sym__exprIsNot]; AGroup 21889 2 syms_83;
     AGroup 3 3 syms_1; AGroup 21793 4 syms_84; AGroup 21891 5 syms_85; AGroup 21795 6 syms_86]);
   (485351, 13, [AGroup 21909 1 [sym_kHat]; AGroup 21915 1 [sym_kFdiv]; AGroup 21917 1 [sym_kAs];
     AGroup 21927 1 [sym_kIs]; AGroup 21929 1 [sym_kNot]; AGroup 23022 1 [anon_sym_SEMI];
     AGroup 23024 1 [sym_kDelayed]; SGroup 4605 1 [sym__exprIsNot]; AGroup 21923 2 syms_83;
     AGroup 3 3 syms_1; AGroup 21911 4 syms_84; AGroup 21925 5 syms_85; AGroup 21913 6 syms_86]);
   (485406, 13, [AGroup 20914 1 [sym_kElse]; AGroup 21791 1 [sym_kHat]; AGroup 21797 1 [sym_kFdiv];
     AGroup 21799 1 [sym_kAs]; AGroup 21893 1 [sym_kIs]; AGroup 21895 1 [sym_kNot];
     AGroup 23026 1 [anon_sym_SEMI]; SGroup 4923 1 [sym__exprIsNot]; AGroup 21889 2 syms_83;
     AGroup 3 3 syms_1; AGroup 21793 4 syms_84; AGroup 21891 5 syms_85; AGroup 21795 6 syms_86]);
   (485461, 13, [AGroup 21867 1 [sym_kHat]; AGroup 21873 1 [sym_kFdiv]; AGroup 21875 1 [sym_kAs];
     AGroup 21881 1 [sym_kIs]; AGroup 21883 1 [sym_kNot]; AGroup 22774 1 [anon_sym_COMMA];
     AGroup 23028 1 [sym_kDo]; SGroup 5529 1 [sym__exprIsNot]; AGroup 21877 2 syms_83;
     AGroup 3 3 syms_1; AGroup 21869 4 syms_84; AGroup 21879 5 syms_85; AGroup 21871 6 syms_86]);
   (485516, 13, [AGroup 21867 1 [sym_kHat]; AGroup 21873 1 [sym_kFdiv]; AGroup 21875 1 [sym_kAs];
     AGroup 21881 1 [sym_kIs]; AGroup 21883 1 [sym_kNot]; AGroup 22774 1 [anon_sym_COMMA];
     AGroup 23030 1 [sym_kDo]; SGroup 5529 1 [sym__exprIsNot]; AGroup 21877 2 syms_83;
     AGroup 3 3 syms_1; AGroup 21869 4 syms_84; AGroup 21879 5 syms_85; AGroup 21871 6 syms_86]);
   (485571, 13, [AGroup 21867 1 [sym_kHat]; AGroup 21873 1 [sym_kFdiv]; AGroup 21875 1 [sym_kAs];
     AGroup 21881 1 [sym_kIs]; AGroup 21883 1 [sym_kNot]; AGroup 22774 1 [anon_sym_COMMA];
     AGroup 23032 1 [sym_kDo]; SGroup 5529 1 [sym__exprIsNot]; AGroup 21877 2 syms_83;
     AGroup 3 3 syms_1; AGroup 21869 4 syms_84; AGroup 21879 5 syms_85; AGroup 21871 6 syms_86]);
   (485626, 13, [AGroup 20933 1 [sym_kElse]; AGroup 21791 1 [sym_kHat]; AGroup 21797 1 [sym_kFdiv];
     AGroup 21799 1 [sym_kAs]; AGroup 21893 1 [sym_kIs]; AGroup 21895 1 [sym_kNot];
     AGroup 23034 1 [anon_sym_SEMI]; SGroup 4923 1 [sym__exprIsNot]; AGroup 21889 2 syms_83;
     AGroup 3 3 syms_1; AGroup 21793 4 syms_84; AGroup 21891 5 syms_85; AGroup 21795 6 syms_86]);
   (485681, 13, [AGroup 21867 1 [sym_kHat]; AGroup 21873 1 [sym_kFdiv]; AGroup 21875 1 [sym_kAs];
     AGroup 21881 1 [sym_kIs]; AGroup 21883 1 [sym_kNot]; AGroup 22774 1 [anon_sym_COMMA];
     AGroup 23036 1 [sym_kDo]; SGroup 5529 1 [sym__exprIsNot]; AGroup 21877 2 syms_83;
     AGroup 3 3 syms_1; AGroup 21869 4 syms_84; AGroup 21879 5 syms_85; AGroup 21871 6 syms_86]);
   (485736, 13, [AGroup 21867 1 [sym_kHat]; AGroup 21873 1 [sym_kFdiv]; AGroup 21875 1 [sym_kAs];
     AGroup 21881 1 [sym_kIs]; AGroup 21883 1 [sym_kNot]; AGroup 22774 1 [anon_sym_COMMA];
     AGroup 23038 1 [sym_kDo]; SGroup 5529 1 [sym__exprIsNot]; AGroup 21877 2 syms_83;
     AGroup 3 3 syms_1; AGroup 21869 4 syms_84; AGroup 21879 5 syms_85; AGroup 21871 6 syms_86]);
   (485791, 13, [AGroup 5 1 [sym_ppDirective]; AGroup 21466 1 [sym_kHat]; AGroup 21472 1 [sym_kFdiv];
     AGroup 21474 1 [sym_kAs]; AGroup 21491 1 [sym_kIs]; AGroup 21493 1 [sym_kNot];
     SGroup 5074 1 [sym__exprIsNot]; AGroup 3 2 syms_5; AGroup 17936 2 syms_44;
     AGroup 21487 2 syms_83; AGroup 21468 4 syms_84; AGroup 21489 5 syms_85;
     AGroup 21470 6 syms_86]);
   (485846, 12, [AGroup 20826 1 [sym_kHat]; AGroup 21595 1 [sym_kAs]; AGroup 22387 1 [sym_kFdiv];
     AGroup 22389 1 [sym_kIs]; AGroup 22391 1 [sym_kNot]; SGroup 4442 1 [sym__exprIsNot];
     AGroup 22379 2 syms_83; AGroup 22417 2 syms_132; AGroup 3 3 syms_1; AGroup 22383 4 syms_84;
     AGroup 22381 5 syms_85; AGroup 22385 6 syms_86]);
   (485899, 13, [AGroup 21909 1 [sym_kHat]; AGroup 21915 1 [sym_kFdiv]; AGroup 21917 1 [sym_kAs];
     AGroup 21927 1 [sym_kIs]; AGroup 21929 1 [sym_kNot]; AGroup 23040 1 [anon_sym_SEMI];
     AGroup 23042 1 [sym_kDelayed]; SGroup 4605 1 [sym__exprIsNot]; AGroup 21923 2 syms_83;
     AGroup 3 3 syms_1; AGroup 21911 4 syms_84; AGroup 21925 5 syms_85; AGroup 21913 6 syms_86]);
   (485954, 13, [AGroup 20898 1 [sym_kElse]; AGroup 21791 1 [sym_kHat]; AGroup 21797 1 [sym_kFdiv];
     AGroup 21799 1 [sym_kAs]; AGroup 21893 1 [sym_kIs]; AGroup 21895 1 [sym_kNot];
     AGroup 23044 1 [anon_sym_SEMI]; SGroup 4923 1 [sym__exprIsNot]; AGroup 21889 2 syms_83;
     AGroup 3 3 syms_1; AGroup 21793 4 syms_84; AGroup 21891 5 syms_85; AGroup 21795 6 syms_86]);
   (486009, 13, [AGroup 21909 1 [sym_kHat]; AGroup 21915 1 [sym_kFdiv]; AGroup 21917 1 [sym_kAs];
     AGroup 21927 1 [sym_kIs]; AGroup 21929 1 [sym_kNot]; AGroup 23046 1 [anon_sym_SEMI];
     AGroup 23048 1 [sym_kDelayed]; SGroup 4605 1 [sym__exprIsNot]; AGroup 21923 2 syms_83;
     AGroup 3 3 syms_1; AGroup 21911 4 syms_84; AGroup 21925 5 syms_85; AGroup 21913 6 syms_86]);
   (486064, 13, [AGroup 21773 1 [sym_kHat]; AGroup 21779 1 [sym_kFdiv]; AGroup 21781 1 [sym_kAs];
     AGroup 21787 1 [sym_kIs]; AGroup 21789 1 [sym_kNot]; AGroup 22466 1 [anon_sym_SEMI];
     AGroup 23050 1 [sym_kRaiseAt]; SGroup 4394 1 [sym__exprIsNot]; AGroup 21783 2 syms_83;
     AGroup 3 3 syms_1; AGroup 21775 4 syms_84; AGroup 21785 5 syms_85; AGroup 21777 6 syms_86]);
   (486119, 13, [AGroup 20898 1 [sym_kElse]; AGroup 21791 1 [sym_kHat]; AGroup 21797 1 [sym_kFdiv];
     AGroup 21799 1 [sym_kAs]; AGroup 21893 1 [sym_kIs]; AGroup 21895 1 [sym_kNot];
     AGroup 23052 1 [anon_sym_SEMI]; SGroup 4923 1 [sym__exprIsNot]; AGroup 21889 2 syms_83;
     AGroup 3 3 syms_1; AGroup 21793 4 syms_84; AGroup 21891 5 syms_85; AGroup 21795 6 syms_86]);
   (486174, 4, [AGroup 5 1 [sym_ppDirective]; AGroup 23057 1 [sym_identifier]; AGroup 3 2 syms_5;
     AGroup 23054 24 syms_687]);
   (486211, 13, [AGroup 21867 1 [sym_kHat]; AGroup 21873 1 [sym_kFdiv]; AGroup 21875 1 [sym_kAs];
     AGroup 21881 1 [sym_kIs]; AGroup 21883 1 [sym_kNot]; AGroup 22774 1 [anon_sym_COMMA];
     AGroup 23059 1 [sym_kDo]; SGroup 5529 1 [sym__exprIsNot]; AGroup 21877 2 syms_83;
     AGroup 3 3 syms_1; AGroup 21869 4 syms_84; AGroup 21879 5 syms_85; AGroup 21871 6 syms_86]);
   (486266, 13, [AGroup 20898 1 [sym_kElse]; AGroup 21791 1 [sym_kHat]; AGroup 21797 1 [sym_kFdiv];
     AGroup 21799 1 [sym_kAs]; AGroup 21893 1 [sym_kIs]; AGroup 21895 1 [sym_kNot];
     AGroup 23061 1 [anon_sym_SEMI]; SGroup 4923 1 [sym__exprIsNot]; AGroup 21889 2 syms_83;
     AGroup 3 3 syms_1; AGroup 21793 4 syms_84; AGroup 21891 5 syms_85; AGroup 21795 6 syms_86]);
   (486321, 13, [AGroup 21867 1 [sym_kHat]; AGroup 21873 1 [sym_kFdiv]; AGroup 21875 1 [sym_kAs];
     AGroup 21881 1 [sym_kIs]; AGroup 21883 1 [sym_kNot]; AGroup 22774 1 [anon_sym_COMMA];
     AGroup 23063 1 [sym_kDo]; SGroup 5529 1 [sym__exprIsNot]; AGroup 21877 2 syms_83;
     AGroup 3 3 syms_1; AGroup 21869 4 syms_84; AGroup 21879 5 syms_85; AGroup 21871 6 syms_86]);
   (486376, 13, [AGroup 21867 1 [sym_kHat]; AGroup 21873 1 [sym_kFdiv]; AGroup 21875 1 [sym_kAs];
     AGroup 21881 1 [sym_kIs]; AGroup 21883 1 [sym_kNot]; AGroup 22774 1 [anon_sym_COMMA];
     AGroup 23065 1 [sym_kDo]; SGroup 5529 1 [sym__exprIsNot]; AGroup 21877 2 syms_83;
     AGroup 3 3 syms_1; AGroup 21869 4 syms_84; AGroup 21879 5 syms_85; AGroup 21871 6 syms_86]);
   (486431, 12, [AGroup 21833 1 [sym_kHat]; AGroup 21839 1 [sym_kFdiv]; AGroup 21841 1 [sym_kAs];
     AGroup 21847 1 [sym_kIs]; AGroup 21849 1 [sym_kNot]; SGroup 4481 1 [sym__exprIsNot];
     AGroup 21029 2 syms_688; AGroup 21843 2 syms_83; AGroup 3 3 syms_1; AGroup 21835 4 syms_84;
     AGroup 21845 5 syms_85; AGroup 21837 6 syms_86]);
   (486484, 13, [AGroup 20914 1 [sym_kElse]; AGroup 21791 1 [sym_kHat]; AGroup 21797 1 [sym_kFdiv];
     AGroup 21799 1 [sym_kAs]; AGroup 21893 1 [sym_kIs]; AGroup 21895 1 [sym_kNot];
     AGroup 23067 1 [anon_sym_SEMI]; SGroup 4923 1 [sym__exprIsNot]; AGroup 21889 2 syms_83;
     AGroup 3 3 syms_1; AGroup 21793 4 syms_84; AGroup 21891 5 syms_85; AGroup 21795 6 syms_86]);
   (486539, 13, [AGroup 21867 1 [sym_kHat]; AGroup 21873 1 [sym_kFdiv]; AGroup 21875 1 [sym_kAs];
     AGroup 21881 1 [sym_kIs]; AGroup 21883 1 [sym_kNot]; AGroup 22774 1 [anon_sym_COMMA];
     AGroup 23069 1 [sym_kDo]; SGroup 5529 1 [sym__exprIsNot]; AGroup 21877 2 syms_83;
     AGroup 3 3 syms_1; AGroup 21869 4 syms_84; AGroup 21879 5 syms_85; AGroup 21871 6 syms_86]);
   (486594, 13, [AGroup 21867 1 [sym_kHat]; AGroup 21873 1 [sym_kFdiv]; AGroup 21875 1 [sym_kAs];
     AGroup 21881 1 [sym_kIs]; AGroup 21883 1 [sym_kNot]; AGroup 22774 1 [anon_sym_COMMA];
     AGroup 23071 1 [sym_kDo]; SGroup 5529 1 [sym__exprIsNot]; AGroup 21877 2 syms_83;
     AGroup 3 3 syms_1; AGroup 21869 4 syms_84; AGroup 21879 5 syms_85; AGroup 21871 6 syms_86]);
   (486649, 13, [AGroup 21867 1 [sym_kHat]; AGroup 21873 1 [sym_kFdiv]; AGroup 21875 1 [sym_kAs];
     AGroup 21881 1 [sym_kIs]; AGroup 21883 1 [sym_kNot]; AGroup 22774 1 [anon_sym_COMMA];
     AGroup 23073 1 [sym_kDo]; SGroup 5529 1 [sym__exprIsNot]; AGroup 21877 2 syms_83;
     AGroup 3 3 syms_1; AGroup 21869 4 syms_84; AGroup 21879 5 syms_85; AGroup 21871 6 syms_86]);
   (486704, 13, [AGroup 21909 1 [sym_kHat]; AGroup 21915 1 [sym_kFdiv]; AGroup 21917 1 [sym_kAs];
     AGroup 21927 1 [sym_kIs]; AGroup 21929 1 [sym_kNot]; AGroup 23075 1 [anon_sym_SEMI];
     AGroup 23077 1 [sym_kDelayed]; SGroup 4605 1 [sym__exprIsNot]; AGroup 21923 2 syms_83;
     AGroup 3 3 syms_1; AGroup 21911 4 syms_84; AGroup 21925 5 syms_85; AGroup 21913 6 syms_86]);
   (486759, 13, [AGroup 21867 1 [sym_kHat]; AGroup 21873 1 [sym_kFdiv]; AGroup 21875 1 [sym_kAs];
     AGroup 21881 1 [sym_kIs]; AGroup 21883 1 [sym_kNot]; AGroup 22774 1 [anon_sym_COMMA];
     AGroup 23079 1 [sym_kDo]; SGroup 5529 1 [sym__exprIsNot]; AGroup 21877 2 syms_83;
     AGroup 3 3 syms_1; AGroup 21869 4 syms_84; AGroup 21879 5 syms_85; AGroup 21871 6 syms_86]);
   (486814, 13, [AGroup 20898 1 [sym_kElse]; AGroup 21791 1 [sym_kHat]; AGroup 21797 1 [sym_kFdiv];
     AGroup 21799 1 [sym_kAs]; AGroup 21893 1 [sym_kIs]; AGroup 21895 1 [sym_kNot];
     AGroup 22131 1 [anon_sym_SEMI]; SGroup 4923 1 [sym__exprIsNot]; AGroup 21889 2 syms_83;
     AGroup 3 3 syms_1; AGroup 21793 4 syms_84; AGroup 21891 5 syms_85; AGroup 21795 6 syms_86]);
   (486869, 12, [AGroup 21813 1 [sym_kHat]; AGroup 21819 1 [sym_kFdiv]; AGroup 21821 1 [sym_kAs];
     AGroup 21855 1 [sym_kIs]; AGroup 21857 1 [sym_kNot]; SGroup 4743 1 [sym__exprIsNot];
     AGroup 20702 2 syms_683; AGroup 21851 2 syms_83; AGroup 3 3 syms_1; AGroup 21815 4 syms_84;
     AGroup 21853 5 syms_85; AGroup 21817 6 syms_86]);
   (486922, 13, [AGroup 21867 1 [sym_kHat]; AGroup 21873 1 [sym_kFdiv]; AGroup 21875 1 [sym_kAs];
     AGroup 21881 1 [sym_kIs]; AGroup 21883 1 [sym_kNot]; AGroup 22774 1 [anon_sym_COMMA];
     AGroup 23081 1 [sym_kDo]; SGroup 5529 1 [sym__exprIsNot]; AGroup 21877 2 syms_83;
     AGroup 3 3 syms_1; AGroup 21869 4 syms_84; AGroup 21879 5 syms_85; AGroup 21871 6 syms_86]);
   (486977, 12, [AGroup 21791 1 [sym_kHat]; AGroup 21797 1 [sym_kFdiv]; AGroup 21799 1 [sym_kAs];
     AGroup 21893 1 [sym_kIs]; AGroup 21895 1 [sym_kNot]; SGroup 4923 1 [sym__exprIsNot];
     AGroup 21031 2 syms_685; AGroup 21889 2 syms_83; AGroup 3 3 syms_1; AGroup 21793 4 syms_84;
     AGroup 21891 5 syms_85; AGroup 21795 6 syms_86]);
   (487030, 13, [AGroup 20933 1 [sym_kElse]; AGroup 21791 1 [sym_kHat]; AGroup 21797 1 [sym_kFdiv];
     AGroup 21799 1 [sym_kAs]; AGroup 21893 1 [sym_kIs]; AGroup 21895 1 [sym_kNot];
     AGroup 23083 1 [anon_sym_SEMI]; SGroup 4923 1 [sym__exprIsNot]; AGroup 21889 2 syms_83;
     AGroup 3 3 syms_1; AGroup 21793 4 syms_84; AGroup 21891 5 syms_85; AGroup 21795 6 syms_86]);
   (487085, 13, [AGroup 21867 1 [sym_kHat]; AGroup 21873 1 [sym_kFdiv]; AGroup 21875 1 [sym_kAs];
     AGroup 21881 1 [sym_kIs]; AGroup 21883 1 [sym_kNot]; AGroup 22774 1 [anon_sym_COMMA];
     AGroup 23085 1 [sym_kDo]; SGroup 5529 1 [sym__exprIsNot]; AGroup 21877 2 syms_83;
     AGroup 3 3 syms_1; AGroup 21869 4 syms_84; AGroup 21879 5 syms_85; AGroup 21871 6 syms_86]);
   (487140, 13, [AGroup 21909 1 [sym_kHat]; AGroup 21915 1 [sym_kFdiv]; AGroup 21917 1 [sym_kAs];
     AGroup 21927 1 [sym_kIs]; AGroup 21929 1 [sym_kNot]; AGroup 23087 1 [anon_sym_SEMI];
     AGroup 23089 1 [sym_kDelayed]; SGroup 4605 1 [sym__exprIsNot]; AGroup 21923 2 syms_83;
     AGroup 3 3 syms_1; AGroup 21911 4 syms_84; AGroup 21925 5 syms_85; AGroup 21913 6 syms_86]);
   (487195, 13, [AGroup 21867 1 [sym_kHat]; AGroup 21873 1 [sym_kFdiv]; AGroup 21875 1 [sym_kAs];
     AGroup 21881 1 [sym_kIs]; AGroup 21883 1 [sym_kNot]; AGroup 22774 1 [anon_sym_COMMA];
     AGroup 23091 1 [sym_kDo]; SGroup 5529 1 [sym__exprIsNot]; AGroup 21877 2 syms_83;
     AGroup 3 3 syms_1; AGroup 21869 4 syms_84; AGroup 21879 5 syms_85; AGroup 21871 6 syms_86]);
   (487250, 12, [AGroup 21979 1 [sym_kHat]; AGroup 21985 1 [sym_kFdiv]; AGroup 21987 1 [sym_kAs];
     AGroup 22003 1 [sym_kIs]; AGroup 22005 1 [sym_kNot]; SGroup 4755 1 [sym__exprIsNot];
     AGroup 21031 2 syms_684; AGroup 21999 2 syms_83; AGroup 3 3 syms_1; AGroup 21981 4 syms_84;
     AGroup 22001 5 syms_85; AGroup 21983 6 syms_86]);
   (487303, 13, [AGroup 21773 1 [sym_kHat]; AGroup 21779 1 [sym_kFdiv]; AGroup 21781 1 [sym_kAs];
     AGroup 21787 1 [sym_kIs]; AGroup 21789 1 [sym_kNot]; AGroup 22476 1 [anon_sym_SEMI];
     AGroup 23093 1 [sym_kRaiseAt]; SGroup 4394 1 [sym__exprIsNot]; AGroup 21783 2 syms_83;
     AGroup 3 3 syms_1; AGroup 21775 4 syms_84; AGroup 21785 5 syms_85; AGroup 21777 6 syms_86]);
   (487358, 13, [AGroup 20898 1 [sym_kElse]; AGroup 21791 1 [sym_kHat]; AGroup 21797 1 [sym_kFdiv];
     AGroup 21799 1 [sym_kAs]; AGroup 21893 1 [sym_kIs]; AGroup 21895 1 [sym_kNot];
     AGroup 23095 1 [anon_sym_SEMI]; SGroup 4923 1 [sym__exprIsNot]; AGroup 21889 2 syms_83;
     AGroup 3 3 syms_1; AGroup 21793 4 syms_84; AGroup 21891 5 syms_85; AGroup 21795 6 syms_86]);
   (487413, 13, [AGroup 21909 1 [sym_kHat]; AGroup 21915 1 [sym_kFdiv]; AGroup 21917 1 [sym_kAs];
     AGroup 21927 1 [sym_kIs]; AGroup 21929 1 [sym_kNot]; AGroup 23097 1 [anon_sym_SEMI];
     AGroup 23099 1 [sym_kDelayed]; SGroup 4605 1 [sym__exprIsNot]; AGroup 21923 2 syms_83;
     AGroup 3 3 syms_1; AGroup 21911 4 syms_84; AGroup 21925 5 syms_85; AGroup 21913 6 syms_86]);
   (487468, 13, [AGroup 21867 1 [sym_kHat]; AGroup 21873 1 [sym_kFdiv]; AGroup 21875 1 [sym_kAs];
     AGroup 21881 1 [sym_kIs]; AGroup 21883 1 [sym_kNot]; AGroup 22774 1 [anon_sym_COMMA];
     AGroup 23101 1 [sym_kDo]; SGroup 5529 1 [sym__exprIsNot]; AGroup 21877 2 syms_83;
     AGroup 3 3 syms_1; AGroup 21869 4 syms_84; AGroup 21879 5 syms_85; AGroup 21871 6 syms_86]);
   (487523, 13, [AGroup 21867 1 [sym_kHat]; AGroup 21873 1 [sym_kFdiv]; AGroup 21875 1 [sym_kAs];
     AGroup 21881 1 [sym_kIs]; AGroup 21883 1 [sym_kNot]; AGroup 22774 1 [anon_sym_COMMA];
     AGroup 23103 1 [sym_kDo]; SGroup 5529 1 [sym__exprIsNot]; AGroup 21877 2 syms_83;
     AGroup 3 3 syms_1; AGroup 21869 4 syms_84; AGroup 21879 5 syms_85; AGroup 21871 6 syms_86]);
   (487578, 13, [AGroup 20995 1 [sym_kHat]; AGroup 21001 1 [sym_kFdiv]; AGroup 21003 1 [sym_kAs];
     AGroup 21009 1 [sym_kIs]; AGroup 21011 1 [sym_kNot]; AGroup 22369 1 [anon_sym_DOT_DOT];
     AGroup 22429 1 [anon_sym_COMMA]; SGroup 4357 1 [sym__exprIsNot]; AGroup 21005 2 syms_83;
     AGroup 3 3 syms_1; AGroup 20997 4 syms_84; AGroup 21007 5 syms_85; AGroup 20999 6 syms_86]);
   (487633, 13, [AGroup 21867 1 [sym_kHat]; AGroup 21873 1 [sym_kFdiv]; AGroup 21875 1 [sym_kAs];
     AGroup 21881 1 [sym_kIs]; AGroup 21883 1 [sym_kNot]; AGroup 22774 1 [anon_sym_COMMA];
     AGroup 23105 1 [sym_kDo]; SGroup 5529 1 [sym__exprIsNot]; AGroup 21877 2 syms_83;
     AGroup 3 3 syms_1; AGroup 21869 4 syms_84; AGroup 21879 5 syms_85; AGroup 21871 6 syms_86]);
   (487688, 13, [AGroup 21867 1 [sym_kHat]; AGroup 21873 1 [sym_kFdiv]; AGroup 21875 1 [sym_kAs];
     AGroup 21881 1 [sym_kIs]; AGroup 21883 1 [sym_kNot]; AGroup 22774 1 [anon_sym_COMMA];
     AGroup 23107 1 [sym_kDo]; SGroup 5529 1 [sym__exprIsNot]; AGroup 21877 2 syms_83;
     AGroup 3 3 syms_1; AGroup 21869 4 syms_84; AGroup 21879 5 syms_85; AGroup 21871 6 syms_86]);
   (487743, 13, [AGroup 21867 1 [sym_kHat]; AGroup 21873 1 [sym_kFdiv]; AGroup 21875 1 [sym_kAs];
     AGroup 21881 1 [sym_kIs]; AGroup 21883 1 [sym_kNot]; AGroup 22774 1 [anon_sym_COMMA];
     AGroup 23109 1 [sym_kDo]; SGroup 5529 1 [sym__exprIsNot]; AGroup 21877 2 syms_83;
     AGroup 3 3 syms_1; AGroup 21869 4 syms_84; AGroup 21879 5 syms_85; AGroup 21871 6 syms_86]);
   (487798, 13, [AGroup 20914 1 [sym_kElse]; AGroup 21791 1 [sym_kHat]; AGroup 21797 1 [sym_kFdiv];
     AGroup 21799 1 [sym_kAs]; AGroup 21893 1 [sym_kIs]; AGroup 21895 1 [sym_kNot];
     AGroup 23111 1 [anon_sym_SEMI]; SGroup 4923 1 [sym__exprIsNot]; AGroup 21889 2 syms_83;
     AGroup 3 3 syms_1; AGroup 21793 4 syms_84; AGroup 21891 5 syms_85; AGroup 21795 6 syms_86]);
   (487853, 13, [AGroup 20933 1 [sym_kElse]; AGroup 21791 1 [sym_kHat]; AGroup 21797 1 [sym_kFdiv];
     AGroup 21799 1 [sym_kAs]; AGroup 21893 1 [sym_kIs]; AGroup 21895 1 [sym_kNot];
     AGroup 23113 1 [anon_sym_SEMI]; SGroup 4923 1 [sym__exprIsNot]; AGroup 21889 2 syms_83;
     AGroup 3 3 syms_1; AGroup 21793 4 syms_84; AGroup 21891 5 syms_85; AGroup 21795 6 syms_86]);
   (487908, 13, [AGroup 21867 1 [sym_kHat]; AGroup 21873 1 [sym_kFdiv]; AGroup 21875 1 [sym_kAs];
     AGroup 21881 1 [sym_kIs]; AGroup 21883 1 [sym_kNot]; AGroup 22774 1 [anon_sym_COMMA];
     AGroup 23115 1 [sym_kDo]; SGroup 5529 1 [sym__exprIsNot]; AGroup 21877 2 syms_83;
     AGroup 3 3 syms_1; AGroup 21869 4 syms_84; AGroup 21879 5 syms_85; AGroup 21871 6 syms_86]);
   (487963, 13, [AGroup 20933 1 [sym_kElse]; AGroup 21791 1 [sym_kHat]; AGroup 21797 1 [sym_kFdiv];
     AGroup 21799 1 [sym_kAs]; AGroup 21893 1 [sym_kIs]; AGroup 21895 1 [sym_kNot];
     AGroup 22207 1 [anon_sym_SEMI]; SGroup 4923 1 [sym__exprIsNot]; AGroup 21889 2 syms_83;
     AGroup 3 3 syms_1; AGroup 21793 4 syms_84; AGroup 21891 5 syms_85; AGroup 21795 6 syms_86]);
   (488018, 13, [AGroup 21867 1 [sym_kHat]; AGroup 21873 1 [sym_kFdiv]; AGroup 21875 1 [sym_kAs];
     AGroup 21881 1 [sym_kIs]; AGroup 21883 1 [sym_kNot]; AGroup 22774 1 [anon_sym_COMMA];
     AGroup 23117 1 [sym_kDo]; SGroup 5529 1 [sym__exprIsNot]; AGroup 21877 2 syms_83;
     AGroup 3 3 syms_1; AGroup 21869 4 syms_84; AGroup 21879 5 syms_85; AGroup 21871 6 syms_86]);
   (488073, 13, [AGroup 21867 1 [sym_kHat]; AGroup 21873 1 [sym_kFdiv]; AGroup 21875 1 [sym_kAs];
     AGroup 21881 1 [sym_kIs]; AGroup 21883 1 [sym_kNot]; AGroup 22774 1 [anon_sym_COMMA];
     AGroup 23119 1 [sym_kDo]; SGroup 5529 1 [sym__exprIsNot]; AGroup 21877 2 syms_83;
     AGroup 3 3 syms_1; AGroup 21869 4 syms_84; AGroup 21879 5 syms_85; AGroup 21871 6 syms_86]);
   (488128, 12, [AGroup 21833 1 [sym_kHat]; AGroup 21839 1 [sym_kFdiv]; AGroup 21841 1 [sym_kAs];
     AGroup 21847 1 [sym_kIs]; AGroup 21849 1 [sym_kNot]; SGroup 4481 1 [sym__exprIsNot];
     AGroup 21031 2 syms_688; AGroup 21843 2 syms_83; AGroup 3 3 syms_1; AGroup 21835 4 syms_84;
     AGroup 21845 5 syms_85; AGroup 21837 6 syms_86]);
   (488181, 13, [AGroup 21867 1 [sym_kHat]; AGroup 21873 1 [sym_kFdiv]; AGroup 21875 1 [sym_kAs];
     AGroup 21881 1 [sym_kIs]; AGroup 21883 1 [sym_kNot]; AGroup 22774 1 [anon_sym_COMMA];
     AGroup 23121 1 [sym_kDo]; SGroup 5529 1 [sym__exprIsNot]; AGroup 21877 2 syms_83;
     AGroup 3 3 syms_1; AGroup 21869 4 syms_84; AGroup 21879 5 syms_85; AGroup 21871 6 syms_86]);
   (488236, 5, [AGroup 5 1 [sym_ppDirective]; AGroup 22399 1 [sym_kEnd]; AGroup 3 2 syms_5;
     AGroup 22403 5 syms_150; AGroup 22401 19 syms_151]);
   (488275, 13, [AGroup 21909 1 [sym_kHat]; AGroup 21915 1 [sym_kFdiv]; AGroup 21917 1 [sym_kAs];
     AGroup 21927 1 [sym_kIs]; AGroup 21929 1 [sym_kNot]; AGroup 23123 1 [anon_sym_SEMI];
     AGroup 23125 1 [sym_kDelayed]; SGroup 4605 1 [sym__exprIsNot]; AGroup 21923 2 syms_83;
     AGroup 3 3 syms_1; AGroup 21911 4 syms_84; AGroup 21925 5 syms_85; AGroup 21913 6 syms_86]);
   (488330, 13, [AGroup 21867 1 [sym_kHat]; AGroup 21873 1 [sym_kFdiv]; AGroup 21875 1 [sym_kAs];
     AGroup 21881 1 [sym_kIs]; AGroup 21883 1 [sym_kNot]; AGroup 22774 1 [anon_sym_COMMA];
     AGroup 23127 1 [sym_kDo]; SGroup 5529 1 [sym__exprIsNot]; AGroup 21877 2 syms_83;
     AGroup 3 3 syms_1; AGroup 21869 4 syms_84; AGroup 21879 5 syms_85; AGroup 21871 6 syms_86]);
   (488385, 3, [AGroup 5 1 [sym_ppDirective]; AGroup 3 2 syms_5; AGroup 23129 25 syms_140]);
   (488420, 13, [AGroup 21867 1 [sym_kHat]; AGroup 21873 1 [sym_kFdiv]; AGroup 21875 1 [sym_kAs];
     AGroup 21881 1 [sym_kIs]; AGroup 21883 1 [sym_kNot]; AGroup 22774 1 [anon_sym_COMMA];
     AGroup 23131 1 [sym_kDo]; SGroup 5529 1 [sym__exprIsNot]; AGroup 21877 2 syms_83;
     AGroup 3 3 syms_1; AGroup 21869 4 syms_84; AGroup 21879 5 syms_85; AGroup 21871 6 syms_86]);
   (488475, 13, [AGroup 21909 1 [sym_kHat]; AGroup 21915 1 [sym_kFdiv]; AGroup 21917 1 [sym_kAs];
     AGroup 21927 1 [sym_kIs]; AGroup 21929 1 [sym_kNot]; AGroup 23133 1 [anon_sym_SEMI];
     AGroup 23135 1 [sym_kDelayed]; SGroup 4605 1 [sym__exprIsNot]; AGroup 21923 2 syms_83;
     AGroup 3 3 syms_1; AGroup 21911 4 syms_84; AGroup 21925 5 syms_85; AGroup 21913 6 syms_86]);
   (488530, 13, [AGroup 21867 1 [sym_kHat]; AGroup 21873 1 [sym_kFdiv]; AGroup 21875 1 [sym_kAs];
     AGroup 21881 1 [sym_kIs]; AGroup 21883 1 [sym_kNot]; AGroup 22774 1 [anon_sym_COMMA];
     AGroup 23137 1 [sym_kDo]; SGroup 5529 1 [sym__exprIsNot]; AGroup 21877 2 syms_83;
     AGroup 3 3 syms_1; AGroup 21869 4 syms_84; AGroup 21879 5 syms_85; AGroup 21871 6 syms_86]);
   (488585, 13, [AGroup 21909 1 [sym_kHat]; AGroup 21915 1 [sym_kFdiv]; AGroup 21917 1 [sym_kAs];
     AGroup 21927 1 [sym_kIs]; AGroup 21929 1 [sym_kNot]; AGroup 23139 1 [anon_sym_SEMI];
     AGroup 23141 1 [sym_kDelayed]; SGroup 4605 1 [sym__exprIsNot]; AGroup 21923 2 syms_83;
     AGroup 3 3 syms_1; AGroup 21911 4 syms_84; AGroup 21925 5 syms_85; AGroup 21913 6 syms_86]);
   (488640, 12, [AGroup 22171 1 [sym_kFdiv]; AGroup 22173 1 [sym_kHat]; AGroup 22175 1 [sym_kAs];
     AGroup 22275 1 [sym_kIs]; AGroup 22277 1 [sym_kNot]; AGroup 23143 1 [sym_kThen];
     SGroup 4618 1 [sym__exprIsNot]; AGroup 22271 2 syms_83; AGroup 3 3 syms_1;
     AGroup 22167 4 syms_84; AGroup 22273 5 syms_85; AGroup 22169 6 syms_86]);
   (488692, 12, [AGroup 21867 1 [sym_kHat]; AGroup 22233 1 [sym_kFdiv]; AGroup 22235 1 [sym_kAs];
     AGroup 22297 1 [sym_kIs]; AGroup 22299 1 [sym_kNot]; AGroup 23145 1 [sym_kDo];
     SGroup 4223 1 [sym__exprIsNot]; AGroup 22293 2 syms_83; AGroup 3 3 syms_1;
     AGroup 22229 4 syms_84; AGroup 22295 5 syms_85; AGroup 22231 6 syms_86]);
   (488744, 12, [AGroup 22171 1 [sym_kFdiv]; AGroup 22173 1 [sym_kHat]; AGroup 22175 1 [sym_kAs];
     AGroup 22275 1 [sym_kIs]; AGroup 22277 1 [sym_kNot]; AGroup 23147 1 [sym_kThen];
     SGroup 4618 1 [sym__exprIsNot]; AGroup 22271 2 syms_83; AGroup 3 3 syms_1;
     AGroup 22167 4 syms_84; AGroup 22273 5 syms_85; AGroup 22169 6 syms_86]);
   (488796, 12, [AGroup 21791 1 [sym_kHat]; AGroup 21797 1 [sym_kFdiv]; AGroup 21799 1 [sym_kAs];
     AGroup 21893 1 [sym_kIs]; AGroup 21895 1 [sym_kNot]; AGroup 23149 1 [sym_kElse];
     SGroup 4923 1 [sym__exprIsNot]; AGroup 21889 2 syms_83; AGroup 3 3 syms_1;
     AGroup 21793 4 syms_84; AGroup 21891 5 syms_85; AGroup 21795 6 syms_86]);
   (488848, 12, [AGroup 20826 1 [sym_kHat]; AGroup 21595 1 [sym_kAs]; AGroup 22387 1 [sym_kFdiv];
     AGroup 22389 1 [sym_kIs]; AGroup 22391 1 [sym_kNot]; AGroup 23026 1 [anon_sym_SEMI];
     SGroup 4442 1 [sym__exprIsNot]; AGroup 22379 2 syms_83; AGroup 3 3 syms_1;
     AGroup 22383 4 syms_84; AGroup 22381 5 syms_85; AGroup 22385 6 syms_86]);
   (488900, 12, [AGroup 21867 1 [sym_kHat]; AGroup 22233 1 [sym_kFdiv]; AGroup 22235 1 [sym_kAs];
     AGroup 22297 1 [sym_kIs]; AGroup 22299 1 [sym_kNot]; AGroup 23151 1 [sym_kDo];
     SGroup 4223 1 [sym__exprIsNot]; AGroup 22293 2 syms_83; AGroup 3 3 syms_1;
     AGroup 22229 4 syms_84; AGroup 22295 5 syms_85; AGroup 22231 6 syms_86]);
   (488952, 12, [AGroup 20826 1 [sym_kHat]; AGroup 21595 1 [sym_kAs]; AGroup 22387 1 [sym_kFdiv];
     AGroup 22389 1 [sym_kIs]; AGroup 22391 1 [sym_kNot]; AGroup 22595 1 [anon_sym_RPAREN];
     SGroup 4442 1 [sym__exprIsNot]; AGroup 22379 2 syms_83; AGroup 3 3 syms_1;
     AGroup 22383 4 syms_84; AGroup 22381 5 syms_85; AGroup 22385 6 syms_86]);
   (489004, 12, [AGroup 20826 1 [sym_kHat]; AGroup 21595 1 [sym_kAs]; AGroup 22387 1 [sym_kFdiv];
     AGroup 22389 1 [sym_kIs]; AGroup 22391 1 [sym_kNot]; AGroup 23153 1 [anon_sym_RPAREN];
     SGroup 4442 1 [sym__exprIsNot]; AGroup 22379 2 syms_83; AGroup 3 3 syms_1;
     AGroup 22383 4 syms_84; AGroup 22381 5 syms_85; AGroup 22385 6 syms_86]);
   (489056, 4, [AGroup 5 1 [sym_ppDirective]; AGroup 3 2 syms_5; AGroup 6282 5 syms_150;
     AGroup 6280 19 syms_689]);
   (489092, 3, [AGroup 5 1 [sym_ppDirective]; AGroup 3 2 syms_5; AGroup 11049 24 syms_690]);
   (489126, 3, [AGroup 5 1 [sym_ppDirective]; AGroup 3 2 syms_5; AGroup 10924 24 syms_687]);
   (489160, 12, [AGroup 20826 1 [sym_kHat]; AGroup 21595 1 [sym_kAs]; AGroup 22387 1 [sym_kFdiv];
     AGroup 22389 1 [sym_kIs]; AGroup 22391 1 [sym_kNot]; AGroup 23034 1 [anon_sym_SEMI];
     SGroup 4442 1 [sym__exprIsNot]; AGroup 22379 2 syms_83; AGroup 3 3 syms_1;
     AGroup 22383 4 syms_84; AGroup 22381 5 syms_85; AGroup 22385 6 syms_86]);
   (489212, 12, [AGroup 20826 1 [sym_kHat]; AGroup 21595 1 [sym_kAs]; AGroup 22387 1 [sym_kFdiv];
     AGroup 22389 1 [sym_kIs]; AGroup 22391 1 [sym_kNot]; AGroup 23155 1 [anon_sym_RBRACK];
     SGroup 4442 1 [sym__exprIsNot]; AGroup 22379 2 syms_83; AGroup 3 3 syms_1;
     AGroup 22383 4 syms_84; AGroup 22381 5 syms_85; AGroup 22385 6 syms_86]);
   (489264, 12, [AGroup 20826 1 [sym_kHat]; AGroup 21595 1 [sym_kAs]; AGroup 22387 1 [sym_kFdiv];
     AGroup 22389 1 [sym_kIs]; AGroup 22391 1 [sym_kNot]; AGroup 23157 1 [anon_sym_RBRACK];
     SGroup 4442 1 [sym__exprIsNot]; AGroup 22379 2 syms_83; AGroup 3 3 syms_1;
     AGroup 22383 4 syms_84; AGroup 22381 5 syms_85; AGroup 22385 6 syms_86]);
   (489316, 12, [AGroup 21867 1 [sym_kHat]; AGroup 22233 1 [sym_kFdiv]; AGroup 22235 1 [sym_kAs];
     AGroup 22297 1 [sym_kIs]; AGroup 22299 1 [sym_kNot]; AGroup 23159 1 [sym_kDo];
     SGroup 4223 1 [sym__exprIsNot]; AGroup 22293 2 syms_83; AGroup 3 3 syms_1;
     AGroup 22229 4 syms_84; AGroup 22295 5 syms_85; AGroup 22231 6 syms_86]);
   (489368, 12, [AGroup 21867 1 [sym_kHat]; AGroup 22233 1 [sym_kFdiv]; AGroup 22235 1 [sym_kAs];
     AGroup 22297 1 [sym_kIs]; AGroup 22299 1 [sym_kNot]; AGroup 23161 1 [sym_kDo];
     SGroup 4223 1 [sym__exprIsNot]; AGroup 22293 2 syms_83; AGroup 3 3 syms_1;
     AGroup 22229 4 syms_84; AGroup 22295 5 syms_85; AGroup 22231 6 syms_86]);
   (489420, 12, [AGroup 21375 1 [sym_kDo]; AGroup 21867 1 [sym_kHat]; AGroup 22233 1 [sym_kFdiv];
     AGroup 22235 1 [sym_kAs]; AGroup 22297 1 [sym_kIs]; AGroup 22299 1 [sym_kNot];
     SGroup 4223 1 [sym__exprIsNot]; AGroup 22293 2 syms_83; AGroup 3 3 syms_1;
     AGroup 22229 4 syms_84; AGroup 22295 5 syms_85; AGroup 22231 6 syms_86]);
   (489472, 12, [AGroup 21242 1 [sym_kDo]; AGroup 21867 1 [sym_kHat]; AGroup 22233 1 [sym_kFdiv];
     AGroup 22235 1 [sym_kAs]; AGroup 22297 1 [sym_kIs]; AGroup 22299 1 [sym_kNot];
     SGroup 4223 1 [sym__exprIsNot]; AGroup 22293 2 syms_83; AGroup 3 3 syms_1;
     AGroup 22229 4 syms_84; AGroup 22295 5 syms_85; AGroup 22231 6 syms_86]);
   (489524, 12, [AGroup 21867 1 [sym_kHat]; AGroup 22233 1 [sym_kFdiv]; AGroup 22235 1 [sym_kAs];
     AGroup 22297 1 [sym_kIs]; AGroup 22299 1 [sym_kNot]; AGroup 23163 1 [sym_kDo];
     SGroup 4223 1 [sym__exprIsNot]; AGroup 22293 2 syms_83; AGroup 3 3 syms_1;
     AGroup 22229 4 syms_84; AGroup 22295 5 syms_85; AGroup 22231 6 syms_86]);
   (489576, 12, [AGroup 21791 1 [sym_kHat]; AGroup 21797 1 [sym_kFdiv]; AGroup 21799 1 [sym_kAs];
     AGroup 21893 1 [sym_kIs]; AGroup 21895 1 [sym_kNot]; AGroup 23165 1 [sym_kElse];
     SGroup 4923 1 [sym__exprIsNot]; AGroup 21889 2 syms_83; AGroup 3 3 syms_1;
     AGroup 21793 4 syms_84; AGroup 21891 5 syms_85; AGroup 21795 6 syms_86]);
   (489628, 12, [AGroup 21567 1 [sym_kDo]; AGroup 21867 1 [sym_kHat]; AGroup 22233 1 [sym_kFdiv];
     AGroup 22235 1 [sym_kAs]; AGroup 22297 1 [sym_kIs]; AGroup 22299 1 [sym_kNot];
     SGroup 4223 1 [sym__exprIsNot]; AGroup 22293 2 syms_83; AGroup 3 3 syms_1;
     AGroup 22229 4 syms_84; AGroup 22295 5 syms_85; AGroup 22231 6 syms_86]);
   (489680, 12, [AGroup 20826 1 [sym_kHat]; AGroup 21595 1 [sym_kAs]; AGroup 22387 1 [sym_kFdiv];
     AGroup 22389 1 [sym_kIs]; AGroup 22391 1 [sym_kNot]; AGroup 22808 1 [anon_sym_SEMI];
     SGroup 4442 1 [sym__exprIsNot]; AGroup 22379 2 syms_83; AGroup 3 3 syms_1;
     AGroup 22383 4 syms_84; AGroup 22381 5 syms_85; AGroup 22385 6 syms_86]);
   (489732, 3, [AGroup 5 1 [sym_ppDirective]; AGroup 3 2 syms_5; AGroup 10932 24 syms_690]);
   (489766, 12, [AGroup 21791 1 [sym_kHat]; AGroup 21797 1 [sym_kFdiv]; AGroup 21799 1 [sym_kAs];
     AGroup 21893 1 [sym_kIs]; AGroup 21895 1 [sym_kNot]; AGroup 23167 1 [sym_kElse];
     SGroup 4923 1 [sym__exprIsNot]; AGroup 21889 2 syms_83; AGroup 3 3 syms_1;
     AGroup 21793 4 syms_84; AGroup 21891 5 syms_85; AGroup 21795 6 syms_86]);
   (489818, 12, [AGroup 22171 1 [sym_kFdiv]; AGroup 22173 1 [sym_kHat]; AGroup 22175 1 [sym_kAs];
     AGroup 22275 1 [sym_kIs]; AGroup 22277 1 [sym_kNot]; AGroup 23169 1 [sym_kThen];
     SGroup 4618 1 [sym__exprIsNot]; AGroup 22271 2 syms_83; AGroup 3 3 syms_1;
     AGroup 22167 4 syms_84; AGroup 22273 5 syms_85; AGroup 22169 6 syms_86]);
   (489870, 12, [AGroup 22171 1 [sym_kFdiv]; AGroup 22173 1 [sym_kHat]; AGroup 22175 1 [sym_kAs];
     AGroup 22275 1 [sym_kIs]; AGroup 22277 1 [sym_kNot]; AGroup 23171 1 [sym_kThen];
     SGroup 4618 1 [sym__exprIsNot]; AGroup 22271 2 syms_83; AGroup 3 3 syms_1;
     AGroup 22167 4 syms_84; AGroup 22273 5 syms_85; AGroup 22169 6 syms_86]);
   (489922, 12, [AGroup 21063 1 [sym_kHat]; AGroup 21069 1 [sym_kFdiv]; AGroup 21071 1 [sym_kAs];
     AGroup 21133 1 [sym_kIs]; AGroup 21135 1 [sym_kNot]; AGroup 23173 1 [sym_kOf];
     SGroup 5025 1 [sym__exprIsNot]; AGroup 21129 2 syms_83; AGroup 3 3 syms_1;
     AGroup 21065 4 syms_84; AGroup 21131 5 syms_85; AGroup 21067 6 syms_86]);
   (489974, 12, [AGroup 22171 1 [sym_kFdiv]; AGroup 22173 1 [sym_kHat]; AGroup 22175 1 [sym_kAs];
     AGroup 22275 1 [sym_kIs]; AGroup 22277 1 [sym_kNot]; AGroup 23175 1 [sym_kThen];
     SGroup 4618 1 [sym__exprIsNot]; AGroup 22271 2 syms_83; AGroup 3 3 syms_1;
     AGroup 22167 4 syms_84; AGroup 22273 5 syms_85; AGroup 22169 6 syms_86]);
   (490026, 12, [AGroup 21867 1 [sym_kHat]; AGroup 22233 1 [sym_kFdiv]; AGroup 22235 1 [sym_kAs];
     AGroup 22297 1 [sym_kIs]; AGroup 22299 1 [sym_kNot]; AGroup 23177 1 [sym_kDo];
     SGroup 4223 1 [sym__exprIsNot]; AGroup 22293 2 syms_83; AGroup 3 3 syms_1;
     AGroup 22229 4 syms_84; AGroup 22295 5 syms_85; AGroup 22231 6 syms_86]);
   (490078, 12, [AGroup 21867 1 [sym_kHat]; AGroup 22233 1 [sym_kFdiv]; AGroup 22235 1 [sym_kAs];
     AGroup 22297 1 [sym_kIs]; AGroup 22299 1 [sym_kNot]; AGroup 23179 1 [sym_kDo];
     SGroup 4223 1 [sym__exprIsNot]; AGroup 22293 2 syms_83; AGroup 3 3 syms_1;
     AGroup 22229 4 syms_84; AGroup 22295 5 syms_85; AGroup 22231 6 syms_86]);
   (490130, 12, [AGroup 22171 1 [sym_kFdiv]; AGroup 22173 1 [sym_kHat]; AGroup 22175 1 [sym_kAs];
     AGroup 22275 1 [sym_kIs]; AGroup 22277 1 [sym_kNot]; AGroup 23181 1 [sym_kThen];
     SGroup 4618 1 [sym__exprIsNot]; AGroup 22271 2 syms_83; AGroup 3 3 syms_1;
     AGroup 22167 4 syms_84; AGroup 22273 5 syms_85; AGroup 22169 6 syms_86]);
   (490182, 12, [AGroup 20826 1 [sym_kHat]; AGroup 21595 1 [sym_kAs]; AGroup 22387 1 [sym_kFdiv];
     AGroup 22389 1 [sym_kIs]; AGroup 22391 1 [sym_kNot]; AGroup 23183 1 [anon_sym_RPAREN];
     SGroup 4442 1 [sym__exprIsNot]; AGroup 22379 2 syms_83; AGroup 3 3 syms_1;
     AGroup 22383 4 syms_84; AGroup 22381 5 syms_85; AGroup 22385 6 syms_86]);
   (490234, 12, [AGroup 20826 1 [sym_kHat]; AGroup 21031 1 [anon_sym_SEMI]; AGroup 21595 1 [sym_kAs];
     AGroup 22387 1 [sym_kFdiv]; AGroup 22389 1 [sym_kIs]; AGroup 22391 1 [sym_kNot];
     SGroup 4442 1 [sym__exprIsNot]; AGroup 22379 2 syms_83; AGroup 3 3 syms_1;
     AGroup 22383 4 syms_84; AGroup 22381 5 syms_85; AGroup 22385 6 syms_86]);
   (490286, 12, [AGroup 21867 1 [sym_kHat]; AGroup 22233 1 [sym_kFdiv]; AGroup 22235 1 [sym_kAs];
     AGroup 22297 1 [sym_kIs]; AGroup 22299 1 [sym_kNot]; AGroup 23185 1 [sym_kDo];
     SGroup 4223 1 [sym__exprIsNot]; AGroup 22293 2 syms_83; AGroup 3 3 syms_1;
     AGroup 22229 4 syms_84; AGroup 22295 5 syms_85; AGroup 22231 6 syms_86])
  ].

(** States 9859 to 9958. *)
Definition small_runs_9859 : list small_run :=
  [
   (490338, 12, [AGroup 20826 1 [sym_kHat]; AGroup 21595 1 [sym_kAs]; AGroup 22387 1 [sym_kFdiv];
     AGroup 22389 1 [sym_kIs]; AGroup 22391 1 [sym_kNot]; AGroup 23187 1 [anon_sym_RPAREN];
     SGroup 4442 1 [sym__exprIsNot]; AGroup 22379 2 syms_83; AGroup 3 3 syms_1;
     AGroup 22383 4 syms_84; AGroup 22381 5 syms_85; AGroup 22385 6 syms_86]);
   (490390, 12, [AGroup 21867 1 [sym_kHat]; AGroup 22233 1 [sym_kFdiv]; AGroup 22235 1 [sym_kAs];
     AGroup 22297 1 [sym_kIs]; AGroup 22299 1 [sym_kNot]; AGroup 23189 1 [sym_kDo];
     SGroup 4223 1 [sym__exprIsNot]; AGroup 22293 2 syms_83; AGroup 3 3 syms_1;
     AGroup 22229 4 syms_84; AGroup 22295 5 syms_85; AGroup 22231 6 syms_86]);
   (490442, 12, [AGroup 21400 1 [sym_kDo]; AGroup 21867 1 [sym_kHat]; AGroup 22233 1 [sym_kFdiv];
     AGroup 22235 1 [sym_kAs]; AGroup 22297 1 [sym_kIs]; AGroup 22299 1 [sym_kNot];
     SGroup 4223 1 [sym__exprIsNot]; AGroup 22293 2 syms_83; AGroup 3 3 syms_1;
     AGroup 22229 4 syms_84; AGroup 22295 5 syms_85; AGroup 22231 6 syms_86]);
   (490494, 12, [AGroup 21867 1 [sym_kHat]; AGroup 22233 1 [sym_kFdiv]; AGroup 22235 1 [sym_kAs];
     AGroup 22297 1 [sym_kIs]; AGroup 22299 1 [sym_kNot]; AGroup 23191 1 [sym_kDo];
     SGroup 4223 1 [sym__exprIsNot]; AGroup 22293 2 syms_83; AGroup 3 3 syms_1;
     AGroup 22229 4 syms_84; AGroup 22295 5 syms_85; AGroup 22231 6 syms_86]);
   (490546, 12, [AGroup 21252 1 [sym_kDo]; AGroup 21867 1 [sym_kHat]; AGroup 22233 1 [sym_kFdiv];
     AGroup 22235 1 [sym_kAs]; AGroup 22297 1 [sym_kIs]; AGroup 22299 1 [sym_kNot];
     SGroup 4223 1 [sym__exprIsNot]; AGroup 22293 2 syms_83; AGroup 3 3 syms_1;
     AGroup 22229 4 syms_84; AGroup 22295 5 syms_85; AGroup 22231 6 syms_86]);
   (490598, 12, [AGroup 21791 1 [sym_kHat]; AGroup 21797 1 [sym_kFdiv]; AGroup 21799 1 [sym_kAs];
     AGroup 21893 1 [sym_kIs]; AGroup 21895 1 [sym_kNot]; AGroup 23193 1 [sym_kElse];
     SGroup 4923 1 [sym__exprIsNot]; AGroup 21889 2 syms_83; AGroup 3 3 syms_1;
     AGroup 21793 4 syms_84; AGroup 21891 5 syms_85; AGroup 21795 6 syms_86]);
   (490650, 12, [AGroup 21867 1 [sym_kHat]; AGroup 22233 1 [sym_kFdiv]; AGroup 22235 1 [sym_kAs];
     AGroup 22297 1 [sym_kIs]; AGroup 22299 1 [sym_kNot]; AGroup 23195 1 [sym_kDo];
     SGroup 4223 1 [sym__exprIsNot]; AGroup 22293 2 syms_83; AGroup 3 3 syms_1;
     AGroup 22229 4 syms_84; AGroup 22295 5 syms_85; AGroup 22231 6 syms_86]);
   (490702, 12, [AGroup 21063 1 [sym_kHat]; AGroup 21069 1 [sym_kFdiv]; AGroup 21071 1 [sym_kAs];
     AGroup 21133 1 [sym_kIs]; AGroup 21135 1 [sym_kNot]; AGroup 23197 1 [sym_kOf];
     SGroup 5025 1 [sym__exprIsNot]; AGroup 21129 2 syms_83; AGroup 3 3 syms_1;
     AGroup 21065 4 syms_84; AGroup 21131 5 syms_85; AGroup 21067 6 syms_86]);
   (490754, 12, [AGroup 21867 1 [sym_kHat]; AGroup 22233 1 [sym_kFdiv]; AGroup 22235 1 [sym_kAs];
     AGroup 22297 1 [sym_kIs]; AGroup 22299 1 [sym_kNot]; AGroup 23199 1 [sym_kDo];
     SGroup 4223 1 [sym__exprIsNot]; AGroup 22293 2 syms_83; AGroup 3 3 syms_1;
     AGroup 22229 4 syms_84; AGroup 22295 5 syms_85; AGroup 22231 6 syms_86]);
   (490806, 12, [AGroup 22171 1 [sym_kFdiv]; AGroup 22173 1 [sym_kHat]; AGroup 22175 1 [sym_kAs];
     AGroup 22275 1 [sym_kIs]; AGroup 22277 1 [sym_kNot]; AGroup 23201 1 [sym_kThen];
     SGroup 4618 1 [sym__exprIsNot]; AGroup 22271 2 syms_83; AGroup 3 3 syms_1;
     AGroup 22167 4 syms_84; AGroup 22273 5 syms_85; AGroup 22169 6 syms_86]);
   (490858, 12, [AGroup 22171 1 [sym_kFdiv]; AGroup 22173 1 [sym_kHat]; AGroup 22175 1 [sym_kAs];
     AGroup 22275 1 [sym_kIs]; AGroup 22277 1 [sym_kNot]; AGroup 23203 1 [sym_kThen];
     SGroup 4618 1 [sym__exprIsNot]; AGroup 22271 2 syms_83; AGroup 3 3 syms_1;
     AGroup 22167 4 syms_84; AGroup 22273 5 syms_85; AGroup 22169 6 syms_86]);
   (490910, 12, [AGroup 21605 1 [sym_kDo]; AGroup 21867 1 [sym_kHat]; AGroup 22233 1 [sym_kFdiv];
     AGroup 22235 1 [sym_kAs]; AGroup 22297 1 [sym_kIs]; AGroup 22299 1 [sym_kNot];
     SGroup 4223 1 [sym__exprIsNot]; AGroup 22293 2 syms_83; AGroup 3 3 syms_1;
     AGroup 22229 4 syms_84; AGroup 22295 5 syms_85; AGroup 22231 6 syms_86]);
   (490962, 12, [AGroup 21867 1 [sym_kHat]; AGroup 22233 1 [sym_kFdiv]; AGroup 22235 1 [sym_kAs];
     AGroup 22297 1 [sym_kIs]; AGroup 22299 1 [sym_kNot]; AGroup 23205 1 [sym_kDo];
     SGroup 4223 1 [sym__exprIsNot]; AGroup 22293 2 syms_83; AGroup 3 3 syms_1;
     AGroup 22229 4 syms_84; AGroup 22295 5 syms_85; AGroup 22231 6 syms_86]);
   (491014, 12, [AGroup 21791 1 [sym_kHat]; AGroup 21797 1 [sym_kFdiv]; AGroup 21799 1 [sym_kAs];
     AGroup 21893 1 [sym_kIs]; AGroup 21895 1 [sym_kNot]; AGroup 23207 1 [sym_kElse];
     SGroup 4923 1 [sym__exprIsNot]; AGroup 21889 2 syms_83; AGroup 3 3 syms_1;
     AGroup 21793 4 syms_84; AGroup 21891 5 syms_85; AGroup 21795 6 syms_86]);
   (491066, 12, [AGroup 21867 1 [sym_kHat]; AGroup 22233 1 [sym_kFdiv]; AGroup 22235 1 [sym_kAs];
     AGroup 22297 1 [sym_kIs]; AGroup 22299 1 [sym_kNot]; AGroup 23209 1 [sym_kDo];
     SGroup 4223 1 [sym__exprIsNot]; AGroup 22293 2 syms_83; AGroup 3 3 syms_1;
     AGroup 22229 4 syms_84; AGroup 22295 5 syms_85; AGroup 22231 6 syms_86]);
   (491118, 12, [AGroup 22171 1 [sym_kFdiv]; AGroup 22173 1 [sym_kHat]; AGroup 22175 1 [sym_kAs];
     AGroup 22275 1 [sym_kIs]; AGroup 22277 1 [sym_kNot]; AGroup 23211 1 [sym_kThen];
     SGroup 4618 1 [sym__exprIsNot]; AGroup 22271 2 syms_83; AGroup 3 3 syms_1;
     AGroup 22167 4 syms_84; AGroup 22273 5 syms_85; AGroup 22169 6 syms_86]);
   (491170, 12, [AGroup 20826 1 [sym_kHat]; AGroup 21595 1 [sym_kAs]; AGroup 22387 1 [sym_kFdiv];
     AGroup 22389 1 [sym_kIs]; AGroup 22391 1 [sym_kNot]; AGroup 23213 1 [anon_sym_RPAREN];
     SGroup 4442 1 [sym__exprIsNot]; AGroup 22379 2 syms_83; AGroup 3 3 syms_1;
     AGroup 22383 4 syms_84; AGroup 22381 5 syms_85; AGroup 22385 6 syms_86]);
   (491222, 12, [AGroup 21867 1 [sym_kHat]; AGroup 22233 1 [sym_kFdiv]; AGroup 22235 1 [sym_kAs];
     AGroup 22297 1 [sym_kIs]; AGroup 22299 1 [sym_kNot]; AGroup 23215 1 [sym_kDo];
     SGroup 4223 1 [sym__exprIsNot]; AGroup 22293 2 syms_83; AGroup 3 3 syms_1;
     AGroup 22229 4 syms_84; AGroup 22295 5 syms_85; AGroup 22231 6 syms_86]);
   (491274, 12, [AGroup 22171 1 [sym_kFdiv]; AGroup 22173 1 [sym_kHat]; AGroup 22175 1 [sym_kAs];
     AGroup 22275 1 [sym_kIs]; AGroup 22277 1 [sym_kNot]; AGroup 23217 1 [sym_kThen];
     SGroup 4618 1 [sym__exprIsNot]; AGroup 22271 2 syms_83; AGroup 3 3 syms_1;
     AGroup 22167 4 syms_84; AGroup 22273 5 syms_85; AGroup 22169 6 syms_86]);
   (491326, 12, [AGroup 20826 1 [sym_kHat]; AGroup 20834 1 [sym_kAs]; AGroup 21460 1 [sym_kFdiv];
     AGroup 21462 1 [sym_kIs]; AGroup 21464 1 [sym_kNot]; AGroup 22774 1 [anon_sym_COMMA];
     SGroup 4778 1 [sym__exprIsNot]; AGroup 21452 2 syms_83; AGroup 3 3 syms_1;
     AGroup 21456 4 syms_84; AGroup 21454 5 syms_85; AGroup 21458 6 syms_86]);
   (491378, 12, [AGroup 20826 1 [sym_kHat]; AGroup 21595 1 [sym_kAs]; AGroup 22387 1 [sym_kFdiv];
     AGroup 22389 1 [sym_kIs]; AGroup 22391 1 [sym_kNot]; AGroup 23219 1 [anon_sym_RPAREN];
     SGroup 4442 1 [sym__exprIsNot]; AGroup 22379 2 syms_83; AGroup 3 3 syms_1;
     AGroup 22383 4 syms_84; AGroup 22381 5 syms_85; AGroup 22385 6 syms_86]);
   (491430, 12, [AGroup 20826 1 [sym_kHat]; AGroup 21595 1 [sym_kAs]; AGroup 22387 1 [sym_kFdiv];
     AGroup 22389 1 [sym_kIs]; AGroup 22391 1 [sym_kNot]; AGroup 23221 1 [anon_sym_RPAREN];
     SGroup 4442 1 [sym__exprIsNot]; AGroup 22379 2 syms_83; AGroup 3 3 syms_1;
     AGroup 22383 4 syms_84; AGroup 22381 5 syms_85; AGroup 22385 6 syms_86]);
   (491482, 12, [AGroup 22171 1 [sym_kFdiv]; AGroup 22173 1 [sym_kHat]; AGroup 22175 1 [sym_kAs];
     AGroup 22275 1 [sym_kIs]; AGroup 22277 1 [sym_kNot]; AGroup 23223 1 [sym_kThen];
     SGroup 4618 1 [sym__exprIsNot]; AGroup 22271 2 syms_83; AGroup 3 3 syms_1;
     AGroup 22167 4 syms_84; AGroup 22273 5 syms_85; AGroup 22169 6 syms_86]);
   (491534, 12, [AGroup 21867 1 [sym_kHat]; AGroup 22233 1 [sym_kFdiv]; AGroup 22235 1 [sym_kAs];
     AGroup 22297 1 [sym_kIs]; AGroup 22299 1 [sym_kNot]; AGroup 23225 1 [sym_kDo];
     SGroup 4223 1 [sym__exprIsNot]; AGroup 22293 2 syms_83; AGroup 3 3 syms_1;
     AGroup 22229 4 syms_84; AGroup 22295 5 syms_85; AGroup 22231 6 syms_86]);
   (491586, 12, [AGroup 21404 1 [sym_kDo]; AGroup 21867 1 [sym_kHat]; AGroup 22233 1 [sym_kFdiv];
     AGroup 22235 1 [sym_kAs]; AGroup 22297 1 [sym_kIs]; AGroup 22299 1 [sym_kNot];
     SGroup 4223 1 [sym__exprIsNot]; AGroup 22293 2 syms_83; AGroup 3 3 syms_1;
     AGroup 22229 4 syms_84; AGroup 22295 5 syms_85; AGroup 22231 6 syms_86]);
   (491638, 4, [AGroup 5 1 [sym_ppDirective]; AGroup 3 2 syms_5; AGroup 23229 5 syms_150;
     AGroup 23227 19 syms_151]);
   (491674, 12, [AGroup 21867 1 [sym_kHat]; AGroup 22233 1 [sym_kFdiv]; AGroup 22235 1 [sym_kAs];
     AGroup 22297 1 [sym_kIs]; AGroup 22299 1 [sym_kNot]; AGroup 23231 1 [sym_kDo];
     SGroup 4223 1 [sym__exprIsNot]; AGroup 22293 2 syms_83; AGroup 3 3 syms_1;
     AGroup 22229 4 syms_84; AGroup 22295 5 syms_85; AGroup 22231 6 syms_86]);
   (491726, 12, [AGroup 21259 1 [sym_kDo]; AGroup 21867 1 [sym_kHat]; AGroup 22233 1 [sym_kFdiv];
     AGroup 22235 1 [sym_kAs]; AGroup 22297 1 [sym_kIs]; AGroup 22299 1 [sym_kNot];
     SGroup 4223 1 [sym__exprIsNot]; AGroup 22293 2 syms_83; AGroup 3 3 syms_1;
     AGroup 22229 4 syms_84; AGroup 22295 5 syms_85; AGroup 22231 6 syms_86]);
   (491778, 4, [AGroup 5 1 [sym_ppDirective]; AGroup 3 2 syms_5; AGroup 23235 5 syms_150;
     AGroup 23233 19 syms_151]);
   (491814, 12, [AGroup 21867 1 [sym_kHat]; AGroup 22233 1 [sym_kFdiv]; AGroup 22235 1 [sym_kAs];
     AGroup 22297 1 [sym_kIs]; AGroup 22299 1 [sym_kNot]; AGroup 23237 1 [sym_kDo];
     SGroup 4223 1 [sym__exprIsNot]; AGroup 22293 2 syms_83; AGroup 3 3 syms_1;
     AGroup 22229 4 syms_84; AGroup 22295 5 syms_85; AGroup 22231 6 syms_86]);
   (491866, 12, [AGroup 21867 1 [sym_kHat]; AGroup 22233 1 [sym_kFdiv]; AGroup 22235 1 [sym_kAs];
     AGroup 22297 1 [sym_kIs]; AGroup 22299 1 [sym_kNot]; AGroup 23239 1 [sym_kDo];
     SGroup 4223 1 [sym__exprIsNot]; AGroup 22293 2 syms_83; AGroup 3 3 syms_1;
     AGroup 22229 4 syms_84; AGroup 22295 5 syms_85; AGroup 22231 6 syms_86]);
   (491918, 12, [AGroup 21791 1 [sym_kHat]; AGroup 21797 1 [sym_kFdiv]; AGroup 21799 1 [sym_kAs];
     AGroup 21893 1 [sym_kIs]; AGroup 21895 1 [sym_kNot]; AGroup 23241 1 [sym_kElse];
     SGroup 4923 1 [sym__exprIsNot]; AGroup 21889 2 syms_83; AGroup 3 3 syms_1;
     AGroup 21793 4 syms_84; AGroup 21891 5 syms_85; AGroup 21795 6 syms_86]);
   (491970, 12, [AGroup 20826 1 [sym_kHat]; AGroup 21595 1 [sym_kAs]; AGroup 22387 1 [sym_kFdiv];
     AGroup 22389 1 [sym_kIs]; AGroup 22391 1 [sym_kNot]; AGroup 23243 1 [anon_sym_RPAREN];
     SGroup 4442 1 [sym__exprIsNot]; AGroup 22379 2 syms_83; AGroup 3 3 syms_1;
     AGroup 22383 4 syms_84; AGroup 22381 5 syms_85; AGroup 22385 6 syms_86]);
   (492022, 12, [AGroup 21867 1 [sym_kHat]; AGroup 22233 1 [sym_kFdiv]; AGroup 22235 1 [sym_kAs];
     AGroup 22297 1 [sym_kIs]; AGroup 22299 1 [sym_kNot]; AGroup 23245 1 [sym_kDo];
     SGroup 4223 1 [sym__exprIsNot]; AGroup 22293 2 syms_83; AGroup 3 3 syms_1;
     AGroup 22229 4 syms_84; AGroup 22295 5 syms_85; AGroup 22231 6 syms_86]);
   (492074, 12, [AGroup 21063 1 [sym_kHat]; AGroup 21069 1 [sym_kFdiv]; AGroup 21071 1 [sym_kAs];
     AGroup 21133 1 [sym_kIs]; AGroup 21135 1 [sym_kNot]; AGroup 23247 1 [sym_kOf];
     SGroup 5025 1 [sym__exprIsNot]; AGroup 21129 2 syms_83; AGroup 3 3 syms_1;
     AGroup 21065 4 syms_84; AGroup 21131 5 syms_85; AGroup 21067 6 syms_86]);
   (492126, 12, [AGroup 22171 1 [sym_kFdiv]; AGroup 22173 1 [sym_kHat]; AGroup 22175 1 [sym_kAs];
     AGroup 22275 1 [sym_kIs]; AGroup 22277 1 [sym_kNot]; AGroup 23249 1 [sym_kThen];
     SGroup 4618 1 [sym__exprIsNot]; AGroup 22271 2 syms_83; AGroup 3 3 syms_1;
     AGroup 22167 4 syms_84; AGroup 22273 5 syms_85; AGroup 22169 6 syms_86]);
   (492178, 12, [AGroup 22171 1 [sym_kFdiv]; AGroup 22173 1 [sym_kHat]; AGroup 22175 1 [sym_kAs];
     AGroup 22275 1 [sym_kIs]; AGroup 22277 1 [sym_kNot]; AGroup 23251 1 [sym_kThen];
     SGroup 4618 1 [sym__exprIsNot]; AGroup 22271 2 syms_83; AGroup 3 3 syms_1;
     AGroup 22167 4 syms_84; AGroup 22273 5 syms_85; AGroup 22169 6 syms_86]);
   (492230, 12, [AGroup 21867 1 [sym_kHat]; AGroup 22233 1 [sym_kFdiv]; AGroup 22235 1 [sym_kAs];
     AGroup 22297 1 [sym_kIs]; AGroup 22299 1 [sym_kNot]; AGroup 23253 1 [sym_kDo];
     SGroup 4223 1 [sym__exprIsNot]; AGroup 22293 2 syms_83; AGroup 3 3 syms_1;
     AGroup 22229 4 syms_84; AGroup 22295 5 syms_85; AGroup 22231 6 syms_86]);
   (492282, 12, [AGroup 22171 1 [sym_kFdiv]; AGroup 22173 1 [sym_kHat]; AGroup 22175 1 [sym_kAs];
     AGroup 22275 1 [sym_kIs]; AGroup 22277 1 [sym_kNot]; AGroup 23255 1 [sym_kThen];
     SGroup 4618 1 [sym__exprIsNot]; AGroup 22271 2 syms_83; AGroup 3 3 syms_1;
     AGroup 22167 4 syms_84; AGroup 22273 5 syms_85; AGroup 22169 6 syms_86]);
   (492334, 3, [AGroup 5 1 [sym_ppDirective]; AGroup 3 2 syms_5; AGroup 9810 24 syms_690]);
   (492368, 12, [AGroup 20826 1 [sym_kHat]; AGroup 21595 1 [sym_kAs]; AGroup 22387 1 [sym_kFdiv];
     AGroup 22389 1 [sym_kIs]; AGroup 22391 1 [sym_kNot]; AGroup 23257 1 [anon_sym_RPAREN];
     SGroup 4442 1 [sym__exprIsNot]; AGroup 22379 2 syms_83; AGroup 3 3 syms_1;
     AGroup 22383 4 syms_84; AGroup 22381 5 syms_85; AGroup 22385 6 syms_86]);
   (492420, 12, [AGroup 20826 1 [sym_kHat]; AGroup 21595 1 [sym_kAs]; AGroup 22387 1 [sym_kFdiv];
     AGroup 22389 1 [sym_kIs]; AGroup 22391 1 [sym_kNot]; AGroup 23061 1 [anon_sym_SEMI];
     SGroup 4442 1 [sym__exprIsNot]; AGroup 22379 2 syms_83; AGroup 3 3 syms_1;
     AGroup 22383 4 syms_84; AGroup 22381 5 syms_85; AGroup 22385 6 syms_86]);
   (492472, 3, [AGroup 5 1 [sym_ppDirective]; AGroup 3 2 syms_5; AGroup 11037 24 syms_687]);
   (492506, 12, [AGroup 21867 1 [sym_kHat]; AGroup 22233 1 [sym_kFdiv]; AGroup 22235 1 [sym_kAs];
     AGroup 22297 1 [sym_kIs]; AGroup 22299 1 [sym_kNot]; AGroup 23259 1 [sym_kDo];
     SGroup 4223 1 [sym__exprIsNot]; AGroup 22293 2 syms_83; AGroup 3 3 syms_1;
     AGroup 22229 4 syms_84; AGroup 22295 5 syms_85; AGroup 22231 6 syms_86]);
   (492558, 12, [AGroup 21791 1 [sym_kHat]; AGroup 21797 1 [sym_kFdiv]; AGroup 21799 1 [sym_kAs];
     AGroup 21893 1 [sym_kIs]; AGroup 21895 1 [sym_kNot]; AGroup 23261 1 [sym_kElse];
     SGroup 4923 1 [sym__exprIsNot]; AGroup 21889 2 syms_83; AGroup 3 3 syms_1;
     AGroup 21793 4 syms_84; AGroup 21891 5 syms_85; AGroup 21795 6 syms_86]);
   (492610, 3, [AGroup 5 1 [sym_ppDirective]; AGroup 3 2 syms_5; AGroup 11041 24 syms_687]);
   (492644, 12, [AGroup 21478 1 [sym_kDo]; AGroup 21867 1 [sym_kHat]; AGroup 22233 1 [sym_kFdiv];
     AGroup 22235 1 [sym_kAs]; AGroup 22297 1 [sym_kIs]; AGroup 22299 1 [sym_kNot];
     SGroup 4223 1 [sym__exprIsNot]; AGroup 22293 2 syms_83; AGroup 3 3 syms_1;
     AGroup 22229 4 syms_84; AGroup 22295 5 syms_85; AGroup 22231 6 syms_86]);
   (492696, 12, [AGroup 21867 1 [sym_kHat]; AGroup 22233 1 [sym_kFdiv]; AGroup 22235 1 [sym_kAs];
     AGroup 22297 1 [sym_kIs]; AGroup 22299 1 [sym_kNot]; AGroup 23263 1 [sym_kDo];
     SGroup 4223 1 [sym__exprIsNot]; AGroup 22293 2 syms_83; AGroup 3 3 syms_1;
     AGroup 22229 4 syms_84; AGroup 22295 5 syms_85; AGroup 22231 6 syms_86]);
   (492748, 12, [AGroup 22171 1 [sym_kFdiv]; AGroup 22173 1 [sym_kHat]; AGroup 22175 1 [sym_kAs];
     AGroup 22275 1 [sym_kIs]; AGroup 22277 1 [sym_kNot]; AGroup 23265 1 [sym_kThen];
     SGroup 4618 1 [sym__exprIsNot]; AGroup 22271 2 syms_83; AGroup 3 3 syms_1;
     AGroup 22167 4 syms_84; AGroup 22273 5 syms_85; AGroup 22169 6 syms_86]);
   (492800, 12, [AGroup 21179 1 [sym_kDo]; AGroup 21867 1 [sym_kHat]; AGroup 22233 1 [sym_kFdiv];
     AGroup 22235 1 [sym_kAs]; AGroup 22297 1 [sym_kIs]; AGroup 22299 1 [sym_kNot];
     SGroup 4223 1 [sym__exprIsNot]; AGroup 22293 2 syms_83; AGroup 3 3 syms_1;
     AGroup 22229 4 syms_84; AGroup 22295 5 syms_85; AGroup 22231 6 syms_86]);
   (492852, 12, [AGroup 21867 1 [sym_kHat]; AGroup 22233 1 [sym_kFdiv]; AGroup 22235 1 [sym_kAs];
     AGroup 22297 1 [sym_kIs]; AGroup 22299 1 [sym_kNot]; AGroup 23267 1 [sym_kDo];
     SGroup 4223 1 [sym__exprIsNot]; AGroup 22293 2 syms_83; AGroup 3 3 syms_1;
     AGroup 22229 4 syms_84; AGroup 22295 5 syms_85; AGroup 22231 6 syms_86]);
   (492904, 12, [AGroup 21406 1 [sym_kDo]; AGroup 21867 1 [sym_kHat]; AGroup 22233 1 [sym_kFdiv];
     AGroup 22235 1 [sym_kAs]; AGroup 22297 1 [sym_kIs]; AGroup 22299 1 [sym_kNot];
     SGroup 4223 1 [sym__exprIsNot]; AGroup 22293 2 syms_83; AGroup 3 3 syms_1;
     AGroup 22229 4 syms_84; AGroup 22295 5 syms_85; AGroup 22231 6 syms_86]);
   (492956, 12, [AGroup 20826 1 [sym_kHat]; AGroup 21595 1 [sym_kAs]; AGroup 22387 1 [sym_kFdiv];
     AGroup 22389 1 [sym_kIs]; AGroup 22391 1 [sym_kNot]; AGroup 22583 1 [anon_sym_RPAREN];
     SGroup 4442 1 [sym__exprIsNot]; AGroup 22379 2 syms_83; AGroup 3 3 syms_1;
     AGroup 22383 4 syms_84; AGroup 22381 5 syms_85; AGroup 22385 6 syms_86]);
   (493008, 12, [AGroup 20826 1 [sym_kHat]; AGroup 21595 1 [sym_kAs]; AGroup 22387 1 [sym_kFdiv];
     AGroup 22389 1 [sym_kIs]; AGroup 22391 1 [sym_kNot]; AGroup 23269 1 [anon_sym_RPAREN];
     SGroup 4442 1 [sym__exprIsNot]; AGroup 22379 2 syms_83; AGroup 3 3 syms_1;
     AGroup 22383 4 syms_84; AGroup 22381 5 syms_85; AGroup 22385 6 syms_86]);
   (493060, 12, [AGroup 21791 1 [sym_kHat]; AGroup 21797 1 [sym_kFdiv]; AGroup 21799 1 [sym_kAs];
     AGroup 21893 1 [sym_kIs]; AGroup 21895 1 [sym_kNot]; AGroup 23271 1 [sym_kElse];
     SGroup 4923 1 [sym__exprIsNot]; AGroup 21889 2 syms_83; AGroup 3 3 syms_1;
     AGroup 21793 4 syms_84; AGroup 21891 5 syms_85; AGroup 21795 6 syms_86]);
   (493112, 12, [AGroup 21867 1 [sym_kHat]; AGroup 22233 1 [sym_kFdiv]; AGroup 22235 1 [sym_kAs];
     AGroup 22297 1 [sym_kIs]; AGroup 22299 1 [sym_kNot]; AGroup 23273 1 [sym_kDo];
     SGroup 4223 1 [sym__exprIsNot]; AGroup 22293 2 syms_83; AGroup 3 3 syms_1;
     AGroup 22229 4 syms_84; AGroup 22295 5 syms_85; AGroup 22231 6 syms_86]);
   (493164, 12, [AGroup 22171 1 [sym_kFdiv]; AGroup 22173 1 [sym_kHat]; AGroup 22175 1 [sym_kAs];
     AGroup 22275 1 [sym_kIs]; AGroup 22277 1 [sym_kNot]; AGroup 23275 1 [sym_kThen];
     SGroup 4618 1 [sym__exprIsNot]; AGroup 22271 2 syms_83; AGroup 3 3 syms_1;
     AGroup 22167 4 syms_84; AGroup 22273 5 syms_85; AGroup 22169 6 syms_86]);
   (493216, 12, [AGroup 21440 1 [sym_kDo]; AGroup 21867 1 [sym_kHat]; AGroup 22233 1 [sym_kFdiv];
     AGroup 22235 1 [sym_kAs]; AGroup 22297 1 [sym_kIs]; AGroup 22299 1 [sym_kNot];
     SGroup 4223 1 [sym__exprIsNot]; AGroup 22293 2 syms_83; AGroup 3 3 syms_1;
     AGroup 22229 4 syms_84; AGroup 22295 5 syms_85; AGroup 22231 6 syms_86]);
   (493268, 12, [AGroup 21063 1 [sym_kHat]; AGroup 21069 1 [sym_kFdiv]; AGroup 21071 1 [sym_kAs];
     AGroup 21133 1 [sym_kIs]; AGroup 21135 1 [sym_kNot]; AGroup 23277 1 [sym_kOf];
     SGroup 5025 1 [sym__exprIsNot]; AGroup 21129 2 syms_83; AGroup 3 3 syms_1;
     AGroup 21065 4 syms_84; AGroup 21131 5 syms_85; AGroup 21067 6 syms_86]);
   (493320, 12, [AGroup 21791 1 [sym_kHat]; AGroup 21797 1 [sym_kFdiv]; AGroup 21799 1 [sym_kAs];
     AGroup 21893 1 [sym_kIs]; AGroup 21895 1 [sym_kNot]; AGroup 23279 1 [sym_kElse];
     SGroup 4923 1 [sym__exprIsNot]; AGroup 21889 2 syms_83; AGroup 3 3 syms_1;
     AGroup 21793 4 syms_84; AGroup 21891 5 syms_85; AGroup 21795 6 syms_86]);
   (493372, 12, [AGroup 22171 1 [sym_kFdiv]; AGroup 22173 1 [sym_kHat]; AGroup 22175 1 [sym_kAs];
     AGroup 22275 1 [sym_kIs]; AGroup 22277 1 [sym_kNot]; AGroup 23281 1 [sym_kThen];
     SGroup 4618 1 [sym__exprIsNot]; AGroup 22271 2 syms_83; AGroup 3 3 syms_1;
     AGroup 22167 4 syms_84; AGroup 22273 5 syms_85; AGroup 22169 6 syms_86]);
   (493424, 12, [AGroup 21867 1 [sym_kHat]; AGroup 22233 1 [sym_kFdiv]; AGroup 22235 1 [sym_kAs];
     AGroup 22297 1 [sym_kIs]; AGroup 22299 1 [sym_kNot]; AGroup 23283 1 [sym_kDo];
     SGroup 4223 1 [sym__exprIsNot]; AGroup 22293 2 syms_83; AGroup 3 3 syms_1;
     AGroup 22229 4 syms_84; AGroup 22295 5 syms_85; AGroup 22231 6 syms_86]);
   (493476, 12, [AGroup 21791 1 [sym_kHat]; AGroup 21797 1 [sym_kFdiv]; AGroup 21799 1 [sym_kAs];
     AGroup 21893 1 [sym_kIs]; AGroup 21895 1 [sym_kNot]; AGroup 23285 1 [sym_kElse];
     SGroup 4923 1 [sym__exprIsNot]; AGroup 21889 2 syms_83; AGroup 3 3 syms_1;
     AGroup 21793 4 syms_84; AGroup 21891 5 syms_85; AGroup 21795 6 syms_86]);
   (493528, 12, [AGroup 22171 1 [sym_kFdiv]; AGroup 22173 1 [sym_kHat]; AGroup 22175 1 [sym_kAs];
     AGroup 22275 1 [sym_kIs]; AGroup 22277 1 [sym_kNot]; AGroup 23287 1 [sym_kThen];
     SGroup 4618 1 [sym__exprIsNot]; AGroup 22271 2 syms_83; AGroup 3 3 syms_1;
     AGroup 22167 4 syms_84; AGroup 22273 5 syms_85; AGroup 22169 6 syms_86]);
   (493580, 12, [AGroup 20826 1 [sym_kHat]; AGroup 21595 1 [sym_kAs]; AGroup 22387 1 [sym_kFdiv];
     AGroup 22389 1 [sym_kIs]; AGroup 22391 1 [sym_kNot]; AGroup 23289 1 [anon_sym_RPAREN];
     SGroup 4442 1 [sym__exprIsNot]; AGroup 22379 2 syms_83; AGroup 3 3 syms_1;
     AGroup 22383 4 syms_84; AGroup 22381 5 syms_85; AGroup 22385 6 syms_86]);
   (493632, 12, [AGroup 22171 1 [sym_kFdiv]; AGroup 22173 1 [sym_kHat]; AGroup 22175 1 [sym_kAs];
     AGroup 22275 1 [sym_kIs]; AGroup 22277 1 [sym_kNot]; AGroup 23291 1 [sym_kThen];
     SGroup 4618 1 [sym__exprIsNot]; AGroup 22271 2 syms_83; AGroup 3 3 syms_1;
     AGroup 22167 4 syms_84; AGroup 22273 5 syms_85; AGroup 22169 6 syms_86]);
   (493684, 3, [AGroup 5 1 [sym_ppDirective]; AGroup 3 2 syms_5; AGroup 11005 24 syms_691]);
   (493718, 12, [AGroup 20826 1 [sym_kHat]; AGroup 21595 1 [sym_kAs]; AGroup 22387 1 [sym_kFdiv];
     AGroup 22389 1 [sym_kIs]; AGroup 22391 1 [sym_kNot]; AGroup 22798 1 [anon_sym_SEMI];
     SGroup 4442 1 [sym__exprIsNot]; AGroup 22379 2 syms_83; AGroup 3 3 syms_1;
     AGroup 22383 4 syms_84; AGroup 22381 5 syms_85; AGroup 22385 6 syms_86]);
   (493770, 12, [AGroup 20826 1 [sym_kHat]; AGroup 21595 1 [sym_kAs]; AGroup 22387 1 [sym_kFdiv];
     AGroup 22389 1 [sym_kIs]; AGroup 22391 1 [sym_kNot]; AGroup 22816 1 [anon_sym_SEMI];
     SGroup 4442 1 [sym__exprIsNot]; AGroup 22379 2 syms_83; AGroup 3 3 syms_1;
     AGroup 22383 4 syms_84; AGroup 22381 5 syms_85; AGroup 22385 6 syms_86]);
   (493822, 12, [AGroup 20826 1 [sym_kHat]; AGroup 21595 1 [sym_kAs]; AGroup 22387 1 [sym_kFdiv];
     AGroup 22389 1 [sym_kIs]; AGroup 22391 1 [sym_kNot]; AGroup 23293 1 [anon_sym_RPAREN];
     SGroup 4442 1 [sym__exprIsNot]; AGroup 22379 2 syms_83; AGroup 3 3 syms_1;
     AGroup 22383 4 syms_84; AGroup 22381 5 syms_85; AGroup 22385 6 syms_86]);
   (493874, 12, [AGroup 21867 1 [sym_kHat]; AGroup 22233 1 [sym_kFdiv]; AGroup 22235 1 [sym_kAs];
     AGroup 22297 1 [sym_kIs]; AGroup 22299 1 [sym_kNot]; AGroup 23295 1 [sym_kDo];
     SGroup 4223 1 [sym__exprIsNot]; AGroup 22293 2 syms_83; AGroup 3 3 syms_1;
     AGroup 22229 4 syms_84; AGroup 22295 5 syms_85; AGroup 22231 6 syms_86]);
   (493926, 12, [AGroup 21791 1 [sym_kHat]; AGroup 21797 1 [sym_kFdiv]; AGroup 21799 1 [sym_kAs];
     AGroup 21893 1 [sym_kIs]; AGroup 21895 1 [sym_kNot]; AGroup 23297 1 [sym_kElse];
     SGroup 4923 1 [sym__exprIsNot]; AGroup 21889 2 syms_83; AGroup 3 3 syms_1;
     AGroup 21793 4 syms_84; AGroup 21891 5 syms_85; AGroup 21795 6 syms_86]);
   (493978, 12, [AGroup 21867 1 [sym_kHat]; AGroup 22233 1 [sym_kFdiv]; AGroup 22235 1 [sym_kAs];
     AGroup 22297 1 [sym_kIs]; AGroup 22299 1 [sym_kNot]; AGroup 23299 1 [sym_kDo];
     SGroup 4223 1 [sym__exprIsNot]; AGroup 22293 2 syms_83; AGroup 3 3 syms_1;
     AGroup 22229 4 syms_84; AGroup 22295 5 syms_85; AGroup 22231 6 syms_86]);
   (494030, 12, [AGroup 21418 1 [sym_kDo]; AGroup 21867 1 [sym_kHat]; AGroup 22233 1 [sym_kFdiv];
     AGroup 22235 1 [sym_kAs]; AGroup 22297 1 [sym_kIs]; AGroup 22299 1 [sym_kNot];
     SGroup 4223 1 [sym__exprIsNot]; AGroup 22293 2 syms_83; AGroup 3 3 syms_1;
     AGroup 22229 4 syms_84; AGroup 22295 5 syms_85; AGroup 22231 6 syms_86]);
   (494082, 12, [AGroup 20826 1 [sym_kHat]; AGroup 21595 1 [sym_kAs]; AGroup 22387 1 [sym_kFdiv];
     AGroup 22389 1 [sym_kIs]; AGroup 22391 1 [sym_kNot]; AGroup 23301 1 [anon_sym_RPAREN];
     SGroup 4442 1 [sym__exprIsNot]; AGroup 22379 2 syms_83; AGroup 3 3 syms_1;
     AGroup 22383 4 syms_84; AGroup 22381 5 syms_85; AGroup 22385 6 syms_86]);
   (494134, 3, [AGroup 5 1 [sym_ppDirective]; AGroup 3 2 syms_5; AGroup 11049 24 syms_691]);
   (494168, 12, [AGroup 22171 1 [sym_kFdiv]; AGroup 22173 1 [sym_kHat]; AGroup 22175 1 [sym_kAs];
     AGroup 22275 1 [sym_kIs]; AGroup 22277 1 [sym_kNot]; AGroup 23303 1 [sym_kThen];
     SGroup 4618 1 [sym__exprIsNot]; AGroup 22271 2 syms_83; AGroup 3 3 syms_1;
     AGroup 22167 4 syms_84; AGroup 22273 5 syms_85; AGroup 22169 6 syms_86]);
   (494220, 12, [AGroup 22171 1 [sym_kFdiv]; AGroup 22173 1 [sym_kHat]; AGroup 22175 1 [sym_kAs];
     AGroup 22275 1 [sym_kIs]; AGroup 22277 1 [sym_kNot]; AGroup 23305 1 [sym_kThen];
     SGroup 4618 1 [sym__exprIsNot]; AGroup 22271 2 syms_83; AGroup 3 3 syms_1;
     AGroup 22167 4 syms_84; AGroup 22273 5 syms_85; AGroup 22169 6 syms_86]);
   (494272, 12, [AGroup 21063 1 [sym_kHat]; AGroup 21069 1 [sym_kFdiv]; AGroup 21071 1 [sym_kAs];
     AGroup 21133 1 [sym_kIs]; AGroup 21135 1 [sym_kNot]; AGroup 23307 1 [sym_kOf];
     SGroup 5025 1 [sym__exprIsNot]; AGroup 21129 2 syms_83; AGroup 3 3 syms_1;
     AGroup 21065 4 syms_84; AGroup 21131 5 syms_85; AGroup 21067 6 syms_86]);
   (494324, 12, [AGroup 22171 1 [sym_kFdiv]; AGroup 22173 1 [sym_kHat]; AGroup 22175 1 [sym_kAs];
     AGroup 22275 1 [sym_kIs]; AGroup 22277 1 [sym_kNot]; AGroup 23309 1 [sym_kThen];
     SGroup 4618 1 [sym__exprIsNot]; AGroup 22271 2 syms_83; AGroup 3 3 syms_1;
     AGroup 22167 4 syms_84; AGroup 22273 5 syms_85; AGroup 22169 6 syms_86]);
   (494376, 12, [AGroup 21791 1 [sym_kHat]; AGroup 21797 1 [sym_kFdiv]; AGroup 21799 1 [sym_kAs];
     AGroup 21893 1 [sym_kIs]; AGroup 21895 1 [sym_kNot]; AGroup 23311 1 [sym_kElse];
     SGroup 4923 1 [sym__exprIsNot]; AGroup 21889 2 syms_83; AGroup 3 3 syms_1;
     AGroup 21793 4 syms_84; AGroup 21891 5 syms_85; AGroup 21795 6 syms_86]);
   (494428, 12, [AGroup 21867 1 [sym_kHat]; AGroup 22233 1 [sym_kFdiv]; AGroup 22235 1 [sym_kAs];
     AGroup 22297 1 [sym_kIs]; AGroup 22299 1 [sym_kNot]; AGroup 23313 1 [sym_kDo];
     SGroup 4223 1 [sym__exprIsNot]; AGroup 22293 2 syms_83; AGroup 3 3 syms_1;
     AGroup 22229 4 syms_84; AGroup 22295 5 syms_85; AGroup 22231 6 syms_86]);
   (494480, 12, [AGroup 21063 1 [sym_kHat]; AGroup 21069 1 [sym_kFdiv]; AGroup 21071 1 [sym_kAs];
     AGroup 21133 1 [sym_kIs]; AGroup 21135 1 [sym_kNot]; AGroup 23315 1 [sym_kOf];
     SGroup 5025 1 [sym__exprIsNot]; AGroup 21129 2 syms_83; AGroup 3 3 syms_1;
     AGroup 21065 4 syms_84; AGroup 21131 5 syms_85; AGroup 21067 6 syms_86]);
   (494532, 12, [AGroup 20826 1 [sym_kHat]; AGroup 21595 1 [sym_kAs]; AGroup 22387 1 [sym_kFdiv];
     AGroup 22389 1 [sym_kIs]; AGroup 22391 1 [sym_kNot]; AGroup 23317 1 [anon_sym_RPAREN];
     SGroup 4442 1 [sym__exprIsNot]; AGroup 22379 2 syms_83; AGroup 3 3 syms_1;
     AGroup 22383 4 syms_84; AGroup 22381 5 syms_85; AGroup 22385 6 syms_86]);
   (494584, 12, [AGroup 21867 1 [sym_kHat]; AGroup 22233 1 [sym_kFdiv]; AGroup 22235 1 [sym_kAs];
     AGroup 22297 1 [sym_kIs]; AGroup 22299 1 [sym_kNot]; AGroup 23319 1 [sym_kDo];
     SGroup 4223 1 [sym__exprIsNot]; AGroup 22293 2 syms_83; AGroup 3 3 syms_1;
     AGroup 22229 4 syms_84; AGroup 22295 5 syms_85; AGroup 22231 6 syms_86]);
   (494636, 12, [AGroup 21183 1 [sym_kDo]; AGroup 21867 1 [sym_kHat]; AGroup 22233 1 [sym_kFdiv];
     AGroup 22235 1 [sym_kAs]; AGroup 22297 1 [sym_kIs]; AGroup 22299 1 [sym_kNot];
     SGroup 4223 1 [sym__exprIsNot]; AGroup 22293 2 syms_83; AGroup 3 3 syms_1;
     AGroup 22229 4 syms_84; AGroup 22295 5 syms_85; AGroup 22231 6 syms_86]);
   (494688, 12, [AGroup 21867 1 [sym_kHat]; AGroup 22233 1 [sym_kFdiv]; AGroup 22235 1 [sym_kAs];
     AGroup 22297 1 [sym_kIs]; AGroup 22299 1 [sym_kNot]; AGroup 23321 1 [sym_kDo];
     SGroup 4223 1 [sym__exprIsNot]; AGroup 22293 2 syms_83; AGroup 3 3 syms_1;
     AGroup 22229 4 syms_84; AGroup 22295 5 syms_85; AGroup 22231 6 syms_86]);
   (494740, 12, [AGroup 21791 1 [sym_kHat]; AGroup 21797 1 [sym_kFdiv]; AGroup 21799 1 [sym_kAs];
     AGroup 21893 1 [sym_kIs]; AGroup 21895 1 [sym_kNot]; AGroup 23323 1 [sym_kElse];
     SGroup 4923 1 [sym__exprIsNot]; AGroup 21889 2 syms_83; AGroup 3 3 syms_1;
     AGroup 21793 4 syms_84; AGroup 21891 5 syms_85; AGroup 21795 6 syms_86]);
   (494792, 12, [AGroup 21791 1 [sym_kHat]; AGroup 21797 1 [sym_kFdiv]; AGroup 21799 1 [sym_kAs];
     AGroup 21893 1 [sym_kIs]; AGroup 21895 1 [sym_kNot]; AGroup 23325 1 [sym_kElse];
     SGroup 4923 1 [sym__exprIsNot]; AGroup 21889 2 syms_83; AGroup 3 3 syms_1;
     AGroup 21793 4 syms_84; AGroup 21891 5 syms_85; AGroup 21795 6 syms_86]);
   (494844, 12, [AGroup 20826 1 [sym_kHat]; AGroup 21595 1 [sym_kAs]; AGroup 22131 1 [anon_sym_SEMI];
     AGroup 22387 1 [sym_kFdiv]; AGroup 22389 1 [sym_kIs]; AGroup 22391 1 [sym_kNot];
     SGroup 4442 1 [sym__exprIsNot]; AGroup 22379 2 syms_83; AGroup 3 3 syms_1;
     AGroup 22383 4 syms_84; AGroup 22381 5 syms_85; AGroup 22385 6 syms_86]);
   (494896, 12, [AGroup 22171 1 [sym_kFdiv]; AGroup 22173 1 [sym_kHat]; AGroup 22175 1 [sym_kAs];
     AGroup 22275 1 [sym_kIs]; AGroup 22277 1 [sym_kNot]; AGroup 23327 1 [sym_kThen];
     SGroup 4618 1 [sym__exprIsNot]; AGroup 22271 2 syms_83; AGroup 3 3 syms_1;
     AGroup 22167 4 syms_84; AGroup 22273 5 syms_85; AGroup 22169 6 syms_86]);
   (494948, 12, [AGroup 20826 1 [sym_kHat]; AGroup 21595 1 [sym_kAs]; AGroup 22387 1 [sym_kFdiv];
     AGroup 22389 1 [sym_kIs]; AGroup 22391 1 [sym_kNot]; AGroup 23329 1 [anon_sym_RPAREN];
     SGroup 4442 1 [sym__exprIsNot]; AGroup 22379 2 syms_83; AGroup 3 3 syms_1;
     AGroup 22383 4 syms_84; AGroup 22381 5 syms_85; AGroup 22385 6 syms_86]);
   (495000, 12, [AGroup 20826 1 [sym_kHat]; AGroup 21595 1 [sym_kAs]; AGroup 22387 1 [sym_kFdiv];
     AGroup 22389 1 [sym_kIs]; AGroup 22391 1 [sym_kNot]; AGroup 23331 1 [anon_sym_RPAREN];
     SGroup 4442 1 [sym__exprIsNot]; AGroup 22379 2 syms_83; AGroup 3 3 syms_1;
     AGroup 22383 4 syms_84; AGroup 22381 5 syms_85; AGroup 22385 6 syms_86]);
   (495052, 12, [AGroup 21791 1 [sym_kHat]; AGroup 21797 1 [sym_kFdiv]; AGroup 21799 1 [sym_kAs];
     AGroup 21893 1 [sym_kIs]; AGroup 21895 1 [sym_kNot]; AGroup 23333 1 [sym_kElse];
     SGroup 4923 1 [sym__exprIsNot]; AGroup 21889 2 syms_83; AGroup 3 3 syms_1;
     AGroup 21793 4 syms_84; AGroup 21891 5 syms_85; AGroup 21795 6 syms_86]);
   (495104, 12, [AGroup 21867 1 [sym_kHat]; AGroup 22233 1 [sym_kFdiv]; AGroup 22235 1 [sym_kAs];
     AGroup 22297 1 [sym_kIs]; AGroup 22299 1 [sym_kNot]; AGroup 23335 1 [sym_kDo];
     SGroup 4223 1 [sym__exprIsNot]; AGroup 22293 2 syms_83; AGroup 3 3 syms_1;
     AGroup 22229 4 syms_84; AGroup 22295 5 syms_85; AGroup 22231 6 syms_86]);
   (495156, 12, [AGroup 21420 1 [sym_kDo]; AGroup 21867 1 [sym_kHat]; AGroup 22233 1 [sym_kFdiv];
     AGroup 22235 1 [sym_kAs]; AGroup 22297 1 [sym_kIs]; AGroup 22299 1 [sym_kNot];
     SGroup 4223 1 [sym__exprIsNot]; AGroup 22293 2 syms_83; AGroup 3 3 syms_1;
     AGroup 22229 4 syms_84; AGroup 22295 5 syms_85; AGroup 22231 6 syms_86]);
   (495208, 12, [AGroup 21867 1 [sym_kHat]; AGroup 22233 1 [sym_kFdiv]; AGroup 22235 1 [sym_kAs];
     AGroup 22297 1 [sym_kIs]; AGroup 22299 1 [sym_kNot]; AGroup 23337 1 [sym_kDo];
     SGroup 4223 1 [sym__exprIsNot]; AGroup 22293 2 syms_83; AGroup 3 3 syms_1;
     AGroup 22229 4 syms_84; AGroup 22295 5 syms_85; AGroup 22231 6 syms_86]);
   (495260, 3, [AGroup 5 1 [sym_ppDirective]; AGroup 3 2 syms_5; AGroup 10932 24 syms_691]);
   (495294, 12, [AGroup 21377 1 [sym_kDo]; AGroup 21867 1 [sym_kHat]; AGroup 22233 1 [sym_kFdiv];
     AGroup 22235 1 [sym_kAs]; AGroup 22297 1 [sym_kIs]; AGroup 22299 1 [sym_kNot];
     SGroup 4223 1 [sym__exprIsNot]; AGroup 22293 2 syms_83; AGroup 3 3 syms_1;
     AGroup 22229 4 syms_84; AGroup 22295 5 syms_85; AGroup 22231 6 syms_86]);
   (495346, 12, [AGroup 21063 1 [sym_kHat]; AGroup 21069 1 [sym_kFdiv]; AGroup 21071 1 [sym_kAs];
     AGroup 21133 1 [sym_kIs]; AGroup 21135 1 [sym_kNot]; AGroup 23339 1 [sym_kOf];
     SGroup 5025 1 [sym__exprIsNot]; AGroup 21129 2 syms_83; AGroup 3 3 syms_1;
     AGroup 21065 4 syms_84; AGroup 21131 5 syms_85; AGroup 21067 6 syms_86])
  ].

(** States 9959 to 10058. *)
Definition small_runs_9959 : list small_run :=
  [
   (495398, 12, [AGroup 22171 1 [sym_kFdiv]; AGroup 22173 1 [sym_kHat]; AGroup 22175 1 [sym_kAs];
     AGroup 22275 1 [sym_kIs]; AGroup 22277 1 [sym_kNot]; AGroup 23341 1 [sym_kThen];
     SGroup 4618 1 [sym__exprIsNot]; AGroup 22271 2 syms_83; AGroup 3 3 syms_1;
     AGroup 22167 4 syms_84; AGroup 22273 5 syms_85; AGroup 22169 6 syms_86]);
   (495450, 12, [AGroup 22171 1 [sym_kFdiv]; AGroup 22173 1 [sym_kHat]; AGroup 22175 1 [sym_kAs];
     AGroup 22275 1 [sym_kIs]; AGroup 22277 1 [sym_kNot]; AGroup 23343 1 [sym_kThen];
     SGroup 4618 1 [sym__exprIsNot]; AGroup 22271 2 syms_83; AGroup 3 3 syms_1;
     AGroup 22167 4 syms_84; AGroup 22273 5 syms_85; AGroup 22169 6 syms_86]);
   (495502, 12, [AGroup 20826 1 [sym_kHat]; AGroup 21595 1 [sym_kAs]; AGroup 22387 1 [sym_kFdiv];
     AGroup 22389 1 [sym_kIs]; AGroup 22391 1 [sym_kNot]; AGroup 23345 1 [anon_sym_RPAREN];
     SGroup 4442 1 [sym__exprIsNot]; AGroup 22379 2 syms_83; AGroup 3 3 syms_1;
     AGroup 22383 4 syms_84; AGroup 22381 5 syms_85; AGroup 22385 6 syms_86]);
   (495554, 12, [AGroup 22171 1 [sym_kFdiv]; AGroup 22173 1 [sym_kHat]; AGroup 22175 1 [sym_kAs];
     AGroup 22275 1 [sym_kIs]; AGroup 22277 1 [sym_kNot]; AGroup 23347 1 [sym_kThen];
     SGroup 4618 1 [sym__exprIsNot]; AGroup 22271 2 syms_83; AGroup 3 3 syms_1;
     AGroup 22167 4 syms_84; AGroup 22273 5 syms_85; AGroup 22169 6 syms_86]);
   (495606, 12, [AGroup 21063 1 [sym_kHat]; AGroup 21069 1 [sym_kFdiv]; AGroup 21071 1 [sym_kAs];
     AGroup 21133 1 [sym_kIs]; AGroup 21135 1 [sym_kNot]; AGroup 23349 1 [sym_kOf];
     SGroup 5025 1 [sym__exprIsNot]; AGroup 21129 2 syms_83; AGroup 3 3 syms_1;
     AGroup 21065 4 syms_84; AGroup 21131 5 syms_85; AGroup 21067 6 syms_86]);
   (495658, 12, [AGroup 21867 1 [sym_kHat]; AGroup 22233 1 [sym_kFdiv]; AGroup 22235 1 [sym_kAs];
     AGroup 22297 1 [sym_kIs]; AGroup 22299 1 [sym_kNot]; AGroup 23351 1 [sym_kDo];
     SGroup 4223 1 [sym__exprIsNot]; AGroup 22293 2 syms_83; AGroup 3 3 syms_1;
     AGroup 22229 4 syms_84; AGroup 22295 5 syms_85; AGroup 22231 6 syms_86]);
   (495710, 12, [AGroup 21791 1 [sym_kHat]; AGroup 21797 1 [sym_kFdiv]; AGroup 21799 1 [sym_kAs];
     AGroup 21893 1 [sym_kIs]; AGroup 21895 1 [sym_kNot]; AGroup 23353 1 [sym_kElse];
     SGroup 4923 1 [sym__exprIsNot]; AGroup 21889 2 syms_83; AGroup 3 3 syms_1;
     AGroup 21793 4 syms_84; AGroup 21891 5 syms_85; AGroup 21795 6 syms_86]);
   (495762, 12, [AGroup 21442 1 [sym_kDo]; AGroup 21867 1 [sym_kHat]; AGroup 22233 1 [sym_kFdiv];
     AGroup 22235 1 [sym_kAs]; AGroup 22297 1 [sym_kIs]; AGroup 22299 1 [sym_kNot];
     SGroup 4223 1 [sym__exprIsNot]; AGroup 22293 2 syms_83; AGroup 3 3 syms_1;
     AGroup 22229 4 syms_84; AGroup 22295 5 syms_85; AGroup 22231 6 syms_86]);
   (495814, 12, [AGroup 21867 1 [sym_kHat]; AGroup 22233 1 [sym_kFdiv]; AGroup 22235 1 [sym_kAs];
     AGroup 22297 1 [sym_kIs]; AGroup 22299 1 [sym_kNot]; AGroup 23355 1 [sym_kDo];
     SGroup 4223 1 [sym__exprIsNot]; AGroup 22293 2 syms_83; AGroup 3 3 syms_1;
     AGroup 22229 4 syms_84; AGroup 22295 5 syms_85; AGroup 22231 6 syms_86]);
   (495866, 12, [AGroup 22171 1 [sym_kFdiv]; AGroup 22173 1 [sym_kHat]; AGroup 22175 1 [sym_kAs];
     AGroup 22275 1 [sym_kIs]; AGroup 22277 1 [sym_kNot]; AGroup 23357 1 [sym_kThen];
     SGroup 4618 1 [sym__exprIsNot]; AGroup 22271 2 syms_83; AGroup 3 3 syms_1;
     AGroup 22167 4 syms_84; AGroup 22273 5 syms_85; AGroup 22169 6 syms_86]);
   (495918, 4, [AGroup 5 1 [sym_ppDirective]; AGroup 3 2 syms_5; AGroup 22403 5 syms_150;
     AGroup 22401 19 syms_151]);
   (495954, 12, [AGroup 21063 1 [sym_kHat]; AGroup 21069 1 [sym_kFdiv]; AGroup 21071 1 [sym_kAs];
     AGroup 21133 1 [sym_kIs]; AGroup 21135 1 [sym_kNot]; AGroup 23359 1 [sym_kOf];
     SGroup 5025 1 [sym__exprIsNot]; AGroup 21129 2 syms_83; AGroup 3 3 syms_1;
     AGroup 21065 4 syms_84; AGroup 21131 5 syms_85; AGroup 21067 6 syms_86]);
   (496006, 12, [AGroup 21791 1 [sym_kHat]; AGroup 21797 1 [sym_kFdiv]; AGroup 21799 1 [sym_kAs];
     AGroup 21893 1 [sym_kIs]; AGroup 21895 1 [sym_kNot]; AGroup 23361 1 [sym_kElse];
     SGroup 4923 1 [sym__exprIsNot]; AGroup 21889 2 syms_83; AGroup 3 3 syms_1;
     AGroup 21793 4 syms_84; AGroup 21891 5 syms_85; AGroup 21795 6 syms_86]);
   (496058, 12, [AGroup 20826 1 [sym_kHat]; AGroup 21595 1 [sym_kAs]; AGroup 22387 1 [sym_kFdiv];
     AGroup 22389 1 [sym_kIs]; AGroup 22391 1 [sym_kNot]; AGroup 23363 1 [anon_sym_RPAREN];
     SGroup 4442 1 [sym__exprIsNot]; AGroup 22379 2 syms_83; AGroup 3 3 syms_1;
     AGroup 22383 4 syms_84; AGroup 22381 5 syms_85; AGroup 22385 6 syms_86]);
   (496110, 12, [AGroup 21791 1 [sym_kHat]; AGroup 21797 1 [sym_kFdiv]; AGroup 21799 1 [sym_kAs];
     AGroup 21893 1 [sym_kIs]; AGroup 21895 1 [sym_kNot]; AGroup 23365 1 [sym_kElse];
     SGroup 4923 1 [sym__exprIsNot]; AGroup 21889 2 syms_83; AGroup 3 3 syms_1;
     AGroup 21793 4 syms_84; AGroup 21891 5 syms_85; AGroup 21795 6 syms_86]);
   (496162, 12, [AGroup 21063 1 [sym_kHat]; AGroup 21069 1 [sym_kFdiv]; AGroup 21071 1 [sym_kAs];
     AGroup 21133 1 [sym_kIs]; AGroup 21135 1 [sym_kNot]; AGroup 23367 1 [sym_kOf];
     SGroup 5025 1 [sym__exprIsNot]; AGroup 21129 2 syms_83; AGroup 3 3 syms_1;
     AGroup 21065 4 syms_84; AGroup 21131 5 syms_85; AGroup 21067 6 syms_86]);
   (496214, 12, [AGroup 20826 1 [sym_kHat]; AGroup 21595 1 [sym_kAs]; AGroup 22387 1 [sym_kFdiv];
     AGroup 22389 1 [sym_kIs]; AGroup 22391 1 [sym_kNot]; AGroup 23369 1 [anon_sym_RPAREN];
     SGroup 4442 1 [sym__exprIsNot]; AGroup 22379 2 syms_83; AGroup 3 3 syms_1;
     AGroup 22383 4 syms_84; AGroup 22381 5 syms_85; AGroup 22385 6 syms_86]);
   (496266, 12, [AGroup 21791 1 [sym_kHat]; AGroup 21797 1 [sym_kFdiv]; AGroup 21799 1 [sym_kAs];
     AGroup 21893 1 [sym_kIs]; AGroup 21895 1 [sym_kNot]; AGroup 23371 1 [sym_kElse];
     SGroup 4923 1 [sym__exprIsNot]; AGroup 21889 2 syms_83; AGroup 3 3 syms_1;
     AGroup 21793 4 syms_84; AGroup 21891 5 syms_85; AGroup 21795 6 syms_86]);
   (496318, 12, [AGroup 21063 1 [sym_kHat]; AGroup 21069 1 [sym_kFdiv]; AGroup 21071 1 [sym_kAs];
     AGroup 21133 1 [sym_kIs]; AGroup 21135 1 [sym_kNot]; AGroup 23373 1 [sym_kOf];
     SGroup 5025 1 [sym__exprIsNot]; AGroup 21129 2 syms_83; AGroup 3 3 syms_1;
     AGroup 21065 4 syms_84; AGroup 21131 5 syms_85; AGroup 21067 6 syms_86]);
   (496370, 12, [AGroup 20826 1 [sym_kHat]; AGroup 21595 1 [sym_kAs]; AGroup 22205 1 [anon_sym_SEMI];
     AGroup 22387 1 [sym_kFdiv]; AGroup 22389 1 [sym_kIs]; AGroup 22391 1 [sym_kNot];
     SGroup 4442 1 [sym__exprIsNot]; AGroup 22379 2 syms_83; AGroup 3 3 syms_1;
     AGroup 22383 4 syms_84; AGroup 22381 5 syms_85; AGroup 22385 6 syms_86]);
   (496422, 12, [AGroup 22171 1 [sym_kFdiv]; AGroup 22173 1 [sym_kHat]; AGroup 22175 1 [sym_kAs];
     AGroup 22275 1 [sym_kIs]; AGroup 22277 1 [sym_kNot]; AGroup 23375 1 [sym_kThen];
     SGroup 4618 1 [sym__exprIsNot]; AGroup 22271 2 syms_83; AGroup 3 3 syms_1;
     AGroup 22167 4 syms_84; AGroup 22273 5 syms_85; AGroup 22169 6 syms_86]);
   (496474, 12, [AGroup 20826 1 [sym_kHat]; AGroup 21595 1 [sym_kAs]; AGroup 22207 1 [anon_sym_SEMI];
     AGroup 22387 1 [sym_kFdiv]; AGroup 22389 1 [sym_kIs]; AGroup 22391 1 [sym_kNot];
     SGroup 4442 1 [sym__exprIsNot]; AGroup 22379 2 syms_83; AGroup 3 3 syms_1;
     AGroup 22383 4 syms_84; AGroup 22381 5 syms_85; AGroup 22385 6 syms_86]);
   (496526, 12, [AGroup 20826 1 [sym_kHat]; AGroup 21595 1 [sym_kAs]; AGroup 22387 1 [sym_kFdiv];
     AGroup 22389 1 [sym_kIs]; AGroup 22391 1 [sym_kNot]; AGroup 22700 1 [anon_sym_RPAREN];
     SGroup 4442 1 [sym__exprIsNot]; AGroup 22379 2 syms_83; AGroup 3 3 syms_1;
     AGroup 22383 4 syms_84; AGroup 22381 5 syms_85; AGroup 22385 6 syms_86]);
   (496578, 12, [AGroup 21063 1 [sym_kHat]; AGroup 21069 1 [sym_kFdiv]; AGroup 21071 1 [sym_kAs];
     AGroup 21133 1 [sym_kIs]; AGroup 21135 1 [sym_kNot]; AGroup 23377 1 [sym_kOf];
     SGroup 5025 1 [sym__exprIsNot]; AGroup 21129 2 syms_83; AGroup 3 3 syms_1;
     AGroup 21065 4 syms_84; AGroup 21131 5 syms_85; AGroup 21067 6 syms_86]);
   (496630, 12, [AGroup 21867 1 [sym_kHat]; AGroup 22233 1 [sym_kFdiv]; AGroup 22235 1 [sym_kAs];
     AGroup 22297 1 [sym_kIs]; AGroup 22299 1 [sym_kNot]; AGroup 23379 1 [sym_kDo];
     SGroup 4223 1 [sym__exprIsNot]; AGroup 22293 2 syms_83; AGroup 3 3 syms_1;
     AGroup 22229 4 syms_84; AGroup 22295 5 syms_85; AGroup 22231 6 syms_86]);
   (496682, 12, [AGroup 21185 1 [sym_kDo]; AGroup 21867 1 [sym_kHat]; AGroup 22233 1 [sym_kFdiv];
     AGroup 22235 1 [sym_kAs]; AGroup 22297 1 [sym_kIs]; AGroup 22299 1 [sym_kNot];
     SGroup 4223 1 [sym__exprIsNot]; AGroup 22293 2 syms_83; AGroup 3 3 syms_1;
     AGroup 22229 4 syms_84; AGroup 22295 5 syms_85; AGroup 22231 6 syms_86]);
   (496734, 12, [AGroup 21791 1 [sym_kHat]; AGroup 21797 1 [sym_kFdiv]; AGroup 21799 1 [sym_kAs];
     AGroup 21893 1 [sym_kIs]; AGroup 21895 1 [sym_kNot]; AGroup 23381 1 [sym_kElse];
     SGroup 4923 1 [sym__exprIsNot]; AGroup 21889 2 syms_83; AGroup 3 3 syms_1;
     AGroup 21793 4 syms_84; AGroup 21891 5 syms_85; AGroup 21795 6 syms_86]);
   (496786, 12, [AGroup 21867 1 [sym_kHat]; AGroup 22233 1 [sym_kFdiv]; AGroup 22235 1 [sym_kAs];
     AGroup 22297 1 [sym_kIs]; AGroup 22299 1 [sym_kNot]; AGroup 23383 1 [sym_kDo];
     SGroup 4223 1 [sym__exprIsNot]; AGroup 22293 2 syms_83; AGroup 3 3 syms_1;
     AGroup 22229 4 syms_84; AGroup 22295 5 syms_85; AGroup 22231 6 syms_86]);
   (496838, 12, [AGroup 21791 1 [sym_kHat]; AGroup 21797 1 [sym_kFdiv]; AGroup 21799 1 [sym_kAs];
     AGroup 21893 1 [sym_kIs]; AGroup 21895 1 [sym_kNot]; AGroup 23385 1 [sym_kElse];
     SGroup 4923 1 [sym__exprIsNot]; AGroup 21889 2 syms_83; AGroup 3 3 syms_1;
     AGroup 21793 4 syms_84; AGroup 21891 5 syms_85; AGroup 21795 6 syms_86]);
   (496890, 4, [AGroup 5 1 [sym_ppDirective]; AGroup 3 2 syms_5; AGroup 23389 5 syms_150;
     AGroup 23387 19 syms_151]);
   (496926, 12, [AGroup 21063 1 [sym_kHat]; AGroup 21069 1 [sym_kFdiv]; AGroup 21071 1 [sym_kAs];
     AGroup 21133 1 [sym_kIs]; AGroup 21135 1 [sym_kNot]; AGroup 23391 1 [sym_kOf];
     SGroup 5025 1 [sym__exprIsNot]; AGroup 21129 2 syms_83; AGroup 3 3 syms_1;
     AGroup 21065 4 syms_84; AGroup 21131 5 syms_85; AGroup 21067 6 syms_86]);
   (496978, 12, [AGroup 22171 1 [sym_kFdiv]; AGroup 22173 1 [sym_kHat]; AGroup 22175 1 [sym_kAs];
     AGroup 22275 1 [sym_kIs]; AGroup 22277 1 [sym_kNot]; AGroup 23393 1 [sym_kThen];
     SGroup 4618 1 [sym__exprIsNot]; AGroup 22271 2 syms_83; AGroup 3 3 syms_1;
     AGroup 22167 4 syms_84; AGroup 22273 5 syms_85; AGroup 22169 6 syms_86]);
   (497030, 12, [AGroup 22171 1 [sym_kFdiv]; AGroup 22173 1 [sym_kHat]; AGroup 22175 1 [sym_kAs];
     AGroup 22275 1 [sym_kIs]; AGroup 22277 1 [sym_kNot]; AGroup 23395 1 [sym_kThen];
     SGroup 4618 1 [sym__exprIsNot]; AGroup 22271 2 syms_83; AGroup 3 3 syms_1;
     AGroup 22167 4 syms_84; AGroup 22273 5 syms_85; AGroup 22169 6 syms_86]);
   (497082, 12, [AGroup 20826 1 [sym_kHat]; AGroup 21595 1 [sym_kAs]; AGroup 22387 1 [sym_kFdiv];
     AGroup 22389 1 [sym_kIs]; AGroup 22391 1 [sym_kNot]; AGroup 23000 1 [anon_sym_SEMI];
     SGroup 4442 1 [sym__exprIsNot]; AGroup 22379 2 syms_83; AGroup 3 3 syms_1;
     AGroup 22383 4 syms_84; AGroup 22381 5 syms_85; AGroup 22385 6 syms_86]);
   (497134, 12, [AGroup 21063 1 [sym_kHat]; AGroup 21069 1 [sym_kFdiv]; AGroup 21071 1 [sym_kAs];
     AGroup 21133 1 [sym_kIs]; AGroup 21135 1 [sym_kNot]; AGroup 23397 1 [sym_kOf];
     SGroup 5025 1 [sym__exprIsNot]; AGroup 21129 2 syms_83; AGroup 3 3 syms_1;
     AGroup 21065 4 syms_84; AGroup 21131 5 syms_85; AGroup 21067 6 syms_86]);
   (497186, 12, [AGroup 21867 1 [sym_kHat]; AGroup 22233 1 [sym_kFdiv]; AGroup 22235 1 [sym_kAs];
     AGroup 22297 1 [sym_kIs]; AGroup 22299 1 [sym_kNot]; AGroup 23399 1 [sym_kDo];
     SGroup 4223 1 [sym__exprIsNot]; AGroup 22293 2 syms_83; AGroup 3 3 syms_1;
     AGroup 22229 4 syms_84; AGroup 22295 5 syms_85; AGroup 22231 6 syms_86]);
   (497238, 12, [AGroup 20826 1 [sym_kHat]; AGroup 21595 1 [sym_kAs]; AGroup 22387 1 [sym_kFdiv];
     AGroup 22389 1 [sym_kIs]; AGroup 22391 1 [sym_kNot]; AGroup 23401 1 [anon_sym_RPAREN];
     SGroup 4442 1 [sym__exprIsNot]; AGroup 22379 2 syms_83; AGroup 3 3 syms_1;
     AGroup 22383 4 syms_84; AGroup 22381 5 syms_85; AGroup 22385 6 syms_86]);
   (497290, 12, [AGroup 22171 1 [sym_kFdiv]; AGroup 22173 1 [sym_kHat]; AGroup 22175 1 [sym_kAs];
     AGroup 22275 1 [sym_kIs]; AGroup 22277 1 [sym_kNot]; AGroup 23403 1 [sym_kThen];
     SGroup 4618 1 [sym__exprIsNot]; AGroup 22271 2 syms_83; AGroup 3 3 syms_1;
     AGroup 22167 4 syms_84; AGroup 22273 5 syms_85; AGroup 22169 6 syms_86]);
   (497342, 12, [AGroup 21867 1 [sym_kHat]; AGroup 22233 1 [sym_kFdiv]; AGroup 22235 1 [sym_kAs];
     AGroup 22297 1 [sym_kIs]; AGroup 22299 1 [sym_kNot]; AGroup 23405 1 [sym_kDo];
     SGroup 4223 1 [sym__exprIsNot]; AGroup 22293 2 syms_83; AGroup 3 3 syms_1;
     AGroup 22229 4 syms_84; AGroup 22295 5 syms_85; AGroup 22231 6 syms_86]);
   (497394, 12, [AGroup 21791 1 [sym_kHat]; AGroup 21797 1 [sym_kFdiv]; AGroup 21799 1 [sym_kAs];
     AGroup 21893 1 [sym_kIs]; AGroup 21895 1 [sym_kNot]; AGroup 23407 1 [sym_kElse];
     SGroup 4923 1 [sym__exprIsNot]; AGroup 21889 2 syms_83; AGroup 3 3 syms_1;
     AGroup 21793 4 syms_84; AGroup 21891 5 syms_85; AGroup 21795 6 syms_86]);
   (497446, 12, [AGroup 20826 1 [sym_kHat]; AGroup 21595 1 [sym_kAs]; AGroup 22387 1 [sym_kFdiv];
     AGroup 22389 1 [sym_kIs]; AGroup 22391 1 [sym_kNot]; AGroup 23409 1 [anon_sym_RPAREN];
     SGroup 4442 1 [sym__exprIsNot]; AGroup 22379 2 syms_83; AGroup 3 3 syms_1;
     AGroup 22383 4 syms_84; AGroup 22381 5 syms_85; AGroup 22385 6 syms_86]);
   (497498, 12, [AGroup 21063 1 [sym_kHat]; AGroup 21069 1 [sym_kFdiv]; AGroup 21071 1 [sym_kAs];
     AGroup 21133 1 [sym_kIs]; AGroup 21135 1 [sym_kNot]; AGroup 23411 1 [sym_kOf];
     SGroup 5025 1 [sym__exprIsNot]; AGroup 21129 2 syms_83; AGroup 3 3 syms_1;
     AGroup 21065 4 syms_84; AGroup 21131 5 syms_85; AGroup 21067 6 syms_86]);
   (497550, 12, [AGroup 22171 1 [sym_kFdiv]; AGroup 22173 1 [sym_kHat]; AGroup 22175 1 [sym_kAs];
     AGroup 22275 1 [sym_kIs]; AGroup 22277 1 [sym_kNot]; AGroup 23413 1 [sym_kThen];
     SGroup 4618 1 [sym__exprIsNot]; AGroup 22271 2 syms_83; AGroup 3 3 syms_1;
     AGroup 22167 4 syms_84; AGroup 22273 5 syms_85; AGroup 22169 6 syms_86]);
   (497602, 12, [AGroup 20826 1 [sym_kHat]; AGroup 21595 1 [sym_kAs]; AGroup 22387 1 [sym_kFdiv];
     AGroup 22389 1 [sym_kIs]; AGroup 22391 1 [sym_kNot]; AGroup 23415 1 [anon_sym_RPAREN];
     SGroup 4442 1 [sym__exprIsNot]; AGroup 22379 2 syms_83; AGroup 3 3 syms_1;
     AGroup 22383 4 syms_84; AGroup 22381 5 syms_85; AGroup 22385 6 syms_86]);
   (497654, 12, [AGroup 20826 1 [sym_kHat]; AGroup 21595 1 [sym_kAs]; AGroup 22387 1 [sym_kFdiv];
     AGroup 22389 1 [sym_kIs]; AGroup 22391 1 [sym_kNot]; AGroup 23417 1 [anon_sym_RPAREN];
     SGroup 4442 1 [sym__exprIsNot]; AGroup 22379 2 syms_83; AGroup 3 3 syms_1;
     AGroup 22383 4 syms_84; AGroup 22381 5 syms_85; AGroup 22385 6 syms_86]);
   (497706, 12, [AGroup 20826 1 [sym_kHat]; AGroup 21595 1 [sym_kAs]; AGroup 22387 1 [sym_kFdiv];
     AGroup 22389 1 [sym_kIs]; AGroup 22391 1 [sym_kNot]; AGroup 23419 1 [anon_sym_RPAREN];
     SGroup 4442 1 [sym__exprIsNot]; AGroup 22379 2 syms_83; AGroup 3 3 syms_1;
     AGroup 22383 4 syms_84; AGroup 22381 5 syms_85; AGroup 22385 6 syms_86]);
   (497758, 12, [AGroup 20826 1 [sym_kHat]; AGroup 21595 1 [sym_kAs]; AGroup 22387 1 [sym_kFdiv];
     AGroup 22389 1 [sym_kIs]; AGroup 22391 1 [sym_kNot]; AGroup 23002 1 [anon_sym_SEMI];
     SGroup 4442 1 [sym__exprIsNot]; AGroup 22379 2 syms_83; AGroup 3 3 syms_1;
     AGroup 22383 4 syms_84; AGroup 22381 5 syms_85; AGroup 22385 6 syms_86]);
   (497810, 12, [AGroup 21791 1 [sym_kHat]; AGroup 21797 1 [sym_kFdiv]; AGroup 21799 1 [sym_kAs];
     AGroup 21893 1 [sym_kIs]; AGroup 21895 1 [sym_kNot]; AGroup 23421 1 [sym_kElse];
     SGroup 4923 1 [sym__exprIsNot]; AGroup 21889 2 syms_83; AGroup 3 3 syms_1;
     AGroup 21793 4 syms_84; AGroup 21891 5 syms_85; AGroup 21795 6 syms_86]);
   (497862, 12, [AGroup 21063 1 [sym_kHat]; AGroup 21069 1 [sym_kFdiv]; AGroup 21071 1 [sym_kAs];
     AGroup 21133 1 [sym_kIs]; AGroup 21135 1 [sym_kNot]; AGroup 23423 1 [sym_kOf];
     SGroup 5025 1 [sym__exprIsNot]; AGroup 21129 2 syms_83; AGroup 3 3 syms_1;
     AGroup 21065 4 syms_84; AGroup 21131 5 syms_85; AGroup 21067 6 syms_86]);
   (497914, 12, [AGroup 20826 1 [sym_kHat]; AGroup 21595 1 [sym_kAs]; AGroup 22387 1 [sym_kFdiv];
     AGroup 22389 1 [sym_kIs]; AGroup 22391 1 [sym_kNot]; AGroup 23425 1 [anon_sym_RPAREN];
     SGroup 4442 1 [sym__exprIsNot]; AGroup 22379 2 syms_83; AGroup 3 3 syms_1;
     AGroup 22383 4 syms_84; AGroup 22381 5 syms_85; AGroup 22385 6 syms_86]);
   (497966, 12, [AGroup 21063 1 [sym_kHat]; AGroup 21069 1 [sym_kFdiv]; AGroup 21071 1 [sym_kAs];
     AGroup 21133 1 [sym_kIs]; AGroup 21135 1 [sym_kNot]; AGroup 23427 1 [sym_kOf];
     SGroup 5025 1 [sym__exprIsNot]; AGroup 21129 2 syms_83; AGroup 3 3 syms_1;
     AGroup 21065 4 syms_84; AGroup 21131 5 syms_85; AGroup 21067 6 syms_86]);
   (498018, 12, [AGroup 21867 1 [sym_kHat]; AGroup 22233 1 [sym_kFdiv]; AGroup 22235 1 [sym_kAs];
     AGroup 22297 1 [sym_kIs]; AGroup 22299 1 [sym_kNot]; AGroup 23429 1 [sym_kDo];
     SGroup 4223 1 [sym__exprIsNot]; AGroup 22293 2 syms_83; AGroup 3 3 syms_1;
     AGroup 22229 4 syms_84; AGroup 22295 5 syms_85; AGroup 22231 6 syms_86]);
   (498070, 12, [AGroup 21791 1 [sym_kHat]; AGroup 21797 1 [sym_kFdiv]; AGroup 21799 1 [sym_kAs];
     AGroup 21893 1 [sym_kIs]; AGroup 21895 1 [sym_kNot]; AGroup 23431 1 [sym_kElse];
     SGroup 4923 1 [sym__exprIsNot]; AGroup 21889 2 syms_83; AGroup 3 3 syms_1;
     AGroup 21793 4 syms_84; AGroup 21891 5 syms_85; AGroup 21795 6 syms_86]);
   (498122, 12, [AGroup 21187 1 [sym_kDo]; AGroup 21867 1 [sym_kHat]; AGroup 22233 1 [sym_kFdiv];
     AGroup 22235 1 [sym_kAs]; AGroup 22297 1 [sym_kIs]; AGroup 22299 1 [sym_kNot];
     SGroup 4223 1 [sym__exprIsNot]; AGroup 22293 2 syms_83; AGroup 3 3 syms_1;
     AGroup 22229 4 syms_84; AGroup 22295 5 syms_85; AGroup 22231 6 syms_86]);
   (498174, 12, [AGroup 22171 1 [sym_kFdiv]; AGroup 22173 1 [sym_kHat]; AGroup 22175 1 [sym_kAs];
     AGroup 22275 1 [sym_kIs]; AGroup 22277 1 [sym_kNot]; AGroup 23433 1 [sym_kThen];
     SGroup 4618 1 [sym__exprIsNot]; AGroup 22271 2 syms_83; AGroup 3 3 syms_1;
     AGroup 22167 4 syms_84; AGroup 22273 5 syms_85; AGroup 22169 6 syms_86]);
   (498226, 12, [AGroup 21063 1 [sym_kHat]; AGroup 21069 1 [sym_kFdiv]; AGroup 21071 1 [sym_kAs];
     AGroup 21133 1 [sym_kIs]; AGroup 21135 1 [sym_kNot]; AGroup 23435 1 [sym_kOf];
     SGroup 5025 1 [sym__exprIsNot]; AGroup 21129 2 syms_83; AGroup 3 3 syms_1;
     AGroup 21065 4 syms_84; AGroup 21131 5 syms_85; AGroup 21067 6 syms_86]);
   (498278, 12, [AGroup 22171 1 [sym_kFdiv]; AGroup 22173 1 [sym_kHat]; AGroup 22175 1 [sym_kAs];
     AGroup 22275 1 [sym_kIs]; AGroup 22277 1 [sym_kNot]; AGroup 23437 1 [sym_kThen];
     SGroup 4618 1 [sym__exprIsNot]; AGroup 22271 2 syms_83; AGroup 3 3 syms_1;
     AGroup 22167 4 syms_84; AGroup 22273 5 syms_85; AGroup 22169 6 syms_86]);
   (498330, 12, [AGroup 21791 1 [sym_kHat]; AGroup 21797 1 [sym_kFdiv]; AGroup 21799 1 [sym_kAs];
     AGroup 21893 1 [sym_kIs]; AGroup 21895 1 [sym_kNot]; AGroup 23439 1 [sym_kElse];
     SGroup 4923 1 [sym__exprIsNot]; AGroup 21889 2 syms_83; AGroup 3 3 syms_1;
     AGroup 21793 4 syms_84; AGroup 21891 5 syms_85; AGroup 21795 6 syms_86]);
   (498382, 12, [AGroup 21063 1 [sym_kHat]; AGroup 21069 1 [sym_kFdiv]; AGroup 21071 1 [sym_kAs];
     AGroup 21133 1 [sym_kIs]; AGroup 21135 1 [sym_kNot]; AGroup 23441 1 [sym_kOf];
     SGroup 5025 1 [sym__exprIsNot]; AGroup 21129 2 syms_83; AGroup 3 3 syms_1;
     AGroup 21065 4 syms_84; AGroup 21131 5 syms_85; AGroup 21067 6 syms_86]);
   (498434, 12, [AGroup 21867 1 [sym_kHat]; AGroup 22233 1 [sym_kFdiv]; AGroup 22235 1 [sym_kAs];
     AGroup 22297 1 [sym_kIs]; AGroup 22299 1 [sym_kNot]; AGroup 23443 1 [sym_kDo];
     SGroup 4223 1 [sym__exprIsNot]; AGroup 22293 2 syms_83; AGroup 3 3 syms_1;
     AGroup 22229 4 syms_84; AGroup 22295 5 syms_85; AGroup 22231 6 syms_86]);
   (498486, 12, [AGroup 20826 1 [sym_kHat]; AGroup 21595 1 [sym_kAs]; AGroup 22387 1 [sym_kFdiv];
     AGroup 22389 1 [sym_kIs]; AGroup 22391 1 [sym_kNot]; AGroup 22421 1 [anon_sym_RPAREN];
     SGroup 4442 1 [sym__exprIsNot]; AGroup 22379 2 syms_83; AGroup 3 3 syms_1;
     AGroup 22383 4 syms_84; AGroup 22381 5 syms_85; AGroup 22385 6 syms_86]);
   (498538, 12, [AGroup 21063 1 [sym_kHat]; AGroup 21069 1 [sym_kFdiv]; AGroup 21071 1 [sym_kAs];
     AGroup 21133 1 [sym_kIs]; AGroup 21135 1 [sym_kNot]; AGroup 23445 1 [sym_kOf];
     SGroup 5025 1 [sym__exprIsNot]; AGroup 21129 2 syms_83; AGroup 3 3 syms_1;
     AGroup 21065 4 syms_84; AGroup 21131 5 syms_85; AGroup 21067 6 syms_86]);
   (498590, 12, [AGroup 17936 1 [sym_kDo]; AGroup 21867 1 [sym_kHat]; AGroup 22233 1 [sym_kFdiv];
     AGroup 22235 1 [sym_kAs]; AGroup 22297 1 [sym_kIs]; AGroup 22299 1 [sym_kNot];
     SGroup 4223 1 [sym__exprIsNot]; AGroup 22293 2 syms_83; AGroup 3 3 syms_1;
     AGroup 22229 4 syms_84; AGroup 22295 5 syms_85; AGroup 22231 6 syms_86]);
   (498642, 12, [AGroup 21063 1 [sym_kHat]; AGroup 21069 1 [sym_kFdiv]; AGroup 21071 1 [sym_kAs];
     AGroup 21133 1 [sym_kIs]; AGroup 21135 1 [sym_kNot]; AGroup 23447 1 [sym_kOf];
     SGroup 5025 1 [sym__exprIsNot]; AGroup 21129 2 syms_83; AGroup 3 3 syms_1;
     AGroup 21065 4 syms_84; AGroup 21131 5 syms_85; AGroup 21067 6 syms_86]);
   (498694, 12, [AGroup 21867 1 [sym_kHat]; AGroup 22233 1 [sym_kFdiv]; AGroup 22235 1 [sym_kAs];
     AGroup 22297 1 [sym_kIs]; AGroup 22299 1 [sym_kNot]; AGroup 23449 1 [sym_kDo];
     SGroup 4223 1 [sym__exprIsNot]; AGroup 22293 2 syms_83; AGroup 3 3 syms_1;
     AGroup 22229 4 syms_84; AGroup 22295 5 syms_85; AGroup 22231 6 syms_86]);
   (498746, 12, [AGroup 22171 1 [sym_kFdiv]; AGroup 22173 1 [sym_kHat]; AGroup 22175 1 [sym_kAs];
     AGroup 22275 1 [sym_kIs]; AGroup 22277 1 [sym_kNot]; AGroup 23451 1 [sym_kThen];
     SGroup 4618 1 [sym__exprIsNot]; AGroup 22271 2 syms_83; AGroup 3 3 syms_1;
     AGroup 22167 4 syms_84; AGroup 22273 5 syms_85; AGroup 22169 6 syms_86]);
   (498798, 12, [AGroup 21791 1 [sym_kHat]; AGroup 21797 1 [sym_kFdiv]; AGroup 21799 1 [sym_kAs];
     AGroup 21893 1 [sym_kIs]; AGroup 21895 1 [sym_kNot]; AGroup 23453 1 [sym_kElse];
     SGroup 4923 1 [sym__exprIsNot]; AGroup 21889 2 syms_83; AGroup 3 3 syms_1;
     AGroup 21793 4 syms_84; AGroup 21891 5 syms_85; AGroup 21795 6 syms_86]);
   (498850, 12, [AGroup 21867 1 [sym_kHat]; AGroup 22233 1 [sym_kFdiv]; AGroup 22235 1 [sym_kAs];
     AGroup 22297 1 [sym_kIs]; AGroup 22299 1 [sym_kNot]; AGroup 23455 1 [sym_kDo];
     SGroup 4223 1 [sym__exprIsNot]; AGroup 22293 2 syms_83; AGroup 3 3 syms_1;
     AGroup 22229 4 syms_84; AGroup 22295 5 syms_85; AGroup 22231 6 syms_86]);
   (498902, 12, [AGroup 21867 1 [sym_kHat]; AGroup 22233 1 [sym_kFdiv]; AGroup 22235 1 [sym_kAs];
     AGroup 22297 1 [sym_kIs]; AGroup 22299 1 [sym_kNot]; AGroup 23457 1 [sym_kDo];
     SGroup 4223 1 [sym__exprIsNot]; AGroup 22293 2 syms_83; AGroup 3 3 syms_1;
     AGroup 22229 4 syms_84; AGroup 22295 5 syms_85; AGroup 22231 6 syms_86]);
   (498954, 12, [AGroup 21485 1 [sym_kDo]; AGroup 21867 1 [sym_kHat]; AGroup 22233 1 [sym_kFdiv];
     AGroup 22235 1 [sym_kAs]; AGroup 22297 1 [sym_kIs]; AGroup 22299 1 [sym_kNot];
     SGroup 4223 1 [sym__exprIsNot]; AGroup 22293 2 syms_83; AGroup 3 3 syms_1;
     AGroup 22229 4 syms_84; AGroup 22295 5 syms_85; AGroup 22231 6 syms_86]);
   (499006, 12, [AGroup 21063 1 [sym_kHat]; AGroup 21069 1 [sym_kFdiv]; AGroup 21071 1 [sym_kAs];
     AGroup 21133 1 [sym_kIs]; AGroup 21135 1 [sym_kNot]; AGroup 23459 1 [sym_kOf];
     SGroup 5025 1 [sym__exprIsNot]; AGroup 21129 2 syms_83; AGroup 3 3 syms_1;
     AGroup 21065 4 syms_84; AGroup 21131 5 syms_85; AGroup 21067 6 syms_86]);
   (499058, 12, [AGroup 21867 1 [sym_kHat]; AGroup 22233 1 [sym_kFdiv]; AGroup 22235 1 [sym_kAs];
     AGroup 22297 1 [sym_kIs]; AGroup 22299 1 [sym_kNot]; AGroup 23461 1 [sym_kDo];
     SGroup 4223 1 [sym__exprIsNot]; AGroup 22293 2 syms_83; AGroup 3 3 syms_1;
     AGroup 22229 4 syms_84; AGroup 22295 5 syms_85; AGroup 22231 6 syms_86]);
   (499110, 12, [AGroup 21521 1 [sym_kDo]; AGroup 21867 1 [sym_kHat]; AGroup 22233 1 [sym_kFdiv];
     AGroup 22235 1 [sym_kAs]; AGroup 22297 1 [sym_kIs]; AGroup 22299 1 [sym_kNot];
     SGroup 4223 1 [sym__exprIsNot]; AGroup 22293 2 syms_83; AGroup 3 3 syms_1;
     AGroup 22229 4 syms_84; AGroup 22295 5 syms_85; AGroup 22231 6 syms_86]);
   (499162, 12, [AGroup 21791 1 [sym_kHat]; AGroup 21797 1 [sym_kFdiv]; AGroup 21799 1 [sym_kAs];
     AGroup 21893 1 [sym_kIs]; AGroup 21895 1 [sym_kNot]; AGroup 23463 1 [sym_kElse];
     SGroup 4923 1 [sym__exprIsNot]; AGroup 21889 2 syms_83; AGroup 3 3 syms_1;
     AGroup 21793 4 syms_84; AGroup 21891 5 syms_85; AGroup 21795 6 syms_86]);
   (499214, 12, [AGroup 20826 1 [sym_kHat]; AGroup 21595 1 [sym_kAs]; AGroup 22387 1 [sym_kFdiv];
     AGroup 22389 1 [sym_kIs]; AGroup 22391 1 [sym_kNot]; AGroup 23465 1 [anon_sym_RPAREN];
     SGroup 4442 1 [sym__exprIsNot]; AGroup 22379 2 syms_83; AGroup 3 3 syms_1;
     AGroup 22383 4 syms_84; AGroup 22381 5 syms_85; AGroup 22385 6 syms_86]);
   (499266, 12, [AGroup 21063 1 [sym_kHat]; AGroup 21069 1 [sym_kFdiv]; AGroup 21071 1 [sym_kAs];
     AGroup 21133 1 [sym_kIs]; AGroup 21135 1 [sym_kNot]; AGroup 23467 1 [sym_kOf];
     SGroup 5025 1 [sym__exprIsNot]; AGroup 21129 2 syms_83; AGroup 3 3 syms_1;
     AGroup 21065 4 syms_84; AGroup 21131 5 syms_85; AGroup 21067 6 syms_86]);
   (499318, 12, [AGroup 20826 1 [sym_kHat]; AGroup 21595 1 [sym_kAs]; AGroup 22387 1 [sym_kFdiv];
     AGroup 22389 1 [sym_kIs]; AGroup 22391 1 [sym_kNot]; AGroup 23469 1 [anon_sym_RPAREN];
     SGroup 4442 1 [sym__exprIsNot]; AGroup 22379 2 syms_83; AGroup 3 3 syms_1;
     AGroup 22383 4 syms_84; AGroup 22381 5 syms_85; AGroup 22385 6 syms_86]);
   (499370, 12, [AGroup 20826 1 [sym_kHat]; AGroup 21595 1 [sym_kAs]; AGroup 22387 1 [sym_kFdiv];
     AGroup 22389 1 [sym_kIs]; AGroup 22391 1 [sym_kNot]; AGroup 23471 1 [anon_sym_RBRACK];
     SGroup 4442 1 [sym__exprIsNot]; AGroup 22379 2 syms_83; AGroup 3 3 syms_1;
     AGroup 22383 4 syms_84; AGroup 22381 5 syms_85; AGroup 22385 6 syms_86]);
   (499422, 12, [AGroup 20826 1 [sym_kHat]; AGroup 21595 1 [sym_kAs]; AGroup 22387 1 [sym_kFdiv];
     AGroup 22389 1 [sym_kIs]; AGroup 22391 1 [sym_kNot]; AGroup 23473 1 [anon_sym_RPAREN];
     SGroup 4442 1 [sym__exprIsNot]; AGroup 22379 2 syms_83; AGroup 3 3 syms_1;
     AGroup 22383 4 syms_84; AGroup 22381 5 syms_85; AGroup 22385 6 syms_86]);
   (499474, 12, [AGroup 21867 1 [sym_kHat]; AGroup 22233 1 [sym_kFdiv]; AGroup 22235 1 [sym_kAs];
     AGroup 22297 1 [sym_kIs]; AGroup 22299 1 [sym_kNot]; AGroup 23475 1 [sym_kDo];
     SGroup 4223 1 [sym__exprIsNot]; AGroup 22293 2 syms_83; AGroup 3 3 syms_1;
     AGroup 22229 4 syms_84; AGroup 22295 5 syms_85; AGroup 22231 6 syms_86]);
   (499526, 12, [AGroup 21189 1 [sym_kDo]; AGroup 21867 1 [sym_kHat]; AGroup 22233 1 [sym_kFdiv];
     AGroup 22235 1 [sym_kAs]; AGroup 22297 1 [sym_kIs]; AGroup 22299 1 [sym_kNot];
     SGroup 4223 1 [sym__exprIsNot]; AGroup 22293 2 syms_83; AGroup 3 3 syms_1;
     AGroup 22229 4 syms_84; AGroup 22295 5 syms_85; AGroup 22231 6 syms_86]);
   (499578, 12, [AGroup 21063 1 [sym_kHat]; AGroup 21069 1 [sym_kFdiv]; AGroup 21071 1 [sym_kAs];
     AGroup 21133 1 [sym_kIs]; AGroup 21135 1 [sym_kNot]; AGroup 23477 1 [sym_kOf];
     SGroup 5025 1 [sym__exprIsNot]; AGroup 21129 2 syms_83; AGroup 3 3 syms_1;
     AGroup 21065 4 syms_84; AGroup 21131 5 syms_85; AGroup 21067 6 syms_86]);
   (499630, 12, [AGroup 21791 1 [sym_kHat]; AGroup 21797 1 [sym_kFdiv]; AGroup 21799 1 [sym_kAs];
     AGroup 21893 1 [sym_kIs]; AGroup 21895 1 [sym_kNot]; AGroup 23479 1 [sym_kElse];
     SGroup 4923 1 [sym__exprIsNot]; AGroup 21889 2 syms_83; AGroup 3 3 syms_1;
     AGroup 21793 4 syms_84; AGroup 21891 5 syms_85; AGroup 21795 6 syms_86]);
   (499682, 12, [AGroup 21063 1 [sym_kHat]; AGroup 21069 1 [sym_kFdiv]; AGroup 21071 1 [sym_kAs];
     AGroup 21133 1 [sym_kIs]; AGroup 21135 1 [sym_kNot]; AGroup 23481 1 [sym_kOf];
     SGroup 5025 1 [sym__exprIsNot]; AGroup 21129 2 syms_83; AGroup 3 3 syms_1;
     AGroup 21065 4 syms_84; AGroup 21131 5 syms_85; AGroup 21067 6 syms_86]);
   (499734, 12, [AGroup 21791 1 [sym_kHat]; AGroup 21797 1 [sym_kFdiv]; AGroup 21799 1 [sym_kAs];
     AGroup 21893 1 [sym_kIs]; AGroup 21895 1 [sym_kNot]; AGroup 23483 1 [sym_kElse];
     SGroup 4923 1 [sym__exprIsNot]; AGroup 21889 2 syms_83; AGroup 3 3 syms_1;
     AGroup 21793 4 syms_84; AGroup 21891 5 syms_85; AGroup 21795 6 syms_86]);
   (499786, 12, [AGroup 21063 1 [sym_kHat]; AGroup 21069 1 [sym_kFdiv]; AGroup 21071 1 [sym_kAs];
     AGroup 21133 1 [sym_kIs]; AGroup 21135 1 [sym_kNot]; AGroup 23485 1 [sym_kOf];
     SGroup 5025 1 [sym__exprIsNot]; AGroup 21129 2 syms_83; AGroup 3 3 syms_1;
     AGroup 21065 4 syms_84; AGroup 21131 5 syms_85; AGroup 21067 6 syms_86]);
   (499838, 4, [AGroup 5 1 [sym_ppDirective]; AGroup 3 2 syms_5; AGroup 10955 5 syms_150;
     AGroup 10953 19 syms_689]);
   (499874, 12, [AGroup 20826 1 [sym_kHat]; AGroup 21595 1 [sym_kAs]; AGroup 22387 1 [sym_kFdiv];
     AGroup 22389 1 [sym_kIs]; AGroup 22391 1 [sym_kNot]; AGroup 22597 1 [anon_sym_RPAREN];
     SGroup 4442 1 [sym__exprIsNot]; AGroup 22379 2 syms_83; AGroup 3 3 syms_1;
     AGroup 22383 4 syms_84; AGroup 22381 5 syms_85; AGroup 22385 6 syms_86]);
   (499926, 12, [AGroup 21063 1 [sym_kHat]; AGroup 21069 1 [sym_kFdiv]; AGroup 21071 1 [sym_kAs];
     AGroup 21133 1 [sym_kIs]; AGroup 21135 1 [sym_kNot]; AGroup 23487 1 [sym_kOf];
     SGroup 5025 1 [sym__exprIsNot]; AGroup 21129 2 syms_83; AGroup 3 3 syms_1;
     AGroup 21065 4 syms_84; AGroup 21131 5 syms_85; AGroup 21067 6 syms_86]);
   (499978, 12, [AGroup 22171 1 [sym_kFdiv]; AGroup 22173 1 [sym_kHat]; AGroup 22175 1 [sym_kAs];
     AGroup 22275 1 [sym_kIs]; AGroup 22277 1 [sym_kNot]; AGroup 23489 1 [sym_kThen];
     SGroup 4618 1 [sym__exprIsNot]; AGroup 22271 2 syms_83; AGroup 3 3 syms_1;
     AGroup 22167 4 syms_84; AGroup 22273 5 syms_85; AGroup 22169 6 syms_86]);
   (500030, 12, [AGroup 21791 1 [sym_kHat]; AGroup 21797 1 [sym_kFdiv]; AGroup 21799 1 [sym_kAs];
     AGroup 21893 1 [sym_kIs]; AGroup 21895 1 [sym_kNot]; AGroup 23491 1 [sym_kElse];
     SGroup 4923 1 [sym__exprIsNot]; AGroup 21889 2 syms_83; AGroup 3 3 syms_1;
     AGroup 21793 4 syms_84; AGroup 21891 5 syms_85; AGroup 21795 6 syms_86]);
   (500082, 12, [AGroup 21867 1 [sym_kHat]; AGroup 22233 1 [sym_kFdiv]; AGroup 22235 1 [sym_kAs];
     AGroup 22297 1 [sym_kIs]; AGroup 22299 1 [sym_kNot]; AGroup 23493 1 [sym_kDo];
     SGroup 4223 1 [sym__exprIsNot]; AGroup 22293 2 syms_83; AGroup 3 3 syms_1;
     AGroup 22229 4 syms_84; AGroup 22295 5 syms_85; AGroup 22231 6 syms_86]);
   (500134, 12, [AGroup 21791 1 [sym_kHat]; AGroup 21797 1 [sym_kFdiv]; AGroup 21799 1 [sym_kAs];
     AGroup 21893 1 [sym_kIs]; AGroup 21895 1 [sym_kNot]; AGroup 23495 1 [sym_kElse];
     SGroup 4923 1 [sym__exprIsNot]; AGroup 21889 2 syms_83; AGroup 3 3 syms_1;
     AGroup 21793 4 syms_84; AGroup 21891 5 syms_85; AGroup 21795 6 syms_86]);
   (500186, 12, [AGroup 22171 1 [sym_kFdiv]; AGroup 22173 1 [sym_kHat]; AGroup 22175 1 [sym_kAs];
     AGroup 22275 1 [sym_kIs]; AGroup 22277 1 [sym_kNot]; AGroup 23497 1 [sym_kThen];
     SGroup 4618 1 [sym__exprIsNot]; AGroup 22271 2 syms_83; AGroup 3 3 syms_1;
     AGroup 22167 4 syms_84; AGroup 22273 5 syms_85; AGroup 22169 6 syms_86]);
   (500238, 12, [AGroup 22171 1 [sym_kFdiv]; AGroup 22173 1 [sym_kHat]; AGroup 22175 1 [sym_kAs];
     AGroup 22275 1 [sym_kIs]; AGroup 22277 1 [sym_kNot]; AGroup 23499 1 [sym_kThen];
     SGroup 4618 1 [sym__exprIsNot]; AGroup 22271 2 syms_83; AGroup 3 3 syms_1;
     AGroup 22167 4 syms_84; AGroup 22273 5 syms_85; AGroup 22169 6 syms_86]);
   (500290, 12, [AGroup 20826 1 [sym_kHat]; AGroup 21595 1 [sym_kAs]; AGroup 22387 1 [sym_kFdiv];
     AGroup 22389 1 [sym_kIs]; AGroup 22391 1 [sym_kNot]; AGroup 22393 1 [anon_sym_RPAREN];
     SGroup 4442 1 [sym__exprIsNot]; AGroup 22379 2 syms_83; AGroup 3 3 syms_1;
     AGroup 22383 4 syms_84; AGroup 22381 5 syms_85; AGroup 22385 6 syms_86]);
   (500342, 3, [AGroup 5 1 [sym_ppDirective]; AGroup 3 2 syms_5; AGroup 9810 24 syms_687]);
   (500376, 12, [AGroup 21867 1 [sym_kHat]; AGroup 22233 1 [sym_kFdiv]; AGroup 22235 1 [sym_kAs];
     AGroup 22297 1 [sym_kIs]; AGroup 22299 1 [sym_kNot]; AGroup 23501 1 [sym_kDo];
     SGroup 4223 1 [sym__exprIsNot]; AGroup 22293 2 syms_83; AGroup 3 3 syms_1;
     AGroup 22229 4 syms_84; AGroup 22295 5 syms_85; AGroup 22231 6 syms_86]);
   (500428, 4, [AGroup 5 1 [sym_ppDirective]; AGroup 3 2 syms_5; AGroup 23505 5 syms_150;
     AGroup 23503 19 syms_151]);
   (500464, 12, [AGroup 20826 1 [sym_kHat]; AGroup 21595 1 [sym_kAs]; AGroup 22387 1 [sym_kFdiv];
     AGroup 22389 1 [sym_kIs]; AGroup 22391 1 [sym_kNot]; AGroup 22766 1 [anon_sym_RPAREN];
     SGroup 4442 1 [sym__exprIsNot]; AGroup 22379 2 syms_83; AGroup 3 3 syms_1;
     AGroup 22383 4 syms_84; AGroup 22381 5 syms_85; AGroup 22385 6 syms_86])
  ].

(** States 10059 to 10158. *)
Definition small_runs_10059 : list small_run :=
  [
   (500516, 12, [AGroup 21867 1 [sym_kHat]; AGroup 22233 1 [sym_kFdiv]; AGroup 22235 1 [sym_kAs];
     AGroup 22297 1 [sym_kIs]; AGroup 22299 1 [sym_kNot]; AGroup 23507 1 [sym_kDo];
     SGroup 4223 1 [sym__exprIsNot]; AGroup 22293 2 syms_83; AGroup 3 3 syms_1;
     AGroup 22229 4 syms_84; AGroup 22295 5 syms_85; AGroup 22231 6 syms_86]);
   (500568, 12, [AGroup 21191 1 [sym_kDo]; AGroup 21867 1 [sym_kHat]; AGroup 22233 1 [sym_kFdiv];
     AGroup 22235 1 [sym_kAs]; AGroup 22297 1 [sym_kIs]; AGroup 22299 1 [sym_kNot];
     SGroup 4223 1 [sym__exprIsNot]; AGroup 22293 2 syms_83; AGroup 3 3 syms_1;
     AGroup 22229 4 syms_84; AGroup 22295 5 syms_85; AGroup 22231 6 syms_86]);
   (500620, 12, [AGroup 21791 1 [sym_kHat]; AGroup 21797 1 [sym_kFdiv]; AGroup 21799 1 [sym_kAs];
     AGroup 21893 1 [sym_kIs]; AGroup 21895 1 [sym_kNot]; AGroup 23509 1 [sym_kElse];
     SGroup 4923 1 [sym__exprIsNot]; AGroup 21889 2 syms_83; AGroup 3 3 syms_1;
     AGroup 21793 4 syms_84; AGroup 21891 5 syms_85; AGroup 21795 6 syms_86]);
   (500672, 12, [AGroup 20826 1 [sym_kHat]; AGroup 21595 1 [sym_kAs]; AGroup 22387 1 [sym_kFdiv];
     AGroup 22389 1 [sym_kIs]; AGroup 22391 1 [sym_kNot]; AGroup 23511 1 [anon_sym_RPAREN];
     SGroup 4442 1 [sym__exprIsNot]; AGroup 22379 2 syms_83; AGroup 3 3 syms_1;
     AGroup 22383 4 syms_84; AGroup 22381 5 syms_85; AGroup 22385 6 syms_86]);
   (500724, 12, [AGroup 21791 1 [sym_kHat]; AGroup 21797 1 [sym_kFdiv]; AGroup 21799 1 [sym_kAs];
     AGroup 21893 1 [sym_kIs]; AGroup 21895 1 [sym_kNot]; AGroup 23513 1 [sym_kElse];
     SGroup 4923 1 [sym__exprIsNot]; AGroup 21889 2 syms_83; AGroup 3 3 syms_1;
     AGroup 21793 4 syms_84; AGroup 21891 5 syms_85; AGroup 21795 6 syms_86]);
   (500776, 12, [AGroup 21063 1 [sym_kHat]; AGroup 21069 1 [sym_kFdiv]; AGroup 21071 1 [sym_kAs];
     AGroup 21133 1 [sym_kIs]; AGroup 21135 1 [sym_kNot]; AGroup 23515 1 [sym_kOf];
     SGroup 5025 1 [sym__exprIsNot]; AGroup 21129 2 syms_83; AGroup 3 3 syms_1;
     AGroup 21065 4 syms_84; AGroup 21131 5 syms_85; AGroup 21067 6 syms_86]);
   (500828, 12, [AGroup 22171 1 [sym_kFdiv]; AGroup 22173 1 [sym_kHat]; AGroup 22175 1 [sym_kAs];
     AGroup 22275 1 [sym_kIs]; AGroup 22277 1 [sym_kNot]; AGroup 23517 1 [sym_kThen];
     SGroup 4618 1 [sym__exprIsNot]; AGroup 22271 2 syms_83; AGroup 3 3 syms_1;
     AGroup 22167 4 syms_84; AGroup 22273 5 syms_85; AGroup 22169 6 syms_86]);
   (500880, 12, [AGroup 20826 1 [sym_kHat]; AGroup 21595 1 [sym_kAs]; AGroup 22387 1 [sym_kFdiv];
     AGroup 22389 1 [sym_kIs]; AGroup 22391 1 [sym_kNot]; AGroup 22640 1 [anon_sym_RPAREN];
     SGroup 4442 1 [sym__exprIsNot]; AGroup 22379 2 syms_83; AGroup 3 3 syms_1;
     AGroup 22383 4 syms_84; AGroup 22381 5 syms_85; AGroup 22385 6 syms_86]);
   (500932, 4, [AGroup 5 1 [sym_ppDirective]; AGroup 3 2 syms_5; AGroup 23521 5 syms_150;
     AGroup 23519 19 syms_151]);
   (500968, 12, [AGroup 21867 1 [sym_kHat]; AGroup 22233 1 [sym_kFdiv]; AGroup 22235 1 [sym_kAs];
     AGroup 22297 1 [sym_kIs]; AGroup 22299 1 [sym_kNot]; AGroup 23523 1 [sym_kDo];
     SGroup 4223 1 [sym__exprIsNot]; AGroup 22293 2 syms_83; AGroup 3 3 syms_1;
     AGroup 22229 4 syms_84; AGroup 22295 5 syms_85; AGroup 22231 6 syms_86]);
   (501020, 4, [AGroup 5 1 [sym_ppDirective]; AGroup 3 2 syms_5; AGroup 23527 5 syms_150;
     AGroup 23525 19 syms_151]);
   (501056, 4, [AGroup 5 1 [sym_ppDirective]; AGroup 3 2 syms_5; AGroup 23531 5 syms_150;
     AGroup 23529 19 syms_151]);
   (501092, 12, [AGroup 22171 1 [sym_kFdiv]; AGroup 22173 1 [sym_kHat]; AGroup 22175 1 [sym_kAs];
     AGroup 22275 1 [sym_kIs]; AGroup 22277 1 [sym_kNot]; AGroup 23533 1 [sym_kThen];
     SGroup 4618 1 [sym__exprIsNot]; AGroup 22271 2 syms_83; AGroup 3 3 syms_1;
     AGroup 22167 4 syms_84; AGroup 22273 5 syms_85; AGroup 22169 6 syms_86]);
   (501144, 12, [AGroup 20826 1 [sym_kHat]; AGroup 21595 1 [sym_kAs]; AGroup 22387 1 [sym_kFdiv];
     AGroup 22389 1 [sym_kIs]; AGroup 22391 1 [sym_kNot]; AGroup 22407 1 [anon_sym_RPAREN];
     SGroup 4442 1 [sym__exprIsNot]; AGroup 22379 2 syms_83; AGroup 3 3 syms_1;
     AGroup 22383 4 syms_84; AGroup 22381 5 syms_85; AGroup 22385 6 syms_86]);
   (501196, 12, [AGroup 21791 1 [sym_kHat]; AGroup 21797 1 [sym_kFdiv]; AGroup 21799 1 [sym_kAs];
     AGroup 21893 1 [sym_kIs]; AGroup 21895 1 [sym_kNot]; AGroup 23535 1 [sym_kElse];
     SGroup 4923 1 [sym__exprIsNot]; AGroup 21889 2 syms_83; AGroup 3 3 syms_1;
     AGroup 21793 4 syms_84; AGroup 21891 5 syms_85; AGroup 21795 6 syms_86]);
   (501248, 12, [AGroup 20826 1 [sym_kHat]; AGroup 21595 1 [sym_kAs]; AGroup 22387 1 [sym_kFdiv];
     AGroup 22389 1 [sym_kIs]; AGroup 22391 1 [sym_kNot]; AGroup 23537 1 [anon_sym_RBRACK];
     SGroup 4442 1 [sym__exprIsNot]; AGroup 22379 2 syms_83; AGroup 3 3 syms_1;
     AGroup 22383 4 syms_84; AGroup 22381 5 syms_85; AGroup 22385 6 syms_86]);
   (501300, 12, [AGroup 21867 1 [sym_kHat]; AGroup 22233 1 [sym_kFdiv]; AGroup 22235 1 [sym_kAs];
     AGroup 22297 1 [sym_kIs]; AGroup 22299 1 [sym_kNot]; AGroup 23539 1 [sym_kDo];
     SGroup 4223 1 [sym__exprIsNot]; AGroup 22293 2 syms_83; AGroup 3 3 syms_1;
     AGroup 22229 4 syms_84; AGroup 22295 5 syms_85; AGroup 22231 6 syms_86]);
   (501352, 12, [AGroup 20826 1 [sym_kHat]; AGroup 21595 1 [sym_kAs]; AGroup 22387 1 [sym_kFdiv];
     AGroup 22389 1 [sym_kIs]; AGroup 22391 1 [sym_kNot]; AGroup 22812 1 [anon_sym_SEMI];
     SGroup 4442 1 [sym__exprIsNot]; AGroup 22379 2 syms_83; AGroup 3 3 syms_1;
     AGroup 22383 4 syms_84; AGroup 22381 5 syms_85; AGroup 22385 6 syms_86]);
   (501404, 12, [AGroup 22171 1 [sym_kFdiv]; AGroup 22173 1 [sym_kHat]; AGroup 22175 1 [sym_kAs];
     AGroup 22275 1 [sym_kIs]; AGroup 22277 1 [sym_kNot]; AGroup 23541 1 [sym_kThen];
     SGroup 4618 1 [sym__exprIsNot]; AGroup 22271 2 syms_83; AGroup 3 3 syms_1;
     AGroup 22167 4 syms_84; AGroup 22273 5 syms_85; AGroup 22169 6 syms_86]);
   (501456, 12, [AGroup 21063 1 [sym_kHat]; AGroup 21069 1 [sym_kFdiv]; AGroup 21071 1 [sym_kAs];
     AGroup 21133 1 [sym_kIs]; AGroup 21135 1 [sym_kNot]; AGroup 23543 1 [sym_kOf];
     SGroup 5025 1 [sym__exprIsNot]; AGroup 21129 2 syms_83; AGroup 3 3 syms_1;
     AGroup 21065 4 syms_84; AGroup 21131 5 syms_85; AGroup 21067 6 syms_86]);
   (501508, 12, [AGroup 21867 1 [sym_kHat]; AGroup 22233 1 [sym_kFdiv]; AGroup 22235 1 [sym_kAs];
     AGroup 22297 1 [sym_kIs]; AGroup 22299 1 [sym_kNot]; AGroup 23545 1 [sym_kDo];
     SGroup 4223 1 [sym__exprIsNot]; AGroup 22293 2 syms_83; AGroup 3 3 syms_1;
     AGroup 22229 4 syms_84; AGroup 22295 5 syms_85; AGroup 22231 6 syms_86]);
   (501560, 12, [AGroup 21503 1 [sym_kDo]; AGroup 21867 1 [sym_kHat]; AGroup 22233 1 [sym_kFdiv];
     AGroup 22235 1 [sym_kAs]; AGroup 22297 1 [sym_kIs]; AGroup 22299 1 [sym_kNot];
     SGroup 4223 1 [sym__exprIsNot]; AGroup 22293 2 syms_83; AGroup 3 3 syms_1;
     AGroup 22229 4 syms_84; AGroup 22295 5 syms_85; AGroup 22231 6 syms_86]);
   (501612, 12, [AGroup 20826 1 [sym_kHat]; AGroup 21595 1 [sym_kAs]; AGroup 22387 1 [sym_kFdiv];
     AGroup 22389 1 [sym_kIs]; AGroup 22391 1 [sym_kNot]; AGroup 23547 1 [anon_sym_RPAREN];
     SGroup 4442 1 [sym__exprIsNot]; AGroup 22379 2 syms_83; AGroup 3 3 syms_1;
     AGroup 22383 4 syms_84; AGroup 22381 5 syms_85; AGroup 22385 6 syms_86]);
   (501664, 12, [AGroup 21791 1 [sym_kHat]; AGroup 21797 1 [sym_kFdiv]; AGroup 21799 1 [sym_kAs];
     AGroup 21893 1 [sym_kIs]; AGroup 21895 1 [sym_kNot]; AGroup 23549 1 [sym_kElse];
     SGroup 4923 1 [sym__exprIsNot]; AGroup 21889 2 syms_83; AGroup 3 3 syms_1;
     AGroup 21793 4 syms_84; AGroup 21891 5 syms_85; AGroup 21795 6 syms_86]);
   (501716, 12, [AGroup 21791 1 [sym_kHat]; AGroup 21797 1 [sym_kFdiv]; AGroup 21799 1 [sym_kAs];
     AGroup 21893 1 [sym_kIs]; AGroup 21895 1 [sym_kNot]; AGroup 23551 1 [sym_kElse];
     SGroup 4923 1 [sym__exprIsNot]; AGroup 21889 2 syms_83; AGroup 3 3 syms_1;
     AGroup 21793 4 syms_84; AGroup 21891 5 syms_85; AGroup 21795 6 syms_86]);
   (501768, 12, [AGroup 21791 1 [sym_kHat]; AGroup 21797 1 [sym_kFdiv]; AGroup 21799 1 [sym_kAs];
     AGroup 21893 1 [sym_kIs]; AGroup 21895 1 [sym_kNot]; AGroup 23553 1 [sym_kElse];
     SGroup 4923 1 [sym__exprIsNot]; AGroup 21889 2 syms_83; AGroup 3 3 syms_1;
     AGroup 21793 4 syms_84; AGroup 21891 5 syms_85; AGroup 21795 6 syms_86]);
   (501820, 12, [AGroup 21867 1 [sym_kHat]; AGroup 22233 1 [sym_kFdiv]; AGroup 22235 1 [sym_kAs];
     AGroup 22297 1 [sym_kIs]; AGroup 22299 1 [sym_kNot]; AGroup 23555 1 [sym_kDo];
     SGroup 4223 1 [sym__exprIsNot]; AGroup 22293 2 syms_83; AGroup 3 3 syms_1;
     AGroup 22229 4 syms_84; AGroup 22295 5 syms_85; AGroup 22231 6 syms_86]);
   (501872, 12, [AGroup 20826 1 [sym_kHat]; AGroup 21595 1 [sym_kAs]; AGroup 22387 1 [sym_kFdiv];
     AGroup 22389 1 [sym_kIs]; AGroup 22391 1 [sym_kNot]; AGroup 23557 1 [anon_sym_RPAREN];
     SGroup 4442 1 [sym__exprIsNot]; AGroup 22379 2 syms_83; AGroup 3 3 syms_1;
     AGroup 22383 4 syms_84; AGroup 22381 5 syms_85; AGroup 22385 6 syms_86]);
   (501924, 12, [AGroup 21203 1 [sym_kDo]; AGroup 21867 1 [sym_kHat]; AGroup 22233 1 [sym_kFdiv];
     AGroup 22235 1 [sym_kAs]; AGroup 22297 1 [sym_kIs]; AGroup 22299 1 [sym_kNot];
     SGroup 4223 1 [sym__exprIsNot]; AGroup 22293 2 syms_83; AGroup 3 3 syms_1;
     AGroup 22229 4 syms_84; AGroup 22295 5 syms_85; AGroup 22231 6 syms_86]);
   (501976, 12, [AGroup 20826 1 [sym_kHat]; AGroup 21595 1 [sym_kAs]; AGroup 22387 1 [sym_kFdiv];
     AGroup 22389 1 [sym_kIs]; AGroup 22391 1 [sym_kNot]; AGroup 23095 1 [anon_sym_SEMI];
     SGroup 4442 1 [sym__exprIsNot]; AGroup 22379 2 syms_83; AGroup 3 3 syms_1;
     AGroup 22383 4 syms_84; AGroup 22381 5 syms_85; AGroup 22385 6 syms_86]);
   (502028, 12, [AGroup 21791 1 [sym_kHat]; AGroup 21797 1 [sym_kFdiv]; AGroup 21799 1 [sym_kAs];
     AGroup 21893 1 [sym_kIs]; AGroup 21895 1 [sym_kNot]; AGroup 23559 1 [sym_kElse];
     SGroup 4923 1 [sym__exprIsNot]; AGroup 21889 2 syms_83; AGroup 3 3 syms_1;
     AGroup 21793 4 syms_84; AGroup 21891 5 syms_85; AGroup 21795 6 syms_86]);
   (502080, 12, [AGroup 21791 1 [sym_kHat]; AGroup 21797 1 [sym_kFdiv]; AGroup 21799 1 [sym_kAs];
     AGroup 21893 1 [sym_kIs]; AGroup 21895 1 [sym_kNot]; AGroup 23561 1 [sym_kElse];
     SGroup 4923 1 [sym__exprIsNot]; AGroup 21889 2 syms_83; AGroup 3 3 syms_1;
     AGroup 21793 4 syms_84; AGroup 21891 5 syms_85; AGroup 21795 6 syms_86]);
   (502132, 12, [AGroup 20826 1 [sym_kHat]; AGroup 21595 1 [sym_kAs]; AGroup 22387 1 [sym_kFdiv];
     AGroup 22389 1 [sym_kIs]; AGroup 22391 1 [sym_kNot]; AGroup 23563 1 [anon_sym_RPAREN];
     SGroup 4442 1 [sym__exprIsNot]; AGroup 22379 2 syms_83; AGroup 3 3 syms_1;
     AGroup 22383 4 syms_84; AGroup 22381 5 syms_85; AGroup 22385 6 syms_86]);
   (502184, 12, [AGroup 20403 1 [anon_sym_COMMA]; AGroup 20826 1 [sym_kHat]; AGroup 20834 1 [sym_kAs];
     AGroup 21460 1 [sym_kFdiv]; AGroup 21462 1 [sym_kIs]; AGroup 21464 1 [sym_kNot];
     SGroup 4778 1 [sym__exprIsNot]; AGroup 21452 2 syms_83; AGroup 3 3 syms_1;
     AGroup 21456 4 syms_84; AGroup 21454 5 syms_85; AGroup 21458 6 syms_86]);
   (502236, 12, [AGroup 20826 1 [sym_kHat]; AGroup 21595 1 [sym_kAs]; AGroup 22387 1 [sym_kFdiv];
     AGroup 22389 1 [sym_kIs]; AGroup 22391 1 [sym_kNot]; AGroup 23565 1 [anon_sym_RPAREN];
     SGroup 4442 1 [sym__exprIsNot]; AGroup 22379 2 syms_83; AGroup 3 3 syms_1;
     AGroup 22383 4 syms_84; AGroup 22381 5 syms_85; AGroup 22385 6 syms_86]);
   (502288, 4, [AGroup 5 1 [sym_ppDirective]; AGroup 3 2 syms_5; AGroup 23569 5 syms_150;
     AGroup 23567 19 syms_151]);
   (502324, 4, [AGroup 5 1 [sym_ppDirective]; AGroup 3 2 syms_5; AGroup 23573 5 syms_150;
     AGroup 23571 19 syms_151]);
   (502360, 12, [AGroup 21791 1 [sym_kHat]; AGroup 21797 1 [sym_kFdiv]; AGroup 21799 1 [sym_kAs];
     AGroup 21893 1 [sym_kIs]; AGroup 21895 1 [sym_kNot]; AGroup 23575 1 [sym_kElse];
     SGroup 4923 1 [sym__exprIsNot]; AGroup 21889 2 syms_83; AGroup 3 3 syms_1;
     AGroup 21793 4 syms_84; AGroup 21891 5 syms_85; AGroup 21795 6 syms_86]);
   (502412, 12, [AGroup 21791 1 [sym_kHat]; AGroup 21797 1 [sym_kFdiv]; AGroup 21799 1 [sym_kAs];
     AGroup 21893 1 [sym_kIs]; AGroup 21895 1 [sym_kNot]; AGroup 23577 1 [sym_kElse];
     SGroup 4923 1 [sym__exprIsNot]; AGroup 21889 2 syms_83; AGroup 3 3 syms_1;
     AGroup 21793 4 syms_84; AGroup 21891 5 syms_85; AGroup 21795 6 syms_86]);
   (502464, 12, [AGroup 20826 1 [sym_kHat]; AGroup 21595 1 [sym_kAs]; AGroup 22387 1 [sym_kFdiv];
     AGroup 22389 1 [sym_kIs]; AGroup 22391 1 [sym_kNot]; AGroup 23579 1 [anon_sym_RPAREN];
     SGroup 4442 1 [sym__exprIsNot]; AGroup 22379 2 syms_83; AGroup 3 3 syms_1;
     AGroup 22383 4 syms_84; AGroup 22381 5 syms_85; AGroup 22385 6 syms_86]);
   (502516, 12, [AGroup 22171 1 [sym_kFdiv]; AGroup 22173 1 [sym_kHat]; AGroup 22175 1 [sym_kAs];
     AGroup 22275 1 [sym_kIs]; AGroup 22277 1 [sym_kNot]; AGroup 23581 1 [sym_kThen];
     SGroup 4618 1 [sym__exprIsNot]; AGroup 22271 2 syms_83; AGroup 3 3 syms_1;
     AGroup 22167 4 syms_84; AGroup 22273 5 syms_85; AGroup 22169 6 syms_86]);
   (502568, 12, [AGroup 21063 1 [sym_kHat]; AGroup 21069 1 [sym_kFdiv]; AGroup 21071 1 [sym_kAs];
     AGroup 21133 1 [sym_kIs]; AGroup 21135 1 [sym_kNot]; AGroup 23583 1 [sym_kOf];
     SGroup 5025 1 [sym__exprIsNot]; AGroup 21129 2 syms_83; AGroup 3 3 syms_1;
     AGroup 21065 4 syms_84; AGroup 21131 5 syms_85; AGroup 21067 6 syms_86]);
   (502620, 12, [AGroup 22171 1 [sym_kFdiv]; AGroup 22173 1 [sym_kHat]; AGroup 22175 1 [sym_kAs];
     AGroup 22275 1 [sym_kIs]; AGroup 22277 1 [sym_kNot]; AGroup 23585 1 [sym_kThen];
     SGroup 4618 1 [sym__exprIsNot]; AGroup 22271 2 syms_83; AGroup 3 3 syms_1;
     AGroup 22167 4 syms_84; AGroup 22273 5 syms_85; AGroup 22169 6 syms_86]);
   (502672, 12, [AGroup 21791 1 [sym_kHat]; AGroup 21797 1 [sym_kFdiv]; AGroup 21799 1 [sym_kAs];
     AGroup 21893 1 [sym_kIs]; AGroup 21895 1 [sym_kNot]; AGroup 23587 1 [sym_kElse];
     SGroup 4923 1 [sym__exprIsNot]; AGroup 21889 2 syms_83; AGroup 3 3 syms_1;
     AGroup 21793 4 syms_84; AGroup 21891 5 syms_85; AGroup 21795 6 syms_86]);
   (502724, 12, [AGroup 21867 1 [sym_kHat]; AGroup 22233 1 [sym_kFdiv]; AGroup 22235 1 [sym_kAs];
     AGroup 22297 1 [sym_kIs]; AGroup 22299 1 [sym_kNot]; AGroup 23589 1 [sym_kDo];
     SGroup 4223 1 [sym__exprIsNot]; AGroup 22293 2 syms_83; AGroup 3 3 syms_1;
     AGroup 22229 4 syms_84; AGroup 22295 5 syms_85; AGroup 22231 6 syms_86]);
   (502776, 12, [AGroup 22171 1 [sym_kFdiv]; AGroup 22173 1 [sym_kHat]; AGroup 22175 1 [sym_kAs];
     AGroup 22275 1 [sym_kIs]; AGroup 22277 1 [sym_kNot]; AGroup 23591 1 [sym_kThen];
     SGroup 4618 1 [sym__exprIsNot]; AGroup 22271 2 syms_83; AGroup 3 3 syms_1;
     AGroup 22167 4 syms_84; AGroup 22273 5 syms_85; AGroup 22169 6 syms_86]);
   (502828, 3, [AGroup 5 1 [sym_ppDirective]; AGroup 3 2 syms_5; AGroup 11005 24 syms_687]);
   (502862, 12, [AGroup 20826 1 [sym_kHat]; AGroup 21595 1 [sym_kAs]; AGroup 22387 1 [sym_kFdiv];
     AGroup 22389 1 [sym_kIs]; AGroup 22391 1 [sym_kNot]; AGroup 23593 1 [anon_sym_RPAREN];
     SGroup 4442 1 [sym__exprIsNot]; AGroup 22379 2 syms_83; AGroup 3 3 syms_1;
     AGroup 22383 4 syms_84; AGroup 22381 5 syms_85; AGroup 22385 6 syms_86]);
   (502914, 13, [AGroup 20826 1 [sym_kHat]; AGroup 21029 1 [anon_sym_SEMI]; AGroup 21595 1 [sym_kAs];
     AGroup 22379 1 [sym_kLt]; AGroup 22387 1 [sym_kFdiv]; AGroup 22389 1 [sym_kIs];
     AGroup 22391 1 [sym_kNot]; AGroup 23595 1 [sym_kGt]; SGroup 4442 1 [sym__exprIsNot];
     AGroup 3 3 syms_1; AGroup 22383 4 syms_84; AGroup 22381 5 syms_85; AGroup 22385 6 syms_86]);
   (502968, 12, [AGroup 20826 1 [sym_kHat]; AGroup 21595 1 [sym_kAs]; AGroup 22387 1 [sym_kFdiv];
     AGroup 22389 1 [sym_kIs]; AGroup 22391 1 [sym_kNot]; AGroup 23597 1 [anon_sym_RPAREN];
     SGroup 4442 1 [sym__exprIsNot]; AGroup 22379 2 syms_83; AGroup 3 3 syms_1;
     AGroup 22383 4 syms_84; AGroup 22381 5 syms_85; AGroup 22385 6 syms_86]);
   (503020, 12, [AGroup 21867 1 [sym_kHat]; AGroup 22233 1 [sym_kFdiv]; AGroup 22235 1 [sym_kAs];
     AGroup 22297 1 [sym_kIs]; AGroup 22299 1 [sym_kNot]; AGroup 23599 1 [sym_kDo];
     SGroup 4223 1 [sym__exprIsNot]; AGroup 22293 2 syms_83; AGroup 3 3 syms_1;
     AGroup 22229 4 syms_84; AGroup 22295 5 syms_85; AGroup 22231 6 syms_86]);
   (503072, 12, [AGroup 22171 1 [sym_kFdiv]; AGroup 22173 1 [sym_kHat]; AGroup 22175 1 [sym_kAs];
     AGroup 22275 1 [sym_kIs]; AGroup 22277 1 [sym_kNot]; AGroup 23601 1 [sym_kThen];
     SGroup 4618 1 [sym__exprIsNot]; AGroup 22271 2 syms_83; AGroup 3 3 syms_1;
     AGroup 22167 4 syms_84; AGroup 22273 5 syms_85; AGroup 22169 6 syms_86]);
   (503124, 12, [AGroup 21063 1 [sym_kHat]; AGroup 21069 1 [sym_kFdiv]; AGroup 21071 1 [sym_kAs];
     AGroup 21133 1 [sym_kIs]; AGroup 21135 1 [sym_kNot]; AGroup 23603 1 [sym_kOf];
     SGroup 5025 1 [sym__exprIsNot]; AGroup 21129 2 syms_83; AGroup 3 3 syms_1;
     AGroup 21065 4 syms_84; AGroup 21131 5 syms_85; AGroup 21067 6 syms_86]);
   (503176, 12, [AGroup 21791 1 [sym_kHat]; AGroup 21797 1 [sym_kFdiv]; AGroup 21799 1 [sym_kAs];
     AGroup 21893 1 [sym_kIs]; AGroup 21895 1 [sym_kNot]; AGroup 23605 1 [sym_kElse];
     SGroup 4923 1 [sym__exprIsNot]; AGroup 21889 2 syms_83; AGroup 3 3 syms_1;
     AGroup 21793 4 syms_84; AGroup 21891 5 syms_85; AGroup 21795 6 syms_86]);
   (503228, 12, [AGroup 21867 1 [sym_kHat]; AGroup 22233 1 [sym_kFdiv]; AGroup 22235 1 [sym_kAs];
     AGroup 22297 1 [sym_kIs]; AGroup 22299 1 [sym_kNot]; AGroup 23607 1 [sym_kDo];
     SGroup 4223 1 [sym__exprIsNot]; AGroup 22293 2 syms_83; AGroup 3 3 syms_1;
     AGroup 22229 4 syms_84; AGroup 22295 5 syms_85; AGroup 22231 6 syms_86]);
   (503280, 12, [AGroup 20826 1 [sym_kHat]; AGroup 21595 1 [sym_kAs]; AGroup 22387 1 [sym_kFdiv];
     AGroup 22389 1 [sym_kIs]; AGroup 22391 1 [sym_kNot]; AGroup 23609 1 [anon_sym_RPAREN];
     SGroup 4442 1 [sym__exprIsNot]; AGroup 22379 2 syms_83; AGroup 3 3 syms_1;
     AGroup 22383 4 syms_84; AGroup 22381 5 syms_85; AGroup 22385 6 syms_86]);
   (503332, 12, [AGroup 21867 1 [sym_kHat]; AGroup 22233 1 [sym_kFdiv]; AGroup 22235 1 [sym_kAs];
     AGroup 22297 1 [sym_kIs]; AGroup 22299 1 [sym_kNot]; AGroup 23611 1 [sym_kDo];
     SGroup 4223 1 [sym__exprIsNot]; AGroup 22293 2 syms_83; AGroup 3 3 syms_1;
     AGroup 22229 4 syms_84; AGroup 22295 5 syms_85; AGroup 22231 6 syms_86]);
   (503384, 12, [AGroup 21207 1 [sym_kDo]; AGroup 21867 1 [sym_kHat]; AGroup 22233 1 [sym_kFdiv];
     AGroup 22235 1 [sym_kAs]; AGroup 22297 1 [sym_kIs]; AGroup 22299 1 [sym_kNot];
     SGroup 4223 1 [sym__exprIsNot]; AGroup 22293 2 syms_83; AGroup 3 3 syms_1;
     AGroup 22229 4 syms_84; AGroup 22295 5 syms_85; AGroup 22231 6 syms_86]);
   (503436, 12, [AGroup 20826 1 [sym_kHat]; AGroup 21595 1 [sym_kAs]; AGroup 22387 1 [sym_kFdiv];
     AGroup 22389 1 [sym_kIs]; AGroup 22391 1 [sym_kNot]; AGroup 22670 1 [anon_sym_RPAREN];
     SGroup 4442 1 [sym__exprIsNot]; AGroup 22379 2 syms_83; AGroup 3 3 syms_1;
     AGroup 22383 4 syms_84; AGroup 22381 5 syms_85; AGroup 22385 6 syms_86]);
   (503488, 12, [AGroup 21867 1 [sym_kHat]; AGroup 22233 1 [sym_kFdiv]; AGroup 22235 1 [sym_kAs];
     AGroup 22297 1 [sym_kIs]; AGroup 22299 1 [sym_kNot]; AGroup 23613 1 [sym_kDo];
     SGroup 4223 1 [sym__exprIsNot]; AGroup 22293 2 syms_83; AGroup 3 3 syms_1;
     AGroup 22229 4 syms_84; AGroup 22295 5 syms_85; AGroup 22231 6 syms_86]);
   (503540, 12, [AGroup 21791 1 [sym_kHat]; AGroup 21797 1 [sym_kFdiv]; AGroup 21799 1 [sym_kAs];
     AGroup 21893 1 [sym_kIs]; AGroup 21895 1 [sym_kNot]; AGroup 23615 1 [sym_kElse];
     SGroup 4923 1 [sym__exprIsNot]; AGroup 21889 2 syms_83; AGroup 3 3 syms_1;
     AGroup 21793 4 syms_84; AGroup 21891 5 syms_85; AGroup 21795 6 syms_86]);
   (503592, 12, [AGroup 21791 1 [sym_kHat]; AGroup 21797 1 [sym_kFdiv]; AGroup 21799 1 [sym_kAs];
     AGroup 21893 1 [sym_kIs]; AGroup 21895 1 [sym_kNot]; AGroup 23617 1 [sym_kElse];
     SGroup 4923 1 [sym__exprIsNot]; AGroup 21889 2 syms_83; AGroup 3 3 syms_1;
     AGroup 21793 4 syms_84; AGroup 21891 5 syms_85; AGroup 21795 6 syms_86]);
   (503644, 3, [AGroup 5 1 [sym_ppDirective]; AGroup 3 2 syms_5; AGroup 11049 24 syms_687]);
   (503678, 12, [AGroup 22171 1 [sym_kFdiv]; AGroup 22173 1 [sym_kHat]; AGroup 22175 1 [sym_kAs];
     AGroup 22275 1 [sym_kIs]; AGroup 22277 1 [sym_kNot]; AGroup 23619 1 [sym_kThen];
     SGroup 4618 1 [sym__exprIsNot]; AGroup 22271 2 syms_83; AGroup 3 3 syms_1;
     AGroup 22167 4 syms_84; AGroup 22273 5 syms_85; AGroup 22169 6 syms_86]);
   (503730, 12, [AGroup 21063 1 [sym_kHat]; AGroup 21069 1 [sym_kFdiv]; AGroup 21071 1 [sym_kAs];
     AGroup 21133 1 [sym_kIs]; AGroup 21135 1 [sym_kNot]; AGroup 23621 1 [sym_kOf];
     SGroup 5025 1 [sym__exprIsNot]; AGroup 21129 2 syms_83; AGroup 3 3 syms_1;
     AGroup 21065 4 syms_84; AGroup 21131 5 syms_85; AGroup 21067 6 syms_86]);
   (503782, 12, [AGroup 21353 1 [sym_kDo]; AGroup 21867 1 [sym_kHat]; AGroup 22233 1 [sym_kFdiv];
     AGroup 22235 1 [sym_kAs]; AGroup 22297 1 [sym_kIs]; AGroup 22299 1 [sym_kNot];
     SGroup 4223 1 [sym__exprIsNot]; AGroup 22293 2 syms_83; AGroup 3 3 syms_1;
     AGroup 22229 4 syms_84; AGroup 22295 5 syms_85; AGroup 22231 6 syms_86]);
   (503834, 12, [AGroup 21063 1 [sym_kHat]; AGroup 21069 1 [sym_kFdiv]; AGroup 21071 1 [sym_kAs];
     AGroup 21133 1 [sym_kIs]; AGroup 21135 1 [sym_kNot]; AGroup 23623 1 [sym_kOf];
     SGroup 5025 1 [sym__exprIsNot]; AGroup 21129 2 syms_83; AGroup 3 3 syms_1;
     AGroup 21065 4 syms_84; AGroup 21131 5 syms_85; AGroup 21067 6 syms_86]);
   (503886, 12, [AGroup 22171 1 [sym_kFdiv]; AGroup 22173 1 [sym_kHat]; AGroup 22175 1 [sym_kAs];
     AGroup 22275 1 [sym_kIs]; AGroup 22277 1 [sym_kNot]; AGroup 23625 1 [sym_kThen];
     SGroup 4618 1 [sym__exprIsNot]; AGroup 22271 2 syms_83; AGroup 3 3 syms_1;
     AGroup 22167 4 syms_84; AGroup 22273 5 syms_85; AGroup 22169 6 syms_86]);
   (503938, 12, [AGroup 21480 1 [sym_kDo]; AGroup 21867 1 [sym_kHat]; AGroup 22233 1 [sym_kFdiv];
     AGroup 22235 1 [sym_kAs]; AGroup 22297 1 [sym_kIs]; AGroup 22299 1 [sym_kNot];
     SGroup 4223 1 [sym__exprIsNot]; AGroup 22293 2 syms_83; AGroup 3 3 syms_1;
     AGroup 22229 4 syms_84; AGroup 22295 5 syms_85; AGroup 22231 6 syms_86]);
   (503990, 4, [AGroup 5 1 [sym_ppDirective]; AGroup 3 2 syms_5; AGroup 23629 5 syms_150;
     AGroup 23627 19 syms_151]);
   (504026, 12, [AGroup 22171 1 [sym_kFdiv]; AGroup 22173 1 [sym_kHat]; AGroup 22175 1 [sym_kAs];
     AGroup 22275 1 [sym_kIs]; AGroup 22277 1 [sym_kNot]; AGroup 23631 1 [sym_kThen];
     SGroup 4618 1 [sym__exprIsNot]; AGroup 22271 2 syms_83; AGroup 3 3 syms_1;
     AGroup 22167 4 syms_84; AGroup 22273 5 syms_85; AGroup 22169 6 syms_86]);
   (504078, 12, [AGroup 22171 1 [sym_kFdiv]; AGroup 22173 1 [sym_kHat]; AGroup 22175 1 [sym_kAs];
     AGroup 22275 1 [sym_kIs]; AGroup 22277 1 [sym_kNot]; AGroup 23633 1 [sym_kThen];
     SGroup 4618 1 [sym__exprIsNot]; AGroup 22271 2 syms_83; AGroup 3 3 syms_1;
     AGroup 22167 4 syms_84; AGroup 22273 5 syms_85; AGroup 22169 6 syms_86]);
   (504130, 12, [AGroup 21063 1 [sym_kHat]; AGroup 21069 1 [sym_kFdiv]; AGroup 21071 1 [sym_kAs];
     AGroup 21133 1 [sym_kIs]; AGroup 21135 1 [sym_kNot]; AGroup 23635 1 [sym_kOf];
     SGroup 5025 1 [sym__exprIsNot]; AGroup 21129 2 syms_83; AGroup 3 3 syms_1;
     AGroup 21065 4 syms_84; AGroup 21131 5 syms_85; AGroup 21067 6 syms_86]);
   (504182, 12, [AGroup 21867 1 [sym_kHat]; AGroup 22233 1 [sym_kFdiv]; AGroup 22235 1 [sym_kAs];
     AGroup 22297 1 [sym_kIs]; AGroup 22299 1 [sym_kNot]; AGroup 23637 1 [sym_kDo];
     SGroup 4223 1 [sym__exprIsNot]; AGroup 22293 2 syms_83; AGroup 3 3 syms_1;
     AGroup 22229 4 syms_84; AGroup 22295 5 syms_85; AGroup 22231 6 syms_86]);
   (504234, 12, [AGroup 21791 1 [sym_kHat]; AGroup 21797 1 [sym_kFdiv]; AGroup 21799 1 [sym_kAs];
     AGroup 21893 1 [sym_kIs]; AGroup 21895 1 [sym_kNot]; AGroup 23639 1 [sym_kElse];
     SGroup 4923 1 [sym__exprIsNot]; AGroup 21889 2 syms_83; AGroup 3 3 syms_1;
     AGroup 21793 4 syms_84; AGroup 21891 5 syms_85; AGroup 21795 6 syms_86]);
   (504286, 12, [AGroup 22171 1 [sym_kFdiv]; AGroup 22173 1 [sym_kHat]; AGroup 22175 1 [sym_kAs];
     AGroup 22275 1 [sym_kIs]; AGroup 22277 1 [sym_kNot]; AGroup 23641 1 [sym_kThen];
     SGroup 4618 1 [sym__exprIsNot]; AGroup 22271 2 syms_83; AGroup 3 3 syms_1;
     AGroup 22167 4 syms_84; AGroup 22273 5 syms_85; AGroup 22169 6 syms_86]);
   (504338, 12, [AGroup 21063 1 [sym_kHat]; AGroup 21069 1 [sym_kFdiv]; AGroup 21071 1 [sym_kAs];
     AGroup 21133 1 [sym_kIs]; AGroup 21135 1 [sym_kNot]; AGroup 23643 1 [sym_kOf];
     SGroup 5025 1 [sym__exprIsNot]; AGroup 21129 2 syms_83; AGroup 3 3 syms_1;
     AGroup 21065 4 syms_84; AGroup 21131 5 syms_85; AGroup 21067 6 syms_86]);
   (504390, 12, [AGroup 22171 1 [sym_kFdiv]; AGroup 22173 1 [sym_kHat]; AGroup 22175 1 [sym_kAs];
     AGroup 22275 1 [sym_kIs]; AGroup 22277 1 [sym_kNot]; AGroup 23645 1 [sym_kThen];
     SGroup 4618 1 [sym__exprIsNot]; AGroup 22271 2 syms_83; AGroup 3 3 syms_1;
     AGroup 22167 4 syms_84; AGroup 22273 5 syms_85; AGroup 22169 6 syms_86]);
   (504442, 12, [AGroup 20826 1 [sym_kHat]; AGroup 21595 1 [sym_kAs]; AGroup 22387 1 [sym_kFdiv];
     AGroup 22389 1 [sym_kIs]; AGroup 22391 1 [sym_kNot]; AGroup 22826 1 [anon_sym_SEMI];
     SGroup 4442 1 [sym__exprIsNot]; AGroup 22379 2 syms_83; AGroup 3 3 syms_1;
     AGroup 22383 4 syms_84; AGroup 22381 5 syms_85; AGroup 22385 6 syms_86]);
   (504494, 12, [AGroup 22171 1 [sym_kFdiv]; AGroup 22173 1 [sym_kHat]; AGroup 22175 1 [sym_kAs];
     AGroup 22275 1 [sym_kIs]; AGroup 22277 1 [sym_kNot]; AGroup 23647 1 [sym_kThen];
     SGroup 4618 1 [sym__exprIsNot]; AGroup 22271 2 syms_83; AGroup 3 3 syms_1;
     AGroup 22167 4 syms_84; AGroup 22273 5 syms_85; AGroup 22169 6 syms_86]);
   (504546, 12, [AGroup 21063 1 [sym_kHat]; AGroup 21069 1 [sym_kFdiv]; AGroup 21071 1 [sym_kAs];
     AGroup 21133 1 [sym_kIs]; AGroup 21135 1 [sym_kNot]; AGroup 23649 1 [sym_kOf];
     SGroup 5025 1 [sym__exprIsNot]; AGroup 21129 2 syms_83; AGroup 3 3 syms_1;
     AGroup 21065 4 syms_84; AGroup 21131 5 syms_85; AGroup 21067 6 syms_86]);
   (504598, 12, [AGroup 20826 1 [sym_kHat]; AGroup 21595 1 [sym_kAs]; AGroup 22387 1 [sym_kFdiv];
     AGroup 22389 1 [sym_kIs]; AGroup 22391 1 [sym_kNot]; AGroup 22832 1 [anon_sym_SEMI];
     SGroup 4442 1 [sym__exprIsNot]; AGroup 22379 2 syms_83; AGroup 3 3 syms_1;
     AGroup 22383 4 syms_84; AGroup 22381 5 syms_85; AGroup 22385 6 syms_86]);
   (504650, 12, [AGroup 20826 1 [sym_kHat]; AGroup 21595 1 [sym_kAs]; AGroup 22387 1 [sym_kFdiv];
     AGroup 22389 1 [sym_kIs]; AGroup 22391 1 [sym_kNot]; AGroup 22936 1 [anon_sym_SEMI];
     SGroup 4442 1 [sym__exprIsNot]; AGroup 22379 2 syms_83; AGroup 3 3 syms_1;
     AGroup 22383 4 syms_84; AGroup 22381 5 syms_85; AGroup 22385 6 syms_86]);
   (504702, 12, [AGroup 22171 1 [sym_kFdiv]; AGroup 22173 1 [sym_kHat]; AGroup 22175 1 [sym_kAs];
     AGroup 22275 1 [sym_kIs]; AGroup 22277 1 [sym_kNot]; AGroup 23651 1 [sym_kThen];
     SGroup 4618 1 [sym__exprIsNot]; AGroup 22271 2 syms_83; AGroup 3 3 syms_1;
     AGroup 22167 4 syms_84; AGroup 22273 5 syms_85; AGroup 22169 6 syms_86]);
   (504754, 12, [AGroup 21867 1 [sym_kHat]; AGroup 22233 1 [sym_kFdiv]; AGroup 22235 1 [sym_kAs];
     AGroup 22297 1 [sym_kIs]; AGroup 22299 1 [sym_kNot]; AGroup 23653 1 [sym_kDo];
     SGroup 4223 1 [sym__exprIsNot]; AGroup 22293 2 syms_83; AGroup 3 3 syms_1;
     AGroup 22229 4 syms_84; AGroup 22295 5 syms_85; AGroup 22231 6 syms_86]);
   (504806, 12, [AGroup 22171 1 [sym_kFdiv]; AGroup 22173 1 [sym_kHat]; AGroup 22175 1 [sym_kAs];
     AGroup 22275 1 [sym_kIs]; AGroup 22277 1 [sym_kNot]; AGroup 23655 1 [sym_kThen];
     SGroup 4618 1 [sym__exprIsNot]; AGroup 22271 2 syms_83; AGroup 3 3 syms_1;
     AGroup 22167 4 syms_84; AGroup 22273 5 syms_85; AGroup 22169 6 syms_86]);
   (504858, 12, [AGroup 20826 1 [sym_kHat]; AGroup 21595 1 [sym_kAs]; AGroup 22387 1 [sym_kFdiv];
     AGroup 22389 1 [sym_kIs]; AGroup 22391 1 [sym_kNot]; AGroup 22926 1 [anon_sym_SEMI];
     SGroup 4442 1 [sym__exprIsNot]; AGroup 22379 2 syms_83; AGroup 3 3 syms_1;
     AGroup 22383 4 syms_84; AGroup 22381 5 syms_85; AGroup 22385 6 syms_86]);
   (504910, 12, [AGroup 22171 1 [sym_kFdiv]; AGroup 22173 1 [sym_kHat]; AGroup 22175 1 [sym_kAs];
     AGroup 22275 1 [sym_kIs]; AGroup 22277 1 [sym_kNot]; AGroup 23657 1 [sym_kThen];
     SGroup 4618 1 [sym__exprIsNot]; AGroup 22271 2 syms_83; AGroup 3 3 syms_1;
     AGroup 22167 4 syms_84; AGroup 22273 5 syms_85; AGroup 22169 6 syms_86]);
   (504962, 3, [AGroup 5 1 [sym_ppDirective]; AGroup 3 2 syms_5; AGroup 10932 24 syms_687]);
   (504996, 12, [AGroup 22171 1 [sym_kFdiv]; AGroup 22173 1 [sym_kHat]; AGroup 22175 1 [sym_kAs];
     AGroup 22275 1 [sym_kIs]; AGroup 22277 1 [sym_kNot]; AGroup 23659 1 [sym_kThen];
     SGroup 4618 1 [sym__exprIsNot]; AGroup 22271 2 syms_83; AGroup 3 3 syms_1;
     AGroup 22167 4 syms_84; AGroup 22273 5 syms_85; AGroup 22169 6 syms_86]);
   (505048, 12, [AGroup 22171 1 [sym_kFdiv]; AGroup 22173 1 [sym_kHat]; AGroup 22175 1 [sym_kAs];
     AGroup 22275 1 [sym_kIs]; AGroup 22277 1 [sym_kNot]; AGroup 23661 1 [sym_kThen];
     SGroup 4618 1 [sym__exprIsNot]; AGroup 22271 2 syms_83; AGroup 3 3 syms_1;
     AGroup 22167 4 syms_84; AGroup 22273 5 syms_85; AGroup 22169 6 syms_86]);
   (505100, 12, [AGroup 20826 1 [sym_kHat]; AGroup 21595 1 [sym_kAs]; AGroup 22387 1 [sym_kFdiv];
     AGroup 22389 1 [sym_kIs]; AGroup 22391 1 [sym_kNot]; AGroup 22531 1 [anon_sym_RPAREN];
     SGroup 4442 1 [sym__exprIsNot]; AGroup 22379 2 syms_83; AGroup 3 3 syms_1;
     AGroup 22383 4 syms_84; AGroup 22381 5 syms_85; AGroup 22385 6 syms_86]);
   (505152, 12, [AGroup 22171 1 [sym_kFdiv]; AGroup 22173 1 [sym_kHat]; AGroup 22175 1 [sym_kAs];
     AGroup 22275 1 [sym_kIs]; AGroup 22277 1 [sym_kNot]; AGroup 23663 1 [sym_kThen];
     SGroup 4618 1 [sym__exprIsNot]; AGroup 22271 2 syms_83; AGroup 3 3 syms_1;
     AGroup 22167 4 syms_84; AGroup 22273 5 syms_85; AGroup 22169 6 syms_86]);
   (505204, 12, [AGroup 20826 1 [sym_kHat]; AGroup 21595 1 [sym_kAs]; AGroup 22387 1 [sym_kFdiv];
     AGroup 22389 1 [sym_kIs]; AGroup 22391 1 [sym_kNot]; AGroup 22932 1 [anon_sym_SEMI];
     SGroup 4442 1 [sym__exprIsNot]; AGroup 22379 2 syms_83; AGroup 3 3 syms_1;
     AGroup 22383 4 syms_84; AGroup 22381 5 syms_85; AGroup 22385 6 syms_86]);
   (505256, 12, [AGroup 21867 1 [sym_kHat]; AGroup 22233 1 [sym_kFdiv]; AGroup 22235 1 [sym_kAs];
     AGroup 22297 1 [sym_kIs]; AGroup 22299 1 [sym_kNot]; AGroup 23665 1 [sym_kDo];
     SGroup 4223 1 [sym__exprIsNot]; AGroup 22293 2 syms_83; AGroup 3 3 syms_1;
     AGroup 22229 4 syms_84; AGroup 22295 5 syms_85; AGroup 22231 6 syms_86]);
   (505308, 12, [AGroup 22171 1 [sym_kFdiv]; AGroup 22173 1 [sym_kHat]; AGroup 22175 1 [sym_kAs];
     AGroup 22275 1 [sym_kIs]; AGroup 22277 1 [sym_kNot]; AGroup 23667 1 [sym_kThen];
     SGroup 4618 1 [sym__exprIsNot]; AGroup 22271 2 syms_83; AGroup 3 3 syms_1;
     AGroup 22167 4 syms_84; AGroup 22273 5 syms_85; AGroup 22169 6 syms_86]);
   (505360, 12, [AGroup 22171 1 [sym_kFdiv]; AGroup 22173 1 [sym_kHat]; AGroup 22175 1 [sym_kAs];
     AGroup 22275 1 [sym_kIs]; AGroup 22277 1 [sym_kNot]; AGroup 23669 1 [sym_kThen];
     SGroup 4618 1 [sym__exprIsNot]; AGroup 22271 2 syms_83; AGroup 3 3 syms_1;
     AGroup 22167 4 syms_84; AGroup 22273 5 syms_85; AGroup 22169 6 syms_86]);
   (505412, 12, [AGroup 21867 1 [sym_kHat]; AGroup 22233 1 [sym_kFdiv]; AGroup 22235 1 [sym_kAs];
     AGroup 22297 1 [sym_kIs]; AGroup 22299 1 [sym_kNot]; AGroup 23671 1 [sym_kDo];
     SGroup 4223 1 [sym__exprIsNot]; AGroup 22293 2 syms_83; AGroup 3 3 syms_1;
     AGroup 22229 4 syms_84; AGroup 22295 5 syms_85; AGroup 22231 6 syms_86]);
   (505464, 12, [AGroup 22171 1 [sym_kFdiv]; AGroup 22173 1 [sym_kHat]; AGroup 22175 1 [sym_kAs];
     AGroup 22275 1 [sym_kIs]; AGroup 22277 1 [sym_kNot]; AGroup 23673 1 [sym_kThen];
     SGroup 4618 1 [sym__exprIsNot]; AGroup 22271 2 syms_83; AGroup 3 3 syms_1;
     AGroup 22167 4 syms_84; AGroup 22273 5 syms_85; AGroup 22169 6 syms_86]);
   (505516, 4, [AGroup 5 1 [sym_ppDirective]; AGroup 3 2 syms_5; AGroup 23677 5 syms_150;
     AGroup 23675 19 syms_151])
  ].

Definition small_part6 : list small_run :=
  small_runs_8259
  ++ small_runs_8359
  ++ small_runs_8459
  ++ small_runs_8559
  ++ small_runs_8659
  ++ small_runs_8759
  ++ small_runs_8859
  ++ small_runs_8959
  ++ small_runs_9059
  ++ small_runs_9159
  ++ small_runs_9259
  ++ small_runs_9359
  ++ small_runs_9459
  ++ small_runs_9559
  ++ small_runs_9659
  ++ small_runs_9759
  ++ small_runs_9859
  ++ small_runs_9959
  ++ small_runs_10059.
