(* ===== verification/SmallTable7.v ===== *)
(** * The compressed parse table of [parser.c], states 10159 to 13258

    The record of each small state in [ts_small_parse_table], as the source
    writes it: its index in the array, the number of its groups, and the groups
    in their order, each with its value, the number of its symbols and the
    symbols. *)

From S2P Require Import Prelude.
From S2P Require Import Symbols.
From S2P Require Import ParseTypes.
From S2P Require Import SmallSymbols.

(** States 10159 to 10258. *)
Definition small_runs_10159 : list small_run :=
  [
   (505552, 12, [AGroup 21547 1 [sym_kDo]; AGroup 21867 1 [sym_kHat]; AGroup 22233 1 [sym_kFdiv];
     AGroup 22235 1 [sym_kAs]; AGroup 22297 1 [sym_kIs]; AGroup 22299 1 [sym_kNot];
     SGroup 4223 1 [sym__exprIsNot]; AGroup 22293 2 syms_83; AGroup 3 3 syms_1;
     AGroup 22229 4 syms_84; AGroup 22295 5 syms_85; AGroup 22231 6 syms_86]);
   (505604, 12, [AGroup 22171 1 [sym_kFdiv]; AGroup 22173 1 [sym_kHat]; AGroup 22175 1 [sym_kAs];
     AGroup 22275 1 [sym_kIs]; AGroup 22277 1 [sym_kNot]; AGroup 23679 1 [sym_kThen];
     SGroup 4618 1 [sym__exprIsNot]; AGroup 22271 2 syms_83; AGroup 3 3 syms_1;
     AGroup 22167 4 syms_84; AGroup 22273 5 syms_85; AGroup 22169 6 syms_86]);
   (505656, 12, [AGroup 21867 1 [sym_kHat]; AGroup 22233 1 [sym_kFdiv]; AGroup 22235 1 [sym_kAs];
     AGroup 22297 1 [sym_kIs]; AGroup 22299 1 [sym_kNot]; AGroup 23681 1 [sym_kDo];
     SGroup 4223 1 [sym__exprIsNot]; AGroup 22293 2 syms_83; AGroup 3 3 syms_1;
     AGroup 22229 4 syms_84; AGroup 22295 5 syms_85; AGroup 22231 6 syms_86]);
   (505708, 12, [AGroup 21224 1 [sym_kDo]; AGroup 21867 1 [sym_kHat]; AGroup 22233 1 [sym_kFdiv];
     AGroup 22235 1 [sym_kAs]; AGroup 22297 1 [sym_kIs]; AGroup 22299 1 [sym_kNot];
     SGroup 4223 1 [sym__exprIsNot]; AGroup 22293 2 syms_83; AGroup 3 3 syms_1;
     AGroup 22229 4 syms_84; AGroup 22295 5 syms_85; AGroup 22231 6 syms_86]);
   (505760, 12, [AGroup 21791 1 [sym_kHat]; AGroup 21797 1 [sym_kFdiv]; AGroup 21799 1 [sym_kAs];
     AGroup 21893 1 [sym_kIs]; AGroup 21895 1 [sym_kNot]; AGroup 23683 1 [sym_kElse];
     SGroup 4923 1 [sym__exprIsNot]; AGroup 21889 2 syms_83; AGroup 3 3 syms_1;
     AGroup 21793 4 syms_84; AGroup 21891 5 syms_85; AGroup 21795 6 syms_86]);
   (505812, 12, [AGroup 17938 1 [sym_kDo]; AGroup 21867 1 [sym_kHat]; AGroup 22233 1 [sym_kFdiv];
     AGroup 22235 1 [sym_kAs]; AGroup 22297 1 [sym_kIs]; AGroup 22299 1 [sym_kNot];
     SGroup 4223 1 [sym__exprIsNot]; AGroup 22293 2 syms_83; AGroup 3 3 syms_1;
     AGroup 22229 4 syms_84; AGroup 22295 5 syms_85; AGroup 22231 6 syms_86]);
   (505864, 12, [AGroup 22171 1 [sym_kFdiv]; AGroup 22173 1 [sym_kHat]; AGroup 22175 1 [sym_kAs];
     AGroup 22275 1 [sym_kIs]; AGroup 22277 1 [sym_kNot]; AGroup 23685 1 [sym_kThen];
     SGroup 4618 1 [sym__exprIsNot]; AGroup 22271 2 syms_83; AGroup 3 3 syms_1;
     AGroup 22167 4 syms_84; AGroup 22273 5 syms_85; AGroup 22169 6 syms_86]);
   (505916, 12, [AGroup 21791 1 [sym_kHat]; AGroup 21797 1 [sym_kFdiv]; AGroup 21799 1 [sym_kAs];
     AGroup 21893 1 [sym_kIs]; AGroup 21895 1 [sym_kNot]; AGroup 23687 1 [sym_kElse];
     SGroup 4923 1 [sym__exprIsNot]; AGroup 21889 2 syms_83; AGroup 3 3 syms_1;
     AGroup 21793 4 syms_84; AGroup 21891 5 syms_85; AGroup 21795 6 syms_86]);
   (505968, 12, [AGroup 22171 1 [sym_kFdiv]; AGroup 22173 1 [sym_kHat]; AGroup 22175 1 [sym_kAs];
     AGroup 22275 1 [sym_kIs]; AGroup 22277 1 [sym_kNot]; AGroup 23689 1 [sym_kThen];
     SGroup 4618 1 [sym__exprIsNot]; AGroup 22271 2 syms_83; AGroup 3 3 syms_1;
     AGroup 22167 4 syms_84; AGroup 22273 5 syms_85; AGroup 22169 6 syms_86]);
   (506020, 12, [AGroup 21867 1 [sym_kHat]; AGroup 22233 1 [sym_kFdiv]; AGroup 22235 1 [sym_kAs];
     AGroup 22297 1 [sym_kIs]; AGroup 22299 1 [sym_kNot]; AGroup 23691 1 [sym_kDo];
     SGroup 4223 1 [sym__exprIsNot]; AGroup 22293 2 syms_83; AGroup 3 3 syms_1;
     AGroup 22229 4 syms_84; AGroup 22295 5 syms_85; AGroup 22231 6 syms_86]);
   (506072, 12, [AGroup 21250 1 [sym_kDo]; AGroup 21867 1 [sym_kHat]; AGroup 22233 1 [sym_kFdiv];
     AGroup 22235 1 [sym_kAs]; AGroup 22297 1 [sym_kIs]; AGroup 22299 1 [sym_kNot];
     SGroup 4223 1 [sym__exprIsNot]; AGroup 22293 2 syms_83; AGroup 3 3 syms_1;
     AGroup 22229 4 syms_84; AGroup 22295 5 syms_85; AGroup 22231 6 syms_86]);
   (506124, 12, [AGroup 22171 1 [sym_kFdiv]; AGroup 22173 1 [sym_kHat]; AGroup 22175 1 [sym_kAs];
     AGroup 22275 1 [sym_kIs]; AGroup 22277 1 [sym_kNot]; AGroup 23693 1 [sym_kThen];
     SGroup 4618 1 [sym__exprIsNot]; AGroup 22271 2 syms_83; AGroup 3 3 syms_1;
     AGroup 22167 4 syms_84; AGroup 22273 5 syms_85; AGroup 22169 6 syms_86]);
   (506176, 12, [AGroup 22171 1 [sym_kFdiv]; AGroup 22173 1 [sym_kHat]; AGroup 22175 1 [sym_kAs];
     AGroup 22275 1 [sym_kIs]; AGroup 22277 1 [sym_kNot]; AGroup 23695 1 [sym_kThen];
     SGroup 4618 1 [sym__exprIsNot]; AGroup 22271 2 syms_83; AGroup 3 3 syms_1;
     AGroup 22167 4 syms_84; AGroup 22273 5 syms_85; AGroup 22169 6 syms_86]);
   (506228, 12, [AGroup 20826 1 [sym_kHat]; AGroup 21595 1 [sym_kAs]; AGroup 22387 1 [sym_kFdiv];
     AGroup 22389 1 [sym_kIs]; AGroup 22391 1 [sym_kNot]; AGroup 23020 1 [anon_sym_SEMI];
     SGroup 4442 1 [sym__exprIsNot]; AGroup 22379 2 syms_83; AGroup 3 3 syms_1;
     AGroup 22383 4 syms_84; AGroup 22381 5 syms_85; AGroup 22385 6 syms_86]);
   (506280, 12, [AGroup 22171 1 [sym_kFdiv]; AGroup 22173 1 [sym_kHat]; AGroup 22175 1 [sym_kAs];
     AGroup 22275 1 [sym_kIs]; AGroup 22277 1 [sym_kNot]; AGroup 23697 1 [sym_kThen];
     SGroup 4618 1 [sym__exprIsNot]; AGroup 22271 2 syms_83; AGroup 3 3 syms_1;
     AGroup 22167 4 syms_84; AGroup 22273 5 syms_85; AGroup 22169 6 syms_86]);
   (506332, 12, [AGroup 21791 1 [sym_kHat]; AGroup 21797 1 [sym_kFdiv]; AGroup 21799 1 [sym_kAs];
     AGroup 21893 1 [sym_kIs]; AGroup 21895 1 [sym_kNot]; AGroup 23699 1 [sym_kElse];
     SGroup 4923 1 [sym__exprIsNot]; AGroup 21889 2 syms_83; AGroup 3 3 syms_1;
     AGroup 21793 4 syms_84; AGroup 21891 5 syms_85; AGroup 21795 6 syms_86]);
   (506384, 12, [AGroup 22171 1 [sym_kFdiv]; AGroup 22173 1 [sym_kHat]; AGroup 22175 1 [sym_kAs];
     AGroup 22275 1 [sym_kIs]; AGroup 22277 1 [sym_kNot]; AGroup 23701 1 [sym_kThen];
     SGroup 4618 1 [sym__exprIsNot]; AGroup 22271 2 syms_83; AGroup 3 3 syms_1;
     AGroup 22167 4 syms_84; AGroup 22273 5 syms_85; AGroup 22169 6 syms_86]);
   (506436, 12, [AGroup 21867 1 [sym_kHat]; AGroup 22233 1 [sym_kFdiv]; AGroup 22235 1 [sym_kAs];
     AGroup 22297 1 [sym_kIs]; AGroup 22299 1 [sym_kNot]; AGroup 23703 1 [sym_kDo];
     SGroup 4223 1 [sym__exprIsNot]; AGroup 22293 2 syms_83; AGroup 3 3 syms_1;
     AGroup 22229 4 syms_84; AGroup 22295 5 syms_85; AGroup 22231 6 syms_86]);
   (506488, 12, [AGroup 22171 1 [sym_kFdiv]; AGroup 22173 1 [sym_kHat]; AGroup 22175 1 [sym_kAs];
     AGroup 22275 1 [sym_kIs]; AGroup 22277 1 [sym_kNot]; AGroup 23705 1 [sym_kThen];
     SGroup 4618 1 [sym__exprIsNot]; AGroup 22271 2 syms_83; AGroup 3 3 syms_1;
     AGroup 22167 4 syms_84; AGroup 22273 5 syms_85; AGroup 22169 6 syms_86]);
   (506540, 12, [AGroup 21351 1 [sym_kDo]; AGroup 21867 1 [sym_kHat]; AGroup 22233 1 [sym_kFdiv];
     AGroup 22235 1 [sym_kAs]; AGroup 22297 1 [sym_kIs]; AGroup 22299 1 [sym_kNot];
     SGroup 4223 1 [sym__exprIsNot]; AGroup 22293 2 syms_83; AGroup 3 3 syms_1;
     AGroup 22229 4 syms_84; AGroup 22295 5 syms_85; AGroup 22231 6 syms_86]);
   (506592, 12, [AGroup 21791 1 [sym_kHat]; AGroup 21797 1 [sym_kFdiv]; AGroup 21799 1 [sym_kAs];
     AGroup 21893 1 [sym_kIs]; AGroup 21895 1 [sym_kNot]; AGroup 23707 1 [sym_kElse];
     SGroup 4923 1 [sym__exprIsNot]; AGroup 21889 2 syms_83; AGroup 3 3 syms_1;
     AGroup 21793 4 syms_84; AGroup 21891 5 syms_85; AGroup 21795 6 syms_86]);
   (506644, 12, [AGroup 22171 1 [sym_kFdiv]; AGroup 22173 1 [sym_kHat]; AGroup 22175 1 [sym_kAs];
     AGroup 22275 1 [sym_kIs]; AGroup 22277 1 [sym_kNot]; AGroup 23709 1 [sym_kThen];
     SGroup 4618 1 [sym__exprIsNot]; AGroup 22271 2 syms_83; AGroup 3 3 syms_1;
     AGroup 22167 4 syms_84; AGroup 22273 5 syms_85; AGroup 22169 6 syms_86]);
   (506696, 12, [AGroup 22171 1 [sym_kFdiv]; AGroup 22173 1 [sym_kHat]; AGroup 22175 1 [sym_kAs];
     AGroup 22275 1 [sym_kIs]; AGroup 22277 1 [sym_kNot]; AGroup 23711 1 [sym_kThen];
     SGroup 4618 1 [sym__exprIsNot]; AGroup 22271 2 syms_83; AGroup 3 3 syms_1;
     AGroup 22167 4 syms_84; AGroup 22273 5 syms_85; AGroup 22169 6 syms_86]);
   (506748, 12, [AGroup 22171 1 [sym_kFdiv]; AGroup 22173 1 [sym_kHat]; AGroup 22175 1 [sym_kAs];
     AGroup 22275 1 [sym_kIs]; AGroup 22277 1 [sym_kNot]; AGroup 23713 1 [sym_kThen];
     SGroup 4618 1 [sym__exprIsNot]; AGroup 22271 2 syms_83; AGroup 3 3 syms_1;
     AGroup 22167 4 syms_84; AGroup 22273 5 syms_85; AGroup 22169 6 syms_86]);
   (506800, 12, [AGroup 22171 1 [sym_kFdiv]; AGroup 22173 1 [sym_kHat]; AGroup 22175 1 [sym_kAs];
     AGroup 22275 1 [sym_kIs]; AGroup 22277 1 [sym_kNot]; AGroup 23715 1 [sym_kThen];
     SGroup 4618 1 [sym__exprIsNot]; AGroup 22271 2 syms_83; AGroup 3 3 syms_1;
     AGroup 22167 4 syms_84; AGroup 22273 5 syms_85; AGroup 22169 6 syms_86]);
   (506852, 12, [AGroup 22171 1 [sym_kFdiv]; AGroup 22173 1 [sym_kHat]; AGroup 22175 1 [sym_kAs];
     AGroup 22275 1 [sym_kIs]; AGroup 22277 1 [sym_kNot]; AGroup 23717 1 [sym_kThen];
     SGroup 4618 1 [sym__exprIsNot]; AGroup 22271 2 syms_83; AGroup 3 3 syms_1;
     AGroup 22167 4 syms_84; AGroup 22273 5 syms_85; AGroup 22169 6 syms_86]);
   (506904, 12, [AGroup 22171 1 [sym_kFdiv]; AGroup 22173 1 [sym_kHat]; AGroup 22175 1 [sym_kAs];
     AGroup 22275 1 [sym_kIs]; AGroup 22277 1 [sym_kNot]; AGroup 23719 1 [sym_kThen];
     SGroup 4618 1 [sym__exprIsNot]; AGroup 22271 2 syms_83; AGroup 3 3 syms_1;
     AGroup 22167 4 syms_84; AGroup 22273 5 syms_85; AGroup 22169 6 syms_86]);
   (506956, 12, [AGroup 22171 1 [sym_kFdiv]; AGroup 22173 1 [sym_kHat]; AGroup 22175 1 [sym_kAs];
     AGroup 22275 1 [sym_kIs]; AGroup 22277 1 [sym_kNot]; AGroup 23721 1 [sym_kThen];
     SGroup 4618 1 [sym__exprIsNot]; AGroup 22271 2 syms_83; AGroup 3 3 syms_1;
     AGroup 22167 4 syms_84; AGroup 22273 5 syms_85; AGroup 22169 6 syms_86]);
   (507008, 12, [AGroup 22171 1 [sym_kFdiv]; AGroup 22173 1 [sym_kHat]; AGroup 22175 1 [sym_kAs];
     AGroup 22275 1 [sym_kIs]; AGroup 22277 1 [sym_kNot]; AGroup 23723 1 [sym_kThen];
     SGroup 4618 1 [sym__exprIsNot]; AGroup 22271 2 syms_83; AGroup 3 3 syms_1;
     AGroup 22167 4 syms_84; AGroup 22273 5 syms_85; AGroup 22169 6 syms_86]);
   (507060, 12, [AGroup 22171 1 [sym_kFdiv]; AGroup 22173 1 [sym_kHat]; AGroup 22175 1 [sym_kAs];
     AGroup 22275 1 [sym_kIs]; AGroup 22277 1 [sym_kNot]; AGroup 23725 1 [sym_kThen];
     SGroup 4618 1 [sym__exprIsNot]; AGroup 22271 2 syms_83; AGroup 3 3 syms_1;
     AGroup 22167 4 syms_84; AGroup 22273 5 syms_85; AGroup 22169 6 syms_86]);
   (507112, 12, [AGroup 22171 1 [sym_kFdiv]; AGroup 22173 1 [sym_kHat]; AGroup 22175 1 [sym_kAs];
     AGroup 22275 1 [sym_kIs]; AGroup 22277 1 [sym_kNot]; AGroup 23727 1 [sym_kThen];
     SGroup 4618 1 [sym__exprIsNot]; AGroup 22271 2 syms_83; AGroup 3 3 syms_1;
     AGroup 22167 4 syms_84; AGroup 22273 5 syms_85; AGroup 22169 6 syms_86]);
   (507164, 12, [AGroup 22171 1 [sym_kFdiv]; AGroup 22173 1 [sym_kHat]; AGroup 22175 1 [sym_kAs];
     AGroup 22275 1 [sym_kIs]; AGroup 22277 1 [sym_kNot]; AGroup 23729 1 [sym_kThen];
     SGroup 4618 1 [sym__exprIsNot]; AGroup 22271 2 syms_83; AGroup 3 3 syms_1;
     AGroup 22167 4 syms_84; AGroup 22273 5 syms_85; AGroup 22169 6 syms_86]);
   (507216, 12, [AGroup 22171 1 [sym_kFdiv]; AGroup 22173 1 [sym_kHat]; AGroup 22175 1 [sym_kAs];
     AGroup 22275 1 [sym_kIs]; AGroup 22277 1 [sym_kNot]; AGroup 23731 1 [sym_kThen];
     SGroup 4618 1 [sym__exprIsNot]; AGroup 22271 2 syms_83; AGroup 3 3 syms_1;
     AGroup 22167 4 syms_84; AGroup 22273 5 syms_85; AGroup 22169 6 syms_86]);
   (507268, 12, [AGroup 22171 1 [sym_kFdiv]; AGroup 22173 1 [sym_kHat]; AGroup 22175 1 [sym_kAs];
     AGroup 22275 1 [sym_kIs]; AGroup 22277 1 [sym_kNot]; AGroup 23733 1 [sym_kThen];
     SGroup 4618 1 [sym__exprIsNot]; AGroup 22271 2 syms_83; AGroup 3 3 syms_1;
     AGroup 22167 4 syms_84; AGroup 22273 5 syms_85; AGroup 22169 6 syms_86]);
   (507320, 12, [AGroup 22171 1 [sym_kFdiv]; AGroup 22173 1 [sym_kHat]; AGroup 22175 1 [sym_kAs];
     AGroup 22275 1 [sym_kIs]; AGroup 22277 1 [sym_kNot]; AGroup 23735 1 [sym_kThen];
     SGroup 4618 1 [sym__exprIsNot]; AGroup 22271 2 syms_83; AGroup 3 3 syms_1;
     AGroup 22167 4 syms_84; AGroup 22273 5 syms_85; AGroup 22169 6 syms_86]);
   (507372, 12, [AGroup 22171 1 [sym_kFdiv]; AGroup 22173 1 [sym_kHat]; AGroup 22175 1 [sym_kAs];
     AGroup 22275 1 [sym_kIs]; AGroup 22277 1 [sym_kNot]; AGroup 23737 1 [sym_kThen];
     SGroup 4618 1 [sym__exprIsNot]; AGroup 22271 2 syms_83; AGroup 3 3 syms_1;
     AGroup 22167 4 syms_84; AGroup 22273 5 syms_85; AGroup 22169 6 syms_86]);
   (507424, 12, [AGroup 22171 1 [sym_kFdiv]; AGroup 22173 1 [sym_kHat]; AGroup 22175 1 [sym_kAs];
     AGroup 22275 1 [sym_kIs]; AGroup 22277 1 [sym_kNot]; AGroup 23739 1 [sym_kThen];
     SGroup 4618 1 [sym__exprIsNot]; AGroup 22271 2 syms_83; AGroup 3 3 syms_1;
     AGroup 22167 4 syms_84; AGroup 22273 5 syms_85; AGroup 22169 6 syms_86]);
   (507476, 12, [AGroup 22171 1 [sym_kFdiv]; AGroup 22173 1 [sym_kHat]; AGroup 22175 1 [sym_kAs];
     AGroup 22275 1 [sym_kIs]; AGroup 22277 1 [sym_kNot]; AGroup 23741 1 [sym_kThen];
     SGroup 4618 1 [sym__exprIsNot]; AGroup 22271 2 syms_83; AGroup 3 3 syms_1;
     AGroup 22167 4 syms_84; AGroup 22273 5 syms_85; AGroup 22169 6 syms_86]);
   (507528, 12, [AGroup 22171 1 [sym_kFdiv]; AGroup 22173 1 [sym_kHat]; AGroup 22175 1 [sym_kAs];
     AGroup 22275 1 [sym_kIs]; AGroup 22277 1 [sym_kNot]; AGroup 23743 1 [sym_kThen];
     SGroup 4618 1 [sym__exprIsNot]; AGroup 22271 2 syms_83; AGroup 3 3 syms_1;
     AGroup 22167 4 syms_84; AGroup 22273 5 syms_85; AGroup 22169 6 syms_86]);
   (507580, 12, [AGroup 22171 1 [sym_kFdiv]; AGroup 22173 1 [sym_kHat]; AGroup 22175 1 [sym_kAs];
     AGroup 22275 1 [sym_kIs]; AGroup 22277 1 [sym_kNot]; AGroup 23745 1 [sym_kThen];
     SGroup 4618 1 [sym__exprIsNot]; AGroup 22271 2 syms_83; AGroup 3 3 syms_1;
     AGroup 22167 4 syms_84; AGroup 22273 5 syms_85; AGroup 22169 6 syms_86]);
   (507632, 12, [AGroup 22171 1 [sym_kFdiv]; AGroup 22173 1 [sym_kHat]; AGroup 22175 1 [sym_kAs];
     AGroup 22275 1 [sym_kIs]; AGroup 22277 1 [sym_kNot]; AGroup 23747 1 [sym_kThen];
     SGroup 4618 1 [sym__exprIsNot]; AGroup 22271 2 syms_83; AGroup 3 3 syms_1;
     AGroup 22167 4 syms_84; AGroup 22273 5 syms_85; AGroup 22169 6 syms_86]);
   (507684, 12, [AGroup 22171 1 [sym_kFdiv]; AGroup 22173 1 [sym_kHat]; AGroup 22175 1 [sym_kAs];
     AGroup 22275 1 [sym_kIs]; AGroup 22277 1 [sym_kNot]; AGroup 23749 1 [sym_kThen];
     SGroup 4618 1 [sym__exprIsNot]; AGroup 22271 2 syms_83; AGroup 3 3 syms_1;
     AGroup 22167 4 syms_84; AGroup 22273 5 syms_85; AGroup 22169 6 syms_86]);
   (507736, 12, [AGroup 22171 1 [sym_kFdiv]; AGroup 22173 1 [sym_kHat]; AGroup 22175 1 [sym_kAs];
     AGroup 22275 1 [sym_kIs]; AGroup 22277 1 [sym_kNot]; AGroup 23751 1 [sym_kThen];
     SGroup 4618 1 [sym__exprIsNot]; AGroup 22271 2 syms_83; AGroup 3 3 syms_1;
     AGroup 22167 4 syms_84; AGroup 22273 5 syms_85; AGroup 22169 6 syms_86]);
   (507788, 12, [AGroup 22171 1 [sym_kFdiv]; AGroup 22173 1 [sym_kHat]; AGroup 22175 1 [sym_kAs];
     AGroup 22275 1 [sym_kIs]; AGroup 22277 1 [sym_kNot]; AGroup 23753 1 [sym_kThen];
     SGroup 4618 1 [sym__exprIsNot]; AGroup 22271 2 syms_83; AGroup 3 3 syms_1;
     AGroup 22167 4 syms_84; AGroup 22273 5 syms_85; AGroup 22169 6 syms_86]);
   (507840, 12, [AGroup 22171 1 [sym_kFdiv]; AGroup 22173 1 [sym_kHat]; AGroup 22175 1 [sym_kAs];
     AGroup 22275 1 [sym_kIs]; AGroup 22277 1 [sym_kNot]; AGroup 23755 1 [sym_kThen];
     SGroup 4618 1 [sym__exprIsNot]; AGroup 22271 2 syms_83; AGroup 3 3 syms_1;
     AGroup 22167 4 syms_84; AGroup 22273 5 syms_85; AGroup 22169 6 syms_86]);
   (507892, 12, [AGroup 22171 1 [sym_kFdiv]; AGroup 22173 1 [sym_kHat]; AGroup 22175 1 [sym_kAs];
     AGroup 22275 1 [sym_kIs]; AGroup 22277 1 [sym_kNot]; AGroup 23757 1 [sym_kThen];
     SGroup 4618 1 [sym__exprIsNot]; AGroup 22271 2 syms_83; AGroup 3 3 syms_1;
     AGroup 22167 4 syms_84; AGroup 22273 5 syms_85; AGroup 22169 6 syms_86]);
   (507944, 12, [AGroup 22171 1 [sym_kFdiv]; AGroup 22173 1 [sym_kHat]; AGroup 22175 1 [sym_kAs];
     AGroup 22275 1 [sym_kIs]; AGroup 22277 1 [sym_kNot]; AGroup 23759 1 [sym_kThen];
     SGroup 4618 1 [sym__exprIsNot]; AGroup 22271 2 syms_83; AGroup 3 3 syms_1;
     AGroup 22167 4 syms_84; AGroup 22273 5 syms_85; AGroup 22169 6 syms_86]);
   (507996, 12, [AGroup 22171 1 [sym_kFdiv]; AGroup 22173 1 [sym_kHat]; AGroup 22175 1 [sym_kAs];
     AGroup 22275 1 [sym_kIs]; AGroup 22277 1 [sym_kNot]; AGroup 23761 1 [sym_kThen];
     SGroup 4618 1 [sym__exprIsNot]; AGroup 22271 2 syms_83; AGroup 3 3 syms_1;
     AGroup 22167 4 syms_84; AGroup 22273 5 syms_85; AGroup 22169 6 syms_86]);
   (508048, 12, [AGroup 22171 1 [sym_kFdiv]; AGroup 22173 1 [sym_kHat]; AGroup 22175 1 [sym_kAs];
     AGroup 22275 1 [sym_kIs]; AGroup 22277 1 [sym_kNot]; AGroup 23763 1 [sym_kThen];
     SGroup 4618 1 [sym__exprIsNot]; AGroup 22271 2 syms_83; AGroup 3 3 syms_1;
     AGroup 22167 4 syms_84; AGroup 22273 5 syms_85; AGroup 22169 6 syms_86]);
   (508100, 12, [AGroup 21867 1 [sym_kHat]; AGroup 22233 1 [sym_kFdiv]; AGroup 22235 1 [sym_kAs];
     AGroup 22297 1 [sym_kIs]; AGroup 22299 1 [sym_kNot]; AGroup 23765 1 [sym_kDo];
     SGroup 4223 1 [sym__exprIsNot]; AGroup 22293 2 syms_83; AGroup 3 3 syms_1;
     AGroup 22229 4 syms_84; AGroup 22295 5 syms_85; AGroup 22231 6 syms_86]);
   (508152, 12, [AGroup 22171 1 [sym_kFdiv]; AGroup 22173 1 [sym_kHat]; AGroup 22175 1 [sym_kAs];
     AGroup 22275 1 [sym_kIs]; AGroup 22277 1 [sym_kNot]; AGroup 23767 1 [sym_kThen];
     SGroup 4618 1 [sym__exprIsNot]; AGroup 22271 2 syms_83; AGroup 3 3 syms_1;
     AGroup 22167 4 syms_84; AGroup 22273 5 syms_85; AGroup 22169 6 syms_86]);
   (508204, 12, [AGroup 21867 1 [sym_kHat]; AGroup 22233 1 [sym_kFdiv]; AGroup 22235 1 [sym_kAs];
     AGroup 22297 1 [sym_kIs]; AGroup 22299 1 [sym_kNot]; AGroup 23769 1 [sym_kDo];
     SGroup 4223 1 [sym__exprIsNot]; AGroup 22293 2 syms_83; AGroup 3 3 syms_1;
     AGroup 22229 4 syms_84; AGroup 22295 5 syms_85; AGroup 22231 6 syms_86]);
   (508256, 12, [AGroup 22171 1 [sym_kFdiv]; AGroup 22173 1 [sym_kHat]; AGroup 22175 1 [sym_kAs];
     AGroup 22275 1 [sym_kIs]; AGroup 22277 1 [sym_kNot]; AGroup 23771 1 [sym_kThen];
     SGroup 4618 1 [sym__exprIsNot]; AGroup 22271 2 syms_83; AGroup 3 3 syms_1;
     AGroup 22167 4 syms_84; AGroup 22273 5 syms_85; AGroup 22169 6 syms_86]);
   (508308, 12, [AGroup 21867 1 [sym_kHat]; AGroup 22233 1 [sym_kFdiv]; AGroup 22235 1 [sym_kAs];
     AGroup 22297 1 [sym_kIs]; AGroup 22299 1 [sym_kNot]; AGroup 23773 1 [sym_kDo];
     SGroup 4223 1 [sym__exprIsNot]; AGroup 22293 2 syms_83; AGroup 3 3 syms_1;
     AGroup 22229 4 syms_84; AGroup 22295 5 syms_85; AGroup 22231 6 syms_86]);
   (508360, 12, [AGroup 20826 1 [sym_kHat]; AGroup 21595 1 [sym_kAs]; AGroup 22387 1 [sym_kFdiv];
     AGroup 22389 1 [sym_kIs]; AGroup 22391 1 [sym_kNot]; AGroup 23775 1 [anon_sym_RPAREN];
     SGroup 4442 1 [sym__exprIsNot]; AGroup 22379 2 syms_83; AGroup 3 3 syms_1;
     AGroup 22383 4 syms_84; AGroup 22381 5 syms_85; AGroup 22385 6 syms_86]);
   (508412, 12, [AGroup 21329 1 [sym_kDo]; AGroup 21867 1 [sym_kHat]; AGroup 22233 1 [sym_kFdiv];
     AGroup 22235 1 [sym_kAs]; AGroup 22297 1 [sym_kIs]; AGroup 22299 1 [sym_kNot];
     SGroup 4223 1 [sym__exprIsNot]; AGroup 22293 2 syms_83; AGroup 3 3 syms_1;
     AGroup 22229 4 syms_84; AGroup 22295 5 syms_85; AGroup 22231 6 syms_86]);
   (508464, 12, [AGroup 20826 1 [sym_kHat]; AGroup 21595 1 [sym_kAs]; AGroup 22387 1 [sym_kFdiv];
     AGroup 22389 1 [sym_kIs]; AGroup 22391 1 [sym_kNot]; AGroup 22918 1 [anon_sym_SEMI];
     SGroup 4442 1 [sym__exprIsNot]; AGroup 22379 2 syms_83; AGroup 3 3 syms_1;
     AGroup 22383 4 syms_84; AGroup 22381 5 syms_85; AGroup 22385 6 syms_86]);
   (508516, 12, [AGroup 20826 1 [sym_kHat]; AGroup 21595 1 [sym_kAs]; AGroup 22387 1 [sym_kFdiv];
     AGroup 22389 1 [sym_kIs]; AGroup 22391 1 [sym_kNot]; AGroup 23777 1 [anon_sym_RPAREN];
     SGroup 4442 1 [sym__exprIsNot]; AGroup 22379 2 syms_83; AGroup 3 3 syms_1;
     AGroup 22383 4 syms_84; AGroup 22381 5 syms_85; AGroup 22385 6 syms_86]);
   (508568, 12, [AGroup 22171 1 [sym_kFdiv]; AGroup 22173 1 [sym_kHat]; AGroup 22175 1 [sym_kAs];
     AGroup 22275 1 [sym_kIs]; AGroup 22277 1 [sym_kNot]; AGroup 23779 1 [sym_kThen];
     SGroup 4618 1 [sym__exprIsNot]; AGroup 22271 2 syms_83; AGroup 3 3 syms_1;
     AGroup 22167 4 syms_84; AGroup 22273 5 syms_85; AGroup 22169 6 syms_86]);
   (508620, 12, [AGroup 21867 1 [sym_kHat]; AGroup 22233 1 [sym_kFdiv]; AGroup 22235 1 [sym_kAs];
     AGroup 22297 1 [sym_kIs]; AGroup 22299 1 [sym_kNot]; AGroup 23781 1 [sym_kDo];
     SGroup 4223 1 [sym__exprIsNot]; AGroup 22293 2 syms_83; AGroup 3 3 syms_1;
     AGroup 22229 4 syms_84; AGroup 22295 5 syms_85; AGroup 22231 6 syms_86]);
   (508672, 12, [AGroup 21402 1 [sym_kDo]; AGroup 21867 1 [sym_kHat]; AGroup 22233 1 [sym_kFdiv];
     AGroup 22235 1 [sym_kAs]; AGroup 22297 1 [sym_kIs]; AGroup 22299 1 [sym_kNot];
     SGroup 4223 1 [sym__exprIsNot]; AGroup 22293 2 syms_83; AGroup 3 3 syms_1;
     AGroup 22229 4 syms_84; AGroup 22295 5 syms_85; AGroup 22231 6 syms_86]);
   (508724, 12, [AGroup 20826 1 [sym_kHat]; AGroup 21595 1 [sym_kAs]; AGroup 22387 1 [sym_kFdiv];
     AGroup 22389 1 [sym_kIs]; AGroup 22391 1 [sym_kNot]; AGroup 23783 1 [anon_sym_RPAREN];
     SGroup 4442 1 [sym__exprIsNot]; AGroup 22379 2 syms_83; AGroup 3 3 syms_1;
     AGroup 22383 4 syms_84; AGroup 22381 5 syms_85; AGroup 22385 6 syms_86]);
   (508776, 12, [AGroup 21867 1 [sym_kHat]; AGroup 22233 1 [sym_kFdiv]; AGroup 22235 1 [sym_kAs];
     AGroup 22297 1 [sym_kIs]; AGroup 22299 1 [sym_kNot]; AGroup 23785 1 [sym_kDo];
     SGroup 4223 1 [sym__exprIsNot]; AGroup 22293 2 syms_83; AGroup 3 3 syms_1;
     AGroup 22229 4 syms_84; AGroup 22295 5 syms_85; AGroup 22231 6 syms_86]);
   (508828, 12, [AGroup 21226 1 [sym_kDo]; AGroup 21867 1 [sym_kHat]; AGroup 22233 1 [sym_kFdiv];
     AGroup 22235 1 [sym_kAs]; AGroup 22297 1 [sym_kIs]; AGroup 22299 1 [sym_kNot];
     SGroup 4223 1 [sym__exprIsNot]; AGroup 22293 2 syms_83; AGroup 3 3 syms_1;
     AGroup 22229 4 syms_84; AGroup 22295 5 syms_85; AGroup 22231 6 syms_86]);
   (508880, 12, [AGroup 21867 1 [sym_kHat]; AGroup 22233 1 [sym_kFdiv]; AGroup 22235 1 [sym_kAs];
     AGroup 22297 1 [sym_kIs]; AGroup 22299 1 [sym_kNot]; AGroup 23787 1 [sym_kDo];
     SGroup 4223 1 [sym__exprIsNot]; AGroup 22293 2 syms_83; AGroup 3 3 syms_1;
     AGroup 22229 4 syms_84; AGroup 22295 5 syms_85; AGroup 22231 6 syms_86]);
   (508932, 12, [AGroup 21557 1 [sym_kDo]; AGroup 21867 1 [sym_kHat]; AGroup 22233 1 [sym_kFdiv];
     AGroup 22235 1 [sym_kAs]; AGroup 22297 1 [sym_kIs]; AGroup 22299 1 [sym_kNot];
     SGroup 4223 1 [sym__exprIsNot]; AGroup 22293 2 syms_83; AGroup 3 3 syms_1;
     AGroup 22229 4 syms_84; AGroup 22295 5 syms_85; AGroup 22231 6 syms_86]);
   (508984, 12, [AGroup 21791 1 [sym_kHat]; AGroup 21797 1 [sym_kFdiv]; AGroup 21799 1 [sym_kAs];
     AGroup 21893 1 [sym_kIs]; AGroup 21895 1 [sym_kNot]; AGroup 23789 1 [sym_kElse];
     SGroup 4923 1 [sym__exprIsNot]; AGroup 21889 2 syms_83; AGroup 3 3 syms_1;
     AGroup 21793 4 syms_84; AGroup 21891 5 syms_85; AGroup 21795 6 syms_86]);
   (509036, 12, [AGroup 20826 1 [sym_kHat]; AGroup 21595 1 [sym_kAs]; AGroup 22387 1 [sym_kFdiv];
     AGroup 22389 1 [sym_kIs]; AGroup 22391 1 [sym_kNot]; AGroup 22796 1 [anon_sym_SEMI];
     SGroup 4442 1 [sym__exprIsNot]; AGroup 22379 2 syms_83; AGroup 3 3 syms_1;
     AGroup 22383 4 syms_84; AGroup 22381 5 syms_85; AGroup 22385 6 syms_86]);
   (509088, 12, [AGroup 20826 1 [sym_kHat]; AGroup 21595 1 [sym_kAs]; AGroup 22387 1 [sym_kFdiv];
     AGroup 22389 1 [sym_kIs]; AGroup 22391 1 [sym_kNot]; AGroup 22922 1 [anon_sym_SEMI];
     SGroup 4442 1 [sym__exprIsNot]; AGroup 22379 2 syms_83; AGroup 3 3 syms_1;
     AGroup 22383 4 syms_84; AGroup 22381 5 syms_85; AGroup 22385 6 syms_86]);
   (509140, 12, [AGroup 22171 1 [sym_kFdiv]; AGroup 22173 1 [sym_kHat]; AGroup 22175 1 [sym_kAs];
     AGroup 22275 1 [sym_kIs]; AGroup 22277 1 [sym_kNot]; AGroup 23791 1 [sym_kThen];
     SGroup 4618 1 [sym__exprIsNot]; AGroup 22271 2 syms_83; AGroup 3 3 syms_1;
     AGroup 22167 4 syms_84; AGroup 22273 5 syms_85; AGroup 22169 6 syms_86]);
   (509192, 12, [AGroup 21791 1 [sym_kHat]; AGroup 21797 1 [sym_kFdiv]; AGroup 21799 1 [sym_kAs];
     AGroup 21893 1 [sym_kIs]; AGroup 21895 1 [sym_kNot]; AGroup 23793 1 [sym_kElse];
     SGroup 4923 1 [sym__exprIsNot]; AGroup 21889 2 syms_83; AGroup 3 3 syms_1;
     AGroup 21793 4 syms_84; AGroup 21891 5 syms_85; AGroup 21795 6 syms_86]);
   (509244, 12, [AGroup 21867 1 [sym_kHat]; AGroup 22233 1 [sym_kFdiv]; AGroup 22235 1 [sym_kAs];
     AGroup 22297 1 [sym_kIs]; AGroup 22299 1 [sym_kNot]; AGroup 23795 1 [sym_kDo];
     SGroup 4223 1 [sym__exprIsNot]; AGroup 22293 2 syms_83; AGroup 3 3 syms_1;
     AGroup 22229 4 syms_84; AGroup 22295 5 syms_85; AGroup 22231 6 syms_86]);
   (509296, 12, [AGroup 21791 1 [sym_kHat]; AGroup 21797 1 [sym_kFdiv]; AGroup 21799 1 [sym_kAs];
     AGroup 21893 1 [sym_kIs]; AGroup 21895 1 [sym_kNot]; AGroup 23797 1 [sym_kElse];
     SGroup 4923 1 [sym__exprIsNot]; AGroup 21889 2 syms_83; AGroup 3 3 syms_1;
     AGroup 21793 4 syms_84; AGroup 21891 5 syms_85; AGroup 21795 6 syms_86]);
   (509348, 12, [AGroup 20826 1 [sym_kHat]; AGroup 21595 1 [sym_kAs]; AGroup 22387 1 [sym_kFdiv];
     AGroup 22389 1 [sym_kIs]; AGroup 22391 1 [sym_kNot]; AGroup 22818 1 [anon_sym_SEMI];
     SGroup 4442 1 [sym__exprIsNot]; AGroup 22379 2 syms_83; AGroup 3 3 syms_1;
     AGroup 22383 4 syms_84; AGroup 22381 5 syms_85; AGroup 22385 6 syms_86]);
   (509400, 12, [AGroup 20826 1 [sym_kHat]; AGroup 21595 1 [sym_kAs]; AGroup 22387 1 [sym_kFdiv];
     AGroup 22389 1 [sym_kIs]; AGroup 22391 1 [sym_kNot]; AGroup 23799 1 [anon_sym_RPAREN];
     SGroup 4442 1 [sym__exprIsNot]; AGroup 22379 2 syms_83; AGroup 3 3 syms_1;
     AGroup 22383 4 syms_84; AGroup 22381 5 syms_85; AGroup 22385 6 syms_86]);
   (509452, 12, [AGroup 21791 1 [sym_kHat]; AGroup 21797 1 [sym_kFdiv]; AGroup 21799 1 [sym_kAs];
     AGroup 21893 1 [sym_kIs]; AGroup 21895 1 [sym_kNot]; AGroup 23801 1 [sym_kElse];
     SGroup 4923 1 [sym__exprIsNot]; AGroup 21889 2 syms_83; AGroup 3 3 syms_1;
     AGroup 21793 4 syms_84; AGroup 21891 5 syms_85; AGroup 21795 6 syms_86]);
   (509504, 12, [AGroup 20826 1 [sym_kHat]; AGroup 21595 1 [sym_kAs]; AGroup 22387 1 [sym_kFdiv];
     AGroup 22389 1 [sym_kIs]; AGroup 22391 1 [sym_kNot]; AGroup 22824 1 [anon_sym_SEMI];
     SGroup 4442 1 [sym__exprIsNot]; AGroup 22379 2 syms_83; AGroup 3 3 syms_1;
     AGroup 22383 4 syms_84; AGroup 22381 5 syms_85; AGroup 22385 6 syms_86]);
   (509556, 12, [AGroup 21791 1 [sym_kHat]; AGroup 21797 1 [sym_kFdiv]; AGroup 21799 1 [sym_kAs];
     AGroup 21893 1 [sym_kIs]; AGroup 21895 1 [sym_kNot]; AGroup 23803 1 [sym_kElse];
     SGroup 4923 1 [sym__exprIsNot]; AGroup 21889 2 syms_83; AGroup 3 3 syms_1;
     AGroup 21793 4 syms_84; AGroup 21891 5 syms_85; AGroup 21795 6 syms_86]);
   (509608, 12, [AGroup 21867 1 [sym_kHat]; AGroup 22233 1 [sym_kFdiv]; AGroup 22235 1 [sym_kAs];
     AGroup 22297 1 [sym_kIs]; AGroup 22299 1 [sym_kNot]; AGroup 23805 1 [sym_kDo];
     SGroup 4223 1 [sym__exprIsNot]; AGroup 22293 2 syms_83; AGroup 3 3 syms_1;
     AGroup 22229 4 syms_84; AGroup 22295 5 syms_85; AGroup 22231 6 syms_86]);
   (509660, 12, [AGroup 21231 1 [sym_kDo]; AGroup 21867 1 [sym_kHat]; AGroup 22233 1 [sym_kFdiv];
     AGroup 22235 1 [sym_kAs]; AGroup 22297 1 [sym_kIs]; AGroup 22299 1 [sym_kNot];
     SGroup 4223 1 [sym__exprIsNot]; AGroup 22293 2 syms_83; AGroup 3 3 syms_1;
     AGroup 22229 4 syms_84; AGroup 22295 5 syms_85; AGroup 22231 6 syms_86]);
   (509712, 12, [AGroup 22171 1 [sym_kFdiv]; AGroup 22173 1 [sym_kHat]; AGroup 22175 1 [sym_kAs];
     AGroup 22275 1 [sym_kIs]; AGroup 22277 1 [sym_kNot]; AGroup 23807 1 [sym_kThen];
     SGroup 4618 1 [sym__exprIsNot]; AGroup 22271 2 syms_83; AGroup 3 3 syms_1;
     AGroup 22167 4 syms_84; AGroup 22273 5 syms_85; AGroup 22169 6 syms_86]);
   (509764, 12, [AGroup 21063 1 [sym_kHat]; AGroup 21069 1 [sym_kFdiv]; AGroup 21071 1 [sym_kAs];
     AGroup 21133 1 [sym_kIs]; AGroup 21135 1 [sym_kNot]; AGroup 23809 1 [sym_kOf];
     SGroup 5025 1 [sym__exprIsNot]; AGroup 21129 2 syms_83; AGroup 3 3 syms_1;
     AGroup 21065 4 syms_84; AGroup 21131 5 syms_85; AGroup 21067 6 syms_86]);
   (509816, 12, [AGroup 21791 1 [sym_kHat]; AGroup 21797 1 [sym_kFdiv]; AGroup 21799 1 [sym_kAs];
     AGroup 21893 1 [sym_kIs]; AGroup 21895 1 [sym_kNot]; AGroup 23811 1 [sym_kElse];
     SGroup 4923 1 [sym__exprIsNot]; AGroup 21889 2 syms_83; AGroup 3 3 syms_1;
     AGroup 21793 4 syms_84; AGroup 21891 5 syms_85; AGroup 21795 6 syms_86]);
   (509868, 3, [AGroup 5 1 [sym_ppDirective]; AGroup 3 2 syms_5; AGroup 9810 24 syms_691]);
   (509902, 12, [AGroup 21867 1 [sym_kHat]; AGroup 22233 1 [sym_kFdiv]; AGroup 22235 1 [sym_kAs];
     AGroup 22297 1 [sym_kIs]; AGroup 22299 1 [sym_kNot]; AGroup 23813 1 [sym_kDo];
     SGroup 4223 1 [sym__exprIsNot]; AGroup 22293 2 syms_83; AGroup 3 3 syms_1;
     AGroup 22229 4 syms_84; AGroup 22295 5 syms_85; AGroup 22231 6 syms_86]);
   (509954, 3, [AGroup 5 1 [sym_ppDirective]; AGroup 3 2 syms_5; AGroup 11005 24 syms_690]);
   (509988, 12, [AGroup 22171 1 [sym_kFdiv]; AGroup 22173 1 [sym_kHat]; AGroup 22175 1 [sym_kAs];
     AGroup 22275 1 [sym_kIs]; AGroup 22277 1 [sym_kNot]; AGroup 23815 1 [sym_kThen];
     SGroup 4618 1 [sym__exprIsNot]; AGroup 22271 2 syms_83; AGroup 3 3 syms_1;
     AGroup 22167 4 syms_84; AGroup 22273 5 syms_85; AGroup 22169 6 syms_86]);
   (510040, 12, [AGroup 22171 1 [sym_kFdiv]; AGroup 22173 1 [sym_kHat]; AGroup 22175 1 [sym_kAs];
     AGroup 22275 1 [sym_kIs]; AGroup 22277 1 [sym_kNot]; AGroup 23817 1 [sym_kThen];
     SGroup 4618 1 [sym__exprIsNot]; AGroup 22271 2 syms_83; AGroup 3 3 syms_1;
     AGroup 22167 4 syms_84; AGroup 22273 5 syms_85; AGroup 22169 6 syms_86]);
   (510092, 3, [AGroup 5 1 [sym_ppDirective]; AGroup 3 2 syms_5; AGroup 9918 24 syms_687]);
   (510126, 11, [AGroup 20377 1 [sym_kHat]; AGroup 20381 1 [sym_kAs]; AGroup 22387 1 [sym_kFdiv];
     AGroup 22389 1 [sym_kIs]; AGroup 22391 1 [sym_kNot]; SGroup 4442 1 [sym__exprIsNot];
     AGroup 22379 2 syms_83; AGroup 3 3 syms_1; AGroup 22383 4 syms_84; AGroup 22381 5 syms_85;
     AGroup 22385 6 syms_86]);
   (510175, 3, [AGroup 5 1 [sym_ppDirective]; AGroup 3 2 syms_5; AGroup 11009 23 syms_692]);
   (510208, 3, [AGroup 5 1 [sym_ppDirective]; AGroup 3 2 syms_5; AGroup 11013 23 syms_680]);
   (510241, 3, [AGroup 5 1 [sym_ppDirective]; AGroup 3 2 syms_5; AGroup 10932 23 syms_680]);
   (510274, 3, [AGroup 5 1 [sym_ppDirective]; AGroup 3 2 syms_5; AGroup 10989 23 syms_692]);
   (510307, 3, [AGroup 5 1 [sym_ppDirective]; AGroup 3 2 syms_5; AGroup 11001 23 syms_680]);
   (510340, 3, [AGroup 5 1 [sym_ppDirective]; AGroup 3 2 syms_5; AGroup 11037 23 syms_680]);
   (510373, 11, [AGroup 20868 1 [sym_kHat]; AGroup 20876 1 [sym_kAs]; AGroup 22387 1 [sym_kFdiv];
     AGroup 22389 1 [sym_kIs]; AGroup 22391 1 [sym_kNot]; SGroup 4442 1 [sym__exprIsNot];
     AGroup 22379 2 syms_83; AGroup 3 3 syms_1; AGroup 22383 4 syms_84; AGroup 22381 5 syms_85;
     AGroup 22385 6 syms_86]);
   (510422, 11, [AGroup 22173 1 [sym_kHat]; AGroup 22175 1 [sym_kAs]; AGroup 22387 1 [sym_kFdiv];
     AGroup 22389 1 [sym_kIs]; AGroup 22391 1 [sym_kNot]; SGroup 4442 1 [sym__exprIsNot];
     AGroup 22379 2 syms_83; AGroup 3 3 syms_1; AGroup 22383 4 syms_84; AGroup 22381 5 syms_85;
     AGroup 22385 6 syms_86]);
   (510471, 11, [AGroup 21791 1 [sym_kHat]; AGroup 21799 1 [sym_kAs]; AGroup 22387 1 [sym_kFdiv];
     AGroup 22389 1 [sym_kIs]; AGroup 22391 1 [sym_kNot]; SGroup 4442 1 [sym__exprIsNot];
     AGroup 22379 2 syms_83; AGroup 3 3 syms_1; AGroup 22383 4 syms_84; AGroup 22381 5 syms_85;
     AGroup 22385 6 syms_86]);
   (510520, 3, [AGroup 5 1 [sym_ppDirective]; AGroup 3 2 syms_5; AGroup 11041 23 syms_680])
  ].

(** States 10259 to 10358. *)
Definition small_runs_10259 : list small_run :=
  [
   (510553, 3, [AGroup 5 1 [sym_ppDirective]; AGroup 3 2 syms_5; AGroup 11013 23 syms_692]);
   (510586, 3, [AGroup 5 1 [sym_ppDirective]; AGroup 3 2 syms_5; AGroup 11017 23 syms_692]);
   (510619, 3, [AGroup 5 1 [sym_ppDirective]; AGroup 3 2 syms_5; AGroup 11025 23 syms_692]);
   (510652, 3, [AGroup 5 1 [sym_ppDirective]; AGroup 3 2 syms_5; AGroup 11029 23 syms_692]);
   (510685, 11, [AGroup 19957 1 [sym_kHat]; AGroup 19965 1 [sym_kAs]; AGroup 22387 1 [sym_kFdiv];
     AGroup 22389 1 [sym_kIs]; AGroup 22391 1 [sym_kNot]; SGroup 4442 1 [sym__exprIsNot];
     AGroup 22379 2 syms_83; AGroup 3 3 syms_1; AGroup 22383 4 syms_84; AGroup 22381 5 syms_85;
     AGroup 22385 6 syms_86]);
   (510734, 11, [AGroup 21979 1 [sym_kHat]; AGroup 21987 1 [sym_kAs]; AGroup 22387 1 [sym_kFdiv];
     AGroup 22389 1 [sym_kIs]; AGroup 22391 1 [sym_kNot]; SGroup 4442 1 [sym__exprIsNot];
     AGroup 22379 2 syms_83; AGroup 3 3 syms_1; AGroup 22383 4 syms_84; AGroup 22381 5 syms_85;
     AGroup 22385 6 syms_86]);
   (510783, 3, [AGroup 5 1 [sym_ppDirective]; AGroup 3 2 syms_5; AGroup 11021 23 syms_692]);
   (510816, 11, [AGroup 21773 1 [sym_kHat]; AGroup 21781 1 [sym_kAs]; AGroup 22387 1 [sym_kFdiv];
     AGroup 22389 1 [sym_kIs]; AGroup 22391 1 [sym_kNot]; SGroup 4442 1 [sym__exprIsNot];
     AGroup 22379 2 syms_83; AGroup 3 3 syms_1; AGroup 22383 4 syms_84; AGroup 22381 5 syms_85;
     AGroup 22385 6 syms_86]);
   (510865, 3, [AGroup 5 1 [sym_ppDirective]; AGroup 3 2 syms_5; AGroup 10932 23 syms_692]);
   (510898, 3, [AGroup 5 1 [sym_ppDirective]; AGroup 3 2 syms_5; AGroup 11045 23 syms_692]);
   (510931, 11, [AGroup 21063 1 [sym_kHat]; AGroup 21071 1 [sym_kAs]; AGroup 22387 1 [sym_kFdiv];
     AGroup 22389 1 [sym_kIs]; AGroup 22391 1 [sym_kNot]; SGroup 4442 1 [sym__exprIsNot];
     AGroup 22379 2 syms_83; AGroup 3 3 syms_1; AGroup 22383 4 syms_84; AGroup 22381 5 syms_85;
     AGroup 22385 6 syms_86]);
   (510980, 11, [AGroup 20690 1 [sym_kHat]; AGroup 20698 1 [sym_kAs]; AGroup 22387 1 [sym_kFdiv];
     AGroup 22389 1 [sym_kIs]; AGroup 22391 1 [sym_kNot]; SGroup 4442 1 [sym__exprIsNot];
     AGroup 22379 2 syms_83; AGroup 3 3 syms_1; AGroup 22383 4 syms_84; AGroup 22381 5 syms_85;
     AGroup 22385 6 syms_86]);
   (511029, 11, [AGroup 21909 1 [sym_kHat]; AGroup 21917 1 [sym_kAs]; AGroup 22387 1 [sym_kFdiv];
     AGroup 22389 1 [sym_kIs]; AGroup 22391 1 [sym_kNot]; SGroup 4442 1 [sym__exprIsNot];
     AGroup 22379 2 syms_83; AGroup 3 3 syms_1; AGroup 22383 4 syms_84; AGroup 22381 5 syms_85;
     AGroup 22385 6 syms_86]);
   (511078, 11, [AGroup 20423 1 [sym_kHat]; AGroup 20427 1 [sym_kAs]; AGroup 22387 1 [sym_kFdiv];
     AGroup 22389 1 [sym_kIs]; AGroup 22391 1 [sym_kNot]; SGroup 4442 1 [sym__exprIsNot];
     AGroup 22379 2 syms_83; AGroup 3 3 syms_1; AGroup 22383 4 syms_84; AGroup 22381 5 syms_85;
     AGroup 22385 6 syms_86]);
   (511127, 11, [AGroup 20884 1 [sym_kHat]; AGroup 20886 1 [sym_kAs]; AGroup 22387 1 [sym_kFdiv];
     AGroup 22389 1 [sym_kIs]; AGroup 22391 1 [sym_kNot]; SGroup 4442 1 [sym__exprIsNot];
     AGroup 22379 2 syms_83; AGroup 3 3 syms_1; AGroup 22383 4 syms_84; AGroup 22381 5 syms_85;
     AGroup 22385 6 syms_86]);
   (511176, 11, [AGroup 21466 1 [sym_kHat]; AGroup 21474 1 [sym_kAs]; AGroup 22387 1 [sym_kFdiv];
     AGroup 22389 1 [sym_kIs]; AGroup 22391 1 [sym_kNot]; SGroup 4442 1 [sym__exprIsNot];
     AGroup 22379 2 syms_83; AGroup 3 3 syms_1; AGroup 22383 4 syms_84; AGroup 22381 5 syms_85;
     AGroup 22385 6 syms_86]);
   (511225, 11, [AGroup 20211 1 [sym_kHat]; AGroup 20219 1 [sym_kAs]; AGroup 22387 1 [sym_kFdiv];
     AGroup 22389 1 [sym_kIs]; AGroup 22391 1 [sym_kNot]; SGroup 4442 1 [sym__exprIsNot];
     AGroup 22379 2 syms_83; AGroup 3 3 syms_1; AGroup 22383 4 syms_84; AGroup 22381 5 syms_85;
     AGroup 22385 6 syms_86]);
   (511274, 7, [AGroup 5 1 [sym_ppDirective]; AGroup 21299 1 [anon_sym_DOT]; AGroup 23819 1 [sym_kLt];
     AGroup 23821 1 [sym_kDeprecated]; SGroup 11289 1 [sym_kDot]; AGroup 3 2 syms_5;
     AGroup 21297 19 syms_229]);
   (511315, 11, [AGroup 21317 1 [sym_kHat]; AGroup 21337 1 [sym_kAs]; AGroup 22387 1 [sym_kFdiv];
     AGroup 22389 1 [sym_kIs]; AGroup 22391 1 [sym_kNot]; SGroup 4442 1 [sym__exprIsNot];
     AGroup 22379 2 syms_83; AGroup 3 3 syms_1; AGroup 22383 4 syms_84; AGroup 22381 5 syms_85;
     AGroup 22385 6 syms_86]);
   (511364, 11, [AGroup 21339 1 [sym_kHat]; AGroup 21347 1 [sym_kAs]; AGroup 22387 1 [sym_kFdiv];
     AGroup 22389 1 [sym_kIs]; AGroup 22391 1 [sym_kNot]; SGroup 4442 1 [sym__exprIsNot];
     AGroup 22379 2 syms_83; AGroup 3 3 syms_1; AGroup 22383 4 syms_84; AGroup 22381 5 syms_85;
     AGroup 22385 6 syms_86]);
   (511413, 11, [AGroup 20736 1 [sym_kHat]; AGroup 20738 1 [sym_kAs]; AGroup 22387 1 [sym_kFdiv];
     AGroup 22389 1 [sym_kIs]; AGroup 22391 1 [sym_kNot]; SGroup 4442 1 [sym__exprIsNot];
     AGroup 22379 2 syms_83; AGroup 3 3 syms_1; AGroup 22383 4 syms_84; AGroup 22381 5 syms_85;
     AGroup 22385 6 syms_86]);
   (511462, 11, [AGroup 21945 1 [sym_kHat]; AGroup 21953 1 [sym_kAs]; AGroup 22387 1 [sym_kFdiv];
     AGroup 22389 1 [sym_kIs]; AGroup 22391 1 [sym_kNot]; SGroup 4442 1 [sym__exprIsNot];
     AGroup 22379 2 syms_83; AGroup 3 3 syms_1; AGroup 22383 4 syms_84; AGroup 22381 5 syms_85;
     AGroup 22385 6 syms_86]);
   (511511, 3, [AGroup 5 1 [sym_ppDirective]; AGroup 3 2 syms_5; AGroup 10977 23 syms_692]);
   (511544, 3, [AGroup 5 1 [sym_ppDirective]; AGroup 3 2 syms_5; AGroup 10957 23 syms_692]);
   (511577, 3, [AGroup 5 1 [sym_ppDirective]; AGroup 3 2 syms_5; AGroup 10961 23 syms_692]);
   (511610, 3, [AGroup 5 1 [sym_ppDirective]; AGroup 3 2 syms_5; AGroup 10928 23 syms_680]);
   (511643, 3, [AGroup 5 1 [sym_ppDirective]; AGroup 3 2 syms_5; AGroup 10965 23 syms_692]);
   (511676, 11, [AGroup 20916 1 [sym_kHat]; AGroup 20924 1 [sym_kAs]; AGroup 22387 1 [sym_kFdiv];
     AGroup 22389 1 [sym_kIs]; AGroup 22391 1 [sym_kNot]; SGroup 4442 1 [sym__exprIsNot];
     AGroup 22379 2 syms_83; AGroup 3 3 syms_1; AGroup 22383 4 syms_84; AGroup 22381 5 syms_85;
     AGroup 22385 6 syms_86]);
   (511725, 4, [AGroup 5 1 [sym_ppDirective]; SGroup 11289 1 [sym_kDot]; AGroup 3 2 syms_5;
     AGroup 21181 22 syms_693]);
   (511760, 11, [AGroup 21579 1 [sym_kHat]; AGroup 21581 1 [sym_kAs]; AGroup 22387 1 [sym_kFdiv];
     AGroup 22389 1 [sym_kIs]; AGroup 22391 1 [sym_kNot]; SGroup 4442 1 [sym__exprIsNot];
     AGroup 22379 2 syms_83; AGroup 3 3 syms_1; AGroup 22383 4 syms_84; AGroup 22381 5 syms_85;
     AGroup 22385 6 syms_86]);
   (511809, 3, [AGroup 5 1 [sym_ppDirective]; AGroup 3 2 syms_5; AGroup 11005 23 syms_692]);
   (511842, 11, [AGroup 13363 1 [sym_kHat]; AGroup 13375 1 [sym_kAs]; AGroup 22387 1 [sym_kFdiv];
     AGroup 22389 1 [sym_kIs]; AGroup 22391 1 [sym_kNot]; SGroup 4442 1 [sym__exprIsNot];
     AGroup 22379 2 syms_83; AGroup 3 3 syms_1; AGroup 22383 4 syms_84; AGroup 22381 5 syms_85;
     AGroup 22385 6 syms_86]);
   (511891, 7, [AGroup 5 1 [sym_ppDirective]; AGroup 21299 1 [anon_sym_DOT]; AGroup 23819 1 [sym_kLt];
     AGroup 23823 1 [sym_kDeprecated]; SGroup 11289 1 [sym_kDot]; AGroup 3 2 syms_5;
     AGroup 21307 19 syms_229]);
   (511932, 11, [AGroup 21257 1 [sym_kHat]; AGroup 21267 1 [sym_kAs]; AGroup 22387 1 [sym_kFdiv];
     AGroup 22389 1 [sym_kIs]; AGroup 22391 1 [sym_kNot]; SGroup 4442 1 [sym__exprIsNot];
     AGroup 22379 2 syms_83; AGroup 3 3 syms_1; AGroup 22383 4 syms_84; AGroup 22381 5 syms_85;
     AGroup 22385 6 syms_86]);
   (511981, 11, [AGroup 20335 1 [sym_kHat]; AGroup 20339 1 [sym_kAs]; AGroup 22387 1 [sym_kFdiv];
     AGroup 22389 1 [sym_kIs]; AGroup 22391 1 [sym_kNot]; SGroup 4442 1 [sym__exprIsNot];
     AGroup 22379 2 syms_83; AGroup 3 3 syms_1; AGroup 22383 4 syms_84; AGroup 22381 5 syms_85;
     AGroup 22385 6 syms_86]);
   (512030, 11, [AGroup 19927 1 [sym_kHat]; AGroup 19935 1 [sym_kAs]; AGroup 22387 1 [sym_kFdiv];
     AGroup 22389 1 [sym_kIs]; AGroup 22391 1 [sym_kNot]; SGroup 4442 1 [sym__exprIsNot];
     AGroup 22379 2 syms_83; AGroup 3 3 syms_1; AGroup 22383 4 syms_84; AGroup 22381 5 syms_85;
     AGroup 22385 6 syms_86]);
   (512079, 3, [AGroup 5 1 [sym_ppDirective]; AGroup 3 2 syms_5; AGroup 10969 23 syms_692]);
   (512112, 3, [AGroup 5 1 [sym_ppDirective]; AGroup 3 2 syms_5; AGroup 10981 23 syms_692]);
   (512145, 3, [AGroup 5 1 [sym_ppDirective]; AGroup 3 2 syms_5; AGroup 10973 23 syms_692]);
   (512178, 11, [AGroup 21111 1 [sym_kHat]; AGroup 21119 1 [sym_kAs]; AGroup 22387 1 [sym_kFdiv];
     AGroup 22389 1 [sym_kIs]; AGroup 22391 1 [sym_kNot]; SGroup 4442 1 [sym__exprIsNot];
     AGroup 22379 2 syms_83; AGroup 3 3 syms_1; AGroup 22383 4 syms_84; AGroup 22381 5 syms_85;
     AGroup 22385 6 syms_86]);
   (512227, 11, [AGroup 21357 1 [sym_kHat]; AGroup 21373 1 [sym_kAs]; AGroup 22387 1 [sym_kFdiv];
     AGroup 22389 1 [sym_kIs]; AGroup 22391 1 [sym_kNot]; SGroup 4442 1 [sym__exprIsNot];
     AGroup 22379 2 syms_83; AGroup 3 3 syms_1; AGroup 22383 4 syms_84; AGroup 22381 5 syms_85;
     AGroup 22385 6 syms_86]);
   (512276, 3, [AGroup 5 1 [sym_ppDirective]; AGroup 3 2 syms_5; AGroup 10969 23 syms_680]);
   (512309, 3, [AGroup 5 1 [sym_ppDirective]; AGroup 3 2 syms_5; AGroup 9810 23 syms_680]);
   (512342, 11, [AGroup 20794 1 [sym_kHat]; AGroup 20806 1 [sym_kAs]; AGroup 22387 1 [sym_kFdiv];
     AGroup 22389 1 [sym_kIs]; AGroup 22391 1 [sym_kNot]; SGroup 4442 1 [sym__exprIsNot];
     AGroup 22379 2 syms_83; AGroup 3 3 syms_1; AGroup 22383 4 syms_84; AGroup 22381 5 syms_85;
     AGroup 22385 6 syms_86]);
   (512391, 11, [AGroup 20601 1 [sym_kHat]; AGroup 20609 1 [sym_kAs]; AGroup 22387 1 [sym_kFdiv];
     AGroup 22389 1 [sym_kIs]; AGroup 22391 1 [sym_kNot]; SGroup 4442 1 [sym__exprIsNot];
     AGroup 22379 2 syms_83; AGroup 3 3 syms_1; AGroup 22383 4 syms_84; AGroup 22381 5 syms_85;
     AGroup 22385 6 syms_86]);
   (512440, 3, [AGroup 5 1 [sym_ppDirective]; AGroup 3 2 syms_5; AGroup 11005 23 syms_680]);
   (512473, 11, [AGroup 19569 1 [sym_kHat]; AGroup 19581 1 [sym_kAs]; AGroup 22387 1 [sym_kFdiv];
     AGroup 22389 1 [sym_kIs]; AGroup 22391 1 [sym_kNot]; SGroup 4442 1 [sym__exprIsNot];
     AGroup 22379 2 syms_83; AGroup 3 3 syms_1; AGroup 22383 4 syms_84; AGroup 22381 5 syms_85;
     AGroup 22385 6 syms_86]);
   (512522, 11, [AGroup 21867 1 [sym_kHat]; AGroup 22235 1 [sym_kAs]; AGroup 22387 1 [sym_kFdiv];
     AGroup 22389 1 [sym_kIs]; AGroup 22391 1 [sym_kNot]; SGroup 4442 1 [sym__exprIsNot];
     AGroup 22379 2 syms_83; AGroup 3 3 syms_1; AGroup 22383 4 syms_84; AGroup 22381 5 syms_85;
     AGroup 22385 6 syms_86]);
   (512571, 11, [AGroup 21813 1 [sym_kHat]; AGroup 21821 1 [sym_kAs]; AGroup 22387 1 [sym_kFdiv];
     AGroup 22389 1 [sym_kIs]; AGroup 22391 1 [sym_kNot]; SGroup 4442 1 [sym__exprIsNot];
     AGroup 22379 2 syms_83; AGroup 3 3 syms_1; AGroup 22383 4 syms_84; AGroup 22381 5 syms_85;
     AGroup 22385 6 syms_86]);
   (512620, 11, [AGroup 20089 1 [sym_kHat]; AGroup 20093 1 [sym_kAs]; AGroup 22387 1 [sym_kFdiv];
     AGroup 22389 1 [sym_kIs]; AGroup 22391 1 [sym_kNot]; SGroup 4442 1 [sym__exprIsNot];
     AGroup 22379 2 syms_83; AGroup 3 3 syms_1; AGroup 22383 4 syms_84; AGroup 22381 5 syms_85;
     AGroup 22385 6 syms_86]);
   (512669, 3, [AGroup 5 1 [sym_ppDirective]; AGroup 3 2 syms_5; AGroup 11049 23 syms_680]);
   (512702, 11, [AGroup 21349 1 [sym_kHat]; AGroup 21365 1 [sym_kAs]; AGroup 22387 1 [sym_kFdiv];
     AGroup 22389 1 [sym_kIs]; AGroup 22391 1 [sym_kNot]; SGroup 4442 1 [sym__exprIsNot];
     AGroup 22379 2 syms_83; AGroup 3 3 syms_1; AGroup 22383 4 syms_84; AGroup 22381 5 syms_85;
     AGroup 22385 6 syms_86]);
   (512751, 3, [AGroup 5 1 [sym_ppDirective]; AGroup 3 2 syms_5; AGroup 10985 23 syms_692]);
   (512784, 11, [AGroup 20287 1 [sym_kHat]; AGroup 20295 1 [sym_kAs]; AGroup 22387 1 [sym_kFdiv];
     AGroup 22389 1 [sym_kIs]; AGroup 22391 1 [sym_kNot]; SGroup 4442 1 [sym__exprIsNot];
     AGroup 22379 2 syms_83; AGroup 3 3 syms_1; AGroup 22383 4 syms_84; AGroup 22381 5 syms_85;
     AGroup 22385 6 syms_86]);
   (512833, 11, [AGroup 20826 1 [sym_kHat]; AGroup 21595 1 [sym_kAs]; AGroup 22387 1 [sym_kFdiv];
     AGroup 22389 1 [sym_kIs]; AGroup 22391 1 [sym_kNot]; SGroup 4442 1 [sym__exprIsNot];
     AGroup 22379 2 syms_83; AGroup 3 3 syms_1; AGroup 22383 4 syms_84; AGroup 22381 5 syms_85;
     AGroup 22385 6 syms_86]);
   (512882, 11, [AGroup 21083 1 [sym_kHat]; AGroup 21091 1 [sym_kAs]; AGroup 22387 1 [sym_kFdiv];
     AGroup 22389 1 [sym_kIs]; AGroup 22391 1 [sym_kNot]; SGroup 4442 1 [sym__exprIsNot];
     AGroup 22379 2 syms_83; AGroup 3 3 syms_1; AGroup 22383 4 syms_84; AGroup 22381 5 syms_85;
     AGroup 22385 6 syms_86]);
   (512931, 3, [AGroup 5 1 [sym_ppDirective]; AGroup 3 2 syms_5; AGroup 10924 23 syms_680]);
   (512964, 11, [AGroup 20139 1 [sym_kHat]; AGroup 20147 1 [sym_kAs]; AGroup 22387 1 [sym_kFdiv];
     AGroup 22389 1 [sym_kIs]; AGroup 22391 1 [sym_kNot]; SGroup 4442 1 [sym__exprIsNot];
     AGroup 22379 2 syms_83; AGroup 3 3 syms_1; AGroup 22383 4 syms_84; AGroup 22381 5 syms_85;
     AGroup 22385 6 syms_86]);
   (513013, 3, [AGroup 5 1 [sym_ppDirective]; AGroup 3 2 syms_5; AGroup 11049 23 syms_692]);
   (513046, 11, [AGroup 21215 1 [sym_kHat]; AGroup 21217 1 [sym_kAs]; AGroup 22387 1 [sym_kFdiv];
     AGroup 22389 1 [sym_kIs]; AGroup 22391 1 [sym_kNot]; SGroup 4442 1 [sym__exprIsNot];
     AGroup 22379 2 syms_83; AGroup 3 3 syms_1; AGroup 22383 4 syms_84; AGroup 22381 5 syms_85;
     AGroup 22385 6 syms_86]);
   (513095, 11, [AGroup 21033 1 [sym_kHat]; AGroup 21041 1 [sym_kAs]; AGroup 22387 1 [sym_kFdiv];
     AGroup 22389 1 [sym_kIs]; AGroup 22391 1 [sym_kNot]; SGroup 4442 1 [sym__exprIsNot];
     AGroup 22379 2 syms_83; AGroup 3 3 syms_1; AGroup 22383 4 syms_84; AGroup 22381 5 syms_85;
     AGroup 22385 6 syms_86]);
   (513144, 11, [AGroup 19669 1 [sym_kHat]; AGroup 19677 1 [sym_kAs]; AGroup 22387 1 [sym_kFdiv];
     AGroup 22389 1 [sym_kIs]; AGroup 22391 1 [sym_kNot]; SGroup 4442 1 [sym__exprIsNot];
     AGroup 22379 2 syms_83; AGroup 3 3 syms_1; AGroup 22383 4 syms_84; AGroup 22381 5 syms_85;
     AGroup 22385 6 syms_86]);
   (513193, 3, [AGroup 5 1 [sym_ppDirective]; AGroup 3 2 syms_5; AGroup 11017 23 syms_680]);
   (513226, 11, [AGroup 21505 1 [sym_kHat]; AGroup 21519 1 [sym_kAs]; AGroup 22387 1 [sym_kFdiv];
     AGroup 22389 1 [sym_kIs]; AGroup 22391 1 [sym_kNot]; SGroup 4442 1 [sym__exprIsNot];
     AGroup 22379 2 syms_83; AGroup 3 3 syms_1; AGroup 22383 4 syms_84; AGroup 22381 5 syms_85;
     AGroup 22385 6 syms_86]);
   (513275, 3, [AGroup 5 1 [sym_ppDirective]; AGroup 3 2 syms_5; AGroup 11025 23 syms_680]);
   (513308, 11, [AGroup 18786 1 [sym_kHat]; AGroup 18802 1 [sym_kAs]; AGroup 22387 1 [sym_kFdiv];
     AGroup 22389 1 [sym_kIs]; AGroup 22391 1 [sym_kNot]; SGroup 4442 1 [sym__exprIsNot];
     AGroup 22379 2 syms_83; AGroup 3 3 syms_1; AGroup 22383 4 syms_84; AGroup 22381 5 syms_85;
     AGroup 22385 6 syms_86]);
   (513357, 3, [AGroup 5 1 [sym_ppDirective]; AGroup 3 2 syms_5; AGroup 10965 23 syms_680]);
   (513390, 3, [AGroup 5 1 [sym_ppDirective]; AGroup 3 2 syms_5; AGroup 15293 23 syms_692]);
   (513423, 11, [AGroup 19805 1 [sym_kHat]; AGroup 19807 1 [sym_kAs]; AGroup 22387 1 [sym_kFdiv];
     AGroup 22389 1 [sym_kIs]; AGroup 22391 1 [sym_kNot]; SGroup 4442 1 [sym__exprIsNot];
     AGroup 22379 2 syms_83; AGroup 3 3 syms_1; AGroup 22383 4 syms_84; AGroup 22381 5 syms_85;
     AGroup 22385 6 syms_86]);
   (513472, 3, [AGroup 5 1 [sym_ppDirective]; AGroup 3 2 syms_5; AGroup 10928 23 syms_692]);
   (513505, 4, [AGroup 5 1 [sym_ppDirective]; SGroup 11289 1 [sym_kDot]; AGroup 3 2 syms_5;
     AGroup 21269 22 syms_693]);
   (513540, 11, [AGroup 20497 1 [sym_kHat]; AGroup 20505 1 [sym_kAs]; AGroup 22387 1 [sym_kFdiv];
     AGroup 22389 1 [sym_kIs]; AGroup 22391 1 [sym_kNot]; SGroup 4442 1 [sym__exprIsNot];
     AGroup 22379 2 syms_83; AGroup 3 3 syms_1; AGroup 22383 4 syms_84; AGroup 22381 5 syms_85;
     AGroup 22385 6 syms_86]);
   (513589, 11, [AGroup 19832 1 [sym_kHat]; AGroup 19834 1 [sym_kAs]; AGroup 22387 1 [sym_kFdiv];
     AGroup 22389 1 [sym_kIs]; AGroup 22391 1 [sym_kNot]; SGroup 4442 1 [sym__exprIsNot];
     AGroup 22379 2 syms_83; AGroup 3 3 syms_1; AGroup 22383 4 syms_84; AGroup 22381 5 syms_85;
     AGroup 22385 6 syms_86]);
   (513638, 11, [AGroup 20995 1 [sym_kHat]; AGroup 21003 1 [sym_kAs]; AGroup 22387 1 [sym_kFdiv];
     AGroup 22389 1 [sym_kIs]; AGroup 22391 1 [sym_kNot]; SGroup 4442 1 [sym__exprIsNot];
     AGroup 22379 2 syms_83; AGroup 3 3 syms_1; AGroup 22383 4 syms_84; AGroup 22381 5 syms_85;
     AGroup 22385 6 syms_86]);
   (513687, 3, [AGroup 5 1 [sym_ppDirective]; AGroup 3 2 syms_5; AGroup 10961 23 syms_680]);
   (513720, 3, [AGroup 5 1 [sym_ppDirective]; AGroup 3 2 syms_5; AGroup 10993 23 syms_680]);
   (513753, 3, [AGroup 5 1 [sym_ppDirective]; AGroup 3 2 syms_5; AGroup 10957 23 syms_680]);
   (513786, 11, [AGroup 21867 1 [sym_kHat]; AGroup 21875 1 [sym_kAs]; AGroup 22387 1 [sym_kFdiv];
     AGroup 22389 1 [sym_kIs]; AGroup 22391 1 [sym_kNot]; SGroup 4442 1 [sym__exprIsNot];
     AGroup 22379 2 syms_83; AGroup 3 3 syms_1; AGroup 22383 4 syms_84; AGroup 22381 5 syms_85;
     AGroup 22385 6 syms_86]);
   (513835, 11, [AGroup 20440 1 [sym_kHat]; AGroup 20448 1 [sym_kAs]; AGroup 22387 1 [sym_kFdiv];
     AGroup 22389 1 [sym_kIs]; AGroup 22391 1 [sym_kNot]; SGroup 4442 1 [sym__exprIsNot];
     AGroup 22379 2 syms_83; AGroup 3 3 syms_1; AGroup 22383 4 syms_84; AGroup 22381 5 syms_85;
     AGroup 22385 6 syms_86]);
   (513884, 11, [AGroup 19832 1 [sym_kHat]; AGroup 20047 1 [sym_kAs]; AGroup 22387 1 [sym_kFdiv];
     AGroup 22389 1 [sym_kIs]; AGroup 22391 1 [sym_kNot]; SGroup 4442 1 [sym__exprIsNot];
     AGroup 22379 2 syms_83; AGroup 3 3 syms_1; AGroup 22383 4 syms_84; AGroup 22381 5 syms_85;
     AGroup 22385 6 syms_86]);
   (513933, 11, [AGroup 21833 1 [sym_kHat]; AGroup 21841 1 [sym_kAs]; AGroup 22387 1 [sym_kFdiv];
     AGroup 22389 1 [sym_kIs]; AGroup 22391 1 [sym_kNot]; SGroup 4442 1 [sym__exprIsNot];
     AGroup 22379 2 syms_83; AGroup 3 3 syms_1; AGroup 22383 4 syms_84; AGroup 22381 5 syms_85;
     AGroup 22385 6 syms_86]);
   (513982, 11, [AGroup 20631 1 [sym_kHat]; AGroup 20639 1 [sym_kAs]; AGroup 22387 1 [sym_kFdiv];
     AGroup 22389 1 [sym_kIs]; AGroup 22391 1 [sym_kNot]; SGroup 4442 1 [sym__exprIsNot];
     AGroup 22379 2 syms_83; AGroup 3 3 syms_1; AGroup 22383 4 syms_84; AGroup 22381 5 syms_85;
     AGroup 22385 6 syms_86]);
   (514031, 11, [AGroup 20329 1 [sym_kHat]; AGroup 20349 1 [sym_kAs]; AGroup 22387 1 [sym_kFdiv];
     AGroup 22389 1 [sym_kIs]; AGroup 22391 1 [sym_kNot]; SGroup 4442 1 [sym__exprIsNot];
     AGroup 22379 2 syms_83; AGroup 3 3 syms_1; AGroup 22383 4 syms_84; AGroup 22381 5 syms_85;
     AGroup 22385 6 syms_86]);
   (514080, 3, [AGroup 5 1 [sym_ppDirective]; AGroup 3 2 syms_5; AGroup 9810 23 syms_692]);
   (514113, 3, [AGroup 5 1 [sym_ppDirective]; AGroup 3 2 syms_5; AGroup 15353 23 syms_692]);
   (514146, 3, [AGroup 5 1 [sym_ppDirective]; AGroup 3 2 syms_5; AGroup 10993 23 syms_692]);
   (514179, 11, [AGroup 21149 1 [sym_kHat]; AGroup 21159 1 [sym_kAs]; AGroup 22387 1 [sym_kFdiv];
     AGroup 22389 1 [sym_kIs]; AGroup 22391 1 [sym_kNot]; SGroup 4442 1 [sym__exprIsNot];
     AGroup 22379 2 syms_83; AGroup 3 3 syms_1; AGroup 22383 4 syms_84; AGroup 22381 5 syms_85;
     AGroup 22385 6 syms_86]);
   (514228, 3, [AGroup 5 1 [sym_ppDirective]; AGroup 3 2 syms_5; AGroup 11001 23 syms_692]);
   (514261, 11, [AGroup 20826 1 [sym_kHat]; AGroup 20834 1 [sym_kAs]; AGroup 22387 1 [sym_kFdiv];
     AGroup 22389 1 [sym_kIs]; AGroup 22391 1 [sym_kNot]; SGroup 4442 1 [sym__exprIsNot];
     AGroup 22379 2 syms_83; AGroup 3 3 syms_1; AGroup 22383 4 syms_84; AGroup 22381 5 syms_85;
     AGroup 22385 6 syms_86]);
   (514310, 6, [AGroup 5 1 [sym_ppDirective]; AGroup 23825 1 [sym_kForward]; AGroup 23827 1 [sym_kExternal];
     SGroup 2044 1 [sym_procExternal]; AGroup 3 2 syms_5; AGroup 9918 19 syms_229]);
   (514348, 3, [AGroup 3 3 syms_1; AGroup 23677 3 syms_429; AGroup 23675 19 syms_694]);
   (514380, 6, [AGroup 5 1 [sym_ppDirective]; AGroup 23829 1 [sym_kForward]; AGroup 23831 1 [sym_kExternal];
     SGroup 2604 1 [sym_procExternal]; AGroup 3 2 syms_5; AGroup 9918 19 syms_229]);
   (514418, 3, [AGroup 5 1 [sym_ppDirective]; AGroup 3 2 syms_5; AGroup 21887 22 syms_693]);
   (514450, 5, [AGroup 23836 1 [anon_sym_POUND]; AGroup 23833 2 syms_6; AGroup 3 3 syms_1;
     SGroup 10352 3 syms_13; AGroup 15239 16 syms_695]);
   (514486, 5, [AGroup 21687 1 [anon_sym_POUND]; AGroup 23839 2 syms_6; AGroup 3 3 syms_1;
     SGroup 10352 3 syms_13; AGroup 15233 16 syms_695]);
   (514522, 6, [AGroup 5 1 [sym_ppDirective]; AGroup 23841 1 [sym_kForward]; AGroup 23843 1 [sym_kExternal];
     SGroup 2602 1 [sym_procExternal]; AGroup 3 2 syms_5; AGroup 9918 19 syms_229]);
   (514560, 6, [AGroup 5 1 [sym_ppDirective]; AGroup 23845 1 [sym_kForward]; AGroup 23847 1 [sym_kExternal];
     SGroup 2611 1 [sym_procExternal]; AGroup 3 2 syms_5; AGroup 9918 19 syms_229]);
   (514598, 3, [AGroup 5 1 [sym_ppDirective]; AGroup 3 2 syms_5; AGroup 21751 22 syms_693]);
   (514630, 4, [AGroup 23849 1 [anon_sym_DOT]; SGroup 11291 1 [sym_kDot]; AGroup 3 3 syms_1;
     AGroup 21181 19 syms_696]);
   (514663, 7, [AGroup 23853 1 [anon_sym_DOT]; AGroup 23855 1 [sym_kLt]; AGroup 23857 1 [sym_kDeprecated];
     SGroup 11291 1 [sym_kDot]; AGroup 3 3 syms_1; AGroup 23851 8 syms_697;
     AGroup 21297 9 syms_20])
  ].

(** States 10359 to 10458. *)
Definition small_runs_10359 : list small_run :=
  [
   (514702, 6, [AGroup 23861 1 [anon_sym_LBRACK]; AGroup 23863 1 [anon_sym_DOT];
     AGroup 23865 1 [sym_kDeprecated]; AGroup 3 3 syms_1; AGroup 21751 9 syms_698;
     AGroup 23859 9 syms_20]);
   (514739, 5, [AGroup 5 1 [sym_ppDirective]; AGroup 23867 1 [anon_sym_LPAREN];
     AGroup 23869 1 [anon_sym_DOT]; AGroup 3 2 syms_5; AGroup 16974 19 syms_696]);
   (514774, 5, [AGroup 5 1 [sym_ppDirective]; AGroup 23871 1 [anon_sym_DOT]; SGroup 14390 1 [sym_kEndDot];
     AGroup 3 2 syms_5; AGroup 15403 19 syms_699]);
   (514809, 4, [AGroup 23873 1 [anon_sym_DOT]; SGroup 11291 1 [sym_kDot]; AGroup 3 3 syms_1;
     AGroup 21269 19 syms_696]);
   (514842, 5, [AGroup 5 1 [sym_ppDirective]; AGroup 23871 1 [anon_sym_DOT]; SGroup 14721 1 [sym_kEndDot];
     AGroup 3 2 syms_5; AGroup 15403 19 syms_699]);
   (514877, 4, [AGroup 5 1 [sym_ppDirective]; AGroup 23875 1 [anon_sym_SEMI]; AGroup 3 2 syms_5;
     AGroup 15403 19 syms_229]);
   (514909, 3, [AGroup 5 1 [sym_ppDirective]; AGroup 3 2 syms_5; AGroup 11005 20 syms_700]);
   (514939, 7, [AGroup 23877 1 [anon_sym_SEMI]; AGroup 23879 1 [anon_sym_LBRACK];
     AGroup 23881 1 [sym_kDeprecated]; AGroup 23859 2 syms_701; AGroup 3 3 syms_1;
     AGroup 23863 4 syms_702; AGroup 21751 11 syms_703]);
   (514977, 3, [AGroup 5 1 [sym_ppDirective]; AGroup 3 2 syms_5; AGroup 23883 20 syms_704]);
   (515007, 3, [AGroup 5 1 [sym_ppDirective]; AGroup 3 2 syms_5; AGroup 15353 20 syms_705]);
   (515037, 4, [AGroup 5 1 [sym_ppDirective]; AGroup 23885 1 [anon_sym_SEMI]; AGroup 3 2 syms_5;
     AGroup 15403 19 syms_229]);
   (515069, 4, [SGroup 11234 1 [sym_kDot]; AGroup 3 3 syms_1; AGroup 23873 4 syms_702;
     AGroup 21269 15 syms_706]);
   (515101, 3, [AGroup 5 1 [sym_ppDirective]; AGroup 3 2 syms_5; AGroup 15293 20 syms_707]);
   (515131, 4, [AGroup 5 1 [sym_ppDirective]; AGroup 23887 1 [anon_sym_SEMI]; AGroup 3 2 syms_5;
     AGroup 15403 19 syms_229]);
   (515163, 3, [AGroup 5 1 [sym_ppDirective]; AGroup 3 2 syms_5; AGroup 23889 20 syms_704]);
   (515193, 3, [AGroup 5 1 [sym_ppDirective]; AGroup 3 2 syms_5; AGroup 9810 20 syms_708]);
   (515223, 3, [AGroup 5 1 [sym_ppDirective]; AGroup 3 2 syms_5; AGroup 15353 20 syms_709]);
   (515253, 5, [AGroup 5 1 [sym_ppDirective]; AGroup 23871 1 [anon_sym_DOT]; SGroup 15483 1 [sym_kEndDot];
     AGroup 3 2 syms_5; AGroup 15403 18 syms_710]);
   (515287, 5, [AGroup 5 1 [sym_ppDirective]; AGroup 23871 1 [anon_sym_DOT]; SGroup 14442 1 [sym_kEndDot];
     AGroup 3 2 syms_5; AGroup 15403 18 syms_710]);
   (515321, 3, [AGroup 5 1 [sym_ppDirective]; AGroup 3 2 syms_5; AGroup 11049 20 syms_700]);
   (515351, 3, [AGroup 5 1 [sym_ppDirective]; AGroup 3 2 syms_5; AGroup 10932 20 syms_700]);
   (515381, 4, [AGroup 5 1 [sym_ppDirective]; AGroup 23891 1 [anon_sym_SEMI]; AGroup 3 2 syms_5;
     AGroup 15403 19 syms_229]);
   (515413, 3, [AGroup 5 1 [sym_ppDirective]; AGroup 3 2 syms_5; AGroup 11049 20 syms_711]);
   (515443, 3, [AGroup 5 1 [sym_ppDirective]; AGroup 3 2 syms_5; AGroup 15293 20 syms_705]);
   (515473, 8, [AGroup 23853 1 [anon_sym_DOT]; AGroup 23893 1 [sym_kLt]; AGroup 23897 1 [sym_kDeprecated];
     SGroup 11234 1 [sym_kDot]; AGroup 3 3 syms_1; AGroup 23895 3 syms_712;
     AGroup 23851 5 syms_713; AGroup 21297 8 syms_38]);
   (515513, 3, [AGroup 23899 1 [anon_sym_DOT]; AGroup 3 3 syms_1; AGroup 21887 19 syms_696]);
   (515543, 3, [AGroup 23863 1 [anon_sym_DOT]; AGroup 3 3 syms_1; AGroup 21751 19 syms_696]);
   (515573, 3, [AGroup 5 1 [sym_ppDirective]; AGroup 3 2 syms_5; AGroup 10932 20 syms_708]);
   (515603, 3, [AGroup 5 1 [sym_ppDirective]; AGroup 3 2 syms_5; AGroup 10932 20 syms_711]);
   (515633, 4, [SGroup 11234 1 [sym_kDot]; AGroup 3 3 syms_1; AGroup 23849 4 syms_702;
     AGroup 21181 15 syms_706]);
   (515665, 3, [AGroup 5 1 [sym_ppDirective]; AGroup 3 2 syms_5; AGroup 11005 20 syms_711]);
   (515695, 3, [AGroup 5 1 [sym_ppDirective]; AGroup 3 2 syms_5; AGroup 23901 20 syms_704]);
   (515725, 3, [AGroup 5 1 [sym_ppDirective]; AGroup 3 2 syms_5; AGroup 15293 20 syms_709]);
   (515755, 4, [AGroup 5 1 [sym_ppDirective]; AGroup 23903 1 [anon_sym_SEMI]; AGroup 3 2 syms_5;
     AGroup 15403 19 syms_229]);
   (515787, 3, [AGroup 5 1 [sym_ppDirective]; AGroup 3 2 syms_5; AGroup 15353 20 syms_707]);
   (515817, 4, [AGroup 5 1 [sym_ppDirective]; AGroup 23905 1 [anon_sym_SEMI]; AGroup 3 2 syms_5;
     AGroup 15353 19 syms_229]);
   (515849, 3, [AGroup 5 1 [sym_ppDirective]; AGroup 3 2 syms_5; AGroup 9810 20 syms_711]);
   (515879, 4, [AGroup 5 1 [sym_ppDirective]; AGroup 23908 1 [anon_sym_SEMI]; AGroup 3 2 syms_5;
     AGroup 15293 19 syms_229]);
   (515911, 3, [AGroup 5 1 [sym_ppDirective]; AGroup 3 2 syms_5; AGroup 11049 20 syms_708]);
   (515941, 5, [AGroup 5 1 [sym_ppDirective]; AGroup 23867 1 [anon_sym_LPAREN]; AGroup 3 2 syms_5;
     AGroup 23869 4 syms_702; AGroup 16974 15 syms_706]);
   (515975, 3, [AGroup 5 1 [sym_ppDirective]; AGroup 3 2 syms_5; AGroup 11005 20 syms_708]);
   (516005, 4, [AGroup 5 1 [sym_ppDirective]; AGroup 23911 1 [anon_sym_SEMI]; AGroup 3 2 syms_5;
     AGroup 15403 19 syms_229]);
   (516037, 3, [AGroup 5 1 [sym_ppDirective]; AGroup 3 2 syms_5; AGroup 9810 20 syms_700]);
   (516067, 3, [AGroup 5 1 [sym_ppDirective]; AGroup 3 2 syms_5; AGroup 11037 19 syms_229]);
   (516096, 3, [AGroup 5 1 [sym_ppDirective]; AGroup 3 2 syms_5; AGroup 10993 19 syms_229]);
   (516125, 3, [AGroup 5 1 [sym_ppDirective]; AGroup 3 2 syms_5; AGroup 11013 19 syms_714]);
   (516154, 3, [AGroup 5 1 [sym_ppDirective]; AGroup 3 2 syms_5; AGroup 11001 19 syms_229]);
   (516183, 3, [AGroup 5 1 [sym_ppDirective]; AGroup 3 2 syms_5; AGroup 11017 19 syms_714]);
   (516212, 3, [AGroup 5 1 [sym_ppDirective]; AGroup 3 2 syms_5; AGroup 10993 19 syms_699]);
   (516241, 3, [AGroup 5 1 [sym_ppDirective]; AGroup 3 2 syms_5; AGroup 11009 19 syms_229]);
   (516270, 3, [AGroup 5 1 [sym_ppDirective]; AGroup 3 2 syms_5; AGroup 11001 19 syms_699]);
   (516299, 3, [AGroup 5 1 [sym_ppDirective]; AGroup 3 2 syms_5; AGroup 10981 19 syms_714]);
   (516328, 3, [AGroup 5 1 [sym_ppDirective]; AGroup 3 2 syms_5; AGroup 10953 19 syms_229]);
   (516357, 3, [AGroup 5 1 [sym_ppDirective]; AGroup 3 2 syms_5; AGroup 11009 19 syms_699]);
   (516386, 3, [AGroup 5 1 [sym_ppDirective]; AGroup 3 2 syms_5; AGroup 11021 19 syms_229]);
   (516415, 3, [AGroup 5 1 [sym_ppDirective]; AGroup 3 2 syms_5; AGroup 10977 19 syms_714]);
   (516444, 3, [AGroup 5 1 [sym_ppDirective]; AGroup 3 2 syms_5; AGroup 10957 19 syms_714]);
   (516473, 3, [AGroup 5 1 [sym_ppDirective]; AGroup 3 2 syms_5; AGroup 11005 19 syms_714]);
   (516502, 3, [AGroup 5 1 [sym_ppDirective]; AGroup 3 2 syms_5; AGroup 10928 19 syms_699]);
   (516531, 3, [AGroup 5 1 [sym_ppDirective]; AGroup 3 2 syms_5; AGroup 10961 19 syms_714]);
   (516560, 3, [AGroup 5 1 [sym_ppDirective]; AGroup 3 2 syms_5; AGroup 10993 19 syms_714]);
   (516589, 3, [AGroup 5 1 [sym_ppDirective]; AGroup 3 2 syms_5; AGroup 11029 19 syms_714]);
   (516618, 3, [AGroup 5 1 [sym_ppDirective]; AGroup 3 2 syms_5; AGroup 10928 19 syms_714]);
   (516647, 3, [AGroup 5 1 [sym_ppDirective]; AGroup 3 2 syms_5; AGroup 10969 19 syms_229]);
   (516676, 3, [AGroup 5 1 [sym_ppDirective]; AGroup 3 2 syms_5; AGroup 10957 19 syms_699]);
   (516705, 3, [AGroup 5 1 [sym_ppDirective]; AGroup 3 2 syms_5; AGroup 10961 19 syms_699]);
   (516734, 3, [AGroup 5 1 [sym_ppDirective]; AGroup 3 2 syms_5; AGroup 10965 19 syms_699]);
   (516763, 3, [AGroup 5 1 [sym_ppDirective]; AGroup 3 2 syms_5; AGroup 10973 19 syms_229]);
   (516792, 3, [AGroup 5 1 [sym_ppDirective]; AGroup 3 2 syms_5; AGroup 10977 19 syms_229]);
   (516821, 3, [AGroup 5 1 [sym_ppDirective]; AGroup 3 2 syms_5; AGroup 11049 19 syms_699]);
   (516850, 3, [AGroup 5 1 [sym_ppDirective]; AGroup 3 2 syms_5; AGroup 10981 19 syms_229]);
   (516879, 3, [AGroup 5 1 [sym_ppDirective]; AGroup 3 2 syms_5; AGroup 10985 19 syms_229]);
   (516908, 3, [AGroup 5 1 [sym_ppDirective]; AGroup 3 2 syms_5; AGroup 10932 19 syms_714]);
   (516937, 3, [AGroup 5 1 [sym_ppDirective]; AGroup 3 2 syms_5; AGroup 10973 19 syms_714]);
   (516966, 3, [AGroup 5 1 [sym_ppDirective]; AGroup 3 2 syms_5; AGroup 11045 19 syms_714]);
   (516995, 3, [SGroup 11308 1 [sym_kDot]; AGroup 3 3 syms_1; AGroup 21181 18 syms_715]);
   (517024, 3, [AGroup 3 3 syms_1; AGroup 23863 4 syms_702; AGroup 21751 15 syms_706]);
   (517053, 3, [AGroup 5 1 [sym_ppDirective]; AGroup 3 2 syms_5; AGroup 10985 19 syms_714]);
   (517082, 3, [AGroup 5 1 [sym_ppDirective]; AGroup 3 2 syms_5; AGroup 11009 19 syms_714]);
   (517111, 3, [AGroup 5 1 [sym_ppDirective]; AGroup 3 2 syms_5; AGroup 11001 19 syms_714]);
   (517140, 3, [AGroup 5 1 [sym_ppDirective]; AGroup 3 2 syms_5; AGroup 11021 19 syms_714]);
   (517169, 3, [AGroup 5 1 [sym_ppDirective]; AGroup 3 2 syms_5; AGroup 10989 19 syms_714]);
   (517198, 3, [AGroup 5 1 [sym_ppDirective]; AGroup 3 2 syms_5; AGroup 10928 19 syms_229]);
   (517227, 2, [AGroup 3 3 syms_1; AGroup 16465 19 syms_716]);
   (517254, 3, [AGroup 5 1 [sym_ppDirective]; AGroup 3 2 syms_5; AGroup 10924 19 syms_229]);
   (517283, 3, [AGroup 5 1 [sym_ppDirective]; AGroup 3 2 syms_5; AGroup 11041 19 syms_229]);
   (517312, 3, [AGroup 5 1 [sym_ppDirective]; AGroup 3 2 syms_5; AGroup 10957 19 syms_229]);
   (517341, 3, [AGroup 5 1 [sym_ppDirective]; AGroup 3 2 syms_5; AGroup 10961 19 syms_229]);
   (517370, 3, [AGroup 5 1 [sym_ppDirective]; AGroup 3 2 syms_5; AGroup 11005 19 syms_229]);
   (517399, 3, [AGroup 5 1 [sym_ppDirective]; AGroup 3 2 syms_5; AGroup 10965 19 syms_229]);
   (517428, 3, [AGroup 5 1 [sym_ppDirective]; AGroup 3 2 syms_5; AGroup 11021 19 syms_699]);
   (517457, 3, [AGroup 5 1 [sym_ppDirective]; AGroup 3 2 syms_5; AGroup 9810 19 syms_229]);
   (517486, 3, [AGroup 5 1 [sym_ppDirective]; AGroup 3 2 syms_5; AGroup 11013 19 syms_699]);
   (517515, 3, [AGroup 5 1 [sym_ppDirective]; AGroup 3 2 syms_5; AGroup 11017 19 syms_699]);
   (517544, 3, [AGroup 5 1 [sym_ppDirective]; AGroup 3 2 syms_5; AGroup 11025 19 syms_699]);
   (517573, 3, [AGroup 5 1 [sym_ppDirective]; AGroup 3 2 syms_5; AGroup 11029 19 syms_699]);
   (517602, 3, [AGroup 5 1 [sym_ppDirective]; AGroup 3 2 syms_5; AGroup 11045 19 syms_229]);
   (517631, 3, [AGroup 5 1 [sym_ppDirective]; AGroup 3 2 syms_5; AGroup 11049 19 syms_229]);
   (517660, 3, [AGroup 5 1 [sym_ppDirective]; AGroup 3 2 syms_5; AGroup 10973 19 syms_699]);
   (517689, 3, [AGroup 5 1 [sym_ppDirective]; AGroup 3 2 syms_5; AGroup 10977 19 syms_699])
  ].

(** States 10459 to 10558. *)
Definition small_runs_10459 : list small_run :=
  [
   (517718, 3, [AGroup 5 1 [sym_ppDirective]; AGroup 3 2 syms_5; AGroup 10981 19 syms_699]);
   (517747, 3, [AGroup 5 1 [sym_ppDirective]; AGroup 3 2 syms_5; AGroup 9810 19 syms_699]);
   (517776, 3, [AGroup 5 1 [sym_ppDirective]; AGroup 3 2 syms_5; AGroup 11013 19 syms_229]);
   (517805, 3, [AGroup 5 1 [sym_ppDirective]; AGroup 3 2 syms_5; AGroup 10989 19 syms_699]);
   (517834, 3, [SGroup 11308 1 [sym_kDot]; AGroup 3 3 syms_1; AGroup 21269 18 syms_715]);
   (517863, 3, [AGroup 5 1 [sym_ppDirective]; AGroup 3 2 syms_5; AGroup 10932 19 syms_699]);
   (517892, 3, [AGroup 5 1 [sym_ppDirective]; AGroup 3 2 syms_5; AGroup 11017 19 syms_229]);
   (517921, 4, [AGroup 5 1 [sym_ppDirective]; AGroup 23913 1 [anon_sym_LPAREN]; AGroup 3 2 syms_5;
     AGroup 16974 18 syms_715]);
   (517952, 3, [AGroup 5 1 [sym_ppDirective]; AGroup 3 2 syms_5; AGroup 11049 19 syms_714]);
   (517981, 3, [AGroup 5 1 [sym_ppDirective]; AGroup 3 2 syms_5; AGroup 10932 19 syms_229]);
   (518010, 3, [AGroup 5 1 [sym_ppDirective]; AGroup 3 2 syms_5; AGroup 11045 19 syms_699]);
   (518039, 3, [AGroup 5 1 [sym_ppDirective]; AGroup 3 2 syms_5; AGroup 11025 19 syms_229]);
   (518068, 5, [AGroup 21299 1 [anon_sym_DOT]; AGroup 23915 1 [sym_kLt]; SGroup 11308 1 [sym_kDot];
     AGroup 3 3 syms_1; AGroup 23851 16 syms_695]);
   (518101, 3, [AGroup 5 1 [sym_ppDirective]; AGroup 3 2 syms_5; AGroup 11005 19 syms_699]);
   (518130, 3, [AGroup 5 1 [sym_ppDirective]; AGroup 3 2 syms_5; AGroup 10969 19 syms_714]);
   (518159, 3, [AGroup 5 1 [sym_ppDirective]; AGroup 3 2 syms_5; AGroup 9810 19 syms_714]);
   (518188, 3, [AGroup 5 1 [sym_ppDirective]; AGroup 3 2 syms_5; AGroup 10969 19 syms_699]);
   (518217, 3, [AGroup 5 1 [sym_ppDirective]; AGroup 3 2 syms_5; AGroup 11029 19 syms_229]);
   (518246, 3, [AGroup 5 1 [sym_ppDirective]; AGroup 3 2 syms_5; AGroup 10985 19 syms_699]);
   (518275, 3, [AGroup 5 1 [sym_ppDirective]; AGroup 3 2 syms_5; AGroup 10989 19 syms_229]);
   (518304, 3, [AGroup 3 3 syms_1; AGroup 23899 4 syms_702; AGroup 21887 15 syms_706]);
   (518333, 3, [AGroup 5 1 [sym_ppDirective]; AGroup 3 2 syms_5; AGroup 10965 19 syms_714]);
   (518362, 3, [AGroup 5 1 [sym_ppDirective]; AGroup 3 2 syms_5; AGroup 11025 19 syms_714]);
   (518391, 5, [AGroup 14853 1 [anon_sym_POUND]; AGroup 23917 2 syms_6; AGroup 3 3 syms_1;
     SGroup 10484 3 syms_13; AGroup 15233 12 syms_717]);
   (518423, 2, [AGroup 3 3 syms_1; AGroup 21751 18 syms_715]);
   (518449, 5, [AGroup 23922 1 [anon_sym_POUND]; AGroup 23919 2 syms_6; AGroup 3 3 syms_1;
     SGroup 10484 3 syms_13; AGroup 15239 12 syms_717]);
   (518481, 2, [AGroup 3 3 syms_1; AGroup 21887 18 syms_715]);
   (518507, 2, [AGroup 3 3 syms_1; AGroup 23925 16 syms_695]);
   (518531, 4, [AGroup 23849 1 [anon_sym_DOT]; SGroup 11239 1 [sym_kDot]; AGroup 3 3 syms_1;
     AGroup 21181 14 syms_718]);
   (518559, 2, [AGroup 3 3 syms_1; AGroup 23927 16 syms_695]);
   (518583, 11, [AGroup 5 1 [sym_ppDirective]; AGroup 13373 1 [sym_kStrict]; AGroup 13377 1 [sym_kCase];
     AGroup 18770 1 [sym_kEnd]; AGroup 23929 1 [aux_sym_ppUsesBlock_token1];
     SGroup 6354 1 [sym__visibility]; SGroup 11237 1 [sym__ppIf];
     SGroup 15535 1 [sym_declVariant]; AGroup 3 2 syms_5; SGroup 10539 3 syms_69;
     AGroup 13371 6 syms_70]);
   (518625, 11, [AGroup 5 1 [sym_ppDirective]; AGroup 13373 1 [sym_kStrict]; AGroup 13377 1 [sym_kCase];
     AGroup 18724 1 [sym_kEnd]; AGroup 23929 1 [aux_sym_ppUsesBlock_token1];
     SGroup 6354 1 [sym__visibility]; SGroup 11237 1 [sym__ppIf];
     SGroup 14840 1 [sym_declVariant]; AGroup 3 2 syms_5; SGroup 10539 3 syms_69;
     AGroup 13371 6 syms_70]);
   (518667, 11, [AGroup 5 1 [sym_ppDirective]; AGroup 13373 1 [sym_kStrict]; AGroup 13377 1 [sym_kCase];
     AGroup 18741 1 [sym_kEnd]; AGroup 23929 1 [aux_sym_ppUsesBlock_token1];
     SGroup 6354 1 [sym__visibility]; SGroup 11237 1 [sym__ppIf];
     SGroup 15726 1 [sym_declVariant]; AGroup 3 2 syms_5; SGroup 10539 3 syms_69;
     AGroup 13371 6 syms_70]);
   (518709, 3, [SGroup 11318 1 [sym_kDot]; AGroup 3 3 syms_1; AGroup 21269 15 syms_719]);
   (518735, 3, [AGroup 3 3 syms_1; AGroup 23933 5 syms_720; AGroup 23931 11 syms_721]);
   (518761, 4, [AGroup 23937 2 syms_9; AGroup 3 3 syms_1; AGroup 23933 5 syms_720; AGroup 23935 9 syms_20]);
   (518789, 11, [AGroup 5 1 [sym_ppDirective]; AGroup 13373 1 [sym_kStrict]; AGroup 13377 1 [sym_kCase];
     AGroup 23929 1 [aux_sym_ppUsesBlock_token1]; AGroup 23939 1 [sym_kEnd];
     SGroup 6354 1 [sym__visibility]; SGroup 11237 1 [sym__ppIf];
     SGroup 15963 1 [sym_declVariant]; AGroup 3 2 syms_5; SGroup 10539 3 syms_69;
     AGroup 13371 6 syms_70]);
   (518831, 2, [AGroup 3 3 syms_1; AGroup 23941 16 syms_695]);
   (518855, 6, [AGroup 23863 1 [anon_sym_DOT]; AGroup 23943 1 [anon_sym_LBRACK];
     AGroup 23945 1 [sym_kDeprecated]; AGroup 3 3 syms_1; AGroup 23859 4 syms_90;
     AGroup 21751 9 syms_698]);
   (518887, 11, [AGroup 5 1 [sym_ppDirective]; AGroup 13373 1 [sym_kStrict]; AGroup 13377 1 [sym_kCase];
     AGroup 23929 1 [aux_sym_ppUsesBlock_token1]; AGroup 23947 1 [sym_kEnd];
     SGroup 6354 1 [sym__visibility]; SGroup 11237 1 [sym__ppIf];
     SGroup 15920 1 [sym_declVariant]; AGroup 3 2 syms_5; SGroup 10539 3 syms_69;
     AGroup 13371 6 syms_70]);
   (518929, 11, [AGroup 5 1 [sym_ppDirective]; AGroup 13373 1 [sym_kStrict]; AGroup 13377 1 [sym_kCase];
     AGroup 18726 1 [sym_kEnd]; AGroup 23929 1 [aux_sym_ppUsesBlock_token1];
     SGroup 6354 1 [sym__visibility]; SGroup 11237 1 [sym__ppIf];
     SGroup 14459 1 [sym_declVariant]; AGroup 3 2 syms_5; SGroup 10539 3 syms_69;
     AGroup 13371 6 syms_70]);
   (518971, 11, [AGroup 5 1 [sym_ppDirective]; AGroup 13373 1 [sym_kStrict]; AGroup 13377 1 [sym_kCase];
     AGroup 19229 1 [sym_kEnd]; AGroup 23929 1 [aux_sym_ppUsesBlock_token1];
     SGroup 6354 1 [sym__visibility]; SGroup 11237 1 [sym__ppIf];
     SGroup 14298 1 [sym_declVariant]; AGroup 3 2 syms_5; SGroup 10539 3 syms_69;
     AGroup 13371 6 syms_70]);
   (519013, 4, [AGroup 23873 1 [anon_sym_DOT]; SGroup 11239 1 [sym_kDot]; AGroup 3 3 syms_1;
     AGroup 21269 14 syms_718]);
   (519041, 2, [AGroup 3 3 syms_1; AGroup 23949 16 syms_695]);
   (519065, 5, [AGroup 23954 1 [anon_sym_POUND]; AGroup 23951 2 syms_6; AGroup 3 3 syms_1;
     SGroup 10503 3 syms_13; AGroup 15239 10 syms_722]);
   (519095, 2, [AGroup 3 3 syms_1; AGroup 23957 16 syms_695]);
   (519119, 7, [AGroup 23853 1 [anon_sym_DOT]; AGroup 23959 1 [sym_kLt]; AGroup 23961 1 [sym_kDeprecated];
     SGroup 11239 1 [sym_kDot]; AGroup 3 3 syms_1; AGroup 21297 4 syms_90;
     AGroup 23851 8 syms_697]);
   (519153, 2, [AGroup 3 3 syms_1; AGroup 17326 16 syms_695]);
   (519177, 5, [AGroup 5 1 [sym_ppDirective]; AGroup 23867 1 [anon_sym_LPAREN];
     AGroup 23869 1 [anon_sym_DOT]; AGroup 3 2 syms_5; AGroup 16974 14 syms_718]);
   (519207, 11, [AGroup 5 1 [sym_ppDirective]; AGroup 13373 1 [sym_kStrict]; AGroup 13377 1 [sym_kCase];
     AGroup 19043 1 [sym_kEnd]; AGroup 23929 1 [aux_sym_ppUsesBlock_token1];
     SGroup 6354 1 [sym__visibility]; SGroup 11237 1 [sym__ppIf];
     SGroup 15873 1 [sym_declVariant]; AGroup 3 2 syms_5; SGroup 10539 3 syms_69;
     AGroup 13371 6 syms_70]);
   (519249, 3, [SGroup 11318 1 [sym_kDot]; AGroup 3 3 syms_1; AGroup 21181 15 syms_719]);
   (519275, 2, [AGroup 3 3 syms_1; AGroup 23931 16 syms_695]);
   (519299, 5, [AGroup 21637 1 [anon_sym_POUND]; AGroup 23963 2 syms_6; AGroup 3 3 syms_1;
     SGroup 10503 3 syms_13; AGroup 15233 10 syms_722]);
   (519329, 11, [AGroup 5 1 [sym_ppDirective]; AGroup 13373 1 [sym_kStrict]; AGroup 13377 1 [sym_kCase];
     AGroup 19251 1 [sym_kEnd]; AGroup 23929 1 [aux_sym_ppUsesBlock_token1];
     SGroup 6354 1 [sym__visibility]; SGroup 11237 1 [sym__ppIf];
     SGroup 15397 1 [sym_declVariant]; AGroup 3 2 syms_5; SGroup 10539 3 syms_69;
     AGroup 13371 6 syms_70]);
   (519371, 11, [AGroup 5 1 [sym_ppDirective]; AGroup 13373 1 [sym_kStrict]; AGroup 13377 1 [sym_kCase];
     AGroup 19279 1 [sym_kEnd]; AGroup 23929 1 [aux_sym_ppUsesBlock_token1];
     SGroup 6354 1 [sym__visibility]; SGroup 11237 1 [sym__ppIf];
     SGroup 14713 1 [sym_declVariant]; AGroup 3 2 syms_5; SGroup 10539 3 syms_69;
     AGroup 13371 6 syms_70]);
   (519413, 11, [AGroup 5 1 [sym_ppDirective]; AGroup 13373 1 [sym_kStrict]; AGroup 13377 1 [sym_kCase];
     AGroup 23929 1 [aux_sym_ppUsesBlock_token1]; AGroup 23965 1 [sym_kEnd];
     SGroup 6354 1 [sym__visibility]; SGroup 11237 1 [sym__ppIf];
     SGroup 14781 1 [sym_declVariant]; AGroup 3 2 syms_5; SGroup 10539 3 syms_69;
     AGroup 13371 6 syms_70]);
   (519455, 6, [AGroup 21299 1 [anon_sym_DOT]; AGroup 23967 1 [sym_kLt]; AGroup 23969 1 [sym_kDeprecated];
     SGroup 11318 1 [sym_kDot]; AGroup 3 3 syms_1; AGroup 21307 12 syms_16]);
   (519487, 11, [AGroup 5 1 [sym_ppDirective]; AGroup 13373 1 [sym_kStrict]; AGroup 13377 1 [sym_kCase];
     AGroup 23929 1 [aux_sym_ppUsesBlock_token1]; AGroup 23971 1 [sym_kEnd];
     SGroup 6354 1 [sym__visibility]; SGroup 11237 1 [sym__ppIf];
     SGroup 14558 1 [sym_declVariant]; AGroup 3 2 syms_5; SGroup 10539 3 syms_69;
     AGroup 13371 6 syms_70]);
   (519529, 6, [AGroup 21299 1 [anon_sym_DOT]; AGroup 23967 1 [sym_kLt]; AGroup 23973 1 [sym_kDeprecated];
     SGroup 11318 1 [sym_kDot]; AGroup 3 3 syms_1; AGroup 21297 12 syms_16]);
   (519561, 6, [AGroup 5 1 [sym_ppDirective]; AGroup 21663 1 [anon_sym_POUND]; AGroup 3 2 syms_5;
     AGroup 23975 2 syms_6; SGroup 10521 3 syms_13; AGroup 15233 9 syms_723]);
   (519592, 3, [AGroup 23899 1 [anon_sym_DOT]; AGroup 3 3 syms_1; AGroup 21887 14 syms_718]);
   (519617, 3, [AGroup 23863 1 [anon_sym_DOT]; AGroup 3 3 syms_1; AGroup 21751 14 syms_718]);
   (519642, 6, [AGroup 5 1 [sym_ppDirective]; AGroup 23980 1 [anon_sym_POUND]; AGroup 3 2 syms_5;
     AGroup 23977 2 syms_6; SGroup 10521 3 syms_13; AGroup 15239 9 syms_723]);
   (519673, 3, [SGroup 11323 1 [sym_kDot]; AGroup 3 3 syms_1; AGroup 21181 14 syms_724]);
   (519698, 4, [AGroup 23873 1 [anon_sym_DOT]; SGroup 11360 1 [sym_kDot]; AGroup 3 3 syms_1;
     AGroup 21269 13 syms_725]);
   (519725, 3, [SGroup 11323 1 [sym_kDot]; AGroup 3 3 syms_1; AGroup 21269 14 syms_724]);
   (519750, 8, [AGroup 14871 1 [sym_kSpecialize]; AGroup 23983 1 [sym_kHat]; AGroup 23989 1 [sym_kString];
     AGroup 23985 2 syms_52; SGroup 12406 2 syms_726; AGroup 3 3 syms_1; AGroup 23987 4 syms_727;
     SGroup 11123 4 syms_31]);
   (519785, 3, [SGroup 11349 1 [sym_kDot]; AGroup 3 3 syms_1; AGroup 21269 14 syms_728]);
   (519810, 6, [AGroup 21299 1 [anon_sym_DOT]; AGroup 23991 1 [sym_kLt]; AGroup 23993 1 [sym_kDeprecated];
     SGroup 11323 1 [sym_kDot]; AGroup 3 3 syms_1; AGroup 21297 11 syms_18]);
   (519841, 2, [AGroup 3 3 syms_1; AGroup 21887 15 syms_719]);
   (519864, 2, [AGroup 3 3 syms_1; AGroup 16465 15 syms_729]);
   (519887, 3, [SGroup 11349 1 [sym_kDot]; AGroup 3 3 syms_1; AGroup 21181 14 syms_728]);
   (519912, 8, [AGroup 14871 1 [sym_kSpecialize]; AGroup 23983 1 [sym_kHat]; AGroup 23989 1 [sym_kString];
     AGroup 23985 2 syms_52; SGroup 12076 2 syms_726; AGroup 3 3 syms_1; AGroup 23987 4 syms_727;
     SGroup 11123 4 syms_31]);
   (519947, 8, [AGroup 14871 1 [sym_kSpecialize]; AGroup 23983 1 [sym_kHat]; AGroup 23989 1 [sym_kString];
     AGroup 23985 2 syms_52; SGroup 12866 2 syms_726; AGroup 3 3 syms_1; AGroup 23987 4 syms_727;
     SGroup 11123 4 syms_31]);
   (519982, 6, [AGroup 21299 1 [anon_sym_DOT]; AGroup 23991 1 [sym_kLt]; AGroup 23995 1 [sym_kDeprecated];
     SGroup 11323 1 [sym_kDot]; AGroup 3 3 syms_1; AGroup 21307 11 syms_18]);
   (520013, 5, [AGroup 5 1 [sym_ppDirective]; AGroup 23867 1 [anon_sym_LPAREN];
     AGroup 23869 1 [anon_sym_DOT]; AGroup 3 2 syms_5; AGroup 16974 13 syms_725]);
   (520042, 8, [AGroup 14871 1 [sym_kSpecialize]; AGroup 23983 1 [sym_kHat]; AGroup 23989 1 [sym_kString];
     AGroup 23985 2 syms_52; SGroup 12983 2 syms_726; AGroup 3 3 syms_1; AGroup 23987 4 syms_727;
     SGroup 11123 4 syms_31]);
   (520077, 4, [AGroup 23849 1 [anon_sym_DOT]; SGroup 11360 1 [sym_kDot]; AGroup 3 3 syms_1;
     AGroup 21181 13 syms_725]);
   (520104, 6, [AGroup 23863 1 [anon_sym_DOT]; AGroup 23879 1 [anon_sym_LBRACK];
     AGroup 23881 1 [sym_kDeprecated]; AGroup 3 3 syms_1; AGroup 23859 3 syms_117;
     AGroup 21751 9 syms_698]);
   (520135, 7, [AGroup 23853 1 [anon_sym_DOT]; AGroup 23997 1 [sym_kLt]; AGroup 23999 1 [sym_kDeprecated];
     SGroup 11360 1 [sym_kDot]; AGroup 3 3 syms_1; AGroup 21297 3 syms_117;
     AGroup 23851 8 syms_697]);
   (520168, 9, [AGroup 5 1 [sym_ppDirective]; AGroup 24001 1 [aux_sym_ppUsesBlock_token1];
     AGroup 24007 1 [sym_kStrict]; SGroup 6354 1 [sym__visibility]; SGroup 11237 1 [sym__ppIf];
     AGroup 3 2 syms_5; AGroup 24010 2 syms_730; SGroup 10539 3 syms_69; AGroup 24004 6 syms_70]);
   (520205, 2, [AGroup 3 3 syms_1; AGroup 21751 15 syms_719]);
   (520228, 3, [AGroup 3 3 syms_1; AGroup 23877 7 syms_481; AGroup 21751 8 syms_731]);
   (520253, 4, [AGroup 5 1 [sym_ppDirective]; AGroup 23867 1 [anon_sym_LPAREN]; AGroup 3 2 syms_5;
     AGroup 16974 13 syms_732]);
   (520279, 3, [AGroup 3 3 syms_1; AGroup 23877 6 syms_534; AGroup 21751 8 syms_731]);
   (520303, 6, [AGroup 21299 1 [anon_sym_DOT]; AGroup 24012 1 [sym_kLt]; AGroup 24014 1 [sym_kDeprecated];
     SGroup 11254 1 [sym_kDot]; AGroup 3 3 syms_1; AGroup 21307 10 syms_19]);
   (520333, 2, [AGroup 3 3 syms_1; AGroup 21887 14 syms_724]);
   (520355, 5, [AGroup 5 1 [sym_ppDirective]; AGroup 23873 1 [anon_sym_DOT]; SGroup 11352 1 [sym_kDot];
     AGroup 3 2 syms_5; AGroup 21269 12 syms_733]);
   (520383, 2, [AGroup 3 3 syms_1; AGroup 21887 14 syms_728]);
   (520405, 3, [AGroup 23863 1 [anon_sym_DOT]; AGroup 3 3 syms_1; AGroup 21751 13 syms_725]);
   (520429, 7, [AGroup 5 1 [sym_ppDirective]; AGroup 23863 1 [anon_sym_DOT];
     AGroup 24016 1 [anon_sym_LBRACK]; AGroup 24018 1 [sym_kDeprecated]; AGroup 3 2 syms_5;
     AGroup 23859 2 syms_44; AGroup 21751 9 syms_698]);
   (520461, 5, [AGroup 5 1 [sym_ppDirective]; AGroup 23849 1 [anon_sym_DOT]; SGroup 11352 1 [sym_kDot];
     AGroup 3 2 syms_5; AGroup 21181 12 syms_733]);
   (520489, 5, [AGroup 21299 1 [anon_sym_DOT]; AGroup 24020 1 [sym_kLt]; SGroup 11283 1 [sym_kDot];
     AGroup 3 3 syms_1; AGroup 23851 11 syms_734]);
   (520517, 3, [AGroup 23899 1 [anon_sym_DOT]; AGroup 3 3 syms_1; AGroup 21887 13 syms_725]);
   (520541, 3, [SGroup 11254 1 [sym_kDot]; AGroup 3 3 syms_1; AGroup 21269 13 syms_735]);
   (520565, 2, [AGroup 3 3 syms_1; AGroup 21751 14 syms_724]);
   (520587, 5, [AGroup 5 1 [sym_ppDirective]; AGroup 23867 1 [anon_sym_LPAREN];
     AGroup 23869 1 [anon_sym_DOT]; AGroup 3 2 syms_5; AGroup 16974 12 syms_733]);
   (520615, 3, [SGroup 11283 1 [sym_kDot]; AGroup 3 3 syms_1; AGroup 21269 13 syms_732]);
   (520639, 3, [SGroup 11283 1 [sym_kDot]; AGroup 3 3 syms_1; AGroup 21181 13 syms_732]);
   (520663, 2, [AGroup 3 3 syms_1; AGroup 21751 14 syms_728])
  ].

(** States 10559 to 10658. *)
Definition small_runs_10559 : list small_run :=
  [
   (520685, 6, [AGroup 21299 1 [anon_sym_DOT]; AGroup 24012 1 [sym_kLt]; AGroup 24022 1 [sym_kDeprecated];
     SGroup 11254 1 [sym_kDot]; AGroup 3 3 syms_1; AGroup 21297 10 syms_19]);
   (520715, 8, [AGroup 5 1 [sym_ppDirective]; AGroup 23853 1 [anon_sym_DOT]; AGroup 24024 1 [sym_kLt];
     AGroup 24026 1 [sym_kDeprecated]; SGroup 11352 1 [sym_kDot]; AGroup 3 2 syms_5;
     AGroup 21297 2 syms_44; AGroup 23851 8 syms_697]);
   (520749, 3, [SGroup 11254 1 [sym_kDot]; AGroup 3 3 syms_1; AGroup 21181 13 syms_735]);
   (520773, 14, [AGroup 24028 1 [anon_sym_SEMI]; AGroup 24030 1 [anon_sym_COLON];
     AGroup 24032 1 [anon_sym_LBRACK]; AGroup 24034 1 [sym_kRead]; AGroup 24036 1 [sym_kWrite];
     AGroup 24038 1 [sym_kImplements]; AGroup 24040 1 [sym_kDefault];
     AGroup 24042 1 [sym_kNodefault]; AGroup 24044 1 [sym_kStored]; AGroup 24046 1 [sym_kIndex];
     AGroup 24048 1 [sym_kDispId]; SGroup 10692 1 [sym_declPropArgs];
     SGroup 11016 1 [aux_sym_declProp_repeat2]; AGroup 3 3 syms_1]);
   (520818, 3, [SGroup 11344 1 [sym_kDot]; AGroup 3 3 syms_1; AGroup 21181 12 syms_736]);
   (520841, 14, [AGroup 24032 1 [anon_sym_LBRACK]; AGroup 24034 1 [sym_kRead]; AGroup 24036 1 [sym_kWrite];
     AGroup 24038 1 [sym_kImplements]; AGroup 24040 1 [sym_kDefault];
     AGroup 24044 1 [sym_kStored]; AGroup 24046 1 [sym_kIndex]; AGroup 24048 1 [sym_kDispId];
     AGroup 24050 1 [anon_sym_SEMI]; AGroup 24052 1 [anon_sym_COLON];
     AGroup 24054 1 [sym_kNodefault]; SGroup 10678 1 [sym_declPropArgs];
     SGroup 10784 1 [aux_sym_declProp_repeat2]; AGroup 3 3 syms_1]);
   (520886, 14, [AGroup 24032 1 [anon_sym_LBRACK]; AGroup 24034 1 [sym_kRead]; AGroup 24036 1 [sym_kWrite];
     AGroup 24038 1 [sym_kImplements]; AGroup 24040 1 [sym_kDefault];
     AGroup 24044 1 [sym_kStored]; AGroup 24046 1 [sym_kIndex]; AGroup 24048 1 [sym_kDispId];
     AGroup 24056 1 [anon_sym_SEMI]; AGroup 24058 1 [anon_sym_COLON];
     AGroup 24060 1 [sym_kNodefault]; SGroup 10687 1 [sym_declPropArgs];
     SGroup 11065 1 [aux_sym_declProp_repeat2]; AGroup 3 3 syms_1]);
   (520931, 3, [SGroup 11350 1 [sym_kDot]; AGroup 3 3 syms_1; AGroup 21269 12 syms_737]);
   (520954, 2, [AGroup 3 3 syms_1; AGroup 21751 13 syms_735]);
   (520975, 6, [AGroup 21299 1 [anon_sym_DOT]; AGroup 24062 1 [sym_kLt]; AGroup 24064 1 [sym_kDeprecated];
     SGroup 11350 1 [sym_kDot]; AGroup 3 3 syms_1; AGroup 21307 9 syms_23]);
   (521004, 3, [SGroup 11344 1 [sym_kDot]; AGroup 3 3 syms_1; AGroup 21269 12 syms_736]);
   (521027, 4, [AGroup 5 1 [sym_ppDirective]; AGroup 23899 1 [anon_sym_DOT]; AGroup 3 2 syms_5;
     AGroup 21887 12 syms_733]);
   (521052, 2, [AGroup 3 3 syms_1; AGroup 21751 13 syms_732]);
   (521073, 3, [SGroup 11332 1 [sym_kDot]; AGroup 3 3 syms_1; AGroup 21269 12 syms_738]);
   (521096, 2, [AGroup 3 3 syms_1; AGroup 21887 13 syms_732]);
   (521117, 14, [AGroup 24032 1 [anon_sym_LBRACK]; AGroup 24034 1 [sym_kRead]; AGroup 24036 1 [sym_kWrite];
     AGroup 24038 1 [sym_kImplements]; AGroup 24040 1 [sym_kDefault];
     AGroup 24044 1 [sym_kStored]; AGroup 24046 1 [sym_kIndex]; AGroup 24048 1 [sym_kDispId];
     AGroup 24066 1 [anon_sym_SEMI]; AGroup 24068 1 [anon_sym_COLON];
     AGroup 24070 1 [sym_kNodefault]; SGroup 10715 1 [sym_declPropArgs];
     SGroup 10963 1 [aux_sym_declProp_repeat2]; AGroup 3 3 syms_1]);
   (521162, 6, [AGroup 21299 1 [anon_sym_DOT]; AGroup 24072 1 [sym_kLt]; AGroup 24074 1 [sym_kDeprecated];
     SGroup 11344 1 [sym_kDot]; AGroup 3 3 syms_1; AGroup 21307 9 syms_20]);
   (521191, 2, [AGroup 3 3 syms_1; AGroup 21887 13 syms_735]);
   (521212, 2, [AGroup 3 3 syms_1; AGroup 16465 13 syms_739]);
   (521233, 14, [AGroup 24032 1 [anon_sym_LBRACK]; AGroup 24034 1 [sym_kRead]; AGroup 24036 1 [sym_kWrite];
     AGroup 24038 1 [sym_kImplements]; AGroup 24040 1 [sym_kDefault];
     AGroup 24044 1 [sym_kStored]; AGroup 24046 1 [sym_kIndex]; AGroup 24048 1 [sym_kDispId];
     AGroup 24076 1 [anon_sym_SEMI]; AGroup 24078 1 [anon_sym_COLON];
     AGroup 24080 1 [sym_kNodefault]; SGroup 10665 1 [sym_declPropArgs];
     SGroup 10953 1 [aux_sym_declProp_repeat2]; AGroup 3 3 syms_1]);
   (521278, 14, [AGroup 24032 1 [anon_sym_LBRACK]; AGroup 24034 1 [sym_kRead]; AGroup 24036 1 [sym_kWrite];
     AGroup 24038 1 [sym_kImplements]; AGroup 24040 1 [sym_kDefault];
     AGroup 24044 1 [sym_kStored]; AGroup 24046 1 [sym_kIndex]; AGroup 24048 1 [sym_kDispId];
     AGroup 24082 1 [anon_sym_SEMI]; AGroup 24084 1 [anon_sym_COLON];
     AGroup 24086 1 [sym_kNodefault]; SGroup 10708 1 [sym_declPropArgs];
     SGroup 10894 1 [aux_sym_declProp_repeat2]; AGroup 3 3 syms_1]);
   (521323, 4, [AGroup 5 1 [sym_ppDirective]; AGroup 23863 1 [anon_sym_DOT]; AGroup 3 2 syms_5;
     AGroup 21751 12 syms_733]);
   (521348, 3, [SGroup 11361 1 [sym_kDot]; AGroup 3 3 syms_1; AGroup 21269 12 syms_740]);
   (521371, 5, [AGroup 21299 1 [anon_sym_DOT]; AGroup 24088 1 [sym_kLt]; SGroup 11332 1 [sym_kDot];
     AGroup 3 3 syms_1; AGroup 23851 10 syms_722]);
   (521398, 3, [SGroup 11361 1 [sym_kDot]; AGroup 3 3 syms_1; AGroup 21181 12 syms_740]);
   (521421, 7, [AGroup 5 1 [sym_ppDirective]; AGroup 24092 1 [anon_sym_COLON];
     AGroup 24094 1 [anon_sym_LPAREN]; AGroup 24096 1 [sym_kOf]; SGroup 10663 1 [sym_declArgs];
     AGroup 3 2 syms_5; AGroup 24090 9 syms_20]);
   (521452, 14, [AGroup 24032 1 [anon_sym_LBRACK]; AGroup 24034 1 [sym_kRead]; AGroup 24036 1 [sym_kWrite];
     AGroup 24038 1 [sym_kImplements]; AGroup 24040 1 [sym_kDefault];
     AGroup 24044 1 [sym_kStored]; AGroup 24046 1 [sym_kIndex]; AGroup 24048 1 [sym_kDispId];
     AGroup 24098 1 [anon_sym_SEMI]; AGroup 24100 1 [anon_sym_COLON];
     AGroup 24102 1 [sym_kNodefault]; SGroup 10711 1 [sym_declPropArgs];
     SGroup 10757 1 [aux_sym_declProp_repeat2]; AGroup 3 3 syms_1]);
   (521497, 3, [SGroup 11332 1 [sym_kDot]; AGroup 3 3 syms_1; AGroup 21181 12 syms_738]);
   (521520, 4, [AGroup 5 1 [sym_ppDirective]; AGroup 24104 1 [anon_sym_LPAREN]; AGroup 3 2 syms_5;
     AGroup 16974 12 syms_738]);
   (521545, 6, [AGroup 21299 1 [anon_sym_DOT]; AGroup 24062 1 [sym_kLt]; AGroup 24106 1 [sym_kDeprecated];
     SGroup 11350 1 [sym_kDot]; AGroup 3 3 syms_1; AGroup 21297 9 syms_23]);
   (521574, 7, [AGroup 5 1 [sym_ppDirective]; AGroup 24094 1 [anon_sym_LPAREN];
     AGroup 24110 1 [anon_sym_COLON]; AGroup 24112 1 [sym_kOf]; SGroup 10666 1 [sym_declArgs];
     AGroup 3 2 syms_5; AGroup 24108 9 syms_20]);
   (521605, 6, [AGroup 21299 1 [anon_sym_DOT]; AGroup 24114 1 [sym_kLt]; AGroup 24116 1 [sym_kDeprecated];
     SGroup 11361 1 [sym_kDot]; AGroup 3 3 syms_1; AGroup 21297 9 syms_24]);
   (521634, 6, [AGroup 21299 1 [anon_sym_DOT]; AGroup 23857 1 [sym_kDeprecated]; AGroup 24072 1 [sym_kLt];
     SGroup 11344 1 [sym_kDot]; AGroup 3 3 syms_1; AGroup 21297 9 syms_20]);
   (521663, 11, [AGroup 9 1 [anon_sym_LBRACK]; AGroup 24118 1 [sym_kGeneric]; AGroup 24120 1 [sym_kOperator];
     AGroup 24122 1 [sym_kClass]; SGroup 11145 1 [sym_rttiAttributes];
     SGroup 11216 1 [aux_sym_rttiAttributes_repeat2]; SGroup 13709 1 [sym__declOperator];
     SGroup 13718 1 [sym_declProc]; SGroup 13723 1 [sym__declProc]; AGroup 3 3 syms_1;
     AGroup 24124 4 syms_3]);
   (521702, 14, [AGroup 24032 1 [anon_sym_LBRACK]; AGroup 24034 1 [sym_kRead]; AGroup 24036 1 [sym_kWrite];
     AGroup 24038 1 [sym_kImplements]; AGroup 24040 1 [sym_kDefault];
     AGroup 24044 1 [sym_kStored]; AGroup 24046 1 [sym_kIndex]; AGroup 24048 1 [sym_kDispId];
     AGroup 24126 1 [anon_sym_SEMI]; AGroup 24128 1 [anon_sym_COLON];
     AGroup 24130 1 [sym_kNodefault]; SGroup 10658 1 [sym_declPropArgs];
     SGroup 11057 1 [aux_sym_declProp_repeat2]; AGroup 3 3 syms_1]);
   (521747, 3, [SGroup 11350 1 [sym_kDot]; AGroup 3 3 syms_1; AGroup 21181 12 syms_737]);
   (521770, 6, [AGroup 21299 1 [anon_sym_DOT]; AGroup 24114 1 [sym_kLt]; AGroup 24132 1 [sym_kDeprecated];
     SGroup 11361 1 [sym_kDot]; AGroup 3 3 syms_1; AGroup 21307 9 syms_24]);
   (521799, 14, [AGroup 24032 1 [anon_sym_LBRACK]; AGroup 24034 1 [sym_kRead]; AGroup 24036 1 [sym_kWrite];
     AGroup 24038 1 [sym_kImplements]; AGroup 24040 1 [sym_kDefault];
     AGroup 24044 1 [sym_kStored]; AGroup 24046 1 [sym_kIndex]; AGroup 24048 1 [sym_kDispId];
     AGroup 24134 1 [anon_sym_SEMI]; AGroup 24136 1 [anon_sym_COLON];
     AGroup 24138 1 [sym_kNodefault]; SGroup 10696 1 [sym_declPropArgs];
     SGroup 11025 1 [aux_sym_declProp_repeat2]; AGroup 3 3 syms_1]);
   (521844, 2, [AGroup 3 3 syms_1; AGroup 23941 12 syms_717]);
   (521864, 12, [AGroup 5 1 [sym_ppDirective]; AGroup 24140 1 [anon_sym_SEMI];
     AGroup 24142 1 [anon_sym_COMMA]; AGroup 24144 1 [aux_sym_ppUsesBlock_token1];
     AGroup 24146 1 [aux_sym_ppUsesBlock_token2]; AGroup 24148 1 [aux_sym_ppUsesBlock_token3];
     AGroup 24150 1 [sym_identifier]; SGroup 11522 1 [sym_moduleName];
     SGroup 12521 1 [aux_sym_ppUsesBlock_repeat2]; SGroup 13594 1 [aux_sym_moduleName_repeat1];
     AGroup 3 2 syms_5; SGroup 10671 3 syms_741]);
   (521904, 2, [AGroup 3 3 syms_1; AGroup 23931 12 syms_717]);
   (521924, 6, [AGroup 21299 1 [anon_sym_DOT]; AGroup 24152 1 [sym_kLt]; AGroup 24154 1 [sym_kDeprecated];
     SGroup 11280 1 [sym_kDot]; AGroup 3 3 syms_1; AGroup 21297 8 syms_42]);
   (521952, 4, [AGroup 5 1 [sym_ppDirective]; AGroup 24156 1 [anon_sym_LPAREN]; AGroup 3 2 syms_5;
     AGroup 16974 11 syms_742]);
   (521976, 12, [AGroup 5 1 [sym_ppDirective]; AGroup 24144 1 [aux_sym_ppUsesBlock_token1];
     AGroup 24146 1 [aux_sym_ppUsesBlock_token2]; AGroup 24150 1 [sym_identifier];
     AGroup 24158 1 [anon_sym_SEMI]; AGroup 24160 1 [anon_sym_COMMA];
     AGroup 24162 1 [aux_sym_ppUsesBlock_token3]; SGroup 11522 1 [sym_moduleName];
     SGroup 12909 1 [aux_sym_ppUsesBlock_repeat2]; SGroup 13594 1 [aux_sym_moduleName_repeat1];
     AGroup 3 2 syms_5; SGroup 10608 3 syms_741]);
   (522016, 4, [AGroup 5 1 [sym_ppDirective]; SGroup 11322 1 [sym_kDot]; AGroup 3 2 syms_5;
     AGroup 21269 11 syms_742]);
   (522040, 2, [AGroup 3 3 syms_1; AGroup 21751 12 syms_740]);
   (522060, 2, [AGroup 3 3 syms_1; AGroup 23949 12 syms_717]);
   (522080, 4, [AGroup 5 1 [sym_ppDirective]; SGroup 11322 1 [sym_kDot]; AGroup 3 2 syms_5;
     AGroup 21181 11 syms_742]);
   (522104, 2, [AGroup 3 3 syms_1; AGroup 23927 12 syms_717]);
   (522124, 12, [AGroup 5 1 [sym_ppDirective]; AGroup 24142 1 [anon_sym_COMMA];
     AGroup 24144 1 [aux_sym_ppUsesBlock_token1]; AGroup 24146 1 [aux_sym_ppUsesBlock_token2];
     AGroup 24148 1 [aux_sym_ppUsesBlock_token3]; AGroup 24150 1 [sym_identifier];
     AGroup 24164 1 [anon_sym_SEMI]; SGroup 11522 1 [sym_moduleName];
     SGroup 12521 1 [aux_sym_ppUsesBlock_repeat2]; SGroup 13594 1 [aux_sym_moduleName_repeat1];
     AGroup 3 2 syms_5; SGroup 10671 3 syms_741]);
   (522164, 2, [AGroup 3 3 syms_1; AGroup 21751 12 syms_737]);
   (522184, 6, [AGroup 21299 1 [anon_sym_DOT]; AGroup 24166 1 [sym_kLt]; AGroup 24168 1 [sym_kDeprecated];
     SGroup 11338 1 [sym_kDot]; AGroup 3 3 syms_1; AGroup 21307 8 syms_28]);
   (522212, 3, [SGroup 11338 1 [sym_kDot]; AGroup 3 3 syms_1; AGroup 21269 11 syms_743]);
   (522234, 3, [SGroup 11327 1 [sym_kDot]; AGroup 3 3 syms_1; AGroup 21181 11 syms_744]);
   (522256, 2, [AGroup 3 3 syms_1; AGroup 21887 12 syms_736]);
   (522276, 2, [AGroup 3 3 syms_1; AGroup 23957 12 syms_717]);
   (522296, 9, [AGroup 23983 1 [sym_kHat]; AGroup 23989 1 [sym_kString]; AGroup 24170 1 [anon_sym_RPAREN];
     AGroup 24174 1 [sym_kSpecialize]; SGroup 10674 1 [aux_sym_declClass_repeat1];
     SGroup 13238 1 [sym_typeref]; AGroup 24172 2 syms_52; AGroup 3 3 syms_1;
     SGroup 11672 4 syms_31]);
   (522330, 9, [AGroup 23983 1 [sym_kHat]; AGroup 23989 1 [sym_kString]; AGroup 24174 1 [sym_kSpecialize];
     AGroup 24176 1 [anon_sym_RPAREN]; SGroup 10728 1 [aux_sym_declClass_repeat1];
     SGroup 13933 1 [sym_typeref]; AGroup 24172 2 syms_52; AGroup 3 3 syms_1;
     SGroup 11672 4 syms_31]);
   (522364, 10, [AGroup 13367 1 [sym_kGeneric]; AGroup 13369 1 [sym_kOperator];
     AGroup 24178 1 [sym_identifier]; AGroup 24180 1 [sym_kClass];
     AGroup 24182 1 [sym_kProperty]; SGroup 9901 1 [sym__declProc];
     SGroup 9904 1 [sym__declOperator]; SGroup 13992 1 [aux_sym_genericArg_repeat1];
     AGroup 3 3 syms_1; AGroup 13383 4 syms_3]);
   (522400, 6, [AGroup 21299 1 [anon_sym_DOT]; AGroup 24166 1 [sym_kLt]; AGroup 24184 1 [sym_kDeprecated];
     SGroup 11338 1 [sym_kDot]; AGroup 3 3 syms_1; AGroup 21297 8 syms_28]);
   (522428, 6, [AGroup 21299 1 [anon_sym_DOT]; AGroup 24186 1 [sym_kLt]; AGroup 24188 1 [sym_kDeprecated];
     SGroup 11278 1 [sym_kDot]; AGroup 3 3 syms_1; AGroup 21307 8 syms_38]);
   (522456, 2, [AGroup 3 3 syms_1; AGroup 23925 12 syms_717]);
   (522476, 2, [AGroup 3 3 syms_1; AGroup 21887 12 syms_738]);
   (522496, 3, [AGroup 3 3 syms_1; AGroup 23877 4 syms_654; AGroup 21751 8 syms_731]);
   (522518, 9, [AGroup 23983 1 [sym_kHat]; AGroup 23989 1 [sym_kString]; AGroup 24174 1 [sym_kSpecialize];
     AGroup 24190 1 [anon_sym_RPAREN]; SGroup 10705 1 [aux_sym_declClass_repeat1];
     SGroup 13873 1 [sym_typeref]; AGroup 24172 2 syms_52; AGroup 3 3 syms_1;
     SGroup 11672 4 syms_31]);
   (522552, 12, [AGroup 5 1 [sym_ppDirective]; AGroup 24144 1 [aux_sym_ppUsesBlock_token1];
     AGroup 24146 1 [aux_sym_ppUsesBlock_token2]; AGroup 24150 1 [sym_identifier];
     AGroup 24162 1 [aux_sym_ppUsesBlock_token3]; AGroup 24192 1 [anon_sym_SEMI];
     AGroup 24194 1 [anon_sym_COMMA]; SGroup 11522 1 [sym_moduleName];
     SGroup 12909 1 [aux_sym_ppUsesBlock_repeat2]; SGroup 13594 1 [aux_sym_moduleName_repeat1];
     AGroup 3 2 syms_5; SGroup 10650 3 syms_741]);
   (522592, 3, [SGroup 11278 1 [sym_kDot]; AGroup 3 3 syms_1; AGroup 21269 11 syms_745]);
   (522614, 3, [SGroup 11280 1 [sym_kDot]; AGroup 3 3 syms_1; AGroup 21181 11 syms_746]);
   (522636, 9, [AGroup 23983 1 [sym_kHat]; AGroup 23989 1 [sym_kString]; AGroup 24174 1 [sym_kSpecialize];
     AGroup 24196 1 [anon_sym_RPAREN]; SGroup 10675 1 [aux_sym_declClass_repeat1];
     SGroup 13057 1 [sym_typeref]; AGroup 24172 2 syms_52; AGroup 3 3 syms_1;
     SGroup 11672 4 syms_31]);
   (522670, 3, [SGroup 11338 1 [sym_kDot]; AGroup 3 3 syms_1; AGroup 21181 11 syms_743]);
   (522692, 3, [SGroup 11280 1 [sym_kDot]; AGroup 3 3 syms_1; AGroup 21269 11 syms_746]);
   (522714, 2, [AGroup 3 3 syms_1; AGroup 21887 12 syms_737]);
   (522734, 3, [SGroup 11327 1 [sym_kDot]; AGroup 3 3 syms_1; AGroup 21269 11 syms_744]);
   (522756, 12, [AGroup 5 1 [sym_ppDirective]; AGroup 24144 1 [aux_sym_ppUsesBlock_token1];
     AGroup 24146 1 [aux_sym_ppUsesBlock_token2]; AGroup 24150 1 [sym_identifier];
     AGroup 24162 1 [aux_sym_ppUsesBlock_token3]; AGroup 24198 1 [anon_sym_SEMI];
     AGroup 24200 1 [anon_sym_COMMA]; SGroup 11522 1 [sym_moduleName];
     SGroup 12909 1 [aux_sym_ppUsesBlock_repeat2]; SGroup 13594 1 [aux_sym_moduleName_repeat1];
     AGroup 3 2 syms_5; SGroup 10656 3 syms_741]);
   (522796, 3, [AGroup 5 1 [sym_ppDirective]; AGroup 3 2 syms_5; AGroup 16465 12 syms_747]);
   (522818, 6, [AGroup 21299 1 [anon_sym_DOT]; AGroup 24152 1 [sym_kLt]; AGroup 24202 1 [sym_kDeprecated];
     SGroup 11280 1 [sym_kDot]; AGroup 3 3 syms_1; AGroup 21307 8 syms_42]);
   (522846, 3, [SGroup 11278 1 [sym_kDot]; AGroup 3 3 syms_1; AGroup 21181 11 syms_745]);
   (522868, 6, [AGroup 5 1 [sym_ppDirective]; AGroup 21299 1 [anon_sym_DOT]; AGroup 24204 1 [sym_kLt];
     SGroup 11322 1 [sym_kDot]; AGroup 3 2 syms_5; AGroup 23851 9 syms_723]);
   (522896, 12, [AGroup 5 1 [sym_ppDirective]; AGroup 24144 1 [aux_sym_ppUsesBlock_token1];
     AGroup 24146 1 [aux_sym_ppUsesBlock_token2]; AGroup 24150 1 [sym_identifier];
     AGroup 24162 1 [aux_sym_ppUsesBlock_token3]; AGroup 24206 1 [anon_sym_SEMI];
     AGroup 24208 1 [anon_sym_COMMA]; SGroup 11522 1 [sym_moduleName];
     SGroup 12909 1 [aux_sym_ppUsesBlock_repeat2]; SGroup 13594 1 [aux_sym_moduleName_repeat1];
     AGroup 3 2 syms_5; SGroup 10639 3 syms_741]);
   (522936, 9, [AGroup 23983 1 [sym_kHat]; AGroup 23989 1 [sym_kString]; AGroup 24174 1 [sym_kSpecialize];
     AGroup 24210 1 [anon_sym_RPAREN]; SGroup 10701 1 [aux_sym_declClass_repeat1];
     SGroup 13558 1 [sym_typeref]; AGroup 24172 2 syms_52; AGroup 3 3 syms_1;
     SGroup 11672 4 syms_31]);
   (522970, 12, [AGroup 5 1 [sym_ppDirective]; AGroup 24142 1 [anon_sym_COMMA];
     AGroup 24144 1 [aux_sym_ppUsesBlock_token1]; AGroup 24146 1 [aux_sym_ppUsesBlock_token2];
     AGroup 24148 1 [aux_sym_ppUsesBlock_token3]; AGroup 24150 1 [sym_identifier];
     AGroup 24212 1 [anon_sym_SEMI]; SGroup 11522 1 [sym_moduleName];
     SGroup 12521 1 [aux_sym_ppUsesBlock_repeat2]; SGroup 13594 1 [aux_sym_moduleName_repeat1];
     AGroup 3 2 syms_5; SGroup 10671 3 syms_741]);
   (523010, 9, [AGroup 23983 1 [sym_kHat]; AGroup 23989 1 [sym_kString]; AGroup 24174 1 [sym_kSpecialize];
     AGroup 24214 1 [anon_sym_RPAREN]; SGroup 10713 1 [aux_sym_declClass_repeat1];
     SGroup 13359 1 [sym_typeref]; AGroup 24172 2 syms_52; AGroup 3 3 syms_1;
     SGroup 11672 4 syms_31]);
   (523044, 9, [AGroup 23983 1 [sym_kHat]; AGroup 23989 1 [sym_kString]; AGroup 24174 1 [sym_kSpecialize];
     AGroup 24216 1 [anon_sym_RPAREN]; SGroup 10684 1 [aux_sym_declClass_repeat1];
     SGroup 13008 1 [sym_typeref]; AGroup 24172 2 syms_52; AGroup 3 3 syms_1;
     SGroup 11672 4 syms_31]);
   (523078, 2, [AGroup 3 3 syms_1; AGroup 21887 12 syms_740]);
   (523098, 6, [AGroup 5 1 [sym_ppDirective]; AGroup 24220 1 [anon_sym_POUND]; AGroup 3 2 syms_5;
     AGroup 24218 2 syms_6; SGroup 10646 3 syms_13; AGroup 15233 6 syms_748]);
   (523126, 6, [AGroup 21299 1 [anon_sym_DOT]; AGroup 24222 1 [sym_kLt]; AGroup 24224 1 [sym_kDeprecated];
     SGroup 11327 1 [sym_kDot]; AGroup 3 3 syms_1; AGroup 21297 8 syms_39]);
   (523154, 12, [AGroup 5 1 [sym_ppDirective]; AGroup 24142 1 [anon_sym_COMMA];
     AGroup 24144 1 [aux_sym_ppUsesBlock_token1]; AGroup 24146 1 [aux_sym_ppUsesBlock_token2];
     AGroup 24148 1 [aux_sym_ppUsesBlock_token3]; AGroup 24150 1 [sym_identifier];
     AGroup 24226 1 [anon_sym_SEMI]; SGroup 11522 1 [sym_moduleName];
     SGroup 12521 1 [aux_sym_ppUsesBlock_repeat2]; SGroup 13594 1 [aux_sym_moduleName_repeat1];
     AGroup 3 2 syms_5; SGroup 10671 3 syms_741]);
   (523194, 6, [AGroup 5 1 [sym_ppDirective]; AGroup 24231 1 [anon_sym_POUND]; AGroup 3 2 syms_5;
     AGroup 24228 2 syms_6; SGroup 10646 3 syms_13; AGroup 15239 6 syms_748]);
   (523222, 2, [AGroup 3 3 syms_1; AGroup 17326 12 syms_717]);
   (523242, 2, [AGroup 3 3 syms_1; AGroup 21751 12 syms_738]);
   (523262, 12, [AGroup 5 1 [sym_ppDirective]; AGroup 24144 1 [aux_sym_ppUsesBlock_token1];
     AGroup 24146 1 [aux_sym_ppUsesBlock_token2]; AGroup 24150 1 [sym_identifier];
     AGroup 24162 1 [aux_sym_ppUsesBlock_token3]; AGroup 24234 1 [anon_sym_SEMI];
     AGroup 24236 1 [anon_sym_COMMA]; SGroup 11522 1 [sym_moduleName];
     SGroup 12909 1 [aux_sym_ppUsesBlock_repeat2]; SGroup 13594 1 [aux_sym_moduleName_repeat1];
     AGroup 3 2 syms_5; SGroup 10598 3 syms_741]);
   (523302, 12, [AGroup 5 1 [sym_ppDirective]; AGroup 24142 1 [anon_sym_COMMA];
     AGroup 24144 1 [aux_sym_ppUsesBlock_token1]; AGroup 24146 1 [aux_sym_ppUsesBlock_token2];
     AGroup 24148 1 [aux_sym_ppUsesBlock_token3]; AGroup 24150 1 [sym_identifier];
     AGroup 24238 1 [anon_sym_SEMI]; SGroup 11522 1 [sym_moduleName];
     SGroup 12521 1 [aux_sym_ppUsesBlock_repeat2]; SGroup 13594 1 [aux_sym_moduleName_repeat1];
     AGroup 3 2 syms_5; SGroup 10671 3 syms_741]);
   (523342, 3, [AGroup 3 3 syms_1; AGroup 24242 5 syms_313; AGroup 24240 7 syms_481]);
   (523364, 9, [AGroup 23983 1 [sym_kHat]; AGroup 23989 1 [sym_kString]; AGroup 24174 1 [sym_kSpecialize];
     AGroup 24244 1 [anon_sym_RPAREN]; SGroup 10676 1 [aux_sym_declClass_repeat1];
     SGroup 13792 1 [sym_typeref]; AGroup 24172 2 syms_52; AGroup 3 3 syms_1;
     SGroup 11672 4 syms_31]);
   (523398, 6, [AGroup 21299 1 [anon_sym_DOT]; AGroup 24222 1 [sym_kLt]; AGroup 24246 1 [sym_kDeprecated];
     SGroup 11327 1 [sym_kDot]; AGroup 3 3 syms_1; AGroup 21307 8 syms_39]);
   (523426, 3, [AGroup 3 3 syms_1; AGroup 23877 4 syms_647; AGroup 21751 8 syms_731]);
   (523448, 12, [AGroup 5 1 [sym_ppDirective]; AGroup 24144 1 [aux_sym_ppUsesBlock_token1];
     AGroup 24146 1 [aux_sym_ppUsesBlock_token2]; AGroup 24150 1 [sym_identifier];
     AGroup 24162 1 [aux_sym_ppUsesBlock_token3]; AGroup 24248 1 [anon_sym_SEMI];
     AGroup 24250 1 [anon_sym_COMMA]; SGroup 11522 1 [sym_moduleName];
     SGroup 12909 1 [aux_sym_ppUsesBlock_repeat2]; SGroup 13594 1 [aux_sym_moduleName_repeat1];
     AGroup 3 2 syms_5; SGroup 10645 3 syms_741]);
   (523488, 12, [AGroup 5 1 [sym_ppDirective]; AGroup 24142 1 [anon_sym_COMMA];
     AGroup 24144 1 [aux_sym_ppUsesBlock_token1]; AGroup 24146 1 [aux_sym_ppUsesBlock_token2];
     AGroup 24148 1 [aux_sym_ppUsesBlock_token3]; AGroup 24150 1 [sym_identifier];
     AGroup 24252 1 [anon_sym_SEMI]; SGroup 11522 1 [sym_moduleName];
     SGroup 12521 1 [aux_sym_ppUsesBlock_repeat2]; SGroup 13594 1 [aux_sym_moduleName_repeat1];
     AGroup 3 2 syms_5; SGroup 10671 3 syms_741]);
   (523528, 2, [AGroup 3 3 syms_1; AGroup 21751 12 syms_736]);
   (523548, 12, [AGroup 24034 1 [sym_kRead]; AGroup 24036 1 [sym_kWrite]; AGroup 24038 1 [sym_kImplements];
     AGroup 24040 1 [sym_kDefault]; AGroup 24044 1 [sym_kStored]; AGroup 24046 1 [sym_kIndex];
     AGroup 24048 1 [sym_kDispId]; AGroup 24254 1 [anon_sym_SEMI];
     AGroup 24256 1 [anon_sym_COLON]; AGroup 24258 1 [sym_kNodefault];
     SGroup 10733 1 [aux_sym_declProp_repeat2]; AGroup 3 3 syms_1])
  ].

(** States 10659 to 10758. *)
Definition small_runs_10659 : list small_run :=
  [
   (523587, 3, [AGroup 5 1 [sym_ppDirective]; AGroup 3 2 syms_5; AGroup 21887 11 syms_742]);
   (523608, 8, [AGroup 23983 1 [sym_kHat]; AGroup 24262 1 [sym_kSpecialize]; AGroup 24264 1 [sym_kString];
     SGroup 11656 1 [sym_typeref]; SGroup 14832 1 [sym_inlineVarStringTyperef];
     AGroup 24260 2 syms_52; AGroup 3 3 syms_1; SGroup 10769 4 syms_31]);
   (523639, 3, [SGroup 11248 1 [sym_kDot]; AGroup 3 3 syms_1; AGroup 21181 10 syms_749]);
   (523660, 6, [AGroup 21299 1 [anon_sym_DOT]; AGroup 24266 1 [sym_kLt]; AGroup 24268 1 [sym_kDeprecated];
     SGroup 11248 1 [sym_kDot]; AGroup 3 3 syms_1; AGroup 21307 7 syms_48]);
   (523687, 4, [AGroup 24272 1 [anon_sym_COLON]; AGroup 24274 1 [sym_kOf]; AGroup 3 3 syms_1;
     AGroup 24270 9 syms_20]);
   (523710, 11, [AGroup 5 1 [sym_ppDirective]; AGroup 24144 1 [aux_sym_ppUsesBlock_token1];
     AGroup 24146 1 [aux_sym_ppUsesBlock_token2]; AGroup 24150 1 [sym_identifier];
     AGroup 24276 1 [anon_sym_COMMA]; AGroup 24278 1 [aux_sym_ppUsesBlock_token3];
     SGroup 11522 1 [sym_moduleName]; SGroup 12534 1 [aux_sym_ppUsesBlock_repeat2];
     SGroup 13594 1 [aux_sym_moduleName_repeat1]; AGroup 3 2 syms_5; SGroup 10707 3 syms_741]);
   (523747, 12, [AGroup 24034 1 [sym_kRead]; AGroup 24036 1 [sym_kWrite]; AGroup 24038 1 [sym_kImplements];
     AGroup 24040 1 [sym_kDefault]; AGroup 24044 1 [sym_kStored]; AGroup 24046 1 [sym_kIndex];
     AGroup 24048 1 [sym_kDispId]; AGroup 24280 1 [anon_sym_SEMI];
     AGroup 24282 1 [anon_sym_COLON]; AGroup 24284 1 [sym_kNodefault];
     SGroup 10945 1 [aux_sym_declProp_repeat2]; AGroup 3 3 syms_1]);
   (523786, 4, [AGroup 24288 1 [anon_sym_COLON]; AGroup 24290 1 [sym_kOf]; AGroup 3 3 syms_1;
     AGroup 24286 9 syms_20]);
   (523809, 8, [AGroup 24292 1 [sym_kHat]; AGroup 24296 1 [sym_kSpecialize]; AGroup 24298 1 [sym_kString];
     SGroup 11329 1 [sym_typeref]; SGroup 12894 1 [sym_inlineVarStringTyperef];
     AGroup 24294 2 syms_52; AGroup 3 3 syms_1; SGroup 10644 4 syms_31]);
   (523840, 8, [AGroup 24300 1 [sym_kHat]; AGroup 24304 1 [sym_kSpecialize]; AGroup 24306 1 [sym_kString];
     SGroup 11478 1 [sym_typeref]; SGroup 13519 1 [sym_inlineVarStringTyperef];
     AGroup 24302 2 syms_52; AGroup 3 3 syms_1; SGroup 10698 4 syms_31]);
   (523871, 3, [AGroup 3 3 syms_1; AGroup 24308 5 syms_720; AGroup 23931 6 syms_750]);
   (523892, 8, [AGroup 24310 1 [sym_kHat]; AGroup 24314 1 [sym_kSpecialize]; AGroup 24316 1 [sym_kString];
     SGroup 11223 1 [sym_typeref]; SGroup 12360 1 [sym_inlineVarStringTyperef];
     AGroup 24312 2 syms_52; AGroup 3 3 syms_1; SGroup 10590 4 syms_31]);
   (523923, 9, [AGroup 5 1 [sym_ppDirective]; AGroup 24320 1 [anon_sym_COMMA];
     AGroup 24323 1 [aux_sym_ppUsesBlock_token1]; AGroup 24326 1 [sym_identifier];
     SGroup 11522 1 [sym_moduleName]; SGroup 13594 1 [aux_sym_moduleName_repeat1];
     AGroup 3 2 syms_5; AGroup 24318 3 syms_111; SGroup 10671 3 syms_741]);
   (523956, 3, [AGroup 3 3 syms_1; AGroup 24242 5 syms_313; AGroup 24240 6 syms_534]);
   (523977, 2, [AGroup 3 3 syms_1; AGroup 21751 11 syms_743]);
   (523996, 8, [AGroup 23983 1 [sym_kHat]; AGroup 23989 1 [sym_kString]; AGroup 24174 1 [sym_kSpecialize];
     SGroup 10722 1 [aux_sym_declClass_repeat1]; SGroup 13304 1 [sym_typeref];
     AGroup 24172 2 syms_52; AGroup 3 3 syms_1; SGroup 11672 4 syms_31]);
   (524027, 8, [AGroup 23983 1 [sym_kHat]; AGroup 23989 1 [sym_kString]; AGroup 24174 1 [sym_kSpecialize];
     SGroup 10722 1 [aux_sym_declClass_repeat1]; SGroup 13244 1 [sym_typeref];
     AGroup 24172 2 syms_52; AGroup 3 3 syms_1; SGroup 11672 4 syms_31]);
   (524058, 8, [AGroup 23983 1 [sym_kHat]; AGroup 23989 1 [sym_kString]; AGroup 24174 1 [sym_kSpecialize];
     SGroup 10722 1 [aux_sym_declClass_repeat1]; SGroup 13207 1 [sym_typeref];
     AGroup 24172 2 syms_52; AGroup 3 3 syms_1; SGroup 11672 4 syms_31]);
   (524089, 2, [AGroup 3 3 syms_1; AGroup 21887 11 syms_745]);
   (524108, 12, [AGroup 24034 1 [sym_kRead]; AGroup 24036 1 [sym_kWrite]; AGroup 24038 1 [sym_kImplements];
     AGroup 24040 1 [sym_kDefault]; AGroup 24044 1 [sym_kStored]; AGroup 24046 1 [sym_kIndex];
     AGroup 24048 1 [sym_kDispId]; AGroup 24329 1 [anon_sym_SEMI];
     AGroup 24331 1 [anon_sym_COLON]; AGroup 24333 1 [sym_kNodefault];
     SGroup 10932 1 [aux_sym_declProp_repeat2]; AGroup 3 3 syms_1]);
   (524147, 2, [AGroup 3 3 syms_1; AGroup 21887 11 syms_743]);
   (524166, 2, [AGroup 3 3 syms_1; AGroup 23883 11 syms_751]);
   (524185, 4, [AGroup 24335 1 [anon_sym_LBRACK]; SGroup 10681 1 [aux_sym_rttiAttributes_repeat2];
     AGroup 3 3 syms_1; AGroup 11318 9 syms_752]);
   (524208, 8, [AGroup 24338 1 [sym_kHat]; AGroup 24342 1 [sym_kSpecialize]; AGroup 24344 1 [sym_kString];
     SGroup 11356 1 [sym_typeref]; SGroup 12985 1 [sym_inlineVarStringTyperef];
     AGroup 24340 2 syms_52; AGroup 3 3 syms_1; SGroup 10600 4 syms_31]);
   (524239, 8, [AGroup 24346 1 [sym_kHat]; AGroup 24350 1 [sym_kSpecialize]; AGroup 24352 1 [sym_kString];
     SGroup 11518 1 [sym_typeref]; SGroup 13321 1 [sym_inlineVarStringTyperef];
     AGroup 24348 2 syms_52; AGroup 3 3 syms_1; SGroup 10718 4 syms_31]);
   (524270, 8, [AGroup 23983 1 [sym_kHat]; AGroup 23989 1 [sym_kString]; AGroup 24174 1 [sym_kSpecialize];
     SGroup 10722 1 [aux_sym_declClass_repeat1]; SGroup 13204 1 [sym_typeref];
     AGroup 24172 2 syms_52; AGroup 3 3 syms_1; SGroup 11672 4 syms_31]);
   (524301, 3, [SGroup 11328 1 [sym_kDot]; AGroup 3 3 syms_1; AGroup 21269 10 syms_753]);
   (524322, 3, [SGroup 11279 1 [sym_kDot]; AGroup 3 3 syms_1; AGroup 21181 10 syms_754]);
   (524343, 12, [AGroup 24034 1 [sym_kRead]; AGroup 24036 1 [sym_kWrite]; AGroup 24038 1 [sym_kImplements];
     AGroup 24040 1 [sym_kDefault]; AGroup 24044 1 [sym_kStored]; AGroup 24046 1 [sym_kIndex];
     AGroup 24048 1 [sym_kDispId]; AGroup 24354 1 [anon_sym_SEMI];
     AGroup 24356 1 [anon_sym_COLON]; AGroup 24358 1 [sym_kNodefault];
     SGroup 10942 1 [aux_sym_declProp_repeat2]; AGroup 3 3 syms_1]);
   (524382, 3, [AGroup 5 1 [sym_ppDirective]; AGroup 3 2 syms_5; AGroup 21751 11 syms_742]);
   (524403, 5, [AGroup 23853 1 [anon_sym_DOT]; AGroup 24360 1 [sym_kLt]; SGroup 11259 1 [sym_kDot];
     AGroup 3 3 syms_1; AGroup 23851 8 syms_697]);
   (524428, 8, [AGroup 24362 1 [sym_kHat]; AGroup 24366 1 [sym_kSpecialize]; AGroup 24368 1 [sym_kString];
     SGroup 10672 1 [sym_typeref]; SGroup 11647 1 [sym_inlineVarStringTyperef];
     AGroup 24364 2 syms_52; AGroup 3 3 syms_1; SGroup 10527 4 syms_31]);
   (524459, 8, [AGroup 24370 1 [sym_kHat]; AGroup 24374 1 [sym_kSpecialize]; AGroup 24376 1 [sym_kString];
     SGroup 11271 1 [sym_typeref]; SGroup 12552 1 [sym_inlineVarStringTyperef];
     AGroup 24372 2 syms_52; AGroup 3 3 syms_1; SGroup 10618 4 syms_31]);
   (524490, 12, [AGroup 24034 1 [sym_kRead]; AGroup 24036 1 [sym_kWrite]; AGroup 24038 1 [sym_kImplements];
     AGroup 24040 1 [sym_kDefault]; AGroup 24044 1 [sym_kStored]; AGroup 24046 1 [sym_kIndex];
     AGroup 24048 1 [sym_kDispId]; AGroup 24378 1 [anon_sym_SEMI];
     AGroup 24380 1 [anon_sym_COLON]; AGroup 24382 1 [sym_kNodefault];
     SGroup 10848 1 [aux_sym_declProp_repeat2]; AGroup 3 3 syms_1]);
   (524529, 6, [AGroup 21299 1 [anon_sym_DOT]; AGroup 24384 1 [sym_kLt]; AGroup 24386 1 [sym_kDeprecated];
     SGroup 11279 1 [sym_kDot]; AGroup 3 3 syms_1; AGroup 21307 7 syms_47]);
   (524556, 8, [AGroup 24388 1 [sym_kHat]; AGroup 24392 1 [sym_kSpecialize]; AGroup 24394 1 [sym_kString];
     SGroup 11543 1 [sym_typeref]; SGroup 14054 1 [sym_inlineVarStringTyperef];
     AGroup 24390 2 syms_52; AGroup 3 3 syms_1; SGroup 10699 4 syms_31]);
   (524587, 2, [AGroup 3 3 syms_1; AGroup 21751 11 syms_746]);
   (524606, 12, [AGroup 24034 1 [sym_kRead]; AGroup 24036 1 [sym_kWrite]; AGroup 24038 1 [sym_kImplements];
     AGroup 24040 1 [sym_kDefault]; AGroup 24044 1 [sym_kStored]; AGroup 24046 1 [sym_kIndex];
     AGroup 24048 1 [sym_kDispId]; AGroup 24396 1 [anon_sym_SEMI];
     AGroup 24398 1 [anon_sym_COLON]; AGroup 24400 1 [sym_kNodefault];
     SGroup 10985 1 [aux_sym_declProp_repeat2]; AGroup 3 3 syms_1]);
   (524645, 4, [AGroup 24402 2 syms_9; AGroup 3 3 syms_1; AGroup 23935 4 syms_90; AGroup 24308 5 syms_720]);
   (524668, 6, [AGroup 21299 1 [anon_sym_DOT]; AGroup 24266 1 [sym_kLt]; AGroup 24404 1 [sym_kDeprecated];
     SGroup 11248 1 [sym_kDot]; AGroup 3 3 syms_1; AGroup 21297 7 syms_48]);
   (524695, 6, [AGroup 21299 1 [anon_sym_DOT]; AGroup 24406 1 [sym_kLt]; AGroup 24408 1 [sym_kDeprecated];
     SGroup 11328 1 [sym_kDot]; AGroup 3 3 syms_1; AGroup 21297 7 syms_51]);
   (524722, 6, [AGroup 21299 1 [anon_sym_DOT]; AGroup 24406 1 [sym_kLt]; AGroup 24410 1 [sym_kDeprecated];
     SGroup 11328 1 [sym_kDot]; AGroup 3 3 syms_1; AGroup 21307 7 syms_51]);
   (524749, 8, [AGroup 23983 1 [sym_kHat]; AGroup 23989 1 [sym_kString]; AGroup 24174 1 [sym_kSpecialize];
     SGroup 10722 1 [aux_sym_declClass_repeat1]; SGroup 13482 1 [sym_typeref];
     AGroup 24172 2 syms_52; AGroup 3 3 syms_1; SGroup 11672 4 syms_31]);
   (524780, 5, [AGroup 5 1 [sym_ppDirective]; AGroup 23867 1 [anon_sym_LPAREN];
     AGroup 23869 1 [anon_sym_DOT]; AGroup 3 2 syms_5; AGroup 16974 9 syms_698]);
   (524805, 2, [AGroup 3 3 syms_1; AGroup 23901 11 syms_751]);
   (524824, 2, [AGroup 3 3 syms_1; AGroup 21887 11 syms_746]);
   (524843, 8, [AGroup 23983 1 [sym_kHat]; AGroup 23989 1 [sym_kString]; AGroup 24174 1 [sym_kSpecialize];
     SGroup 10722 1 [aux_sym_declClass_repeat1]; SGroup 14012 1 [sym_typeref];
     AGroup 24172 2 syms_52; AGroup 3 3 syms_1; SGroup 11672 4 syms_31]);
   (524874, 2, [AGroup 3 3 syms_1; AGroup 21887 11 syms_744]);
   (524893, 11, [AGroup 5 1 [sym_ppDirective]; AGroup 24142 1 [anon_sym_COMMA];
     AGroup 24144 1 [aux_sym_ppUsesBlock_token1]; AGroup 24146 1 [aux_sym_ppUsesBlock_token2];
     AGroup 24150 1 [sym_identifier]; AGroup 24412 1 [aux_sym_ppUsesBlock_token3];
     SGroup 11522 1 [sym_moduleName]; SGroup 12460 1 [aux_sym_ppUsesBlock_repeat2];
     SGroup 13594 1 [aux_sym_moduleName_repeat1]; AGroup 3 2 syms_5; SGroup 10671 3 syms_741]);
   (524930, 12, [AGroup 24034 1 [sym_kRead]; AGroup 24036 1 [sym_kWrite]; AGroup 24038 1 [sym_kImplements];
     AGroup 24040 1 [sym_kDefault]; AGroup 24044 1 [sym_kStored]; AGroup 24046 1 [sym_kIndex];
     AGroup 24048 1 [sym_kDispId]; AGroup 24414 1 [anon_sym_SEMI];
     AGroup 24416 1 [anon_sym_COLON]; AGroup 24418 1 [sym_kNodefault];
     SGroup 11013 1 [aux_sym_declProp_repeat2]; AGroup 3 3 syms_1]);
   (524969, 3, [SGroup 11328 1 [sym_kDot]; AGroup 3 3 syms_1; AGroup 21181 10 syms_753]);
   (524990, 2, [AGroup 3 3 syms_1; AGroup 21751 11 syms_745]);
   (525009, 12, [AGroup 24034 1 [sym_kRead]; AGroup 24036 1 [sym_kWrite]; AGroup 24038 1 [sym_kImplements];
     AGroup 24040 1 [sym_kDefault]; AGroup 24044 1 [sym_kStored]; AGroup 24046 1 [sym_kIndex];
     AGroup 24048 1 [sym_kDispId]; AGroup 24420 1 [anon_sym_SEMI];
     AGroup 24422 1 [anon_sym_COLON]; AGroup 24424 1 [sym_kNodefault];
     SGroup 10967 1 [aux_sym_declProp_repeat2]; AGroup 3 3 syms_1]);
   (525048, 2, [AGroup 3 3 syms_1; AGroup 23889 11 syms_751]);
   (525067, 8, [AGroup 23983 1 [sym_kHat]; AGroup 23989 1 [sym_kString]; AGroup 24174 1 [sym_kSpecialize];
     SGroup 10722 1 [aux_sym_declClass_repeat1]; SGroup 13048 1 [sym_typeref];
     AGroup 24172 2 syms_52; AGroup 3 3 syms_1; SGroup 11672 4 syms_31]);
   (525098, 3, [AGroup 3 3 syms_1; AGroup 23877 3 syms_679; AGroup 21751 8 syms_731]);
   (525119, 12, [AGroup 24034 1 [sym_kRead]; AGroup 24036 1 [sym_kWrite]; AGroup 24038 1 [sym_kImplements];
     AGroup 24040 1 [sym_kDefault]; AGroup 24044 1 [sym_kStored]; AGroup 24046 1 [sym_kIndex];
     AGroup 24048 1 [sym_kDispId]; AGroup 24426 1 [anon_sym_SEMI];
     AGroup 24428 1 [anon_sym_COLON]; AGroup 24430 1 [sym_kNodefault];
     SGroup 11023 1 [aux_sym_declProp_repeat2]; AGroup 3 3 syms_1]);
   (525158, 8, [AGroup 24432 1 [sym_kHat]; AGroup 24436 1 [sym_kSpecialize]; AGroup 24438 1 [sym_kString];
     SGroup 11186 1 [sym_typeref]; SGroup 12112 1 [sym_inlineVarStringTyperef];
     AGroup 24434 2 syms_52; AGroup 3 3 syms_1; SGroup 10588 4 syms_31]);
   (525189, 3, [SGroup 11279 1 [sym_kDot]; AGroup 3 3 syms_1; AGroup 21269 10 syms_754]);
   (525210, 6, [AGroup 21299 1 [anon_sym_DOT]; AGroup 24384 1 [sym_kLt]; AGroup 24440 1 [sym_kDeprecated];
     SGroup 11279 1 [sym_kDot]; AGroup 3 3 syms_1; AGroup 21297 7 syms_47]);
   (525237, 3, [AGroup 3 3 syms_1; AGroup 23877 3 syms_678; AGroup 21751 8 syms_731]);
   (525258, 4, [AGroup 23873 1 [anon_sym_DOT]; SGroup 11259 1 [sym_kDot]; AGroup 3 3 syms_1;
     AGroup 21269 9 syms_698]);
   (525281, 2, [AGroup 3 3 syms_1; AGroup 21751 11 syms_744]);
   (525300, 8, [AGroup 24442 1 [sym_kHat]; AGroup 24448 1 [sym_kSpecialize]; AGroup 24451 1 [sym_kString];
     SGroup 10722 1 [aux_sym_declClass_repeat1]; SGroup 15115 1 [sym_typeref];
     AGroup 24445 2 syms_52; AGroup 3 3 syms_1; SGroup 11672 4 syms_31]);
   (525331, 11, [AGroup 5 1 [sym_ppDirective]; AGroup 24142 1 [anon_sym_COMMA];
     AGroup 24144 1 [aux_sym_ppUsesBlock_token1]; AGroup 24146 1 [aux_sym_ppUsesBlock_token2];
     AGroup 24148 1 [aux_sym_ppUsesBlock_token3]; AGroup 24150 1 [sym_identifier];
     SGroup 11522 1 [sym_moduleName]; SGroup 12521 1 [aux_sym_ppUsesBlock_repeat2];
     SGroup 13594 1 [aux_sym_moduleName_repeat1]; AGroup 3 2 syms_5; SGroup 10671 3 syms_741]);
   (525368, 3, [SGroup 11248 1 [sym_kDot]; AGroup 3 3 syms_1; AGroup 21269 10 syms_749]);
   (525389, 11, [AGroup 5 1 [sym_ppDirective]; AGroup 24144 1 [aux_sym_ppUsesBlock_token1];
     AGroup 24146 1 [aux_sym_ppUsesBlock_token2]; AGroup 24150 1 [sym_identifier];
     AGroup 24162 1 [aux_sym_ppUsesBlock_token3]; AGroup 24454 1 [anon_sym_COMMA];
     SGroup 11522 1 [sym_moduleName]; SGroup 12909 1 [aux_sym_ppUsesBlock_repeat2];
     SGroup 13594 1 [aux_sym_moduleName_repeat1]; AGroup 3 2 syms_5; SGroup 10723 3 syms_741]);
   (525426, 8, [AGroup 24456 1 [sym_kHat]; AGroup 24460 1 [sym_kSpecialize]; AGroup 24462 1 [sym_kString];
     SGroup 10651 1 [sym_typeref]; SGroup 11362 1 [sym_inlineVarStringTyperef];
     AGroup 24458 2 syms_52; AGroup 3 3 syms_1; SGroup 10517 4 syms_31]);
   (525457, 4, [AGroup 23849 1 [anon_sym_DOT]; SGroup 11259 1 [sym_kDot]; AGroup 3 3 syms_1;
     AGroup 21181 9 syms_698]);
   (525480, 8, [AGroup 23983 1 [sym_kHat]; AGroup 23989 1 [sym_kString]; AGroup 24174 1 [sym_kSpecialize];
     SGroup 10722 1 [aux_sym_declClass_repeat1]; SGroup 13242 1 [sym_typeref];
     AGroup 24172 2 syms_52; AGroup 3 3 syms_1; SGroup 11672 4 syms_31]);
   (525511, 3, [AGroup 3 3 syms_1; AGroup 23877 3 syms_675; AGroup 21751 8 syms_731]);
   (525532, 4, [AGroup 13347 1 [anon_sym_LBRACK]; SGroup 10681 1 [aux_sym_rttiAttributes_repeat2];
     AGroup 3 3 syms_1; AGroup 15477 9 syms_752]);
   (525555, 7, [AGroup 14871 1 [sym_kSpecialize]; AGroup 23983 1 [sym_kHat]; AGroup 23989 1 [sym_kString];
     SGroup 12195 1 [sym_typeref]; AGroup 23985 2 syms_52; AGroup 3 3 syms_1;
     SGroup 11123 4 syms_31]);
   (525583, 7, [AGroup 15605 1 [sym_kHat]; AGroup 24466 1 [sym_kString];
     SGroup 11135 1 [aux_sym_typerefArgs_repeat1]; SGroup 15740 1 [sym_typerefArgs];
     AGroup 24464 2 syms_52; AGroup 3 3 syms_1; SGroup 11929 4 syms_31]);
   (525611, 11, [AGroup 24034 1 [sym_kRead]; AGroup 24036 1 [sym_kWrite]; AGroup 24038 1 [sym_kImplements];
     AGroup 24040 1 [sym_kDefault]; AGroup 24044 1 [sym_kStored]; AGroup 24046 1 [sym_kIndex];
     AGroup 24048 1 [sym_kDispId]; AGroup 24468 1 [anon_sym_SEMI];
     AGroup 24470 1 [sym_kNodefault]; SGroup 10997 1 [aux_sym_declProp_repeat2];
     AGroup 3 3 syms_1]);
   (525647, 7, [AGroup 24472 1 [sym_kHat]; AGroup 24476 1 [sym_kSpecialize]; AGroup 24478 1 [sym_kString];
     SGroup 6648 1 [sym_typeref]; AGroup 24474 2 syms_52; AGroup 3 3 syms_1;
     SGroup 10276 4 syms_31]);
   (525675, 3, [AGroup 24482 1 [sym_kOf]; AGroup 3 3 syms_1; AGroup 24480 9 syms_20]);
   (525695, 7, [AGroup 24484 1 [sym_kHat]; AGroup 24488 1 [sym_kSpecialize]; AGroup 24490 1 [sym_kString];
     SGroup 12254 1 [sym_typeref]; AGroup 24486 2 syms_52; AGroup 3 3 syms_1;
     SGroup 11315 4 syms_31]);
   (525723, 7, [AGroup 14871 1 [sym_kSpecialize]; AGroup 23983 1 [sym_kHat]; AGroup 23989 1 [sym_kString];
     SGroup 12728 1 [sym_typeref]; AGroup 23985 2 syms_52; AGroup 3 3 syms_1;
     SGroup 11123 4 syms_31]);
   (525751, 7, [AGroup 24472 1 [sym_kHat]; AGroup 24476 1 [sym_kSpecialize]; AGroup 24478 1 [sym_kString];
     SGroup 6958 1 [sym_typeref]; AGroup 24474 2 syms_52; AGroup 3 3 syms_1;
     SGroup 10276 4 syms_31]);
   (525779, 7, [AGroup 15605 1 [sym_kHat]; AGroup 24466 1 [sym_kString];
     SGroup 11135 1 [aux_sym_typerefArgs_repeat1]; SGroup 14525 1 [sym_typerefArgs];
     AGroup 24464 2 syms_52; AGroup 3 3 syms_1; SGroup 11929 4 syms_31]);
   (525807, 7, [AGroup 24472 1 [sym_kHat]; AGroup 24476 1 [sym_kSpecialize]; AGroup 24478 1 [sym_kString];
     SGroup 6772 1 [sym_typeref]; AGroup 24474 2 syms_52; AGroup 3 3 syms_1;
     SGroup 10276 4 syms_31]);
   (525835, 3, [SGroup 11263 1 [sym_kDot]; AGroup 3 3 syms_1; AGroup 21269 9 syms_755]);
   (525855, 7, [AGroup 24472 1 [sym_kHat]; AGroup 24476 1 [sym_kSpecialize]; AGroup 24478 1 [sym_kString];
     SGroup 6817 1 [sym_typeref]; AGroup 24474 2 syms_52; AGroup 3 3 syms_1;
     SGroup 10276 4 syms_31]);
   (525883, 3, [AGroup 23863 1 [anon_sym_DOT]; AGroup 3 3 syms_1; AGroup 21751 9 syms_698]);
   (525903, 7, [AGroup 24472 1 [sym_kHat]; AGroup 24476 1 [sym_kSpecialize]; AGroup 24478 1 [sym_kString];
     SGroup 6924 1 [sym_typeref]; AGroup 24474 2 syms_52; AGroup 3 3 syms_1;
     SGroup 10276 4 syms_31]);
   (525931, 7, [AGroup 15605 1 [sym_kHat]; AGroup 24466 1 [sym_kString];
     SGroup 11135 1 [aux_sym_typerefArgs_repeat1]; SGroup 15004 1 [sym_typerefArgs];
     AGroup 24464 2 syms_52; AGroup 3 3 syms_1; SGroup 11929 4 syms_31]);
   (525959, 3, [AGroup 23877 2 syms_685; AGroup 3 3 syms_1; AGroup 21751 8 syms_731]);
   (525979, 7, [AGroup 24472 1 [sym_kHat]; AGroup 24476 1 [sym_kSpecialize]; AGroup 24478 1 [sym_kString];
     SGroup 6981 1 [sym_typeref]; AGroup 24474 2 syms_52; AGroup 3 3 syms_1;
     SGroup 10276 4 syms_31]);
   (526007, 7, [AGroup 14871 1 [sym_kSpecialize]; AGroup 23983 1 [sym_kHat]; AGroup 23989 1 [sym_kString];
     SGroup 12553 1 [sym_typeref]; AGroup 23985 2 syms_52; AGroup 3 3 syms_1;
     SGroup 11123 4 syms_31]);
   (526035, 3, [AGroup 23877 2 syms_684; AGroup 3 3 syms_1; AGroup 21751 8 syms_731]);
   (526055, 7, [AGroup 24472 1 [sym_kHat]; AGroup 24476 1 [sym_kSpecialize]; AGroup 24478 1 [sym_kString];
     SGroup 6726 1 [sym_typeref]; AGroup 24474 2 syms_52; AGroup 3 3 syms_1;
     SGroup 10276 4 syms_31]);
   (526083, 7, [AGroup 15605 1 [sym_kHat]; AGroup 24466 1 [sym_kString];
     SGroup 11135 1 [aux_sym_typerefArgs_repeat1]; SGroup 15411 1 [sym_typerefArgs];
     AGroup 24464 2 syms_52; AGroup 3 3 syms_1; SGroup 11929 4 syms_31]);
   (526111, 9, [AGroup 5 1 [sym_ppDirective]; AGroup 24492 1 [anon_sym_COMMA];
     AGroup 24494 1 [aux_sym_ppUsesBlock_token1]; AGroup 24496 1 [sym_identifier];
     SGroup 10405 1 [sym_ppUsesBlockWithSemi]; SGroup 11952 1 [sym_moduleName];
     SGroup 13456 1 [aux_sym_moduleName_repeat1]; AGroup 3 2 syms_5; SGroup 10771 4 syms_756]);
   (526143, 7, [AGroup 24472 1 [sym_kHat]; AGroup 24476 1 [sym_kSpecialize]; AGroup 24478 1 [sym_kString];
     SGroup 6713 1 [sym_typeref]; AGroup 24474 2 syms_52; AGroup 3 3 syms_1;
     SGroup 10276 4 syms_31]);
   (526171, 7, [AGroup 24472 1 [sym_kHat]; AGroup 24476 1 [sym_kSpecialize]; AGroup 24478 1 [sym_kString];
     SGroup 6657 1 [sym_typeref]; AGroup 24474 2 syms_52; AGroup 3 3 syms_1;
     SGroup 10276 4 syms_31]);
   (526199, 2, [AGroup 3 3 syms_1; AGroup 21751 10 syms_753]);
   (526217, 7, [AGroup 14871 1 [sym_kSpecialize]; AGroup 23983 1 [sym_kHat]; AGroup 23989 1 [sym_kString];
     SGroup 12510 1 [sym_typeref]; AGroup 23985 2 syms_52; AGroup 3 3 syms_1;
     SGroup 11123 4 syms_31]);
   (526245, 11, [AGroup 24034 1 [sym_kRead]; AGroup 24036 1 [sym_kWrite]; AGroup 24038 1 [sym_kImplements];
     AGroup 24040 1 [sym_kDefault]; AGroup 24044 1 [sym_kStored]; AGroup 24046 1 [sym_kIndex];
     AGroup 24048 1 [sym_kDispId]; AGroup 24470 1 [sym_kNodefault];
     AGroup 24498 1 [anon_sym_SEMI]; SGroup 10997 1 [aux_sym_declProp_repeat2]; AGroup 3 3 syms_1]);
   (526281, 7, [AGroup 24500 1 [sym_kHat]; AGroup 24504 1 [sym_kSpecialize]; AGroup 24506 1 [sym_kString];
     SGroup 10868 1 [sym_typeref]; AGroup 24502 2 syms_52; AGroup 3 3 syms_1;
     SGroup 10559 4 syms_31])
  ].

(** States 10759 to 10858. *)
Definition small_runs_10759 : list small_run :=
  [
   (526309, 7, [AGroup 14871 1 [sym_kSpecialize]; AGroup 23983 1 [sym_kHat]; AGroup 23989 1 [sym_kString];
     SGroup 12564 1 [sym_typeref]; AGroup 23985 2 syms_52; AGroup 3 3 syms_1;
     SGroup 11123 4 syms_31]);
   (526337, 6, [AGroup 21299 1 [anon_sym_DOT]; AGroup 24508 1 [sym_kLt]; AGroup 24510 1 [sym_kDeprecated];
     SGroup 11349 1 [sym_kDot]; AGroup 3 3 syms_1; AGroup 21307 6 syms_58]);
   (526363, 7, [AGroup 24472 1 [sym_kHat]; AGroup 24476 1 [sym_kSpecialize]; AGroup 24478 1 [sym_kString];
     SGroup 6671 1 [sym_typeref]; AGroup 24474 2 syms_52; AGroup 3 3 syms_1;
     SGroup 10276 4 syms_31]);
   (526391, 7, [AGroup 15605 1 [sym_kHat]; AGroup 24466 1 [sym_kString];
     SGroup 11135 1 [aux_sym_typerefArgs_repeat1]; SGroup 15680 1 [sym_typerefArgs];
     AGroup 24464 2 syms_52; AGroup 3 3 syms_1; SGroup 11929 4 syms_31]);
   (526419, 7, [AGroup 14871 1 [sym_kSpecialize]; AGroup 23983 1 [sym_kHat]; AGroup 23989 1 [sym_kString];
     SGroup 12566 1 [sym_typeref]; AGroup 23985 2 syms_52; AGroup 3 3 syms_1;
     SGroup 11123 4 syms_31]);
   (526447, 7, [AGroup 15605 1 [sym_kHat]; AGroup 24466 1 [sym_kString];
     SGroup 11135 1 [aux_sym_typerefArgs_repeat1]; SGroup 15732 1 [sym_typerefArgs];
     AGroup 24464 2 syms_52; AGroup 3 3 syms_1; SGroup 11929 4 syms_31]);
   (526475, 7, [AGroup 24472 1 [sym_kHat]; AGroup 24476 1 [sym_kSpecialize]; AGroup 24478 1 [sym_kString];
     SGroup 6701 1 [sym_typeref]; AGroup 24474 2 syms_52; AGroup 3 3 syms_1;
     SGroup 10276 4 syms_31]);
   (526503, 7, [AGroup 24472 1 [sym_kHat]; AGroup 24476 1 [sym_kSpecialize]; AGroup 24478 1 [sym_kString];
     SGroup 6714 1 [sym_typeref]; AGroup 24474 2 syms_52; AGroup 3 3 syms_1;
     SGroup 10276 4 syms_31]);
   (526531, 3, [AGroup 24514 1 [sym_kOf]; AGroup 3 3 syms_1; AGroup 24512 9 syms_20]);
   (526551, 7, [AGroup 24472 1 [sym_kHat]; AGroup 24476 1 [sym_kSpecialize]; AGroup 24478 1 [sym_kString];
     SGroup 6736 1 [sym_typeref]; AGroup 24474 2 syms_52; AGroup 3 3 syms_1;
     SGroup 10276 4 syms_31]);
   (526579, 6, [AGroup 21299 1 [anon_sym_DOT]; AGroup 24508 1 [sym_kLt]; AGroup 24516 1 [sym_kDeprecated];
     SGroup 11349 1 [sym_kDot]; AGroup 3 3 syms_1; AGroup 21297 6 syms_58]);
   (526605, 7, [AGroup 15605 1 [sym_kHat]; AGroup 24466 1 [sym_kString];
     SGroup 11135 1 [aux_sym_typerefArgs_repeat1]; SGroup 14137 1 [sym_typerefArgs];
     AGroup 24464 2 syms_52; AGroup 3 3 syms_1; SGroup 11929 4 syms_31]);
   (526633, 9, [AGroup 5 1 [sym_ppDirective]; AGroup 24496 1 [sym_identifier];
     AGroup 24518 1 [anon_sym_SEMI]; AGroup 24520 1 [anon_sym_COMMA];
     AGroup 24522 1 [aux_sym_ppUsesBlock_token1]; SGroup 11952 1 [sym_moduleName];
     SGroup 13456 1 [aux_sym_moduleName_repeat1]; AGroup 3 2 syms_5; SGroup 11017 4 syms_756]);
   (526665, 7, [AGroup 15413 1 [sym_kSpecialize]; AGroup 24524 1 [sym_kHat]; AGroup 24528 1 [sym_kString];
     SGroup 12883 1 [sym_typeref]; AGroup 24526 2 syms_52; AGroup 3 3 syms_1;
     SGroup 11372 4 syms_31]);
   (526693, 7, [AGroup 24472 1 [sym_kHat]; AGroup 24476 1 [sym_kSpecialize]; AGroup 24478 1 [sym_kString];
     SGroup 6837 1 [sym_typeref]; AGroup 24474 2 syms_52; AGroup 3 3 syms_1;
     SGroup 10276 4 syms_31]);
   (526721, 7, [AGroup 14871 1 [sym_kSpecialize]; AGroup 23983 1 [sym_kHat]; AGroup 23989 1 [sym_kString];
     SGroup 12781 1 [sym_typeref]; AGroup 23985 2 syms_52; AGroup 3 3 syms_1;
     SGroup 11123 4 syms_31]);
   (526749, 7, [AGroup 24484 1 [sym_kHat]; AGroup 24488 1 [sym_kSpecialize]; AGroup 24490 1 [sym_kString];
     SGroup 12288 1 [sym_typeref]; AGroup 24486 2 syms_52; AGroup 3 3 syms_1;
     SGroup 11315 4 syms_31]);
   (526777, 7, [AGroup 24472 1 [sym_kHat]; AGroup 24476 1 [sym_kSpecialize]; AGroup 24478 1 [sym_kString];
     SGroup 6862 1 [sym_typeref]; AGroup 24474 2 syms_52; AGroup 3 3 syms_1;
     SGroup 10276 4 syms_31]);
   (526805, 8, [AGroup 24530 1 [sym_kEnd]; AGroup 24532 1 [sym_kFinalization];
     AGroup 24534 1 [sym_kImplementation]; AGroup 24536 1 [sym_kInitialization];
     AGroup 24538 1 [sym_kInterface]; SGroup 11398 1 [sym_implementation]; AGroup 3 3 syms_1;
     SGroup 10815 4 syms_757]);
   (526835, 7, [AGroup 15605 1 [sym_kHat]; AGroup 24466 1 [sym_kString];
     SGroup 11135 1 [aux_sym_typerefArgs_repeat1]; SGroup 14354 1 [sym_typerefArgs];
     AGroup 24464 2 syms_52; AGroup 3 3 syms_1; SGroup 11929 4 syms_31]);
   (526863, 8, [AGroup 24540 1 [sym_kHat]; AGroup 24542 1 [sym_ppFragmentExpr];
     AGroup 24544 1 [sym_identifier]; AGroup 24546 1 [sym_kSpecialize];
     AGroup 24548 1 [sym_kString]; SGroup 14760 1 [sym_typeref]; AGroup 3 3 syms_1;
     SGroup 11096 4 syms_31]);
   (526893, 6, [AGroup 24550 1 [sym_kOperator]; AGroup 24556 1 [sym_kProperty]; AGroup 24552 2 syms_65;
     AGroup 24558 2 syms_66; AGroup 3 3 syms_1; AGroup 24554 4 syms_3]);
   (526919, 7, [AGroup 24500 1 [sym_kHat]; AGroup 24504 1 [sym_kSpecialize]; AGroup 24506 1 [sym_kString];
     SGroup 11056 1 [sym_typeref]; AGroup 24502 2 syms_52; AGroup 3 3 syms_1;
     SGroup 10559 4 syms_31]);
   (526947, 7, [AGroup 24472 1 [sym_kHat]; AGroup 24476 1 [sym_kSpecialize]; AGroup 24478 1 [sym_kString];
     SGroup 6929 1 [sym_typeref]; AGroup 24474 2 syms_52; AGroup 3 3 syms_1;
     SGroup 10276 4 syms_31]);
   (526975, 11, [AGroup 24034 1 [sym_kRead]; AGroup 24036 1 [sym_kWrite]; AGroup 24038 1 [sym_kImplements];
     AGroup 24040 1 [sym_kDefault]; AGroup 24044 1 [sym_kStored]; AGroup 24046 1 [sym_kIndex];
     AGroup 24048 1 [sym_kDispId]; AGroup 24470 1 [sym_kNodefault];
     AGroup 24560 1 [anon_sym_SEMI]; SGroup 10997 1 [aux_sym_declProp_repeat2]; AGroup 3 3 syms_1]);
   (527011, 11, [AGroup 24034 1 [sym_kRead]; AGroup 24036 1 [sym_kWrite]; AGroup 24038 1 [sym_kImplements];
     AGroup 24040 1 [sym_kDefault]; AGroup 24044 1 [sym_kStored]; AGroup 24046 1 [sym_kIndex];
     AGroup 24048 1 [sym_kDispId]; AGroup 24470 1 [sym_kNodefault];
     AGroup 24562 1 [anon_sym_SEMI]; SGroup 10997 1 [aux_sym_declProp_repeat2]; AGroup 3 3 syms_1]);
   (527047, 7, [AGroup 24472 1 [sym_kHat]; AGroup 24476 1 [sym_kSpecialize]; AGroup 24478 1 [sym_kString];
     SGroup 6942 1 [sym_typeref]; AGroup 24474 2 syms_52; AGroup 3 3 syms_1;
     SGroup 10276 4 syms_31]);
   (527075, 7, [AGroup 15605 1 [sym_kHat]; AGroup 24466 1 [sym_kString];
     SGroup 11135 1 [aux_sym_typerefArgs_repeat1]; SGroup 14574 1 [sym_typerefArgs];
     AGroup 24464 2 syms_52; AGroup 3 3 syms_1; SGroup 11929 4 syms_31]);
   (527103, 7, [AGroup 14871 1 [sym_kSpecialize]; AGroup 23983 1 [sym_kHat]; AGroup 23989 1 [sym_kString];
     SGroup 12525 1 [sym_typeref]; AGroup 23985 2 syms_52; AGroup 3 3 syms_1;
     SGroup 11123 4 syms_31]);
   (527131, 7, [AGroup 24472 1 [sym_kHat]; AGroup 24476 1 [sym_kSpecialize]; AGroup 24478 1 [sym_kString];
     SGroup 6965 1 [sym_typeref]; AGroup 24474 2 syms_52; AGroup 3 3 syms_1;
     SGroup 10276 4 syms_31]);
   (527159, 9, [AGroup 5 1 [sym_ppDirective]; AGroup 24496 1 [sym_identifier];
     AGroup 24520 1 [anon_sym_COMMA]; AGroup 24522 1 [aux_sym_ppUsesBlock_token1];
     AGroup 24564 1 [anon_sym_SEMI]; SGroup 11952 1 [sym_moduleName];
     SGroup 13456 1 [aux_sym_moduleName_repeat1]; AGroup 3 2 syms_5; SGroup 11017 4 syms_756]);
   (527191, 9, [AGroup 5 1 [sym_ppDirective]; AGroup 24496 1 [sym_identifier];
     AGroup 24566 1 [anon_sym_COMMA]; AGroup 24568 1 [aux_sym_ppUsesBlock_token1];
     SGroup 10409 1 [sym_ppUsesBlockWithSemi]; SGroup 11952 1 [sym_moduleName];
     SGroup 13456 1 [aux_sym_moduleName_repeat1]; AGroup 3 2 syms_5; SGroup 10833 4 syms_756]);
   (527223, 7, [AGroup 24472 1 [sym_kHat]; AGroup 24476 1 [sym_kSpecialize]; AGroup 24478 1 [sym_kString];
     SGroup 6978 1 [sym_typeref]; AGroup 24474 2 syms_52; AGroup 3 3 syms_1;
     SGroup 10276 4 syms_31]);
   (527251, 7, [AGroup 15605 1 [sym_kHat]; AGroup 24466 1 [sym_kString];
     SGroup 11135 1 [aux_sym_typerefArgs_repeat1]; SGroup 14817 1 [sym_typerefArgs];
     AGroup 24464 2 syms_52; AGroup 3 3 syms_1; SGroup 11929 4 syms_31]);
   (527279, 2, [AGroup 3 3 syms_1; AGroup 21887 10 syms_749]);
   (527297, 6, [AGroup 21299 1 [anon_sym_DOT]; AGroup 24570 1 [sym_kLt]; AGroup 24572 1 [sym_kDeprecated];
     SGroup 11263 1 [sym_kDot]; AGroup 3 3 syms_1; AGroup 21297 6 syms_61]);
   (527323, 7, [AGroup 24472 1 [sym_kHat]; AGroup 24476 1 [sym_kSpecialize]; AGroup 24478 1 [sym_kString];
     SGroup 6787 1 [sym_typeref]; AGroup 24474 2 syms_52; AGroup 3 3 syms_1;
     SGroup 10276 4 syms_31]);
   (527351, 7, [AGroup 14871 1 [sym_kSpecialize]; AGroup 23983 1 [sym_kHat]; AGroup 23989 1 [sym_kString];
     SGroup 12786 1 [sym_typeref]; AGroup 23985 2 syms_52; AGroup 3 3 syms_1;
     SGroup 11123 4 syms_31]);
   (527379, 7, [AGroup 24472 1 [sym_kHat]; AGroup 24476 1 [sym_kSpecialize]; AGroup 24478 1 [sym_kString];
     SGroup 6672 1 [sym_typeref]; AGroup 24474 2 syms_52; AGroup 3 3 syms_1;
     SGroup 10276 4 syms_31]);
   (527407, 7, [AGroup 15605 1 [sym_kHat]; AGroup 24466 1 [sym_kString];
     SGroup 11135 1 [aux_sym_typerefArgs_repeat1]; SGroup 14983 1 [sym_typerefArgs];
     AGroup 24464 2 syms_52; AGroup 3 3 syms_1; SGroup 11929 4 syms_31]);
   (527435, 7, [AGroup 24500 1 [sym_kHat]; AGroup 24504 1 [sym_kSpecialize]; AGroup 24506 1 [sym_kString];
     SGroup 10767 1 [sym_typeref]; AGroup 24502 2 syms_52; AGroup 3 3 syms_1;
     SGroup 10559 4 syms_31]);
   (527463, 7, [AGroup 24472 1 [sym_kHat]; AGroup 24476 1 [sym_kSpecialize]; AGroup 24478 1 [sym_kString];
     SGroup 6962 1 [sym_typeref]; AGroup 24474 2 syms_52; AGroup 3 3 syms_1;
     SGroup 10276 4 syms_31]);
   (527491, 7, [AGroup 24472 1 [sym_kHat]; AGroup 24476 1 [sym_kSpecialize]; AGroup 24478 1 [sym_kString];
     SGroup 6851 1 [sym_typeref]; AGroup 24474 2 syms_52; AGroup 3 3 syms_1;
     SGroup 10276 4 syms_31]);
   (527519, 7, [AGroup 24472 1 [sym_kHat]; AGroup 24476 1 [sym_kSpecialize]; AGroup 24478 1 [sym_kString];
     SGroup 6624 1 [sym_typeref]; AGroup 24474 2 syms_52; AGroup 3 3 syms_1;
     SGroup 10276 4 syms_31]);
   (527547, 7, [AGroup 15605 1 [sym_kHat]; AGroup 24466 1 [sym_kString];
     SGroup 11135 1 [aux_sym_typerefArgs_repeat1]; SGroup 15176 1 [sym_typerefArgs];
     AGroup 24464 2 syms_52; AGroup 3 3 syms_1; SGroup 11929 4 syms_31]);
   (527575, 7, [AGroup 24574 1 [sym_kHat]; AGroup 24578 1 [sym_kSpecialize]; AGroup 24580 1 [sym_kString];
     SGroup 11618 1 [sym_typeref]; AGroup 24576 2 syms_52; AGroup 3 3 syms_1;
     SGroup 10794 4 syms_31]);
   (527603, 7, [AGroup 14871 1 [sym_kSpecialize]; AGroup 23983 1 [sym_kHat]; AGroup 23989 1 [sym_kString];
     SGroup 12790 1 [sym_typeref]; AGroup 23985 2 syms_52; AGroup 3 3 syms_1;
     SGroup 11123 4 syms_31]);
   (527631, 7, [AGroup 24472 1 [sym_kHat]; AGroup 24476 1 [sym_kSpecialize]; AGroup 24478 1 [sym_kString];
     SGroup 6690 1 [sym_typeref]; AGroup 24474 2 syms_52; AGroup 3 3 syms_1;
     SGroup 10276 4 syms_31]);
   (527659, 8, [AGroup 19525 1 [sym_kOperator]; AGroup 24556 1 [sym_kProperty];
     AGroup 24582 1 [sym_kGeneric]; AGroup 24584 1 [sym_kClass]; SGroup 10254 1 [sym__declProc];
     SGroup 10258 1 [sym__declOperator]; AGroup 3 3 syms_1; AGroup 24586 4 syms_3]);
   (527689, 2, [AGroup 3 3 syms_1; AGroup 15592 10 syms_758]);
   (527707, 7, [AGroup 24472 1 [sym_kHat]; AGroup 24476 1 [sym_kSpecialize]; AGroup 24478 1 [sym_kString];
     SGroup 6751 1 [sym_typeref]; AGroup 24474 2 syms_52; AGroup 3 3 syms_1;
     SGroup 10276 4 syms_31]);
   (527735, 7, [AGroup 15605 1 [sym_kHat]; AGroup 24466 1 [sym_kString];
     SGroup 11135 1 [aux_sym_typerefArgs_repeat1]; SGroup 15396 1 [sym_typerefArgs];
     AGroup 24464 2 syms_52; AGroup 3 3 syms_1; SGroup 11929 4 syms_31]);
   (527763, 9, [AGroup 5 1 [sym_ppDirective]; AGroup 24496 1 [sym_identifier];
     AGroup 24588 1 [anon_sym_COMMA]; AGroup 24590 1 [aux_sym_ppUsesBlock_token1];
     SGroup 10346 1 [sym_ppUsesBlockWithSemi]; SGroup 11952 1 [sym_moduleName];
     SGroup 13456 1 [aux_sym_moduleName_repeat1]; AGroup 3 2 syms_5; SGroup 10839 4 syms_756]);
   (527795, 2, [AGroup 3 3 syms_1; AGroup 21887 10 syms_753]);
   (527813, 11, [AGroup 24034 1 [sym_kRead]; AGroup 24036 1 [sym_kWrite]; AGroup 24038 1 [sym_kImplements];
     AGroup 24040 1 [sym_kDefault]; AGroup 24044 1 [sym_kStored]; AGroup 24046 1 [sym_kIndex];
     AGroup 24048 1 [sym_kDispId]; AGroup 24470 1 [sym_kNodefault];
     AGroup 24592 1 [anon_sym_SEMI]; SGroup 10997 1 [aux_sym_declProp_repeat2]; AGroup 3 3 syms_1]);
   (527849, 7, [AGroup 24472 1 [sym_kHat]; AGroup 24476 1 [sym_kSpecialize]; AGroup 24478 1 [sym_kString];
     SGroup 6855 1 [sym_typeref]; AGroup 24474 2 syms_52; AGroup 3 3 syms_1;
     SGroup 10276 4 syms_31]);
   (527877, 8, [AGroup 24594 1 [sym_kEnd]; AGroup 24596 1 [sym_kFinalization];
     AGroup 24599 1 [sym_kImplementation]; AGroup 24602 1 [sym_kInitialization];
     AGroup 24605 1 [sym_kInterface]; SGroup 11398 1 [sym_implementation]; AGroup 3 3 syms_1;
     SGroup 10815 4 syms_757]);
   (527907, 7, [AGroup 24540 1 [sym_kHat]; AGroup 24546 1 [sym_kSpecialize]; AGroup 24548 1 [sym_kString];
     SGroup 11964 1 [sym_typeref]; AGroup 24542 2 syms_52; AGroup 3 3 syms_1;
     SGroup 11096 4 syms_31]);
   (527935, 11, [AGroup 24034 1 [sym_kRead]; AGroup 24036 1 [sym_kWrite]; AGroup 24038 1 [sym_kImplements];
     AGroup 24040 1 [sym_kDefault]; AGroup 24044 1 [sym_kStored]; AGroup 24046 1 [sym_kIndex];
     AGroup 24048 1 [sym_kDispId]; AGroup 24608 1 [anon_sym_SEMI];
     AGroup 24610 1 [sym_kNodefault]; SGroup 10837 1 [aux_sym_declProp_repeat2];
     AGroup 3 3 syms_1]);
   (527971, 7, [AGroup 24472 1 [sym_kHat]; AGroup 24476 1 [sym_kSpecialize]; AGroup 24478 1 [sym_kString];
     SGroup 6910 1 [sym_typeref]; AGroup 24474 2 syms_52; AGroup 3 3 syms_1;
     SGroup 10276 4 syms_31]);
   (527999, 11, [AGroup 24034 1 [sym_kRead]; AGroup 24036 1 [sym_kWrite]; AGroup 24038 1 [sym_kImplements];
     AGroup 24040 1 [sym_kDefault]; AGroup 24044 1 [sym_kStored]; AGroup 24046 1 [sym_kIndex];
     AGroup 24048 1 [sym_kDispId]; AGroup 24470 1 [sym_kNodefault];
     AGroup 24612 1 [anon_sym_SEMI]; SGroup 10997 1 [aux_sym_declProp_repeat2]; AGroup 3 3 syms_1]);
   (528035, 7, [AGroup 15605 1 [sym_kHat]; AGroup 24466 1 [sym_kString];
     SGroup 11135 1 [aux_sym_typerefArgs_repeat1]; SGroup 15547 1 [sym_typerefArgs];
     AGroup 24464 2 syms_52; AGroup 3 3 syms_1; SGroup 11929 4 syms_31]);
   (528063, 7, [AGroup 24614 1 [sym_kHat]; AGroup 24618 1 [sym_kSpecialize]; AGroup 24620 1 [sym_kString];
     SGroup 12457 1 [sym_typeref]; AGroup 24616 2 syms_52; AGroup 3 3 syms_1;
     SGroup 11432 4 syms_31]);
   (528091, 7, [AGroup 24622 1 [sym_kHat]; AGroup 24626 1 [sym_kSpecialize]; AGroup 24628 1 [sym_kString];
     SGroup 5673 1 [sym_typeref]; AGroup 24624 2 syms_52; AGroup 3 3 syms_1;
     SGroup 8290 4 syms_31]);
   (528119, 7, [AGroup 24540 1 [sym_kHat]; AGroup 24546 1 [sym_kSpecialize]; AGroup 24548 1 [sym_kString];
     SGroup 12008 1 [sym_typeref]; AGroup 24542 2 syms_52; AGroup 3 3 syms_1;
     SGroup 11096 4 syms_31]);
   (528147, 7, [AGroup 14871 1 [sym_kSpecialize]; AGroup 23983 1 [sym_kHat]; AGroup 23989 1 [sym_kString];
     SGroup 12801 1 [sym_typeref]; AGroup 23985 2 syms_52; AGroup 3 3 syms_1;
     SGroup 11123 4 syms_31]);
   (528175, 7, [AGroup 24472 1 [sym_kHat]; AGroup 24476 1 [sym_kSpecialize]; AGroup 24478 1 [sym_kString];
     SGroup 6963 1 [sym_typeref]; AGroup 24474 2 syms_52; AGroup 3 3 syms_1;
     SGroup 10276 4 syms_31]);
   (528203, 7, [AGroup 14871 1 [sym_kSpecialize]; AGroup 23983 1 [sym_kHat]; AGroup 23989 1 [sym_kString];
     SGroup 12802 1 [sym_typeref]; AGroup 23985 2 syms_52; AGroup 3 3 syms_1;
     SGroup 11123 4 syms_31]);
   (528231, 7, [AGroup 15605 1 [sym_kHat]; AGroup 24466 1 [sym_kString];
     SGroup 11135 1 [aux_sym_typerefArgs_repeat1]; SGroup 15069 1 [sym_typerefArgs];
     AGroup 24464 2 syms_52; AGroup 3 3 syms_1; SGroup 11929 4 syms_31]);
   (528259, 9, [AGroup 5 1 [sym_ppDirective]; AGroup 24142 1 [anon_sym_COMMA];
     AGroup 24144 1 [aux_sym_ppUsesBlock_token1]; AGroup 24150 1 [sym_identifier];
     SGroup 11522 1 [sym_moduleName]; SGroup 13594 1 [aux_sym_moduleName_repeat1];
     AGroup 3 2 syms_5; AGroup 24630 2 syms_44; SGroup 10671 3 syms_741]);
   (528291, 7, [AGroup 24472 1 [sym_kHat]; AGroup 24476 1 [sym_kSpecialize]; AGroup 24478 1 [sym_kString];
     SGroup 6614 1 [sym_typeref]; AGroup 24474 2 syms_52; AGroup 3 3 syms_1;
     SGroup 10276 4 syms_31]);
   (528319, 7, [AGroup 15605 1 [sym_kHat]; AGroup 24466 1 [sym_kString];
     SGroup 11135 1 [aux_sym_typerefArgs_repeat1]; SGroup 15671 1 [sym_typerefArgs];
     AGroup 24464 2 syms_52; AGroup 3 3 syms_1; SGroup 11929 4 syms_31]);
   (528347, 7, [AGroup 14871 1 [sym_kSpecialize]; AGroup 23983 1 [sym_kHat]; AGroup 23989 1 [sym_kString];
     SGroup 12508 1 [sym_typeref]; AGroup 23985 2 syms_52; AGroup 3 3 syms_1;
     SGroup 11123 4 syms_31]);
   (528375, 7, [AGroup 24472 1 [sym_kHat]; AGroup 24476 1 [sym_kSpecialize]; AGroup 24478 1 [sym_kString];
     SGroup 6628 1 [sym_typeref]; AGroup 24474 2 syms_52; AGroup 3 3 syms_1;
     SGroup 10276 4 syms_31]);
   (528403, 9, [AGroup 5 1 [sym_ppDirective]; AGroup 24496 1 [sym_identifier];
     AGroup 24520 1 [anon_sym_COMMA]; AGroup 24522 1 [aux_sym_ppUsesBlock_token1];
     AGroup 24632 1 [anon_sym_SEMI]; SGroup 11952 1 [sym_moduleName];
     SGroup 13456 1 [aux_sym_moduleName_repeat1]; AGroup 3 2 syms_5; SGroup 11017 4 syms_756]);
   (528435, 7, [AGroup 24472 1 [sym_kHat]; AGroup 24476 1 [sym_kSpecialize]; AGroup 24478 1 [sym_kString];
     SGroup 6637 1 [sym_typeref]; AGroup 24474 2 syms_52; AGroup 3 3 syms_1;
     SGroup 10276 4 syms_31]);
   (528463, 2, [AGroup 3 3 syms_1; AGroup 11318 10 syms_758]);
   (528481, 7, [AGroup 15605 1 [sym_kHat]; AGroup 24466 1 [sym_kString];
     SGroup 11135 1 [aux_sym_typerefArgs_repeat1]; SGroup 15842 1 [sym_typerefArgs];
     AGroup 24464 2 syms_52; AGroup 3 3 syms_1; SGroup 11929 4 syms_31]);
   (528509, 11, [AGroup 24034 1 [sym_kRead]; AGroup 24036 1 [sym_kWrite]; AGroup 24038 1 [sym_kImplements];
     AGroup 24040 1 [sym_kDefault]; AGroup 24044 1 [sym_kStored]; AGroup 24046 1 [sym_kIndex];
     AGroup 24048 1 [sym_kDispId]; AGroup 24470 1 [sym_kNodefault];
     AGroup 24634 1 [anon_sym_SEMI]; SGroup 10997 1 [aux_sym_declProp_repeat2]; AGroup 3 3 syms_1]);
   (528545, 7, [AGroup 14871 1 [sym_kSpecialize]; AGroup 23983 1 [sym_kHat]; AGroup 23989 1 [sym_kString];
     SGroup 12809 1 [sym_typeref]; AGroup 23985 2 syms_52; AGroup 3 3 syms_1;
     SGroup 11123 4 syms_31]);
   (528573, 9, [AGroup 5 1 [sym_ppDirective]; AGroup 24496 1 [sym_identifier];
     AGroup 24520 1 [anon_sym_COMMA]; AGroup 24522 1 [aux_sym_ppUsesBlock_token1];
     AGroup 24636 1 [anon_sym_SEMI]; SGroup 11952 1 [sym_moduleName];
     SGroup 13456 1 [aux_sym_moduleName_repeat1]; AGroup 3 2 syms_5; SGroup 11017 4 syms_756]);
   (528605, 9, [AGroup 5 1 [sym_ppDirective]; AGroup 24496 1 [sym_identifier];
     AGroup 24520 1 [anon_sym_COMMA]; AGroup 24522 1 [aux_sym_ppUsesBlock_token1];
     AGroup 24638 1 [anon_sym_SEMI]; SGroup 11952 1 [sym_moduleName];
     SGroup 13456 1 [aux_sym_moduleName_repeat1]; AGroup 3 2 syms_5; SGroup 11017 4 syms_756]);
   (528637, 7, [AGroup 24472 1 [sym_kHat]; AGroup 24476 1 [sym_kSpecialize]; AGroup 24478 1 [sym_kString];
     SGroup 6655 1 [sym_typeref]; AGroup 24474 2 syms_52; AGroup 3 3 syms_1;
     SGroup 10276 4 syms_31]);
   (528665, 7, [AGroup 14871 1 [sym_kSpecialize]; AGroup 23983 1 [sym_kHat]; AGroup 23989 1 [sym_kString];
     SGroup 12590 1 [sym_typeref]; AGroup 23985 2 syms_52; AGroup 3 3 syms_1;
     SGroup 11123 4 syms_31]);
   (528693, 7, [AGroup 24472 1 [sym_kHat]; AGroup 24476 1 [sym_kSpecialize]; AGroup 24478 1 [sym_kString];
     SGroup 6667 1 [sym_typeref]; AGroup 24474 2 syms_52; AGroup 3 3 syms_1;
     SGroup 10276 4 syms_31]);
   (528721, 7, [AGroup 15605 1 [sym_kHat]; AGroup 24466 1 [sym_kString];
     SGroup 11135 1 [aux_sym_typerefArgs_repeat1]; SGroup 14122 1 [sym_typerefArgs];
     AGroup 24464 2 syms_52; AGroup 3 3 syms_1; SGroup 11929 4 syms_31]);
   (528749, 2, [AGroup 3 3 syms_1; AGroup 21887 10 syms_754]);
   (528767, 7, [AGroup 24472 1 [sym_kHat]; AGroup 24476 1 [sym_kSpecialize]; AGroup 24478 1 [sym_kString];
     SGroup 6678 1 [sym_typeref]; AGroup 24474 2 syms_52; AGroup 3 3 syms_1;
     SGroup 10276 4 syms_31]);
   (528795, 7, [AGroup 24472 1 [sym_kHat]; AGroup 24476 1 [sym_kSpecialize]; AGroup 24478 1 [sym_kString];
     SGroup 6627 1 [sym_typeref]; AGroup 24474 2 syms_52; AGroup 3 3 syms_1;
     SGroup 10276 4 syms_31]);
   (528823, 11, [AGroup 24034 1 [sym_kRead]; AGroup 24036 1 [sym_kWrite]; AGroup 24038 1 [sym_kImplements];
     AGroup 24040 1 [sym_kDefault]; AGroup 24044 1 [sym_kStored]; AGroup 24046 1 [sym_kIndex];
     AGroup 24048 1 [sym_kDispId]; AGroup 24470 1 [sym_kNodefault];
     AGroup 24640 1 [anon_sym_SEMI]; SGroup 10997 1 [aux_sym_declProp_repeat2]; AGroup 3 3 syms_1]);
   (528859, 7, [AGroup 24472 1 [sym_kHat]; AGroup 24476 1 [sym_kSpecialize]; AGroup 24478 1 [sym_kString];
     SGroup 6684 1 [sym_typeref]; AGroup 24474 2 syms_52; AGroup 3 3 syms_1;
     SGroup 10276 4 syms_31]);
   (528887, 7, [AGroup 15605 1 [sym_kHat]; AGroup 24466 1 [sym_kString];
     SGroup 11135 1 [aux_sym_typerefArgs_repeat1]; SGroup 14238 1 [sym_typerefArgs];
     AGroup 24464 2 syms_52; AGroup 3 3 syms_1; SGroup 11929 4 syms_31]);
   (528915, 7, [AGroup 24472 1 [sym_kHat]; AGroup 24476 1 [sym_kSpecialize]; AGroup 24478 1 [sym_kString];
     SGroup 6692 1 [sym_typeref]; AGroup 24474 2 syms_52; AGroup 3 3 syms_1;
     SGroup 10276 4 syms_31]);
   (528943, 7, [AGroup 24472 1 [sym_kHat]; AGroup 24476 1 [sym_kSpecialize]; AGroup 24478 1 [sym_kString];
     SGroup 6696 1 [sym_typeref]; AGroup 24474 2 syms_52; AGroup 3 3 syms_1;
     SGroup 10276 4 syms_31]);
   (528971, 7, [AGroup 15605 1 [sym_kHat]; AGroup 24466 1 [sym_kString];
     SGroup 11135 1 [aux_sym_typerefArgs_repeat1]; SGroup 14310 1 [sym_typerefArgs];
     AGroup 24464 2 syms_52; AGroup 3 3 syms_1; SGroup 11929 4 syms_31]);
   (528999, 7, [AGroup 14871 1 [sym_kSpecialize]; AGroup 23983 1 [sym_kHat]; AGroup 23989 1 [sym_kString];
     SGroup 12603 1 [sym_typeref]; AGroup 23985 2 syms_52; AGroup 3 3 syms_1;
     SGroup 11123 4 syms_31]);
   (529027, 7, [AGroup 24472 1 [sym_kHat]; AGroup 24476 1 [sym_kSpecialize]; AGroup 24478 1 [sym_kString];
     SGroup 6704 1 [sym_typeref]; AGroup 24474 2 syms_52; AGroup 3 3 syms_1;
     SGroup 10276 4 syms_31]);
   (529055, 7, [AGroup 24472 1 [sym_kHat]; AGroup 24476 1 [sym_kSpecialize]; AGroup 24478 1 [sym_kString];
     SGroup 6710 1 [sym_typeref]; AGroup 24474 2 syms_52; AGroup 3 3 syms_1;
     SGroup 10276 4 syms_31]);
   (529083, 7, [AGroup 15605 1 [sym_kHat]; AGroup 24466 1 [sym_kString];
     SGroup 11135 1 [aux_sym_typerefArgs_repeat1]; SGroup 14358 1 [sym_typerefArgs];
     AGroup 24464 2 syms_52; AGroup 3 3 syms_1; SGroup 11929 4 syms_31]);
   (529111, 7, [AGroup 14871 1 [sym_kSpecialize]; AGroup 23983 1 [sym_kHat]; AGroup 23989 1 [sym_kString];
     SGroup 12840 1 [sym_typeref]; AGroup 23985 2 syms_52; AGroup 3 3 syms_1;
     SGroup 11123 4 syms_31])
  ].

(** States 10859 to 10958. *)
Definition small_runs_10859 : list small_run :=
  [
   (529139, 7, [AGroup 24622 1 [sym_kHat]; AGroup 24626 1 [sym_kSpecialize]; AGroup 24628 1 [sym_kString];
     SGroup 5610 1 [sym_typeref]; AGroup 24624 2 syms_52; AGroup 3 3 syms_1;
     SGroup 8290 4 syms_31]);
   (529167, 7, [AGroup 24472 1 [sym_kHat]; AGroup 24476 1 [sym_kSpecialize]; AGroup 24478 1 [sym_kString];
     SGroup 6719 1 [sym_typeref]; AGroup 24474 2 syms_52; AGroup 3 3 syms_1;
     SGroup 10276 4 syms_31]);
   (529195, 7, [AGroup 24472 1 [sym_kHat]; AGroup 24476 1 [sym_kSpecialize]; AGroup 24478 1 [sym_kString];
     SGroup 6723 1 [sym_typeref]; AGroup 24474 2 syms_52; AGroup 3 3 syms_1;
     SGroup 10276 4 syms_31]);
   (529223, 11, [AGroup 24034 1 [sym_kRead]; AGroup 24036 1 [sym_kWrite]; AGroup 24038 1 [sym_kImplements];
     AGroup 24040 1 [sym_kDefault]; AGroup 24044 1 [sym_kStored]; AGroup 24046 1 [sym_kIndex];
     AGroup 24048 1 [sym_kDispId]; AGroup 24470 1 [sym_kNodefault];
     AGroup 24642 1 [anon_sym_SEMI]; SGroup 10997 1 [aux_sym_declProp_repeat2]; AGroup 3 3 syms_1]);
   (529259, 7, [AGroup 15605 1 [sym_kHat]; AGroup 24466 1 [sym_kString];
     SGroup 11135 1 [aux_sym_typerefArgs_repeat1]; SGroup 14422 1 [sym_typerefArgs];
     AGroup 24464 2 syms_52; AGroup 3 3 syms_1; SGroup 11929 4 syms_31]);
   (529287, 2, [AGroup 3 3 syms_1; AGroup 24644 10 syms_759]);
   (529305, 7, [AGroup 24472 1 [sym_kHat]; AGroup 24476 1 [sym_kSpecialize]; AGroup 24478 1 [sym_kString];
     SGroup 6729 1 [sym_typeref]; AGroup 24474 2 syms_52; AGroup 3 3 syms_1;
     SGroup 10276 4 syms_31]);
   (529333, 7, [AGroup 24472 1 [sym_kHat]; AGroup 24476 1 [sym_kSpecialize]; AGroup 24478 1 [sym_kString];
     SGroup 6733 1 [sym_typeref]; AGroup 24474 2 syms_52; AGroup 3 3 syms_1;
     SGroup 10276 4 syms_31]);
   (529361, 7, [AGroup 15605 1 [sym_kHat]; AGroup 24466 1 [sym_kString];
     SGroup 11135 1 [aux_sym_typerefArgs_repeat1]; SGroup 14464 1 [sym_typerefArgs];
     AGroup 24464 2 syms_52; AGroup 3 3 syms_1; SGroup 11929 4 syms_31]);
   (529389, 3, [AGroup 24648 1 [sym_kOf]; AGroup 3 3 syms_1; AGroup 24646 9 syms_20]);
   (529409, 7, [AGroup 24472 1 [sym_kHat]; AGroup 24476 1 [sym_kSpecialize]; AGroup 24478 1 [sym_kString];
     SGroup 6741 1 [sym_typeref]; AGroup 24474 2 syms_52; AGroup 3 3 syms_1;
     SGroup 10276 4 syms_31]);
   (529437, 7, [AGroup 24472 1 [sym_kHat]; AGroup 24476 1 [sym_kSpecialize]; AGroup 24478 1 [sym_kString];
     SGroup 6745 1 [sym_typeref]; AGroup 24474 2 syms_52; AGroup 3 3 syms_1;
     SGroup 10276 4 syms_31]);
   (529465, 3, [AGroup 24652 1 [sym_kDeprecated]; AGroup 3 3 syms_1; AGroup 24650 9 syms_20]);
   (529485, 11, [AGroup 24034 1 [sym_kRead]; AGroup 24036 1 [sym_kWrite]; AGroup 24038 1 [sym_kImplements];
     AGroup 24040 1 [sym_kDefault]; AGroup 24044 1 [sym_kStored]; AGroup 24046 1 [sym_kIndex];
     AGroup 24048 1 [sym_kDispId]; AGroup 24654 1 [anon_sym_SEMI];
     AGroup 24656 1 [sym_kNodefault]; SGroup 10946 1 [aux_sym_declProp_repeat2];
     AGroup 3 3 syms_1]);
   (529521, 6, [AGroup 24182 1 [sym_kProperty]; AGroup 24658 1 [sym_kOperator]; AGroup 24660 2 syms_65;
     AGroup 24664 2 syms_66; AGroup 3 3 syms_1; AGroup 24662 4 syms_3]);
   (529547, 7, [AGroup 24472 1 [sym_kHat]; AGroup 24476 1 [sym_kSpecialize]; AGroup 24478 1 [sym_kString];
     SGroup 6754 1 [sym_typeref]; AGroup 24474 2 syms_52; AGroup 3 3 syms_1;
     SGroup 10276 4 syms_31]);
   (529575, 7, [AGroup 24472 1 [sym_kHat]; AGroup 24476 1 [sym_kSpecialize]; AGroup 24478 1 [sym_kString];
     SGroup 6757 1 [sym_typeref]; AGroup 24474 2 syms_52; AGroup 3 3 syms_1;
     SGroup 10276 4 syms_31]);
   (529603, 7, [AGroup 24666 1 [sym_kHat]; AGroup 24670 1 [sym_kSpecialize]; AGroup 24672 1 [sym_kString];
     SGroup 14385 1 [sym_typeref]; AGroup 24668 2 syms_52; AGroup 3 3 syms_1;
     SGroup 11987 4 syms_31]);
   (529631, 7, [AGroup 24472 1 [sym_kHat]; AGroup 24476 1 [sym_kSpecialize]; AGroup 24478 1 [sym_kString];
     SGroup 6766 1 [sym_typeref]; AGroup 24474 2 syms_52; AGroup 3 3 syms_1;
     SGroup 10276 4 syms_31]);
   (529659, 8, [AGroup 13367 1 [sym_kGeneric]; AGroup 13369 1 [sym_kOperator]; AGroup 24180 1 [sym_kClass];
     AGroup 24182 1 [sym_kProperty]; SGroup 9901 1 [sym__declProc];
     SGroup 9904 1 [sym__declOperator]; AGroup 3 3 syms_1; AGroup 13383 4 syms_3]);
   (529689, 7, [AGroup 24472 1 [sym_kHat]; AGroup 24476 1 [sym_kSpecialize]; AGroup 24478 1 [sym_kString];
     SGroup 6770 1 [sym_typeref]; AGroup 24474 2 syms_52; AGroup 3 3 syms_1;
     SGroup 10276 4 syms_31]);
   (529717, 7, [AGroup 14871 1 [sym_kSpecialize]; AGroup 23983 1 [sym_kHat]; AGroup 23989 1 [sym_kString];
     SGroup 12847 1 [sym_typeref]; AGroup 23985 2 syms_52; AGroup 3 3 syms_1;
     SGroup 11123 4 syms_31]);
   (529745, 7, [AGroup 24472 1 [sym_kHat]; AGroup 24476 1 [sym_kSpecialize]; AGroup 24478 1 [sym_kString];
     SGroup 6613 1 [sym_typeref]; AGroup 24474 2 syms_52; AGroup 3 3 syms_1;
     SGroup 10276 4 syms_31]);
   (529773, 7, [AGroup 24472 1 [sym_kHat]; AGroup 24476 1 [sym_kSpecialize]; AGroup 24478 1 [sym_kString];
     SGroup 6782 1 [sym_typeref]; AGroup 24474 2 syms_52; AGroup 3 3 syms_1;
     SGroup 10276 4 syms_31]);
   (529801, 11, [AGroup 24034 1 [sym_kRead]; AGroup 24036 1 [sym_kWrite]; AGroup 24038 1 [sym_kImplements];
     AGroup 24040 1 [sym_kDefault]; AGroup 24044 1 [sym_kStored]; AGroup 24046 1 [sym_kIndex];
     AGroup 24048 1 [sym_kDispId]; AGroup 24470 1 [sym_kNodefault];
     AGroup 24674 1 [anon_sym_SEMI]; SGroup 10997 1 [aux_sym_declProp_repeat2]; AGroup 3 3 syms_1]);
   (529837, 7, [AGroup 24472 1 [sym_kHat]; AGroup 24476 1 [sym_kSpecialize]; AGroup 24478 1 [sym_kString];
     SGroup 6659 1 [sym_typeref]; AGroup 24474 2 syms_52; AGroup 3 3 syms_1;
     SGroup 10276 4 syms_31]);
   (529865, 7, [AGroup 24472 1 [sym_kHat]; AGroup 24476 1 [sym_kSpecialize]; AGroup 24478 1 [sym_kString];
     SGroup 6789 1 [sym_typeref]; AGroup 24474 2 syms_52; AGroup 3 3 syms_1;
     SGroup 10276 4 syms_31]);
   (529893, 7, [AGroup 24472 1 [sym_kHat]; AGroup 24476 1 [sym_kSpecialize]; AGroup 24478 1 [sym_kString];
     SGroup 6793 1 [sym_typeref]; AGroup 24474 2 syms_52; AGroup 3 3 syms_1;
     SGroup 10276 4 syms_31]);
   (529921, 7, [AGroup 14871 1 [sym_kSpecialize]; AGroup 23983 1 [sym_kHat]; AGroup 23989 1 [sym_kString];
     SGroup 12858 1 [sym_typeref]; AGroup 23985 2 syms_52; AGroup 3 3 syms_1;
     SGroup 11123 4 syms_31]);
   (529949, 8, [AGroup 24532 1 [sym_kFinalization]; AGroup 24534 1 [sym_kImplementation];
     AGroup 24536 1 [sym_kInitialization]; AGroup 24538 1 [sym_kInterface];
     AGroup 24676 1 [sym_kEnd]; SGroup 11398 1 [sym_implementation]; AGroup 3 3 syms_1;
     SGroup 10777 4 syms_757]);
   (529979, 2, [AGroup 3 3 syms_1; AGroup 24678 10 syms_759]);
   (529997, 7, [AGroup 24472 1 [sym_kHat]; AGroup 24476 1 [sym_kSpecialize]; AGroup 24478 1 [sym_kString];
     SGroup 6800 1 [sym_typeref]; AGroup 24474 2 syms_52; AGroup 3 3 syms_1;
     SGroup 10276 4 syms_31]);
   (530025, 7, [AGroup 24472 1 [sym_kHat]; AGroup 24476 1 [sym_kSpecialize]; AGroup 24478 1 [sym_kString];
     SGroup 6803 1 [sym_typeref]; AGroup 24474 2 syms_52; AGroup 3 3 syms_1;
     SGroup 10276 4 syms_31]);
   (530053, 7, [AGroup 24472 1 [sym_kHat]; AGroup 24476 1 [sym_kSpecialize]; AGroup 24478 1 [sym_kString];
     SGroup 6811 1 [sym_typeref]; AGroup 24474 2 syms_52; AGroup 3 3 syms_1;
     SGroup 10276 4 syms_31]);
   (530081, 7, [AGroup 24472 1 [sym_kHat]; AGroup 24476 1 [sym_kSpecialize]; AGroup 24478 1 [sym_kString];
     SGroup 6815 1 [sym_typeref]; AGroup 24474 2 syms_52; AGroup 3 3 syms_1;
     SGroup 10276 4 syms_31]);
   (530109, 11, [AGroup 24034 1 [sym_kRead]; AGroup 24036 1 [sym_kWrite]; AGroup 24038 1 [sym_kImplements];
     AGroup 24040 1 [sym_kDefault]; AGroup 24044 1 [sym_kStored]; AGroup 24046 1 [sym_kIndex];
     AGroup 24048 1 [sym_kDispId]; AGroup 24470 1 [sym_kNodefault];
     AGroup 24680 1 [anon_sym_SEMI]; SGroup 10997 1 [aux_sym_declProp_repeat2]; AGroup 3 3 syms_1]);
   (530145, 7, [AGroup 24472 1 [sym_kHat]; AGroup 24476 1 [sym_kSpecialize]; AGroup 24478 1 [sym_kString];
     SGroup 6824 1 [sym_typeref]; AGroup 24474 2 syms_52; AGroup 3 3 syms_1;
     SGroup 10276 4 syms_31]);
   (530173, 7, [AGroup 14871 1 [sym_kSpecialize]; AGroup 23983 1 [sym_kHat]; AGroup 23989 1 [sym_kString];
     SGroup 12638 1 [sym_typeref]; AGroup 23985 2 syms_52; AGroup 3 3 syms_1;
     SGroup 11123 4 syms_31]);
   (530201, 11, [AGroup 24034 1 [sym_kRead]; AGroup 24036 1 [sym_kWrite]; AGroup 24038 1 [sym_kImplements];
     AGroup 24040 1 [sym_kDefault]; AGroup 24044 1 [sym_kStored]; AGroup 24046 1 [sym_kIndex];
     AGroup 24048 1 [sym_kDispId]; AGroup 24682 1 [anon_sym_SEMI];
     AGroup 24684 1 [sym_kNodefault]; SGroup 10862 1 [aux_sym_declProp_repeat2];
     AGroup 3 3 syms_1]);
   (530237, 7, [AGroup 24472 1 [sym_kHat]; AGroup 24476 1 [sym_kSpecialize]; AGroup 24478 1 [sym_kString];
     SGroup 6828 1 [sym_typeref]; AGroup 24474 2 syms_52; AGroup 3 3 syms_1;
     SGroup 10276 4 syms_31]);
   (530265, 9, [AGroup 5 1 [sym_ppDirective]; AGroup 24496 1 [sym_identifier];
     AGroup 24686 1 [anon_sym_COMMA]; AGroup 24688 1 [aux_sym_ppUsesBlock_token1];
     SGroup 1345 1 [sym_ppUsesBlockWithSemi]; SGroup 11952 1 [sym_moduleName];
     SGroup 13456 1 [aux_sym_moduleName_repeat1]; AGroup 3 2 syms_5; SGroup 10840 4 syms_756]);
   (530297, 7, [AGroup 24472 1 [sym_kHat]; AGroup 24476 1 [sym_kSpecialize]; AGroup 24478 1 [sym_kString];
     SGroup 6835 1 [sym_typeref]; AGroup 24474 2 syms_52; AGroup 3 3 syms_1;
     SGroup 10276 4 syms_31]);
   (530325, 7, [AGroup 24472 1 [sym_kHat]; AGroup 24476 1 [sym_kSpecialize]; AGroup 24478 1 [sym_kString];
     SGroup 6839 1 [sym_typeref]; AGroup 24474 2 syms_52; AGroup 3 3 syms_1;
     SGroup 10276 4 syms_31]);
   (530353, 6, [AGroup 5 1 [sym_ppDirective]; AGroup 24692 1 [anon_sym_POUND]; AGroup 3 2 syms_5;
     AGroup 24690 2 syms_6; SGroup 10943 3 syms_13; AGroup 15233 4 syms_760]);
   (530379, 7, [AGroup 24472 1 [sym_kHat]; AGroup 24476 1 [sym_kSpecialize]; AGroup 24478 1 [sym_kString];
     SGroup 6845 1 [sym_typeref]; AGroup 24474 2 syms_52; AGroup 3 3 syms_1;
     SGroup 10276 4 syms_31]);
   (530407, 11, [AGroup 24034 1 [sym_kRead]; AGroup 24036 1 [sym_kWrite]; AGroup 24038 1 [sym_kImplements];
     AGroup 24040 1 [sym_kDefault]; AGroup 24044 1 [sym_kStored]; AGroup 24046 1 [sym_kIndex];
     AGroup 24048 1 [sym_kDispId]; AGroup 24470 1 [sym_kNodefault];
     AGroup 24694 1 [anon_sym_SEMI]; SGroup 10997 1 [aux_sym_declProp_repeat2]; AGroup 3 3 syms_1]);
   (530443, 2, [AGroup 3 3 syms_1; AGroup 15594 10 syms_758]);
   (530461, 7, [AGroup 24472 1 [sym_kHat]; AGroup 24476 1 [sym_kSpecialize]; AGroup 24478 1 [sym_kString];
     SGroup 6848 1 [sym_typeref]; AGroup 24474 2 syms_52; AGroup 3 3 syms_1;
     SGroup 10276 4 syms_31]);
   (530489, 7, [AGroup 24472 1 [sym_kHat]; AGroup 24476 1 [sym_kSpecialize]; AGroup 24478 1 [sym_kString];
     SGroup 6856 1 [sym_typeref]; AGroup 24474 2 syms_52; AGroup 3 3 syms_1;
     SGroup 10276 4 syms_31]);
   (530517, 7, [AGroup 14871 1 [sym_kSpecialize]; AGroup 23983 1 [sym_kHat]; AGroup 23989 1 [sym_kString];
     SGroup 12861 1 [sym_typeref]; AGroup 23985 2 syms_52; AGroup 3 3 syms_1;
     SGroup 11123 4 syms_31]);
   (530545, 7, [AGroup 24472 1 [sym_kHat]; AGroup 24476 1 [sym_kSpecialize]; AGroup 24478 1 [sym_kString];
     SGroup 6859 1 [sym_typeref]; AGroup 24474 2 syms_52; AGroup 3 3 syms_1;
     SGroup 10276 4 syms_31]);
   (530573, 7, [AGroup 14871 1 [sym_kSpecialize]; AGroup 23983 1 [sym_kHat]; AGroup 23989 1 [sym_kString];
     SGroup 12862 1 [sym_typeref]; AGroup 23985 2 syms_52; AGroup 3 3 syms_1;
     SGroup 11123 4 syms_31]);
   (530601, 7, [AGroup 15605 1 [sym_kHat]; AGroup 24466 1 [sym_kString];
     SGroup 11135 1 [aux_sym_typerefArgs_repeat1]; SGroup 15371 1 [sym_typerefArgs];
     AGroup 24464 2 syms_52; AGroup 3 3 syms_1; SGroup 11929 4 syms_31]);
   (530629, 7, [AGroup 24472 1 [sym_kHat]; AGroup 24476 1 [sym_kSpecialize]; AGroup 24478 1 [sym_kString];
     SGroup 6865 1 [sym_typeref]; AGroup 24474 2 syms_52; AGroup 3 3 syms_1;
     SGroup 10276 4 syms_31]);
   (530657, 11, [AGroup 24034 1 [sym_kRead]; AGroup 24036 1 [sym_kWrite]; AGroup 24038 1 [sym_kImplements];
     AGroup 24040 1 [sym_kDefault]; AGroup 24044 1 [sym_kStored]; AGroup 24046 1 [sym_kIndex];
     AGroup 24048 1 [sym_kDispId]; AGroup 24696 1 [anon_sym_SEMI];
     AGroup 24698 1 [sym_kNodefault]; SGroup 10935 1 [aux_sym_declProp_repeat2];
     AGroup 3 3 syms_1]);
   (530693, 7, [AGroup 24472 1 [sym_kHat]; AGroup 24476 1 [sym_kSpecialize]; AGroup 24478 1 [sym_kString];
     SGroup 6868 1 [sym_typeref]; AGroup 24474 2 syms_52; AGroup 3 3 syms_1;
     SGroup 10276 4 syms_31]);
   (530721, 11, [AGroup 24034 1 [sym_kRead]; AGroup 24036 1 [sym_kWrite]; AGroup 24038 1 [sym_kImplements];
     AGroup 24040 1 [sym_kDefault]; AGroup 24044 1 [sym_kStored]; AGroup 24046 1 [sym_kIndex];
     AGroup 24048 1 [sym_kDispId]; AGroup 24470 1 [sym_kNodefault];
     AGroup 24700 1 [anon_sym_SEMI]; SGroup 10997 1 [aux_sym_declProp_repeat2]; AGroup 3 3 syms_1]);
   (530757, 7, [AGroup 24472 1 [sym_kHat]; AGroup 24476 1 [sym_kSpecialize]; AGroup 24478 1 [sym_kString];
     SGroup 6878 1 [sym_typeref]; AGroup 24474 2 syms_52; AGroup 3 3 syms_1;
     SGroup 10276 4 syms_31]);
   (530785, 7, [AGroup 24472 1 [sym_kHat]; AGroup 24476 1 [sym_kSpecialize]; AGroup 24478 1 [sym_kString];
     SGroup 6882 1 [sym_typeref]; AGroup 24474 2 syms_52; AGroup 3 3 syms_1;
     SGroup 10276 4 syms_31]);
   (530813, 7, [AGroup 24472 1 [sym_kHat]; AGroup 24476 1 [sym_kSpecialize]; AGroup 24478 1 [sym_kString];
     SGroup 6888 1 [sym_typeref]; AGroup 24474 2 syms_52; AGroup 3 3 syms_1;
     SGroup 10276 4 syms_31]);
   (530841, 7, [AGroup 24472 1 [sym_kHat]; AGroup 24476 1 [sym_kSpecialize]; AGroup 24478 1 [sym_kString];
     SGroup 6795 1 [sym_typeref]; AGroup 24474 2 syms_52; AGroup 3 3 syms_1;
     SGroup 10276 4 syms_31]);
   (530869, 11, [AGroup 24034 1 [sym_kRead]; AGroup 24036 1 [sym_kWrite]; AGroup 24038 1 [sym_kImplements];
     AGroup 24040 1 [sym_kDefault]; AGroup 24044 1 [sym_kStored]; AGroup 24046 1 [sym_kIndex];
     AGroup 24048 1 [sym_kDispId]; AGroup 24702 1 [anon_sym_SEMI];
     AGroup 24704 1 [sym_kNodefault]; SGroup 10783 1 [aux_sym_declProp_repeat2];
     AGroup 3 3 syms_1]);
   (530905, 9, [AGroup 5 1 [sym_ppDirective]; AGroup 24144 1 [aux_sym_ppUsesBlock_token1];
     AGroup 24150 1 [sym_identifier]; AGroup 24706 1 [anon_sym_COMMA];
     SGroup 11522 1 [sym_moduleName]; SGroup 13594 1 [aux_sym_moduleName_repeat1];
     AGroup 3 2 syms_5; AGroup 24708 2 syms_44; SGroup 10828 3 syms_741]);
   (530937, 7, [AGroup 24472 1 [sym_kHat]; AGroup 24476 1 [sym_kSpecialize]; AGroup 24478 1 [sym_kString];
     SGroup 6896 1 [sym_typeref]; AGroup 24474 2 syms_52; AGroup 3 3 syms_1;
     SGroup 10276 4 syms_31]);
   (530965, 7, [AGroup 24472 1 [sym_kHat]; AGroup 24476 1 [sym_kSpecialize]; AGroup 24478 1 [sym_kString];
     SGroup 6900 1 [sym_typeref]; AGroup 24474 2 syms_52; AGroup 3 3 syms_1;
     SGroup 10276 4 syms_31]);
   (530993, 7, [AGroup 24472 1 [sym_kHat]; AGroup 24476 1 [sym_kSpecialize]; AGroup 24478 1 [sym_kString];
     SGroup 6908 1 [sym_typeref]; AGroup 24474 2 syms_52; AGroup 3 3 syms_1;
     SGroup 10276 4 syms_31]);
   (531021, 7, [AGroup 24666 1 [sym_kHat]; AGroup 24670 1 [sym_kSpecialize]; AGroup 24672 1 [sym_kString];
     SGroup 15919 1 [sym_typeref]; AGroup 24668 2 syms_52; AGroup 3 3 syms_1;
     SGroup 11987 4 syms_31]);
   (531049, 9, [AGroup 5 1 [sym_ppDirective]; AGroup 24496 1 [sym_identifier];
     AGroup 24710 1 [anon_sym_COMMA]; AGroup 24712 1 [aux_sym_ppUsesBlock_token1];
     SGroup 10438 1 [sym_ppUsesBlockWithSemi]; SGroup 11952 1 [sym_moduleName];
     SGroup 13456 1 [aux_sym_moduleName_repeat1]; AGroup 3 2 syms_5; SGroup 10789 4 syms_756]);
   (531081, 7, [AGroup 24472 1 [sym_kHat]; AGroup 24476 1 [sym_kSpecialize]; AGroup 24478 1 [sym_kString];
     SGroup 6912 1 [sym_typeref]; AGroup 24474 2 syms_52; AGroup 3 3 syms_1;
     SGroup 10276 4 syms_31]);
   (531109, 7, [AGroup 24472 1 [sym_kHat]; AGroup 24476 1 [sym_kSpecialize]; AGroup 24478 1 [sym_kString];
     SGroup 6918 1 [sym_typeref]; AGroup 24474 2 syms_52; AGroup 3 3 syms_1;
     SGroup 10276 4 syms_31]);
   (531137, 8, [AGroup 24666 1 [sym_kHat]; AGroup 24668 1 [sym_ppFragmentExpr];
     AGroup 24670 1 [sym_kSpecialize]; AGroup 24672 1 [sym_kString];
     AGroup 24714 1 [sym_identifier]; SGroup 15630 1 [sym_typeref]; AGroup 3 3 syms_1;
     SGroup 11987 4 syms_31]);
   (531167, 7, [AGroup 24472 1 [sym_kHat]; AGroup 24476 1 [sym_kSpecialize]; AGroup 24478 1 [sym_kString];
     SGroup 6922 1 [sym_typeref]; AGroup 24474 2 syms_52; AGroup 3 3 syms_1;
     SGroup 10276 4 syms_31]);
   (531195, 7, [AGroup 24472 1 [sym_kHat]; AGroup 24476 1 [sym_kSpecialize]; AGroup 24478 1 [sym_kString];
     SGroup 6930 1 [sym_typeref]; AGroup 24474 2 syms_52; AGroup 3 3 syms_1;
     SGroup 10276 4 syms_31]);
   (531223, 11, [AGroup 24034 1 [sym_kRead]; AGroup 24036 1 [sym_kWrite]; AGroup 24038 1 [sym_kImplements];
     AGroup 24040 1 [sym_kDefault]; AGroup 24044 1 [sym_kStored]; AGroup 24046 1 [sym_kIndex];
     AGroup 24048 1 [sym_kDispId]; AGroup 24470 1 [sym_kNodefault];
     AGroup 24716 1 [anon_sym_SEMI]; SGroup 10997 1 [aux_sym_declProp_repeat2]; AGroup 3 3 syms_1]);
   (531259, 7, [AGroup 24472 1 [sym_kHat]; AGroup 24476 1 [sym_kSpecialize]; AGroup 24478 1 [sym_kString];
     SGroup 6933 1 [sym_typeref]; AGroup 24474 2 syms_52; AGroup 3 3 syms_1;
     SGroup 10276 4 syms_31]);
   (531287, 11, [AGroup 24034 1 [sym_kRead]; AGroup 24036 1 [sym_kWrite]; AGroup 24038 1 [sym_kImplements];
     AGroup 24040 1 [sym_kDefault]; AGroup 24044 1 [sym_kStored]; AGroup 24046 1 [sym_kIndex];
     AGroup 24048 1 [sym_kDispId]; AGroup 24718 1 [anon_sym_SEMI];
     AGroup 24720 1 [sym_kNodefault]; SGroup 10956 1 [aux_sym_declProp_repeat2];
     AGroup 3 3 syms_1]);
   (531323, 11, [AGroup 24034 1 [sym_kRead]; AGroup 24036 1 [sym_kWrite]; AGroup 24038 1 [sym_kImplements];
     AGroup 24040 1 [sym_kDefault]; AGroup 24044 1 [sym_kStored]; AGroup 24046 1 [sym_kIndex];
     AGroup 24048 1 [sym_kDispId]; AGroup 24470 1 [sym_kNodefault];
     AGroup 24722 1 [anon_sym_SEMI]; SGroup 10997 1 [aux_sym_declProp_repeat2]; AGroup 3 3 syms_1]);
   (531359, 11, [AGroup 24034 1 [sym_kRead]; AGroup 24036 1 [sym_kWrite]; AGroup 24038 1 [sym_kImplements];
     AGroup 24040 1 [sym_kDefault]; AGroup 24044 1 [sym_kStored]; AGroup 24046 1 [sym_kIndex];
     AGroup 24048 1 [sym_kDispId]; AGroup 24724 1 [anon_sym_SEMI];
     AGroup 24726 1 [sym_kNodefault]; SGroup 11031 1 [aux_sym_declProp_repeat2];
     AGroup 3 3 syms_1]);
   (531395, 11, [AGroup 24034 1 [sym_kRead]; AGroup 24036 1 [sym_kWrite]; AGroup 24038 1 [sym_kImplements];
     AGroup 24040 1 [sym_kDefault]; AGroup 24044 1 [sym_kStored]; AGroup 24046 1 [sym_kIndex];
     AGroup 24048 1 [sym_kDispId]; AGroup 24470 1 [sym_kNodefault];
     AGroup 24728 1 [anon_sym_SEMI]; SGroup 10997 1 [aux_sym_declProp_repeat2]; AGroup 3 3 syms_1]);
   (531431, 7, [AGroup 14871 1 [sym_kSpecialize]; AGroup 23983 1 [sym_kHat]; AGroup 23989 1 [sym_kString];
     SGroup 12871 1 [sym_typeref]; AGroup 23985 2 syms_52; AGroup 3 3 syms_1;
     SGroup 11123 4 syms_31]);
   (531459, 11, [AGroup 24034 1 [sym_kRead]; AGroup 24036 1 [sym_kWrite]; AGroup 24038 1 [sym_kImplements];
     AGroup 24040 1 [sym_kDefault]; AGroup 24044 1 [sym_kStored]; AGroup 24046 1 [sym_kIndex];
     AGroup 24048 1 [sym_kDispId]; AGroup 24730 1 [anon_sym_SEMI];
     AGroup 24732 1 [sym_kNodefault]; SGroup 10993 1 [aux_sym_declProp_repeat2];
     AGroup 3 3 syms_1]);
   (531495, 11, [AGroup 24034 1 [sym_kRead]; AGroup 24036 1 [sym_kWrite]; AGroup 24038 1 [sym_kImplements];
     AGroup 24040 1 [sym_kDefault]; AGroup 24044 1 [sym_kStored]; AGroup 24046 1 [sym_kIndex];
     AGroup 24048 1 [sym_kDispId]; AGroup 24470 1 [sym_kNodefault];
     AGroup 24734 1 [anon_sym_SEMI]; SGroup 10997 1 [aux_sym_declProp_repeat2]; AGroup 3 3 syms_1]);
   (531531, 8, [AGroup 24540 1 [sym_kHat]; AGroup 24542 1 [sym_ppFragmentExpr];
     AGroup 24546 1 [sym_kSpecialize]; AGroup 24548 1 [sym_kString];
     AGroup 24736 1 [sym_identifier]; SGroup 15655 1 [sym_typeref]; AGroup 3 3 syms_1;
     SGroup 11096 4 syms_31]);
   (531561, 11, [AGroup 24034 1 [sym_kRead]; AGroup 24036 1 [sym_kWrite]; AGroup 24038 1 [sym_kImplements];
     AGroup 24040 1 [sym_kDefault]; AGroup 24044 1 [sym_kStored]; AGroup 24046 1 [sym_kIndex];
     AGroup 24048 1 [sym_kDispId]; AGroup 24470 1 [sym_kNodefault];
     AGroup 24738 1 [anon_sym_SEMI]; SGroup 10997 1 [aux_sym_declProp_repeat2]; AGroup 3 3 syms_1]);
   (531597, 6, [AGroup 5 1 [sym_ppDirective]; AGroup 24743 1 [anon_sym_POUND]; AGroup 3 2 syms_5;
     AGroup 24740 2 syms_6; SGroup 10943 3 syms_13; AGroup 15239 4 syms_760]);
   (531623, 7, [AGroup 24540 1 [sym_kHat]; AGroup 24546 1 [sym_kSpecialize]; AGroup 24548 1 [sym_kString];
     SGroup 15683 1 [sym_typeref]; AGroup 24542 2 syms_52; AGroup 3 3 syms_1;
     SGroup 11096 4 syms_31]);
   (531651, 11, [AGroup 24034 1 [sym_kRead]; AGroup 24036 1 [sym_kWrite]; AGroup 24038 1 [sym_kImplements];
     AGroup 24040 1 [sym_kDefault]; AGroup 24044 1 [sym_kStored]; AGroup 24046 1 [sym_kIndex];
     AGroup 24048 1 [sym_kDispId]; AGroup 24470 1 [sym_kNodefault];
     AGroup 24746 1 [anon_sym_SEMI]; SGroup 10997 1 [aux_sym_declProp_repeat2]; AGroup 3 3 syms_1]);
   (531687, 11, [AGroup 24034 1 [sym_kRead]; AGroup 24036 1 [sym_kWrite]; AGroup 24038 1 [sym_kImplements];
     AGroup 24040 1 [sym_kDefault]; AGroup 24044 1 [sym_kStored]; AGroup 24046 1 [sym_kIndex];
     AGroup 24048 1 [sym_kDispId]; AGroup 24470 1 [sym_kNodefault];
     AGroup 24748 1 [anon_sym_SEMI]; SGroup 10997 1 [aux_sym_declProp_repeat2]; AGroup 3 3 syms_1]);
   (531723, 7, [AGroup 14871 1 [sym_kSpecialize]; AGroup 23983 1 [sym_kHat]; AGroup 23989 1 [sym_kString];
     SGroup 12770 1 [sym_typeref]; AGroup 23985 2 syms_52; AGroup 3 3 syms_1;
     SGroup 11123 4 syms_31]);
   (531751, 7, [AGroup 24472 1 [sym_kHat]; AGroup 24476 1 [sym_kSpecialize]; AGroup 24478 1 [sym_kString];
     SGroup 6780 1 [sym_typeref]; AGroup 24474 2 syms_52; AGroup 3 3 syms_1;
     SGroup 10276 4 syms_31]);
   (531779, 7, [AGroup 24472 1 [sym_kHat]; AGroup 24476 1 [sym_kSpecialize]; AGroup 24478 1 [sym_kString];
     SGroup 6975 1 [sym_typeref]; AGroup 24474 2 syms_52; AGroup 3 3 syms_1;
     SGroup 10276 4 syms_31]);
   (531807, 7, [AGroup 14871 1 [sym_kSpecialize]; AGroup 23983 1 [sym_kHat]; AGroup 23989 1 [sym_kString];
     SGroup 12916 1 [sym_typeref]; AGroup 23985 2 syms_52; AGroup 3 3 syms_1;
     SGroup 11123 4 syms_31]);
   (531835, 11, [AGroup 24034 1 [sym_kRead]; AGroup 24036 1 [sym_kWrite]; AGroup 24038 1 [sym_kImplements];
     AGroup 24040 1 [sym_kDefault]; AGroup 24044 1 [sym_kStored]; AGroup 24046 1 [sym_kIndex];
     AGroup 24048 1 [sym_kDispId]; AGroup 24750 1 [anon_sym_SEMI];
     AGroup 24752 1 [sym_kNodefault]; SGroup 10994 1 [aux_sym_declProp_repeat2];
     AGroup 3 3 syms_1]);
   (531871, 2, [AGroup 3 3 syms_1; AGroup 15590 10 syms_758]);
   (531889, 11, [AGroup 24034 1 [sym_kRead]; AGroup 24036 1 [sym_kWrite]; AGroup 24038 1 [sym_kImplements];
     AGroup 24040 1 [sym_kDefault]; AGroup 24044 1 [sym_kStored]; AGroup 24046 1 [sym_kIndex];
     AGroup 24048 1 [sym_kDispId]; AGroup 24470 1 [sym_kNodefault];
     AGroup 24754 1 [anon_sym_SEMI]; SGroup 10997 1 [aux_sym_declProp_repeat2]; AGroup 3 3 syms_1]);
   (531925, 7, [AGroup 24472 1 [sym_kHat]; AGroup 24476 1 [sym_kSpecialize]; AGroup 24478 1 [sym_kString];
     SGroup 6694 1 [sym_typeref]; AGroup 24474 2 syms_52; AGroup 3 3 syms_1;
     SGroup 10276 4 syms_31]);
   (531953, 7, [AGroup 14871 1 [sym_kSpecialize]; AGroup 23983 1 [sym_kHat]; AGroup 23989 1 [sym_kString];
     SGroup 12938 1 [sym_typeref]; AGroup 23985 2 syms_52; AGroup 3 3 syms_1;
     SGroup 11123 4 syms_31]);
   (531981, 11, [AGroup 24034 1 [sym_kRead]; AGroup 24036 1 [sym_kWrite]; AGroup 24038 1 [sym_kImplements];
     AGroup 24040 1 [sym_kDefault]; AGroup 24044 1 [sym_kStored]; AGroup 24046 1 [sym_kIndex];
     AGroup 24048 1 [sym_kDispId]; AGroup 24470 1 [sym_kNodefault];
     AGroup 24756 1 [anon_sym_SEMI]; SGroup 10997 1 [aux_sym_declProp_repeat2]; AGroup 3 3 syms_1]);
   (532017, 7, [AGroup 24622 1 [sym_kHat]; AGroup 24626 1 [sym_kSpecialize]; AGroup 24628 1 [sym_kString];
     SGroup 5613 1 [sym_typeref]; AGroup 24624 2 syms_52; AGroup 3 3 syms_1;
     SGroup 8290 4 syms_31]);
   (532045, 7, [AGroup 14871 1 [sym_kSpecialize]; AGroup 23983 1 [sym_kHat]; AGroup 23989 1 [sym_kString];
     SGroup 12924 1 [sym_typeref]; AGroup 23985 2 syms_52; AGroup 3 3 syms_1;
     SGroup 11123 4 syms_31])
  ].

(** States 10959 to 11058. *)
Definition small_runs_10959 : list small_run :=
  [
   (532073, 7, [AGroup 14871 1 [sym_kSpecialize]; AGroup 23983 1 [sym_kHat]; AGroup 23989 1 [sym_kString];
     SGroup 12667 1 [sym_typeref]; AGroup 23985 2 syms_52; AGroup 3 3 syms_1;
     SGroup 11123 4 syms_31]);
   (532101, 7, [AGroup 24472 1 [sym_kHat]; AGroup 24476 1 [sym_kSpecialize]; AGroup 24478 1 [sym_kString];
     SGroup 6813 1 [sym_typeref]; AGroup 24474 2 syms_52; AGroup 3 3 syms_1;
     SGroup 10276 4 syms_31]);
   (532129, 7, [AGroup 14871 1 [sym_kSpecialize]; AGroup 23983 1 [sym_kHat]; AGroup 23989 1 [sym_kString];
     SGroup 12936 1 [sym_typeref]; AGroup 23985 2 syms_52; AGroup 3 3 syms_1;
     SGroup 11123 4 syms_31]);
   (532157, 7, [AGroup 14871 1 [sym_kSpecialize]; AGroup 23983 1 [sym_kHat]; AGroup 23989 1 [sym_kString];
     SGroup 12509 1 [sym_typeref]; AGroup 23985 2 syms_52; AGroup 3 3 syms_1;
     SGroup 11123 4 syms_31]);
   (532185, 11, [AGroup 24034 1 [sym_kRead]; AGroup 24036 1 [sym_kWrite]; AGroup 24038 1 [sym_kImplements];
     AGroup 24040 1 [sym_kDefault]; AGroup 24044 1 [sym_kStored]; AGroup 24046 1 [sym_kIndex];
     AGroup 24048 1 [sym_kDispId]; AGroup 24470 1 [sym_kNodefault];
     AGroup 24758 1 [anon_sym_SEMI]; SGroup 10997 1 [aux_sym_declProp_repeat2]; AGroup 3 3 syms_1]);
   (532221, 11, [AGroup 24034 1 [sym_kRead]; AGroup 24036 1 [sym_kWrite]; AGroup 24038 1 [sym_kImplements];
     AGroup 24040 1 [sym_kDefault]; AGroup 24044 1 [sym_kStored]; AGroup 24046 1 [sym_kIndex];
     AGroup 24048 1 [sym_kDispId]; AGroup 24760 1 [anon_sym_SEMI];
     AGroup 24762 1 [sym_kNodefault]; SGroup 10819 1 [aux_sym_declProp_repeat2];
     AGroup 3 3 syms_1]);
   (532257, 2, [AGroup 3 3 syms_1; AGroup 23927 10 syms_722]);
   (532275, 7, [AGroup 24484 1 [sym_kHat]; AGroup 24488 1 [sym_kSpecialize]; AGroup 24490 1 [sym_kString];
     SGroup 12224 1 [sym_typeref]; AGroup 24486 2 syms_52; AGroup 3 3 syms_1;
     SGroup 11315 4 syms_31]);
   (532303, 11, [AGroup 24034 1 [sym_kRead]; AGroup 24036 1 [sym_kWrite]; AGroup 24038 1 [sym_kImplements];
     AGroup 24040 1 [sym_kDefault]; AGroup 24044 1 [sym_kStored]; AGroup 24046 1 [sym_kIndex];
     AGroup 24048 1 [sym_kDispId]; AGroup 24470 1 [sym_kNodefault];
     AGroup 24764 1 [anon_sym_SEMI]; SGroup 10997 1 [aux_sym_declProp_repeat2]; AGroup 3 3 syms_1]);
   (532339, 7, [AGroup 24472 1 [sym_kHat]; AGroup 24476 1 [sym_kSpecialize]; AGroup 24478 1 [sym_kString];
     SGroup 6880 1 [sym_typeref]; AGroup 24474 2 syms_52; AGroup 3 3 syms_1;
     SGroup 10276 4 syms_31]);
   (532367, 6, [AGroup 21299 1 [anon_sym_DOT]; AGroup 24570 1 [sym_kLt]; AGroup 24766 1 [sym_kDeprecated];
     SGroup 11263 1 [sym_kDot]; AGroup 3 3 syms_1; AGroup 21307 6 syms_61]);
   (532393, 7, [AGroup 14871 1 [sym_kSpecialize]; AGroup 23983 1 [sym_kHat]; AGroup 23989 1 [sym_kString];
     SGroup 12771 1 [sym_typeref]; AGroup 23985 2 syms_52; AGroup 3 3 syms_1;
     SGroup 11123 4 syms_31]);
   (532421, 11, [AGroup 24034 1 [sym_kRead]; AGroup 24036 1 [sym_kWrite]; AGroup 24038 1 [sym_kImplements];
     AGroup 24040 1 [sym_kDefault]; AGroup 24044 1 [sym_kStored]; AGroup 24046 1 [sym_kIndex];
     AGroup 24048 1 [sym_kDispId]; AGroup 24768 1 [anon_sym_SEMI];
     AGroup 24770 1 [sym_kNodefault]; SGroup 10940 1 [aux_sym_declProp_repeat2];
     AGroup 3 3 syms_1]);
   (532457, 7, [AGroup 14871 1 [sym_kSpecialize]; AGroup 23983 1 [sym_kHat]; AGroup 23989 1 [sym_kString];
     SGroup 12942 1 [sym_typeref]; AGroup 23985 2 syms_52; AGroup 3 3 syms_1;
     SGroup 11123 4 syms_31]);
   (532485, 7, [AGroup 14871 1 [sym_kSpecialize]; AGroup 23983 1 [sym_kHat]; AGroup 23989 1 [sym_kString];
     SGroup 12944 1 [sym_typeref]; AGroup 23985 2 syms_52; AGroup 3 3 syms_1;
     SGroup 11123 4 syms_31]);
   (532513, 7, [AGroup 15307 1 [sym_kSpecialize]; AGroup 24772 1 [sym_kHat]; AGroup 24776 1 [sym_kString];
     SGroup 13928 1 [sym_typeref]; AGroup 24774 2 syms_52; AGroup 3 3 syms_1;
     SGroup 11617 4 syms_31]);
   (532541, 8, [AGroup 24666 1 [sym_kHat]; AGroup 24668 1 [sym_ppFragmentExpr];
     AGroup 24670 1 [sym_kSpecialize]; AGroup 24672 1 [sym_kString];
     AGroup 24778 1 [sym_identifier]; SGroup 15747 1 [sym_typeref]; AGroup 3 3 syms_1;
     SGroup 11987 4 syms_31]);
   (532571, 7, [AGroup 14871 1 [sym_kSpecialize]; AGroup 23983 1 [sym_kHat]; AGroup 23989 1 [sym_kString];
     SGroup 12848 1 [sym_typeref]; AGroup 23985 2 syms_52; AGroup 3 3 syms_1;
     SGroup 11123 4 syms_31]);
   (532599, 7, [AGroup 14871 1 [sym_kSpecialize]; AGroup 23983 1 [sym_kHat]; AGroup 23989 1 [sym_kString];
     SGroup 12865 1 [sym_typeref]; AGroup 23985 2 syms_52; AGroup 3 3 syms_1;
     SGroup 11123 4 syms_31]);
   (532627, 7, [AGroup 15605 1 [sym_kHat]; AGroup 24466 1 [sym_kString];
     SGroup 11135 1 [aux_sym_typerefArgs_repeat1]; SGroup 15799 1 [sym_typerefArgs];
     AGroup 24464 2 syms_52; AGroup 3 3 syms_1; SGroup 11929 4 syms_31]);
   (532655, 7, [AGroup 24614 1 [sym_kHat]; AGroup 24618 1 [sym_kSpecialize]; AGroup 24620 1 [sym_kString];
     SGroup 12599 1 [sym_typeref]; AGroup 24616 2 syms_52; AGroup 3 3 syms_1;
     SGroup 11432 4 syms_31]);
   (532683, 7, [AGroup 24614 1 [sym_kHat]; AGroup 24618 1 [sym_kSpecialize]; AGroup 24620 1 [sym_kString];
     SGroup 12678 1 [sym_typeref]; AGroup 24616 2 syms_52; AGroup 3 3 syms_1;
     SGroup 11432 4 syms_31]);
   (532711, 7, [AGroup 15605 1 [sym_kHat]; AGroup 24466 1 [sym_kString];
     SGroup 11135 1 [aux_sym_typerefArgs_repeat1]; SGroup 15588 1 [sym_typerefArgs];
     AGroup 24464 2 syms_52; AGroup 3 3 syms_1; SGroup 11929 4 syms_31]);
   (532739, 2, [AGroup 3 3 syms_1; AGroup 24780 10 syms_759]);
   (532757, 7, [AGroup 14871 1 [sym_kSpecialize]; AGroup 23983 1 [sym_kHat]; AGroup 23989 1 [sym_kString];
     SGroup 12532 1 [sym_typeref]; AGroup 23985 2 syms_52; AGroup 3 3 syms_1;
     SGroup 11123 4 syms_31]);
   (532785, 2, [AGroup 3 3 syms_1; AGroup 17326 10 syms_722]);
   (532803, 11, [AGroup 24034 1 [sym_kRead]; AGroup 24036 1 [sym_kWrite]; AGroup 24038 1 [sym_kImplements];
     AGroup 24040 1 [sym_kDefault]; AGroup 24044 1 [sym_kStored]; AGroup 24046 1 [sym_kIndex];
     AGroup 24048 1 [sym_kDispId]; AGroup 24470 1 [sym_kNodefault];
     AGroup 24782 1 [anon_sym_SEMI]; SGroup 10997 1 [aux_sym_declProp_repeat2]; AGroup 3 3 syms_1]);
   (532839, 11, [AGroup 24034 1 [sym_kRead]; AGroup 24036 1 [sym_kWrite]; AGroup 24038 1 [sym_kImplements];
     AGroup 24040 1 [sym_kDefault]; AGroup 24044 1 [sym_kStored]; AGroup 24046 1 [sym_kIndex];
     AGroup 24048 1 [sym_kDispId]; AGroup 24470 1 [sym_kNodefault];
     AGroup 24784 1 [anon_sym_SEMI]; SGroup 10997 1 [aux_sym_declProp_repeat2]; AGroup 3 3 syms_1]);
   (532875, 7, [AGroup 24540 1 [sym_kHat]; AGroup 24546 1 [sym_kSpecialize]; AGroup 24548 1 [sym_kString];
     SGroup 15701 1 [sym_typeref]; AGroup 24542 2 syms_52; AGroup 3 3 syms_1;
     SGroup 11096 4 syms_31]);
   (532903, 7, [AGroup 14871 1 [sym_kSpecialize]; AGroup 23983 1 [sym_kHat]; AGroup 23989 1 [sym_kString];
     SGroup 12949 1 [sym_typeref]; AGroup 23985 2 syms_52; AGroup 3 3 syms_1;
     SGroup 11123 4 syms_31]);
   (532931, 11, [AGroup 24034 1 [sym_kRead]; AGroup 24036 1 [sym_kWrite]; AGroup 24038 1 [sym_kImplements];
     AGroup 24040 1 [sym_kDefault]; AGroup 24044 1 [sym_kStored]; AGroup 24046 1 [sym_kIndex];
     AGroup 24048 1 [sym_kDispId]; AGroup 24786 1 [anon_sym_SEMI];
     AGroup 24788 1 [sym_kNodefault]; SGroup 10813 1 [aux_sym_declProp_repeat2];
     AGroup 3 3 syms_1]);
   (532967, 7, [AGroup 14871 1 [sym_kSpecialize]; AGroup 23983 1 [sym_kHat]; AGroup 23989 1 [sym_kString];
     SGroup 12680 1 [sym_typeref]; AGroup 23985 2 syms_52; AGroup 3 3 syms_1;
     SGroup 11123 4 syms_31]);
   (532995, 7, [AGroup 14871 1 [sym_kSpecialize]; AGroup 23983 1 [sym_kHat]; AGroup 23989 1 [sym_kString];
     SGroup 12971 1 [sym_typeref]; AGroup 23985 2 syms_52; AGroup 3 3 syms_1;
     SGroup 11123 4 syms_31]);
   (533023, 7, [AGroup 24472 1 [sym_kHat]; AGroup 24476 1 [sym_kSpecialize]; AGroup 24478 1 [sym_kString];
     SGroup 6941 1 [sym_typeref]; AGroup 24474 2 syms_52; AGroup 3 3 syms_1;
     SGroup 10276 4 syms_31]);
   (533051, 11, [AGroup 24034 1 [sym_kRead]; AGroup 24036 1 [sym_kWrite]; AGroup 24038 1 [sym_kImplements];
     AGroup 24040 1 [sym_kDefault]; AGroup 24044 1 [sym_kStored]; AGroup 24046 1 [sym_kIndex];
     AGroup 24048 1 [sym_kDispId]; AGroup 24470 1 [sym_kNodefault];
     AGroup 24790 1 [anon_sym_SEMI]; SGroup 10997 1 [aux_sym_declProp_repeat2]; AGroup 3 3 syms_1]);
   (533087, 11, [AGroup 24034 1 [sym_kRead]; AGroup 24036 1 [sym_kWrite]; AGroup 24038 1 [sym_kImplements];
     AGroup 24040 1 [sym_kDefault]; AGroup 24044 1 [sym_kStored]; AGroup 24046 1 [sym_kIndex];
     AGroup 24048 1 [sym_kDispId]; AGroup 24470 1 [sym_kNodefault];
     AGroup 24792 1 [anon_sym_SEMI]; SGroup 10997 1 [aux_sym_declProp_repeat2]; AGroup 3 3 syms_1]);
   (533123, 7, [AGroup 24472 1 [sym_kHat]; AGroup 24476 1 [sym_kSpecialize]; AGroup 24478 1 [sym_kString];
     SGroup 6898 1 [sym_typeref]; AGroup 24474 2 syms_52; AGroup 3 3 syms_1;
     SGroup 10276 4 syms_31]);
   (533151, 7, [AGroup 24540 1 [sym_kHat]; AGroup 24546 1 [sym_kSpecialize]; AGroup 24548 1 [sym_kString];
     SGroup 11697 1 [sym_typeref]; AGroup 24542 2 syms_52; AGroup 3 3 syms_1;
     SGroup 11096 4 syms_31]);
   (533179, 11, [AGroup 24794 1 [anon_sym_SEMI]; AGroup 24796 1 [sym_kRead]; AGroup 24799 1 [sym_kWrite];
     AGroup 24802 1 [sym_kImplements]; AGroup 24805 1 [sym_kDefault];
     AGroup 24808 1 [sym_kNodefault]; AGroup 24811 1 [sym_kStored]; AGroup 24814 1 [sym_kIndex];
     AGroup 24817 1 [sym_kDispId]; SGroup 10997 1 [aux_sym_declProp_repeat2]; AGroup 3 3 syms_1]);
   (533215, 6, [AGroup 14947 1 [sym_kProperty]; AGroup 24820 1 [sym_kOperator]; AGroup 24822 2 syms_65;
     AGroup 24826 2 syms_66; AGroup 3 3 syms_1; AGroup 24824 4 syms_3]);
   (533241, 7, [AGroup 24472 1 [sym_kHat]; AGroup 24476 1 [sym_kSpecialize]; AGroup 24478 1 [sym_kString];
     SGroup 6778 1 [sym_typeref]; AGroup 24474 2 syms_52; AGroup 3 3 syms_1;
     SGroup 10276 4 syms_31]);
   (533269, 2, [AGroup 3 3 syms_1; AGroup 23931 10 syms_722]);
   (533287, 7, [AGroup 15605 1 [sym_kHat]; AGroup 24466 1 [sym_kString];
     SGroup 11135 1 [aux_sym_typerefArgs_repeat1]; SGroup 14751 1 [sym_typerefArgs];
     AGroup 24464 2 syms_52; AGroup 3 3 syms_1; SGroup 11929 4 syms_31]);
   (533315, 4, [AGroup 24828 1 [anon_sym_LBRACK]; SGroup 11002 1 [aux_sym_rttiAttributes_repeat2];
     AGroup 3 3 syms_1; AGroup 11318 8 syms_761]);
   (533337, 2, [AGroup 3 3 syms_1; AGroup 21751 10 syms_749]);
   (533355, 7, [AGroup 24472 1 [sym_kHat]; AGroup 24476 1 [sym_kSpecialize]; AGroup 24478 1 [sym_kString];
     SGroup 6928 1 [sym_typeref]; AGroup 24474 2 syms_52; AGroup 3 3 syms_1;
     SGroup 10276 4 syms_31]);
   (533383, 9, [AGroup 5 1 [sym_ppDirective]; AGroup 24496 1 [sym_identifier];
     AGroup 24831 1 [anon_sym_COMMA]; AGroup 24833 1 [aux_sym_ppUsesBlock_token1];
     SGroup 10253 1 [sym_ppUsesBlockWithSemi]; SGroup 11952 1 [sym_moduleName];
     SGroup 13456 1 [aux_sym_moduleName_repeat1]; AGroup 3 2 syms_5; SGroup 11012 4 syms_756]);
   (533415, 7, [AGroup 24540 1 [sym_kHat]; AGroup 24546 1 [sym_kSpecialize]; AGroup 24548 1 [sym_kString];
     SGroup 11848 1 [sym_typeref]; AGroup 24542 2 syms_52; AGroup 3 3 syms_1;
     SGroup 11096 4 syms_31]);
   (533443, 4, [AGroup 24835 2 syms_9; AGroup 3 3 syms_1; AGroup 23935 3 syms_117; AGroup 24837 5 syms_720]);
   (533465, 7, [AGroup 15605 1 [sym_kHat]; AGroup 24466 1 [sym_kString];
     SGroup 11135 1 [aux_sym_typerefArgs_repeat1]; SGroup 15104 1 [sym_typerefArgs];
     AGroup 24464 2 syms_52; AGroup 3 3 syms_1; SGroup 11929 4 syms_31]);
   (533493, 7, [AGroup 14871 1 [sym_kSpecialize]; AGroup 23983 1 [sym_kHat]; AGroup 23989 1 [sym_kString];
     SGroup 12697 1 [sym_typeref]; AGroup 23985 2 syms_52; AGroup 3 3 syms_1;
     SGroup 11123 4 syms_31]);
   (533521, 11, [AGroup 24034 1 [sym_kRead]; AGroup 24036 1 [sym_kWrite]; AGroup 24038 1 [sym_kImplements];
     AGroup 24040 1 [sym_kDefault]; AGroup 24044 1 [sym_kStored]; AGroup 24046 1 [sym_kIndex];
     AGroup 24048 1 [sym_kDispId]; AGroup 24839 1 [anon_sym_SEMI];
     AGroup 24841 1 [sym_kNodefault]; SGroup 10883 1 [aux_sym_declProp_repeat2];
     AGroup 3 3 syms_1]);
   (533557, 7, [AGroup 24472 1 [sym_kHat]; AGroup 24476 1 [sym_kSpecialize]; AGroup 24478 1 [sym_kString];
     SGroup 6948 1 [sym_typeref]; AGroup 24474 2 syms_52; AGroup 3 3 syms_1;
     SGroup 10276 4 syms_31]);
   (533585, 9, [AGroup 5 1 [sym_ppDirective]; AGroup 24496 1 [sym_identifier];
     AGroup 24520 1 [anon_sym_COMMA]; AGroup 24522 1 [aux_sym_ppUsesBlock_token1];
     AGroup 24843 1 [anon_sym_SEMI]; SGroup 11952 1 [sym_moduleName];
     SGroup 13456 1 [aux_sym_moduleName_repeat1]; AGroup 3 2 syms_5; SGroup 11017 4 syms_756]);
   (533617, 11, [AGroup 24034 1 [sym_kRead]; AGroup 24036 1 [sym_kWrite]; AGroup 24038 1 [sym_kImplements];
     AGroup 24040 1 [sym_kDefault]; AGroup 24044 1 [sym_kStored]; AGroup 24046 1 [sym_kIndex];
     AGroup 24048 1 [sym_kDispId]; AGroup 24470 1 [sym_kNodefault];
     AGroup 24845 1 [anon_sym_SEMI]; SGroup 10997 1 [aux_sym_declProp_repeat2]; AGroup 3 3 syms_1]);
   (533653, 7, [AGroup 24622 1 [sym_kHat]; AGroup 24626 1 [sym_kSpecialize]; AGroup 24628 1 [sym_kString];
     SGroup 5596 1 [sym_typeref]; AGroup 24624 2 syms_52; AGroup 3 3 syms_1;
     SGroup 8290 4 syms_31]);
   (533681, 11, [AGroup 24034 1 [sym_kRead]; AGroup 24036 1 [sym_kWrite]; AGroup 24038 1 [sym_kImplements];
     AGroup 24040 1 [sym_kDefault]; AGroup 24044 1 [sym_kStored]; AGroup 24046 1 [sym_kIndex];
     AGroup 24048 1 [sym_kDispId]; AGroup 24847 1 [anon_sym_SEMI];
     AGroup 24849 1 [sym_kNodefault]; SGroup 11054 1 [aux_sym_declProp_repeat2];
     AGroup 3 3 syms_1]);
   (533717, 11, [AGroup 24034 1 [sym_kRead]; AGroup 24036 1 [sym_kWrite]; AGroup 24038 1 [sym_kImplements];
     AGroup 24040 1 [sym_kDefault]; AGroup 24044 1 [sym_kStored]; AGroup 24046 1 [sym_kIndex];
     AGroup 24048 1 [sym_kDispId]; AGroup 24470 1 [sym_kNodefault];
     AGroup 24851 1 [anon_sym_SEMI]; SGroup 10997 1 [aux_sym_declProp_repeat2]; AGroup 3 3 syms_1]);
   (533753, 9, [AGroup 5 1 [sym_ppDirective]; AGroup 24853 1 [anon_sym_SEMI];
     AGroup 24855 1 [anon_sym_COMMA]; AGroup 24858 1 [aux_sym_ppUsesBlock_token1];
     AGroup 24861 1 [sym_identifier]; SGroup 11952 1 [sym_moduleName];
     SGroup 13456 1 [aux_sym_moduleName_repeat1]; AGroup 3 2 syms_5; SGroup 11017 4 syms_756]);
   (533785, 7, [AGroup 15365 1 [sym_kSpecialize]; AGroup 24864 1 [sym_kHat]; AGroup 24868 1 [sym_kString];
     SGroup 11069 1 [sym_typeref]; AGroup 24866 2 syms_52; AGroup 3 3 syms_1;
     SGroup 10591 4 syms_31]);
   (533813, 2, [AGroup 3 3 syms_1; AGroup 23925 10 syms_722]);
   (533831, 3, [AGroup 3 3 syms_1; AGroup 23931 5 syms_762; AGroup 24837 5 syms_720]);
   (533851, 7, [AGroup 24500 1 [sym_kHat]; AGroup 24504 1 [sym_kSpecialize]; AGroup 24506 1 [sym_kString];
     SGroup 11058 1 [sym_typeref]; AGroup 24502 2 syms_52; AGroup 3 3 syms_1;
     SGroup 10559 4 syms_31]);
   (533879, 11, [AGroup 24034 1 [sym_kRead]; AGroup 24036 1 [sym_kWrite]; AGroup 24038 1 [sym_kImplements];
     AGroup 24040 1 [sym_kDefault]; AGroup 24044 1 [sym_kStored]; AGroup 24046 1 [sym_kIndex];
     AGroup 24048 1 [sym_kDispId]; AGroup 24870 1 [anon_sym_SEMI];
     AGroup 24872 1 [sym_kNodefault]; SGroup 10904 1 [aux_sym_declProp_repeat2];
     AGroup 3 3 syms_1]);
   (533915, 11, [AGroup 24034 1 [sym_kRead]; AGroup 24036 1 [sym_kWrite]; AGroup 24038 1 [sym_kImplements];
     AGroup 24040 1 [sym_kDefault]; AGroup 24044 1 [sym_kStored]; AGroup 24046 1 [sym_kIndex];
     AGroup 24048 1 [sym_kDispId]; AGroup 24470 1 [sym_kNodefault];
     AGroup 24874 1 [anon_sym_SEMI]; SGroup 10997 1 [aux_sym_declProp_repeat2]; AGroup 3 3 syms_1]);
   (533951, 7, [AGroup 24472 1 [sym_kHat]; AGroup 24476 1 [sym_kSpecialize]; AGroup 24478 1 [sym_kString];
     SGroup 6955 1 [sym_typeref]; AGroup 24474 2 syms_52; AGroup 3 3 syms_1;
     SGroup 10276 4 syms_31]);
   (533979, 11, [AGroup 24034 1 [sym_kRead]; AGroup 24036 1 [sym_kWrite]; AGroup 24038 1 [sym_kImplements];
     AGroup 24040 1 [sym_kDefault]; AGroup 24044 1 [sym_kStored]; AGroup 24046 1 [sym_kIndex];
     AGroup 24048 1 [sym_kDispId]; AGroup 24470 1 [sym_kNodefault];
     AGroup 24876 1 [anon_sym_SEMI]; SGroup 10997 1 [aux_sym_declProp_repeat2]; AGroup 3 3 syms_1]);
   (534015, 2, [AGroup 3 3 syms_1; AGroup 23941 10 syms_722]);
   (534033, 4, [AGroup 18895 1 [anon_sym_LBRACK]; SGroup 11002 1 [aux_sym_rttiAttributes_repeat2];
     AGroup 3 3 syms_1; AGroup 15477 8 syms_761]);
   (534055, 7, [AGroup 24472 1 [sym_kHat]; AGroup 24476 1 [sym_kSpecialize]; AGroup 24478 1 [sym_kString];
     SGroup 6951 1 [sym_typeref]; AGroup 24474 2 syms_52; AGroup 3 3 syms_1;
     SGroup 10276 4 syms_31]);
   (534083, 7, [AGroup 15605 1 [sym_kHat]; AGroup 24466 1 [sym_kString];
     SGroup 11135 1 [aux_sym_typerefArgs_repeat1]; SGroup 15423 1 [sym_typerefArgs];
     AGroup 24464 2 syms_52; AGroup 3 3 syms_1; SGroup 11929 4 syms_31]);
   (534111, 7, [AGroup 14871 1 [sym_kSpecialize]; AGroup 23983 1 [sym_kHat]; AGroup 23989 1 [sym_kString];
     SGroup 12746 1 [sym_typeref]; AGroup 23985 2 syms_52; AGroup 3 3 syms_1;
     SGroup 11123 4 syms_31]);
   (534139, 11, [AGroup 24034 1 [sym_kRead]; AGroup 24036 1 [sym_kWrite]; AGroup 24038 1 [sym_kImplements];
     AGroup 24040 1 [sym_kDefault]; AGroup 24044 1 [sym_kStored]; AGroup 24046 1 [sym_kIndex];
     AGroup 24048 1 [sym_kDispId]; AGroup 24470 1 [sym_kNodefault];
     AGroup 24878 1 [anon_sym_SEMI]; SGroup 10997 1 [aux_sym_declProp_repeat2]; AGroup 3 3 syms_1]);
   (534175, 7, [AGroup 14871 1 [sym_kSpecialize]; AGroup 23983 1 [sym_kHat]; AGroup 23989 1 [sym_kString];
     SGroup 12458 1 [sym_typeref]; AGroup 23985 2 syms_52; AGroup 3 3 syms_1;
     SGroup 11123 4 syms_31]);
   (534203, 7, [AGroup 14871 1 [sym_kSpecialize]; AGroup 23983 1 [sym_kHat]; AGroup 23989 1 [sym_kString];
     SGroup 12706 1 [sym_typeref]; AGroup 23985 2 syms_52; AGroup 3 3 syms_1;
     SGroup 11123 4 syms_31]);
   (534231, 7, [AGroup 14871 1 [sym_kSpecialize]; AGroup 23983 1 [sym_kHat]; AGroup 23989 1 [sym_kString];
     SGroup 12763 1 [sym_typeref]; AGroup 23985 2 syms_52; AGroup 3 3 syms_1;
     SGroup 11123 4 syms_31]);
   (534259, 11, [AGroup 24034 1 [sym_kRead]; AGroup 24036 1 [sym_kWrite]; AGroup 24038 1 [sym_kImplements];
     AGroup 24040 1 [sym_kDefault]; AGroup 24044 1 [sym_kStored]; AGroup 24046 1 [sym_kIndex];
     AGroup 24048 1 [sym_kDispId]; AGroup 24880 1 [anon_sym_SEMI];
     AGroup 24882 1 [sym_kNodefault]; SGroup 10986 1 [aux_sym_declProp_repeat2];
     AGroup 3 3 syms_1]);
   (534295, 2, [AGroup 3 3 syms_1; AGroup 23949 10 syms_722]);
   (534313, 2, [AGroup 3 3 syms_1; AGroup 23957 10 syms_722]);
   (534331, 7, [AGroup 24472 1 [sym_kHat]; AGroup 24476 1 [sym_kSpecialize]; AGroup 24478 1 [sym_kString];
     SGroup 6979 1 [sym_typeref]; AGroup 24474 2 syms_52; AGroup 3 3 syms_1;
     SGroup 10276 4 syms_31]);
   (534359, 7, [AGroup 24472 1 [sym_kHat]; AGroup 24476 1 [sym_kSpecialize]; AGroup 24478 1 [sym_kString];
     SGroup 6642 1 [sym_typeref]; AGroup 24474 2 syms_52; AGroup 3 3 syms_1;
     SGroup 10276 4 syms_31]);
   (534387, 7, [AGroup 24614 1 [sym_kHat]; AGroup 24618 1 [sym_kSpecialize]; AGroup 24620 1 [sym_kString];
     SGroup 12471 1 [sym_typeref]; AGroup 24616 2 syms_52; AGroup 3 3 syms_1;
     SGroup 11432 4 syms_31]);
   (534415, 2, [AGroup 3 3 syms_1; AGroup 15596 10 syms_758]);
   (534433, 7, [AGroup 24472 1 [sym_kHat]; AGroup 24476 1 [sym_kSpecialize]; AGroup 24478 1 [sym_kString];
     SGroup 6776 1 [sym_typeref]; AGroup 24474 2 syms_52; AGroup 3 3 syms_1;
     SGroup 10276 4 syms_31]);
   (534461, 7, [AGroup 14871 1 [sym_kSpecialize]; AGroup 23983 1 [sym_kHat]; AGroup 23989 1 [sym_kString];
     SGroup 12828 1 [sym_typeref]; AGroup 23985 2 syms_52; AGroup 3 3 syms_1;
     SGroup 11123 4 syms_31]);
   (534489, 7, [AGroup 15605 1 [sym_kHat]; AGroup 24466 1 [sym_kString];
     SGroup 11135 1 [aux_sym_typerefArgs_repeat1]; SGroup 15632 1 [sym_typerefArgs];
     AGroup 24464 2 syms_52; AGroup 3 3 syms_1; SGroup 11929 4 syms_31]);
   (534517, 7, [AGroup 14871 1 [sym_kSpecialize]; AGroup 23983 1 [sym_kHat]; AGroup 23989 1 [sym_kString];
     SGroup 12707 1 [sym_typeref]; AGroup 23985 2 syms_52; AGroup 3 3 syms_1;
     SGroup 11123 4 syms_31]);
   (534545, 2, [AGroup 3 3 syms_1; AGroup 21751 10 syms_754]);
   (534563, 7, [AGroup 15605 1 [sym_kHat]; AGroup 24466 1 [sym_kString];
     SGroup 11135 1 [aux_sym_typerefArgs_repeat1]; SGroup 14556 1 [sym_typerefArgs];
     AGroup 24464 2 syms_52; AGroup 3 3 syms_1; SGroup 11929 4 syms_31]);
   (534591, 11, [AGroup 24034 1 [sym_kRead]; AGroup 24036 1 [sym_kWrite]; AGroup 24038 1 [sym_kImplements];
     AGroup 24040 1 [sym_kDefault]; AGroup 24044 1 [sym_kStored]; AGroup 24046 1 [sym_kIndex];
     AGroup 24048 1 [sym_kDispId]; AGroup 24884 1 [anon_sym_SEMI];
     AGroup 24886 1 [sym_kNodefault]; SGroup 10937 1 [aux_sym_declProp_repeat2];
     AGroup 3 3 syms_1]);
   (534627, 11, [AGroup 24034 1 [sym_kRead]; AGroup 24036 1 [sym_kWrite]; AGroup 24038 1 [sym_kImplements];
     AGroup 24040 1 [sym_kDefault]; AGroup 24044 1 [sym_kStored]; AGroup 24046 1 [sym_kIndex];
     AGroup 24048 1 [sym_kDispId]; AGroup 24888 1 [anon_sym_SEMI];
     AGroup 24890 1 [sym_kNodefault]; SGroup 10915 1 [aux_sym_declProp_repeat2];
     AGroup 3 3 syms_1]);
   (534663, 3, [AGroup 23877 2 syms_688; AGroup 3 3 syms_1; AGroup 21751 8 syms_731]);
   (534683, 7, [AGroup 24472 1 [sym_kHat]; AGroup 24476 1 [sym_kSpecialize]; AGroup 24478 1 [sym_kString];
     SGroup 6644 1 [sym_typeref]; AGroup 24474 2 syms_52; AGroup 3 3 syms_1;
     SGroup 10276 4 syms_31]);
   (534711, 7, [AGroup 14871 1 [sym_kSpecialize]; AGroup 23983 1 [sym_kHat]; AGroup 23989 1 [sym_kString];
     SGroup 12873 1 [sym_typeref]; AGroup 23985 2 syms_52; AGroup 3 3 syms_1;
     SGroup 11123 4 syms_31]);
   (534739, 7, [AGroup 14871 1 [sym_kSpecialize]; AGroup 23983 1 [sym_kHat]; AGroup 23989 1 [sym_kString];
     SGroup 12877 1 [sym_typeref]; AGroup 23985 2 syms_52; AGroup 3 3 syms_1;
     SGroup 11123 4 syms_31]);
   (534767, 11, [AGroup 24034 1 [sym_kRead]; AGroup 24036 1 [sym_kWrite]; AGroup 24038 1 [sym_kImplements];
     AGroup 24040 1 [sym_kDefault]; AGroup 24044 1 [sym_kStored]; AGroup 24046 1 [sym_kIndex];
     AGroup 24048 1 [sym_kDispId]; AGroup 24470 1 [sym_kNodefault];
     AGroup 24892 1 [anon_sym_SEMI]; SGroup 10997 1 [aux_sym_declProp_repeat2]; AGroup 3 3 syms_1]);
   (534803, 7, [AGroup 15605 1 [sym_kHat]; AGroup 24466 1 [sym_kString];
     SGroup 11135 1 [aux_sym_typerefArgs_repeat1]; SGroup 14477 1 [sym_typerefArgs];
     AGroup 24464 2 syms_52; AGroup 3 3 syms_1; SGroup 11929 4 syms_31]);
   (534831, 3, [AGroup 24896 1 [sym_kOf]; AGroup 3 3 syms_1; AGroup 24894 9 syms_20]);
   (534851, 11, [AGroup 24034 1 [sym_kRead]; AGroup 24036 1 [sym_kWrite]; AGroup 24038 1 [sym_kImplements];
     AGroup 24040 1 [sym_kDefault]; AGroup 24044 1 [sym_kStored]; AGroup 24046 1 [sym_kIndex];
     AGroup 24048 1 [sym_kDispId]; AGroup 24470 1 [sym_kNodefault];
     AGroup 24898 1 [anon_sym_SEMI]; SGroup 10997 1 [aux_sym_declProp_repeat2]; AGroup 3 3 syms_1]);
   (534887, 3, [AGroup 24902 1 [sym_kOf]; AGroup 3 3 syms_1; AGroup 24900 9 syms_20])
  ].

(** States 11059 to 11158. *)
Definition small_runs_11059 : list small_run :=
  [
   (534907, 7, [AGroup 24484 1 [sym_kHat]; AGroup 24488 1 [sym_kSpecialize]; AGroup 24490 1 [sym_kString];
     SGroup 12087 1 [sym_typeref]; AGroup 24486 2 syms_52; AGroup 3 3 syms_1;
     SGroup 11315 4 syms_31]);
   (534935, 7, [AGroup 24472 1 [sym_kHat]; AGroup 24476 1 [sym_kSpecialize]; AGroup 24478 1 [sym_kString];
     SGroup 6902 1 [sym_typeref]; AGroup 24474 2 syms_52; AGroup 3 3 syms_1;
     SGroup 10276 4 syms_31]);
   (534963, 7, [AGroup 14871 1 [sym_kSpecialize]; AGroup 23983 1 [sym_kHat]; AGroup 23989 1 [sym_kString];
     SGroup 12922 1 [sym_typeref]; AGroup 23985 2 syms_52; AGroup 3 3 syms_1;
     SGroup 11123 4 syms_31]);
   (534991, 7, [AGroup 15605 1 [sym_kHat]; AGroup 24466 1 [sym_kString];
     SGroup 11135 1 [aux_sym_typerefArgs_repeat1]; SGroup 14931 1 [sym_typerefArgs];
     AGroup 24464 2 syms_52; AGroup 3 3 syms_1; SGroup 11929 4 syms_31]);
   (535019, 7, [AGroup 24472 1 [sym_kHat]; AGroup 24476 1 [sym_kSpecialize]; AGroup 24478 1 [sym_kString];
     SGroup 6665 1 [sym_typeref]; AGroup 24474 2 syms_52; AGroup 3 3 syms_1;
     SGroup 10276 4 syms_31]);
   (535047, 7, [AGroup 24472 1 [sym_kHat]; AGroup 24476 1 [sym_kSpecialize]; AGroup 24478 1 [sym_kString];
     SGroup 6903 1 [sym_typeref]; AGroup 24474 2 syms_52; AGroup 3 3 syms_1;
     SGroup 10276 4 syms_31]);
   (535075, 11, [AGroup 24034 1 [sym_kRead]; AGroup 24036 1 [sym_kWrite]; AGroup 24038 1 [sym_kImplements];
     AGroup 24040 1 [sym_kDefault]; AGroup 24044 1 [sym_kStored]; AGroup 24046 1 [sym_kIndex];
     AGroup 24048 1 [sym_kDispId]; AGroup 24470 1 [sym_kNodefault];
     AGroup 24904 1 [anon_sym_SEMI]; SGroup 10997 1 [aux_sym_declProp_repeat2]; AGroup 3 3 syms_1]);
   (535111, 3, [AGroup 23899 1 [anon_sym_DOT]; AGroup 3 3 syms_1; AGroup 21887 9 syms_698]);
   (535131, 3, [SGroup 11263 1 [sym_kDot]; AGroup 3 3 syms_1; AGroup 21181 9 syms_755]);
   (535151, 7, [AGroup 24472 1 [sym_kHat]; AGroup 24476 1 [sym_kSpecialize]; AGroup 24478 1 [sym_kString];
     SGroup 6891 1 [sym_typeref]; AGroup 24474 2 syms_52; AGroup 3 3 syms_1;
     SGroup 10276 4 syms_31]);
   (535179, 2, [AGroup 3 3 syms_1; AGroup 24906 9 syms_20]);
   (535196, 11, [AGroup 5 1 [sym_ppDirective]; AGroup 20772 1 [anon_sym_DOT]; AGroup 24908 1 [anon_sym_SEMI];
     AGroup 24910 1 [anon_sym_COLON]; AGroup 24912 1 [anon_sym_LPAREN]; AGroup 24914 1 [sym_kLt];
     AGroup 24916 1 [sym_kEq]; SGroup 12054 1 [sym_kDot]; SGroup 12352 1 [sym_declArgs];
     SGroup 15152 1 [sym_defaultValue]; AGroup 3 2 syms_5]);
   (535231, 2, [AGroup 3 3 syms_1; AGroup 24918 9 syms_20]);
   (535248, 6, [AGroup 15605 1 [sym_kHat]; AGroup 24466 1 [sym_kString];
     SGroup 11075 1 [aux_sym_exprTpl_repeat1]; AGroup 24920 2 syms_52; AGroup 3 3 syms_1;
     SGroup 11879 4 syms_31]);
   (535273, 6, [AGroup 15605 1 [sym_kHat]; AGroup 24466 1 [sym_kString];
     SGroup 11075 1 [aux_sym_exprTpl_repeat1]; AGroup 24922 2 syms_52; AGroup 3 3 syms_1;
     SGroup 11796 4 syms_31]);
   (535298, 2, [AGroup 3 3 syms_1; AGroup 24924 9 syms_20]);
   (535315, 6, [AGroup 24926 1 [sym_kHat]; AGroup 24932 1 [sym_kString];
     SGroup 11075 1 [aux_sym_exprTpl_repeat1]; AGroup 24929 2 syms_52; AGroup 3 3 syms_1;
     SGroup 12275 4 syms_31]);
   (535340, 8, [AGroup 24935 1 [anon_sym_RPAREN]; AGroup 24937 1 [sym_identifier];
     AGroup 24941 1 [sym_kConst]; SGroup 11340 1 [aux_sym_declPropArgs_repeat1];
     SGroup 13833 1 [sym_declArg]; SGroup 14021 1 [aux_sym_genericArg_repeat1];
     AGroup 3 3 syms_1; AGroup 24939 3 syms_763]);
   (535369, 6, [AGroup 15605 1 [sym_kHat]; AGroup 24466 1 [sym_kString];
     SGroup 11075 1 [aux_sym_exprTpl_repeat1]; AGroup 24943 2 syms_52; AGroup 3 3 syms_1;
     SGroup 11843 4 syms_31]);
   (535394, 6, [AGroup 15605 1 [sym_kHat]; AGroup 24466 1 [sym_kString];
     SGroup 11075 1 [aux_sym_exprTpl_repeat1]; AGroup 24945 2 syms_52; AGroup 3 3 syms_1;
     SGroup 11803 4 syms_31]);
   (535419, 6, [AGroup 15605 1 [sym_kHat]; AGroup 24466 1 [sym_kString];
     SGroup 11075 1 [aux_sym_exprTpl_repeat1]; AGroup 24947 2 syms_52; AGroup 3 3 syms_1;
     SGroup 12034 4 syms_31]);
   (535444, 6, [AGroup 15605 1 [sym_kHat]; AGroup 24466 1 [sym_kString];
     SGroup 11075 1 [aux_sym_exprTpl_repeat1]; AGroup 24949 2 syms_52; AGroup 3 3 syms_1;
     SGroup 11790 4 syms_31]);
   (535469, 5, [AGroup 24951 1 [sym_identifier]; AGroup 24953 1 [sym_kClass]; AGroup 3 3 syms_1;
     SGroup 12289 3 syms_2; AGroup 24955 4 syms_3]);
   (535492, 6, [AGroup 15605 1 [sym_kHat]; AGroup 24466 1 [sym_kString];
     SGroup 11075 1 [aux_sym_exprTpl_repeat1]; AGroup 24957 2 syms_52; AGroup 3 3 syms_1;
     SGroup 11809 4 syms_31]);
   (535517, 6, [AGroup 15605 1 [sym_kHat]; AGroup 24466 1 [sym_kString];
     SGroup 11075 1 [aux_sym_exprTpl_repeat1]; AGroup 24959 2 syms_52; AGroup 3 3 syms_1;
     SGroup 11818 4 syms_31]);
   (535542, 11, [AGroup 5 1 [sym_ppDirective]; AGroup 20772 1 [anon_sym_DOT];
     AGroup 24912 1 [anon_sym_LPAREN]; AGroup 24914 1 [sym_kLt]; AGroup 24916 1 [sym_kEq];
     AGroup 24961 1 [anon_sym_SEMI]; AGroup 24963 1 [anon_sym_COLON]; SGroup 12054 1 [sym_kDot];
     SGroup 12454 1 [sym_declArgs]; SGroup 14258 1 [sym_defaultValue]; AGroup 3 2 syms_5]);
   (535577, 6, [AGroup 15605 1 [sym_kHat]; AGroup 24466 1 [sym_kString];
     SGroup 11075 1 [aux_sym_exprTpl_repeat1]; AGroup 24965 2 syms_52; AGroup 3 3 syms_1;
     SGroup 11816 4 syms_31]);
   (535602, 2, [AGroup 3 3 syms_1; AGroup 24967 9 syms_20]);
   (535619, 6, [AGroup 15605 1 [sym_kHat]; AGroup 24466 1 [sym_kString];
     SGroup 11075 1 [aux_sym_exprTpl_repeat1]; AGroup 24969 2 syms_52; AGroup 3 3 syms_1;
     SGroup 11827 4 syms_31]);
   (535644, 3, [AGroup 5 1 [sym_ppDirective]; AGroup 3 2 syms_5; AGroup 17326 9 syms_723]);
   (535663, 6, [AGroup 15605 1 [sym_kHat]; AGroup 24466 1 [sym_kString];
     SGroup 11075 1 [aux_sym_exprTpl_repeat1]; AGroup 24971 2 syms_52; AGroup 3 3 syms_1;
     SGroup 11731 4 syms_31]);
   (535688, 11, [AGroup 5 1 [sym_ppDirective]; AGroup 20772 1 [anon_sym_DOT];
     AGroup 24912 1 [anon_sym_LPAREN]; AGroup 24914 1 [sym_kLt]; AGroup 24916 1 [sym_kEq];
     AGroup 24973 1 [anon_sym_SEMI]; AGroup 24975 1 [anon_sym_COLON]; SGroup 12054 1 [sym_kDot];
     SGroup 12399 1 [sym_declArgs]; SGroup 15603 1 [sym_defaultValue]; AGroup 3 2 syms_5]);
   (535723, 2, [AGroup 3 3 syms_1; AGroup 24977 9 syms_20]);
   (535740, 6, [AGroup 15605 1 [sym_kHat]; AGroup 24466 1 [sym_kString];
     SGroup 11075 1 [aux_sym_exprTpl_repeat1]; AGroup 24979 2 syms_52; AGroup 3 3 syms_1;
     SGroup 11889 4 syms_31]);
   (535765, 5, [AGroup 24981 1 [sym_kOperator]; AGroup 24983 2 syms_65; AGroup 24987 2 syms_66;
     AGroup 3 3 syms_1; AGroup 24985 4 syms_3]);
   (535788, 2, [AGroup 3 3 syms_1; AGroup 9810 9 syms_20]);
   (535805, 2, [AGroup 3 3 syms_1; AGroup 24989 9 syms_20]);
   (535822, 6, [AGroup 21299 1 [anon_sym_DOT]; AGroup 24991 1 [sym_kLt]; AGroup 24993 1 [sym_kDeprecated];
     SGroup 11282 1 [sym_kDot]; AGroup 3 3 syms_1; AGroup 21297 5 syms_74]);
   (535847, 6, [AGroup 15605 1 [sym_kHat]; AGroup 24466 1 [sym_kString];
     SGroup 11075 1 [aux_sym_exprTpl_repeat1]; AGroup 24995 2 syms_52; AGroup 3 3 syms_1;
     SGroup 11685 4 syms_31]);
   (535872, 9, [AGroup 5 1 [sym_ppDirective]; AGroup 24318 1 [anon_sym_SEMI];
     AGroup 24997 1 [anon_sym_COMMA]; AGroup 25000 1 [aux_sym_ppUsesBlock_token1];
     AGroup 25003 1 [sym_identifier]; SGroup 11952 1 [sym_moduleName];
     SGroup 13456 1 [aux_sym_moduleName_repeat1]; AGroup 3 2 syms_5; SGroup 11098 3 syms_741]);
   (535903, 11, [AGroup 5 1 [sym_ppDirective]; AGroup 20772 1 [anon_sym_DOT];
     AGroup 24912 1 [anon_sym_LPAREN]; AGroup 24914 1 [sym_kLt]; AGroup 24916 1 [sym_kEq];
     AGroup 25006 1 [anon_sym_SEMI]; AGroup 25008 1 [anon_sym_COLON]; SGroup 12054 1 [sym_kDot];
     SGroup 12297 1 [sym_declArgs]; SGroup 15477 1 [sym_defaultValue]; AGroup 3 2 syms_5]);
   (535938, 2, [AGroup 3 3 syms_1; AGroup 15592 9 syms_764]);
   (535955, 11, [AGroup 5 1 [sym_ppDirective]; AGroup 20772 1 [anon_sym_DOT];
     AGroup 24912 1 [anon_sym_LPAREN]; AGroup 24914 1 [sym_kLt]; AGroup 24916 1 [sym_kEq];
     AGroup 25010 1 [anon_sym_SEMI]; AGroup 25012 1 [anon_sym_COLON]; SGroup 12054 1 [sym_kDot];
     SGroup 12260 1 [sym_declArgs]; SGroup 15294 1 [sym_defaultValue]; AGroup 3 2 syms_5]);
   (535990, 9, [AGroup 5 1 [sym_ppDirective]; AGroup 24496 1 [sym_identifier];
     AGroup 24522 1 [aux_sym_ppUsesBlock_token1]; AGroup 25014 1 [anon_sym_SEMI];
     AGroup 25016 1 [anon_sym_COMMA]; SGroup 11952 1 [sym_moduleName];
     SGroup 13456 1 [aux_sym_moduleName_repeat1]; AGroup 3 2 syms_5; SGroup 11098 3 syms_741]);
   (536021, 2, [AGroup 3 3 syms_1; AGroup 25018 9 syms_20]);
   (536038, 2, [AGroup 3 3 syms_1; AGroup 25020 9 syms_20]);
   (536055, 2, [AGroup 3 3 syms_1; AGroup 11318 9 syms_764]);
   (536072, 4, [AGroup 25022 2 syms_186; SGroup 11106 2 syms_187; AGroup 3 3 syms_1; AGroup 18701 5 syms_60]);
   (536093, 3, [AGroup 5 1 [sym_ppDirective]; AGroup 3 2 syms_5; AGroup 23925 9 syms_723]);
   (536112, 3, [AGroup 5 1 [sym_ppDirective]; AGroup 3 2 syms_5; AGroup 23949 9 syms_723]);
   (536131, 3, [AGroup 5 1 [sym_ppDirective]; AGroup 3 2 syms_5; AGroup 23957 9 syms_723]);
   (536150, 7, [AGroup 15 1 [sym_kOperator]; AGroup 25025 1 [sym_kGeneric]; AGroup 25027 1 [sym_kClass];
     SGroup 10402 1 [sym__declProc]; SGroup 10444 1 [sym__declOperator]; AGroup 3 3 syms_1;
     AGroup 25029 4 syms_3]);
   (536177, 8, [AGroup 24937 1 [sym_identifier]; AGroup 24941 1 [sym_kConst];
     AGroup 25031 1 [anon_sym_RPAREN]; SGroup 11246 1 [aux_sym_declPropArgs_repeat1];
     SGroup 13635 1 [sym_declArg]; SGroup 14021 1 [aux_sym_genericArg_repeat1];
     AGroup 3 3 syms_1; AGroup 24939 3 syms_763]);
   (536206, 9, [AGroup 5 1 [sym_ppDirective]; AGroup 24496 1 [sym_identifier];
     AGroup 24522 1 [aux_sym_ppUsesBlock_token1]; AGroup 25033 1 [anon_sym_SEMI];
     AGroup 25035 1 [anon_sym_COMMA]; SGroup 11952 1 [sym_moduleName];
     SGroup 13456 1 [aux_sym_moduleName_repeat1]; AGroup 3 2 syms_5; SGroup 11102 3 syms_741]);
   (536237, 2, [AGroup 3 3 syms_1; AGroup 15594 9 syms_764]);
   (536254, 4, [AGroup 25037 2 syms_186; SGroup 11106 2 syms_187; AGroup 3 3 syms_1; AGroup 18739 5 syms_60]);
   (536275, 11, [AGroup 5 1 [sym_ppDirective]; AGroup 20772 1 [anon_sym_DOT];
     AGroup 24912 1 [anon_sym_LPAREN]; AGroup 24914 1 [sym_kLt]; AGroup 24916 1 [sym_kEq];
     AGroup 25039 1 [anon_sym_SEMI]; AGroup 25041 1 [anon_sym_COLON]; SGroup 12054 1 [sym_kDot];
     SGroup 12329 1 [sym_declArgs]; SGroup 15566 1 [sym_defaultValue]; AGroup 3 2 syms_5]);
   (536310, 11, [AGroup 5 1 [sym_ppDirective]; AGroup 20772 1 [anon_sym_DOT];
     AGroup 24912 1 [anon_sym_LPAREN]; AGroup 24914 1 [sym_kLt]; AGroup 24916 1 [sym_kEq];
     AGroup 25043 1 [anon_sym_SEMI]; AGroup 25045 1 [anon_sym_COLON]; SGroup 12054 1 [sym_kDot];
     SGroup 12114 1 [sym_declArgs]; SGroup 14516 1 [sym_defaultValue]; AGroup 3 2 syms_5]);
   (536345, 2, [AGroup 3 3 syms_1; AGroup 25047 9 syms_20]);
   (536362, 3, [AGroup 5 1 [sym_ppDirective]; AGroup 3 2 syms_5; AGroup 23941 9 syms_723]);
   (536381, 5, [AGroup 5 1 [sym_ppDirective]; AGroup 20772 1 [anon_sym_DOT]; SGroup 14737 1 [sym_kDot];
     AGroup 3 2 syms_5; AGroup 25049 7 syms_765]);
   (536404, 6, [AGroup 15605 1 [sym_kHat]; AGroup 24466 1 [sym_kString];
     SGroup 11075 1 [aux_sym_exprTpl_repeat1]; AGroup 25051 2 syms_52; AGroup 3 3 syms_1;
     SGroup 11695 4 syms_31]);
   (536429, 11, [AGroup 5 1 [sym_ppDirective]; AGroup 20772 1 [anon_sym_DOT];
     AGroup 24912 1 [anon_sym_LPAREN]; AGroup 24914 1 [sym_kLt]; AGroup 24916 1 [sym_kEq];
     AGroup 25053 1 [anon_sym_SEMI]; AGroup 25055 1 [anon_sym_COLON]; SGroup 12054 1 [sym_kDot];
     SGroup 12057 1 [sym_declArgs]; SGroup 14292 1 [sym_defaultValue]; AGroup 3 2 syms_5]);
   (536464, 6, [AGroup 15605 1 [sym_kHat]; AGroup 24466 1 [sym_kString];
     SGroup 11075 1 [aux_sym_exprTpl_repeat1]; AGroup 25057 2 syms_52; AGroup 3 3 syms_1;
     SGroup 12010 4 syms_31]);
   (536489, 6, [AGroup 21299 1 [anon_sym_DOT]; AGroup 23961 1 [sym_kDeprecated]; AGroup 24508 1 [sym_kLt];
     SGroup 11349 1 [sym_kDot]; AGroup 3 3 syms_1; AGroup 21297 5 syms_75]);
   (536514, 11, [AGroup 5 1 [sym_ppDirective]; AGroup 20772 1 [anon_sym_DOT];
     AGroup 24912 1 [anon_sym_LPAREN]; AGroup 24914 1 [sym_kLt]; AGroup 24916 1 [sym_kEq];
     AGroup 25059 1 [anon_sym_SEMI]; AGroup 25061 1 [anon_sym_COLON]; SGroup 12054 1 [sym_kDot];
     SGroup 12252 1 [sym_declArgs]; SGroup 15238 1 [sym_defaultValue]; AGroup 3 2 syms_5]);
   (536549, 2, [AGroup 3 3 syms_1; AGroup 15596 9 syms_764]);
   (536566, 2, [AGroup 3 3 syms_1; AGroup 25063 9 syms_20]);
   (536583, 6, [AGroup 15605 1 [sym_kHat]; AGroup 24466 1 [sym_kString];
     SGroup 11075 1 [aux_sym_exprTpl_repeat1]; AGroup 25065 2 syms_52; AGroup 3 3 syms_1;
     SGroup 11704 4 syms_31]);
   (536608, 11, [AGroup 5 1 [sym_ppDirective]; AGroup 20772 1 [anon_sym_DOT];
     AGroup 24912 1 [anon_sym_LPAREN]; AGroup 24914 1 [sym_kLt]; AGroup 24916 1 [sym_kEq];
     AGroup 25067 1 [anon_sym_SEMI]; AGroup 25069 1 [anon_sym_COLON]; SGroup 12054 1 [sym_kDot];
     SGroup 12197 1 [sym_declArgs]; SGroup 15501 1 [sym_defaultValue]; AGroup 3 2 syms_5]);
   (536643, 6, [AGroup 15605 1 [sym_kHat]; AGroup 24466 1 [sym_kString];
     SGroup 11075 1 [aux_sym_exprTpl_repeat1]; AGroup 25071 2 syms_52; AGroup 3 3 syms_1;
     SGroup 11917 4 syms_31]);
   (536668, 2, [AGroup 3 3 syms_1; AGroup 25073 9 syms_20]);
   (536685, 8, [AGroup 24937 1 [sym_identifier]; AGroup 24941 1 [sym_kConst];
     AGroup 25075 1 [anon_sym_RPAREN]; SGroup 11336 1 [aux_sym_declPropArgs_repeat1];
     SGroup 13007 1 [sym_declArg]; SGroup 14021 1 [aux_sym_genericArg_repeat1];
     AGroup 3 3 syms_1; AGroup 24939 3 syms_763]);
   (536714, 6, [AGroup 15605 1 [sym_kHat]; AGroup 24466 1 [sym_kString];
     SGroup 11075 1 [aux_sym_exprTpl_repeat1]; AGroup 25077 2 syms_52; AGroup 3 3 syms_1;
     SGroup 11762 4 syms_31]);
   (536739, 2, [AGroup 3 3 syms_1; AGroup 25079 9 syms_20]);
   (536756, 6, [AGroup 15605 1 [sym_kHat]; AGroup 24466 1 [sym_kString];
     SGroup 11075 1 [aux_sym_exprTpl_repeat1]; AGroup 25081 2 syms_52; AGroup 3 3 syms_1;
     SGroup 11709 4 syms_31]);
   (536781, 6, [AGroup 15605 1 [sym_kHat]; AGroup 24466 1 [sym_kString];
     SGroup 11169 1 [aux_sym_typerefArgs_repeat1]; AGroup 25083 2 syms_52; AGroup 3 3 syms_1;
     SGroup 12000 4 syms_31]);
   (536806, 3, [AGroup 5 1 [sym_ppDirective]; AGroup 3 2 syms_5; AGroup 23931 9 syms_723]);
   (536825, 5, [AGroup 5 1 [sym_ppDirective]; AGroup 3 2 syms_5; AGroup 23935 2 syms_44;
     AGroup 25085 2 syms_9; AGroup 25087 5 syms_720]);
   (536848, 11, [AGroup 5 1 [sym_ppDirective]; AGroup 20772 1 [anon_sym_DOT];
     AGroup 24912 1 [anon_sym_LPAREN]; AGroup 24914 1 [sym_kLt]; AGroup 24916 1 [sym_kEq];
     AGroup 25089 1 [anon_sym_SEMI]; AGroup 25091 1 [anon_sym_COLON]; SGroup 12054 1 [sym_kDot];
     SGroup 12066 1 [sym_declArgs]; SGroup 15261 1 [sym_defaultValue]; AGroup 3 2 syms_5]);
   (536883, 8, [AGroup 24937 1 [sym_identifier]; AGroup 24941 1 [sym_kConst];
     AGroup 25093 1 [anon_sym_RPAREN]; SGroup 11256 1 [aux_sym_declPropArgs_repeat1];
     SGroup 13582 1 [sym_declArg]; SGroup 14021 1 [aux_sym_genericArg_repeat1];
     AGroup 3 3 syms_1; AGroup 24939 3 syms_763]);
   (536912, 4, [AGroup 5 1 [sym_ppDirective]; AGroup 3 2 syms_5; AGroup 23931 4 syms_766;
     AGroup 25087 5 syms_720]);
   (536933, 2, [AGroup 3 3 syms_1; AGroup 25095 9 syms_20]);
   (536950, 11, [AGroup 5 1 [sym_ppDirective]; AGroup 20772 1 [anon_sym_DOT];
     AGroup 24912 1 [anon_sym_LPAREN]; AGroup 24914 1 [sym_kLt]; AGroup 24916 1 [sym_kEq];
     AGroup 25097 1 [anon_sym_SEMI]; AGroup 25099 1 [anon_sym_COLON]; SGroup 12054 1 [sym_kDot];
     SGroup 12449 1 [sym_declArgs]; SGroup 15223 1 [sym_defaultValue]; AGroup 3 2 syms_5]);
   (536985, 11, [AGroup 5 1 [sym_ppDirective]; AGroup 20772 1 [anon_sym_DOT];
     AGroup 24912 1 [anon_sym_LPAREN]; AGroup 24914 1 [sym_kLt]; AGroup 24916 1 [sym_kEq];
     AGroup 25101 1 [anon_sym_SEMI]; AGroup 25103 1 [anon_sym_COLON]; SGroup 12054 1 [sym_kDot];
     SGroup 12362 1 [sym_declArgs]; SGroup 15559 1 [sym_defaultValue]; AGroup 3 2 syms_5]);
   (537020, 6, [AGroup 15605 1 [sym_kHat]; AGroup 24466 1 [sym_kString];
     SGroup 11075 1 [aux_sym_exprTpl_repeat1]; AGroup 25105 2 syms_52; AGroup 3 3 syms_1;
     SGroup 11714 4 syms_31]);
   (537045, 7, [AGroup 24118 1 [sym_kGeneric]; AGroup 24120 1 [sym_kOperator]; AGroup 24122 1 [sym_kClass];
     SGroup 13295 1 [sym__declProc]; SGroup 13302 1 [sym__declOperator]; AGroup 3 3 syms_1;
     AGroup 24124 4 syms_3]);
   (537072, 3, [AGroup 23877 1 [anon_sym_SEMI]; AGroup 3 3 syms_1; AGroup 21751 8 syms_731]);
   (537091, 11, [AGroup 5 1 [sym_ppDirective]; AGroup 20772 1 [anon_sym_DOT];
     AGroup 24912 1 [anon_sym_LPAREN]; AGroup 24914 1 [sym_kLt]; AGroup 24916 1 [sym_kEq];
     AGroup 25107 1 [anon_sym_SEMI]; AGroup 25109 1 [anon_sym_COLON]; SGroup 12054 1 [sym_kDot];
     SGroup 12386 1 [sym_declArgs]; SGroup 15652 1 [sym_defaultValue]; AGroup 3 2 syms_5]);
   (537126, 6, [AGroup 15605 1 [sym_kHat]; AGroup 24466 1 [sym_kString];
     SGroup 11075 1 [aux_sym_exprTpl_repeat1]; AGroup 25111 2 syms_52; AGroup 3 3 syms_1;
     SGroup 11719 4 syms_31]);
   (537151, 6, [AGroup 15605 1 [sym_kHat]; AGroup 24466 1 [sym_kString];
     SGroup 11075 1 [aux_sym_exprTpl_repeat1]; AGroup 25113 2 syms_52; AGroup 3 3 syms_1;
     SGroup 11846 4 syms_31]);
   (537176, 3, [AGroup 5 1 [sym_ppDirective]; AGroup 3 2 syms_5; AGroup 16465 9 syms_767]);
   (537195, 6, [AGroup 15605 1 [sym_kHat]; AGroup 24466 1 [sym_kString];
     SGroup 11075 1 [aux_sym_exprTpl_repeat1]; AGroup 25115 2 syms_52; AGroup 3 3 syms_1;
     SGroup 11954 4 syms_31]);
   (537220, 3, [SGroup 11282 1 [sym_kDot]; AGroup 3 3 syms_1; AGroup 21269 8 syms_768]);
   (537239, 2, [AGroup 3 3 syms_1; AGroup 25117 9 syms_20]);
   (537256, 2, [AGroup 3 3 syms_1; AGroup 25119 9 syms_20]);
   (537273, 2, [AGroup 3 3 syms_1; AGroup 25121 9 syms_20]);
   (537290, 6, [AGroup 15605 1 [sym_kHat]; AGroup 24466 1 [sym_kString];
     SGroup 11075 1 [aux_sym_exprTpl_repeat1]; AGroup 25123 2 syms_52; AGroup 3 3 syms_1;
     SGroup 12043 4 syms_31]);
   (537315, 6, [AGroup 15605 1 [sym_kHat]; AGroup 24466 1 [sym_kString];
     SGroup 11075 1 [aux_sym_exprTpl_repeat1]; AGroup 25125 2 syms_52; AGroup 3 3 syms_1;
     SGroup 11724 4 syms_31]);
   (537340, 8, [AGroup 24937 1 [sym_identifier]; AGroup 24941 1 [sym_kConst];
     AGroup 25127 1 [anon_sym_RPAREN]; SGroup 11300 1 [aux_sym_declPropArgs_repeat1];
     SGroup 13184 1 [sym_declArg]; SGroup 14021 1 [aux_sym_genericArg_repeat1];
     AGroup 3 3 syms_1; AGroup 24939 3 syms_763])
  ].

(** States 11159 to 11258. *)
Definition small_runs_11159 : list small_run :=
  [
   (537369, 6, [AGroup 15605 1 [sym_kHat]; AGroup 24466 1 [sym_kString];
     SGroup 11075 1 [aux_sym_exprTpl_repeat1]; AGroup 25129 2 syms_52; AGroup 3 3 syms_1;
     SGroup 11950 4 syms_31]);
   (537394, 2, [AGroup 3 3 syms_1; AGroup 25131 9 syms_20]);
   (537411, 8, [AGroup 24937 1 [sym_identifier]; AGroup 24941 1 [sym_kConst];
     AGroup 25133 1 [anon_sym_RPAREN]; SGroup 11320 1 [aux_sym_declPropArgs_repeat1];
     SGroup 13575 1 [sym_declArg]; SGroup 14021 1 [aux_sym_genericArg_repeat1];
     AGroup 3 3 syms_1; AGroup 24939 3 syms_763]);
   (537440, 2, [AGroup 3 3 syms_1; AGroup 25135 9 syms_20]);
   (537457, 4, [AGroup 25137 1 [anon_sym_LBRACK]; SGroup 11163 1 [aux_sym_rttiAttributes_repeat2];
     AGroup 3 3 syms_1; AGroup 11318 7 syms_769]);
   (537478, 6, [AGroup 15605 1 [sym_kHat]; AGroup 24466 1 [sym_kString];
     SGroup 11075 1 [aux_sym_exprTpl_repeat1]; AGroup 25140 2 syms_52; AGroup 3 3 syms_1;
     SGroup 11730 4 syms_31]);
   (537503, 2, [AGroup 3 3 syms_1; AGroup 21887 9 syms_755]);
   (537520, 2, [AGroup 3 3 syms_1; AGroup 25142 9 syms_20]);
   (537537, 6, [AGroup 15605 1 [sym_kHat]; AGroup 24466 1 [sym_kString];
     SGroup 11075 1 [aux_sym_exprTpl_repeat1]; AGroup 25144 2 syms_52; AGroup 3 3 syms_1;
     SGroup 11903 4 syms_31]);
   (537562, 6, [AGroup 15605 1 [sym_kHat]; AGroup 24466 1 [sym_kString];
     SGroup 11075 1 [aux_sym_exprTpl_repeat1]; AGroup 25146 2 syms_52; AGroup 3 3 syms_1;
     SGroup 11706 4 syms_31]);
   (537587, 6, [AGroup 25148 1 [sym_kHat]; AGroup 25154 1 [sym_kString];
     SGroup 11169 1 [aux_sym_typerefArgs_repeat1]; AGroup 25151 2 syms_52; AGroup 3 3 syms_1;
     SGroup 12117 4 syms_31]);
   (537612, 2, [AGroup 3 3 syms_1; AGroup 25157 9 syms_20]);
   (537629, 6, [AGroup 15605 1 [sym_kHat]; AGroup 24466 1 [sym_kString];
     SGroup 11075 1 [aux_sym_exprTpl_repeat1]; AGroup 25159 2 syms_52; AGroup 3 3 syms_1;
     SGroup 11700 4 syms_31]);
   (537654, 6, [AGroup 15605 1 [sym_kHat]; AGroup 24466 1 [sym_kString];
     SGroup 11075 1 [aux_sym_exprTpl_repeat1]; AGroup 25161 2 syms_52; AGroup 3 3 syms_1;
     SGroup 11735 4 syms_31]);
   (537679, 8, [AGroup 24937 1 [sym_identifier]; AGroup 24941 1 [sym_kConst];
     AGroup 25163 1 [anon_sym_RBRACK]; SGroup 11324 1 [aux_sym_declPropArgs_repeat1];
     SGroup 13941 1 [sym_declArg]; SGroup 14021 1 [aux_sym_genericArg_repeat1];
     AGroup 3 3 syms_1; AGroup 24939 3 syms_763]);
   (537708, 6, [AGroup 15605 1 [sym_kHat]; AGroup 24466 1 [sym_kString];
     SGroup 11075 1 [aux_sym_exprTpl_repeat1]; AGroup 25165 2 syms_52; AGroup 3 3 syms_1;
     SGroup 11793 4 syms_31]);
   (537733, 6, [AGroup 21299 1 [anon_sym_DOT]; AGroup 24991 1 [sym_kLt]; AGroup 25167 1 [sym_kDeprecated];
     SGroup 11282 1 [sym_kDot]; AGroup 3 3 syms_1; AGroup 21307 5 syms_74]);
   (537758, 6, [AGroup 15605 1 [sym_kHat]; AGroup 24466 1 [sym_kString];
     SGroup 11075 1 [aux_sym_exprTpl_repeat1]; AGroup 25169 2 syms_52; AGroup 3 3 syms_1;
     SGroup 11984 4 syms_31]);
   (537783, 4, [AGroup 25037 2 syms_186; SGroup 11106 2 syms_187; AGroup 3 3 syms_1; AGroup 18722 5 syms_60]);
   (537804, 11, [AGroup 5 1 [sym_ppDirective]; AGroup 20772 1 [anon_sym_DOT];
     AGroup 24912 1 [anon_sym_LPAREN]; AGroup 24914 1 [sym_kLt]; AGroup 24916 1 [sym_kEq];
     AGroup 25171 1 [anon_sym_SEMI]; AGroup 25173 1 [anon_sym_COLON]; SGroup 12054 1 [sym_kDot];
     SGroup 12184 1 [sym_declArgs]; SGroup 14853 1 [sym_defaultValue]; AGroup 3 2 syms_5]);
   (537839, 6, [AGroup 21299 1 [anon_sym_DOT]; AGroup 24508 1 [sym_kLt]; AGroup 25175 1 [sym_kDeprecated];
     SGroup 11349 1 [sym_kDot]; AGroup 3 3 syms_1; AGroup 21307 5 syms_75]);
   (537864, 6, [AGroup 15605 1 [sym_kHat]; AGroup 24466 1 [sym_kString];
     SGroup 11075 1 [aux_sym_exprTpl_repeat1]; AGroup 25177 2 syms_52; AGroup 3 3 syms_1;
     SGroup 11740 4 syms_31]);
   (537889, 5, [AGroup 24981 1 [sym_kOperator]; AGroup 25179 2 syms_65; AGroup 25181 2 syms_66;
     AGroup 3 3 syms_1; AGroup 24985 4 syms_3]);
   (537912, 5, [AGroup 25185 1 [sym_kArray]; AGroup 25189 1 [sym_kRecord]; AGroup 25187 2 syms_770;
     AGroup 3 3 syms_1; AGroup 25183 5 syms_771]);
   (537935, 6, [AGroup 15605 1 [sym_kHat]; AGroup 24466 1 [sym_kString];
     SGroup 11075 1 [aux_sym_exprTpl_repeat1]; AGroup 25191 2 syms_52; AGroup 3 3 syms_1;
     SGroup 11973 4 syms_31]);
   (537960, 11, [AGroup 5 1 [sym_ppDirective]; AGroup 20772 1 [anon_sym_DOT];
     AGroup 24912 1 [anon_sym_LPAREN]; AGroup 24914 1 [sym_kLt]; AGroup 24916 1 [sym_kEq];
     AGroup 25193 1 [anon_sym_SEMI]; AGroup 25195 1 [anon_sym_COLON]; SGroup 12054 1 [sym_kDot];
     SGroup 12335 1 [sym_declArgs]; SGroup 15600 1 [sym_defaultValue]; AGroup 3 2 syms_5]);
   (537995, 6, [AGroup 15605 1 [sym_kHat]; AGroup 24466 1 [sym_kString];
     SGroup 11075 1 [aux_sym_exprTpl_repeat1]; AGroup 25197 2 syms_52; AGroup 3 3 syms_1;
     SGroup 11744 4 syms_31]);
   (538020, 3, [AGroup 3 3 syms_1; AGroup 24240 4 syms_654; AGroup 24242 5 syms_313]);
   (538039, 6, [AGroup 15605 1 [sym_kHat]; AGroup 24466 1 [sym_kString];
     SGroup 11075 1 [aux_sym_exprTpl_repeat1]; AGroup 25199 2 syms_52; AGroup 3 3 syms_1;
     SGroup 11689 4 syms_31]);
   (538064, 6, [AGroup 15605 1 [sym_kHat]; AGroup 24466 1 [sym_kString];
     SGroup 11075 1 [aux_sym_exprTpl_repeat1]; AGroup 25201 2 syms_52; AGroup 3 3 syms_1;
     SGroup 11749 4 syms_31]);
   (538089, 11, [AGroup 5 1 [sym_ppDirective]; AGroup 20772 1 [anon_sym_DOT];
     AGroup 24912 1 [anon_sym_LPAREN]; AGroup 24914 1 [sym_kLt]; AGroup 24916 1 [sym_kEq];
     AGroup 25203 1 [anon_sym_SEMI]; AGroup 25205 1 [anon_sym_COLON]; SGroup 12054 1 [sym_kDot];
     SGroup 12190 1 [sym_declArgs]; SGroup 14892 1 [sym_defaultValue]; AGroup 3 2 syms_5]);
   (538124, 8, [AGroup 24937 1 [sym_identifier]; AGroup 24941 1 [sym_kConst];
     AGroup 25207 1 [anon_sym_RPAREN]; SGroup 11277 1 [aux_sym_declPropArgs_repeat1];
     SGroup 13376 1 [sym_declArg]; SGroup 14021 1 [aux_sym_genericArg_repeat1];
     AGroup 3 3 syms_1; AGroup 24939 3 syms_763]);
   (538153, 6, [AGroup 15605 1 [sym_kHat]; AGroup 24466 1 [sym_kString];
     SGroup 11075 1 [aux_sym_exprTpl_repeat1]; AGroup 25209 2 syms_52; AGroup 3 3 syms_1;
     SGroup 11861 4 syms_31]);
   (538178, 11, [AGroup 5 1 [sym_ppDirective]; AGroup 20772 1 [anon_sym_DOT];
     AGroup 24912 1 [anon_sym_LPAREN]; AGroup 24914 1 [sym_kLt]; AGroup 24916 1 [sym_kEq];
     AGroup 25211 1 [anon_sym_SEMI]; AGroup 25213 1 [anon_sym_COLON]; SGroup 12054 1 [sym_kDot];
     SGroup 12365 1 [sym_declArgs]; SGroup 15707 1 [sym_defaultValue]; AGroup 3 2 syms_5]);
   (538213, 6, [AGroup 15605 1 [sym_kHat]; AGroup 24466 1 [sym_kString];
     SGroup 11075 1 [aux_sym_exprTpl_repeat1]; AGroup 25215 2 syms_52; AGroup 3 3 syms_1;
     SGroup 11752 4 syms_31]);
   (538238, 6, [AGroup 15605 1 [sym_kHat]; AGroup 24466 1 [sym_kString];
     SGroup 11075 1 [aux_sym_exprTpl_repeat1]; AGroup 25217 2 syms_52; AGroup 3 3 syms_1;
     SGroup 12005 4 syms_31]);
   (538263, 5, [AGroup 25219 1 [sym_identifier]; AGroup 25221 1 [sym_kClass]; AGroup 3 3 syms_1;
     SGroup 12287 3 syms_2; AGroup 24824 4 syms_3]);
   (538286, 6, [AGroup 15605 1 [sym_kHat]; AGroup 24466 1 [sym_kString];
     SGroup 11075 1 [aux_sym_exprTpl_repeat1]; AGroup 25223 2 syms_52; AGroup 3 3 syms_1;
     SGroup 11759 4 syms_31]);
   (538311, 3, [SGroup 11282 1 [sym_kDot]; AGroup 3 3 syms_1; AGroup 21181 8 syms_768]);
   (538330, 6, [AGroup 15605 1 [sym_kHat]; AGroup 24466 1 [sym_kString];
     SGroup 11075 1 [aux_sym_exprTpl_repeat1]; AGroup 25225 2 syms_52; AGroup 3 3 syms_1;
     SGroup 11864 4 syms_31]);
   (538355, 11, [AGroup 5 1 [sym_ppDirective]; AGroup 20772 1 [anon_sym_DOT];
     AGroup 24912 1 [anon_sym_LPAREN]; AGroup 24914 1 [sym_kLt]; AGroup 24916 1 [sym_kEq];
     AGroup 25227 1 [anon_sym_SEMI]; AGroup 25229 1 [anon_sym_COLON]; SGroup 12054 1 [sym_kDot];
     SGroup 12085 1 [sym_declArgs]; SGroup 14124 1 [sym_defaultValue]; AGroup 3 2 syms_5]);
   (538390, 6, [AGroup 15605 1 [sym_kHat]; AGroup 24466 1 [sym_kString];
     SGroup 11075 1 [aux_sym_exprTpl_repeat1]; AGroup 25231 2 syms_52; AGroup 3 3 syms_1;
     SGroup 11701 4 syms_31]);
   (538415, 11, [AGroup 5 1 [sym_ppDirective]; AGroup 20772 1 [anon_sym_DOT];
     AGroup 24912 1 [anon_sym_LPAREN]; AGroup 24914 1 [sym_kLt]; AGroup 24916 1 [sym_kEq];
     AGroup 25233 1 [anon_sym_SEMI]; AGroup 25235 1 [anon_sym_COLON]; SGroup 12054 1 [sym_kDot];
     SGroup 12250 1 [sym_declArgs]; SGroup 15217 1 [sym_defaultValue]; AGroup 3 2 syms_5]);
   (538450, 6, [AGroup 15605 1 [sym_kHat]; AGroup 24466 1 [sym_kString];
     SGroup 11075 1 [aux_sym_exprTpl_repeat1]; AGroup 25237 2 syms_52; AGroup 3 3 syms_1;
     SGroup 11765 4 syms_31]);
   (538475, 2, [AGroup 3 3 syms_1; AGroup 25239 9 syms_20]);
   (538492, 2, [AGroup 3 3 syms_1; AGroup 25241 9 syms_20]);
   (538509, 11, [AGroup 5 1 [sym_ppDirective]; AGroup 20772 1 [anon_sym_DOT];
     AGroup 24912 1 [anon_sym_LPAREN]; AGroup 24914 1 [sym_kLt]; AGroup 24916 1 [sym_kEq];
     AGroup 25243 1 [anon_sym_SEMI]; AGroup 25245 1 [anon_sym_COLON]; SGroup 12054 1 [sym_kDot];
     SGroup 12443 1 [sym_declArgs]; SGroup 14247 1 [sym_defaultValue]; AGroup 3 2 syms_5]);
   (538544, 2, [AGroup 3 3 syms_1; AGroup 25247 9 syms_20]);
   (538561, 2, [AGroup 3 3 syms_1; AGroup 25249 9 syms_20]);
   (538578, 3, [AGroup 5 1 [sym_ppDirective]; AGroup 3 2 syms_5; AGroup 23927 9 syms_723]);
   (538597, 6, [AGroup 15605 1 [sym_kHat]; AGroup 24466 1 [sym_kString];
     SGroup 11075 1 [aux_sym_exprTpl_repeat1]; AGroup 25251 2 syms_52; AGroup 3 3 syms_1;
     SGroup 11771 4 syms_31]);
   (538622, 2, [AGroup 3 3 syms_1; AGroup 15590 9 syms_764]);
   (538639, 2, [AGroup 3 3 syms_1; AGroup 25253 9 syms_20]);
   (538656, 11, [AGroup 5 1 [sym_ppDirective]; AGroup 20772 1 [anon_sym_DOT];
     AGroup 24912 1 [anon_sym_LPAREN]; AGroup 24914 1 [sym_kLt]; AGroup 24916 1 [sym_kEq];
     AGroup 25255 1 [anon_sym_SEMI]; AGroup 25257 1 [anon_sym_COLON]; SGroup 12054 1 [sym_kDot];
     SGroup 12084 1 [sym_declArgs]; SGroup 14414 1 [sym_defaultValue]; AGroup 3 2 syms_5]);
   (538691, 2, [AGroup 3 3 syms_1; AGroup 25259 9 syms_20]);
   (538708, 2, [AGroup 3 3 syms_1; AGroup 24108 9 syms_20]);
   (538725, 6, [AGroup 15605 1 [sym_kHat]; AGroup 24466 1 [sym_kString];
     SGroup 11075 1 [aux_sym_exprTpl_repeat1]; AGroup 25261 2 syms_52; AGroup 3 3 syms_1;
     SGroup 11768 4 syms_31]);
   (538750, 4, [AGroup 9 1 [anon_sym_LBRACK]; SGroup 11163 1 [aux_sym_rttiAttributes_repeat2];
     AGroup 3 3 syms_1; AGroup 15477 7 syms_769]);
   (538771, 6, [AGroup 15605 1 [sym_kHat]; AGroup 24466 1 [sym_kString];
     SGroup 11075 1 [aux_sym_exprTpl_repeat1]; AGroup 25263 2 syms_52; AGroup 3 3 syms_1;
     SGroup 11777 4 syms_31]);
   (538796, 2, [AGroup 3 3 syms_1; AGroup 25265 9 syms_20]);
   (538813, 2, [AGroup 3 3 syms_1; AGroup 25267 9 syms_20]);
   (538830, 2, [AGroup 3 3 syms_1; AGroup 25269 9 syms_20]);
   (538847, 6, [AGroup 15605 1 [sym_kHat]; AGroup 24466 1 [sym_kString];
     SGroup 11075 1 [aux_sym_exprTpl_repeat1]; AGroup 25271 2 syms_52; AGroup 3 3 syms_1;
     SGroup 12014 4 syms_31]);
   (538872, 6, [AGroup 15605 1 [sym_kHat]; AGroup 24466 1 [sym_kString];
     SGroup 11075 1 [aux_sym_exprTpl_repeat1]; AGroup 25273 2 syms_52; AGroup 3 3 syms_1;
     SGroup 11961 4 syms_31]);
   (538897, 3, [AGroup 3 3 syms_1; AGroup 24240 4 syms_647; AGroup 24242 5 syms_313]);
   (538916, 2, [AGroup 3 3 syms_1; AGroup 25275 9 syms_20]);
   (538933, 5, [AGroup 24981 1 [sym_kOperator]; AGroup 25277 2 syms_65; AGroup 25279 2 syms_66;
     AGroup 3 3 syms_1; AGroup 24985 4 syms_3]);
   (538956, 11, [AGroup 5 1 [sym_ppDirective]; AGroup 20772 1 [anon_sym_DOT];
     AGroup 24912 1 [anon_sym_LPAREN]; AGroup 24914 1 [sym_kLt]; AGroup 24916 1 [sym_kEq];
     AGroup 25281 1 [anon_sym_SEMI]; AGroup 25283 1 [anon_sym_COLON]; SGroup 12054 1 [sym_kDot];
     SGroup 12127 1 [sym_declArgs]; SGroup 15976 1 [sym_defaultValue]; AGroup 3 2 syms_5]);
   (538991, 6, [AGroup 15605 1 [sym_kHat]; AGroup 24466 1 [sym_kString];
     SGroup 11075 1 [aux_sym_exprTpl_repeat1]; AGroup 25285 2 syms_52; AGroup 3 3 syms_1;
     SGroup 11784 4 syms_31]);
   (539016, 2, [AGroup 3 3 syms_1; AGroup 21751 9 syms_755]);
   (539033, 11, [AGroup 5 1 [sym_ppDirective]; AGroup 20772 1 [anon_sym_DOT];
     AGroup 24912 1 [anon_sym_LPAREN]; AGroup 24914 1 [sym_kLt]; AGroup 24916 1 [sym_kEq];
     AGroup 25287 1 [anon_sym_SEMI]; AGroup 25289 1 [anon_sym_COLON]; SGroup 12054 1 [sym_kDot];
     SGroup 12206 1 [sym_declArgs]; SGroup 14970 1 [sym_defaultValue]; AGroup 3 2 syms_5]);
   (539068, 2, [AGroup 3 3 syms_1; AGroup 25291 9 syms_20]);
   (539085, 5, [AGroup 5 1 [sym_ppDirective]; AGroup 20772 1 [anon_sym_DOT]; SGroup 14737 1 [sym_kDot];
     AGroup 3 2 syms_5; AGroup 25293 7 syms_765]);
   (539108, 5, [AGroup 24981 1 [sym_kOperator]; AGroup 25295 2 syms_65; AGroup 25297 2 syms_66;
     AGroup 3 3 syms_1; AGroup 24985 4 syms_3]);
   (539131, 5, [AGroup 14863 1 [sym_kHat]; AGroup 25301 1 [sym_kString]; AGroup 25299 2 syms_52;
     AGroup 3 3 syms_1; SGroup 10487 4 syms_31]);
   (539153, 5, [AGroup 16659 1 [sym_kHat]; AGroup 25305 1 [sym_kString]; AGroup 25303 2 syms_52;
     AGroup 3 3 syms_1; SGroup 10370 4 syms_31]);
   (539175, 9, [AGroup 25307 1 [anon_sym_SEMI]; AGroup 25309 1 [anon_sym_RPAREN];
     AGroup 25311 1 [sym_identifier]; AGroup 25313 1 [sym_kCase];
     SGroup 12097 1 [aux_sym_declVariantClause_repeat1]; SGroup 13124 1 [sym_declVariant];
     SGroup 13125 1 [sym_declVariantField]; SGroup 13128 1 [aux_sym_genericArg_repeat1];
     AGroup 3 3 syms_1]);
   (539205, 2, [AGroup 3 3 syms_1; AGroup 10953 8 syms_772]);
   (539221, 4, [AGroup 81 1 [sym_kStrict]; SGroup 13627 1 [sym__visibility]; AGroup 3 3 syms_1;
     AGroup 77 6 syms_70]);
   (539241, 7, [AGroup 5 1 [sym_ppDirective]; AGroup 25315 1 [anon_sym_COLON];
     AGroup 25317 1 [anon_sym_LPAREN]; AGroup 25319 1 [sym_kOf]; SGroup 11570 1 [sym_declArgs];
     AGroup 3 2 syms_5; AGroup 24090 4 syms_90]);
   (539267, 5, [AGroup 14863 1 [sym_kHat]; AGroup 25301 1 [sym_kString]; AGroup 25321 2 syms_52;
     AGroup 3 3 syms_1; SGroup 10501 4 syms_31]);
   (539289, 5, [AGroup 24614 1 [sym_kHat]; AGroup 24620 1 [sym_kString]; AGroup 25323 2 syms_52;
     AGroup 3 3 syms_1; SGroup 11435 4 syms_31]);
   (539311, 6, [AGroup 5 1 [sym_ppDirective]; AGroup 25327 1 [anon_sym_LPAREN]; AGroup 25329 1 [sym_kLt];
     SGroup 12285 1 [sym_kDot]; AGroup 3 2 syms_5; AGroup 25325 5 syms_773]);
   (539335, 5, [AGroup 23983 1 [sym_kHat]; AGroup 23989 1 [sym_kString]; AGroup 25331 2 syms_52;
     AGroup 3 3 syms_1; SGroup 11179 4 syms_31]);
   (539357, 5, [AGroup 23983 1 [sym_kHat]; AGroup 23989 1 [sym_kString]; AGroup 25333 2 syms_52;
     AGroup 3 3 syms_1; SGroup 10760 4 syms_31]);
   (539379, 4, [AGroup 25335 1 [anon_sym_DOT_DOT]; AGroup 25337 2 syms_9; AGroup 3 3 syms_1;
     AGroup 25339 5 syms_720]);
   (539399, 2, [AGroup 3 3 syms_1; AGroup 15594 8 syms_772]);
   (539415, 7, [AGroup 24937 1 [sym_identifier]; AGroup 24941 1 [sym_kConst];
     SGroup 11266 1 [aux_sym_declPropArgs_repeat1]; SGroup 13902 1 [sym_declArg];
     SGroup 14021 1 [aux_sym_genericArg_repeat1]; AGroup 3 3 syms_1; AGroup 24939 3 syms_763]);
   (539441, 5, [AGroup 24472 1 [sym_kHat]; AGroup 24478 1 [sym_kString]; AGroup 25341 2 syms_52;
     AGroup 3 3 syms_1; SGroup 10287 4 syms_31]);
   (539463, 5, [AGroup 24300 1 [sym_kHat]; AGroup 25345 1 [sym_kString]; AGroup 25343 2 syms_52;
     AGroup 3 3 syms_1; SGroup 10724 4 syms_31]);
   (539485, 5, [AGroup 24370 1 [sym_kHat]; AGroup 25349 1 [sym_kString]; AGroup 25347 2 syms_52;
     AGroup 3 3 syms_1; SGroup 10628 4 syms_31]);
   (539507, 5, [AGroup 24484 1 [sym_kHat]; AGroup 24490 1 [sym_kString]; AGroup 25351 2 syms_52;
     AGroup 3 3 syms_1; SGroup 11341 4 syms_31]);
   (539529, 7, [AGroup 5 1 [sym_ppDirective]; AGroup 25329 1 [sym_kLt]; AGroup 25355 1 [anon_sym_LPAREN];
     AGroup 25357 1 [anon_sym_DOT]; SGroup 9318 1 [sym_kDot]; AGroup 3 2 syms_5;
     AGroup 25353 4 syms_774]);
   (539555, 5, [AGroup 24772 1 [sym_kHat]; AGroup 24776 1 [sym_kString]; AGroup 25359 2 syms_52;
     AGroup 3 3 syms_1; SGroup 11585 4 syms_31]);
   (539577, 5, [AGroup 24370 1 [sym_kHat]; AGroup 25349 1 [sym_kString]; AGroup 25361 2 syms_52;
     AGroup 3 3 syms_1; SGroup 10610 4 syms_31]);
   (539599, 5, [AGroup 24500 1 [sym_kHat]; AGroup 24506 1 [sym_kString]; AGroup 25363 2 syms_52;
     AGroup 3 3 syms_1; SGroup 10553 4 syms_31]);
   (539621, 5, [AGroup 24346 1 [sym_kHat]; AGroup 25367 1 [sym_kString]; AGroup 25365 2 syms_52;
     AGroup 3 3 syms_1; SGroup 10693 4 syms_31]);
   (539643, 7, [AGroup 24937 1 [sym_identifier]; AGroup 24941 1 [sym_kConst];
     SGroup 11266 1 [aux_sym_declPropArgs_repeat1]; SGroup 13617 1 [sym_declArg];
     SGroup 14021 1 [aux_sym_genericArg_repeat1]; AGroup 3 3 syms_1; AGroup 24939 3 syms_763]);
   (539669, 5, [AGroup 24362 1 [sym_kHat]; AGroup 25371 1 [sym_kString]; AGroup 25369 2 syms_52;
     AGroup 3 3 syms_1; SGroup 10533 4 syms_31]);
   (539691, 2, [AGroup 3 3 syms_1; AGroup 11318 8 syms_772])
  ].

(** States 11259 to 11358. *)
Definition small_runs_11259 : list small_run :=
  [
   (539707, 5, [AGroup 21733 1 [sym_kHat]; AGroup 21739 1 [sym_kString]; AGroup 25373 2 syms_52;
     AGroup 3 3 syms_1; SGroup 10720 4 syms_31]);
   (539729, 5, [AGroup 24310 1 [sym_kHat]; AGroup 25377 1 [sym_kString]; AGroup 25375 2 syms_52;
     AGroup 3 3 syms_1; SGroup 10595 4 syms_31]);
   (539751, 5, [AGroup 24456 1 [sym_kHat]; AGroup 25381 1 [sym_kString]; AGroup 25379 2 syms_52;
     AGroup 3 3 syms_1; SGroup 10515 4 syms_31]);
   (539773, 5, [AGroup 15301 1 [sym_kHat]; AGroup 25385 1 [sym_kString]; AGroup 25383 2 syms_52;
     AGroup 3 3 syms_1; SGroup 10550 4 syms_31]);
   (539795, 5, [AGroup 24574 1 [sym_kHat]; AGroup 24580 1 [sym_kString]; AGroup 25387 2 syms_52;
     AGroup 3 3 syms_1; SGroup 10741 4 syms_31]);
   (539817, 5, [AGroup 24772 1 [sym_kHat]; AGroup 24776 1 [sym_kString]; AGroup 25389 2 syms_52;
     AGroup 3 3 syms_1; SGroup 11627 4 syms_31]);
   (539839, 5, [AGroup 24500 1 [sym_kHat]; AGroup 24506 1 [sym_kString]; AGroup 25391 2 syms_52;
     AGroup 3 3 syms_1; SGroup 10561 4 syms_31]);
   (539861, 7, [AGroup 25393 1 [sym_identifier]; AGroup 25399 1 [sym_kConst];
     SGroup 11266 1 [aux_sym_declPropArgs_repeat1]; SGroup 14021 1 [aux_sym_genericArg_repeat1];
     SGroup 15049 1 [sym_declArg]; AGroup 3 3 syms_1; AGroup 25396 3 syms_763]);
   (539887, 5, [AGroup 21733 1 [sym_kHat]; AGroup 21739 1 [sym_kString]; AGroup 25402 2 syms_52;
     AGroup 3 3 syms_1; SGroup 10727 4 syms_31]);
   (539909, 5, [AGroup 24772 1 [sym_kHat]; AGroup 24776 1 [sym_kString]; AGroup 25404 2 syms_52;
     AGroup 3 3 syms_1; SGroup 11667 4 syms_31]);
   (539931, 5, [AGroup 24524 1 [sym_kHat]; AGroup 24528 1 [sym_kString]; AGroup 25406 2 syms_52;
     AGroup 3 3 syms_1; SGroup 10635 4 syms_31]);
   (539953, 5, [AGroup 21625 1 [sym_kHat]; AGroup 21631 1 [sym_kString]; AGroup 25408 2 syms_52;
     AGroup 3 3 syms_1; SGroup 10557 4 syms_31]);
   (539975, 3, [AGroup 3 3 syms_1; AGroup 24240 3 syms_678; AGroup 24242 5 syms_313]);
   (539993, 4, [AGroup 25410 1 [anon_sym_DOT_DOT]; AGroup 25337 2 syms_9; AGroup 3 3 syms_1;
     AGroup 25339 5 syms_720]);
   (540013, 5, [AGroup 24500 1 [sym_kHat]; AGroup 24506 1 [sym_kString]; AGroup 25412 2 syms_52;
     AGroup 3 3 syms_1; SGroup 10544 4 syms_31]);
   (540035, 5, [AGroup 24432 1 [sym_kHat]; AGroup 25416 1 [sym_kString]; AGroup 25414 2 syms_52;
     AGroup 3 3 syms_1; SGroup 10568 4 syms_31]);
   (540057, 5, [AGroup 24574 1 [sym_kHat]; AGroup 24580 1 [sym_kString]; AGroup 25418 2 syms_52;
     AGroup 3 3 syms_1; SGroup 10969 4 syms_31]);
   (540079, 7, [AGroup 5 1 [sym_ppDirective]; AGroup 25317 1 [anon_sym_LPAREN];
     AGroup 25420 1 [anon_sym_COLON]; AGroup 25422 1 [sym_kOf]; SGroup 11603 1 [sym_declArgs];
     AGroup 3 2 syms_5; AGroup 24108 4 syms_90]);
   (540105, 7, [AGroup 24937 1 [sym_identifier]; AGroup 24941 1 [sym_kConst];
     SGroup 11266 1 [aux_sym_declPropArgs_repeat1]; SGroup 13428 1 [sym_declArg];
     SGroup 14021 1 [aux_sym_genericArg_repeat1]; AGroup 3 3 syms_1; AGroup 24939 3 syms_763]);
   (540131, 5, [AGroup 24524 1 [sym_kHat]; AGroup 24528 1 [sym_kString]; AGroup 25424 2 syms_52;
     AGroup 3 3 syms_1; SGroup 10625 4 syms_31]);
   (540153, 5, [AGroup 24346 1 [sym_kHat]; AGroup 25367 1 [sym_kString]; AGroup 25426 2 syms_52;
     AGroup 3 3 syms_1; SGroup 10717 4 syms_31]);
   (540175, 5, [AGroup 24338 1 [sym_kHat]; AGroup 25430 1 [sym_kString]; AGroup 25428 2 syms_52;
     AGroup 3 3 syms_1; SGroup 10629 4 syms_31]);
   (540197, 5, [AGroup 24338 1 [sym_kHat]; AGroup 25430 1 [sym_kString]; AGroup 25432 2 syms_52;
     AGroup 3 3 syms_1; SGroup 10626 4 syms_31]);
   (540219, 5, [AGroup 24540 1 [sym_kHat]; AGroup 24548 1 [sym_kString]; AGroup 25434 2 syms_52;
     AGroup 3 3 syms_1; SGroup 11152 4 syms_31]);
   (540241, 5, [AGroup 21625 1 [sym_kHat]; AGroup 21631 1 [sym_kString]; AGroup 25436 2 syms_52;
     AGroup 3 3 syms_1; SGroup 10556 4 syms_31]);
   (540263, 5, [AGroup 24346 1 [sym_kHat]; AGroup 25367 1 [sym_kString]; AGroup 25438 2 syms_52;
     AGroup 3 3 syms_1; SGroup 10686 4 syms_31]);
   (540285, 5, [AGroup 24524 1 [sym_kHat]; AGroup 24528 1 [sym_kString]; AGroup 25440 2 syms_52;
     AGroup 3 3 syms_1; SGroup 11375 4 syms_31]);
   (540307, 5, [AGroup 24864 1 [sym_kHat]; AGroup 24868 1 [sym_kString]; AGroup 25442 2 syms_52;
     AGroup 3 3 syms_1; SGroup 10575 4 syms_31]);
   (540329, 5, [AGroup 24622 1 [sym_kHat]; AGroup 24628 1 [sym_kString]; AGroup 25444 2 syms_52;
     AGroup 3 3 syms_1; SGroup 8294 4 syms_31]);
   (540351, 5, [AGroup 16659 1 [sym_kHat]; AGroup 25305 1 [sym_kString]; AGroup 25446 2 syms_52;
     AGroup 3 3 syms_1; SGroup 10388 4 syms_31]);
   (540373, 5, [AGroup 24472 1 [sym_kHat]; AGroup 24478 1 [sym_kString]; AGroup 25448 2 syms_52;
     AGroup 3 3 syms_1; SGroup 10329 4 syms_31]);
   (540395, 5, [AGroup 24666 1 [sym_kHat]; AGroup 24672 1 [sym_kString]; AGroup 25450 2 syms_52;
     AGroup 3 3 syms_1; SGroup 11817 4 syms_31]);
   (540417, 5, [AGroup 15359 1 [sym_kHat]; AGroup 25454 1 [sym_kString]; AGroup 25452 2 syms_52;
     AGroup 3 3 syms_1; SGroup 10362 4 syms_31]);
   (540439, 5, [AGroup 24524 1 [sym_kHat]; AGroup 24528 1 [sym_kString]; AGroup 25456 2 syms_52;
     AGroup 3 3 syms_1; SGroup 10619 4 syms_31]);
   (540461, 5, [AGroup 21671 1 [sym_kHat]; AGroup 21677 1 [sym_kString]; AGroup 25458 2 syms_52;
     AGroup 3 3 syms_1; SGroup 10606 4 syms_31]);
   (540483, 5, [AGroup 24666 1 [sym_kHat]; AGroup 24672 1 [sym_kString]; AGroup 25460 2 syms_52;
     AGroup 3 3 syms_1; SGroup 12006 4 syms_31]);
   (540505, 5, [AGroup 24300 1 [sym_kHat]; AGroup 25345 1 [sym_kString]; AGroup 25462 2 syms_52;
     AGroup 3 3 syms_1; SGroup 10662 4 syms_31]);
   (540527, 5, [AGroup 24432 1 [sym_kHat]; AGroup 25416 1 [sym_kString]; AGroup 25464 2 syms_52;
     AGroup 3 3 syms_1; SGroup 10594 4 syms_31]);
   (540549, 4, [AGroup 25466 1 [anon_sym_DOT_DOT]; AGroup 25337 2 syms_9; AGroup 3 3 syms_1;
     AGroup 25339 5 syms_720]);
   (540569, 3, [SGroup 11250 1 [sym_kDot]; AGroup 3 3 syms_1; AGroup 21181 7 syms_775]);
   (540587, 5, [AGroup 24300 1 [sym_kHat]; AGroup 25345 1 [sym_kString]; AGroup 25468 2 syms_52;
     AGroup 3 3 syms_1; SGroup 10661 4 syms_31]);
   (540609, 7, [AGroup 24937 1 [sym_identifier]; AGroup 24941 1 [sym_kConst];
     SGroup 11266 1 [aux_sym_declPropArgs_repeat1]; SGroup 13451 1 [sym_declArg];
     SGroup 14021 1 [aux_sym_genericArg_repeat1]; AGroup 3 3 syms_1; AGroup 24939 3 syms_763]);
   (540635, 5, [AGroup 24338 1 [sym_kHat]; AGroup 25430 1 [sym_kString]; AGroup 25470 2 syms_52;
     AGroup 3 3 syms_1; SGroup 10634 4 syms_31]);
   (540657, 5, [AGroup 23983 1 [sym_kHat]; AGroup 23989 1 [sym_kString]; AGroup 25472 2 syms_52;
     AGroup 3 3 syms_1; SGroup 11683 4 syms_31]);
   (540679, 5, [AGroup 24456 1 [sym_kHat]; AGroup 25381 1 [sym_kString]; AGroup 25474 2 syms_52;
     AGroup 3 3 syms_1; SGroup 10509 4 syms_31]);
   (540701, 5, [AGroup 21645 1 [sym_kHat]; AGroup 21651 1 [sym_kString]; AGroup 25476 2 syms_52;
     AGroup 3 3 syms_1; SGroup 10586 4 syms_31]);
   (540723, 9, [AGroup 25311 1 [sym_identifier]; AGroup 25313 1 [sym_kCase]; AGroup 25478 1 [anon_sym_SEMI];
     AGroup 25480 1 [anon_sym_RPAREN]; SGroup 12273 1 [aux_sym_declVariantClause_repeat1];
     SGroup 13128 1 [aux_sym_genericArg_repeat1]; SGroup 13489 1 [sym_declVariant];
     SGroup 13522 1 [sym_declVariantField]; AGroup 3 3 syms_1]);
   (540753, 5, [AGroup 23983 1 [sym_kHat]; AGroup 23989 1 [sym_kString]; AGroup 25482 2 syms_52;
     AGroup 3 3 syms_1; SGroup 10530 4 syms_31]);
   (540775, 4, [AGroup 25484 1 [anon_sym_SEMI]; AGroup 24977 2 syms_701; AGroup 3 3 syms_1;
     AGroup 24242 5 syms_313]);
   (540795, 5, [AGroup 21695 1 [sym_kHat]; AGroup 21701 1 [sym_kString]; AGroup 25487 2 syms_52;
     AGroup 3 3 syms_1; SGroup 10463 4 syms_31]);
   (540817, 5, [AGroup 15605 1 [sym_kHat]; AGroup 24466 1 [sym_kString]; AGroup 25489 2 syms_52;
     AGroup 3 3 syms_1; SGroup 11736 4 syms_31]);
   (540839, 5, [AGroup 24292 1 [sym_kHat]; AGroup 25493 1 [sym_kString]; AGroup 25491 2 syms_52;
     AGroup 3 3 syms_1; SGroup 10612 4 syms_31]);
   (540861, 5, [AGroup 24614 1 [sym_kHat]; AGroup 24620 1 [sym_kString]; AGroup 25495 2 syms_52;
     AGroup 3 3 syms_1; SGroup 11542 4 syms_31]);
   (540883, 5, [AGroup 21695 1 [sym_kHat]; AGroup 21701 1 [sym_kString]; AGroup 25497 2 syms_52;
     AGroup 3 3 syms_1; SGroup 10434 4 syms_31]);
   (540905, 4, [AGroup 25499 1 [anon_sym_DOT_DOT]; AGroup 25337 2 syms_9; AGroup 3 3 syms_1;
     AGroup 25339 5 syms_720]);
   (540925, 5, [AGroup 24540 1 [sym_kHat]; AGroup 24548 1 [sym_kString]; AGroup 25501 2 syms_52;
     AGroup 3 3 syms_1; SGroup 11175 4 syms_31]);
   (540947, 6, [AGroup 21299 1 [anon_sym_DOT]; AGroup 25503 1 [sym_kLt]; AGroup 25505 1 [sym_kDeprecated];
     SGroup 11250 1 [sym_kDot]; AGroup 3 3 syms_1; AGroup 21297 4 syms_89]);
   (540971, 2, [AGroup 3 3 syms_1; AGroup 15592 8 syms_772]);
   (540987, 3, [AGroup 3 3 syms_1; AGroup 23931 3 syms_776; AGroup 25339 5 syms_720]);
   (541005, 5, [AGroup 24456 1 [sym_kHat]; AGroup 25381 1 [sym_kString]; AGroup 25507 2 syms_52;
     AGroup 3 3 syms_1; SGroup 10492 4 syms_31]);
   (541027, 5, [AGroup 15407 1 [sym_kHat]; AGroup 25511 1 [sym_kString]; AGroup 25509 2 syms_52;
     AGroup 3 3 syms_1; SGroup 10536 4 syms_31]);
   (541049, 7, [AGroup 24937 1 [sym_identifier]; AGroup 24941 1 [sym_kConst];
     SGroup 11266 1 [aux_sym_declPropArgs_repeat1]; SGroup 13112 1 [sym_declArg];
     SGroup 14021 1 [aux_sym_genericArg_repeat1]; AGroup 3 3 syms_1; AGroup 24939 3 syms_763]);
   (541075, 5, [AGroup 24574 1 [sym_kHat]; AGroup 24580 1 [sym_kString]; AGroup 25513 2 syms_52;
     AGroup 3 3 syms_1; SGroup 11067 4 syms_31]);
   (541097, 5, [AGroup 21671 1 [sym_kHat]; AGroup 21677 1 [sym_kString]; AGroup 25515 2 syms_52;
     AGroup 3 3 syms_1; SGroup 10603 4 syms_31]);
   (541119, 5, [AGroup 24362 1 [sym_kHat]; AGroup 25371 1 [sym_kString]; AGroup 25517 2 syms_52;
     AGroup 3 3 syms_1; SGroup 10524 4 syms_31]);
   (541141, 7, [AGroup 24937 1 [sym_identifier]; AGroup 24941 1 [sym_kConst];
     SGroup 11266 1 [aux_sym_declPropArgs_repeat1]; SGroup 13386 1 [sym_declArg];
     SGroup 14021 1 [aux_sym_genericArg_repeat1]; AGroup 3 3 syms_1; AGroup 24939 3 syms_763]);
   (541167, 5, [AGroup 15359 1 [sym_kHat]; AGroup 25454 1 [sym_kString]; AGroup 25519 2 syms_52;
     AGroup 3 3 syms_1; SGroup 10357 4 syms_31]);
   (541189, 5, [AGroup 24540 1 [sym_kHat]; AGroup 24548 1 [sym_kString]; AGroup 25521 2 syms_52;
     AGroup 3 3 syms_1; SGroup 11197 4 syms_31]);
   (541211, 5, [AGroup 24292 1 [sym_kHat]; AGroup 25493 1 [sym_kString]; AGroup 25523 2 syms_52;
     AGroup 3 3 syms_1; SGroup 10631 4 syms_31]);
   (541233, 5, [AGroup 24388 1 [sym_kHat]; AGroup 25527 1 [sym_kString]; AGroup 25525 2 syms_52;
     AGroup 3 3 syms_1; SGroup 10685 4 syms_31]);
   (541255, 3, [AGroup 3 3 syms_1; AGroup 24240 3 syms_679; AGroup 24242 5 syms_313]);
   (541273, 5, [AGroup 24622 1 [sym_kHat]; AGroup 24628 1 [sym_kString]; AGroup 25529 2 syms_52;
     AGroup 3 3 syms_1; SGroup 8276 4 syms_31]);
   (541295, 5, [AGroup 24864 1 [sym_kHat]; AGroup 24868 1 [sym_kString]; AGroup 25531 2 syms_52;
     AGroup 3 3 syms_1; SGroup 10563 4 syms_31]);
   (541317, 5, [AGroup 21645 1 [sym_kHat]; AGroup 21651 1 [sym_kString]; AGroup 25533 2 syms_52;
     AGroup 3 3 syms_1; SGroup 10572 4 syms_31]);
   (541339, 2, [AGroup 3 3 syms_1; AGroup 21887 8 syms_768]);
   (541355, 5, [AGroup 24362 1 [sym_kHat]; AGroup 25371 1 [sym_kString]; AGroup 25535 2 syms_52;
     AGroup 3 3 syms_1; SGroup 10522 4 syms_31]);
   (541377, 5, [AGroup 24666 1 [sym_kHat]; AGroup 24672 1 [sym_kString]; AGroup 25537 2 syms_52;
     AGroup 3 3 syms_1; SGroup 11711 4 syms_31]);
   (541399, 7, [AGroup 24937 1 [sym_identifier]; AGroup 24941 1 [sym_kConst];
     SGroup 11266 1 [aux_sym_declPropArgs_repeat1]; SGroup 13086 1 [sym_declArg];
     SGroup 14021 1 [aux_sym_genericArg_repeat1]; AGroup 3 3 syms_1; AGroup 24939 3 syms_763]);
   (541425, 2, [AGroup 3 3 syms_1; AGroup 15590 8 syms_772]);
   (541441, 5, [AGroup 24370 1 [sym_kHat]; AGroup 25349 1 [sym_kString]; AGroup 25539 2 syms_52;
     AGroup 3 3 syms_1; SGroup 10611 4 syms_31]);
   (541463, 5, [AGroup 24614 1 [sym_kHat]; AGroup 24620 1 [sym_kString]; AGroup 25541 2 syms_52;
     AGroup 3 3 syms_1; SGroup 11458 4 syms_31]);
   (541485, 7, [AGroup 24937 1 [sym_identifier]; AGroup 24941 1 [sym_kConst];
     SGroup 11266 1 [aux_sym_declPropArgs_repeat1]; SGroup 13341 1 [sym_declArg];
     SGroup 14021 1 [aux_sym_genericArg_repeat1]; AGroup 3 3 syms_1; AGroup 24939 3 syms_763]);
   (541511, 3, [SGroup 11250 1 [sym_kDot]; AGroup 3 3 syms_1; AGroup 21269 7 syms_775]);
   (541529, 5, [AGroup 24484 1 [sym_kHat]; AGroup 24490 1 [sym_kString]; AGroup 25543 2 syms_52;
     AGroup 3 3 syms_1; SGroup 11357 4 syms_31]);
   (541551, 5, [AGroup 15605 1 [sym_kHat]; AGroup 24466 1 [sym_kString]; AGroup 25545 2 syms_52;
     AGroup 3 3 syms_1; SGroup 11910 4 syms_31]);
   (541573, 5, [AGroup 24864 1 [sym_kHat]; AGroup 24868 1 [sym_kString]; AGroup 25547 2 syms_52;
     AGroup 3 3 syms_1; SGroup 10569 4 syms_31]);
   (541595, 5, [AGroup 24310 1 [sym_kHat]; AGroup 25377 1 [sym_kString]; AGroup 25549 2 syms_52;
     AGroup 3 3 syms_1; SGroup 10583 4 syms_31]);
   (541617, 2, [AGroup 3 3 syms_1; AGroup 21751 8 syms_768]);
   (541633, 5, [AGroup 24484 1 [sym_kHat]; AGroup 24490 1 [sym_kString]; AGroup 25551 2 syms_52;
     AGroup 3 3 syms_1; SGroup 11298 4 syms_31]);
   (541655, 5, [AGroup 24292 1 [sym_kHat]; AGroup 25493 1 [sym_kString]; AGroup 25553 2 syms_52;
     AGroup 3 3 syms_1; SGroup 10653 4 syms_31]);
   (541677, 5, [AGroup 23983 1 [sym_kHat]; AGroup 23989 1 [sym_kString]; AGroup 25555 2 syms_52;
     AGroup 3 3 syms_1; SGroup 10526 4 syms_31]);
   (541699, 5, [AGroup 24432 1 [sym_kHat]; AGroup 25416 1 [sym_kString]; AGroup 25557 2 syms_52;
     AGroup 3 3 syms_1; SGroup 10566 4 syms_31]);
   (541721, 2, [AGroup 3 3 syms_1; AGroup 15596 8 syms_772]);
   (541737, 5, [AGroup 15301 1 [sym_kHat]; AGroup 25385 1 [sym_kString]; AGroup 25559 2 syms_52;
     AGroup 3 3 syms_1; SGroup 10546 4 syms_31]);
   (541759, 5, [AGroup 24472 1 [sym_kHat]; AGroup 24478 1 [sym_kString]; AGroup 25561 2 syms_52;
     AGroup 3 3 syms_1; SGroup 10291 4 syms_31]);
   (541781, 5, [AGroup 24622 1 [sym_kHat]; AGroup 24628 1 [sym_kString]; AGroup 25563 2 syms_52;
     AGroup 3 3 syms_1; SGroup 8182 4 syms_31]);
   (541803, 5, [AGroup 24388 1 [sym_kHat]; AGroup 25527 1 [sym_kString]; AGroup 25565 2 syms_52;
     AGroup 3 3 syms_1; SGroup 10700 4 syms_31]);
   (541825, 3, [AGroup 3 3 syms_1; AGroup 24240 3 syms_675; AGroup 24242 5 syms_313]);
   (541843, 6, [AGroup 21299 1 [anon_sym_DOT]; AGroup 25503 1 [sym_kLt]; AGroup 25567 1 [sym_kDeprecated];
     SGroup 11250 1 [sym_kDot]; AGroup 3 3 syms_1; AGroup 21307 4 syms_89]);
   (541867, 7, [AGroup 20772 1 [anon_sym_DOT]; AGroup 25571 1 [sym_kLt];
     SGroup 11899 1 [aux_sym_declExport_repeat1]; SGroup 12284 1 [sym_kDot];
     AGroup 25569 2 syms_668; AGroup 25573 2 syms_78; AGroup 3 3 syms_1])
  ].

(** States 11359 to 11458. *)
Definition small_runs_11359 : list small_run :=
  [
   (541893, 5, [AGroup 24388 1 [sym_kHat]; AGroup 25527 1 [sym_kString]; AGroup 25575 2 syms_52;
     AGroup 3 3 syms_1; SGroup 10709 4 syms_31]);
   (541915, 5, [AGroup 15407 1 [sym_kHat]; AGroup 25511 1 [sym_kString]; AGroup 25577 2 syms_52;
     AGroup 3 3 syms_1; SGroup 10523 4 syms_31]);
   (541937, 5, [AGroup 24310 1 [sym_kHat]; AGroup 25377 1 [sym_kString]; AGroup 25579 2 syms_52;
     AGroup 3 3 syms_1; SGroup 10581 4 syms_31]);
   (541959, 2, [AGroup 3 3 syms_1; AGroup 24240 7 syms_481]);
   (541974, 5, [AGroup 25583 1 [sym_kEnd]; SGroup 11663 1 [aux_sym_asmBody_repeat1];
     SGroup 15021 1 [sym_asmBody]; AGroup 3 3 syms_1; AGroup 25581 4 syms_777]);
   (541995, 5, [AGroup 25585 1 [sym_kEnd]; SGroup 11663 1 [aux_sym_asmBody_repeat1];
     SGroup 14355 1 [sym_asmBody]; AGroup 3 3 syms_1; AGroup 25581 4 syms_777]);
   (542016, 5, [AGroup 25587 1 [sym_kEnd]; SGroup 11663 1 [aux_sym_asmBody_repeat1];
     SGroup 15467 1 [sym_asmBody]; AGroup 3 3 syms_1; AGroup 25581 4 syms_777]);
   (542037, 3, [AGroup 25589 1 [anon_sym_SEMI]; AGroup 3 3 syms_1; AGroup 25591 6 syms_45]);
   (542054, 9, [AGroup 5 1 [sym_ppDirective]; AGroup 24916 1 [sym_kEq]; AGroup 25593 1 [anon_sym_SEMI];
     AGroup 25595 1 [anon_sym_COLON]; AGroup 25597 1 [anon_sym_LPAREN];
     AGroup 25599 1 [sym_identifier]; SGroup 11955 1 [sym_declArgs];
     SGroup 14844 1 [sym_defaultValue]; AGroup 3 2 syms_5]);
   (542083, 5, [AGroup 25601 1 [sym_kEnd]; SGroup 11663 1 [aux_sym_asmBody_repeat1];
     SGroup 14457 1 [sym_asmBody]; AGroup 3 3 syms_1; AGroup 25581 4 syms_777]);
   (542104, 5, [AGroup 25603 1 [sym_kEnd]; SGroup 11663 1 [aux_sym_asmBody_repeat1];
     SGroup 14896 1 [sym_asmBody]; AGroup 3 3 syms_1; AGroup 25581 4 syms_777]);
   (542125, 5, [AGroup 24220 1 [anon_sym_POUND]; SGroup 11578 1 [sym_literalString]; AGroup 25605 2 syms_6;
     AGroup 3 3 syms_1; SGroup 10643 3 syms_13]);
   (542146, 3, [AGroup 25607 1 [anon_sym_SEMI]; AGroup 3 3 syms_1; AGroup 25609 6 syms_45]);
   (542163, 6, [AGroup 21299 1 [anon_sym_DOT]; AGroup 23999 1 [sym_kDeprecated]; AGroup 24186 1 [sym_kLt];
     SGroup 11278 1 [sym_kDot]; AGroup 3 3 syms_1; AGroup 21297 3 syms_117]);
   (542186, 5, [AGroup 25611 1 [sym_kEnd]; SGroup 11663 1 [aux_sym_asmBody_repeat1];
     SGroup 14329 1 [sym_asmBody]; AGroup 3 3 syms_1; AGroup 25581 4 syms_777]);
   (542207, 5, [AGroup 25613 1 [sym_kEnd]; SGroup 11663 1 [aux_sym_asmBody_repeat1];
     SGroup 14468 1 [sym_asmBody]; AGroup 3 3 syms_1; AGroup 25581 4 syms_777]);
   (542228, 6, [AGroup 21299 1 [anon_sym_DOT]; AGroup 24186 1 [sym_kLt]; AGroup 25615 1 [sym_kDeprecated];
     SGroup 11278 1 [sym_kDot]; AGroup 3 3 syms_1; AGroup 21307 3 syms_117]);
   (542251, 4, [AGroup 25617 1 [anon_sym_COLON]; AGroup 25619 1 [anon_sym_COMMA]; AGroup 3 3 syms_1;
     AGroup 25621 5 syms_313]);
   (542270, 5, [AGroup 25623 1 [sym_kEnd]; SGroup 11663 1 [aux_sym_asmBody_repeat1];
     SGroup 15189 1 [sym_asmBody]; AGroup 3 3 syms_1; AGroup 25581 4 syms_777]);
   (542291, 5, [AGroup 25625 1 [sym_kEnd]; SGroup 11663 1 [aux_sym_asmBody_repeat1];
     SGroup 15372 1 [sym_asmBody]; AGroup 3 3 syms_1; AGroup 25581 4 syms_777]);
   (542312, 5, [AGroup 25627 1 [sym_kEnd]; SGroup 11663 1 [aux_sym_asmBody_repeat1];
     SGroup 14149 1 [sym_asmBody]; AGroup 3 3 syms_1; AGroup 25581 4 syms_777]);
   (542333, 5, [AGroup 25629 1 [sym_kEnd]; SGroup 11663 1 [aux_sym_asmBody_repeat1];
     SGroup 14229 1 [sym_asmBody]; AGroup 3 3 syms_1; AGroup 25581 4 syms_777]);
   (542354, 5, [AGroup 25631 1 [sym_kEnd]; SGroup 11663 1 [aux_sym_asmBody_repeat1];
     SGroup 14798 1 [sym_asmBody]; AGroup 3 3 syms_1; AGroup 25581 4 syms_777]);
   (542375, 5, [AGroup 25633 1 [sym_kEnd]; SGroup 11663 1 [aux_sym_asmBody_repeat1];
     SGroup 14878 1 [sym_asmBody]; AGroup 3 3 syms_1; AGroup 25581 4 syms_777]);
   (542396, 5, [AGroup 25635 1 [sym_kEnd]; SGroup 11663 1 [aux_sym_asmBody_repeat1];
     SGroup 15142 1 [sym_asmBody]; AGroup 3 3 syms_1; AGroup 25581 4 syms_777]);
   (542417, 5, [AGroup 25637 1 [sym_kEnd]; SGroup 11663 1 [aux_sym_asmBody_repeat1];
     SGroup 15208 1 [sym_asmBody]; AGroup 3 3 syms_1; AGroup 25581 4 syms_777]);
   (542438, 5, [AGroup 25639 1 [sym_kEnd]; SGroup 11663 1 [aux_sym_asmBody_repeat1];
     SGroup 15310 1 [sym_asmBody]; AGroup 3 3 syms_1; AGroup 25581 4 syms_777]);
   (542459, 5, [AGroup 25641 1 [sym_kEnd]; SGroup 11663 1 [aux_sym_asmBody_repeat1];
     SGroup 15514 1 [sym_asmBody]; AGroup 3 3 syms_1; AGroup 25581 4 syms_777]);
   (542480, 5, [AGroup 25643 1 [sym_kEnd]; SGroup 11663 1 [aux_sym_asmBody_repeat1];
     SGroup 15556 1 [sym_asmBody]; AGroup 3 3 syms_1; AGroup 25581 4 syms_777]);
   (542501, 2, [AGroup 3 3 syms_1; AGroup 25645 7 syms_481]);
   (542516, 2, [AGroup 3 3 syms_1; AGroup 25647 7 syms_481]);
   (542531, 5, [AGroup 25649 1 [sym_kEnd]; SGroup 11663 1 [aux_sym_asmBody_repeat1];
     SGroup 15793 1 [sym_asmBody]; AGroup 3 3 syms_1; AGroup 25581 4 syms_777]);
   (542552, 5, [AGroup 25651 1 [sym_kEnd]; SGroup 11663 1 [aux_sym_asmBody_repeat1];
     SGroup 15880 1 [sym_asmBody]; AGroup 3 3 syms_1; AGroup 25581 4 syms_777]);
   (542573, 5, [AGroup 25653 1 [sym_kEnd]; SGroup 11663 1 [aux_sym_asmBody_repeat1];
     SGroup 14215 1 [sym_asmBody]; AGroup 3 3 syms_1; AGroup 25581 4 syms_777]);
   (542594, 5, [AGroup 25655 1 [sym_kEnd]; SGroup 11663 1 [aux_sym_asmBody_repeat1];
     SGroup 14257 1 [sym_asmBody]; AGroup 3 3 syms_1; AGroup 25581 4 syms_777]);
   (542615, 2, [AGroup 3 3 syms_1; AGroup 25657 7 syms_481]);
   (542630, 2, [AGroup 3 3 syms_1; AGroup 25659 7 syms_481]);
   (542645, 2, [AGroup 3 3 syms_1; AGroup 25661 7 syms_481]);
   (542660, 5, [AGroup 25663 1 [sym_kEnd]; SGroup 11663 1 [aux_sym_asmBody_repeat1];
     SGroup 14431 1 [sym_asmBody]; AGroup 3 3 syms_1; AGroup 25581 4 syms_777]);
   (542681, 4, [AGroup 25665 1 [sym_kBegin]; SGroup 11885 1 [sym__initializationBegin]; AGroup 3 3 syms_1;
     AGroup 25667 5 syms_60]);
   (542700, 5, [AGroup 25669 1 [sym_kEnd]; SGroup 11663 1 [aux_sym_asmBody_repeat1];
     SGroup 14479 1 [sym_asmBody]; AGroup 3 3 syms_1; AGroup 25581 4 syms_777]);
   (542721, 5, [AGroup 25671 1 [sym_kEnd]; SGroup 11663 1 [aux_sym_asmBody_repeat1];
     SGroup 15545 1 [sym_asmBody]; AGroup 3 3 syms_1; AGroup 25581 4 syms_777]);
   (542742, 2, [AGroup 3 3 syms_1; AGroup 25673 7 syms_481]);
   (542757, 2, [AGroup 3 3 syms_1; AGroup 25675 7 syms_481]);
   (542772, 5, [AGroup 25677 1 [sym_kEnd]; SGroup 11663 1 [aux_sym_asmBody_repeat1];
     SGroup 14666 1 [sym_asmBody]; AGroup 3 3 syms_1; AGroup 25581 4 syms_777]);
   (542793, 5, [AGroup 25679 1 [sym_kEnd]; SGroup 11663 1 [aux_sym_asmBody_repeat1];
     SGroup 14733 1 [sym_asmBody]; AGroup 3 3 syms_1; AGroup 25581 4 syms_777]);
   (542814, 5, [AGroup 25681 1 [sym_kEnd]; SGroup 11663 1 [aux_sym_asmBody_repeat1];
     SGroup 14875 1 [sym_asmBody]; AGroup 3 3 syms_1; AGroup 25581 4 syms_777]);
   (542835, 5, [AGroup 25683 1 [sym_kEnd]; SGroup 11663 1 [aux_sym_asmBody_repeat1];
     SGroup 14905 1 [sym_asmBody]; AGroup 3 3 syms_1; AGroup 25581 4 syms_777]);
   (542856, 3, [AGroup 25685 1 [anon_sym_SEMI]; AGroup 3 3 syms_1; AGroup 25687 6 syms_45]);
   (542873, 5, [AGroup 25689 1 [sym_kEnd]; SGroup 11663 1 [aux_sym_asmBody_repeat1];
     SGroup 15030 1 [sym_asmBody]; AGroup 3 3 syms_1; AGroup 25581 4 syms_777]);
   (542894, 5, [AGroup 25691 1 [sym_kEnd]; SGroup 11663 1 [aux_sym_asmBody_repeat1];
     SGroup 15077 1 [sym_asmBody]; AGroup 3 3 syms_1; AGroup 25581 4 syms_777]);
   (542915, 6, [AGroup 25693 1 [anon_sym_SEMI]; AGroup 25695 1 [sym_identifier];
     SGroup 11681 1 [aux_sym_declExports_repeat1]; SGroup 13555 1 [sym_declExport];
     AGroup 3 3 syms_1; SGroup 11358 3 syms_2]);
   (542938, 5, [AGroup 25697 1 [sym_kEnd]; SGroup 11663 1 [aux_sym_asmBody_repeat1];
     SGroup 15244 1 [sym_asmBody]; AGroup 3 3 syms_1; AGroup 25581 4 syms_777]);
   (542959, 9, [AGroup 5 1 [sym_ppDirective]; AGroup 24916 1 [sym_kEq]; AGroup 25597 1 [anon_sym_LPAREN];
     AGroup 25699 1 [anon_sym_SEMI]; AGroup 25701 1 [anon_sym_COLON];
     AGroup 25703 1 [sym_identifier]; SGroup 11990 1 [sym_declArgs];
     SGroup 15445 1 [sym_defaultValue]; AGroup 3 2 syms_5]);
   (542988, 5, [AGroup 25705 1 [sym_kEnd]; SGroup 11663 1 [aux_sym_asmBody_repeat1];
     SGroup 15462 1 [sym_asmBody]; AGroup 3 3 syms_1; AGroup 25581 4 syms_777]);
   (543009, 5, [AGroup 25707 1 [sym_kEnd]; SGroup 11663 1 [aux_sym_asmBody_repeat1];
     SGroup 15289 1 [sym_asmBody]; AGroup 3 3 syms_1; AGroup 25581 4 syms_777]);
   (543030, 5, [AGroup 25709 1 [sym_kEnd]; SGroup 11663 1 [aux_sym_asmBody_repeat1];
     SGroup 15628 1 [sym_asmBody]; AGroup 3 3 syms_1; AGroup 25581 4 syms_777]);
   (543051, 5, [AGroup 25711 1 [sym_kEnd]; SGroup 11663 1 [aux_sym_asmBody_repeat1];
     SGroup 15447 1 [sym_asmBody]; AGroup 3 3 syms_1; AGroup 25581 4 syms_777]);
   (543072, 5, [AGroup 25713 1 [sym_kEnd]; SGroup 11663 1 [aux_sym_asmBody_repeat1];
     SGroup 15485 1 [sym_asmBody]; AGroup 3 3 syms_1; AGroup 25581 4 syms_777]);
   (543093, 3, [AGroup 25715 1 [anon_sym_SEMI]; AGroup 3 3 syms_1; AGroup 25717 6 syms_45]);
   (543110, 3, [AGroup 25719 1 [anon_sym_SEMI]; AGroup 3 3 syms_1; AGroup 25721 6 syms_45]);
   (543127, 9, [AGroup 5 1 [sym_ppDirective]; AGroup 24916 1 [sym_kEq]; AGroup 25597 1 [anon_sym_LPAREN];
     AGroup 25723 1 [anon_sym_SEMI]; AGroup 25725 1 [anon_sym_COLON];
     AGroup 25727 1 [sym_identifier]; SGroup 12042 1 [sym_declArgs];
     SGroup 15891 1 [sym_defaultValue]; AGroup 3 2 syms_5]);
   (543156, 5, [AGroup 25729 1 [sym_kEnd]; SGroup 11663 1 [aux_sym_asmBody_repeat1];
     SGroup 15581 1 [sym_asmBody]; AGroup 3 3 syms_1; AGroup 25581 4 syms_777]);
   (543177, 5, [AGroup 25731 1 [sym_kEnd]; SGroup 11663 1 [aux_sym_asmBody_repeat1];
     SGroup 15610 1 [sym_asmBody]; AGroup 3 3 syms_1; AGroup 25581 4 syms_777]);
   (543198, 5, [AGroup 25733 1 [sym_kEnd]; SGroup 11663 1 [aux_sym_asmBody_repeat1];
     SGroup 15730 1 [sym_asmBody]; AGroup 3 3 syms_1; AGroup 25581 4 syms_777]);
   (543219, 5, [AGroup 25735 1 [sym_kEnd]; SGroup 11663 1 [aux_sym_asmBody_repeat1];
     SGroup 15760 1 [sym_asmBody]; AGroup 3 3 syms_1; AGroup 25581 4 syms_777]);
   (543240, 3, [AGroup 25737 1 [anon_sym_SEMI]; AGroup 3 3 syms_1; AGroup 25739 6 syms_45]);
   (543257, 7, [AGroup 5 1 [sym_ppDirective]; AGroup 25741 1 [anon_sym_COLON];
     AGroup 25743 1 [anon_sym_LPAREN]; AGroup 25745 1 [sym_kOf]; SGroup 11944 1 [sym_declArgs];
     AGroup 3 2 syms_5; AGroup 24108 3 syms_117]);
   (543282, 5, [AGroup 25747 1 [sym_kEnd]; SGroup 11663 1 [aux_sym_asmBody_repeat1];
     SGroup 15903 1 [sym_asmBody]; AGroup 3 3 syms_1; AGroup 25581 4 syms_777]);
   (543303, 5, [AGroup 25749 1 [sym_kEnd]; SGroup 11663 1 [aux_sym_asmBody_repeat1];
     SGroup 15957 1 [sym_asmBody]; AGroup 3 3 syms_1; AGroup 25581 4 syms_777]);
   (543324, 3, [AGroup 25751 1 [anon_sym_SEMI]; AGroup 3 3 syms_1; AGroup 25753 6 syms_45]);
   (543341, 5, [AGroup 25755 1 [sym_kEnd]; SGroup 11663 1 [aux_sym_asmBody_repeat1];
     SGroup 14161 1 [sym_asmBody]; AGroup 3 3 syms_1; AGroup 25581 4 syms_777]);
   (543362, 5, [AGroup 25757 1 [sym_kEnd]; SGroup 11663 1 [aux_sym_asmBody_repeat1];
     SGroup 14189 1 [sym_asmBody]; AGroup 3 3 syms_1; AGroup 25581 4 syms_777]);
   (543383, 7, [AGroup 5 1 [sym_ppDirective]; AGroup 21299 1 [anon_sym_DOT]; AGroup 25759 1 [sym_kLt];
     AGroup 25761 1 [sym_kDeprecated]; SGroup 11339 1 [sym_kDot]; AGroup 3 2 syms_5;
     AGroup 21297 3 syms_105]);
   (543408, 5, [AGroup 25763 1 [sym_kEnd]; SGroup 11663 1 [aux_sym_asmBody_repeat1];
     SGroup 14267 1 [sym_asmBody]; AGroup 3 3 syms_1; AGroup 25581 4 syms_777]);
   (543429, 5, [AGroup 25765 1 [sym_kEnd]; SGroup 11663 1 [aux_sym_asmBody_repeat1];
     SGroup 14287 1 [sym_asmBody]; AGroup 3 3 syms_1; AGroup 25581 4 syms_777]);
   (543450, 7, [AGroup 5 1 [sym_ppDirective]; AGroup 21299 1 [anon_sym_DOT]; AGroup 25759 1 [sym_kLt];
     AGroup 25767 1 [sym_kDeprecated]; SGroup 11339 1 [sym_kDot]; AGroup 3 2 syms_5;
     AGroup 21307 3 syms_105]);
   (543475, 5, [AGroup 25769 1 [sym_kEnd]; SGroup 11663 1 [aux_sym_asmBody_repeat1];
     SGroup 14337 1 [sym_asmBody]; AGroup 3 3 syms_1; AGroup 25581 4 syms_777]);
   (543496, 5, [AGroup 25771 1 [sym_kEnd]; SGroup 11663 1 [aux_sym_asmBody_repeat1];
     SGroup 14392 1 [sym_asmBody]; AGroup 3 3 syms_1; AGroup 25581 4 syms_777]);
   (543517, 5, [AGroup 25773 1 [sym_kEnd]; SGroup 11663 1 [aux_sym_asmBody_repeat1];
     SGroup 14446 1 [sym_asmBody]; AGroup 3 3 syms_1; AGroup 25581 4 syms_777]);
   (543538, 5, [AGroup 25775 1 [sym_kEnd]; SGroup 11663 1 [aux_sym_asmBody_repeat1];
     SGroup 14490 1 [sym_asmBody]; AGroup 3 3 syms_1; AGroup 25581 4 syms_777]);
   (543559, 5, [AGroup 25777 1 [sym_kEnd]; SGroup 11663 1 [aux_sym_asmBody_repeat1];
     SGroup 14543 1 [sym_asmBody]; AGroup 3 3 syms_1; AGroup 25581 4 syms_777]);
   (543580, 5, [AGroup 25779 1 [sym_kEnd]; SGroup 11663 1 [aux_sym_asmBody_repeat1];
     SGroup 14592 1 [sym_asmBody]; AGroup 3 3 syms_1; AGroup 25581 4 syms_777]);
   (543601, 5, [AGroup 25781 1 [sym_kEnd]; SGroup 11663 1 [aux_sym_asmBody_repeat1];
     SGroup 14657 1 [sym_asmBody]; AGroup 3 3 syms_1; AGroup 25581 4 syms_777]);
   (543622, 3, [AGroup 25783 1 [anon_sym_SEMI]; AGroup 3 3 syms_1; AGroup 25785 6 syms_45]);
   (543639, 5, [AGroup 25787 1 [sym_kEnd]; SGroup 11663 1 [aux_sym_asmBody_repeat1];
     SGroup 14723 1 [sym_asmBody]; AGroup 3 3 syms_1; AGroup 25581 4 syms_777]);
   (543660, 3, [AGroup 25789 1 [anon_sym_SEMI]; AGroup 3 3 syms_1; AGroup 25791 6 syms_45]);
   (543677, 5, [AGroup 25793 1 [sym_kEnd]; SGroup 11663 1 [aux_sym_asmBody_repeat1];
     SGroup 14763 1 [sym_asmBody]; AGroup 3 3 syms_1; AGroup 25581 4 syms_777]);
   (543698, 5, [AGroup 25795 1 [sym_kEnd]; SGroup 11663 1 [aux_sym_asmBody_repeat1];
     SGroup 14812 1 [sym_asmBody]; AGroup 3 3 syms_1; AGroup 25581 4 syms_777]);
   (543719, 3, [AGroup 25797 1 [anon_sym_SEMI]; AGroup 3 3 syms_1; AGroup 25799 6 syms_45]);
   (543736, 5, [AGroup 25801 1 [sym_kEnd]; SGroup 11663 1 [aux_sym_asmBody_repeat1];
     SGroup 14857 1 [sym_asmBody]; AGroup 3 3 syms_1; AGroup 25581 4 syms_777]);
   (543757, 3, [AGroup 25803 1 [anon_sym_SEMI]; AGroup 3 3 syms_1; AGroup 25591 6 syms_45]);
   (543774, 3, [AGroup 25805 1 [anon_sym_SEMI]; AGroup 3 3 syms_1; AGroup 25609 6 syms_45]);
   (543791, 5, [AGroup 25807 1 [sym_kEnd]; SGroup 11663 1 [aux_sym_asmBody_repeat1];
     SGroup 14904 1 [sym_asmBody]; AGroup 3 3 syms_1; AGroup 25581 4 syms_777]);
   (543812, 6, [AGroup 25695 1 [sym_identifier]; AGroup 25809 1 [anon_sym_SEMI];
     SGroup 11553 1 [aux_sym_declExports_repeat1]; SGroup 13004 1 [sym_declExport];
     AGroup 3 3 syms_1; SGroup 11358 3 syms_2]);
   (543835, 3, [SGroup 13665 1 [sym__visibility]; AGroup 3 3 syms_1; AGroup 25811 6 syms_70]);
   (543852, 9, [AGroup 5 1 [sym_ppDirective]; AGroup 24916 1 [sym_kEq]; AGroup 25597 1 [anon_sym_LPAREN];
     AGroup 25813 1 [anon_sym_SEMI]; AGroup 25815 1 [anon_sym_COLON];
     AGroup 25817 1 [sym_identifier]; SGroup 11780 1 [sym_declArgs];
     SGroup 15042 1 [sym_defaultValue]; AGroup 3 2 syms_5]);
   (543881, 5, [AGroup 25819 1 [sym_kEnd]; SGroup 11663 1 [aux_sym_asmBody_repeat1];
     SGroup 15050 1 [sym_asmBody]; AGroup 3 3 syms_1; AGroup 25581 4 syms_777]);
   (543902, 5, [AGroup 25821 1 [sym_kEnd]; SGroup 11663 1 [aux_sym_asmBody_repeat1];
     SGroup 14953 1 [sym_asmBody]; AGroup 3 3 syms_1; AGroup 25581 4 syms_777]);
   (543923, 4, [AGroup 5 1 [sym_ppDirective]; SGroup 11339 1 [sym_kDot]; AGroup 3 2 syms_5;
     AGroup 21269 6 syms_778])
  ].

(** States 11459 to 11558. *)
Definition small_runs_11459 : list small_run :=
  [
   (543942, 5, [AGroup 25823 1 [sym_kEnd]; SGroup 11663 1 [aux_sym_asmBody_repeat1];
     SGroup 15003 1 [sym_asmBody]; AGroup 3 3 syms_1; AGroup 25581 4 syms_777]);
   (543963, 3, [AGroup 25825 1 [anon_sym_SEMI]; AGroup 3 3 syms_1; AGroup 25717 6 syms_45]);
   (543980, 3, [AGroup 25827 1 [anon_sym_SEMI]; AGroup 3 3 syms_1; AGroup 25721 6 syms_45]);
   (543997, 3, [AGroup 25829 1 [anon_sym_SEMI]; AGroup 3 3 syms_1; AGroup 25739 6 syms_45]);
   (544014, 3, [AGroup 25831 1 [anon_sym_SEMI]; AGroup 3 3 syms_1; AGroup 25753 6 syms_45]);
   (544031, 5, [AGroup 25833 1 [sym_kEnd]; SGroup 11663 1 [aux_sym_asmBody_repeat1];
     SGroup 15205 1 [sym_asmBody]; AGroup 3 3 syms_1; AGroup 25581 4 syms_777]);
   (544052, 5, [AGroup 25835 1 [sym_kEnd]; SGroup 11663 1 [aux_sym_asmBody_repeat1];
     SGroup 15055 1 [sym_asmBody]; AGroup 3 3 syms_1; AGroup 25581 4 syms_777]);
   (544073, 3, [AGroup 25837 1 [anon_sym_SEMI]; AGroup 3 3 syms_1; AGroup 25799 6 syms_45]);
   (544090, 5, [AGroup 25839 1 [sym_kEnd]; SGroup 11663 1 [aux_sym_asmBody_repeat1];
     SGroup 15110 1 [sym_asmBody]; AGroup 3 3 syms_1; AGroup 25581 4 syms_777]);
   (544111, 9, [AGroup 5 1 [sym_ppDirective]; AGroup 24916 1 [sym_kEq]; AGroup 25597 1 [anon_sym_LPAREN];
     AGroup 25841 1 [anon_sym_SEMI]; AGroup 25843 1 [anon_sym_COLON];
     AGroup 25845 1 [sym_identifier]; SGroup 11822 1 [sym_declArgs];
     SGroup 15379 1 [sym_defaultValue]; AGroup 3 2 syms_5]);
   (544140, 3, [AGroup 25847 1 [anon_sym_SEMI]; AGroup 3 3 syms_1; AGroup 25849 6 syms_45]);
   (544157, 5, [AGroup 25851 1 [sym_kEnd]; SGroup 11663 1 [aux_sym_asmBody_repeat1];
     SGroup 15169 1 [sym_asmBody]; AGroup 3 3 syms_1; AGroup 25581 4 syms_777]);
   (544178, 3, [AGroup 25853 1 [anon_sym_SEMI]; AGroup 3 3 syms_1; AGroup 25855 6 syms_45]);
   (544195, 3, [AGroup 25857 1 [anon_sym_SEMI]; AGroup 3 3 syms_1; AGroup 25859 6 syms_45]);
   (544212, 5, [AGroup 25861 1 [sym_kEnd]; SGroup 11663 1 [aux_sym_asmBody_repeat1];
     SGroup 15215 1 [sym_asmBody]; AGroup 3 3 syms_1; AGroup 25581 4 syms_777]);
   (544233, 3, [AGroup 25863 1 [anon_sym_SEMI]; AGroup 3 3 syms_1; AGroup 25865 6 syms_45]);
   (544250, 3, [AGroup 25867 1 [anon_sym_SEMI]; AGroup 3 3 syms_1; AGroup 25869 6 syms_45]);
   (544267, 5, [AGroup 25871 1 [sym_kEnd]; SGroup 11663 1 [aux_sym_asmBody_repeat1];
     SGroup 15270 1 [sym_asmBody]; AGroup 3 3 syms_1; AGroup 25581 4 syms_777]);
   (544288, 3, [AGroup 25873 1 [anon_sym_SEMI]; AGroup 3 3 syms_1; AGroup 25875 6 syms_45]);
   (544305, 3, [AGroup 24240 2 syms_685; AGroup 3 3 syms_1; AGroup 24242 5 syms_313]);
   (544322, 5, [AGroup 25877 1 [sym_kEnd]; SGroup 11663 1 [aux_sym_asmBody_repeat1];
     SGroup 15319 1 [sym_asmBody]; AGroup 3 3 syms_1; AGroup 25581 4 syms_777]);
   (544343, 3, [AGroup 25879 1 [anon_sym_SEMI]; AGroup 3 3 syms_1; AGroup 17240 6 syms_45]);
   (544360, 3, [AGroup 25881 1 [anon_sym_SEMI]; AGroup 3 3 syms_1; AGroup 25849 6 syms_45]);
   (544377, 3, [AGroup 25883 1 [anon_sym_SEMI]; AGroup 3 3 syms_1; AGroup 15293 6 syms_45]);
   (544394, 3, [AGroup 25885 1 [anon_sym_SEMI]; AGroup 3 3 syms_1; AGroup 25855 6 syms_45]);
   (544411, 5, [AGroup 25887 1 [sym_kEnd]; SGroup 11663 1 [aux_sym_asmBody_repeat1];
     SGroup 15388 1 [sym_asmBody]; AGroup 3 3 syms_1; AGroup 25581 4 syms_777]);
   (544432, 5, [AGroup 25889 1 [sym_kEnd]; SGroup 11663 1 [aux_sym_asmBody_repeat1];
     SGroup 15428 1 [sym_asmBody]; AGroup 3 3 syms_1; AGroup 25581 4 syms_777]);
   (544453, 3, [AGroup 25891 1 [anon_sym_SEMI]; AGroup 3 3 syms_1; AGroup 17254 6 syms_45]);
   (544470, 5, [AGroup 25893 1 [sym_kEnd]; SGroup 11663 1 [aux_sym_asmBody_repeat1];
     SGroup 15508 1 [sym_asmBody]; AGroup 3 3 syms_1; AGroup 25581 4 syms_777]);
   (544491, 3, [AGroup 25895 1 [anon_sym_SEMI]; AGroup 3 3 syms_1; AGroup 15353 6 syms_45]);
   (544508, 2, [AGroup 3 3 syms_1; AGroup 21751 7 syms_775]);
   (544523, 4, [AGroup 5 1 [sym_ppDirective]; AGroup 25899 1 [anon_sym_LPAREN]; AGroup 3 2 syms_5;
     AGroup 25897 6 syms_779]);
   (544542, 3, [AGroup 25901 1 [anon_sym_SEMI]; AGroup 3 3 syms_1; AGroup 25859 6 syms_45]);
   (544559, 9, [AGroup 5 1 [sym_ppDirective]; AGroup 24916 1 [sym_kEq]; AGroup 25597 1 [anon_sym_LPAREN];
     AGroup 25903 1 [anon_sym_SEMI]; AGroup 25905 1 [anon_sym_COLON];
     AGroup 25907 1 [sym_identifier]; SGroup 12025 1 [sym_declArgs];
     SGroup 15960 1 [sym_defaultValue]; AGroup 3 2 syms_5]);
   (544588, 5, [AGroup 25909 1 [sym_kEnd]; SGroup 11663 1 [aux_sym_asmBody_repeat1];
     SGroup 14594 1 [sym_asmBody]; AGroup 3 3 syms_1; AGroup 25581 4 syms_777]);
   (544609, 5, [AGroup 25911 1 [sym_kEnd]; SGroup 11663 1 [aux_sym_asmBody_repeat1];
     SGroup 15815 1 [sym_asmBody]; AGroup 3 3 syms_1; AGroup 25581 4 syms_777]);
   (544630, 9, [AGroup 5 1 [sym_ppDirective]; AGroup 24916 1 [sym_kEq]; AGroup 25597 1 [anon_sym_LPAREN];
     AGroup 25913 1 [anon_sym_SEMI]; AGroup 25915 1 [anon_sym_COLON];
     AGroup 25917 1 [sym_identifier]; SGroup 11841 1 [sym_declArgs];
     SGroup 15254 1 [sym_defaultValue]; AGroup 3 2 syms_5]);
   (544659, 6, [AGroup 25695 1 [sym_identifier]; AGroup 25919 1 [anon_sym_SEMI];
     SGroup 11565 1 [aux_sym_declExports_repeat1]; SGroup 13811 1 [sym_declExport];
     AGroup 3 3 syms_1; SGroup 11358 3 syms_2]);
   (544682, 9, [AGroup 5 1 [sym_ppDirective]; AGroup 24916 1 [sym_kEq]; AGroup 25597 1 [anon_sym_LPAREN];
     AGroup 25921 1 [anon_sym_SEMI]; AGroup 25923 1 [anon_sym_COLON];
     AGroup 25925 1 [sym_identifier]; SGroup 11878 1 [sym_declArgs];
     SGroup 14172 1 [sym_defaultValue]; AGroup 3 2 syms_5]);
   (544711, 5, [AGroup 25927 1 [sym_kEnd]; SGroup 11663 1 [aux_sym_asmBody_repeat1];
     SGroup 14182 1 [sym_asmBody]; AGroup 3 3 syms_1; AGroup 25581 4 syms_777]);
   (544732, 5, [AGroup 25929 1 [sym_kEnd]; SGroup 11663 1 [aux_sym_asmBody_repeat1];
     SGroup 14132 1 [sym_asmBody]; AGroup 3 3 syms_1; AGroup 25581 4 syms_777]);
   (544753, 5, [AGroup 25931 1 [sym_kEnd]; SGroup 11663 1 [aux_sym_asmBody_repeat1];
     SGroup 14283 1 [sym_asmBody]; AGroup 3 3 syms_1; AGroup 25581 4 syms_777]);
   (544774, 3, [AGroup 25933 1 [anon_sym_SEMI]; AGroup 3 3 syms_1; AGroup 25865 6 syms_45]);
   (544791, 9, [AGroup 5 1 [sym_ppDirective]; AGroup 24916 1 [sym_kEq]; AGroup 25597 1 [anon_sym_LPAREN];
     AGroup 25935 1 [anon_sym_SEMI]; AGroup 25937 1 [anon_sym_COLON];
     AGroup 25939 1 [sym_identifier]; SGroup 11895 1 [sym_declArgs];
     SGroup 14359 1 [sym_defaultValue]; AGroup 3 2 syms_5]);
   (544820, 5, [AGroup 25941 1 [sym_kEnd]; SGroup 11663 1 [aux_sym_asmBody_repeat1];
     SGroup 14281 1 [sym_asmBody]; AGroup 3 3 syms_1; AGroup 25581 4 syms_777]);
   (544841, 3, [AGroup 25943 1 [anon_sym_SEMI]; AGroup 3 3 syms_1; AGroup 25869 6 syms_45]);
   (544858, 6, [AGroup 25695 1 [sym_identifier]; AGroup 25945 1 [anon_sym_SEMI];
     SGroup 11572 1 [aux_sym_declExports_repeat1]; SGroup 13785 1 [sym_declExport];
     AGroup 3 3 syms_1; SGroup 11358 3 syms_2]);
   (544881, 3, [AGroup 25947 1 [anon_sym_SEMI]; AGroup 3 3 syms_1; AGroup 25875 6 syms_45]);
   (544898, 3, [SGroup 6433 1 [sym__visibility]; AGroup 3 3 syms_1; AGroup 25949 6 syms_70]);
   (544915, 5, [AGroup 25951 1 [sym_kEnd]; SGroup 11663 1 [aux_sym_asmBody_repeat1];
     SGroup 14410 1 [sym_asmBody]; AGroup 3 3 syms_1; AGroup 25581 4 syms_777]);
   (544936, 5, [AGroup 25953 1 [sym_kEnd]; SGroup 11663 1 [aux_sym_asmBody_repeat1];
     SGroup 14526 1 [sym_asmBody]; AGroup 3 3 syms_1; AGroup 25581 4 syms_777]);
   (544957, 3, [AGroup 5 1 [sym_ppDirective]; AGroup 3 2 syms_5; AGroup 16465 7 syms_780]);
   (544974, 5, [AGroup 25955 1 [sym_kEnd]; SGroup 11663 1 [aux_sym_asmBody_repeat1];
     SGroup 14635 1 [sym_asmBody]; AGroup 3 3 syms_1; AGroup 25581 4 syms_777]);
   (544995, 3, [AGroup 25957 1 [anon_sym_SEMI]; AGroup 3 3 syms_1; AGroup 17240 6 syms_45]);
   (545012, 3, [AGroup 25959 1 [anon_sym_SEMI]; AGroup 3 3 syms_1; AGroup 15293 6 syms_45]);
   (545029, 6, [AGroup 25695 1 [sym_identifier]; AGroup 25961 1 [anon_sym_SEMI];
     SGroup 11574 1 [aux_sym_declExports_repeat1]; SGroup 13279 1 [sym_declExport];
     AGroup 3 3 syms_1; SGroup 11358 3 syms_2]);
   (545052, 5, [AGroup 25963 1 [sym_kEnd]; SGroup 11663 1 [aux_sym_asmBody_repeat1];
     SGroup 14810 1 [sym_asmBody]; AGroup 3 3 syms_1; AGroup 25581 4 syms_777]);
   (545073, 3, [AGroup 25965 1 [anon_sym_SEMI]; AGroup 3 3 syms_1; AGroup 25785 6 syms_45]);
   (545090, 5, [AGroup 25967 1 [sym_kEnd]; SGroup 11663 1 [aux_sym_asmBody_repeat1];
     SGroup 14874 1 [sym_asmBody]; AGroup 3 3 syms_1; AGroup 25581 4 syms_777]);
   (545111, 3, [AGroup 24240 2 syms_684; AGroup 3 3 syms_1; AGroup 24242 5 syms_313]);
   (545128, 2, [AGroup 3 3 syms_1; AGroup 18780 7 syms_781]);
   (545143, 3, [AGroup 25969 1 [anon_sym_COLON]; AGroup 3 3 syms_1; AGroup 25621 6 syms_61]);
   (545160, 5, [AGroup 5 1 [sym_ppDirective]; AGroup 20772 1 [anon_sym_DOT]; SGroup 14737 1 [sym_kDot];
     AGroup 3 2 syms_5; AGroup 25049 5 syms_782]);
   (545181, 4, [AGroup 5 1 [sym_ppDirective]; AGroup 25973 1 [sym_kIn]; AGroup 3 2 syms_5;
     AGroup 25971 6 syms_748]);
   (545200, 4, [AGroup 25571 1 [sym_kLt]; SGroup 12284 1 [sym_kDot]; AGroup 3 3 syms_1;
     AGroup 25325 5 syms_783]);
   (545219, 2, [AGroup 3 3 syms_1; AGroup 21887 7 syms_775]);
   (545234, 5, [AGroup 25975 1 [sym_kEnd]; SGroup 11663 1 [aux_sym_asmBody_repeat1];
     SGroup 15194 1 [sym_asmBody]; AGroup 3 3 syms_1; AGroup 25581 4 syms_777]);
   (545255, 5, [AGroup 25977 1 [sym_kEnd]; SGroup 11663 1 [aux_sym_asmBody_repeat1];
     SGroup 15231 1 [sym_asmBody]; AGroup 3 3 syms_1; AGroup 25581 4 syms_777]);
   (545276, 3, [AGroup 25979 1 [anon_sym_SEMI]; AGroup 3 3 syms_1; AGroup 17254 6 syms_45]);
   (545293, 3, [AGroup 25981 1 [anon_sym_SEMI]; AGroup 3 3 syms_1; AGroup 15353 6 syms_45]);
   (545310, 3, [AGroup 25983 1 [anon_sym_SEMI]; AGroup 3 3 syms_1; AGroup 25791 6 syms_45]);
   (545327, 5, [AGroup 5 1 [sym_ppDirective]; AGroup 20772 1 [anon_sym_DOT]; SGroup 14737 1 [sym_kDot];
     AGroup 3 2 syms_5; AGroup 25293 5 syms_782]);
   (545348, 5, [AGroup 25985 1 [sym_kEnd]; SGroup 11663 1 [aux_sym_asmBody_repeat1];
     SGroup 15525 1 [sym_asmBody]; AGroup 3 3 syms_1; AGroup 25581 4 syms_777]);
   (545369, 2, [AGroup 3 3 syms_1; AGroup 6280 7 syms_784]);
   (545384, 5, [AGroup 25987 1 [sym_kEnd]; SGroup 11663 1 [aux_sym_asmBody_repeat1];
     SGroup 15582 1 [sym_asmBody]; AGroup 3 3 syms_1; AGroup 25581 4 syms_777]);
   (545405, 5, [AGroup 24692 1 [anon_sym_POUND]; SGroup 12139 1 [sym_literalString]; AGroup 25989 2 syms_6;
     AGroup 3 3 syms_1; SGroup 10902 3 syms_13]);
   (545426, 6, [AGroup 5 1 [sym_ppDirective]; AGroup 24914 1 [sym_kLt]; AGroup 25327 1 [anon_sym_LPAREN];
     SGroup 12054 1 [sym_kDot]; AGroup 3 2 syms_5; AGroup 25325 4 syms_785]);
   (545449, 7, [AGroup 5 1 [sym_ppDirective]; AGroup 25743 1 [anon_sym_LPAREN];
     AGroup 25991 1 [anon_sym_COLON]; AGroup 25993 1 [sym_kOf]; SGroup 11727 1 [sym_declArgs];
     AGroup 3 2 syms_5; AGroup 24090 3 syms_117]);
   (545474, 6, [AGroup 25695 1 [sym_identifier]; AGroup 25995 1 [anon_sym_SEMI];
     SGroup 11607 1 [aux_sym_declExports_repeat1]; SGroup 14079 1 [sym_declExport];
     AGroup 3 3 syms_1; SGroup 11358 3 syms_2]);
   (545497, 5, [AGroup 25997 1 [sym_kEnd]; SGroup 11663 1 [aux_sym_asmBody_repeat1];
     SGroup 15888 1 [sym_asmBody]; AGroup 3 3 syms_1; AGroup 25581 4 syms_777]);
   (545518, 5, [AGroup 25999 1 [sym_kEnd]; SGroup 11663 1 [aux_sym_asmBody_repeat1];
     SGroup 15928 1 [sym_asmBody]; AGroup 3 3 syms_1; AGroup 25581 4 syms_777]);
   (545539, 9, [AGroup 5 1 [sym_ppDirective]; AGroup 24916 1 [sym_kEq]; AGroup 25597 1 [anon_sym_LPAREN];
     AGroup 26001 1 [anon_sym_SEMI]; AGroup 26003 1 [anon_sym_COLON];
     AGroup 26005 1 [sym_identifier]; SGroup 11882 1 [sym_declArgs];
     SGroup 15127 1 [sym_defaultValue]; AGroup 3 2 syms_5]);
   (545568, 5, [AGroup 26007 1 [sym_kEnd]; SGroup 11663 1 [aux_sym_asmBody_repeat1];
     SGroup 15749 1 [sym_asmBody]; AGroup 3 3 syms_1; AGroup 25581 4 syms_777]);
   (545589, 4, [AGroup 5 1 [sym_ppDirective]; SGroup 11339 1 [sym_kDot]; AGroup 3 2 syms_5;
     AGroup 21181 6 syms_778]);
   (545608, 3, [AGroup 24240 2 syms_688; AGroup 3 3 syms_1; AGroup 24242 5 syms_313]);
   (545625, 3, [AGroup 26009 1 [anon_sym_SEMI]; AGroup 3 3 syms_1; AGroup 25687 6 syms_45]);
   (545642, 3, [AGroup 26011 1 [anon_sym_COLON]; AGroup 3 3 syms_1; AGroup 25621 5 syms_313]);
   (545658, 2, [AGroup 3 3 syms_1; AGroup 25647 6 syms_534]);
   (545672, 2, [AGroup 3 3 syms_1; AGroup 26013 6 syms_45]);
   (545686, 3, [AGroup 26015 1 [anon_sym_COLON]; AGroup 3 3 syms_1; AGroup 25621 5 syms_313]);
   (545702, 8, [AGroup 5 1 [sym_ppDirective]; AGroup 26017 1 [anon_sym_SEMI];
     AGroup 26019 1 [aux_sym_ppUsesBlock_token2]; AGroup 26021 1 [aux_sym_ppUsesBlock_token3];
     SGroup 5636 1 [sym__ppElse]; SGroup 11934 1 [aux_sym__procAttributeNoExt_repeat1];
     SGroup 15351 1 [sym__ppEndIf]; AGroup 3 2 syms_5]);
   (545728, 6, [AGroup 20161 1 [anon_sym_COMMA]; AGroup 26023 1 [anon_sym_COLON]; AGroup 26027 1 [sym_kEq];
     SGroup 14856 1 [sym_defaultValue]; AGroup 26025 2 syms_786; AGroup 3 3 syms_1]);
   (545750, 8, [AGroup 5 1 [sym_ppDirective]; AGroup 26017 1 [anon_sym_SEMI];
     AGroup 26019 1 [aux_sym_ppUsesBlock_token2]; AGroup 26021 1 [aux_sym_ppUsesBlock_token3];
     SGroup 5636 1 [sym__ppElse]; SGroup 11865 1 [aux_sym__procAttributeNoExt_repeat1];
     SGroup 14437 1 [sym__ppEndIf]; AGroup 3 2 syms_5]);
   (545776, 2, [AGroup 3 3 syms_1; AGroup 26030 6 syms_45]);
   (545790, 5, [AGroup 25695 1 [sym_identifier]; SGroup 11580 1 [aux_sym_declExports_repeat1];
     SGroup 13163 1 [sym_declExport]; AGroup 3 3 syms_1; SGroup 11358 3 syms_2]);
   (545810, 2, [AGroup 3 3 syms_1; AGroup 26032 6 syms_45]);
   (545824, 3, [AGroup 25847 1 [anon_sym_SEMI]; AGroup 3 3 syms_1; AGroup 25849 5 syms_60]);
   (545840, 4, [AGroup 18722 2 syms_110; AGroup 26034 2 syms_186; SGroup 11584 2 syms_187; AGroup 3 3 syms_1]);
   (545858, 3, [AGroup 25831 1 [anon_sym_SEMI]; AGroup 3 3 syms_1; AGroup 25753 5 syms_60]);
   (545874, 2, [AGroup 3 3 syms_1; AGroup 26036 6 syms_45])
  ].

(** States 11559 to 11658. *)
Definition small_runs_11559 : list small_run :=
  [
   (545888, 7, [AGroup 5 1 [sym_ppDirective]; AGroup 26038 1 [anon_sym_COLON];
     AGroup 26040 1 [anon_sym_LPAREN]; AGroup 26042 1 [sym_kOf]; SGroup 12349 1 [sym_declArgs];
     AGroup 3 2 syms_5; AGroup 24108 2 syms_44]);
   (545912, 2, [AGroup 3 3 syms_1; AGroup 23889 6 syms_787]);
   (545926, 8, [AGroup 5 1 [sym_ppDirective]; AGroup 26017 1 [anon_sym_SEMI];
     AGroup 26019 1 [aux_sym_ppUsesBlock_token2]; AGroup 26021 1 [aux_sym_ppUsesBlock_token3];
     SGroup 5636 1 [sym__ppElse]; SGroup 11880 1 [aux_sym__procAttributeNoExt_repeat1];
     SGroup 15720 1 [sym__ppEndIf]; AGroup 3 2 syms_5]);
   (545952, 3, [AGroup 25867 1 [anon_sym_SEMI]; AGroup 3 3 syms_1; AGroup 25869 5 syms_60]);
   (545968, 2, [AGroup 3 3 syms_1; AGroup 26044 6 syms_45]);
   (545982, 2, [AGroup 3 3 syms_1; AGroup 26046 6 syms_45]);
   (545996, 5, [AGroup 25695 1 [sym_identifier]; SGroup 11580 1 [aux_sym_declExports_repeat1];
     SGroup 14076 1 [sym_declExport]; AGroup 3 3 syms_1; SGroup 11358 3 syms_2]);
   (546016, 4, [AGroup 5 1 [sym_ppDirective]; AGroup 25899 1 [anon_sym_LPAREN]; AGroup 3 2 syms_5;
     AGroup 25897 5 syms_788]);
   (546034, 3, [AGroup 26048 1 [anon_sym_COLON]; AGroup 3 3 syms_1; AGroup 25621 5 syms_313]);
   (546050, 4, [AGroup 26053 1 [sym_kEnd]; SGroup 11568 1 [aux_sym_asmBody_repeat1]; AGroup 3 3 syms_1;
     AGroup 26050 4 syms_777]);
   (546068, 3, [AGroup 25853 1 [anon_sym_SEMI]; AGroup 3 3 syms_1; AGroup 25855 5 syms_60]);
   (546084, 4, [AGroup 26055 1 [anon_sym_COLON]; AGroup 26057 1 [sym_kOf]; AGroup 3 3 syms_1;
     AGroup 24270 4 syms_90]);
   (546102, 8, [AGroup 5 1 [sym_ppDirective]; AGroup 26017 1 [anon_sym_SEMI];
     AGroup 26019 1 [aux_sym_ppUsesBlock_token2]; AGroup 26021 1 [aux_sym_ppUsesBlock_token3];
     SGroup 5636 1 [sym__ppElse]; SGroup 11894 1 [aux_sym__procAttributeNoExt_repeat1];
     SGroup 14554 1 [sym__ppEndIf]; AGroup 3 2 syms_5]);
   (546128, 5, [AGroup 25695 1 [sym_identifier]; SGroup 11580 1 [aux_sym_declExports_repeat1];
     SGroup 13088 1 [sym_declExport]; AGroup 3 3 syms_1; SGroup 11358 3 syms_2]);
   (546148, 6, [AGroup 26061 1 [anon_sym_COLON]; AGroup 26063 1 [anon_sym_COMMA]; AGroup 26065 1 [sym_kEq];
     SGroup 13018 1 [sym_defaultValue]; AGroup 26059 2 syms_789; AGroup 3 3 syms_1]);
   (546170, 5, [AGroup 25695 1 [sym_identifier]; SGroup 11580 1 [aux_sym_declExports_repeat1];
     SGroup 13354 1 [sym_declExport]; AGroup 3 3 syms_1; SGroup 11358 3 syms_2]);
   (546190, 3, [AGroup 5 1 [sym_ppDirective]; AGroup 3 2 syms_5; AGroup 26067 6 syms_748]);
   (546206, 3, [AGroup 25863 1 [anon_sym_SEMI]; AGroup 3 3 syms_1; AGroup 25865 5 syms_60]);
   (546222, 3, [AGroup 26069 1 [anon_sym_COLON]; AGroup 3 3 syms_1; AGroup 25621 5 syms_313]);
   (546238, 3, [AGroup 5 1 [sym_ppDirective]; AGroup 3 2 syms_5; AGroup 26071 6 syms_748]);
   (546254, 8, [AGroup 5 1 [sym_ppDirective]; AGroup 26017 1 [anon_sym_SEMI];
     AGroup 26019 1 [aux_sym_ppUsesBlock_token2]; AGroup 26021 1 [aux_sym_ppUsesBlock_token3];
     SGroup 5636 1 [sym__ppElse]; SGroup 11904 1 [aux_sym__procAttributeNoExt_repeat1];
     SGroup 15067 1 [sym__ppEndIf]; AGroup 3 2 syms_5]);
   (546280, 5, [AGroup 26073 1 [sym_identifier]; SGroup 11580 1 [aux_sym_declExports_repeat1];
     SGroup 14163 1 [sym_declExport]; AGroup 3 3 syms_1; SGroup 11358 3 syms_2]);
   (546300, 2, [AGroup 3 3 syms_1; AGroup 26076 6 syms_45]);
   (546314, 3, [AGroup 26078 1 [anon_sym_COLON]; AGroup 3 3 syms_1; AGroup 25621 5 syms_313]);
   (546330, 8, [AGroup 5 1 [sym_ppDirective]; AGroup 26017 1 [anon_sym_SEMI];
     AGroup 26019 1 [aux_sym_ppUsesBlock_token2]; AGroup 26021 1 [aux_sym_ppUsesBlock_token3];
     SGroup 5636 1 [sym__ppElse]; SGroup 11912 1 [aux_sym__procAttributeNoExt_repeat1];
     SGroup 15366 1 [sym__ppEndIf]; AGroup 3 2 syms_5]);
   (546356, 4, [AGroup 18701 2 syms_110; AGroup 26080 2 syms_186; SGroup 11584 2 syms_187; AGroup 3 3 syms_1]);
   (546374, 7, [AGroup 5 1 [sym_ppDirective]; AGroup 21299 1 [anon_sym_DOT]; AGroup 26083 1 [sym_kLt];
     AGroup 26085 1 [sym_kDeprecated]; SGroup 11268 1 [sym_kDot]; AGroup 3 2 syms_5;
     AGroup 21307 2 syms_44]);
   (546398, 2, [AGroup 3 3 syms_1; AGroup 26087 6 syms_45]);
   (546412, 3, [AGroup 26089 1 [anon_sym_COLON]; AGroup 3 3 syms_1; AGroup 25621 5 syms_313]);
   (546428, 8, [AGroup 5 1 [sym_ppDirective]; AGroup 26017 1 [anon_sym_SEMI];
     AGroup 26019 1 [aux_sym_ppUsesBlock_token2]; AGroup 26021 1 [aux_sym_ppUsesBlock_token3];
     SGroup 5636 1 [sym__ppElse]; SGroup 11918 1 [aux_sym__procAttributeNoExt_repeat1];
     SGroup 15794 1 [sym__ppEndIf]; AGroup 3 2 syms_5]);
   (546454, 4, [AGroup 18739 2 syms_110; AGroup 26034 2 syms_186; SGroup 11584 2 syms_187; AGroup 3 3 syms_1]);
   (546472, 3, [AGroup 26091 1 [anon_sym_COLON]; AGroup 3 3 syms_1; AGroup 25621 5 syms_313]);
   (546488, 2, [AGroup 3 3 syms_1; AGroup 26087 6 syms_45]);
   (546502, 2, [AGroup 3 3 syms_1; AGroup 23901 6 syms_787]);
   (546516, 3, [AGroup 25879 1 [anon_sym_SEMI]; AGroup 3 3 syms_1; AGroup 17240 5 syms_60]);
   (546532, 3, [AGroup 25883 1 [anon_sym_SEMI]; AGroup 3 3 syms_1; AGroup 15293 5 syms_60]);
   (546548, 3, [AGroup 26093 1 [anon_sym_COLON]; AGroup 3 3 syms_1; AGroup 25621 5 syms_313]);
   (546564, 2, [AGroup 3 3 syms_1; AGroup 25657 6 syms_534]);
   (546578, 2, [AGroup 3 3 syms_1; AGroup 25659 6 syms_534]);
   (546592, 3, [AGroup 26095 1 [anon_sym_COLON]; AGroup 3 3 syms_1; AGroup 25621 5 syms_313]);
   (546608, 2, [AGroup 3 3 syms_1; AGroup 25897 6 syms_790]);
   (546622, 3, [AGroup 25857 1 [anon_sym_SEMI]; AGroup 3 3 syms_1; AGroup 25859 5 syms_60]);
   (546638, 3, [AGroup 18693 1 [sym_kElse]; AGroup 3 3 syms_1; AGroup 26097 5 syms_60]);
   (546654, 4, [AGroup 24820 1 [sym_kOperator]; AGroup 26099 1 [sym_kProperty]; AGroup 3 3 syms_1;
     AGroup 24955 4 syms_3]);
   (546672, 4, [AGroup 26101 1 [anon_sym_COLON]; AGroup 26103 1 [sym_kOf]; AGroup 3 3 syms_1;
     AGroup 24286 4 syms_90]);
   (546690, 2, [AGroup 3 3 syms_1; AGroup 23883 6 syms_787]);
   (546704, 2, [AGroup 3 3 syms_1; AGroup 25661 6 syms_534]);
   (546718, 3, [AGroup 26105 1 [sym_kIn]; AGroup 3 3 syms_1; AGroup 21753 5 syms_313]);
   (546734, 5, [AGroup 25695 1 [sym_identifier]; SGroup 11580 1 [aux_sym_declExports_repeat1];
     SGroup 13559 1 [sym_declExport]; AGroup 3 3 syms_1; SGroup 11358 3 syms_2]);
   (546754, 3, [AGroup 25783 1 [anon_sym_SEMI]; AGroup 3 3 syms_1; AGroup 25785 5 syms_60]);
   (546770, 2, [AGroup 3 3 syms_1; AGroup 25645 6 syms_534]);
   (546784, 3, [AGroup 5 1 [sym_ppDirective]; AGroup 3 2 syms_5; AGroup 21751 6 syms_778]);
   (546800, 3, [AGroup 18672 1 [sym_kElse]; AGroup 3 3 syms_1; AGroup 26097 5 syms_60]);
   (546816, 3, [AGroup 25873 1 [anon_sym_SEMI]; AGroup 3 3 syms_1; AGroup 25875 5 syms_60]);
   (546832, 7, [AGroup 5 1 [sym_ppDirective]; AGroup 26040 1 [anon_sym_LPAREN];
     AGroup 26107 1 [anon_sym_COLON]; AGroup 26109 1 [sym_kOf]; SGroup 12316 1 [sym_declArgs];
     AGroup 3 2 syms_5; AGroup 24090 2 syms_44]);
   (546856, 3, [AGroup 25891 1 [anon_sym_SEMI]; AGroup 3 3 syms_1; AGroup 17254 5 syms_60]);
   (546872, 3, [AGroup 26111 1 [anon_sym_COLON]; AGroup 3 3 syms_1; AGroup 25621 5 syms_313]);
   (546888, 3, [AGroup 25789 1 [anon_sym_SEMI]; AGroup 3 3 syms_1; AGroup 25791 5 syms_60]);
   (546904, 7, [AGroup 5 1 [sym_ppDirective]; AGroup 21299 1 [anon_sym_DOT];
     AGroup 24026 1 [sym_kDeprecated]; AGroup 26083 1 [sym_kLt]; SGroup 11268 1 [sym_kDot];
     AGroup 3 2 syms_5; AGroup 21297 2 syms_44]);
   (546928, 2, [AGroup 3 3 syms_1; AGroup 24242 6 syms_61]);
   (546942, 3, [AGroup 26113 1 [sym_kIn]; AGroup 3 3 syms_1; AGroup 21753 5 syms_313]);
   (546958, 4, [AGroup 24658 1 [sym_kOperator]; AGroup 26115 1 [sym_kProperty]; AGroup 3 3 syms_1;
     AGroup 24662 4 syms_3]);
   (546976, 2, [AGroup 3 3 syms_1; AGroup 26117 6 syms_45]);
   (546990, 3, [AGroup 18699 1 [sym_kElse]; AGroup 3 3 syms_1; AGroup 26097 5 syms_60]);
   (547006, 3, [AGroup 25837 1 [anon_sym_SEMI]; AGroup 3 3 syms_1; AGroup 25799 5 syms_60]);
   (547022, 3, [AGroup 5 1 [sym_ppDirective]; AGroup 3 2 syms_5; AGroup 26119 6 syms_748]);
   (547038, 3, [AGroup 26121 1 [sym_kIn]; AGroup 3 3 syms_1; AGroup 21753 5 syms_313]);
   (547054, 3, [AGroup 25803 1 [anon_sym_SEMI]; AGroup 3 3 syms_1; AGroup 25591 5 syms_60]);
   (547070, 4, [AGroup 5 1 [sym_ppDirective]; SGroup 11268 1 [sym_kDot]; AGroup 3 2 syms_5;
     AGroup 21181 5 syms_791]);
   (547088, 4, [AGroup 24550 1 [sym_kOperator]; AGroup 26125 1 [sym_kProperty]; AGroup 3 3 syms_1;
     AGroup 26123 4 syms_3]);
   (547106, 3, [AGroup 26127 1 [anon_sym_COLON]; AGroup 3 3 syms_1; AGroup 25621 5 syms_313]);
   (547122, 3, [AGroup 25805 1 [anon_sym_SEMI]; AGroup 3 3 syms_1; AGroup 25609 5 syms_60]);
   (547138, 3, [AGroup 26129 1 [sym_kIn]; AGroup 3 3 syms_1; AGroup 21753 5 syms_313]);
   (547154, 3, [AGroup 26131 1 [sym_kIn]; AGroup 3 3 syms_1; AGroup 21753 5 syms_313]);
   (547170, 3, [AGroup 26133 1 [sym_kIn]; AGroup 3 3 syms_1; AGroup 21753 5 syms_313]);
   (547186, 3, [AGroup 26135 1 [sym_kIn]; AGroup 3 3 syms_1; AGroup 21753 5 syms_313]);
   (547202, 3, [AGroup 26137 1 [sym_kIn]; AGroup 3 3 syms_1; AGroup 21753 5 syms_313]);
   (547218, 6, [AGroup 26063 1 [anon_sym_COMMA]; AGroup 26065 1 [sym_kEq]; AGroup 26141 1 [anon_sym_COLON];
     SGroup 13790 1 [sym_defaultValue]; AGroup 26139 2 syms_789; AGroup 3 3 syms_1]);
   (547240, 2, [AGroup 3 3 syms_1; AGroup 25673 6 syms_534]);
   (547254, 3, [AGroup 26143 1 [sym_kIn]; AGroup 3 3 syms_1; AGroup 21753 5 syms_313]);
   (547270, 3, [AGroup 26145 1 [sym_kIn]; AGroup 3 3 syms_1; AGroup 21753 5 syms_313]);
   (547286, 3, [AGroup 26147 1 [sym_kIn]; AGroup 3 3 syms_1; AGroup 21753 5 syms_313]);
   (547302, 3, [AGroup 26149 1 [sym_kIn]; AGroup 3 3 syms_1; AGroup 21753 5 syms_313]);
   (547318, 3, [AGroup 26151 1 [sym_kIn]; AGroup 3 3 syms_1; AGroup 21753 5 syms_313]);
   (547334, 3, [AGroup 26153 1 [sym_kIn]; AGroup 3 3 syms_1; AGroup 21753 5 syms_313]);
   (547350, 3, [AGroup 26155 1 [sym_kIn]; AGroup 3 3 syms_1; AGroup 21753 5 syms_313]);
   (547366, 8, [AGroup 5 1 [sym_ppDirective]; AGroup 26017 1 [anon_sym_SEMI];
     AGroup 26019 1 [aux_sym_ppUsesBlock_token2]; AGroup 26021 1 [aux_sym_ppUsesBlock_token3];
     SGroup 5636 1 [sym__ppElse]; SGroup 11847 1 [aux_sym__procAttributeNoExt_repeat1];
     SGroup 15519 1 [sym__ppEndIf]; AGroup 3 2 syms_5]);
   (547392, 3, [AGroup 26157 1 [sym_kIn]; AGroup 3 3 syms_1; AGroup 21753 5 syms_313]);
   (547408, 2, [AGroup 3 3 syms_1; AGroup 24240 6 syms_534]);
   (547422, 3, [AGroup 26159 1 [sym_kIn]; AGroup 3 3 syms_1; AGroup 21753 5 syms_313]);
   (547438, 3, [AGroup 26161 1 [sym_kIn]; AGroup 3 3 syms_1; AGroup 21753 5 syms_313]);
   (547454, 3, [AGroup 26163 1 [sym_kIn]; AGroup 3 3 syms_1; AGroup 21753 5 syms_313]);
   (547470, 3, [AGroup 26165 1 [sym_kIn]; AGroup 3 3 syms_1; AGroup 21753 5 syms_313]);
   (547486, 3, [AGroup 26167 1 [sym_kIn]; AGroup 3 3 syms_1; AGroup 21753 5 syms_313]);
   (547502, 3, [AGroup 26169 1 [sym_kIn]; AGroup 3 3 syms_1; AGroup 21753 5 syms_313]);
   (547518, 3, [AGroup 26171 1 [sym_kIn]; AGroup 3 3 syms_1; AGroup 21753 5 syms_313]);
   (547534, 3, [AGroup 26173 1 [sym_kIn]; AGroup 3 3 syms_1; AGroup 21753 5 syms_313]);
   (547550, 3, [AGroup 24240 1 [anon_sym_SEMI]; AGroup 3 3 syms_1; AGroup 24242 5 syms_313]);
   (547566, 3, [AGroup 26175 1 [sym_kIn]; AGroup 3 3 syms_1; AGroup 21753 5 syms_313]);
   (547582, 3, [AGroup 26177 1 [sym_kIn]; AGroup 3 3 syms_1; AGroup 21753 5 syms_313])
  ].

(** States 11659 to 11758. *)
Definition small_runs_11659 : list small_run :=
  [
   (547598, 3, [AGroup 26179 1 [sym_kIn]; AGroup 3 3 syms_1; AGroup 21753 5 syms_313]);
   (547614, 3, [AGroup 26181 1 [sym_kIn]; AGroup 3 3 syms_1; AGroup 21753 5 syms_313]);
   (547630, 3, [AGroup 26183 1 [sym_kIn]; AGroup 3 3 syms_1; AGroup 21753 5 syms_313]);
   (547646, 3, [AGroup 26185 1 [sym_kIn]; AGroup 3 3 syms_1; AGroup 21753 5 syms_313]);
   (547662, 4, [AGroup 26189 1 [sym_kEnd]; SGroup 11568 1 [aux_sym_asmBody_repeat1]; AGroup 3 3 syms_1;
     AGroup 26187 4 syms_777]);
   (547680, 2, [AGroup 3 3 syms_1; AGroup 4439 6 syms_45]);
   (547694, 3, [AGroup 26009 1 [anon_sym_SEMI]; AGroup 3 3 syms_1; AGroup 25687 5 syms_60]);
   (547710, 3, [AGroup 26191 1 [sym_kIn]; AGroup 3 3 syms_1; AGroup 21753 5 syms_313]);
   (547726, 4, [AGroup 5 1 [sym_ppDirective]; SGroup 11268 1 [sym_kDot]; AGroup 3 2 syms_5;
     AGroup 21269 5 syms_791]);
   (547744, 3, [AGroup 26193 1 [sym_kIn]; AGroup 3 3 syms_1; AGroup 21753 5 syms_313]);
   (547760, 3, [AGroup 5 1 [sym_ppDirective]; AGroup 3 2 syms_5; AGroup 26195 6 syms_748]);
   (547776, 3, [AGroup 26197 1 [sym_kIn]; AGroup 3 3 syms_1; AGroup 21753 5 syms_313]);
   (547792, 3, [AGroup 26199 1 [sym_kIn]; AGroup 3 3 syms_1; AGroup 21753 5 syms_313]);
   (547808, 6, [AGroup 21299 1 [anon_sym_DOT]; AGroup 24508 1 [sym_kLt]; AGroup 26201 1 [sym_kDeprecated];
     SGroup 11349 1 [sym_kDot]; AGroup 21297 2 syms_129; AGroup 3 3 syms_1]);
   (547830, 3, [AGroup 26203 1 [sym_kIn]; AGroup 3 3 syms_1; AGroup 21753 5 syms_313]);
   (547846, 3, [AGroup 25895 1 [anon_sym_SEMI]; AGroup 3 3 syms_1; AGroup 15353 5 syms_60]);
   (547862, 3, [AGroup 26205 1 [sym_kIn]; AGroup 3 3 syms_1; AGroup 21753 5 syms_313]);
   (547878, 3, [AGroup 26207 1 [sym_kIn]; AGroup 3 3 syms_1; AGroup 21753 5 syms_313]);
   (547894, 2, [AGroup 3 3 syms_1; AGroup 25675 6 syms_534]);
   (547908, 3, [AGroup 25825 1 [anon_sym_SEMI]; AGroup 3 3 syms_1; AGroup 25717 5 syms_60]);
   (547924, 3, [AGroup 5 1 [sym_ppDirective]; AGroup 3 2 syms_5; AGroup 21887 6 syms_778]);
   (547940, 3, [AGroup 25827 1 [anon_sym_SEMI]; AGroup 3 3 syms_1; AGroup 25721 5 syms_60]);
   (547956, 5, [AGroup 25695 1 [sym_identifier]; SGroup 11580 1 [aux_sym_declExports_repeat1];
     SGroup 13045 1 [sym_declExport]; AGroup 3 3 syms_1; SGroup 11358 3 syms_2]);
   (547976, 3, [AGroup 25829 1 [anon_sym_SEMI]; AGroup 3 3 syms_1; AGroup 25739 5 syms_60]);
   (547992, 6, [AGroup 21299 1 [anon_sym_DOT]; AGroup 24508 1 [sym_kLt]; AGroup 26209 1 [sym_kDeprecated];
     SGroup 11349 1 [sym_kDot]; AGroup 21307 2 syms_129; AGroup 3 3 syms_1]);
   (548014, 2, [AGroup 3 3 syms_1; AGroup 21137 5 syms_313]);
   (548027, 6, [AGroup 21299 1 [anon_sym_DOT]; AGroup 26211 1 [anon_sym_COMMA]; AGroup 26213 1 [sym_kLt];
     AGroup 26215 1 [sym_kGt]; SGroup 11343 1 [sym_kDot]; AGroup 3 3 syms_1]);
   (548048, 7, [AGroup 5 1 [sym_ppDirective]; AGroup 57 1 [aux_sym_ppUsesBlock_token2];
     AGroup 193 1 [aux_sym_ppUsesBlock_token3]; SGroup 52 1 [sym__ppElse];
     SGroup 2566 1 [sym__ppEndIf]; SGroup 12373 1 [aux_sym_ppBlock_repeat2]; AGroup 3 2 syms_5]);
   (548071, 7, [AGroup 5 1 [sym_ppDirective]; AGroup 57 1 [aux_sym_ppUsesBlock_token2];
     AGroup 193 1 [aux_sym_ppUsesBlock_token3]; SGroup 52 1 [sym__ppElse];
     SGroup 2572 1 [sym__ppEndIf]; SGroup 12373 1 [aux_sym_ppBlock_repeat2]; AGroup 3 2 syms_5]);
   (548094, 7, [AGroup 5 1 [sym_ppDirective]; AGroup 15331 1 [aux_sym_ppUsesBlock_token2];
     AGroup 15351 1 [aux_sym_ppUsesBlock_token3]; SGroup 3321 1 [sym__ppElse];
     SGroup 4030 1 [sym__ppEndIf]; SGroup 12236 1 [aux_sym__procAttributesPp_repeat2];
     AGroup 3 2 syms_5]);
   (548117, 6, [AGroup 21299 1 [anon_sym_DOT]; AGroup 26211 1 [anon_sym_COMMA]; AGroup 26213 1 [sym_kLt];
     AGroup 26217 1 [sym_kGt]; SGroup 11343 1 [sym_kDot]; AGroup 3 3 syms_1]);
   (548138, 4, [AGroup 24916 1 [sym_kEq]; SGroup 12575 1 [sym_defaultValue]; AGroup 3 3 syms_1;
     AGroup 26219 3 syms_667]);
   (548155, 7, [AGroup 5 1 [sym_ppDirective]; AGroup 26221 1 [aux_sym_ppUsesBlock_token2];
     AGroup 26223 1 [aux_sym_ppUsesBlock_token3]; SGroup 4025 1 [sym__ppElse];
     SGroup 11153 1 [sym__ppEndIf]; SGroup 11721 1 [aux_sym_type_repeat1]; AGroup 3 2 syms_5]);
   (548178, 4, [AGroup 5 1 [sym_ppDirective]; AGroup 26225 1 [anon_sym_LPAREN]; AGroup 3 2 syms_5;
     AGroup 21751 4 syms_792]);
   (548195, 6, [AGroup 21299 1 [anon_sym_DOT]; AGroup 26211 1 [anon_sym_COMMA]; AGroup 26213 1 [sym_kLt];
     AGroup 26227 1 [sym_kGt]; SGroup 11343 1 [sym_kDot]; AGroup 3 3 syms_1]);
   (548216, 6, [AGroup 26229 1 [anon_sym_LBRACK]; AGroup 26231 1 [sym_identifier];
     SGroup 12776 1 [aux_sym_rttiAttributes_repeat2];
     SGroup 13294 1 [aux_sym_genericArg_repeat1]; SGroup 13301 1 [sym_rttiAttributes];
     AGroup 3 3 syms_1]);
   (548237, 6, [AGroup 21299 1 [anon_sym_DOT]; AGroup 26211 1 [anon_sym_COMMA]; AGroup 26213 1 [sym_kLt];
     AGroup 26233 1 [sym_kGt]; SGroup 11343 1 [sym_kDot]; AGroup 3 3 syms_1]);
   (548258, 4, [AGroup 24916 1 [sym_kEq]; SGroup 12576 1 [sym_defaultValue]; AGroup 3 3 syms_1;
     AGroup 26235 3 syms_667]);
   (548275, 3, [AGroup 26237 1 [sym_kOf]; AGroup 3 3 syms_1; AGroup 24900 4 syms_90]);
   (548290, 4, [SGroup 11698 1 [aux_sym_declExport_repeat1]; AGroup 22335 2 syms_668;
     AGroup 26239 2 syms_78; AGroup 3 3 syms_1]);
   (548307, 7, [AGroup 5 1 [sym_ppDirective]; AGroup 11062 1 [aux_sym_ppUsesBlock_token2];
     AGroup 11108 1 [aux_sym_ppUsesBlock_token3]; SGroup 1392 1 [sym__ppElse];
     SGroup 6341 1 [sym__ppEndIf]; SGroup 12425 1 [aux_sym__ppStatementBlock_repeat2];
     AGroup 3 2 syms_5]);
   (548330, 6, [AGroup 21299 1 [anon_sym_DOT]; AGroup 26211 1 [anon_sym_COMMA]; AGroup 26213 1 [sym_kLt];
     AGroup 26242 1 [sym_kGt]; SGroup 11343 1 [sym_kDot]; AGroup 3 3 syms_1]);
   (548351, 6, [AGroup 21299 1 [anon_sym_DOT]; AGroup 26211 1 [anon_sym_COMMA]; AGroup 26213 1 [sym_kLt];
     AGroup 26244 1 [sym_kGt]; SGroup 11343 1 [sym_kDot]; AGroup 3 3 syms_1]);
   (548372, 4, [AGroup 5 1 [sym_ppDirective]; AGroup 26246 1 [anon_sym_LPAREN]; AGroup 3 2 syms_5;
     AGroup 21751 4 syms_792]);
   (548389, 6, [AGroup 21299 1 [anon_sym_DOT]; AGroup 26211 1 [anon_sym_COMMA]; AGroup 26213 1 [sym_kLt];
     AGroup 26248 1 [sym_kGt]; SGroup 11343 1 [sym_kDot]; AGroup 3 3 syms_1]);
   (548410, 6, [AGroup 21299 1 [anon_sym_DOT]; AGroup 26211 1 [anon_sym_COMMA]; AGroup 26213 1 [sym_kLt];
     AGroup 26250 1 [sym_kGt]; SGroup 11343 1 [sym_kDot]; AGroup 3 3 syms_1]);
   (548431, 7, [AGroup 5 1 [sym_ppDirective]; AGroup 57 1 [aux_sym_ppUsesBlock_token2];
     AGroup 185 1 [aux_sym_ppUsesBlock_token3]; SGroup 52 1 [sym__ppElse];
     SGroup 2714 1 [sym__ppEndIf]; SGroup 12373 1 [aux_sym_ppBlock_repeat2]; AGroup 3 2 syms_5]);
   (548454, 6, [AGroup 21299 1 [anon_sym_DOT]; AGroup 26211 1 [anon_sym_COMMA]; AGroup 26213 1 [sym_kLt];
     AGroup 26252 1 [sym_kGt]; SGroup 11343 1 [sym_kDot]; AGroup 3 3 syms_1]);
   (548475, 4, [AGroup 5 1 [sym_ppDirective]; AGroup 26254 1 [anon_sym_LPAREN]; AGroup 3 2 syms_5;
     AGroup 21751 4 syms_792]);
   (548492, 6, [AGroup 21299 1 [anon_sym_DOT]; AGroup 26211 1 [anon_sym_COMMA]; AGroup 26213 1 [sym_kLt];
     AGroup 26256 1 [sym_kGt]; SGroup 11343 1 [sym_kDot]; AGroup 3 3 syms_1]);
   (548513, 6, [AGroup 21299 1 [anon_sym_DOT]; AGroup 26211 1 [anon_sym_COMMA]; AGroup 26213 1 [sym_kLt];
     AGroup 26258 1 [sym_kGt]; SGroup 11343 1 [sym_kDot]; AGroup 3 3 syms_1]);
   (548534, 2, [AGroup 3 3 syms_1; AGroup 4439 5 syms_60]);
   (548547, 3, [SGroup 11290 1 [sym_kDot]; AGroup 3 3 syms_1; AGroup 21181 4 syms_793]);
   (548562, 4, [AGroup 5 1 [sym_ppDirective]; AGroup 26260 1 [anon_sym_LPAREN]; AGroup 3 2 syms_5;
     AGroup 21751 4 syms_792]);
   (548579, 6, [AGroup 21299 1 [anon_sym_DOT]; AGroup 26211 1 [anon_sym_COMMA]; AGroup 26213 1 [sym_kLt];
     AGroup 26262 1 [sym_kGt]; SGroup 11343 1 [sym_kDot]; AGroup 3 3 syms_1]);
   (548600, 6, [AGroup 21299 1 [anon_sym_DOT]; AGroup 26211 1 [anon_sym_COMMA]; AGroup 26213 1 [sym_kLt];
     AGroup 26264 1 [sym_kGt]; SGroup 11343 1 [sym_kDot]; AGroup 3 3 syms_1]);
   (548621, 7, [AGroup 5 1 [sym_ppDirective]; AGroup 26221 1 [aux_sym_ppUsesBlock_token2];
     AGroup 26266 1 [aux_sym_ppUsesBlock_token3]; SGroup 4025 1 [sym__ppElse];
     SGroup 11811 1 [aux_sym_type_repeat1]; SGroup 12536 1 [sym__ppEndIf]; AGroup 3 2 syms_5]);
   (548644, 7, [AGroup 5 1 [sym_ppDirective]; AGroup 15331 1 [aux_sym_ppUsesBlock_token2];
     AGroup 15351 1 [aux_sym_ppUsesBlock_token3]; SGroup 3321 1 [sym__ppElse];
     SGroup 3835 1 [sym__ppEndIf]; SGroup 12236 1 [aux_sym__procAttributesPp_repeat2];
     AGroup 3 2 syms_5]);
   (548667, 4, [AGroup 5 1 [sym_ppDirective]; AGroup 26268 1 [anon_sym_LPAREN]; AGroup 3 2 syms_5;
     AGroup 21751 4 syms_792]);
   (548684, 6, [AGroup 21299 1 [anon_sym_DOT]; AGroup 26211 1 [anon_sym_COMMA]; AGroup 26213 1 [sym_kLt];
     AGroup 26270 1 [sym_kGt]; SGroup 11343 1 [sym_kDot]; AGroup 3 3 syms_1]);
   (548705, 6, [AGroup 21299 1 [anon_sym_DOT]; AGroup 26211 1 [anon_sym_COMMA]; AGroup 26213 1 [sym_kLt];
     AGroup 26272 1 [sym_kGt]; SGroup 11343 1 [sym_kDot]; AGroup 3 3 syms_1]);
   (548726, 4, [AGroup 5 1 [sym_ppDirective]; AGroup 26274 1 [anon_sym_LPAREN]; AGroup 3 2 syms_5;
     AGroup 21751 4 syms_792]);
   (548743, 7, [AGroup 5 1 [sym_ppDirective]; AGroup 26221 1 [aux_sym_ppUsesBlock_token2];
     AGroup 26223 1 [aux_sym_ppUsesBlock_token3]; SGroup 4025 1 [sym__ppElse];
     SGroup 11117 1 [sym__ppEndIf]; SGroup 12382 1 [aux_sym_type_repeat1]; AGroup 3 2 syms_5]);
   (548766, 4, [AGroup 5 1 [sym_ppDirective]; AGroup 26276 1 [anon_sym_LPAREN]; AGroup 3 2 syms_5;
     AGroup 21751 4 syms_792]);
   (548783, 6, [AGroup 21299 1 [anon_sym_DOT]; AGroup 26211 1 [anon_sym_COMMA]; AGroup 26213 1 [sym_kLt];
     AGroup 26278 1 [sym_kGt]; SGroup 11343 1 [sym_kDot]; AGroup 3 3 syms_1]);
   (548804, 6, [AGroup 21299 1 [anon_sym_DOT]; AGroup 26211 1 [anon_sym_COMMA]; AGroup 26213 1 [sym_kLt];
     AGroup 26280 1 [sym_kGt]; SGroup 11343 1 [sym_kDot]; AGroup 3 3 syms_1]);
   (548825, 2, [AGroup 3 3 syms_1; AGroup 18739 5 syms_60]);
   (548838, 6, [AGroup 21299 1 [anon_sym_DOT]; AGroup 26211 1 [anon_sym_COMMA]; AGroup 26213 1 [sym_kLt];
     AGroup 26282 1 [sym_kGt]; SGroup 11343 1 [sym_kDot]; AGroup 3 3 syms_1]);
   (548859, 4, [AGroup 26284 1 [anon_sym_COLON]; AGroup 26286 1 [sym_kOf]; AGroup 3 3 syms_1;
     AGroup 24270 3 syms_117]);
   (548876, 4, [AGroup 5 1 [sym_ppDirective]; AGroup 26288 1 [anon_sym_LPAREN]; AGroup 3 2 syms_5;
     AGroup 21751 4 syms_792]);
   (548893, 6, [AGroup 21299 1 [anon_sym_DOT]; AGroup 26211 1 [anon_sym_COMMA]; AGroup 26213 1 [sym_kLt];
     AGroup 26290 1 [sym_kGt]; SGroup 11343 1 [sym_kDot]; AGroup 3 3 syms_1]);
   (548914, 6, [AGroup 21299 1 [anon_sym_DOT]; AGroup 26211 1 [anon_sym_COMMA]; AGroup 26213 1 [sym_kLt];
     AGroup 26292 1 [sym_kGt]; SGroup 11343 1 [sym_kDot]; AGroup 3 3 syms_1]);
   (548935, 6, [AGroup 21299 1 [anon_sym_DOT]; AGroup 26211 1 [anon_sym_COMMA]; AGroup 26213 1 [sym_kLt];
     AGroup 26294 1 [sym_kGt]; SGroup 11343 1 [sym_kDot]; AGroup 3 3 syms_1]);
   (548956, 7, [AGroup 5 1 [sym_ppDirective]; AGroup 57 1 [aux_sym_ppUsesBlock_token2];
     AGroup 185 1 [aux_sym_ppUsesBlock_token3]; SGroup 52 1 [sym__ppElse];
     SGroup 2727 1 [sym__ppEndIf]; SGroup 12373 1 [aux_sym_ppBlock_repeat2]; AGroup 3 2 syms_5]);
   (548979, 4, [AGroup 5 1 [sym_ppDirective]; AGroup 26296 1 [anon_sym_LPAREN]; AGroup 3 2 syms_5;
     AGroup 21751 4 syms_792]);
   (548996, 6, [AGroup 21299 1 [anon_sym_DOT]; AGroup 26211 1 [anon_sym_COMMA]; AGroup 26213 1 [sym_kLt];
     AGroup 26298 1 [sym_kGt]; SGroup 11343 1 [sym_kDot]; AGroup 3 3 syms_1]);
   (549017, 6, [AGroup 21299 1 [anon_sym_DOT]; AGroup 26211 1 [anon_sym_COMMA]; AGroup 26213 1 [sym_kLt];
     AGroup 26300 1 [sym_kGt]; SGroup 11343 1 [sym_kDot]; AGroup 3 3 syms_1]);
   (549038, 3, [SGroup 11343 1 [sym_kDot]; AGroup 3 3 syms_1; AGroup 21181 4 syms_792]);
   (549053, 7, [AGroup 5 1 [sym_ppDirective]; AGroup 57 1 [aux_sym_ppUsesBlock_token2];
     AGroup 135 1 [aux_sym_ppUsesBlock_token3]; SGroup 52 1 [sym__ppElse];
     SGroup 10121 1 [sym__ppEndIf]; SGroup 12373 1 [aux_sym_ppBlock_repeat2]; AGroup 3 2 syms_5]);
   (549076, 4, [AGroup 5 1 [sym_ppDirective]; AGroup 26302 1 [anon_sym_LPAREN]; AGroup 3 2 syms_5;
     AGroup 21751 4 syms_792]);
   (549093, 6, [AGroup 21299 1 [anon_sym_DOT]; AGroup 26211 1 [anon_sym_COMMA]; AGroup 26213 1 [sym_kLt];
     AGroup 26304 1 [sym_kGt]; SGroup 11343 1 [sym_kDot]; AGroup 3 3 syms_1]);
   (549114, 6, [AGroup 21299 1 [anon_sym_DOT]; AGroup 26211 1 [anon_sym_COMMA]; AGroup 26213 1 [sym_kLt];
     AGroup 26306 1 [sym_kGt]; SGroup 11343 1 [sym_kDot]; AGroup 3 3 syms_1]);
   (549135, 7, [AGroup 5 1 [sym_ppDirective]; AGroup 57 1 [aux_sym_ppUsesBlock_token2];
     AGroup 135 1 [aux_sym_ppUsesBlock_token3]; SGroup 52 1 [sym__ppElse];
     SGroup 10147 1 [sym__ppEndIf]; SGroup 12373 1 [aux_sym_ppBlock_repeat2]; AGroup 3 2 syms_5]);
   (549158, 4, [AGroup 5 1 [sym_ppDirective]; AGroup 26308 1 [anon_sym_LPAREN]; AGroup 3 2 syms_5;
     AGroup 21751 4 syms_792]);
   (549175, 6, [AGroup 21299 1 [anon_sym_DOT]; AGroup 26211 1 [anon_sym_COMMA]; AGroup 26213 1 [sym_kLt];
     AGroup 26310 1 [sym_kGt]; SGroup 11343 1 [sym_kDot]; AGroup 3 3 syms_1]);
   (549196, 6, [AGroup 21299 1 [anon_sym_DOT]; AGroup 26211 1 [anon_sym_COMMA]; AGroup 26213 1 [sym_kLt];
     AGroup 26312 1 [sym_kGt]; SGroup 11343 1 [sym_kDot]; AGroup 3 3 syms_1]);
   (549217, 7, [AGroup 5 1 [sym_ppDirective]; AGroup 157 1 [aux_sym_ppUsesBlock_token3];
     AGroup 26314 1 [aux_sym_ppUsesBlock_token2]; SGroup 6367 1 [sym__ppElse];
     SGroup 10440 1 [sym__ppEndIf]; SGroup 12109 1 [aux_sym__defProcBody_repeat1];
     AGroup 3 2 syms_5]);
   (549240, 3, [AGroup 26316 1 [anon_sym_COLON]; AGroup 3 3 syms_1; AGroup 16974 4 syms_794]);
   (549255, 4, [AGroup 5 1 [sym_ppDirective]; AGroup 26318 1 [anon_sym_LPAREN]; AGroup 3 2 syms_5;
     AGroup 21751 4 syms_792]);
   (549272, 6, [AGroup 21299 1 [anon_sym_DOT]; AGroup 26211 1 [anon_sym_COMMA]; AGroup 26213 1 [sym_kLt];
     AGroup 26320 1 [sym_kGt]; SGroup 11343 1 [sym_kDot]; AGroup 3 3 syms_1]);
   (549293, 6, [AGroup 21299 1 [anon_sym_DOT]; AGroup 26211 1 [anon_sym_COMMA]; AGroup 26213 1 [sym_kLt];
     AGroup 26322 1 [sym_kGt]; SGroup 11343 1 [sym_kDot]; AGroup 3 3 syms_1]);
   (549314, 4, [AGroup 5 1 [sym_ppDirective]; AGroup 26324 1 [anon_sym_LPAREN]; AGroup 3 2 syms_5;
     AGroup 21751 4 syms_792]);
   (549331, 6, [AGroup 21299 1 [anon_sym_DOT]; AGroup 26211 1 [anon_sym_COMMA]; AGroup 26213 1 [sym_kLt];
     AGroup 26326 1 [sym_kGt]; SGroup 11343 1 [sym_kDot]; AGroup 3 3 syms_1]);
   (549352, 6, [AGroup 21299 1 [anon_sym_DOT]; AGroup 26211 1 [anon_sym_COMMA]; AGroup 26213 1 [sym_kLt];
     AGroup 26328 1 [sym_kGt]; SGroup 11343 1 [sym_kDot]; AGroup 3 3 syms_1]);
   (549373, 7, [AGroup 5 1 [sym_ppDirective]; AGroup 57 1 [aux_sym_ppUsesBlock_token2];
     AGroup 147 1 [aux_sym_ppUsesBlock_token3]; SGroup 52 1 [sym__ppElse];
     SGroup 1366 1 [sym__ppEndIf]; SGroup 12373 1 [aux_sym_ppBlock_repeat2]; AGroup 3 2 syms_5]);
   (549396, 7, [AGroup 5 1 [sym_ppDirective]; AGroup 57 1 [aux_sym_ppUsesBlock_token2];
     AGroup 147 1 [aux_sym_ppUsesBlock_token3]; SGroup 52 1 [sym__ppElse];
     SGroup 1314 1 [sym__ppEndIf]; SGroup 12373 1 [aux_sym_ppBlock_repeat2]; AGroup 3 2 syms_5]);
   (549419, 7, [AGroup 5 1 [sym_ppDirective]; AGroup 139 1 [aux_sym_ppUsesBlock_token3];
     AGroup 26314 1 [aux_sym_ppUsesBlock_token2]; SGroup 6367 1 [sym__ppElse];
     SGroup 10455 1 [sym__ppEndIf]; SGroup 11756 1 [aux_sym__defProcBody_repeat1];
     AGroup 3 2 syms_5]);
   (549442, 7, [AGroup 5 1 [sym_ppDirective]; AGroup 139 1 [aux_sym_ppUsesBlock_token3];
     AGroup 26314 1 [aux_sym_ppUsesBlock_token2]; SGroup 6367 1 [sym__ppElse];
     SGroup 10478 1 [sym__ppEndIf]; SGroup 12109 1 [aux_sym__defProcBody_repeat1];
     AGroup 3 2 syms_5]);
   (549465, 4, [AGroup 5 1 [sym_ppDirective]; AGroup 26330 1 [anon_sym_LPAREN]; AGroup 3 2 syms_5;
     AGroup 21751 4 syms_792]);
   (549482, 6, [AGroup 21299 1 [anon_sym_DOT]; AGroup 26211 1 [anon_sym_COMMA]; AGroup 26213 1 [sym_kLt];
     AGroup 26332 1 [sym_kGt]; SGroup 11343 1 [sym_kDot]; AGroup 3 3 syms_1])
  ].

(** States 11759 to 11858. *)
Definition small_runs_11759 : list small_run :=
  [
   (549503, 6, [AGroup 21299 1 [anon_sym_DOT]; AGroup 26211 1 [anon_sym_COMMA]; AGroup 26213 1 [sym_kLt];
     AGroup 26334 1 [sym_kGt]; SGroup 11343 1 [sym_kDot]; AGroup 3 3 syms_1]);
   (549524, 2, [AGroup 3 3 syms_1; AGroup 23889 5 syms_795]);
   (549537, 2, [AGroup 3 3 syms_1; AGroup 26117 5 syms_60]);
   (549550, 6, [AGroup 21299 1 [anon_sym_DOT]; AGroup 26211 1 [anon_sym_COMMA]; AGroup 26213 1 [sym_kLt];
     AGroup 26336 1 [sym_kGt]; SGroup 11343 1 [sym_kDot]; AGroup 3 3 syms_1]);
   (549571, 4, [AGroup 5 1 [sym_ppDirective]; AGroup 26338 1 [anon_sym_LPAREN]; AGroup 3 2 syms_5;
     AGroup 21751 4 syms_792]);
   (549588, 6, [AGroup 21299 1 [anon_sym_DOT]; AGroup 26211 1 [anon_sym_COMMA]; AGroup 26213 1 [sym_kLt];
     AGroup 26340 1 [sym_kGt]; SGroup 11343 1 [sym_kDot]; AGroup 3 3 syms_1]);
   (549609, 6, [AGroup 21299 1 [anon_sym_DOT]; AGroup 26211 1 [anon_sym_COMMA]; AGroup 26213 1 [sym_kLt];
     AGroup 26342 1 [sym_kGt]; SGroup 11343 1 [sym_kDot]; AGroup 3 3 syms_1]);
   (549630, 4, [AGroup 5 1 [sym_ppDirective]; AGroup 26344 1 [anon_sym_LPAREN]; AGroup 3 2 syms_5;
     AGroup 21751 4 syms_792]);
   (549647, 6, [AGroup 21299 1 [anon_sym_DOT]; AGroup 26211 1 [anon_sym_COMMA]; AGroup 26213 1 [sym_kLt];
     AGroup 26346 1 [sym_kGt]; SGroup 11343 1 [sym_kDot]; AGroup 3 3 syms_1]);
   (549668, 6, [AGroup 21299 1 [anon_sym_DOT]; AGroup 26211 1 [anon_sym_COMMA]; AGroup 26213 1 [sym_kLt];
     AGroup 26348 1 [sym_kGt]; SGroup 11343 1 [sym_kDot]; AGroup 3 3 syms_1]);
   (549689, 4, [AGroup 5 1 [sym_ppDirective]; AGroup 26350 1 [anon_sym_LPAREN]; AGroup 3 2 syms_5;
     AGroup 21751 4 syms_792]);
   (549706, 6, [AGroup 21299 1 [anon_sym_DOT]; AGroup 26211 1 [anon_sym_COMMA]; AGroup 26213 1 [sym_kLt];
     AGroup 26352 1 [sym_kGt]; SGroup 11343 1 [sym_kDot]; AGroup 3 3 syms_1]);
   (549727, 6, [AGroup 21299 1 [anon_sym_DOT]; AGroup 26211 1 [anon_sym_COMMA]; AGroup 26213 1 [sym_kLt];
     AGroup 26354 1 [sym_kGt]; SGroup 11343 1 [sym_kDot]; AGroup 3 3 syms_1]);
   (549748, 7, [AGroup 5 1 [sym_ppDirective]; AGroup 57 1 [aux_sym_ppUsesBlock_token2];
     AGroup 197 1 [aux_sym_ppUsesBlock_token3]; SGroup 52 1 [sym__ppElse];
     SGroup 9834 1 [sym__ppEndIf]; SGroup 12373 1 [aux_sym_ppBlock_repeat2]; AGroup 3 2 syms_5]);
   (549771, 7, [AGroup 5 1 [sym_ppDirective]; AGroup 57 1 [aux_sym_ppUsesBlock_token2];
     AGroup 197 1 [aux_sym_ppUsesBlock_token3]; SGroup 52 1 [sym__ppElse];
     SGroup 9847 1 [sym__ppEndIf]; SGroup 12373 1 [aux_sym_ppBlock_repeat2]; AGroup 3 2 syms_5]);
   (549794, 7, [AGroup 5 1 [sym_ppDirective]; AGroup 57 1 [aux_sym_ppUsesBlock_token2];
     AGroup 179 1 [aux_sym_ppUsesBlock_token3]; SGroup 52 1 [sym__ppElse];
     SGroup 10378 1 [sym__ppEndIf]; SGroup 12373 1 [aux_sym_ppBlock_repeat2]; AGroup 3 2 syms_5]);
   (549817, 4, [AGroup 5 1 [sym_ppDirective]; AGroup 26356 1 [anon_sym_LPAREN]; AGroup 3 2 syms_5;
     AGroup 21751 4 syms_792]);
   (549834, 6, [AGroup 21299 1 [anon_sym_DOT]; AGroup 26211 1 [anon_sym_COMMA]; AGroup 26213 1 [sym_kLt];
     AGroup 26358 1 [sym_kGt]; SGroup 11343 1 [sym_kDot]; AGroup 3 3 syms_1]);
   (549855, 6, [AGroup 21299 1 [anon_sym_DOT]; AGroup 26211 1 [anon_sym_COMMA]; AGroup 26213 1 [sym_kLt];
     AGroup 26360 1 [sym_kGt]; SGroup 11343 1 [sym_kDot]; AGroup 3 3 syms_1]);
   (549876, 2, [AGroup 3 3 syms_1; AGroup 26013 5 syms_60]);
   (549889, 4, [AGroup 26362 1 [anon_sym_COLON]; SGroup 11779 1 [aux_sym_legacyFormat_repeat1];
     AGroup 3 3 syms_1; AGroup 22315 3 syms_796]);
   (549906, 6, [AGroup 24916 1 [sym_kEq]; AGroup 26365 1 [anon_sym_SEMI]; AGroup 26367 1 [anon_sym_COLON];
     AGroup 26369 1 [sym_identifier]; SGroup 15302 1 [sym_defaultValue]; AGroup 3 3 syms_1]);
   (549927, 2, [AGroup 3 3 syms_1; AGroup 26030 5 syms_60]);
   (549940, 4, [AGroup 5 1 [sym_ppDirective]; AGroup 26371 1 [anon_sym_LPAREN]; AGroup 3 2 syms_5;
     AGroup 21751 4 syms_792]);
   (549957, 6, [AGroup 21299 1 [anon_sym_DOT]; AGroup 26211 1 [anon_sym_COMMA]; AGroup 26213 1 [sym_kLt];
     AGroup 26373 1 [sym_kGt]; SGroup 11343 1 [sym_kDot]; AGroup 3 3 syms_1]);
   (549978, 6, [AGroup 21299 1 [anon_sym_DOT]; AGroup 26211 1 [anon_sym_COMMA]; AGroup 26213 1 [sym_kLt];
     AGroup 26375 1 [sym_kGt]; SGroup 11343 1 [sym_kDot]; AGroup 3 3 syms_1]);
   (549999, 2, [AGroup 3 3 syms_1; AGroup 21013 5 syms_313]);
   (550012, 2, [AGroup 3 3 syms_1; AGroup 26377 5 syms_60]);
   (550025, 4, [AGroup 5 1 [sym_ppDirective]; AGroup 26379 1 [anon_sym_LPAREN]; AGroup 3 2 syms_5;
     AGroup 21751 4 syms_792]);
   (550042, 6, [AGroup 21299 1 [anon_sym_DOT]; AGroup 26211 1 [anon_sym_COMMA]; AGroup 26213 1 [sym_kLt];
     AGroup 26381 1 [sym_kGt]; SGroup 11343 1 [sym_kDot]; AGroup 3 3 syms_1]);
   (550063, 7, [AGroup 5 1 [sym_ppDirective]; AGroup 11062 1 [aux_sym_ppUsesBlock_token2];
     AGroup 11112 1 [aux_sym_ppUsesBlock_token3]; SGroup 1392 1 [sym__ppElse];
     SGroup 5886 1 [sym__ppEndIf]; SGroup 12425 1 [aux_sym__ppStatementBlock_repeat2];
     AGroup 3 2 syms_5]);
   (550086, 6, [AGroup 21299 1 [anon_sym_DOT]; AGroup 26211 1 [anon_sym_COMMA]; AGroup 26213 1 [sym_kLt];
     AGroup 26383 1 [sym_kGt]; SGroup 11343 1 [sym_kDot]; AGroup 3 3 syms_1]);
   (550107, 4, [AGroup 5 1 [sym_ppDirective]; AGroup 26385 1 [anon_sym_LPAREN]; AGroup 3 2 syms_5;
     AGroup 21751 4 syms_792]);
   (550124, 6, [AGroup 21299 1 [anon_sym_DOT]; AGroup 26211 1 [anon_sym_COMMA]; AGroup 26213 1 [sym_kLt];
     AGroup 26387 1 [sym_kGt]; SGroup 11343 1 [sym_kDot]; AGroup 3 3 syms_1]);
   (550145, 6, [AGroup 21299 1 [anon_sym_DOT]; AGroup 26211 1 [anon_sym_COMMA]; AGroup 26213 1 [sym_kLt];
     AGroup 26389 1 [sym_kGt]; SGroup 11343 1 [sym_kDot]; AGroup 3 3 syms_1]);
   (550166, 4, [AGroup 5 1 [sym_ppDirective]; AGroup 26391 1 [anon_sym_LPAREN]; AGroup 3 2 syms_5;
     AGroup 21751 4 syms_792]);
   (550183, 6, [AGroup 21299 1 [anon_sym_DOT]; AGroup 26211 1 [anon_sym_COMMA]; AGroup 26213 1 [sym_kLt];
     AGroup 26393 1 [sym_kGt]; SGroup 11343 1 [sym_kDot]; AGroup 3 3 syms_1]);
   (550204, 6, [AGroup 21299 1 [anon_sym_DOT]; AGroup 26211 1 [anon_sym_COMMA]; AGroup 26213 1 [sym_kLt];
     AGroup 26395 1 [sym_kGt]; SGroup 11343 1 [sym_kDot]; AGroup 3 3 syms_1]);
   (550225, 7, [AGroup 5 1 [sym_ppDirective]; AGroup 57 1 [aux_sym_ppUsesBlock_token2];
     AGroup 201 1 [aux_sym_ppUsesBlock_token3]; SGroup 52 1 [sym__ppElse];
     SGroup 2587 1 [sym__ppEndIf]; SGroup 12373 1 [aux_sym_ppBlock_repeat2]; AGroup 3 2 syms_5]);
   (550248, 7, [AGroup 5 1 [sym_ppDirective]; AGroup 57 1 [aux_sym_ppUsesBlock_token2];
     AGroup 201 1 [aux_sym_ppUsesBlock_token3]; SGroup 52 1 [sym__ppElse];
     SGroup 2588 1 [sym__ppEndIf]; SGroup 12373 1 [aux_sym_ppBlock_repeat2]; AGroup 3 2 syms_5]);
   (550271, 7, [AGroup 5 1 [sym_ppDirective]; AGroup 11062 1 [aux_sym_ppUsesBlock_token2];
     AGroup 11064 1 [aux_sym_ppUsesBlock_token3]; SGroup 1392 1 [sym__ppElse];
     SGroup 6225 1 [sym__ppEndIf]; SGroup 12425 1 [aux_sym__ppStatementBlock_repeat2];
     AGroup 3 2 syms_5]);
   (550294, 4, [AGroup 18701 1 [sym_kEnd]; AGroup 26397 2 syms_186; SGroup 11800 2 syms_187;
     AGroup 3 3 syms_1]);
   (550311, 4, [AGroup 5 1 [sym_ppDirective]; AGroup 26400 1 [anon_sym_LPAREN]; AGroup 3 2 syms_5;
     AGroup 21751 4 syms_792]);
   (550328, 6, [AGroup 21299 1 [anon_sym_DOT]; AGroup 26211 1 [anon_sym_COMMA]; AGroup 26213 1 [sym_kLt];
     AGroup 26402 1 [sym_kGt]; SGroup 11343 1 [sym_kDot]; AGroup 3 3 syms_1]);
   (550349, 6, [AGroup 21299 1 [anon_sym_DOT]; AGroup 26211 1 [anon_sym_COMMA]; AGroup 26213 1 [sym_kLt];
     AGroup 26404 1 [sym_kGt]; SGroup 11343 1 [sym_kDot]; AGroup 3 3 syms_1]);
   (550370, 6, [AGroup 26406 1 [sym_identifier]; SGroup 12119 1 [aux_sym_genericArgs_repeat1];
     SGroup 13990 1 [sym_genericArg]; SGroup 13993 1 [aux_sym_genericArg_repeat1];
     SGroup 14714 1 [sym_genericArgs]; AGroup 3 3 syms_1]);
   (550391, 7, [AGroup 5 1 [sym_ppDirective]; AGroup 15331 1 [aux_sym_ppUsesBlock_token2];
     AGroup 15349 1 [aux_sym_ppUsesBlock_token3]; SGroup 2632 1 [sym__ppEndIf];
     SGroup 3321 1 [sym__ppElse]; SGroup 12236 1 [aux_sym__procAttributesPp_repeat2];
     AGroup 3 2 syms_5]);
   (550414, 2, [AGroup 3 3 syms_1; AGroup 26087 5 syms_60]);
   (550427, 4, [AGroup 5 1 [sym_ppDirective]; AGroup 26408 1 [anon_sym_LPAREN]; AGroup 3 2 syms_5;
     AGroup 21751 4 syms_792]);
   (550444, 6, [AGroup 21299 1 [anon_sym_DOT]; AGroup 26211 1 [anon_sym_COMMA]; AGroup 26213 1 [sym_kLt];
     AGroup 26410 1 [sym_kGt]; SGroup 11343 1 [sym_kDot]; AGroup 3 3 syms_1]);
   (550465, 6, [AGroup 21299 1 [anon_sym_DOT]; AGroup 26211 1 [anon_sym_COMMA]; AGroup 26213 1 [sym_kLt];
     AGroup 26412 1 [sym_kGt]; SGroup 11343 1 [sym_kDot]; AGroup 3 3 syms_1]);
   (550486, 3, [AGroup 5 1 [sym_ppDirective]; AGroup 3 2 syms_5; AGroup 21751 5 syms_791]);
   (550501, 7, [AGroup 5 1 [sym_ppDirective]; AGroup 26221 1 [aux_sym_ppUsesBlock_token2];
     AGroup 26266 1 [aux_sym_ppUsesBlock_token3]; SGroup 4025 1 [sym__ppElse];
     SGroup 12382 1 [aux_sym_type_repeat1]; SGroup 12955 1 [sym__ppEndIf]; AGroup 3 2 syms_5]);
   (550524, 4, [AGroup 5 1 [sym_ppDirective]; AGroup 26414 1 [anon_sym_LPAREN]; AGroup 3 2 syms_5;
     AGroup 21751 4 syms_792]);
   (550541, 4, [AGroup 5 1 [sym_ppDirective]; AGroup 26416 1 [anon_sym_LPAREN]; AGroup 3 2 syms_5;
     AGroup 21751 4 syms_792]);
   (550558, 6, [AGroup 21299 1 [anon_sym_DOT]; AGroup 26211 1 [anon_sym_COMMA]; AGroup 26213 1 [sym_kLt];
     AGroup 26418 1 [sym_kGt]; SGroup 11343 1 [sym_kDot]; AGroup 3 3 syms_1]);
   (550579, 6, [AGroup 21299 1 [anon_sym_DOT]; AGroup 26211 1 [anon_sym_COMMA]; AGroup 26213 1 [sym_kLt];
     AGroup 26420 1 [sym_kGt]; SGroup 11343 1 [sym_kDot]; AGroup 3 3 syms_1]);
   (550600, 6, [AGroup 21299 1 [anon_sym_DOT]; AGroup 26211 1 [anon_sym_COMMA]; AGroup 26213 1 [sym_kLt];
     AGroup 26422 1 [sym_kGt]; SGroup 11343 1 [sym_kDot]; AGroup 3 3 syms_1]);
   (550621, 3, [SGroup 11290 1 [sym_kDot]; AGroup 3 3 syms_1; AGroup 21269 4 syms_793]);
   (550636, 6, [AGroup 21299 1 [anon_sym_DOT]; AGroup 26211 1 [anon_sym_COMMA]; AGroup 26213 1 [sym_kLt];
     AGroup 26424 1 [sym_kGt]; SGroup 11343 1 [sym_kDot]; AGroup 3 3 syms_1]);
   (550657, 4, [AGroup 5 1 [sym_ppDirective]; AGroup 26426 1 [anon_sym_LPAREN]; AGroup 3 2 syms_5;
     AGroup 21751 4 syms_792]);
   (550674, 6, [AGroup 21299 1 [anon_sym_DOT]; AGroup 26211 1 [anon_sym_COMMA]; AGroup 26213 1 [sym_kLt];
     AGroup 26428 1 [sym_kGt]; SGroup 11343 1 [sym_kDot]; AGroup 3 3 syms_1]);
   (550695, 7, [AGroup 5 1 [sym_ppDirective]; AGroup 11062 1 [aux_sym_ppUsesBlock_token2];
     AGroup 11112 1 [aux_sym_ppUsesBlock_token3]; SGroup 1392 1 [sym__ppElse];
     SGroup 5944 1 [sym__ppEndIf]; SGroup 12425 1 [aux_sym__ppStatementBlock_repeat2];
     AGroup 3 2 syms_5]);
   (550718, 6, [AGroup 24916 1 [sym_kEq]; AGroup 26430 1 [anon_sym_SEMI]; AGroup 26432 1 [anon_sym_COLON];
     AGroup 26434 1 [sym_identifier]; SGroup 15615 1 [sym_defaultValue]; AGroup 3 3 syms_1]);
   (550739, 2, [AGroup 3 3 syms_1; AGroup 26087 5 syms_60]);
   (550752, 4, [AGroup 5 1 [sym_ppDirective]; AGroup 26436 1 [anon_sym_LPAREN]; AGroup 3 2 syms_5;
     AGroup 21751 4 syms_792]);
   (550769, 6, [AGroup 21299 1 [anon_sym_DOT]; AGroup 26211 1 [anon_sym_COMMA]; AGroup 26213 1 [sym_kLt];
     AGroup 26438 1 [sym_kGt]; SGroup 11343 1 [sym_kDot]; AGroup 3 3 syms_1]);
   (550790, 4, [AGroup 18739 1 [sym_kEnd]; AGroup 26440 2 syms_186; SGroup 11800 2 syms_187;
     AGroup 3 3 syms_1]);
   (550807, 6, [AGroup 21299 1 [anon_sym_DOT]; AGroup 26211 1 [anon_sym_COMMA]; AGroup 26213 1 [sym_kLt];
     AGroup 26442 1 [sym_kGt]; SGroup 11343 1 [sym_kDot]; AGroup 3 3 syms_1]);
   (550828, 7, [AGroup 5 1 [sym_ppDirective]; AGroup 57 1 [aux_sym_ppUsesBlock_token2];
     AGroup 205 1 [aux_sym_ppUsesBlock_token3]; SGroup 52 1 [sym__ppElse];
     SGroup 9934 1 [sym__ppEndIf]; SGroup 12373 1 [aux_sym_ppBlock_repeat2]; AGroup 3 2 syms_5]);
   (550851, 2, [AGroup 3 3 syms_1; AGroup 21205 5 syms_313]);
   (550864, 7, [AGroup 5 1 [sym_ppDirective]; AGroup 57 1 [aux_sym_ppUsesBlock_token2];
     AGroup 205 1 [aux_sym_ppUsesBlock_token3]; SGroup 52 1 [sym__ppElse];
     SGroup 9956 1 [sym__ppEndIf]; SGroup 12373 1 [aux_sym_ppBlock_repeat2]; AGroup 3 2 syms_5]);
   (550887, 4, [AGroup 5 1 [sym_ppDirective]; AGroup 26444 1 [anon_sym_LPAREN]; AGroup 3 2 syms_5;
     AGroup 21751 4 syms_792]);
   (550904, 3, [AGroup 26446 1 [sym_kOperator]; AGroup 3 3 syms_1; AGroup 26448 4 syms_3]);
   (550919, 6, [AGroup 26406 1 [sym_identifier]; SGroup 12119 1 [aux_sym_genericArgs_repeat1];
     SGroup 13990 1 [sym_genericArg]; SGroup 13993 1 [aux_sym_genericArg_repeat1];
     SGroup 15534 1 [sym_genericArgs]; AGroup 3 3 syms_1]);
   (550940, 6, [AGroup 21299 1 [anon_sym_DOT]; AGroup 26211 1 [anon_sym_COMMA]; AGroup 26213 1 [sym_kLt];
     AGroup 26450 1 [sym_kGt]; SGroup 11343 1 [sym_kDot]; AGroup 3 3 syms_1]);
   (550961, 7, [AGroup 5 1 [sym_ppDirective]; AGroup 15331 1 [aux_sym_ppUsesBlock_token2];
     AGroup 15498 1 [aux_sym_ppUsesBlock_token3]; SGroup 1237 1 [sym__ppEndIf];
     SGroup 3321 1 [sym__ppElse]; SGroup 12236 1 [aux_sym__procAttributesPp_repeat2];
     AGroup 3 2 syms_5]);
   (550984, 7, [AGroup 5 1 [sym_ppDirective]; AGroup 139 1 [aux_sym_ppUsesBlock_token3];
     AGroup 26452 1 [aux_sym_ppUsesBlock_token2]; SGroup 6371 1 [sym__ppEndIf];
     SGroup 10592 1 [sym__ppElse]; SGroup 12322 1 [aux_sym_defProc_repeat1]; AGroup 3 2 syms_5]);
   (551007, 2, [AGroup 3 3 syms_1; AGroup 25645 5 syms_797]);
   (551020, 7, [AGroup 5 1 [sym_ppDirective]; AGroup 26221 1 [aux_sym_ppUsesBlock_token2];
     AGroup 26454 1 [aux_sym_ppUsesBlock_token3]; SGroup 4025 1 [sym__ppElse];
     SGroup 11855 1 [aux_sym_type_repeat1]; SGroup 13868 1 [sym__ppEndIf]; AGroup 3 2 syms_5]);
   (551043, 2, [AGroup 3 3 syms_1; AGroup 26456 5 syms_60]);
   (551056, 4, [AGroup 18722 1 [sym_kEnd]; AGroup 26440 2 syms_186; SGroup 11800 2 syms_187;
     AGroup 3 3 syms_1]);
   (551073, 6, [AGroup 24916 1 [sym_kEq]; AGroup 26458 1 [anon_sym_SEMI]; AGroup 26460 1 [anon_sym_COLON];
     AGroup 26462 1 [sym_identifier]; SGroup 14144 1 [sym_defaultValue]; AGroup 3 3 syms_1]);
   (551094, 7, [AGroup 5 1 [sym_ppDirective]; AGroup 57 1 [aux_sym_ppUsesBlock_token2];
     AGroup 157 1 [aux_sym_ppUsesBlock_token3]; SGroup 52 1 [sym__ppElse];
     SGroup 10467 1 [sym__ppEndIf]; SGroup 12373 1 [aux_sym_ppBlock_repeat2]; AGroup 3 2 syms_5]);
   (551117, 6, [AGroup 21299 1 [anon_sym_DOT]; AGroup 26211 1 [anon_sym_COMMA]; AGroup 26213 1 [sym_kLt];
     AGroup 26464 1 [sym_kGt]; SGroup 11343 1 [sym_kDot]; AGroup 3 3 syms_1]);
   (551138, 4, [AGroup 5 1 [sym_ppDirective]; AGroup 26466 1 [anon_sym_LPAREN]; AGroup 3 2 syms_5;
     AGroup 21751 4 syms_792]);
   (551155, 6, [AGroup 21299 1 [anon_sym_DOT]; AGroup 26211 1 [anon_sym_COMMA]; AGroup 26213 1 [sym_kLt];
     AGroup 26468 1 [sym_kGt]; SGroup 11343 1 [sym_kDot]; AGroup 3 3 syms_1]);
   (551176, 6, [AGroup 21299 1 [anon_sym_DOT]; AGroup 26211 1 [anon_sym_COMMA]; AGroup 26213 1 [sym_kLt];
     AGroup 26470 1 [sym_kGt]; SGroup 11343 1 [sym_kDot]; AGroup 3 3 syms_1]);
   (551197, 7, [AGroup 5 1 [sym_ppDirective]; AGroup 26019 1 [aux_sym_ppUsesBlock_token2];
     AGroup 26021 1 [aux_sym_ppUsesBlock_token3]; SGroup 5636 1 [sym__ppElse];
     SGroup 12156 1 [aux_sym__procAttributeNoExt_repeat1]; SGroup 14246 1 [sym__ppEndIf];
     AGroup 3 2 syms_5]);
   (551220, 3, [AGroup 26472 1 [sym_kOf]; AGroup 3 3 syms_1; AGroup 24512 4 syms_90]);
   (551235, 2, [AGroup 3 3 syms_1; AGroup 26474 5 syms_798]);
   (551248, 3, [AGroup 5 1 [sym_ppDirective]; AGroup 3 2 syms_5; AGroup 21887 5 syms_791]);
   (551263, 4, [AGroup 5 1 [sym_ppDirective]; AGroup 23677 1 [anon_sym_LPAREN]; AGroup 3 2 syms_5;
     AGroup 23675 4 syms_774]);
   (551280, 7, [AGroup 5 1 [sym_ppDirective]; AGroup 15331 1 [aux_sym_ppUsesBlock_token2];
     AGroup 15498 1 [aux_sym_ppUsesBlock_token3]; SGroup 1244 1 [sym__ppEndIf];
     SGroup 3321 1 [sym__ppElse]; SGroup 12236 1 [aux_sym__procAttributesPp_repeat2];
     AGroup 3 2 syms_5]);
   (551303, 7, [AGroup 5 1 [sym_ppDirective]; AGroup 57 1 [aux_sym_ppUsesBlock_token2];
     AGroup 209 1 [aux_sym_ppUsesBlock_token3]; SGroup 52 1 [sym__ppElse];
     SGroup 2597 1 [sym__ppEndIf]; SGroup 12373 1 [aux_sym_ppBlock_repeat2]; AGroup 3 2 syms_5]);
   (551326, 7, [AGroup 5 1 [sym_ppDirective]; AGroup 57 1 [aux_sym_ppUsesBlock_token2];
     AGroup 209 1 [aux_sym_ppUsesBlock_token3]; SGroup 52 1 [sym__ppElse];
     SGroup 2589 1 [sym__ppEndIf]; SGroup 12373 1 [aux_sym_ppBlock_repeat2]; AGroup 3 2 syms_5]);
   (551349, 7, [AGroup 5 1 [sym_ppDirective]; AGroup 26221 1 [aux_sym_ppUsesBlock_token2];
     AGroup 26454 1 [aux_sym_ppUsesBlock_token3]; SGroup 4025 1 [sym__ppElse];
     SGroup 12382 1 [aux_sym_type_repeat1]; SGroup 13160 1 [sym__ppEndIf]; AGroup 3 2 syms_5]);
   (551372, 4, [AGroup 24916 1 [sym_kEq]; SGroup 12705 1 [sym_defaultValue]; AGroup 3 3 syms_1;
     AGroup 26476 3 syms_667]);
   (551389, 6, [AGroup 24916 1 [sym_kEq]; AGroup 26059 1 [anon_sym_SEMI]; AGroup 26063 1 [anon_sym_COMMA];
     AGroup 26478 1 [anon_sym_COLON]; SGroup 13018 1 [sym_defaultValue]; AGroup 3 3 syms_1]);
   (551410, 4, [AGroup 5 1 [sym_ppDirective]; AGroup 26480 1 [anon_sym_LPAREN]; AGroup 3 2 syms_5;
     AGroup 21751 4 syms_792])
  ].

(** States 11859 to 11958. *)
Definition small_runs_11859 : list small_run :=
  [
   (551427, 6, [AGroup 26406 1 [sym_identifier]; SGroup 12119 1 [aux_sym_genericArgs_repeat1];
     SGroup 13990 1 [sym_genericArg]; SGroup 13993 1 [aux_sym_genericArg_repeat1];
     SGroup 15659 1 [sym_genericArgs]; AGroup 3 3 syms_1]);
   (551448, 6, [AGroup 21299 1 [anon_sym_DOT]; AGroup 26211 1 [anon_sym_COMMA]; AGroup 26213 1 [sym_kLt];
     AGroup 26482 1 [sym_kGt]; SGroup 11343 1 [sym_kDot]; AGroup 3 3 syms_1]);
   (551469, 6, [AGroup 21299 1 [anon_sym_DOT]; AGroup 26211 1 [anon_sym_COMMA]; AGroup 26213 1 [sym_kLt];
     AGroup 26484 1 [sym_kGt]; SGroup 11343 1 [sym_kDot]; AGroup 3 3 syms_1]);
   (551490, 7, [AGroup 5 1 [sym_ppDirective]; AGroup 139 1 [aux_sym_ppUsesBlock_token3];
     AGroup 26452 1 [aux_sym_ppUsesBlock_token2]; SGroup 6352 1 [sym__ppEndIf];
     SGroup 10592 1 [sym__ppElse]; SGroup 12322 1 [aux_sym_defProc_repeat1]; AGroup 3 2 syms_5]);
   (551513, 7, [AGroup 5 1 [sym_ppDirective]; AGroup 139 1 [aux_sym_ppUsesBlock_token3];
     AGroup 26452 1 [aux_sym_ppUsesBlock_token2]; SGroup 6351 1 [sym__ppEndIf];
     SGroup 10592 1 [sym__ppElse]; SGroup 12322 1 [aux_sym_defProc_repeat1]; AGroup 3 2 syms_5]);
   (551536, 6, [AGroup 21299 1 [anon_sym_DOT]; AGroup 26211 1 [anon_sym_COMMA]; AGroup 26213 1 [sym_kLt];
     AGroup 26486 1 [sym_kGt]; SGroup 11343 1 [sym_kDot]; AGroup 3 3 syms_1]);
   (551557, 7, [AGroup 5 1 [sym_ppDirective]; AGroup 26019 1 [aux_sym_ppUsesBlock_token2];
     AGroup 26021 1 [aux_sym_ppUsesBlock_token3]; SGroup 5636 1 [sym__ppElse];
     SGroup 12156 1 [aux_sym__procAttributeNoExt_repeat1]; SGroup 14686 1 [sym__ppEndIf];
     AGroup 3 2 syms_5]);
   (551580, 7, [AGroup 5 1 [sym_ppDirective]; AGroup 57 1 [aux_sym_ppUsesBlock_token2];
     AGroup 139 1 [aux_sym_ppUsesBlock_token3]; SGroup 52 1 [sym__ppElse];
     SGroup 10456 1 [sym__ppEndIf]; SGroup 12373 1 [aux_sym_ppBlock_repeat2]; AGroup 3 2 syms_5]);
   (551603, 7, [AGroup 5 1 [sym_ppDirective]; AGroup 57 1 [aux_sym_ppUsesBlock_token2];
     AGroup 139 1 [aux_sym_ppUsesBlock_token3]; SGroup 52 1 [sym__ppElse];
     SGroup 10468 1 [sym__ppEndIf]; SGroup 12373 1 [aux_sym_ppBlock_repeat2]; AGroup 3 2 syms_5]);
   (551626, 7, [AGroup 5 1 [sym_ppDirective]; AGroup 161 1 [aux_sym_ppUsesBlock_token3];
     AGroup 26314 1 [aux_sym_ppUsesBlock_token2]; SGroup 6367 1 [sym__ppElse];
     SGroup 10469 1 [sym__ppEndIf]; SGroup 11869 1 [aux_sym__defProcBody_repeat1];
     AGroup 3 2 syms_5]);
   (551649, 7, [AGroup 5 1 [sym_ppDirective]; AGroup 161 1 [aux_sym_ppUsesBlock_token3];
     AGroup 26314 1 [aux_sym_ppUsesBlock_token2]; SGroup 6367 1 [sym__ppElse];
     SGroup 10462 1 [sym__ppEndIf]; SGroup 12109 1 [aux_sym__defProcBody_repeat1];
     AGroup 3 2 syms_5]);
   (551672, 7, [AGroup 5 1 [sym_ppDirective]; AGroup 15331 1 [aux_sym_ppUsesBlock_token2];
     AGroup 15395 1 [aux_sym_ppUsesBlock_token3]; SGroup 2720 1 [sym__ppEndIf];
     SGroup 3321 1 [sym__ppElse]; SGroup 12236 1 [aux_sym__procAttributesPp_repeat2];
     AGroup 3 2 syms_5]);
   (551695, 2, [AGroup 3 3 syms_1; AGroup 20812 5 syms_313]);
   (551708, 7, [AGroup 5 1 [sym_ppDirective]; AGroup 57 1 [aux_sym_ppUsesBlock_token2];
     AGroup 167 1 [aux_sym_ppUsesBlock_token3]; SGroup 52 1 [sym__ppElse];
     SGroup 10317 1 [sym__ppEndIf]; SGroup 12373 1 [aux_sym_ppBlock_repeat2]; AGroup 3 2 syms_5]);
   (551731, 7, [AGroup 5 1 [sym_ppDirective]; AGroup 57 1 [aux_sym_ppUsesBlock_token2];
     AGroup 167 1 [aux_sym_ppUsesBlock_token3]; SGroup 52 1 [sym__ppElse];
     SGroup 10267 1 [sym__ppEndIf]; SGroup 12373 1 [aux_sym_ppBlock_repeat2]; AGroup 3 2 syms_5]);
   (551754, 7, [AGroup 5 1 [sym_ppDirective]; AGroup 139 1 [aux_sym_ppUsesBlock_token3];
     AGroup 26452 1 [aux_sym_ppUsesBlock_token2]; SGroup 6387 1 [sym__ppEndIf];
     SGroup 10592 1 [sym__ppElse]; SGroup 12322 1 [aux_sym_defProc_repeat1]; AGroup 3 2 syms_5]);
   (551777, 7, [AGroup 5 1 [sym_ppDirective]; AGroup 57 1 [aux_sym_ppUsesBlock_token2];
     AGroup 179 1 [aux_sym_ppUsesBlock_token3]; SGroup 52 1 [sym__ppElse];
     SGroup 10379 1 [sym__ppEndIf]; SGroup 12373 1 [aux_sym_ppBlock_repeat2]; AGroup 3 2 syms_5]);
   (551800, 4, [AGroup 5 1 [sym_ppDirective]; AGroup 26488 1 [anon_sym_LPAREN]; AGroup 3 2 syms_5;
     AGroup 21751 4 syms_792]);
   (551817, 6, [AGroup 21299 1 [anon_sym_DOT]; AGroup 26211 1 [anon_sym_COMMA]; AGroup 26213 1 [sym_kLt];
     AGroup 26490 1 [sym_kGt]; SGroup 11343 1 [sym_kDot]; AGroup 3 3 syms_1]);
   (551838, 6, [AGroup 24916 1 [sym_kEq]; AGroup 26492 1 [anon_sym_SEMI]; AGroup 26494 1 [anon_sym_COLON];
     AGroup 26496 1 [sym_identifier]; SGroup 14307 1 [sym_defaultValue]; AGroup 3 3 syms_1]);
   (551859, 6, [AGroup 21299 1 [anon_sym_DOT]; AGroup 26211 1 [anon_sym_COMMA]; AGroup 26213 1 [sym_kLt];
     AGroup 26498 1 [sym_kGt]; SGroup 11343 1 [sym_kDot]; AGroup 3 3 syms_1]);
   (551880, 7, [AGroup 5 1 [sym_ppDirective]; AGroup 26019 1 [aux_sym_ppUsesBlock_token2];
     AGroup 26021 1 [aux_sym_ppUsesBlock_token3]; SGroup 5636 1 [sym__ppElse];
     SGroup 12156 1 [aux_sym__procAttributeNoExt_repeat1]; SGroup 15859 1 [sym__ppEndIf];
     AGroup 3 2 syms_5]);
   (551903, 7, [AGroup 5 1 [sym_ppDirective]; AGroup 11062 1 [aux_sym_ppUsesBlock_token2];
     AGroup 11116 1 [aux_sym_ppUsesBlock_token3]; SGroup 1392 1 [sym__ppElse];
     SGroup 6423 1 [sym__ppEndIf]; SGroup 12425 1 [aux_sym__ppStatementBlock_repeat2];
     AGroup 3 2 syms_5]);
   (551926, 6, [AGroup 24916 1 [sym_kEq]; AGroup 26500 1 [anon_sym_SEMI]; AGroup 26502 1 [anon_sym_COLON];
     AGroup 26504 1 [sym_identifier]; SGroup 14344 1 [sym_defaultValue]; AGroup 3 3 syms_1]);
   (551947, 2, [AGroup 3 3 syms_1; AGroup 20746 5 syms_313]);
   (551960, 6, [AGroup 21299 1 [anon_sym_DOT]; AGroup 26211 1 [anon_sym_COMMA]; AGroup 26213 1 [sym_kLt];
     AGroup 26506 1 [sym_kGt]; SGroup 11343 1 [sym_kDot]; AGroup 3 3 syms_1]);
   (551981, 2, [AGroup 3 3 syms_1; AGroup 24594 5 syms_60]);
   (551994, 7, [AGroup 5 1 [sym_ppDirective]; AGroup 139 1 [aux_sym_ppUsesBlock_token3];
     AGroup 26452 1 [aux_sym_ppUsesBlock_token2]; SGroup 6370 1 [sym__ppEndIf];
     SGroup 10592 1 [sym__ppElse]; SGroup 12322 1 [aux_sym_defProc_repeat1]; AGroup 3 2 syms_5]);
   (552017, 4, [AGroup 5 1 [sym_ppDirective]; AGroup 26508 1 [anon_sym_LPAREN]; AGroup 3 2 syms_5;
     AGroup 21751 4 syms_792]);
   (552034, 6, [AGroup 21299 1 [anon_sym_DOT]; AGroup 26211 1 [anon_sym_COMMA]; AGroup 26213 1 [sym_kLt];
     AGroup 26510 1 [sym_kGt]; SGroup 11343 1 [sym_kDot]; AGroup 3 3 syms_1]);
   (552055, 6, [AGroup 21299 1 [anon_sym_DOT]; AGroup 26211 1 [anon_sym_COMMA]; AGroup 26213 1 [sym_kLt];
     AGroup 26512 1 [sym_kGt]; SGroup 11343 1 [sym_kDot]; AGroup 3 3 syms_1]);
   (552076, 2, [AGroup 3 3 syms_1; AGroup 26514 5 syms_60]);
   (552089, 4, [AGroup 5 1 [sym_ppDirective]; AGroup 26516 1 [anon_sym_LPAREN]; AGroup 3 2 syms_5;
     AGroup 21751 4 syms_792]);
   (552106, 6, [AGroup 21299 1 [anon_sym_DOT]; AGroup 26211 1 [anon_sym_COMMA]; AGroup 26213 1 [sym_kLt];
     AGroup 26518 1 [sym_kGt]; SGroup 11343 1 [sym_kDot]; AGroup 3 3 syms_1]);
   (552127, 7, [AGroup 5 1 [sym_ppDirective]; AGroup 11062 1 [aux_sym_ppUsesBlock_token2];
     AGroup 11116 1 [aux_sym_ppUsesBlock_token3]; SGroup 1392 1 [sym__ppElse];
     SGroup 6413 1 [sym__ppEndIf]; SGroup 12425 1 [aux_sym__ppStatementBlock_repeat2];
     AGroup 3 2 syms_5]);
   (552150, 7, [AGroup 5 1 [sym_ppDirective]; AGroup 26019 1 [aux_sym_ppUsesBlock_token2];
     AGroup 26021 1 [aux_sym_ppUsesBlock_token3]; SGroup 5636 1 [sym__ppElse];
     SGroup 12156 1 [aux_sym__procAttributeNoExt_repeat1]; SGroup 14648 1 [sym__ppEndIf];
     AGroup 3 2 syms_5]);
   (552173, 6, [AGroup 24916 1 [sym_kEq]; AGroup 26520 1 [anon_sym_SEMI]; AGroup 26522 1 [anon_sym_COLON];
     AGroup 26524 1 [sym_identifier]; SGroup 14469 1 [sym_defaultValue]; AGroup 3 3 syms_1]);
   (552194, 2, [AGroup 3 3 syms_1; AGroup 20251 5 syms_313]);
   (552207, 2, [AGroup 3 3 syms_1; AGroup 26044 5 syms_60]);
   (552220, 4, [AGroup 5 1 [sym_ppDirective]; AGroup 26526 1 [anon_sym_LPAREN]; AGroup 3 2 syms_5;
     AGroup 21751 4 syms_792]);
   (552237, 4, [SGroup 11698 1 [aux_sym_declExport_repeat1]; AGroup 25573 2 syms_78;
     AGroup 26528 2 syms_668; AGroup 3 3 syms_1]);
   (552254, 7, [AGroup 5 1 [sym_ppDirective]; AGroup 15331 1 [aux_sym_ppUsesBlock_token2];
     AGroup 15397 1 [aux_sym_ppUsesBlock_token3]; SGroup 985 1 [sym__ppEndIf];
     SGroup 3321 1 [sym__ppElse]; SGroup 12236 1 [aux_sym__procAttributesPp_repeat2];
     AGroup 3 2 syms_5]);
   (552277, 7, [AGroup 5 1 [sym_ppDirective]; AGroup 57 1 [aux_sym_ppUsesBlock_token2];
     AGroup 155 1 [aux_sym_ppUsesBlock_token3]; SGroup 52 1 [sym__ppElse];
     SGroup 2682 1 [sym__ppEndIf]; SGroup 12373 1 [aux_sym_ppBlock_repeat2]; AGroup 3 2 syms_5]);
   (552300, 6, [AGroup 21299 1 [anon_sym_DOT]; AGroup 26211 1 [anon_sym_COMMA]; AGroup 26213 1 [sym_kLt];
     AGroup 26530 1 [sym_kGt]; SGroup 11343 1 [sym_kDot]; AGroup 3 3 syms_1]);
   (552321, 6, [AGroup 21299 1 [anon_sym_DOT]; AGroup 26211 1 [anon_sym_COMMA]; AGroup 26213 1 [sym_kLt];
     AGroup 26532 1 [sym_kGt]; SGroup 11343 1 [sym_kDot]; AGroup 3 3 syms_1]);
   (552342, 7, [AGroup 5 1 [sym_ppDirective]; AGroup 26019 1 [aux_sym_ppUsesBlock_token2];
     AGroup 26021 1 [aux_sym_ppUsesBlock_token3]; SGroup 5636 1 [sym__ppElse];
     SGroup 12156 1 [aux_sym__procAttributeNoExt_repeat1]; SGroup 15120 1 [sym__ppEndIf];
     AGroup 3 2 syms_5]);
   (552365, 2, [AGroup 3 3 syms_1; AGroup 20859 5 syms_313]);
   (552378, 7, [AGroup 5 1 [sym_ppDirective]; AGroup 57 1 [aux_sym_ppUsesBlock_token2];
     AGroup 155 1 [aux_sym_ppUsesBlock_token3]; SGroup 52 1 [sym__ppElse];
     SGroup 2697 1 [sym__ppEndIf]; SGroup 12373 1 [aux_sym_ppBlock_repeat2]; AGroup 3 2 syms_5]);
   (552401, 2, [AGroup 3 3 syms_1; AGroup 26032 5 syms_60]);
   (552414, 7, [AGroup 5 1 [sym_ppDirective]; AGroup 15331 1 [aux_sym_ppUsesBlock_token2];
     AGroup 15397 1 [aux_sym_ppUsesBlock_token3]; SGroup 987 1 [sym__ppEndIf];
     SGroup 3321 1 [sym__ppElse]; SGroup 12236 1 [aux_sym__procAttributesPp_repeat2];
     AGroup 3 2 syms_5]);
   (552437, 7, [AGroup 5 1 [sym_ppDirective]; AGroup 26314 1 [aux_sym_ppUsesBlock_token2];
     AGroup 26454 1 [aux_sym_ppUsesBlock_token3]; SGroup 6367 1 [sym__ppElse];
     SGroup 11916 1 [aux_sym__defProcBody_repeat1]; SGroup 13860 1 [sym__ppEndIf];
     AGroup 3 2 syms_5]);
   (552460, 3, [SGroup 11343 1 [sym_kDot]; AGroup 3 3 syms_1; AGroup 21269 4 syms_792]);
   (552475, 4, [AGroup 5 1 [sym_ppDirective]; AGroup 26534 1 [anon_sym_LPAREN]; AGroup 3 2 syms_5;
     AGroup 21751 4 syms_792]);
   (552492, 7, [AGroup 5 1 [sym_ppDirective]; AGroup 26019 1 [aux_sym_ppUsesBlock_token2];
     AGroup 26021 1 [aux_sym_ppUsesBlock_token3]; SGroup 5636 1 [sym__ppElse];
     SGroup 12156 1 [aux_sym__procAttributeNoExt_repeat1]; SGroup 15427 1 [sym__ppEndIf];
     AGroup 3 2 syms_5]);
   (552515, 6, [AGroup 21299 1 [anon_sym_DOT]; AGroup 26211 1 [anon_sym_COMMA]; AGroup 26213 1 [sym_kLt];
     AGroup 26536 1 [sym_kGt]; SGroup 11343 1 [sym_kDot]; AGroup 3 3 syms_1]);
   (552536, 2, [AGroup 3 3 syms_1; AGroup 20661 5 syms_313]);
   (552549, 4, [AGroup 5 1 [sym_ppDirective]; AGroup 26538 1 [anon_sym_LPAREN]; AGroup 3 2 syms_5;
     AGroup 21751 4 syms_792]);
   (552566, 7, [AGroup 5 1 [sym_ppDirective]; AGroup 26314 1 [aux_sym_ppUsesBlock_token2];
     AGroup 26454 1 [aux_sym_ppUsesBlock_token3]; SGroup 6367 1 [sym__ppElse];
     SGroup 12109 1 [aux_sym__defProcBody_repeat1]; SGroup 13089 1 [sym__ppEndIf];
     AGroup 3 2 syms_5]);
   (552589, 6, [AGroup 21299 1 [anon_sym_DOT]; AGroup 26211 1 [anon_sym_COMMA]; AGroup 26213 1 [sym_kLt];
     AGroup 26540 1 [sym_kGt]; SGroup 11343 1 [sym_kDot]; AGroup 3 3 syms_1]);
   (552610, 7, [AGroup 5 1 [sym_ppDirective]; AGroup 26019 1 [aux_sym_ppUsesBlock_token2];
     AGroup 26021 1 [aux_sym_ppUsesBlock_token3]; SGroup 5636 1 [sym__ppElse];
     SGroup 12156 1 [aux_sym__procAttributeNoExt_repeat1]; SGroup 15828 1 [sym__ppEndIf];
     AGroup 3 2 syms_5]);
   (552633, 7, [AGroup 5 1 [sym_ppDirective]; AGroup 57 1 [aux_sym_ppUsesBlock_token2];
     AGroup 151 1 [aux_sym_ppUsesBlock_token3]; SGroup 52 1 [sym__ppElse];
     SGroup 10381 1 [sym__ppEndIf]; SGroup 12373 1 [aux_sym_ppBlock_repeat2]; AGroup 3 2 syms_5]);
   (552656, 7, [AGroup 5 1 [sym_ppDirective]; AGroup 57 1 [aux_sym_ppUsesBlock_token2];
     AGroup 151 1 [aux_sym_ppUsesBlock_token3]; SGroup 52 1 [sym__ppElse];
     SGroup 10387 1 [sym__ppEndIf]; SGroup 12373 1 [aux_sym_ppBlock_repeat2]; AGroup 3 2 syms_5]);
   (552679, 2, [AGroup 3 3 syms_1; AGroup 20752 5 syms_313]);
   (552692, 7, [AGroup 5 1 [sym_ppDirective]; AGroup 167 1 [aux_sym_ppUsesBlock_token3];
     AGroup 26314 1 [aux_sym_ppUsesBlock_token2]; SGroup 6367 1 [sym__ppElse];
     SGroup 10268 1 [sym__ppEndIf]; SGroup 11923 1 [aux_sym__defProcBody_repeat1];
     AGroup 3 2 syms_5]);
   (552715, 7, [AGroup 5 1 [sym_ppDirective]; AGroup 167 1 [aux_sym_ppUsesBlock_token3];
     AGroup 26314 1 [aux_sym_ppUsesBlock_token2]; SGroup 6367 1 [sym__ppElse];
     SGroup 10252 1 [sym__ppEndIf]; SGroup 12109 1 [aux_sym__defProcBody_repeat1];
     AGroup 3 2 syms_5]);
   (552738, 6, [AGroup 21299 1 [anon_sym_DOT]; AGroup 26211 1 [anon_sym_COMMA]; AGroup 26213 1 [sym_kLt];
     AGroup 26542 1 [sym_kGt]; SGroup 11343 1 [sym_kDot]; AGroup 3 3 syms_1]);
   (552759, 4, [AGroup 5 1 [sym_ppDirective]; AGroup 26544 1 [anon_sym_LPAREN]; AGroup 3 2 syms_5;
     AGroup 21751 4 syms_792]);
   (552776, 7, [AGroup 5 1 [sym_ppDirective]; AGroup 26021 1 [aux_sym_ppUsesBlock_token3];
     AGroup 26221 1 [aux_sym_ppUsesBlock_token2]; SGroup 4025 1 [sym__ppElse];
     SGroup 11936 1 [aux_sym_type_repeat1]; SGroup 12169 1 [sym__ppEndIf]; AGroup 3 2 syms_5]);
   (552799, 6, [AGroup 21299 1 [anon_sym_DOT]; AGroup 26211 1 [anon_sym_COMMA]; AGroup 26213 1 [sym_kLt];
     AGroup 26546 1 [sym_kGt]; SGroup 11343 1 [sym_kDot]; AGroup 3 3 syms_1]);
   (552820, 2, [AGroup 3 3 syms_1; AGroup 20649 5 syms_313]);
   (552833, 6, [AGroup 21299 1 [anon_sym_DOT]; AGroup 26213 1 [sym_kLt]; AGroup 26548 1 [anon_sym_COMMA];
     AGroup 26550 1 [sym_kGt]; SGroup 11343 1 [sym_kDot]; AGroup 3 3 syms_1]);
   (552854, 4, [AGroup 26063 1 [anon_sym_COMMA]; AGroup 26554 1 [anon_sym_COLON]; AGroup 3 3 syms_1;
     AGroup 26552 3 syms_667]);
   (552871, 2, [AGroup 3 3 syms_1; AGroup 20007 5 syms_313]);
   (552884, 4, [AGroup 5 1 [sym_ppDirective]; AGroup 26558 1 [anon_sym_LPAREN]; AGroup 3 2 syms_5;
     AGroup 26556 4 syms_774]);
   (552901, 7, [AGroup 5 1 [sym_ppDirective]; AGroup 11062 1 [aux_sym_ppUsesBlock_token2];
     AGroup 11108 1 [aux_sym_ppUsesBlock_token3]; SGroup 1392 1 [sym__ppElse];
     SGroup 6194 1 [sym__ppEndIf]; SGroup 12425 1 [aux_sym__ppStatementBlock_repeat2];
     AGroup 3 2 syms_5]);
   (552924, 7, [AGroup 5 1 [sym_ppDirective]; AGroup 26019 1 [aux_sym_ppUsesBlock_token2];
     AGroup 26021 1 [aux_sym_ppUsesBlock_token3]; SGroup 5636 1 [sym__ppElse];
     SGroup 12156 1 [aux_sym__procAttributeNoExt_repeat1]; SGroup 14717 1 [sym__ppEndIf];
     AGroup 3 2 syms_5]);
   (552947, 2, [AGroup 3 3 syms_1; AGroup 26560 5 syms_799]);
   (552960, 7, [AGroup 5 1 [sym_ppDirective]; AGroup 26021 1 [aux_sym_ppUsesBlock_token3];
     AGroup 26221 1 [aux_sym_ppUsesBlock_token2]; SGroup 4025 1 [sym__ppElse];
     SGroup 12377 1 [sym__ppEndIf]; SGroup 12382 1 [aux_sym_type_repeat1]; AGroup 3 2 syms_5]);
   (552983, 4, [AGroup 24916 1 [sym_kEq]; SGroup 12940 1 [sym_defaultValue]; AGroup 3 3 syms_1;
     AGroup 26562 3 syms_667]);
   (553000, 3, [AGroup 26564 1 [sym_kClass]; AGroup 3 3 syms_1; AGroup 24985 4 syms_3]);
   (553015, 7, [AGroup 5 1 [sym_ppDirective]; AGroup 11062 1 [aux_sym_ppUsesBlock_token2];
     AGroup 11100 1 [aux_sym_ppUsesBlock_token3]; SGroup 1392 1 [sym__ppElse];
     SGroup 5742 1 [sym__ppEndIf]; SGroup 12425 1 [aux_sym__ppStatementBlock_repeat2];
     AGroup 3 2 syms_5]);
   (553038, 4, [AGroup 26063 1 [anon_sym_COMMA]; AGroup 26568 1 [anon_sym_COLON]; AGroup 3 3 syms_1;
     AGroup 26566 3 syms_667]);
   (553055, 7, [AGroup 5 1 [sym_ppDirective]; AGroup 15331 1 [aux_sym_ppUsesBlock_token2];
     AGroup 15395 1 [aux_sym_ppUsesBlock_token3]; SGroup 2715 1 [sym__ppEndIf];
     SGroup 3321 1 [sym__ppElse]; SGroup 12236 1 [aux_sym__procAttributesPp_repeat2];
     AGroup 3 2 syms_5]);
   (553078, 4, [AGroup 26570 1 [sym_identifier]; AGroup 26572 1 [sym_kGeneric]; AGroup 3 3 syms_1;
     SGroup 12259 3 syms_2]);
   (553095, 4, [AGroup 26063 1 [anon_sym_COMMA]; AGroup 26576 1 [anon_sym_COLON]; AGroup 3 3 syms_1;
     AGroup 26574 3 syms_667]);
   (553112, 4, [AGroup 26578 1 [anon_sym_COLON]; AGroup 26580 1 [sym_kOf]; AGroup 3 3 syms_1;
     AGroup 24286 3 syms_117]);
   (553129, 4, [AGroup 5 1 [sym_ppDirective]; AGroup 26582 1 [anon_sym_LPAREN]; AGroup 3 2 syms_5;
     AGroup 21751 4 syms_792]);
   (553146, 6, [AGroup 21299 1 [anon_sym_DOT]; AGroup 26211 1 [anon_sym_COMMA]; AGroup 26213 1 [sym_kLt];
     AGroup 26584 1 [sym_kGt]; SGroup 11343 1 [sym_kDot]; AGroup 3 3 syms_1]);
   (553167, 7, [AGroup 5 1 [sym_ppDirective]; AGroup 11062 1 [aux_sym_ppUsesBlock_token2];
     AGroup 11100 1 [aux_sym_ppUsesBlock_token3]; SGroup 1392 1 [sym__ppElse];
     SGroup 5793 1 [sym__ppEndIf]; SGroup 12425 1 [aux_sym__ppStatementBlock_repeat2];
     AGroup 3 2 syms_5]);
   (553190, 7, [AGroup 5 1 [sym_ppDirective]; AGroup 15331 1 [aux_sym_ppUsesBlock_token2];
     AGroup 15435 1 [aux_sym_ppUsesBlock_token3]; SGroup 2562 1 [sym__ppEndIf];
     SGroup 3321 1 [sym__ppElse]; SGroup 12236 1 [aux_sym__procAttributesPp_repeat2];
     AGroup 3 2 syms_5]);
   (553213, 4, [AGroup 5 1 [sym_ppDirective]; AGroup 26586 1 [anon_sym_LPAREN]; AGroup 3 2 syms_5;
     AGroup 21751 4 syms_792]);
   (553230, 6, [AGroup 21299 1 [anon_sym_DOT]; AGroup 26211 1 [anon_sym_COMMA]; AGroup 26213 1 [sym_kLt];
     AGroup 26588 1 [sym_kGt]; SGroup 11343 1 [sym_kDot]; AGroup 3 3 syms_1]);
   (553251, 4, [AGroup 18722 1 [sym_kUntil]; AGroup 26590 2 syms_186; SGroup 11974 2 syms_187;
     AGroup 3 3 syms_1]);
   (553268, 4, [AGroup 5 1 [sym_ppDirective]; AGroup 26592 1 [sym_kIn]; AGroup 3 2 syms_5;
     AGroup 25971 4 syms_760]);
   (553285, 6, [AGroup 21299 1 [anon_sym_DOT]; AGroup 26211 1 [anon_sym_COMMA]; AGroup 26213 1 [sym_kLt];
     AGroup 26594 1 [sym_kGt]; SGroup 11343 1 [sym_kDot]; AGroup 3 3 syms_1]);
   (553306, 6, [AGroup 21299 1 [anon_sym_DOT]; AGroup 26211 1 [anon_sym_COMMA]; AGroup 26213 1 [sym_kLt];
     AGroup 26596 1 [sym_kGt]; SGroup 11343 1 [sym_kDot]; AGroup 3 3 syms_1]);
   (553327, 6, [AGroup 24916 1 [sym_kEq]; AGroup 26598 1 [anon_sym_SEMI]; AGroup 26600 1 [anon_sym_COLON];
     AGroup 26602 1 [sym_identifier]; SGroup 14971 1 [sym_defaultValue]; AGroup 3 3 syms_1]);
   (553348, 7, [AGroup 5 1 [sym_ppDirective]; AGroup 15331 1 [aux_sym_ppUsesBlock_token2];
     AGroup 15435 1 [aux_sym_ppUsesBlock_token3]; SGroup 2574 1 [sym__ppEndIf];
     SGroup 3321 1 [sym__ppElse]; SGroup 12236 1 [aux_sym__procAttributesPp_repeat2];
     AGroup 3 2 syms_5]);
   (553371, 7, [AGroup 5 1 [sym_ppDirective]; AGroup 57 1 [aux_sym_ppUsesBlock_token2];
     AGroup 175 1 [aux_sym_ppUsesBlock_token3]; SGroup 52 1 [sym__ppElse];
     SGroup 10397 1 [sym__ppEndIf]; SGroup 12373 1 [aux_sym_ppBlock_repeat2]; AGroup 3 2 syms_5]);
   (553394, 2, [AGroup 3 3 syms_1; AGroup 25657 5 syms_797])
  ].

(** States 11959 to 12058. *)
Definition small_runs_11959 : list small_run :=
  [
   (553407, 2, [AGroup 3 3 syms_1; AGroup 26046 5 syms_60]);
   (553420, 2, [AGroup 3 3 syms_1; AGroup 25659 5 syms_797]);
   (553433, 6, [AGroup 21299 1 [anon_sym_DOT]; AGroup 26211 1 [anon_sym_COMMA]; AGroup 26213 1 [sym_kLt];
     AGroup 26604 1 [sym_kGt]; SGroup 11343 1 [sym_kDot]; AGroup 3 3 syms_1]);
   (553454, 7, [AGroup 5 1 [sym_ppDirective]; AGroup 57 1 [aux_sym_ppUsesBlock_token2];
     AGroup 171 1 [aux_sym_ppUsesBlock_token3]; SGroup 52 1 [sym__ppElse];
     SGroup 2680 1 [sym__ppEndIf]; SGroup 12373 1 [aux_sym_ppBlock_repeat2]; AGroup 3 2 syms_5]);
   (553477, 7, [AGroup 5 1 [sym_ppDirective]; AGroup 57 1 [aux_sym_ppUsesBlock_token2];
     AGroup 171 1 [aux_sym_ppUsesBlock_token3]; SGroup 52 1 [sym__ppElse];
     SGroup 2726 1 [sym__ppEndIf]; SGroup 12373 1 [aux_sym_ppBlock_repeat2]; AGroup 3 2 syms_5]);
   (553500, 3, [AGroup 26606 1 [sym_kOf]; AGroup 3 3 syms_1; AGroup 24646 4 syms_90]);
   (553515, 7, [AGroup 5 1 [sym_ppDirective]; AGroup 57 1 [aux_sym_ppUsesBlock_token2];
     AGroup 189 1 [aux_sym_ppUsesBlock_token3]; SGroup 52 1 [sym__ppElse];
     SGroup 10309 1 [sym__ppEndIf]; SGroup 12373 1 [aux_sym_ppBlock_repeat2]; AGroup 3 2 syms_5]);
   (553538, 7, [AGroup 5 1 [sym_ppDirective]; AGroup 57 1 [aux_sym_ppUsesBlock_token2];
     AGroup 189 1 [aux_sym_ppUsesBlock_token3]; SGroup 52 1 [sym__ppElse];
     SGroup 10251 1 [sym__ppEndIf]; SGroup 12373 1 [aux_sym_ppBlock_repeat2]; AGroup 3 2 syms_5]);
   (553561, 4, [AGroup 5 1 [sym_ppDirective]; AGroup 26608 1 [anon_sym_LPAREN]; AGroup 3 2 syms_5;
     AGroup 21751 4 syms_792]);
   (553578, 6, [AGroup 21299 1 [anon_sym_DOT]; AGroup 26211 1 [anon_sym_COMMA]; AGroup 26213 1 [sym_kLt];
     AGroup 26610 1 [sym_kGt]; SGroup 11343 1 [sym_kDot]; AGroup 3 3 syms_1]);
   (553599, 3, [AGroup 24981 1 [sym_kOperator]; AGroup 3 3 syms_1; AGroup 26612 4 syms_3]);
   (553614, 7, [AGroup 5 1 [sym_ppDirective]; AGroup 15331 1 [aux_sym_ppUsesBlock_token2];
     AGroup 15500 1 [aux_sym_ppUsesBlock_token3]; SGroup 2484 1 [sym__ppEndIf];
     SGroup 3321 1 [sym__ppElse]; SGroup 12236 1 [aux_sym__procAttributesPp_repeat2];
     AGroup 3 2 syms_5]);
   (553637, 4, [AGroup 5 1 [sym_ppDirective]; AGroup 26614 1 [anon_sym_LPAREN]; AGroup 3 2 syms_5;
     AGroup 21751 4 syms_792]);
   (553654, 3, [AGroup 26616 1 [sym_kOf]; AGroup 3 3 syms_1; AGroup 24480 4 syms_90]);
   (553669, 6, [AGroup 21299 1 [anon_sym_DOT]; AGroup 26211 1 [anon_sym_COMMA]; AGroup 26213 1 [sym_kLt];
     AGroup 26618 1 [sym_kGt]; SGroup 11343 1 [sym_kDot]; AGroup 3 3 syms_1]);
   (553690, 4, [AGroup 18701 1 [sym_kUntil]; AGroup 26620 2 syms_186; SGroup 11974 2 syms_187;
     AGroup 3 3 syms_1]);
   (553707, 7, [AGroup 5 1 [sym_ppDirective]; AGroup 15331 1 [aux_sym_ppUsesBlock_token2];
     AGroup 15500 1 [aux_sym_ppUsesBlock_token3]; SGroup 2505 1 [sym__ppEndIf];
     SGroup 3321 1 [sym__ppElse]; SGroup 12236 1 [aux_sym__procAttributesPp_repeat2];
     AGroup 3 2 syms_5]);
   (553730, 4, [AGroup 18739 1 [sym_kUntil]; AGroup 26590 2 syms_186; SGroup 11974 2 syms_187;
     AGroup 3 3 syms_1]);
   (553747, 6, [AGroup 21299 1 [anon_sym_DOT]; AGroup 26211 1 [anon_sym_COMMA]; AGroup 26213 1 [sym_kLt];
     AGroup 26623 1 [sym_kGt]; SGroup 11343 1 [sym_kDot]; AGroup 3 3 syms_1]);
   (553768, 2, [AGroup 3 3 syms_1; AGroup 23901 5 syms_795]);
   (553781, 3, [AGroup 26625 1 [sym_kClass]; AGroup 3 3 syms_1; AGroup 26612 4 syms_3]);
   (553796, 4, [AGroup 21446 1 [anon_sym_COLON]; SGroup 11779 1 [aux_sym_legacyFormat_repeat1];
     AGroup 3 3 syms_1; AGroup 26627 3 syms_796]);
   (553813, 4, [AGroup 5 1 [sym_ppDirective]; AGroup 26629 1 [anon_sym_LPAREN]; AGroup 3 2 syms_5;
     AGroup 21751 4 syms_792]);
   (553830, 6, [AGroup 21299 1 [anon_sym_DOT]; AGroup 26211 1 [anon_sym_COMMA]; AGroup 26213 1 [sym_kLt];
     AGroup 26631 1 [sym_kGt]; SGroup 11343 1 [sym_kDot]; AGroup 3 3 syms_1]);
   (553851, 2, [AGroup 3 3 syms_1; AGroup 26076 5 syms_60]);
   (553864, 6, [AGroup 21299 1 [anon_sym_DOT]; AGroup 26211 1 [anon_sym_COMMA]; AGroup 26213 1 [sym_kLt];
     AGroup 26633 1 [sym_kGt]; SGroup 11343 1 [sym_kDot]; AGroup 3 3 syms_1]);
   (553885, 7, [AGroup 5 1 [sym_ppDirective]; AGroup 57 1 [aux_sym_ppUsesBlock_token2];
     AGroup 161 1 [aux_sym_ppUsesBlock_token3]; SGroup 52 1 [sym__ppElse];
     SGroup 10428 1 [sym__ppEndIf]; SGroup 12373 1 [aux_sym_ppBlock_repeat2]; AGroup 3 2 syms_5]);
   (553908, 7, [AGroup 5 1 [sym_ppDirective]; AGroup 57 1 [aux_sym_ppUsesBlock_token2];
     AGroup 161 1 [aux_sym_ppUsesBlock_token3]; SGroup 52 1 [sym__ppElse];
     SGroup 10464 1 [sym__ppEndIf]; SGroup 12373 1 [aux_sym_ppBlock_repeat2]; AGroup 3 2 syms_5]);
   (553931, 6, [AGroup 21297 1 [sym_kDo]; AGroup 21299 1 [anon_sym_DOT]; AGroup 26635 1 [sym_kLt];
     AGroup 26637 1 [sym_kDeprecated]; SGroup 11290 1 [sym_kDot]; AGroup 3 3 syms_1]);
   (553952, 3, [AGroup 26639 1 [sym_kDeprecated]; AGroup 3 3 syms_1; AGroup 24650 4 syms_90]);
   (553967, 3, [AGroup 26641 1 [sym_kClass]; AGroup 3 3 syms_1; AGroup 26448 4 syms_3]);
   (553982, 6, [AGroup 24916 1 [sym_kEq]; AGroup 26643 1 [anon_sym_SEMI]; AGroup 26645 1 [anon_sym_COLON];
     AGroup 26647 1 [sym_identifier]; SGroup 15746 1 [sym_defaultValue]; AGroup 3 3 syms_1]);
   (554003, 3, [AGroup 26649 1 [sym_kClass]; AGroup 3 3 syms_1; AGroup 24662 4 syms_3]);
   (554018, 3, [AGroup 26651 1 [anon_sym_COLON]; AGroup 3 3 syms_1; AGroup 16974 4 syms_793]);
   (554033, 4, [AGroup 5 1 [sym_ppDirective]; AGroup 26653 1 [anon_sym_LPAREN]; AGroup 3 2 syms_5;
     AGroup 21751 4 syms_792]);
   (554050, 3, [AGroup 26655 1 [sym_kClass]; AGroup 3 3 syms_1; AGroup 24554 4 syms_3]);
   (554065, 6, [AGroup 21299 1 [anon_sym_DOT]; AGroup 26211 1 [anon_sym_COMMA]; AGroup 26213 1 [sym_kLt];
     AGroup 26657 1 [sym_kGt]; SGroup 11343 1 [sym_kDot]; AGroup 3 3 syms_1]);
   (554086, 3, [AGroup 26659 1 [sym_kClass]; AGroup 3 3 syms_1; AGroup 26123 4 syms_3]);
   (554101, 7, [AGroup 5 1 [sym_ppDirective]; AGroup 57 1 [aux_sym_ppUsesBlock_token2];
     AGroup 175 1 [aux_sym_ppUsesBlock_token3]; SGroup 52 1 [sym__ppElse];
     SGroup 10386 1 [sym__ppEndIf]; SGroup 12373 1 [aux_sym_ppBlock_repeat2]; AGroup 3 2 syms_5]);
   (554124, 7, [AGroup 5 1 [sym_ppDirective]; AGroup 57 1 [aux_sym_ppUsesBlock_token2];
     AGroup 157 1 [aux_sym_ppUsesBlock_token3]; SGroup 52 1 [sym__ppElse];
     SGroup 10431 1 [sym__ppEndIf]; SGroup 12373 1 [aux_sym_ppBlock_repeat2]; AGroup 3 2 syms_5]);
   (554147, 7, [AGroup 5 1 [sym_ppDirective]; AGroup 147 1 [aux_sym_ppUsesBlock_token3];
     AGroup 26314 1 [aux_sym_ppUsesBlock_token2]; SGroup 1357 1 [sym__ppEndIf];
     SGroup 6367 1 [sym__ppElse]; SGroup 12001 1 [aux_sym__defProcBody_repeat1];
     AGroup 3 2 syms_5]);
   (554170, 6, [AGroup 21299 1 [anon_sym_DOT]; AGroup 26213 1 [sym_kLt]; AGroup 26548 1 [anon_sym_COMMA];
     AGroup 26661 1 [sym_kGt]; SGroup 11343 1 [sym_kDot]; AGroup 3 3 syms_1]);
   (554191, 7, [AGroup 5 1 [sym_ppDirective]; AGroup 147 1 [aux_sym_ppUsesBlock_token3];
     AGroup 26314 1 [aux_sym_ppUsesBlock_token2]; SGroup 1331 1 [sym__ppEndIf];
     SGroup 6367 1 [sym__ppElse]; SGroup 12109 1 [aux_sym__defProcBody_repeat1];
     AGroup 3 2 syms_5]);
   (554214, 4, [AGroup 5 1 [sym_ppDirective]; AGroup 26663 1 [anon_sym_LPAREN]; AGroup 3 2 syms_5;
     AGroup 21751 4 syms_792]);
   (554231, 6, [AGroup 21299 1 [anon_sym_DOT]; AGroup 26211 1 [anon_sym_COMMA]; AGroup 26213 1 [sym_kLt];
     AGroup 26665 1 [sym_kGt]; SGroup 11343 1 [sym_kDot]; AGroup 3 3 syms_1]);
   (554252, 7, [AGroup 5 1 [sym_ppDirective]; AGroup 11062 1 [aux_sym_ppUsesBlock_token2];
     AGroup 11104 1 [aux_sym_ppUsesBlock_token3]; SGroup 1392 1 [sym__ppElse];
     SGroup 6102 1 [sym__ppEndIf]; SGroup 12425 1 [aux_sym__ppStatementBlock_repeat2];
     AGroup 3 2 syms_5]);
   (554275, 6, [AGroup 21299 1 [anon_sym_DOT]; AGroup 26211 1 [anon_sym_COMMA]; AGroup 26213 1 [sym_kLt];
     AGroup 26667 1 [sym_kGt]; SGroup 11343 1 [sym_kDot]; AGroup 3 3 syms_1]);
   (554296, 6, [AGroup 21299 1 [anon_sym_DOT]; AGroup 21307 1 [sym_kDo]; AGroup 26635 1 [sym_kLt];
     AGroup 26669 1 [sym_kDeprecated]; SGroup 11290 1 [sym_kDot]; AGroup 3 3 syms_1]);
   (554317, 7, [AGroup 5 1 [sym_ppDirective]; AGroup 15331 1 [aux_sym_ppUsesBlock_token2];
     AGroup 15333 1 [aux_sym_ppUsesBlock_token3]; SGroup 2235 1 [sym__ppEndIf];
     SGroup 3321 1 [sym__ppElse]; SGroup 12236 1 [aux_sym__procAttributesPp_repeat2];
     AGroup 3 2 syms_5]);
   (554340, 3, [AGroup 26671 1 [sym_kOf]; AGroup 3 3 syms_1; AGroup 24894 4 syms_90]);
   (554355, 2, [AGroup 3 3 syms_1; AGroup 23883 5 syms_795]);
   (554368, 6, [AGroup 21299 1 [anon_sym_DOT]; AGroup 26211 1 [anon_sym_COMMA]; AGroup 26213 1 [sym_kLt];
     AGroup 26673 1 [sym_kGt]; SGroup 11343 1 [sym_kDot]; AGroup 3 3 syms_1]);
   (554389, 4, [AGroup 5 1 [sym_ppDirective]; AGroup 26675 1 [anon_sym_LPAREN]; AGroup 3 2 syms_5;
     AGroup 21751 4 syms_792]);
   (554406, 6, [AGroup 21299 1 [anon_sym_DOT]; AGroup 26211 1 [anon_sym_COMMA]; AGroup 26213 1 [sym_kLt];
     AGroup 26677 1 [sym_kGt]; SGroup 11343 1 [sym_kDot]; AGroup 3 3 syms_1]);
   (554427, 4, [AGroup 24916 1 [sym_kEq]; SGroup 12767 1 [sym_defaultValue]; AGroup 3 3 syms_1;
     AGroup 26679 3 syms_667]);
   (554444, 6, [AGroup 21299 1 [anon_sym_DOT]; AGroup 26211 1 [anon_sym_COMMA]; AGroup 26213 1 [sym_kLt];
     AGroup 26681 1 [sym_kGt]; SGroup 11343 1 [sym_kDot]; AGroup 3 3 syms_1]);
   (554465, 3, [AGroup 26683 1 [anon_sym_COLON]; AGroup 3 3 syms_1; AGroup 16974 4 syms_793]);
   (554480, 4, [AGroup 5 1 [sym_ppDirective]; AGroup 26685 1 [anon_sym_LPAREN]; AGroup 3 2 syms_5;
     AGroup 21751 4 syms_792]);
   (554497, 7, [AGroup 5 1 [sym_ppDirective]; AGroup 15331 1 [aux_sym_ppUsesBlock_token2];
     AGroup 15333 1 [aux_sym_ppUsesBlock_token3]; SGroup 2260 1 [sym__ppEndIf];
     SGroup 3321 1 [sym__ppElse]; SGroup 12236 1 [aux_sym__procAttributesPp_repeat2];
     AGroup 3 2 syms_5]);
   (554520, 6, [AGroup 21299 1 [anon_sym_DOT]; AGroup 26211 1 [anon_sym_COMMA]; AGroup 26213 1 [sym_kLt];
     AGroup 26687 1 [sym_kGt]; SGroup 11343 1 [sym_kDot]; AGroup 3 3 syms_1]);
   (554541, 4, [AGroup 26063 1 [anon_sym_COMMA]; AGroup 26691 1 [anon_sym_COLON]; AGroup 3 3 syms_1;
     AGroup 26689 3 syms_667]);
   (554558, 4, [AGroup 24916 1 [sym_kEq]; SGroup 12806 1 [sym_defaultValue]; AGroup 3 3 syms_1;
     AGroup 26693 3 syms_667]);
   (554575, 2, [AGroup 3 3 syms_1; AGroup 25673 5 syms_797]);
   (554588, 4, [AGroup 25219 1 [sym_identifier]; AGroup 26695 1 [sym_kGeneric]; AGroup 3 3 syms_1;
     SGroup 12287 3 syms_2]);
   (554605, 7, [AGroup 5 1 [sym_ppDirective]; AGroup 57 1 [aux_sym_ppUsesBlock_token2];
     AGroup 59 1 [aux_sym_ppUsesBlock_token3]; SGroup 52 1 [sym__ppElse];
     SGroup 9748 1 [sym__ppEndIf]; SGroup 12373 1 [aux_sym_ppBlock_repeat2]; AGroup 3 2 syms_5]);
   (554628, 7, [AGroup 5 1 [sym_ppDirective]; AGroup 57 1 [aux_sym_ppUsesBlock_token2];
     AGroup 59 1 [aux_sym_ppUsesBlock_token3]; SGroup 52 1 [sym__ppElse];
     SGroup 9652 1 [sym__ppEndIf]; SGroup 12373 1 [aux_sym_ppBlock_repeat2]; AGroup 3 2 syms_5]);
   (554651, 6, [AGroup 24916 1 [sym_kEq]; AGroup 26697 1 [anon_sym_SEMI]; AGroup 26699 1 [anon_sym_COLON];
     AGroup 26701 1 [sym_identifier]; SGroup 14465 1 [sym_defaultValue]; AGroup 3 3 syms_1]);
   (554672, 2, [AGroup 3 3 syms_1; AGroup 25675 5 syms_797]);
   (554685, 3, [AGroup 26703 1 [anon_sym_COLON]; AGroup 3 3 syms_1; AGroup 16974 4 syms_794]);
   (554700, 4, [AGroup 5 1 [sym_ppDirective]; AGroup 26705 1 [anon_sym_LPAREN]; AGroup 3 2 syms_5;
     AGroup 21751 4 syms_792]);
   (554717, 7, [AGroup 5 1 [sym_ppDirective]; AGroup 11062 1 [aux_sym_ppUsesBlock_token2];
     AGroup 11064 1 [aux_sym_ppUsesBlock_token3]; SGroup 1392 1 [sym__ppElse];
     SGroup 6223 1 [sym__ppEndIf]; SGroup 12425 1 [aux_sym__ppStatementBlock_repeat2];
     AGroup 3 2 syms_5]);
   (554740, 4, [AGroup 26707 1 [sym_identifier]; AGroup 26709 1 [sym_kGeneric]; AGroup 3 3 syms_1;
     SGroup 12309 3 syms_2]);
   (554757, 6, [AGroup 21299 1 [anon_sym_DOT]; AGroup 26211 1 [anon_sym_COMMA]; AGroup 26213 1 [sym_kLt];
     AGroup 26711 1 [sym_kGt]; SGroup 11343 1 [sym_kDot]; AGroup 3 3 syms_1]);
   (554778, 4, [AGroup 26713 1 [sym_identifier]; AGroup 26715 1 [sym_kGeneric]; AGroup 3 3 syms_1;
     SGroup 12324 3 syms_2]);
   (554795, 4, [AGroup 5 1 [sym_ppDirective]; AGroup 26719 1 [anon_sym_LPAREN]; AGroup 3 2 syms_5;
     AGroup 26717 4 syms_774]);
   (554812, 6, [AGroup 21299 1 [anon_sym_DOT]; AGroup 26211 1 [anon_sym_COMMA]; AGroup 26213 1 [sym_kLt];
     AGroup 26721 1 [sym_kGt]; SGroup 11343 1 [sym_kDot]; AGroup 3 3 syms_1]);
   (554833, 4, [AGroup 26723 1 [sym_identifier]; AGroup 26725 1 [sym_kGeneric]; AGroup 3 3 syms_1;
     SGroup 12332 3 syms_2]);
   (554850, 4, [AGroup 5 1 [sym_ppDirective]; AGroup 26727 1 [anon_sym_LPAREN]; AGroup 3 2 syms_5;
     AGroup 21751 4 syms_792]);
   (554867, 4, [AGroup 26729 1 [sym_identifier]; AGroup 26731 1 [sym_kGeneric]; AGroup 3 3 syms_1;
     SGroup 12342 3 syms_2]);
   (554884, 6, [AGroup 21299 1 [anon_sym_DOT]; AGroup 26211 1 [anon_sym_COMMA]; AGroup 26213 1 [sym_kLt];
     AGroup 26733 1 [sym_kGt]; SGroup 11343 1 [sym_kDot]; AGroup 3 3 syms_1]);
   (554905, 7, [AGroup 5 1 [sym_ppDirective]; AGroup 11062 1 [aux_sym_ppUsesBlock_token2];
     AGroup 11104 1 [aux_sym_ppUsesBlock_token3]; SGroup 1392 1 [sym__ppElse];
     SGroup 6131 1 [sym__ppEndIf]; SGroup 12425 1 [aux_sym__ppStatementBlock_repeat2];
     AGroup 3 2 syms_5]);
   (554928, 4, [AGroup 26735 1 [sym_identifier]; AGroup 26737 1 [sym_kGeneric]; AGroup 3 3 syms_1;
     SGroup 12350 3 syms_2]);
   (554945, 6, [AGroup 24916 1 [sym_kEq]; AGroup 26063 1 [anon_sym_COMMA]; AGroup 26139 1 [anon_sym_SEMI];
     AGroup 26739 1 [anon_sym_COLON]; SGroup 13790 1 [sym_defaultValue]; AGroup 3 3 syms_1]);
   (554966, 6, [AGroup 24916 1 [sym_kEq]; AGroup 26741 1 [anon_sym_SEMI]; AGroup 26743 1 [anon_sym_COLON];
     AGroup 26745 1 [sym_identifier]; SGroup 14305 1 [sym_defaultValue]; AGroup 3 3 syms_1]);
   (554987, 6, [AGroup 21299 1 [anon_sym_DOT]; AGroup 26211 1 [anon_sym_COMMA]; AGroup 26213 1 [sym_kLt];
     AGroup 26747 1 [sym_kGt]; SGroup 11343 1 [sym_kDot]; AGroup 3 3 syms_1]);
   (555008, 7, [AGroup 5 1 [sym_ppDirective]; AGroup 15331 1 [aux_sym_ppUsesBlock_token2];
     AGroup 15349 1 [aux_sym_ppUsesBlock_token3]; SGroup 2625 1 [sym__ppEndIf];
     SGroup 3321 1 [sym__ppElse]; SGroup 12236 1 [aux_sym__procAttributesPp_repeat2];
     AGroup 3 2 syms_5]);
   (555031, 4, [AGroup 5 1 [sym_ppDirective]; AGroup 26749 1 [anon_sym_LPAREN]; AGroup 3 2 syms_5;
     AGroup 21751 4 syms_792]);
   (555048, 2, [AGroup 3 3 syms_1; AGroup 26036 5 syms_60]);
   (555061, 4, [AGroup 5 1 [sym_ppDirective]; AGroup 26751 1 [anon_sym_LPAREN]; AGroup 3 2 syms_5;
     AGroup 21751 4 syms_792]);
   (555078, 6, [AGroup 21299 1 [anon_sym_DOT]; AGroup 26211 1 [anon_sym_COMMA]; AGroup 26213 1 [sym_kLt];
     AGroup 26753 1 [sym_kGt]; SGroup 11343 1 [sym_kDot]; AGroup 3 3 syms_1]);
   (555099, 7, [AGroup 5 1 [sym_ppDirective]; AGroup 157 1 [aux_sym_ppUsesBlock_token3];
     AGroup 26314 1 [aux_sym_ppUsesBlock_token2]; SGroup 6367 1 [sym__ppElse];
     SGroup 10433 1 [sym__ppEndIf]; SGroup 11745 1 [aux_sym__defProcBody_repeat1];
     AGroup 3 2 syms_5]);
   (555122, 2, [AGroup 3 3 syms_1; AGroup 23675 4 syms_800]);
   (555134, 3, [AGroup 26755 1 [sym_identifier]; AGroup 3 3 syms_1; SGroup 11212 3 syms_2]);
   (555148, 3, [SGroup 7560 1 [sym__literalInt]; AGroup 3 3 syms_1; AGroup 26757 3 syms_801]);
   (555162, 3, [AGroup 26759 1 [sym_identifier]; AGroup 3 3 syms_1; SGroup 11138 3 syms_2]);
   (555176, 3, [AGroup 26761 1 [sym_identifier]; AGroup 3 3 syms_1; SGroup 11535 3 syms_2]);
   (555190, 3, [AGroup 26763 1 [anon_sym_SEMI]; AGroup 3 3 syms_1; AGroup 25791 3 syms_43]);
   (555204, 3, [SGroup 7632 1 [sym__literalInt]; AGroup 3 3 syms_1; AGroup 26765 3 syms_801]);
   (555218, 5, [AGroup 24916 1 [sym_kEq]; AGroup 26767 1 [anon_sym_SEMI]; AGroup 26769 1 [anon_sym_COLON];
     SGroup 14417 1 [sym_defaultValue]; AGroup 3 3 syms_1]);
   (555236, 5, [AGroup 24916 1 [sym_kEq]; AGroup 26771 1 [anon_sym_SEMI]; AGroup 26773 1 [anon_sym_COLON];
     SGroup 15656 1 [sym_defaultValue]; AGroup 3 3 syms_1])
  ].

(** States 12059 to 12158. *)
Definition small_runs_12059 : list small_run :=
  [
   (555254, 3, [SGroup 5666 1 [sym__literalInt]; AGroup 3 3 syms_1; AGroup 26775 3 syms_801]);
   (555268, 5, [AGroup 24916 1 [sym_kEq]; AGroup 26777 1 [anon_sym_SEMI]; AGroup 26779 1 [anon_sym_COLON];
     SGroup 14438 1 [sym_defaultValue]; AGroup 3 3 syms_1]);
   (555286, 5, [AGroup 20772 1 [anon_sym_DOT]; AGroup 24914 1 [sym_kLt]; AGroup 26781 1 [sym_kEq];
     SGroup 12054 1 [sym_kDot]; AGroup 3 3 syms_1]);
   (555304, 2, [AGroup 3 3 syms_1; AGroup 25645 4 syms_647]);
   (555316, 5, [AGroup 25313 1 [sym_kCase]; AGroup 26783 1 [anon_sym_RPAREN];
     AGroup 26785 1 [sym_identifier]; SGroup 13648 1 [sym_declVariant]; AGroup 3 3 syms_1]);
   (555334, 5, [AGroup 24916 1 [sym_kEq]; AGroup 26787 1 [anon_sym_SEMI]; AGroup 26789 1 [sym_kAbsolute];
     SGroup 14740 1 [sym_defaultValue]; AGroup 3 3 syms_1]);
   (555352, 2, [AGroup 3 3 syms_1; AGroup 25661 4 syms_647]);
   (555364, 5, [AGroup 24916 1 [sym_kEq]; AGroup 26791 1 [anon_sym_SEMI]; AGroup 26793 1 [anon_sym_COLON];
     SGroup 14334 1 [sym_defaultValue]; AGroup 3 3 syms_1]);
   (555382, 5, [AGroup 24916 1 [sym_kEq]; AGroup 26795 1 [anon_sym_SEMI]; AGroup 26797 1 [sym_kAbsolute];
     SGroup 14741 1 [sym_defaultValue]; AGroup 3 3 syms_1]);
   (555400, 5, [AGroup 24916 1 [sym_kEq]; AGroup 26799 1 [anon_sym_SEMI]; AGroup 26801 1 [anon_sym_COLON];
     SGroup 15555 1 [sym_defaultValue]; AGroup 3 3 syms_1]);
   (555418, 5, [AGroup 24916 1 [sym_kEq]; AGroup 26803 1 [anon_sym_SEMI]; AGroup 26805 1 [anon_sym_COLON];
     SGroup 14466 1 [sym_defaultValue]; AGroup 3 3 syms_1]);
   (555436, 3, [SGroup 7842 1 [sym__literalInt]; AGroup 3 3 syms_1; AGroup 26807 3 syms_801]);
   (555450, 5, [AGroup 24916 1 [sym_kEq]; AGroup 26809 1 [anon_sym_SEMI]; AGroup 26811 1 [sym_kAbsolute];
     SGroup 14501 1 [sym_defaultValue]; AGroup 3 3 syms_1]);
   (555468, 5, [AGroup 24916 1 [sym_kEq]; AGroup 26813 1 [anon_sym_SEMI]; AGroup 26815 1 [sym_kAbsolute];
     SGroup 14502 1 [sym_defaultValue]; AGroup 3 3 syms_1]);
   (555486, 3, [AGroup 26817 1 [sym_identifier]; AGroup 3 3 syms_1; SGroup 11178 3 syms_2]);
   (555500, 4, [SGroup 12078 1 [aux_sym_declLabels_repeat1]; SGroup 13281 1 [sym_declLabel];
     AGroup 26819 2 syms_186; AGroup 3 3 syms_1]);
   (555516, 3, [AGroup 26821 1 [sym_identifier]; AGroup 3 3 syms_1; SGroup 11189 3 syms_2]);
   (555530, 4, [AGroup 26065 1 [sym_kEq]; SGroup 13800 1 [sym_defaultValue]; AGroup 26823 2 syms_789;
     AGroup 3 3 syms_1]);
   (555546, 5, [AGroup 25313 1 [sym_kCase]; AGroup 26785 1 [sym_identifier];
     AGroup 26825 1 [anon_sym_RPAREN]; SGroup 13735 1 [sym_declVariant]; AGroup 3 3 syms_1]);
   (555564, 4, [SGroup 12140 1 [aux_sym_declLabels_repeat1]; SGroup 13355 1 [sym_declLabel];
     AGroup 26819 2 syms_186; AGroup 3 3 syms_1]);
   (555580, 3, [SGroup 7050 1 [sym__literalInt]; AGroup 3 3 syms_1; AGroup 26827 3 syms_801]);
   (555594, 3, [SGroup 8024 1 [sym__literalInt]; AGroup 3 3 syms_1; AGroup 26829 3 syms_801]);
   (555608, 3, [AGroup 26831 1 [sym_identifier]; AGroup 3 3 syms_1; SGroup 11229 3 syms_2]);
   (555622, 3, [SGroup 7736 1 [sym__literalInt]; AGroup 3 3 syms_1; AGroup 26833 3 syms_801]);
   (555636, 3, [SGroup 7856 1 [sym__literalInt]; AGroup 3 3 syms_1; AGroup 26835 3 syms_801]);
   (555650, 5, [AGroup 24916 1 [sym_kEq]; AGroup 26837 1 [anon_sym_SEMI]; AGroup 26839 1 [anon_sym_COLON];
     SGroup 14544 1 [sym_defaultValue]; AGroup 3 3 syms_1]);
   (555668, 5, [AGroup 24916 1 [sym_kEq]; AGroup 26841 1 [anon_sym_SEMI]; AGroup 26843 1 [anon_sym_COLON];
     SGroup 14430 1 [sym_defaultValue]; AGroup 3 3 syms_1]);
   (555686, 2, [AGroup 3 3 syms_1; AGroup 24918 4 syms_90]);
   (555698, 3, [AGroup 26845 1 [sym_kOf]; AGroup 3 3 syms_1; AGroup 24894 3 syms_117]);
   (555712, 3, [AGroup 26847 1 [anon_sym_SEMI]; AGroup 3 3 syms_1; AGroup 25687 3 syms_43]);
   (555726, 3, [AGroup 26849 1 [anon_sym_SEMI]; AGroup 3 3 syms_1; AGroup 25849 3 syms_43]);
   (555740, 3, [AGroup 5 1 [sym_ppDirective]; AGroup 3 2 syms_5; AGroup 23889 4 syms_802]);
   (555754, 2, [AGroup 3 3 syms_1; AGroup 21751 4 syms_792]);
   (555766, 2, [AGroup 3 3 syms_1; AGroup 24967 4 syms_90]);
   (555778, 2, [AGroup 3 3 syms_1; AGroup 24989 4 syms_90]);
   (555790, 5, [AGroup 24916 1 [sym_kEq]; AGroup 26851 1 [anon_sym_SEMI]; AGroup 26853 1 [sym_kAbsolute];
     SGroup 15636 1 [sym_defaultValue]; AGroup 3 3 syms_1]);
   (555808, 5, [AGroup 24916 1 [sym_kEq]; AGroup 26855 1 [anon_sym_SEMI]; AGroup 26857 1 [anon_sym_COLON];
     SGroup 14579 1 [sym_defaultValue]; AGroup 3 3 syms_1]);
   (555826, 5, [AGroup 24916 1 [sym_kEq]; AGroup 26859 1 [anon_sym_SEMI]; AGroup 26861 1 [sym_kAbsolute];
     SGroup 15033 1 [sym_defaultValue]; AGroup 3 3 syms_1]);
   (555844, 5, [AGroup 25311 1 [sym_identifier]; SGroup 12160 1 [aux_sym_declVariantClause_repeat1];
     SGroup 13128 1 [aux_sym_genericArg_repeat1]; SGroup 13287 1 [sym_declVariantField];
     AGroup 3 3 syms_1]);
   (555862, 3, [AGroup 26863 1 [sym_identifier]; AGroup 3 3 syms_1; SGroup 11201 3 syms_2]);
   (555876, 3, [AGroup 26865 1 [sym_identifier]; AGroup 3 3 syms_1; SGroup 11124 3 syms_2]);
   (555890, 4, [AGroup 26869 1 [sym_kEq]; SGroup 13604 1 [sym_defaultValue]; AGroup 26867 2 syms_129;
     AGroup 3 3 syms_1]);
   (555906, 3, [SGroup 7666 1 [sym__literalInt]; AGroup 3 3 syms_1; AGroup 26871 3 syms_801]);
   (555920, 5, [AGroup 24916 1 [sym_kEq]; AGroup 26873 1 [anon_sym_SEMI]; AGroup 26875 1 [sym_kAbsolute];
     SGroup 14591 1 [sym_defaultValue]; AGroup 3 3 syms_1]);
   (555938, 5, [AGroup 24916 1 [sym_kEq]; AGroup 26877 1 [anon_sym_SEMI]; AGroup 26879 1 [sym_kAbsolute];
     SGroup 14596 1 [sym_defaultValue]; AGroup 3 3 syms_1]);
   (555956, 5, [AGroup 26881 1 [sym_kOn]; AGroup 26883 1 [sym_kElse]; AGroup 26885 1 [sym_kEnd];
     SGroup 15648 1 [sym_exceptionElse]; AGroup 3 3 syms_1]);
   (555974, 5, [AGroup 24916 1 [sym_kEq]; AGroup 26887 1 [anon_sym_SEMI]; AGroup 26889 1 [sym_kAbsolute];
     SGroup 14614 1 [sym_defaultValue]; AGroup 3 3 syms_1]);
   (555992, 3, [AGroup 26891 1 [sym_identifier]; AGroup 3 3 syms_1; SGroup 11101 3 syms_2]);
   (556006, 5, [AGroup 24916 1 [sym_kEq]; AGroup 26893 1 [anon_sym_SEMI]; AGroup 26895 1 [sym_kAbsolute];
     SGroup 14615 1 [sym_defaultValue]; AGroup 3 3 syms_1]);
   (556024, 2, [AGroup 3 3 syms_1; AGroup 25659 4 syms_647]);
   (556036, 6, [AGroup 5 1 [sym_ppDirective]; AGroup 26897 1 [aux_sym_ppUsesBlock_token2];
     AGroup 26900 1 [aux_sym_ppUsesBlock_token3]; SGroup 6367 1 [sym__ppElse];
     SGroup 12109 1 [aux_sym__defProcBody_repeat1]; AGroup 3 2 syms_5]);
   (556056, 3, [AGroup 26902 1 [anon_sym_SEMI]; AGroup 3 3 syms_1; AGroup 25855 3 syms_43]);
   (556070, 3, [AGroup 26904 1 [anon_sym_SEMI]; AGroup 3 3 syms_1; AGroup 25785 3 syms_79]);
   (556084, 2, [AGroup 3 3 syms_1; AGroup 24240 4 syms_654]);
   (556096, 2, [AGroup 3 3 syms_1; AGroup 9810 4 syms_90]);
   (556108, 5, [AGroup 24916 1 [sym_kEq]; AGroup 26906 1 [anon_sym_SEMI]; AGroup 26908 1 [anon_sym_COLON];
     SGroup 15433 1 [sym_defaultValue]; AGroup 3 3 syms_1]);
   (556126, 5, [AGroup 24916 1 [sym_kEq]; AGroup 26910 1 [anon_sym_SEMI]; AGroup 26912 1 [anon_sym_COLON];
     SGroup 15597 1 [sym_defaultValue]; AGroup 3 3 syms_1]);
   (556144, 3, [AGroup 26914 1 [anon_sym_SEMI]; AGroup 3 3 syms_1; AGroup 25791 3 syms_79]);
   (556158, 5, [AGroup 21299 1 [anon_sym_DOT]; AGroup 26213 1 [sym_kLt]; AGroup 26548 1 [anon_sym_COMMA];
     SGroup 11343 1 [sym_kDot]; AGroup 3 3 syms_1]);
   (556176, 3, [SGroup 7601 1 [sym__literalInt]; AGroup 3 3 syms_1; AGroup 26916 3 syms_801]);
   (556190, 5, [AGroup 26406 1 [sym_identifier]; SGroup 12221 1 [aux_sym_genericArgs_repeat1];
     SGroup 13147 1 [sym_genericArg]; SGroup 13993 1 [aux_sym_genericArg_repeat1];
     AGroup 3 3 syms_1]);
   (556208, 5, [AGroup 24916 1 [sym_kEq]; AGroup 26918 1 [anon_sym_SEMI]; AGroup 26920 1 [sym_kAbsolute];
     SGroup 14663 1 [sym_defaultValue]; AGroup 3 3 syms_1]);
   (556226, 5, [AGroup 24916 1 [sym_kEq]; AGroup 26922 1 [anon_sym_SEMI]; AGroup 26924 1 [sym_kAbsolute];
     SGroup 14664 1 [sym_defaultValue]; AGroup 3 3 syms_1]);
   (556244, 3, [AGroup 26926 1 [sym_identifier]; AGroup 3 3 syms_1; SGroup 11115 3 syms_2]);
   (556258, 3, [AGroup 26928 1 [sym_identifier]; AGroup 3 3 syms_1; SGroup 11184 3 syms_2]);
   (556272, 5, [AGroup 24916 1 [sym_kEq]; AGroup 26930 1 [anon_sym_SEMI]; AGroup 26932 1 [anon_sym_COLON];
     SGroup 15762 1 [sym_defaultValue]; AGroup 3 3 syms_1]);
   (556290, 3, [AGroup 5 1 [sym_ppDirective]; AGroup 3 2 syms_5; AGroup 26195 4 syms_760]);
   (556304, 3, [AGroup 26934 1 [sym_identifier]; AGroup 3 3 syms_1; SGroup 11192 3 syms_2]);
   (556318, 5, [AGroup 24916 1 [sym_kEq]; AGroup 26936 1 [anon_sym_SEMI]; AGroup 26938 1 [anon_sym_COLON];
     SGroup 14869 1 [sym_defaultValue]; AGroup 3 3 syms_1]);
   (556336, 3, [AGroup 26940 1 [anon_sym_SEMI]; AGroup 3 3 syms_1; AGroup 25591 3 syms_79]);
   (556350, 3, [AGroup 26942 1 [anon_sym_SEMI]; AGroup 3 3 syms_1; AGroup 25609 3 syms_79]);
   (556364, 3, [SGroup 7747 1 [sym__literalInt]; AGroup 3 3 syms_1; AGroup 26944 3 syms_801]);
   (556378, 3, [SGroup 7832 1 [sym__literalInt]; AGroup 3 3 syms_1; AGroup 26946 3 syms_801]);
   (556392, 5, [AGroup 20772 1 [anon_sym_DOT]; AGroup 24914 1 [sym_kLt]; AGroup 26948 1 [sym_kEq];
     SGroup 12054 1 [sym_kDot]; AGroup 3 3 syms_1]);
   (556410, 5, [AGroup 24916 1 [sym_kEq]; AGroup 26950 1 [anon_sym_SEMI]; AGroup 26952 1 [sym_kAbsolute];
     SGroup 15619 1 [sym_defaultValue]; AGroup 3 3 syms_1]);
   (556428, 5, [AGroup 24916 1 [sym_kEq]; AGroup 26954 1 [anon_sym_SEMI]; AGroup 26956 1 [sym_kAbsolute];
     SGroup 15621 1 [sym_defaultValue]; AGroup 3 3 syms_1]);
   (556446, 3, [AGroup 26958 1 [anon_sym_SEMI]; AGroup 3 3 syms_1; AGroup 25687 3 syms_79]);
   (556460, 3, [SGroup 6381 1 [sym__literalInt]; AGroup 3 3 syms_1; AGroup 26960 3 syms_801]);
   (556474, 3, [SGroup 7852 1 [sym__literalInt]; AGroup 3 3 syms_1; AGroup 26962 3 syms_801]);
   (556488, 3, [SGroup 7087 1 [sym__literalInt]; AGroup 3 3 syms_1; AGroup 26964 3 syms_801]);
   (556502, 3, [AGroup 5 1 [sym_ppDirective]; AGroup 3 2 syms_5; AGroup 26071 4 syms_760]);
   (556516, 4, [SGroup 12140 1 [aux_sym_declLabels_repeat1]; SGroup 14228 1 [sym_declLabel];
     AGroup 26966 2 syms_186; AGroup 3 3 syms_1]);
   (556532, 3, [SGroup 6640 1 [sym__literalInt]; AGroup 3 3 syms_1; AGroup 26969 3 syms_801]);
   (556546, 3, [SGroup 7197 1 [sym__literalInt]; AGroup 3 3 syms_1; AGroup 26971 3 syms_801]);
   (556560, 3, [AGroup 18750 1 [sym_identifier]; AGroup 3 3 syms_1; SGroup 11226 3 syms_2]);
   (556574, 3, [SGroup 8164 1 [sym__literalInt]; AGroup 3 3 syms_1; AGroup 26973 3 syms_801]);
   (556588, 4, [SGroup 12164 1 [aux_sym_declLabels_repeat1]; SGroup 14110 1 [sym_declLabel];
     AGroup 26819 2 syms_186; AGroup 3 3 syms_1]);
   (556604, 2, [AGroup 3 3 syms_1; AGroup 25063 4 syms_90]);
   (556616, 3, [AGroup 26975 1 [anon_sym_SEMI]; AGroup 3 3 syms_1; AGroup 25717 3 syms_79]);
   (556630, 2, [AGroup 3 3 syms_1; AGroup 25079 4 syms_90]);
   (556642, 3, [AGroup 26977 1 [anon_sym_SEMI]; AGroup 3 3 syms_1; AGroup 25721 3 syms_79]);
   (556656, 3, [AGroup 26979 1 [anon_sym_SEMI]; AGroup 3 3 syms_1; AGroup 25739 3 syms_79]);
   (556670, 3, [AGroup 26981 1 [anon_sym_SEMI]; AGroup 3 3 syms_1; AGroup 25753 3 syms_79]);
   (556684, 3, [AGroup 26983 1 [sym_identifier]; AGroup 3 3 syms_1; SGroup 11099 3 syms_2]);
   (556698, 3, [SGroup 7917 1 [sym__literalInt]; AGroup 3 3 syms_1; AGroup 26985 3 syms_801]);
   (556712, 2, [AGroup 3 3 syms_1; AGroup 26987 4 syms_3]);
   (556724, 3, [SGroup 10577 1 [sym__literalInt]; AGroup 3 3 syms_1; AGroup 26989 3 syms_801]);
   (556738, 6, [AGroup 5 1 [sym_ppDirective]; AGroup 26991 1 [aux_sym_ppUsesBlock_token2];
     AGroup 26994 1 [aux_sym_ppUsesBlock_token3]; SGroup 5636 1 [sym__ppElse];
     SGroup 12156 1 [aux_sym__procAttributeNoExt_repeat1]; AGroup 3 2 syms_5]);
   (556758, 3, [AGroup 26996 1 [anon_sym_SEMI]; AGroup 3 3 syms_1; AGroup 25799 3 syms_79]);
   (556772, 5, [AGroup 25313 1 [sym_kCase]; AGroup 26785 1 [sym_identifier];
     AGroup 26998 1 [anon_sym_RPAREN]; SGroup 13316 1 [sym_declVariant]; AGroup 3 3 syms_1])
  ].

(** States 12159 to 12258. *)
Definition small_runs_12159 : list small_run :=
  [
   (556790, 5, [AGroup 425 1 [sym_kOn]; SGroup 12355 1 [sym_exceptionHandler];
     SGroup 12920 1 [sym_exceptionHandlerTr];
     SGroup 12921 1 [aux_sym__exceptionHandlersTr_repeat1]; AGroup 3 3 syms_1]);
   (556808, 5, [AGroup 27000 1 [sym_identifier]; SGroup 12160 1 [aux_sym_declVariantClause_repeat1];
     SGroup 13128 1 [aux_sym_genericArg_repeat1]; SGroup 14826 1 [sym_declVariantField];
     AGroup 3 3 syms_1]);
   (556826, 3, [SGroup 7681 1 [sym__literalInt]; AGroup 3 3 syms_1; AGroup 27003 3 syms_801]);
   (556840, 2, [AGroup 3 3 syms_1; AGroup 25657 4 syms_654]);
   (556852, 2, [AGroup 3 3 syms_1; AGroup 25657 4 syms_647]);
   (556864, 4, [SGroup 12140 1 [aux_sym_declLabels_repeat1]; SGroup 13953 1 [sym_declLabel];
     AGroup 26819 2 syms_186; AGroup 3 3 syms_1]);
   (556880, 3, [AGroup 27005 1 [anon_sym_SEMI]; AGroup 3 3 syms_1; AGroup 17254 3 syms_79]);
   (556894, 3, [SGroup 11510 1 [sym__literalInt]; AGroup 3 3 syms_1; AGroup 27007 3 syms_801]);
   (556908, 3, [AGroup 27009 1 [anon_sym_SEMI]; AGroup 3 3 syms_1; AGroup 25849 3 syms_79]);
   (556922, 3, [AGroup 27011 1 [anon_sym_SEMI]; AGroup 3 3 syms_1; AGroup 25855 3 syms_79]);
   (556936, 2, [AGroup 3 3 syms_1; AGroup 25117 4 syms_90]);
   (556948, 2, [AGroup 3 3 syms_1; AGroup 23883 4 syms_774]);
   (556960, 4, [AGroup 24916 1 [sym_kEq]; SGroup 13342 1 [sym_defaultValue]; AGroup 27013 2 syms_669;
     AGroup 3 3 syms_1]);
   (556976, 3, [AGroup 27015 1 [anon_sym_SEMI]; AGroup 3 3 syms_1; AGroup 25859 3 syms_79]);
   (556990, 5, [AGroup 24916 1 [sym_kEq]; AGroup 27017 1 [anon_sym_SEMI]; AGroup 27019 1 [sym_kAbsolute];
     SGroup 15150 1 [sym_defaultValue]; AGroup 3 3 syms_1]);
   (557008, 3, [AGroup 27021 1 [anon_sym_SEMI]; AGroup 3 3 syms_1; AGroup 25785 3 syms_79]);
   (557022, 3, [SGroup 7481 1 [sym__literalInt]; AGroup 3 3 syms_1; AGroup 27023 3 syms_801]);
   (557036, 5, [AGroup 25313 1 [sym_kCase]; AGroup 26785 1 [sym_identifier];
     AGroup 27025 1 [anon_sym_RPAREN]; SGroup 13363 1 [sym_declVariant]; AGroup 3 3 syms_1]);
   (557054, 3, [AGroup 27027 1 [anon_sym_SEMI]; AGroup 3 3 syms_1; AGroup 25865 3 syms_79]);
   (557068, 3, [AGroup 27029 1 [anon_sym_SEMI]; AGroup 3 3 syms_1; AGroup 25869 3 syms_79]);
   (557082, 3, [AGroup 27031 1 [anon_sym_SEMI]; AGroup 3 3 syms_1; AGroup 25875 3 syms_79]);
   (557096, 3, [AGroup 27033 1 [sym_identifier]; AGroup 3 3 syms_1; SGroup 11090 3 syms_2]);
   (557110, 5, [AGroup 24916 1 [sym_kEq]; AGroup 27035 1 [anon_sym_SEMI]; AGroup 27037 1 [sym_kAbsolute];
     SGroup 15122 1 [sym_defaultValue]; AGroup 3 3 syms_1]);
   (557128, 5, [AGroup 24916 1 [sym_kEq]; AGroup 27039 1 [anon_sym_SEMI]; AGroup 27041 1 [anon_sym_COLON];
     SGroup 14533 1 [sym_defaultValue]; AGroup 3 3 syms_1]);
   (557146, 5, [AGroup 24916 1 [sym_kEq]; AGroup 27043 1 [anon_sym_SEMI]; AGroup 27045 1 [anon_sym_COLON];
     SGroup 14910 1 [sym_defaultValue]; AGroup 3 3 syms_1]);
   (557164, 5, [AGroup 24916 1 [sym_kEq]; AGroup 27047 1 [anon_sym_SEMI]; AGroup 27049 1 [anon_sym_COLON];
     SGroup 14941 1 [sym_defaultValue]; AGroup 3 3 syms_1]);
   (557182, 3, [AGroup 27051 1 [anon_sym_SEMI]; AGroup 3 3 syms_1; AGroup 17240 3 syms_79]);
   (557196, 3, [AGroup 27053 1 [anon_sym_SEMI]; AGroup 3 3 syms_1; AGroup 15293 3 syms_79]);
   (557210, 4, [AGroup 24916 1 [sym_kEq]; SGroup 13368 1 [sym_defaultValue]; AGroup 27055 2 syms_669;
     AGroup 3 3 syms_1]);
   (557226, 5, [AGroup 24916 1 [sym_kEq]; AGroup 27057 1 [anon_sym_SEMI]; AGroup 27059 1 [sym_kAbsolute];
     SGroup 15344 1 [sym_defaultValue]; AGroup 3 3 syms_1]);
   (557244, 5, [AGroup 24916 1 [sym_kEq]; AGroup 27061 1 [anon_sym_SEMI]; AGroup 27063 1 [sym_kAbsolute];
     SGroup 14988 1 [sym_defaultValue]; AGroup 3 3 syms_1]);
   (557262, 5, [AGroup 24916 1 [sym_kEq]; AGroup 27065 1 [anon_sym_SEMI]; AGroup 27067 1 [anon_sym_COLON];
     SGroup 14973 1 [sym_defaultValue]; AGroup 3 3 syms_1]);
   (557280, 2, [AGroup 3 3 syms_1; AGroup 25659 4 syms_654]);
   (557292, 2, [AGroup 3 3 syms_1; AGroup 25249 4 syms_90]);
   (557304, 3, [AGroup 27069 1 [anon_sym_SEMI]; AGroup 3 3 syms_1; AGroup 25791 3 syms_79]);
   (557318, 3, [AGroup 27071 1 [anon_sym_SEMI]; AGroup 3 3 syms_1; AGroup 17254 3 syms_79]);
   (557332, 2, [AGroup 3 3 syms_1; AGroup 24906 4 syms_90]);
   (557344, 3, [AGroup 27073 1 [anon_sym_SEMI]; AGroup 3 3 syms_1; AGroup 15353 3 syms_79]);
   (557358, 5, [AGroup 24916 1 [sym_kEq]; AGroup 27075 1 [anon_sym_SEMI]; AGroup 27077 1 [anon_sym_COLON];
     SGroup 15708 1 [sym_defaultValue]; AGroup 3 3 syms_1]);
   (557376, 3, [SGroup 7205 1 [sym__literalInt]; AGroup 3 3 syms_1; AGroup 27079 3 syms_801]);
   (557390, 3, [AGroup 5 1 [sym_ppDirective]; AGroup 3 2 syms_5; AGroup 23883 4 syms_802]);
   (557404, 5, [AGroup 24916 1 [sym_kEq]; AGroup 27081 1 [anon_sym_SEMI]; AGroup 27083 1 [sym_kAbsolute];
     SGroup 14365 1 [sym_defaultValue]; AGroup 3 3 syms_1]);
   (557422, 2, [AGroup 3 3 syms_1; AGroup 25661 4 syms_654]);
   (557434, 4, [AGroup 27085 1 [anon_sym_LBRACK]; SGroup 12202 1 [aux_sym_rttiAttributes_repeat2];
     AGroup 11318 2 syms_803; AGroup 3 3 syms_1]);
   (557450, 5, [AGroup 24916 1 [sym_kEq]; AGroup 27088 1 [anon_sym_SEMI]; AGroup 27090 1 [sym_kAbsolute];
     SGroup 15811 1 [sym_defaultValue]; AGroup 3 3 syms_1]);
   (557468, 5, [AGroup 24916 1 [sym_kEq]; AGroup 27092 1 [anon_sym_SEMI]; AGroup 27094 1 [sym_kAbsolute];
     SGroup 15012 1 [sym_defaultValue]; AGroup 3 3 syms_1]);
   (557486, 5, [AGroup 24916 1 [sym_kEq]; AGroup 27096 1 [anon_sym_SEMI]; AGroup 27098 1 [sym_kAbsolute];
     SGroup 15013 1 [sym_defaultValue]; AGroup 3 3 syms_1]);
   (557504, 5, [AGroup 24916 1 [sym_kEq]; AGroup 27100 1 [anon_sym_SEMI]; AGroup 27102 1 [anon_sym_COLON];
     SGroup 15063 1 [sym_defaultValue]; AGroup 3 3 syms_1]);
   (557522, 5, [AGroup 24916 1 [sym_kEq]; AGroup 27104 1 [anon_sym_SEMI]; AGroup 27106 1 [sym_kAbsolute];
     SGroup 14427 1 [sym_defaultValue]; AGroup 3 3 syms_1]);
   (557540, 3, [SGroup 7750 1 [sym__literalInt]; AGroup 3 3 syms_1; AGroup 27108 3 syms_801]);
   (557554, 3, [AGroup 27110 1 [anon_sym_SEMI]; AGroup 3 3 syms_1; AGroup 15353 3 syms_79]);
   (557568, 5, [AGroup 24916 1 [sym_kEq]; AGroup 27112 1 [anon_sym_SEMI]; AGroup 27114 1 [sym_kAbsolute];
     SGroup 15088 1 [sym_defaultValue]; AGroup 3 3 syms_1]);
   (557586, 5, [AGroup 24916 1 [sym_kEq]; AGroup 27116 1 [anon_sym_SEMI]; AGroup 27118 1 [sym_kAbsolute];
     SGroup 15812 1 [sym_defaultValue]; AGroup 3 3 syms_1]);
   (557604, 5, [AGroup 24916 1 [sym_kEq]; AGroup 27120 1 [anon_sym_SEMI]; AGroup 27122 1 [sym_kAbsolute];
     SGroup 15089 1 [sym_defaultValue]; AGroup 3 3 syms_1]);
   (557622, 5, [AGroup 24916 1 [sym_kEq]; AGroup 27124 1 [anon_sym_SEMI]; AGroup 27126 1 [sym_kAbsolute];
     SGroup 15093 1 [sym_defaultValue]; AGroup 3 3 syms_1]);
   (557640, 5, [AGroup 24916 1 [sym_kEq]; AGroup 27128 1 [anon_sym_SEMI]; AGroup 27130 1 [sym_kAbsolute];
     SGroup 15096 1 [sym_defaultValue]; AGroup 3 3 syms_1]);
   (557658, 3, [SGroup 7164 1 [sym__literalInt]; AGroup 3 3 syms_1; AGroup 27132 3 syms_801]);
   (557672, 2, [AGroup 3 3 syms_1; AGroup 23889 4 syms_774]);
   (557684, 3, [SGroup 7008 1 [sym__literalInt]; AGroup 3 3 syms_1; AGroup 27134 3 syms_801]);
   (557698, 5, [AGroup 24916 1 [sym_kEq]; AGroup 27136 1 [anon_sym_SEMI]; AGroup 27138 1 [sym_kAbsolute];
     SGroup 15472 1 [sym_defaultValue]; AGroup 3 3 syms_1]);
   (557716, 2, [AGroup 3 3 syms_1; AGroup 25645 4 syms_654]);
   (557728, 2, [AGroup 3 3 syms_1; AGroup 25673 4 syms_647]);
   (557740, 5, [AGroup 27140 1 [sym_identifier]; SGroup 12221 1 [aux_sym_genericArgs_repeat1];
     SGroup 13076 1 [aux_sym_genericArg_repeat1]; SGroup 15268 1 [sym_genericArg];
     AGroup 3 3 syms_1]);
   (557758, 2, [AGroup 3 3 syms_1; AGroup 25275 4 syms_90]);
   (557770, 5, [AGroup 24916 1 [sym_kEq]; AGroup 27143 1 [anon_sym_SEMI]; AGroup 27145 1 [sym_kAbsolute];
     SGroup 15518 1 [sym_defaultValue]; AGroup 3 3 syms_1]);
   (557788, 3, [AGroup 27147 1 [sym_kOf]; AGroup 3 3 syms_1; AGroup 24646 3 syms_117]);
   (557802, 3, [AGroup 27149 1 [anon_sym_SEMI]; AGroup 3 3 syms_1; AGroup 17240 3 syms_43]);
   (557816, 5, [AGroup 24916 1 [sym_kEq]; AGroup 27151 1 [anon_sym_SEMI]; AGroup 27153 1 [sym_kAbsolute];
     SGroup 15131 1 [sym_defaultValue]; AGroup 3 3 syms_1]);
   (557834, 5, [AGroup 24916 1 [sym_kEq]; AGroup 27155 1 [anon_sym_SEMI]; AGroup 27157 1 [sym_kAbsolute];
     SGroup 15132 1 [sym_defaultValue]; AGroup 3 3 syms_1]);
   (557852, 3, [AGroup 27159 1 [anon_sym_SEMI]; AGroup 3 3 syms_1; AGroup 15293 3 syms_43]);
   (557866, 3, [SGroup 7072 1 [sym__literalInt]; AGroup 3 3 syms_1; AGroup 27161 3 syms_801]);
   (557880, 3, [SGroup 3137 1 [sym__literalInt]; AGroup 3 3 syms_1; AGroup 27163 3 syms_801]);
   (557894, 5, [AGroup 24916 1 [sym_kEq]; AGroup 27165 1 [anon_sym_SEMI]; AGroup 27167 1 [anon_sym_COLON];
     SGroup 15758 1 [sym_defaultValue]; AGroup 3 3 syms_1]);
   (557912, 5, [AGroup 24916 1 [sym_kEq]; AGroup 27169 1 [anon_sym_SEMI]; AGroup 27171 1 [anon_sym_COLON];
     SGroup 15245 1 [sym_defaultValue]; AGroup 3 3 syms_1]);
   (557930, 5, [AGroup 24916 1 [sym_kEq]; AGroup 27173 1 [anon_sym_SEMI]; AGroup 27175 1 [sym_kAbsolute];
     SGroup 15841 1 [sym_defaultValue]; AGroup 3 3 syms_1]);
   (557948, 3, [AGroup 27177 1 [anon_sym_SEMI]; AGroup 3 3 syms_1; AGroup 25859 3 syms_43]);
   (557962, 2, [AGroup 3 3 syms_1; AGroup 25095 4 syms_90]);
   (557974, 6, [AGroup 5 1 [sym_ppDirective]; AGroup 27179 1 [aux_sym_ppUsesBlock_token2];
     AGroup 27182 1 [aux_sym_ppUsesBlock_token3]; SGroup 3321 1 [sym__ppElse];
     SGroup 12236 1 [aux_sym__procAttributesPp_repeat2]; AGroup 3 2 syms_5]);
   (557994, 3, [AGroup 27184 1 [anon_sym_SEMI]; AGroup 3 3 syms_1; AGroup 17254 3 syms_43]);
   (558008, 3, [SGroup 7165 1 [sym__literalInt]; AGroup 3 3 syms_1; AGroup 27186 3 syms_801]);
   (558022, 5, [AGroup 24916 1 [sym_kEq]; AGroup 27063 1 [sym_kAbsolute]; AGroup 27188 1 [anon_sym_SEMI];
     SGroup 15062 1 [sym_defaultValue]; AGroup 3 3 syms_1]);
   (558040, 5, [AGroup 24916 1 [sym_kEq]; AGroup 27190 1 [anon_sym_SEMI]; AGroup 27192 1 [sym_kAbsolute];
     SGroup 15782 1 [sym_defaultValue]; AGroup 3 3 syms_1]);
   (558058, 5, [AGroup 24916 1 [sym_kEq]; AGroup 27194 1 [anon_sym_SEMI]; AGroup 27196 1 [sym_kAbsolute];
     SGroup 15076 1 [sym_defaultValue]; AGroup 3 3 syms_1]);
   (558076, 3, [SGroup 7794 1 [sym__literalInt]; AGroup 3 3 syms_1; AGroup 27198 3 syms_801]);
   (558090, 2, [AGroup 3 3 syms_1; AGroup 25119 4 syms_90]);
   (558102, 3, [AGroup 27200 1 [anon_sym_SEMI]; AGroup 3 3 syms_1; AGroup 25591 3 syms_79]);
   (558116, 5, [AGroup 24916 1 [sym_kEq]; AGroup 27202 1 [anon_sym_SEMI]; AGroup 27204 1 [sym_kAbsolute];
     SGroup 15795 1 [sym_defaultValue]; AGroup 3 3 syms_1]);
   (558134, 3, [AGroup 27206 1 [sym_kDeprecated]; AGroup 3 3 syms_1; AGroup 24650 3 syms_117]);
   (558148, 4, [SGroup 12408 1 [aux_sym_declLabels_repeat1]; SGroup 14000 1 [sym_declLabel];
     AGroup 26819 2 syms_186; AGroup 3 3 syms_1]);
   (558164, 5, [AGroup 24916 1 [sym_kEq]; AGroup 27208 1 [anon_sym_SEMI]; AGroup 27210 1 [sym_kAbsolute];
     SGroup 15802 1 [sym_defaultValue]; AGroup 3 3 syms_1]);
   (558182, 3, [AGroup 27212 1 [anon_sym_SEMI]; AGroup 3 3 syms_1; AGroup 25609 3 syms_79]);
   (558196, 5, [AGroup 24916 1 [sym_kEq]; AGroup 27214 1 [anon_sym_SEMI]; AGroup 27216 1 [anon_sym_COLON];
     SGroup 15273 1 [sym_defaultValue]; AGroup 3 3 syms_1]);
   (558214, 3, [AGroup 27218 1 [anon_sym_SEMI]; AGroup 3 3 syms_1; AGroup 15353 3 syms_43]);
   (558228, 5, [AGroup 24916 1 [sym_kEq]; AGroup 27220 1 [anon_sym_SEMI]; AGroup 27222 1 [anon_sym_COLON];
     SGroup 15298 1 [sym_defaultValue]; AGroup 3 3 syms_1]);
   (558246, 2, [AGroup 3 3 syms_1; AGroup 25647 4 syms_654]);
   (558258, 3, [AGroup 27224 1 [sym_kOf]; AGroup 3 3 syms_1; AGroup 24512 3 syms_117]);
   (558272, 5, [AGroup 24916 1 [sym_kEq]; AGroup 27226 1 [anon_sym_SEMI]; AGroup 27228 1 [sym_kAbsolute];
     SGroup 15803 1 [sym_defaultValue]; AGroup 3 3 syms_1]);
   (558290, 3, [SGroup 6706 1 [sym__literalInt]; AGroup 3 3 syms_1; AGroup 27230 3 syms_801]);
   (558304, 5, [AGroup 24916 1 [sym_kEq]; AGroup 27232 1 [anon_sym_SEMI]; AGroup 27234 1 [sym_kAbsolute];
     SGroup 15330 1 [sym_defaultValue]; AGroup 3 3 syms_1]);
   (558322, 5, [AGroup 24916 1 [sym_kEq]; AGroup 27236 1 [anon_sym_SEMI]; AGroup 27238 1 [sym_kAbsolute];
     SGroup 15331 1 [sym_defaultValue]; AGroup 3 3 syms_1])
  ].

(** States 12259 to 12358. *)
Definition small_runs_12259 : list small_run :=
  [
   (558340, 5, [AGroup 20772 1 [anon_sym_DOT]; AGroup 24914 1 [sym_kLt]; AGroup 27240 1 [sym_kEq];
     SGroup 12054 1 [sym_kDot]; AGroup 3 3 syms_1]);
   (558358, 5, [AGroup 24916 1 [sym_kEq]; AGroup 27242 1 [anon_sym_SEMI]; AGroup 27244 1 [anon_sym_COLON];
     SGroup 15359 1 [sym_defaultValue]; AGroup 3 3 syms_1]);
   (558376, 3, [AGroup 27246 1 [sym_identifier]; AGroup 3 3 syms_1; SGroup 12132 3 syms_2]);
   (558390, 5, [AGroup 24916 1 [sym_kEq]; AGroup 27248 1 [anon_sym_SEMI]; AGroup 27250 1 [anon_sym_COLON];
     SGroup 15085 1 [sym_defaultValue]; AGroup 3 3 syms_1]);
   (558408, 5, [AGroup 24916 1 [sym_kEq]; AGroup 27252 1 [anon_sym_SEMI]; AGroup 27254 1 [anon_sym_COLON];
     SGroup 14981 1 [sym_defaultValue]; AGroup 3 3 syms_1]);
   (558426, 3, [SGroup 7268 1 [sym__literalInt]; AGroup 3 3 syms_1; AGroup 27256 3 syms_801]);
   (558440, 2, [AGroup 3 3 syms_1; AGroup 25073 4 syms_90]);
   (558452, 5, [AGroup 24916 1 [sym_kEq]; AGroup 27258 1 [anon_sym_SEMI]; AGroup 27260 1 [sym_kAbsolute];
     SGroup 14550 1 [sym_defaultValue]; AGroup 3 3 syms_1]);
   (558470, 2, [AGroup 3 3 syms_1; AGroup 25131 4 syms_90]);
   (558482, 5, [AGroup 24916 1 [sym_kEq]; AGroup 27262 1 [anon_sym_SEMI]; AGroup 27264 1 [sym_kAbsolute];
     SGroup 15386 1 [sym_defaultValue]; AGroup 3 3 syms_1]);
   (558500, 5, [AGroup 24916 1 [sym_kEq]; AGroup 27266 1 [anon_sym_SEMI]; AGroup 27268 1 [sym_kAbsolute];
     SGroup 15387 1 [sym_defaultValue]; AGroup 3 3 syms_1]);
   (558518, 5, [AGroup 24916 1 [sym_kEq]; AGroup 27270 1 [anon_sym_SEMI]; AGroup 27272 1 [sym_kAbsolute];
     SGroup 15390 1 [sym_defaultValue]; AGroup 3 3 syms_1]);
   (558536, 5, [AGroup 24916 1 [sym_kEq]; AGroup 27274 1 [anon_sym_SEMI]; AGroup 27276 1 [sym_kAbsolute];
     SGroup 15391 1 [sym_defaultValue]; AGroup 3 3 syms_1]);
   (558554, 2, [AGroup 3 3 syms_1; AGroup 25135 4 syms_90]);
   (558566, 5, [AGroup 25311 1 [sym_identifier]; SGroup 12160 1 [aux_sym_declVariantClause_repeat1];
     SGroup 13128 1 [aux_sym_genericArg_repeat1]; SGroup 13623 1 [sym_declVariantField];
     AGroup 3 3 syms_1]);
   (558584, 3, [SGroup 7351 1 [sym__literalInt]; AGroup 3 3 syms_1; AGroup 27278 3 syms_801]);
   (558598, 5, [AGroup 21299 1 [anon_sym_DOT]; AGroup 26211 1 [anon_sym_COMMA]; AGroup 26213 1 [sym_kLt];
     SGroup 11343 1 [sym_kDot]; AGroup 3 3 syms_1]);
   (558616, 2, [AGroup 3 3 syms_1; AGroup 25121 4 syms_90]);
   (558628, 3, [AGroup 27280 1 [anon_sym_SEMI]; AGroup 3 3 syms_1; AGroup 25687 3 syms_79]);
   (558642, 5, [AGroup 24916 1 [sym_kEq]; AGroup 27282 1 [anon_sym_SEMI]; AGroup 27284 1 [sym_kAbsolute];
     SGroup 15451 1 [sym_defaultValue]; AGroup 3 3 syms_1]);
   (558660, 5, [AGroup 24916 1 [sym_kEq]; AGroup 27286 1 [anon_sym_SEMI]; AGroup 27288 1 [sym_kAbsolute];
     SGroup 15453 1 [sym_defaultValue]; AGroup 3 3 syms_1]);
   (558678, 5, [AGroup 24916 1 [sym_kEq]; AGroup 27290 1 [anon_sym_SEMI]; AGroup 27292 1 [sym_kAbsolute];
     SGroup 14561 1 [sym_defaultValue]; AGroup 3 3 syms_1]);
   (558696, 3, [SGroup 7859 1 [sym__literalInt]; AGroup 3 3 syms_1; AGroup 27294 3 syms_801]);
   (558710, 2, [AGroup 3 3 syms_1; AGroup 27296 4 syms_3]);
   (558722, 5, [AGroup 20772 1 [anon_sym_DOT]; AGroup 24914 1 [sym_kLt]; AGroup 27298 1 [sym_kEq];
     SGroup 12054 1 [sym_kDot]; AGroup 3 3 syms_1]);
   (558740, 3, [AGroup 27300 1 [sym_identifier]; AGroup 3 3 syms_1; SGroup 11523 3 syms_2]);
   (558754, 3, [AGroup 22313 1 [sym_identifier]; AGroup 3 3 syms_1; SGroup 11241 3 syms_2]);
   (558768, 3, [SGroup 7265 1 [sym__literalInt]; AGroup 3 3 syms_1; AGroup 27302 3 syms_801]);
   (558782, 5, [AGroup 20772 1 [anon_sym_DOT]; AGroup 24914 1 [sym_kLt]; AGroup 27304 1 [sym_kEq];
     SGroup 12054 1 [sym_kDot]; AGroup 3 3 syms_1]);
   (558800, 3, [AGroup 27306 1 [sym_kOf]; AGroup 3 3 syms_1; AGroup 24900 3 syms_117]);
   (558814, 5, [AGroup 20772 1 [anon_sym_DOT]; AGroup 24914 1 [sym_kLt]; AGroup 27308 1 [sym_kEq];
     SGroup 12054 1 [sym_kDot]; AGroup 3 3 syms_1]);
   (558832, 2, [AGroup 3 3 syms_1; AGroup 21751 4 syms_793]);
   (558844, 5, [AGroup 5 1 [sym_ppDirective]; AGroup 26538 1 [anon_sym_LPAREN];
     AGroup 27310 1 [anon_sym_COMMA]; AGroup 3 2 syms_5; AGroup 27312 2 syms_563]);
   (558862, 2, [AGroup 3 3 syms_1; AGroup 18780 4 syms_804]);
   (558874, 2, [AGroup 3 3 syms_1; AGroup 25157 4 syms_90]);
   (558886, 3, [AGroup 27314 1 [sym_identifier]; AGroup 3 3 syms_1; SGroup 11143 3 syms_2]);
   (558900, 4, [SGroup 12303 1 [aux_sym_declLabels_repeat1]; SGroup 13574 1 [sym_declLabel];
     AGroup 26819 2 syms_186; AGroup 3 3 syms_1]);
   (558916, 3, [AGroup 27316 1 [sym_identifier]; AGroup 3 3 syms_1; SGroup 11147 3 syms_2]);
   (558930, 5, [AGroup 24916 1 [sym_kEq]; AGroup 27318 1 [anon_sym_SEMI]; AGroup 27320 1 [anon_sym_COLON];
     SGroup 15625 1 [sym_defaultValue]; AGroup 3 3 syms_1]);
   (558948, 3, [AGroup 5 1 [sym_ppDirective]; AGroup 3 2 syms_5; AGroup 26119 4 syms_760]);
   (558962, 5, [AGroup 24916 1 [sym_kEq]; AGroup 27322 1 [anon_sym_SEMI]; AGroup 27324 1 [anon_sym_COLON];
     SGroup 15670 1 [sym_defaultValue]; AGroup 3 3 syms_1]);
   (558980, 3, [SGroup 8117 1 [sym__literalInt]; AGroup 3 3 syms_1; AGroup 27326 3 syms_801]);
   (558994, 3, [SGroup 10529 1 [sym__literalInt]; AGroup 3 3 syms_1; AGroup 27328 3 syms_801]);
   (559008, 3, [SGroup 7041 1 [sym__literalInt]; AGroup 3 3 syms_1; AGroup 27330 3 syms_801]);
   (559022, 4, [SGroup 12140 1 [aux_sym_declLabels_repeat1]; SGroup 13054 1 [sym_declLabel];
     AGroup 26819 2 syms_186; AGroup 3 3 syms_1]);
   (559038, 2, [AGroup 3 3 syms_1; AGroup 27332 4 syms_3]);
   (559050, 5, [AGroup 20772 1 [anon_sym_DOT]; AGroup 24914 1 [sym_kLt]; AGroup 27334 1 [sym_kEq];
     SGroup 12054 1 [sym_kDot]; AGroup 3 3 syms_1]);
   (559068, 2, [AGroup 3 3 syms_1; AGroup 25142 4 syms_90]);
   (559080, 3, [SGroup 6561 1 [sym__literalInt]; AGroup 3 3 syms_1; AGroup 27336 3 syms_801]);
   (559094, 3, [AGroup 27338 1 [anon_sym_SEMI]; AGroup 3 3 syms_1; AGroup 17240 3 syms_79]);
   (559108, 5, [AGroup 20772 1 [anon_sym_DOT]; AGroup 24914 1 [sym_kLt]; AGroup 27340 1 [sym_kEq];
     SGroup 12054 1 [sym_kDot]; AGroup 3 3 syms_1]);
   (559126, 3, [AGroup 27342 1 [anon_sym_SEMI]; AGroup 3 3 syms_1; AGroup 25717 3 syms_79]);
   (559140, 3, [AGroup 27344 1 [sym_identifier]; AGroup 3 3 syms_1; SGroup 11205 3 syms_2]);
   (559154, 3, [AGroup 5 1 [sym_ppDirective]; AGroup 3 2 syms_5; AGroup 26067 4 syms_760]);
   (559168, 2, [AGroup 3 3 syms_1; AGroup 25239 4 syms_90]);
   (559180, 5, [AGroup 20772 1 [anon_sym_DOT]; AGroup 24914 1 [sym_kLt]; AGroup 27346 1 [sym_kEq];
     SGroup 12054 1 [sym_kDot]; AGroup 3 3 syms_1]);
   (559198, 3, [AGroup 27348 1 [anon_sym_SEMI]; AGroup 3 3 syms_1; AGroup 25721 3 syms_79]);
   (559212, 5, [AGroup 5 1 [sym_ppDirective]; AGroup 27350 1 [anon_sym_COLON]; AGroup 27352 1 [sym_kOf];
     AGroup 3 2 syms_5; AGroup 24270 2 syms_44]);
   (559230, 3, [AGroup 27354 1 [anon_sym_SEMI]; AGroup 3 3 syms_1; AGroup 25739 3 syms_79]);
   (559244, 5, [AGroup 24916 1 [sym_kEq]; AGroup 27356 1 [anon_sym_SEMI]; AGroup 27358 1 [sym_kAbsolute];
     SGroup 14566 1 [sym_defaultValue]; AGroup 3 3 syms_1]);
   (559262, 2, [AGroup 3 3 syms_1; AGroup 27360 4 syms_3]);
   (559274, 3, [AGroup 27362 1 [anon_sym_SEMI]; AGroup 3 3 syms_1; AGroup 25753 3 syms_79]);
   (559288, 5, [AGroup 20772 1 [anon_sym_DOT]; AGroup 24914 1 [sym_kLt]; AGroup 27364 1 [sym_kEq];
     SGroup 12054 1 [sym_kDot]; AGroup 3 3 syms_1]);
   (559306, 6, [AGroup 5 1 [sym_ppDirective]; AGroup 27366 1 [aux_sym_ppUsesBlock_token2];
     AGroup 27369 1 [aux_sym_ppUsesBlock_token3]; SGroup 10592 1 [sym__ppElse];
     SGroup 12322 1 [aux_sym_defProc_repeat1]; AGroup 3 2 syms_5]);
   (559326, 3, [AGroup 27371 1 [sym_identifier]; AGroup 3 3 syms_1; SGroup 11199 3 syms_2]);
   (559340, 5, [AGroup 20772 1 [anon_sym_DOT]; AGroup 24914 1 [sym_kLt]; AGroup 27373 1 [sym_kEq];
     SGroup 12054 1 [sym_kDot]; AGroup 3 3 syms_1]);
   (559358, 5, [AGroup 20772 1 [anon_sym_DOT]; AGroup 24914 1 [sym_kLt]; AGroup 27375 1 [sym_kEq];
     SGroup 12054 1 [sym_kDot]; AGroup 3 3 syms_1]);
   (559376, 2, [AGroup 3 3 syms_1; AGroup 27377 4 syms_800]);
   (559388, 3, [AGroup 27379 1 [anon_sym_SEMI]; AGroup 3 3 syms_1; AGroup 25717 3 syms_43]);
   (559402, 2, [AGroup 3 3 syms_1; AGroup 27381 4 syms_3]);
   (559414, 5, [AGroup 24916 1 [sym_kEq]; AGroup 27383 1 [anon_sym_SEMI]; AGroup 27385 1 [anon_sym_COLON];
     SGroup 15677 1 [sym_defaultValue]; AGroup 3 3 syms_1]);
   (559432, 5, [AGroup 20772 1 [anon_sym_DOT]; AGroup 24914 1 [sym_kLt]; AGroup 27387 1 [sym_kEq];
     SGroup 12054 1 [sym_kDot]; AGroup 3 3 syms_1]);
   (559450, 5, [AGroup 24916 1 [sym_kEq]; AGroup 27389 1 [anon_sym_SEMI]; AGroup 27391 1 [sym_kAbsolute];
     SGroup 15897 1 [sym_defaultValue]; AGroup 3 3 syms_1]);
   (559468, 5, [AGroup 20772 1 [anon_sym_DOT]; AGroup 24914 1 [sym_kLt]; AGroup 27393 1 [sym_kEq];
     SGroup 12054 1 [sym_kDot]; AGroup 3 3 syms_1]);
   (559486, 5, [AGroup 20772 1 [anon_sym_DOT]; AGroup 24914 1 [sym_kLt]; AGroup 27395 1 [sym_kEq];
     SGroup 12054 1 [sym_kDot]; AGroup 3 3 syms_1]);
   (559504, 3, [AGroup 27397 1 [anon_sym_SEMI]; AGroup 3 3 syms_1; AGroup 25785 3 syms_43]);
   (559518, 5, [AGroup 24916 1 [sym_kEq]; AGroup 27399 1 [anon_sym_SEMI]; AGroup 27401 1 [anon_sym_COLON];
     SGroup 15715 1 [sym_defaultValue]; AGroup 3 3 syms_1]);
   (559536, 5, [AGroup 24916 1 [sym_kEq]; AGroup 27403 1 [anon_sym_SEMI]; AGroup 27405 1 [sym_kAbsolute];
     SGroup 15901 1 [sym_defaultValue]; AGroup 3 3 syms_1]);
   (559554, 2, [AGroup 3 3 syms_1; AGroup 27407 4 syms_3]);
   (559566, 5, [AGroup 20772 1 [anon_sym_DOT]; AGroup 24914 1 [sym_kLt]; AGroup 27409 1 [sym_kEq];
     SGroup 12054 1 [sym_kDot]; AGroup 3 3 syms_1]);
   (559584, 2, [AGroup 3 3 syms_1; AGroup 27411 4 syms_800]);
   (559596, 5, [AGroup 24916 1 [sym_kEq]; AGroup 27413 1 [anon_sym_SEMI]; AGroup 27415 1 [sym_kAbsolute];
     SGroup 14568 1 [sym_defaultValue]; AGroup 3 3 syms_1]);
   (559614, 2, [AGroup 3 3 syms_1; AGroup 25291 4 syms_90]);
   (559626, 5, [AGroup 20772 1 [anon_sym_DOT]; AGroup 24914 1 [sym_kLt]; AGroup 27417 1 [sym_kEq];
     SGroup 12054 1 [sym_kDot]; AGroup 3 3 syms_1]);
   (559644, 5, [AGroup 20772 1 [anon_sym_DOT]; AGroup 24914 1 [sym_kLt]; AGroup 27419 1 [sym_kEq];
     SGroup 12054 1 [sym_kDot]; AGroup 3 3 syms_1]);
   (559662, 2, [AGroup 3 3 syms_1; AGroup 25675 4 syms_647]);
   (559674, 3, [SGroup 10633 1 [sym__literalInt]; AGroup 3 3 syms_1; AGroup 27421 3 syms_801]);
   (559688, 2, [AGroup 3 3 syms_1; AGroup 27423 4 syms_3]);
   (559700, 5, [AGroup 20772 1 [anon_sym_DOT]; AGroup 24914 1 [sym_kLt]; AGroup 27425 1 [sym_kEq];
     SGroup 12054 1 [sym_kDot]; AGroup 3 3 syms_1]);
   (559718, 2, [AGroup 3 3 syms_1; AGroup 25647 4 syms_647]);
   (559730, 5, [AGroup 5 1 [sym_ppDirective]; AGroup 27427 1 [anon_sym_COLON]; AGroup 27429 1 [sym_kOf];
     AGroup 3 2 syms_5; AGroup 24286 2 syms_44]);
   (559748, 5, [AGroup 20772 1 [anon_sym_DOT]; AGroup 24914 1 [sym_kLt]; AGroup 27431 1 [sym_kEq];
     SGroup 12054 1 [sym_kDot]; AGroup 3 3 syms_1]);
   (559766, 3, [SGroup 10442 1 [sym__literalInt]; AGroup 3 3 syms_1; AGroup 27433 3 syms_801]);
   (559780, 5, [AGroup 24916 1 [sym_kEq]; AGroup 27435 1 [anon_sym_SEMI]; AGroup 27437 1 [anon_sym_COLON];
     SGroup 15422 1 [sym_defaultValue]; AGroup 3 3 syms_1]);
   (559798, 5, [AGroup 20772 1 [anon_sym_DOT]; AGroup 24914 1 [sym_kLt]; AGroup 27439 1 [sym_kEq];
     SGroup 12054 1 [sym_kDot]; AGroup 3 3 syms_1]);
   (559816, 4, [AGroup 5 1 [sym_ppDirective]; AGroup 17918 1 [sym_kName]; AGroup 3 2 syms_5;
     AGroup 17204 3 syms_111]);
   (559832, 5, [AGroup 26881 1 [sym_kOn]; AGroup 26883 1 [sym_kElse]; AGroup 27441 1 [sym_kEnd];
     SGroup 14512 1 [sym_exceptionElse]; AGroup 3 3 syms_1]);
   (559850, 2, [AGroup 3 3 syms_1; AGroup 27443 4 syms_3]);
   (559862, 3, [AGroup 27445 1 [anon_sym_SEMI]; AGroup 3 3 syms_1; AGroup 25875 3 syms_43]);
   (559876, 2, [AGroup 3 3 syms_1; AGroup 24924 4 syms_90])
  ].

(** States 12359 to 12458. *)
Definition small_runs_12359 : list small_run :=
  [
   (559888, 3, [AGroup 27447 1 [anon_sym_SEMI]; AGroup 3 3 syms_1; AGroup 25875 3 syms_79]);
   (559902, 2, [AGroup 3 3 syms_1; AGroup 24240 4 syms_647]);
   (559914, 3, [AGroup 27449 1 [sym_identifier]; AGroup 3 3 syms_1; SGroup 11116 3 syms_2]);
   (559928, 5, [AGroup 24916 1 [sym_kEq]; AGroup 27451 1 [anon_sym_SEMI]; AGroup 27453 1 [anon_sym_COLON];
     SGroup 15917 1 [sym_defaultValue]; AGroup 3 3 syms_1]);
   (559946, 3, [SGroup 8076 1 [sym__literalInt]; AGroup 3 3 syms_1; AGroup 27455 3 syms_801]);
   (559960, 3, [AGroup 27457 1 [anon_sym_SEMI]; AGroup 3 3 syms_1; AGroup 15293 3 syms_79]);
   (559974, 5, [AGroup 24916 1 [sym_kEq]; AGroup 27459 1 [anon_sym_SEMI]; AGroup 27461 1 [anon_sym_COLON];
     SGroup 15788 1 [sym_defaultValue]; AGroup 3 3 syms_1]);
   (559992, 2, [AGroup 3 3 syms_1; AGroup 25253 4 syms_90]);
   (560004, 3, [AGroup 27463 1 [anon_sym_SEMI]; AGroup 3 3 syms_1; AGroup 25865 3 syms_79]);
   (560018, 2, [AGroup 3 3 syms_1; AGroup 25259 4 syms_90]);
   (560030, 3, [AGroup 27465 1 [sym_kOf]; AGroup 3 3 syms_1; AGroup 24480 3 syms_117]);
   (560044, 3, [SGroup 11150 1 [sym__literalInt]; AGroup 3 3 syms_1; AGroup 27467 3 syms_801]);
   (560058, 2, [AGroup 3 3 syms_1; AGroup 21887 4 syms_792]);
   (560070, 3, [AGroup 27469 1 [anon_sym_SEMI]; AGroup 3 3 syms_1; AGroup 25799 3 syms_79]);
   (560084, 6, [AGroup 5 1 [sym_ppDirective]; AGroup 211 1 [aux_sym_ppUsesBlock_token3];
     AGroup 27471 1 [aux_sym_ppUsesBlock_token2]; SGroup 52 1 [sym__ppElse];
     SGroup 12373 1 [aux_sym_ppBlock_repeat2]; AGroup 3 2 syms_5]);
   (560104, 2, [AGroup 3 3 syms_1; AGroup 25265 4 syms_90]);
   (560116, 3, [AGroup 27474 1 [anon_sym_SEMI]; AGroup 3 3 syms_1; AGroup 25799 3 syms_43]);
   (560130, 2, [AGroup 3 3 syms_1; AGroup 25241 4 syms_90]);
   (560142, 2, [AGroup 3 3 syms_1; AGroup 25047 4 syms_90]);
   (560154, 2, [AGroup 3 3 syms_1; AGroup 25247 4 syms_90]);
   (560166, 3, [AGroup 27476 1 [sym_identifier]; AGroup 3 3 syms_1; SGroup 11070 3 syms_2]);
   (560180, 2, [AGroup 3 3 syms_1; AGroup 25267 4 syms_90]);
   (560192, 3, [AGroup 27478 1 [anon_sym_SEMI]; AGroup 3 3 syms_1; AGroup 25591 3 syms_43]);
   (560206, 6, [AGroup 5 1 [sym_ppDirective]; AGroup 27480 1 [aux_sym_ppUsesBlock_token2];
     AGroup 27483 1 [aux_sym_ppUsesBlock_token3]; SGroup 4025 1 [sym__ppElse];
     SGroup 12382 1 [aux_sym_type_repeat1]; AGroup 3 2 syms_5]);
   (560226, 4, [SGroup 12393 1 [aux_sym_declLabels_repeat1]; SGroup 13049 1 [sym_declLabel];
     AGroup 26819 2 syms_186; AGroup 3 3 syms_1]);
   (560242, 2, [AGroup 3 3 syms_1; AGroup 24977 4 syms_90]);
   (560254, 3, [AGroup 27485 1 [sym_identifier]; AGroup 3 3 syms_1; SGroup 11142 3 syms_2]);
   (560268, 5, [AGroup 24916 1 [sym_kEq]; AGroup 27487 1 [anon_sym_SEMI]; AGroup 27489 1 [anon_sym_COLON];
     SGroup 14138 1 [sym_defaultValue]; AGroup 3 3 syms_1]);
   (560286, 5, [AGroup 5 1 [sym_ppDirective]; AGroup 26538 1 [anon_sym_LPAREN];
     AGroup 27310 1 [anon_sym_COMMA]; AGroup 3 2 syms_5; AGroup 27491 2 syms_563]);
   (560304, 2, [AGroup 3 3 syms_1; AGroup 23901 4 syms_774]);
   (560316, 3, [AGroup 27493 1 [anon_sym_SEMI]; AGroup 3 3 syms_1; AGroup 25609 3 syms_43]);
   (560330, 3, [AGroup 27495 1 [anon_sym_SEMI]; AGroup 3 3 syms_1; AGroup 25721 3 syms_43]);
   (560344, 3, [SGroup 8118 1 [sym__literalInt]; AGroup 3 3 syms_1; AGroup 27497 3 syms_801]);
   (560358, 5, [AGroup 24916 1 [sym_kEq]; AGroup 27499 1 [anon_sym_SEMI]; AGroup 27501 1 [anon_sym_COLON];
     SGroup 15569 1 [sym_defaultValue]; AGroup 3 3 syms_1]);
   (560376, 4, [SGroup 12140 1 [aux_sym_declLabels_repeat1]; SGroup 13164 1 [sym_declLabel];
     AGroup 26819 2 syms_186; AGroup 3 3 syms_1]);
   (560392, 2, [AGroup 3 3 syms_1; AGroup 25269 4 syms_90]);
   (560404, 5, [AGroup 24916 1 [sym_kEq]; AGroup 27503 1 [anon_sym_SEMI]; AGroup 27505 1 [anon_sym_COLON];
     SGroup 14226 1 [sym_defaultValue]; AGroup 3 3 syms_1]);
   (560422, 3, [SGroup 7032 1 [sym__literalInt]; AGroup 3 3 syms_1; AGroup 27507 3 syms_801]);
   (560436, 5, [AGroup 24916 1 [sym_kEq]; AGroup 27090 1 [sym_kAbsolute]; AGroup 27509 1 [anon_sym_SEMI];
     SGroup 15079 1 [sym_defaultValue]; AGroup 3 3 syms_1]);
   (560454, 3, [SGroup 8145 1 [sym__literalInt]; AGroup 3 3 syms_1; AGroup 27511 3 syms_801]);
   (560468, 5, [AGroup 24916 1 [sym_kEq]; AGroup 27513 1 [anon_sym_SEMI]; AGroup 27515 1 [anon_sym_COLON];
     SGroup 15469 1 [sym_defaultValue]; AGroup 3 3 syms_1]);
   (560486, 3, [SGroup 7168 1 [sym__literalInt]; AGroup 3 3 syms_1; AGroup 27517 3 syms_801]);
   (560500, 3, [AGroup 27519 1 [sym_identifier]; AGroup 3 3 syms_1; SGroup 11128 3 syms_2]);
   (560514, 3, [AGroup 25219 1 [sym_identifier]; AGroup 3 3 syms_1; SGroup 12287 3 syms_2]);
   (560528, 3, [AGroup 27521 1 [anon_sym_SEMI]; AGroup 3 3 syms_1; AGroup 25869 3 syms_43]);
   (560542, 4, [AGroup 27523 1 [anon_sym_LBRACK]; SGroup 12202 1 [aux_sym_rttiAttributes_repeat2];
     AGroup 15477 2 syms_803; AGroup 3 3 syms_1]);
   (560558, 3, [SGroup 8536 1 [sym__literalInt]; AGroup 3 3 syms_1; AGroup 27525 3 syms_801]);
   (560572, 4, [AGroup 26065 1 [sym_kEq]; SGroup 13033 1 [sym_defaultValue]; AGroup 27527 2 syms_789;
     AGroup 3 3 syms_1]);
   (560588, 3, [AGroup 24951 1 [sym_identifier]; AGroup 3 3 syms_1; SGroup 12289 3 syms_2]);
   (560602, 4, [SGroup 12140 1 [aux_sym_declLabels_repeat1]; SGroup 13201 1 [sym_declLabel];
     AGroup 26819 2 syms_186; AGroup 3 3 syms_1]);
   (560618, 3, [SGroup 7413 1 [sym__literalInt]; AGroup 3 3 syms_1; AGroup 27529 3 syms_801]);
   (560632, 3, [AGroup 27531 1 [anon_sym_SEMI]; AGroup 3 3 syms_1; AGroup 25739 3 syms_43]);
   (560646, 5, [AGroup 24916 1 [sym_kEq]; AGroup 27533 1 [anon_sym_SEMI]; AGroup 27535 1 [anon_sym_COLON];
     SGroup 14295 1 [sym_defaultValue]; AGroup 3 3 syms_1]);
   (560664, 3, [AGroup 27537 1 [anon_sym_SEMI]; AGroup 3 3 syms_1; AGroup 25753 3 syms_43]);
   (560678, 3, [AGroup 27539 1 [anon_sym_SEMI]; AGroup 3 3 syms_1; AGroup 25849 3 syms_79]);
   (560692, 3, [SGroup 7991 1 [sym__literalInt]; AGroup 3 3 syms_1; AGroup 27541 3 syms_801]);
   (560706, 3, [AGroup 26707 1 [sym_identifier]; AGroup 3 3 syms_1; SGroup 12309 3 syms_2]);
   (560720, 3, [AGroup 26570 1 [sym_identifier]; AGroup 3 3 syms_1; SGroup 12259 3 syms_2]);
   (560734, 3, [AGroup 27543 1 [sym_identifier]; AGroup 3 3 syms_1; SGroup 12314 3 syms_2]);
   (560748, 3, [SGroup 8023 1 [sym__literalInt]; AGroup 3 3 syms_1; AGroup 27545 3 syms_801]);
   (560762, 3, [AGroup 26713 1 [sym_identifier]; AGroup 3 3 syms_1; SGroup 12324 3 syms_2]);
   (560776, 5, [AGroup 24916 1 [sym_kEq]; AGroup 27547 1 [anon_sym_SEMI]; AGroup 27549 1 [sym_kAbsolute];
     SGroup 14994 1 [sym_defaultValue]; AGroup 3 3 syms_1]);
   (560794, 2, [AGroup 3 3 syms_1; AGroup 21887 4 syms_793]);
   (560806, 3, [AGroup 27551 1 [anon_sym_SEMI]; AGroup 3 3 syms_1; AGroup 25855 3 syms_79]);
   (560820, 3, [AGroup 27553 1 [sym_identifier]; AGroup 3 3 syms_1; SGroup 12325 3 syms_2]);
   (560834, 2, [AGroup 3 3 syms_1; AGroup 25673 4 syms_654]);
   (560846, 6, [AGroup 5 1 [sym_ppDirective]; AGroup 11124 1 [aux_sym_ppUsesBlock_token3];
     AGroup 27555 1 [aux_sym_ppUsesBlock_token2]; SGroup 1392 1 [sym__ppElse];
     SGroup 12425 1 [aux_sym__ppStatementBlock_repeat2]; AGroup 3 2 syms_5]);
   (560866, 3, [AGroup 26723 1 [sym_identifier]; AGroup 3 3 syms_1; SGroup 12332 3 syms_2]);
   (560880, 2, [AGroup 3 3 syms_1; AGroup 25675 4 syms_654]);
   (560892, 3, [AGroup 27558 1 [sym_identifier]; AGroup 3 3 syms_1; SGroup 12333 3 syms_2]);
   (560906, 2, [AGroup 3 3 syms_1; AGroup 24108 4 syms_90]);
   (560918, 5, [AGroup 24916 1 [sym_kEq]; AGroup 27560 1 [anon_sym_SEMI]; AGroup 27562 1 [anon_sym_COLON];
     SGroup 14893 1 [sym_defaultValue]; AGroup 3 3 syms_1]);
   (560936, 3, [AGroup 26729 1 [sym_identifier]; AGroup 3 3 syms_1; SGroup 12342 3 syms_2]);
   (560950, 3, [SGroup 7847 1 [sym__literalInt]; AGroup 3 3 syms_1; AGroup 27564 3 syms_801]);
   (560964, 3, [SGroup 7743 1 [sym__literalInt]; AGroup 3 3 syms_1; AGroup 27566 3 syms_801]);
   (560978, 3, [AGroup 27568 1 [sym_identifier]; AGroup 3 3 syms_1; SGroup 12343 3 syms_2]);
   (560992, 3, [AGroup 27570 1 [sym_identifier]; AGroup 3 3 syms_1; SGroup 11084 3 syms_2]);
   (561006, 5, [AGroup 24916 1 [sym_kEq]; AGroup 27572 1 [anon_sym_SEMI]; AGroup 27574 1 [anon_sym_COLON];
     SGroup 14289 1 [sym_defaultValue]; AGroup 3 3 syms_1]);
   (561024, 3, [AGroup 27576 1 [anon_sym_SEMI]; AGroup 3 3 syms_1; AGroup 25865 3 syms_43]);
   (561038, 3, [AGroup 26735 1 [sym_identifier]; AGroup 3 3 syms_1; SGroup 12350 3 syms_2]);
   (561052, 4, [SGroup 12453 1 [aux_sym_declLabels_repeat1]; SGroup 13814 1 [sym_declLabel];
     AGroup 26819 2 syms_186; AGroup 3 3 syms_1]);
   (561068, 3, [AGroup 27578 1 [sym_identifier]; AGroup 3 3 syms_1; SGroup 12353 3 syms_2]);
   (561082, 3, [AGroup 27580 1 [sym_identifier]; AGroup 3 3 syms_1; SGroup 11121 3 syms_2]);
   (561096, 3, [SGroup 7544 1 [sym__literalInt]; AGroup 3 3 syms_1; AGroup 27582 3 syms_801]);
   (561110, 5, [AGroup 24916 1 [sym_kEq]; AGroup 27584 1 [anon_sym_SEMI]; AGroup 27586 1 [anon_sym_COLON];
     SGroup 15752 1 [sym_defaultValue]; AGroup 3 3 syms_1]);
   (561128, 3, [SGroup 7139 1 [sym__literalInt]; AGroup 3 3 syms_1; AGroup 27588 3 syms_801]);
   (561142, 3, [AGroup 27590 1 [anon_sym_SEMI]; AGroup 3 3 syms_1; AGroup 25859 3 syms_79]);
   (561156, 3, [AGroup 27592 1 [anon_sym_SEMI]; AGroup 3 3 syms_1; AGroup 25869 3 syms_79]);
   (561170, 5, [AGroup 24916 1 [sym_kEq]; AGroup 27594 1 [anon_sym_SEMI]; AGroup 27596 1 [sym_kAbsolute];
     SGroup 14321 1 [sym_defaultValue]; AGroup 3 3 syms_1]);
   (561188, 5, [AGroup 24916 1 [sym_kEq]; AGroup 27598 1 [anon_sym_SEMI]; AGroup 27600 1 [sym_kAbsolute];
     SGroup 14327 1 [sym_defaultValue]; AGroup 3 3 syms_1]);
   (561206, 5, [AGroup 24916 1 [sym_kEq]; AGroup 27602 1 [anon_sym_SEMI]; AGroup 27604 1 [anon_sym_COLON];
     SGroup 15506 1 [sym_defaultValue]; AGroup 3 3 syms_1]);
   (561224, 3, [AGroup 5 1 [sym_ppDirective]; AGroup 3 2 syms_5; AGroup 23901 4 syms_802]);
   (561238, 3, [SGroup 7855 1 [sym__literalInt]; AGroup 3 3 syms_1; AGroup 27606 3 syms_801]);
   (561252, 5, [AGroup 24916 1 [sym_kEq]; AGroup 27608 1 [anon_sym_SEMI]; AGroup 27610 1 [anon_sym_COLON];
     SGroup 14478 1 [sym_defaultValue]; AGroup 3 3 syms_1]);
   (561270, 4, [SGroup 12140 1 [aux_sym_declLabels_repeat1]; SGroup 14080 1 [sym_declLabel];
     AGroup 26819 2 syms_186; AGroup 3 3 syms_1]);
   (561286, 5, [AGroup 24916 1 [sym_kEq]; AGroup 27612 1 [anon_sym_SEMI]; AGroup 27614 1 [anon_sym_COLON];
     SGroup 14366 1 [sym_defaultValue]; AGroup 3 3 syms_1]);
   (561304, 5, [AGroup 24916 1 [sym_kEq]; AGroup 27616 1 [anon_sym_SEMI]; AGroup 27618 1 [sym_kAbsolute];
     SGroup 15852 1 [sym_defaultValue]; AGroup 3 3 syms_1]);
   (561322, 2, [AGroup 3 3 syms_1; AGroup 10886 3 syms_805]);
   (561333, 4, [AGroup 5 1 [sym_ppDirective]; AGroup 27620 1 [sym_kOf]; AGroup 3 2 syms_5;
     AGroup 24894 2 syms_44]);
   (561348, 4, [AGroup 24916 1 [sym_kEq]; AGroup 27622 1 [anon_sym_SEMI]; SGroup 14291 1 [sym_defaultValue];
     AGroup 3 3 syms_1])
  ].

(** States 12459 to 12558. *)
Definition small_runs_12459 : list small_run :=
  [
   (561363, 2, [AGroup 3 3 syms_1; AGroup 10850 3 syms_805]);
   (561374, 5, [AGroup 5 1 [sym_ppDirective]; AGroup 24146 1 [aux_sym_ppUsesBlock_token2];
     AGroup 27624 1 [aux_sym_ppUsesBlock_token3]; SGroup 12523 1 [aux_sym_ppUsesBlock_repeat2];
     AGroup 3 2 syms_5]);
   (561391, 3, [AGroup 2138 1 [sym_kEnd]; AGroup 15279 2 syms_21; AGroup 3 3 syms_1]);
   (561404, 3, [AGroup 27626 1 [anon_sym_SEMI]; AGroup 25791 2 syms_109; AGroup 3 3 syms_1]);
   (561417, 2, [AGroup 3 3 syms_1; AGroup 25249 3 syms_117]);
   (561428, 4, [AGroup 24916 1 [sym_kEq]; AGroup 27628 1 [anon_sym_SEMI]; SGroup 14584 1 [sym_defaultValue];
     AGroup 3 3 syms_1]);
   (561443, 3, [AGroup 27630 1 [anon_sym_SEMI]; AGroup 25591 2 syms_112; AGroup 3 3 syms_1]);
   (561456, 3, [AGroup 27632 1 [anon_sym_COMMA]; AGroup 27634 2 syms_563; AGroup 3 3 syms_1]);
   (561469, 3, [AGroup 27636 1 [anon_sym_SEMI]; AGroup 25609 2 syms_112; AGroup 3 3 syms_1]);
   (561482, 2, [AGroup 3 3 syms_1; AGroup 24924 3 syms_117]);
   (561493, 3, [AGroup 2142 1 [sym_kEnd]; AGroup 27638 2 syms_21; AGroup 3 3 syms_1]);
   (561506, 3, [AGroup 27640 1 [anon_sym_SEMI]; AGroup 25799 2 syms_112; AGroup 3 3 syms_1]);
   (561519, 4, [AGroup 5 1 [sym_ppDirective]; AGroup 27642 1 [sym_kOf]; AGroup 3 2 syms_5;
     AGroup 24646 2 syms_44]);
   (561534, 4, [AGroup 24916 1 [sym_kEq]; AGroup 27644 1 [anon_sym_SEMI]; SGroup 15454 1 [sym_defaultValue];
     AGroup 3 3 syms_1]);
   (561549, 2, [AGroup 3 3 syms_1; AGroup 10890 3 syms_805]);
   (561560, 4, [AGroup 24916 1 [sym_kEq]; AGroup 27646 1 [anon_sym_SEMI]; SGroup 15997 1 [sym_defaultValue];
     AGroup 3 3 syms_1]);
   (561575, 2, [AGroup 3 3 syms_1; AGroup 25657 3 syms_675]);
   (561586, 4, [AGroup 24916 1 [sym_kEq]; AGroup 27648 1 [anon_sym_COLON];
     SGroup 14859 1 [sym_defaultValue]; AGroup 3 3 syms_1]);
   (561601, 3, [AGroup 27463 1 [anon_sym_SEMI]; AGroup 25865 2 syms_110; AGroup 3 3 syms_1]);
   (561614, 3, [AGroup 27650 1 [anon_sym_SEMI]; AGroup 25849 2 syms_112; AGroup 3 3 syms_1]);
   (561627, 2, [AGroup 3 3 syms_1; AGroup 10894 3 syms_805]);
   (561638, 3, [AGroup 27652 1 [anon_sym_SEMI]; AGroup 25855 2 syms_112; AGroup 3 3 syms_1]);
   (561651, 3, [AGroup 2154 1 [sym_kEnd]; AGroup 15045 2 syms_21; AGroup 3 3 syms_1]);
   (561664, 3, [AGroup 2158 1 [sym_kEnd]; AGroup 27654 2 syms_21; AGroup 3 3 syms_1]);
   (561677, 4, [AGroup 27656 1 [sym_identifier]; SGroup 13335 1 [aux_sym_moduleName_repeat1];
     SGroup 14961 1 [sym_moduleName]; AGroup 3 3 syms_1]);
   (561692, 2, [AGroup 3 3 syms_1; AGroup 15596 3 syms_806]);
   (561703, 3, [AGroup 27658 1 [anon_sym_SEMI]; AGroup 25859 2 syms_112; AGroup 3 3 syms_1]);
   (561716, 5, [AGroup 5 1 [sym_ppDirective]; AGroup 27660 1 [aux_sym_ppUsesBlock_token2];
     AGroup 27662 1 [aux_sym_ppUsesBlock_token3];
     SGroup 12519 1 [aux_sym_ppUsesBlockWithSemi_repeat1]; AGroup 3 2 syms_5]);
   (561733, 2, [AGroup 3 3 syms_1; AGroup 10854 3 syms_805]);
   (561744, 4, [AGroup 27656 1 [sym_identifier]; SGroup 13335 1 [aux_sym_moduleName_repeat1];
     SGroup 15239 1 [sym_moduleName]; AGroup 3 3 syms_1]);
   (561759, 4, [AGroup 24916 1 [sym_kEq]; AGroup 27664 1 [anon_sym_SEMI]; SGroup 15295 1 [sym_defaultValue];
     AGroup 3 3 syms_1]);
   (561774, 4, [AGroup 27656 1 [sym_identifier]; SGroup 13335 1 [aux_sym_moduleName_repeat1];
     SGroup 14942 1 [sym_moduleName]; AGroup 3 3 syms_1]);
   (561789, 5, [AGroup 5 1 [sym_ppDirective]; AGroup 27660 1 [aux_sym_ppUsesBlock_token2];
     AGroup 27666 1 [aux_sym_ppUsesBlock_token3];
     SGroup 12600 1 [aux_sym_ppUsesBlockWithSemi_repeat1]; AGroup 3 2 syms_5]);
   (561806, 3, [AGroup 27668 1 [anon_sym_SEMI]; AGroup 25865 2 syms_112; AGroup 3 3 syms_1]);
   (561819, 3, [AGroup 27670 1 [anon_sym_SEMI]; AGroup 25869 2 syms_112; AGroup 3 3 syms_1]);
   (561832, 2, [AGroup 3 3 syms_1; AGroup 10898 3 syms_805]);
   (561843, 3, [AGroup 27672 1 [anon_sym_SEMI]; AGroup 25875 2 syms_112; AGroup 3 3 syms_1]);
   (561856, 3, [AGroup 2170 1 [sym_kEnd]; AGroup 15073 2 syms_21; AGroup 3 3 syms_1]);
   (561869, 4, [AGroup 25313 1 [sym_kCase]; AGroup 27674 1 [anon_sym_RPAREN];
     SGroup 13570 1 [sym_declVariant]; AGroup 3 3 syms_1]);
   (561884, 4, [AGroup 24916 1 [sym_kEq]; AGroup 27676 1 [anon_sym_SEMI]; SGroup 15544 1 [sym_defaultValue];
     AGroup 3 3 syms_1]);
   (561899, 3, [AGroup 2174 1 [sym_kEnd]; AGroup 27678 2 syms_21; AGroup 3 3 syms_1]);
   (561912, 2, [AGroup 3 3 syms_1; AGroup 10902 3 syms_805]);
   (561923, 2, [AGroup 3 3 syms_1; AGroup 26036 3 syms_43]);
   (561934, 2, [AGroup 3 3 syms_1; AGroup 26044 3 syms_43]);
   (561945, 3, [AGroup 27680 1 [anon_sym_SEMI]; AGroup 17240 2 syms_112; AGroup 3 3 syms_1]);
   (561958, 3, [AGroup 27682 1 [anon_sym_SEMI]; AGroup 15293 2 syms_112; AGroup 3 3 syms_1]);
   (561971, 5, [AGroup 5 1 [sym_ppDirective]; AGroup 27660 1 [aux_sym_ppUsesBlock_token2];
     AGroup 27666 1 [aux_sym_ppUsesBlock_token3];
     SGroup 12620 1 [aux_sym_ppUsesBlockWithSemi_repeat1]; AGroup 3 2 syms_5]);
   (561988, 2, [AGroup 3 3 syms_1; AGroup 25063 3 syms_117]);
   (561999, 3, [AGroup 1701 1 [sym_kEnd]; AGroup 15069 2 syms_21; AGroup 3 3 syms_1]);
   (562012, 4, [AGroup 24916 1 [sym_kEq]; AGroup 27684 1 [anon_sym_SEMI]; SGroup 14678 1 [sym_defaultValue];
     AGroup 3 3 syms_1]);
   (562027, 4, [AGroup 24916 1 [sym_kEq]; AGroup 27686 1 [anon_sym_SEMI]; SGroup 15478 1 [sym_defaultValue];
     AGroup 3 3 syms_1]);
   (562042, 4, [AGroup 24916 1 [sym_kEq]; AGroup 27688 1 [anon_sym_SEMI]; SGroup 15617 1 [sym_defaultValue];
     AGroup 3 3 syms_1]);
   (562057, 3, [AGroup 27280 1 [anon_sym_SEMI]; AGroup 25687 2 syms_110; AGroup 3 3 syms_1]);
   (562070, 4, [AGroup 24916 1 [sym_kEq]; AGroup 27690 1 [anon_sym_SEMI]; SGroup 15505 1 [sym_defaultValue];
     AGroup 3 3 syms_1]);
   (562085, 4, [AGroup 27692 1 [anon_sym_COLON]; AGroup 27694 1 [sym_kEq];
     SGroup 12348 1 [sym_defaultValue]; AGroup 3 3 syms_1]);
   (562100, 2, [AGroup 3 3 syms_1; AGroup 25079 3 syms_117]);
   (562111, 3, [AGroup 27696 1 [anon_sym_SEMI]; AGroup 25687 2 syms_112; AGroup 3 3 syms_1]);
   (562124, 5, [AGroup 5 1 [sym_ppDirective]; AGroup 27660 1 [aux_sym_ppUsesBlock_token2];
     AGroup 27698 1 [aux_sym_ppUsesBlock_token3];
     SGroup 12961 1 [aux_sym_ppUsesBlockWithSemi_repeat1]; AGroup 3 2 syms_5]);
   (562141, 3, [AGroup 2186 1 [sym_kEnd]; AGroup 15089 2 syms_21; AGroup 3 3 syms_1]);
   (562154, 3, [AGroup 1705 1 [sym_kEnd]; AGroup 27700 2 syms_21; AGroup 3 3 syms_1]);
   (562167, 5, [AGroup 5 1 [sym_ppDirective]; AGroup 27660 1 [aux_sym_ppUsesBlock_token2];
     AGroup 27702 1 [aux_sym_ppUsesBlock_token3];
     SGroup 12600 1 [aux_sym_ppUsesBlockWithSemi_repeat1]; AGroup 3 2 syms_5]);
   (562184, 5, [AGroup 5 1 [sym_ppDirective]; AGroup 27660 1 [aux_sym_ppUsesBlock_token2];
     AGroup 27702 1 [aux_sym_ppUsesBlock_token3];
     SGroup 12557 1 [aux_sym_ppUsesBlockWithSemi_repeat1]; AGroup 3 2 syms_5]);
   (562201, 5, [AGroup 5 1 [sym_ppDirective]; AGroup 24146 1 [aux_sym_ppUsesBlock_token2];
     AGroup 27704 1 [aux_sym_ppUsesBlock_token3]; SGroup 12523 1 [aux_sym_ppUsesBlock_repeat2];
     AGroup 3 2 syms_5]);
   (562218, 4, [AGroup 24916 1 [sym_kEq]; AGroup 27706 1 [anon_sym_COLON];
     SGroup 15951 1 [sym_defaultValue]; AGroup 3 3 syms_1]);
   (562233, 5, [AGroup 5 1 [sym_ppDirective]; AGroup 27708 1 [aux_sym_ppUsesBlock_token2];
     AGroup 27711 1 [aux_sym_ppUsesBlock_token3]; SGroup 12523 1 [aux_sym_ppUsesBlock_repeat2];
     AGroup 3 2 syms_5]);
   (562250, 3, [AGroup 2190 1 [sym_kEnd]; AGroup 27713 2 syms_21; AGroup 3 3 syms_1]);
   (562263, 4, [AGroup 24916 1 [sym_kEq]; AGroup 27715 1 [anon_sym_SEMI]; SGroup 14415 1 [sym_defaultValue];
     AGroup 3 3 syms_1]);
   (562278, 4, [AGroup 26883 1 [sym_kElse]; AGroup 26885 1 [sym_kEnd]; SGroup 15648 1 [sym_exceptionElse];
     AGroup 3 3 syms_1]);
   (562293, 4, [AGroup 27717 1 [anon_sym_COLON]; AGroup 27719 1 [sym_kEq];
     SGroup 11389 1 [sym_defaultValue]; AGroup 3 3 syms_1]);
   (562308, 3, [AGroup 27721 1 [anon_sym_SEMI]; AGroup 25799 2 syms_109; AGroup 3 3 syms_1]);
   (562321, 3, [AGroup 18840 1 [sym_kElse]; AGroup 26097 2 syms_110; AGroup 3 3 syms_1]);
   (562334, 4, [AGroup 24916 1 [sym_kEq]; AGroup 27723 1 [anon_sym_COLON];
     SGroup 14856 1 [sym_defaultValue]; AGroup 3 3 syms_1]);
   (562349, 2, [AGroup 3 3 syms_1; AGroup 10858 3 syms_805]);
   (562360, 4, [AGroup 24916 1 [sym_kEq]; AGroup 27725 1 [anon_sym_SEMI]; SGroup 15711 1 [sym_defaultValue];
     AGroup 3 3 syms_1]);
   (562375, 4, [AGroup 24916 1 [sym_kEq]; AGroup 27727 1 [anon_sym_SEMI]; SGroup 15717 1 [sym_defaultValue];
     AGroup 3 3 syms_1]);
   (562390, 5, [AGroup 5 1 [sym_ppDirective]; AGroup 24146 1 [aux_sym_ppUsesBlock_token2];
     AGroup 24412 1 [aux_sym_ppUsesBlock_token3]; SGroup 12523 1 [aux_sym_ppUsesBlock_repeat2];
     AGroup 3 2 syms_5]);
   (562407, 2, [AGroup 3 3 syms_1; AGroup 10906 3 syms_805]);
   (562418, 2, [AGroup 3 3 syms_1; AGroup 25117 3 syms_117]);
   (562429, 4, [AGroup 27729 1 [sym_identifier]; SGroup 12549 1 [aux_sym_declEnum_repeat1];
     SGroup 13459 1 [sym_declEnumValue]; AGroup 3 3 syms_1]);
   (562444, 3, [AGroup 27731 1 [anon_sym_SEMI]; AGroup 17254 2 syms_112; AGroup 3 3 syms_1]);
   (562457, 4, [AGroup 27733 1 [anon_sym_SEMI]; AGroup 27735 1 [anon_sym_COMMA];
     AGroup 27737 1 [anon_sym_RPAREN]; AGroup 3 3 syms_1]);
   (562472, 4, [AGroup 24916 1 [sym_kEq]; AGroup 27739 1 [anon_sym_SEMI]; SGroup 15741 1 [sym_defaultValue];
     AGroup 3 3 syms_1]);
   (562487, 3, [AGroup 27590 1 [anon_sym_SEMI]; AGroup 25859 2 syms_110; AGroup 3 3 syms_1]);
   (562500, 3, [AGroup 18838 1 [sym_kElse]; AGroup 26097 2 syms_110; AGroup 3 3 syms_1]);
   (562513, 3, [AGroup 1272 1 [sym_kEnd]; AGroup 15275 2 syms_21; AGroup 3 3 syms_1]);
   (562526, 3, [AGroup 27741 1 [anon_sym_SEMI]; AGroup 25717 2 syms_112; AGroup 3 3 syms_1]);
   (562539, 2, [AGroup 3 3 syms_1; AGroup 10818 3 syms_805]);
   (562550, 3, [AGroup 27743 1 [anon_sym_SEMI]; AGroup 15353 2 syms_112; AGroup 3 3 syms_1]);
   (562563, 3, [AGroup 27745 1 [anon_sym_SEMI]; AGroup 25721 2 syms_112; AGroup 3 3 syms_1]);
   (562576, 3, [AGroup 27747 1 [anon_sym_SEMI]; AGroup 25739 2 syms_112; AGroup 3 3 syms_1]);
   (562589, 4, [AGroup 27729 1 [sym_identifier]; SGroup 12610 1 [aux_sym_declEnum_repeat1];
     SGroup 13719 1 [sym_declEnumValue]; AGroup 3 3 syms_1]);
   (562604, 3, [AGroup 27749 1 [anon_sym_SEMI]; AGroup 25753 2 syms_112; AGroup 3 3 syms_1]);
   (562617, 4, [AGroup 24916 1 [sym_kEq]; AGroup 27751 1 [anon_sym_SEMI]; SGroup 15754 1 [sym_defaultValue];
     AGroup 3 3 syms_1]);
   (562632, 2, [AGroup 3 3 syms_1; AGroup 24240 3 syms_678]);
   (562643, 4, [AGroup 24916 1 [sym_kEq]; AGroup 27753 1 [anon_sym_SEMI]; SGroup 15771 1 [sym_defaultValue];
     AGroup 3 3 syms_1]);
   (562658, 3, [AGroup 2467 1 [sym_kEnd]; AGroup 15065 2 syms_21; AGroup 3 3 syms_1]);
   (562671, 4, [AGroup 24916 1 [sym_kEq]; AGroup 27755 1 [anon_sym_SEMI]; SGroup 14159 1 [sym_defaultValue];
     AGroup 3 3 syms_1]);
   (562686, 4, [AGroup 5 1 [sym_ppDirective]; AGroup 27757 1 [sym_kDeprecated]; AGroup 3 2 syms_5;
     AGroup 24650 2 syms_44]);
   (562701, 5, [AGroup 5 1 [sym_ppDirective]; AGroup 27660 1 [aux_sym_ppUsesBlock_token2];
     AGroup 27759 1 [aux_sym_ppUsesBlock_token3];
     SGroup 12600 1 [aux_sym_ppUsesBlockWithSemi_repeat1]; AGroup 3 2 syms_5]);
   (562718, 3, [AGroup 2471 1 [sym_kEnd]; AGroup 27761 2 syms_21; AGroup 3 3 syms_1])
  ].

(** States 12559 to 12658. *)
Definition small_runs_12559 : list small_run :=
  [
   (562731, 3, [AGroup 2202 1 [sym_kEnd]; AGroup 15111 2 syms_21; AGroup 3 3 syms_1]);
   (562744, 2, [AGroup 3 3 syms_1; AGroup 25673 3 syms_675]);
   (562755, 2, [AGroup 3 3 syms_1; AGroup 17204 3 syms_807]);
   (562766, 2, [AGroup 3 3 syms_1; AGroup 10838 3 syms_805]);
   (562777, 4, [AGroup 24916 1 [sym_kEq]; AGroup 27763 1 [anon_sym_SEMI]; SGroup 14627 1 [sym_defaultValue];
     AGroup 3 3 syms_1]);
   (562792, 4, [AGroup 24916 1 [sym_kEq]; AGroup 27765 1 [anon_sym_SEMI]; SGroup 15854 1 [sym_defaultValue];
     AGroup 3 3 syms_1]);
   (562807, 2, [AGroup 3 3 syms_1; AGroup 10910 3 syms_805]);
   (562818, 4, [AGroup 24916 1 [sym_kEq]; AGroup 27767 1 [anon_sym_SEMI]; SGroup 15857 1 [sym_defaultValue];
     AGroup 3 3 syms_1]);
   (562833, 2, [AGroup 3 3 syms_1; AGroup 15590 3 syms_806]);
   (562844, 3, [AGroup 3168 1 [sym_kEnd]; AGroup 27769 2 syms_21; AGroup 3 3 syms_1]);
   (562857, 3, [AGroup 27338 1 [anon_sym_SEMI]; AGroup 17240 2 syms_110; AGroup 3 3 syms_1]);
   (562870, 4, [AGroup 24916 1 [sym_kEq]; AGroup 27771 1 [anon_sym_SEMI]; SGroup 15877 1 [sym_defaultValue];
     AGroup 3 3 syms_1]);
   (562885, 3, [AGroup 27457 1 [anon_sym_SEMI]; AGroup 15293 2 syms_110; AGroup 3 3 syms_1]);
   (562898, 3, [AGroup 1276 1 [sym_kEnd]; AGroup 27773 2 syms_21; AGroup 3 3 syms_1]);
   (562911, 4, [AGroup 24916 1 [sym_kEq]; AGroup 27775 1 [anon_sym_SEMI]; SGroup 15881 1 [sym_defaultValue];
     AGroup 3 3 syms_1]);
   (562926, 4, [AGroup 24916 1 [sym_kEq]; AGroup 27777 1 [anon_sym_SEMI]; SGroup 15883 1 [sym_defaultValue];
     AGroup 3 3 syms_1]);
   (562941, 2, [AGroup 3 3 syms_1; AGroup 27779 3 syms_667]);
   (562952, 2, [AGroup 3 3 syms_1; AGroup 27781 3 syms_667]);
   (562963, 4, [AGroup 24916 1 [sym_kEq]; AGroup 27783 1 [anon_sym_COLON];
     SGroup 15550 1 [sym_defaultValue]; AGroup 3 3 syms_1]);
   (562978, 4, [AGroup 24916 1 [sym_kEq]; AGroup 27785 1 [anon_sym_SEMI]; SGroup 14488 1 [sym_defaultValue];
     AGroup 3 3 syms_1]);
   (562993, 3, [AGroup 27069 1 [anon_sym_SEMI]; AGroup 25791 2 syms_110; AGroup 3 3 syms_1]);
   (563006, 2, [AGroup 3 3 syms_1; AGroup 10914 3 syms_805]);
   (563017, 2, [AGroup 3 3 syms_1; AGroup 10766 3 syms_805]);
   (563028, 2, [AGroup 3 3 syms_1; AGroup 10846 3 syms_805]);
   (563039, 3, [AGroup 27787 1 [anon_sym_SEMI]; AGroup 25785 2 syms_109; AGroup 3 3 syms_1]);
   (563052, 2, [AGroup 3 3 syms_1; AGroup 10826 3 syms_805]);
   (563063, 2, [AGroup 3 3 syms_1; AGroup 25675 3 syms_675]);
   (563074, 4, [AGroup 24916 1 [sym_kEq]; AGroup 27789 1 [anon_sym_COLON];
     SGroup 15900 1 [sym_defaultValue]; AGroup 3 3 syms_1]);
   (563089, 3, [AGroup 1232 1 [sym_kEnd]; AGroup 15251 2 syms_21; AGroup 3 3 syms_1]);
   (563102, 3, [AGroup 27791 1 [anon_sym_SEMI]; AGroup 25791 2 syms_109; AGroup 3 3 syms_1]);
   (563115, 4, [AGroup 27729 1 [sym_identifier]; SGroup 12594 1 [aux_sym_declEnum_repeat1];
     SGroup 13395 1 [sym_declEnumValue]; AGroup 3 3 syms_1]);
   (563130, 4, [AGroup 24916 1 [sym_kEq]; AGroup 27793 1 [anon_sym_SEMI]; SGroup 15907 1 [sym_defaultValue];
     AGroup 3 3 syms_1]);
   (563145, 2, [AGroup 3 3 syms_1; AGroup 27795 3 syms_805]);
   (563156, 3, [AGroup 27797 1 [anon_sym_SEMI]; AGroup 25849 2 syms_109; AGroup 3 3 syms_1]);
   (563169, 4, [AGroup 24916 1 [sym_kEq]; AGroup 27799 1 [anon_sym_SEMI]; SGroup 15926 1 [sym_defaultValue];
     AGroup 3 3 syms_1]);
   (563184, 4, [AGroup 27729 1 [sym_identifier]; SGroup 12610 1 [aux_sym_declEnum_repeat1];
     SGroup 13716 1 [sym_declEnumValue]; AGroup 3 3 syms_1]);
   (563199, 3, [AGroup 27801 1 [anon_sym_SEMI]; AGroup 25591 2 syms_109; AGroup 3 3 syms_1]);
   (563212, 3, [AGroup 27803 1 [anon_sym_SEMI]; AGroup 25609 2 syms_109; AGroup 3 3 syms_1]);
   (563225, 3, [AGroup 2578 1 [sym_kEnd]; AGroup 15099 2 syms_21; AGroup 3 3 syms_1]);
   (563238, 3, [AGroup 27805 1 [anon_sym_SEMI]; AGroup 25855 2 syms_109; AGroup 3 3 syms_1]);
   (563251, 4, [AGroup 5 1 [sym_ppDirective]; AGroup 27807 1 [sym_kOf]; AGroup 3 2 syms_5;
     AGroup 24512 2 syms_44]);
   (563266, 5, [AGroup 5 1 [sym_ppDirective]; AGroup 27809 1 [aux_sym_ppUsesBlock_token2];
     AGroup 27812 1 [aux_sym_ppUsesBlock_token3];
     SGroup 12600 1 [aux_sym_ppUsesBlockWithSemi_repeat1]; AGroup 3 2 syms_5]);
   (563283, 3, [AGroup 2582 1 [sym_kEnd]; AGroup 27814 2 syms_21; AGroup 3 3 syms_1]);
   (563296, 3, [AGroup 27816 1 [anon_sym_SEMI]; AGroup 25687 2 syms_109; AGroup 3 3 syms_1]);
   (563309, 4, [AGroup 24916 1 [sym_kEq]; AGroup 27818 1 [anon_sym_SEMI]; SGroup 15488 1 [sym_defaultValue];
     AGroup 3 3 syms_1]);
   (563324, 3, [AGroup 2245 1 [sym_kEnd]; AGroup 15125 2 syms_21; AGroup 3 3 syms_1]);
   (563337, 4, [AGroup 24916 1 [sym_kEq]; AGroup 27820 1 [anon_sym_COLON];
     SGroup 15070 1 [sym_defaultValue]; AGroup 3 3 syms_1]);
   (563352, 4, [AGroup 24916 1 [sym_kEq]; AGroup 27822 1 [anon_sym_COLON];
     SGroup 15148 1 [sym_defaultValue]; AGroup 3 3 syms_1]);
   (563367, 2, [AGroup 3 3 syms_1; AGroup 10878 3 syms_805]);
   (563378, 2, [AGroup 3 3 syms_1; AGroup 25659 3 syms_675]);
   (563389, 3, [AGroup 2249 1 [sym_kEnd]; AGroup 27824 2 syms_21; AGroup 3 3 syms_1]);
   (563402, 4, [AGroup 27826 1 [sym_identifier]; SGroup 12610 1 [aux_sym_declEnum_repeat1];
     SGroup 15521 1 [sym_declEnumValue]; AGroup 3 3 syms_1]);
   (563417, 3, [AGroup 27829 1 [anon_sym_SEMI]; AGroup 25717 2 syms_109; AGroup 3 3 syms_1]);
   (563430, 4, [AGroup 24916 1 [sym_kEq]; AGroup 27831 1 [anon_sym_COLON];
     SGroup 15399 1 [sym_defaultValue]; AGroup 3 3 syms_1]);
   (563445, 3, [AGroup 27833 1 [anon_sym_SEMI]; AGroup 25721 2 syms_109; AGroup 3 3 syms_1]);
   (563458, 3, [AGroup 27835 1 [anon_sym_SEMI]; AGroup 25739 2 syms_109; AGroup 3 3 syms_1]);
   (563471, 3, [AGroup 27837 1 [anon_sym_SEMI]; AGroup 25753 2 syms_109; AGroup 3 3 syms_1]);
   (563484, 2, [AGroup 3 3 syms_1; AGroup 26076 3 syms_43]);
   (563495, 4, [AGroup 27729 1 [sym_identifier]; SGroup 12625 1 [aux_sym_declEnum_repeat1];
     SGroup 13103 1 [sym_declEnumValue]; AGroup 3 3 syms_1]);
   (563510, 3, [AGroup 27592 1 [anon_sym_SEMI]; AGroup 25869 2 syms_110; AGroup 3 3 syms_1]);
   (563523, 3, [AGroup 27839 1 [anon_sym_SEMI]; AGroup 25799 2 syms_109; AGroup 3 3 syms_1]);
   (563536, 5, [AGroup 5 1 [sym_ppDirective]; AGroup 27660 1 [aux_sym_ppUsesBlock_token2];
     AGroup 27841 1 [aux_sym_ppUsesBlock_token3];
     SGroup 12600 1 [aux_sym_ppUsesBlockWithSemi_repeat1]; AGroup 3 2 syms_5]);
   (563553, 2, [AGroup 3 3 syms_1; AGroup 25657 3 syms_678]);
   (563564, 2, [AGroup 3 3 syms_1; AGroup 25659 3 syms_678]);
   (563575, 3, [AGroup 1717 1 [sym_kEnd]; AGroup 15079 2 syms_21; AGroup 3 3 syms_1]);
   (563588, 3, [AGroup 27843 1 [anon_sym_SEMI]; AGroup 25849 2 syms_109; AGroup 3 3 syms_1]);
   (563601, 4, [AGroup 27729 1 [sym_identifier]; SGroup 12610 1 [aux_sym_declEnum_repeat1];
     SGroup 13402 1 [sym_declEnumValue]; AGroup 3 3 syms_1]);
   (563616, 4, [AGroup 27845 1 [anon_sym_COLON]; AGroup 27847 1 [sym_kEq];
     SGroup 12880 1 [sym_defaultValue]; AGroup 3 3 syms_1]);
   (563631, 3, [AGroup 27849 1 [anon_sym_SEMI]; AGroup 25855 2 syms_109; AGroup 3 3 syms_1]);
   (563644, 3, [AGroup 27851 1 [anon_sym_SEMI]; AGroup 25859 2 syms_109; AGroup 3 3 syms_1]);
   (563657, 3, [AGroup 2720 1 [sym_kEnd]; AGroup 15119 2 syms_21; AGroup 3 3 syms_1]);
   (563670, 4, [AGroup 27853 1 [anon_sym_COLON]; AGroup 27855 1 [sym_kEq];
     SGroup 12882 1 [sym_defaultValue]; AGroup 3 3 syms_1]);
   (563685, 3, [AGroup 27857 1 [anon_sym_SEMI]; AGroup 25799 2 syms_112; AGroup 3 3 syms_1]);
   (563698, 3, [AGroup 27859 1 [anon_sym_SEMI]; AGroup 25865 2 syms_109; AGroup 3 3 syms_1]);
   (563711, 3, [AGroup 2724 1 [sym_kEnd]; AGroup 27861 2 syms_21; AGroup 3 3 syms_1]);
   (563724, 2, [AGroup 3 3 syms_1; AGroup 10710 3 syms_805]);
   (563735, 3, [AGroup 27863 1 [anon_sym_SEMI]; AGroup 25869 2 syms_109; AGroup 3 3 syms_1]);
   (563748, 3, [AGroup 27865 1 [anon_sym_SEMI]; AGroup 25875 2 syms_109; AGroup 3 3 syms_1]);
   (563761, 3, [AGroup 27867 1 [anon_sym_SEMI]; AGroup 25859 2 syms_109; AGroup 3 3 syms_1]);
   (563774, 4, [AGroup 24916 1 [sym_kEq]; AGroup 27869 1 [anon_sym_SEMI]; SGroup 15697 1 [sym_defaultValue];
     AGroup 3 3 syms_1]);
   (563789, 4, [AGroup 27733 1 [anon_sym_SEMI]; AGroup 27735 1 [anon_sym_COMMA];
     AGroup 27871 1 [anon_sym_RPAREN]; AGroup 3 3 syms_1]);
   (563804, 3, [AGroup 27873 1 [anon_sym_SEMI]; AGroup 25591 2 syms_109; AGroup 3 3 syms_1]);
   (563817, 3, [AGroup 27875 1 [anon_sym_SEMI]; AGroup 25609 2 syms_109; AGroup 3 3 syms_1]);
   (563830, 4, [AGroup 24916 1 [sym_kEq]; AGroup 27877 1 [anon_sym_COLON];
     SGroup 14254 1 [sym_defaultValue]; AGroup 3 3 syms_1]);
   (563845, 5, [AGroup 5 1 [sym_ppDirective]; AGroup 27660 1 [aux_sym_ppUsesBlock_token2];
     AGroup 27879 1 [aux_sym_ppUsesBlock_token3];
     SGroup 12670 1 [aux_sym_ppUsesBlockWithSemi_repeat1]; AGroup 3 2 syms_5]);
   (563862, 3, [AGroup 2261 1 [sym_kEnd]; AGroup 15031 2 syms_21; AGroup 3 3 syms_1]);
   (563875, 4, [AGroup 24916 1 [sym_kEq]; AGroup 27881 1 [anon_sym_COLON];
     SGroup 14361 1 [sym_defaultValue]; AGroup 3 3 syms_1]);
   (563890, 2, [AGroup 3 3 syms_1; AGroup 4439 3 syms_79]);
   (563901, 3, [AGroup 27883 1 [anon_sym_SEMI]; AGroup 17240 2 syms_109; AGroup 3 3 syms_1]);
   (563914, 2, [AGroup 3 3 syms_1; AGroup 10732 3 syms_805]);
   (563925, 3, [AGroup 27885 1 [anon_sym_SEMI]; AGroup 15293 2 syms_109; AGroup 3 3 syms_1]);
   (563938, 3, [AGroup 27342 1 [anon_sym_SEMI]; AGroup 25717 2 syms_110; AGroup 3 3 syms_1]);
   (563951, 4, [AGroup 24916 1 [sym_kEq]; AGroup 27887 1 [anon_sym_SEMI]; SGroup 15635 1 [sym_defaultValue];
     AGroup 3 3 syms_1]);
   (563966, 2, [AGroup 3 3 syms_1; AGroup 4439 3 syms_43]);
   (563977, 2, [AGroup 3 3 syms_1; AGroup 10732 3 syms_805]);
   (563988, 4, [AGroup 24916 1 [sym_kEq]; AGroup 27889 1 [anon_sym_SEMI]; SGroup 14423 1 [sym_defaultValue];
     AGroup 3 3 syms_1]);
   (564003, 2, [AGroup 3 3 syms_1; AGroup 10862 3 syms_805]);
   (564014, 3, [AGroup 27891 1 [anon_sym_SEMI]; AGroup 25849 2 syms_112; AGroup 3 3 syms_1]);
   (564027, 2, [AGroup 3 3 syms_1; AGroup 25253 3 syms_117]);
   (564038, 2, [AGroup 3 3 syms_1; AGroup 10842 3 syms_805])
  ].

(** States 12659 to 12758. *)
Definition small_runs_12659 : list small_run :=
  [
   (564049, 3, [AGroup 27893 1 [anon_sym_SEMI]; AGroup 25855 2 syms_112; AGroup 3 3 syms_1]);
   (564062, 3, [AGroup 27895 1 [anon_sym_SEMI]; AGroup 17254 2 syms_109; AGroup 3 3 syms_1]);
   (564075, 3, [AGroup 1721 1 [sym_kEnd]; AGroup 27897 2 syms_21; AGroup 3 3 syms_1]);
   (564088, 3, [AGroup 27899 1 [anon_sym_SEMI]; AGroup 15353 2 syms_109; AGroup 3 3 syms_1]);
   (564101, 3, [AGroup 2265 1 [sym_kEnd]; AGroup 27901 2 syms_21; AGroup 3 3 syms_1]);
   (564114, 3, [AGroup 2769 1 [sym_kEnd]; AGroup 15143 2 syms_21; AGroup 3 3 syms_1]);
   (564127, 4, [AGroup 24916 1 [sym_kEq]; AGroup 27903 1 [anon_sym_COLON];
     SGroup 15734 1 [sym_defaultValue]; AGroup 3 3 syms_1]);
   (564142, 3, [AGroup 1220 1 [sym_kEnd]; AGroup 15047 2 syms_21; AGroup 3 3 syms_1]);
   (564155, 4, [AGroup 24916 1 [sym_kEq]; AGroup 27905 1 [anon_sym_SEMI]; SGroup 14493 1 [sym_defaultValue];
     AGroup 3 3 syms_1]);
   (564170, 3, [AGroup 2773 1 [sym_kEnd]; AGroup 27907 2 syms_21; AGroup 3 3 syms_1]);
   (564183, 2, [AGroup 3 3 syms_1; AGroup 10720 3 syms_805]);
   (564194, 5, [AGroup 5 1 [sym_ppDirective]; AGroup 27660 1 [aux_sym_ppUsesBlock_token2];
     AGroup 27909 1 [aux_sym_ppUsesBlock_token3];
     SGroup 12600 1 [aux_sym_ppUsesBlockWithSemi_repeat1]; AGroup 3 2 syms_5]);
   (564211, 4, [AGroup 27911 1 [anon_sym_COLON]; AGroup 27913 1 [sym_kEq];
     SGroup 13324 1 [sym_defaultValue]; AGroup 3 3 syms_1]);
   (564226, 5, [AGroup 5 1 [sym_ppDirective]; AGroup 27660 1 [aux_sym_ppUsesBlock_token2];
     AGroup 27909 1 [aux_sym_ppUsesBlock_token3];
     SGroup 12700 1 [aux_sym_ppUsesBlockWithSemi_repeat1]; AGroup 3 2 syms_5]);
   (564243, 5, [AGroup 5 1 [sym_ppDirective]; AGroup 27660 1 [aux_sym_ppUsesBlock_token2];
     AGroup 27915 1 [aux_sym_ppUsesBlock_token3];
     SGroup 12748 1 [aux_sym_ppUsesBlockWithSemi_repeat1]; AGroup 3 2 syms_5]);
   (564260, 4, [AGroup 24916 1 [sym_kEq]; AGroup 27917 1 [anon_sym_COLON];
     SGroup 14850 1 [sym_defaultValue]; AGroup 3 3 syms_1]);
   (564275, 3, [AGroup 1420 1 [sym_kEnd]; AGroup 15101 2 syms_21; AGroup 3 3 syms_1]);
   (564288, 4, [AGroup 27733 1 [anon_sym_SEMI]; AGroup 27735 1 [anon_sym_COMMA];
     AGroup 27919 1 [anon_sym_RPAREN]; AGroup 3 3 syms_1]);
   (564303, 2, [AGroup 3 3 syms_1; AGroup 10740 3 syms_805]);
   (564314, 4, [AGroup 5 1 [sym_ppDirective]; AGroup 27921 1 [sym_kOf]; AGroup 3 2 syms_5;
     AGroup 24900 2 syms_44]);
   (564329, 4, [AGroup 24916 1 [sym_kEq]; AGroup 27923 1 [anon_sym_COLON];
     SGroup 14937 1 [sym_defaultValue]; AGroup 3 3 syms_1]);
   (564344, 4, [AGroup 24916 1 [sym_kEq]; AGroup 27925 1 [anon_sym_SEMI]; SGroup 14545 1 [sym_defaultValue];
     AGroup 3 3 syms_1]);
   (564359, 4, [AGroup 24916 1 [sym_kEq]; AGroup 27927 1 [anon_sym_SEMI]; SGroup 14549 1 [sym_defaultValue];
     AGroup 3 3 syms_1]);
   (564374, 2, [AGroup 3 3 syms_1; AGroup 25265 3 syms_117]);
   (564385, 4, [AGroup 27733 1 [anon_sym_SEMI]; AGroup 27735 1 [anon_sym_COMMA];
     AGroup 27929 1 [anon_sym_RPAREN]; AGroup 3 3 syms_1]);
   (564400, 4, [AGroup 24916 1 [sym_kEq]; AGroup 27931 1 [anon_sym_SEMI]; SGroup 14564 1 [sym_defaultValue];
     AGroup 3 3 syms_1]);
   (564415, 3, [AGroup 1290 1 [sym_kEnd]; AGroup 15097 2 syms_21; AGroup 3 3 syms_1]);
   (564428, 3, [AGroup 27447 1 [anon_sym_SEMI]; AGroup 25875 2 syms_110; AGroup 3 3 syms_1]);
   (564441, 2, [AGroup 3 3 syms_1; AGroup 10866 3 syms_805]);
   (564452, 2, [AGroup 3 3 syms_1; AGroup 10750 3 syms_805]);
   (564463, 3, [AGroup 2308 1 [sym_kEnd]; AGroup 15171 2 syms_21; AGroup 3 3 syms_1]);
   (564476, 2, [AGroup 3 3 syms_1; AGroup 15594 3 syms_806]);
   (564487, 3, [AGroup 2787 1 [sym_kEnd]; AGroup 15173 2 syms_21; AGroup 3 3 syms_1]);
   (564500, 4, [AGroup 24916 1 [sym_kEq]; AGroup 27933 1 [anon_sym_SEMI]; SGroup 14578 1 [sym_defaultValue];
     AGroup 3 3 syms_1]);
   (564515, 3, [AGroup 1607 1 [sym_kEnd]; AGroup 15103 2 syms_21; AGroup 3 3 syms_1]);
   (564528, 4, [AGroup 25313 1 [sym_kCase]; AGroup 27935 1 [anon_sym_RPAREN];
     SGroup 13278 1 [sym_declVariant]; AGroup 3 3 syms_1]);
   (564543, 3, [AGroup 2791 1 [sym_kEnd]; AGroup 27937 2 syms_21; AGroup 3 3 syms_1]);
   (564556, 2, [AGroup 3 3 syms_1; AGroup 10760 3 syms_805]);
   (564567, 4, [AGroup 24916 1 [sym_kEq]; AGroup 27939 1 [anon_sym_SEMI]; SGroup 14583 1 [sym_defaultValue];
     AGroup 3 3 syms_1]);
   (564582, 3, [AGroup 2312 1 [sym_kEnd]; AGroup 27941 2 syms_21; AGroup 3 3 syms_1]);
   (564595, 4, [AGroup 24916 1 [sym_kEq]; AGroup 27943 1 [anon_sym_COLON];
     SGroup 15216 1 [sym_defaultValue]; AGroup 3 3 syms_1]);
   (564610, 5, [AGroup 5 1 [sym_ppDirective]; AGroup 27660 1 [aux_sym_ppUsesBlock_token2];
     AGroup 27945 1 [aux_sym_ppUsesBlock_token3];
     SGroup 12600 1 [aux_sym_ppUsesBlockWithSemi_repeat1]; AGroup 3 2 syms_5]);
   (564627, 4, [AGroup 24916 1 [sym_kEq]; AGroup 27947 1 [anon_sym_COLON];
     SGroup 15271 1 [sym_defaultValue]; AGroup 3 3 syms_1]);
   (564642, 2, [AGroup 3 3 syms_1; AGroup 25267 3 syms_117]);
   (564653, 4, [AGroup 27949 1 [anon_sym_COLON]; AGroup 27951 1 [sym_kEq];
     SGroup 14109 1 [sym_defaultValue]; AGroup 3 3 syms_1]);
   (564668, 2, [AGroup 3 3 syms_1; AGroup 25661 3 syms_675]);
   (564679, 2, [AGroup 3 3 syms_1; AGroup 27953 3 syms_667]);
   (564690, 4, [AGroup 24916 1 [sym_kEq]; AGroup 27955 1 [anon_sym_SEMI]; SGroup 14643 1 [sym_defaultValue];
     AGroup 3 3 syms_1]);
   (564705, 4, [AGroup 24916 1 [sym_kEq]; AGroup 27957 1 [anon_sym_SEMI]; SGroup 14645 1 [sym_defaultValue];
     AGroup 3 3 syms_1]);
   (564720, 2, [AGroup 3 3 syms_1; AGroup 25673 3 syms_678]);
   (564731, 2, [AGroup 3 3 syms_1; AGroup 25675 3 syms_678]);
   (564742, 4, [AGroup 24916 1 [sym_kEq]; AGroup 27959 1 [anon_sym_SEMI]; SGroup 14194 1 [sym_defaultValue];
     AGroup 3 3 syms_1]);
   (564757, 4, [AGroup 27729 1 [sym_identifier]; SGroup 12610 1 [aux_sym_declEnum_repeat1];
     SGroup 13694 1 [sym_declEnumValue]; AGroup 3 3 syms_1]);
   (564772, 4, [AGroup 24916 1 [sym_kEq]; AGroup 27961 1 [anon_sym_SEMI]; SGroup 14652 1 [sym_defaultValue];
     AGroup 3 3 syms_1]);
   (564787, 2, [AGroup 3 3 syms_1; AGroup 25269 3 syms_117]);
   (564798, 3, [AGroup 1294 1 [sym_kEnd]; AGroup 27963 2 syms_21; AGroup 3 3 syms_1]);
   (564811, 2, [AGroup 3 3 syms_1; AGroup 10774 3 syms_805]);
   (564822, 4, [AGroup 24916 1 [sym_kEq]; AGroup 27965 1 [anon_sym_SEMI]; SGroup 14656 1 [sym_defaultValue];
     AGroup 3 3 syms_1]);
   (564837, 4, [AGroup 24916 1 [sym_kEq]; AGroup 27967 1 [anon_sym_SEMI]; SGroup 14658 1 [sym_defaultValue];
     AGroup 3 3 syms_1]);
   (564852, 3, [AGroup 2805 1 [sym_kEnd]; AGroup 15203 2 syms_21; AGroup 3 3 syms_1]);
   (564865, 3, [AGroup 27969 1 [anon_sym_SEMI]; AGroup 25859 2 syms_112; AGroup 3 3 syms_1]);
   (564878, 3, [AGroup 2809 1 [sym_kEnd]; AGroup 27971 2 syms_21; AGroup 3 3 syms_1]);
   (564891, 2, [AGroup 3 3 syms_1; AGroup 26117 3 syms_43]);
   (564902, 3, [AGroup 27973 1 [anon_sym_SEMI]; AGroup 25785 2 syms_109; AGroup 3 3 syms_1]);
   (564915, 3, [AGroup 27348 1 [anon_sym_SEMI]; AGroup 25721 2 syms_110; AGroup 3 3 syms_1]);
   (564928, 2, [AGroup 3 3 syms_1; AGroup 26087 3 syms_43]);
   (564939, 2, [AGroup 3 3 syms_1; AGroup 26087 3 syms_43]);
   (564950, 3, [AGroup 27975 1 [anon_sym_SEMI]; AGroup 25865 2 syms_109; AGroup 3 3 syms_1]);
   (564963, 2, [AGroup 3 3 syms_1; AGroup 23889 3 syms_808]);
   (564974, 4, [AGroup 24916 1 [sym_kEq]; AGroup 27977 1 [anon_sym_SEMI]; SGroup 14672 1 [sym_defaultValue];
     AGroup 3 3 syms_1]);
   (564989, 4, [AGroup 24916 1 [sym_kEq]; AGroup 27979 1 [anon_sym_SEMI]; SGroup 14676 1 [sym_defaultValue];
     AGroup 3 3 syms_1]);
   (565004, 3, [AGroup 2823 1 [sym_kEnd]; AGroup 15217 2 syms_21; AGroup 3 3 syms_1]);
   (565017, 3, [AGroup 2386 1 [sym_kEnd]; AGroup 15193 2 syms_21; AGroup 3 3 syms_1]);
   (565030, 3, [AGroup 2827 1 [sym_kEnd]; AGroup 27981 2 syms_21; AGroup 3 3 syms_1]);
   (565043, 3, [AGroup 27983 1 [anon_sym_SEMI]; AGroup 25785 2 syms_112; AGroup 3 3 syms_1]);
   (565056, 3, [AGroup 27354 1 [anon_sym_SEMI]; AGroup 25739 2 syms_110; AGroup 3 3 syms_1]);
   (565069, 4, [AGroup 24916 1 [sym_kEq]; AGroup 27985 1 [anon_sym_SEMI]; SGroup 15303 1 [sym_defaultValue];
     AGroup 3 3 syms_1]);
   (565084, 2, [AGroup 3 3 syms_1; AGroup 10778 3 syms_805]);
   (565095, 3, [AGroup 27362 1 [anon_sym_SEMI]; AGroup 25753 2 syms_110; AGroup 3 3 syms_1]);
   (565108, 3, [AGroup 27987 1 [anon_sym_SEMI]; AGroup 25869 2 syms_109; AGroup 3 3 syms_1]);
   (565121, 3, [AGroup 2390 1 [sym_kEnd]; AGroup 27989 2 syms_21; AGroup 3 3 syms_1]);
   (565134, 2, [AGroup 3 3 syms_1; AGroup 10784 3 syms_805]);
   (565145, 3, [AGroup 1424 1 [sym_kEnd]; AGroup 27991 2 syms_21; AGroup 3 3 syms_1]);
   (565158, 3, [AGroup 27993 1 [anon_sym_SEMI]; AGroup 25875 2 syms_109; AGroup 3 3 syms_1]);
   (565171, 2, [AGroup 3 3 syms_1; AGroup 10792 3 syms_805]);
   (565182, 3, [AGroup 1826 1 [sym_kEnd]; AGroup 15219 2 syms_21; AGroup 3 3 syms_1]);
   (565195, 3, [AGroup 27995 1 [anon_sym_SEMI]; AGroup 25791 2 syms_112; AGroup 3 3 syms_1]);
   (565208, 4, [AGroup 24916 1 [sym_kEq]; AGroup 27997 1 [anon_sym_SEMI]; SGroup 14311 1 [sym_defaultValue];
     AGroup 3 3 syms_1]);
   (565223, 4, [AGroup 24916 1 [sym_kEq]; AGroup 27999 1 [anon_sym_SEMI]; SGroup 15759 1 [sym_defaultValue];
     AGroup 3 3 syms_1]);
   (565238, 5, [AGroup 5 1 [sym_ppDirective]; AGroup 27660 1 [aux_sym_ppUsesBlock_token2];
     AGroup 28001 1 [aux_sym_ppUsesBlock_token3];
     SGroup 12600 1 [aux_sym_ppUsesBlockWithSemi_repeat1]; AGroup 3 2 syms_5]);
   (565255, 5, [AGroup 5 1 [sym_ppDirective]; AGroup 27660 1 [aux_sym_ppUsesBlock_token2];
     AGroup 28001 1 [aux_sym_ppUsesBlock_token3];
     SGroup 12839 1 [aux_sym_ppUsesBlockWithSemi_repeat1]; AGroup 3 2 syms_5]);
   (565272, 4, [AGroup 24916 1 [sym_kEq]; AGroup 28003 1 [anon_sym_SEMI]; SGroup 15757 1 [sym_defaultValue];
     AGroup 3 3 syms_1]);
   (565287, 3, [AGroup 28005 1 [anon_sym_SEMI]; AGroup 25785 2 syms_112; AGroup 3 3 syms_1]);
   (565300, 2, [AGroup 3 3 syms_1; AGroup 25239 3 syms_117]);
   (565311, 2, [AGroup 3 3 syms_1; AGroup 10802 3 syms_805]);
   (565322, 3, [AGroup 1611 1 [sym_kEnd]; AGroup 28007 2 syms_21; AGroup 3 3 syms_1]);
   (565335, 3, [AGroup 27469 1 [anon_sym_SEMI]; AGroup 25799 2 syms_110; AGroup 3 3 syms_1]);
   (565348, 3, [AGroup 28009 1 [anon_sym_SEMI]; AGroup 25753 2 syms_109; AGroup 3 3 syms_1]);
   (565361, 2, [AGroup 3 3 syms_1; AGroup 10806 3 syms_805]);
   (565372, 2, [AGroup 3 3 syms_1; AGroup 26046 3 syms_79])
  ].

(** States 12759 to 12858. *)
Definition small_runs_12759 : list small_run :=
  [
   (565383, 4, [AGroup 28011 1 [anon_sym_COLON]; AGroup 28013 1 [sym_kEq];
     SGroup 11546 1 [sym_defaultValue]; AGroup 3 3 syms_1]);
   (565398, 3, [AGroup 1830 1 [sym_kEnd]; AGroup 28015 2 syms_21; AGroup 3 3 syms_1]);
   (565411, 2, [AGroup 3 3 syms_1; AGroup 25661 3 syms_678]);
   (565422, 3, [AGroup 2437 1 [sym_kEnd]; AGroup 28017 2 syms_21; AGroup 3 3 syms_1]);
   (565435, 4, [AGroup 24916 1 [sym_kEq]; AGroup 28019 1 [anon_sym_SEMI]; SGroup 14433 1 [sym_defaultValue];
     AGroup 3 3 syms_1]);
   (565450, 2, [AGroup 3 3 syms_1; AGroup 10810 3 syms_805]);
   (565461, 3, [AGroup 28021 1 [anon_sym_SEMI]; AGroup 25865 2 syms_112; AGroup 3 3 syms_1]);
   (565474, 4, [AGroup 24916 1 [sym_kEq]; AGroup 28023 1 [anon_sym_SEMI]; SGroup 14436 1 [sym_defaultValue];
     AGroup 3 3 syms_1]);
   (565489, 2, [AGroup 3 3 syms_1; AGroup 28025 3 syms_667]);
   (565500, 5, [AGroup 5 1 [sym_ppDirective]; AGroup 27660 1 [aux_sym_ppUsesBlock_token2];
     AGroup 28027 1 [aux_sym_ppUsesBlock_token3];
     SGroup 12783 1 [aux_sym_ppUsesBlockWithSemi_repeat1]; AGroup 3 2 syms_5]);
   (565517, 3, [AGroup 28029 1 [anon_sym_SEMI]; AGroup 17240 2 syms_109; AGroup 3 3 syms_1]);
   (565530, 4, [AGroup 24916 1 [sym_kEq]; AGroup 28031 1 [anon_sym_SEMI]; SGroup 16005 1 [sym_defaultValue];
     AGroup 3 3 syms_1]);
   (565545, 4, [AGroup 24916 1 [sym_kEq]; AGroup 28033 1 [anon_sym_SEMI]; SGroup 15797 1 [sym_defaultValue];
     AGroup 3 3 syms_1]);
   (565560, 2, [AGroup 3 3 syms_1; AGroup 10870 3 syms_805]);
   (565571, 3, [AGroup 28035 1 [anon_sym_SEMI]; AGroup 15293 2 syms_109; AGroup 3 3 syms_1]);
   (565584, 4, [AGroup 27733 1 [anon_sym_SEMI]; AGroup 27735 1 [anon_sym_COMMA];
     AGroup 28037 1 [anon_sym_RPAREN]; AGroup 3 3 syms_1]);
   (565599, 3, [AGroup 28039 1 [anon_sym_SEMI]; AGroup 25785 2 syms_112; AGroup 3 3 syms_1]);
   (565612, 4, [AGroup 15477 1 [sym_identifier]; AGroup 26229 1 [anon_sym_LBRACK];
     SGroup 12811 1 [aux_sym_rttiAttributes_repeat2]; AGroup 3 3 syms_1]);
   (565627, 4, [AGroup 20772 1 [anon_sym_DOT]; AGroup 25293 1 [anon_sym_SEMI]; SGroup 14737 1 [sym_kDot];
     AGroup 3 3 syms_1]);
   (565642, 4, [AGroup 27733 1 [anon_sym_SEMI]; AGroup 27735 1 [anon_sym_COMMA];
     AGroup 28041 1 [anon_sym_RPAREN]; AGroup 3 3 syms_1]);
   (565657, 3, [AGroup 28043 1 [anon_sym_SEMI]; AGroup 25591 2 syms_112; AGroup 3 3 syms_1]);
   (565670, 3, [AGroup 28045 1 [anon_sym_SEMI]; AGroup 25609 2 syms_112; AGroup 3 3 syms_1]);
   (565683, 4, [AGroup 24916 1 [sym_kEq]; AGroup 28047 1 [anon_sym_SEMI]; SGroup 15010 1 [sym_defaultValue];
     AGroup 3 3 syms_1]);
   (565698, 2, [AGroup 3 3 syms_1; AGroup 11318 3 syms_806]);
   (565709, 5, [AGroup 5 1 [sym_ppDirective]; AGroup 27660 1 [aux_sym_ppUsesBlock_token2];
     AGroup 28049 1 [aux_sym_ppUsesBlock_token3];
     SGroup 12600 1 [aux_sym_ppUsesBlockWithSemi_repeat1]; AGroup 3 2 syms_5]);
   (565726, 5, [AGroup 5 1 [sym_ppDirective]; AGroup 27660 1 [aux_sym_ppUsesBlock_token2];
     AGroup 28049 1 [aux_sym_ppUsesBlock_token3];
     SGroup 12794 1 [aux_sym_ppUsesBlockWithSemi_repeat1]; AGroup 3 2 syms_5]);
   (565743, 2, [AGroup 3 3 syms_1; AGroup 10874 3 syms_805]);
   (565754, 4, [AGroup 24916 1 [sym_kEq]; AGroup 28051 1 [anon_sym_SEMI]; SGroup 15064 1 [sym_defaultValue];
     AGroup 3 3 syms_1]);
   (565769, 4, [AGroup 27733 1 [anon_sym_SEMI]; AGroup 27735 1 [anon_sym_COMMA];
     AGroup 28053 1 [anon_sym_RPAREN]; AGroup 3 3 syms_1]);
   (565784, 3, [AGroup 1306 1 [sym_kEnd]; AGroup 15141 2 syms_21; AGroup 3 3 syms_1]);
   (565797, 3, [AGroup 28055 1 [anon_sym_SEMI]; AGroup 25869 2 syms_112; AGroup 3 3 syms_1]);
   (565810, 4, [AGroup 24916 1 [sym_kEq]; AGroup 28057 1 [anon_sym_SEMI]; SGroup 15083 1 [sym_defaultValue];
     AGroup 3 3 syms_1]);
   (565825, 3, [AGroup 2449 1 [sym_kEnd]; AGroup 15261 2 syms_21; AGroup 3 3 syms_1]);
   (565838, 4, [AGroup 27733 1 [anon_sym_SEMI]; AGroup 27735 1 [anon_sym_COMMA];
     AGroup 28059 1 [anon_sym_RPAREN]; AGroup 3 3 syms_1]);
   (565853, 4, [AGroup 24916 1 [sym_kEq]; AGroup 28061 1 [anon_sym_SEMI]; SGroup 15202 1 [sym_defaultValue];
     AGroup 3 3 syms_1]);
   (565868, 5, [AGroup 5 1 [sym_ppDirective]; AGroup 27660 1 [aux_sym_ppUsesBlock_token2];
     AGroup 28063 1 [aux_sym_ppUsesBlock_token3];
     SGroup 12600 1 [aux_sym_ppUsesBlockWithSemi_repeat1]; AGroup 3 2 syms_5]);
   (565885, 4, [AGroup 24916 1 [sym_kEq]; AGroup 28065 1 [anon_sym_SEMI]; SGroup 14486 1 [sym_defaultValue];
     AGroup 3 3 syms_1]);
   (565900, 3, [AGroup 1214 1 [sym_kEnd]; AGroup 15175 2 syms_21; AGroup 3 3 syms_1]);
   (565913, 3, [AGroup 1244 1 [sym_kEnd]; AGroup 15277 2 syms_21; AGroup 3 3 syms_1]);
   (565926, 2, [AGroup 3 3 syms_1; AGroup 25095 3 syms_117]);
   (565937, 5, [AGroup 5 1 [sym_ppDirective]; AGroup 27660 1 [aux_sym_ppUsesBlock_token2];
     AGroup 28067 1 [aux_sym_ppUsesBlock_token3];
     SGroup 12600 1 [aux_sym_ppUsesBlockWithSemi_repeat1]; AGroup 3 2 syms_5]);
   (565954, 3, [AGroup 28069 1 [anon_sym_SEMI]; AGroup 25875 2 syms_112; AGroup 3 3 syms_1]);
   (565967, 4, [AGroup 24916 1 [sym_kEq]; AGroup 28071 1 [anon_sym_SEMI]; SGroup 15114 1 [sym_defaultValue];
     AGroup 3 3 syms_1]);
   (565982, 4, [AGroup 24916 1 [sym_kEq]; AGroup 28073 1 [anon_sym_SEMI]; SGroup 15117 1 [sym_defaultValue];
     AGroup 3 3 syms_1]);
   (565997, 2, [AGroup 3 3 syms_1; AGroup 24967 3 syms_117]);
   (566008, 3, [AGroup 2453 1 [sym_kEnd]; AGroup 28075 2 syms_21; AGroup 3 3 syms_1]);
   (566021, 3, [AGroup 1310 1 [sym_kEnd]; AGroup 28077 2 syms_21; AGroup 3 3 syms_1]);
   (566034, 2, [AGroup 3 3 syms_1; AGroup 28079 3 syms_667]);
   (566045, 2, [AGroup 3 3 syms_1; AGroup 25119 3 syms_117]);
   (566056, 2, [AGroup 3 3 syms_1; AGroup 24989 3 syms_117]);
   (566067, 4, [AGroup 24916 1 [sym_kEq]; AGroup 28081 1 [anon_sym_SEMI]; SGroup 15138 1 [sym_defaultValue];
     AGroup 3 3 syms_1]);
   (566082, 2, [AGroup 3 3 syms_1; AGroup 25121 3 syms_117]);
   (566093, 4, [AGroup 11318 1 [sym_identifier]; AGroup 28083 1 [anon_sym_LBRACK];
     SGroup 12811 1 [aux_sym_rttiAttributes_repeat2]; AGroup 3 3 syms_1]);
   (566108, 2, [AGroup 3 3 syms_1; AGroup 25645 3 syms_679]);
   (566119, 3, [AGroup 28086 1 [anon_sym_SEMI]; AGroup 17254 2 syms_109; AGroup 3 3 syms_1]);
   (566132, 3, [AGroup 28088 1 [anon_sym_SEMI]; AGroup 15353 2 syms_109; AGroup 3 3 syms_1]);
   (566145, 2, [AGroup 3 3 syms_1; AGroup 25647 3 syms_679]);
   (566156, 3, [AGroup 22343 1 [sym_kElse]; AGroup 26097 2 syms_809; AGroup 3 3 syms_1]);
   (566169, 4, [AGroup 24916 1 [sym_kEq]; AGroup 28090 1 [anon_sym_SEMI]; SGroup 14528 1 [sym_defaultValue];
     AGroup 3 3 syms_1]);
   (566184, 4, [AGroup 5 1 [sym_ppDirective]; AGroup 28092 1 [sym_kOf]; AGroup 3 2 syms_5;
     AGroup 24480 2 syms_44]);
   (566199, 3, [AGroup 27539 1 [anon_sym_SEMI]; AGroup 25849 2 syms_110; AGroup 3 3 syms_1]);
   (566212, 4, [AGroup 24916 1 [sym_kEq]; AGroup 28094 1 [anon_sym_SEMI]; SGroup 15871 1 [sym_defaultValue];
     AGroup 3 3 syms_1]);
   (566227, 3, [AGroup 28096 1 [anon_sym_SEMI]; AGroup 25687 2 syms_112; AGroup 3 3 syms_1]);
   (566240, 2, [AGroup 3 3 syms_1; AGroup 26013 3 syms_43]);
   (566251, 3, [AGroup 28098 1 [anon_sym_SEMI]; AGroup 25791 2 syms_112; AGroup 3 3 syms_1]);
   (566264, 3, [AGroup 17920 1 [sym_kName]; AGroup 17204 2 syms_132; AGroup 3 3 syms_1]);
   (566277, 4, [AGroup 28100 1 [anon_sym_COLON]; AGroup 28102 1 [sym_kEq];
     SGroup 13248 1 [sym_defaultValue]; AGroup 3 3 syms_1]);
   (566292, 3, [AGroup 27551 1 [anon_sym_SEMI]; AGroup 25855 2 syms_110; AGroup 3 3 syms_1]);
   (566305, 2, [AGroup 3 3 syms_1; AGroup 26030 3 syms_43]);
   (566316, 4, [AGroup 24916 1 [sym_kEq]; AGroup 28104 1 [anon_sym_SEMI]; SGroup 14537 1 [sym_defaultValue];
     AGroup 3 3 syms_1]);
   (566331, 3, [AGroup 1873 1 [sym_kEnd]; AGroup 15067 2 syms_21; AGroup 3 3 syms_1]);
   (566344, 2, [AGroup 3 3 syms_1; AGroup 18780 3 syms_810]);
   (566355, 3, [AGroup 28106 1 [anon_sym_SEMI]; AGroup 17240 2 syms_112; AGroup 3 3 syms_1]);
   (566368, 2, [AGroup 3 3 syms_1; AGroup 26032 3 syms_43]);
   (566379, 3, [AGroup 28108 1 [anon_sym_SEMI]; AGroup 15293 2 syms_112; AGroup 3 3 syms_1]);
   (566392, 2, [AGroup 3 3 syms_1; AGroup 28110 3 syms_43]);
   (566403, 2, [AGroup 3 3 syms_1; AGroup 26117 3 syms_79]);
   (566414, 3, [AGroup 1236 1 [sym_kEnd]; AGroup 28112 2 syms_21; AGroup 3 3 syms_1]);
   (566427, 2, [AGroup 3 3 syms_1; AGroup 25073 3 syms_117]);
   (566438, 4, [AGroup 27733 1 [anon_sym_SEMI]; AGroup 27735 1 [anon_sym_COMMA];
     AGroup 28114 1 [anon_sym_RPAREN]; AGroup 3 3 syms_1]);
   (566453, 5, [AGroup 5 1 [sym_ppDirective]; AGroup 27660 1 [aux_sym_ppUsesBlock_token2];
     AGroup 28116 1 [aux_sym_ppUsesBlock_token3];
     SGroup 12600 1 [aux_sym_ppUsesBlockWithSemi_repeat1]; AGroup 3 2 syms_5]);
   (566470, 4, [AGroup 24916 1 [sym_kEq]; AGroup 28118 1 [anon_sym_SEMI]; SGroup 15327 1 [sym_defaultValue];
     AGroup 3 3 syms_1]);
   (566485, 4, [AGroup 24916 1 [sym_kEq]; AGroup 28120 1 [anon_sym_SEMI]; SGroup 14181 1 [sym_defaultValue];
     AGroup 3 3 syms_1]);
   (566500, 3, [AGroup 1877 1 [sym_kEnd]; AGroup 28122 2 syms_21; AGroup 3 3 syms_1]);
   (566513, 2, [AGroup 3 3 syms_1; AGroup 23901 3 syms_808]);
   (566524, 2, [AGroup 3 3 syms_1; AGroup 25131 3 syms_117]);
   (566535, 2, [AGroup 3 3 syms_1; AGroup 25135 3 syms_117]);
   (566546, 3, [AGroup 28124 1 [anon_sym_SEMI]; AGroup 25717 2 syms_112; AGroup 3 3 syms_1]);
   (566559, 4, [AGroup 24916 1 [sym_kEq]; AGroup 28126 1 [anon_sym_SEMI]; SGroup 15362 1 [sym_defaultValue];
     AGroup 3 3 syms_1]);
   (566574, 4, [AGroup 24916 1 [sym_kEq]; AGroup 28128 1 [anon_sym_SEMI]; SGroup 14207 1 [sym_defaultValue];
     AGroup 3 3 syms_1]);
   (566589, 3, [AGroup 28130 1 [anon_sym_SEMI]; AGroup 25721 2 syms_112; AGroup 3 3 syms_1]);
   (566602, 4, [AGroup 27733 1 [anon_sym_SEMI]; AGroup 27735 1 [anon_sym_COMMA];
     AGroup 28132 1 [anon_sym_RPAREN]; AGroup 3 3 syms_1]);
   (566617, 4, [AGroup 24916 1 [sym_kEq]; AGroup 28134 1 [anon_sym_SEMI]; SGroup 15682 1 [sym_defaultValue];
     AGroup 3 3 syms_1]);
   (566632, 3, [AGroup 1324 1 [sym_kEnd]; AGroup 15157 2 syms_21; AGroup 3 3 syms_1]);
   (566645, 2, [AGroup 3 3 syms_1; AGroup 25157 3 syms_117]);
   (566656, 5, [AGroup 5 1 [sym_ppDirective]; AGroup 27660 1 [aux_sym_ppUsesBlock_token2];
     AGroup 28136 1 [aux_sym_ppUsesBlock_token3];
     SGroup 12491 1 [aux_sym_ppUsesBlockWithSemi_repeat1]; AGroup 3 2 syms_5]);
   (566673, 3, [AGroup 28138 1 [anon_sym_SEMI]; AGroup 25739 2 syms_112; AGroup 3 3 syms_1]);
   (566686, 3, [AGroup 28140 1 [anon_sym_SEMI]; AGroup 25753 2 syms_112; AGroup 3 3 syms_1]);
   (566699, 4, [AGroup 24916 1 [sym_kEq]; AGroup 28142 1 [anon_sym_SEMI]; SGroup 14220 1 [sym_defaultValue];
     AGroup 3 3 syms_1]);
   (566714, 4, [AGroup 24916 1 [sym_kEq]; AGroup 28144 1 [anon_sym_SEMI]; SGroup 15381 1 [sym_defaultValue];
     AGroup 3 3 syms_1])
  ].

(** States 12859 to 12958. *)
Definition small_runs_12859 : list small_run :=
  [
   (566729, 2, [AGroup 3 3 syms_1; AGroup 25241 3 syms_117]);
   (566740, 3, [AGroup 28146 1 [anon_sym_SEMI]; AGroup 25791 2 syms_112; AGroup 3 3 syms_1]);
   (566753, 4, [AGroup 24916 1 [sym_kEq]; AGroup 28148 1 [anon_sym_SEMI]; SGroup 15410 1 [sym_defaultValue];
     AGroup 3 3 syms_1]);
   (566768, 4, [AGroup 24916 1 [sym_kEq]; AGroup 28150 1 [anon_sym_SEMI]; SGroup 15420 1 [sym_defaultValue];
     AGroup 3 3 syms_1]);
   (566783, 3, [AGroup 1328 1 [sym_kEnd]; AGroup 28152 2 syms_21; AGroup 3 3 syms_1]);
   (566796, 3, [AGroup 27005 1 [anon_sym_SEMI]; AGroup 17254 2 syms_110; AGroup 3 3 syms_1]);
   (566809, 4, [AGroup 24916 1 [sym_kEq]; AGroup 28154 1 [anon_sym_SEMI]; SGroup 14233 1 [sym_defaultValue];
     AGroup 3 3 syms_1]);
   (566824, 4, [AGroup 24916 1 [sym_kEq]; AGroup 26823 1 [anon_sym_SEMI]; SGroup 13800 1 [sym_defaultValue];
     AGroup 3 3 syms_1]);
   (566839, 2, [AGroup 3 3 syms_1; AGroup 25142 3 syms_117]);
   (566850, 3, [AGroup 27110 1 [anon_sym_SEMI]; AGroup 15353 2 syms_110; AGroup 3 3 syms_1]);
   (566863, 2, [AGroup 3 3 syms_1; AGroup 25247 3 syms_117]);
   (566874, 2, [AGroup 3 3 syms_1; AGroup 25645 3 syms_675]);
   (566885, 4, [AGroup 24916 1 [sym_kEq]; AGroup 28156 1 [anon_sym_SEMI]; SGroup 15460 1 [sym_defaultValue];
     AGroup 3 3 syms_1]);
   (566900, 3, [AGroup 27632 1 [anon_sym_COMMA]; AGroup 21587 2 syms_563; AGroup 3 3 syms_1]);
   (566913, 4, [AGroup 24916 1 [sym_kEq]; AGroup 28158 1 [anon_sym_SEMI]; SGroup 14665 1 [sym_defaultValue];
     AGroup 3 3 syms_1]);
   (566928, 3, [AGroup 1467 1 [sym_kEnd]; AGroup 15259 2 syms_21; AGroup 3 3 syms_1]);
   (566941, 3, [AGroup 28160 1 [anon_sym_SEMI]; AGroup 17254 2 syms_112; AGroup 3 3 syms_1]);
   (566954, 3, [AGroup 28162 1 [anon_sym_SEMI]; AGroup 25799 2 syms_112; AGroup 3 3 syms_1]);
   (566967, 4, [AGroup 24916 1 [sym_kEq]; AGroup 28164 1 [anon_sym_SEMI]; SGroup 14668 1 [sym_defaultValue];
     AGroup 3 3 syms_1]);
   (566982, 3, [AGroup 17991 1 [sym_kName]; AGroup 17204 2 syms_133; AGroup 3 3 syms_1]);
   (566995, 3, [AGroup 28166 1 [anon_sym_SEMI]; AGroup 15353 2 syms_112; AGroup 3 3 syms_1]);
   (567008, 2, [AGroup 3 3 syms_1; AGroup 25647 3 syms_675]);
   (567019, 3, [AGroup 1256 1 [sym_kEnd]; AGroup 28168 2 syms_21; AGroup 3 3 syms_1]);
   (567032, 2, [AGroup 3 3 syms_1; AGroup 25647 3 syms_678]);
   (567043, 2, [AGroup 3 3 syms_1; AGroup 24906 3 syms_117]);
   (567054, 4, [AGroup 24916 1 [sym_kEq]; AGroup 28170 1 [anon_sym_SEMI]; SGroup 14715 1 [sym_defaultValue];
     AGroup 3 3 syms_1]);
   (567069, 4, [AGroup 24916 1 [sym_kEq]; AGroup 28172 1 [anon_sym_COLON];
     SGroup 15357 1 [sym_defaultValue]; AGroup 3 3 syms_1]);
   (567084, 3, [AGroup 28174 1 [anon_sym_SEMI]; AGroup 25849 2 syms_112; AGroup 3 3 syms_1]);
   (567097, 3, [AGroup 28176 1 [anon_sym_SEMI]; AGroup 25687 2 syms_109; AGroup 3 3 syms_1]);
   (567110, 3, [AGroup 28178 1 [anon_sym_SEMI]; AGroup 25855 2 syms_112; AGroup 3 3 syms_1]);
   (567123, 3, [AGroup 1248 1 [sym_kEnd]; AGroup 28180 2 syms_21; AGroup 3 3 syms_1]);
   (567136, 4, [AGroup 28182 1 [anon_sym_COLON]; AGroup 28184 1 [sym_kEq];
     SGroup 12253 1 [sym_defaultValue]; AGroup 3 3 syms_1]);
   (567151, 4, [AGroup 24916 1 [sym_kEq]; AGroup 28186 1 [anon_sym_SEMI]; SGroup 14725 1 [sym_defaultValue];
     AGroup 3 3 syms_1]);
   (567166, 2, [AGroup 3 3 syms_1; AGroup 28188 3 syms_811]);
   (567177, 4, [AGroup 27729 1 [sym_identifier]; SGroup 12711 1 [aux_sym_declEnum_repeat1];
     SGroup 13166 1 [sym_declEnumValue]; AGroup 3 3 syms_1]);
   (567192, 2, [AGroup 3 3 syms_1; AGroup 24240 3 syms_679]);
   (567203, 4, [AGroup 24916 1 [sym_kEq]; AGroup 28190 1 [anon_sym_SEMI]; SGroup 14729 1 [sym_defaultValue];
     AGroup 3 3 syms_1]);
   (567218, 2, [AGroup 3 3 syms_1; AGroup 25259 3 syms_117]);
   (567229, 2, [AGroup 3 3 syms_1; AGroup 26036 3 syms_79]);
   (567240, 3, [AGroup 28192 1 [anon_sym_SEMI]; AGroup 25859 2 syms_112; AGroup 3 3 syms_1]);
   (567253, 3, [AGroup 1982 1 [sym_kEnd]; AGroup 15105 2 syms_21; AGroup 3 3 syms_1]);
   (567266, 4, [AGroup 24916 1 [sym_kEq]; AGroup 28194 1 [anon_sym_SEMI]; SGroup 14303 1 [sym_defaultValue];
     AGroup 3 3 syms_1]);
   (567281, 2, [AGroup 3 3 syms_1; AGroup 26046 3 syms_43]);
   (567292, 2, [AGroup 3 3 syms_1; AGroup 18780 3 syms_812]);
   (567303, 3, [AGroup 1224 1 [sym_kEnd]; AGroup 28196 2 syms_21; AGroup 3 3 syms_1]);
   (567316, 2, [AGroup 3 3 syms_1; AGroup 26044 3 syms_79]);
   (567327, 3, [AGroup 1986 1 [sym_kEnd]; AGroup 28198 2 syms_21; AGroup 3 3 syms_1]);
   (567340, 2, [AGroup 3 3 syms_1; AGroup 15592 3 syms_806]);
   (567351, 2, [AGroup 3 3 syms_1; AGroup 24918 3 syms_117]);
   (567362, 3, [AGroup 27200 1 [anon_sym_SEMI]; AGroup 25591 2 syms_110; AGroup 3 3 syms_1]);
   (567375, 5, [AGroup 5 1 [sym_ppDirective]; AGroup 24146 1 [aux_sym_ppUsesBlock_token2];
     AGroup 24148 1 [aux_sym_ppUsesBlock_token3]; SGroup 12523 1 [aux_sym_ppUsesBlock_repeat2];
     AGroup 3 2 syms_5]);
   (567392, 3, [AGroup 28200 1 [anon_sym_SEMI]; AGroup 25865 2 syms_112; AGroup 3 3 syms_1]);
   (567405, 3, [AGroup 28202 1 [anon_sym_SEMI]; AGroup 25591 2 syms_112; AGroup 3 3 syms_1]);
   (567418, 3, [AGroup 27212 1 [anon_sym_SEMI]; AGroup 25609 2 syms_110; AGroup 3 3 syms_1]);
   (567431, 3, [AGroup 28204 1 [anon_sym_SEMI]; AGroup 25869 2 syms_112; AGroup 3 3 syms_1]);
   (567444, 3, [AGroup 28206 1 [anon_sym_SEMI]; AGroup 25609 2 syms_112; AGroup 3 3 syms_1]);
   (567457, 3, [AGroup 28208 1 [anon_sym_SEMI]; AGroup 25875 2 syms_112; AGroup 3 3 syms_1]);
   (567470, 4, [AGroup 24916 1 [sym_kEq]; AGroup 28210 1 [anon_sym_SEMI]; SGroup 15755 1 [sym_defaultValue];
     AGroup 3 3 syms_1]);
   (567485, 3, [AGroup 5 1 [sym_ppDirective]; AGroup 3 2 syms_5; AGroup 17204 3 syms_111]);
   (567498, 2, [AGroup 3 3 syms_1; AGroup 23883 3 syms_808]);
   (567509, 4, [AGroup 24916 1 [sym_kEq]; AGroup 28212 1 [anon_sym_SEMI]; SGroup 14330 1 [sym_defaultValue];
     AGroup 3 3 syms_1]);
   (567524, 4, [AGroup 26883 1 [sym_kElse]; AGroup 27441 1 [sym_kEnd]; SGroup 14512 1 [sym_exceptionElse];
     AGroup 3 3 syms_1]);
   (567539, 3, [AGroup 28214 1 [sym_kOn]; SGroup 12921 2 syms_813; AGroup 3 3 syms_1]);
   (567552, 4, [AGroup 24916 1 [sym_kEq]; AGroup 28217 1 [anon_sym_SEMI]; SGroup 14764 1 [sym_defaultValue];
     AGroup 3 3 syms_1]);
   (567567, 4, [AGroup 24916 1 [sym_kEq]; AGroup 28219 1 [anon_sym_SEMI]; SGroup 14339 1 [sym_defaultValue];
     AGroup 3 3 syms_1]);
   (567582, 4, [AGroup 24916 1 [sym_kEq]; AGroup 28221 1 [anon_sym_SEMI]; SGroup 15789 1 [sym_defaultValue];
     AGroup 3 3 syms_1]);
   (567597, 2, [AGroup 3 3 syms_1; AGroup 25657 3 syms_679]);
   (567608, 3, [AGroup 28223 1 [anon_sym_SEMI]; AGroup 17240 2 syms_112; AGroup 3 3 syms_1]);
   (567621, 4, [AGroup 27733 1 [anon_sym_SEMI]; AGroup 27735 1 [anon_sym_COMMA];
     AGroup 28225 1 [anon_sym_RPAREN]; AGroup 3 3 syms_1]);
   (567636, 2, [AGroup 3 3 syms_1; AGroup 25659 3 syms_679]);
   (567647, 3, [AGroup 1371 1 [sym_kEnd]; AGroup 15113 2 syms_21; AGroup 3 3 syms_1]);
   (567660, 3, [AGroup 28227 1 [anon_sym_SEMI]; AGroup 15293 2 syms_112; AGroup 3 3 syms_1]);
   (567673, 3, [AGroup 28229 1 [sym_kElse]; AGroup 10720 2 syms_814; AGroup 3 3 syms_1]);
   (567686, 4, [AGroup 24916 1 [sym_kEq]; AGroup 28231 1 [anon_sym_SEMI]; SGroup 14789 1 [sym_defaultValue];
     AGroup 3 3 syms_1]);
   (567701, 4, [AGroup 24916 1 [sym_kEq]; AGroup 28233 1 [anon_sym_SEMI]; SGroup 14640 1 [sym_defaultValue];
     AGroup 3 3 syms_1]);
   (567716, 3, [AGroup 1685 1 [sym_kEnd]; AGroup 15095 2 syms_21; AGroup 3 3 syms_1]);
   (567729, 2, [AGroup 3 3 syms_1; AGroup 25661 3 syms_679]);
   (567740, 4, [AGroup 24916 1 [sym_kEq]; AGroup 28235 1 [anon_sym_SEMI]; SGroup 15813 1 [sym_defaultValue];
     AGroup 3 3 syms_1]);
   (567755, 2, [AGroup 3 3 syms_1; AGroup 9810 3 syms_117]);
   (567766, 4, [AGroup 24916 1 [sym_kEq]; AGroup 28237 1 [anon_sym_SEMI]; SGroup 15040 1 [sym_defaultValue];
     AGroup 3 3 syms_1]);
   (567781, 2, [AGroup 3 3 syms_1; AGroup 10882 3 syms_805]);
   (567792, 2, [AGroup 3 3 syms_1; AGroup 28239 3 syms_667]);
   (567803, 2, [AGroup 3 3 syms_1; AGroup 24108 3 syms_117]);
   (567814, 4, [AGroup 24916 1 [sym_kEq]; AGroup 28241 1 [anon_sym_SEMI]; SGroup 15824 1 [sym_defaultValue];
     AGroup 3 3 syms_1]);
   (567829, 2, [AGroup 3 3 syms_1; AGroup 24977 3 syms_117]);
   (567840, 4, [AGroup 24916 1 [sym_kEq]; AGroup 28243 1 [anon_sym_SEMI]; SGroup 15826 1 [sym_defaultValue];
     AGroup 3 3 syms_1]);
   (567855, 3, [AGroup 1471 1 [sym_kEnd]; AGroup 28245 2 syms_21; AGroup 3 3 syms_1]);
   (567868, 3, [AGroup 1375 1 [sym_kEnd]; AGroup 28247 2 syms_21; AGroup 3 3 syms_1]);
   (567881, 2, [AGroup 3 3 syms_1; AGroup 10706 3 syms_805]);
   (567892, 2, [AGroup 3 3 syms_1; AGroup 26076 3 syms_79]);
   (567903, 4, [AGroup 24916 1 [sym_kEq]; AGroup 28249 1 [anon_sym_SEMI]; SGroup 15833 1 [sym_defaultValue];
     AGroup 3 3 syms_1]);
   (567918, 3, [AGroup 27021 1 [anon_sym_SEMI]; AGroup 25785 2 syms_110; AGroup 3 3 syms_1]);
   (567931, 3, [AGroup 2091 1 [sym_kEnd]; AGroup 15177 2 syms_21; AGroup 3 3 syms_1]);
   (567944, 2, [AGroup 3 3 syms_1; AGroup 25645 3 syms_678]);
   (567955, 3, [AGroup 28251 1 [anon_sym_SEMI]; AGroup 17254 2 syms_112; AGroup 3 3 syms_1]);
   (567968, 3, [AGroup 28253 1 [anon_sym_SEMI]; AGroup 25687 2 syms_112; AGroup 3 3 syms_1]);
   (567981, 2, [AGroup 3 3 syms_1; AGroup 25047 3 syms_117]);
   (567992, 3, [AGroup 28255 1 [anon_sym_SEMI]; AGroup 15353 2 syms_112; AGroup 3 3 syms_1]);
   (568005, 3, [AGroup 1689 1 [sym_kEnd]; AGroup 28257 2 syms_21; AGroup 3 3 syms_1]);
   (568018, 2, [AGroup 3 3 syms_1; AGroup 28259 3 syms_805])
  ].

(** States 12959 to 13058. *)
Definition small_runs_12959 : list small_run :=
  [
   (568029, 3, [AGroup 2095 1 [sym_kEnd]; AGroup 28261 2 syms_21; AGroup 3 3 syms_1]);
   (568042, 4, [AGroup 24916 1 [sym_kEq]; AGroup 28263 1 [anon_sym_SEMI]; SGroup 14481 1 [sym_defaultValue];
     AGroup 3 3 syms_1]);
   (568057, 5, [AGroup 5 1 [sym_ppDirective]; AGroup 27660 1 [aux_sym_ppUsesBlock_token2];
     AGroup 28265 1 [aux_sym_ppUsesBlock_token3];
     SGroup 12600 1 [aux_sym_ppUsesBlockWithSemi_repeat1]; AGroup 3 2 syms_5]);
   (568074, 2, [AGroup 3 3 syms_1; AGroup 26032 3 syms_79]);
   (568085, 4, [AGroup 28267 1 [anon_sym_COLON]; AGroup 28269 1 [sym_kEq];
     SGroup 12815 1 [sym_defaultValue]; AGroup 3 3 syms_1]);
   (568100, 2, [AGroup 3 3 syms_1; AGroup 26087 3 syms_79]);
   (568111, 5, [AGroup 5 1 [sym_ppDirective]; AGroup 27660 1 [aux_sym_ppUsesBlock_token2];
     AGroup 28265 1 [aux_sym_ppUsesBlock_token3];
     SGroup 12799 1 [aux_sym_ppUsesBlockWithSemi_repeat1]; AGroup 3 2 syms_5]);
   (568128, 2, [AGroup 3 3 syms_1; AGroup 26087 3 syms_79]);
   (568139, 3, [AGroup 18827 1 [sym_kElse]; AGroup 26097 2 syms_110; AGroup 3 3 syms_1]);
   (568152, 3, [AGroup 28271 1 [anon_sym_SEMI]; AGroup 25717 2 syms_112; AGroup 3 3 syms_1]);
   (568165, 2, [AGroup 3 3 syms_1; AGroup 25275 3 syms_117]);
   (568176, 3, [AGroup 28273 1 [anon_sym_SEMI]; AGroup 25717 2 syms_109; AGroup 3 3 syms_1]);
   (568189, 4, [AGroup 24916 1 [sym_kEq]; AGroup 28275 1 [anon_sym_SEMI]; SGroup 14482 1 [sym_defaultValue];
     AGroup 3 3 syms_1]);
   (568204, 3, [AGroup 28277 1 [anon_sym_SEMI]; AGroup 25721 2 syms_112; AGroup 3 3 syms_1]);
   (568217, 3, [AGroup 28279 1 [anon_sym_SEMI]; AGroup 25739 2 syms_112; AGroup 3 3 syms_1]);
   (568230, 3, [AGroup 28281 1 [anon_sym_SEMI]; AGroup 25721 2 syms_109; AGroup 3 3 syms_1]);
   (568243, 3, [AGroup 28283 1 [anon_sym_SEMI]; AGroup 25753 2 syms_112; AGroup 3 3 syms_1]);
   (568256, 2, [AGroup 3 3 syms_1; AGroup 25673 3 syms_679]);
   (568267, 2, [AGroup 3 3 syms_1; AGroup 25675 3 syms_679]);
   (568278, 2, [AGroup 3 3 syms_1; AGroup 25291 3 syms_117]);
   (568289, 3, [AGroup 28285 1 [anon_sym_SEMI]; AGroup 25739 2 syms_109; AGroup 3 3 syms_1]);
   (568302, 2, [AGroup 3 3 syms_1; AGroup 26013 3 syms_79]);
   (568313, 5, [AGroup 5 1 [sym_ppDirective]; AGroup 20770 1 [anon_sym_COMMA];
     AGroup 28287 1 [anon_sym_COLON]; AGroup 28289 1 [aux_sym_ppUsesBlock_token3];
     AGroup 3 2 syms_5]);
   (568330, 4, [AGroup 20772 1 [anon_sym_DOT]; AGroup 25049 1 [anon_sym_SEMI]; SGroup 14737 1 [sym_kDot];
     AGroup 3 3 syms_1]);
   (568345, 4, [AGroup 24916 1 [sym_kEq]; AGroup 27527 1 [anon_sym_SEMI]; SGroup 13033 1 [sym_defaultValue];
     AGroup 3 3 syms_1]);
   (568360, 2, [AGroup 3 3 syms_1; AGroup 26030 3 syms_79]);
   (568371, 2, [AGroup 3 3 syms_1; AGroup 24240 3 syms_675]);
   (568382, 3, [AGroup 2433 1 [sym_kEnd]; AGroup 15249 2 syms_21; AGroup 3 3 syms_1]);
   (568395, 3, [AGroup 28291 1 [anon_sym_COMMA]; AGroup 28293 1 [anon_sym_RBRACK]; AGroup 3 3 syms_1]);
   (568407, 3, [AGroup 28295 1 [sym_kExcept]; AGroup 28297 1 [sym_kFinally]; AGroup 3 3 syms_1]);
   (568419, 3, [AGroup 22365 1 [anon_sym_COMMA]; AGroup 22744 1 [anon_sym_RBRACK]; AGroup 3 3 syms_1]);
   (568431, 2, [AGroup 28299 2 syms_11; AGroup 3 3 syms_1]);
   (568441, 3, [AGroup 25799 1 [sym_kElse]; AGroup 28301 1 [anon_sym_SEMI]; AGroup 3 3 syms_1]);
   (568453, 3, [AGroup 25869 1 [sym_kElse]; AGroup 28303 1 [anon_sym_SEMI]; AGroup 3 3 syms_1]);
   (568465, 3, [AGroup 25875 1 [sym_kElse]; AGroup 28305 1 [anon_sym_SEMI]; AGroup 3 3 syms_1]);
   (568477, 3, [AGroup 18875 1 [sym_kElse]; AGroup 26097 1 [sym_kUntil]; AGroup 3 3 syms_1]);
   (568489, 3, [AGroup 10720 1 [sym_kEnd]; AGroup 28307 1 [sym_kElse]; AGroup 3 3 syms_1]);
   (568501, 2, [AGroup 26076 2 syms_112; AGroup 3 3 syms_1]);
   (568511, 2, [AGroup 10802 2 syms_815; AGroup 3 3 syms_1]);
   (568521, 2, [AGroup 10732 2 syms_815; AGroup 3 3 syms_1]);
   (568531, 3, [AGroup 25791 1 [sym_kElse]; AGroup 28309 1 [anon_sym_SEMI]; AGroup 3 3 syms_1]);
   (568543, 2, [AGroup 10810 2 syms_112; AGroup 3 3 syms_1]);
   (568553, 2, [AGroup 26030 2 syms_109; AGroup 3 3 syms_1]);
   (568563, 3, [AGroup 5 1 [sym_ppDirective]; AGroup 3 2 syms_5; AGroup 28311 2 syms_44]);
   (568575, 3, [AGroup 25591 1 [sym_kElse]; AGroup 28313 1 [anon_sym_SEMI]; AGroup 3 3 syms_1]);
   (568587, 3, [AGroup 28315 1 [anon_sym_SEMI]; AGroup 28317 1 [anon_sym_COMMA]; AGroup 3 3 syms_1]);
   (568599, 2, [AGroup 28319 2 syms_186; AGroup 3 3 syms_1]);
   (568609, 2, [AGroup 10914 2 syms_815; AGroup 3 3 syms_1]);
   (568619, 3, [AGroup 28321 1 [anon_sym_SEMI]; AGroup 28323 1 [anon_sym_RPAREN]; AGroup 3 3 syms_1]);
   (568631, 3, [AGroup 28325 1 [anon_sym_COMMA]; AGroup 28327 1 [anon_sym_RPAREN]; AGroup 3 3 syms_1]);
   (568643, 3, [AGroup 24916 1 [sym_kEq]; SGroup 14475 1 [sym_defaultValue]; AGroup 3 3 syms_1]);
   (568655, 3, [AGroup 25721 1 [sym_kElse]; AGroup 28329 1 [anon_sym_SEMI]; AGroup 3 3 syms_1]);
   (568667, 3, [AGroup 28331 1 [anon_sym_LBRACK]; AGroup 28333 1 [sym_kOf]; AGroup 3 3 syms_1]);
   (568679, 3, [AGroup 5 1 [sym_ppDirective]; AGroup 3 2 syms_5; AGroup 24108 2 syms_44]);
   (568691, 3, [AGroup 25609 1 [sym_kElse]; AGroup 28335 1 [anon_sym_SEMI]; AGroup 3 3 syms_1]);
   (568703, 3, [AGroup 22365 1 [anon_sym_COMMA]; AGroup 22716 1 [anon_sym_RBRACK]; AGroup 3 3 syms_1]);
   (568715, 2, [AGroup 10766 2 syms_815; AGroup 3 3 syms_1]);
   (568725, 2, [AGroup 26032 2 syms_109; AGroup 3 3 syms_1]);
   (568735, 3, [AGroup 25855 1 [sym_kElse]; AGroup 28337 1 [anon_sym_SEMI]; AGroup 3 3 syms_1]);
   (568747, 2, [AGroup 28339 2 syms_789; AGroup 3 3 syms_1]);
   (568757, 3, [AGroup 22365 1 [anon_sym_COMMA]; AGroup 22642 1 [anon_sym_RBRACK]; AGroup 3 3 syms_1]);
   (568769, 3, [AGroup 17240 1 [sym_kElse]; AGroup 28341 1 [anon_sym_SEMI]; AGroup 3 3 syms_1]);
   (568781, 3, [AGroup 28291 1 [anon_sym_COMMA]; AGroup 28343 1 [anon_sym_RBRACK]; AGroup 3 3 syms_1]);
   (568793, 3, [AGroup 28345 1 [anon_sym_SEMI]; AGroup 28347 1 [anon_sym_RBRACK]; AGroup 3 3 syms_1]);
   (568805, 3, [AGroup 25799 1 [sym_kElse]; AGroup 28349 1 [anon_sym_SEMI]; AGroup 3 3 syms_1]);
   (568817, 2, [AGroup 26117 2 syms_110; AGroup 3 3 syms_1]);
   (568827, 2, [AGroup 28351 2 syms_186; AGroup 3 3 syms_1]);
   (568837, 2, [AGroup 10806 2 syms_815; AGroup 3 3 syms_1]);
   (568847, 2, [AGroup 25661 2 syms_684; AGroup 3 3 syms_1]);
   (568857, 3, [AGroup 24916 1 [sym_kEq]; SGroup 14582 1 [sym_defaultValue]; AGroup 3 3 syms_1]);
   (568869, 2, [AGroup 26087 2 syms_112; AGroup 3 3 syms_1]);
   (568879, 3, [AGroup 28353 1 [sym_kExcept]; AGroup 28355 1 [sym_kFinally]; AGroup 3 3 syms_1]);
   (568891, 2, [AGroup 26087 2 syms_112; AGroup 3 3 syms_1]);
   (568901, 3, [AGroup 22365 1 [anon_sym_COMMA]; AGroup 22601 1 [anon_sym_RBRACK]; AGroup 3 3 syms_1]);
   (568913, 2, [AGroup 28357 2 syms_789; AGroup 3 3 syms_1]);
   (568923, 3, [AGroup 25591 1 [sym_kElse]; AGroup 28359 1 [anon_sym_SEMI]; AGroup 3 3 syms_1]);
   (568935, 2, [AGroup 28361 2 syms_186; AGroup 3 3 syms_1]);
   (568945, 3, [AGroup 25609 1 [sym_kElse]; AGroup 28363 1 [anon_sym_SEMI]; AGroup 3 3 syms_1]);
   (568957, 3, [AGroup 22365 1 [anon_sym_COMMA]; AGroup 22630 1 [anon_sym_RBRACK]; AGroup 3 3 syms_1]);
   (568969, 3, [AGroup 22365 1 [anon_sym_COMMA]; AGroup 22648 1 [anon_sym_RBRACK]; AGroup 3 3 syms_1]);
   (568981, 3, [AGroup 28291 1 [anon_sym_COMMA]; AGroup 28365 1 [anon_sym_RBRACK]; AGroup 3 3 syms_1]);
   (568993, 3, [AGroup 28291 1 [anon_sym_COMMA]; AGroup 28367 1 [anon_sym_RBRACK]; AGroup 3 3 syms_1]);
   (569005, 3, [AGroup 22365 1 [anon_sym_COMMA]; AGroup 22668 1 [anon_sym_RBRACK]; AGroup 3 3 syms_1]);
   (569017, 3, [AGroup 28345 1 [anon_sym_SEMI]; AGroup 28369 1 [anon_sym_RBRACK]; AGroup 3 3 syms_1]);
   (569029, 2, [AGroup 10846 2 syms_815; AGroup 3 3 syms_1]);
   (569039, 3, [AGroup 26063 1 [anon_sym_COMMA]; AGroup 28371 1 [anon_sym_COLON]; AGroup 3 3 syms_1]);
   (569051, 3, [AGroup 28317 1 [anon_sym_COMMA]; AGroup 28373 1 [anon_sym_SEMI]; AGroup 3 3 syms_1]);
   (569063, 3, [AGroup 25855 1 [sym_kElse]; AGroup 28375 1 [anon_sym_SEMI]; AGroup 3 3 syms_1]);
   (569075, 3, [AGroup 15293 1 [sym_kElse]; AGroup 28377 1 [anon_sym_SEMI]; AGroup 3 3 syms_1]);
   (569087, 3, [AGroup 28325 1 [anon_sym_COMMA]; AGroup 28379 1 [anon_sym_RPAREN]; AGroup 3 3 syms_1]);
   (569099, 3, [AGroup 28381 1 [anon_sym_SEMI]; AGroup 28383 1 [anon_sym_COMMA]; AGroup 3 3 syms_1]);
   (569111, 2, [AGroup 28385 2 syms_186; AGroup 3 3 syms_1]);
   (569121, 3, [AGroup 25739 1 [sym_kElse]; AGroup 28387 1 [anon_sym_SEMI]; AGroup 3 3 syms_1]);
   (569133, 3, [AGroup 25799 1 [sym_kElse]; AGroup 28389 1 [anon_sym_SEMI]; AGroup 3 3 syms_1]);
   (569145, 3, [AGroup 25591 1 [sym_kElse]; AGroup 28391 1 [anon_sym_SEMI]; AGroup 3 3 syms_1]);
   (569157, 3, [AGroup 28383 1 [anon_sym_COMMA]; AGroup 28393 1 [anon_sym_SEMI]; AGroup 3 3 syms_1]);
   (569169, 3, [AGroup 22365 1 [anon_sym_COMMA]; AGroup 22706 1 [anon_sym_COLON]; AGroup 3 3 syms_1]);
   (569181, 3, [AGroup 25609 1 [sym_kElse]; AGroup 28395 1 [anon_sym_SEMI]; AGroup 3 3 syms_1]);
   (569193, 3, [AGroup 28325 1 [anon_sym_COMMA]; AGroup 28397 1 [anon_sym_RPAREN]; AGroup 3 3 syms_1]);
   (569205, 2, [AGroup 28399 2 syms_11; AGroup 3 3 syms_1])
  ].

(** States 13059 to 13158. *)
Definition small_runs_13059 : list small_run :=
  [
   (569215, 3, [AGroup 28401 1 [sym_identifier]; SGroup 13059 1 [aux_sym_genericArg_repeat1];
     AGroup 3 3 syms_1]);
   (569227, 3, [AGroup 25799 1 [sym_kElse]; AGroup 28404 1 [anon_sym_SEMI]; AGroup 3 3 syms_1]);
   (569239, 2, [AGroup 10810 2 syms_815; AGroup 3 3 syms_1]);
   (569249, 3, [AGroup 28406 1 [anon_sym_SEMI]; AGroup 28408 1 [anon_sym_RPAREN]; AGroup 3 3 syms_1]);
   (569261, 3, [AGroup 25717 1 [sym_kElse]; AGroup 28410 1 [anon_sym_SEMI]; AGroup 3 3 syms_1]);
   (569273, 2, [AGroup 28412 2 syms_186; AGroup 3 3 syms_1]);
   (569283, 3, [AGroup 22365 1 [anon_sym_COMMA]; AGroup 22609 1 [anon_sym_RBRACK]; AGroup 3 3 syms_1]);
   (569295, 3, [AGroup 28414 1 [sym_kExcept]; AGroup 28416 1 [sym_kFinally]; AGroup 3 3 syms_1]);
   (569307, 3, [AGroup 15293 1 [sym_kElse]; AGroup 28418 1 [anon_sym_SEMI]; AGroup 3 3 syms_1]);
   (569319, 3, [AGroup 25687 1 [sym_kElse]; AGroup 28420 1 [anon_sym_SEMI]; AGroup 3 3 syms_1]);
   (569331, 3, [AGroup 5 1 [sym_ppDirective]; AGroup 3 2 syms_5; AGroup 24967 2 syms_44]);
   (569343, 3, [AGroup 22365 1 [anon_sym_COMMA]; AGroup 22565 1 [anon_sym_RBRACK]; AGroup 3 3 syms_1]);
   (569355, 3, [AGroup 28422 1 [anon_sym_LBRACK]; AGroup 28424 1 [sym_kOf]; AGroup 3 3 syms_1]);
   (569367, 3, [AGroup 5 1 [sym_ppDirective]; AGroup 3 2 syms_5; AGroup 25275 2 syms_44]);
   (569379, 3, [AGroup 25869 1 [sym_kElse]; AGroup 28426 1 [anon_sym_SEMI]; AGroup 3 3 syms_1]);
   (569391, 3, [AGroup 25849 1 [sym_kElse]; AGroup 28428 1 [anon_sym_SEMI]; AGroup 3 3 syms_1]);
   (569403, 2, [AGroup 10732 2 syms_815; AGroup 3 3 syms_1]);
   (569413, 3, [AGroup 28430 1 [sym_identifier]; SGroup 13059 1 [aux_sym_genericArg_repeat1];
     AGroup 3 3 syms_1]);
   (569425, 3, [AGroup 5 1 [sym_ppDirective]; AGroup 3 2 syms_5; AGroup 25291 2 syms_44]);
   (569437, 3, [AGroup 5 1 [sym_ppDirective]; AGroup 3 2 syms_5; AGroup 24989 2 syms_44]);
   (569449, 3, [AGroup 25717 1 [sym_kElse]; AGroup 28432 1 [anon_sym_SEMI]; AGroup 3 3 syms_1]);
   (569461, 3, [AGroup 25855 1 [sym_kElse]; AGroup 28434 1 [anon_sym_SEMI]; AGroup 3 3 syms_1]);
   (569473, 3, [AGroup 25721 1 [sym_kElse]; AGroup 28436 1 [anon_sym_SEMI]; AGroup 3 3 syms_1]);
   (569485, 3, [AGroup 25739 1 [sym_kElse]; AGroup 28438 1 [anon_sym_SEMI]; AGroup 3 3 syms_1]);
   (569497, 2, [AGroup 28440 2 syms_186; AGroup 3 3 syms_1]);
   (569507, 3, [AGroup 25859 1 [sym_kElse]; AGroup 28442 1 [anon_sym_SEMI]; AGroup 3 3 syms_1]);
   (569519, 3, [AGroup 24916 1 [sym_kEq]; SGroup 15009 1 [sym_defaultValue]; AGroup 3 3 syms_1]);
   (569531, 3, [AGroup 28321 1 [anon_sym_SEMI]; AGroup 28444 1 [anon_sym_RPAREN]; AGroup 3 3 syms_1]);
   (569543, 3, [AGroup 25753 1 [sym_kElse]; AGroup 28446 1 [anon_sym_SEMI]; AGroup 3 3 syms_1]);
   (569555, 3, [AGroup 28317 1 [anon_sym_COMMA]; AGroup 28448 1 [anon_sym_SEMI]; AGroup 3 3 syms_1]);
   (569567, 3, [AGroup 5 1 [sym_ppDirective]; AGroup 3 2 syms_5; AGroup 10989 2 syms_44]);
   (569579, 3, [AGroup 28450 1 [sym_kArray]; AGroup 28452 1 [sym_kRecord]; AGroup 3 3 syms_1]);
   (569591, 3, [AGroup 28406 1 [anon_sym_SEMI]; AGroup 28454 1 [anon_sym_RPAREN]; AGroup 3 3 syms_1]);
   (569603, 3, [AGroup 5 1 [sym_ppDirective]; AGroup 3 2 syms_5; AGroup 25267 2 syms_44]);
   (569615, 3, [AGroup 5 1 [sym_ppDirective]; AGroup 3 2 syms_5; AGroup 25249 2 syms_44]);
   (569627, 3, [AGroup 25791 1 [sym_kElse]; AGroup 28456 1 [anon_sym_SEMI]; AGroup 3 3 syms_1]);
   (569639, 3, [AGroup 27847 1 [sym_kEq]; SGroup 12704 1 [sym_defaultValue]; AGroup 3 3 syms_1]);
   (569651, 3, [AGroup 24916 1 [sym_kEq]; SGroup 14929 1 [sym_defaultValue]; AGroup 3 3 syms_1]);
   (569663, 3, [AGroup 22365 1 [anon_sym_COMMA]; AGroup 22619 1 [anon_sym_RBRACK]; AGroup 3 3 syms_1]);
   (569675, 3, [AGroup 25799 1 [sym_kElse]; AGroup 28458 1 [anon_sym_SEMI]; AGroup 3 3 syms_1]);
   (569687, 3, [AGroup 28291 1 [anon_sym_COMMA]; AGroup 28460 1 [anon_sym_RBRACK]; AGroup 3 3 syms_1]);
   (569699, 3, [AGroup 25875 1 [sym_kElse]; AGroup 28462 1 [anon_sym_SEMI]; AGroup 3 3 syms_1]);
   (569711, 3, [AGroup 5 1 [sym_ppDirective]; AGroup 3 2 syms_5; AGroup 24924 2 syms_44]);
   (569723, 3, [AGroup 28345 1 [anon_sym_SEMI]; AGroup 28464 1 [anon_sym_RBRACK]; AGroup 3 3 syms_1]);
   (569735, 3, [AGroup 28466 1 [anon_sym_COMMA]; AGroup 28468 1 [anon_sym_RPAREN]; AGroup 3 3 syms_1]);
   (569747, 3, [AGroup 17240 1 [sym_kEnd]; AGroup 28106 1 [anon_sym_SEMI]; AGroup 3 3 syms_1]);
   (569759, 3, [AGroup 17240 1 [sym_kElse]; AGroup 27149 1 [anon_sym_SEMI]; AGroup 3 3 syms_1]);
   (569771, 2, [AGroup 28470 2 syms_186; AGroup 3 3 syms_1]);
   (569781, 3, [AGroup 24916 1 [sym_kEq]; SGroup 15080 1 [sym_defaultValue]; AGroup 3 3 syms_1]);
   (569793, 3, [AGroup 25721 1 [sym_kElse]; AGroup 28472 1 [anon_sym_SEMI]; AGroup 3 3 syms_1]);
   (569805, 3, [AGroup 28474 1 [sym_kExcept]; AGroup 28476 1 [sym_kFinally]; AGroup 3 3 syms_1]);
   (569817, 3, [AGroup 28478 1 [sym_identifier]; SGroup 13059 1 [aux_sym_genericArg_repeat1];
     AGroup 3 3 syms_1]);
   (569829, 2, [AGroup 10634 2 syms_133; AGroup 3 3 syms_1]);
   (569839, 3, [AGroup 28321 1 [anon_sym_SEMI]; AGroup 28480 1 [anon_sym_RPAREN]; AGroup 3 3 syms_1]);
   (569851, 2, [AGroup 10740 2 syms_815; AGroup 3 3 syms_1]);
   (569861, 3, [AGroup 25799 1 [sym_kElse]; AGroup 28482 1 [anon_sym_SEMI]; AGroup 3 3 syms_1]);
   (569873, 3, [AGroup 28291 1 [anon_sym_COMMA]; AGroup 28484 1 [anon_sym_RBRACK]; AGroup 3 3 syms_1]);
   (569885, 3, [AGroup 28291 1 [anon_sym_COMMA]; AGroup 28486 1 [anon_sym_RBRACK]; AGroup 3 3 syms_1]);
   (569897, 3, [AGroup 28345 1 [anon_sym_SEMI]; AGroup 28488 1 [anon_sym_RBRACK]; AGroup 3 3 syms_1]);
   (569909, 3, [AGroup 22429 1 [anon_sym_COMMA]; AGroup 22621 1 [anon_sym_RBRACK]; AGroup 3 3 syms_1]);
   (569921, 3, [AGroup 28490 1 [anon_sym_SEMI]; AGroup 28492 1 [sym_kEnd]; AGroup 3 3 syms_1]);
   (569933, 2, [AGroup 28494 2 syms_186; AGroup 3 3 syms_1]);
   (569943, 3, [AGroup 26063 1 [anon_sym_COMMA]; AGroup 28496 1 [anon_sym_COLON]; AGroup 3 3 syms_1]);
   (569955, 3, [AGroup 28406 1 [anon_sym_SEMI]; AGroup 28498 1 [anon_sym_RPAREN]; AGroup 3 3 syms_1]);
   (569967, 2, [AGroup 28500 2 syms_688; AGroup 3 3 syms_1]);
   (569977, 3, [AGroup 27935 1 [anon_sym_RPAREN]; AGroup 28502 1 [anon_sym_SEMI]; AGroup 3 3 syms_1]);
   (569989, 3, [AGroup 27935 1 [anon_sym_RPAREN]; AGroup 28504 1 [anon_sym_SEMI]; AGroup 3 3 syms_1]);
   (570001, 3, [AGroup 24916 1 [sym_kEq]; SGroup 14990 1 [sym_defaultValue]; AGroup 3 3 syms_1]);
   (570013, 3, [AGroup 25849 1 [sym_kElse]; AGroup 28506 1 [anon_sym_SEMI]; AGroup 3 3 syms_1]);
   (570025, 3, [AGroup 28508 1 [sym_identifier]; SGroup 13059 1 [aux_sym_genericArg_repeat1];
     AGroup 3 3 syms_1]);
   (570037, 3, [AGroup 25855 1 [sym_kElse]; AGroup 28510 1 [anon_sym_SEMI]; AGroup 3 3 syms_1]);
   (570049, 3, [AGroup 25785 1 [sym_kElse]; AGroup 28512 1 [anon_sym_SEMI]; AGroup 3 3 syms_1]);
   (570061, 3, [AGroup 25859 1 [sym_kElse]; AGroup 28514 1 [anon_sym_SEMI]; AGroup 3 3 syms_1]);
   (570073, 3, [AGroup 22365 1 [anon_sym_COMMA]; AGroup 22720 1 [anon_sym_RBRACK]; AGroup 3 3 syms_1]);
   (570085, 3, [AGroup 25753 1 [sym_kElse]; AGroup 28516 1 [anon_sym_SEMI]; AGroup 3 3 syms_1]);
   (570097, 3, [AGroup 25849 1 [sym_kElse]; AGroup 28518 1 [anon_sym_SEMI]; AGroup 3 3 syms_1]);
   (570109, 3, [AGroup 25859 1 [sym_kElse]; AGroup 28520 1 [anon_sym_SEMI]; AGroup 3 3 syms_1]);
   (570121, 3, [AGroup 25739 1 [sym_kElse]; AGroup 28522 1 [anon_sym_SEMI]; AGroup 3 3 syms_1]);
   (570133, 2, [AGroup 28524 2 syms_186; AGroup 3 3 syms_1]);
   (570143, 3, [AGroup 27951 1 [sym_kEq]; SGroup 13027 1 [sym_defaultValue]; AGroup 3 3 syms_1]);
   (570155, 3, [AGroup 28526 1 [anon_sym_LBRACK]; AGroup 28528 1 [sym_kOf]; AGroup 3 3 syms_1]);
   (570167, 3, [AGroup 5 1 [sym_ppDirective]; AGroup 3 2 syms_5; AGroup 25063 2 syms_44]);
   (570179, 2, [AGroup 28530 2 syms_186; AGroup 3 3 syms_1]);
   (570189, 2, [AGroup 28532 2 syms_186; AGroup 3 3 syms_1]);
   (570199, 3, [AGroup 5 1 [sym_ppDirective]; AGroup 3 2 syms_5; AGroup 25079 2 syms_44]);
   (570211, 3, [AGroup 27719 1 [sym_kEq]; SGroup 11396 1 [sym_defaultValue]; AGroup 3 3 syms_1]);
   (570223, 3, [AGroup 28534 1 [sym_kExcept]; AGroup 28536 1 [sym_kFinally]; AGroup 3 3 syms_1]);
   (570235, 2, [AGroup 28538 2 syms_669; AGroup 3 3 syms_1]);
   (570245, 3, [AGroup 28540 1 [anon_sym_SEMI]; AGroup 28542 1 [sym_kGt]; AGroup 3 3 syms_1]);
   (570257, 2, [AGroup 28544 2 syms_186; AGroup 3 3 syms_1]);
   (570267, 3, [AGroup 22365 1 [anon_sym_COMMA]; AGroup 22498 1 [anon_sym_RBRACK]; AGroup 3 3 syms_1]);
   (570279, 3, [AGroup 25687 1 [sym_kElse]; AGroup 28546 1 [anon_sym_SEMI]; AGroup 3 3 syms_1]);
   (570291, 3, [AGroup 24916 1 [sym_kEq]; SGroup 14225 1 [sym_defaultValue]; AGroup 3 3 syms_1]);
   (570303, 3, [AGroup 25785 1 [sym_kElse]; AGroup 28548 1 [anon_sym_SEMI]; AGroup 3 3 syms_1]);
   (570315, 2, [AGroup 10750 2 syms_815; AGroup 3 3 syms_1]);
   (570325, 3, [AGroup 28550 1 [anon_sym_SEMI]; AGroup 28552 1 [anon_sym_RPAREN]; AGroup 3 3 syms_1]);
   (570337, 3, [AGroup 25865 1 [sym_kElse]; AGroup 28554 1 [anon_sym_SEMI]; AGroup 3 3 syms_1]);
   (570349, 2, [AGroup 25645 2 syms_685; AGroup 3 3 syms_1]);
   (570359, 3, [AGroup 28552 1 [sym_kEnd]; AGroup 28556 1 [anon_sym_SEMI]; AGroup 3 3 syms_1]);
   (570371, 3, [AGroup 25869 1 [sym_kElse]; AGroup 28558 1 [anon_sym_SEMI]; AGroup 3 3 syms_1])
  ].

(** States 13159 to 13258. *)
Definition small_runs_13159 : list small_run :=
  [
   (570383, 3, [AGroup 25875 1 [sym_kElse]; AGroup 28560 1 [anon_sym_SEMI]; AGroup 3 3 syms_1]);
   (570395, 3, [AGroup 5 1 [sym_ppDirective]; AGroup 3 2 syms_5; AGroup 25047 2 syms_44]);
   (570407, 3, [AGroup 22587 1 [anon_sym_RPAREN]; AGroup 28562 1 [anon_sym_SEMI]; AGroup 3 3 syms_1]);
   (570419, 3, [AGroup 24916 1 [sym_kEq]; SGroup 15326 1 [sym_defaultValue]; AGroup 3 3 syms_1]);
   (570431, 3, [AGroup 28317 1 [anon_sym_COMMA]; AGroup 28564 1 [anon_sym_SEMI]; AGroup 3 3 syms_1]);
   (570443, 3, [AGroup 28383 1 [anon_sym_COMMA]; AGroup 28566 1 [anon_sym_SEMI]; AGroup 3 3 syms_1]);
   (570455, 3, [AGroup 17254 1 [sym_kElse]; AGroup 28568 1 [anon_sym_SEMI]; AGroup 3 3 syms_1]);
   (570467, 3, [AGroup 28466 1 [anon_sym_COMMA]; AGroup 28570 1 [anon_sym_RPAREN]; AGroup 3 3 syms_1]);
   (570479, 3, [AGroup 25875 1 [sym_kEnd]; AGroup 28069 1 [anon_sym_SEMI]; AGroup 3 3 syms_1]);
   (570491, 3, [AGroup 25753 1 [sym_kElse]; AGroup 28572 1 [anon_sym_SEMI]; AGroup 3 3 syms_1]);
   (570503, 3, [AGroup 22365 1 [anon_sym_COMMA]; AGroup 22650 1 [anon_sym_RBRACK]; AGroup 3 3 syms_1]);
   (570515, 3, [AGroup 28406 1 [anon_sym_SEMI]; AGroup 28574 1 [anon_sym_RPAREN]; AGroup 3 3 syms_1]);
   (570527, 2, [AGroup 10870 2 syms_815; AGroup 3 3 syms_1]);
   (570537, 3, [AGroup 27735 1 [anon_sym_COMMA]; AGroup 28576 1 [anon_sym_RPAREN]; AGroup 3 3 syms_1]);
   (570549, 3, [AGroup 5 1 [sym_ppDirective]; AGroup 3 2 syms_5; AGroup 11021 2 syms_44]);
   (570561, 2, [AGroup 10760 2 syms_815; AGroup 3 3 syms_1]);
   (570571, 3, [AGroup 28291 1 [anon_sym_COMMA]; AGroup 28578 1 [anon_sym_RBRACK]; AGroup 3 3 syms_1]);
   (570583, 3, [AGroup 25591 1 [sym_kElse]; AGroup 28580 1 [anon_sym_SEMI]; AGroup 3 3 syms_1]);
   (570595, 3, [AGroup 28345 1 [anon_sym_SEMI]; AGroup 28582 1 [anon_sym_RBRACK]; AGroup 3 3 syms_1]);
   (570607, 3, [AGroup 25865 1 [sym_kElse]; AGroup 28584 1 [anon_sym_SEMI]; AGroup 3 3 syms_1]);
   (570619, 2, [AGroup 26036 2 syms_109; AGroup 3 3 syms_1]);
   (570629, 3, [AGroup 17240 1 [sym_kElse]; AGroup 28586 1 [anon_sym_SEMI]; AGroup 3 3 syms_1]);
   (570641, 3, [AGroup 15293 1 [sym_kElse]; AGroup 28588 1 [anon_sym_SEMI]; AGroup 3 3 syms_1]);
   (570653, 3, [AGroup 24916 1 [sym_kEq]; SGroup 15380 1 [sym_defaultValue]; AGroup 3 3 syms_1]);
   (570665, 3, [AGroup 18848 1 [sym_kElse]; AGroup 26097 1 [sym_kEnd]; AGroup 3 3 syms_1]);
   (570677, 3, [AGroup 28321 1 [anon_sym_SEMI]; AGroup 28590 1 [anon_sym_RPAREN]; AGroup 3 3 syms_1]);
   (570689, 3, [AGroup 28291 1 [anon_sym_COMMA]; AGroup 28592 1 [anon_sym_RBRACK]; AGroup 3 3 syms_1]);
   (570701, 2, [AGroup 28594 2 syms_669; AGroup 3 3 syms_1]);
   (570711, 3, [AGroup 28345 1 [anon_sym_SEMI]; AGroup 28596 1 [anon_sym_RBRACK]; AGroup 3 3 syms_1]);
   (570723, 3, [AGroup 5 1 [sym_ppDirective]; AGroup 3 2 syms_5; AGroup 25121 2 syms_44]);
   (570735, 3, [AGroup 15353 1 [sym_kEnd]; AGroup 28166 1 [anon_sym_SEMI]; AGroup 3 3 syms_1]);
   (570747, 3, [AGroup 25859 1 [sym_kElse]; AGroup 28598 1 [anon_sym_SEMI]; AGroup 3 3 syms_1]);
   (570759, 3, [AGroup 28291 1 [anon_sym_COMMA]; AGroup 28600 1 [anon_sym_RBRACK]; AGroup 3 3 syms_1]);
   (570771, 3, [AGroup 28291 1 [anon_sym_COMMA]; AGroup 28602 1 [anon_sym_RBRACK]; AGroup 3 3 syms_1]);
   (570783, 3, [AGroup 28345 1 [anon_sym_SEMI]; AGroup 28604 1 [anon_sym_RBRACK]; AGroup 3 3 syms_1]);
   (570795, 3, [AGroup 22365 1 [anon_sym_COMMA]; AGroup 22678 1 [anon_sym_RBRACK]; AGroup 3 3 syms_1]);
   (570807, 2, [AGroup 26046 2 syms_109; AGroup 3 3 syms_1]);
   (570817, 2, [AGroup 10826 2 syms_815; AGroup 3 3 syms_1]);
   (570827, 2, [AGroup 26013 2 syms_112; AGroup 3 3 syms_1]);
   (570837, 2, [AGroup 26030 2 syms_112; AGroup 3 3 syms_1]);
   (570847, 3, [AGroup 25717 1 [sym_kElse]; AGroup 28606 1 [anon_sym_SEMI]; AGroup 3 3 syms_1]);
   (570859, 3, [AGroup 25869 1 [sym_kElse]; AGroup 28608 1 [anon_sym_SEMI]; AGroup 3 3 syms_1]);
   (570871, 3, [AGroup 28383 1 [anon_sym_COMMA]; AGroup 28610 1 [anon_sym_SEMI]; AGroup 3 3 syms_1]);
   (570883, 3, [AGroup 22365 1 [anon_sym_COMMA]; AGroup 22738 1 [anon_sym_RBRACK]; AGroup 3 3 syms_1]);
   (570895, 2, [AGroup 26032 2 syms_112; AGroup 3 3 syms_1]);
   (570905, 3, [AGroup 28325 1 [anon_sym_COMMA]; AGroup 28612 1 [anon_sym_RPAREN]; AGroup 3 3 syms_1]);
   (570917, 3, [AGroup 25875 1 [sym_kElse]; AGroup 28614 1 [anon_sym_SEMI]; AGroup 3 3 syms_1]);
   (570929, 2, [AGroup 28616 2 syms_669; AGroup 3 3 syms_1]);
   (570939, 3, [AGroup 28325 1 [anon_sym_COMMA]; AGroup 28618 1 [anon_sym_RPAREN]; AGroup 3 3 syms_1]);
   (570951, 3, [AGroup 17254 1 [sym_kElse]; AGroup 28620 1 [anon_sym_SEMI]; AGroup 3 3 syms_1]);
   (570963, 3, [AGroup 25849 1 [sym_kElse]; AGroup 28622 1 [anon_sym_SEMI]; AGroup 3 3 syms_1]);
   (570975, 3, [AGroup 22365 1 [anon_sym_COMMA]; AGroup 22658 1 [anon_sym_RBRACK]; AGroup 3 3 syms_1]);
   (570987, 2, [AGroup 28624 2 syms_186; AGroup 3 3 syms_1]);
   (570997, 3, [AGroup 5 1 [sym_ppDirective]; AGroup 3 2 syms_5; AGroup 24918 2 syms_44]);
   (571009, 3, [AGroup 25721 1 [sym_kElse]; AGroup 28626 1 [anon_sym_SEMI]; AGroup 3 3 syms_1]);
   (571021, 3, [AGroup 25739 1 [sym_kElse]; AGroup 28628 1 [anon_sym_SEMI]; AGroup 3 3 syms_1]);
   (571033, 3, [AGroup 28630 1 [sym_kExcept]; AGroup 28632 1 [sym_kFinally]; AGroup 3 3 syms_1]);
   (571045, 3, [AGroup 22365 1 [anon_sym_COMMA]; AGroup 22688 1 [anon_sym_RBRACK]; AGroup 3 3 syms_1]);
   (571057, 3, [AGroup 15353 1 [sym_kElse]; AGroup 28634 1 [anon_sym_SEMI]; AGroup 3 3 syms_1]);
   (571069, 3, [AGroup 25753 1 [sym_kElse]; AGroup 28636 1 [anon_sym_SEMI]; AGroup 3 3 syms_1]);
   (571081, 3, [AGroup 25591 1 [sym_kElse]; AGroup 28638 1 [anon_sym_SEMI]; AGroup 3 3 syms_1]);
   (571093, 3, [AGroup 25849 1 [sym_kElse]; AGroup 28640 1 [anon_sym_SEMI]; AGroup 3 3 syms_1]);
   (571105, 2, [AGroup 10874 2 syms_815; AGroup 3 3 syms_1]);
   (571115, 3, [AGroup 18873 1 [sym_kElse]; AGroup 26097 1 [sym_kEnd]; AGroup 3 3 syms_1]);
   (571127, 2, [AGroup 25657 2 syms_684; AGroup 3 3 syms_1]);
   (571137, 2, [AGroup 25659 2 syms_684; AGroup 3 3 syms_1]);
   (571147, 3, [AGroup 15353 1 [sym_kElse]; AGroup 28642 1 [anon_sym_SEMI]; AGroup 3 3 syms_1]);
   (571159, 3, [AGroup 28291 1 [anon_sym_COMMA]; AGroup 28644 1 [anon_sym_RBRACK]; AGroup 3 3 syms_1]);
   (571171, 3, [AGroup 25687 1 [sym_kElse]; AGroup 28646 1 [anon_sym_SEMI]; AGroup 3 3 syms_1]);
   (571183, 2, [AGroup 18739 2 syms_110; AGroup 3 3 syms_1]);
   (571193, 3, [AGroup 28345 1 [anon_sym_SEMI]; AGroup 28648 1 [anon_sym_RBRACK]; AGroup 3 3 syms_1]);
   (571205, 3, [AGroup 20772 1 [anon_sym_DOT]; SGroup 14737 1 [sym_kDot]; AGroup 3 3 syms_1]);
   (571217, 3, [AGroup 24916 1 [sym_kEq]; SGroup 15786 1 [sym_defaultValue]; AGroup 3 3 syms_1]);
   (571229, 3, [AGroup 25687 1 [sym_kElse]; AGroup 28650 1 [anon_sym_SEMI]; AGroup 3 3 syms_1]);
   (571241, 3, [AGroup 28291 1 [anon_sym_COMMA]; AGroup 28652 1 [anon_sym_RBRACK]; AGroup 3 3 syms_1]);
   (571253, 3, [AGroup 28291 1 [anon_sym_COMMA]; AGroup 28654 1 [anon_sym_RBRACK]; AGroup 3 3 syms_1]);
   (571265, 3, [AGroup 28345 1 [anon_sym_SEMI]; AGroup 28656 1 [anon_sym_RBRACK]; AGroup 3 3 syms_1]);
   (571277, 2, [AGroup 10622 2 syms_133; AGroup 3 3 syms_1]);
   (571287, 3, [AGroup 20770 1 [anon_sym_COMMA]; AGroup 28658 1 [anon_sym_COLON]; AGroup 3 3 syms_1]);
   (571299, 3, [AGroup 28325 1 [anon_sym_COMMA]; AGroup 28660 1 [anon_sym_RPAREN]; AGroup 3 3 syms_1]);
   (571311, 3, [AGroup 5 1 [sym_ppDirective]; AGroup 3 2 syms_5; AGroup 28662 2 syms_44]);
   (571323, 2, [AGroup 26036 2 syms_112; AGroup 3 3 syms_1]);
   (571333, 2, [AGroup 15596 2 syms_816; AGroup 3 3 syms_1]);
   (571343, 3, [AGroup 28325 1 [anon_sym_COMMA]; AGroup 28664 1 [anon_sym_RPAREN]; AGroup 3 3 syms_1]);
   (571355, 3, [AGroup 17436 1 [anon_sym_RBRACK]; AGroup 22429 1 [anon_sym_COMMA]; AGroup 3 3 syms_1]);
   (571367, 3, [AGroup 28325 1 [anon_sym_COMMA]; AGroup 28666 1 [anon_sym_RPAREN]; AGroup 3 3 syms_1]);
   (571379, 3, [AGroup 22365 1 [anon_sym_COMMA]; AGroup 22563 1 [anon_sym_RBRACK]; AGroup 3 3 syms_1]);
   (571391, 2, [AGroup 10882 2 syms_815; AGroup 3 3 syms_1]);
   (571401, 3, [AGroup 28668 1 [sym_kExcept]; AGroup 28670 1 [sym_kFinally]; AGroup 3 3 syms_1]);
   (571413, 2, [AGroup 25647 2 syms_685; AGroup 3 3 syms_1]);
   (571423, 3, [AGroup 22365 1 [anon_sym_COMMA]; AGroup 22656 1 [anon_sym_RBRACK]; AGroup 3 3 syms_1]);
   (571435, 3, [AGroup 25609 1 [sym_kElse]; AGroup 28672 1 [anon_sym_SEMI]; AGroup 3 3 syms_1]);
   (571447, 3, [AGroup 25799 1 [sym_kElse]; AGroup 28674 1 [anon_sym_SEMI]; AGroup 3 3 syms_1]);
   (571459, 2, [AGroup 26044 2 syms_112; AGroup 3 3 syms_1]);
   (571469, 3, [AGroup 22365 1 [anon_sym_COMMA]; AGroup 22740 1 [anon_sym_RBRACK]; AGroup 3 3 syms_1]);
   (571481, 3, [AGroup 28406 1 [anon_sym_SEMI]; AGroup 28676 1 [anon_sym_RPAREN]; AGroup 3 3 syms_1]);
   (571493, 2, [AGroup 26117 2 syms_109; AGroup 3 3 syms_1]);
   (571503, 3, [AGroup 17240 1 [sym_kElse]; AGroup 28678 1 [anon_sym_SEMI]; AGroup 3 3 syms_1]);
   (571515, 3, [AGroup 27735 1 [anon_sym_COMMA]; AGroup 28680 1 [anon_sym_RPAREN]; AGroup 3 3 syms_1]);
   (571527, 3, [AGroup 15293 1 [sym_kElse]; AGroup 28682 1 [anon_sym_SEMI]; AGroup 3 3 syms_1])
  ].

Definition small_part7 : list small_run :=
  small_runs_10159
  ++ small_runs_10259
  ++ small_runs_10359
  ++ small_runs_10459
  ++ small_runs_10559
  ++ small_runs_10659
  ++ small_runs_10759
  ++ small_runs_10859
  ++ small_runs_10959
  ++ small_runs_11059
  ++ small_runs_11159
  ++ small_runs_11259
  ++ small_runs_11359
  ++ small_runs_11459
  ++ small_runs_11559
  ++ small_runs_11659
  ++ small_runs_11759
  ++ small_runs_11859
  ++ small_runs_11959
  ++ small_runs_12059
  ++ small_runs_12159
  ++ small_runs_12259
  ++ small_runs_12359
  ++ small_runs_12459
  ++ small_runs_12559
  ++ small_runs_12659
  ++ small_runs_12759
  ++ small_runs_12859
  ++ small_runs_12959
  ++ small_runs_13059
  ++ small_runs_13159.
