(* ===== verification/SmallTable8.v ===== *)
(** * The compressed parse table of [parser.c], states 13259 to 16006

    The record of each small state in [ts_small_parse_table], as the source
    writes it: its index in the array, the number of its groups, and the groups
    in their order, each with its value, the number of its symbols and the
    symbols. *)

From S2P Require Import Prelude.
From S2P Require Import Symbols.
From S2P Require Import ParseTypes.
From S2P Require Import SmallSymbols.

(** States 13259 to 13358. *)
Definition small_runs_13259 : list small_run :=
  [
   (571539, 3, [AGroup 28291 1 [anon_sym_COMMA]; AGroup 28684 1 [anon_sym_RBRACK]; AGroup 3 3 syms_1]);
   (571551, 3, [AGroup 28291 1 [anon_sym_COMMA]; AGroup 28686 1 [anon_sym_RBRACK]; AGroup 3 3 syms_1]);
   (571563, 2, [AGroup 28688 2 syms_186; AGroup 3 3 syms_1]);
   (571573, 3, [AGroup 25721 1 [sym_kElse]; AGroup 28690 1 [anon_sym_SEMI]; AGroup 3 3 syms_1]);
   (571585, 3, [AGroup 28291 1 [anon_sym_COMMA]; AGroup 28692 1 [anon_sym_RBRACK]; AGroup 3 3 syms_1]);
   (571597, 3, [AGroup 28291 1 [anon_sym_COMMA]; AGroup 28694 1 [anon_sym_RBRACK]; AGroup 3 3 syms_1]);
   (571609, 3, [AGroup 28291 1 [anon_sym_COMMA]; AGroup 28696 1 [anon_sym_RBRACK]; AGroup 3 3 syms_1]);
   (571621, 3, [AGroup 22365 1 [anon_sym_COMMA]; AGroup 22509 1 [anon_sym_RBRACK]; AGroup 3 3 syms_1]);
   (571633, 3, [AGroup 25791 1 [sym_kElse]; AGroup 28698 1 [anon_sym_SEMI]; AGroup 3 3 syms_1]);
   (571645, 3, [AGroup 22587 1 [sym_kEnd]; AGroup 28700 1 [anon_sym_SEMI]; AGroup 3 3 syms_1]);
   (571657, 2, [AGroup 28702 2 syms_186; AGroup 3 3 syms_1]);
   (571667, 3, [AGroup 28345 1 [anon_sym_SEMI]; AGroup 28704 1 [anon_sym_RBRACK]; AGroup 3 3 syms_1]);
   (571679, 3, [AGroup 23871 1 [anon_sym_DOT]; SGroup 14381 1 [sym_kEndDot]; AGroup 3 3 syms_1]);
   (571691, 3, [AGroup 28706 1 [anon_sym_LBRACK]; AGroup 28708 1 [sym_kOf]; AGroup 3 3 syms_1]);
   (571703, 3, [AGroup 28710 1 [sym_kExcept]; AGroup 28712 1 [sym_kFinally]; AGroup 3 3 syms_1]);
   (571715, 3, [AGroup 25865 1 [sym_kElse]; AGroup 28714 1 [anon_sym_SEMI]; AGroup 3 3 syms_1]);
   (571727, 3, [AGroup 25865 1 [sym_kElse]; AGroup 28716 1 [anon_sym_SEMI]; AGroup 3 3 syms_1]);
   (571739, 3, [AGroup 17176 1 [anon_sym_RBRACK]; AGroup 22429 1 [anon_sym_COMMA]; AGroup 3 3 syms_1]);
   (571751, 2, [AGroup 28594 2 syms_688; AGroup 3 3 syms_1]);
   (571761, 3, [AGroup 26998 1 [anon_sym_RPAREN]; AGroup 28718 1 [anon_sym_SEMI]; AGroup 3 3 syms_1]);
   (571773, 3, [AGroup 28317 1 [anon_sym_COMMA]; AGroup 28720 1 [anon_sym_SEMI]; AGroup 3 3 syms_1]);
   (571785, 3, [AGroup 28291 1 [anon_sym_COMMA]; AGroup 28722 1 [anon_sym_RBRACK]; AGroup 3 3 syms_1]);
   (571797, 3, [AGroup 28383 1 [anon_sym_COMMA]; AGroup 28724 1 [anon_sym_SEMI]; AGroup 3 3 syms_1]);
   (571809, 3, [AGroup 25865 1 [sym_kUntil]; AGroup 27975 1 [anon_sym_SEMI]; AGroup 3 3 syms_1]);
   (571821, 2, [AGroup 26013 2 syms_110; AGroup 3 3 syms_1]);
   (571831, 3, [AGroup 26063 1 [anon_sym_COMMA]; AGroup 28726 1 [anon_sym_COLON]; AGroup 3 3 syms_1]);
   (571843, 3, [AGroup 28291 1 [anon_sym_COMMA]; AGroup 28728 1 [anon_sym_RBRACK]; AGroup 3 3 syms_1]);
   (571855, 2, [AGroup 10720 2 syms_815; AGroup 3 3 syms_1]);
   (571865, 3, [AGroup 26998 1 [anon_sym_RPAREN]; AGroup 28730 1 [anon_sym_SEMI]; AGroup 3 3 syms_1]);
   (571877, 3, [AGroup 22365 1 [anon_sym_COMMA]; AGroup 22718 1 [anon_sym_RBRACK]; AGroup 3 3 syms_1]);
   (571889, 3, [AGroup 28291 1 [anon_sym_COMMA]; AGroup 28732 1 [anon_sym_RBRACK]; AGroup 3 3 syms_1]);
   (571901, 3, [AGroup 28291 1 [anon_sym_COMMA]; AGroup 28734 1 [anon_sym_RBRACK]; AGroup 3 3 syms_1]);
   (571913, 2, [AGroup 10898 2 syms_815; AGroup 3 3 syms_1]);
   (571923, 3, [AGroup 25717 1 [sym_kElse]; AGroup 28736 1 [anon_sym_SEMI]; AGroup 3 3 syms_1]);
   (571935, 3, [AGroup 25855 1 [sym_kElse]; AGroup 28738 1 [anon_sym_SEMI]; AGroup 3 3 syms_1]);
   (571947, 3, [AGroup 28740 1 [sym_identifier]; SGroup 13059 1 [aux_sym_genericArg_repeat1];
     AGroup 3 3 syms_1]);
   (571959, 3, [AGroup 5 1 [sym_ppDirective]; AGroup 3 2 syms_5; AGroup 11037 2 syms_44]);
   (571971, 2, [AGroup 26046 2 syms_112; AGroup 3 3 syms_1]);
   (571981, 2, [AGroup 26076 2 syms_109; AGroup 3 3 syms_1]);
   (571991, 3, [AGroup 28742 1 [sym_kExcept]; AGroup 28744 1 [sym_kFinally]; AGroup 3 3 syms_1]);
   (572003, 3, [AGroup 25799 1 [sym_kElse]; AGroup 28746 1 [anon_sym_SEMI]; AGroup 3 3 syms_1]);
   (572015, 2, [AGroup 10638 2 syms_133; AGroup 3 3 syms_1]);
   (572025, 3, [AGroup 28748 1 [sym_identifier]; SGroup 13417 1 [aux_sym_genericArg_repeat1];
     AGroup 3 3 syms_1]);
   (572037, 3, [AGroup 5 1 [sym_ppDirective]; AGroup 3 2 syms_5; AGroup 11041 2 syms_44]);
   (572049, 3, [AGroup 22365 1 [anon_sym_COMMA]; AGroup 22728 1 [anon_sym_RBRACK]; AGroup 3 3 syms_1]);
   (572061, 3, [AGroup 28325 1 [anon_sym_COMMA]; AGroup 28750 1 [anon_sym_RPAREN]; AGroup 3 3 syms_1]);
   (572073, 3, [AGroup 10720 1 [sym_kEnd]; AGroup 28752 1 [sym_kElse]; AGroup 3 3 syms_1]);
   (572085, 3, [AGroup 25869 1 [sym_kElse]; AGroup 28754 1 [anon_sym_SEMI]; AGroup 3 3 syms_1]);
   (572097, 3, [AGroup 22365 1 [anon_sym_COMMA]; AGroup 22589 1 [anon_sym_RBRACK]; AGroup 3 3 syms_1]);
   (572109, 2, [AGroup 28756 2 syms_186; AGroup 3 3 syms_1]);
   (572119, 3, [AGroup 28291 1 [anon_sym_COMMA]; AGroup 28758 1 [anon_sym_RBRACK]; AGroup 3 3 syms_1]);
   (572131, 3, [AGroup 28291 1 [anon_sym_COMMA]; AGroup 28760 1 [anon_sym_RBRACK]; AGroup 3 3 syms_1]);
   (572143, 3, [AGroup 28291 1 [anon_sym_COMMA]; AGroup 28762 1 [anon_sym_RBRACK]; AGroup 3 3 syms_1]);
   (572155, 3, [AGroup 25721 1 [sym_kElse]; AGroup 28764 1 [anon_sym_SEMI]; AGroup 3 3 syms_1]);
   (572167, 3, [AGroup 22429 1 [anon_sym_COMMA]; AGroup 22758 1 [anon_sym_RBRACK]; AGroup 3 3 syms_1]);
   (572179, 2, [AGroup 10902 2 syms_815; AGroup 3 3 syms_1]);
   (572189, 2, [AGroup 28766 2 syms_688; AGroup 3 3 syms_1]);
   (572199, 3, [AGroup 27025 1 [anon_sym_RPAREN]; AGroup 28768 1 [anon_sym_SEMI]; AGroup 3 3 syms_1]);
   (572211, 2, [AGroup 10706 2 syms_815; AGroup 3 3 syms_1]);
   (572221, 3, [AGroup 10720 1 [sym_kOn]; AGroup 28770 1 [sym_kElse]; AGroup 3 3 syms_1]);
   (572233, 3, [AGroup 28772 1 [sym_kExcept]; AGroup 28774 1 [sym_kFinally]; AGroup 3 3 syms_1]);
   (572245, 3, [AGroup 28345 1 [anon_sym_SEMI]; AGroup 28776 1 [anon_sym_RBRACK]; AGroup 3 3 syms_1]);
   (572257, 2, [AGroup 24240 2 syms_684; AGroup 3 3 syms_1]);
   (572267, 3, [AGroup 25739 1 [sym_kElse]; AGroup 28778 1 [anon_sym_SEMI]; AGroup 3 3 syms_1]);
   (572279, 3, [AGroup 26063 1 [anon_sym_COMMA]; AGroup 28780 1 [anon_sym_COLON]; AGroup 3 3 syms_1]);
   (572291, 2, [AGroup 25647 2 syms_688; AGroup 3 3 syms_1]);
   (572301, 3, [AGroup 5 1 [sym_ppDirective]; AGroup 3 2 syms_5; AGroup 28782 2 syms_44]);
   (572313, 3, [AGroup 25753 1 [sym_kElse]; AGroup 28784 1 [anon_sym_SEMI]; AGroup 3 3 syms_1]);
   (572325, 3, [AGroup 25609 1 [sym_kElse]; AGroup 28786 1 [anon_sym_SEMI]; AGroup 3 3 syms_1]);
   (572337, 3, [AGroup 25875 1 [sym_kElse]; AGroup 28788 1 [anon_sym_SEMI]; AGroup 3 3 syms_1]);
   (572349, 3, [AGroup 26231 1 [sym_identifier]; SGroup 13294 1 [aux_sym_genericArg_repeat1];
     AGroup 3 3 syms_1]);
   (572361, 3, [AGroup 28291 1 [anon_sym_COMMA]; AGroup 28790 1 [anon_sym_RBRACK]; AGroup 3 3 syms_1]);
   (572373, 3, [AGroup 25849 1 [sym_kElse]; AGroup 28792 1 [anon_sym_SEMI]; AGroup 3 3 syms_1]);
   (572385, 3, [AGroup 28291 1 [anon_sym_COMMA]; AGroup 28794 1 [anon_sym_RBRACK]; AGroup 3 3 syms_1]);
   (572397, 3, [AGroup 28291 1 [anon_sym_COMMA]; AGroup 28796 1 [anon_sym_RBRACK]; AGroup 3 3 syms_1]);
   (572409, 3, [AGroup 22429 1 [anon_sym_COMMA]; AGroup 22760 1 [anon_sym_RBRACK]; AGroup 3 3 syms_1]);
   (572421, 3, [AGroup 28798 1 [sym_identifier]; SGroup 13415 1 [aux_sym_moduleName_repeat1];
     AGroup 3 3 syms_1]);
   (572433, 3, [AGroup 25855 1 [sym_kElse]; AGroup 28800 1 [anon_sym_SEMI]; AGroup 3 3 syms_1]);
   (572445, 3, [AGroup 15293 1 [sym_kElse]; AGroup 27159 1 [anon_sym_SEMI]; AGroup 3 3 syms_1]);
   (572457, 3, [AGroup 28802 1 [sym_kExcept]; AGroup 28804 1 [sym_kFinally]; AGroup 3 3 syms_1]);
   (572469, 3, [AGroup 22365 1 [anon_sym_COMMA]; AGroup 22375 1 [anon_sym_RBRACK]; AGroup 3 3 syms_1]);
   (572481, 3, [AGroup 28406 1 [anon_sym_SEMI]; AGroup 28806 1 [anon_sym_RPAREN]; AGroup 3 3 syms_1]);
   (572493, 3, [AGroup 28321 1 [anon_sym_SEMI]; AGroup 28808 1 [anon_sym_RPAREN]; AGroup 3 3 syms_1]);
   (572505, 2, [AGroup 28810 2 syms_669; AGroup 3 3 syms_1]);
   (572515, 3, [AGroup 25785 1 [sym_kElse]; AGroup 28812 1 [anon_sym_SEMI]; AGroup 3 3 syms_1]);
   (572527, 3, [AGroup 25591 1 [sym_kElse]; AGroup 28814 1 [anon_sym_SEMI]; AGroup 3 3 syms_1]);
   (572539, 3, [AGroup 25717 1 [sym_kElse]; AGroup 28816 1 [anon_sym_SEMI]; AGroup 3 3 syms_1]);
   (572551, 3, [AGroup 28291 1 [anon_sym_COMMA]; AGroup 28818 1 [anon_sym_RBRACK]; AGroup 3 3 syms_1]);
   (572563, 3, [AGroup 28291 1 [anon_sym_COMMA]; AGroup 28820 1 [anon_sym_RBRACK]; AGroup 3 3 syms_1]);
   (572575, 3, [AGroup 28291 1 [anon_sym_COMMA]; AGroup 28822 1 [anon_sym_RBRACK]; AGroup 3 3 syms_1]);
   (572587, 2, [AGroup 28824 2 syms_688; AGroup 3 3 syms_1]);
   (572597, 3, [AGroup 17254 1 [sym_kElse]; AGroup 28826 1 [anon_sym_SEMI]; AGroup 3 3 syms_1]);
   (572609, 3, [AGroup 22365 1 [anon_sym_COMMA]; AGroup 22664 1 [anon_sym_RBRACK]; AGroup 3 3 syms_1]);
   (572621, 2, [AGroup 28828 2 syms_186; AGroup 3 3 syms_1]);
   (572631, 3, [AGroup 15353 1 [sym_kElse]; AGroup 28830 1 [anon_sym_SEMI]; AGroup 3 3 syms_1]);
   (572643, 3, [AGroup 28317 1 [anon_sym_COMMA]; AGroup 28832 1 [anon_sym_SEMI]; AGroup 3 3 syms_1]);
   (572655, 3, [AGroup 28383 1 [anon_sym_COMMA]; AGroup 28834 1 [anon_sym_SEMI]; AGroup 3 3 syms_1]);
   (572667, 3, [AGroup 28836 1 [sym_kExcept]; AGroup 28838 1 [sym_kFinally]; AGroup 3 3 syms_1]);
   (572679, 3, [AGroup 22365 1 [anon_sym_COMMA]; AGroup 22748 1 [anon_sym_RBRACK]; AGroup 3 3 syms_1]);
   (572691, 3, [AGroup 25791 1 [sym_kElse]; AGroup 28840 1 [anon_sym_SEMI]; AGroup 3 3 syms_1])
  ].

(** States 13359 to 13458. *)
Definition small_runs_13359 : list small_run :=
  [
   (572703, 3, [AGroup 28325 1 [anon_sym_COMMA]; AGroup 28842 1 [anon_sym_RPAREN]; AGroup 3 3 syms_1]);
   (572715, 3, [AGroup 28406 1 [anon_sym_SEMI]; AGroup 28844 1 [anon_sym_RPAREN]; AGroup 3 3 syms_1]);
   (572727, 3, [AGroup 22423 1 [sym_kEnd]; AGroup 28846 1 [anon_sym_SEMI]; AGroup 3 3 syms_1]);
   (572739, 3, [AGroup 25799 1 [sym_kElse]; AGroup 28848 1 [anon_sym_SEMI]; AGroup 3 3 syms_1]);
   (572751, 3, [AGroup 28850 1 [anon_sym_SEMI]; AGroup 28852 1 [anon_sym_RPAREN]; AGroup 3 3 syms_1]);
   (572763, 3, [AGroup 28291 1 [anon_sym_COMMA]; AGroup 28854 1 [anon_sym_RBRACK]; AGroup 3 3 syms_1]);
   (572775, 3, [AGroup 28291 1 [anon_sym_COMMA]; AGroup 28856 1 [anon_sym_RBRACK]; AGroup 3 3 syms_1]);
   (572787, 3, [AGroup 28291 1 [anon_sym_COMMA]; AGroup 28858 1 [anon_sym_RBRACK]; AGroup 3 3 syms_1]);
   (572799, 2, [AGroup 28538 2 syms_688; AGroup 3 3 syms_1]);
   (572809, 2, [AGroup 28860 2 syms_669; AGroup 3 3 syms_1]);
   (572819, 2, [AGroup 28616 2 syms_688; AGroup 3 3 syms_1]);
   (572829, 3, [AGroup 28862 1 [anon_sym_LBRACK]; AGroup 28864 1 [sym_kOf]; AGroup 3 3 syms_1]);
   (572841, 3, [AGroup 28866 1 [sym_kExcept]; AGroup 28868 1 [sym_kFinally]; AGroup 3 3 syms_1]);
   (572853, 3, [AGroup 25859 1 [sym_kElse]; AGroup 28870 1 [anon_sym_SEMI]; AGroup 3 3 syms_1]);
   (572865, 3, [AGroup 25619 1 [anon_sym_COMMA]; AGroup 28872 1 [anon_sym_COLON]; AGroup 3 3 syms_1]);
   (572877, 3, [AGroup 25609 1 [sym_kElse]; AGroup 28874 1 [anon_sym_SEMI]; AGroup 3 3 syms_1]);
   (572889, 3, [AGroup 22365 1 [anon_sym_COMMA]; AGroup 22666 1 [anon_sym_RBRACK]; AGroup 3 3 syms_1]);
   (572901, 3, [AGroup 28321 1 [anon_sym_SEMI]; AGroup 28876 1 [anon_sym_RPAREN]; AGroup 3 3 syms_1]);
   (572913, 2, [AGroup 26030 2 syms_110; AGroup 3 3 syms_1]);
   (572923, 2, [AGroup 28878 2 syms_11; AGroup 3 3 syms_1]);
   (572933, 3, [AGroup 28291 1 [anon_sym_COMMA]; AGroup 28880 1 [anon_sym_RBRACK]; AGroup 3 3 syms_1]);
   (572945, 3, [AGroup 25791 1 [sym_kElse]; AGroup 28882 1 [anon_sym_SEMI]; AGroup 3 3 syms_1]);
   (572957, 3, [AGroup 28291 1 [anon_sym_COMMA]; AGroup 28884 1 [anon_sym_RBRACK]; AGroup 3 3 syms_1]);
   (572969, 3, [AGroup 28291 1 [anon_sym_COMMA]; AGroup 28886 1 [anon_sym_RBRACK]; AGroup 3 3 syms_1]);
   (572981, 3, [AGroup 28406 1 [anon_sym_SEMI]; AGroup 28888 1 [anon_sym_RPAREN]; AGroup 3 3 syms_1]);
   (572993, 3, [AGroup 28890 1 [anon_sym_LBRACK]; AGroup 28892 1 [sym_kOf]; AGroup 3 3 syms_1]);
   (573005, 2, [AGroup 26036 2 syms_110; AGroup 3 3 syms_1]);
   (573015, 3, [AGroup 28321 1 [anon_sym_SEMI]; AGroup 28894 1 [anon_sym_RBRACK]; AGroup 3 3 syms_1]);
   (573027, 3, [AGroup 22365 1 [anon_sym_COMMA]; AGroup 22367 1 [anon_sym_RBRACK]; AGroup 3 3 syms_1]);
   (573039, 2, [AGroup 28896 2 syms_186; AGroup 3 3 syms_1]);
   (573049, 3, [AGroup 28898 1 [sym_kExcept]; AGroup 28900 1 [sym_kFinally]; AGroup 3 3 syms_1]);
   (573061, 3, [AGroup 5 1 [sym_ppDirective]; AGroup 3 2 syms_5; AGroup 25142 2 syms_44]);
   (573073, 3, [AGroup 25869 1 [sym_kElse]; AGroup 28902 1 [anon_sym_SEMI]; AGroup 3 3 syms_1]);
   (573085, 2, [AGroup 15594 2 syms_816; AGroup 3 3 syms_1]);
   (573095, 3, [AGroup 25875 1 [sym_kElse]; AGroup 27445 1 [anon_sym_SEMI]; AGroup 3 3 syms_1]);
   (573107, 3, [AGroup 22365 1 [anon_sym_COMMA]; AGroup 22411 1 [anon_sym_RBRACK]; AGroup 3 3 syms_1]);
   (573119, 3, [AGroup 28466 1 [anon_sym_COMMA]; AGroup 28904 1 [anon_sym_RPAREN]; AGroup 3 3 syms_1]);
   (573131, 2, [AGroup 4439 2 syms_110; AGroup 3 3 syms_1]);
   (573141, 3, [AGroup 28291 1 [anon_sym_COMMA]; AGroup 28906 1 [anon_sym_RBRACK]; AGroup 3 3 syms_1]);
   (573153, 3, [AGroup 28291 1 [anon_sym_COMMA]; AGroup 28908 1 [anon_sym_RBRACK]; AGroup 3 3 syms_1]);
   (573165, 3, [AGroup 25591 1 [sym_kElse]; AGroup 28910 1 [anon_sym_SEMI]; AGroup 3 3 syms_1]);
   (573177, 3, [AGroup 25609 1 [sym_kElse]; AGroup 28912 1 [anon_sym_SEMI]; AGroup 3 3 syms_1]);
   (573189, 3, [AGroup 25855 1 [sym_kElse]; AGroup 28914 1 [anon_sym_SEMI]; AGroup 3 3 syms_1]);
   (573201, 3, [AGroup 28466 1 [anon_sym_COMMA]; AGroup 28916 1 [anon_sym_RPAREN]; AGroup 3 3 syms_1]);
   (573213, 3, [AGroup 25799 1 [sym_kElse]; AGroup 28918 1 [anon_sym_SEMI]; AGroup 3 3 syms_1]);
   (573225, 2, [AGroup 10630 2 syms_133; AGroup 3 3 syms_1]);
   (573235, 3, [AGroup 28920 1 [sym_kExcept]; AGroup 28922 1 [sym_kFinally]; AGroup 3 3 syms_1]);
   (573247, 3, [AGroup 25875 1 [sym_kElse]; AGroup 28924 1 [anon_sym_SEMI]; AGroup 3 3 syms_1]);
   (573259, 2, [AGroup 10806 2 syms_112; AGroup 3 3 syms_1]);
   (573269, 3, [AGroup 28406 1 [anon_sym_SEMI]; AGroup 28926 1 [anon_sym_RPAREN]; AGroup 3 3 syms_1]);
   (573281, 3, [AGroup 27735 1 [anon_sym_COMMA]; AGroup 28928 1 [anon_sym_RPAREN]; AGroup 3 3 syms_1]);
   (573293, 3, [AGroup 5 1 [sym_ppDirective]; AGroup 3 2 syms_5; AGroup 10973 2 syms_44]);
   (573305, 3, [AGroup 25717 1 [sym_kElse]; AGroup 28930 1 [anon_sym_SEMI]; AGroup 3 3 syms_1]);
   (573317, 3, [AGroup 28291 1 [anon_sym_COMMA]; AGroup 28932 1 [anon_sym_RBRACK]; AGroup 3 3 syms_1]);
   (573329, 3, [AGroup 28291 1 [anon_sym_COMMA]; AGroup 28934 1 [anon_sym_RBRACK]; AGroup 3 3 syms_1]);
   (573341, 3, [AGroup 28291 1 [anon_sym_COMMA]; AGroup 28936 1 [anon_sym_RBRACK]; AGroup 3 3 syms_1]);
   (573353, 3, [AGroup 28938 1 [sym_identifier]; SGroup 13415 1 [aux_sym_moduleName_repeat1];
     AGroup 3 3 syms_1]);
   (573365, 3, [AGroup 17254 1 [sym_kElse]; AGroup 27184 1 [anon_sym_SEMI]; AGroup 3 3 syms_1]);
   (573377, 3, [AGroup 28941 1 [sym_identifier]; SGroup 13059 1 [aux_sym_genericArg_repeat1];
     AGroup 3 3 syms_1]);
   (573389, 3, [AGroup 17240 1 [sym_kElse]; AGroup 28943 1 [anon_sym_SEMI]; AGroup 3 3 syms_1]);
   (573401, 3, [AGroup 28945 1 [sym_kExcept]; AGroup 28947 1 [sym_kFinally]; AGroup 3 3 syms_1]);
   (573413, 3, [AGroup 25785 1 [sym_kUntil]; AGroup 27973 1 [anon_sym_SEMI]; AGroup 3 3 syms_1]);
   (573425, 3, [AGroup 25687 1 [sym_kElse]; AGroup 28949 1 [anon_sym_SEMI]; AGroup 3 3 syms_1]);
   (573437, 3, [AGroup 24916 1 [sym_kEq]; SGroup 15978 1 [sym_defaultValue]; AGroup 3 3 syms_1]);
   (573449, 3, [AGroup 22365 1 [anon_sym_COMMA]; AGroup 22591 1 [anon_sym_RBRACK]; AGroup 3 3 syms_1]);
   (573461, 3, [AGroup 28291 1 [anon_sym_COMMA]; AGroup 28951 1 [anon_sym_RBRACK]; AGroup 3 3 syms_1]);
   (573473, 3, [AGroup 22365 1 [anon_sym_COMMA]; AGroup 22373 1 [anon_sym_RBRACK]; AGroup 3 3 syms_1]);
   (573485, 3, [AGroup 28291 1 [anon_sym_COMMA]; AGroup 28953 1 [anon_sym_RBRACK]; AGroup 3 3 syms_1]);
   (573497, 3, [AGroup 28291 1 [anon_sym_COMMA]; AGroup 28955 1 [anon_sym_RBRACK]; AGroup 3 3 syms_1]);
   (573509, 3, [AGroup 28321 1 [anon_sym_SEMI]; AGroup 28957 1 [anon_sym_RPAREN]; AGroup 3 3 syms_1]);
   (573521, 3, [AGroup 5 1 [sym_ppDirective]; AGroup 3 2 syms_5; AGroup 10977 2 syms_44]);
   (573533, 3, [AGroup 25865 1 [sym_kElse]; AGroup 28959 1 [anon_sym_SEMI]; AGroup 3 3 syms_1]);
   (573545, 3, [AGroup 28406 1 [anon_sym_SEMI]; AGroup 28961 1 [anon_sym_RPAREN]; AGroup 3 3 syms_1]);
   (573557, 3, [AGroup 22365 1 [anon_sym_COMMA]; AGroup 22636 1 [anon_sym_RBRACK]; AGroup 3 3 syms_1]);
   (573569, 3, [AGroup 22365 1 [anon_sym_COMMA]; AGroup 22377 1 [anon_sym_RBRACK]; AGroup 3 3 syms_1]);
   (573581, 2, [AGroup 26076 2 syms_110; AGroup 3 3 syms_1]);
   (573591, 3, [AGroup 28963 1 [sym_kExcept]; AGroup 28965 1 [sym_kFinally]; AGroup 3 3 syms_1]);
   (573603, 3, [AGroup 28013 1 [sym_kEq]; SGroup 11605 1 [sym_defaultValue]; AGroup 3 3 syms_1]);
   (573615, 3, [AGroup 5 1 [sym_ppDirective]; AGroup 3 2 syms_5; AGroup 10981 2 syms_44]);
   (573627, 3, [AGroup 25717 1 [sym_kElse]; AGroup 28967 1 [anon_sym_SEMI]; AGroup 3 3 syms_1]);
   (573639, 3, [AGroup 25721 1 [sym_kElse]; AGroup 28969 1 [anon_sym_SEMI]; AGroup 3 3 syms_1]);
   (573651, 3, [AGroup 25739 1 [sym_kElse]; AGroup 28971 1 [anon_sym_SEMI]; AGroup 3 3 syms_1]);
   (573663, 3, [AGroup 25753 1 [sym_kElse]; AGroup 28973 1 [anon_sym_SEMI]; AGroup 3 3 syms_1]);
   (573675, 3, [AGroup 25687 1 [sym_kElse]; AGroup 28975 1 [anon_sym_SEMI]; AGroup 3 3 syms_1]);
   (573687, 3, [AGroup 28291 1 [anon_sym_COMMA]; AGroup 28977 1 [anon_sym_RBRACK]; AGroup 3 3 syms_1]);
   (573699, 3, [AGroup 28291 1 [anon_sym_COMMA]; AGroup 28979 1 [anon_sym_RBRACK]; AGroup 3 3 syms_1]);
   (573711, 3, [AGroup 28291 1 [anon_sym_COMMA]; AGroup 28981 1 [anon_sym_RBRACK]; AGroup 3 3 syms_1]);
   (573723, 3, [AGroup 22365 1 [anon_sym_COMMA]; AGroup 22458 1 [anon_sym_RBRACK]; AGroup 3 3 syms_1]);
   (573735, 2, [AGroup 10866 2 syms_815; AGroup 3 3 syms_1]);
   (573745, 3, [AGroup 25859 1 [sym_kElse]; AGroup 28983 1 [anon_sym_SEMI]; AGroup 3 3 syms_1]);
   (573757, 3, [AGroup 28985 1 [sym_kExcept]; AGroup 28987 1 [sym_kFinally]; AGroup 3 3 syms_1]);
   (573769, 3, [AGroup 25591 1 [sym_kElse]; AGroup 28989 1 [anon_sym_SEMI]; AGroup 3 3 syms_1]);
   (573781, 3, [AGroup 28321 1 [anon_sym_SEMI]; AGroup 28991 1 [anon_sym_RPAREN]; AGroup 3 3 syms_1]);
   (573793, 2, [AGroup 25657 2 syms_688; AGroup 3 3 syms_1]);
   (573803, 3, [AGroup 20770 1 [anon_sym_COMMA]; AGroup 28993 1 [anon_sym_COLON]; AGroup 3 3 syms_1]);
   (573815, 3, [AGroup 25869 1 [sym_kElse]; AGroup 28995 1 [anon_sym_SEMI]; AGroup 3 3 syms_1]);
   (573827, 3, [AGroup 25799 1 [sym_kElse]; AGroup 28997 1 [anon_sym_SEMI]; AGroup 3 3 syms_1]);
   (573839, 3, [AGroup 28999 1 [sym_identifier]; SGroup 13415 1 [aux_sym_moduleName_repeat1];
     AGroup 3 3 syms_1]);
   (573851, 3, [AGroup 28406 1 [anon_sym_SEMI]; AGroup 29001 1 [anon_sym_RPAREN]; AGroup 3 3 syms_1]);
   (573863, 3, [AGroup 28291 1 [anon_sym_COMMA]; AGroup 29003 1 [anon_sym_RBRACK]; AGroup 3 3 syms_1])
  ].

(** States 13459 to 13558. *)
Definition small_runs_13459 : list small_run :=
  [
   (573875, 3, [AGroup 28466 1 [anon_sym_COMMA]; AGroup 29005 1 [anon_sym_RPAREN]; AGroup 3 3 syms_1]);
   (573887, 3, [AGroup 28291 1 [anon_sym_COMMA]; AGroup 29007 1 [anon_sym_RBRACK]; AGroup 3 3 syms_1]);
   (573899, 3, [AGroup 28291 1 [anon_sym_COMMA]; AGroup 29009 1 [anon_sym_RBRACK]; AGroup 3 3 syms_1]);
   (573911, 3, [AGroup 22365 1 [anon_sym_COMMA]; AGroup 22730 1 [anon_sym_RBRACK]; AGroup 3 3 syms_1]);
   (573923, 3, [AGroup 25619 1 [anon_sym_COMMA]; AGroup 29011 1 [anon_sym_COLON]; AGroup 3 3 syms_1]);
   (573935, 3, [AGroup 20770 1 [anon_sym_COMMA]; AGroup 29013 1 [anon_sym_COLON]; AGroup 3 3 syms_1]);
   (573947, 2, [AGroup 26044 2 syms_110; AGroup 3 3 syms_1]);
   (573957, 2, [AGroup 29015 2 syms_186; AGroup 3 3 syms_1]);
   (573967, 3, [AGroup 29017 1 [sym_kExcept]; AGroup 29019 1 [sym_kFinally]; AGroup 3 3 syms_1]);
   (573979, 3, [AGroup 25687 1 [sym_kEnd]; AGroup 27696 1 [anon_sym_SEMI]; AGroup 3 3 syms_1]);
   (573991, 2, [AGroup 29021 2 syms_186; AGroup 3 3 syms_1]);
   (574001, 3, [AGroup 25875 1 [sym_kElse]; AGroup 29023 1 [anon_sym_SEMI]; AGroup 3 3 syms_1]);
   (574013, 3, [AGroup 22365 1 [anon_sym_COMMA]; AGroup 22569 1 [anon_sym_RBRACK]; AGroup 3 3 syms_1]);
   (574025, 3, [AGroup 5 1 [sym_ppDirective]; AGroup 3 2 syms_5; AGroup 25269 2 syms_44]);
   (574037, 2, [AGroup 11318 2 syms_816; AGroup 3 3 syms_1]);
   (574047, 3, [AGroup 25849 1 [sym_kElse]; AGroup 29025 1 [anon_sym_SEMI]; AGroup 3 3 syms_1]);
   (574059, 3, [AGroup 23871 1 [anon_sym_DOT]; SGroup 14375 1 [sym_kEndDot]; AGroup 3 3 syms_1]);
   (574071, 3, [AGroup 25855 1 [sym_kElse]; AGroup 29027 1 [anon_sym_SEMI]; AGroup 3 3 syms_1]);
   (574083, 3, [AGroup 25849 1 [sym_kElse]; AGroup 29029 1 [anon_sym_SEMI]; AGroup 3 3 syms_1]);
   (574095, 3, [AGroup 29031 1 [sym_kExcept]; AGroup 29033 1 [sym_kFinally]; AGroup 3 3 syms_1]);
   (574107, 3, [AGroup 29035 1 [sym_kExcept]; AGroup 29037 1 [sym_kFinally]; AGroup 3 3 syms_1]);
   (574119, 3, [AGroup 22365 1 [anon_sym_COMMA]; AGroup 22615 1 [anon_sym_COLON]; AGroup 3 3 syms_1]);
   (574131, 2, [AGroup 10910 2 syms_815; AGroup 3 3 syms_1]);
   (574141, 3, [AGroup 28325 1 [anon_sym_COMMA]; AGroup 29039 1 [anon_sym_RPAREN]; AGroup 3 3 syms_1]);
   (574153, 3, [AGroup 23871 1 [anon_sym_DOT]; SGroup 14662 1 [sym_kEndDot]; AGroup 3 3 syms_1]);
   (574165, 3, [AGroup 25859 1 [sym_kElse]; AGroup 29041 1 [anon_sym_SEMI]; AGroup 3 3 syms_1]);
   (574177, 3, [AGroup 28406 1 [anon_sym_SEMI]; AGroup 29043 1 [anon_sym_RPAREN]; AGroup 3 3 syms_1]);
   (574189, 3, [AGroup 27735 1 [anon_sym_COMMA]; AGroup 29045 1 [anon_sym_RPAREN]; AGroup 3 3 syms_1]);
   (574201, 3, [AGroup 22365 1 [anon_sym_COMMA]; AGroup 22449 1 [anon_sym_COLON]; AGroup 3 3 syms_1]);
   (574213, 3, [AGroup 25619 1 [anon_sym_COMMA]; AGroup 29047 1 [anon_sym_COLON]; AGroup 3 3 syms_1]);
   (574225, 3, [AGroup 27674 1 [anon_sym_RPAREN]; AGroup 29049 1 [anon_sym_SEMI]; AGroup 3 3 syms_1]);
   (574237, 3, [AGroup 27855 1 [sym_kEq]; SGroup 12761 1 [sym_defaultValue]; AGroup 3 3 syms_1]);
   (574249, 3, [AGroup 29051 1 [sym_kExcept]; AGroup 29053 1 [sym_kFinally]; AGroup 3 3 syms_1]);
   (574261, 3, [AGroup 25785 1 [sym_kElse]; AGroup 29055 1 [anon_sym_SEMI]; AGroup 3 3 syms_1]);
   (574273, 3, [AGroup 27913 1 [sym_kEq]; SGroup 13607 1 [sym_defaultValue]; AGroup 3 3 syms_1]);
   (574285, 3, [AGroup 25855 1 [sym_kElse]; AGroup 29057 1 [anon_sym_SEMI]; AGroup 3 3 syms_1]);
   (574297, 3, [AGroup 22365 1 [anon_sym_COMMA]; AGroup 22746 1 [anon_sym_RBRACK]; AGroup 3 3 syms_1]);
   (574309, 3, [AGroup 25865 1 [sym_kElse]; AGroup 29059 1 [anon_sym_SEMI]; AGroup 3 3 syms_1]);
   (574321, 3, [AGroup 25849 1 [sym_kElse]; AGroup 29061 1 [anon_sym_SEMI]; AGroup 3 3 syms_1]);
   (574333, 3, [AGroup 25869 1 [sym_kElse]; AGroup 29063 1 [anon_sym_SEMI]; AGroup 3 3 syms_1]);
   (574345, 3, [AGroup 25875 1 [sym_kElse]; AGroup 29065 1 [anon_sym_SEMI]; AGroup 3 3 syms_1]);
   (574357, 3, [AGroup 22365 1 [anon_sym_COMMA]; AGroup 22672 1 [anon_sym_RBRACK]; AGroup 3 3 syms_1]);
   (574369, 3, [AGroup 29067 1 [sym_kExcept]; AGroup 29069 1 [sym_kFinally]; AGroup 3 3 syms_1]);
   (574381, 3, [AGroup 25785 1 [sym_kElse]; AGroup 29071 1 [anon_sym_SEMI]; AGroup 3 3 syms_1]);
   (574393, 3, [AGroup 22429 1 [anon_sym_COMMA]; AGroup 22431 1 [anon_sym_RBRACK]; AGroup 3 3 syms_1]);
   (574405, 3, [AGroup 29073 1 [anon_sym_LBRACK]; AGroup 29075 1 [sym_kOf]; AGroup 3 3 syms_1]);
   (574417, 3, [AGroup 25785 1 [sym_kElse]; AGroup 29077 1 [anon_sym_SEMI]; AGroup 3 3 syms_1]);
   (574429, 3, [AGroup 25855 1 [sym_kElse]; AGroup 29079 1 [anon_sym_SEMI]; AGroup 3 3 syms_1]);
   (574441, 2, [AGroup 29081 2 syms_186; AGroup 3 3 syms_1]);
   (574451, 3, [AGroup 25865 1 [sym_kElse]; AGroup 29083 1 [anon_sym_SEMI]; AGroup 3 3 syms_1]);
   (574463, 3, [AGroup 29085 1 [sym_kExcept]; AGroup 29087 1 [sym_kFinally]; AGroup 3 3 syms_1]);
   (574475, 3, [AGroup 17240 1 [sym_kElse]; AGroup 29089 1 [anon_sym_SEMI]; AGroup 3 3 syms_1]);
   (574487, 3, [AGroup 15293 1 [sym_kElse]; AGroup 29091 1 [anon_sym_SEMI]; AGroup 3 3 syms_1]);
   (574499, 3, [AGroup 15293 1 [sym_kElse]; AGroup 29093 1 [anon_sym_SEMI]; AGroup 3 3 syms_1]);
   (574511, 3, [AGroup 25721 1 [sym_kElse]; AGroup 29095 1 [anon_sym_SEMI]; AGroup 3 3 syms_1]);
   (574523, 3, [AGroup 25791 1 [sym_kElse]; AGroup 29097 1 [anon_sym_SEMI]; AGroup 3 3 syms_1]);
   (574535, 2, [AGroup 27733 2 syms_669; AGroup 3 3 syms_1]);
   (574545, 2, [AGroup 25673 2 syms_685; AGroup 3 3 syms_1]);
   (574555, 2, [AGroup 25675 2 syms_685; AGroup 3 3 syms_1]);
   (574565, 3, [AGroup 28406 1 [anon_sym_SEMI]; AGroup 29099 1 [anon_sym_RPAREN]; AGroup 3 3 syms_1]);
   (574577, 2, [AGroup 24240 2 syms_685; AGroup 3 3 syms_1]);
   (574587, 3, [AGroup 29101 1 [sym_kExcept]; AGroup 29103 1 [sym_kFinally]; AGroup 3 3 syms_1]);
   (574599, 2, [AGroup 29105 2 syms_186; AGroup 3 3 syms_1]);
   (574609, 3, [AGroup 27674 1 [anon_sym_RPAREN]; AGroup 29107 1 [anon_sym_SEMI]; AGroup 3 3 syms_1]);
   (574621, 3, [AGroup 20770 1 [anon_sym_COMMA]; AGroup 29109 1 [anon_sym_COLON]; AGroup 3 3 syms_1]);
   (574633, 3, [AGroup 25869 1 [sym_kElse]; AGroup 29111 1 [anon_sym_SEMI]; AGroup 3 3 syms_1]);
   (574645, 3, [AGroup 17240 1 [sym_kElse]; AGroup 29113 1 [anon_sym_SEMI]; AGroup 3 3 syms_1]);
   (574657, 3, [AGroup 26097 1 [sym_kEnd]; AGroup 28229 1 [sym_kElse]; AGroup 3 3 syms_1]);
   (574669, 3, [AGroup 27735 1 [anon_sym_COMMA]; AGroup 29115 1 [anon_sym_RPAREN]; AGroup 3 3 syms_1]);
   (574681, 3, [AGroup 22365 1 [anon_sym_COMMA]; AGroup 22684 1 [anon_sym_RBRACK]; AGroup 3 3 syms_1]);
   (574693, 3, [AGroup 22365 1 [anon_sym_COMMA]; AGroup 22415 1 [anon_sym_RBRACK]; AGroup 3 3 syms_1]);
   (574705, 3, [AGroup 15293 1 [sym_kElse]; AGroup 29117 1 [anon_sym_SEMI]; AGroup 3 3 syms_1]);
   (574717, 3, [AGroup 25609 1 [sym_kEnd]; AGroup 27636 1 [anon_sym_SEMI]; AGroup 3 3 syms_1]);
   (574729, 3, [AGroup 29119 1 [sym_kExcept]; AGroup 29121 1 [sym_kFinally]; AGroup 3 3 syms_1]);
   (574741, 2, [AGroup 29123 2 syms_186; AGroup 3 3 syms_1]);
   (574751, 3, [AGroup 29125 1 [sym_kExcept]; AGroup 29127 1 [sym_kFinally]; AGroup 3 3 syms_1]);
   (574763, 3, [AGroup 17254 1 [sym_kElse]; AGroup 29129 1 [anon_sym_SEMI]; AGroup 3 3 syms_1]);
   (574775, 3, [AGroup 17254 1 [sym_kElse]; AGroup 29131 1 [anon_sym_SEMI]; AGroup 3 3 syms_1]);
   (574787, 3, [AGroup 15353 1 [sym_kElse]; AGroup 29133 1 [anon_sym_SEMI]; AGroup 3 3 syms_1]);
   (574799, 3, [AGroup 25721 1 [sym_kUntil]; AGroup 28281 1 [anon_sym_SEMI]; AGroup 3 3 syms_1]);
   (574811, 3, [AGroup 22365 1 [anon_sym_COMMA]; AGroup 22419 1 [anon_sym_RBRACK]; AGroup 3 3 syms_1]);
   (574823, 3, [AGroup 17240 1 [sym_kUntil]; AGroup 28029 1 [anon_sym_SEMI]; AGroup 3 3 syms_1]);
   (574835, 3, [AGroup 25859 1 [sym_kElse]; AGroup 29135 1 [anon_sym_SEMI]; AGroup 3 3 syms_1]);
   (574847, 3, [AGroup 5 1 [sym_ppDirective]; AGroup 3 2 syms_5; AGroup 9810 2 syms_44]);
   (574859, 3, [AGroup 25865 1 [sym_kElse]; AGroup 29137 1 [anon_sym_SEMI]; AGroup 3 3 syms_1]);
   (574871, 3, [AGroup 22365 1 [anon_sym_COMMA]; AGroup 22535 1 [anon_sym_RBRACK]; AGroup 3 3 syms_1]);
   (574883, 2, [AGroup 25659 2 syms_688; AGroup 3 3 syms_1]);
   (574893, 3, [AGroup 28291 1 [anon_sym_COMMA]; AGroup 29139 1 [anon_sym_RBRACK]; AGroup 3 3 syms_1]);
   (574905, 3, [AGroup 25859 1 [sym_kElse]; AGroup 29141 1 [anon_sym_SEMI]; AGroup 3 3 syms_1]);
   (574917, 3, [AGroup 25791 1 [sym_kEnd]; AGroup 28146 1 [anon_sym_SEMI]; AGroup 3 3 syms_1]);
   (574929, 3, [AGroup 29143 1 [sym_kExcept]; AGroup 29145 1 [sym_kFinally]; AGroup 3 3 syms_1]);
   (574941, 3, [AGroup 25591 1 [sym_kElse]; AGroup 29147 1 [anon_sym_SEMI]; AGroup 3 3 syms_1]);
   (574953, 3, [AGroup 25609 1 [sym_kElse]; AGroup 29149 1 [anon_sym_SEMI]; AGroup 3 3 syms_1]);
   (574965, 3, [AGroup 15293 1 [sym_kUntil]; AGroup 28035 1 [anon_sym_SEMI]; AGroup 3 3 syms_1]);
   (574977, 3, [AGroup 17240 1 [sym_kElse]; AGroup 29151 1 [anon_sym_SEMI]; AGroup 3 3 syms_1]);
   (574989, 3, [AGroup 15293 1 [sym_kElse]; AGroup 29153 1 [anon_sym_SEMI]; AGroup 3 3 syms_1]);
   (575001, 3, [AGroup 28317 1 [anon_sym_COMMA]; AGroup 29155 1 [anon_sym_SEMI]; AGroup 3 3 syms_1]);
   (575013, 3, [AGroup 25869 1 [sym_kEnd]; AGroup 28055 1 [anon_sym_SEMI]; AGroup 3 3 syms_1]);
   (575025, 3, [AGroup 28492 1 [anon_sym_RPAREN]; AGroup 29157 1 [anon_sym_SEMI]; AGroup 3 3 syms_1]);
   (575037, 3, [AGroup 28325 1 [anon_sym_COMMA]; AGroup 29159 1 [anon_sym_RPAREN]; AGroup 3 3 syms_1])
  ].

(** States 13559 to 13658. *)
Definition small_runs_13559 : list small_run :=
  [
   (575049, 3, [AGroup 28317 1 [anon_sym_COMMA]; AGroup 29161 1 [anon_sym_SEMI]; AGroup 3 3 syms_1]);
   (575061, 3, [AGroup 25799 1 [sym_kEnd]; AGroup 27857 1 [anon_sym_SEMI]; AGroup 3 3 syms_1]);
   (575073, 3, [AGroup 25875 1 [sym_kElse]; AGroup 29163 1 [anon_sym_SEMI]; AGroup 3 3 syms_1]);
   (575085, 3, [AGroup 29165 1 [sym_kExcept]; AGroup 29167 1 [sym_kFinally]; AGroup 3 3 syms_1]);
   (575097, 3, [AGroup 10720 1 [sym_kOn]; AGroup 29169 1 [sym_kElse]; AGroup 3 3 syms_1]);
   (575109, 3, [AGroup 22365 1 [anon_sym_COMMA]; AGroup 22488 1 [anon_sym_RBRACK]; AGroup 3 3 syms_1]);
   (575121, 3, [AGroup 22365 1 [anon_sym_COMMA]; AGroup 22750 1 [anon_sym_RBRACK]; AGroup 3 3 syms_1]);
   (575133, 3, [AGroup 25609 1 [sym_kElse]; AGroup 29171 1 [anon_sym_SEMI]; AGroup 3 3 syms_1]);
   (575145, 3, [AGroup 25739 1 [sym_kElse]; AGroup 29173 1 [anon_sym_SEMI]; AGroup 3 3 syms_1]);
   (575157, 2, [AGroup 26087 2 syms_110; AGroup 3 3 syms_1]);
   (575167, 3, [AGroup 29175 1 [sym_kArray]; AGroup 29177 1 [sym_kRecord]; AGroup 3 3 syms_1]);
   (575179, 3, [AGroup 26783 1 [anon_sym_RPAREN]; AGroup 29179 1 [anon_sym_SEMI]; AGroup 3 3 syms_1]);
   (575191, 2, [AGroup 26087 2 syms_110; AGroup 3 3 syms_1]);
   (575201, 3, [AGroup 25687 1 [sym_kElse]; AGroup 29181 1 [anon_sym_SEMI]; AGroup 3 3 syms_1]);
   (575213, 2, [AGroup 29183 2 syms_186; AGroup 3 3 syms_1]);
   (575223, 3, [AGroup 28383 1 [anon_sym_COMMA]; AGroup 29185 1 [anon_sym_SEMI]; AGroup 3 3 syms_1]);
   (575235, 3, [AGroup 28321 1 [anon_sym_SEMI]; AGroup 29187 1 [anon_sym_RPAREN]; AGroup 3 3 syms_1]);
   (575247, 3, [AGroup 25791 1 [sym_kUntil]; AGroup 27626 1 [anon_sym_SEMI]; AGroup 3 3 syms_1]);
   (575259, 3, [AGroup 25865 1 [sym_kElse]; AGroup 29189 1 [anon_sym_SEMI]; AGroup 3 3 syms_1]);
   (575271, 3, [AGroup 25721 1 [sym_kElse]; AGroup 29191 1 [anon_sym_SEMI]; AGroup 3 3 syms_1]);
   (575283, 3, [AGroup 22365 1 [anon_sym_COMMA]; AGroup 22437 1 [anon_sym_RBRACK]; AGroup 3 3 syms_1]);
   (575295, 3, [AGroup 25869 1 [sym_kElse]; AGroup 29193 1 [anon_sym_SEMI]; AGroup 3 3 syms_1]);
   (575307, 3, [AGroup 24916 1 [sym_kEq]; SGroup 14309 1 [sym_defaultValue]; AGroup 3 3 syms_1]);
   (575319, 3, [AGroup 28321 1 [anon_sym_SEMI]; AGroup 29195 1 [anon_sym_RPAREN]; AGroup 3 3 syms_1]);
   (575331, 2, [AGroup 29197 2 syms_112; AGroup 3 3 syms_1]);
   (575341, 3, [AGroup 29199 1 [anon_sym_LBRACK]; AGroup 29201 1 [sym_kOf]; AGroup 3 3 syms_1]);
   (575353, 3, [AGroup 25875 1 [sym_kElse]; AGroup 29203 1 [anon_sym_SEMI]; AGroup 3 3 syms_1]);
   (575365, 3, [AGroup 28291 1 [anon_sym_COMMA]; AGroup 29205 1 [anon_sym_RBRACK]; AGroup 3 3 syms_1]);
   (575377, 3, [AGroup 25717 1 [sym_kElse]; AGroup 29207 1 [anon_sym_SEMI]; AGroup 3 3 syms_1]);
   (575389, 3, [AGroup 25721 1 [sym_kElse]; AGroup 29209 1 [anon_sym_SEMI]; AGroup 3 3 syms_1]);
   (575401, 3, [AGroup 25739 1 [sym_kElse]; AGroup 29211 1 [anon_sym_SEMI]; AGroup 3 3 syms_1]);
   (575413, 3, [AGroup 25753 1 [sym_kElse]; AGroup 29213 1 [anon_sym_SEMI]; AGroup 3 3 syms_1]);
   (575425, 3, [AGroup 25739 1 [sym_kElse]; AGroup 29215 1 [anon_sym_SEMI]; AGroup 3 3 syms_1]);
   (575437, 3, [AGroup 22365 1 [anon_sym_COMMA]; AGroup 22752 1 [anon_sym_COLON]; AGroup 3 3 syms_1]);
   (575449, 3, [AGroup 25785 1 [sym_kElse]; AGroup 29217 1 [anon_sym_SEMI]; AGroup 3 3 syms_1]);
   (575461, 3, [AGroup 29219 1 [sym_identifier]; SGroup 13415 1 [aux_sym_moduleName_repeat1];
     AGroup 3 3 syms_1]);
   (575473, 3, [AGroup 25859 1 [sym_kElse]; AGroup 29221 1 [anon_sym_SEMI]; AGroup 3 3 syms_1]);
   (575485, 3, [AGroup 22365 1 [anon_sym_COMMA]; AGroup 22517 1 [anon_sym_RBRACK]; AGroup 3 3 syms_1]);
   (575497, 3, [AGroup 25753 1 [sym_kElse]; AGroup 29223 1 [anon_sym_SEMI]; AGroup 3 3 syms_1]);
   (575509, 3, [AGroup 25855 1 [sym_kEnd]; AGroup 27893 1 [anon_sym_SEMI]; AGroup 3 3 syms_1]);
   (575521, 3, [AGroup 22365 1 [anon_sym_COMMA]; AGroup 22453 1 [anon_sym_RBRACK]; AGroup 3 3 syms_1]);
   (575533, 3, [AGroup 17254 1 [sym_kElse]; AGroup 29225 1 [anon_sym_SEMI]; AGroup 3 3 syms_1]);
   (575545, 3, [AGroup 25753 1 [sym_kUntil]; AGroup 28009 1 [anon_sym_SEMI]; AGroup 3 3 syms_1]);
   (575557, 3, [AGroup 28291 1 [anon_sym_COMMA]; AGroup 29227 1 [anon_sym_RBRACK]; AGroup 3 3 syms_1]);
   (575569, 3, [AGroup 28345 1 [anon_sym_SEMI]; AGroup 29229 1 [anon_sym_RBRACK]; AGroup 3 3 syms_1]);
   (575581, 2, [AGroup 29231 2 syms_129; AGroup 3 3 syms_1]);
   (575591, 3, [AGroup 25799 1 [sym_kElse]; AGroup 29233 1 [anon_sym_SEMI]; AGroup 3 3 syms_1]);
   (575603, 3, [AGroup 28345 1 [anon_sym_SEMI]; AGroup 29235 1 [anon_sym_RBRACK]; AGroup 3 3 syms_1]);
   (575615, 2, [AGroup 25661 2 syms_688; AGroup 3 3 syms_1]);
   (575625, 2, [AGroup 29237 2 syms_110; AGroup 3 3 syms_1]);
   (575635, 2, [AGroup 25645 2 syms_684; AGroup 3 3 syms_1]);
   (575645, 3, [AGroup 15353 1 [sym_kElse]; AGroup 29239 1 [anon_sym_SEMI]; AGroup 3 3 syms_1]);
   (575657, 3, [AGroup 29241 1 [sym_identifier]; SGroup 13059 1 [aux_sym_genericArg_repeat1];
     AGroup 3 3 syms_1]);
   (575669, 3, [AGroup 15353 1 [sym_kElse]; AGroup 29243 1 [anon_sym_SEMI]; AGroup 3 3 syms_1]);
   (575681, 2, [AGroup 25657 2 syms_685; AGroup 3 3 syms_1]);
   (575691, 3, [AGroup 25785 1 [sym_kElse]; AGroup 29245 1 [anon_sym_SEMI]; AGroup 3 3 syms_1]);
   (575703, 3, [AGroup 25859 1 [sym_kElse]; AGroup 29247 1 [anon_sym_SEMI]; AGroup 3 3 syms_1]);
   (575715, 3, [AGroup 24916 1 [sym_kEq]; SGroup 14535 1 [sym_defaultValue]; AGroup 3 3 syms_1]);
   (575727, 3, [AGroup 28321 1 [anon_sym_SEMI]; AGroup 29249 1 [anon_sym_RPAREN]; AGroup 3 3 syms_1]);
   (575739, 3, [AGroup 25869 1 [sym_kElse]; AGroup 29251 1 [anon_sym_SEMI]; AGroup 3 3 syms_1]);
   (575751, 2, [AGroup 25659 2 syms_685; AGroup 3 3 syms_1]);
   (575761, 3, [AGroup 28406 1 [anon_sym_SEMI]; AGroup 29253 1 [anon_sym_RPAREN]; AGroup 3 3 syms_1]);
   (575773, 2, [AGroup 10878 2 syms_815; AGroup 3 3 syms_1]);
   (575783, 3, [AGroup 18850 1 [sym_kElse]; AGroup 26097 1 [sym_kEnd]; AGroup 3 3 syms_1]);
   (575795, 3, [AGroup 26783 1 [anon_sym_RPAREN]; AGroup 29255 1 [anon_sym_SEMI]; AGroup 3 3 syms_1]);
   (575807, 3, [AGroup 22423 1 [anon_sym_RPAREN]; AGroup 29257 1 [anon_sym_SEMI]; AGroup 3 3 syms_1]);
   (575819, 3, [AGroup 28102 1 [sym_kEq]; SGroup 13690 1 [sym_defaultValue]; AGroup 3 3 syms_1]);
   (575831, 3, [AGroup 25849 1 [sym_kElse]; AGroup 29259 1 [anon_sym_SEMI]; AGroup 3 3 syms_1]);
   (575843, 4, [AGroup 5 1 [sym_ppDirective]; AGroup 59 1 [aux_sym_ppUsesBlock_token3];
     SGroup 6453 1 [sym__ppEndIf]; AGroup 3 2 syms_5]);
   (575857, 3, [AGroup 22365 1 [anon_sym_COMMA]; AGroup 22690 1 [anon_sym_RBRACK]; AGroup 3 3 syms_1]);
   (575869, 3, [AGroup 25855 1 [sym_kElse]; AGroup 29261 1 [anon_sym_SEMI]; AGroup 3 3 syms_1]);
   (575881, 3, [AGroup 28291 1 [anon_sym_COMMA]; AGroup 29263 1 [anon_sym_RBRACK]; AGroup 3 3 syms_1]);
   (575893, 3, [AGroup 28291 1 [anon_sym_COMMA]; AGroup 29265 1 [anon_sym_RBRACK]; AGroup 3 3 syms_1]);
   (575905, 3, [AGroup 28345 1 [anon_sym_SEMI]; AGroup 29267 1 [anon_sym_RBRACK]; AGroup 3 3 syms_1]);
   (575917, 3, [AGroup 25859 1 [sym_kElse]; AGroup 29269 1 [anon_sym_SEMI]; AGroup 3 3 syms_1]);
   (575929, 2, [AGroup 10818 2 syms_815; AGroup 3 3 syms_1]);
   (575939, 3, [AGroup 28321 1 [anon_sym_SEMI]; AGroup 29271 1 [anon_sym_RPAREN]; AGroup 3 3 syms_1]);
   (575951, 3, [AGroup 25859 1 [sym_kElse]; AGroup 29273 1 [anon_sym_SEMI]; AGroup 3 3 syms_1]);
   (575963, 3, [AGroup 28406 1 [anon_sym_SEMI]; AGroup 29275 1 [anon_sym_RPAREN]; AGroup 3 3 syms_1]);
   (575975, 3, [AGroup 25687 1 [sym_kElse]; AGroup 29277 1 [anon_sym_SEMI]; AGroup 3 3 syms_1]);
   (575987, 3, [AGroup 17250 1 [anon_sym_RBRACK]; AGroup 22429 1 [anon_sym_COMMA]; AGroup 3 3 syms_1]);
   (575999, 3, [AGroup 25869 1 [sym_kUntil]; AGroup 27987 1 [anon_sym_SEMI]; AGroup 3 3 syms_1]);
   (576011, 3, [AGroup 25785 1 [sym_kElse]; AGroup 29279 1 [anon_sym_SEMI]; AGroup 3 3 syms_1]);
   (576023, 3, [AGroup 25185 1 [sym_kArray]; AGroup 29281 1 [sym_kRecord]; AGroup 3 3 syms_1]);
   (576035, 2, [AGroup 10850 2 syms_815; AGroup 3 3 syms_1]);
   (576045, 3, [AGroup 25875 1 [sym_kElse]; AGroup 29283 1 [anon_sym_SEMI]; AGroup 3 3 syms_1]);
   (576057, 3, [AGroup 5 1 [sym_ppDirective]; AGroup 3 2 syms_5; AGroup 25073 2 syms_44]);
   (576069, 2, [AGroup 25673 2 syms_684; AGroup 3 3 syms_1]);
   (576079, 3, [AGroup 25865 1 [sym_kElse]; AGroup 29285 1 [anon_sym_SEMI]; AGroup 3 3 syms_1]);
   (576091, 3, [AGroup 26825 1 [anon_sym_RPAREN]; AGroup 29287 1 [anon_sym_SEMI]; AGroup 3 3 syms_1]);
   (576103, 3, [AGroup 25869 1 [sym_kElse]; AGroup 29289 1 [anon_sym_SEMI]; AGroup 3 3 syms_1]);
   (576115, 3, [AGroup 25865 1 [sym_kElse]; AGroup 29291 1 [anon_sym_SEMI]; AGroup 3 3 syms_1]);
   (576127, 3, [AGroup 25875 1 [sym_kElse]; AGroup 29293 1 [anon_sym_SEMI]; AGroup 3 3 syms_1]);
   (576139, 3, [AGroup 22365 1 [anon_sym_COMMA]; AGroup 22464 1 [anon_sym_RBRACK]; AGroup 3 3 syms_1]);
   (576151, 3, [AGroup 28406 1 [anon_sym_SEMI]; AGroup 29295 1 [anon_sym_RPAREN]; AGroup 3 3 syms_1]);
   (576163, 3, [AGroup 27735 1 [anon_sym_COMMA]; AGroup 29297 1 [anon_sym_RPAREN]; AGroup 3 3 syms_1]);
   (576175, 3, [AGroup 25869 1 [sym_kElse]; AGroup 29299 1 [anon_sym_SEMI]; AGroup 3 3 syms_1]);
   (576187, 3, [AGroup 22365 1 [anon_sym_COMMA]; AGroup 22470 1 [anon_sym_RBRACK]; AGroup 3 3 syms_1]);
   (576199, 3, [AGroup 22365 1 [anon_sym_COMMA]; AGroup 22545 1 [anon_sym_RBRACK]; AGroup 3 3 syms_1]);
   (576211, 3, [AGroup 25875 1 [sym_kElse]; AGroup 29301 1 [anon_sym_SEMI]; AGroup 3 3 syms_1])
  ].

(** States 13659 to 13758. *)
Definition small_runs_13659 : list small_run :=
  [
   (576223, 3, [AGroup 22365 1 [anon_sym_COMMA]; AGroup 22694 1 [anon_sym_RBRACK]; AGroup 3 3 syms_1]);
   (576235, 3, [AGroup 25785 1 [sym_kElse]; AGroup 29303 1 [anon_sym_SEMI]; AGroup 3 3 syms_1]);
   (576247, 2, [AGroup 26087 2 syms_109; AGroup 3 3 syms_1]);
   (576257, 2, [AGroup 29305 2 syms_186; AGroup 3 3 syms_1]);
   (576267, 3, [AGroup 5 1 [sym_ppDirective]; AGroup 3 2 syms_5; AGroup 25131 2 syms_44]);
   (576279, 2, [AGroup 26087 2 syms_109; AGroup 3 3 syms_1]);
   (576289, 4, [AGroup 5 1 [sym_ppDirective]; AGroup 59 1 [aux_sym_ppUsesBlock_token3];
     SGroup 6458 1 [sym__ppEndIf]; AGroup 3 2 syms_5]);
   (576303, 3, [AGroup 17240 1 [sym_kElse]; AGroup 29307 1 [anon_sym_SEMI]; AGroup 3 3 syms_1]);
   (576315, 3, [AGroup 15293 1 [sym_kElse]; AGroup 29309 1 [anon_sym_SEMI]; AGroup 3 3 syms_1]);
   (576327, 3, [AGroup 22429 1 [anon_sym_COMMA]; AGroup 22439 1 [anon_sym_RBRACK]; AGroup 3 3 syms_1]);
   (576339, 3, [AGroup 25791 1 [sym_kElse]; AGroup 29311 1 [anon_sym_SEMI]; AGroup 3 3 syms_1]);
   (576351, 3, [AGroup 28269 1 [sym_kEq]; SGroup 12935 1 [sym_defaultValue]; AGroup 3 3 syms_1]);
   (576363, 3, [AGroup 25799 1 [sym_kUntil]; AGroup 27721 1 [anon_sym_SEMI]; AGroup 3 3 syms_1]);
   (576375, 3, [AGroup 22365 1 [anon_sym_COMMA]; AGroup 22724 1 [anon_sym_RBRACK]; AGroup 3 3 syms_1]);
   (576387, 2, [AGroup 29313 2 syms_186; AGroup 3 3 syms_1]);
   (576397, 3, [AGroup 25619 1 [anon_sym_COMMA]; AGroup 29315 1 [anon_sym_COLON]; AGroup 3 3 syms_1]);
   (576409, 3, [AGroup 20770 1 [anon_sym_COMMA]; AGroup 28287 1 [anon_sym_COLON]; AGroup 3 3 syms_1]);
   (576421, 3, [AGroup 25865 1 [sym_kEnd]; AGroup 28021 1 [anon_sym_SEMI]; AGroup 3 3 syms_1]);
   (576433, 3, [AGroup 22429 1 [anon_sym_COMMA]; AGroup 22441 1 [anon_sym_RBRACK]; AGroup 3 3 syms_1]);
   (576445, 4, [AGroup 5 1 [sym_ppDirective]; AGroup 26538 1 [anon_sym_LPAREN];
     AGroup 27310 1 [anon_sym_COMMA]; AGroup 3 2 syms_5]);
   (576459, 3, [AGroup 27735 1 [anon_sym_COMMA]; AGroup 29317 1 [anon_sym_RPAREN]; AGroup 3 3 syms_1]);
   (576471, 2, [AGroup 29319 2 syms_686; AGroup 3 3 syms_1]);
   (576481, 3, [AGroup 5 1 [sym_ppDirective]; AGroup 3 2 syms_5; AGroup 29321 2 syms_44]);
   (576493, 3, [AGroup 25687 1 [sym_kElse]; AGroup 29323 1 [anon_sym_SEMI]; AGroup 3 3 syms_1]);
   (576505, 3, [AGroup 25619 1 [anon_sym_COMMA]; AGroup 29325 1 [anon_sym_COLON]; AGroup 3 3 syms_1]);
   (576517, 3, [AGroup 20770 1 [anon_sym_COMMA]; AGroup 29327 1 [anon_sym_COLON]; AGroup 3 3 syms_1]);
   (576529, 3, [AGroup 25619 1 [anon_sym_COMMA]; AGroup 29329 1 [anon_sym_COLON]; AGroup 3 3 syms_1]);
   (576541, 3, [AGroup 20770 1 [anon_sym_COMMA]; AGroup 29331 1 [anon_sym_COLON]; AGroup 3 3 syms_1]);
   (576553, 2, [AGroup 29333 2 syms_186; AGroup 3 3 syms_1]);
   (576563, 3, [AGroup 29335 1 [sym_kExcept]; AGroup 29337 1 [sym_kFinally]; AGroup 3 3 syms_1]);
   (576575, 3, [AGroup 15353 1 [sym_kElse]; AGroup 27218 1 [anon_sym_SEMI]; AGroup 3 3 syms_1]);
   (576587, 2, [AGroup 25661 2 syms_685; AGroup 3 3 syms_1]);
   (576597, 3, [AGroup 26063 1 [anon_sym_COMMA]; AGroup 29339 1 [anon_sym_COLON]; AGroup 3 3 syms_1]);
   (576609, 3, [AGroup 25849 1 [sym_kEnd]; AGroup 27891 1 [anon_sym_SEMI]; AGroup 3 3 syms_1]);
   (576621, 3, [AGroup 25591 1 [sym_kElse]; AGroup 29341 1 [anon_sym_SEMI]; AGroup 3 3 syms_1]);
   (576633, 3, [AGroup 28466 1 [anon_sym_COMMA]; AGroup 29343 1 [anon_sym_RPAREN]; AGroup 3 3 syms_1]);
   (576645, 3, [AGroup 25619 1 [anon_sym_COMMA]; AGroup 29345 1 [anon_sym_COLON]; AGroup 3 3 syms_1]);
   (576657, 3, [AGroup 20770 1 [anon_sym_COMMA]; AGroup 29347 1 [anon_sym_COLON]; AGroup 3 3 syms_1]);
   (576669, 3, [AGroup 22365 1 [anon_sym_COMMA]; AGroup 22482 1 [anon_sym_RBRACK]; AGroup 3 3 syms_1]);
   (576681, 2, [AGroup 10710 2 syms_815; AGroup 3 3 syms_1]);
   (576691, 2, [AGroup 28500 2 syms_669; AGroup 3 3 syms_1]);
   (576701, 3, [AGroup 25609 1 [sym_kElse]; AGroup 29349 1 [anon_sym_SEMI]; AGroup 3 3 syms_1]);
   (576713, 3, [AGroup 26063 1 [anon_sym_COMMA]; AGroup 29351 1 [anon_sym_COLON]; AGroup 3 3 syms_1]);
   (576725, 3, [AGroup 17240 1 [sym_kElse]; AGroup 29353 1 [anon_sym_SEMI]; AGroup 3 3 syms_1]);
   (576737, 3, [AGroup 22365 1 [anon_sym_COMMA]; AGroup 22490 1 [anon_sym_RBRACK]; AGroup 3 3 syms_1]);
   (576749, 3, [AGroup 15293 1 [sym_kElse]; AGroup 29355 1 [anon_sym_SEMI]; AGroup 3 3 syms_1]);
   (576761, 3, [AGroup 25739 1 [sym_kElse]; AGroup 29357 1 [anon_sym_SEMI]; AGroup 3 3 syms_1]);
   (576773, 3, [AGroup 24178 1 [sym_identifier]; SGroup 13992 1 [aux_sym_genericArg_repeat1];
     AGroup 3 3 syms_1]);
   (576785, 3, [AGroup 22365 1 [anon_sym_COMMA]; AGroup 22732 1 [anon_sym_RBRACK]; AGroup 3 3 syms_1]);
   (576797, 2, [AGroup 10886 2 syms_815; AGroup 3 3 syms_1]);
   (576807, 3, [AGroup 5 1 [sym_ppDirective]; AGroup 3 2 syms_5; AGroup 10924 2 syms_44]);
   (576819, 3, [AGroup 17254 1 [sym_kElse]; AGroup 29359 1 [anon_sym_SEMI]; AGroup 3 3 syms_1]);
   (576831, 3, [AGroup 22365 1 [anon_sym_COMMA]; AGroup 22764 1 [anon_sym_RBRACK]; AGroup 3 3 syms_1]);
   (576843, 3, [AGroup 15353 1 [sym_kElse]; AGroup 29361 1 [anon_sym_SEMI]; AGroup 3 3 syms_1]);
   (576855, 2, [AGroup 25675 2 syms_684; AGroup 3 3 syms_1]);
   (576865, 3, [AGroup 25791 1 [sym_kElse]; AGroup 29363 1 [anon_sym_SEMI]; AGroup 3 3 syms_1]);
   (576877, 3, [AGroup 25753 1 [sym_kElse]; AGroup 29365 1 [anon_sym_SEMI]; AGroup 3 3 syms_1]);
   (576889, 3, [AGroup 28466 1 [anon_sym_COMMA]; AGroup 29367 1 [anon_sym_RPAREN]; AGroup 3 3 syms_1]);
   (576901, 2, [AGroup 10854 2 syms_815; AGroup 3 3 syms_1]);
   (576911, 3, [AGroup 5 1 [sym_ppDirective]; AGroup 3 2 syms_5; AGroup 29369 2 syms_44]);
   (576923, 3, [AGroup 28466 1 [anon_sym_COMMA]; AGroup 29371 1 [anon_sym_RPAREN]; AGroup 3 3 syms_1]);
   (576935, 2, [AGroup 29373 2 syms_186; AGroup 3 3 syms_1]);
   (576945, 3, [AGroup 17254 1 [sym_kElse]; AGroup 29375 1 [anon_sym_SEMI]; AGroup 3 3 syms_1]);
   (576957, 3, [AGroup 25591 1 [sym_kUntil]; AGroup 27873 1 [anon_sym_SEMI]; AGroup 3 3 syms_1]);
   (576969, 3, [AGroup 5 1 [sym_ppDirective]; AGroup 3 2 syms_5; AGroup 9918 2 syms_44]);
   (576981, 3, [AGroup 15353 1 [sym_kElse]; AGroup 29377 1 [anon_sym_SEMI]; AGroup 3 3 syms_1]);
   (576993, 3, [AGroup 28406 1 [anon_sym_SEMI]; AGroup 29379 1 [anon_sym_RPAREN]; AGroup 3 3 syms_1]);
   (577005, 3, [AGroup 25619 1 [anon_sym_COMMA]; AGroup 29381 1 [anon_sym_COLON]; AGroup 3 3 syms_1]);
   (577017, 3, [AGroup 20770 1 [anon_sym_COMMA]; AGroup 29383 1 [anon_sym_COLON]; AGroup 3 3 syms_1]);
   (577029, 3, [AGroup 27735 1 [anon_sym_COMMA]; AGroup 29385 1 [anon_sym_RPAREN]; AGroup 3 3 syms_1]);
   (577041, 3, [AGroup 5 1 [sym_ppDirective]; AGroup 3 2 syms_5; AGroup 25135 2 syms_44]);
   (577053, 3, [AGroup 25591 1 [sym_kElse]; AGroup 29387 1 [anon_sym_SEMI]; AGroup 3 3 syms_1]);
   (577065, 3, [AGroup 25609 1 [sym_kElse]; AGroup 29389 1 [anon_sym_SEMI]; AGroup 3 3 syms_1]);
   (577077, 3, [AGroup 25687 1 [sym_kUntil]; AGroup 28176 1 [anon_sym_SEMI]; AGroup 3 3 syms_1]);
   (577089, 2, [AGroup 29391 2 syms_686; AGroup 3 3 syms_1]);
   (577099, 3, [AGroup 22365 1 [anon_sym_COMMA]; AGroup 22494 1 [anon_sym_RBRACK]; AGroup 3 3 syms_1]);
   (577111, 3, [AGroup 29393 1 [anon_sym_SEMI]; AGroup 29395 1 [anon_sym_RPAREN]; AGroup 3 3 syms_1]);
   (577123, 3, [AGroup 25753 1 [sym_kElse]; AGroup 29397 1 [anon_sym_SEMI]; AGroup 3 3 syms_1]);
   (577135, 3, [AGroup 25619 1 [anon_sym_COMMA]; AGroup 29399 1 [anon_sym_COLON]; AGroup 3 3 syms_1]);
   (577147, 3, [AGroup 20770 1 [anon_sym_COMMA]; AGroup 29401 1 [anon_sym_COLON]; AGroup 3 3 syms_1]);
   (577159, 3, [AGroup 25619 1 [anon_sym_COMMA]; AGroup 29403 1 [anon_sym_COLON]; AGroup 3 3 syms_1]);
   (577171, 3, [AGroup 20770 1 [anon_sym_COMMA]; AGroup 29405 1 [anon_sym_COLON]; AGroup 3 3 syms_1]);
   (577183, 3, [AGroup 22365 1 [anon_sym_COMMA]; AGroup 22496 1 [anon_sym_RBRACK]; AGroup 3 3 syms_1]);
   (577195, 3, [AGroup 5 1 [sym_ppDirective]; AGroup 3 2 syms_5; AGroup 25157 2 syms_44]);
   (577207, 3, [AGroup 29407 1 [sym_kExcept]; AGroup 29409 1 [sym_kFinally]; AGroup 3 3 syms_1]);
   (577219, 3, [AGroup 22365 1 [anon_sym_COMMA]; AGroup 22686 1 [anon_sym_RBRACK]; AGroup 3 3 syms_1]);
   (577231, 3, [AGroup 15353 1 [sym_kElse]; AGroup 29411 1 [anon_sym_SEMI]; AGroup 3 3 syms_1]);
   (577243, 3, [AGroup 25791 1 [sym_kElse]; AGroup 29413 1 [anon_sym_SEMI]; AGroup 3 3 syms_1]);
   (577255, 3, [AGroup 25619 1 [anon_sym_COMMA]; AGroup 29415 1 [anon_sym_COLON]; AGroup 3 3 syms_1]);
   (577267, 3, [AGroup 20770 1 [anon_sym_COMMA]; AGroup 29417 1 [anon_sym_COLON]; AGroup 3 3 syms_1]);
   (577279, 3, [AGroup 27694 1 [sym_kEq]; SGroup 12065 1 [sym_defaultValue]; AGroup 3 3 syms_1]);
   (577291, 3, [AGroup 22365 1 [anon_sym_COMMA]; AGroup 22754 1 [anon_sym_RBRACK]; AGroup 3 3 syms_1]);
   (577303, 2, [AGroup 29419 2 syms_186; AGroup 3 3 syms_1]);
   (577313, 3, [AGroup 22365 1 [anon_sym_COMMA]; AGroup 22756 1 [anon_sym_RBRACK]; AGroup 3 3 syms_1]);
   (577325, 3, [AGroup 28406 1 [anon_sym_SEMI]; AGroup 29421 1 [anon_sym_RPAREN]; AGroup 3 3 syms_1]);
   (577337, 3, [AGroup 22365 1 [anon_sym_COMMA]; AGroup 22480 1 [anon_sym_COLON]; AGroup 3 3 syms_1]);
   (577349, 3, [AGroup 22365 1 [anon_sym_COMMA]; AGroup 22541 1 [anon_sym_RBRACK]; AGroup 3 3 syms_1]);
   (577361, 3, [AGroup 25849 1 [sym_kElse]; AGroup 29423 1 [anon_sym_SEMI]; AGroup 3 3 syms_1]);
   (577373, 3, [AGroup 25619 1 [anon_sym_COMMA]; AGroup 29425 1 [anon_sym_COLON]; AGroup 3 3 syms_1]);
   (577385, 3, [AGroup 20770 1 [anon_sym_COMMA]; AGroup 29427 1 [anon_sym_COLON]; AGroup 3 3 syms_1])
  ].

(** States 13759 to 13858. *)
Definition small_runs_13759 : list small_run :=
  [
   (577397, 3, [AGroup 25687 1 [sym_kElse]; AGroup 29429 1 [anon_sym_SEMI]; AGroup 3 3 syms_1]);
   (577409, 2, [AGroup 29431 2 syms_186; AGroup 3 3 syms_1]);
   (577419, 2, [AGroup 10774 2 syms_815; AGroup 3 3 syms_1]);
   (577429, 3, [AGroup 27735 1 [anon_sym_COMMA]; AGroup 29433 1 [anon_sym_RPAREN]; AGroup 3 3 syms_1]);
   (577441, 3, [AGroup 29435 1 [sym_kExcept]; AGroup 29437 1 [sym_kFinally]; AGroup 3 3 syms_1]);
   (577453, 2, [AGroup 15592 2 syms_816; AGroup 3 3 syms_1]);
   (577463, 2, [AGroup 29439 2 syms_686; AGroup 3 3 syms_1]);
   (577473, 3, [AGroup 25591 1 [sym_kElse]; AGroup 29441 1 [anon_sym_SEMI]; AGroup 3 3 syms_1]);
   (577485, 3, [AGroup 25849 1 [sym_kUntil]; AGroup 27797 1 [anon_sym_SEMI]; AGroup 3 3 syms_1]);
   (577497, 3, [AGroup 25619 1 [anon_sym_COMMA]; AGroup 29443 1 [anon_sym_COLON]; AGroup 3 3 syms_1]);
   (577509, 3, [AGroup 20770 1 [anon_sym_COMMA]; AGroup 29445 1 [anon_sym_COLON]; AGroup 3 3 syms_1]);
   (577521, 3, [AGroup 25619 1 [anon_sym_COMMA]; AGroup 29447 1 [anon_sym_COLON]; AGroup 3 3 syms_1]);
   (577533, 3, [AGroup 20770 1 [anon_sym_COMMA]; AGroup 29449 1 [anon_sym_COLON]; AGroup 3 3 syms_1]);
   (577545, 3, [AGroup 22365 1 [anon_sym_COMMA]; AGroup 22502 1 [anon_sym_RBRACK]; AGroup 3 3 syms_1]);
   (577557, 3, [AGroup 25717 1 [sym_kElse]; AGroup 29451 1 [anon_sym_SEMI]; AGroup 3 3 syms_1]);
   (577569, 2, [AGroup 29453 2 syms_686; AGroup 3 3 syms_1]);
   (577579, 3, [AGroup 29455 1 [sym_kExcept]; AGroup 29457 1 [sym_kFinally]; AGroup 3 3 syms_1]);
   (577591, 3, [AGroup 25687 1 [sym_kElse]; AGroup 29459 1 [anon_sym_SEMI]; AGroup 3 3 syms_1]);
   (577603, 2, [AGroup 4439 2 syms_112; AGroup 3 3 syms_1]);
   (577613, 3, [AGroup 25619 1 [anon_sym_COMMA]; AGroup 29461 1 [anon_sym_COLON]; AGroup 3 3 syms_1]);
   (577625, 3, [AGroup 20770 1 [anon_sym_COMMA]; AGroup 29463 1 [anon_sym_COLON]; AGroup 3 3 syms_1]);
   (577637, 3, [AGroup 26063 1 [anon_sym_COMMA]; AGroup 29465 1 [anon_sym_COLON]; AGroup 3 3 syms_1]);
   (577649, 3, [AGroup 22365 1 [anon_sym_COMMA]; AGroup 22579 1 [anon_sym_RBRACK]; AGroup 3 3 syms_1]);
   (577661, 2, [AGroup 10858 2 syms_815; AGroup 3 3 syms_1]);
   (577671, 3, [AGroup 5 1 [sym_ppDirective]; AGroup 3 2 syms_5; AGroup 25119 2 syms_44]);
   (577683, 3, [AGroup 25609 1 [sym_kElse]; AGroup 29467 1 [anon_sym_SEMI]; AGroup 3 3 syms_1]);
   (577695, 3, [AGroup 28317 1 [anon_sym_COMMA]; AGroup 29469 1 [anon_sym_SEMI]; AGroup 3 3 syms_1]);
   (577707, 3, [AGroup 22365 1 [anon_sym_COMMA]; AGroup 22529 1 [anon_sym_RBRACK]; AGroup 3 3 syms_1]);
   (577719, 3, [AGroup 22365 1 [anon_sym_COMMA]; AGroup 22507 1 [anon_sym_RBRACK]; AGroup 3 3 syms_1]);
   (577731, 3, [AGroup 25619 1 [anon_sym_COMMA]; AGroup 29471 1 [anon_sym_COLON]; AGroup 3 3 syms_1]);
   (577743, 3, [AGroup 20770 1 [anon_sym_COMMA]; AGroup 29473 1 [anon_sym_COLON]; AGroup 3 3 syms_1]);
   (577755, 2, [AGroup 29475 2 syms_789; AGroup 3 3 syms_1]);
   (577765, 3, [AGroup 25717 1 [sym_kElse]; AGroup 29477 1 [anon_sym_SEMI]; AGroup 3 3 syms_1]);
   (577777, 3, [AGroup 28325 1 [anon_sym_COMMA]; AGroup 29479 1 [anon_sym_RPAREN]; AGroup 3 3 syms_1]);
   (577789, 2, [AGroup 29481 2 syms_686; AGroup 3 3 syms_1]);
   (577799, 3, [AGroup 25875 1 [sym_kUntil]; AGroup 27993 1 [anon_sym_SEMI]; AGroup 3 3 syms_1]);
   (577811, 3, [AGroup 25721 1 [sym_kElse]; AGroup 29483 1 [anon_sym_SEMI]; AGroup 3 3 syms_1]);
   (577823, 3, [AGroup 25619 1 [anon_sym_COMMA]; AGroup 29485 1 [anon_sym_COLON]; AGroup 3 3 syms_1]);
   (577835, 3, [AGroup 20770 1 [anon_sym_COMMA]; AGroup 29487 1 [anon_sym_COLON]; AGroup 3 3 syms_1]);
   (577847, 3, [AGroup 25619 1 [anon_sym_COMMA]; AGroup 29489 1 [anon_sym_COLON]; AGroup 3 3 syms_1]);
   (577859, 3, [AGroup 20770 1 [anon_sym_COMMA]; AGroup 29491 1 [anon_sym_COLON]; AGroup 3 3 syms_1]);
   (577871, 2, [AGroup 29493 2 syms_789; AGroup 3 3 syms_1]);
   (577881, 3, [AGroup 29495 1 [sym_kExcept]; AGroup 29497 1 [sym_kFinally]; AGroup 3 3 syms_1]);
   (577893, 3, [AGroup 25739 1 [sym_kElse]; AGroup 29499 1 [anon_sym_SEMI]; AGroup 3 3 syms_1]);
   (577905, 3, [AGroup 25753 1 [sym_kElse]; AGroup 29501 1 [anon_sym_SEMI]; AGroup 3 3 syms_1]);
   (577917, 3, [AGroup 25619 1 [anon_sym_COMMA]; AGroup 29503 1 [anon_sym_COLON]; AGroup 3 3 syms_1]);
   (577929, 3, [AGroup 20770 1 [anon_sym_COMMA]; AGroup 29505 1 [anon_sym_COLON]; AGroup 3 3 syms_1]);
   (577941, 3, [AGroup 22365 1 [anon_sym_COMMA]; AGroup 22525 1 [anon_sym_RBRACK]; AGroup 3 3 syms_1]);
   (577953, 2, [AGroup 26117 2 syms_112; AGroup 3 3 syms_1]);
   (577963, 3, [AGroup 26063 1 [anon_sym_COMMA]; AGroup 29507 1 [anon_sym_COLON]; AGroup 3 3 syms_1]);
   (577975, 3, [AGroup 18854 1 [sym_kElse]; AGroup 26097 1 [sym_kUntil]; AGroup 3 3 syms_1]);
   (577987, 2, [AGroup 26032 2 syms_110; AGroup 3 3 syms_1]);
   (577997, 3, [AGroup 28317 1 [anon_sym_COMMA]; AGroup 29509 1 [anon_sym_SEMI]; AGroup 3 3 syms_1]);
   (578009, 3, [AGroup 25619 1 [anon_sym_COMMA]; AGroup 29511 1 [anon_sym_COLON]; AGroup 3 3 syms_1]);
   (578021, 3, [AGroup 20770 1 [anon_sym_COMMA]; AGroup 29513 1 [anon_sym_COLON]; AGroup 3 3 syms_1]);
   (578033, 3, [AGroup 28383 1 [anon_sym_COMMA]; AGroup 29515 1 [anon_sym_SEMI]; AGroup 3 3 syms_1]);
   (578045, 2, [AGroup 4439 2 syms_109; AGroup 3 3 syms_1]);
   (578055, 2, [AGroup 10842 2 syms_815; AGroup 3 3 syms_1]);
   (578065, 3, [AGroup 22365 1 [anon_sym_COMMA]; AGroup 22405 1 [anon_sym_COLON]; AGroup 3 3 syms_1]);
   (578077, 3, [AGroup 25721 1 [sym_kElse]; AGroup 29517 1 [anon_sym_SEMI]; AGroup 3 3 syms_1]);
   (578089, 3, [AGroup 5 1 [sym_ppDirective]; AGroup 3 2 syms_5; AGroup 25265 2 syms_44]);
   (578101, 2, [AGroup 29519 2 syms_686; AGroup 3 3 syms_1]);
   (578111, 3, [AGroup 17240 1 [sym_kElse]; AGroup 29521 1 [anon_sym_SEMI]; AGroup 3 3 syms_1]);
   (578123, 3, [AGroup 25855 1 [sym_kUntil]; AGroup 27805 1 [anon_sym_SEMI]; AGroup 3 3 syms_1]);
   (578135, 3, [AGroup 25799 1 [sym_kElse]; AGroup 29523 1 [anon_sym_SEMI]; AGroup 3 3 syms_1]);
   (578147, 3, [AGroup 25619 1 [anon_sym_COMMA]; AGroup 29525 1 [anon_sym_COLON]; AGroup 3 3 syms_1]);
   (578159, 3, [AGroup 20770 1 [anon_sym_COMMA]; AGroup 29527 1 [anon_sym_COLON]; AGroup 3 3 syms_1]);
   (578171, 3, [AGroup 25619 1 [anon_sym_COMMA]; AGroup 29529 1 [anon_sym_COLON]; AGroup 3 3 syms_1]);
   (578183, 3, [AGroup 20770 1 [anon_sym_COMMA]; AGroup 29531 1 [anon_sym_COLON]; AGroup 3 3 syms_1]);
   (578195, 3, [AGroup 22365 1 [anon_sym_COMMA]; AGroup 22511 1 [anon_sym_RBRACK]; AGroup 3 3 syms_1]);
   (578207, 3, [AGroup 26063 1 [anon_sym_COMMA]; AGroup 29533 1 [anon_sym_COLON]; AGroup 3 3 syms_1]);
   (578219, 3, [AGroup 29535 1 [sym_kExcept]; AGroup 29537 1 [sym_kFinally]; AGroup 3 3 syms_1]);
   (578231, 3, [AGroup 25619 1 [anon_sym_COMMA]; AGroup 29539 1 [anon_sym_COLON]; AGroup 3 3 syms_1]);
   (578243, 3, [AGroup 20770 1 [anon_sym_COMMA]; AGroup 29541 1 [anon_sym_COLON]; AGroup 3 3 syms_1]);
   (578255, 3, [AGroup 28321 1 [anon_sym_SEMI]; AGroup 29543 1 [anon_sym_RPAREN]; AGroup 3 3 syms_1]);
   (578267, 3, [AGroup 29545 1 [sym_kArray]; AGroup 29547 1 [sym_kRecord]; AGroup 3 3 syms_1]);
   (578279, 3, [AGroup 15293 1 [sym_kElse]; AGroup 29549 1 [anon_sym_SEMI]; AGroup 3 3 syms_1]);
   (578291, 3, [AGroup 25739 1 [sym_kUntil]; AGroup 28285 1 [anon_sym_SEMI]; AGroup 3 3 syms_1]);
   (578303, 3, [AGroup 25865 1 [sym_kElse]; AGroup 29551 1 [anon_sym_SEMI]; AGroup 3 3 syms_1]);
   (578315, 3, [AGroup 22365 1 [anon_sym_COMMA]; AGroup 22702 1 [anon_sym_RBRACK]; AGroup 3 3 syms_1]);
   (578327, 3, [AGroup 25619 1 [anon_sym_COMMA]; AGroup 29553 1 [anon_sym_COLON]; AGroup 3 3 syms_1]);
   (578339, 3, [AGroup 20770 1 [anon_sym_COMMA]; AGroup 29555 1 [anon_sym_COLON]; AGroup 3 3 syms_1]);
   (578351, 3, [AGroup 22365 1 [anon_sym_COMMA]; AGroup 22513 1 [anon_sym_RBRACK]; AGroup 3 3 syms_1]);
   (578363, 3, [AGroup 25739 1 [sym_kElse]; AGroup 29557 1 [anon_sym_SEMI]; AGroup 3 3 syms_1]);
   (578375, 3, [AGroup 17254 1 [sym_kElse]; AGroup 29559 1 [anon_sym_SEMI]; AGroup 3 3 syms_1]);
   (578387, 3, [AGroup 22365 1 [anon_sym_COMMA]; AGroup 22593 1 [anon_sym_RBRACK]; AGroup 3 3 syms_1]);
   (578399, 3, [AGroup 25753 1 [sym_kElse]; AGroup 29561 1 [anon_sym_SEMI]; AGroup 3 3 syms_1]);
   (578411, 2, [AGroup 29563 2 syms_686; AGroup 3 3 syms_1]);
   (578421, 3, [AGroup 25687 1 [sym_kElse]; AGroup 29565 1 [anon_sym_SEMI]; AGroup 3 3 syms_1]);
   (578433, 3, [AGroup 25619 1 [anon_sym_COMMA]; AGroup 29567 1 [anon_sym_COLON]; AGroup 3 3 syms_1]);
   (578445, 3, [AGroup 20770 1 [anon_sym_COMMA]; AGroup 29569 1 [anon_sym_COLON]; AGroup 3 3 syms_1]);
   (578457, 3, [AGroup 25619 1 [anon_sym_COMMA]; AGroup 29571 1 [anon_sym_COLON]; AGroup 3 3 syms_1]);
   (578469, 3, [AGroup 20770 1 [anon_sym_COMMA]; AGroup 29573 1 [anon_sym_COLON]; AGroup 3 3 syms_1]);
   (578481, 3, [AGroup 25791 1 [sym_kElse]; AGroup 29575 1 [anon_sym_SEMI]; AGroup 3 3 syms_1]);
   (578493, 3, [AGroup 22365 1 [anon_sym_COMMA]; AGroup 22714 1 [anon_sym_RBRACK]; AGroup 3 3 syms_1]);
   (578505, 2, [AGroup 29577 2 syms_686; AGroup 3 3 syms_1]);
   (578515, 3, [AGroup 29579 1 [sym_kExcept]; AGroup 29581 1 [sym_kFinally]; AGroup 3 3 syms_1]);
   (578527, 3, [AGroup 5 1 [sym_ppDirective]; AGroup 3 2 syms_5; AGroup 25239 2 syms_44]);
   (578539, 3, [AGroup 25717 1 [sym_kEnd]; AGroup 27741 1 [anon_sym_SEMI]; AGroup 3 3 syms_1]);
   (578551, 3, [AGroup 25619 1 [anon_sym_COMMA]; AGroup 29583 1 [anon_sym_COLON]; AGroup 3 3 syms_1])
  ].

(** States 13859 to 13958. *)
Definition small_runs_13859 : list small_run :=
  [
   (578563, 3, [AGroup 20770 1 [anon_sym_COMMA]; AGroup 29585 1 [anon_sym_COLON]; AGroup 3 3 syms_1]);
   (578575, 3, [AGroup 5 1 [sym_ppDirective]; AGroup 3 2 syms_5; AGroup 11045 2 syms_44]);
   (578587, 3, [AGroup 5 1 [sym_ppDirective]; AGroup 3 2 syms_5; AGroup 25241 2 syms_44]);
   (578599, 3, [AGroup 25849 1 [sym_kElse]; AGroup 29587 1 [anon_sym_SEMI]; AGroup 3 3 syms_1]);
   (578611, 3, [AGroup 25717 1 [sym_kElse]; AGroup 29589 1 [anon_sym_SEMI]; AGroup 3 3 syms_1]);
   (578623, 3, [AGroup 25855 1 [sym_kElse]; AGroup 29591 1 [anon_sym_SEMI]; AGroup 3 3 syms_1]);
   (578635, 3, [AGroup 24916 1 [sym_kEq]; SGroup 15616 1 [sym_defaultValue]; AGroup 3 3 syms_1]);
   (578647, 3, [AGroup 15353 1 [sym_kElse]; AGroup 29593 1 [anon_sym_SEMI]; AGroup 3 3 syms_1]);
   (578659, 2, [AGroup 29595 2 syms_186; AGroup 3 3 syms_1]);
   (578669, 3, [AGroup 5 1 [sym_ppDirective]; AGroup 3 2 syms_5; AGroup 25117 2 syms_44]);
   (578681, 3, [AGroup 25859 1 [sym_kElse]; AGroup 29597 1 [anon_sym_SEMI]; AGroup 3 3 syms_1]);
   (578693, 2, [AGroup 29599 2 syms_686; AGroup 3 3 syms_1]);
   (578703, 3, [AGroup 25721 1 [sym_kElse]; AGroup 29601 1 [anon_sym_SEMI]; AGroup 3 3 syms_1]);
   (578715, 3, [AGroup 5 1 [sym_ppDirective]; AGroup 3 2 syms_5; AGroup 27483 2 syms_44]);
   (578727, 3, [AGroup 28325 1 [anon_sym_COMMA]; AGroup 29603 1 [anon_sym_RPAREN]; AGroup 3 3 syms_1]);
   (578739, 3, [AGroup 29605 1 [sym_kExcept]; AGroup 29607 1 [sym_kFinally]; AGroup 3 3 syms_1]);
   (578751, 3, [AGroup 25717 1 [sym_kElse]; AGroup 29609 1 [anon_sym_SEMI]; AGroup 3 3 syms_1]);
   (578763, 2, [AGroup 10614 2 syms_133; AGroup 3 3 syms_1]);
   (578773, 3, [AGroup 25721 1 [sym_kEnd]; AGroup 27745 1 [anon_sym_SEMI]; AGroup 3 3 syms_1]);
   (578785, 3, [AGroup 25739 1 [sym_kEnd]; AGroup 27747 1 [anon_sym_SEMI]; AGroup 3 3 syms_1]);
   (578797, 3, [AGroup 22365 1 [anon_sym_COMMA]; AGroup 22515 1 [anon_sym_RBRACK]; AGroup 3 3 syms_1]);
   (578809, 2, [AGroup 29611 2 syms_686; AGroup 3 3 syms_1]);
   (578819, 2, [AGroup 29613 2 syms_186; AGroup 3 3 syms_1]);
   (578829, 3, [AGroup 17254 1 [sym_kElse]; AGroup 29615 1 [anon_sym_SEMI]; AGroup 3 3 syms_1]);
   (578841, 3, [AGroup 15353 1 [sym_kElse]; AGroup 29617 1 [anon_sym_SEMI]; AGroup 3 3 syms_1]);
   (578853, 3, [AGroup 25753 1 [sym_kEnd]; AGroup 27749 1 [anon_sym_SEMI]; AGroup 3 3 syms_1]);
   (578865, 2, [AGroup 29619 2 syms_686; AGroup 3 3 syms_1]);
   (578875, 2, [AGroup 10778 2 syms_815; AGroup 3 3 syms_1]);
   (578885, 3, [AGroup 22365 1 [anon_sym_COMMA]; AGroup 22519 1 [anon_sym_RBRACK]; AGroup 3 3 syms_1]);
   (578897, 3, [AGroup 25865 1 [sym_kElse]; AGroup 29621 1 [anon_sym_SEMI]; AGroup 3 3 syms_1]);
   (578909, 2, [AGroup 29623 2 syms_686; AGroup 3 3 syms_1]);
   (578919, 3, [AGroup 22365 1 [anon_sym_COMMA]; AGroup 22704 1 [anon_sym_RBRACK]; AGroup 3 3 syms_1]);
   (578931, 3, [AGroup 24916 1 [sym_kEq]; SGroup 14473 1 [sym_defaultValue]; AGroup 3 3 syms_1]);
   (578943, 3, [AGroup 5 1 [sym_ppDirective]; AGroup 3 2 syms_5; AGroup 25247 2 syms_44]);
   (578955, 3, [AGroup 25869 1 [sym_kElse]; AGroup 29625 1 [anon_sym_SEMI]; AGroup 3 3 syms_1]);
   (578967, 2, [AGroup 29627 2 syms_686; AGroup 3 3 syms_1]);
   (578977, 3, [AGroup 5 1 [sym_ppDirective]; AGroup 3 2 syms_5; AGroup 25095 2 syms_44]);
   (578989, 3, [AGroup 22365 1 [anon_sym_COMMA]; AGroup 22433 1 [anon_sym_RBRACK]; AGroup 3 3 syms_1]);
   (579001, 2, [AGroup 29629 2 syms_668; AGroup 3 3 syms_1]);
   (579011, 3, [AGroup 25875 1 [sym_kElse]; AGroup 29631 1 [anon_sym_SEMI]; AGroup 3 3 syms_1]);
   (579023, 2, [AGroup 29633 2 syms_686; AGroup 3 3 syms_1]);
   (579033, 3, [AGroup 17254 1 [sym_kElse]; AGroup 29635 1 [anon_sym_SEMI]; AGroup 3 3 syms_1]);
   (579045, 3, [AGroup 25687 1 [sym_kElse]; AGroup 29637 1 [anon_sym_SEMI]; AGroup 3 3 syms_1]);
   (579057, 3, [AGroup 28321 1 [anon_sym_SEMI]; AGroup 29639 1 [anon_sym_RPAREN]; AGroup 3 3 syms_1]);
   (579069, 3, [AGroup 23871 1 [anon_sym_DOT]; SGroup 14851 1 [sym_kEndDot]; AGroup 3 3 syms_1]);
   (579081, 3, [AGroup 28406 1 [anon_sym_SEMI]; AGroup 29641 1 [anon_sym_RPAREN]; AGroup 3 3 syms_1]);
   (579093, 2, [AGroup 29643 2 syms_686; AGroup 3 3 syms_1]);
   (579103, 3, [AGroup 17240 1 [sym_kElse]; AGroup 29645 1 [anon_sym_SEMI]; AGroup 3 3 syms_1]);
   (579115, 3, [AGroup 25849 1 [sym_kElse]; AGroup 29647 1 [anon_sym_SEMI]; AGroup 3 3 syms_1]);
   (579127, 3, [AGroup 28291 1 [anon_sym_COMMA]; AGroup 29649 1 [anon_sym_RBRACK]; AGroup 3 3 syms_1]);
   (579139, 3, [AGroup 28345 1 [anon_sym_SEMI]; AGroup 29651 1 [anon_sym_RBRACK]; AGroup 3 3 syms_1]);
   (579151, 3, [AGroup 22365 1 [anon_sym_COMMA]; AGroup 22527 1 [anon_sym_RBRACK]; AGroup 3 3 syms_1]);
   (579163, 2, [AGroup 29653 2 syms_686; AGroup 3 3 syms_1]);
   (579173, 3, [AGroup 25591 1 [sym_kEnd]; AGroup 27630 1 [anon_sym_SEMI]; AGroup 3 3 syms_1]);
   (579185, 3, [AGroup 28184 1 [sym_kEq]; SGroup 12201 1 [sym_defaultValue]; AGroup 3 3 syms_1]);
   (579197, 3, [AGroup 25785 1 [sym_kElse]; AGroup 29655 1 [anon_sym_SEMI]; AGroup 3 3 syms_1]);
   (579209, 3, [AGroup 25785 1 [sym_kEnd]; AGroup 28005 1 [anon_sym_SEMI]; AGroup 3 3 syms_1]);
   (579221, 2, [AGroup 29657 2 syms_686; AGroup 3 3 syms_1]);
   (579231, 3, [AGroup 25791 1 [sym_kElse]; AGroup 29659 1 [anon_sym_SEMI]; AGroup 3 3 syms_1]);
   (579243, 3, [AGroup 22365 1 [anon_sym_COMMA]; AGroup 22613 1 [anon_sym_RBRACK]; AGroup 3 3 syms_1]);
   (579255, 3, [AGroup 22365 1 [anon_sym_COMMA]; AGroup 22533 1 [anon_sym_RBRACK]; AGroup 3 3 syms_1]);
   (579267, 2, [AGroup 10720 2 syms_112; AGroup 3 3 syms_1]);
   (579277, 3, [AGroup 25785 1 [sym_kElse]; AGroup 27397 1 [anon_sym_SEMI]; AGroup 3 3 syms_1]);
   (579289, 2, [AGroup 29661 2 syms_686; AGroup 3 3 syms_1]);
   (579299, 3, [AGroup 25791 1 [sym_kElse]; AGroup 29663 1 [anon_sym_SEMI]; AGroup 3 3 syms_1]);
   (579311, 2, [AGroup 26044 2 syms_109; AGroup 3 3 syms_1]);
   (579321, 3, [AGroup 28406 1 [anon_sym_SEMI]; AGroup 29665 1 [anon_sym_RPAREN]; AGroup 3 3 syms_1]);
   (579333, 2, [AGroup 29667 2 syms_686; AGroup 3 3 syms_1]);
   (579343, 3, [AGroup 25739 1 [sym_kElse]; AGroup 29669 1 [anon_sym_SEMI]; AGroup 3 3 syms_1]);
   (579355, 3, [AGroup 5 1 [sym_ppDirective]; AGroup 3 2 syms_5; AGroup 24906 2 syms_44]);
   (579367, 3, [AGroup 25609 1 [sym_kUntil]; AGroup 27875 1 [anon_sym_SEMI]; AGroup 3 3 syms_1]);
   (579379, 3, [AGroup 5 1 [sym_ppDirective]; AGroup 3 2 syms_5; AGroup 25259 2 syms_44]);
   (579391, 2, [AGroup 29671 2 syms_686; AGroup 3 3 syms_1]);
   (579401, 3, [AGroup 22365 1 [anon_sym_COMMA]; AGroup 22561 1 [anon_sym_RBRACK]; AGroup 3 3 syms_1]);
   (579413, 3, [AGroup 28325 1 [anon_sym_COMMA]; AGroup 29673 1 [anon_sym_RPAREN]; AGroup 3 3 syms_1]);
   (579425, 3, [AGroup 25785 1 [sym_kElse]; AGroup 29675 1 [anon_sym_SEMI]; AGroup 3 3 syms_1]);
   (579437, 3, [AGroup 17240 1 [sym_kElse]; AGroup 29677 1 [anon_sym_SEMI]; AGroup 3 3 syms_1]);
   (579449, 2, [AGroup 29679 2 syms_686; AGroup 3 3 syms_1]);
   (579459, 3, [AGroup 24916 1 [sym_kEq]; SGroup 15767 1 [sym_defaultValue]; AGroup 3 3 syms_1]);
   (579471, 2, [AGroup 10784 2 syms_815; AGroup 3 3 syms_1]);
   (579481, 3, [AGroup 15293 1 [sym_kElse]; AGroup 29681 1 [anon_sym_SEMI]; AGroup 3 3 syms_1]);
   (579493, 2, [AGroup 29683 2 syms_686; AGroup 3 3 syms_1]);
   (579503, 3, [AGroup 28321 1 [anon_sym_SEMI]; AGroup 29685 1 [anon_sym_RBRACK]; AGroup 3 3 syms_1]);
   (579515, 2, [AGroup 10792 2 syms_815; AGroup 3 3 syms_1]);
   (579525, 2, [AGroup 29687 2 syms_686; AGroup 3 3 syms_1]);
   (579535, 3, [AGroup 27735 1 [anon_sym_COMMA]; AGroup 29689 1 [anon_sym_RPAREN]; AGroup 3 3 syms_1]);
   (579547, 3, [AGroup 25753 1 [sym_kElse]; AGroup 29691 1 [anon_sym_SEMI]; AGroup 3 3 syms_1]);
   (579559, 3, [AGroup 25791 1 [sym_kElse]; AGroup 26763 1 [anon_sym_SEMI]; AGroup 3 3 syms_1]);
   (579571, 2, [AGroup 29693 2 syms_686; AGroup 3 3 syms_1]);
   (579581, 3, [AGroup 25619 1 [anon_sym_COMMA]; AGroup 29695 1 [anon_sym_COLON]; AGroup 3 3 syms_1]);
   (579593, 2, [AGroup 26046 2 syms_110; AGroup 3 3 syms_1]);
   (579603, 3, [AGroup 25717 1 [sym_kElse]; AGroup 29697 1 [anon_sym_SEMI]; AGroup 3 3 syms_1]);
   (579615, 2, [AGroup 29699 2 syms_686; AGroup 3 3 syms_1]);
   (579625, 3, [AGroup 22365 1 [anon_sym_COMMA]; AGroup 22537 1 [anon_sym_RBRACK]; AGroup 3 3 syms_1]);
   (579637, 3, [AGroup 28383 1 [anon_sym_COMMA]; AGroup 29701 1 [anon_sym_SEMI]; AGroup 3 3 syms_1]);
   (579649, 2, [AGroup 29703 2 syms_686; AGroup 3 3 syms_1]);
   (579659, 3, [AGroup 5 1 [sym_ppDirective]; AGroup 3 2 syms_5; AGroup 24977 2 syms_44]);
   (579671, 3, [AGroup 25721 1 [sym_kElse]; AGroup 29705 1 [anon_sym_SEMI]; AGroup 3 3 syms_1]);
   (579683, 2, [AGroup 10850 2 syms_112; AGroup 3 3 syms_1]);
   (579693, 2, [AGroup 29707 2 syms_686; AGroup 3 3 syms_1])
  ].

(** States 13959 to 14058. *)
Definition small_runs_13959 : list small_run :=
  [
   (579703, 3, [AGroup 25791 1 [sym_kElse]; AGroup 29709 1 [anon_sym_SEMI]; AGroup 3 3 syms_1]);
   (579715, 3, [AGroup 22365 1 [anon_sym_COMMA]; AGroup 22539 1 [anon_sym_RBRACK]; AGroup 3 3 syms_1]);
   (579727, 3, [AGroup 28406 1 [anon_sym_SEMI]; AGroup 29711 1 [anon_sym_RPAREN]; AGroup 3 3 syms_1]);
   (579739, 2, [AGroup 29713 2 syms_686; AGroup 3 3 syms_1]);
   (579749, 3, [AGroup 25739 1 [sym_kElse]; AGroup 29715 1 [anon_sym_SEMI]; AGroup 3 3 syms_1]);
   (579761, 3, [AGroup 27735 1 [anon_sym_COMMA]; AGroup 29717 1 [anon_sym_RPAREN]; AGroup 3 3 syms_1]);
   (579773, 2, [AGroup 10862 2 syms_815; AGroup 3 3 syms_1]);
   (579783, 2, [AGroup 29719 2 syms_686; AGroup 3 3 syms_1]);
   (579793, 3, [AGroup 22365 1 [anon_sym_COMMA]; AGroup 22712 1 [anon_sym_RBRACK]; AGroup 3 3 syms_1]);
   (579805, 3, [AGroup 25753 1 [sym_kElse]; AGroup 29721 1 [anon_sym_SEMI]; AGroup 3 3 syms_1]);
   (579817, 3, [AGroup 17254 1 [sym_kElse]; AGroup 29723 1 [anon_sym_SEMI]; AGroup 3 3 syms_1]);
   (579829, 2, [AGroup 29725 2 syms_686; AGroup 3 3 syms_1]);
   (579839, 3, [AGroup 25785 1 [sym_kElse]; AGroup 29727 1 [anon_sym_SEMI]; AGroup 3 3 syms_1]);
   (579851, 3, [AGroup 28291 1 [anon_sym_COMMA]; AGroup 29729 1 [anon_sym_RBRACK]; AGroup 3 3 syms_1]);
   (579863, 3, [AGroup 28291 1 [anon_sym_COMMA]; AGroup 29731 1 [anon_sym_RBRACK]; AGroup 3 3 syms_1]);
   (579875, 3, [AGroup 15293 1 [sym_kEnd]; AGroup 28108 1 [anon_sym_SEMI]; AGroup 3 3 syms_1]);
   (579887, 3, [AGroup 25687 1 [sym_kElse]; AGroup 29733 1 [anon_sym_SEMI]; AGroup 3 3 syms_1]);
   (579899, 3, [AGroup 17254 1 [sym_kEnd]; AGroup 28160 1 [anon_sym_SEMI]; AGroup 3 3 syms_1]);
   (579911, 3, [AGroup 28345 1 [anon_sym_SEMI]; AGroup 29735 1 [anon_sym_RBRACK]; AGroup 3 3 syms_1]);
   (579923, 3, [AGroup 25791 1 [sym_kElse]; AGroup 29737 1 [anon_sym_SEMI]; AGroup 3 3 syms_1]);
   (579935, 2, [AGroup 29739 2 syms_669; AGroup 3 3 syms_1]);
   (579945, 2, [AGroup 10854 2 syms_112; AGroup 3 3 syms_1]);
   (579955, 3, [AGroup 25591 1 [sym_kElse]; AGroup 29741 1 [anon_sym_SEMI]; AGroup 3 3 syms_1]);
   (579967, 3, [AGroup 17240 1 [sym_kElse]; AGroup 29743 1 [anon_sym_SEMI]; AGroup 3 3 syms_1]);
   (579979, 3, [AGroup 22365 1 [anon_sym_COMMA]; AGroup 22521 1 [anon_sym_RBRACK]; AGroup 3 3 syms_1]);
   (579991, 3, [AGroup 17286 1 [anon_sym_RBRACK]; AGroup 22429 1 [anon_sym_COMMA]; AGroup 3 3 syms_1]);
   (580003, 3, [AGroup 25609 1 [sym_kElse]; AGroup 29745 1 [anon_sym_SEMI]; AGroup 3 3 syms_1]);
   (580015, 3, [AGroup 22365 1 [anon_sym_COMMA]; AGroup 22543 1 [anon_sym_RBRACK]; AGroup 3 3 syms_1]);
   (580027, 3, [AGroup 29747 1 [sym_identifier]; SGroup 13059 1 [aux_sym_genericArg_repeat1];
     AGroup 3 3 syms_1]);
   (580039, 3, [AGroup 22365 1 [anon_sym_COMMA]; AGroup 22617 1 [anon_sym_RBRACK]; AGroup 3 3 syms_1]);
   (580051, 2, [AGroup 29749 2 syms_686; AGroup 3 3 syms_1]);
   (580061, 3, [AGroup 28540 1 [anon_sym_SEMI]; AGroup 29751 1 [sym_kGt]; AGroup 3 3 syms_1]);
   (580073, 3, [AGroup 25591 1 [sym_kElse]; AGroup 29753 1 [anon_sym_SEMI]; AGroup 3 3 syms_1]);
   (580085, 3, [AGroup 29755 1 [sym_identifier]; SGroup 13059 1 [aux_sym_genericArg_repeat1];
     AGroup 3 3 syms_1]);
   (580097, 3, [AGroup 29757 1 [sym_identifier]; SGroup 13059 1 [aux_sym_genericArg_repeat1];
     AGroup 3 3 syms_1]);
   (580109, 2, [AGroup 29759 2 syms_11; AGroup 3 3 syms_1]);
   (580119, 3, [AGroup 22365 1 [anon_sym_COMMA]; AGroup 22547 1 [anon_sym_RBRACK]; AGroup 3 3 syms_1]);
   (580131, 2, [AGroup 10858 2 syms_112; AGroup 3 3 syms_1]);
   (580141, 3, [AGroup 25869 1 [sym_kElse]; AGroup 27521 1 [anon_sym_SEMI]; AGroup 3 3 syms_1]);
   (580153, 3, [AGroup 25717 1 [sym_kElse]; AGroup 29761 1 [anon_sym_SEMI]; AGroup 3 3 syms_1]);
   (580165, 2, [AGroup 29763 2 syms_186; AGroup 3 3 syms_1]);
   (580175, 3, [AGroup 28383 1 [anon_sym_COMMA]; AGroup 29765 1 [anon_sym_SEMI]; AGroup 3 3 syms_1]);
   (580187, 2, [AGroup 29767 2 syms_112; AGroup 3 3 syms_1]);
   (580197, 2, [AGroup 10906 2 syms_815; AGroup 3 3 syms_1]);
   (580207, 3, [AGroup 22365 1 [anon_sym_COMMA]; AGroup 22634 1 [anon_sym_RBRACK]; AGroup 3 3 syms_1]);
   (580219, 2, [AGroup 25645 2 syms_688; AGroup 3 3 syms_1]);
   (580229, 3, [AGroup 17240 1 [sym_kElse]; AGroup 29769 1 [anon_sym_SEMI]; AGroup 3 3 syms_1]);
   (580241, 2, [AGroup 29771 2 syms_686; AGroup 3 3 syms_1]);
   (580251, 3, [AGroup 15293 1 [sym_kElse]; AGroup 29773 1 [anon_sym_SEMI]; AGroup 3 3 syms_1]);
   (580263, 2, [AGroup 10862 2 syms_112; AGroup 3 3 syms_1]);
   (580273, 3, [AGroup 17254 1 [sym_kElse]; AGroup 29775 1 [anon_sym_SEMI]; AGroup 3 3 syms_1]);
   (580285, 2, [AGroup 10866 2 syms_112; AGroup 3 3 syms_1]);
   (580295, 3, [AGroup 10720 1 [sym_kEnd]; AGroup 29777 1 [sym_kElse]; AGroup 3 3 syms_1]);
   (580307, 3, [AGroup 28325 1 [anon_sym_COMMA]; AGroup 29779 1 [anon_sym_RPAREN]; AGroup 3 3 syms_1]);
   (580319, 3, [AGroup 15353 1 [sym_kElse]; AGroup 29781 1 [anon_sym_SEMI]; AGroup 3 3 syms_1]);
   (580331, 3, [AGroup 5 1 [sym_ppDirective]; AGroup 3 2 syms_5; AGroup 25253 2 syms_44]);
   (580343, 3, [AGroup 22429 1 [anon_sym_COMMA]; AGroup 22460 1 [anon_sym_RBRACK]; AGroup 3 3 syms_1]);
   (580355, 3, [AGroup 22365 1 [anon_sym_COMMA]; AGroup 22549 1 [anon_sym_RBRACK]; AGroup 3 3 syms_1]);
   (580367, 2, [AGroup 29783 2 syms_686; AGroup 3 3 syms_1]);
   (580377, 3, [AGroup 25717 1 [sym_kUntil]; AGroup 28273 1 [anon_sym_SEMI]; AGroup 3 3 syms_1]);
   (580389, 2, [AGroup 29785 2 syms_186; AGroup 3 3 syms_1]);
   (580399, 3, [AGroup 15353 1 [sym_kElse]; AGroup 29787 1 [anon_sym_SEMI]; AGroup 3 3 syms_1]);
   (580411, 3, [AGroup 29789 1 [sym_identifier]; SGroup 13059 1 [aux_sym_genericArg_repeat1];
     AGroup 3 3 syms_1]);
   (580423, 2, [AGroup 10870 2 syms_112; AGroup 3 3 syms_1]);
   (580433, 2, [AGroup 10874 2 syms_112; AGroup 3 3 syms_1]);
   (580443, 3, [AGroup 22365 1 [anon_sym_COMMA]; AGroup 22551 1 [anon_sym_RBRACK]; AGroup 3 3 syms_1]);
   (580455, 2, [AGroup 29791 2 syms_686; AGroup 3 3 syms_1]);
   (580465, 3, [AGroup 18852 1 [sym_kElse]; AGroup 26097 1 [sym_kUntil]; AGroup 3 3 syms_1]);
   (580477, 3, [AGroup 22365 1 [anon_sym_COMMA]; AGroup 22472 1 [anon_sym_RBRACK]; AGroup 3 3 syms_1]);
   (580489, 2, [AGroup 29793 2 syms_186; AGroup 3 3 syms_1]);
   (580499, 3, [AGroup 22429 1 [anon_sym_COMMA]; AGroup 22462 1 [anon_sym_RBRACK]; AGroup 3 3 syms_1]);
   (580511, 3, [AGroup 25591 1 [sym_kElse]; AGroup 27478 1 [anon_sym_SEMI]; AGroup 3 3 syms_1]);
   (580523, 3, [AGroup 25855 1 [sym_kElse]; AGroup 29795 1 [anon_sym_SEMI]; AGroup 3 3 syms_1]);
   (580535, 3, [AGroup 25799 1 [sym_kElse]; AGroup 29797 1 [anon_sym_SEMI]; AGroup 3 3 syms_1]);
   (580547, 3, [AGroup 25609 1 [sym_kElse]; AGroup 27493 1 [anon_sym_SEMI]; AGroup 3 3 syms_1]);
   (580559, 3, [AGroup 25849 1 [sym_kElse]; AGroup 29799 1 [anon_sym_SEMI]; AGroup 3 3 syms_1]);
   (580571, 3, [AGroup 22365 1 [anon_sym_COMMA]; AGroup 22557 1 [anon_sym_RBRACK]; AGroup 3 3 syms_1]);
   (580583, 2, [AGroup 10890 2 syms_815; AGroup 3 3 syms_1]);
   (580593, 2, [AGroup 29801 2 syms_686; AGroup 3 3 syms_1]);
   (580603, 3, [AGroup 25859 1 [sym_kUntil]; AGroup 27867 1 [anon_sym_SEMI]; AGroup 3 3 syms_1]);
   (580615, 2, [AGroup 25673 2 syms_688; AGroup 3 3 syms_1]);
   (580625, 3, [AGroup 26063 1 [anon_sym_COMMA]; AGroup 29803 1 [anon_sym_COLON]; AGroup 3 3 syms_1]);
   (580637, 2, [AGroup 15590 2 syms_816; AGroup 3 3 syms_1]);
   (580647, 3, [AGroup 25865 1 [sym_kElse]; AGroup 29805 1 [anon_sym_SEMI]; AGroup 3 3 syms_1]);
   (580659, 2, [AGroup 29807 2 syms_186; AGroup 3 3 syms_1]);
   (580669, 2, [AGroup 29809 2 syms_186; AGroup 3 3 syms_1]);
   (580679, 3, [AGroup 22365 1 [anon_sym_COMMA]; AGroup 22607 1 [anon_sym_RBRACK]; AGroup 3 3 syms_1]);
   (580691, 3, [AGroup 17254 1 [sym_kElse]; AGroup 29811 1 [anon_sym_SEMI]; AGroup 3 3 syms_1]);
   (580703, 2, [AGroup 29813 2 syms_686; AGroup 3 3 syms_1]);
   (580713, 2, [AGroup 28766 2 syms_669; AGroup 3 3 syms_1]);
   (580723, 2, [AGroup 25675 2 syms_688; AGroup 3 3 syms_1]);
   (580733, 3, [AGroup 22365 1 [anon_sym_COMMA]; AGroup 22692 1 [anon_sym_RBRACK]; AGroup 3 3 syms_1]);
   (580745, 2, [AGroup 29815 2 syms_686; AGroup 3 3 syms_1]);
   (580755, 2, [AGroup 10894 2 syms_815; AGroup 3 3 syms_1]);
   (580765, 3, [AGroup 15353 1 [sym_kElse]; AGroup 29817 1 [anon_sym_SEMI]; AGroup 3 3 syms_1]);
   (580777, 2, [AGroup 24240 2 syms_688; AGroup 3 3 syms_1]);
   (580787, 3, [AGroup 25609 1 [sym_kElse]; AGroup 29819 1 [anon_sym_SEMI]; AGroup 3 3 syms_1]);
   (580799, 2, [AGroup 10882 2 syms_112; AGroup 3 3 syms_1]);
   (580809, 2, [AGroup 10706 2 syms_112; AGroup 3 3 syms_1]);
   (580819, 3, [AGroup 25687 1 [sym_kElse]; AGroup 26847 1 [anon_sym_SEMI]; AGroup 3 3 syms_1])
  ].

(** States 14059 to 14158. *)
Definition small_runs_14059 : list small_run :=
  [
   (580831, 2, [AGroup 28824 2 syms_669; AGroup 3 3 syms_1]);
   (580841, 3, [AGroup 22365 1 [anon_sym_COMMA]; AGroup 22581 1 [anon_sym_RBRACK]; AGroup 3 3 syms_1]);
   (580853, 3, [AGroup 25859 1 [sym_kEnd]; AGroup 27969 1 [anon_sym_SEMI]; AGroup 3 3 syms_1]);
   (580865, 3, [AGroup 22365 1 [anon_sym_COMMA]; AGroup 22555 1 [anon_sym_RBRACK]; AGroup 3 3 syms_1]);
   (580877, 3, [AGroup 17254 1 [sym_kUntil]; AGroup 28086 1 [anon_sym_SEMI]; AGroup 3 3 syms_1]);
   (580889, 2, [AGroup 10818 2 syms_112; AGroup 3 3 syms_1]);
   (580899, 3, [AGroup 25785 1 [sym_kElse]; AGroup 29821 1 [anon_sym_SEMI]; AGroup 3 3 syms_1]);
   (580911, 2, [AGroup 10886 2 syms_112; AGroup 3 3 syms_1]);
   (580921, 2, [AGroup 10890 2 syms_112; AGroup 3 3 syms_1]);
   (580931, 3, [AGroup 25717 1 [sym_kElse]; AGroup 27379 1 [anon_sym_SEMI]; AGroup 3 3 syms_1]);
   (580943, 2, [AGroup 10894 2 syms_112; AGroup 3 3 syms_1]);
   (580953, 3, [AGroup 25721 1 [sym_kElse]; AGroup 27495 1 [anon_sym_SEMI]; AGroup 3 3 syms_1]);
   (580965, 3, [AGroup 25739 1 [sym_kElse]; AGroup 27531 1 [anon_sym_SEMI]; AGroup 3 3 syms_1]);
   (580977, 3, [AGroup 25753 1 [sym_kElse]; AGroup 27537 1 [anon_sym_SEMI]; AGroup 3 3 syms_1]);
   (580989, 2, [AGroup 10898 2 syms_112; AGroup 3 3 syms_1]);
   (580999, 2, [AGroup 10902 2 syms_112; AGroup 3 3 syms_1]);
   (581009, 3, [AGroup 22365 1 [anon_sym_COMMA]; AGroup 22553 1 [anon_sym_RBRACK]; AGroup 3 3 syms_1]);
   (581021, 3, [AGroup 28317 1 [anon_sym_COMMA]; AGroup 29823 1 [anon_sym_SEMI]; AGroup 3 3 syms_1]);
   (581033, 4, [AGroup 5 1 [sym_ppDirective]; AGroup 29825 1 [anon_sym_LPAREN]; AGroup 29827 1 [sym_kFor];
     AGroup 3 2 syms_5]);
   (581047, 2, [AGroup 29829 2 syms_186; AGroup 3 3 syms_1]);
   (581057, 3, [AGroup 28317 1 [anon_sym_COMMA]; AGroup 29831 1 [anon_sym_SEMI]; AGroup 3 3 syms_1]);
   (581069, 3, [AGroup 28383 1 [anon_sym_COMMA]; AGroup 29833 1 [anon_sym_SEMI]; AGroup 3 3 syms_1]);
   (581081, 3, [AGroup 25799 1 [sym_kElse]; AGroup 27474 1 [anon_sym_SEMI]; AGroup 3 3 syms_1]);
   (581093, 2, [AGroup 10906 2 syms_112; AGroup 3 3 syms_1]);
   (581103, 3, [AGroup 28406 1 [anon_sym_SEMI]; AGroup 29835 1 [anon_sym_RPAREN]; AGroup 3 3 syms_1]);
   (581115, 3, [AGroup 22365 1 [anon_sym_COMMA]; AGroup 22559 1 [anon_sym_RBRACK]; AGroup 3 3 syms_1]);
   (581127, 3, [AGroup 22365 1 [anon_sym_COMMA]; AGroup 22611 1 [anon_sym_RBRACK]; AGroup 3 3 syms_1]);
   (581139, 3, [AGroup 10720 1 [sym_kOn]; AGroup 29837 1 [sym_kElse]; AGroup 3 3 syms_1]);
   (581151, 2, [AGroup 26013 2 syms_109; AGroup 3 3 syms_1]);
   (581161, 2, [AGroup 10910 2 syms_112; AGroup 3 3 syms_1]);
   (581171, 2, [AGroup 10838 2 syms_112; AGroup 3 3 syms_1]);
   (581181, 3, [AGroup 15353 1 [sym_kUntil]; AGroup 28088 1 [anon_sym_SEMI]; AGroup 3 3 syms_1]);
   (581193, 3, [AGroup 22365 1 [anon_sym_COMMA]; AGroup 22523 1 [anon_sym_RBRACK]; AGroup 3 3 syms_1]);
   (581205, 2, [AGroup 10914 2 syms_112; AGroup 3 3 syms_1]);
   (581215, 2, [AGroup 10766 2 syms_112; AGroup 3 3 syms_1]);
   (581225, 2, [AGroup 10846 2 syms_112; AGroup 3 3 syms_1]);
   (581235, 2, [AGroup 10826 2 syms_112; AGroup 3 3 syms_1]);
   (581245, 2, [AGroup 10878 2 syms_112; AGroup 3 3 syms_1]);
   (581255, 3, [AGroup 25849 1 [sym_kElse]; AGroup 26849 1 [anon_sym_SEMI]; AGroup 3 3 syms_1]);
   (581267, 2, [AGroup 10710 2 syms_112; AGroup 3 3 syms_1]);
   (581277, 3, [AGroup 25855 1 [sym_kElse]; AGroup 26902 1 [anon_sym_SEMI]; AGroup 3 3 syms_1]);
   (581289, 2, [AGroup 10732 2 syms_112; AGroup 3 3 syms_1]);
   (581299, 2, [AGroup 10732 2 syms_112; AGroup 3 3 syms_1]);
   (581309, 3, [AGroup 15293 1 [sym_kElse]; AGroup 29839 1 [anon_sym_SEMI]; AGroup 3 3 syms_1]);
   (581321, 2, [AGroup 10802 2 syms_112; AGroup 3 3 syms_1]);
   (581331, 3, [AGroup 25855 1 [sym_kElse]; AGroup 29841 1 [anon_sym_SEMI]; AGroup 3 3 syms_1]);
   (581343, 2, [AGroup 10740 2 syms_112; AGroup 3 3 syms_1]);
   (581353, 3, [AGroup 25859 1 [sym_kElse]; AGroup 27177 1 [anon_sym_SEMI]; AGroup 3 3 syms_1]);
   (581365, 2, [AGroup 10750 2 syms_112; AGroup 3 3 syms_1]);
   (581375, 2, [AGroup 10760 2 syms_112; AGroup 3 3 syms_1]);
   (581385, 2, [AGroup 25647 2 syms_684; AGroup 3 3 syms_1]);
   (581395, 3, [AGroup 28383 1 [anon_sym_COMMA]; AGroup 29843 1 [anon_sym_SEMI]; AGroup 3 3 syms_1]);
   (581407, 2, [AGroup 10774 2 syms_112; AGroup 3 3 syms_1]);
   (581417, 2, [AGroup 10842 2 syms_112; AGroup 3 3 syms_1]);
   (581427, 2, [AGroup 10778 2 syms_112; AGroup 3 3 syms_1]);
   (581437, 2, [AGroup 10784 2 syms_112; AGroup 3 3 syms_1]);
   (581447, 2, [AGroup 10792 2 syms_112; AGroup 3 3 syms_1]);
   (581457, 3, [AGroup 25865 1 [sym_kElse]; AGroup 27576 1 [anon_sym_SEMI]; AGroup 3 3 syms_1]);
   (581469, 2, [AGroup 10838 2 syms_815; AGroup 3 3 syms_1]);
   (581479, 2, [AGroup 10792 1 [sym_kOn]; AGroup 3 3 syms_1]);
   (581488, 2, [AGroup 29845 1 [sym_kEnd]; AGroup 3 3 syms_1]);
   (581497, 2, [AGroup 29847 1 [sym_kUntil]; AGroup 3 3 syms_1]);
   (581506, 2, [AGroup 29849 1 [anon_sym_SEMI]; AGroup 3 3 syms_1]);
   (581515, 2, [AGroup 29851 1 [sym_kGt]; AGroup 3 3 syms_1]);
   (581524, 2, [AGroup 10890 1 [sym_kOn]; AGroup 3 3 syms_1]);
   (581533, 2, [AGroup 29853 1 [anon_sym_SEMI]; AGroup 3 3 syms_1]);
   (581542, 2, [AGroup 10894 1 [sym_kOn]; AGroup 3 3 syms_1]);
   (581551, 2, [AGroup 2437 1 [sym_kEnd]; AGroup 3 3 syms_1]);
   (581560, 2, [AGroup 19341 1 [sym_kElse]; AGroup 3 3 syms_1]);
   (581569, 2, [AGroup 29855 1 [anon_sym_COLON]; AGroup 3 3 syms_1]);
   (581578, 2, [AGroup 29857 1 [anon_sym_SEMI]; AGroup 3 3 syms_1]);
   (581587, 2, [AGroup 2441 1 [sym_kEnd]; AGroup 3 3 syms_1]);
   (581596, 2, [AGroup 29859 1 [anon_sym_COLON]; AGroup 3 3 syms_1]);
   (581605, 2, [AGroup 29861 1 [sym_kEnd]; AGroup 3 3 syms_1]);
   (581614, 2, [AGroup 29863 1 [sym_kEnd]; AGroup 3 3 syms_1]);
   (581623, 2, [AGroup 29865 1 [sym_kEnd]; AGroup 3 3 syms_1]);
   (581632, 2, [AGroup 10898 1 [sym_kOn]; AGroup 3 3 syms_1]);
   (581641, 2, [AGroup 10902 1 [sym_kOn]; AGroup 3 3 syms_1]);
   (581650, 2, [AGroup 29867 1 [sym_kGt]; AGroup 3 3 syms_1]);
   (581659, 2, [AGroup 29869 1 [anon_sym_SEMI]; AGroup 3 3 syms_1]);
   (581668, 2, [AGroup 26117 1 [sym_kUntil]; AGroup 3 3 syms_1]);
   (581677, 2, [AGroup 3494 1 [sym_kEnd]; AGroup 3 3 syms_1]);
   (581686, 2, [AGroup 28259 1 [sym_kOn]; AGroup 3 3 syms_1]);
   (581695, 2, [AGroup 29871 1 [sym_kEnd]; AGroup 3 3 syms_1]);
   (581704, 2, [AGroup 29873 1 [anon_sym_SEMI]; AGroup 3 3 syms_1]);
   (581713, 2, [AGroup 29875 1 [anon_sym_SEMI]; AGroup 3 3 syms_1]);
   (581722, 2, [AGroup 2095 1 [sym_kEnd]; AGroup 3 3 syms_1]);
   (581731, 2, [AGroup 29877 1 [sym_kTo]; AGroup 3 3 syms_1]);
   (581740, 2, [AGroup 29879 1 [sym_kOf]; AGroup 3 3 syms_1]);
   (581749, 2, [AGroup 19559 1 [sym_kElse]; AGroup 3 3 syms_1]);
   (581758, 2, [AGroup 29881 1 [sym_kEnd]; AGroup 3 3 syms_1]);
   (581767, 2, [AGroup 29883 1 [sym_kEnd]; AGroup 3 3 syms_1]);
   (581776, 2, [AGroup 29077 1 [anon_sym_SEMI]; AGroup 3 3 syms_1]);
   (581785, 2, [AGroup 29885 1 [anon_sym_SEMI]; AGroup 3 3 syms_1]);
   (581794, 2, [AGroup 29887 1 [anon_sym_SEMI]; AGroup 3 3 syms_1]);
   (581803, 2, [AGroup 29889 1 [anon_sym_SEMI]; AGroup 3 3 syms_1]);
   (581812, 2, [AGroup 29891 1 [anon_sym_SEMI]; AGroup 3 3 syms_1]);
   (581821, 2, [AGroup 29893 1 [sym_kEnd]; AGroup 3 3 syms_1]);
   (581830, 2, [AGroup 2099 1 [sym_kEnd]; AGroup 3 3 syms_1]);
   (581839, 2, [AGroup 10906 1 [sym_kOn]; AGroup 3 3 syms_1])
  ].

(** States 14159 to 14258. *)
Definition small_runs_14159 : list small_run :=
  [
   (581848, 2, [AGroup 29895 1 [anon_sym_SEMI]; AGroup 3 3 syms_1]);
   (581857, 2, [AGroup 29897 1 [anon_sym_SEMI]; AGroup 3 3 syms_1]);
   (581866, 2, [AGroup 29899 1 [sym_kEnd]; AGroup 3 3 syms_1]);
   (581875, 2, [AGroup 29901 1 [sym_kEnd]; AGroup 3 3 syms_1]);
   (581884, 2, [AGroup 28317 1 [anon_sym_COMMA]; AGroup 3 3 syms_1]);
   (581893, 2, [AGroup 3336 1 [sym_kEnd]; AGroup 3 3 syms_1]);
   (581902, 2, [AGroup 29903 1 [sym_kEnd]; AGroup 3 3 syms_1]);
   (581911, 2, [AGroup 29905 1 [sym_kEnd]; AGroup 3 3 syms_1]);
   (581920, 2, [AGroup 29907 1 [sym_kObject]; AGroup 3 3 syms_1]);
   (581929, 2, [AGroup 26087 1 [sym_kElse]; AGroup 3 3 syms_1]);
   (581938, 2, [AGroup 10910 1 [sym_kOn]; AGroup 3 3 syms_1]);
   (581947, 2, [AGroup 29909 1 [sym_kOf]; AGroup 3 3 syms_1]);
   (581956, 2, [AGroup 26087 1 [sym_kElse]; AGroup 3 3 syms_1]);
   (581965, 2, [AGroup 29911 1 [anon_sym_SEMI]; AGroup 3 3 syms_1]);
   (581974, 2, [AGroup 29913 1 [sym_identifier]; AGroup 3 3 syms_1]);
   (581983, 2, [AGroup 10914 1 [sym_kOn]; AGroup 3 3 syms_1]);
   (581992, 2, [AGroup 29915 1 [sym_kEnd]; AGroup 3 3 syms_1]);
   (582001, 2, [AGroup 29917 1 [sym_kEnd]; AGroup 3 3 syms_1]);
   (582010, 2, [AGroup 10766 1 [sym_kOn]; AGroup 3 3 syms_1]);
   (582019, 2, [AGroup 10846 1 [sym_kOn]; AGroup 3 3 syms_1]);
   (582028, 2, [AGroup 29919 1 [anon_sym_RPAREN]; AGroup 3 3 syms_1]);
   (582037, 2, [AGroup 10826 1 [sym_kOn]; AGroup 3 3 syms_1]);
   (582046, 2, [AGroup 29921 1 [anon_sym_SEMI]; AGroup 3 3 syms_1]);
   (582055, 2, [AGroup 29923 1 [sym_kEnd]; AGroup 3 3 syms_1]);
   (582064, 2, [AGroup 29925 1 [sym_kEnd]; AGroup 3 3 syms_1]);
   (582073, 2, [AGroup 18726 1 [sym_kEnd]; AGroup 3 3 syms_1]);
   (582082, 2, [AGroup 29927 1 [sym_kIn]; AGroup 3 3 syms_1]);
   (582091, 2, [AGroup 10878 1 [sym_kOn]; AGroup 3 3 syms_1]);
   (582100, 2, [AGroup 29929 1 [anon_sym_SEMI]; AGroup 3 3 syms_1]);
   (582109, 2, [AGroup 10710 1 [sym_kOn]; AGroup 3 3 syms_1]);
   (582118, 2, [AGroup 29931 1 [sym_kEnd]; AGroup 3 3 syms_1]);
   (582127, 2, [AGroup 29933 1 [sym_kEnd]; AGroup 3 3 syms_1]);
   (582136, 2, [AGroup 10886 1 [sym_kEnd]; AGroup 3 3 syms_1]);
   (582145, 2, [AGroup 10732 1 [sym_kOn]; AGroup 3 3 syms_1]);
   (582154, 2, [AGroup 10732 1 [sym_kOn]; AGroup 3 3 syms_1]);
   (582163, 2, [AGroup 29935 1 [anon_sym_SEMI]; AGroup 3 3 syms_1]);
   (582172, 2, [AGroup 29937 1 [anon_sym_SEMI]; AGroup 3 3 syms_1]);
   (582181, 2, [AGroup 18770 1 [sym_kEnd]; AGroup 3 3 syms_1]);
   (582190, 2, [AGroup 29939 1 [anon_sym_RPAREN]; AGroup 3 3 syms_1]);
   (582199, 2, [AGroup 29941 1 [sym_kEnd]; AGroup 3 3 syms_1]);
   (582208, 2, [AGroup 10740 1 [sym_kOn]; AGroup 3 3 syms_1]);
   (582217, 2, [AGroup 29943 1 [sym_kEnd]; AGroup 3 3 syms_1]);
   (582226, 2, [AGroup 10750 1 [sym_kOn]; AGroup 3 3 syms_1]);
   (582235, 2, [AGroup 10760 1 [sym_kOn]; AGroup 3 3 syms_1]);
   (582244, 2, [AGroup 29945 1 [anon_sym_SEMI]; AGroup 3 3 syms_1]);
   (582253, 2, [AGroup 29947 1 [sym_kEnd]; AGroup 3 3 syms_1]);
   (582262, 2, [AGroup 29949 1 [anon_sym_COLON]; AGroup 3 3 syms_1]);
   (582271, 2, [AGroup 29951 1 [sym_kEnd]; AGroup 3 3 syms_1]);
   (582280, 2, [AGroup 29953 1 [anon_sym_SEMI]; AGroup 3 3 syms_1]);
   (582289, 2, [AGroup 29955 1 [sym_identifier]; AGroup 3 3 syms_1]);
   (582298, 2, [AGroup 19303 1 [sym_kElse]; AGroup 3 3 syms_1]);
   (582307, 2, [AGroup 29957 1 [sym_kEnd]; AGroup 3 3 syms_1]);
   (582316, 2, [AGroup 29959 1 [sym_kEnd]; AGroup 3 3 syms_1]);
   (582325, 2, [AGroup 29961 1 [anon_sym_COLON]; AGroup 3 3 syms_1]);
   (582334, 2, [AGroup 29963 1 [anon_sym_RBRACK]; AGroup 3 3 syms_1]);
   (582343, 2, [AGroup 29965 1 [anon_sym_RPAREN]; AGroup 3 3 syms_1]);
   (582352, 2, [AGroup 29967 1 [sym_kEnd]; AGroup 3 3 syms_1]);
   (582361, 2, [AGroup 29969 1 [sym_kEnd]; AGroup 3 3 syms_1]);
   (582370, 2, [AGroup 10890 1 [sym_kEnd]; AGroup 3 3 syms_1]);
   (582379, 2, [AGroup 29971 1 [sym_kEnd]; AGroup 3 3 syms_1]);
   (582388, 2, [AGroup 10774 1 [sym_kOn]; AGroup 3 3 syms_1]);
   (582397, 2, [AGroup 29973 1 [anon_sym_SEMI]; AGroup 3 3 syms_1]);
   (582406, 2, [AGroup 10894 1 [sym_kEnd]; AGroup 3 3 syms_1]);
   (582415, 2, [AGroup 10778 1 [sym_kOn]; AGroup 3 3 syms_1]);
   (582424, 2, [AGroup 10784 1 [sym_kOn]; AGroup 3 3 syms_1]);
   (582433, 2, [AGroup 29975 1 [sym_kIn]; AGroup 3 3 syms_1]);
   (582442, 2, [AGroup 25661 1 [anon_sym_SEMI]; AGroup 3 3 syms_1]);
   (582451, 2, [AGroup 29977 1 [anon_sym_SEMI]; AGroup 3 3 syms_1]);
   (582460, 2, [AGroup 2724 1 [sym_kEnd]; AGroup 3 3 syms_1]);
   (582469, 2, [AGroup 28383 1 [anon_sym_COMMA]; AGroup 3 3 syms_1]);
   (582478, 2, [AGroup 29979 1 [sym_kEnd]; AGroup 3 3 syms_1]);
   (582487, 2, [AGroup 29981 1 [sym_kEnd]; AGroup 3 3 syms_1]);
   (582496, 2, [AGroup 29983 1 [sym_kEnd]; AGroup 3 3 syms_1]);
   (582505, 2, [AGroup 10802 1 [sym_kOn]; AGroup 3 3 syms_1]);
   (582514, 2, [AGroup 29985 1 [anon_sym_SEMI]; AGroup 3 3 syms_1]);
   (582523, 2, [AGroup 2728 1 [sym_kEnd]; AGroup 3 3 syms_1]);
   (582532, 2, [AGroup 10806 1 [sym_kOn]; AGroup 3 3 syms_1]);
   (582541, 2, [AGroup 22337 1 [anon_sym_SEMI]; AGroup 3 3 syms_1]);
   (582550, 2, [AGroup 29987 1 [sym_kIn]; AGroup 3 3 syms_1]);
   (582559, 2, [AGroup 29989 1 [sym_kGt]; AGroup 3 3 syms_1]);
   (582568, 2, [AGroup 3647 1 [sym_kEnd]; AGroup 3 3 syms_1]);
   (582577, 2, [AGroup 10810 1 [sym_kOn]; AGroup 3 3 syms_1]);
   (582586, 2, [AGroup 29991 1 [sym_kEnd]; AGroup 3 3 syms_1]);
   (582595, 2, [AGroup 29993 1 [anon_sym_SEMI]; AGroup 3 3 syms_1]);
   (582604, 2, [AGroup 2453 1 [sym_kEnd]; AGroup 3 3 syms_1]);
   (582613, 2, [AGroup 26013 1 [sym_kUntil]; AGroup 3 3 syms_1]);
   (582622, 2, [AGroup 29995 1 [sym_identifier]; AGroup 3 3 syms_1]);
   (582631, 2, [AGroup 29997 1 [anon_sym_SEMI]; AGroup 3 3 syms_1]);
   (582640, 2, [AGroup 29999 1 [anon_sym_SEMI]; AGroup 3 3 syms_1]);
   (582649, 3, [AGroup 5 1 [sym_ppDirective]; AGroup 26516 1 [anon_sym_LPAREN]; AGroup 3 2 syms_5]);
   (582660, 2, [AGroup 30001 1 [sym_kIn]; AGroup 3 3 syms_1]);
   (582669, 2, [AGroup 2457 1 [sym_kEnd]; AGroup 3 3 syms_1]);
   (582678, 2, [AGroup 26046 1 [sym_kEnd]; AGroup 3 3 syms_1]);
   (582687, 2, [AGroup 30003 1 [sym_kObject]; AGroup 3 3 syms_1]);
   (582696, 2, [AGroup 3556 1 [sym_kEnd]; AGroup 3 3 syms_1]);
   (582705, 2, [AGroup 30005 1 [anon_sym_SEMI]; AGroup 3 3 syms_1]);
   (582714, 2, [AGroup 30007 1 [sym_kObject]; AGroup 3 3 syms_1]);
   (582723, 2, [AGroup 30009 1 [sym_kEnd]; AGroup 3 3 syms_1]);
   (582732, 2, [AGroup 30011 1 [sym_kEnd]; AGroup 3 3 syms_1]);
   (582741, 2, [AGroup 30013 1 [anon_sym_SEMI]; AGroup 3 3 syms_1])
  ].

(** States 14259 to 14358. *)
Definition small_runs_14259 : list small_run :=
  [
   (582750, 2, [AGroup 30015 1 [anon_sym_SEMI]; AGroup 3 3 syms_1]);
   (582759, 2, [AGroup 30017 1 [anon_sym_SEMI]; AGroup 3 3 syms_1]);
   (582768, 2, [AGroup 30019 1 [sym_kEnd]; AGroup 3 3 syms_1]);
   (582777, 2, [AGroup 30021 1 [anon_sym_SEMI]; AGroup 3 3 syms_1]);
   (582786, 2, [AGroup 30023 1 [sym_kOf]; AGroup 3 3 syms_1]);
   (582795, 2, [AGroup 30025 1 [sym_kEnd]; AGroup 3 3 syms_1]);
   (582804, 2, [AGroup 10898 1 [sym_kEnd]; AGroup 3 3 syms_1]);
   (582813, 2, [AGroup 10902 1 [sym_kEnd]; AGroup 3 3 syms_1]);
   (582822, 2, [AGroup 30027 1 [sym_kEnd]; AGroup 3 3 syms_1]);
   (582831, 2, [AGroup 30029 1 [sym_kEnd]; AGroup 3 3 syms_1]);
   (582840, 2, [AGroup 30031 1 [sym_kUntil]; AGroup 3 3 syms_1]);
   (582849, 2, [AGroup 27632 1 [anon_sym_COMMA]; AGroup 3 3 syms_1]);
   (582858, 2, [AGroup 30033 1 [anon_sym_RPAREN]; AGroup 3 3 syms_1]);
   (582867, 2, [AGroup 29307 1 [anon_sym_SEMI]; AGroup 3 3 syms_1]);
   (582876, 3, [AGroup 5 1 [sym_ppDirective]; AGroup 26614 1 [anon_sym_LPAREN]; AGroup 3 2 syms_5]);
   (582887, 2, [AGroup 29309 1 [anon_sym_SEMI]; AGroup 3 3 syms_1]);
   (582896, 2, [AGroup 30035 1 [sym_kEnd]; AGroup 3 3 syms_1]);
   (582905, 2, [AGroup 29097 1 [anon_sym_SEMI]; AGroup 3 3 syms_1]);
   (582914, 2, [AGroup 30037 1 [sym_kObject]; AGroup 3 3 syms_1]);
   (582923, 2, [AGroup 30039 1 [sym_kEnd]; AGroup 3 3 syms_1]);
   (582932, 2, [AGroup 30041 1 [sym_kEnd]; AGroup 3 3 syms_1]);
   (582941, 2, [AGroup 30043 1 [sym_kEnd]; AGroup 3 3 syms_1]);
   (582950, 2, [AGroup 30045 1 [sym_kEnd]; AGroup 3 3 syms_1]);
   (582959, 2, [AGroup 30047 1 [sym_kEnd]; AGroup 3 3 syms_1]);
   (582968, 2, [AGroup 30049 1 [sym_kEnd]; AGroup 3 3 syms_1]);
   (582977, 2, [AGroup 30051 1 [sym_kIn]; AGroup 3 3 syms_1]);
   (582986, 2, [AGroup 30053 1 [sym_kObject]; AGroup 3 3 syms_1]);
   (582995, 2, [AGroup 22139 1 [anon_sym_SEMI]; AGroup 3 3 syms_1]);
   (583004, 2, [AGroup 30055 1 [sym_kEnd]; AGroup 3 3 syms_1]);
   (583013, 2, [AGroup 30057 1 [anon_sym_SEMI]; AGroup 3 3 syms_1]);
   (583022, 2, [AGroup 30059 1 [anon_sym_SEMI]; AGroup 3 3 syms_1]);
   (583031, 2, [AGroup 29745 1 [anon_sym_SEMI]; AGroup 3 3 syms_1]);
   (583040, 2, [AGroup 30061 1 [anon_sym_SEMI]; AGroup 3 3 syms_1]);
   (583049, 2, [AGroup 30063 1 [anon_sym_SEMI]; AGroup 3 3 syms_1]);
   (583058, 2, [AGroup 30065 1 [anon_sym_RPAREN]; AGroup 3 3 syms_1]);
   (583067, 2, [AGroup 30067 1 [anon_sym_SEMI]; AGroup 3 3 syms_1]);
   (583076, 2, [AGroup 30069 1 [anon_sym_SEMI]; AGroup 3 3 syms_1]);
   (583085, 2, [AGroup 26013 1 [sym_kEnd]; AGroup 3 3 syms_1]);
   (583094, 2, [AGroup 30071 1 [anon_sym_SEMI]; AGroup 3 3 syms_1]);
   (583103, 2, [AGroup 23971 1 [sym_kEnd]; AGroup 3 3 syms_1]);
   (583112, 2, [AGroup 3717 1 [sym_kEnd]; AGroup 3 3 syms_1]);
   (583121, 2, [AGroup 30073 1 [anon_sym_RBRACK]; AGroup 3 3 syms_1]);
   (583130, 2, [AGroup 30075 1 [anon_sym_RPAREN]; AGroup 3 3 syms_1]);
   (583139, 2, [AGroup 30077 1 [sym_kEnd]; AGroup 3 3 syms_1]);
   (583148, 2, [AGroup 30079 1 [anon_sym_SEMI]; AGroup 3 3 syms_1]);
   (583157, 2, [AGroup 30081 1 [anon_sym_RBRACK]; AGroup 3 3 syms_1]);
   (583166, 2, [AGroup 30083 1 [anon_sym_SEMI]; AGroup 3 3 syms_1]);
   (583175, 2, [AGroup 30085 1 [anon_sym_RPAREN]; AGroup 3 3 syms_1]);
   (583184, 2, [AGroup 30087 1 [anon_sym_SEMI]; AGroup 3 3 syms_1]);
   (583193, 2, [AGroup 30089 1 [anon_sym_SEMI]; AGroup 3 3 syms_1]);
   (583202, 2, [AGroup 30091 1 [anon_sym_SEMI]; AGroup 3 3 syms_1]);
   (583211, 2, [AGroup 30093 1 [sym_kGt]; AGroup 3 3 syms_1]);
   (583220, 2, [AGroup 30095 1 [anon_sym_SEMI]; AGroup 3 3 syms_1]);
   (583229, 2, [AGroup 30097 1 [sym_kFor]; AGroup 3 3 syms_1]);
   (583238, 2, [AGroup 30099 1 [sym_kEnd]; AGroup 3 3 syms_1]);
   (583247, 2, [AGroup 30101 1 [anon_sym_RPAREN]; AGroup 3 3 syms_1]);
   (583256, 2, [AGroup 30103 1 [anon_sym_SEMI]; AGroup 3 3 syms_1]);
   (583265, 2, [AGroup 30105 1 [anon_sym_SEMI]; AGroup 3 3 syms_1]);
   (583274, 2, [AGroup 1228 1 [sym_kEnd]; AGroup 3 3 syms_1]);
   (583283, 2, [AGroup 30107 1 [sym_kEnd]; AGroup 3 3 syms_1]);
   (583292, 2, [AGroup 30109 1 [sym_kEnd]; AGroup 3 3 syms_1]);
   (583301, 2, [AGroup 30111 1 [sym_kEnd]; AGroup 3 3 syms_1]);
   (583310, 2, [AGroup 30113 1 [anon_sym_SEMI]; AGroup 3 3 syms_1]);
   (583319, 2, [AGroup 30115 1 [anon_sym_RPAREN]; AGroup 3 3 syms_1]);
   (583328, 2, [AGroup 30117 1 [sym_kEnd]; AGroup 3 3 syms_1]);
   (583337, 2, [AGroup 30119 1 [sym_kEnd]; AGroup 3 3 syms_1]);
   (583346, 2, [AGroup 30121 1 [sym_kEnd]; AGroup 3 3 syms_1]);
   (583355, 2, [AGroup 30123 1 [sym_kEnd]; AGroup 3 3 syms_1]);
   (583364, 2, [AGroup 30125 1 [anon_sym_SEMI]; AGroup 3 3 syms_1]);
   (583373, 2, [AGroup 30127 1 [sym_kEnd]; AGroup 3 3 syms_1]);
   (583382, 2, [AGroup 30129 1 [sym_kEnd]; AGroup 3 3 syms_1]);
   (583391, 2, [AGroup 30131 1 [anon_sym_SEMI]; AGroup 3 3 syms_1]);
   (583400, 2, [AGroup 30133 1 [sym_kEnd]; AGroup 3 3 syms_1]);
   (583409, 2, [AGroup 30135 1 [anon_sym_COLON]; AGroup 3 3 syms_1]);
   (583418, 2, [AGroup 30137 1 [anon_sym_SEMI]; AGroup 3 3 syms_1]);
   (583427, 2, [AGroup 30139 1 [anon_sym_SEMI]; AGroup 3 3 syms_1]);
   (583436, 2, [AGroup 30141 1 [sym_kIn]; AGroup 3 3 syms_1]);
   (583445, 2, [AGroup 30143 1 [anon_sym_SEMI]; AGroup 3 3 syms_1]);
   (583454, 2, [AGroup 30145 1 [sym_kEnd]; AGroup 3 3 syms_1]);
   (583463, 2, [AGroup 30147 1 [anon_sym_SEMI]; AGroup 3 3 syms_1]);
   (583472, 2, [AGroup 30149 1 [anon_sym_SEMI]; AGroup 3 3 syms_1]);
   (583481, 2, [AGroup 30151 1 [anon_sym_RPAREN]; AGroup 3 3 syms_1]);
   (583490, 2, [AGroup 30153 1 [anon_sym_RBRACK]; AGroup 3 3 syms_1]);
   (583499, 2, [AGroup 30155 1 [sym_kEnd]; AGroup 3 3 syms_1]);
   (583508, 2, [AGroup 30157 1 [sym_kEnd]; AGroup 3 3 syms_1]);
   (583517, 2, [AGroup 30159 1 [anon_sym_SEMI]; AGroup 3 3 syms_1]);
   (583526, 2, [AGroup 30161 1 [anon_sym_RPAREN]; AGroup 3 3 syms_1]);
   (583535, 2, [AGroup 30163 1 [anon_sym_RBRACK]; AGroup 3 3 syms_1]);
   (583544, 2, [AGroup 30165 1 [anon_sym_RPAREN]; AGroup 3 3 syms_1]);
   (583553, 2, [AGroup 28307 1 [sym_kElse]; AGroup 3 3 syms_1]);
   (583562, 2, [AGroup 30167 1 [sym_kEnd]; AGroup 3 3 syms_1]);
   (583571, 2, [AGroup 30169 1 [sym_kEnd]; AGroup 3 3 syms_1]);
   (583580, 2, [AGroup 30171 1 [sym_kEnd]; AGroup 3 3 syms_1]);
   (583589, 2, [AGroup 30173 1 [anon_sym_SEMI]; AGroup 3 3 syms_1]);
   (583598, 2, [AGroup 30175 1 [anon_sym_SEMI]; AGroup 3 3 syms_1]);
   (583607, 2, [AGroup 30178 1 [sym_kGt]; AGroup 3 3 syms_1]);
   (583616, 2, [AGroup 30180 1 [sym_kEnd]; AGroup 3 3 syms_1]);
   (583625, 2, [AGroup 30182 1 [anon_sym_SEMI]; AGroup 3 3 syms_1]);
   (583634, 2, [AGroup 29323 1 [anon_sym_SEMI]; AGroup 3 3 syms_1]);
   (583643, 2, [AGroup 30184 1 [sym_kGt]; AGroup 3 3 syms_1])
  ].

(** States 14359 to 14458. *)
Definition small_runs_14359 : list small_run :=
  [
   (583652, 2, [AGroup 30186 1 [anon_sym_SEMI]; AGroup 3 3 syms_1]);
   (583661, 2, [AGroup 2142 1 [sym_kEnd]; AGroup 3 3 syms_1]);
   (583670, 2, [AGroup 30188 1 [anon_sym_SEMI]; AGroup 3 3 syms_1]);
   (583679, 2, [AGroup 30190 1 [anon_sym_RBRACK]; AGroup 3 3 syms_1]);
   (583688, 2, [AGroup 2773 1 [sym_kEnd]; AGroup 3 3 syms_1]);
   (583697, 2, [AGroup 30192 1 [anon_sym_RPAREN]; AGroup 3 3 syms_1]);
   (583706, 2, [AGroup 30194 1 [anon_sym_SEMI]; AGroup 3 3 syms_1]);
   (583715, 2, [AGroup 30196 1 [anon_sym_SEMI]; AGroup 3 3 syms_1]);
   (583724, 2, [AGroup 30198 1 [anon_sym_SEMI]; AGroup 3 3 syms_1]);
   (583733, 2, [AGroup 2777 1 [sym_kEnd]; AGroup 3 3 syms_1]);
   (583742, 2, [AGroup 30200 1 [sym_kEnd]; AGroup 3 3 syms_1]);
   (583751, 2, [AGroup 30202 1 [anon_sym_SEMI]; AGroup 3 3 syms_1]);
   (583760, 2, [AGroup 3659 1 [sym_kEnd]; AGroup 3 3 syms_1]);
   (583769, 2, [AGroup 30204 1 [anon_sym_SEMI]; AGroup 3 3 syms_1]);
   (583778, 2, [AGroup 30206 1 [sym_kEnd]; AGroup 3 3 syms_1]);
   (583787, 2, [AGroup 2146 1 [sym_kEnd]; AGroup 3 3 syms_1]);
   (583796, 2, [AGroup 30208 1 [ts_builtin_sym_end]; AGroup 3 3 syms_1]);
   (583805, 2, [AGroup 30210 1 [sym_kEnd]; AGroup 3 3 syms_1]);
   (583814, 2, [AGroup 30212 1 [sym_identifier]; AGroup 3 3 syms_1]);
   (583823, 2, [AGroup 3350 1 [sym_kEnd]; AGroup 3 3 syms_1]);
   (583832, 2, [AGroup 30214 1 [anon_sym_SEMI]; AGroup 3 3 syms_1]);
   (583841, 3, [AGroup 5 1 [sym_ppDirective]; AGroup 26582 1 [anon_sym_LPAREN]; AGroup 3 2 syms_5]);
   (583852, 2, [AGroup 30216 1 [ts_builtin_sym_end]; AGroup 3 3 syms_1]);
   (583861, 2, [AGroup 29359 1 [anon_sym_SEMI]; AGroup 3 3 syms_1]);
   (583870, 2, [AGroup 30218 1 [anon_sym_SEMI]; AGroup 3 3 syms_1]);
   (583879, 2, [AGroup 29361 1 [anon_sym_SEMI]; AGroup 3 3 syms_1]);
   (583888, 2, [AGroup 30220 1 [sym_kDo]; AGroup 3 3 syms_1]);
   (583897, 2, [AGroup 30222 1 [sym_kEnd]; AGroup 3 3 syms_1]);
   (583906, 2, [AGroup 10906 1 [sym_kEnd]; AGroup 3 3 syms_1]);
   (583915, 2, [AGroup 23040 1 [anon_sym_SEMI]; AGroup 3 3 syms_1]);
   (583924, 2, [AGroup 30224 1 [sym_kIn]; AGroup 3 3 syms_1]);
   (583933, 2, [AGroup 30226 1 [ts_builtin_sym_end]; AGroup 3 3 syms_1]);
   (583942, 2, [AGroup 29697 1 [anon_sym_SEMI]; AGroup 3 3 syms_1]);
   (583951, 2, [AGroup 30228 1 [sym_kEnd]; AGroup 3 3 syms_1]);
   (583960, 2, [AGroup 30230 1 [anon_sym_SEMI]; AGroup 3 3 syms_1]);
   (583969, 2, [AGroup 29705 1 [anon_sym_SEMI]; AGroup 3 3 syms_1]);
   (583978, 2, [AGroup 29715 1 [anon_sym_SEMI]; AGroup 3 3 syms_1]);
   (583987, 2, [AGroup 29147 1 [anon_sym_SEMI]; AGroup 3 3 syms_1]);
   (583996, 2, [AGroup 29149 1 [anon_sym_SEMI]; AGroup 3 3 syms_1]);
   (584005, 2, [AGroup 30232 1 [sym_kUntil]; AGroup 3 3 syms_1]);
   (584014, 2, [AGroup 30234 1 [anon_sym_RPAREN]; AGroup 3 3 syms_1]);
   (584023, 2, [AGroup 29721 1 [anon_sym_SEMI]; AGroup 3 3 syms_1]);
   (584032, 2, [AGroup 30236 1 [anon_sym_SEMI]; AGroup 3 3 syms_1]);
   (584041, 2, [AGroup 26030 1 [sym_kEnd]; AGroup 3 3 syms_1]);
   (584050, 2, [AGroup 30238 1 [anon_sym_RBRACK]; AGroup 3 3 syms_1]);
   (584059, 2, [AGroup 30240 1 [anon_sym_RPAREN]; AGroup 3 3 syms_1]);
   (584068, 2, [AGroup 30242 1 [ts_builtin_sym_end]; AGroup 3 3 syms_1]);
   (584077, 2, [AGroup 30244 1 [anon_sym_RBRACK]; AGroup 3 3 syms_1]);
   (584086, 2, [AGroup 30246 1 [anon_sym_RPAREN]; AGroup 3 3 syms_1]);
   (584095, 2, [AGroup 29251 1 [anon_sym_SEMI]; AGroup 3 3 syms_1]);
   (584104, 2, [AGroup 22928 1 [anon_sym_SEMI]; AGroup 3 3 syms_1]);
   (584113, 2, [AGroup 30248 1 [sym_kEnd]; AGroup 3 3 syms_1]);
   (584122, 2, [AGroup 30250 1 [sym_kEnd]; AGroup 3 3 syms_1]);
   (584131, 2, [AGroup 30252 1 [anon_sym_SEMI]; AGroup 3 3 syms_1]);
   (584140, 2, [AGroup 30254 1 [sym_kEnd]; AGroup 3 3 syms_1]);
   (584149, 2, [AGroup 30256 1 [anon_sym_SEMI]; AGroup 3 3 syms_1]);
   (584158, 2, [AGroup 30258 1 [anon_sym_SEMI]; AGroup 3 3 syms_1]);
   (584167, 2, [AGroup 30260 1 [sym_kFor]; AGroup 3 3 syms_1]);
   (584176, 2, [AGroup 30262 1 [anon_sym_SEMI]; AGroup 3 3 syms_1]);
   (584185, 2, [AGroup 30264 1 [sym_identifier]; AGroup 3 3 syms_1]);
   (584194, 2, [AGroup 30266 1 [anon_sym_RPAREN]; AGroup 3 3 syms_1]);
   (584203, 2, [AGroup 30268 1 [anon_sym_SEMI]; AGroup 3 3 syms_1]);
   (584212, 2, [AGroup 22802 1 [anon_sym_SEMI]; AGroup 3 3 syms_1]);
   (584221, 2, [AGroup 30270 1 [sym_kGt]; AGroup 3 3 syms_1]);
   (584230, 2, [AGroup 30272 1 [anon_sym_SEMI]; AGroup 3 3 syms_1]);
   (584239, 2, [AGroup 30274 1 [anon_sym_COLON]; AGroup 3 3 syms_1]);
   (584248, 2, [AGroup 30276 1 [sym_kEnd]; AGroup 3 3 syms_1]);
   (584257, 2, [AGroup 30278 1 [anon_sym_SEMI]; AGroup 3 3 syms_1]);
   (584266, 2, [AGroup 30280 1 [anon_sym_SEMI]; AGroup 3 3 syms_1]);
   (584275, 2, [AGroup 30282 1 [sym_kEnd]; AGroup 3 3 syms_1]);
   (584284, 2, [AGroup 30284 1 [sym_kEnd]; AGroup 3 3 syms_1]);
   (584293, 2, [AGroup 30286 1 [anon_sym_SEMI]; AGroup 3 3 syms_1]);
   (584302, 2, [AGroup 30288 1 [sym_kEnd]; AGroup 3 3 syms_1]);
   (584311, 2, [AGroup 30290 1 [sym_kEnd]; AGroup 3 3 syms_1]);
   (584320, 2, [AGroup 30292 1 [anon_sym_SEMI]; AGroup 3 3 syms_1]);
   (584329, 2, [AGroup 18724 1 [sym_kEnd]; AGroup 3 3 syms_1]);
   (584338, 2, [AGroup 30294 1 [sym_kEnd]; AGroup 3 3 syms_1]);
   (584347, 2, [AGroup 30296 1 [anon_sym_SEMI]; AGroup 3 3 syms_1]);
   (584356, 2, [AGroup 30298 1 [anon_sym_SEMI]; AGroup 3 3 syms_1]);
   (584365, 2, [AGroup 30300 1 [anon_sym_SEMI]; AGroup 3 3 syms_1]);
   (584374, 2, [AGroup 30302 1 [sym_kIn]; AGroup 3 3 syms_1]);
   (584383, 2, [AGroup 26017 1 [anon_sym_SEMI]; AGroup 3 3 syms_1]);
   (584392, 2, [AGroup 30304 1 [sym_kIn]; AGroup 3 3 syms_1]);
   (584401, 2, [AGroup 30306 1 [ts_builtin_sym_end]; AGroup 3 3 syms_1]);
   (584410, 2, [AGroup 30308 1 [sym_kEnd]; AGroup 3 3 syms_1]);
   (584419, 2, [AGroup 30310 1 [sym_kEnd]; AGroup 3 3 syms_1]);
   (584428, 2, [AGroup 30312 1 [anon_sym_RPAREN]; AGroup 3 3 syms_1]);
   (584437, 2, [AGroup 30314 1 [sym_kEnd]; AGroup 3 3 syms_1]);
   (584446, 2, [AGroup 3552 1 [sym_kEnd]; AGroup 3 3 syms_1]);
   (584455, 2, [AGroup 30316 1 [sym_kOf]; AGroup 3 3 syms_1]);
   (584464, 2, [AGroup 30318 1 [anon_sym_RPAREN]; AGroup 3 3 syms_1]);
   (584473, 2, [AGroup 30320 1 [sym_kObject]; AGroup 3 3 syms_1]);
   (584482, 2, [AGroup 30322 1 [anon_sym_SEMI]; AGroup 3 3 syms_1]);
   (584491, 2, [AGroup 30324 1 [sym_kIn]; AGroup 3 3 syms_1]);
   (584500, 2, [AGroup 30326 1 [anon_sym_RBRACK]; AGroup 3 3 syms_1]);
   (584509, 2, [AGroup 30328 1 [anon_sym_RPAREN]; AGroup 3 3 syms_1]);
   (584518, 2, [AGroup 10910 1 [sym_kEnd]; AGroup 3 3 syms_1]);
   (584527, 2, [AGroup 28442 1 [anon_sym_SEMI]; AGroup 3 3 syms_1]);
   (584536, 2, [AGroup 30330 1 [sym_kEnd]; AGroup 3 3 syms_1]);
   (584545, 2, [AGroup 30332 1 [sym_kObject]; AGroup 3 3 syms_1])
  ].

(** States 14459 to 14558. *)
Definition small_runs_14459 : list small_run :=
  [
   (584554, 2, [AGroup 19279 1 [sym_kEnd]; AGroup 3 3 syms_1]);
   (584563, 2, [AGroup 30334 1 [sym_kEnd]; AGroup 3 3 syms_1]);
   (584572, 2, [AGroup 30336 1 [sym_kEnd]; AGroup 3 3 syms_1]);
   (584581, 2, [AGroup 30338 1 [sym_kEnd]; AGroup 3 3 syms_1]);
   (584590, 2, [AGroup 30340 1 [sym_kEnd]; AGroup 3 3 syms_1]);
   (584599, 2, [AGroup 30342 1 [sym_kGt]; AGroup 3 3 syms_1]);
   (584608, 2, [AGroup 30344 1 [anon_sym_SEMI]; AGroup 3 3 syms_1]);
   (584617, 2, [AGroup 30346 1 [anon_sym_SEMI]; AGroup 3 3 syms_1]);
   (584626, 2, [AGroup 30348 1 [sym_kEnd]; AGroup 3 3 syms_1]);
   (584635, 2, [AGroup 30350 1 [sym_kEnd]; AGroup 3 3 syms_1]);
   (584644, 2, [AGroup 30352 1 [anon_sym_SEMI]; AGroup 3 3 syms_1]);
   (584653, 2, [AGroup 22161 1 [sym_kElse]; AGroup 3 3 syms_1]);
   (584662, 2, [AGroup 30354 1 [sym_kEnd]; AGroup 3 3 syms_1]);
   (584671, 2, [AGroup 30356 1 [sym_kEnd]; AGroup 3 3 syms_1]);
   (584680, 2, [AGroup 30358 1 [anon_sym_SEMI]; AGroup 3 3 syms_1]);
   (584689, 2, [AGroup 30360 1 [sym_kIn]; AGroup 3 3 syms_1]);
   (584698, 2, [AGroup 30362 1 [anon_sym_SEMI]; AGroup 3 3 syms_1]);
   (584707, 2, [AGroup 30364 1 [sym_kEnd]; AGroup 3 3 syms_1]);
   (584716, 2, [AGroup 30366 1 [sym_kGt]; AGroup 3 3 syms_1]);
   (584725, 2, [AGroup 30368 1 [anon_sym_SEMI]; AGroup 3 3 syms_1]);
   (584734, 2, [AGroup 30370 1 [sym_kEnd]; AGroup 3 3 syms_1]);
   (584743, 2, [AGroup 30372 1 [anon_sym_SEMI]; AGroup 3 3 syms_1]);
   (584752, 2, [AGroup 30374 1 [anon_sym_SEMI]; AGroup 3 3 syms_1]);
   (584761, 2, [AGroup 30376 1 [anon_sym_SEMI]; AGroup 3 3 syms_1]);
   (584770, 2, [AGroup 10914 1 [sym_kEnd]; AGroup 3 3 syms_1]);
   (584779, 2, [AGroup 2791 1 [sym_kEnd]; AGroup 3 3 syms_1]);
   (584788, 2, [AGroup 10766 1 [sym_kEnd]; AGroup 3 3 syms_1]);
   (584797, 2, [AGroup 30378 1 [anon_sym_SEMI]; AGroup 3 3 syms_1]);
   (584806, 2, [AGroup 30380 1 [sym_kIn]; AGroup 3 3 syms_1]);
   (584815, 2, [AGroup 30382 1 [anon_sym_SEMI]; AGroup 3 3 syms_1]);
   (584824, 2, [AGroup 2795 1 [sym_kEnd]; AGroup 3 3 syms_1]);
   (584833, 2, [AGroup 30384 1 [sym_kEnd]; AGroup 3 3 syms_1]);
   (584842, 2, [AGroup 23006 1 [anon_sym_SEMI]; AGroup 3 3 syms_1]);
   (584851, 2, [AGroup 3663 1 [sym_kEnd]; AGroup 3 3 syms_1]);
   (584860, 2, [AGroup 30386 1 [anon_sym_SEMI]; AGroup 3 3 syms_1]);
   (584869, 2, [AGroup 30388 1 [sym_kEnd]; AGroup 3 3 syms_1]);
   (584878, 2, [AGroup 10846 1 [sym_kEnd]; AGroup 3 3 syms_1]);
   (584887, 2, [AGroup 30390 1 [anon_sym_RPAREN]; AGroup 3 3 syms_1]);
   (584896, 2, [AGroup 30392 1 [sym_identifier]; AGroup 3 3 syms_1]);
   (584905, 2, [AGroup 1248 1 [sym_kEnd]; AGroup 3 3 syms_1]);
   (584914, 2, [AGroup 30394 1 [anon_sym_SEMI]; AGroup 3 3 syms_1]);
   (584923, 3, [AGroup 5 1 [sym_ppDirective]; AGroup 26608 1 [anon_sym_LPAREN]; AGroup 3 2 syms_5]);
   (584934, 2, [AGroup 30396 1 [anon_sym_SEMI]; AGroup 3 3 syms_1]);
   (584943, 2, [AGroup 30398 1 [anon_sym_SEMI]; AGroup 3 3 syms_1]);
   (584952, 2, [AGroup 10826 1 [sym_kEnd]; AGroup 3 3 syms_1]);
   (584961, 2, [AGroup 30400 1 [anon_sym_RPAREN]; AGroup 3 3 syms_1]);
   (584970, 2, [AGroup 30402 1 [anon_sym_RBRACK]; AGroup 3 3 syms_1]);
   (584979, 2, [AGroup 30404 1 [anon_sym_RPAREN]; AGroup 3 3 syms_1]);
   (584988, 2, [AGroup 30406 1 [sym_kEnd]; AGroup 3 3 syms_1]);
   (584997, 2, [AGroup 30408 1 [sym_kEnd]; AGroup 3 3 syms_1]);
   (585006, 2, [AGroup 10878 1 [sym_kEnd]; AGroup 3 3 syms_1]);
   (585015, 2, [AGroup 23046 1 [anon_sym_SEMI]; AGroup 3 3 syms_1]);
   (585024, 2, [AGroup 30410 1 [sym_kObject]; AGroup 3 3 syms_1]);
   (585033, 2, [AGroup 30412 1 [sym_kEnd]; AGroup 3 3 syms_1]);
   (585042, 2, [AGroup 22323 1 [anon_sym_SEMI]; AGroup 3 3 syms_1]);
   (585051, 2, [AGroup 30414 1 [anon_sym_SEMI]; AGroup 3 3 syms_1]);
   (585060, 2, [AGroup 30416 1 [sym_kUntil]; AGroup 3 3 syms_1]);
   (585069, 2, [AGroup 30418 1 [anon_sym_SEMI]; AGroup 3 3 syms_1]);
   (585078, 2, [AGroup 10710 1 [sym_kEnd]; AGroup 3 3 syms_1]);
   (585087, 2, [AGroup 30420 1 [anon_sym_SEMI]; AGroup 3 3 syms_1]);
   (585096, 2, [AGroup 30422 1 [anon_sym_RBRACK]; AGroup 3 3 syms_1]);
   (585105, 2, [AGroup 30424 1 [anon_sym_RPAREN]; AGroup 3 3 syms_1]);
   (585114, 2, [AGroup 30426 1 [sym_kEnd]; AGroup 3 3 syms_1]);
   (585123, 2, [AGroup 30428 1 [anon_sym_SEMI]; AGroup 3 3 syms_1]);
   (585132, 2, [AGroup 29181 1 [anon_sym_SEMI]; AGroup 3 3 syms_1]);
   (585141, 2, [AGroup 30430 1 [anon_sym_SEMI]; AGroup 3 3 syms_1]);
   (585150, 2, [AGroup 30432 1 [sym_kGt]; AGroup 3 3 syms_1]);
   (585159, 2, [AGroup 30434 1 [sym_kEnd]; AGroup 3 3 syms_1]);
   (585168, 2, [AGroup 30436 1 [sym_kEnd]; AGroup 3 3 syms_1]);
   (585177, 2, [AGroup 30438 1 [anon_sym_SEMI]; AGroup 3 3 syms_1]);
   (585186, 2, [AGroup 29207 1 [anon_sym_SEMI]; AGroup 3 3 syms_1]);
   (585195, 2, [AGroup 29209 1 [anon_sym_SEMI]; AGroup 3 3 syms_1]);
   (585204, 2, [AGroup 29211 1 [anon_sym_SEMI]; AGroup 3 3 syms_1]);
   (585213, 2, [AGroup 29213 1 [anon_sym_SEMI]; AGroup 3 3 syms_1]);
   (585222, 2, [AGroup 30440 1 [anon_sym_SEMI]; AGroup 3 3 syms_1]);
   (585231, 2, [AGroup 30442 1 [anon_sym_SEMI]; AGroup 3 3 syms_1]);
   (585240, 2, [AGroup 30444 1 [anon_sym_SEMI]; AGroup 3 3 syms_1]);
   (585249, 2, [AGroup 22968 1 [anon_sym_SEMI]; AGroup 3 3 syms_1]);
   (585258, 2, [AGroup 30446 1 [anon_sym_SEMI]; AGroup 3 3 syms_1]);
   (585267, 2, [AGroup 30448 1 [sym_kEnd]; AGroup 3 3 syms_1]);
   (585276, 2, [AGroup 1721 1 [sym_kEnd]; AGroup 3 3 syms_1]);
   (585285, 2, [AGroup 30450 1 [anon_sym_SEMI]; AGroup 3 3 syms_1]);
   (585294, 2, [AGroup 30452 1 [sym_kIn]; AGroup 3 3 syms_1]);
   (585303, 2, [AGroup 10732 1 [sym_kEnd]; AGroup 3 3 syms_1]);
   (585312, 2, [AGroup 30454 1 [sym_kEnd]; AGroup 3 3 syms_1]);
   (585321, 2, [AGroup 30456 1 [anon_sym_SEMI]; AGroup 3 3 syms_1]);
   (585330, 2, [AGroup 30458 1 [anon_sym_SEMI]; AGroup 3 3 syms_1]);
   (585339, 2, [AGroup 30460 1 [sym_kOf]; AGroup 3 3 syms_1]);
   (585348, 2, [AGroup 30462 1 [sym_kObject]; AGroup 3 3 syms_1]);
   (585357, 2, [AGroup 30464 1 [anon_sym_RPAREN]; AGroup 3 3 syms_1]);
   (585366, 2, [AGroup 30466 1 [anon_sym_SEMI]; AGroup 3 3 syms_1]);
   (585375, 2, [AGroup 30468 1 [anon_sym_SEMI]; AGroup 3 3 syms_1]);
   (585384, 2, [AGroup 30470 1 [anon_sym_SEMI]; AGroup 3 3 syms_1]);
   (585393, 2, [AGroup 30472 1 [sym_identifier]; AGroup 3 3 syms_1]);
   (585402, 2, [AGroup 30474 1 [anon_sym_RBRACK]; AGroup 3 3 syms_1]);
   (585411, 2, [AGroup 30476 1 [anon_sym_SEMI]; AGroup 3 3 syms_1]);
   (585420, 2, [AGroup 30478 1 [anon_sym_RPAREN]; AGroup 3 3 syms_1]);
   (585429, 2, [AGroup 30480 1 [sym_kGt]; AGroup 3 3 syms_1]);
   (585438, 2, [AGroup 10732 1 [sym_kEnd]; AGroup 3 3 syms_1]);
   (585447, 2, [AGroup 30482 1 [sym_kEnd]; AGroup 3 3 syms_1])
  ].

(** States 14559 to 14658. *)
Definition small_runs_14559 : list small_run :=
  [
   (585456, 2, [AGroup 30484 1 [sym_kEnd]; AGroup 3 3 syms_1]);
   (585465, 2, [AGroup 30486 1 [sym_kEnd]; AGroup 3 3 syms_1]);
   (585474, 2, [AGroup 30488 1 [anon_sym_SEMI]; AGroup 3 3 syms_1]);
   (585483, 2, [AGroup 30490 1 [sym_kEnd]; AGroup 3 3 syms_1]);
   (585492, 2, [AGroup 30492 1 [sym_kEnd]; AGroup 3 3 syms_1]);
   (585501, 2, [AGroup 30494 1 [anon_sym_SEMI]; AGroup 3 3 syms_1]);
   (585510, 2, [AGroup 16916 1 [anon_sym_SEMI]; AGroup 3 3 syms_1]);
   (585519, 2, [AGroup 30496 1 [anon_sym_SEMI]; AGroup 3 3 syms_1]);
   (585528, 2, [AGroup 1294 1 [sym_kEnd]; AGroup 3 3 syms_1]);
   (585537, 2, [AGroup 30498 1 [anon_sym_SEMI]; AGroup 3 3 syms_1]);
   (585546, 2, [AGroup 3388 1 [sym_kEnd]; AGroup 3 3 syms_1]);
   (585555, 2, [AGroup 30500 1 [anon_sym_SEMI]; AGroup 3 3 syms_1]);
   (585564, 2, [AGroup 30502 1 [anon_sym_SEMI]; AGroup 3 3 syms_1]);
   (585573, 2, [AGroup 30504 1 [sym_kEnd]; AGroup 3 3 syms_1]);
   (585582, 2, [AGroup 30506 1 [anon_sym_SEMI]; AGroup 3 3 syms_1]);
   (585591, 2, [AGroup 30508 1 [sym_kGt]; AGroup 3 3 syms_1]);
   (585600, 2, [AGroup 28349 1 [anon_sym_SEMI]; AGroup 3 3 syms_1]);
   (585609, 2, [AGroup 30510 1 [anon_sym_SEMI]; AGroup 3 3 syms_1]);
   (585618, 2, [AGroup 2158 1 [sym_kEnd]; AGroup 3 3 syms_1]);
   (585627, 2, [AGroup 30512 1 [anon_sym_SEMI]; AGroup 3 3 syms_1]);
   (585636, 2, [AGroup 30514 1 [anon_sym_SEMI]; AGroup 3 3 syms_1]);
   (585645, 2, [AGroup 30516 1 [sym_kEnd]; AGroup 3 3 syms_1]);
   (585654, 2, [AGroup 30518 1 [anon_sym_SEMI]; AGroup 3 3 syms_1]);
   (585663, 2, [AGroup 30520 1 [anon_sym_SEMI]; AGroup 3 3 syms_1]);
   (585672, 2, [AGroup 30522 1 [anon_sym_SEMI]; AGroup 3 3 syms_1]);
   (585681, 2, [AGroup 30524 1 [anon_sym_SEMI]; AGroup 3 3 syms_1]);
   (585690, 2, [AGroup 30526 1 [anon_sym_SEMI]; AGroup 3 3 syms_1]);
   (585699, 2, [AGroup 19511 1 [sym_kElse]; AGroup 3 3 syms_1]);
   (585708, 2, [AGroup 30528 1 [sym_kEnd]; AGroup 3 3 syms_1]);
   (585717, 2, [AGroup 30530 1 [sym_kEnd]; AGroup 3 3 syms_1]);
   (585726, 2, [AGroup 30532 1 [sym_kIn]; AGroup 3 3 syms_1]);
   (585735, 2, [AGroup 30534 1 [anon_sym_SEMI]; AGroup 3 3 syms_1]);
   (585744, 2, [AGroup 30536 1 [anon_sym_SEMI]; AGroup 3 3 syms_1]);
   (585753, 2, [AGroup 30538 1 [sym_kEnd]; AGroup 3 3 syms_1]);
   (585762, 2, [AGroup 2162 1 [sym_kEnd]; AGroup 3 3 syms_1]);
   (585771, 2, [AGroup 30540 1 [sym_kEnd]; AGroup 3 3 syms_1]);
   (585780, 2, [AGroup 30542 1 [anon_sym_RPAREN]; AGroup 3 3 syms_1]);
   (585789, 2, [AGroup 30544 1 [anon_sym_SEMI]; AGroup 3 3 syms_1]);
   (585798, 2, [AGroup 30546 1 [anon_sym_SEMI]; AGroup 3 3 syms_1]);
   (585807, 2, [AGroup 30548 1 [anon_sym_SEMI]; AGroup 3 3 syms_1]);
   (585816, 2, [AGroup 30550 1 [anon_sym_SEMI]; AGroup 3 3 syms_1]);
   (585825, 2, [AGroup 2809 1 [sym_kEnd]; AGroup 3 3 syms_1]);
   (585834, 2, [AGroup 30552 1 [anon_sym_SEMI]; AGroup 3 3 syms_1]);
   (585843, 2, [AGroup 3360 1 [sym_kEnd]; AGroup 3 3 syms_1]);
   (585852, 2, [AGroup 30554 1 [anon_sym_RBRACK]; AGroup 3 3 syms_1]);
   (585861, 2, [AGroup 30556 1 [anon_sym_RPAREN]; AGroup 3 3 syms_1]);
   (585870, 2, [AGroup 2813 1 [sym_kEnd]; AGroup 3 3 syms_1]);
   (585879, 2, [AGroup 1725 1 [sym_kEnd]; AGroup 3 3 syms_1]);
   (585888, 2, [AGroup 30558 1 [sym_kEnd]; AGroup 3 3 syms_1]);
   (585897, 2, [AGroup 3687 1 [sym_kEnd]; AGroup 3 3 syms_1]);
   (585906, 2, [AGroup 10740 1 [sym_kEnd]; AGroup 3 3 syms_1]);
   (585915, 2, [AGroup 30560 1 [sym_kEnd]; AGroup 3 3 syms_1]);
   (585924, 2, [AGroup 30562 1 [anon_sym_SEMI]; AGroup 3 3 syms_1]);
   (585933, 2, [AGroup 17858 1 [anon_sym_SEMI]; AGroup 3 3 syms_1]);
   (585942, 2, [AGroup 30564 1 [sym_identifier]; AGroup 3 3 syms_1]);
   (585951, 2, [AGroup 30566 1 [anon_sym_SEMI]; AGroup 3 3 syms_1]);
   (585960, 2, [AGroup 30568 1 [anon_sym_SEMI]; AGroup 3 3 syms_1]);
   (585969, 3, [AGroup 5 1 [sym_ppDirective]; AGroup 26663 1 [anon_sym_LPAREN]; AGroup 3 2 syms_5]);
   (585980, 2, [AGroup 30570 1 [anon_sym_SEMI]; AGroup 3 3 syms_1]);
   (585989, 2, [AGroup 30572 1 [anon_sym_SEMI]; AGroup 3 3 syms_1]);
   (585998, 2, [AGroup 28428 1 [anon_sym_SEMI]; AGroup 3 3 syms_1]);
   (586007, 2, [AGroup 28434 1 [anon_sym_SEMI]; AGroup 3 3 syms_1]);
   (586016, 2, [AGroup 10750 1 [sym_kEnd]; AGroup 3 3 syms_1]);
   (586025, 2, [AGroup 30574 1 [sym_identifier]; AGroup 3 3 syms_1]);
   (586034, 2, [AGroup 29233 1 [anon_sym_SEMI]; AGroup 3 3 syms_1]);
   (586043, 2, [AGroup 3188 1 [sym_kEnd]; AGroup 3 3 syms_1]);
   (586052, 2, [AGroup 10760 1 [sym_kEnd]; AGroup 3 3 syms_1]);
   (586061, 2, [AGroup 30576 1 [sym_kEnd]; AGroup 3 3 syms_1]);
   (586070, 2, [AGroup 30578 1 [anon_sym_SEMI]; AGroup 3 3 syms_1]);
   (586079, 2, [AGroup 30580 1 [sym_kUntil]; AGroup 3 3 syms_1]);
   (586088, 2, [AGroup 30582 1 [anon_sym_COLON]; AGroup 3 3 syms_1]);
   (586097, 2, [AGroup 30584 1 [sym_kEnd]; AGroup 3 3 syms_1]);
   (586106, 2, [AGroup 26063 1 [anon_sym_COMMA]; AGroup 3 3 syms_1]);
   (586115, 2, [AGroup 30586 1 [anon_sym_SEMI]; AGroup 3 3 syms_1]);
   (586124, 2, [AGroup 29259 1 [anon_sym_SEMI]; AGroup 3 3 syms_1]);
   (586133, 2, [AGroup 29261 1 [anon_sym_SEMI]; AGroup 3 3 syms_1]);
   (586142, 2, [AGroup 30588 1 [sym_kEnd]; AGroup 3 3 syms_1]);
   (586151, 2, [AGroup 30590 1 [sym_kEnd]; AGroup 3 3 syms_1]);
   (586160, 2, [AGroup 10720 1 [sym_kOn]; AGroup 3 3 syms_1]);
   (586169, 2, [AGroup 30592 1 [anon_sym_SEMI]; AGroup 3 3 syms_1]);
   (586178, 2, [AGroup 30594 1 [anon_sym_SEMI]; AGroup 3 3 syms_1]);
   (586187, 2, [AGroup 30596 1 [anon_sym_SEMI]; AGroup 3 3 syms_1]);
   (586196, 2, [AGroup 30598 1 [anon_sym_SEMI]; AGroup 3 3 syms_1]);
   (586205, 2, [AGroup 30600 1 [anon_sym_SEMI]; AGroup 3 3 syms_1]);
   (586214, 2, [AGroup 30602 1 [anon_sym_SEMI]; AGroup 3 3 syms_1]);
   (586223, 2, [AGroup 30604 1 [anon_sym_SEMI]; AGroup 3 3 syms_1]);
   (586232, 2, [AGroup 30606 1 [anon_sym_SEMI]; AGroup 3 3 syms_1]);
   (586241, 2, [AGroup 30608 1 [anon_sym_SEMI]; AGroup 3 3 syms_1]);
   (586250, 2, [AGroup 30610 1 [anon_sym_SEMI]; AGroup 3 3 syms_1]);
   (586259, 2, [AGroup 30612 1 [anon_sym_SEMI]; AGroup 3 3 syms_1]);
   (586268, 2, [AGroup 30614 1 [sym_kEnd]; AGroup 3 3 syms_1]);
   (586277, 2, [AGroup 30616 1 [anon_sym_SEMI]; AGroup 3 3 syms_1]);
   (586286, 2, [AGroup 30618 1 [anon_sym_SEMI]; AGroup 3 3 syms_1]);
   (586295, 2, [AGroup 30620 1 [anon_sym_SEMI]; AGroup 3 3 syms_1]);
   (586304, 2, [AGroup 1298 1 [sym_kEnd]; AGroup 3 3 syms_1]);
   (586313, 2, [AGroup 30622 1 [sym_kIn]; AGroup 3 3 syms_1]);
   (586322, 2, [AGroup 28301 1 [anon_sym_SEMI]; AGroup 3 3 syms_1]);
   (586331, 2, [AGroup 30624 1 [anon_sym_SEMI]; AGroup 3 3 syms_1]);
   (586340, 2, [AGroup 30626 1 [sym_kEnd]; AGroup 3 3 syms_1]);
   (586349, 2, [AGroup 30628 1 [anon_sym_SEMI]; AGroup 3 3 syms_1])
  ].

(** States 14659 to 14758. *)
Definition small_runs_14659 : list small_run :=
  [
   (586358, 2, [AGroup 30630 1 [sym_kEnd]; AGroup 3 3 syms_1]);
   (586367, 2, [AGroup 30632 1 [sym_kEnd]; AGroup 3 3 syms_1]);
   (586376, 2, [AGroup 10842 1 [sym_kEnd]; AGroup 3 3 syms_1]);
   (586385, 2, [AGroup 30634 1 [ts_builtin_sym_end]; AGroup 3 3 syms_1]);
   (586394, 2, [AGroup 30636 1 [anon_sym_SEMI]; AGroup 3 3 syms_1]);
   (586403, 2, [AGroup 30638 1 [anon_sym_SEMI]; AGroup 3 3 syms_1]);
   (586412, 2, [AGroup 30640 1 [anon_sym_SEMI]; AGroup 3 3 syms_1]);
   (586421, 2, [AGroup 30642 1 [sym_kEnd]; AGroup 3 3 syms_1]);
   (586430, 2, [AGroup 30644 1 [anon_sym_RPAREN]; AGroup 3 3 syms_1]);
   (586439, 2, [AGroup 30646 1 [anon_sym_SEMI]; AGroup 3 3 syms_1]);
   (586448, 2, [AGroup 30648 1 [sym_kEnd]; AGroup 3 3 syms_1]);
   (586457, 2, [AGroup 30650 1 [anon_sym_SEMI]; AGroup 3 3 syms_1]);
   (586466, 2, [AGroup 29273 1 [anon_sym_SEMI]; AGroup 3 3 syms_1]);
   (586475, 2, [AGroup 30652 1 [anon_sym_SEMI]; AGroup 3 3 syms_1]);
   (586484, 2, [AGroup 3621 1 [sym_kEnd]; AGroup 3 3 syms_1]);
   (586493, 2, [AGroup 30654 1 [anon_sym_SEMI]; AGroup 3 3 syms_1]);
   (586502, 2, [AGroup 28345 1 [anon_sym_SEMI]; AGroup 3 3 syms_1]);
   (586511, 2, [AGroup 30656 1 [anon_sym_SEMI]; AGroup 3 3 syms_1]);
   (586520, 2, [AGroup 30658 1 [anon_sym_RBRACK]; AGroup 3 3 syms_1]);
   (586529, 2, [AGroup 30660 1 [anon_sym_SEMI]; AGroup 3 3 syms_1]);
   (586538, 2, [AGroup 29837 1 [sym_kElse]; AGroup 3 3 syms_1]);
   (586547, 2, [AGroup 30662 1 [sym_kEnd]; AGroup 3 3 syms_1]);
   (586556, 2, [AGroup 30664 1 [sym_kEnd]; AGroup 3 3 syms_1]);
   (586565, 2, [AGroup 30666 1 [anon_sym_RPAREN]; AGroup 3 3 syms_1]);
   (586574, 2, [AGroup 22844 1 [anon_sym_SEMI]; AGroup 3 3 syms_1]);
   (586583, 2, [AGroup 29285 1 [anon_sym_SEMI]; AGroup 3 3 syms_1]);
   (586592, 2, [AGroup 28714 1 [anon_sym_SEMI]; AGroup 3 3 syms_1]);
   (586601, 2, [AGroup 30668 1 [anon_sym_SEMI]; AGroup 3 3 syms_1]);
   (586610, 2, [AGroup 30670 1 [sym_kEnd]; AGroup 3 3 syms_1]);
   (586619, 2, [AGroup 2827 1 [sym_kEnd]; AGroup 3 3 syms_1]);
   (586628, 2, [AGroup 29289 1 [anon_sym_SEMI]; AGroup 3 3 syms_1]);
   (586637, 2, [AGroup 30672 1 [sym_kObject]; AGroup 3 3 syms_1]);
   (586646, 2, [AGroup 2831 1 [sym_kEnd]; AGroup 3 3 syms_1]);
   (586655, 2, [AGroup 30674 1 [anon_sym_RPAREN]; AGroup 3 3 syms_1]);
   (586664, 2, [AGroup 29293 1 [anon_sym_SEMI]; AGroup 3 3 syms_1]);
   (586673, 2, [AGroup 3709 1 [sym_kEnd]; AGroup 3 3 syms_1]);
   (586682, 2, [AGroup 26087 1 [sym_kEnd]; AGroup 3 3 syms_1]);
   (586691, 2, [AGroup 30676 1 [sym_kEnd]; AGroup 3 3 syms_1]);
   (586700, 2, [AGroup 30678 1 [sym_identifier]; AGroup 3 3 syms_1]);
   (586709, 2, [AGroup 17254 1 [anon_sym_SEMI]; AGroup 3 3 syms_1]);
   (586718, 2, [AGroup 10774 1 [sym_kEnd]; AGroup 3 3 syms_1]);
   (586727, 3, [AGroup 5 1 [sym_ppDirective]; AGroup 26751 1 [anon_sym_LPAREN]; AGroup 3 2 syms_5]);
   (586738, 2, [AGroup 30680 1 [anon_sym_SEMI]; AGroup 3 3 syms_1]);
   (586747, 2, [AGroup 30682 1 [sym_kOf]; AGroup 3 3 syms_1]);
   (586756, 2, [AGroup 19561 1 [sym_kElse]; AGroup 3 3 syms_1]);
   (586765, 2, [AGroup 30684 1 [anon_sym_SEMI]; AGroup 3 3 syms_1]);
   (586774, 2, [AGroup 30686 1 [sym_kEnd]; AGroup 3 3 syms_1]);
   (586783, 2, [AGroup 30688 1 [sym_kEnd]; AGroup 3 3 syms_1]);
   (586792, 2, [AGroup 30690 1 [sym_kObject]; AGroup 3 3 syms_1]);
   (586801, 2, [AGroup 30692 1 [sym_kUntil]; AGroup 3 3 syms_1]);
   (586810, 2, [AGroup 10778 1 [sym_kEnd]; AGroup 3 3 syms_1]);
   (586819, 2, [AGroup 30694 1 [sym_kObject]; AGroup 3 3 syms_1]);
   (586828, 2, [AGroup 19321 1 [sym_kElse]; AGroup 3 3 syms_1]);
   (586837, 2, [AGroup 29283 1 [anon_sym_SEMI]; AGroup 3 3 syms_1]);
   (586846, 2, [AGroup 23965 1 [sym_kEnd]; AGroup 3 3 syms_1]);
   (586855, 2, [AGroup 30696 1 [sym_kGt]; AGroup 3 3 syms_1]);
   (586864, 2, [AGroup 30698 1 [anon_sym_SEMI]; AGroup 3 3 syms_1]);
   (586873, 2, [AGroup 1252 1 [sym_kEnd]; AGroup 3 3 syms_1]);
   (586882, 2, [AGroup 30700 1 [anon_sym_SEMI]; AGroup 3 3 syms_1]);
   (586891, 2, [AGroup 30702 1 [sym_kOf]; AGroup 3 3 syms_1]);
   (586900, 2, [AGroup 30704 1 [sym_kEnd]; AGroup 3 3 syms_1]);
   (586909, 2, [AGroup 30706 1 [sym_kIn]; AGroup 3 3 syms_1]);
   (586918, 2, [AGroup 30708 1 [ts_builtin_sym_end]; AGroup 3 3 syms_1]);
   (586927, 2, [AGroup 30710 1 [anon_sym_RBRACK]; AGroup 3 3 syms_1]);
   (586936, 2, [AGroup 30712 1 [sym_kEnd]; AGroup 3 3 syms_1]);
   (586945, 2, [AGroup 26117 1 [sym_kElse]; AGroup 3 3 syms_1]);
   (586954, 2, [AGroup 30714 1 [anon_sym_SEMI]; AGroup 3 3 syms_1]);
   (586963, 2, [AGroup 30716 1 [anon_sym_RPAREN]; AGroup 3 3 syms_1]);
   (586972, 2, [AGroup 30718 1 [sym_kIn]; AGroup 3 3 syms_1]);
   (586981, 2, [AGroup 10784 1 [sym_kEnd]; AGroup 3 3 syms_1]);
   (586990, 2, [AGroup 30720 1 [anon_sym_SEMI]; AGroup 3 3 syms_1]);
   (586999, 2, [AGroup 30722 1 [anon_sym_RBRACK]; AGroup 3 3 syms_1]);
   (587008, 2, [AGroup 30724 1 [sym_identifier]; AGroup 3 3 syms_1]);
   (587017, 2, [AGroup 30726 1 [anon_sym_RPAREN]; AGroup 3 3 syms_1]);
   (587026, 2, [AGroup 30728 1 [sym_kEnd]; AGroup 3 3 syms_1]);
   (587035, 3, [AGroup 5 1 [sym_ppDirective]; AGroup 26526 1 [anon_sym_LPAREN]; AGroup 3 2 syms_5]);
   (587046, 2, [AGroup 30730 1 [sym_kEnd]; AGroup 3 3 syms_1]);
   (587055, 2, [AGroup 26087 1 [sym_kEnd]; AGroup 3 3 syms_1]);
   (587064, 2, [AGroup 30732 1 [sym_identifier]; AGroup 3 3 syms_1]);
   (587073, 2, [AGroup 13345 1 [anon_sym_SEMI]; AGroup 3 3 syms_1]);
   (587082, 2, [AGroup 28754 1 [anon_sym_SEMI]; AGroup 3 3 syms_1]);
   (587091, 2, [AGroup 30734 1 [anon_sym_SEMI]; AGroup 3 3 syms_1]);
   (587100, 2, [AGroup 30736 1 [anon_sym_SEMI]; AGroup 3 3 syms_1]);
   (587109, 2, [AGroup 30738 1 [sym_kUntil]; AGroup 3 3 syms_1]);
   (587118, 2, [AGroup 30740 1 [anon_sym_RPAREN]; AGroup 3 3 syms_1]);
   (587127, 2, [AGroup 10792 1 [sym_kEnd]; AGroup 3 3 syms_1]);
   (587136, 2, [AGroup 30742 1 [anon_sym_COLON]; AGroup 3 3 syms_1]);
   (587145, 2, [AGroup 30744 1 [sym_kEnd]; AGroup 3 3 syms_1]);
   (587154, 2, [AGroup 26032 1 [sym_kEnd]; AGroup 3 3 syms_1]);
   (587163, 2, [AGroup 30746 1 [anon_sym_RPAREN]; AGroup 3 3 syms_1]);
   (587172, 2, [AGroup 30748 1 [sym_kEnd]; AGroup 3 3 syms_1]);
   (587181, 2, [AGroup 30750 1 [anon_sym_SEMI]; AGroup 3 3 syms_1]);
   (587190, 2, [AGroup 30752 1 [sym_kGt]; AGroup 3 3 syms_1]);
   (587199, 2, [AGroup 30754 1 [sym_kEnd]; AGroup 3 3 syms_1]);
   (587208, 2, [AGroup 28514 1 [anon_sym_SEMI]; AGroup 3 3 syms_1]);
   (587217, 2, [AGroup 26998 1 [anon_sym_RPAREN]; AGroup 3 3 syms_1]);
   (587226, 2, [AGroup 30756 1 [sym_kEnd]; AGroup 3 3 syms_1]);
   (587235, 2, [AGroup 10802 1 [sym_kEnd]; AGroup 3 3 syms_1]);
   (587244, 2, [AGroup 30758 1 [anon_sym_SEMI]; AGroup 3 3 syms_1]);
   (587253, 2, [AGroup 26044 1 [sym_kEnd]; AGroup 3 3 syms_1])
  ].

(** States 14759 to 14858. *)
Definition small_runs_14759 : list small_run :=
  [
   (587262, 2, [AGroup 29451 1 [anon_sym_SEMI]; AGroup 3 3 syms_1]);
   (587271, 2, [AGroup 30760 1 [sym_kOf]; AGroup 3 3 syms_1]);
   (587280, 2, [AGroup 30762 1 [sym_kIn]; AGroup 3 3 syms_1]);
   (587289, 2, [AGroup 30764 1 [sym_kObject]; AGroup 3 3 syms_1]);
   (587298, 2, [AGroup 30766 1 [sym_kEnd]; AGroup 3 3 syms_1]);
   (587307, 2, [AGroup 30768 1 [anon_sym_SEMI]; AGroup 3 3 syms_1]);
   (587316, 2, [AGroup 30770 1 [sym_identifier]; AGroup 3 3 syms_1]);
   (587325, 2, [AGroup 30772 1 [sym_kObject]; AGroup 3 3 syms_1]);
   (587334, 2, [AGroup 30774 1 [anon_sym_RPAREN]; AGroup 3 3 syms_1]);
   (587343, 3, [AGroup 5 1 [sym_ppDirective]; AGroup 26444 1 [anon_sym_LPAREN]; AGroup 3 2 syms_5]);
   (587354, 2, [AGroup 27397 1 [anon_sym_SEMI]; AGroup 3 3 syms_1]);
   (587363, 2, [AGroup 26087 1 [sym_kUntil]; AGroup 3 3 syms_1]);
   (587372, 2, [AGroup 30776 1 [anon_sym_SEMI]; AGroup 3 3 syms_1]);
   (587381, 2, [AGroup 10806 1 [sym_kEnd]; AGroup 3 3 syms_1]);
   (587390, 2, [AGroup 30778 1 [sym_kOf]; AGroup 3 3 syms_1]);
   (587399, 2, [AGroup 30780 1 [anon_sym_RBRACK]; AGroup 3 3 syms_1]);
   (587408, 2, [AGroup 30782 1 [anon_sym_RPAREN]; AGroup 3 3 syms_1]);
   (587417, 2, [AGroup 30784 1 [sym_kUntil]; AGroup 3 3 syms_1]);
   (587426, 2, [AGroup 30786 1 [anon_sym_RBRACK]; AGroup 3 3 syms_1]);
   (587435, 2, [AGroup 30788 1 [anon_sym_RPAREN]; AGroup 3 3 syms_1]);
   (587444, 2, [AGroup 30790 1 [anon_sym_SEMI]; AGroup 3 3 syms_1]);
   (587453, 2, [AGroup 30792 1 [sym_kObject]; AGroup 3 3 syms_1]);
   (587462, 2, [AGroup 30794 1 [sym_kEnd]; AGroup 3 3 syms_1]);
   (587471, 2, [AGroup 30796 1 [anon_sym_SEMI]; AGroup 3 3 syms_1]);
   (587480, 2, [AGroup 30798 1 [anon_sym_SEMI]; AGroup 3 3 syms_1]);
   (587489, 2, [AGroup 30800 1 [anon_sym_COLON]; AGroup 3 3 syms_1]);
   (587498, 2, [AGroup 3472 1 [sym_kEnd]; AGroup 3 3 syms_1]);
   (587507, 2, [AGroup 30802 1 [sym_kEnd]; AGroup 3 3 syms_1]);
   (587516, 2, [AGroup 30804 1 [anon_sym_RBRACK]; AGroup 3 3 syms_1]);
   (587525, 2, [AGroup 30806 1 [anon_sym_SEMI]; AGroup 3 3 syms_1]);
   (587534, 2, [AGroup 30808 1 [anon_sym_SEMI]; AGroup 3 3 syms_1]);
   (587543, 2, [AGroup 30810 1 [anon_sym_SEMI]; AGroup 3 3 syms_1]);
   (587552, 2, [AGroup 30812 1 [anon_sym_RPAREN]; AGroup 3 3 syms_1]);
   (587561, 2, [AGroup 10810 1 [sym_kEnd]; AGroup 3 3 syms_1]);
   (587570, 2, [AGroup 30814 1 [sym_kEnd]; AGroup 3 3 syms_1]);
   (587579, 2, [AGroup 22149 1 [anon_sym_SEMI]; AGroup 3 3 syms_1]);
   (587588, 2, [AGroup 30816 1 [anon_sym_SEMI]; AGroup 3 3 syms_1]);
   (587597, 3, [AGroup 5 1 [sym_ppDirective]; AGroup 19267 1 [anon_sym_LPAREN]; AGroup 3 2 syms_5]);
   (587608, 2, [AGroup 30818 1 [anon_sym_RPAREN]; AGroup 3 3 syms_1]);
   (587617, 2, [AGroup 30820 1 [sym_kEnd]; AGroup 3 3 syms_1]);
   (587626, 2, [AGroup 28584 1 [anon_sym_SEMI]; AGroup 3 3 syms_1]);
   (587635, 2, [AGroup 30822 1 [sym_kEnd]; AGroup 3 3 syms_1]);
   (587644, 3, [AGroup 5 1 [sym_ppDirective]; AGroup 26544 1 [anon_sym_LPAREN]; AGroup 3 2 syms_5]);
   (587655, 2, [AGroup 30824 1 [anon_sym_SEMI]; AGroup 3 3 syms_1]);
   (587664, 2, [AGroup 27025 1 [anon_sym_RPAREN]; AGroup 3 3 syms_1]);
   (587673, 2, [AGroup 17756 1 [anon_sym_SEMI]; AGroup 3 3 syms_1]);
   (587682, 2, [AGroup 30826 1 [sym_kEnd]; AGroup 3 3 syms_1]);
   (587691, 2, [AGroup 30828 1 [sym_kEnd]; AGroup 3 3 syms_1]);
   (587700, 2, [AGroup 30830 1 [sym_kIn]; AGroup 3 3 syms_1]);
   (587709, 2, [AGroup 30832 1 [sym_kUntil]; AGroup 3 3 syms_1]);
   (587718, 2, [AGroup 22768 1 [anon_sym_SEMI]; AGroup 3 3 syms_1]);
   (587727, 2, [AGroup 30834 1 [sym_kEnd]; AGroup 3 3 syms_1]);
   (587736, 2, [AGroup 30836 1 [sym_kEnd]; AGroup 3 3 syms_1]);
   (587745, 2, [AGroup 30838 1 [sym_kEnd]; AGroup 3 3 syms_1]);
   (587754, 2, [AGroup 28788 1 [anon_sym_SEMI]; AGroup 3 3 syms_1]);
   (587763, 2, [AGroup 30840 1 [sym_kObject]; AGroup 3 3 syms_1]);
   (587772, 2, [AGroup 30842 1 [anon_sym_RPAREN]; AGroup 3 3 syms_1]);
   (587781, 2, [AGroup 30844 1 [sym_kOf]; AGroup 3 3 syms_1]);
   (587790, 2, [AGroup 30846 1 [sym_kGt]; AGroup 3 3 syms_1]);
   (587799, 2, [AGroup 30848 1 [sym_kEnd]; AGroup 3 3 syms_1]);
   (587808, 2, [AGroup 30850 1 [anon_sym_RBRACK]; AGroup 3 3 syms_1]);
   (587817, 2, [AGroup 30852 1 [anon_sym_RPAREN]; AGroup 3 3 syms_1]);
   (587826, 2, [AGroup 22984 1 [anon_sym_SEMI]; AGroup 3 3 syms_1]);
   (587835, 2, [AGroup 2174 1 [sym_kEnd]; AGroup 3 3 syms_1]);
   (587844, 2, [AGroup 26783 1 [anon_sym_RPAREN]; AGroup 3 3 syms_1]);
   (587853, 2, [AGroup 28608 1 [anon_sym_SEMI]; AGroup 3 3 syms_1]);
   (587862, 2, [AGroup 30854 1 [anon_sym_SEMI]; AGroup 3 3 syms_1]);
   (587871, 2, [AGroup 30856 1 [anon_sym_SEMI]; AGroup 3 3 syms_1]);
   (587880, 2, [AGroup 30858 1 [anon_sym_SEMI]; AGroup 3 3 syms_1]);
   (587889, 3, [AGroup 5 1 [sym_ppDirective]; AGroup 26685 1 [anon_sym_LPAREN]; AGroup 3 2 syms_5]);
   (587900, 2, [AGroup 30860 1 [anon_sym_SEMI]; AGroup 3 3 syms_1]);
   (587909, 2, [AGroup 30862 1 [sym_kObject]; AGroup 3 3 syms_1]);
   (587918, 2, [AGroup 30864 1 [anon_sym_SEMI]; AGroup 3 3 syms_1]);
   (587927, 2, [AGroup 24240 1 [anon_sym_SEMI]; AGroup 3 3 syms_1]);
   (587936, 2, [AGroup 28614 1 [anon_sym_SEMI]; AGroup 3 3 syms_1]);
   (587945, 2, [AGroup 30866 1 [anon_sym_SEMI]; AGroup 3 3 syms_1]);
   (587954, 2, [AGroup 30869 1 [sym_kUntil]; AGroup 3 3 syms_1]);
   (587963, 2, [AGroup 2178 1 [sym_kEnd]; AGroup 3 3 syms_1]);
   (587972, 2, [AGroup 30871 1 [anon_sym_SEMI]; AGroup 3 3 syms_1]);
   (587981, 2, [AGroup 29113 1 [anon_sym_SEMI]; AGroup 3 3 syms_1]);
   (587990, 2, [AGroup 30873 1 [sym_kEnd]; AGroup 3 3 syms_1]);
   (587999, 2, [AGroup 19251 1 [sym_kEnd]; AGroup 3 3 syms_1]);
   (588008, 2, [AGroup 1424 1 [sym_kEnd]; AGroup 3 3 syms_1]);
   (588017, 2, [AGroup 3382 1 [sym_kEnd]; AGroup 3 3 syms_1]);
   (588026, 2, [AGroup 26036 1 [sym_kUntil]; AGroup 3 3 syms_1]);
   (588035, 2, [AGroup 30875 1 [anon_sym_SEMI]; AGroup 3 3 syms_1]);
   (588044, 2, [AGroup 30877 1 [sym_kIn]; AGroup 3 3 syms_1]);
   (588053, 2, [AGroup 30879 1 [ts_builtin_sym_end]; AGroup 3 3 syms_1]);
   (588062, 2, [AGroup 26044 1 [sym_kUntil]; AGroup 3 3 syms_1]);
   (588071, 2, [AGroup 30881 1 [sym_kEnd]; AGroup 3 3 syms_1]);
   (588080, 2, [AGroup 26825 1 [anon_sym_RPAREN]; AGroup 3 3 syms_1]);
   (588089, 2, [AGroup 30883 1 [anon_sym_SEMI]; AGroup 3 3 syms_1]);
   (588098, 2, [AGroup 30885 1 [ts_builtin_sym_end]; AGroup 3 3 syms_1]);
   (588107, 2, [AGroup 29117 1 [anon_sym_SEMI]; AGroup 3 3 syms_1]);
   (588116, 2, [AGroup 30887 1 [anon_sym_SEMI]; AGroup 3 3 syms_1]);
   (588125, 2, [AGroup 30889 1 [sym_kIn]; AGroup 3 3 syms_1]);
   (588134, 3, [AGroup 5 1 [sym_ppDirective]; AGroup 26274 1 [anon_sym_LPAREN]; AGroup 3 2 syms_5]);
   (588145, 2, [AGroup 30891 1 [anon_sym_SEMI]; AGroup 3 3 syms_1]);
   (588154, 2, [AGroup 30893 1 [sym_kEnd]; AGroup 3 3 syms_1]);
   (588163, 2, [AGroup 29709 1 [anon_sym_SEMI]; AGroup 3 3 syms_1])
  ].

(** States 14859 to 14958. *)
Definition small_runs_14859 : list small_run :=
  [
   (588172, 2, [AGroup 25647 1 [anon_sym_SEMI]; AGroup 3 3 syms_1]);
   (588181, 2, [AGroup 30895 1 [anon_sym_RPAREN]; AGroup 3 3 syms_1]);
   (588190, 2, [AGroup 30897 1 [anon_sym_SEMI]; AGroup 3 3 syms_1]);
   (588199, 2, [AGroup 30899 1 [sym_kUntil]; AGroup 3 3 syms_1]);
   (588208, 2, [AGroup 30901 1 [sym_kIn]; AGroup 3 3 syms_1]);
   (588217, 2, [AGroup 28852 1 [anon_sym_RPAREN]; AGroup 3 3 syms_1]);
   (588226, 2, [AGroup 30903 1 [sym_kEnd]; AGroup 3 3 syms_1]);
   (588235, 2, [AGroup 30905 1 [anon_sym_RBRACK]; AGroup 3 3 syms_1]);
   (588244, 2, [AGroup 30907 1 [anon_sym_RPAREN]; AGroup 3 3 syms_1]);
   (588253, 2, [AGroup 29395 1 [anon_sym_RPAREN]; AGroup 3 3 syms_1]);
   (588262, 2, [AGroup 30909 1 [anon_sym_SEMI]; AGroup 3 3 syms_1]);
   (588271, 2, [AGroup 27149 1 [anon_sym_SEMI]; AGroup 3 3 syms_1]);
   (588280, 2, [AGroup 27159 1 [anon_sym_SEMI]; AGroup 3 3 syms_1]);
   (588289, 2, [AGroup 26763 1 [anon_sym_SEMI]; AGroup 3 3 syms_1]);
   (588298, 2, [AGroup 29659 1 [anon_sym_SEMI]; AGroup 3 3 syms_1]);
   (588307, 2, [AGroup 30911 1 [sym_kEnd]; AGroup 3 3 syms_1]);
   (588316, 2, [AGroup 30913 1 [sym_kEnd]; AGroup 3 3 syms_1]);
   (588325, 2, [AGroup 30915 1 [sym_kEnd]; AGroup 3 3 syms_1]);
   (588334, 2, [AGroup 22195 1 [anon_sym_SEMI]; AGroup 3 3 syms_1]);
   (588343, 2, [AGroup 30917 1 [sym_kEnd]; AGroup 3 3 syms_1]);
   (588352, 2, [AGroup 30919 1 [anon_sym_RPAREN]; AGroup 3 3 syms_1]);
   (588361, 2, [AGroup 26785 1 [sym_identifier]; AGroup 3 3 syms_1]);
   (588370, 2, [AGroup 30921 1 [anon_sym_SEMI]; AGroup 3 3 syms_1]);
   (588379, 3, [AGroup 5 1 [sym_ppDirective]; AGroup 26344 1 [anon_sym_LPAREN]; AGroup 3 2 syms_5]);
   (588390, 2, [AGroup 30923 1 [anon_sym_SEMI]; AGroup 3 3 syms_1]);
   (588399, 2, [AGroup 30925 1 [sym_kIn]; AGroup 3 3 syms_1]);
   (588408, 2, [AGroup 30927 1 [anon_sym_RPAREN]; AGroup 3 3 syms_1]);
   (588417, 2, [AGroup 30929 1 [sym_kEnd]; AGroup 3 3 syms_1]);
   (588426, 2, [AGroup 30931 1 [sym_kEnd]; AGroup 3 3 syms_1]);
   (588435, 2, [AGroup 30933 1 [anon_sym_SEMI]; AGroup 3 3 syms_1]);
   (588444, 2, [AGroup 30935 1 [sym_kUntil]; AGroup 3 3 syms_1]);
   (588453, 2, [AGroup 30937 1 [sym_kEnd]; AGroup 3 3 syms_1]);
   (588462, 2, [AGroup 30939 1 [sym_kEnd]; AGroup 3 3 syms_1]);
   (588471, 2, [AGroup 30941 1 [anon_sym_SEMI]; AGroup 3 3 syms_1]);
   (588480, 2, [AGroup 30943 1 [anon_sym_SEMI]; AGroup 3 3 syms_1]);
   (588489, 2, [AGroup 19025 1 [sym_kElse]; AGroup 3 3 syms_1]);
   (588498, 2, [AGroup 30945 1 [anon_sym_SEMI]; AGroup 3 3 syms_1]);
   (588507, 2, [AGroup 30947 1 [sym_kEnd]; AGroup 3 3 syms_1]);
   (588516, 2, [AGroup 26076 1 [sym_kUntil]; AGroup 3 3 syms_1]);
   (588525, 2, [AGroup 30949 1 [anon_sym_RPAREN]; AGroup 3 3 syms_1]);
   (588534, 2, [AGroup 30951 1 [sym_kEnd]; AGroup 3 3 syms_1]);
   (588543, 2, [AGroup 30953 1 [sym_kEnd]; AGroup 3 3 syms_1]);
   (588552, 2, [AGroup 30955 1 [sym_kIn]; AGroup 3 3 syms_1]);
   (588561, 2, [AGroup 30957 1 [sym_kIn]; AGroup 3 3 syms_1]);
   (588570, 2, [AGroup 30959 1 [sym_kEnd]; AGroup 3 3 syms_1]);
   (588579, 2, [AGroup 30961 1 [sym_kEnd]; AGroup 3 3 syms_1]);
   (588588, 2, [AGroup 30963 1 [sym_kEnd]; AGroup 3 3 syms_1]);
   (588597, 2, [AGroup 30965 1 [sym_kEnd]; AGroup 3 3 syms_1]);
   (588606, 3, [AGroup 5 1 [sym_ppDirective]; AGroup 26385 1 [anon_sym_LPAREN]; AGroup 3 2 syms_5]);
   (588617, 2, [AGroup 30967 1 [anon_sym_RPAREN]; AGroup 3 3 syms_1]);
   (588626, 2, [AGroup 22990 1 [anon_sym_SEMI]; AGroup 3 3 syms_1]);
   (588635, 2, [AGroup 30969 1 [anon_sym_SEMI]; AGroup 3 3 syms_1]);
   (588644, 2, [AGroup 22317 1 [anon_sym_SEMI]; AGroup 3 3 syms_1]);
   (588653, 2, [AGroup 30971 1 [anon_sym_RPAREN]; AGroup 3 3 syms_1]);
   (588662, 2, [AGroup 30973 1 [sym_kEnd]; AGroup 3 3 syms_1]);
   (588671, 2, [AGroup 30975 1 [sym_kUntil]; AGroup 3 3 syms_1]);
   (588680, 2, [AGroup 30977 1 [anon_sym_RBRACK]; AGroup 3 3 syms_1]);
   (588689, 2, [AGroup 30979 1 [anon_sym_RPAREN]; AGroup 3 3 syms_1]);
   (588698, 2, [AGroup 30981 1 [sym_kEnd]; AGroup 3 3 syms_1]);
   (588707, 2, [AGroup 30983 1 [sym_kObject]; AGroup 3 3 syms_1]);
   (588716, 2, [AGroup 30985 1 [anon_sym_SEMI]; AGroup 3 3 syms_1]);
   (588725, 2, [AGroup 29141 1 [anon_sym_SEMI]; AGroup 3 3 syms_1]);
   (588734, 2, [AGroup 30987 1 [anon_sym_SEMI]; AGroup 3 3 syms_1]);
   (588743, 2, [AGroup 30989 1 [anon_sym_RPAREN]; AGroup 3 3 syms_1]);
   (588752, 2, [AGroup 10764 1 [sym_kElse]; AGroup 3 3 syms_1]);
   (588761, 2, [AGroup 30991 1 [sym_kEnd]; AGroup 3 3 syms_1]);
   (588770, 2, [AGroup 30993 1 [sym_kEnd]; AGroup 3 3 syms_1]);
   (588779, 2, [AGroup 30995 1 [anon_sym_RBRACK]; AGroup 3 3 syms_1]);
   (588788, 2, [AGroup 30997 1 [anon_sym_RBRACK]; AGroup 3 3 syms_1]);
   (588797, 2, [AGroup 22890 1 [anon_sym_SEMI]; AGroup 3 3 syms_1]);
   (588806, 2, [AGroup 30999 1 [anon_sym_SEMI]; AGroup 3 3 syms_1]);
   (588815, 2, [AGroup 31002 1 [anon_sym_RPAREN]; AGroup 3 3 syms_1]);
   (588824, 2, [AGroup 31004 1 [sym_kGt]; AGroup 3 3 syms_1]);
   (588833, 3, [AGroup 5 1 [sym_ppDirective]; AGroup 26414 1 [anon_sym_LPAREN]; AGroup 3 2 syms_5]);
   (588844, 2, [AGroup 31006 1 [anon_sym_RPAREN]; AGroup 3 3 syms_1]);
   (588853, 2, [AGroup 22227 1 [sym_kElse]; AGroup 3 3 syms_1]);
   (588862, 2, [AGroup 31008 1 [sym_kEnd]; AGroup 3 3 syms_1]);
   (588871, 2, [AGroup 1266 1 [sym_kEnd]; AGroup 3 3 syms_1]);
   (588880, 2, [AGroup 31010 1 [anon_sym_SEMI]; AGroup 3 3 syms_1]);
   (588889, 2, [AGroup 31012 1 [anon_sym_RBRACK]; AGroup 3 3 syms_1]);
   (588898, 2, [AGroup 31014 1 [sym_kUntil]; AGroup 3 3 syms_1]);
   (588907, 2, [AGroup 31016 1 [anon_sym_RPAREN]; AGroup 3 3 syms_1]);
   (588916, 2, [AGroup 31018 1 [anon_sym_SEMI]; AGroup 3 3 syms_1]);
   (588925, 2, [AGroup 31020 1 [anon_sym_SEMI]; AGroup 3 3 syms_1]);
   (588934, 2, [AGroup 31022 1 [anon_sym_SEMI]; AGroup 3 3 syms_1]);
   (588943, 2, [AGroup 31024 1 [anon_sym_SEMI]; AGroup 3 3 syms_1]);
   (588952, 2, [AGroup 1689 1 [sym_kEnd]; AGroup 3 3 syms_1]);
   (588961, 2, [AGroup 31026 1 [anon_sym_SEMI]; AGroup 3 3 syms_1]);
   (588970, 2, [AGroup 28512 1 [anon_sym_SEMI]; AGroup 3 3 syms_1]);
   (588979, 2, [AGroup 27184 1 [anon_sym_SEMI]; AGroup 3 3 syms_1]);
   (588988, 2, [AGroup 27218 1 [anon_sym_SEMI]; AGroup 3 3 syms_1]);
   (588997, 2, [AGroup 31028 1 [sym_kIn]; AGroup 3 3 syms_1]);
   (589006, 2, [AGroup 31030 1 [anon_sym_SEMI]; AGroup 3 3 syms_1]);
   (589015, 2, [AGroup 4439 1 [sym_kEnd]; AGroup 3 3 syms_1]);
   (589024, 2, [AGroup 31032 1 [sym_kEnd]; AGroup 3 3 syms_1]);
   (589033, 2, [AGroup 29645 1 [anon_sym_SEMI]; AGroup 3 3 syms_1]);
   (589042, 2, [AGroup 31034 1 [anon_sym_COLON]; AGroup 3 3 syms_1]);
   (589051, 2, [AGroup 27478 1 [anon_sym_SEMI]; AGroup 3 3 syms_1]);
   (589060, 3, [AGroup 5 1 [sym_ppDirective]; AGroup 26466 1 [anon_sym_LPAREN]; AGroup 3 2 syms_5]);
   (589071, 2, [AGroup 27493 1 [anon_sym_SEMI]; AGroup 3 3 syms_1])
  ].

(** States 14959 to 15058. *)
Definition small_runs_14959 : list small_run :=
  [
   (589080, 2, [AGroup 31036 1 [anon_sym_RPAREN]; AGroup 3 3 syms_1]);
   (589089, 2, [AGroup 31038 1 [sym_kEnd]; AGroup 3 3 syms_1]);
   (589098, 2, [AGroup 31040 1 [anon_sym_SEMI]; AGroup 3 3 syms_1]);
   (589107, 3, [AGroup 5 1 [sym_ppDirective]; AGroup 19271 1 [anon_sym_LPAREN]; AGroup 3 2 syms_5]);
   (589118, 2, [AGroup 23139 1 [anon_sym_SEMI]; AGroup 3 3 syms_1]);
   (589127, 2, [AGroup 31042 1 [sym_kUntil]; AGroup 3 3 syms_1]);
   (589136, 2, [AGroup 31044 1 [anon_sym_SEMI]; AGroup 3 3 syms_1]);
   (589145, 2, [AGroup 31046 1 [anon_sym_SEMI]; AGroup 3 3 syms_1]);
   (589154, 2, [AGroup 26046 1 [sym_kUntil]; AGroup 3 3 syms_1]);
   (589163, 2, [AGroup 31048 1 [anon_sym_RBRACK]; AGroup 3 3 syms_1]);
   (589172, 2, [AGroup 31050 1 [anon_sym_RPAREN]; AGroup 3 3 syms_1]);
   (589181, 2, [AGroup 31052 1 [anon_sym_SEMI]; AGroup 3 3 syms_1]);
   (589190, 2, [AGroup 31054 1 [anon_sym_SEMI]; AGroup 3 3 syms_1]);
   (589199, 2, [AGroup 31056 1 [anon_sym_SEMI]; AGroup 3 3 syms_1]);
   (589208, 2, [AGroup 31058 1 [anon_sym_SEMI]; AGroup 3 3 syms_1]);
   (589217, 2, [AGroup 31060 1 [anon_sym_SEMI]; AGroup 3 3 syms_1]);
   (589226, 2, [AGroup 31062 1 [sym_identifier]; AGroup 3 3 syms_1]);
   (589235, 2, [AGroup 31064 1 [anon_sym_SEMI]; AGroup 3 3 syms_1]);
   (589244, 2, [AGroup 31066 1 [sym_kEnd]; AGroup 3 3 syms_1]);
   (589253, 2, [AGroup 31068 1 [sym_kEnd]; AGroup 3 3 syms_1]);
   (589262, 2, [AGroup 31070 1 [sym_kEnd]; AGroup 3 3 syms_1]);
   (589271, 2, [AGroup 31072 1 [sym_kEnd]; AGroup 3 3 syms_1]);
   (589280, 2, [AGroup 31074 1 [anon_sym_SEMI]; AGroup 3 3 syms_1]);
   (589289, 3, [AGroup 5 1 [sym_ppDirective]; AGroup 26480 1 [anon_sym_LPAREN]; AGroup 3 2 syms_5]);
   (589300, 2, [AGroup 31076 1 [sym_kGt]; AGroup 3 3 syms_1]);
   (589309, 2, [AGroup 1693 1 [sym_kEnd]; AGroup 3 3 syms_1]);
   (589318, 2, [AGroup 2190 1 [sym_kEnd]; AGroup 3 3 syms_1]);
   (589327, 2, [AGroup 17920 1 [anon_sym_COLON]; AGroup 3 3 syms_1]);
   (589336, 2, [AGroup 31078 1 [sym_kEnd]; AGroup 3 3 syms_1]);
   (589345, 2, [AGroup 31080 1 [anon_sym_SEMI]; AGroup 3 3 syms_1]);
   (589354, 2, [AGroup 31082 1 [sym_kUntil]; AGroup 3 3 syms_1]);
   (589363, 2, [AGroup 31084 1 [anon_sym_SEMI]; AGroup 3 3 syms_1]);
   (589372, 2, [AGroup 31086 1 [anon_sym_SEMI]; AGroup 3 3 syms_1]);
   (589381, 2, [AGroup 2194 1 [sym_kEnd]; AGroup 3 3 syms_1]);
   (589390, 2, [AGroup 29517 1 [anon_sym_SEMI]; AGroup 3 3 syms_1]);
   (589399, 2, [AGroup 31088 1 [anon_sym_SEMI]; AGroup 3 3 syms_1]);
   (589408, 2, [AGroup 28622 1 [anon_sym_SEMI]; AGroup 3 3 syms_1]);
   (589417, 2, [AGroup 29557 1 [anon_sym_SEMI]; AGroup 3 3 syms_1]);
   (589426, 2, [AGroup 29821 1 [anon_sym_SEMI]; AGroup 3 3 syms_1]);
   (589435, 2, [AGroup 31090 1 [anon_sym_COLON]; AGroup 3 3 syms_1]);
   (589444, 2, [AGroup 31092 1 [anon_sym_RBRACK]; AGroup 3 3 syms_1]);
   (589453, 2, [AGroup 31094 1 [sym_kIn]; AGroup 3 3 syms_1]);
   (589462, 2, [AGroup 3390 1 [sym_kEnd]; AGroup 3 3 syms_1]);
   (589471, 2, [AGroup 31096 1 [sym_kEnd]; AGroup 3 3 syms_1]);
   (589480, 2, [AGroup 31098 1 [sym_kEnd]; AGroup 3 3 syms_1]);
   (589489, 2, [AGroup 31100 1 [sym_kGt]; AGroup 3 3 syms_1]);
   (589498, 2, [AGroup 31102 1 [sym_kEnd]; AGroup 3 3 syms_1]);
   (589507, 2, [AGroup 31104 1 [sym_kEnd]; AGroup 3 3 syms_1]);
   (589516, 3, [AGroup 5 1 [sym_ppDirective]; AGroup 26488 1 [anon_sym_LPAREN]; AGroup 3 2 syms_5]);
   (589527, 2, [AGroup 31106 1 [anon_sym_RPAREN]; AGroup 3 3 syms_1]);
   (589536, 2, [AGroup 31108 1 [anon_sym_SEMI]; AGroup 3 3 syms_1]);
   (589545, 2, [AGroup 31110 1 [anon_sym_SEMI]; AGroup 3 3 syms_1]);
   (589554, 2, [AGroup 31112 1 [sym_kEnd]; AGroup 3 3 syms_1]);
   (589563, 2, [AGroup 31114 1 [anon_sym_SEMI]; AGroup 3 3 syms_1]);
   (589572, 2, [AGroup 31116 1 [anon_sym_SEMI]; AGroup 3 3 syms_1]);
   (589581, 2, [AGroup 31118 1 [sym_kUntil]; AGroup 3 3 syms_1]);
   (589590, 2, [AGroup 31120 1 [anon_sym_SEMI]; AGroup 3 3 syms_1]);
   (589599, 2, [AGroup 1830 1 [sym_kEnd]; AGroup 3 3 syms_1]);
   (589608, 2, [AGroup 31122 1 [anon_sym_RBRACK]; AGroup 3 3 syms_1]);
   (589617, 2, [AGroup 31124 1 [anon_sym_RPAREN]; AGroup 3 3 syms_1]);
   (589626, 2, [AGroup 31126 1 [anon_sym_SEMI]; AGroup 3 3 syms_1]);
   (589635, 2, [AGroup 3176 1 [sym_kEnd]; AGroup 3 3 syms_1]);
   (589644, 2, [AGroup 31128 1 [sym_kEnd]; AGroup 3 3 syms_1]);
   (589653, 2, [AGroup 31130 1 [anon_sym_SEMI]; AGroup 3 3 syms_1]);
   (589662, 2, [AGroup 31132 1 [anon_sym_SEMI]; AGroup 3 3 syms_1]);
   (589671, 2, [AGroup 31134 1 [anon_sym_SEMI]; AGroup 3 3 syms_1]);
   (589680, 2, [AGroup 31136 1 [anon_sym_SEMI]; AGroup 3 3 syms_1]);
   (589689, 2, [AGroup 31138 1 [sym_kEnd]; AGroup 3 3 syms_1]);
   (589698, 2, [AGroup 31140 1 [sym_kEnd]; AGroup 3 3 syms_1]);
   (589707, 2, [AGroup 31142 1 [anon_sym_SEMI]; AGroup 3 3 syms_1]);
   (589716, 2, [AGroup 31144 1 [anon_sym_SEMI]; AGroup 3 3 syms_1]);
   (589725, 2, [AGroup 31146 1 [sym_kEnd]; AGroup 3 3 syms_1]);
   (589734, 2, [AGroup 31148 1 [sym_kEnd]; AGroup 3 3 syms_1]);
   (589743, 3, [AGroup 5 1 [sym_ppDirective]; AGroup 26508 1 [anon_sym_LPAREN]; AGroup 3 2 syms_5]);
   (589754, 2, [AGroup 31150 1 [anon_sym_SEMI]; AGroup 3 3 syms_1]);
   (589763, 2, [AGroup 31152 1 [sym_kEnd]; AGroup 3 3 syms_1]);
   (589772, 2, [AGroup 26847 1 [anon_sym_SEMI]; AGroup 3 3 syms_1]);
   (589781, 2, [AGroup 1834 1 [sym_kEnd]; AGroup 3 3 syms_1]);
   (589790, 2, [AGroup 4439 1 [sym_kElse]; AGroup 3 3 syms_1]);
   (589799, 2, [AGroup 31154 1 [sym_kEnd]; AGroup 3 3 syms_1]);
   (589808, 2, [AGroup 31156 1 [sym_kUntil]; AGroup 3 3 syms_1]);
   (589817, 2, [AGroup 31158 1 [anon_sym_SEMI]; AGroup 3 3 syms_1]);
   (589826, 2, [AGroup 3256 1 [sym_kEnd]; AGroup 3 3 syms_1]);
   (589835, 2, [AGroup 31160 1 [anon_sym_SEMI]; AGroup 3 3 syms_1]);
   (589844, 2, [AGroup 29561 1 [anon_sym_SEMI]; AGroup 3 3 syms_1]);
   (589853, 2, [AGroup 19360 1 [sym_kEnd]; AGroup 3 3 syms_1]);
   (589862, 2, [AGroup 27379 1 [anon_sym_SEMI]; AGroup 3 3 syms_1]);
   (589871, 2, [AGroup 27495 1 [anon_sym_SEMI]; AGroup 3 3 syms_1]);
   (589880, 2, [AGroup 27531 1 [anon_sym_SEMI]; AGroup 3 3 syms_1]);
   (589889, 2, [AGroup 27537 1 [anon_sym_SEMI]; AGroup 3 3 syms_1]);
   (589898, 2, [AGroup 28321 1 [anon_sym_SEMI]; AGroup 3 3 syms_1]);
   (589907, 2, [AGroup 31162 1 [sym_kEnd]; AGroup 3 3 syms_1]);
   (589916, 2, [AGroup 31164 1 [sym_kIn]; AGroup 3 3 syms_1]);
   (589925, 2, [AGroup 22780 1 [anon_sym_SEMI]; AGroup 3 3 syms_1]);
   (589934, 3, [AGroup 5 1 [sym_ppDirective]; AGroup 26534 1 [anon_sym_LPAREN]; AGroup 3 2 syms_5]);
   (589945, 2, [AGroup 31166 1 [sym_kEnd]; AGroup 3 3 syms_1]);
   (589954, 2, [AGroup 31168 1 [sym_kEnd]; AGroup 3 3 syms_1]);
   (589963, 2, [AGroup 31170 1 [sym_kEnd]; AGroup 3 3 syms_1]);
   (589972, 2, [AGroup 18806 1 [sym_kElse]; AGroup 3 3 syms_1]);
   (589981, 2, [AGroup 31172 1 [anon_sym_SEMI]; AGroup 3 3 syms_1])
  ].

(** States 15059 to 15158. *)
Definition small_runs_15059 : list small_run :=
  [
   (589990, 2, [AGroup 31174 1 [anon_sym_RPAREN]; AGroup 3 3 syms_1]);
   (589999, 2, [AGroup 31176 1 [sym_kUntil]; AGroup 3 3 syms_1]);
   (590008, 2, [AGroup 28738 1 [anon_sym_SEMI]; AGroup 3 3 syms_1]);
   (590017, 2, [AGroup 31178 1 [anon_sym_SEMI]; AGroup 3 3 syms_1]);
   (590026, 2, [AGroup 31180 1 [anon_sym_SEMI]; AGroup 3 3 syms_1]);
   (590035, 2, [AGroup 31182 1 [anon_sym_SEMI]; AGroup 3 3 syms_1]);
   (590044, 2, [AGroup 22237 1 [anon_sym_SEMI]; AGroup 3 3 syms_1]);
   (590053, 2, [AGroup 31184 1 [anon_sym_RBRACK]; AGroup 3 3 syms_1]);
   (590062, 2, [AGroup 31186 1 [anon_sym_SEMI]; AGroup 3 3 syms_1]);
   (590071, 2, [AGroup 31188 1 [anon_sym_RPAREN]; AGroup 3 3 syms_1]);
   (590080, 2, [AGroup 31190 1 [sym_kGt]; AGroup 3 3 syms_1]);
   (590089, 2, [AGroup 31192 1 [anon_sym_SEMI]; AGroup 3 3 syms_1]);
   (590098, 2, [AGroup 28770 1 [sym_kElse]; AGroup 3 3 syms_1]);
   (590107, 2, [AGroup 31194 1 [sym_kIn]; AGroup 3 3 syms_1]);
   (590116, 2, [AGroup 31196 1 [sym_kOf]; AGroup 3 3 syms_1]);
   (590125, 3, [AGroup 5 1 [sym_ppDirective]; AGroup 26586 1 [anon_sym_LPAREN]; AGroup 3 2 syms_5]);
   (590136, 2, [AGroup 1310 1 [sym_kEnd]; AGroup 3 3 syms_1]);
   (590145, 2, [AGroup 31198 1 [anon_sym_SEMI]; AGroup 3 3 syms_1]);
   (590154, 2, [AGroup 31200 1 [sym_kEnd]; AGroup 3 3 syms_1]);
   (590163, 2, [AGroup 29169 1 [sym_kElse]; AGroup 3 3 syms_1]);
   (590172, 2, [AGroup 31202 1 [anon_sym_SEMI]; AGroup 3 3 syms_1]);
   (590181, 2, [AGroup 31204 1 [anon_sym_SEMI]; AGroup 3 3 syms_1]);
   (590190, 2, [AGroup 31206 1 [sym_kUntil]; AGroup 3 3 syms_1]);
   (590199, 2, [AGroup 31208 1 [anon_sym_RPAREN]; AGroup 3 3 syms_1]);
   (590208, 2, [AGroup 31210 1 [anon_sym_SEMI]; AGroup 3 3 syms_1]);
   (590217, 2, [AGroup 10720 1 [sym_kEnd]; AGroup 3 3 syms_1]);
   (590226, 2, [AGroup 31212 1 [anon_sym_SEMI]; AGroup 3 3 syms_1]);
   (590235, 2, [AGroup 31214 1 [sym_kEnd]; AGroup 3 3 syms_1]);
   (590244, 2, [AGroup 31216 1 [sym_kEnd]; AGroup 3 3 syms_1]);
   (590253, 2, [AGroup 31218 1 [anon_sym_SEMI]; AGroup 3 3 syms_1]);
   (590262, 2, [AGroup 31220 1 [anon_sym_SEMI]; AGroup 3 3 syms_1]);
   (590271, 2, [AGroup 31222 1 [sym_kEnd]; AGroup 3 3 syms_1]);
   (590280, 2, [AGroup 31224 1 [anon_sym_SEMI]; AGroup 3 3 syms_1]);
   (590289, 2, [AGroup 31226 1 [anon_sym_RPAREN]; AGroup 3 3 syms_1]);
   (590298, 2, [AGroup 31228 1 [anon_sym_SEMI]; AGroup 3 3 syms_1]);
   (590307, 2, [AGroup 31230 1 [sym_kEnd]; AGroup 3 3 syms_1]);
   (590316, 3, [AGroup 5 1 [sym_ppDirective]; AGroup 26629 1 [anon_sym_LPAREN]; AGroup 3 2 syms_5]);
   (590327, 2, [AGroup 31232 1 [anon_sym_SEMI]; AGroup 3 3 syms_1]);
   (590336, 2, [AGroup 13415 1 [anon_sym_SEMI]; AGroup 3 3 syms_1]);
   (590345, 2, [AGroup 31234 1 [anon_sym_SEMI]; AGroup 3 3 syms_1]);
   (590354, 2, [AGroup 31236 1 [anon_sym_SEMI]; AGroup 3 3 syms_1]);
   (590363, 2, [AGroup 27474 1 [anon_sym_SEMI]; AGroup 3 3 syms_1]);
   (590372, 2, [AGroup 31238 1 [anon_sym_SEMI]; AGroup 3 3 syms_1]);
   (590381, 2, [AGroup 31240 1 [sym_kUntil]; AGroup 3 3 syms_1]);
   (590390, 2, [AGroup 31242 1 [sym_kEnd]; AGroup 3 3 syms_1]);
   (590399, 2, [AGroup 31244 1 [sym_kGt]; AGroup 3 3 syms_1]);
   (590408, 2, [AGroup 31246 1 [anon_sym_COLON]; AGroup 3 3 syms_1]);
   (590417, 2, [AGroup 26849 1 [anon_sym_SEMI]; AGroup 3 3 syms_1]);
   (590426, 2, [AGroup 26902 1 [anon_sym_SEMI]; AGroup 3 3 syms_1]);
   (590435, 2, [AGroup 31248 1 [sym_kIn]; AGroup 3 3 syms_1]);
   (590444, 2, [AGroup 31250 1 [anon_sym_SEMI]; AGroup 3 3 syms_1]);
   (590453, 2, [AGroup 31252 1 [sym_kEnd]; AGroup 3 3 syms_1]);
   (590462, 2, [AGroup 31254 1 [anon_sym_SEMI]; AGroup 3 3 syms_1]);
   (590471, 2, [AGroup 31256 1 [anon_sym_SEMI]; AGroup 3 3 syms_1]);
   (590480, 2, [AGroup 31258 1 [anon_sym_SEMI]; AGroup 3 3 syms_1]);
   (590489, 2, [AGroup 31260 1 [anon_sym_SEMI]; AGroup 3 3 syms_1]);
   (590498, 2, [AGroup 28325 1 [anon_sym_COMMA]; AGroup 3 3 syms_1]);
   (590507, 3, [AGroup 5 1 [sym_ppDirective]; AGroup 26653 1 [anon_sym_LPAREN]; AGroup 3 2 syms_5]);
   (590518, 2, [AGroup 31262 1 [anon_sym_SEMI]; AGroup 3 3 syms_1]);
   (590527, 2, [AGroup 31264 1 [anon_sym_SEMI]; AGroup 3 3 syms_1]);
   (590536, 2, [AGroup 31266 1 [anon_sym_SEMI]; AGroup 3 3 syms_1]);
   (590545, 2, [AGroup 31268 1 [anon_sym_SEMI]; AGroup 3 3 syms_1]);
   (590554, 2, [AGroup 1314 1 [sym_kEnd]; AGroup 3 3 syms_1]);
   (590563, 2, [AGroup 31270 1 [anon_sym_SEMI]; AGroup 3 3 syms_1]);
   (590572, 2, [AGroup 31272 1 [sym_kUntil]; AGroup 3 3 syms_1]);
   (590581, 2, [AGroup 31274 1 [anon_sym_RPAREN]; AGroup 3 3 syms_1]);
   (590590, 2, [AGroup 31276 1 [sym_kIn]; AGroup 3 3 syms_1]);
   (590599, 2, [AGroup 31278 1 [sym_kEnd]; AGroup 3 3 syms_1]);
   (590608, 2, [AGroup 31280 1 [anon_sym_SEMI]; AGroup 3 3 syms_1]);
   (590617, 2, [AGroup 31282 1 [anon_sym_RBRACK]; AGroup 3 3 syms_1]);
   (590626, 2, [AGroup 31284 1 [anon_sym_RPAREN]; AGroup 3 3 syms_1]);
   (590635, 2, [AGroup 29375 1 [anon_sym_SEMI]; AGroup 3 3 syms_1]);
   (590644, 2, [AGroup 31286 1 [anon_sym_SEMI]; AGroup 3 3 syms_1]);
   (590653, 2, [AGroup 31288 1 [anon_sym_SEMI]; AGroup 3 3 syms_1]);
   (590662, 2, [AGroup 28568 1 [anon_sym_SEMI]; AGroup 3 3 syms_1]);
   (590671, 2, [AGroup 31290 1 [anon_sym_RBRACK]; AGroup 3 3 syms_1]);
   (590680, 2, [AGroup 31292 1 [anon_sym_SEMI]; AGroup 3 3 syms_1]);
   (590689, 2, [AGroup 27177 1 [anon_sym_SEMI]; AGroup 3 3 syms_1]);
   (590698, 3, [AGroup 5 1 [sym_ppDirective]; AGroup 26675 1 [anon_sym_LPAREN]; AGroup 3 2 syms_5]);
   (590709, 2, [AGroup 31294 1 [anon_sym_SEMI]; AGroup 3 3 syms_1]);
   (590718, 2, [AGroup 3649 1 [sym_kEnd]; AGroup 3 3 syms_1]);
   (590727, 2, [AGroup 31296 1 [anon_sym_RPAREN]; AGroup 3 3 syms_1]);
   (590736, 2, [AGroup 29675 1 [anon_sym_SEMI]; AGroup 3 3 syms_1]);
   (590745, 2, [AGroup 31298 1 [sym_kEnd]; AGroup 3 3 syms_1]);
   (590754, 2, [AGroup 27576 1 [anon_sym_SEMI]; AGroup 3 3 syms_1]);
   (590763, 2, [AGroup 31300 1 [sym_kUntil]; AGroup 3 3 syms_1]);
   (590772, 2, [AGroup 31302 1 [sym_kEnd]; AGroup 3 3 syms_1]);
   (590781, 2, [AGroup 31304 1 [sym_kEnd]; AGroup 3 3 syms_1]);
   (590790, 2, [AGroup 27521 1 [anon_sym_SEMI]; AGroup 3 3 syms_1]);
   (590799, 2, [AGroup 31306 1 [anon_sym_SEMI]; AGroup 3 3 syms_1]);
   (590808, 2, [AGroup 27445 1 [anon_sym_SEMI]; AGroup 3 3 syms_1]);
   (590817, 2, [AGroup 31308 1 [anon_sym_SEMI]; AGroup 3 3 syms_1]);
   (590826, 2, [AGroup 31310 1 [anon_sym_COLON]; AGroup 3 3 syms_1]);
   (590835, 2, [AGroup 31312 1 [anon_sym_SEMI]; AGroup 3 3 syms_1]);
   (590844, 2, [AGroup 31314 1 [anon_sym_SEMI]; AGroup 3 3 syms_1]);
   (590853, 2, [AGroup 18816 1 [sym_kElse]; AGroup 3 3 syms_1]);
   (590862, 2, [AGroup 31316 1 [sym_kObject]; AGroup 3 3 syms_1]);
   (590871, 2, [AGroup 31318 1 [sym_kEnd]; AGroup 3 3 syms_1]);
   (590880, 2, [AGroup 31320 1 [anon_sym_SEMI]; AGroup 3 3 syms_1]);
   (590889, 3, [AGroup 5 1 [sym_ppDirective]; AGroup 26705 1 [anon_sym_LPAREN]; AGroup 3 2 syms_5])
  ].

(** States 15159 to 15258. *)
Definition small_runs_15159 : list small_run :=
  [
   (590900, 2, [AGroup 31322 1 [anon_sym_SEMI]; AGroup 3 3 syms_1]);
   (590909, 2, [AGroup 31324 1 [sym_kEnd]; AGroup 3 3 syms_1]);
   (590918, 2, [AGroup 31326 1 [sym_kFor]; AGroup 3 3 syms_1]);
   (590927, 2, [AGroup 31328 1 [anon_sym_SEMI]; AGroup 3 3 syms_1]);
   (590936, 2, [AGroup 29377 1 [anon_sym_SEMI]; AGroup 3 3 syms_1]);
   (590945, 2, [AGroup 31330 1 [sym_kEnd]; AGroup 3 3 syms_1]);
   (590954, 2, [AGroup 31332 1 [sym_kUntil]; AGroup 3 3 syms_1]);
   (590963, 2, [AGroup 31334 1 [sym_kEnd]; AGroup 3 3 syms_1]);
   (590972, 2, [AGroup 31336 1 [sym_kIn]; AGroup 3 3 syms_1]);
   (590981, 2, [AGroup 31338 1 [sym_kEnd]; AGroup 3 3 syms_1]);
   (590990, 2, [AGroup 31340 1 [sym_kEnd]; AGroup 3 3 syms_1]);
   (590999, 2, [AGroup 28975 1 [anon_sym_SEMI]; AGroup 3 3 syms_1]);
   (591008, 2, [AGroup 26076 1 [sym_kElse]; AGroup 3 3 syms_1]);
   (591017, 2, [AGroup 31342 1 [anon_sym_RPAREN]; AGroup 3 3 syms_1]);
   (591026, 2, [AGroup 31344 1 [anon_sym_COLON]; AGroup 3 3 syms_1]);
   (591035, 2, [AGroup 31346 1 [sym_kEnd]; AGroup 3 3 syms_1]);
   (591044, 2, [AGroup 28586 1 [anon_sym_SEMI]; AGroup 3 3 syms_1]);
   (591053, 2, [AGroup 31348 1 [sym_kGt]; AGroup 3 3 syms_1]);
   (591062, 2, [AGroup 31350 1 [sym_identifier]; AGroup 3 3 syms_1]);
   (591071, 2, [AGroup 28588 1 [anon_sym_SEMI]; AGroup 3 3 syms_1]);
   (591080, 3, [AGroup 5 1 [sym_ppDirective]; AGroup 26749 1 [anon_sym_LPAREN]; AGroup 3 2 syms_5]);
   (591091, 2, [AGroup 31352 1 [anon_sym_RBRACK]; AGroup 3 3 syms_1]);
   (591100, 2, [AGroup 29727 1 [anon_sym_SEMI]; AGroup 3 3 syms_1]);
   (591109, 2, [AGroup 31354 1 [anon_sym_RPAREN]; AGroup 3 3 syms_1]);
   (591118, 2, [AGroup 31356 1 [sym_kEnd]; AGroup 3 3 syms_1]);
   (591127, 2, [AGroup 3168 1 [sym_kEnd]; AGroup 3 3 syms_1]);
   (591136, 2, [AGroup 28309 1 [anon_sym_SEMI]; AGroup 3 3 syms_1]);
   (591145, 2, [AGroup 31358 1 [sym_kUntil]; AGroup 3 3 syms_1]);
   (591154, 2, [AGroup 28642 1 [anon_sym_SEMI]; AGroup 3 3 syms_1]);
   (591163, 2, [AGroup 29733 1 [anon_sym_SEMI]; AGroup 3 3 syms_1]);
   (591172, 2, [AGroup 31360 1 [sym_kEnd]; AGroup 3 3 syms_1]);
   (591181, 2, [AGroup 31362 1 [sym_kEnd]; AGroup 3 3 syms_1]);
   (591190, 2, [AGroup 31364 1 [anon_sym_SEMI]; AGroup 3 3 syms_1]);
   (591199, 2, [AGroup 31366 1 [sym_kEnd]; AGroup 3 3 syms_1]);
   (591208, 2, [AGroup 31368 1 [anon_sym_SEMI]; AGroup 3 3 syms_1]);
   (591217, 2, [AGroup 31370 1 [sym_kEnd]; AGroup 3 3 syms_1]);
   (591226, 2, [AGroup 31372 1 [sym_kEnd]; AGroup 3 3 syms_1]);
   (591235, 2, [AGroup 31374 1 [anon_sym_SEMI]; AGroup 3 3 syms_1]);
   (591244, 2, [AGroup 31376 1 [sym_kIn]; AGroup 3 3 syms_1]);
   (591253, 2, [AGroup 31378 1 [sym_kEnd]; AGroup 3 3 syms_1]);
   (591262, 2, [AGroup 3404 1 [sym_kEnd]; AGroup 3 3 syms_1]);
   (591271, 3, [AGroup 5 1 [sym_ppDirective]; AGroup 26225 1 [anon_sym_LPAREN]; AGroup 3 2 syms_5]);
   (591282, 2, [AGroup 31380 1 [anon_sym_RPAREN]; AGroup 3 3 syms_1]);
   (591291, 2, [AGroup 31382 1 [anon_sym_SEMI]; AGroup 3 3 syms_1]);
   (591300, 2, [AGroup 19761 1 [ts_builtin_sym_end]; AGroup 3 3 syms_1]);
   (591309, 2, [AGroup 31384 1 [anon_sym_RBRACK]; AGroup 3 3 syms_1]);
   (591318, 2, [AGroup 31386 1 [sym_kEnd]; AGroup 3 3 syms_1]);
   (591327, 2, [AGroup 31388 1 [sym_kEnd]; AGroup 3 3 syms_1]);
   (591336, 2, [AGroup 31390 1 [sym_kUntil]; AGroup 3 3 syms_1]);
   (591345, 2, [AGroup 31392 1 [sym_kEnd]; AGroup 3 3 syms_1]);
   (591354, 2, [AGroup 22101 1 [anon_sym_SEMI]; AGroup 3 3 syms_1]);
   (591363, 2, [AGroup 31394 1 [anon_sym_SEMI]; AGroup 3 3 syms_1]);
   (591372, 2, [AGroup 31396 1 [anon_sym_RPAREN]; AGroup 3 3 syms_1]);
   (591381, 2, [AGroup 31398 1 [sym_kIn]; AGroup 3 3 syms_1]);
   (591390, 2, [AGroup 31400 1 [anon_sym_SEMI]; AGroup 3 3 syms_1]);
   (591399, 2, [AGroup 31402 1 [sym_kIn]; AGroup 3 3 syms_1]);
   (591408, 2, [AGroup 31404 1 [sym_kEnd]; AGroup 3 3 syms_1]);
   (591417, 2, [AGroup 31406 1 [anon_sym_SEMI]; AGroup 3 3 syms_1]);
   (591426, 2, [AGroup 31408 1 [anon_sym_SEMI]; AGroup 3 3 syms_1]);
   (591435, 2, [AGroup 31410 1 [sym_kEnd]; AGroup 3 3 syms_1]);
   (591444, 2, [AGroup 31412 1 [anon_sym_RPAREN]; AGroup 3 3 syms_1]);
   (591453, 3, [AGroup 5 1 [sym_ppDirective]; AGroup 26246 1 [anon_sym_LPAREN]; AGroup 3 2 syms_5]);
   (591464, 2, [AGroup 31414 1 [anon_sym_RPAREN]; AGroup 3 3 syms_1]);
   (591473, 2, [AGroup 1236 1 [sym_kEnd]; AGroup 3 3 syms_1]);
   (591482, 2, [AGroup 31416 1 [anon_sym_SEMI]; AGroup 3 3 syms_1]);
   (591491, 2, [AGroup 31418 1 [anon_sym_SEMI]; AGroup 3 3 syms_1]);
   (591500, 2, [AGroup 28943 1 [anon_sym_SEMI]; AGroup 3 3 syms_1]);
   (591509, 2, [AGroup 29093 1 [anon_sym_SEMI]; AGroup 3 3 syms_1]);
   (591518, 2, [AGroup 29575 1 [anon_sym_SEMI]; AGroup 3 3 syms_1]);
   (591527, 2, [AGroup 31420 1 [sym_kIn]; AGroup 3 3 syms_1]);
   (591536, 2, [AGroup 31422 1 [anon_sym_RBRACK]; AGroup 3 3 syms_1]);
   (591545, 3, [AGroup 5 1 [sym_ppDirective]; AGroup 26254 1 [anon_sym_LPAREN]; AGroup 3 2 syms_5]);
   (591556, 2, [AGroup 31424 1 [sym_kEnd]; AGroup 3 3 syms_1]);
   (591565, 2, [AGroup 22355 1 [anon_sym_SEMI]; AGroup 3 3 syms_1]);
   (591574, 2, [AGroup 31426 1 [anon_sym_RPAREN]; AGroup 3 3 syms_1]);
   (591583, 2, [AGroup 31428 1 [sym_kEnd]; AGroup 3 3 syms_1]);
   (591592, 2, [AGroup 31430 1 [anon_sym_SEMI]; AGroup 3 3 syms_1]);
   (591601, 2, [AGroup 31432 1 [sym_kTo]; AGroup 3 3 syms_1]);
   (591610, 2, [AGroup 31434 1 [anon_sym_SEMI]; AGroup 3 3 syms_1]);
   (591619, 2, [AGroup 31436 1 [anon_sym_SEMI]; AGroup 3 3 syms_1]);
   (591628, 2, [AGroup 31438 1 [anon_sym_SEMI]; AGroup 3 3 syms_1]);
   (591637, 3, [AGroup 5 1 [sym_ppDirective]; AGroup 26260 1 [anon_sym_LPAREN]; AGroup 3 2 syms_5]);
   (591648, 2, [AGroup 31440 1 [anon_sym_SEMI]; AGroup 3 3 syms_1]);
   (591657, 2, [AGroup 31442 1 [anon_sym_SEMI]; AGroup 3 3 syms_1]);
   (591666, 2, [AGroup 26030 1 [sym_kUntil]; AGroup 3 3 syms_1]);
   (591675, 2, [AGroup 31444 1 [sym_kEnd]; AGroup 3 3 syms_1]);
   (591684, 2, [AGroup 31446 1 [anon_sym_SEMI]; AGroup 3 3 syms_1]);
   (591693, 2, [AGroup 31448 1 [sym_kEnd]; AGroup 3 3 syms_1]);
   (591702, 2, [AGroup 22898 1 [anon_sym_SEMI]; AGroup 3 3 syms_1]);
   (591711, 2, [AGroup 31450 1 [anon_sym_RPAREN]; AGroup 3 3 syms_1]);
   (591720, 2, [AGroup 31452 1 [sym_kEnd]; AGroup 3 3 syms_1]);
   (591729, 3, [AGroup 5 1 [sym_ppDirective]; AGroup 26268 1 [anon_sym_LPAREN]; AGroup 3 2 syms_5]);
   (591740, 2, [AGroup 16713 1 [sym_kOf]; AGroup 3 3 syms_1]);
   (591749, 2, [AGroup 31454 1 [anon_sym_RPAREN]; AGroup 3 3 syms_1]);
   (591758, 2, [AGroup 31456 1 [sym_kEnd]; AGroup 3 3 syms_1]);
   (591767, 2, [AGroup 31458 1 [anon_sym_SEMI]; AGroup 3 3 syms_1]);
   (591776, 2, [AGroup 31460 1 [sym_kEnd]; AGroup 3 3 syms_1]);
   (591785, 2, [AGroup 31462 1 [sym_kEnd]; AGroup 3 3 syms_1]);
   (591794, 2, [AGroup 4439 1 [sym_kUntil]; AGroup 3 3 syms_1]);
   (591803, 2, [AGroup 31464 1 [sym_kEnd]; AGroup 3 3 syms_1])
  ].

(** States 15259 to 15358. *)
Definition small_runs_15259 : list small_run :=
  [
   (591812, 2, [AGroup 31466 1 [anon_sym_COLON]; AGroup 3 3 syms_1]);
   (591821, 3, [AGroup 5 1 [sym_ppDirective]; AGroup 26276 1 [anon_sym_LPAREN]; AGroup 3 2 syms_5]);
   (591832, 2, [AGroup 31468 1 [anon_sym_SEMI]; AGroup 3 3 syms_1]);
   (591841, 2, [AGroup 31470 1 [anon_sym_SEMI]; AGroup 3 3 syms_1]);
   (591850, 2, [AGroup 31472 1 [sym_kEnd]; AGroup 3 3 syms_1]);
   (591859, 2, [AGroup 31474 1 [anon_sym_SEMI]; AGroup 3 3 syms_1]);
   (591868, 2, [AGroup 31476 1 [sym_kIn]; AGroup 3 3 syms_1]);
   (591877, 2, [AGroup 31478 1 [anon_sym_RBRACK]; AGroup 3 3 syms_1]);
   (591886, 2, [AGroup 31480 1 [anon_sym_RPAREN]; AGroup 3 3 syms_1]);
   (591895, 2, [AGroup 28540 1 [anon_sym_SEMI]; AGroup 3 3 syms_1]);
   (591904, 3, [AGroup 5 1 [sym_ppDirective]; AGroup 26288 1 [anon_sym_LPAREN]; AGroup 3 2 syms_5]);
   (591915, 2, [AGroup 31482 1 [sym_kEnd]; AGroup 3 3 syms_1]);
   (591924, 2, [AGroup 31484 1 [anon_sym_SEMI]; AGroup 3 3 syms_1]);
   (591933, 2, [AGroup 22854 1 [anon_sym_SEMI]; AGroup 3 3 syms_1]);
   (591942, 2, [AGroup 31486 1 [anon_sym_SEMI]; AGroup 3 3 syms_1]);
   (591951, 2, [AGroup 31488 1 [sym_kOf]; AGroup 3 3 syms_1]);
   (591960, 2, [AGroup 31490 1 [anon_sym_RPAREN]; AGroup 3 3 syms_1]);
   (591969, 2, [AGroup 29761 1 [anon_sym_SEMI]; AGroup 3 3 syms_1]);
   (591978, 2, [AGroup 31492 1 [anon_sym_SEMI]; AGroup 3 3 syms_1]);
   (591987, 3, [AGroup 5 1 [sym_ppDirective]; AGroup 26296 1 [anon_sym_LPAREN]; AGroup 3 2 syms_5]);
   (591998, 2, [AGroup 28989 1 [anon_sym_SEMI]; AGroup 3 3 syms_1]);
   (592007, 2, [AGroup 29723 1 [anon_sym_SEMI]; AGroup 3 3 syms_1]);
   (592016, 2, [AGroup 31494 1 [sym_kIn]; AGroup 3 3 syms_1]);
   (592025, 2, [AGroup 29411 1 [anon_sym_SEMI]; AGroup 3 3 syms_1]);
   (592034, 2, [AGroup 31496 1 [anon_sym_RBRACK]; AGroup 3 3 syms_1]);
   (592043, 2, [AGroup 31498 1 [anon_sym_RPAREN]; AGroup 3 3 syms_1]);
   (592052, 2, [AGroup 10850 1 [sym_kEnd]; AGroup 3 3 syms_1]);
   (592061, 2, [AGroup 28580 1 [anon_sym_SEMI]; AGroup 3 3 syms_1]);
   (592070, 3, [AGroup 5 1 [sym_ppDirective]; AGroup 26302 1 [anon_sym_LPAREN]; AGroup 3 2 syms_5]);
   (592081, 2, [AGroup 28786 1 [anon_sym_SEMI]; AGroup 3 3 syms_1]);
   (592090, 2, [AGroup 31500 1 [sym_kEnd]; AGroup 3 3 syms_1]);
   (592099, 2, [AGroup 31502 1 [anon_sym_RBRACK]; AGroup 3 3 syms_1]);
   (592108, 2, [AGroup 29137 1 [anon_sym_SEMI]; AGroup 3 3 syms_1]);
   (592117, 2, [AGroup 22828 1 [anon_sym_SEMI]; AGroup 3 3 syms_1]);
   (592126, 2, [AGroup 31504 1 [anon_sym_SEMI]; AGroup 3 3 syms_1]);
   (592135, 2, [AGroup 31506 1 [anon_sym_SEMI]; AGroup 3 3 syms_1]);
   (592144, 2, [AGroup 31508 1 [anon_sym_SEMI]; AGroup 3 3 syms_1]);
   (592153, 3, [AGroup 5 1 [sym_ppDirective]; AGroup 26308 1 [anon_sym_LPAREN]; AGroup 3 2 syms_5]);
   (592164, 2, [AGroup 31510 1 [anon_sym_RPAREN]; AGroup 3 3 syms_1]);
   (592173, 2, [AGroup 31512 1 [anon_sym_SEMI]; AGroup 3 3 syms_1]);
   (592182, 2, [AGroup 31514 1 [anon_sym_SEMI]; AGroup 3 3 syms_1]);
   (592191, 2, [AGroup 31516 1 [sym_kIn]; AGroup 3 3 syms_1]);
   (592200, 2, [AGroup 29171 1 [anon_sym_SEMI]; AGroup 3 3 syms_1]);
   (592209, 2, [AGroup 31518 1 [anon_sym_SEMI]; AGroup 3 3 syms_1]);
   (592218, 2, [AGroup 31520 1 [anon_sym_SEMI]; AGroup 3 3 syms_1]);
   (592227, 2, [AGroup 31522 1 [anon_sym_RPAREN]; AGroup 3 3 syms_1]);
   (592236, 3, [AGroup 5 1 [sym_ppDirective]; AGroup 26318 1 [anon_sym_LPAREN]; AGroup 3 2 syms_5]);
   (592247, 2, [AGroup 31524 1 [sym_kEnd]; AGroup 3 3 syms_1]);
   (592256, 2, [AGroup 31526 1 [sym_kEnd]; AGroup 3 3 syms_1]);
   (592265, 2, [AGroup 31528 1 [sym_kEnd]; AGroup 3 3 syms_1]);
   (592274, 2, [AGroup 31530 1 [anon_sym_SEMI]; AGroup 3 3 syms_1]);
   (592283, 2, [AGroup 31532 1 [sym_kEnd]; AGroup 3 3 syms_1]);
   (592292, 2, [AGroup 31534 1 [anon_sym_SEMI]; AGroup 3 3 syms_1]);
   (592301, 2, [AGroup 31536 1 [anon_sym_RPAREN]; AGroup 3 3 syms_1]);
   (592310, 3, [AGroup 5 1 [sym_ppDirective]; AGroup 26324 1 [anon_sym_LPAREN]; AGroup 3 2 syms_5]);
   (592321, 2, [AGroup 31538 1 [anon_sym_SEMI]; AGroup 3 3 syms_1]);
   (592330, 2, [AGroup 31540 1 [sym_kEnd]; AGroup 3 3 syms_1]);
   (592339, 2, [AGroup 31542 1 [sym_kIn]; AGroup 3 3 syms_1]);
   (592348, 2, [AGroup 31544 1 [sym_kEnd]; AGroup 3 3 syms_1]);
   (592357, 2, [AGroup 22365 1 [anon_sym_COMMA]; AGroup 3 3 syms_1]);
   (592366, 2, [AGroup 31546 1 [sym_kEnd]; AGroup 3 3 syms_1]);
   (592375, 2, [AGroup 31548 1 [anon_sym_SEMI]; AGroup 3 3 syms_1]);
   (592384, 3, [AGroup 5 1 [sym_ppDirective]; AGroup 26330 1 [anon_sym_LPAREN]; AGroup 3 2 syms_5]);
   (592395, 2, [AGroup 28377 1 [anon_sym_SEMI]; AGroup 3 3 syms_1]);
   (592404, 2, [AGroup 31550 1 [sym_kEnd]; AGroup 3 3 syms_1]);
   (592413, 2, [AGroup 31552 1 [sym_kEnd]; AGroup 3 3 syms_1]);
   (592422, 2, [AGroup 31554 1 [anon_sym_RPAREN]; AGroup 3 3 syms_1]);
   (592431, 2, [AGroup 31556 1 [anon_sym_SEMI]; AGroup 3 3 syms_1]);
   (592440, 2, [AGroup 31558 1 [anon_sym_SEMI]; AGroup 3 3 syms_1]);
   (592449, 2, [AGroup 28329 1 [anon_sym_SEMI]; AGroup 3 3 syms_1]);
   (592458, 3, [AGroup 5 1 [sym_ppDirective]; AGroup 26338 1 [anon_sym_LPAREN]; AGroup 3 2 syms_5]);
   (592469, 2, [AGroup 31560 1 [anon_sym_SEMI]; AGroup 3 3 syms_1]);
   (592478, 2, [AGroup 31562 1 [anon_sym_SEMI]; AGroup 3 3 syms_1]);
   (592487, 2, [AGroup 31564 1 [sym_kIn]; AGroup 3 3 syms_1]);
   (592496, 2, [AGroup 28387 1 [anon_sym_SEMI]; AGroup 3 3 syms_1]);
   (592505, 2, [AGroup 31566 1 [anon_sym_RBRACK]; AGroup 3 3 syms_1]);
   (592514, 2, [AGroup 31568 1 [anon_sym_RPAREN]; AGroup 3 3 syms_1]);
   (592523, 2, [AGroup 31570 1 [anon_sym_RBRACK]; AGroup 3 3 syms_1]);
   (592532, 3, [AGroup 5 1 [sym_ppDirective]; AGroup 26350 1 [anon_sym_LPAREN]; AGroup 3 2 syms_5]);
   (592543, 2, [AGroup 31572 1 [anon_sym_SEMI]; AGroup 3 3 syms_1]);
   (592552, 2, [AGroup 31574 1 [anon_sym_SEMI]; AGroup 3 3 syms_1]);
   (592561, 2, [AGroup 31576 1 [anon_sym_RPAREN]; AGroup 3 3 syms_1]);
   (592570, 2, [AGroup 27795 1 [sym_kOn]; AGroup 3 3 syms_1]);
   (592579, 2, [AGroup 29429 1 [anon_sym_SEMI]; AGroup 3 3 syms_1]);
   (592588, 2, [AGroup 28516 1 [anon_sym_SEMI]; AGroup 3 3 syms_1]);
   (592597, 2, [AGroup 31578 1 [anon_sym_SEMI]; AGroup 3 3 syms_1]);
   (592606, 3, [AGroup 5 1 [sym_ppDirective]; AGroup 26356 1 [anon_sym_LPAREN]; AGroup 3 2 syms_5]);
   (592617, 2, [AGroup 31580 1 [anon_sym_SEMI]; AGroup 3 3 syms_1]);
   (592626, 2, [AGroup 28930 1 [anon_sym_SEMI]; AGroup 3 3 syms_1]);
   (592635, 2, [AGroup 29095 1 [anon_sym_SEMI]; AGroup 3 3 syms_1]);
   (592644, 2, [AGroup 29215 1 [anon_sym_SEMI]; AGroup 3 3 syms_1]);
   (592653, 2, [AGroup 29223 1 [anon_sym_SEMI]; AGroup 3 3 syms_1]);
   (592662, 2, [AGroup 31582 1 [anon_sym_SEMI]; AGroup 3 3 syms_1]);
   (592671, 2, [AGroup 26036 1 [sym_kEnd]; AGroup 3 3 syms_1]);
   (592680, 3, [AGroup 5 1 [sym_ppDirective]; AGroup 26371 1 [anon_sym_LPAREN]; AGroup 3 2 syms_5]);
   (592691, 2, [AGroup 22870 1 [anon_sym_SEMI]; AGroup 3 3 syms_1]);
   (592700, 2, [AGroup 26032 1 [sym_kUntil]; AGroup 3 3 syms_1]);
   (592709, 2, [AGroup 31584 1 [anon_sym_SEMI]; AGroup 3 3 syms_1]);
   (592718, 2, [AGroup 31586 1 [anon_sym_SEMI]; AGroup 3 3 syms_1]);
   (592727, 2, [AGroup 29245 1 [anon_sym_SEMI]; AGroup 3 3 syms_1])
  ].

(** States 15359 to 15458. *)
Definition small_runs_15359 : list small_run :=
  [
   (592736, 2, [AGroup 31589 1 [anon_sym_SEMI]; AGroup 3 3 syms_1]);
   (592745, 2, [AGroup 10854 1 [sym_kEnd]; AGroup 3 3 syms_1]);
   (592754, 3, [AGroup 5 1 [sym_ppDirective]; AGroup 26379 1 [anon_sym_LPAREN]; AGroup 3 2 syms_5]);
   (592765, 2, [AGroup 31591 1 [anon_sym_SEMI]; AGroup 3 3 syms_1]);
   (592774, 2, [AGroup 31593 1 [anon_sym_RBRACK]; AGroup 3 3 syms_1]);
   (592783, 2, [AGroup 31595 1 [sym_kEnd]; AGroup 3 3 syms_1]);
   (592792, 2, [AGroup 18739 1 [sym_kUntil]; AGroup 3 3 syms_1]);
   (592801, 2, [AGroup 31597 1 [anon_sym_SEMI]; AGroup 3 3 syms_1]);
   (592810, 2, [AGroup 31599 1 [sym_kEnd]; AGroup 3 3 syms_1]);
   (592819, 2, [AGroup 31601 1 [anon_sym_RPAREN]; AGroup 3 3 syms_1]);
   (592828, 3, [AGroup 5 1 [sym_ppDirective]; AGroup 26391 1 [anon_sym_LPAREN]; AGroup 3 2 syms_5]);
   (592839, 2, [AGroup 31603 1 [sym_kEnd]; AGroup 3 3 syms_1]);
   (592848, 2, [AGroup 31605 1 [sym_kGt]; AGroup 3 3 syms_1]);
   (592857, 2, [AGroup 31607 1 [sym_kEnd]; AGroup 3 3 syms_1]);
   (592866, 2, [AGroup 31609 1 [sym_kEnd]; AGroup 3 3 syms_1]);
   (592875, 2, [AGroup 31611 1 [sym_kEnd]; AGroup 3 3 syms_1]);
   (592884, 2, [AGroup 1328 1 [sym_kEnd]; AGroup 3 3 syms_1]);
   (592893, 2, [AGroup 22329 1 [anon_sym_SEMI]; AGroup 3 3 syms_1]);
   (592902, 3, [AGroup 5 1 [sym_ppDirective]; AGroup 26400 1 [anon_sym_LPAREN]; AGroup 3 2 syms_5]);
   (592913, 2, [AGroup 31613 1 [anon_sym_SEMI]; AGroup 3 3 syms_1]);
   (592922, 2, [AGroup 31615 1 [anon_sym_SEMI]; AGroup 3 3 syms_1]);
   (592931, 2, [AGroup 31617 1 [anon_sym_SEMI]; AGroup 3 3 syms_1]);
   (592940, 2, [AGroup 31619 1 [anon_sym_SEMI]; AGroup 3 3 syms_1]);
   (592949, 2, [AGroup 31621 1 [sym_kIn]; AGroup 3 3 syms_1]);
   (592958, 2, [AGroup 31623 1 [anon_sym_SEMI]; AGroup 3 3 syms_1]);
   (592967, 2, [AGroup 3610 1 [sym_kEnd]; AGroup 3 3 syms_1]);
   (592976, 3, [AGroup 5 1 [sym_ppDirective]; AGroup 26408 1 [anon_sym_LPAREN]; AGroup 3 2 syms_5]);
   (592987, 2, [AGroup 31625 1 [anon_sym_SEMI]; AGroup 3 3 syms_1]);
   (592996, 2, [AGroup 31627 1 [anon_sym_SEMI]; AGroup 3 3 syms_1]);
   (593005, 2, [AGroup 31629 1 [sym_kEnd]; AGroup 3 3 syms_1]);
   (593014, 2, [AGroup 18739 1 [sym_kEnd]; AGroup 3 3 syms_1]);
   (593023, 2, [AGroup 31631 1 [anon_sym_SEMI]; AGroup 3 3 syms_1]);
   (593032, 2, [AGroup 31633 1 [anon_sym_SEMI]; AGroup 3 3 syms_1]);
   (593041, 2, [AGroup 31635 1 [anon_sym_SEMI]; AGroup 3 3 syms_1]);
   (593050, 3, [AGroup 5 1 [sym_ppDirective]; AGroup 26416 1 [anon_sym_LPAREN]; AGroup 3 2 syms_5]);
   (593061, 2, [AGroup 31637 1 [anon_sym_SEMI]; AGroup 3 3 syms_1]);
   (593070, 2, [AGroup 28404 1 [anon_sym_SEMI]; AGroup 3 3 syms_1]);
   (593079, 2, [AGroup 31639 1 [sym_kGt]; AGroup 3 3 syms_1]);
   (593088, 2, [AGroup 23939 1 [sym_kEnd]; AGroup 3 3 syms_1]);
   (593097, 2, [AGroup 31641 1 [anon_sym_RPAREN]; AGroup 3 3 syms_1]);
   (593106, 2, [AGroup 31643 1 [anon_sym_SEMI]; AGroup 3 3 syms_1]);
   (593115, 2, [AGroup 31645 1 [anon_sym_SEMI]; AGroup 3 3 syms_1]);
   (593124, 3, [AGroup 5 1 [sym_ppDirective]; AGroup 26436 1 [anon_sym_LPAREN]; AGroup 3 2 syms_5]);
   (593135, 2, [AGroup 2249 1 [sym_kEnd]; AGroup 3 3 syms_1]);
   (593144, 2, [AGroup 28640 1 [anon_sym_SEMI]; AGroup 3 3 syms_1]);
   (593153, 2, [AGroup 28337 1 [anon_sym_SEMI]; AGroup 3 3 syms_1]);
   (593162, 2, [AGroup 31647 1 [anon_sym_RBRACK]; AGroup 3 3 syms_1]);
   (593171, 2, [AGroup 31649 1 [anon_sym_SEMI]; AGroup 3 3 syms_1]);
   (593180, 2, [AGroup 31651 1 [anon_sym_SEMI]; AGroup 3 3 syms_1]);
   (593189, 2, [AGroup 31653 1 [anon_sym_RPAREN]; AGroup 3 3 syms_1]);
   (593198, 2, [AGroup 31655 1 [anon_sym_SEMI]; AGroup 3 3 syms_1]);
   (593207, 2, [AGroup 31657 1 [anon_sym_SEMI]; AGroup 3 3 syms_1]);
   (593216, 2, [AGroup 31659 1 [sym_kGt]; AGroup 3 3 syms_1]);
   (593225, 2, [AGroup 25619 1 [anon_sym_COMMA]; AGroup 3 3 syms_1]);
   (593234, 2, [AGroup 1877 1 [sym_kEnd]; AGroup 3 3 syms_1]);
   (593243, 2, [AGroup 2253 1 [sym_kEnd]; AGroup 3 3 syms_1]);
   (593252, 2, [AGroup 31661 1 [sym_identifier]; AGroup 3 3 syms_1]);
   (593261, 2, [AGroup 31663 1 [sym_identifier]; AGroup 3 3 syms_1]);
   (593270, 2, [AGroup 31665 1 [anon_sym_SEMI]; AGroup 3 3 syms_1]);
   (593279, 2, [AGroup 23133 1 [anon_sym_SEMI]; AGroup 3 3 syms_1]);
   (593288, 2, [AGroup 3460 1 [sym_kEnd]; AGroup 3 3 syms_1]);
   (593297, 2, [AGroup 31667 1 [anon_sym_SEMI]; AGroup 3 3 syms_1]);
   (593306, 2, [AGroup 31669 1 [anon_sym_SEMI]; AGroup 3 3 syms_1]);
   (593315, 2, [AGroup 31671 1 [anon_sym_SEMI]; AGroup 3 3 syms_1]);
   (593324, 2, [AGroup 31673 1 [sym_kGt]; AGroup 3 3 syms_1]);
   (593333, 2, [AGroup 31675 1 [sym_kEnd]; AGroup 3 3 syms_1]);
   (593342, 2, [AGroup 31677 1 [sym_kEnd]; AGroup 3 3 syms_1]);
   (593351, 2, [AGroup 31679 1 [sym_kIn]; AGroup 3 3 syms_1]);
   (593360, 2, [AGroup 31681 1 [anon_sym_SEMI]; AGroup 3 3 syms_1]);
   (593369, 2, [AGroup 31683 1 [sym_kEnd]; AGroup 3 3 syms_1]);
   (593378, 2, [AGroup 20770 1 [anon_sym_COMMA]; AGroup 3 3 syms_1]);
   (593387, 2, [AGroup 31685 1 [anon_sym_SEMI]; AGroup 3 3 syms_1]);
   (593396, 2, [AGroup 31687 1 [anon_sym_SEMI]; AGroup 3 3 syms_1]);
   (593405, 2, [AGroup 31689 1 [sym_kEnd]; AGroup 3 3 syms_1]);
   (593414, 2, [AGroup 31691 1 [anon_sym_SEMI]; AGroup 3 3 syms_1]);
   (593423, 2, [AGroup 1332 1 [sym_kEnd]; AGroup 3 3 syms_1]);
   (593432, 2, [AGroup 31693 1 [sym_kOf]; AGroup 3 3 syms_1]);
   (593441, 2, [AGroup 31695 1 [sym_kUntil]; AGroup 3 3 syms_1]);
   (593450, 2, [AGroup 1881 1 [sym_kEnd]; AGroup 3 3 syms_1]);
   (593459, 2, [AGroup 31697 1 [anon_sym_SEMI]; AGroup 3 3 syms_1]);
   (593468, 2, [AGroup 31699 1 [sym_kEnd]; AGroup 3 3 syms_1]);
   (593477, 2, [AGroup 31701 1 [anon_sym_SEMI]; AGroup 3 3 syms_1]);
   (593486, 2, [AGroup 3264 1 [sym_kEnd]; AGroup 3 3 syms_1]);
   (593495, 2, [AGroup 17991 1 [anon_sym_COLON]; AGroup 3 3 syms_1]);
   (593504, 2, [AGroup 31703 1 [sym_kEnd]; AGroup 3 3 syms_1]);
   (593513, 2, [AGroup 31705 1 [anon_sym_SEMI]; AGroup 3 3 syms_1]);
   (593522, 2, [AGroup 31707 1 [anon_sym_SEMI]; AGroup 3 3 syms_1]);
   (593531, 2, [AGroup 31709 1 [anon_sym_SEMI]; AGroup 3 3 syms_1]);
   (593540, 2, [AGroup 31711 1 [sym_kEnd]; AGroup 3 3 syms_1]);
   (593549, 2, [AGroup 31713 1 [sym_identifier]; AGroup 3 3 syms_1]);
   (593558, 2, [AGroup 31715 1 [sym_kEnd]; AGroup 3 3 syms_1]);
   (593567, 2, [AGroup 31717 1 [sym_kEnd]; AGroup 3 3 syms_1]);
   (593576, 2, [AGroup 31719 1 [anon_sym_SEMI]; AGroup 3 3 syms_1]);
   (593585, 3, [AGroup 5 1 [sym_ppDirective]; AGroup 26538 1 [anon_sym_LPAREN]; AGroup 3 2 syms_5]);
   (593596, 2, [AGroup 31721 1 [anon_sym_SEMI]; AGroup 3 3 syms_1]);
   (593605, 2, [AGroup 31723 1 [anon_sym_SEMI]; AGroup 3 3 syms_1]);
   (593614, 2, [AGroup 28620 1 [anon_sym_SEMI]; AGroup 3 3 syms_1]);
   (593623, 2, [AGroup 28634 1 [anon_sym_SEMI]; AGroup 3 3 syms_1]);
   (593632, 2, [AGroup 10858 1 [sym_kEnd]; AGroup 3 3 syms_1]);
   (593641, 2, [AGroup 31725 1 [anon_sym_SEMI]; AGroup 3 3 syms_1])
  ].

(** States 15459 to 15558. *)
Definition small_runs_15459 : list small_run :=
  [
   (593650, 2, [AGroup 29269 1 [anon_sym_SEMI]; AGroup 3 3 syms_1]);
   (593659, 2, [AGroup 31727 1 [anon_sym_SEMI]; AGroup 3 3 syms_1]);
   (593668, 2, [AGroup 3667 1 [sym_kEnd]; AGroup 3 3 syms_1]);
   (593677, 2, [AGroup 31729 1 [sym_kEnd]; AGroup 3 3 syms_1]);
   (593686, 2, [AGroup 31731 1 [sym_kEnd]; AGroup 3 3 syms_1]);
   (593695, 2, [AGroup 26087 1 [sym_kUntil]; AGroup 3 3 syms_1]);
   (593704, 2, [AGroup 29551 1 [anon_sym_SEMI]; AGroup 3 3 syms_1]);
   (593713, 2, [AGroup 31733 1 [sym_kEnd]; AGroup 3 3 syms_1]);
   (593722, 2, [AGroup 31735 1 [sym_kEnd]; AGroup 3 3 syms_1]);
   (593731, 2, [AGroup 28426 1 [anon_sym_SEMI]; AGroup 3 3 syms_1]);
   (593740, 2, [AGroup 31737 1 [anon_sym_SEMI]; AGroup 3 3 syms_1]);
   (593749, 2, [AGroup 28462 1 [anon_sym_SEMI]; AGroup 3 3 syms_1]);
   (593758, 2, [AGroup 26076 1 [sym_kEnd]; AGroup 3 3 syms_1]);
   (593767, 2, [AGroup 31739 1 [anon_sym_SEMI]; AGroup 3 3 syms_1]);
   (593776, 2, [AGroup 28359 1 [anon_sym_SEMI]; AGroup 3 3 syms_1]);
   (593785, 2, [AGroup 28363 1 [anon_sym_SEMI]; AGroup 3 3 syms_1]);
   (593794, 2, [AGroup 29777 1 [sym_kElse]; AGroup 3 3 syms_1]);
   (593803, 2, [AGroup 31741 1 [anon_sym_SEMI]; AGroup 3 3 syms_1]);
   (593812, 2, [AGroup 31743 1 [anon_sym_SEMI]; AGroup 3 3 syms_1]);
   (593821, 2, [AGroup 31745 1 [anon_sym_SEMI]; AGroup 3 3 syms_1]);
   (593830, 2, [AGroup 31747 1 [anon_sym_SEMI]; AGroup 3 3 syms_1]);
   (593839, 2, [AGroup 31749 1 [sym_identifier]; AGroup 3 3 syms_1]);
   (593848, 2, [AGroup 1471 1 [sym_kEnd]; AGroup 3 3 syms_1]);
   (593857, 2, [AGroup 31751 1 [sym_kIn]; AGroup 3 3 syms_1]);
   (593866, 2, [AGroup 31753 1 [ts_builtin_sym_end]; AGroup 3 3 syms_1]);
   (593875, 2, [AGroup 31755 1 [sym_identifier]; AGroup 3 3 syms_1]);
   (593884, 2, [AGroup 31757 1 [sym_kEnd]; AGroup 3 3 syms_1]);
   (593893, 2, [AGroup 31759 1 [sym_identifier]; AGroup 3 3 syms_1]);
   (593902, 2, [AGroup 31761 1 [sym_kIn]; AGroup 3 3 syms_1]);
   (593911, 2, [AGroup 31763 1 [anon_sym_SEMI]; AGroup 3 3 syms_1]);
   (593920, 2, [AGroup 31765 1 [anon_sym_RPAREN]; AGroup 3 3 syms_1]);
   (593929, 2, [AGroup 31767 1 [sym_kEnd]; AGroup 3 3 syms_1]);
   (593938, 2, [AGroup 31769 1 [anon_sym_COLON]; AGroup 3 3 syms_1]);
   (593947, 2, [AGroup 31771 1 [sym_identifier]; AGroup 3 3 syms_1]);
   (593956, 2, [AGroup 31773 1 [sym_identifier]; AGroup 3 3 syms_1]);
   (593965, 2, [AGroup 31775 1 [anon_sym_COLON]; AGroup 3 3 syms_1]);
   (593974, 2, [AGroup 31777 1 [sym_kUntil]; AGroup 3 3 syms_1]);
   (593983, 2, [AGroup 31779 1 [anon_sym_RPAREN]; AGroup 3 3 syms_1]);
   (593992, 2, [AGroup 31781 1 [sym_kEnd]; AGroup 3 3 syms_1]);
   (594001, 2, [AGroup 31783 1 [sym_kEnd]; AGroup 3 3 syms_1]);
   (594010, 2, [AGroup 22902 1 [anon_sym_SEMI]; AGroup 3 3 syms_1]);
   (594019, 2, [AGroup 31785 1 [anon_sym_SEMI]; AGroup 3 3 syms_1]);
   (594028, 2, [AGroup 31787 1 [anon_sym_SEMI]; AGroup 3 3 syms_1]);
   (594037, 2, [AGroup 31789 1 [sym_kEnd]; AGroup 3 3 syms_1]);
   (594046, 2, [AGroup 31791 1 [sym_kEnd]; AGroup 3 3 syms_1]);
   (594055, 2, [AGroup 31793 1 [sym_kEnd]; AGroup 3 3 syms_1]);
   (594064, 2, [AGroup 31795 1 [anon_sym_SEMI]; AGroup 3 3 syms_1]);
   (594073, 2, [AGroup 31797 1 [anon_sym_SEMI]; AGroup 3 3 syms_1]);
   (594082, 2, [AGroup 31799 1 [sym_kEnd]; AGroup 3 3 syms_1]);
   (594091, 2, [AGroup 31801 1 [sym_kEnd]; AGroup 3 3 syms_1]);
   (594100, 2, [AGroup 31803 1 [sym_kEnd]; AGroup 3 3 syms_1]);
   (594109, 2, [AGroup 31805 1 [sym_identifier]; AGroup 3 3 syms_1]);
   (594118, 2, [AGroup 31807 1 [anon_sym_SEMI]; AGroup 3 3 syms_1]);
   (594127, 2, [AGroup 29055 1 [anon_sym_SEMI]; AGroup 3 3 syms_1]);
   (594136, 2, [AGroup 31809 1 [sym_kUntil]; AGroup 3 3 syms_1]);
   (594145, 2, [AGroup 31811 1 [sym_kEnd]; AGroup 3 3 syms_1]);
   (594154, 2, [AGroup 31813 1 [sym_kEnd]; AGroup 3 3 syms_1]);
   (594163, 2, [AGroup 31815 1 [anon_sym_RBRACK]; AGroup 3 3 syms_1]);
   (594172, 2, [AGroup 31817 1 [anon_sym_RPAREN]; AGroup 3 3 syms_1]);
   (594181, 2, [AGroup 31819 1 [anon_sym_SEMI]; AGroup 3 3 syms_1]);
   (594190, 2, [AGroup 31821 1 [anon_sym_SEMI]; AGroup 3 3 syms_1]);
   (594199, 2, [AGroup 31823 1 [sym_identifier]; AGroup 3 3 syms_1]);
   (594208, 2, [AGroup 28466 1 [anon_sym_COMMA]; AGroup 3 3 syms_1]);
   (594217, 2, [AGroup 10838 1 [sym_kEnd]; AGroup 3 3 syms_1]);
   (594226, 2, [AGroup 22307 1 [anon_sym_SEMI]; AGroup 3 3 syms_1]);
   (594235, 2, [AGroup 31825 1 [anon_sym_RPAREN]; AGroup 3 3 syms_1]);
   (594244, 2, [AGroup 31827 1 [sym_kEnd]; AGroup 3 3 syms_1]);
   (594253, 2, [AGroup 31829 1 [sym_kEnd]; AGroup 3 3 syms_1]);
   (594262, 2, [AGroup 31831 1 [sym_kObject]; AGroup 3 3 syms_1]);
   (594271, 2, [AGroup 31833 1 [sym_kOf]; AGroup 3 3 syms_1]);
   (594280, 2, [AGroup 17918 1 [anon_sym_COLON]; AGroup 3 3 syms_1]);
   (594289, 2, [AGroup 31835 1 [sym_kObject]; AGroup 3 3 syms_1]);
   (594298, 2, [AGroup 31837 1 [sym_kIn]; AGroup 3 3 syms_1]);
   (594307, 2, [AGroup 31839 1 [sym_identifier]; AGroup 3 3 syms_1]);
   (594316, 2, [AGroup 31841 1 [sym_identifier]; AGroup 3 3 syms_1]);
   (594325, 2, [AGroup 31843 1 [sym_kGt]; AGroup 3 3 syms_1]);
   (594334, 2, [AGroup 19229 1 [sym_kEnd]; AGroup 3 3 syms_1]);
   (594343, 2, [AGroup 28291 1 [anon_sym_COMMA]; AGroup 3 3 syms_1]);
   (594352, 2, [AGroup 18741 1 [sym_kEnd]; AGroup 3 3 syms_1]);
   (594361, 2, [AGroup 31845 1 [sym_kTo]; AGroup 3 3 syms_1]);
   (594370, 2, [AGroup 31847 1 [sym_kOf]; AGroup 3 3 syms_1]);
   (594379, 2, [AGroup 22964 1 [anon_sym_SEMI]; AGroup 3 3 syms_1]);
   (594388, 2, [AGroup 31849 1 [sym_kEnd]; AGroup 3 3 syms_1]);
   (594397, 2, [AGroup 31851 1 [sym_kEnd]; AGroup 3 3 syms_1]);
   (594406, 2, [AGroup 1256 1 [sym_kEnd]; AGroup 3 3 syms_1]);
   (594415, 2, [AGroup 31853 1 [anon_sym_SEMI]; AGroup 3 3 syms_1]);
   (594424, 2, [AGroup 31855 1 [sym_kEnd]; AGroup 3 3 syms_1]);
   (594433, 2, [AGroup 31857 1 [sym_kEnd]; AGroup 3 3 syms_1]);
   (594442, 2, [AGroup 31859 1 [sym_kGt]; AGroup 3 3 syms_1]);
   (594451, 2, [AGroup 26117 1 [sym_kEnd]; AGroup 3 3 syms_1]);
   (594460, 2, [AGroup 2265 1 [sym_kEnd]; AGroup 3 3 syms_1]);
   (594469, 2, [AGroup 31861 1 [anon_sym_SEMI]; AGroup 3 3 syms_1]);
   (594478, 2, [AGroup 31863 1 [sym_kIn]; AGroup 3 3 syms_1]);
   (594487, 2, [AGroup 31865 1 [sym_kEnd]; AGroup 3 3 syms_1]);
   (594496, 2, [AGroup 31867 1 [sym_kUntil]; AGroup 3 3 syms_1]);
   (594505, 2, [AGroup 2269 1 [sym_kEnd]; AGroup 3 3 syms_1]);
   (594514, 2, [AGroup 31869 1 [anon_sym_SEMI]; AGroup 3 3 syms_1]);
   (594523, 2, [AGroup 31871 1 [sym_kEnd]; AGroup 3 3 syms_1]);
   (594532, 2, [AGroup 31873 1 [anon_sym_SEMI]; AGroup 3 3 syms_1]);
   (594541, 2, [AGroup 3466 1 [sym_kEnd]; AGroup 3 3 syms_1])
  ].

(** States 15559 to 15658. *)
Definition small_runs_15559 : list small_run :=
  [
   (594550, 2, [AGroup 31875 1 [anon_sym_SEMI]; AGroup 3 3 syms_1]);
   (594559, 2, [AGroup 31877 1 [sym_kEnd]; AGroup 3 3 syms_1]);
   (594568, 2, [AGroup 31879 1 [anon_sym_RBRACK]; AGroup 3 3 syms_1]);
   (594577, 2, [AGroup 10862 1 [sym_kEnd]; AGroup 3 3 syms_1]);
   (594586, 2, [AGroup 31881 1 [sym_kIn]; AGroup 3 3 syms_1]);
   (594595, 2, [AGroup 10818 1 [sym_kOn]; AGroup 3 3 syms_1]);
   (594604, 2, [AGroup 31883 1 [anon_sym_RPAREN]; AGroup 3 3 syms_1]);
   (594613, 2, [AGroup 31885 1 [anon_sym_SEMI]; AGroup 3 3 syms_1]);
   (594622, 2, [AGroup 10866 1 [sym_kEnd]; AGroup 3 3 syms_1]);
   (594631, 2, [AGroup 31887 1 [anon_sym_SEMI]; AGroup 3 3 syms_1]);
   (594640, 2, [AGroup 31889 1 [anon_sym_SEMI]; AGroup 3 3 syms_1]);
   (594649, 2, [AGroup 31891 1 [sym_identifier]; AGroup 3 3 syms_1]);
   (594658, 2, [AGroup 31893 1 [sym_identifier]; AGroup 3 3 syms_1]);
   (594667, 2, [AGroup 31895 1 [anon_sym_RPAREN]; AGroup 3 3 syms_1]);
   (594676, 2, [AGroup 31897 1 [sym_kEnd]; AGroup 3 3 syms_1]);
   (594685, 2, [AGroup 31899 1 [sym_kEnd]; AGroup 3 3 syms_1]);
   (594694, 2, [AGroup 28341 1 [anon_sym_SEMI]; AGroup 3 3 syms_1]);
   (594703, 2, [AGroup 28418 1 [anon_sym_SEMI]; AGroup 3 3 syms_1]);
   (594712, 2, [AGroup 29737 1 [anon_sym_SEMI]; AGroup 3 3 syms_1]);
   (594721, 2, [AGroup 31901 1 [sym_kEnd]; AGroup 3 3 syms_1]);
   (594730, 2, [AGroup 31903 1 [sym_kEnd]; AGroup 3 3 syms_1]);
   (594739, 2, [AGroup 31905 1 [sym_kEnd]; AGroup 3 3 syms_1]);
   (594748, 2, [AGroup 31907 1 [sym_kEnd]; AGroup 3 3 syms_1]);
   (594757, 2, [AGroup 31909 1 [sym_kEnd]; AGroup 3 3 syms_1]);
   (594766, 2, [AGroup 31911 1 [sym_kEnd]; AGroup 3 3 syms_1]);
   (594775, 2, [AGroup 31913 1 [sym_identifier]; AGroup 3 3 syms_1]);
   (594784, 2, [AGroup 31915 1 [sym_kObject]; AGroup 3 3 syms_1]);
   (594793, 2, [AGroup 31917 1 [anon_sym_SEMI]; AGroup 3 3 syms_1]);
   (594802, 2, [AGroup 19553 1 [sym_kEnd]; AGroup 3 3 syms_1]);
   (594811, 2, [AGroup 31919 1 [sym_kGt]; AGroup 3 3 syms_1]);
   (594820, 2, [AGroup 22279 1 [anon_sym_SEMI]; AGroup 3 3 syms_1]);
   (594829, 2, [AGroup 17756 1 [anon_sym_SEMI]; AGroup 3 3 syms_1]);
   (594838, 2, [AGroup 31921 1 [sym_kUntil]; AGroup 3 3 syms_1]);
   (594847, 2, [AGroup 31923 1 [sym_kEnd]; AGroup 3 3 syms_1]);
   (594856, 2, [AGroup 31925 1 [sym_kEnd]; AGroup 3 3 syms_1]);
   (594865, 2, [AGroup 23016 1 [anon_sym_SEMI]; AGroup 3 3 syms_1]);
   (594874, 2, [AGroup 31927 1 [sym_kOf]; AGroup 3 3 syms_1]);
   (594883, 2, [AGroup 28678 1 [anon_sym_SEMI]; AGroup 3 3 syms_1]);
   (594892, 2, [AGroup 31929 1 [anon_sym_SEMI]; AGroup 3 3 syms_1]);
   (594901, 2, [AGroup 31931 1 [anon_sym_SEMI]; AGroup 3 3 syms_1]);
   (594910, 2, [AGroup 28682 1 [anon_sym_SEMI]; AGroup 3 3 syms_1]);
   (594919, 2, [AGroup 31933 1 [anon_sym_SEMI]; AGroup 3 3 syms_1]);
   (594928, 2, [AGroup 29663 1 [anon_sym_SEMI]; AGroup 3 3 syms_1]);
   (594937, 2, [AGroup 31935 1 [anon_sym_SEMI]; AGroup 3 3 syms_1]);
   (594946, 2, [AGroup 31937 1 [anon_sym_SEMI]; AGroup 3 3 syms_1]);
   (594955, 2, [AGroup 31939 1 [anon_sym_RBRACK]; AGroup 3 3 syms_1]);
   (594964, 2, [AGroup 31941 1 [anon_sym_SEMI]; AGroup 3 3 syms_1]);
   (594973, 2, [AGroup 31943 1 [sym_identifier]; AGroup 3 3 syms_1]);
   (594982, 2, [AGroup 31945 1 [sym_identifier]; AGroup 3 3 syms_1]);
   (594991, 2, [AGroup 31947 1 [sym_kIn]; AGroup 3 3 syms_1]);
   (595000, 2, [AGroup 22429 1 [anon_sym_COMMA]; AGroup 3 3 syms_1]);
   (595009, 2, [AGroup 31949 1 [sym_kEnd]; AGroup 3 3 syms_1]);
   (595018, 2, [AGroup 31951 1 [anon_sym_RPAREN]; AGroup 3 3 syms_1]);
   (595027, 2, [AGroup 22908 1 [anon_sym_SEMI]; AGroup 3 3 syms_1]);
   (595036, 2, [AGroup 31953 1 [anon_sym_SEMI]; AGroup 3 3 syms_1]);
   (595045, 2, [AGroup 31955 1 [anon_sym_SEMI]; AGroup 3 3 syms_1]);
   (595054, 2, [AGroup 31957 1 [anon_sym_SEMI]; AGroup 3 3 syms_1]);
   (595063, 2, [AGroup 31959 1 [anon_sym_SEMI]; AGroup 3 3 syms_1]);
   (595072, 2, [AGroup 31961 1 [anon_sym_SEMI]; AGroup 3 3 syms_1]);
   (595081, 2, [AGroup 31963 1 [anon_sym_SEMI]; AGroup 3 3 syms_1]);
   (595090, 2, [AGroup 31965 1 [anon_sym_SEMI]; AGroup 3 3 syms_1]);
   (595099, 2, [AGroup 31967 1 [anon_sym_RPAREN]; AGroup 3 3 syms_1]);
   (595108, 2, [AGroup 31969 1 [anon_sym_SEMI]; AGroup 3 3 syms_1]);
   (595117, 2, [AGroup 31971 1 [sym_kEnd]; AGroup 3 3 syms_1]);
   (595126, 2, [AGroup 31973 1 [sym_kEnd]; AGroup 3 3 syms_1]);
   (595135, 2, [AGroup 31975 1 [sym_kObject]; AGroup 3 3 syms_1]);
   (595144, 2, [AGroup 31977 1 [anon_sym_SEMI]; AGroup 3 3 syms_1]);
   (595153, 2, [AGroup 31979 1 [anon_sym_RPAREN]; AGroup 3 3 syms_1]);
   (595162, 2, [AGroup 31981 1 [sym_kUntil]; AGroup 3 3 syms_1]);
   (595171, 2, [AGroup 31983 1 [sym_kEnd]; AGroup 3 3 syms_1]);
   (595180, 2, [AGroup 31985 1 [sym_kEnd]; AGroup 3 3 syms_1]);
   (595189, 2, [AGroup 31987 1 [sym_kDo]; AGroup 3 3 syms_1]);
   (595198, 2, [AGroup 22065 1 [anon_sym_SEMI]; AGroup 3 3 syms_1]);
   (595207, 2, [AGroup 31989 1 [sym_kGt]; AGroup 3 3 syms_1]);
   (595216, 2, [AGroup 18804 1 [sym_kElse]; AGroup 3 3 syms_1]);
   (595225, 2, [AGroup 31991 1 [sym_kEnd]; AGroup 3 3 syms_1]);
   (595234, 2, [AGroup 31993 1 [anon_sym_SEMI]; AGroup 3 3 syms_1]);
   (595243, 2, [AGroup 31995 1 [anon_sym_SEMI]; AGroup 3 3 syms_1]);
   (595252, 2, [AGroup 31997 1 [sym_kEnd]; AGroup 3 3 syms_1]);
   (595261, 2, [AGroup 31999 1 [sym_kEnd]; AGroup 3 3 syms_1]);
   (595270, 2, [AGroup 32001 1 [anon_sym_RBRACK]; AGroup 3 3 syms_1]);
   (595279, 2, [AGroup 32003 1 [anon_sym_RPAREN]; AGroup 3 3 syms_1]);
   (595288, 2, [AGroup 32005 1 [sym_identifier]; AGroup 3 3 syms_1]);
   (595297, 2, [AGroup 32007 1 [sym_identifier]; AGroup 3 3 syms_1]);
   (595306, 2, [AGroup 32009 1 [anon_sym_SEMI]; AGroup 3 3 syms_1]);
   (595315, 2, [AGroup 1224 1 [sym_kEnd]; AGroup 3 3 syms_1]);
   (595324, 2, [AGroup 32011 1 [anon_sym_SEMI]; AGroup 3 3 syms_1]);
   (595333, 2, [AGroup 32013 1 [anon_sym_SEMI]; AGroup 3 3 syms_1]);
   (595342, 2, [AGroup 10870 1 [sym_kEnd]; AGroup 3 3 syms_1]);
   (595351, 2, [AGroup 27441 1 [sym_kEnd]; AGroup 3 3 syms_1]);
   (595360, 2, [AGroup 32015 1 [anon_sym_SEMI]; AGroup 3 3 syms_1]);
   (595369, 2, [AGroup 32017 1 [anon_sym_SEMI]; AGroup 3 3 syms_1]);
   (595378, 2, [AGroup 32019 1 [sym_kOf]; AGroup 3 3 syms_1]);
   (595387, 2, [AGroup 32021 1 [anon_sym_SEMI]; AGroup 3 3 syms_1]);
   (595396, 2, [AGroup 32023 1 [anon_sym_RBRACK]; AGroup 3 3 syms_1]);
   (595405, 2, [AGroup 32025 1 [anon_sym_RPAREN]; AGroup 3 3 syms_1]);
   (595414, 2, [AGroup 32027 1 [sym_kOf]; AGroup 3 3 syms_1]);
   (595423, 2, [AGroup 32029 1 [anon_sym_SEMI]; AGroup 3 3 syms_1]);
   (595432, 2, [AGroup 32031 1 [sym_kEnd]; AGroup 3 3 syms_1]);
   (595441, 2, [AGroup 28420 1 [anon_sym_SEMI]; AGroup 3 3 syms_1])
  ].

(** States 15659 to 15758. *)
Definition small_runs_15659 : list small_run :=
  [
   (595450, 2, [AGroup 32033 1 [sym_kGt]; AGroup 3 3 syms_1]);
   (595459, 2, [AGroup 32035 1 [sym_kEnd]; AGroup 3 3 syms_1]);
   (595468, 2, [AGroup 32037 1 [sym_kEnd]; AGroup 3 3 syms_1]);
   (595477, 2, [AGroup 32039 1 [sym_kUntil]; AGroup 3 3 syms_1]);
   (595486, 2, [AGroup 10838 1 [sym_kOn]; AGroup 3 3 syms_1]);
   (595495, 2, [AGroup 2471 1 [sym_kEnd]; AGroup 3 3 syms_1]);
   (595504, 2, [AGroup 32041 1 [anon_sym_SEMI]; AGroup 3 3 syms_1]);
   (595513, 2, [AGroup 32043 1 [sym_kEnd]; AGroup 3 3 syms_1]);
   (595522, 2, [AGroup 32045 1 [sym_kObject]; AGroup 3 3 syms_1]);
   (595531, 2, [AGroup 32047 1 [sym_kEnd]; AGroup 3 3 syms_1]);
   (595540, 2, [AGroup 28432 1 [anon_sym_SEMI]; AGroup 3 3 syms_1]);
   (595549, 2, [AGroup 32049 1 [anon_sym_SEMI]; AGroup 3 3 syms_1]);
   (595558, 2, [AGroup 32051 1 [sym_kGt]; AGroup 3 3 syms_1]);
   (595567, 2, [AGroup 32053 1 [sym_kEnd]; AGroup 3 3 syms_1]);
   (595576, 2, [AGroup 2475 1 [sym_kEnd]; AGroup 3 3 syms_1]);
   (595585, 2, [AGroup 2312 1 [sym_kEnd]; AGroup 3 3 syms_1]);
   (595594, 2, [AGroup 32055 1 [anon_sym_SEMI]; AGroup 3 3 syms_1]);
   (595603, 2, [AGroup 32057 1 [sym_identifier]; AGroup 3 3 syms_1]);
   (595612, 2, [AGroup 32059 1 [anon_sym_SEMI]; AGroup 3 3 syms_1]);
   (595621, 2, [AGroup 29559 1 [anon_sym_SEMI]; AGroup 3 3 syms_1]);
   (595630, 2, [AGroup 29593 1 [anon_sym_SEMI]; AGroup 3 3 syms_1]);
   (595639, 2, [AGroup 32061 1 [sym_kGt]; AGroup 3 3 syms_1]);
   (595648, 2, [AGroup 28436 1 [anon_sym_SEMI]; AGroup 3 3 syms_1]);
   (595657, 2, [AGroup 32063 1 [anon_sym_SEMI]; AGroup 3 3 syms_1]);
   (595666, 2, [AGroup 32065 1 [sym_kOf]; AGroup 3 3 syms_1]);
   (595675, 3, [AGroup 5 1 [sym_ppDirective]; AGroup 32067 1 [anon_sym_LPAREN]; AGroup 3 2 syms_5]);
   (595686, 2, [AGroup 3617 1 [sym_kEnd]; AGroup 3 3 syms_1]);
   (595695, 2, [AGroup 29441 1 [anon_sym_SEMI]; AGroup 3 3 syms_1]);
   (595704, 2, [AGroup 32069 1 [sym_kUntil]; AGroup 3 3 syms_1]);
   (595713, 2, [AGroup 32071 1 [sym_kOf]; AGroup 3 3 syms_1]);
   (595722, 2, [AGroup 32073 1 [sym_kEnd]; AGroup 3 3 syms_1]);
   (595731, 2, [AGroup 2316 1 [sym_kEnd]; AGroup 3 3 syms_1]);
   (595740, 2, [AGroup 32075 1 [anon_sym_SEMI]; AGroup 3 3 syms_1]);
   (595749, 2, [AGroup 29467 1 [anon_sym_SEMI]; AGroup 3 3 syms_1]);
   (595758, 2, [AGroup 28438 1 [anon_sym_SEMI]; AGroup 3 3 syms_1]);
   (595767, 2, [AGroup 32077 1 [sym_kEnd]; AGroup 3 3 syms_1]);
   (595776, 2, [AGroup 28446 1 [anon_sym_SEMI]; AGroup 3 3 syms_1]);
   (595785, 2, [AGroup 32079 1 [sym_identifier]; AGroup 3 3 syms_1]);
   (595794, 2, [AGroup 32081 1 [anon_sym_SEMI]; AGroup 3 3 syms_1]);
   (595803, 2, [AGroup 10874 1 [sym_kEnd]; AGroup 3 3 syms_1]);
   (595812, 2, [AGroup 3476 1 [sym_kEnd]; AGroup 3 3 syms_1]);
   (595821, 2, [AGroup 23097 1 [anon_sym_SEMI]; AGroup 3 3 syms_1]);
   (595830, 2, [AGroup 32083 1 [sym_kOf]; AGroup 3 3 syms_1]);
   (595839, 2, [AGroup 23075 1 [anon_sym_SEMI]; AGroup 3 3 syms_1]);
   (595848, 2, [AGroup 32085 1 [sym_identifier]; AGroup 3 3 syms_1]);
   (595857, 2, [AGroup 32087 1 [anon_sym_SEMI]; AGroup 3 3 syms_1]);
   (595866, 2, [AGroup 32089 1 [sym_kEnd]; AGroup 3 3 syms_1]);
   (595875, 2, [AGroup 32091 1 [anon_sym_SEMI]; AGroup 3 3 syms_1]);
   (595884, 2, [AGroup 32093 1 [anon_sym_SEMI]; AGroup 3 3 syms_1]);
   (595893, 2, [AGroup 32095 1 [anon_sym_SEMI]; AGroup 3 3 syms_1]);
   (595902, 3, [AGroup 5 1 [sym_ppDirective]; AGroup 32097 1 [anon_sym_LPAREN]; AGroup 3 2 syms_5]);
   (595913, 2, [AGroup 32099 1 [sym_identifier]; AGroup 3 3 syms_1]);
   (595922, 2, [AGroup 32101 1 [anon_sym_SEMI]; AGroup 3 3 syms_1]);
   (595931, 2, [AGroup 1986 1 [sym_kEnd]; AGroup 3 3 syms_1]);
   (595940, 2, [AGroup 32103 1 [anon_sym_SEMI]; AGroup 3 3 syms_1]);
   (595949, 2, [AGroup 32105 1 [anon_sym_SEMI]; AGroup 3 3 syms_1]);
   (595958, 2, [AGroup 32107 1 [anon_sym_SEMI]; AGroup 3 3 syms_1]);
   (595967, 2, [AGroup 23022 1 [anon_sym_SEMI]; AGroup 3 3 syms_1]);
   (595976, 2, [AGroup 32109 1 [anon_sym_SEMI]; AGroup 3 3 syms_1]);
   (595985, 2, [AGroup 32111 1 [anon_sym_SEMI]; AGroup 3 3 syms_1]);
   (595994, 2, [AGroup 32113 1 [anon_sym_SEMI]; AGroup 3 3 syms_1]);
   (596003, 2, [AGroup 32115 1 [anon_sym_SEMI]; AGroup 3 3 syms_1]);
   (596012, 2, [AGroup 32117 1 [anon_sym_SEMI]; AGroup 3 3 syms_1]);
   (596021, 2, [AGroup 32119 1 [anon_sym_RPAREN]; AGroup 3 3 syms_1]);
   (596030, 2, [AGroup 32121 1 [sym_kOf]; AGroup 3 3 syms_1]);
   (596039, 2, [AGroup 32123 1 [sym_kObject]; AGroup 3 3 syms_1]);
   (596048, 2, [AGroup 32125 1 [sym_kEnd]; AGroup 3 3 syms_1]);
   (596057, 2, [AGroup 19043 1 [sym_kEnd]; AGroup 3 3 syms_1]);
   (596066, 2, [AGroup 10842 1 [sym_kOn]; AGroup 3 3 syms_1]);
   (596075, 2, [AGroup 1990 1 [sym_kEnd]; AGroup 3 3 syms_1]);
   (596084, 2, [AGroup 1611 1 [sym_kEnd]; AGroup 3 3 syms_1]);
   (596093, 2, [AGroup 32127 1 [sym_kEnd]; AGroup 3 3 syms_1]);
   (596102, 2, [AGroup 32129 1 [sym_kEnd]; AGroup 3 3 syms_1]);
   (596111, 2, [AGroup 32131 1 [sym_kGt]; AGroup 3 3 syms_1]);
   (596120, 2, [AGroup 32133 1 [anon_sym_SEMI]; AGroup 3 3 syms_1]);
   (596129, 2, [AGroup 32135 1 [anon_sym_SEMI]; AGroup 3 3 syms_1]);
   (596138, 2, [AGroup 32137 1 [sym_kOf]; AGroup 3 3 syms_1]);
   (596147, 2, [AGroup 3292 1 [sym_kEnd]; AGroup 3 3 syms_1]);
   (596156, 2, [AGroup 32139 1 [anon_sym_SEMI]; AGroup 3 3 syms_1]);
   (596165, 2, [AGroup 26046 1 [sym_kElse]; AGroup 3 3 syms_1]);
   (596174, 2, [AGroup 32141 1 [sym_kEnd]; AGroup 3 3 syms_1]);
   (596183, 2, [AGroup 32143 1 [sym_kGt]; AGroup 3 3 syms_1]);
   (596192, 2, [AGroup 32145 1 [anon_sym_SEMI]; AGroup 3 3 syms_1]);
   (596201, 2, [AGroup 1475 1 [sym_kEnd]; AGroup 3 3 syms_1]);
   (596210, 2, [AGroup 1705 1 [sym_kEnd]; AGroup 3 3 syms_1]);
   (596219, 2, [AGroup 32147 1 [sym_kIn]; AGroup 3 3 syms_1]);
   (596228, 2, [AGroup 1276 1 [sym_kEnd]; AGroup 3 3 syms_1]);
   (596237, 2, [AGroup 32149 1 [anon_sym_SEMI]; AGroup 3 3 syms_1]);
   (596246, 2, [AGroup 32151 1 [sym_kDo]; AGroup 3 3 syms_1]);
   (596255, 2, [AGroup 32153 1 [sym_kIn]; AGroup 3 3 syms_1]);
   (596264, 2, [AGroup 32155 1 [sym_kEnd]; AGroup 3 3 syms_1]);
   (596273, 2, [AGroup 32157 1 [sym_kEnd]; AGroup 3 3 syms_1]);
   (596282, 2, [AGroup 32159 1 [sym_kEnd]; AGroup 3 3 syms_1]);
   (596291, 2, [AGroup 32161 1 [anon_sym_SEMI]; AGroup 3 3 syms_1]);
   (596300, 2, [AGroup 32163 1 [sym_kIn]; AGroup 3 3 syms_1]);
   (596309, 2, [AGroup 32165 1 [anon_sym_SEMI]; AGroup 3 3 syms_1]);
   (596318, 2, [AGroup 32167 1 [anon_sym_SEMI]; AGroup 3 3 syms_1]);
   (596327, 2, [AGroup 32169 1 [sym_kIn]; AGroup 3 3 syms_1]);
   (596336, 2, [AGroup 32171 1 [anon_sym_SEMI]; AGroup 3 3 syms_1]);
   (596345, 2, [AGroup 32173 1 [anon_sym_SEMI]; AGroup 3 3 syms_1])
  ].

(** States 15759 to 15858. *)
Definition small_runs_15759 : list small_run :=
  [
   (596354, 2, [AGroup 32175 1 [anon_sym_SEMI]; AGroup 3 3 syms_1]);
   (596363, 2, [AGroup 32177 1 [sym_kEnd]; AGroup 3 3 syms_1]);
   (596372, 2, [AGroup 29277 1 [anon_sym_SEMI]; AGroup 3 3 syms_1]);
   (596381, 2, [AGroup 32179 1 [anon_sym_SEMI]; AGroup 3 3 syms_1]);
   (596390, 2, [AGroup 32181 1 [sym_identifier]; AGroup 3 3 syms_1]);
   (596399, 2, [AGroup 32183 1 [anon_sym_SEMI]; AGroup 3 3 syms_1]);
   (596408, 2, [AGroup 32185 1 [anon_sym_SEMI]; AGroup 3 3 syms_1]);
   (596417, 3, [AGroup 5 1 [sym_ppDirective]; AGroup 26727 1 [anon_sym_LPAREN]; AGroup 3 2 syms_5]);
   (596428, 2, [AGroup 32187 1 [anon_sym_SEMI]; AGroup 3 3 syms_1]);
   (596437, 2, [AGroup 29589 1 [anon_sym_SEMI]; AGroup 3 3 syms_1]);
   (596446, 2, [AGroup 32189 1 [anon_sym_SEMI]; AGroup 3 3 syms_1]);
   (596455, 2, [AGroup 29601 1 [anon_sym_SEMI]; AGroup 3 3 syms_1]);
   (596464, 2, [AGroup 32191 1 [anon_sym_SEMI]; AGroup 3 3 syms_1]);
   (596473, 2, [AGroup 32193 1 [anon_sym_RPAREN]; AGroup 3 3 syms_1]);
   (596482, 2, [AGroup 29669 1 [anon_sym_SEMI]; AGroup 3 3 syms_1]);
   (596491, 2, [AGroup 29691 1 [anon_sym_SEMI]; AGroup 3 3 syms_1]);
   (596500, 2, [AGroup 32195 1 [anon_sym_RPAREN]; AGroup 3 3 syms_1]);
   (596509, 2, [AGroup 32197 1 [anon_sym_SEMI]; AGroup 3 3 syms_1]);
   (596518, 2, [AGroup 32199 1 [sym_kEnd]; AGroup 3 3 syms_1]);
   (596527, 2, [AGroup 32201 1 [sym_kEnd]; AGroup 3 3 syms_1]);
   (596536, 2, [AGroup 23087 1 [anon_sym_SEMI]; AGroup 3 3 syms_1]);
   (596545, 2, [AGroup 32203 1 [sym_kEnd]; AGroup 3 3 syms_1]);
   (596554, 2, [AGroup 32205 1 [anon_sym_COLON]; AGroup 3 3 syms_1]);
   (596563, 2, [AGroup 32207 1 [anon_sym_SEMI]; AGroup 3 3 syms_1]);
   (596572, 2, [AGroup 32209 1 [sym_kEnd]; AGroup 3 3 syms_1]);
   (596581, 2, [AGroup 32211 1 [anon_sym_SEMI]; AGroup 3 3 syms_1]);
   (596590, 2, [AGroup 32213 1 [sym_kEnd]; AGroup 3 3 syms_1]);
   (596599, 2, [AGroup 32215 1 [anon_sym_SEMI]; AGroup 3 3 syms_1]);
   (596608, 2, [AGroup 1709 1 [sym_kEnd]; AGroup 3 3 syms_1]);
   (596617, 2, [AGroup 32217 1 [anon_sym_SEMI]; AGroup 3 3 syms_1]);
   (596626, 2, [AGroup 32219 1 [anon_sym_SEMI]; AGroup 3 3 syms_1]);
   (596635, 2, [AGroup 32221 1 [sym_identifier]; AGroup 3 3 syms_1]);
   (596644, 2, [AGroup 32223 1 [anon_sym_RBRACK]; AGroup 3 3 syms_1]);
   (596653, 2, [AGroup 32225 1 [anon_sym_RPAREN]; AGroup 3 3 syms_1]);
   (596662, 2, [AGroup 32227 1 [sym_kEnd]; AGroup 3 3 syms_1]);
   (596671, 2, [AGroup 32229 1 [anon_sym_SEMI]; AGroup 3 3 syms_1]);
   (596680, 2, [AGroup 32231 1 [anon_sym_SEMI]; AGroup 3 3 syms_1]);
   (596689, 2, [AGroup 32233 1 [sym_kEnd]; AGroup 3 3 syms_1]);
   (596698, 2, [AGroup 32235 1 [anon_sym_SEMI]; AGroup 3 3 syms_1]);
   (596707, 2, [AGroup 32237 1 [sym_kUntil]; AGroup 3 3 syms_1]);
   (596716, 2, [AGroup 32239 1 [sym_kGt]; AGroup 3 3 syms_1]);
   (596725, 2, [AGroup 32241 1 [anon_sym_SEMI]; AGroup 3 3 syms_1]);
   (596734, 2, [AGroup 32243 1 [anon_sym_SEMI]; AGroup 3 3 syms_1]);
   (596743, 2, [AGroup 32245 1 [anon_sym_SEMI]; AGroup 3 3 syms_1]);
   (596752, 2, [AGroup 32247 1 [anon_sym_SEMI]; AGroup 3 3 syms_1]);
   (596761, 2, [AGroup 32249 1 [anon_sym_SEMI]; AGroup 3 3 syms_1]);
   (596770, 2, [AGroup 1375 1 [sym_kEnd]; AGroup 3 3 syms_1]);
   (596779, 2, [AGroup 3182 1 [sym_kEnd]; AGroup 3 3 syms_1]);
   (596788, 2, [AGroup 32251 1 [anon_sym_SEMI]; AGroup 3 3 syms_1]);
   (596797, 2, [AGroup 16916 1 [anon_sym_SEMI]; AGroup 3 3 syms_1]);
   (596806, 2, [AGroup 17240 1 [anon_sym_SEMI]; AGroup 3 3 syms_1]);
   (596815, 2, [AGroup 28458 1 [anon_sym_SEMI]; AGroup 3 3 syms_1]);
   (596824, 2, [AGroup 32253 1 [anon_sym_SEMI]; AGroup 3 3 syms_1]);
   (596833, 2, [AGroup 32255 1 [anon_sym_SEMI]; AGroup 3 3 syms_1]);
   (596842, 2, [AGroup 32257 1 [anon_sym_SEMI]; AGroup 3 3 syms_1]);
   (596851, 2, [AGroup 29797 1 [anon_sym_SEMI]; AGroup 3 3 syms_1]);
   (596860, 2, [AGroup 32259 1 [sym_kEnd]; AGroup 3 3 syms_1]);
   (596869, 2, [AGroup 32261 1 [sym_kEnd]; AGroup 3 3 syms_1]);
   (596878, 2, [AGroup 32263 1 [sym_identifier]; AGroup 3 3 syms_1]);
   (596887, 2, [AGroup 28518 1 [anon_sym_SEMI]; AGroup 3 3 syms_1]);
   (596896, 2, [AGroup 28914 1 [anon_sym_SEMI]; AGroup 3 3 syms_1]);
   (596905, 2, [AGroup 32265 1 [sym_kObject]; AGroup 3 3 syms_1]);
   (596914, 2, [AGroup 32267 1 [anon_sym_SEMI]; AGroup 3 3 syms_1]);
   (596923, 2, [AGroup 32269 1 [anon_sym_SEMI]; AGroup 3 3 syms_1]);
   (596932, 2, [AGroup 32271 1 [anon_sym_SEMI]; AGroup 3 3 syms_1]);
   (596941, 2, [AGroup 32273 1 [anon_sym_SEMI]; AGroup 3 3 syms_1]);
   (596950, 2, [AGroup 32275 1 [sym_kEnd]; AGroup 3 3 syms_1]);
   (596959, 2, [AGroup 32277 1 [anon_sym_SEMI]; AGroup 3 3 syms_1]);
   (596968, 2, [AGroup 32279 1 [anon_sym_SEMI]; AGroup 3 3 syms_1]);
   (596977, 2, [AGroup 32281 1 [anon_sym_SEMI]; AGroup 3 3 syms_1]);
   (596986, 2, [AGroup 1379 1 [sym_kEnd]; AGroup 3 3 syms_1]);
   (596995, 2, [AGroup 32283 1 [sym_kEnd]; AGroup 3 3 syms_1]);
   (597004, 2, [AGroup 32285 1 [sym_kEnd]; AGroup 3 3 syms_1]);
   (597013, 2, [AGroup 29221 1 [anon_sym_SEMI]; AGroup 3 3 syms_1]);
   (597022, 2, [AGroup 32287 1 [anon_sym_SEMI]; AGroup 3 3 syms_1]);
   (597031, 2, [AGroup 3711 1 [sym_kEnd]; AGroup 3 3 syms_1]);
   (597040, 2, [AGroup 28506 1 [anon_sym_SEMI]; AGroup 3 3 syms_1]);
   (597049, 2, [AGroup 29805 1 [anon_sym_SEMI]; AGroup 3 3 syms_1]);
   (597058, 2, [AGroup 32289 1 [sym_kEnd]; AGroup 3 3 syms_1]);
   (597067, 2, [AGroup 28303 1 [anon_sym_SEMI]; AGroup 3 3 syms_1]);
   (597076, 2, [AGroup 28510 1 [anon_sym_SEMI]; AGroup 3 3 syms_1]);
   (597085, 2, [AGroup 28305 1 [anon_sym_SEMI]; AGroup 3 3 syms_1]);
   (597094, 2, [AGroup 32291 1 [anon_sym_SEMI]; AGroup 3 3 syms_1]);
   (597103, 2, [AGroup 32293 1 [sym_kGt]; AGroup 3 3 syms_1]);
   (597112, 2, [AGroup 32295 1 [anon_sym_RBRACK]; AGroup 3 3 syms_1]);
   (597121, 2, [AGroup 32297 1 [anon_sym_SEMI]; AGroup 3 3 syms_1]);
   (597130, 2, [AGroup 2390 1 [sym_kEnd]; AGroup 3 3 syms_1]);
   (597139, 2, [AGroup 32299 1 [anon_sym_SEMI]; AGroup 3 3 syms_1]);
   (597148, 2, [AGroup 32301 1 [sym_kTo]; AGroup 3 3 syms_1]);
   (597157, 2, [AGroup 19287 1 [sym_kElse]; AGroup 3 3 syms_1]);
   (597166, 2, [AGroup 32303 1 [sym_kOf]; AGroup 3 3 syms_1]);
   (597175, 2, [AGroup 28406 1 [anon_sym_SEMI]; AGroup 3 3 syms_1]);
   (597184, 2, [AGroup 32305 1 [anon_sym_RPAREN]; AGroup 3 3 syms_1]);
   (597193, 2, [AGroup 32307 1 [anon_sym_SEMI]; AGroup 3 3 syms_1]);
   (597202, 2, [AGroup 32309 1 [anon_sym_SEMI]; AGroup 3 3 syms_1]);
   (597211, 2, [AGroup 32311 1 [anon_sym_SEMI]; AGroup 3 3 syms_1]);
   (597220, 2, [AGroup 32313 1 [anon_sym_SEMI]; AGroup 3 3 syms_1]);
   (597229, 2, [AGroup 10850 1 [sym_kOn]; AGroup 3 3 syms_1]);
   (597238, 2, [AGroup 32315 1 [anon_sym_SEMI]; AGroup 3 3 syms_1]);
   (597247, 2, [AGroup 32317 1 [anon_sym_SEMI]; AGroup 3 3 syms_1])
  ].

(** States 15859 to 15958. *)
Definition small_runs_15859 : list small_run :=
  [
   (597256, 2, [AGroup 32319 1 [anon_sym_SEMI]; AGroup 3 3 syms_1]);
   (597265, 2, [AGroup 27735 1 [anon_sym_COMMA]; AGroup 3 3 syms_1]);
   (597274, 2, [AGroup 10854 1 [sym_kOn]; AGroup 3 3 syms_1]);
   (597283, 2, [AGroup 32321 1 [sym_kEnd]; AGroup 3 3 syms_1]);
   (597292, 2, [AGroup 32323 1 [sym_kObject]; AGroup 3 3 syms_1]);
   (597301, 2, [AGroup 2394 1 [sym_kEnd]; AGroup 3 3 syms_1]);
   (597310, 2, [AGroup 32325 1 [anon_sym_SEMI]; AGroup 3 3 syms_1]);
   (597319, 2, [AGroup 32327 1 [sym_kIn]; AGroup 3 3 syms_1]);
   (597328, 2, [AGroup 32329 1 [sym_kOf]; AGroup 3 3 syms_1]);
   (597337, 2, [AGroup 32331 1 [anon_sym_COLON]; AGroup 3 3 syms_1]);
   (597346, 2, [AGroup 32333 1 [sym_kEnd]; AGroup 3 3 syms_1]);
   (597355, 2, [AGroup 3484 1 [sym_kEnd]; AGroup 3 3 syms_1]);
   (597364, 2, [AGroup 32335 1 [anon_sym_SEMI]; AGroup 3 3 syms_1]);
   (597373, 2, [AGroup 32337 1 [sym_kObject]; AGroup 3 3 syms_1]);
   (597382, 2, [AGroup 23947 1 [sym_kEnd]; AGroup 3 3 syms_1]);
   (597391, 2, [AGroup 26036 1 [sym_kElse]; AGroup 3 3 syms_1]);
   (597400, 2, [AGroup 29237 1 [sym_kUntil]; AGroup 3 3 syms_1]);
   (597409, 2, [AGroup 10858 1 [sym_kOn]; AGroup 3 3 syms_1]);
   (597418, 2, [AGroup 32339 1 [anon_sym_SEMI]; AGroup 3 3 syms_1]);
   (597427, 2, [AGroup 1280 1 [sym_kEnd]; AGroup 3 3 syms_1]);
   (597436, 2, [AGroup 32341 1 [sym_kEnd]; AGroup 3 3 syms_1]);
   (597445, 2, [AGroup 32343 1 [sym_kEnd]; AGroup 3 3 syms_1]);
   (597454, 2, [AGroup 32345 1 [anon_sym_SEMI]; AGroup 3 3 syms_1]);
   (597463, 2, [AGroup 32347 1 [anon_sym_SEMI]; AGroup 3 3 syms_1]);
   (597472, 2, [AGroup 32349 1 [anon_sym_SEMI]; AGroup 3 3 syms_1]);
   (597481, 2, [AGroup 32351 1 [sym_kEnd]; AGroup 3 3 syms_1]);
   (597490, 2, [AGroup 32353 1 [sym_kEnd]; AGroup 3 3 syms_1]);
   (597499, 2, [AGroup 10862 1 [sym_kOn]; AGroup 3 3 syms_1]);
   (597508, 2, [AGroup 32355 1 [sym_kEnd]; AGroup 3 3 syms_1]);
   (597517, 2, [AGroup 32357 1 [sym_kEnd]; AGroup 3 3 syms_1]);
   (597526, 2, [AGroup 10770 1 [sym_kElse]; AGroup 3 3 syms_1]);
   (597535, 2, [AGroup 32359 1 [anon_sym_SEMI]; AGroup 3 3 syms_1]);
   (597544, 2, [AGroup 32361 1 [anon_sym_SEMI]; AGroup 3 3 syms_1]);
   (597553, 2, [AGroup 32363 1 [sym_kEnd]; AGroup 3 3 syms_1]);
   (597562, 2, [AGroup 32365 1 [sym_identifier]; AGroup 3 3 syms_1]);
   (597571, 2, [AGroup 10866 1 [sym_kOn]; AGroup 3 3 syms_1]);
   (597580, 2, [AGroup 28389 1 [anon_sym_SEMI]; AGroup 3 3 syms_1]);
   (597589, 2, [AGroup 32367 1 [sym_kUntil]; AGroup 3 3 syms_1]);
   (597598, 2, [AGroup 32369 1 [anon_sym_SEMI]; AGroup 3 3 syms_1]);
   (597607, 2, [AGroup 32371 1 [anon_sym_SEMI]; AGroup 3 3 syms_1]);
   (597616, 2, [AGroup 32373 1 [sym_kEnd]; AGroup 3 3 syms_1]);
   (597625, 2, [AGroup 32375 1 [anon_sym_SEMI]; AGroup 3 3 syms_1]);
   (597634, 2, [AGroup 32377 1 [anon_sym_SEMI]; AGroup 3 3 syms_1]);
   (597643, 2, [AGroup 1615 1 [sym_kEnd]; AGroup 3 3 syms_1]);
   (597652, 2, [AGroup 32379 1 [sym_kEnd]; AGroup 3 3 syms_1]);
   (597661, 2, [AGroup 26013 1 [sym_kElse]; AGroup 3 3 syms_1]);
   (597670, 2, [AGroup 32381 1 [anon_sym_SEMI]; AGroup 3 3 syms_1]);
   (597679, 2, [AGroup 28520 1 [anon_sym_SEMI]; AGroup 3 3 syms_1]);
   (597688, 2, [AGroup 32383 1 [anon_sym_SEMI]; AGroup 3 3 syms_1]);
   (597697, 2, [AGroup 32385 1 [sym_kObject]; AGroup 3 3 syms_1]);
   (597706, 2, [AGroup 10870 1 [sym_kOn]; AGroup 3 3 syms_1]);
   (597715, 2, [AGroup 10874 1 [sym_kOn]; AGroup 3 3 syms_1]);
   (597724, 2, [AGroup 32387 1 [sym_kEnd]; AGroup 3 3 syms_1]);
   (597733, 2, [AGroup 32389 1 [sym_kEnd]; AGroup 3 3 syms_1]);
   (597742, 2, [AGroup 28752 1 [sym_kElse]; AGroup 3 3 syms_1]);
   (597751, 2, [AGroup 32391 1 [sym_kOf]; AGroup 3 3 syms_1]);
   (597760, 2, [AGroup 32393 1 [anon_sym_RPAREN]; AGroup 3 3 syms_1]);
   (597769, 2, [AGroup 26044 1 [sym_kElse]; AGroup 3 3 syms_1]);
   (597778, 2, [AGroup 32395 1 [anon_sym_SEMI]; AGroup 3 3 syms_1]);
   (597787, 2, [AGroup 32397 1 [sym_kObject]; AGroup 3 3 syms_1]);
   (597796, 2, [AGroup 32399 1 [sym_kDo]; AGroup 3 3 syms_1]);
   (597805, 2, [AGroup 32401 1 [sym_kEnd]; AGroup 3 3 syms_1]);
   (597814, 2, [AGroup 32403 1 [sym_kEnd]; AGroup 3 3 syms_1]);
   (597823, 2, [AGroup 3492 1 [sym_kEnd]; AGroup 3 3 syms_1]);
   (597832, 2, [AGroup 32405 1 [sym_kEnd]; AGroup 3 3 syms_1]);
   (597841, 2, [AGroup 32407 1 [sym_kIn]; AGroup 3 3 syms_1]);
   (597850, 2, [AGroup 32409 1 [anon_sym_COLON]; AGroup 3 3 syms_1]);
   (597859, 2, [AGroup 32411 1 [anon_sym_SEMI]; AGroup 3 3 syms_1]);
   (597868, 2, [AGroup 32413 1 [sym_identifier]; AGroup 3 3 syms_1]);
   (597877, 2, [AGroup 32415 1 [sym_kEnd]; AGroup 3 3 syms_1]);
   (597886, 2, [AGroup 22285 1 [anon_sym_SEMI]; AGroup 3 3 syms_1]);
   (597895, 2, [AGroup 32417 1 [sym_kEnd]; AGroup 3 3 syms_1]);
   (597904, 2, [AGroup 32419 1 [anon_sym_SEMI]; AGroup 3 3 syms_1]);
   (597913, 2, [AGroup 26030 1 [sym_kElse]; AGroup 3 3 syms_1]);
   (597922, 2, [AGroup 18915 1 [sym_kElse]; AGroup 3 3 syms_1]);
   (597931, 2, [AGroup 28554 1 [anon_sym_SEMI]; AGroup 3 3 syms_1]);
   (597940, 2, [AGroup 32421 1 [sym_kEnd]; AGroup 3 3 syms_1]);
   (597949, 2, [AGroup 32423 1 [sym_kEnd]; AGroup 3 3 syms_1]);
   (597958, 2, [AGroup 32425 1 [anon_sym_SEMI]; AGroup 3 3 syms_1]);
   (597967, 2, [AGroup 1428 1 [sym_kEnd]; AGroup 3 3 syms_1]);
   (597976, 2, [AGroup 32427 1 [sym_kObject]; AGroup 3 3 syms_1]);
   (597985, 2, [AGroup 3723 1 [sym_kEnd]; AGroup 3 3 syms_1]);
   (597994, 2, [AGroup 3170 1 [sym_kEnd]; AGroup 3 3 syms_1]);
   (598003, 2, [AGroup 32429 1 [sym_kOf]; AGroup 3 3 syms_1]);
   (598012, 2, [AGroup 28826 1 [anon_sym_SEMI]; AGroup 3 3 syms_1]);
   (598021, 2, [AGroup 32431 1 [sym_kEnd]; AGroup 3 3 syms_1]);
   (598030, 2, [AGroup 1260 1 [sym_kEnd]; AGroup 3 3 syms_1]);
   (598039, 2, [AGroup 28558 1 [anon_sym_SEMI]; AGroup 3 3 syms_1]);
   (598048, 2, [AGroup 32433 1 [anon_sym_RPAREN]; AGroup 3 3 syms_1]);
   (598057, 2, [AGroup 32435 1 [sym_kEnd]; AGroup 3 3 syms_1]);
   (598066, 2, [AGroup 32437 1 [sym_kObject]; AGroup 3 3 syms_1]);
   (598075, 2, [AGroup 28560 1 [anon_sym_SEMI]; AGroup 3 3 syms_1]);
   (598084, 2, [AGroup 32439 1 [anon_sym_SEMI]; AGroup 3 3 syms_1]);
   (598093, 2, [AGroup 28830 1 [anon_sym_SEMI]; AGroup 3 3 syms_1]);
   (598102, 2, [AGroup 32441 1 [sym_identifier]; AGroup 3 3 syms_1]);
   (598111, 2, [AGroup 32443 1 [sym_kIn]; AGroup 3 3 syms_1]);
   (598120, 2, [AGroup 2582 1 [sym_kEnd]; AGroup 3 3 syms_1]);
   (598129, 2, [AGroup 32445 1 [sym_kEnd]; AGroup 3 3 syms_1]);
   (598138, 2, [AGroup 32447 1 [sym_kEnd]; AGroup 3 3 syms_1]);
   (598147, 2, [AGroup 32449 1 [sym_kEnd]; AGroup 3 3 syms_1])
  ].

(** States 15959 to 16006. *)
Definition small_runs_15959 : list small_run :=
  [
   (598156, 2, [AGroup 32451 1 [sym_identifier]; AGroup 3 3 syms_1]);
   (598165, 2, [AGroup 32453 1 [anon_sym_SEMI]; AGroup 3 3 syms_1]);
   (598174, 2, [AGroup 32455 1 [sym_kEnd]; AGroup 3 3 syms_1]);
   (598183, 2, [AGroup 32457 1 [sym_kUntil]; AGroup 3 3 syms_1]);
   (598192, 2, [AGroup 32459 1 [sym_kEnd]; AGroup 3 3 syms_1]);
   (598201, 2, [AGroup 32461 1 [anon_sym_RBRACK]; AGroup 3 3 syms_1]);
   (598210, 2, [AGroup 32463 1 [anon_sym_RPAREN]; AGroup 3 3 syms_1]);
   (598219, 2, [AGroup 10724 1 [sym_kElse]; AGroup 3 3 syms_1]);
   (598228, 2, [AGroup 2586 1 [sym_kEnd]; AGroup 3 3 syms_1]);
   (598237, 2, [AGroup 10882 1 [sym_kOn]; AGroup 3 3 syms_1]);
   (598246, 2, [AGroup 10706 1 [sym_kOn]; AGroup 3 3 syms_1]);
   (598255, 2, [AGroup 32465 1 [anon_sym_RPAREN]; AGroup 3 3 syms_1]);
   (598264, 2, [AGroup 32467 1 [sym_kEnd]; AGroup 3 3 syms_1]);
   (598273, 2, [AGroup 32469 1 [sym_kEnd]; AGroup 3 3 syms_1]);
   (598282, 2, [AGroup 32471 1 [anon_sym_RBRACK]; AGroup 3 3 syms_1]);
   (598291, 2, [AGroup 3627 1 [sym_kEnd]; AGroup 3 3 syms_1]);
   (598300, 2, [AGroup 32473 1 [anon_sym_RPAREN]; AGroup 3 3 syms_1]);
   (598309, 2, [AGroup 32475 1 [anon_sym_SEMI]; AGroup 3 3 syms_1]);
   (598318, 2, [AGroup 32477 1 [sym_kEnd]; AGroup 3 3 syms_1]);
   (598327, 2, [AGroup 32479 1 [anon_sym_SEMI]; AGroup 3 3 syms_1]);
   (598336, 2, [AGroup 29741 1 [anon_sym_SEMI]; AGroup 3 3 syms_1]);
   (598345, 2, [AGroup 32481 1 [sym_kEnd]; AGroup 3 3 syms_1]);
   (598354, 2, [AGroup 32483 1 [anon_sym_SEMI]; AGroup 3 3 syms_1]);
   (598363, 2, [AGroup 32485 1 [sym_identifier]; AGroup 3 3 syms_1]);
   (598372, 2, [AGroup 10882 1 [sym_kEnd]; AGroup 3 3 syms_1]);
   (598381, 2, [AGroup 32487 1 [anon_sym_COLON]; AGroup 3 3 syms_1]);
   (598390, 3, [AGroup 5 1 [sym_ppDirective]; AGroup 26426 1 [anon_sym_LPAREN]; AGroup 3 2 syms_5]);
   (598401, 2, [AGroup 32489 1 [anon_sym_RBRACK]; AGroup 3 3 syms_1]);
   (598410, 2, [AGroup 32491 1 [anon_sym_RPAREN]; AGroup 3 3 syms_1]);
   (598419, 2, [AGroup 10818 1 [sym_kEnd]; AGroup 3 3 syms_1]);
   (598428, 2, [AGroup 10706 1 [sym_kEnd]; AGroup 3 3 syms_1]);
   (598437, 2, [AGroup 32493 1 [sym_kEnd]; AGroup 3 3 syms_1]);
   (598446, 2, [AGroup 29237 1 [sym_kEnd]; AGroup 3 3 syms_1]);
   (598455, 2, [AGroup 28814 1 [anon_sym_SEMI]; AGroup 3 3 syms_1]);
   (598464, 2, [AGroup 29647 1 [anon_sym_SEMI]; AGroup 3 3 syms_1]);
   (598473, 2, [AGroup 28874 1 [anon_sym_SEMI]; AGroup 3 3 syms_1]);
   (598482, 2, [AGroup 26032 1 [sym_kElse]; AGroup 3 3 syms_1]);
   (598491, 2, [AGroup 29841 1 [anon_sym_SEMI]; AGroup 3 3 syms_1]);
   (598500, 2, [AGroup 32495 1 [anon_sym_SEMI]; AGroup 3 3 syms_1]);
   (598509, 2, [AGroup 23123 1 [anon_sym_SEMI]; AGroup 3 3 syms_1]);
   (598518, 2, [AGroup 32497 1 [anon_sym_SEMI]; AGroup 3 3 syms_1]);
   (598527, 2, [AGroup 10886 1 [sym_kOn]; AGroup 3 3 syms_1]);
   (598536, 2, [AGroup 32499 1 [anon_sym_SEMI]; AGroup 3 3 syms_1]);
   (598545, 2, [AGroup 32501 1 [sym_kEnd]; AGroup 3 3 syms_1]);
   (598554, 2, [AGroup 22914 1 [anon_sym_SEMI]; AGroup 3 3 syms_1]);
   (598563, 2, [AGroup 32503 1 [sym_kEnd]; AGroup 3 3 syms_1]);
   (598572, 2, [AGroup 32505 1 [anon_sym_SEMI]; AGroup 3 3 syms_1]);
   (598581, 2, [AGroup 2237 1 [sym_kEnd]; AGroup 3 3 syms_1])
  ].

Definition small_part8 : list small_run :=
  small_runs_13259
  ++ small_runs_13359
  ++ small_runs_13459
  ++ small_runs_13559
  ++ small_runs_13659
  ++ small_runs_13759
  ++ small_runs_13859
  ++ small_runs_13959
  ++ small_runs_14059
  ++ small_runs_14159
  ++ small_runs_14259
  ++ small_runs_14359
  ++ small_runs_14459
  ++ small_runs_14559
  ++ small_runs_14659
  ++ small_runs_14759
  ++ small_runs_14859
  ++ small_runs_14959
  ++ small_runs_15059
  ++ small_runs_15159
  ++ small_runs_15259
  ++ small_runs_15359
  ++ small_runs_15459
  ++ small_runs_15559
  ++ small_runs_15659
  ++ small_runs_15759
  ++ small_runs_15859
  ++ small_runs_15959.
