(* ===== verification/SmallMap.v ===== *)
(** * The map of the compressed parse table of [parser.c]

    [ts_small_parse_table_map] gives each small state the index of its record;
    element [n] of the list is the initializer of [SMALL_STATE(2759 + n)]. *)

From S2P Require Import Prelude.

Definition ts_small_parse_table_map_0 : list Z :=
  [
   0; 90; 195; 300; 404; 508; 611; 716; 819; 933; 1047; 1161; 1275; 1389; 1503; 1617; 1731; 1845;
   1959; 2073; 2175; 2289; 2403; 2517; 2631; 2745; 2859; 2973; 3087; 3201; 3315; 3429; 3543;
   3657; 3771; 3885; 3999; 4113; 4215; 4329; 4443; 4557; 4671; 4785; 4887; 5001; 5115; 5229;
   5343; 5457; 5571; 5685; 5799; 5901; 6015; 6129; 6243; 6357; 6471; 6585; 6687; 6801; 6915;
   7029; 7143; 7257; 7371; 7485; 7599; 7713; 7827; 7941; 8043; 8157; 8271; 8345; 8419; 8533;
   8647; 8761; 8863; 8977; 9091; 9205; 9319; 9433; 9547; 9661; 9775; 9877; 9991; 10105; 10219;
   10286; 10387; 10514; 10611; 10712; 10809; 10906; 11003; 11070; 11197; 11324; 11421; 11548;
   11645; 11742; 11839; 11966; 12093; 12162; 12289; 12416; 12543; 12670; 12797; 12894; 13021;
   13148; 13245; 13314; 13441; 13568; 13695; 13822; 13923; 14024; 14093; 14190; 14257; 14324;
   14451; 14552; 14621; 14690; 14759; 14856; 14983; 15052; 15179; 15276; 15345; 15472; 15541;
   15610; 15679; 15806; 15903; 16000; 16101; 16168; 16237; 16306; 16403; 16504; 16573; 16640;
   16767; 16868; 16937; 17046; 17173; 17270; 17339; 17431; 17523; 17615; 17707; 17799; 17891;
   17983; 18075; 18167; 18259; 18351; 18443; 18535; 18627; 18719; 18811; 18903; 18995; 19087;
   19179; 19271; 19363; 19455; 19547; 19639; 19731; 19823; 19915; 20007; 20099; 20191; 20293;
   20361; 20453; 20545; 20637; 20737; 20829; 20921; 21013; 21113; 21205; 21297; 21389; 21457;
   21525; 21617; 21709; 21801; 21893; 21955; 22047; 22139; 22231; 22331; 22423; 22515; 22577;
   22669; 22761; 22853; 22919; 23011; 23103; 23195; 23257; 23349; 23441; 23541; 23633; 23699;
   23791; 23883; 23975; 24067; 24159; 24251; 24343; 24435; 24527; 24619; 24711; 24803; 24895;
   24987; 25079; 25171; 25263; 25325; 25417; 25509; 25601; 25693; 25785; 25847; 25939; 26031;
   26123; 26215; 26307; 26399; 26491; 26583; 26675; 26767; 26859; 26951; 27043; 27135; 27227;
   27319; 27411; 27503; 27595; 27687; 27787; 27879; 27971; 28063; 28155; 28223; 28315; 28407;
   28499; 28591; 28683; 28751; 28819; 28911; 28979; 29047; 29139; 29241; 29333; 29433; 29525;
   29630; 29695; 29760; 29827; 29932; 30037; 30104; 30171; 30238; 30361; 30468; 30573; 30678;
   30783; 30906; 31011; 31116; 31221; 31326; 31431; 31536; 31641; 31740; 31845; 31944; 32049;
   32154; 32219; 32284; 32389; 32494; 32599; 32700; 32805; 32910; 33015; 33120; 33243; 33348;
   33453; 33558; 33663; 33768; 33873; 33978; 34083; 34188; 34293; 34398; 34503; 34608; 34713;
   34820; 34943; 35066; 35189; 35294; 35401; 35506; 35629; 35696; 35819; 35924; 36031; 36154;
   36259; 36382; 36505; 36604; 36711; 36834; 36957; 37080; 37185; 37290; 37395; 37502; 37625;
   37690; 37813; 37912; 38017; 38140; 38245; 38350; 38457; 38580; 38647; 38752; 38875; 38942;
   39065; 39132; 39237; 39344; 39449; 39554; 39661; 39768; 39875; 39980; 40085; 40210; 40277;
   40382; 40449; 40516; 40583; 40650; 40717; 40784; 40851; 40956; 41085; 41190; 41313; 41433;
   41553; 41673; 41793; 41913; 41979; 42099; 42163; 42269; 42333; 42453; 42573; 42679; 42799;
   42865; 42985; 43105; 43225; 43345; 43451; 43571; 43677; 43797; 43917; 44015; 44135; 44241;
   44307; 44427; 44533; 44639; 44737; 44857; 44977; 45097; 45217; 45337; 45457; 45577; 45697;
   45817; 45937; 46057; 46177; 46297; 46417; 46537; 46641; 46761; 46881; 47001; 47121; 47241;
   47361; 47481; 47601; 47721; 47841; 47907; 48027; 48147; 48267; 48387; 48507; 48627; 48747;
   48867; 48987; 49107; 49227; 49347; 49467; 49587; 49707; 49773; 49893; 50013; 50117; 50237;
   50357; 50477; 50597; 50717; 50821; 50941; 51061; 51181; 51301; 51421; 51541; 51661; 51781;
   51901; 52021; 52141; 52261; 52381; 52501; 52621; 52741; 52861; 52981; 53101; 53221; 53341;
   53461; 53565; 53685; 53805; 53925; 54045; 54165; 54285; 54351; 54471; 54591; 54711; 54831;
   54951; 55071; 55191; 55311; 55431; 55551; 55671; 55791; 55895; 56015; 56135; 56255; 56375;
   56495; 56561; 56681; 56801; 56867; 56987; 57107; 57227; 57347; 57467; 57587; 57707; 57827;
   57947; 58067; 58153; 58257; 58377; 58497; 58617; 58703; 58823; 58943; 59049; 59147; 59267;
   59387; 59507; 59627; 59747; 59867; 59987; 60091; 60211; 60331; 60417; 60515; 60635; 60699;
   60819; 60923; 61043; 61163; 61283; 61387; 61507; 61611; 61677; 61797; 61901; 61965; 62085;
   62189; 62309; 62429; 62495; 62561; 62627; 62747; 62853; 62973; 63039; 63105; 63225; 63291;
   63411; 63477; 63597; 63723; 63843; 63963; 64083; 64203; 64323; 64443; 64563; 64683; 64803;
   64923; 65043; 65163; 65283; 65384; 65485; 65584; 65647; 65712; 65777; 65842; 65925; 66024;
   66087; 66188; 66253; 66318; 66383; 66480; 66581; 66678; 66777; 66842; 66907; 66974; 67039;
   67104; 67205; 67270; 67369; 67434; 67499; 67564; 67629; 67704; 67769; 67866; 67989; 68062;
   68161; 68226; 68325; 68390; 68459; 68558; 68657; 68722; 68785; 68848; 68949; 69048; 69149;
   69214; 69315; 69380; 69445; 69510; 69609; 69674; 69775; 69872; 69971; 70070; 70145; 70244;
   70309; 70372; 70437; 70502; 70567; 70666; 70729; 70830; 70893; 71016; 71081; 71146; 71209;
   71310; 71375; 71440; 71563; 71636; 71737; 71804; 71905; 72004; 72109; 72174; 72275; 72340;
   72440; 72540; 72640; 72702; 72766; 72866; 72966; 73030; 73130; 73230; 73330; 73392; 73492;
   73592; 73692; 73788; 73850; 73950; 74050; 74112; 74174; 74238; 74334; 74398; 74460; 74522;
   74600; 74700; 74800; 74864; 74964; 75064; 75128; 75192; 75254; 75318; 75380; 75480; 75544;
   75644; 75744; 75808; 75908; 76008; 76070; 76170; 76270; 76334; 76430; 76530; 76608; 76708;
   76808; 76870; 76968; 77068; 77168; 77266; 77362; 77458; 77558; 77636; 77736; 77836; 77936;
   78036; 78136; 78236; 78300; 78364; 78428; 78528; 78628; 78726; 78826; 78926; 79026; 79126;
   79190; 79252; 79352; 79448; 79548; 79612; 79712; 79774; 79838; 79934; 79996; 80096; 80196;
   80260; 80360; 80460; 80538; 80638; 80702; 80798; 80898; 80962; 81026; 81090; 81154; 81218;
   81318; 81382; 81482; 81546; 81646; 81746; 81810; 81874; 81974; 82038; 82102; 82202; 82302;
   82366; 82430; 82494; 82558; 82658; 82722; 82822; 82886; 82986; 83064; 83126; 83222; 83322;
   83422; 83518; 83618; 83718; 83782; 83844; 83940; 84040; 84140; 84240; 84340; 84440; 84540;
   84602; 84702; 84802; 84902; 84966; 85030; 85130; 85230; 85292; 85388; 85484; 85548; 85610;
   85672; 85750; 85850; 85912; 85974; 86036; 86100; 86162; 86262; 86362; 86424; 86524; 86586;
   86648; 86710; 86810; 86910; 86972; 87036; 87134; 87198; 87260; 87360; 87460; 87538; 87638;
   87700; 87800; 87862; 87962; 88062; 88158; 88220; 88282; 88382; 88482; 88578; 88678; 88778;
   88878; 88978; 89078; 89174; 89274; 89374; 89474; 89574; 89674; 89752; 89852; 89952; 90052;
   90152; 90252; 90352; 90452; 90552; 90652; 90752; 90848; 90912; 91012; 91112; 91190; 91290;
   91390; 91490; 91590; 91690; 91768; 91868; 91968; 92068; 92166; 92264; 92364; 92442; 92542;
   92642; 92704; 92804; 92882; 92982; 93082; 93160; 93260; 93360; 93438; 93538; 93638; 93716;
   93816; 93894; 93994; 94072; 94172; 94250; 94346; 94446; 94524; 94624; 94686; 94764; 94828;
   94928; 95028; 95128; 95228; 95328; 95428; 95528; 95628; 95728; 95828; 95928; 96028; 96092;
   96188; 96288; 96388; 96488; 96588; 96652; 96752; 96852; 96916; 97016
  ].

Definition ts_small_parse_table_map_1000 : list Z :=
  [
   97078; 97178; 97278; 97378; 97474; 97574; 97674; 97774; 97838; 97938; 98034; 98134; 98234;
   98334; 98434; 98534; 98634; 98734; 98834; 98934; 99034; 99134; 99234; 99334; 99434; 99534;
   99634; 99734; 99834; 99934; 100034; 100134; 100234; 100334; 100434; 100534; 100634; 100734;
   100834; 100934; 101034; 101134; 101234; 101334; 101434; 101534; 101634; 101734; 101831;
   101928; 101991; 102088; 102185; 102282; 102379; 102490; 102589; 102700; 102797; 102894;
   102991; 103088; 103185; 103246; 103343; 103440; 103537; 103634; 103731; 103794; 103891;
   103988; 104049; 104146; 104213; 104310; 104407; 104466; 104577; 104640; 104737; 104834;
   104901; 104998; 105061; 105158; 105255; 105350; 105445; 105506; 105603; 105700; 105797;
   105894; 105991; 106088; 106185; 106248; 106311; 106372; 106469; 106566; 106629; 106692;
   106789; 106886; 106983; 107080; 107177; 107272; 107369; 107466; 107577; 107674; 107737;
   107834; 107931; 107992; 108051; 108148; 108245; 108340; 108399; 108496; 108593; 108652;
   108749; 108808; 108905; 109002; 109097; 109194; 109291; 109388; 109485; 109582; 109679;
   109776; 109873; 109970; 110067; 110164; 110263; 110382; 110479; 110576; 110675; 110772;
   110869; 110966; 111063; 111160; 111257; 111354; 111451; 111548; 111645; 111742; 111839;
   111936; 112033; 112130; 112227; 112324; 112421; 112518; 112615; 112712; 112809; 112906;
   113003; 113100; 113197; 113294; 113391; 113488; 113549; 113646; 113743; 113840; 113937;
   114034; 114131; 114228; 114325; 114422; 114519; 114616; 114713; 114810; 114907; 115004;
   115101; 115198; 115295; 115392; 115451; 115510; 115587; 115684; 115781; 115844; 115941;
   116000; 116097; 116174; 116271; 116368; 116467; 116530; 116627; 116746; 116823; 116920;
   117017; 117094; 117157; 117254; 117317; 117394; 117513; 117608; 117671; 117770; 117847;
   117944; 118041; 118104; 118167; 118244; 118307; 118370; 118447; 118524; 118601; 118678;
   118755; 118832; 118909; 118986; 119063; 119140; 119217; 119294; 119371; 119466; 119529;
   119604; 119701; 119796; 119893; 119992; 120089; 120186; 120283; 120380; 120477; 120536;
   120633; 120732; 120795; 120858; 120957; 121020; 121083; 121180; 121239; 121350; 121413;
   121510; 121607; 121704; 121763; 121860; 121919; 122016; 122113; 122210; 122329; 122426;
   122523; 122617; 122679; 122741; 122803; 122865; 122927; 122989; 123051; 123113; 123173;
   123235; 123295; 123357; 123419; 123481; 123543; 123605; 123667; 123729; 123845; 123961;
   124055; 124149; 124243; 124303; 124363; 124457; 124519; 124613; 124707; 124801; 124895;
   124989; 125083; 125145; 125239; 125333; 125427; 125521; 125579; 125673; 125767; 125829;
   125891; 126007; 126123; 126197; 126255; 126349; 126427; 126505; 126567; 126629; 126687;
   126745; 126805; 126899; 126993; 127053; 127147; 127241; 127335; 127429; 127523; 127617;
   127691; 127785; 127879; 127973; 128067; 128141; 128235; 128329; 128423; 128517; 128591;
   128685; 128779; 128873; 128967; 129041; 129135; 129251; 129367; 129461; 129555; 129649;
   129723; 129817; 129911; 130005; 130099; 130193; 130267; 130361; 130455; 130571; 130687;
   130781; 130875; 130949; 131043; 131137; 131197; 131291; 131385; 131479; 131573; 131667;
   131761; 131855; 131949; 132043; 132137; 132231; 132293; 132387; 132481; 132543; 132637;
   132731; 132825; 132919; 133013; 133107; 133201; 133295; 133389; 133483; 133577; 133671;
   133765; 133859; 133953; 134047; 134141; 134235; 134329; 134423; 134517; 134611; 134705;
   134799; 134893; 134987; 135081; 135175; 135269; 135363; 135457; 135551; 135645; 135739;
   135833; 135927; 136021; 136115; 136209; 136303; 136397; 136457; 136548; 136639; 136730;
   136821; 136914; 137005; 137096; 137187; 137278; 137369; 137460; 137551; 137642; 137733;
   137824; 137915; 138006; 138099; 138190; 138281; 138372; 138463; 138554; 138645; 138736;
   138829; 138920; 139011; 139072; 139163; 139254; 139345; 139436; 139529; 139620; 139711;
   139802; 139863; 139924; 140015; 140076; 140137; 140198; 140259; 140350; 140411; 140502;
   140615; 140706; 140797; 140888; 140981; 141072; 141163; 141254; 141345; 141436; 141497;
   141588; 141679; 141770; 141863; 141954; 142045; 142106; 142167; 142258; 142319; 142380;
   142441; 142502; 142593; 142654; 142713; 142804; 142863; 142954; 143045; 143136; 143229;
   143320; 143433; 143524; 143615; 143706; 143797; 143888; 143979; 144070; 144163; 144254;
   144345; 144436; 144527; 144618; 144677; 144768; 144827; 144918; 145009; 145100; 145193;
   145284; 145375; 145466; 145557; 145648; 145739; 145830; 145921; 146014; 146105; 146196;
   146287; 146378; 146469; 146528; 146619; 146710; 146801; 146892; 146983; 147076; 147167;
   147258; 147371; 147462; 147553; 147644; 147735; 147826; 147917; 148008; 148101; 148192;
   148283; 148374; 148465; 148556; 148647; 148706; 148797; 148888; 148979; 149070; 149161;
   149252; 149343; 149434; 149525; 149616; 149677; 149770; 149861; 149952; 150043; 150134;
   150225; 150292; 150385; 150476; 150567; 150658; 150749; 150810; 150871; 150962; 151053;
   151114; 151175; 151266; 151357; 151448; 151539; 151632; 151723; 151816; 151907; 151998;
   152059; 152120; 152211; 152272; 152363; 152454; 152545; 152636; 152727; 152818; 152909;
   153000; 153091; 153182; 153273; 153364; 153431; 153524; 153615; 153706; 153797; 153888;
   153979; 154070; 154161; 154252; 154343; 154434; 154525; 154616; 154675; 154766; 154833;
   154894; 154953; 155044; 155135; 155226; 155319; 155410; 155501; 155562; 155623; 155684;
   155775; 155866; 155957; 156018; 156079; 156134; 156225; 156316; 156407; 156498; 156565;
   156656; 156747; 156808; 156869; 156960; 157051; 157142; 157233; 157324; 157417; 157508;
   157569; 157660; 157751; 157842; 157933; 158024; 158091; 158182; 158273; 158364; 158455;
   158548; 158639; 158730; 158821; 158912; 159003; 159094; 159185; 159276; 159367; 159434;
   159525; 159616; 159707; 159798; 159889; 159980; 160071; 160138; 160229; 160320; 160391;
   160482; 160573; 160664; 160755; 160848; 160939; 161030; 161121; 161212; 161303; 161394;
   161461; 161552; 161643; 161734; 161825; 161916; 162007; 162098; 162189; 162280; 162371;
   162462; 162553; 162620; 162733; 162846; 162937; 163050; 163141; 163232; 163323; 163414;
   163505; 163596; 163687; 163778; 163845; 163936; 164027; 164118; 164209; 164280; 164371;
   164464; 164555; 164646; 164737; 164828; 164919; 165010; 165101; 165160; 165251; 165318;
   165379; 165438; 165529; 165620; 165711; 165804; 165895; 165986; 166077; 166168; 166229;
   166320; 166411; 166472; 166539; 166630; 166691; 166752; 166843; 166934; 167025; 167116;
   167209; 167276; 167367; 167428; 167489; 167580; 167671; 167762; 167853; 167944; 168035;
   168102; 168163; 168254; 168345; 168436; 168527; 168588; 168655; 168746; 168837; 168928;
   169021; 169112; 169203; 169294; 169355; 169416; 169507; 169598; 169689; 169780; 169841;
   169902; 169993; 170084; 170151; 170242; 170303; 170364; 170455; 170546; 170607; 170698;
   170789; 170880; 170971; 171038; 171129; 171220; 171311; 171404; 171495; 171586; 171677;
   171768; 171859; 171926; 172017; 172108; 172199; 172290; 172381; 172472; 172563; 172654;
   172721; 172814; 172905; 172996; 173087; 173178; 173269; 173336; 173427; 173518; 173609;
   173700; 173791; 173858; 173949; 174008; 174099; 174192; 174283; 174342; 174433; 174524;
   174615; 174706; 174797; 174864; 174957; 175048; 175139; 175230; 175321; 175412; 175503;
   175594; 175685; 175752; 175843; 175934; 176025; 176116; 176183; 176274; 176365; 176456;
   176547; 176638; 176705; 176796; 176855; 176946; 177037; 177128; 177195; 177254; 177345;
   177436; 177527; 177620; 177711; 177802; 177893; 177984; 178075; 178142; 178233; 178324;
   178415; 178506; 178597; 178688; 178779; 178846; 178937; 179028; 179095; 179162; 179253;
   179320; 179387; 179454; 179545; 179612; 179679; 179746; 179837; 179904; 179995; 180062;
   180153; 180244; 180337; 180428; 180495; 180586; 180653; 180720; 180811; 180878; 180969;
   181036; 181127; 181194; 181249; 181316; 181383; 181450; 181517; 181608; 181699; 181766;
   181833; 181900; 181967; 182058; 182149; 182240; 182331; 182444; 182535; 182626; 182717;
   182808; 182899; 183012; 183103; 183194; 183285; 183376; 183467; 183558; 183649; 183740;
   183831; 183922; 184013; 184104; 184195
  ].

Definition ts_small_parse_table_map_2000 : list Z :=
  [
   184288; 184379; 184470; 184561; 184652; 184743; 184834; 184925; 185016; 185107; 185198;
   185289; 185380; 185471; 185564; 185655; 185746; 185837; 185928; 186019; 186110; 186203;
   186294; 186385; 186476; 186567; 186658; 186749; 186842; 186935; 187026; 187117; 187208;
   187299; 187390; 187481; 187574; 187665; 187756; 187847; 187914; 187981; 188048; 188139;
   188230; 188321; 188412; 188503; 188596; 188687; 188778; 188869; 188960; 189051; 189142;
   189233; 189324; 189415; 189506; 189597; 189688; 189779; 189870; 189961; 190052; 190143;
   190234; 190327; 190418; 190509; 190600; 190691; 190782; 190873; 190964; 191055; 191146;
   191237; 191328; 191419; 191510; 191601; 191692; 191783; 191874; 191965; 192056; 192147;
   192238; 192329; 192420; 192511; 192602; 192693; 192784; 192875; 192968; 193059; 193150;
   193241; 193332; 193423; 193514; 193605; 193696; 193787; 193878; 193969; 194060; 194151;
   194242; 194333; 194424; 194515; 194606; 194697; 194788; 194843; 194956; 195047; 195160;
   195251; 195342; 195433; 195524; 195615; 195728; 195819; 195910; 196001; 196114; 196205;
   196296; 196409; 196500; 196591; 196682; 196773; 196864; 196955; 197046; 197137; 197228;
   197319; 197410; 197501; 197562; 197653; 197744; 197835; 197926; 198017; 198108; 198199;
   198290; 198381; 198472; 198565; 198656; 198747; 198838; 198929; 199020; 199111; 199202;
   199293; 199384; 199475; 199568; 199659; 199750; 199841; 199932; 200023; 200114; 200205;
   200296; 200387; 200478; 200569; 200660; 200751; 200842; 200955; 201046; 201137; 201228;
   201289; 201380; 201471; 201562; 201653; 201744; 201805; 201896; 201987; 202078; 202169;
   202260; 202351; 202442; 202533; 202624; 202715; 202808; 202899; 202990; 203081; 203172;
   203263; 203354; 203467; 203528; 203619; 203710; 203771; 203862; 203953; 204044; 204105;
   204196; 204257; 204318; 204409; 204500; 204591; 204682; 204773; 204864; 204955; 205046;
   205137; 205228; 205319; 205410; 205501; 205592; 205683; 205774; 205865; 205926; 206017;
   206108; 206201; 206292; 206383; 206474; 206565; 206656; 206747; 206838; 206929; 207020;
   207111; 207202; 207293; 207384; 207475; 207566; 207679; 207770; 207861; 207952; 208043;
   208134; 208225; 208316; 208407; 208498; 208591; 208682; 208773; 208864; 208955; 209046;
   209137; 209228; 209319; 209410; 209501; 209592; 209683; 209796; 209887; 209978; 210069;
   210160; 210251; 210342; 210433; 210524; 210615; 210706; 210797; 210888; 210979; 211070;
   211161; 211254; 211345; 211436; 211527; 211618; 211709; 211800; 211891; 211982; 212073;
   212164; 212277; 212368; 212459; 212550; 212641; 212732; 212823; 212914; 213005; 213098;
   213189; 213280; 213371; 213462; 213553; 213644; 213735; 213826; 213917; 214008; 214099;
   214190; 214281; 214372; 214463; 214554; 214645; 214736; 214827; 214882; 214973; 215066;
   215157; 215248; 215339; 215430; 215521; 215612; 215703; 215794; 215885; 215976; 216067;
   216128; 216195; 216286; 216377; 216468; 216559; 216650; 216741; 216832; 216923; 216984;
   217075; 217166; 217257; 217348; 217439; 217530; 217621; 217680; 217771; 217862; 217953;
   218014; 218105; 218196; 218287; 218378; 218469; 218560; 218651; 218710; 218801; 218862;
   218953; 219044; 219135; 219226; 219317; 219408; 219499; 219590; 219681; 219772; 219863;
   219956; 220047; 220138; 220229; 220320; 220411; 220502; 220593; 220684; 220775; 220866;
   220957; 221048; 221139; 221230; 221321; 221412; 221503; 221596; 221687; 221778; 221869;
   221960; 222051; 222142; 222233; 222324; 222415; 222506; 222597; 222688; 222779; 222870;
   222961; 223052; 223143; 223234; 223325; 223416; 223507; 223598; 223689; 223780; 223871;
   223962; 224053; 224144; 224235; 224348; 224439; 224530; 224621; 224712; 224803; 224894;
   224985; 225076; 225131; 225222; 225281; 225372; 225463; 225554; 225645; 225736; 225827;
   225918; 226009; 226100; 226191; 226282; 226373; 226464; 226555; 226646; 226737; 226828;
   226919; 227032; 227123; 227214; 227305; 227396; 227487; 227578; 227669; 227760; 227851;
   227942; 228033; 228124; 228215; 228306; 228397; 228490; 228581; 228672; 228763; 228854;
   228945; 229036; 229127; 229218; 229309; 229400; 229491; 229582; 229673; 229764; 229855;
   229946; 230037; 230128; 230219; 230310; 230401; 230492; 230583; 230674; 230765; 230856;
   230947; 231038; 231129; 231220; 231311; 231402; 231493; 231584; 231675; 231766; 231857;
   231948; 232039; 232130; 232221; 232312; 232403; 232494; 232585; 232676; 232767; 232858;
   232949; 233040; 233131; 233222; 233313; 233404; 233495; 233586; 233677; 233768; 233861;
   233974; 234065; 234156; 234247; 234338; 234429; 234520; 234591; 234682; 234773; 234864;
   234955; 235046; 235137; 235228; 235321; 235412; 235503; 235594; 235685; 235776; 235867;
   235980; 236093; 236184; 236275; 236366; 236457; 236548; 236619; 236680; 236771; 236862;
   236953; 237044; 237135; 237226; 237317; 237408; 237469; 237562; 237653; 237744; 237835;
   237926; 237997; 238088; 238179; 238270; 238331; 238422; 238483; 238544; 238635; 238726;
   238817; 238908; 238999; 239070; 239161; 239252; 239313; 239374; 239465; 239526; 239617;
   239678; 239769; 239860; 239951; 240042; 240113; 240204; 240295; 240356; 240447; 240506;
   240597; 240688; 240779; 240870; 240961; 241032; 241123; 241214; 241305; 241364; 241455;
   241546; 241637; 241708; 241799; 241890; 241981; 242072; 242163; 242254; 242345; 242438;
   242529; 242620; 242711; 242802; 242893; 242984; 243075; 243166; 243257; 243348; 243439;
   243530; 243621; 243712; 243803; 243894; 243985; 244076; 244167; 244258; 244317; 244376;
   244467; 244558; 244617; 244708; 244799; 244890; 244949; 245008; 245099; 245190; 245249;
   245308; 245367; 245458; 245549; 245608; 245699; 245758; 245817; 245908; 245999; 246058;
   246117; 246176; 246267; 246358; 246417; 246508; 246567; 246626; 246717; 246808; 246867;
   246958; 247049; 247140; 247231; 247322; 247413; 247504; 247595; 247686; 247777; 247868;
   247959; 248050; 248141; 248234; 248325; 248416; 248507; 248598; 248689; 248780; 248871;
   248962; 249053; 249144; 249235; 249326; 249417; 249508; 249599; 249690; 249781; 249872;
   249963; 250054; 250145; 250236; 250327; 250418; 250509; 250600; 250691; 250782; 250873;
   250964; 251055; 251146; 251237; 251328; 251419; 251510; 251601; 251692; 251783; 251874;
   251965; 252056; 252147; 252238; 252329; 252420; 252479; 252570; 252629; 252688; 252779;
   252870; 252961; 253019; 253079; 253137; 253197; 253257; 253317; 253377; 253437; 253495;
   253555; 253615; 253675; 253735; 253795; 253855; 253909; 253969; 254029; 254139; 254199;
   254259; 254319; 254379; 254439; 254499; 254559; 254619; 254679; 254739; 254799; 254859;
   254917; 254977; 255037; 255093; 255153; 255213; 255273; 255331; 255391; 255451; 255561;
   255619; 255677; 255737; 255795; 255905; 255965; 256023; 256083; 256143; 256203; 256263;
   256321; 256381; 256441; 256501; 256561; 256671; 256731; 256789; 256847; 256907; 256967;
   257077; 257137; 257247; 257305; 257365; 257425; 257483; 257543; 257603; 257663; 257721;
   257779; 257837; 257897; 257957; 258017; 258127; 258185; 258243; 258353; 258411; 258471;
   258529; 258587; 258647; 258705; 258763; 258821; 258881; 258939; 258997; 259059; 259117;
   259175; 259285; 259343; 259401; 259461; 259519; 259577; 259637; 259695; 259763; 259821;
   259879; 259937; 259995; 260053; 260111; 260169; 260227; 260285; 260343; 260401; 260459;
   260517; 260575; 260633; 260693; 260751; 260809; 260869; 260927; 260985; 261095; 261155;
   261265; 261325; 261385; 261445; 261505; 261559; 261617; 261677; 261737; 261797; 261851;
   261911; 261971; 262081; 262141; 262201; 262259; 262317; 262377; 262435; 262492; 262549;
   262608; 262667; 262726; 262833; 262890; 262947; 263004; 263111; 263170; 263229; 263286;
   263345; 263404; 263461; 263518; 263575; 263632; 263691; 263750; 263809; 263868; 263927;
   263984; 264041; 264098; 264157; 264218; 264275; 264334; 264393; 264452; 264511; 264568;
   264627; 264684; 264741; 264798; 264855; 264912; 264971; 265028; 265081; 265138; 265195;
   265254; 265313; 265370; 265427; 265486; 265543; 265600; 265659; 265716; 265773; 265830;
   265889; 265946; 266005; 266062; 266121; 266178; 266237; 266294; 266353; 266412; 266471;
   266530; 266589; 266646; 266703; 266762; 266821; 266878; 266937; 266994; 267053
  ].

Definition ts_small_parse_table_map_3000 : list Z :=
  [
   267112; 267171; 267230; 267289; 267346; 267403; 267460; 267519; 267578; 267635; 267692;
   267749; 267856; 267917; 268026; 268085; 268142; 268249; 268308; 268367; 268426; 268485;
   268544; 268603; 268662; 268721; 268778; 268837; 268896; 268953; 269010; 269067; 269126;
   269185; 269242; 269299; 269358; 269415; 269474; 269531; 269588; 269647; 269704; 269763;
   269822; 269881; 269938; 269997; 270056; 270109; 270168; 270225; 270284; 270341; 270400;
   270457; 270513; 270569; 270627; 270683; 270739; 270795; 270855; 270911; 270969; 271025;
   271081; 271137; 271197; 271255; 271321; 271389; 271445; 271501; 271557; 271613; 271671;
   271737; 271793; 271851; 271907; 271963; 272019; 272075; 272133; 272191; 272247; 272303;
   272359; 272415; 272473; 272529; 272587; 272645; 272701; 272777; 272833; 272889; 272945;
   273001; 273057; 273113; 273171; 273229; 273285; 273343; 273399; 273455; 273511; 273573;
   273631; 273687; 273755; 273811; 273867; 273923; 273979; 274035; 274093; 274149; 274204;
   274259; 274314; 274369; 274424; 274479; 274534; 274589; 274644; 274699; 274754; 274809;
   274864; 274919; 274974; 275029; 275084; 275139; 275194; 275249; 275304; 275359; 275414;
   275473; 275528; 275583; 275638; 275693; 275748; 275803; 275860; 275915; 275970; 276025;
   276080; 276135; 276190; 276245; 276300; 276355; 276410; 276465; 276520; 276575; 276630;
   276685; 276740; 276795; 276850; 276905; 276960; 277015; 277070; 277125; 277180; 277235;
   277290; 277345; 277400; 277455; 277510; 277565; 277620; 277675; 277730; 277785; 277840;
   277895; 277950; 278005; 278060; 278115; 278170; 278225; 278280; 278335; 278394; 278449;
   278504; 278559; 278614; 278675; 278730; 278785; 278840; 278895; 278950; 279007; 279062;
   279117; 279172; 279227; 279284; 279339; 279394; 279449; 279504; 279559; 279620; 279675;
   279730; 279785; 279840; 279895; 279950; 280005; 280060; 280115; 280170; 280225; 280280;
   280335; 280390; 280445; 280500; 280555; 280610; 280665; 280720; 280775; 280830; 280885;
   280940; 280995; 281050; 281104; 281158; 281230; 281284; 281338; 281392; 281446; 281500;
   281554; 281608; 281662; 281716; 281770; 281824; 281878; 281932; 281986; 282040; 282094;
   282148; 282202; 282256; 282312; 282366; 282420; 282474; 282528; 282582; 282636; 282690;
   282744; 282798; 282852; 282906; 282960; 283016; 283070; 283124; 283178; 283232; 283286;
   283340; 283394; 283448; 283504; 283558; 283612; 283666; 283720; 283774; 283830; 283884;
   283938; 283992; 284046; 284102; 284156; 284210; 284264; 284318; 284390; 284444; 284498;
   284558; 284612; 284666; 284726; 284780; 284834; 284888; 284942; 284996; 285050; 285104;
   285158; 285212; 285266; 285320; 285374; 285428; 285482; 285536; 285590; 285644; 285698;
   285752; 285806; 285860; 285914; 285968; 286022; 286076; 286130; 286184; 286238; 286292;
   286346; 286400; 286454; 286508; 286562; 286616; 286670; 286724; 286778; 286832; 286886;
   286940; 286994; 287048; 287102; 287160; 287214; 287268; 287326; 287380; 287434; 287488;
   287542; 287598; 287652; 287706; 287760; 287818; 287876; 287932; 287986; 288040; 288094;
   288150; 288204; 288258; 288312; 288366; 288420; 288473; 288526; 288627; 288680; 288733;
   288786; 288839; 288892; 288945; 288998; 289099; 289200; 289295; 289348; 289449; 289502;
   289555; 289608; 289661; 289762; 289815; 289868; 289969; 290022; 290075; 290128; 290181;
   290282; 290339; 290394; 290495; 290548; 290643; 290744; 290797; 290898; 290951; 291004;
   291105; 291158; 291217; 291270; 291329; 291382; 291435; 291536; 291589; 291642; 291695;
   291752; 291805; 291858; 291959; 292054; 292155; 292256; 292309; 292362; 292415; 292468;
   292569; 292622; 292723; 292814; 292867; 292920; 293021; 293074; 293175; 293228; 293281;
   293334; 293387; 293488; 293543; 293596; 293649; 293702; 293755; 293808; 293861; 293962;
   294015; 294068; 294121; 294174; 294275; 294328; 294381; 294434; 294487; 294540; 294593;
   294648; 294701; 294754; 294855; 294908; 294961; 295014; 295067; 295162; 295215; 295268;
   295321; 295374; 295427; 295528; 295581; 295682; 295741; 295832; 295885; 295986; 296087;
   296140; 296193; 296246; 296299; 296356; 296457; 296510; 296569; 296622; 296675; 296728;
   296829; 296882; 296935; 296988; 297089; 297142; 297195; 297296; 297349; 297402; 297455;
   297556; 297609; 297662; 297715; 297816; 297869; 297970; 298023; 298124; 298225; 298278;
   298379; 298480; 298533; 298586; 298639; 298692; 298793; 298888; 298989; 299042; 299143;
   299198; 299251; 299352; 299405; 299506; 299559; 299614; 299715; 299768; 299869; 299926;
   299979; 300032; 300127; 300228; 300281; 300338; 300429; 300530; 300583; 300678; 300731;
   300784; 300837; 300890; 300943; 301044; 301097; 301198; 301251; 301306; 301359; 301412;
   301465; 301518; 301571; 301624; 301677; 301778; 301873; 301974; 302029; 302082; 302135;
   302188; 302241; 302294; 302346; 302398; 302450; 302502; 302554; 302606; 302696; 302794;
   302892; 302944; 303034; 303086; 303138; 303190; 303288; 303386; 303440; 303492; 303544;
   303642; 303694; 303746; 303798; 303896; 303948; 304000; 304098; 304196; 304248; 304300;
   304356; 304408; 304460; 304558; 304610; 304662; 304714; 304766; 304818; 304870; 304922;
   304974; 305026; 305124; 305182; 305234; 305286; 305338; 305390; 305442; 305494; 305552;
   305604; 305656; 305708; 305806; 305896; 305948; 306000; 306052; 306150; 306202; 306254;
   306306; 306358; 306410; 306462; 306514; 306568; 306620; 306672; 306724; 306782; 306834;
   306892; 306944; 306996; 307086; 307138; 307190; 307242; 307294; 307392; 307444; 307496;
   307548; 307600; 307652; 307750; 307840; 307892; 307944; 307996; 308048; 308100; 308152;
   308204; 308256; 308308; 308360; 308458; 308510; 308562; 308616; 308668; 308720; 308772;
   308824; 308876; 308966; 309018; 309070; 309160; 309212; 309302; 309354; 309449; 309500;
   309595; 309646; 309741; 309792; 309887; 309938; 309989; 310084; 310135; 310186; 310237;
   310288; 310339; 310392; 310443; 310494; 310589; 310646; 310697; 310754; 310849; 310944;
   310995; 311090; 311185; 311236; 311331; 311382; 311433; 311484; 311535; 311630; 311681;
   311732; 311819; 311870; 311921; 311972; 312023; 312074; 312125; 312176; 312271; 312366;
   312417; 312468; 312519; 312570; 312665; 312722; 312773; 312868; 312919; 312970; 313021;
   313072; 313167; 313218; 313269; 313364; 313415; 313466; 313517; 313568; 313619; 313714;
   313809; 313860; 313911; 313962; 314013; 314108; 314165; 314260; 314355; 314406; 314501;
   314552; 314647; 314704; 314799; 314894; 314945; 315040; 315135; 315230; 315325; 315376;
   315427; 315522; 315573; 315624; 315719; 315814; 315909; 316004; 316099; 316150; 316245;
   316296; 316347; 316442; 316537; 316632; 316683; 316734; 316829; 316886; 316981; 317032;
   317083; 317178; 317273; 317330; 317425; 317476; 317571; 317624; 317719; 317814; 317909;
   318004; 318099; 318186; 318273; 318324; 318419; 318514; 318565; 318622; 318673; 318726;
   318821; 318916; 318967; 319018; 319069; 319120; 319171; 319222; 319275; 319326; 319377;
   319428; 319523; 319574; 319625; 319678; 319729; 319780; 319831; 319923; 320015; 320065;
   320157; 320249; 320341; 320391; 320483; 320575; 320667; 320759; 320851; 320901; 320951;
   321043; 321135; 321227; 321319; 321411; 321503; 321595; 321687; 321743; 321835; 321927;
   322019; 322111; 322161; 322253; 322345; 322399; 322491; 322541; 322591; 322683; 322775;
   322825; 322881; 322973; 323023; 323115; 323207; 323299; 323391; 323483; 323575; 323667;
   323717; 323809; 323901; 323993; 324049; 324141; 324233; 324325; 324417; 324509; 324601;
   324693; 324785; 324877; 324969; 325019; 325073; 325137; 325229; 325321; 325371; 325463;
   325523; 325615; 325707; 325799; 325849; 325941; 325991; 326083; 326175; 326225; 326317;
   326409; 326501; 326593; 326685; 326777; 326869; 326919; 327011; 327103; 327153; 327203;
   327295; 327387; 327437; 327529; 327621; 327713; 327805; 327897; 327989; 328081; 328173;
   328265; 328321; 328413; 328505; 328597; 328689; 328781; 328873; 328965; 329057; 329113;
   329205; 329297; 329389; 329481; 329573; 329623; 329715; 329807; 329899; 329991; 330083;
   330133; 330225; 330317; 330409; 330501; 330593; 330643; 330735; 330827; 330919; 330969;
   331061; 331113; 331205; 331297; 331389; 331439; 331531; 331623; 331715; 331807
  ].

Definition ts_small_parse_table_map_4000 : list Z :=
  [
   331899; 331991; 332047; 332139; 332231; 332323; 332373; 332465; 332557; 332649; 332699;
   332791; 332883; 332975; 333067; 333159; 333251; 333343; 333435; 333527; 333619; 333711;
   333803; 333895; 333987; 334079; 334171; 334263; 334355; 334447; 334497; 334589; 334681;
   334731; 334823; 334915; 335007; 335099; 335191; 335283; 335333; 335383; 335475; 335567;
   335659; 335751; 335843; 335893; 335985; 336035; 336127; 336219; 336311; 336403; 336495;
   336587; 336679; 336771; 336863; 336955; 337047; 337139; 337231; 337323; 337387; 337437;
   337529; 337621; 337671; 337763; 337855; 337947; 337997; 338089; 338181; 338273; 338323;
   338415; 338507; 338599; 338691; 338783; 338875; 338967; 339019; 339111; 339163; 339255;
   339347; 339439; 339531; 339623; 339675; 339767; 339823; 339915; 340007; 340099; 340191;
   340283; 340375; 340467; 340559; 340651; 340743; 340835; 340927; 341019; 341111; 341203;
   341295; 341387; 341479; 341529; 341621; 341671; 341763; 341855; 341947; 342039; 342131;
   342223; 342315; 342407; 342499; 342591; 342651; 342743; 342795; 342851; 342943; 343035;
   343127; 343219; 343311; 343403; 343495; 343587; 343679; 343771; 343863; 343955; 344047;
   344139; 344231; 344323; 344415; 344507; 344599; 344691; 344783; 344875; 344967; 345059;
   345151; 345243; 345335; 345391; 345483; 345575; 345667; 345759; 345851; 345943; 346035;
   346127; 346219; 346311; 346403; 346495; 346587; 346679; 346771; 346863; 346955; 347047;
   347139; 347231; 347323; 347395; 347487; 347579; 347671; 347763; 347855; 347947; 348039;
   348089; 348145; 348237; 348329; 348421; 348477; 348569; 348661; 348753; 348845; 348937;
   349029; 349121; 349213; 349305; 349355; 349405; 349497; 349589; 349681; 349773; 349829;
   349885; 349977; 350069; 350161; 350253; 350303; 350395; 350445; 350537; 350629; 350721;
   350813; 350905; 350997; 351089; 351181; 351273; 351365; 351457; 351549; 351598; 351647;
   351696; 351745; 351794; 351843; 351932; 351987; 352036; 352085; 352140; 352193; 352242;
   352295; 352344; 352393; 352456; 352519; 352578; 352627; 352676; 352725; 352814; 352865;
   352920; 352969; 353028; 353083; 353170; 353219; 353306; 353361; 353412; 353463; 353518;
   353567; 353618; 353667; 353716; 353765; 353814; 353869; 353920; 353971; 354058; 354107;
   354156; 354205; 354292; 354341; 354412; 354461; 354510; 354560; 354608; 354658; 354706;
   354754; 354814; 354862; 354910; 354958; 355012; 355060; 355110; 355196; 355244; 355302;
   355362; 355410; 355488; 355548; 355596; 355644; 355730; 355784; 355832; 355880; 355928;
   355976; 356054; 356108; 356156; 356204; 356282; 356330; 356378; 356432; 356490; 356540;
   356588; 356638; 356706; 356756; 356808; 356856; 356934; 356982; 357030; 357088; 357136;
   357190; 357258; 357310; 357358; 357406; 357466; 357514; 357564; 357622; 357700; 357754;
   357832; 357886; 357934; 357982; 358034; 358112; 358164; 358214; 358261; 358326; 358391;
   358438; 358485; 358532; 358579; 358626; 358673; 358720; 358767; 358814; 358861; 358908;
   358955; 359002; 359049; 359096; 359143; 359190; 359237; 359284; 359331; 359378; 359425;
   359472; 359521; 359568; 359615; 359664; 359713; 359770; 359817; 359868; 359919; 359980;
   360037; 360088; 360137; 360198; 360267; 360320; 360369; 360422; 360471; 360520; 360577;
   360628; 360679; 360740; 360797; 360846; 360907; 360976; 361029; 361082; 361135; 361182;
   361229; 361282; 361331; 361378; 361431; 361484; 361531; 361578; 361625; 361672; 361719;
   361766; 361813; 361860; 361907; 361954; 362001; 362048; 362095; 362142; 362189; 362236;
   362283; 362330; 362377; 362424; 362471; 362518; 362571; 362624; 362671; 362718; 362765;
   362814; 362883; 362932; 362985; 363038; 363091; 363144; 363191; 363260; 363313; 363366;
   363435; 363492; 363543; 363594; 363653; 363710; 363769; 363836; 363889; 363942; 363995;
   364048; 364117; 364166; 364219; 364281; 364341; 364409; 364455; 364501; 364547; 364593;
   364639; 364685; 364731; 364777; 364823; 364869; 364915; 364961; 365007; 365053; 365099;
   365145; 365191; 365237; 365283; 365329; 365375; 365421; 365467; 365513; 365559; 365605;
   365651; 365697; 365749; 365795; 365847; 365899; 365955; 366007; 366059; 366105; 366151;
   366199; 366245; 366293; 366339; 366385; 366433; 366481; 366537; 366583; 366633; 366683;
   366741; 366797; 366845; 366903; 366969; 367021; 367067; 367113; 367171; 367223; 367269;
   367321; 367367; 367413; 367459; 367505; 367551; 367597; 367643; 367689; 367735; 367783;
   367829; 367881; 367927; 367979; 368031; 368083; 368129; 368181; 368233; 368285; 368333;
   368381; 368429; 368477; 368527; 368577; 368637; 368693; 368745; 368793; 368853; 368921;
   368969; 369015; 369067; 369115; 369167; 369215; 369263; 369319; 369387; 369439; 369491;
   369543; 369593; 369643; 369703; 369767; 369831; 369879; 369941; 369989; 370037; 370085;
   370141; 370203; 370253; 370303; 370363; 370419; 370467; 370527; 370595; 370651; 370697;
   370749; 370795; 370856; 370903; 370948; 370993; 371044; 371089; 371134; 371179; 371224;
   371279; 371324; 371369; 371414; 371459; 371504; 371549; 371594; 371641; 371688; 371743;
   371792; 371841; 371888; 371935; 371994; 372051; 372096; 372163; 372218; 372265; 372312;
   372361; 372408; 372453; 372510; 372557; 372622; 372681; 372742; 372793; 372844; 372905;
   372956; 373019; 373064; 373111; 373158; 373213; 373262; 373329; 373390; 373437; 373486;
   373535; 373592; 373647; 373694; 373751; 373816; 373861; 373908; 373955; 374000; 374047;
   374092; 374153; 374204; 374251; 374298; 374349; 374396; 374451; 374496; 374541; 374586;
   374631; 374678; 374723; 374770; 374815; 374866; 374929; 374974; 375019; 375064; 375109;
   375154; 375201; 375250; 375299; 375358; 375403; 375458; 375505; 375550; 375595; 375642;
   375687; 375732; 375791; 375836; 375881; 375926; 375971; 376016; 376061; 376110; 376159;
   376218; 376263; 376318; 376385; 376430; 376481; 376532; 376577; 376622; 376673; 376720;
   376767; 376812; 376873; 376940; 376991; 377046; 377093; 377144; 377189; 377238; 377287;
   377346; 377401; 377446; 377491; 377542; 377589; 377640; 377691; 377736; 377787; 377832;
   377877; 377922; 377967; 378012; 378057; 378102; 378161; 378222; 378283; 378328; 378387;
   378432; 378477; 378528; 378573; 378624; 378671; 378716; 378761; 378806; 378851; 378896;
   378947; 378992; 379037; 379082; 379127; 379172; 379217; 379268; 379313; 379358; 379403;
   379448; 379493; 379538; 379583; 379628; 379683; 379728; 379773; 379818; 379863; 379908;
   379953; 379998; 380043; 380088; 380133; 380178; 380223; 380268; 380313; 380364; 380409;
   380454; 380499; 380544; 380589; 380634; 380679; 380730; 380775; 380820; 380875; 380919;
   380965; 381009; 381053; 381099; 381145; 381199; 381247; 381295; 381351; 381395; 381449;
   381495; 381551; 381615; 381659; 381703; 381747; 381791; 381835; 381879; 381923; 381967;
   382011; 382055; 382099; 382143; 382187; 382231; 382275; 382319; 382363; 382407; 382451;
   382495; 382539; 382583; 382627; 382671; 382715; 382759; 382803; 382847; 382891; 382935;
   382979; 383029; 383073; 383117; 383161; 383205; 383249; 383293; 383339; 383385; 383429;
   383473; 383517; 383561; 383605; 383649; 383693; 383737; 383781; 383827; 383887; 383931;
   383975; 384019; 384063; 384107; 384151; 384195; 384239; 384283; 384327; 384371; 384415;
   384475; 384519; 384579; 384639; 384683; 384727; 384771; 384815; 384859; 384919; 384963;
   385007; 385051; 385111; 385155; 385199; 385243; 385287; 385331; 385375; 385419; 385463;
   385507; 385551; 385595; 385639; 385683; 385727; 385771; 385815; 385859; 385903; 385947;
   385991; 386035; 386079; 386123; 386167; 386211; 386255; 386299; 386343; 386405; 386449;
   386493; 386537; 386581; 386625; 386669; 386713; 386757; 386801; 386845; 386889; 386933;
   386977; 387021; 387069; 387117; 387175; 387229; 387279; 387323; 387369; 387413; 387457;
   387501; 387545; 387589; 387633; 387677; 387721; 387765; 387811; 387855; 387899; 387943;
   387987; 388031; 388075; 388119; 388163; 388207; 388251; 388309; 388353; 388397; 388443;
   388487; 388531; 388575; 388619; 388663; 388707; 388751; 388795; 388839; 388905; 388949;
   388993; 389059; 389125; 389169; 389213; 389257; 389301; 389345; 389391; 389457; 389501;
   389545; 389611; 389655; 389715; 389781; 389843; 389889; 389935; 389981; 390035
  ].

Definition ts_small_parse_table_map_5000 : list Z :=
  [
   390093; 390141; 390189; 390247; 390301; 390347; 390407; 390461; 390519; 390585; 390651;
   390701; 390745; 390807; 390851; 390901; 390963; 391007; 391057; 391101; 391145; 391188;
   391231; 391294; 391343; 391408; 391473; 391538; 391591; 391634; 391677; 391722; 391765;
   391808; 391851; 391914; 391957; 392004; 392051; 392094; 392149; 392192; 392235; 392278;
   392321; 392374; 392417; 392470; 392513; 392556; 392599; 392644; 392687; 392736; 392791;
   392836; 392879; 392944; 392987; 393030; 393075; 393118; 393161; 393206; 393259; 393302;
   393345; 393388; 393431; 393474; 393517; 393560; 393605; 393648; 393691; 393756; 393799;
   393842; 393903; 393964; 394007; 394050; 394093; 394136; 394179; 394226; 394269; 394316;
   394379; 394422; 394477; 394520; 394585; 394638; 394681; 394726; 394781; 394824; 394867;
   394910; 394953; 394996; 395057; 395118; 395161; 395206; 395271; 395314; 395357; 395400;
   395443; 395486; 395529; 395572; 395615; 395658; 395701; 395746; 395789; 395832; 395875;
   395940; 395983; 396028; 396071; 396114; 396169; 396212; 396255; 396298; 396341; 396406;
   396449; 396514; 396557; 396600; 396643; 396696; 396739; 396782; 396837; 396880; 396923;
   396966; 397009; 397052; 397107; 397162; 397205; 397260; 397305; 397348; 397395; 397442;
   397497; 397552; 397607; 397660; 397725; 397768; 397823; 397884; 397927; 397988; 398033;
   398096; 398159; 398223; 398265; 398319; 398373; 398415; 398469; 398511; 398553; 398607;
   398653; 398699; 398753; 398805; 398859; 398903; 398945; 398987; 399029; 399083; 399145;
   399187; 399247; 399291; 399355; 399403; 399445; 399489; 399543; 399585; 399629; 399671;
   399715; 399767; 399809; 399851; 399893; 399937; 399991; 400051; 400097; 400143; 400197;
   400261; 400313; 400377; 400431; 400485; 400545; 400589; 400631; 400685; 400747; 400807;
   400871; 400935; 400977; 401021; 401081; 401143; 401207; 401271; 401331; 401375; 401421;
   401485; 401537; 401579; 401627; 401691; 401755; 401797; 401843; 401907; 401971; 402035;
   402099; 402163; 402227; 402279; 402323; 402367; 402419; 402461; 402525; 402567; 402609;
   402655; 402701; 402755; 402807; 402851; 402905; 402967; 403011; 403075; 403139; 403181;
   403225; 403267; 403309; 403351; 403393; 403435; 403495; 403555; 403599; 403643; 403707;
   403759; 403801; 403843; 403885; 403943; 404001; 404047; 404093; 404147; 404199; 404243;
   404307; 404349; 404403; 404445; 404507; 404549; 404593; 404637; 404679; 404721; 404769;
   404823; 404867; 404909; 404973; 405017; 405059; 405123; 405183; 405247; 405307; 405367;
   405413; 405459; 405513; 405565; 405613; 405657; 405701; 405745; 405797; 405841; 405883;
   405925; 405971; 406017; 406071; 406123; 406167; 406221; 406275; 406317; 406379; 406421;
   406463; 406505; 406547; 406589; 406633; 406677; 406741; 406793; 406835; 406877; 406923;
   406969; 407023; 407075; 407121; 407165; 407219; 407261; 407303; 407365; 407413; 407455;
   407503; 407555; 407619; 407681; 407745; 407787; 407831; 407873; 407915; 407959; 408001;
   408043; 408085; 408127; 408169; 408211; 408253; 408295; 408359; 408401; 408443; 408485;
   408527; 408569; 408629; 408671; 408713; 408767; 408827; 408869; 408933; 408975; 409017;
   409059; 409119; 409161; 409203; 409251; 409295; 409339; 409391; 409433; 409475; 409529;
   409571; 409613; 409659; 409701; 409763; 409809; 409863; 409915; 409957; 410001; 410043;
   410107; 410149; 410193; 410237; 410291; 410343; 410405; 410447; 410511; 410552; 410593;
   410636; 410677; 410720; 410775; 410816; 410859; 410900; 410941; 410982; 411023; 411078;
   411123; 411164; 411219; 411260; 411315; 411356; 411411; 411452; 411507; 411548; 411589;
   411630; 411673; 411714; 411757; 411798; 411839; 411880; 411923; 411964; 412015; 412070;
   412111; 412172; 412213; 412254; 412295; 412350; 412391; 412432; 412473; 412514; 412567;
   412628; 412669; 412726; 412767; 412808; 412863; 412904; 412945; 412994; 413035; 413076;
   413117; 413158; 413199; 413240; 413281; 413322; 413377; 413418; 413459; 413500; 413541;
   413582; 413639; 413694; 413735; 413776; 413833; 413876; 413919; 413974; 414015; 414066;
   414113; 414168; 414209; 414250; 414305; 414346; 414387; 414428; 414485; 414530; 414585;
   414630; 414683; 414734; 414775; 414818; 414859; 414900; 414941; 414982; 415035; 415076;
   415117; 415158; 415199; 415240; 415285; 415330; 415391; 415448; 415491; 415532; 415575;
   415616; 415667; 415710; 415767; 415814; 415857; 415904; 415945; 415992; 416033; 416074;
   416115; 416176; 416227; 416268; 416309; 416356; 416401; 416444; 416487; 416528; 416569;
   416614; 416655; 416706; 416761; 416802; 416843; 416884; 416925; 416966; 417007; 417060;
   417101; 417144; 417185; 417234; 417281; 417330; 417371; 417412; 417453; 417494; 417535;
   417576; 417617; 417658; 417703; 417748; 417801; 417842; 417903; 417944; 417985; 418026;
   418067; 418112; 418153; 418194; 418235; 418276; 418317; 418358; 418413; 418454; 418505;
   418546; 418587; 418628; 418669; 418710; 418751; 418792; 418843; 418884; 418939; 418982;
   419023; 419068; 419111; 419172; 419223; 419272; 419317; 419362; 419411; 419452; 419505;
   419546; 419587; 419628; 419669; 419710; 419751; 419804; 419845; 419898; 419939; 419980;
   420021; 420062; 420103; 420144; 420195; 420250; 420305; 420366; 420419; 420460; 420503;
   420560; 420601; 420652; 420701; 420742; 420783; 420832; 420873; 420914; 420975; 421016;
   421057; 421098; 421159; 421200; 421241; 421282; 421323; 421364; 421419; 421460; 421501;
   421550; 421603; 421644; 421699; 421740; 421783; 421836; 421877; 421918; 421973; 422014;
   422055; 422096; 422151; 422212; 422259; 422302; 422357; 422398; 422439; 422484; 422539;
   422582; 422625; 422668; 422719; 422780; 422821; 422872; 422913; 422960; 423015; 423076;
   423117; 423160; 423215; 423258; 423299; 423364; 423405; 423448; 423491; 423536; 423581;
   423634; 423685; 423736; 423779; 423820; 423875; 423930; 423971; 424028; 424075; 424116;
   424165; 424218; 424273; 424326; 424367; 424428; 424469; 424510; 424551; 424592; 424633;
   424674; 424715; 424758; 424813; 424868; 424909; 424950; 424991; 425036; 425093; 425138;
   425191; 425242; 425297; 425338; 425379; 425420; 425463; 425524; 425565; 425618; 425659;
   425710; 425771; 425812; 425869; 425910; 425961; 426002; 426043; 426084; 426125; 426168;
   426223; 426264; 426305; 426346; 426387; 426428; 426469; 426510; 426551; 426612; 426653;
   426694; 426735; 426776; 426817; 426858; 426899; 426940; 426981; 427022; 427077; 427118;
   427159; 427200; 427247; 427290; 427331; 427390; 427431; 427472; 427513; 427570; 427617;
   427658; 427699; 427740; 427795; 427836; 427877; 427936; 427977; 428018; 428059; 428100;
   428141; 428184; 428225; 428266; 428307; 428368; 428409; 428450; 428515; 428560; 428613;
   428664; 428717; 428778; 428837; 428878; 428933; 428980; 429021; 429062; 429103; 429146;
   429189; 429240; 429285; 429328; 429371; 429412; 429457; 429502; 429555; 429614; 429665;
   429706; 429749; 429808; 429861; 429904; 429945; 429987; 430027; 430067; 430107; 430147;
   430201; 430255; 430309; 430375; 430429; 430495; 430561; 430627; 430681; 430721; 430761;
   430815; 430869; 430909; 430949; 430989; 431043; 431083; 431137; 431203; 431257; 431323;
   431389; 431455; 431509; 431549; 431603; 431657; 431723; 431777; 431843; 431909; 431975;
   432029; 432071; 432125; 432179; 432245; 432285; 432327; 432381; 432447; 432513; 432567;
   432617; 432659; 432713; 432755; 432809; 432869; 432923; 432989; 433043; 433097; 433151;
   433205; 433251; 433305; 433359; 433399; 433441; 433479; 433539; 433599; 433639; 433679;
   433719; 433779; 433819; 433861; 433903; 433943; 433985; 434025; 434065; 434115; 434159;
   434203; 434255; 434305; 434345; 434387; 434427; 434479; 434519; 434559; 434619; 434659;
   434703; 434747; 434787; 434839; 434879; 434929; 434983; 435023; 435063; 435105; 435147;
   435193; 435243; 435285; 435325; 435365; 435405; 435445; 435485; 435525; 435565; 435605;
   435645; 435685; 435725; 435765; 435807; 435847; 435887; 435927; 435967; 436007; 436047;
   436087; 436127; 436167; 436207; 436247; 436287; 436327; 436367; 436407; 436447; 436491;
   436531; 436571; 436611; 436655; 436695; 436735; 436775; 436815; 436855; 436895; 436935;
   436975; 437027; 437067; 437107; 437147; 437187; 437227; 437267; 437307; 437347
  ].

Definition ts_small_parse_table_map_6000 : list Z :=
  [
   437387; 437427; 437467; 437509; 437551; 437591; 437641; 437681; 437731; 437773; 437813;
   437853; 437897; 437941; 437993; 438043; 438085; 438125; 438177; 438229; 438269; 438329;
   438389; 438429; 438469; 438509; 438549; 438589; 438629; 438671; 438711; 438751; 438791;
   438837; 438877; 438917; 438957; 438997; 439037; 439089; 439129; 439171; 439221; 439269;
   439319; 439375; 439425; 439465; 439509; 439553; 439605; 439655; 439707; 439767; 439807;
   439847; 439887; 439927; 439967; 440007; 440049; 440087; 440127; 440167; 440207; 440247;
   440287; 440329; 440369; 440429; 440469; 440509; 440549; 440589; 440629; 440671; 440711;
   440753; 440793; 440833; 440873; 440913; 440953; 440995; 441037; 441079; 441129; 441169;
   441209; 441251; 441291; 441331; 441371; 441415; 441459; 441511; 441561; 441603; 441643;
   441685; 441737; 441777; 441817; 441857; 441899; 441959; 442001; 442043; 442083; 442133;
   442173; 442233; 442273; 442313; 442379; 442423; 442467; 442519; 442585; 442635; 442677;
   442717; 442783; 442835; 442895; 442935; 442975; 443015; 443055; 443095; 443135; 443175;
   443215; 443255; 443295; 443335; 443375; 443415; 443455; 443495; 443535; 443575; 443615;
   443655; 443695; 443735; 443775; 443821; 443861; 443901; 443941; 443981; 444021; 444061;
   444101; 444141; 444181; 444221; 444263; 444309; 444349; 444389; 444429; 444471; 444511;
   444557; 444597; 444637; 444683; 444723; 444763; 444803; 444843; 444883; 444923; 444963;
   445003; 445043; 445085; 445127; 445177; 445237; 445277; 445317; 445359; 445399; 445439;
   445479; 445519; 445579; 445623; 445667; 445719; 445769; 445809; 445851; 445911; 445971;
   446023; 446083; 446143; 446183; 446243; 446303; 446363; 446423; 446483; 446543; 446603;
   446663; 446723; 446783; 446843; 446903; 446963; 447003; 447043; 447103; 447163; 447203;
   447263; 447323; 447363; 447423; 447483; 447543; 447603; 447643; 447703; 447763; 447823;
   447863; 447903; 447943; 448003; 448063; 448103; 448143; 448203; 448243; 448283; 448343;
   448383; 448423; 448463; 448503; 448543; 448603; 448643; 448683; 448723; 448783; 448823;
   448863; 448903; 448943; 448983; 449023; 449063; 449103; 449143; 449183; 449223; 449263;
   449303; 449342; 449381; 449432; 449471; 449510; 449549; 449588; 449643; 449702; 449741;
   449780; 449819; 449858; 449897; 449936; 449975; 450014; 450053; 450092; 450131; 450170;
   450209; 450248; 450287; 450326; 450365; 450416; 450467; 450518; 450569; 450620; 450671;
   450722; 450761; 450812; 450851; 450902; 450941; 450980; 451019; 451058; 451097; 451136;
   451175; 451214; 451253; 451292; 451351; 451390; 451439; 451498; 451537; 451576; 451625;
   451664; 451703; 451742; 451781; 451820; 451871; 451910; 451961; 452012; 452051; 452090;
   452129; 452168; 452227; 452266; 452317; 452368; 452419; 452470; 452521; 452572; 452611;
   452650; 452707; 452758; 452797; 452836; 452887; 452926; 452965; 453004; 453043; 453082;
   453121; 453172; 453211; 453250; 453289; 453328; 453367; 453406; 453465; 453516; 453555;
   453594; 453645; 453684; 453723; 453762; 453801; 453840; 453879; 453918; 453957; 453996;
   454035; 454074; 454113; 454152; 454191; 454230; 454269; 454308; 454367; 454406; 454445;
   454484; 454523; 454562; 454613; 454652; 454691; 454742; 454781; 454820; 454859; 454910;
   454949; 454990; 455041; 455080; 455131; 455170; 455209; 455248; 455299; 455338; 455389;
   455440; 455491; 455542; 455581; 455632; 455683; 455722; 455761; 455800; 455839; 455890;
   455929; 455968; 456027; 456066; 456105; 456144; 456183; 456242; 456281; 456320; 456359;
   456398; 456437; 456476; 456517; 456556; 456595; 456654; 456693; 456732; 456771; 456828;
   456885; 456936; 456987; 457038; 457089; 457140; 457191; 457246; 457297; 457348; 457387;
   457426; 457465; 457504; 457543; 457600; 457639; 457678; 457717; 457756; 457795; 457834;
   457873; 457912; 457953; 458008; 458047; 458086; 458125; 458180; 458223; 458262; 458301;
   458340; 458379; 458422; 458461; 458500; 458539; 458590; 458629; 458668; 458727; 458766;
   458815; 458854; 458893; 458938; 458979; 459018; 459057; 459096; 459135; 459174; 459213;
   459252; 459291; 459350; 459389; 459428; 459485; 459524; 459563; 459602; 459653; 459704;
   459743; 459782; 459821; 459860; 459911; 459962; 460001; 460052; 460091; 460130; 460187;
   460244; 460283; 460322; 460373; 460412; 460451; 460490; 460529; 460568; 460607; 460646;
   460697; 460748; 460805; 460844; 460901; 460940; 460999; 461058; 461097; 461136; 461187;
   461226; 461265; 461304; 461359; 461398; 461437; 461476; 461515; 461570; 461629; 461680;
   461719; 461778; 461817; 461858; 461899; 461950; 461989; 462048; 462087; 462128; 462175;
   462214; 462269; 462308; 462347; 462386; 462425; 462464; 462523; 462562; 462601; 462640;
   462679; 462718; 462757; 462796; 462835; 462894; 462937; 462976; 463015; 463058; 463101;
   463152; 463191; 463240; 463279; 463324; 463365; 463404; 463443; 463482; 463521; 463560;
   463599; 463638; 463677; 463716; 463755; 463794; 463833; 463872; 463931; 463970; 464025;
   464064; 464123; 464162; 464201; 464240; 464279; 464320; 464371; 464410; 464449; 464488;
   464527; 464586; 464625; 464664; 464715; 464776; 464815; 464854; 464905; 464964; 465022;
   465080; 465136; 465174; 465232; 465290; 465348; 465402; 465458; 465516; 465556; 465610;
   465668; 465724; 465780; 465838; 465894; 465952; 466008; 466066; 466122; 466162; 466216;
   466266; 466322; 466380; 466438; 466496; 466534; 466584; 466642; 466680; 466738; 466796;
   466846; 466902; 466958; 467014; 467072; 467128; 467186; 467236; 467290; 467348; 467406;
   467464; 467522; 467580; 467636; 467694; 467752; 467810; 467866; 467924; 467978; 468036;
   468094; 468150; 468206; 468264; 468322; 468362; 468402; 468460; 468518; 468576; 468630;
   468680; 468738; 468788; 468846; 468904; 468962; 469012; 469070; 469128; 469186; 469244;
   469302; 469360; 469418; 469472; 469530; 469588; 469644; 469702; 469760; 469818; 469876;
   469932; 469990; 470048; 470106; 470164; 470222; 470280; 470338; 470396; 470454; 470512;
   470570; 470628; 470666; 470724; 470780; 470838; 470896; 470934; 470992; 471050; 471108;
   471164; 471214; 471250; 471290; 471348; 471406; 471464; 471520; 471576; 471632; 471690;
   471748; 471806; 471864; 471914; 471972; 472030; 472080; 472138; 472188; 472246; 472294;
   472350; 472408; 472466; 472524; 472562; 472612; 472670; 472728; 472766; 472822; 472860;
   472898; 472936; 472994; 473032; 473090; 473128; 473186; 473242; 473280; 473338; 473396;
   473434; 473492; 473550; 473608; 473666; 473716; 473774; 473828; 473884; 473942; 474000;
   474058; 474096; 474150; 474208; 474246; 474302; 474360; 474418; 474476; 474534; 474572;
   474630; 474684; 474742; 474800; 474858; 474916; 474954; 474992; 475050; 475104; 475162;
   475218; 475276; 475334; 475392; 475430; 475472; 475530; 475588; 475642; 475700; 475758;
   475816; 475864; 475920; 475978; 476034; 476090; 476144; 476202; 476260; 476318; 476376;
   476414; 476468; 476526; 476564; 476622; 476678; 476716; 476774; 476820; 476878; 476936;
   476974; 477032; 477086; 477144; 477194; 477252; 477290; 477340; 477398; 477456; 477494;
   477552; 477610; 477668; 477726; 477782; 477837; 477892; 477947; 478002; 478057; 478112;
   478147; 478200; 478255; 478310; 478365; 478420; 478475; 478530; 478583; 478618; 478673;
   478728; 478783; 478838; 478893; 478948; 479003; 479058; 479113; 479168; 479223; 479278;
   479313; 479368; 479423; 479458; 479513; 479568; 479623; 479678; 479733; 479788; 479843;
   479898; 479953; 480008; 480063; 480118; 480173; 480228; 480283; 480318; 480373; 480428;
   480483; 480538; 480593; 480648; 480703; 480756; 480811; 480866; 480921; 480976; 481031;
   481086; 481141; 481196; 481231; 481284; 481339; 481392; 481445; 481500; 481553; 481608;
   481661; 481714; 481769; 481824; 481859; 481914; 481969; 482024; 482079; 482134; 482187;
   482242; 482297; 482352; 482407; 482462; 482517; 482556; 482611; 482666; 482719; 482774;
   482829; 482884; 482939; 482994; 483049; 483088; 483143; 483198; 483237; 483292; 483347;
   483402; 483457; 483512; 483567; 483620; 483675; 483730; 483785; 483840; 483895; 483930;
   483985; 484038; 484093; 484148; 484203; 484258; 484313; 484348; 484403; 484458; 484513;
   484548; 484603; 484658; 484713; 484768; 484823; 484878; 484933; 484988; 485043
  ].

Definition ts_small_parse_table_map_7000 : list Z :=
  [
   485098; 485133; 485188; 485243; 485296; 485351; 485406; 485461; 485516; 485571; 485626;
   485681; 485736; 485791; 485846; 485899; 485954; 486009; 486064; 486119; 486174; 486211;
   486266; 486321; 486376; 486431; 486484; 486539; 486594; 486649; 486704; 486759; 486814;
   486869; 486922; 486977; 487030; 487085; 487140; 487195; 487250; 487303; 487358; 487413;
   487468; 487523; 487578; 487633; 487688; 487743; 487798; 487853; 487908; 487963; 488018;
   488073; 488128; 488181; 488236; 488275; 488330; 488385; 488420; 488475; 488530; 488585;
   488640; 488692; 488744; 488796; 488848; 488900; 488952; 489004; 489056; 489092; 489126;
   489160; 489212; 489264; 489316; 489368; 489420; 489472; 489524; 489576; 489628; 489680;
   489732; 489766; 489818; 489870; 489922; 489974; 490026; 490078; 490130; 490182; 490234;
   490286; 490338; 490390; 490442; 490494; 490546; 490598; 490650; 490702; 490754; 490806;
   490858; 490910; 490962; 491014; 491066; 491118; 491170; 491222; 491274; 491326; 491378;
   491430; 491482; 491534; 491586; 491638; 491674; 491726; 491778; 491814; 491866; 491918;
   491970; 492022; 492074; 492126; 492178; 492230; 492282; 492334; 492368; 492420; 492472;
   492506; 492558; 492610; 492644; 492696; 492748; 492800; 492852; 492904; 492956; 493008;
   493060; 493112; 493164; 493216; 493268; 493320; 493372; 493424; 493476; 493528; 493580;
   493632; 493684; 493718; 493770; 493822; 493874; 493926; 493978; 494030; 494082; 494134;
   494168; 494220; 494272; 494324; 494376; 494428; 494480; 494532; 494584; 494636; 494688;
   494740; 494792; 494844; 494896; 494948; 495000; 495052; 495104; 495156; 495208; 495260;
   495294; 495346; 495398; 495450; 495502; 495554; 495606; 495658; 495710; 495762; 495814;
   495866; 495918; 495954; 496006; 496058; 496110; 496162; 496214; 496266; 496318; 496370;
   496422; 496474; 496526; 496578; 496630; 496682; 496734; 496786; 496838; 496890; 496926;
   496978; 497030; 497082; 497134; 497186; 497238; 497290; 497342; 497394; 497446; 497498;
   497550; 497602; 497654; 497706; 497758; 497810; 497862; 497914; 497966; 498018; 498070;
   498122; 498174; 498226; 498278; 498330; 498382; 498434; 498486; 498538; 498590; 498642;
   498694; 498746; 498798; 498850; 498902; 498954; 499006; 499058; 499110; 499162; 499214;
   499266; 499318; 499370; 499422; 499474; 499526; 499578; 499630; 499682; 499734; 499786;
   499838; 499874; 499926; 499978; 500030; 500082; 500134; 500186; 500238; 500290; 500342;
   500376; 500428; 500464; 500516; 500568; 500620; 500672; 500724; 500776; 500828; 500880;
   500932; 500968; 501020; 501056; 501092; 501144; 501196; 501248; 501300; 501352; 501404;
   501456; 501508; 501560; 501612; 501664; 501716; 501768; 501820; 501872; 501924; 501976;
   502028; 502080; 502132; 502184; 502236; 502288; 502324; 502360; 502412; 502464; 502516;
   502568; 502620; 502672; 502724; 502776; 502828; 502862; 502914; 502968; 503020; 503072;
   503124; 503176; 503228; 503280; 503332; 503384; 503436; 503488; 503540; 503592; 503644;
   503678; 503730; 503782; 503834; 503886; 503938; 503990; 504026; 504078; 504130; 504182;
   504234; 504286; 504338; 504390; 504442; 504494; 504546; 504598; 504650; 504702; 504754;
   504806; 504858; 504910; 504962; 504996; 505048; 505100; 505152; 505204; 505256; 505308;
   505360; 505412; 505464; 505516; 505552; 505604; 505656; 505708; 505760; 505812; 505864;
   505916; 505968; 506020; 506072; 506124; 506176; 506228; 506280; 506332; 506384; 506436;
   506488; 506540; 506592; 506644; 506696; 506748; 506800; 506852; 506904; 506956; 507008;
   507060; 507112; 507164; 507216; 507268; 507320; 507372; 507424; 507476; 507528; 507580;
   507632; 507684; 507736; 507788; 507840; 507892; 507944; 507996; 508048; 508100; 508152;
   508204; 508256; 508308; 508360; 508412; 508464; 508516; 508568; 508620; 508672; 508724;
   508776; 508828; 508880; 508932; 508984; 509036; 509088; 509140; 509192; 509244; 509296;
   509348; 509400; 509452; 509504; 509556; 509608; 509660; 509712; 509764; 509816; 509868;
   509902; 509954; 509988; 510040; 510092; 510126; 510175; 510208; 510241; 510274; 510307;
   510340; 510373; 510422; 510471; 510520; 510553; 510586; 510619; 510652; 510685; 510734;
   510783; 510816; 510865; 510898; 510931; 510980; 511029; 511078; 511127; 511176; 511225;
   511274; 511315; 511364; 511413; 511462; 511511; 511544; 511577; 511610; 511643; 511676;
   511725; 511760; 511809; 511842; 511891; 511932; 511981; 512030; 512079; 512112; 512145;
   512178; 512227; 512276; 512309; 512342; 512391; 512440; 512473; 512522; 512571; 512620;
   512669; 512702; 512751; 512784; 512833; 512882; 512931; 512964; 513013; 513046; 513095;
   513144; 513193; 513226; 513275; 513308; 513357; 513390; 513423; 513472; 513505; 513540;
   513589; 513638; 513687; 513720; 513753; 513786; 513835; 513884; 513933; 513982; 514031;
   514080; 514113; 514146; 514179; 514228; 514261; 514310; 514348; 514380; 514418; 514450;
   514486; 514522; 514560; 514598; 514630; 514663; 514702; 514739; 514774; 514809; 514842;
   514877; 514909; 514939; 514977; 515007; 515037; 515069; 515101; 515131; 515163; 515193;
   515223; 515253; 515287; 515321; 515351; 515381; 515413; 515443; 515473; 515513; 515543;
   515573; 515603; 515633; 515665; 515695; 515725; 515755; 515787; 515817; 515849; 515879;
   515911; 515941; 515975; 516005; 516037; 516067; 516096; 516125; 516154; 516183; 516212;
   516241; 516270; 516299; 516328; 516357; 516386; 516415; 516444; 516473; 516502; 516531;
   516560; 516589; 516618; 516647; 516676; 516705; 516734; 516763; 516792; 516821; 516850;
   516879; 516908; 516937; 516966; 516995; 517024; 517053; 517082; 517111; 517140; 517169;
   517198; 517227; 517254; 517283; 517312; 517341; 517370; 517399; 517428; 517457; 517486;
   517515; 517544; 517573; 517602; 517631; 517660; 517689; 517718; 517747; 517776; 517805;
   517834; 517863; 517892; 517921; 517952; 517981; 518010; 518039; 518068; 518101; 518130;
   518159; 518188; 518217; 518246; 518275; 518304; 518333; 518362; 518391; 518423; 518449;
   518481; 518507; 518531; 518559; 518583; 518625; 518667; 518709; 518735; 518761; 518789;
   518831; 518855; 518887; 518929; 518971; 519013; 519041; 519065; 519095; 519119; 519153;
   519177; 519207; 519249; 519275; 519299; 519329; 519371; 519413; 519455; 519487; 519529;
   519561; 519592; 519617; 519642; 519673; 519698; 519725; 519750; 519785; 519810; 519841;
   519864; 519887; 519912; 519947; 519982; 520013; 520042; 520077; 520104; 520135; 520168;
   520205; 520228; 520253; 520279; 520303; 520333; 520355; 520383; 520405; 520429; 520461;
   520489; 520517; 520541; 520565; 520587; 520615; 520639; 520663; 520685; 520715; 520749;
   520773; 520818; 520841; 520886; 520931; 520954; 520975; 521004; 521027; 521052; 521073;
   521096; 521117; 521162; 521191; 521212; 521233; 521278; 521323; 521348; 521371; 521398;
   521421; 521452; 521497; 521520; 521545; 521574; 521605; 521634; 521663; 521702; 521747;
   521770; 521799; 521844; 521864; 521904; 521924; 521952; 521976; 522016; 522040; 522060;
   522080; 522104; 522124; 522164; 522184; 522212; 522234; 522256; 522276; 522296; 522330;
   522364; 522400; 522428; 522456; 522476; 522496; 522518; 522552; 522592; 522614; 522636;
   522670; 522692; 522714; 522734; 522756; 522796; 522818; 522846; 522868; 522896; 522936;
   522970; 523010; 523044; 523078; 523098; 523126; 523154; 523194; 523222; 523242; 523262;
   523302; 523342; 523364; 523398; 523426; 523448; 523488; 523528; 523548; 523587; 523608;
   523639; 523660; 523687; 523710; 523747; 523786; 523809; 523840; 523871; 523892; 523923;
   523956; 523977; 523996; 524027; 524058; 524089; 524108; 524147; 524166; 524185; 524208;
   524239; 524270; 524301; 524322; 524343; 524382; 524403; 524428; 524459; 524490; 524529;
   524556; 524587; 524606; 524645; 524668; 524695; 524722; 524749; 524780; 524805; 524824;
   524843; 524874; 524893; 524930; 524969; 524990; 525009; 525048; 525067; 525098; 525119;
   525158; 525189; 525210; 525237; 525258; 525281; 525300; 525331; 525368; 525389; 525426;
   525457; 525480; 525511; 525532; 525555; 525583; 525611; 525647; 525675; 525695; 525723;
   525751; 525779; 525807; 525835; 525855; 525883; 525903; 525931; 525959; 525979; 526007;
   526035; 526055; 526083; 526111; 526143; 526171; 526199; 526217; 526245; 526281
  ].

Definition ts_small_parse_table_map_8000 : list Z :=
  [
   526309; 526337; 526363; 526391; 526419; 526447; 526475; 526503; 526531; 526551; 526579;
   526605; 526633; 526665; 526693; 526721; 526749; 526777; 526805; 526835; 526863; 526893;
   526919; 526947; 526975; 527011; 527047; 527075; 527103; 527131; 527159; 527191; 527223;
   527251; 527279; 527297; 527323; 527351; 527379; 527407; 527435; 527463; 527491; 527519;
   527547; 527575; 527603; 527631; 527659; 527689; 527707; 527735; 527763; 527795; 527813;
   527849; 527877; 527907; 527935; 527971; 527999; 528035; 528063; 528091; 528119; 528147;
   528175; 528203; 528231; 528259; 528291; 528319; 528347; 528375; 528403; 528435; 528463;
   528481; 528509; 528545; 528573; 528605; 528637; 528665; 528693; 528721; 528749; 528767;
   528795; 528823; 528859; 528887; 528915; 528943; 528971; 528999; 529027; 529055; 529083;
   529111; 529139; 529167; 529195; 529223; 529259; 529287; 529305; 529333; 529361; 529389;
   529409; 529437; 529465; 529485; 529521; 529547; 529575; 529603; 529631; 529659; 529689;
   529717; 529745; 529773; 529801; 529837; 529865; 529893; 529921; 529949; 529979; 529997;
   530025; 530053; 530081; 530109; 530145; 530173; 530201; 530237; 530265; 530297; 530325;
   530353; 530379; 530407; 530443; 530461; 530489; 530517; 530545; 530573; 530601; 530629;
   530657; 530693; 530721; 530757; 530785; 530813; 530841; 530869; 530905; 530937; 530965;
   530993; 531021; 531049; 531081; 531109; 531137; 531167; 531195; 531223; 531259; 531287;
   531323; 531359; 531395; 531431; 531459; 531495; 531531; 531561; 531597; 531623; 531651;
   531687; 531723; 531751; 531779; 531807; 531835; 531871; 531889; 531925; 531953; 531981;
   532017; 532045; 532073; 532101; 532129; 532157; 532185; 532221; 532257; 532275; 532303;
   532339; 532367; 532393; 532421; 532457; 532485; 532513; 532541; 532571; 532599; 532627;
   532655; 532683; 532711; 532739; 532757; 532785; 532803; 532839; 532875; 532903; 532931;
   532967; 532995; 533023; 533051; 533087; 533123; 533151; 533179; 533215; 533241; 533269;
   533287; 533315; 533337; 533355; 533383; 533415; 533443; 533465; 533493; 533521; 533557;
   533585; 533617; 533653; 533681; 533717; 533753; 533785; 533813; 533831; 533851; 533879;
   533915; 533951; 533979; 534015; 534033; 534055; 534083; 534111; 534139; 534175; 534203;
   534231; 534259; 534295; 534313; 534331; 534359; 534387; 534415; 534433; 534461; 534489;
   534517; 534545; 534563; 534591; 534627; 534663; 534683; 534711; 534739; 534767; 534803;
   534831; 534851; 534887; 534907; 534935; 534963; 534991; 535019; 535047; 535075; 535111;
   535131; 535151; 535179; 535196; 535231; 535248; 535273; 535298; 535315; 535340; 535369;
   535394; 535419; 535444; 535469; 535492; 535517; 535542; 535577; 535602; 535619; 535644;
   535663; 535688; 535723; 535740; 535765; 535788; 535805; 535822; 535847; 535872; 535903;
   535938; 535955; 535990; 536021; 536038; 536055; 536072; 536093; 536112; 536131; 536150;
   536177; 536206; 536237; 536254; 536275; 536310; 536345; 536362; 536381; 536404; 536429;
   536464; 536489; 536514; 536549; 536566; 536583; 536608; 536643; 536668; 536685; 536714;
   536739; 536756; 536781; 536806; 536825; 536848; 536883; 536912; 536933; 536950; 536985;
   537020; 537045; 537072; 537091; 537126; 537151; 537176; 537195; 537220; 537239; 537256;
   537273; 537290; 537315; 537340; 537369; 537394; 537411; 537440; 537457; 537478; 537503;
   537520; 537537; 537562; 537587; 537612; 537629; 537654; 537679; 537708; 537733; 537758;
   537783; 537804; 537839; 537864; 537889; 537912; 537935; 537960; 537995; 538020; 538039;
   538064; 538089; 538124; 538153; 538178; 538213; 538238; 538263; 538286; 538311; 538330;
   538355; 538390; 538415; 538450; 538475; 538492; 538509; 538544; 538561; 538578; 538597;
   538622; 538639; 538656; 538691; 538708; 538725; 538750; 538771; 538796; 538813; 538830;
   538847; 538872; 538897; 538916; 538933; 538956; 538991; 539016; 539033; 539068; 539085;
   539108; 539131; 539153; 539175; 539205; 539221; 539241; 539267; 539289; 539311; 539335;
   539357; 539379; 539399; 539415; 539441; 539463; 539485; 539507; 539529; 539555; 539577;
   539599; 539621; 539643; 539669; 539691; 539707; 539729; 539751; 539773; 539795; 539817;
   539839; 539861; 539887; 539909; 539931; 539953; 539975; 539993; 540013; 540035; 540057;
   540079; 540105; 540131; 540153; 540175; 540197; 540219; 540241; 540263; 540285; 540307;
   540329; 540351; 540373; 540395; 540417; 540439; 540461; 540483; 540505; 540527; 540549;
   540569; 540587; 540609; 540635; 540657; 540679; 540701; 540723; 540753; 540775; 540795;
   540817; 540839; 540861; 540883; 540905; 540925; 540947; 540971; 540987; 541005; 541027;
   541049; 541075; 541097; 541119; 541141; 541167; 541189; 541211; 541233; 541255; 541273;
   541295; 541317; 541339; 541355; 541377; 541399; 541425; 541441; 541463; 541485; 541511;
   541529; 541551; 541573; 541595; 541617; 541633; 541655; 541677; 541699; 541721; 541737;
   541759; 541781; 541803; 541825; 541843; 541867; 541893; 541915; 541937; 541959; 541974;
   541995; 542016; 542037; 542054; 542083; 542104; 542125; 542146; 542163; 542186; 542207;
   542228; 542251; 542270; 542291; 542312; 542333; 542354; 542375; 542396; 542417; 542438;
   542459; 542480; 542501; 542516; 542531; 542552; 542573; 542594; 542615; 542630; 542645;
   542660; 542681; 542700; 542721; 542742; 542757; 542772; 542793; 542814; 542835; 542856;
   542873; 542894; 542915; 542938; 542959; 542988; 543009; 543030; 543051; 543072; 543093;
   543110; 543127; 543156; 543177; 543198; 543219; 543240; 543257; 543282; 543303; 543324;
   543341; 543362; 543383; 543408; 543429; 543450; 543475; 543496; 543517; 543538; 543559;
   543580; 543601; 543622; 543639; 543660; 543677; 543698; 543719; 543736; 543757; 543774;
   543791; 543812; 543835; 543852; 543881; 543902; 543923; 543942; 543963; 543980; 543997;
   544014; 544031; 544052; 544073; 544090; 544111; 544140; 544157; 544178; 544195; 544212;
   544233; 544250; 544267; 544288; 544305; 544322; 544343; 544360; 544377; 544394; 544411;
   544432; 544453; 544470; 544491; 544508; 544523; 544542; 544559; 544588; 544609; 544630;
   544659; 544682; 544711; 544732; 544753; 544774; 544791; 544820; 544841; 544858; 544881;
   544898; 544915; 544936; 544957; 544974; 544995; 545012; 545029; 545052; 545073; 545090;
   545111; 545128; 545143; 545160; 545181; 545200; 545219; 545234; 545255; 545276; 545293;
   545310; 545327; 545348; 545369; 545384; 545405; 545426; 545449; 545474; 545497; 545518;
   545539; 545568; 545589; 545608; 545625; 545642; 545658; 545672; 545686; 545702; 545728;
   545750; 545776; 545790; 545810; 545824; 545840; 545858; 545874; 545888; 545912; 545926;
   545952; 545968; 545982; 545996; 546016; 546034; 546050; 546068; 546084; 546102; 546128;
   546148; 546170; 546190; 546206; 546222; 546238; 546254; 546280; 546300; 546314; 546330;
   546356; 546374; 546398; 546412; 546428; 546454; 546472; 546488; 546502; 546516; 546532;
   546548; 546564; 546578; 546592; 546608; 546622; 546638; 546654; 546672; 546690; 546704;
   546718; 546734; 546754; 546770; 546784; 546800; 546816; 546832; 546856; 546872; 546888;
   546904; 546928; 546942; 546958; 546976; 546990; 547006; 547022; 547038; 547054; 547070;
   547088; 547106; 547122; 547138; 547154; 547170; 547186; 547202; 547218; 547240; 547254;
   547270; 547286; 547302; 547318; 547334; 547350; 547366; 547392; 547408; 547422; 547438;
   547454; 547470; 547486; 547502; 547518; 547534; 547550; 547566; 547582; 547598; 547614;
   547630; 547646; 547662; 547680; 547694; 547710; 547726; 547744; 547760; 547776; 547792;
   547808; 547830; 547846; 547862; 547878; 547894; 547908; 547924; 547940; 547956; 547976;
   547992; 548014; 548027; 548048; 548071; 548094; 548117; 548138; 548155; 548178; 548195;
   548216; 548237; 548258; 548275; 548290; 548307; 548330; 548351; 548372; 548389; 548410;
   548431; 548454; 548475; 548492; 548513; 548534; 548547; 548562; 548579; 548600; 548621;
   548644; 548667; 548684; 548705; 548726; 548743; 548766; 548783; 548804; 548825; 548838;
   548859; 548876; 548893; 548914; 548935; 548956; 548979; 548996; 549017; 549038; 549053;
   549076; 549093; 549114; 549135; 549158; 549175; 549196; 549217; 549240; 549255; 549272;
   549293; 549314; 549331; 549352; 549373; 549396; 549419; 549442; 549465; 549482
  ].

Definition ts_small_parse_table_map_9000 : list Z :=
  [
   549503; 549524; 549537; 549550; 549571; 549588; 549609; 549630; 549647; 549668; 549689;
   549706; 549727; 549748; 549771; 549794; 549817; 549834; 549855; 549876; 549889; 549906;
   549927; 549940; 549957; 549978; 549999; 550012; 550025; 550042; 550063; 550086; 550107;
   550124; 550145; 550166; 550183; 550204; 550225; 550248; 550271; 550294; 550311; 550328;
   550349; 550370; 550391; 550414; 550427; 550444; 550465; 550486; 550501; 550524; 550541;
   550558; 550579; 550600; 550621; 550636; 550657; 550674; 550695; 550718; 550739; 550752;
   550769; 550790; 550807; 550828; 550851; 550864; 550887; 550904; 550919; 550940; 550961;
   550984; 551007; 551020; 551043; 551056; 551073; 551094; 551117; 551138; 551155; 551176;
   551197; 551220; 551235; 551248; 551263; 551280; 551303; 551326; 551349; 551372; 551389;
   551410; 551427; 551448; 551469; 551490; 551513; 551536; 551557; 551580; 551603; 551626;
   551649; 551672; 551695; 551708; 551731; 551754; 551777; 551800; 551817; 551838; 551859;
   551880; 551903; 551926; 551947; 551960; 551981; 551994; 552017; 552034; 552055; 552076;
   552089; 552106; 552127; 552150; 552173; 552194; 552207; 552220; 552237; 552254; 552277;
   552300; 552321; 552342; 552365; 552378; 552401; 552414; 552437; 552460; 552475; 552492;
   552515; 552536; 552549; 552566; 552589; 552610; 552633; 552656; 552679; 552692; 552715;
   552738; 552759; 552776; 552799; 552820; 552833; 552854; 552871; 552884; 552901; 552924;
   552947; 552960; 552983; 553000; 553015; 553038; 553055; 553078; 553095; 553112; 553129;
   553146; 553167; 553190; 553213; 553230; 553251; 553268; 553285; 553306; 553327; 553348;
   553371; 553394; 553407; 553420; 553433; 553454; 553477; 553500; 553515; 553538; 553561;
   553578; 553599; 553614; 553637; 553654; 553669; 553690; 553707; 553730; 553747; 553768;
   553781; 553796; 553813; 553830; 553851; 553864; 553885; 553908; 553931; 553952; 553967;
   553982; 554003; 554018; 554033; 554050; 554065; 554086; 554101; 554124; 554147; 554170;
   554191; 554214; 554231; 554252; 554275; 554296; 554317; 554340; 554355; 554368; 554389;
   554406; 554427; 554444; 554465; 554480; 554497; 554520; 554541; 554558; 554575; 554588;
   554605; 554628; 554651; 554672; 554685; 554700; 554717; 554740; 554757; 554778; 554795;
   554812; 554833; 554850; 554867; 554884; 554905; 554928; 554945; 554966; 554987; 555008;
   555031; 555048; 555061; 555078; 555099; 555122; 555134; 555148; 555162; 555176; 555190;
   555204; 555218; 555236; 555254; 555268; 555286; 555304; 555316; 555334; 555352; 555364;
   555382; 555400; 555418; 555436; 555450; 555468; 555486; 555500; 555516; 555530; 555546;
   555564; 555580; 555594; 555608; 555622; 555636; 555650; 555668; 555686; 555698; 555712;
   555726; 555740; 555754; 555766; 555778; 555790; 555808; 555826; 555844; 555862; 555876;
   555890; 555906; 555920; 555938; 555956; 555974; 555992; 556006; 556024; 556036; 556056;
   556070; 556084; 556096; 556108; 556126; 556144; 556158; 556176; 556190; 556208; 556226;
   556244; 556258; 556272; 556290; 556304; 556318; 556336; 556350; 556364; 556378; 556392;
   556410; 556428; 556446; 556460; 556474; 556488; 556502; 556516; 556532; 556546; 556560;
   556574; 556588; 556604; 556616; 556630; 556642; 556656; 556670; 556684; 556698; 556712;
   556724; 556738; 556758; 556772; 556790; 556808; 556826; 556840; 556852; 556864; 556880;
   556894; 556908; 556922; 556936; 556948; 556960; 556976; 556990; 557008; 557022; 557036;
   557054; 557068; 557082; 557096; 557110; 557128; 557146; 557164; 557182; 557196; 557210;
   557226; 557244; 557262; 557280; 557292; 557304; 557318; 557332; 557344; 557358; 557376;
   557390; 557404; 557422; 557434; 557450; 557468; 557486; 557504; 557522; 557540; 557554;
   557568; 557586; 557604; 557622; 557640; 557658; 557672; 557684; 557698; 557716; 557728;
   557740; 557758; 557770; 557788; 557802; 557816; 557834; 557852; 557866; 557880; 557894;
   557912; 557930; 557948; 557962; 557974; 557994; 558008; 558022; 558040; 558058; 558076;
   558090; 558102; 558116; 558134; 558148; 558164; 558182; 558196; 558214; 558228; 558246;
   558258; 558272; 558290; 558304; 558322; 558340; 558358; 558376; 558390; 558408; 558426;
   558440; 558452; 558470; 558482; 558500; 558518; 558536; 558554; 558566; 558584; 558598;
   558616; 558628; 558642; 558660; 558678; 558696; 558710; 558722; 558740; 558754; 558768;
   558782; 558800; 558814; 558832; 558844; 558862; 558874; 558886; 558900; 558916; 558930;
   558948; 558962; 558980; 558994; 559008; 559022; 559038; 559050; 559068; 559080; 559094;
   559108; 559126; 559140; 559154; 559168; 559180; 559198; 559212; 559230; 559244; 559262;
   559274; 559288; 559306; 559326; 559340; 559358; 559376; 559388; 559402; 559414; 559432;
   559450; 559468; 559486; 559504; 559518; 559536; 559554; 559566; 559584; 559596; 559614;
   559626; 559644; 559662; 559674; 559688; 559700; 559718; 559730; 559748; 559766; 559780;
   559798; 559816; 559832; 559850; 559862; 559876; 559888; 559902; 559914; 559928; 559946;
   559960; 559974; 559992; 560004; 560018; 560030; 560044; 560058; 560070; 560084; 560104;
   560116; 560130; 560142; 560154; 560166; 560180; 560192; 560206; 560226; 560242; 560254;
   560268; 560286; 560304; 560316; 560330; 560344; 560358; 560376; 560392; 560404; 560422;
   560436; 560454; 560468; 560486; 560500; 560514; 560528; 560542; 560558; 560572; 560588;
   560602; 560618; 560632; 560646; 560664; 560678; 560692; 560706; 560720; 560734; 560748;
   560762; 560776; 560794; 560806; 560820; 560834; 560846; 560866; 560880; 560892; 560906;
   560918; 560936; 560950; 560964; 560978; 560992; 561006; 561024; 561038; 561052; 561068;
   561082; 561096; 561110; 561128; 561142; 561156; 561170; 561188; 561206; 561224; 561238;
   561252; 561270; 561286; 561304; 561322; 561333; 561348; 561363; 561374; 561391; 561404;
   561417; 561428; 561443; 561456; 561469; 561482; 561493; 561506; 561519; 561534; 561549;
   561560; 561575; 561586; 561601; 561614; 561627; 561638; 561651; 561664; 561677; 561692;
   561703; 561716; 561733; 561744; 561759; 561774; 561789; 561806; 561819; 561832; 561843;
   561856; 561869; 561884; 561899; 561912; 561923; 561934; 561945; 561958; 561971; 561988;
   561999; 562012; 562027; 562042; 562057; 562070; 562085; 562100; 562111; 562124; 562141;
   562154; 562167; 562184; 562201; 562218; 562233; 562250; 562263; 562278; 562293; 562308;
   562321; 562334; 562349; 562360; 562375; 562390; 562407; 562418; 562429; 562444; 562457;
   562472; 562487; 562500; 562513; 562526; 562539; 562550; 562563; 562576; 562589; 562604;
   562617; 562632; 562643; 562658; 562671; 562686; 562701; 562718; 562731; 562744; 562755;
   562766; 562777; 562792; 562807; 562818; 562833; 562844; 562857; 562870; 562885; 562898;
   562911; 562926; 562941; 562952; 562963; 562978; 562993; 563006; 563017; 563028; 563039;
   563052; 563063; 563074; 563089; 563102; 563115; 563130; 563145; 563156; 563169; 563184;
   563199; 563212; 563225; 563238; 563251; 563266; 563283; 563296; 563309; 563324; 563337;
   563352; 563367; 563378; 563389; 563402; 563417; 563430; 563445; 563458; 563471; 563484;
   563495; 563510; 563523; 563536; 563553; 563564; 563575; 563588; 563601; 563616; 563631;
   563644; 563657; 563670; 563685; 563698; 563711; 563724; 563735; 563748; 563761; 563774;
   563789; 563804; 563817; 563830; 563845; 563862; 563875; 563890; 563901; 563914; 563925;
   563938; 563951; 563966; 563977; 563988; 564003; 564014; 564027; 564038; 564049; 564062;
   564075; 564088; 564101; 564114; 564127; 564142; 564155; 564170; 564183; 564194; 564211;
   564226; 564243; 564260; 564275; 564288; 564303; 564314; 564329; 564344; 564359; 564374;
   564385; 564400; 564415; 564428; 564441; 564452; 564463; 564476; 564487; 564500; 564515;
   564528; 564543; 564556; 564567; 564582; 564595; 564610; 564627; 564642; 564653; 564668;
   564679; 564690; 564705; 564720; 564731; 564742; 564757; 564772; 564787; 564798; 564811;
   564822; 564837; 564852; 564865; 564878; 564891; 564902; 564915; 564928; 564939; 564950;
   564963; 564974; 564989; 565004; 565017; 565030; 565043; 565056; 565069; 565084; 565095;
   565108; 565121; 565134; 565145; 565158; 565171; 565182; 565195; 565208; 565223; 565238;
   565255; 565272; 565287; 565300; 565311; 565322; 565335; 565348; 565361; 565372
  ].

Definition ts_small_parse_table_map_10000 : list Z :=
  [
   565383; 565398; 565411; 565422; 565435; 565450; 565461; 565474; 565489; 565500; 565517;
   565530; 565545; 565560; 565571; 565584; 565599; 565612; 565627; 565642; 565657; 565670;
   565683; 565698; 565709; 565726; 565743; 565754; 565769; 565784; 565797; 565810; 565825;
   565838; 565853; 565868; 565885; 565900; 565913; 565926; 565937; 565954; 565967; 565982;
   565997; 566008; 566021; 566034; 566045; 566056; 566067; 566082; 566093; 566108; 566119;
   566132; 566145; 566156; 566169; 566184; 566199; 566212; 566227; 566240; 566251; 566264;
   566277; 566292; 566305; 566316; 566331; 566344; 566355; 566368; 566379; 566392; 566403;
   566414; 566427; 566438; 566453; 566470; 566485; 566500; 566513; 566524; 566535; 566546;
   566559; 566574; 566589; 566602; 566617; 566632; 566645; 566656; 566673; 566686; 566699;
   566714; 566729; 566740; 566753; 566768; 566783; 566796; 566809; 566824; 566839; 566850;
   566863; 566874; 566885; 566900; 566913; 566928; 566941; 566954; 566967; 566982; 566995;
   567008; 567019; 567032; 567043; 567054; 567069; 567084; 567097; 567110; 567123; 567136;
   567151; 567166; 567177; 567192; 567203; 567218; 567229; 567240; 567253; 567266; 567281;
   567292; 567303; 567316; 567327; 567340; 567351; 567362; 567375; 567392; 567405; 567418;
   567431; 567444; 567457; 567470; 567485; 567498; 567509; 567524; 567539; 567552; 567567;
   567582; 567597; 567608; 567621; 567636; 567647; 567660; 567673; 567686; 567701; 567716;
   567729; 567740; 567755; 567766; 567781; 567792; 567803; 567814; 567829; 567840; 567855;
   567868; 567881; 567892; 567903; 567918; 567931; 567944; 567955; 567968; 567981; 567992;
   568005; 568018; 568029; 568042; 568057; 568074; 568085; 568100; 568111; 568128; 568139;
   568152; 568165; 568176; 568189; 568204; 568217; 568230; 568243; 568256; 568267; 568278;
   568289; 568302; 568313; 568330; 568345; 568360; 568371; 568382; 568395; 568407; 568419;
   568431; 568441; 568453; 568465; 568477; 568489; 568501; 568511; 568521; 568531; 568543;
   568553; 568563; 568575; 568587; 568599; 568609; 568619; 568631; 568643; 568655; 568667;
   568679; 568691; 568703; 568715; 568725; 568735; 568747; 568757; 568769; 568781; 568793;
   568805; 568817; 568827; 568837; 568847; 568857; 568869; 568879; 568891; 568901; 568913;
   568923; 568935; 568945; 568957; 568969; 568981; 568993; 569005; 569017; 569029; 569039;
   569051; 569063; 569075; 569087; 569099; 569111; 569121; 569133; 569145; 569157; 569169;
   569181; 569193; 569205; 569215; 569227; 569239; 569249; 569261; 569273; 569283; 569295;
   569307; 569319; 569331; 569343; 569355; 569367; 569379; 569391; 569403; 569413; 569425;
   569437; 569449; 569461; 569473; 569485; 569497; 569507; 569519; 569531; 569543; 569555;
   569567; 569579; 569591; 569603; 569615; 569627; 569639; 569651; 569663; 569675; 569687;
   569699; 569711; 569723; 569735; 569747; 569759; 569771; 569781; 569793; 569805; 569817;
   569829; 569839; 569851; 569861; 569873; 569885; 569897; 569909; 569921; 569933; 569943;
   569955; 569967; 569977; 569989; 570001; 570013; 570025; 570037; 570049; 570061; 570073;
   570085; 570097; 570109; 570121; 570133; 570143; 570155; 570167; 570179; 570189; 570199;
   570211; 570223; 570235; 570245; 570257; 570267; 570279; 570291; 570303; 570315; 570325;
   570337; 570349; 570359; 570371; 570383; 570395; 570407; 570419; 570431; 570443; 570455;
   570467; 570479; 570491; 570503; 570515; 570527; 570537; 570549; 570561; 570571; 570583;
   570595; 570607; 570619; 570629; 570641; 570653; 570665; 570677; 570689; 570701; 570711;
   570723; 570735; 570747; 570759; 570771; 570783; 570795; 570807; 570817; 570827; 570837;
   570847; 570859; 570871; 570883; 570895; 570905; 570917; 570929; 570939; 570951; 570963;
   570975; 570987; 570997; 571009; 571021; 571033; 571045; 571057; 571069; 571081; 571093;
   571105; 571115; 571127; 571137; 571147; 571159; 571171; 571183; 571193; 571205; 571217;
   571229; 571241; 571253; 571265; 571277; 571287; 571299; 571311; 571323; 571333; 571343;
   571355; 571367; 571379; 571391; 571401; 571413; 571423; 571435; 571447; 571459; 571469;
   571481; 571493; 571503; 571515; 571527; 571539; 571551; 571563; 571573; 571585; 571597;
   571609; 571621; 571633; 571645; 571657; 571667; 571679; 571691; 571703; 571715; 571727;
   571739; 571751; 571761; 571773; 571785; 571797; 571809; 571821; 571831; 571843; 571855;
   571865; 571877; 571889; 571901; 571913; 571923; 571935; 571947; 571959; 571971; 571981;
   571991; 572003; 572015; 572025; 572037; 572049; 572061; 572073; 572085; 572097; 572109;
   572119; 572131; 572143; 572155; 572167; 572179; 572189; 572199; 572211; 572221; 572233;
   572245; 572257; 572267; 572279; 572291; 572301; 572313; 572325; 572337; 572349; 572361;
   572373; 572385; 572397; 572409; 572421; 572433; 572445; 572457; 572469; 572481; 572493;
   572505; 572515; 572527; 572539; 572551; 572563; 572575; 572587; 572597; 572609; 572621;
   572631; 572643; 572655; 572667; 572679; 572691; 572703; 572715; 572727; 572739; 572751;
   572763; 572775; 572787; 572799; 572809; 572819; 572829; 572841; 572853; 572865; 572877;
   572889; 572901; 572913; 572923; 572933; 572945; 572957; 572969; 572981; 572993; 573005;
   573015; 573027; 573039; 573049; 573061; 573073; 573085; 573095; 573107; 573119; 573131;
   573141; 573153; 573165; 573177; 573189; 573201; 573213; 573225; 573235; 573247; 573259;
   573269; 573281; 573293; 573305; 573317; 573329; 573341; 573353; 573365; 573377; 573389;
   573401; 573413; 573425; 573437; 573449; 573461; 573473; 573485; 573497; 573509; 573521;
   573533; 573545; 573557; 573569; 573581; 573591; 573603; 573615; 573627; 573639; 573651;
   573663; 573675; 573687; 573699; 573711; 573723; 573735; 573745; 573757; 573769; 573781;
   573793; 573803; 573815; 573827; 573839; 573851; 573863; 573875; 573887; 573899; 573911;
   573923; 573935; 573947; 573957; 573967; 573979; 573991; 574001; 574013; 574025; 574037;
   574047; 574059; 574071; 574083; 574095; 574107; 574119; 574131; 574141; 574153; 574165;
   574177; 574189; 574201; 574213; 574225; 574237; 574249; 574261; 574273; 574285; 574297;
   574309; 574321; 574333; 574345; 574357; 574369; 574381; 574393; 574405; 574417; 574429;
   574441; 574451; 574463; 574475; 574487; 574499; 574511; 574523; 574535; 574545; 574555;
   574565; 574577; 574587; 574599; 574609; 574621; 574633; 574645; 574657; 574669; 574681;
   574693; 574705; 574717; 574729; 574741; 574751; 574763; 574775; 574787; 574799; 574811;
   574823; 574835; 574847; 574859; 574871; 574883; 574893; 574905; 574917; 574929; 574941;
   574953; 574965; 574977; 574989; 575001; 575013; 575025; 575037; 575049; 575061; 575073;
   575085; 575097; 575109; 575121; 575133; 575145; 575157; 575167; 575179; 575191; 575201;
   575213; 575223; 575235; 575247; 575259; 575271; 575283; 575295; 575307; 575319; 575331;
   575341; 575353; 575365; 575377; 575389; 575401; 575413; 575425; 575437; 575449; 575461;
   575473; 575485; 575497; 575509; 575521; 575533; 575545; 575557; 575569; 575581; 575591;
   575603; 575615; 575625; 575635; 575645; 575657; 575669; 575681; 575691; 575703; 575715;
   575727; 575739; 575751; 575761; 575773; 575783; 575795; 575807; 575819; 575831; 575843;
   575857; 575869; 575881; 575893; 575905; 575917; 575929; 575939; 575951; 575963; 575975;
   575987; 575999; 576011; 576023; 576035; 576045; 576057; 576069; 576079; 576091; 576103;
   576115; 576127; 576139; 576151; 576163; 576175; 576187; 576199; 576211; 576223; 576235;
   576247; 576257; 576267; 576279; 576289; 576303; 576315; 576327; 576339; 576351; 576363;
   576375; 576387; 576397; 576409; 576421; 576433; 576445; 576459; 576471; 576481; 576493;
   576505; 576517; 576529; 576541; 576553; 576563; 576575; 576587; 576597; 576609; 576621;
   576633; 576645; 576657; 576669; 576681; 576691; 576701; 576713; 576725; 576737; 576749;
   576761; 576773; 576785; 576797; 576807; 576819; 576831; 576843; 576855; 576865; 576877;
   576889; 576901; 576911; 576923; 576935; 576945; 576957; 576969; 576981; 576993; 577005;
   577017; 577029; 577041; 577053; 577065; 577077; 577089; 577099; 577111; 577123; 577135;
   577147; 577159; 577171; 577183; 577195; 577207; 577219; 577231; 577243; 577255; 577267;
   577279; 577291; 577303; 577313; 577325; 577337; 577349; 577361; 577373; 577385
  ].

Definition ts_small_parse_table_map_11000 : list Z :=
  [
   577397; 577409; 577419; 577429; 577441; 577453; 577463; 577473; 577485; 577497; 577509;
   577521; 577533; 577545; 577557; 577569; 577579; 577591; 577603; 577613; 577625; 577637;
   577649; 577661; 577671; 577683; 577695; 577707; 577719; 577731; 577743; 577755; 577765;
   577777; 577789; 577799; 577811; 577823; 577835; 577847; 577859; 577871; 577881; 577893;
   577905; 577917; 577929; 577941; 577953; 577963; 577975; 577987; 577997; 578009; 578021;
   578033; 578045; 578055; 578065; 578077; 578089; 578101; 578111; 578123; 578135; 578147;
   578159; 578171; 578183; 578195; 578207; 578219; 578231; 578243; 578255; 578267; 578279;
   578291; 578303; 578315; 578327; 578339; 578351; 578363; 578375; 578387; 578399; 578411;
   578421; 578433; 578445; 578457; 578469; 578481; 578493; 578505; 578515; 578527; 578539;
   578551; 578563; 578575; 578587; 578599; 578611; 578623; 578635; 578647; 578659; 578669;
   578681; 578693; 578703; 578715; 578727; 578739; 578751; 578763; 578773; 578785; 578797;
   578809; 578819; 578829; 578841; 578853; 578865; 578875; 578885; 578897; 578909; 578919;
   578931; 578943; 578955; 578967; 578977; 578989; 579001; 579011; 579023; 579033; 579045;
   579057; 579069; 579081; 579093; 579103; 579115; 579127; 579139; 579151; 579163; 579173;
   579185; 579197; 579209; 579221; 579231; 579243; 579255; 579267; 579277; 579289; 579299;
   579311; 579321; 579333; 579343; 579355; 579367; 579379; 579391; 579401; 579413; 579425;
   579437; 579449; 579459; 579471; 579481; 579493; 579503; 579515; 579525; 579535; 579547;
   579559; 579571; 579581; 579593; 579603; 579615; 579625; 579637; 579649; 579659; 579671;
   579683; 579693; 579703; 579715; 579727; 579739; 579749; 579761; 579773; 579783; 579793;
   579805; 579817; 579829; 579839; 579851; 579863; 579875; 579887; 579899; 579911; 579923;
   579935; 579945; 579955; 579967; 579979; 579991; 580003; 580015; 580027; 580039; 580051;
   580061; 580073; 580085; 580097; 580109; 580119; 580131; 580141; 580153; 580165; 580175;
   580187; 580197; 580207; 580219; 580229; 580241; 580251; 580263; 580273; 580285; 580295;
   580307; 580319; 580331; 580343; 580355; 580367; 580377; 580389; 580399; 580411; 580423;
   580433; 580443; 580455; 580465; 580477; 580489; 580499; 580511; 580523; 580535; 580547;
   580559; 580571; 580583; 580593; 580603; 580615; 580625; 580637; 580647; 580659; 580669;
   580679; 580691; 580703; 580713; 580723; 580733; 580745; 580755; 580765; 580777; 580787;
   580799; 580809; 580819; 580831; 580841; 580853; 580865; 580877; 580889; 580899; 580911;
   580921; 580931; 580943; 580953; 580965; 580977; 580989; 580999; 581009; 581021; 581033;
   581047; 581057; 581069; 581081; 581093; 581103; 581115; 581127; 581139; 581151; 581161;
   581171; 581181; 581193; 581205; 581215; 581225; 581235; 581245; 581255; 581267; 581277;
   581289; 581299; 581309; 581321; 581331; 581343; 581353; 581365; 581375; 581385; 581395;
   581407; 581417; 581427; 581437; 581447; 581457; 581469; 581479; 581488; 581497; 581506;
   581515; 581524; 581533; 581542; 581551; 581560; 581569; 581578; 581587; 581596; 581605;
   581614; 581623; 581632; 581641; 581650; 581659; 581668; 581677; 581686; 581695; 581704;
   581713; 581722; 581731; 581740; 581749; 581758; 581767; 581776; 581785; 581794; 581803;
   581812; 581821; 581830; 581839; 581848; 581857; 581866; 581875; 581884; 581893; 581902;
   581911; 581920; 581929; 581938; 581947; 581956; 581965; 581974; 581983; 581992; 582001;
   582010; 582019; 582028; 582037; 582046; 582055; 582064; 582073; 582082; 582091; 582100;
   582109; 582118; 582127; 582136; 582145; 582154; 582163; 582172; 582181; 582190; 582199;
   582208; 582217; 582226; 582235; 582244; 582253; 582262; 582271; 582280; 582289; 582298;
   582307; 582316; 582325; 582334; 582343; 582352; 582361; 582370; 582379; 582388; 582397;
   582406; 582415; 582424; 582433; 582442; 582451; 582460; 582469; 582478; 582487; 582496;
   582505; 582514; 582523; 582532; 582541; 582550; 582559; 582568; 582577; 582586; 582595;
   582604; 582613; 582622; 582631; 582640; 582649; 582660; 582669; 582678; 582687; 582696;
   582705; 582714; 582723; 582732; 582741; 582750; 582759; 582768; 582777; 582786; 582795;
   582804; 582813; 582822; 582831; 582840; 582849; 582858; 582867; 582876; 582887; 582896;
   582905; 582914; 582923; 582932; 582941; 582950; 582959; 582968; 582977; 582986; 582995;
   583004; 583013; 583022; 583031; 583040; 583049; 583058; 583067; 583076; 583085; 583094;
   583103; 583112; 583121; 583130; 583139; 583148; 583157; 583166; 583175; 583184; 583193;
   583202; 583211; 583220; 583229; 583238; 583247; 583256; 583265; 583274; 583283; 583292;
   583301; 583310; 583319; 583328; 583337; 583346; 583355; 583364; 583373; 583382; 583391;
   583400; 583409; 583418; 583427; 583436; 583445; 583454; 583463; 583472; 583481; 583490;
   583499; 583508; 583517; 583526; 583535; 583544; 583553; 583562; 583571; 583580; 583589;
   583598; 583607; 583616; 583625; 583634; 583643; 583652; 583661; 583670; 583679; 583688;
   583697; 583706; 583715; 583724; 583733; 583742; 583751; 583760; 583769; 583778; 583787;
   583796; 583805; 583814; 583823; 583832; 583841; 583852; 583861; 583870; 583879; 583888;
   583897; 583906; 583915; 583924; 583933; 583942; 583951; 583960; 583969; 583978; 583987;
   583996; 584005; 584014; 584023; 584032; 584041; 584050; 584059; 584068; 584077; 584086;
   584095; 584104; 584113; 584122; 584131; 584140; 584149; 584158; 584167; 584176; 584185;
   584194; 584203; 584212; 584221; 584230; 584239; 584248; 584257; 584266; 584275; 584284;
   584293; 584302; 584311; 584320; 584329; 584338; 584347; 584356; 584365; 584374; 584383;
   584392; 584401; 584410; 584419; 584428; 584437; 584446; 584455; 584464; 584473; 584482;
   584491; 584500; 584509; 584518; 584527; 584536; 584545; 584554; 584563; 584572; 584581;
   584590; 584599; 584608; 584617; 584626; 584635; 584644; 584653; 584662; 584671; 584680;
   584689; 584698; 584707; 584716; 584725; 584734; 584743; 584752; 584761; 584770; 584779;
   584788; 584797; 584806; 584815; 584824; 584833; 584842; 584851; 584860; 584869; 584878;
   584887; 584896; 584905; 584914; 584923; 584934; 584943; 584952; 584961; 584970; 584979;
   584988; 584997; 585006; 585015; 585024; 585033; 585042; 585051; 585060; 585069; 585078;
   585087; 585096; 585105; 585114; 585123; 585132; 585141; 585150; 585159; 585168; 585177;
   585186; 585195; 585204; 585213; 585222; 585231; 585240; 585249; 585258; 585267; 585276;
   585285; 585294; 585303; 585312; 585321; 585330; 585339; 585348; 585357; 585366; 585375;
   585384; 585393; 585402; 585411; 585420; 585429; 585438; 585447; 585456; 585465; 585474;
   585483; 585492; 585501; 585510; 585519; 585528; 585537; 585546; 585555; 585564; 585573;
   585582; 585591; 585600; 585609; 585618; 585627; 585636; 585645; 585654; 585663; 585672;
   585681; 585690; 585699; 585708; 585717; 585726; 585735; 585744; 585753; 585762; 585771;
   585780; 585789; 585798; 585807; 585816; 585825; 585834; 585843; 585852; 585861; 585870;
   585879; 585888; 585897; 585906; 585915; 585924; 585933; 585942; 585951; 585960; 585969;
   585980; 585989; 585998; 586007; 586016; 586025; 586034; 586043; 586052; 586061; 586070;
   586079; 586088; 586097; 586106; 586115; 586124; 586133; 586142; 586151; 586160; 586169;
   586178; 586187; 586196; 586205; 586214; 586223; 586232; 586241; 586250; 586259; 586268;
   586277; 586286; 586295; 586304; 586313; 586322; 586331; 586340; 586349; 586358; 586367;
   586376; 586385; 586394; 586403; 586412; 586421; 586430; 586439; 586448; 586457; 586466;
   586475; 586484; 586493; 586502; 586511; 586520; 586529; 586538; 586547; 586556; 586565;
   586574; 586583; 586592; 586601; 586610; 586619; 586628; 586637; 586646; 586655; 586664;
   586673; 586682; 586691; 586700; 586709; 586718; 586727; 586738; 586747; 586756; 586765;
   586774; 586783; 586792; 586801; 586810; 586819; 586828; 586837; 586846; 586855; 586864;
   586873; 586882; 586891; 586900; 586909; 586918; 586927; 586936; 586945; 586954; 586963;
   586972; 586981; 586990; 586999; 587008; 587017; 587026; 587035; 587046; 587055; 587064;
   587073; 587082; 587091; 587100; 587109; 587118; 587127; 587136; 587145; 587154; 587163;
   587172; 587181; 587190; 587199; 587208; 587217; 587226; 587235; 587244; 587253
  ].

Definition ts_small_parse_table_map_12000 : list Z :=
  [
   587262; 587271; 587280; 587289; 587298; 587307; 587316; 587325; 587334; 587343; 587354;
   587363; 587372; 587381; 587390; 587399; 587408; 587417; 587426; 587435; 587444; 587453;
   587462; 587471; 587480; 587489; 587498; 587507; 587516; 587525; 587534; 587543; 587552;
   587561; 587570; 587579; 587588; 587597; 587608; 587617; 587626; 587635; 587644; 587655;
   587664; 587673; 587682; 587691; 587700; 587709; 587718; 587727; 587736; 587745; 587754;
   587763; 587772; 587781; 587790; 587799; 587808; 587817; 587826; 587835; 587844; 587853;
   587862; 587871; 587880; 587889; 587900; 587909; 587918; 587927; 587936; 587945; 587954;
   587963; 587972; 587981; 587990; 587999; 588008; 588017; 588026; 588035; 588044; 588053;
   588062; 588071; 588080; 588089; 588098; 588107; 588116; 588125; 588134; 588145; 588154;
   588163; 588172; 588181; 588190; 588199; 588208; 588217; 588226; 588235; 588244; 588253;
   588262; 588271; 588280; 588289; 588298; 588307; 588316; 588325; 588334; 588343; 588352;
   588361; 588370; 588379; 588390; 588399; 588408; 588417; 588426; 588435; 588444; 588453;
   588462; 588471; 588480; 588489; 588498; 588507; 588516; 588525; 588534; 588543; 588552;
   588561; 588570; 588579; 588588; 588597; 588606; 588617; 588626; 588635; 588644; 588653;
   588662; 588671; 588680; 588689; 588698; 588707; 588716; 588725; 588734; 588743; 588752;
   588761; 588770; 588779; 588788; 588797; 588806; 588815; 588824; 588833; 588844; 588853;
   588862; 588871; 588880; 588889; 588898; 588907; 588916; 588925; 588934; 588943; 588952;
   588961; 588970; 588979; 588988; 588997; 589006; 589015; 589024; 589033; 589042; 589051;
   589060; 589071; 589080; 589089; 589098; 589107; 589118; 589127; 589136; 589145; 589154;
   589163; 589172; 589181; 589190; 589199; 589208; 589217; 589226; 589235; 589244; 589253;
   589262; 589271; 589280; 589289; 589300; 589309; 589318; 589327; 589336; 589345; 589354;
   589363; 589372; 589381; 589390; 589399; 589408; 589417; 589426; 589435; 589444; 589453;
   589462; 589471; 589480; 589489; 589498; 589507; 589516; 589527; 589536; 589545; 589554;
   589563; 589572; 589581; 589590; 589599; 589608; 589617; 589626; 589635; 589644; 589653;
   589662; 589671; 589680; 589689; 589698; 589707; 589716; 589725; 589734; 589743; 589754;
   589763; 589772; 589781; 589790; 589799; 589808; 589817; 589826; 589835; 589844; 589853;
   589862; 589871; 589880; 589889; 589898; 589907; 589916; 589925; 589934; 589945; 589954;
   589963; 589972; 589981; 589990; 589999; 590008; 590017; 590026; 590035; 590044; 590053;
   590062; 590071; 590080; 590089; 590098; 590107; 590116; 590125; 590136; 590145; 590154;
   590163; 590172; 590181; 590190; 590199; 590208; 590217; 590226; 590235; 590244; 590253;
   590262; 590271; 590280; 590289; 590298; 590307; 590316; 590327; 590336; 590345; 590354;
   590363; 590372; 590381; 590390; 590399; 590408; 590417; 590426; 590435; 590444; 590453;
   590462; 590471; 590480; 590489; 590498; 590507; 590518; 590527; 590536; 590545; 590554;
   590563; 590572; 590581; 590590; 590599; 590608; 590617; 590626; 590635; 590644; 590653;
   590662; 590671; 590680; 590689; 590698; 590709; 590718; 590727; 590736; 590745; 590754;
   590763; 590772; 590781; 590790; 590799; 590808; 590817; 590826; 590835; 590844; 590853;
   590862; 590871; 590880; 590889; 590900; 590909; 590918; 590927; 590936; 590945; 590954;
   590963; 590972; 590981; 590990; 590999; 591008; 591017; 591026; 591035; 591044; 591053;
   591062; 591071; 591080; 591091; 591100; 591109; 591118; 591127; 591136; 591145; 591154;
   591163; 591172; 591181; 591190; 591199; 591208; 591217; 591226; 591235; 591244; 591253;
   591262; 591271; 591282; 591291; 591300; 591309; 591318; 591327; 591336; 591345; 591354;
   591363; 591372; 591381; 591390; 591399; 591408; 591417; 591426; 591435; 591444; 591453;
   591464; 591473; 591482; 591491; 591500; 591509; 591518; 591527; 591536; 591545; 591556;
   591565; 591574; 591583; 591592; 591601; 591610; 591619; 591628; 591637; 591648; 591657;
   591666; 591675; 591684; 591693; 591702; 591711; 591720; 591729; 591740; 591749; 591758;
   591767; 591776; 591785; 591794; 591803; 591812; 591821; 591832; 591841; 591850; 591859;
   591868; 591877; 591886; 591895; 591904; 591915; 591924; 591933; 591942; 591951; 591960;
   591969; 591978; 591987; 591998; 592007; 592016; 592025; 592034; 592043; 592052; 592061;
   592070; 592081; 592090; 592099; 592108; 592117; 592126; 592135; 592144; 592153; 592164;
   592173; 592182; 592191; 592200; 592209; 592218; 592227; 592236; 592247; 592256; 592265;
   592274; 592283; 592292; 592301; 592310; 592321; 592330; 592339; 592348; 592357; 592366;
   592375; 592384; 592395; 592404; 592413; 592422; 592431; 592440; 592449; 592458; 592469;
   592478; 592487; 592496; 592505; 592514; 592523; 592532; 592543; 592552; 592561; 592570;
   592579; 592588; 592597; 592606; 592617; 592626; 592635; 592644; 592653; 592662; 592671;
   592680; 592691; 592700; 592709; 592718; 592727; 592736; 592745; 592754; 592765; 592774;
   592783; 592792; 592801; 592810; 592819; 592828; 592839; 592848; 592857; 592866; 592875;
   592884; 592893; 592902; 592913; 592922; 592931; 592940; 592949; 592958; 592967; 592976;
   592987; 592996; 593005; 593014; 593023; 593032; 593041; 593050; 593061; 593070; 593079;
   593088; 593097; 593106; 593115; 593124; 593135; 593144; 593153; 593162; 593171; 593180;
   593189; 593198; 593207; 593216; 593225; 593234; 593243; 593252; 593261; 593270; 593279;
   593288; 593297; 593306; 593315; 593324; 593333; 593342; 593351; 593360; 593369; 593378;
   593387; 593396; 593405; 593414; 593423; 593432; 593441; 593450; 593459; 593468; 593477;
   593486; 593495; 593504; 593513; 593522; 593531; 593540; 593549; 593558; 593567; 593576;
   593585; 593596; 593605; 593614; 593623; 593632; 593641; 593650; 593659; 593668; 593677;
   593686; 593695; 593704; 593713; 593722; 593731; 593740; 593749; 593758; 593767; 593776;
   593785; 593794; 593803; 593812; 593821; 593830; 593839; 593848; 593857; 593866; 593875;
   593884; 593893; 593902; 593911; 593920; 593929; 593938; 593947; 593956; 593965; 593974;
   593983; 593992; 594001; 594010; 594019; 594028; 594037; 594046; 594055; 594064; 594073;
   594082; 594091; 594100; 594109; 594118; 594127; 594136; 594145; 594154; 594163; 594172;
   594181; 594190; 594199; 594208; 594217; 594226; 594235; 594244; 594253; 594262; 594271;
   594280; 594289; 594298; 594307; 594316; 594325; 594334; 594343; 594352; 594361; 594370;
   594379; 594388; 594397; 594406; 594415; 594424; 594433; 594442; 594451; 594460; 594469;
   594478; 594487; 594496; 594505; 594514; 594523; 594532; 594541; 594550; 594559; 594568;
   594577; 594586; 594595; 594604; 594613; 594622; 594631; 594640; 594649; 594658; 594667;
   594676; 594685; 594694; 594703; 594712; 594721; 594730; 594739; 594748; 594757; 594766;
   594775; 594784; 594793; 594802; 594811; 594820; 594829; 594838; 594847; 594856; 594865;
   594874; 594883; 594892; 594901; 594910; 594919; 594928; 594937; 594946; 594955; 594964;
   594973; 594982; 594991; 595000; 595009; 595018; 595027; 595036; 595045; 595054; 595063;
   595072; 595081; 595090; 595099; 595108; 595117; 595126; 595135; 595144; 595153; 595162;
   595171; 595180; 595189; 595198; 595207; 595216; 595225; 595234; 595243; 595252; 595261;
   595270; 595279; 595288; 595297; 595306; 595315; 595324; 595333; 595342; 595351; 595360;
   595369; 595378; 595387; 595396; 595405; 595414; 595423; 595432; 595441; 595450; 595459;
   595468; 595477; 595486; 595495; 595504; 595513; 595522; 595531; 595540; 595549; 595558;
   595567; 595576; 595585; 595594; 595603; 595612; 595621; 595630; 595639; 595648; 595657;
   595666; 595675; 595686; 595695; 595704; 595713; 595722; 595731; 595740; 595749; 595758;
   595767; 595776; 595785; 595794; 595803; 595812; 595821; 595830; 595839; 595848; 595857;
   595866; 595875; 595884; 595893; 595902; 595913; 595922; 595931; 595940; 595949; 595958;
   595967; 595976; 595985; 595994; 596003; 596012; 596021; 596030; 596039; 596048; 596057;
   596066; 596075; 596084; 596093; 596102; 596111; 596120; 596129; 596138; 596147; 596156;
   596165; 596174; 596183; 596192; 596201; 596210; 596219; 596228; 596237; 596246; 596255;
   596264; 596273; 596282; 596291; 596300; 596309; 596318; 596327; 596336; 596345
  ].

Definition ts_small_parse_table_map_13000 : list Z :=
  [
   596354; 596363; 596372; 596381; 596390; 596399; 596408; 596417; 596428; 596437; 596446;
   596455; 596464; 596473; 596482; 596491; 596500; 596509; 596518; 596527; 596536; 596545;
   596554; 596563; 596572; 596581; 596590; 596599; 596608; 596617; 596626; 596635; 596644;
   596653; 596662; 596671; 596680; 596689; 596698; 596707; 596716; 596725; 596734; 596743;
   596752; 596761; 596770; 596779; 596788; 596797; 596806; 596815; 596824; 596833; 596842;
   596851; 596860; 596869; 596878; 596887; 596896; 596905; 596914; 596923; 596932; 596941;
   596950; 596959; 596968; 596977; 596986; 596995; 597004; 597013; 597022; 597031; 597040;
   597049; 597058; 597067; 597076; 597085; 597094; 597103; 597112; 597121; 597130; 597139;
   597148; 597157; 597166; 597175; 597184; 597193; 597202; 597211; 597220; 597229; 597238;
   597247; 597256; 597265; 597274; 597283; 597292; 597301; 597310; 597319; 597328; 597337;
   597346; 597355; 597364; 597373; 597382; 597391; 597400; 597409; 597418; 597427; 597436;
   597445; 597454; 597463; 597472; 597481; 597490; 597499; 597508; 597517; 597526; 597535;
   597544; 597553; 597562; 597571; 597580; 597589; 597598; 597607; 597616; 597625; 597634;
   597643; 597652; 597661; 597670; 597679; 597688; 597697; 597706; 597715; 597724; 597733;
   597742; 597751; 597760; 597769; 597778; 597787; 597796; 597805; 597814; 597823; 597832;
   597841; 597850; 597859; 597868; 597877; 597886; 597895; 597904; 597913; 597922; 597931;
   597940; 597949; 597958; 597967; 597976; 597985; 597994; 598003; 598012; 598021; 598030;
   598039; 598048; 598057; 598066; 598075; 598084; 598093; 598102; 598111; 598120; 598129;
   598138; 598147; 598156; 598165; 598174; 598183; 598192; 598201; 598210; 598219; 598228;
   598237; 598246; 598255; 598264; 598273; 598282; 598291; 598300; 598309; 598318; 598327;
   598336; 598345; 598354; 598363; 598372; 598381; 598390; 598401; 598410; 598419; 598428;
   598437; 598446; 598455; 598464; 598473; 598482; 598491; 598500; 598509; 598518; 598527;
   598536; 598545; 598554; 598563; 598572; 598581
  ].

Definition ts_small_parse_table_map : list Z :=
  ts_small_parse_table_map_0
  ++ ts_small_parse_table_map_1000
  ++ ts_small_parse_table_map_2000
  ++ ts_small_parse_table_map_3000
  ++ ts_small_parse_table_map_4000
  ++ ts_small_parse_table_map_5000
  ++ ts_small_parse_table_map_6000
  ++ ts_small_parse_table_map_7000
  ++ ts_small_parse_table_map_8000
  ++ ts_small_parse_table_map_9000
  ++ ts_small_parse_table_map_10000
  ++ ts_small_parse_table_map_11000
  ++ ts_small_parse_table_map_12000
  ++ ts_small_parse_table_map_13000.
