(* ===== verification/SmallTable.v ===== *)
(** * The compressed parse table of [parser.c]

    [ts_small_parse_table] is a flat array of numbers.  The record of a state
    is the number of its groups, then for each group its value, the number of
    its symbols and the numbers of the symbols, all as the source writes them;
    the designators of the source give the index of each record. *)

From S2P Require Import Prelude.
From S2P Require Import Symbols.
From S2P Require Import Fields.
From S2P Require Import ParseTypes.
From S2P Require Import SmallTable1.
From S2P Require Import SmallTable2.
From S2P Require Import SmallTable3.
From S2P Require Import SmallTable4.
From S2P Require Import SmallTable5.
From S2P Require Import SmallTable6.
From S2P Require Import SmallTable7.
From S2P Require Import SmallTable8.

Definition small_runs : list small_run :=
  small_part1
  ++ small_part2
  ++ small_part3
  ++ small_part4
  ++ small_part5
  ++ small_part6
  ++ small_part7
  ++ small_part8.

Definition record_index (run : small_run) : Z := run.1.1.

(** The elements of the array that a record is made of. *)
Definition record_elements (run : small_run) : list Z :=
  let '(_, n, gs) := run in n :: (gs ≫= group_elements).

Definition ts_small_parse_table : list Z :=
  designated_runs 0 ((λ run, (record_index run, record_elements run)) <$> small_runs).
