(* ===== verification/ActionTheorems.v ===== *)
(** * The parse actions are well formed

    How a group is read from the flat array [ts_parse_actions], and what the
    runtime may assume of the actions of a group: the array is an exact
    sequence of groups, only the last action of a group is not a reduction,
    shifts lead to existing states, and the production of a reduction names
    only children the reduction has. *)

From stdpp Require Import pmap.
From Stdlib Require Import Sorting.Sorted.
From S2P Require Import Prelude.
From S2P Require Import Symbols.
From S2P Require Import SymbolSets.
From S2P Require Import LexModes.
From S2P Require Import Fields.
From S2P Require Import FieldTheorems.
From S2P Require Import ParseTypes.
From S2P Require Import ParseActions.

(** ** Reading a group *)

Fixpoint read_actions (n : nat) (l : list TSParseActionEntry) : option (list TSParseAction) :=
  match n, l with
  | O, _ => Some []
  | S n, Action a :: l => cons a <$> read_actions n l
  | _, _ => None
  end.

(** The actions of the group whose header is at index [id]. *)
Definition action_group (id : Z) : option (list TSParseAction) :=
  if id <? 0 then None else
  match drop (Z.to_nat id) ts_parse_actions with
  | Entry count _ :: l => read_actions (Z.to_nat count) l
  | _ => None
  end.

Lemma read_actions_app acts l : read_actions (length acts) ((Action <$> acts) ++ l) = Some acts.
Proof. induction acts as [|a acts IH]; [done|]. csimpl. by rewrite IH. Qed.

#[export] Instance Action_inj : Inj (=) (=) Action.
Proof. by intros ?? [= ->]. Qed.

(** ** Contiguous runs *)

(** The runs follow one another from index [pos] on. *)
Fixpoint contiguous {A} (pos : Z) (runs : list (Z * list A)) : bool :=
  match runs with
  | [] => true
  | (k, es) :: runs => (k =? pos) && contiguous (pos + Z.of_nat (length es)) runs
  end.

Lemma contiguous_foldl {A} (d : A) runs a :
  contiguous (Z.of_nat (length a)) runs = true →
  foldl (λ a '(k, es), take (Z.to_nat k) (resize (Z.to_nat k `max` length a) d a) ++ es
      ++ drop (Z.to_nat k + length es) a) a runs = a ++ concat runs.*2.
Proof.
  revert a. induction runs as [|[k es] runs IH]; intros a; cbn [contiguous foldl].
  { by rewrite app_nil_r. }
  intros [->%Z.eqb_eq Hc]%andb_prop. rewrite Nat2Z.id, Nat.max_id, resize_all, take_ge by lia.
  rewrite (drop_ge a), app_nil_r by lia. rewrite IH.
  - cbn [fmap list_fmap concat snd]. by rewrite (assoc_L (++)).
  - rewrite length_app, Nat2Z.inj_add. done.
Qed.

Lemma designated_contiguous {A} (d : A) runs :
  contiguous 0 runs = true → designated_runs d runs = concat runs.*2.
Proof. intros Hc. apply (contiguous_foldl d runs [] Hc). Qed.

Lemma contiguous_drop {A} pos (runs : list (Z * list A)) k es :
  contiguous pos runs = true → (k, es) ∈ runs →
  pos ≤ k ∧ ∃ l, drop (Z.to_nat (k - pos)) (concat runs.*2) = es ++ l.
Proof.
  revert pos. induction runs as [|[k' es'] runs IH]; [by intros ? ? ?%not_elem_of_nil|].
  intros pos [->%Z.eqb_eq Hc]%andb_prop [[= -> ->]|Hin]%elem_of_cons.
  - split; [lia|]. rewrite Z.sub_diag. by eexists.
  - destruct (IH _ Hc Hin) as (Hle & l & Hl). split; [lia|]. exists l.
    cbn [fmap list_fmap concat snd].
    rewrite drop_app_ge by lia. rewrite <- Hl. f_equal. lia.
Qed.

(** ** Groups *)

Definition is_reduce (a : TSParseAction) : bool :=
  if a is TSParseActionTypeReduce _ _ _ _ then true else false.

(** The number of children the fields and aliases of a production need. *)
Definition production_arity (p : nat) : Z :=
  foldr (λ e n, (child_index e + 1) `max` n) 0 (default [] (production_fields p))
  `max` foldr (λ i n, (if alias_at p i is Some _ then Z.of_nat i + 1 else 0) `max` n) 0
          (seq 0 MAX_ALIAS_SEQUENCE_LENGTH).

Definition arities : Pmap Z := index_by production_arity (seq 0 PRODUCTION_ID_COUNT).

Definition action_check (ar : Pmap Z) (a : TSParseAction) : bool :=
  match a with
  | TSParseActionTypeShift st _ _ => (0 <=? st) && (st <? 16007)
  | TSParseActionTypeReduce n s _ p =>
      negb (is_token s) && (0 <=? p)
      && if ar !! Z.to_pos (p + 1) is Some m then (m <=? n) && (n <=? 10) else false
  | _ => true
  end.

Fixpoint last_action_check (acts : list TSParseAction) : bool :=
  match acts with
  | a :: (_ :: _) as acts => is_reduce a && last_action_check acts
  | _ => true
  end.

Fixpoint group_actions (es : list TSParseActionEntry) : option (list TSParseAction) :=
  match es with
  | [] => Some []
  | Action a :: es => cons a <$> group_actions es
  | Entry _ _ :: _ => None
  end.

Definition group_check (ar : Pmap Z) (es : list TSParseActionEntry) : bool :=
  match es with
  | Entry count _ :: es =>
      match group_actions es with
      | Some acts => (Z.of_nat (length acts) =? count) && forallb (action_check ar) acts
          && last_action_check acts
      | None => false
      end
  | _ => false
  end.

Lemma groups_checked :
  (λ ar, forallb (λ r, group_check ar r.2) parse_action_runs) arities = true.
Proof. by vm_compute. Qed.

Lemma groups_contiguous : contiguous 0 parse_action_runs = true.
Proof. by vm_compute. Qed.

(** ** What a group promises *)

(** A production whose fields and aliases are those of a node with [n]
    children. *)
Definition production_fits (p : nat) (n : Z) : Prop :=
  (∃ es, production_fields p = Some es ∧ StronglySorted entry_before es
    ∧ Forall (λ e, 0 ≤ child_index e < n) es)
  ∧ ∀ i a, alias_at p i = Some a → Z.of_nat i < n.

Definition action_ok (a : TSParseAction) : Prop :=
  match a with
  | TSParseActionTypeShift st _ _ => 0 ≤ st < Z.of_nat STATE_COUNT
  | TSParseActionTypeReduce n s _ p =>
      (TOKEN_COUNT ≤ symbol_index s)%nat ∧ 0 ≤ n ≤ Z.of_nat MAX_ALIAS_SEQUENCE_LENGTH
      ∧ 0 ≤ p < Z.of_nat PRODUCTION_ID_COUNT ∧ production_fits (Z.to_nat p) n
  | _ => True
  end.

Lemma foldr_max_le {A} (f : A → Z) l n :
  foldr (λ e n, f e `max` n) 0 l ≤ n → 0 ≤ n ∧ Forall (λ e, f e ≤ n) l.
Proof.
  induction l as [|e l IH]; simpl; intros ?; [done|]. destruct IH; [lia|].
  split; [done|]. constructor; [lia|done].
Qed.

Lemma production_arity_fits p n :
  (p < PRODUCTION_ID_COUNT)%nat → production_arity p ≤ n → 0 ≤ n ∧ production_fits p n.
Proof.
  intros Hp Hn. unfold production_arity in Hn.
  destruct (foldr_max_le (λ e, child_index e + 1) (default [] (production_fields p)) n)
    as [H0 Hf]; [lia|].
  destruct (foldr_max_le (λ i, if alias_at p i is Some _ then Z.of_nat i + 1 else 0)
    (seq 0 MAX_ALIAS_SEQUENCE_LENGTH) n) as [_ Ha]; [lia|].
  split; [done|]. split.
  - destruct (production_fields_ok p Hp) as (es & Hes & Hso & Hc). exists es. split_and!; [done..|].
    rewrite Hes in Hf. rewrite Forall_forall in Hf, Hc |- *. intros e He.
    specialize (Hf e He). specialize (Hc e He). simpl in *. lia.
  - intros i a Hi. rewrite Forall_forall in Ha.
    specialize (Ha i). rewrite Hi in Ha. apply alias_at_bounds in Hi.
    rewrite elem_of_seq in Ha. lia.
Qed.

Lemma arities_lookup p m :
  0 ≤ p → arities !! Z.to_pos (p + 1) = Some m →
  (Z.to_nat p < PRODUCTION_ID_COUNT)%nat ∧ m = production_arity (Z.to_nat p).
Proof. intros Hp [Hin%elem_of_seq ->]%index_by_lookup; [|done]. split; [lia|done]. Qed.

Lemma action_check_ok a : action_check arities a = true → action_ok a.
Proof.
  destruct a as [st ex rep|n s prec p| |]; [|..|done|done]; unfold action_check, action_ok.
  - unfold STATE_COUNT. lia.
  - destruct (arities !! Z.to_pos (p + 1)) as [m|] eqn:Hm; [|by rewrite andb_false_r].
    intros [[Hs Hp]%andb_prop Hn]%andb_prop. apply negb_true_iff, not_true_iff_false in Hs.
    rewrite is_token_index in Hs.
    destruct (arities_lookup p m) as [Hp' ->]; [lia|done|].
    destruct (production_arity_fits (Z.to_nat p) n) as [H0 Hfit]; [done|lia|].
    split_and!; [lia|done|unfold MAX_ALIAS_SEQUENCE_LENGTH; lia|lia|lia|done].
Qed.

(** The shape of a group: all actions but the last are reductions. *)
Definition group_ok (acts : list TSParseAction) : Prop :=
  Forall is_reduce (removelast acts) ∧ Forall action_ok acts.

Lemma last_action_check_ok acts : last_action_check acts = true → Forall is_reduce (removelast acts).
Proof.
  induction acts as [|a [|a' acts] IH]; [constructor..|].
  intros [Ha Hl]%andb_prop. constructor; [by rewrite Ha|by apply IH].
Qed.

Lemma group_actions_spec es acts : group_actions es = Some acts → es = Action <$> acts.
Proof.
  revert acts. induction es as [|[] es IH]; intros acts; simpl; [by intros [= <-]|done|].
  intros (acts' & Ha & ->)%fmap_Some. by rewrite (IH acts' Ha).
Qed.

Lemma group_check_ok es :
  group_check arities es = true →
  ∃ r acts, es = Entry (Z.of_nat (length acts)) r :: (Action <$> acts) ∧ group_ok acts.
Proof.
  destruct es as [|[c r|] es]; [done| |done]. unfold group_check.
  destruct (group_actions es) as [acts|] eqn:Ha; [|done].
  intros [[<-%Z.eqb_eq Hf]%andb_prop Hl]%andb_prop. exists r, acts.
  split; [by rewrite (group_actions_spec _ _ Ha)|]. split; [by apply last_action_check_ok|].
  rewrite forallb_forall in Hf. apply Forall_forall. intros a Hin.
  apply action_check_ok, Hf. by apply list_elem_of_In.
Qed.

Lemma run_groups k es :
  (k, es) ∈ parse_action_runs →
  ∃ r acts, es = Entry (Z.of_nat (length acts)) r :: (Action <$> acts) ∧ group_ok acts.
Proof.
  intros Hin. apply group_check_ok. pose proof groups_checked as Hc. cbn beta in Hc.
  rewrite forallb_forall in Hc. by apply (Hc (k, es)), list_elem_of_In.
Qed.

(** The array is the concatenation of its runs. *)
Lemma parse_actions_concat : ts_parse_actions = concat parse_action_runs.*2.
Proof. apply designated_contiguous, groups_contiguous. Qed.

(** Entry 0 of the array is the empty group. *)
Lemma no_actions : action_group 0 = Some [].
Proof. unfold action_group. rewrite parse_actions_concat. by vm_compute. Qed.

(** The header at the start of a run heads its group. *)
Lemma run_action_group k es :
  (k, es) ∈ parse_action_runs →
  ∃ acts, group_actions (tail es) = Some acts ∧ action_group k = Some acts ∧ group_ok acts ∧ 0 ≤ k.
Proof.
  intros Hin. destruct (run_groups k es Hin) as (r & acts & -> & Hok).
  destruct (contiguous_drop 0 _ _ _ groups_contiguous Hin) as (Hk & l & Hl).
  exists acts. split_and!; [| |done|done].
  - simpl. clear. induction acts as [|a acts IH]; [done|]. csimpl. by rewrite IH.
  - unfold action_group. rewrite (proj2 (Z.ltb_ge k 0)), parse_actions_concat by done.
    rewrite Z.sub_0_r in Hl. rewrite Hl. simpl. rewrite Nat2Z.id. apply read_actions_app.
Qed.

(** ** An index of the groups *)

(** What [f] gives for the groups at hand; the header [k] is the key
    [k + 1]. *)
Definition index_actions {A} (f : list TSParseAction → option A)
    (runs : list (Z * list TSParseActionEntry)) : Pmap A :=
  foldr (λ r m, match group_actions (tail r.2) ≫= f with
                | Some v => <[Z.to_pos (r.1 + 1) := v]> m
                | None => m
                end) ∅ runs.

Lemma index_actions_sub {A} (f : list TSParseAction → option A) runs k :
  0 ≤ k → (∀ r, r ∈ runs → r ∈ parse_action_runs) →
  index_actions f runs !! Z.to_pos (k + 1)
  = if bool_decide (k ∈ runs.*1) then action_group k ≫= f else None.
Proof.
  intros Hk. induction runs as [|[k' es] runs IH]; intros Hsub; [done|].
  destruct (run_action_group k' es) as (acts & Hacts & Hg & _ & Hk').
  { apply Hsub, elem_of_cons. by left. }
  cbn [index_actions foldr fst snd]. rewrite Hacts. cbn [mbind option_bind].
  fold (index_actions f runs). rewrite fmap_cons. cbn [fst].
  specialize (IH (λ r Hr, Hsub r (proj2 (elem_of_cons _ _ _) (or_intror Hr)))).
  destruct (decide (k' = k)) as [->|Hne].
  - rewrite (bool_decide_true (k ∈ k :: _)) by (apply elem_of_cons; by left). rewrite Hg. cbn [mbind option_bind].
    destruct (f acts) as [v|] eqn:Hf; [by rewrite lookup_insert_eq|].
    rewrite IH, Hg. cbn [mbind option_bind]. rewrite Hf. by case_match.
  - rewrite (bool_decide_ext (k ∈ k' :: _) (k ∈ runs.*1)) by (rewrite elem_of_cons; naive_solver).
    destruct (f acts); [rewrite lookup_insert_ne by lia|]; done.
Qed.

Lemma index_actions_key {A} (f : list TSParseAction → option A) k :
  0 ≤ k → k ∈ parse_action_runs.*1 →
  index_actions f parse_action_runs !! Z.to_pos (k + 1) = action_group k ≫= f.
Proof. intros Hk Hin. rewrite index_actions_sub by done. by rewrite bool_decide_true. Qed.

Lemma index_actions_lookup {A} (f : list TSParseAction → option A) k v :
  0 ≤ k → index_actions f parse_action_runs !! Z.to_pos (k + 1) = Some v →
  k ∈ parse_action_runs.*1 ∧ ∃ acts, action_group k = Some acts ∧ f acts = Some v.
Proof.
  intros Hk. rewrite index_actions_sub by done. case_bool_decide; [|done].
  intros (acts & ? & ?)%bind_Some. eauto.
Qed.

(** A header of the array is the start of a run. *)
Lemma header_in_runs (runs : list (Z * list TSParseActionEntry)) i c r l :
  Forall (λ run, ∃ c r acts, run.2 = Entry c r :: (Action <$> acts)) runs →
  drop i (concat runs.*2) = Entry c r :: l →
  ∃ k acts l', (k, Entry c r :: (Action <$> acts)) ∈ runs ∧ l = (Action <$> acts) ++ l'.
Proof.
  intros Hruns. revert i. induction Hruns as [|[k es] runs (c' & r' & acts & Hes) _ IH];
    intros i; cbn [fmap list_fmap concat snd]; [by rewrite drop_nil|].
  simpl in Hes. subst es. destruct (decide (i < S (length acts))%nat) as [Hi|Hi].
  - destruct i as [|i]; [intros [= -> -> <-]; exists k, acts, (concat runs.*2)|].
    + split; [apply elem_of_cons; by left|done].
    + cbn [drop app]. rewrite drop_app_le by (rewrite length_fmap; lia).
      rewrite <- fmap_drop. destruct (drop i acts) eqn:Hd; [|done].
      apply (f_equal length) in Hd. rewrite length_drop in Hd. simpl in Hd. lia.
  - rewrite drop_app_ge by (simpl; rewrite length_fmap; lia).
    intros (k' & acts' & l' & Hin & ->)%IH. exists k', acts', l'.
    split; [apply elem_of_cons; by right|done].
Qed.

Lemma action_group_ok id acts :
  action_group id = Some acts → group_ok acts.
Proof.
  unfold action_group. destruct (id <? 0); [done|].
  rewrite parse_actions_concat. destruct (drop (Z.to_nat id) _) as [|[c r|] l] eqn:Hd; [done| |done].
  apply header_in_runs in Hd as (k & acts' & l' & Hin & ->).
  - destruct (run_groups _ _ Hin) as (r' & acts'' & Heq & Hok).
    injection Heq as -> -> Hacts. apply list_fmap_eq_inj in Hacts as ->; [|apply _].
    rewrite Nat2Z.id, read_actions_app. by intros [= <-].
  - apply Forall_forall. intros [k es] Hin. destruct (run_groups k es Hin) as (r' & a & -> & _).
    simpl. by eauto.
Qed.

(** C21. The actions of every group of [ts_parse_actions] are well formed: all
    but the last are reductions, so that a group holds at most one shift and
    it comes last; a shift leads to an existing state; a reduction is to a
    non-terminal, its production exists, and the fields and aliases of the
    production name only children the reduction has. *)
Theorem action_groups_well_formed id acts :
  action_group id = Some acts → group_ok acts.
Proof. apply action_group_ok. Qed.

Lemma action_groups_well_formed_witness :
  group_ok [REDUCE sym_root 0 0 0].
Proof.
  refine (action_groups_well_formed 7 _ _).
  unfold action_group. rewrite parse_actions_concat. by vm_compute.
Defined.
