(* ===== verification/ParseRows.v ===== *)
(** * The rows of all parse states

    A large state has its row in [ts_parse_table]; the row of a small state is
    a record of the flat array [ts_small_parse_table], found through
    [ts_small_parse_table_map].  The groups of a record are told apart only by
    the counts in the array.  The theorem shows that the counts the source
    writes are right: reading the array by them gives the groups. *)

From S2P Require Import Prelude.
From S2P Require Import Symbols.
From S2P Require Import LexModes.
From S2P Require Import Fields.
From S2P Require Import ParseTypes.
From S2P Require Import ParseTable.
From S2P Require Import SmallMap.
From S2P Require Import SmallTable.
From S2P Require Import ActionTheorems.

(** The row of a small state: the groups of its record, without their counts. *)
Definition small_parse_group (g : small_group) : parse_group :=
  match g with
  | AGroup id _ ss => ACTIONS id ss
  | SGroup id _ ss => STATE id ss
  end.

Definition small_row (run : small_run) : parse_row := small_parse_group <$> run.2.

(** The row of each parse state. *)
Definition parse_rows : list parse_row := ts_parse_table ++ (small_row <$> small_runs).

Definition SMALL_STATE (id : nat) : nat := id - LARGE_STATE_COUNT.

(** A check of every group, with the number of its state; the rows are those of
    the states from [q] on. *)
Fixpoint rows_all (check : Z → parse_group → bool) (q : Z) (rows : list parse_row) : bool :=
  match rows with
  | [] => true
  | r :: rows => forallb (check q) r && rows_all check (q + 1) rows
  end.

Lemma rows_all_row check rows : ∀ n q r g,
  rows_all check n rows = true → rows !! q = Some r → g ∈ r →
  check (n + Z.of_nat q) g = true.
Proof.
  induction rows as [|r' rows IH]; intros n q r g Hc Hr Hg; [done|].
  cbn [rows_all] in Hc. apply andb_prop in Hc as [Hf Hc]. destruct q as [|q].
  - injection Hr as ->. rewrite Z.add_0_r. rewrite forallb_forall in Hf.
    by apply Hf, list_elem_of_In.
  - rewrite Nat2Z.inj_succ. replace (n + Z.succ (Z.of_nat q)) with ((n + 1) + Z.of_nat q) by lia.
    by eapply IH.
Qed.

(** ** Reading a record *)

(** Reads [n] groups: a value, a count and as many symbols; gives the groups and
    what comes after them. *)
Fixpoint read_groups (n : nat) (l : list Z) : option (list (Z * list Z) * list Z) :=
  match n, l with
  | O, _ => Some ([], l)
  | S n, v :: c :: l =>
      if (0 <=? c) && (c <=? Z.of_nat (length l)) then
        '(gs, l') ← read_groups n (drop (Z.to_nat c) l);
        Some ((v, take (Z.to_nat c) l) :: gs, l')
      else None
  | _, _ => None
  end.

(** The record at index [k] of the flat array, and what comes after it. *)
Definition small_record (k : Z) : option (list (Z * list Z) * list Z) :=
  match drop (Z.to_nat k) ts_small_parse_table with
  | n :: l => read_groups (Z.to_nat n) l
  | [] => None
  end.

(** A group as numbers. *)
Definition group_numbers (g : parse_group) : Z * list Z :=
  (group_id g, (λ s, Z.of_nat (symbol_index s)) <$> group_symbols g).

(** The counts of a record are the numbers of its groups and symbols. *)
Definition group_counted (g : small_group) : bool :=
  match g with
  | AGroup _ count ss | SGroup _ count ss => count =? Z.of_nat (length ss)
  end.

Definition record_counted (run : small_run) : bool :=
  (run.1.2 =? Z.of_nat (length run.2)) && forallb group_counted run.2.

Lemma small_runs_counted : forallb record_counted small_runs = true.
Proof. by vm_compute. Qed.

(** The elements of a group whose count is right. *)
Lemma counted_elements g :
  group_counted g = true →
  let '(v, ss) := group_numbers (small_parse_group g) in
  group_elements g = v :: Z.of_nat (length ss) :: ss.
Proof. destruct g as [id count ss|id count ss]; simpl; rewrite length_fmap; intros ?; do 2 f_equal; lia. Qed.

Lemma read_counted_groups gs l :
  forallb group_counted gs = true →
  read_groups (length gs) ((gs ≫= group_elements) ++ l)
  = Some (group_numbers <$> (small_parse_group <$> gs), l).
Proof.
  induction gs as [|g gs IH]; [done|]. cbn [forallb length mbind list_bind].
  intros [Hg%counted_elements Hgs]%andb_prop. cbn [fmap list_fmap].
  destruct (group_numbers (small_parse_group g)) as [v ss].
  rewrite Hg, <- (assoc_L (++)). cbn [app read_groups].
  rewrite (proj2 (Z.leb_le _ _)) by lia. rewrite length_app, (proj2 (Z.leb_le _ _)) by lia.
  rewrite Nat2Z.id, drop_app_length, take_app_length. cbn [andb]. by rewrite IH.
Qed.

(** ** The records are contiguous *)

Definition group_size (g : small_group) : Z :=
  match g with AGroup _ _ ss | SGroup _ _ ss => 2 + Z.of_nat (length ss) end.

Definition record_size (run : small_run) : Z := foldr (λ g n, group_size g + n) 1 run.2.

Lemma record_size_length run : Z.of_nat (length (record_elements run)) = record_size run.
Proof.
  destruct run as [[k n] gs]. unfold record_elements, record_size. cbn [length snd].
  rewrite Nat2Z.inj_succ. induction gs as [|g gs IH]; [done|]. cbn [foldr mbind list_bind].
  rewrite length_app, Nat2Z.inj_add, <- IH.
  destruct g; cbn [group_elements group_size length]; rewrite length_fmap; lia.
Qed.

Fixpoint sizes_contiguous (pos : Z) (runs : list small_run) : bool :=
  match runs with
  | [] => true
  | run :: runs => (record_index run =? pos) && sizes_contiguous (pos + record_size run) runs
  end.

Lemma sizes_contiguous_elements pos runs :
  sizes_contiguous pos runs = true →
  contiguous pos ((λ run, (record_index run, record_elements run)) <$> runs) = true.
Proof.
  revert pos. induction runs as [|run runs IH]; intros pos; [done|].
  cbn [sizes_contiguous fmap list_fmap contiguous].
  intros [-> Hc]%andb_prop. rewrite record_size_length. by apply IH.
Qed.

(** A record is followed by the next one. *)
Lemma sizes_contiguous_next runs : ∀ pos i run run',
  sizes_contiguous pos runs = true → runs !! i = Some run → runs !! S i = Some run' →
  record_index run' = record_index run + record_size run.
Proof.
  induction runs as [|r runs IH]; intros pos i run run'; [done|].
  cbn [sizes_contiguous]. intros [Hk%Z.eqb_eq Hc]%andb_prop. destruct i as [|i]; [|by eapply (IH _ i)].
  intros [= ->] Hr'. destruct runs as [|r2 runs]; [done|]. injection Hr' as ->.
  cbn [sizes_contiguous] in Hc. apply andb_prop in Hc as [Hk2%Z.eqb_eq _]. lia.
Qed.

Lemma small_runs_contiguous : sizes_contiguous 0 small_runs = true.
Proof. by vm_compute. Qed.

Lemma small_map_keys : ts_small_parse_table_map = record_index <$> small_runs.
Proof. vm_cast_no_check (eq_refl ts_small_parse_table_map). Qed.

Lemma table_length : length ts_parse_table = LARGE_STATE_COUNT.
Proof. by vm_compute. Qed.

Lemma small_runs_length : length small_runs = (STATE_COUNT - LARGE_STATE_COUNT)%nat.
Proof. by vm_compute. Qed.

#[local] Opaque ts_parse_table small_runs.

Lemma parse_rows_length : length parse_rows = STATE_COUNT.
Proof.
  unfold parse_rows. rewrite length_app, length_fmap, table_length, small_runs_length.
  unfold LARGE_STATE_COUNT, STATE_COUNT. lia.
Qed.

Lemma parse_rows_large q : (q < LARGE_STATE_COUNT)%nat → parse_rows !! q = ts_parse_table !! q.
Proof. intros Hq. apply lookup_app_l. by rewrite table_length. Qed.

Lemma parse_rows_small q :
  (LARGE_STATE_COUNT ≤ q)%nat → parse_rows !! q = (small_row <$> small_runs) !! SMALL_STATE q.
Proof.
  intros Hq. unfold SMALL_STATE. rewrite <- table_length. apply lookup_app_r.
  by rewrite table_length.
Qed.

Lemma small_table_drop run :
  run ∈ small_runs →
  0 ≤ record_index run
  ∧ ∃ l, drop (Z.to_nat (record_index run)) ts_small_parse_table = record_elements run ++ l.
Proof.
  intros Hin. unfold ts_small_parse_table.
  pose proof (sizes_contiguous_elements _ _ small_runs_contiguous) as Hc.
  rewrite designated_contiguous by done.
  destruct (contiguous_drop 0 _ (record_index run) (record_elements run) Hc) as (Hk & l & Hl).
  { apply list_elem_of_fmap. exists run. split; [reflexivity|exact Hin]. }
  rewrite Z.sub_0_r in Hl. eauto.
Qed.

Lemma small_record_run run :
  run ∈ small_runs →
  small_record (record_index run)
  = Some (group_numbers <$> small_row run,
          drop (Z.to_nat (record_index run + record_size run)) ts_small_parse_table).
Proof.
  intros Hin. destruct (small_table_drop run Hin) as (Hk & l & Hl).
  pose proof small_runs_counted as Hc. rewrite forallb_forall in Hc.
  specialize (Hc run (proj1 (list_elem_of_In _ _) Hin)).
  assert (drop (Z.to_nat (record_index run + record_size run)) ts_small_parse_table = l) as ->.
  { rewrite <- record_size_length, Z2Nat.inj_add, Nat2Z.id by lia.
    by rewrite <- drop_drop, Hl, drop_app_length. }
  unfold small_record. rewrite Hl. destruct run as [[k n] gs].
  unfold record_counted in Hc. cbn [fst snd] in Hc. apply andb_prop in Hc as [->%Z.eqb_eq Hgs].
  cbn [record_elements app]. rewrite Nat2Z.id. by apply read_counted_groups.
Qed.

(** C24. The compressed table is read by its counts: every small state has an
    index in the map, and reading the flat array from there, as many groups as
    the count at that index says and for each group as many symbols as its
    count says, gives the groups of the row of the state, with the values and
    the symbol numbers in the order of the source, and ends where the record of
    the next state begins. *)
Theorem small_rows_decoded q :
  (LARGE_STATE_COUNT ≤ q < STATE_COUNT)%nat →
  ∃ k row tl, ts_small_parse_table_map !! SMALL_STATE q = Some k ∧ parse_rows !! q = Some row
    ∧ small_record k = Some (group_numbers <$> row, tl)
    ∧ ∀ k', ts_small_parse_table_map !! SMALL_STATE (S q) = Some k' →
        tl = drop (Z.to_nat k') ts_small_parse_table.
Proof.
  intros Hq. assert (SMALL_STATE q < length small_runs)%nat as [run Hrun]%lookup_lt_is_Some.
  { rewrite small_runs_length. unfold SMALL_STATE. lia. }
  exists (record_index run), (small_row run). eexists. split_and!.
  - by rewrite small_map_keys, list_lookup_fmap, Hrun.
  - by rewrite parse_rows_small, list_lookup_fmap, Hrun by lia.
  - apply small_record_run. by eapply list_elem_of_lookup_2.
  - intros k'. rewrite small_map_keys, list_lookup_fmap.
    intros (run' & Hrun' & ->)%fmap_Some.
    replace (SMALL_STATE (S q)) with (S (SMALL_STATE q)) in Hrun' by (unfold SMALL_STATE; lia).
    by rewrite (sizes_contiguous_next _ _ _ _ _ small_runs_contiguous Hrun Hrun').
Qed.

Lemma small_rows_decoded_witness :
  ∃ k row tl, ts_small_parse_table_map !! SMALL_STATE 2760 = Some k
    ∧ parse_rows !! 2760%nat = Some row
    ∧ small_record k = Some (group_numbers <$> row, tl)
    ∧ ∀ k', ts_small_parse_table_map !! SMALL_STATE 2761 = Some k' →
        tl = drop (Z.to_nat k') ts_small_parse_table.
Proof.
  refine (small_rows_decoded 2760 _).
  split; [by apply Nat.leb_le; vm_compute|by apply Nat.ltb_lt; vm_compute].
Defined.
