(* ===== verification/Language.v ===== *)
(** * The language record of [parser.c]

    [tree_sitter_pascal] returns the record through which the runtime reaches
    the tables, the lexer and the scanner.  [TSLanguage] has the fields of
    [struct TSLanguage] with the tables as values.  The theorem checks that the
    counts of the record are the lengths of the tables the runtime indexes with them,
    and that the numbering of the symbols separates tokens from
    non-terminals. *)

From S2P Require Import Prelude.
From S2P Require Import Lexer.
From S2P Require Import Tokens.
From S2P Require Import Words.
From S2P Require Import Scanner.
From S2P Require Import Symbols.
From S2P Require Import LexTable.
From S2P Require Import LexDfa.
From S2P Require Import External.
From S2P Require Import LexModes.
From S2P Require Import Fields.
From S2P Require Import PrimaryStates.
From S2P Require Import ParseTypes.
From S2P Require Import ParseActions.
From S2P Require Import ParseTable.
From S2P Require Import SmallMap.
From S2P Require Import SmallTable.
From S2P Require Import ParseRows.

Record TSLanguage (L : Type) := MkLanguage {
  version : Z;
  symbol_count : nat;
  alias_count : nat;
  token_count : nat;
  external_token_count : nat;
  state_count : nat;
  large_state_count : nat;
  production_id_count : nat;
  field_count : nat;
  max_alias_sequence_length : nat;
  parse_table : list parse_row;
  small_parse_table : list Z;
  small_parse_table_map : list Z;
  parse_actions : list TSParseActionEntry;
  symbol_names : list (ts_symbol * string);
  field_names : list (option string);
  field_map_slices : list TSFieldMapSlice;
  field_map_entries : list TSFieldMapEntry;
  lang_symbol_metadata : list (ts_symbol * TSSymbolMetadata);
  public_symbol_map : list (ts_symbol * ts_symbol);
  alias_map : list nat;
  alias_sequences : list (list ts_symbol);
  lex_modes : list TSLexMode;
  lex_fn : nat → L → nat → res (bool * L);
  keyword_lex_fn : nat → L → nat → res (bool * L);
  keyword_capture_token : ts_symbol;
  external_states : list (list ts_external_token);
  external_symbol_map : list (ts_external_token * ts_symbol);
  external_create : payload;
  external_destroy : ∀ heap : Type, payload → heap → heap;
  external_scan : nat → payload → L → symbols → res (bool * L);
  external_serialize : payload → list Z → Z * list Z;
  external_deserialize : payload → list Z → Z → payload;
  primary_state_ids : list Z;
}.
Arguments version {L} t.
Arguments symbol_count {L} t.
Arguments alias_count {L} t.
Arguments token_count {L} t.
Arguments external_token_count {L} t.
Arguments state_count {L} t.
Arguments large_state_count {L} t.
Arguments production_id_count {L} t.
Arguments field_count {L} t.
Arguments max_alias_sequence_length {L} t.
Arguments parse_table {L} t.
Arguments small_parse_table_map {L} t.
Arguments symbol_names {L} t.
Arguments field_names {L} t.
Arguments field_map_slices {L} t.
Arguments alias_sequences {L} t.
Arguments primary_state_ids {L} t.
Arguments lang_symbol_metadata {L} t.
Arguments public_symbol_map {L} t.
Arguments lex_modes {L} t.
Arguments keyword_lex_fn {L} t.
Arguments keyword_capture_token {L} t.
Arguments external_states {L} t.
Arguments external_symbol_map {L} t.

Definition LANGUAGE_VERSION : Z := 14.
Definition ALIAS_COUNT : nat := 0.

Definition tree_sitter_pascal `{TSLexer L} : TSLanguage L := {|
  version := LANGUAGE_VERSION;
  symbol_count := SYMBOL_COUNT;
  alias_count := ALIAS_COUNT;
  token_count := TOKEN_COUNT;
  external_token_count := EXTERNAL_TOKEN_COUNT;
  state_count := STATE_COUNT;
  large_state_count := LARGE_STATE_COUNT;
  production_id_count := PRODUCTION_ID_COUNT;
  field_count := FIELD_COUNT;
  max_alias_sequence_length := MAX_ALIAS_SEQUENCE_LENGTH;
  parse_table := ts_parse_table;
  small_parse_table := ts_small_parse_table;
  small_parse_table_map := ts_small_parse_table_map;
  parse_actions := ts_parse_actions;
  symbol_names := ts_symbol_names;
  field_names := ts_field_names;
  field_map_slices := ts_field_map_slices;
  field_map_entries := ts_field_map_entries;
  lang_symbol_metadata := ts_symbol_metadata;
  public_symbol_map := ts_symbol_map;
  alias_map := ts_non_terminal_alias_map;
  alias_sequences := ts_alias_sequences;
  lex_modes := ts_lex_modes;
  lex_fn := ts_lex;
  keyword_lex_fn := ts_lex_keywords;
  keyword_capture_token := sym_identifier;
  external_states := ts_external_scanner_states;
  external_symbol_map := ts_external_scanner_symbol_map;
  external_create := tree_sitter_pascal_external_scanner_create;
  external_destroy := @tree_sitter_pascal_external_scanner_destroy;
  external_scan := tree_sitter_pascal_external_scanner_scan;
  external_serialize := tree_sitter_pascal_external_scanner_serialize;
  external_deserialize := tree_sitter_pascal_external_scanner_deserialize;
  primary_state_ids := ts_primary_state_ids;
|}.

(** Replaces a field of the record by its value. *)
Ltac record_field :=
  cbv beta iota delta [tree_sitter_pascal symbol_count token_count external_token_count
    state_count large_state_count production_id_count field_count max_alias_sequence_length
    parse_table small_parse_table_map symbol_names field_names field_map_slices
    lang_symbol_metadata public_symbol_map alias_sequences lex_modes external_symbol_map
    primary_state_ids].

(** The symbols the lexer and the scanner can report. *)
Definition reported_symbols : list ts_symbol :=
  List.flat_map (λ body, option_list (case_accept body)) ts_lex_cases
  ++ ts_external_scanner_symbol_map.*2.

Section language.
Context `{TSLexerOk L}.

Lemma keyword_lexer_idle fuel (l : L) :
  (length (rest l) + 1 < fuel)%nat →
  ∃ l', keyword_lex_fn (L:=L) tree_sitter_pascal fuel l 0 = Ret (true, l')
    ∧ result_symbol l' = Z.of_nat (symbol_index ts_builtin_sym_end)
    ∧ token_end l' = rest l.
Proof.
  intros Hf. destruct (lex_munch ts_lex_keywords_cases eq_refl fuel 0 l false) as (b & l' & Hl & Hv);
    [simpl; lia|done|].
  exists l'.
  assert (munch ts_lex_keywords_cases 0 (rest l) = Some (ts_builtin_sym_end, rest l)) as Hm.
  { by destruct (rest l). }
  rewrite Hm in Hv. destruct Hv as (-> & -> & ->). done.
Qed.

(** The record the runtime receives is consistent: the symbol arrays have
    one entry per symbol, in order; there is a row for each large state and an
    index for each small one, a lex mode and a primary state for each parse
    state, a name for each field after the unused number 0, a field
    slice and an alias row of full length for each production, and a symbol for
    each external token; every symbol the lexer or the
    scanner can report is numbered as a token; and the keyword lexer, called
    on any text, accepts the empty token of the end symbol, so that it never
    turns an identifier into a keyword. *)
Theorem language_record_consistent fuel (l : L) :
  (length (rest l) + 1 < fuel)%nat →
  (symbol_names (L:=L) tree_sitter_pascal).*1 = all_symbols
  ∧ (lang_symbol_metadata (L:=L) tree_sitter_pascal).*1 = all_symbols
  ∧ (public_symbol_map (L:=L) tree_sitter_pascal).*1 = all_symbols
  ∧ symbol_count (L:=L) tree_sitter_pascal = length all_symbols
  ∧ state_count (L:=L) tree_sitter_pascal = length (lex_modes (L:=L) tree_sitter_pascal)
  ∧ state_count (L:=L) tree_sitter_pascal
    = length (primary_state_ids (L:=L) tree_sitter_pascal)
  ∧ large_state_count (L:=L) tree_sitter_pascal
    = length (parse_table (L:=L) tree_sitter_pascal)
  ∧ state_count (L:=L) tree_sitter_pascal
    = (large_state_count (L:=L) tree_sitter_pascal
       + length (small_parse_table_map (L:=L) tree_sitter_pascal))%nat
  ∧ length (field_names (L:=L) tree_sitter_pascal)
    = S (field_count (L:=L) tree_sitter_pascal)
  ∧ length (field_map_slices (L:=L) tree_sitter_pascal)
    = production_id_count (L:=L) tree_sitter_pascal
  ∧ length <$> alias_sequences (L:=L) tree_sitter_pascal
    = replicate (production_id_count (L:=L) tree_sitter_pascal)
        (max_alias_sequence_length (L:=L) tree_sitter_pascal)
  ∧ external_index <$> (external_symbol_map (L:=L) tree_sitter_pascal).*1
    = seq 0 (external_token_count (L:=L) tree_sitter_pascal)
  ∧ Forall (λ s, symbol_index s < token_count (L:=L) tree_sitter_pascal)%nat reported_symbols
  ∧ ∃ l', keyword_lex_fn (L:=L) tree_sitter_pascal fuel l 0 = Ret (true, l')
      ∧ result_symbol l' = Z.of_nat (symbol_index ts_builtin_sym_end)
      ∧ token_end l' = rest l.
Proof.
  intros Hf. split_and!; record_field.
  1-12: by vm_compute.
  - apply (bool_decide_unpack _). by vm_compute.
  - by apply keyword_lexer_idle.
Qed.
End language.
