(* ===== verification/Widths.v ===== *)
(** * The tables fit their machine types

    [parser.h] stores the numbers of the tables in 8, 16 and 32 bits, and
    [parser.c] fills them from constants: a number too large for its type would
    be stored as another one.  The model keeps the numbers unbounded; the theorem
    shows that every one of them fits the type the source declares for it. *)

From S2P Require Import Prelude.
From S2P Require Import Symbols.
From S2P Require Import LexModes.
From S2P Require Import Fields.
From S2P Require Import FieldTheorems.
From S2P Require Import PrimaryStates.
From S2P Require Import ParseTypes.
From S2P Require Import ParseActions.
From S2P Require Import ParseTable.
From S2P Require Import SmallMap.
From S2P Require Import SmallTable.
From S2P Require Import ActionTheorems.
From S2P Require Import ParseRows.

(** ** Types *)

Definition uint8_t (x : Z) : bool := (0 <=? x) && (x <? 2 ^ 8).
Definition uint16_t (x : Z) : bool := (0 <=? x) && (x <? 2 ^ 16).
Definition uint32_t (x : Z) : bool := (0 <=? x) && (x <? 2 ^ 32).
Definition int16_t (x : Z) : bool := (- 2 ^ 15 <=? x) && (x <? 2 ^ 15).

Definition TSStateId : Z → bool := uint16_t.
Definition TSSymbol (s : ts_symbol) : bool := uint16_t (Z.of_nat (symbol_index s)).
Definition TSFieldId (f : ts_field) : bool := uint16_t (Z.of_nat (field_number f)).

(** The fields of the structures of [parser.h]. *)
Definition action_fits (a : TSParseAction) : bool :=
  match a with
  | TSParseActionTypeShift state _ _ => TSStateId state
  | TSParseActionTypeReduce child_count symbol dynamic_precedence production_id =>
      uint8_t child_count && TSSymbol symbol && int16_t dynamic_precedence
      && uint16_t production_id
  | TSParseActionTypeAccept | TSParseActionTypeRecover => true
  end.

Definition action_entry_fits (e : TSParseActionEntry) : bool :=
  match e with Entry count _ => uint8_t count | Action a => action_fits a end.

Definition lex_mode_fits (m : TSLexMode) : bool :=
  uint16_t (lex_state m) && uint16_t (external_lex_state m).

Definition field_entry_fits (e : TSFieldMapEntry) : bool :=
  TSFieldId (field_id e) && uint8_t (child_index e).

Definition field_slice_fits (s : TSFieldMapSlice) : bool :=
  uint16_t (slice_index s) && uint16_t (slice_length s).

(** ** The checks *)

(** Every symbol fits, so that only the other numbers of a record are checked. *)
Lemma symbols_fit s : TSSymbol s = true.
Proof. revert s. apply symbol_forall. by vm_compute. Qed.

Definition row_fits (r : parse_row) : bool :=
  uint16_t (Z.of_nat (length r))
  && forallb (λ g, uint16_t (group_id g) && uint16_t (Z.of_nat (length (group_symbols g)))) r.

Lemma rows_fit_checked : forallb row_fits parse_rows = true.
Proof. by vm_compute. Qed.

Lemma action_entries_checked :
  forallb (λ run, forallb action_entry_fits run.2) parse_action_runs = true.
Proof. by vm_compute. Qed.

Lemma states_fit_checked : forallb TSStateId ts_primary_state_ids = true.
Proof. by vm_compute. Qed.

Lemma modes_fit_checked : forallb lex_mode_fits ts_lex_modes = true.
Proof. by vm_compute. Qed.

Lemma small_map_fits_checked : forallb uint32_t ts_small_parse_table_map = true.
Proof. by vm_compute. Qed.

Lemma fields_fit_checked :
  forallb field_entry_fits ts_field_map_entries && forallb field_slice_fits ts_field_map_slices = true.
Proof. by vm_compute. Qed.

(** ** The theorem *)

Lemma forallb_Forall {A} (f : A → bool) l : forallb f l = true → Forall (λ x, f x = true) l.
Proof.
  rewrite forallb_forall, Forall_forall. intros Hall x Hx. by apply Hall, list_elem_of_In.
Qed.

#[local] Opaque ts_parse_table parse_action_runs ts_parse_actions ts_small_parse_table_map
  ts_primary_state_ids ts_lex_modes ts_field_map_entries ts_field_map_slices small_runs.

Lemma record_fits run :
  row_fits (small_row run) = true → record_counted run = true →
  Forall (λ x, uint16_t x = true) (record_elements run).
Proof.
  destruct run as [[k n] gs]. unfold record_counted, small_row, record_elements. cbn [fst snd].
  intros [Hl Hg]%andb_prop [->%Z.eqb_eq Hc]%andb_prop. rewrite length_fmap in Hl.
  constructor; [done|]. apply forallb_Forall in Hg, Hc. rewrite Forall_fmap in Hg.
  apply Forall_forall. intros x (g & Hx & Hin)%list_elem_of_bind.
  rewrite Forall_forall in Hg, Hc. specialize (Hg g Hin). specialize (Hc g Hin).
  apply andb_prop in Hg as [Hid Hlen].
  destruct g as [id count ss|id count ss]; cbn in Hid, Hlen, Hc, Hx; apply Z.eqb_eq in Hc as ->;
    (apply elem_of_cons in Hx as [->|Hx]; [done|]); (apply elem_of_cons in Hx as [->|Hx]; [done|]);
    apply list_elem_of_fmap in Hx as (s & -> & _); apply symbols_fit.
Qed.

Lemma small_row_fits run : run ∈ small_runs → row_fits (small_row run) = true.
Proof.
  intros Hin. pose proof rows_fit_checked as Hc. unfold parse_rows in Hc.
  rewrite forallb_app in Hc. apply andb_prop in Hc as [_ Hc]. rewrite forallb_forall in Hc.
  specialize (Hc (small_row run)). rewrite <- list_elem_of_In in Hc.
  exact (Hc (list_elem_of_fmap_2 small_row _ _ Hin)).
Qed.

Lemma small_record_fits run :
  run ∈ small_runs → Forall (λ x, uint16_t x = true) (record_elements run).
Proof.
  intros Hin. apply record_fits; [by apply small_row_fits|].
  pose proof small_runs_counted as Hc. rewrite forallb_forall in Hc.
  exact (Hc run (proj1 (list_elem_of_In _ _) Hin)).
Qed.

#[local] Opaque parse_rows.

(** C25. No number of the tables is cut off: the states, action numbers and symbols
    of the parse tables fit 16 bits, in the rows of the large states and in the flat
    array of the small ones, whose indices fit 32 bits; the counts, states, child
    counts, precedences and productions of the parse actions fit the fields of their
    unions; so do the primary states, the lex modes and the field tables. *)
Theorem tables_fit_widths :
  Forall (Forall (λ g, uint16_t (group_id g) = true
                       ∧ Forall (λ s, TSSymbol s = true) (group_symbols g))) parse_rows
  ∧ Forall (λ x, uint16_t x = true) ts_small_parse_table
  ∧ Forall (λ x, uint32_t x = true) ts_small_parse_table_map
  ∧ Forall (λ e, action_entry_fits e = true) ts_parse_actions
  ∧ Forall (λ q, TSStateId q = true) ts_primary_state_ids
  ∧ Forall (λ m, lex_mode_fits m = true) ts_lex_modes
  ∧ Forall (λ e, field_entry_fits e = true) ts_field_map_entries
  ∧ Forall (λ s, field_slice_fits s = true) ts_field_map_slices.
Proof.
  pose proof (forallb_Forall _ _ rows_fit_checked) as Hrows.
  destruct (andb_prop _ _ fields_fit_checked) as [Hentries Hslices].
  split_and!; [..|exact (forallb_Forall _ _ states_fit_checked)
    |exact (forallb_Forall _ _ modes_fit_checked)|exact (forallb_Forall _ _ Hentries)
    |exact (forallb_Forall _ _ Hslices)].
  - eapply Forall_impl; [exact Hrows|]. intros r [_ Hg]%andb_prop. apply forallb_Forall in Hg.
    eapply Forall_impl; [exact Hg|]. intros g [Hid _]%andb_prop. split; [exact Hid|].
    apply Forall_forall. intros s _. apply symbols_fit.
  - unfold ts_small_parse_table.
    rewrite designated_contiguous by (apply sizes_contiguous_elements, small_runs_contiguous).
    apply Forall_concat, Forall_fmap, Forall_fmap, Forall_forall. intros run Hrun.
    exact (small_record_fits run Hrun).
  - exact (forallb_Forall _ _ small_map_fits_checked).
  - rewrite parse_actions_concat. apply Forall_concat, Forall_fmap.
    eapply Forall_impl; [exact (forallb_Forall _ _ action_entries_checked)|].
    intros run Hrun. exact (forallb_Forall _ _ Hrun).
Qed.
