(* ===== verification/TableTheorems.v ===== *)
(** * The parse table fits the actions, the scanner and the lexer

    The rows of all parse states against the other tables: the entry of a
    token is a group of actions and the entry of a non-terminal a state; the
    tokens a state has an action for are exactly what the scanner is asked for
    and what the lexer can recognise in its lex mode; and a state has the
    transitions of its primary state. *)

From stdpp Require Import pmap.
From S2P Require Import Prelude.
From S2P Require Import Lexer.
From S2P Require Import Tokens.
From S2P Require Import Words.
From S2P Require Import Scanner.
From S2P Require Import Symbols.
From S2P Require Import SymbolSets.
From S2P Require Import LexTable.
From S2P Require Import LexTokens.
From S2P Require Import External.
From S2P Require Import LexModes.
From S2P Require Import PrimaryStates.
From S2P Require Import FieldTheorems.
From S2P Require Import ParserTheorems.
From S2P Require Import ParseTypes.
From S2P Require Import ParseActions.
From S2P Require Import ActionTheorems.
From S2P Require Import ParseTable1.
From S2P Require Import ParseRows.

(** ** Types of the entries *)

(** The headers of the groups that have an action. *)
Definition headers : symset :=
  index_actions (λ acts, if acts is [] then None else Some tt) parse_action_runs.

Definition group_typed (hs : symset) (g : parse_group) : bool :=
  match g with
  | ACTIONS id ss =>
      (0 <? id) && (if hs !! Z.to_pos (id + 1) is Some _ then true else false)
      && forallb is_token ss
  | STATE id ss => (0 <? id) && (id <? 16007) && forallb (λ s, negb (is_token s)) ss
  end.

Definition row_typed (hs : symset) (r : parse_row) : bool :=
  sym_distinct ∅ (row_symbols r) && forallb (group_typed hs) r.

Lemma rows_typed : (λ hs, forallb (row_typed hs) parse_rows) headers = true.
Proof. by vm_compute. Qed.

(** ** Tokens of a state *)

(** The tokens with an action. *)
Definition row_tokens (r : parse_row) : list ts_symbol :=
  r ≫= (λ g, if g is ACTIONS _ ss then ss else []).

Definition external_symbols : list ts_symbol := ts_external_scanner_symbol_map.*2.

Definition external_row_symbols (es : list ts_external_token) : list ts_symbol :=
  omap (λ e, external_symbols !! external_index e) es.

Definition external_sets : list (list ts_symbol * symset) :=
  (λ es, let ss := external_row_symbols es in (ss, of_syms ss)) <$> ts_external_scanner_states.

Definition lex_sets : Pmap symset := index_by (λ s, of_syms (state_tokens s)) lex_states.

Definition row_lexed (ext : symset) (es : list (list ts_symbol * symset)) (ls : Pmap symset)
    (rm : parse_row * TSLexMode) : bool :=
  let toks := row_tokens rm.1 in
  match es !! Z.to_nat (external_lex_state rm.2), ls !! Z.to_pos (lex_state rm.2 + 1) with
  | Some (esyms, eset), Some lset =>
      forallb (λ s, if sym_in s ext then sym_in s eset else sym_in s lset) toks
      && (λ tset, forallb (λ s, sym_in s tset) esyms) (of_syms toks)
  | _, _ => false
  end.

Lemma rows_lexed :
  (λ ext es ls, forallb (row_lexed ext es ls) (zip parse_rows ts_lex_modes))
    (of_syms external_symbols) external_sets lex_sets = true.
Proof. by vm_compute. Qed.

(** ** Transitions *)

Definition shift_target (acts : list TSParseAction) : option Z :=
  match last acts with
  | Some (TSParseActionTypeShift st false _) => Some st
  | _ => None
  end.

(** The state after a shift of a token or after a node of a non-terminal. *)
Definition transition (r : parse_row) (s : ts_symbol) : option Z :=
  let e := parse_entry r s in
  if is_token s then action_group e ≫= shift_target
  else if e =? 0 then None else Some e.

Definition primary (q : Z) : option Z := ts_primary_state_ids !! Z.to_nat q.

(** ** Primary states of the transitions, precomputed *)

Fixpoint index_from {A} (n : positive) (l : list A) : Pmap A :=
  match l with [] => ∅ | x :: l => <[n := x]> (index_from (Pos.succ n) l) end.

Definition primaries : Pmap Z := index_from 1 ts_primary_state_ids.

Definition shifts (ps : Pmap Z) : Pmap Z :=
  index_actions (λ acts, q ← shift_target acts; ps !! Z.to_pos (q + 1)) parse_action_runs.

Definition group_target (ps sh : Pmap Z) (g : parse_group) : option Z :=
  match g with
  | ACTIONS id _ => sh !! Z.to_pos (id + 1)
  | STATE id _ => ps !! Z.to_pos (id + 1)
  end.

Definition row_map (ps sh : Pmap Z) (r : parse_row) : Pmap Z :=
  foldr (λ g m, if group_target ps sh g is Some q
                then foldr (λ s m, <[symbol_code s := q]> m) m (group_symbols g) else m) ∅ r.

(** The tokens of which a state may lack the shift its primary state has, or
    the other way round. *)
Definition partial_shifts : list ts_symbol := [sym_identifier; sym_kGt].

Definition targets_agree (t1 t2 : option Z) : bool :=
  match t1, t2 with Some q1, Some q2 => q1 =? q2 | _, _ => true end.

(** Two rows with the same transitions, but for such shifts. *)
Definition maps_agree (m1 m2 : Pmap Z) : bool :=
  let clear m := foldr (λ s m, delete (symbol_code s) m) m partial_shifts in
  bool_decide (clear m1 = clear m2)
  && forallb (λ s, targets_agree (m1 !! symbol_code s) (m2 !! symbol_code s)) partial_shifts.

Definition primary_row (index : Pmap (Pmap Z)) (mp : Pmap Z * Z) : bool :=
  if index !! Z.to_pos (mp.2 + 1) is Some m then maps_agree mp.1 m else false.

Definition primary_rows (maps : list (Pmap Z)) : bool :=
  (λ index, forallb (primary_row index) (zip maps ts_primary_state_ids)) (index_from 1 maps).

Lemma primary_rows_checked :
  (λ ps, (λ sh, primary_rows (row_map ps sh <$> parse_rows)) (shifts ps)) primaries = true.
Proof. by vm_compute. Qed.

(** ** What the checks say of a row *)

#[local] Opaque parse_rows parse_action_runs action_group ts_lex_modes
  ts_external_scanner_states.

Lemma table_row_typed q row :
  parse_rows !! q = Some row →
  NoDup (row_symbols row) ∧ Forall (λ g, group_typed headers g = true) row.
Proof.
  intros Hq. pose proof rows_typed as Hc. cbn beta in Hc. rewrite forallb_forall in Hc.
  specialize (Hc row (proj1 (list_elem_of_In _ _) (list_elem_of_lookup_2 _ _ _ Hq))).
  apply andb_prop in Hc as [Hd Hg]. split; [by apply sym_distinct_nodup|].
  apply Forall_forall. intros g Hin. rewrite forallb_forall in Hg.
  by apply Hg, list_elem_of_In.
Qed.

Lemma group_typed_actions id ss :
  group_typed headers (ACTIONS id ss) = true →
  0 < id ∧ Forall is_token ss
  ∧ ∃ acts, action_group id = Some acts ∧ acts ≠ [] ∧ id ∈ parse_action_runs.*1.
Proof.
  unfold group_typed. destruct (headers !! _) as [[]|] eqn:Hh; [|by rewrite andb_false_r].
  intros [[Hid _]%andb_prop Hf]%andb_prop. split_and!; [lia| |].
  - apply Forall_forall. intros s Hs. rewrite forallb_forall in Hf.
    apply Is_true_true, Hf. by apply list_elem_of_In.
  - apply index_actions_lookup in Hh as (Hkey & acts & Ha & Hn); [|lia].
    exists acts. split_and!; [done|by destruct acts|done].
Qed.

Lemma group_typed_state id ss :
  group_typed headers (STATE id ss) = true →
  0 < id < Z.of_nat STATE_COUNT ∧ Forall (λ s, is_token s = false) ss.
Proof.
  unfold group_typed. intros [[Hid Hlt]%andb_prop Hf]%andb_prop. split.
  - unfold STATE_COUNT. lia.
  - apply Forall_forall. intros s Hs. rewrite forallb_forall in Hf.
    apply negb_true_iff, Hf. by apply list_elem_of_In.
Qed.

(** The entry of a row, read from its groups. *)
Lemma table_entry q row s :
  parse_rows !! q = Some row →
  (∃ g, g ∈ row ∧ s ∈ group_symbols g ∧ group_typed headers g = true
     ∧ parse_entry row s = group_id g ∧ 0 < group_id g)
  ∨ (s ∉ row_symbols row) ∧ parse_entry row s = 0.
Proof.
  intros Hq. destruct (table_row_typed q row Hq) as [Hnd Hty]. rewrite Forall_forall in Hty.
  destruct (decide (s ∈ row_symbols row)) as [Hs|Hs].
  - left. apply list_elem_of_bind in Hs as (g & Hs & Hg). exists g.
    specialize (Hty g Hg). split_and!; [done..|by apply parse_entry_group|].
    destruct g; [by apply group_typed_actions in Hty as [? _]|].
    apply group_typed_state in Hty as [? _]. simpl. lia.
  - right. split; [done|]. destruct (decide (parse_entry row s = 0)) as [|Hne]; [done|].
    apply parse_entry_inv in Hne as (g & Hg & Hsg & _). exfalso.
    apply Hs, list_elem_of_bind. eauto.
Qed.

(** C20. The parse table is well typed: it has a row for each parse state, a
    row gives each symbol at most one value, the entry of a token is the index
    of a group of [ts_parse_actions], with at least one action unless the
    entry is 0, and the entry of a non-terminal is a parse state. *)
Theorem parse_table_typed q row s :
  parse_rows !! q = Some row →
  (q < STATE_COUNT)%nat ∧ NoDup (row_symbols row)
  ∧ if Nat.ltb (symbol_index s) TOKEN_COUNT
    then ∃ acts, action_group (parse_entry row s) = Some acts
      ∧ (parse_entry row s ≠ 0 → acts ≠ [])
    else 0 ≤ parse_entry row s < Z.of_nat STATE_COUNT.
Proof.
  intros Hq. split_and!.
  { rewrite <- parse_rows_length. by eapply lookup_lt_Some. }
  { by eapply table_row_typed. }
  destruct (table_entry q row s Hq) as [(g & Hg & Hs & Hty & -> & Hid)|[Hs ->]].
  - destruct g as [id ss|id ss]; cbn [group_id group_symbols] in *.
    + apply group_typed_actions in Hty as (_ & Htok & acts & Ha & Hne & _).
      rewrite Forall_forall in Htok. apply Htok, Is_true_true, is_token_index in Hs.
      rewrite (proj2 (Nat.ltb_lt _ _)) by done. by exists acts.
    + apply group_typed_state in Hty as [? Htok].
      rewrite Forall_forall in Htok. apply Htok, not_true_iff_false in Hs.
      rewrite is_token_index in Hs. rewrite (proj2 (Nat.ltb_ge _ _)) by lia. lia.
  - case_match; [exists []; split; [apply no_actions|done]|unfold STATE_COUNT; lia].
Qed.

Lemma parse_table_typed_witness :
  (1 < STATE_COUNT)%nat ∧ NoDup (row_symbols ts_parse_table_1)
  ∧ if Nat.ltb (symbol_index sym_kBegin) TOKEN_COUNT
    then ∃ acts, action_group (parse_entry ts_parse_table_1 sym_kBegin) = Some acts
      ∧ (parse_entry ts_parse_table_1 sym_kBegin ≠ 0 → acts ≠ [])
    else 0 ≤ parse_entry ts_parse_table_1 sym_kBegin < Z.of_nat STATE_COUNT.
Proof. refine (parse_table_typed 1 _ sym_kBegin _). by vm_compute. Defined.

(** ** The tokens of a state *)

Lemma row_tokens_entry q row s :
  parse_rows !! q = Some row →
  s ∈ row_tokens row ↔ is_token s = true ∧ parse_entry row s ≠ 0.
Proof.
  intros Hq. destruct (table_row_typed q row Hq) as [Hnd Hty]. rewrite Forall_forall in Hty.
  unfold row_tokens. rewrite list_elem_of_bind. split.
  - intros ([id ss|id ss] & Hs & Hg); [|by apply not_elem_of_nil in Hs].
    rewrite (parse_entry_group row s (ACTIONS id ss)) by done.
    apply Hty, group_typed_actions in Hg as (? & Htok & _). rewrite Forall_forall in Htok.
    split; [by apply Is_true_true, Htok|simpl; lia].
  - intros [Hs (g & Hg & Hsg & _)%parse_entry_inv]. exists g. split; [|done].
    destruct g as [id ss|id ss]; [done|].
    apply Hty, group_typed_state in Hg as [_ Htok]. rewrite Forall_forall in Htok.
    apply Htok in Hsg. congruence.
Qed.

Lemma external_symbol_lookup t : external_symbol t = external_symbols !! token_index t.
Proof. by destruct t. Qed.

Lemma external_symbols_nodup : NoDup external_symbols.
Proof. apply sym_distinct_nodup. by vm_compute. Qed.

Lemma external_symbols_tokens s : s ∈ external_symbols → is_token s = true.
Proof.
  assert (forallb is_token external_symbols = true) as Hall by by vm_compute.
  rewrite forallb_forall in Hall. intros Hs. by apply Hall, list_elem_of_In.
Qed.

Lemma external_symbol_total t : ∃ s, external_symbol t = Some s.
Proof. destruct t; by eexists. Qed.

Lemma external_symbol_in s : s ∈ external_symbols → ∃ t, external_symbol t = Some s.
Proof.
  assert (external_symbol <$> all_tokens = Some <$> external_symbols) as Hall by by vm_compute.
  intros Hs%(list_elem_of_fmap_2 Some). rewrite <- Hall in Hs.
  apply list_elem_of_fmap in Hs as (t & Ht & _). by exists t.
Qed.

(** A token is valid in an external state if its symbol is in the row. *)
Lemma valid_row_symbols r es t s :
  ts_external_scanner_states !! r = Some es → external_symbol t = Some s →
  valid_symbols_of r t = true ↔ s ∈ external_row_symbols es.
Proof.
  intros Hr Ht. rewrite external_symbol_lookup in Ht.
  unfold valid_symbols_of, external_row, external_row_symbols. rewrite Hr. cbn [default].
  rewrite existsb_exists, list_elem_of_omap. setoid_rewrite list_elem_of_In. split.
  - intros (e & He & Hi%Nat.eqb_eq). exists e. by rewrite Hi.
  - intros (e & He & Hs). exists e. split; [done|]. apply Nat.eqb_eq.
    by eapply NoDup_lookup; [apply external_symbols_nodup|..].
Qed.

(** The check of the rows, for one state. *)
Lemma row_lexed_at q row m :
  parse_rows !! q = Some row → ts_lex_modes !! q = Some m →
  ∃ es, ts_external_scanner_states !! Z.to_nat (external_lex_state m) = Some es
    ∧ (∀ s, s ∈ external_row_symbols es → s ∈ row_tokens row)
    ∧ ∀ s, s ∈ row_tokens row →
        if sym_in s (of_syms external_symbols) then s ∈ external_row_symbols es
        else ∃ lset, lex_sets !! Z.to_pos (lex_state m + 1) = Some lset ∧ sym_in s lset = true.
Proof.
  intros Hq Hm. pose proof rows_lexed as Hc. cbn beta in Hc. rewrite forallb_forall in Hc.
  assert (List.In (row, m) (zip parse_rows ts_lex_modes)) as Hin.
  { apply list_elem_of_In, list_elem_of_lookup. exists q.
    by rewrite lookup_zip_with, Hq, Hm. }
  specialize (Hc _ Hin). unfold row_lexed, external_sets in Hc. cbn [fst snd] in Hc.
  rewrite list_lookup_fmap in Hc.
  destruct (ts_external_scanner_states !! _) as [es|]; [|done]. cbn [fmap option_fmap option_map] in Hc.
  destruct (lex_sets !! _) as [lset|] eqn:Hl; [|done].
  apply andb_prop in Hc as [H1 H2]. rewrite forallb_forall in H1, H2.
  exists es. split_and!; [done| |].
  - intros s Hs. apply sym_in_of_syms, H2. by apply list_elem_of_In.
  - intros s Hs. specialize (H1 s (proj1 (list_elem_of_In _ _) Hs)).
    destruct (sym_in s (of_syms external_symbols)); [by apply sym_in_of_syms|by exists lset].
Qed.

Lemma lex_state_nonneg q m : ts_lex_modes !! q = Some m → 0 ≤ lex_state m.
Proof.
  intros Hm. pose proof all_modes_ok as Hall. rewrite forallb_forall in Hall.
  specialize (Hall m (proj1 (list_elem_of_In _ _) (list_elem_of_lookup_2 _ _ _ Hm))).
  unfold mode_ok in Hall. lia.
Qed.

(** C19. The scanner is asked for exactly the tokens the parser can use: in every
    parse state the array [valid_symbols] of its lex mode marks an
    external token if and only if the row of the state has an action for the
    symbol of the token. *)
Theorem valid_symbols_exact q row m t :
  parse_rows !! q = Some row → ts_lex_modes !! q = Some m →
  valid_symbols_of (Z.to_nat (external_lex_state m)) t = true
  ↔ ∃ s, external_symbol t = Some s ∧ parse_entry row s ≠ 0.
Proof.
  intros Hq Hm. destruct (row_lexed_at q row m Hq Hm) as (es & Hes & Hin & Hout).
  destruct (external_symbol_total t) as [s Hs]. rewrite (valid_row_symbols _ es t s) by done.
  split.
  - intros [_ Hne]%Hin%(row_tokens_entry q row s Hq). eauto.
  - intros (s' & Hs' & Hne). assert (s' = s) as -> by congruence.
    assert (s ∈ external_symbols) as Hext.
    { rewrite external_symbol_lookup in Hs. by eapply list_elem_of_lookup_2. }
    specialize (Hout s). rewrite (proj2 (sym_in_of_syms _ _) Hext) in Hout.
    apply Hout, (row_tokens_entry q row s Hq). eauto using external_symbols_tokens.
Qed.

(** C22. Every token a parse state has an action for can be read there:
    either it is an external token and the scanner is asked for it, or it is a
    token the internal lexer recognises from the lex state of the state. *)
Theorem action_tokens_lexed q row m s :
  parse_rows !! q = Some row → ts_lex_modes !! q = Some m →
  (symbol_index s < TOKEN_COUNT)%nat → parse_entry row s ≠ 0 →
  (∃ t, external_symbol t = Some s
     ∧ valid_symbols_of (Z.to_nat (external_lex_state m)) t = true)
  ∨ s ∈ state_tokens (Z.to_nat (lex_state m)).
Proof.
  intros Hq Hm Hs Hne. destruct (row_lexed_at q row m Hq Hm) as (es & Hes & Hin & Hout).
  assert (s ∈ row_tokens row) as Hrow.
  { apply (row_tokens_entry q row s Hq). rewrite is_token_index. by split. }
  specialize (Hout s Hrow). destruct (sym_in s (of_syms external_symbols)) eqn:Hext.
  - left. apply sym_in_of_syms, external_symbol_in in Hext as [t Ht]. exists t.
    split; [done|]. by rewrite (valid_row_symbols _ es t s).
  - right. destruct Hout as (lset & Hl & Hin').
    apply index_by_lookup in Hl as [_ ->]; [|exact (lex_state_nonneg q m Hm)]. by apply sym_in_of_syms.
Qed.

Section composition.
Context `{TSLexerOk L}.

(** C18. The scanner and the parser fit together: when the scanner, called in a
    parse state with the valid symbols of its lex mode, returns a token,
    the parser has actions for the symbol under which the token is reported,
    and the actions are well formed. *)
Theorem scanned_token_has_actions fuel p (l : L) q row m l' :
  (length (rest l) < fuel)%nat → Z.of_nat (length (rest l)) < 2 ^ 32 →
  parse_rows !! q = Some row → ts_lex_modes !! q = Some m →
  tree_sitter_pascal_external_scanner_scan fuel p l
    (valid_symbols_of (Z.to_nat (external_lex_state m))) = Ret (true, l') →
  ∃ t s acts, result_symbol l' = Z.of_nat (token_index t) ∧ external_symbol t = Some s
    ∧ action_group (parse_entry row s) = Some acts ∧ acts ≠ [] ∧ group_ok acts.
Proof.
  intros Hf Hb Hq Hm Hs.
  destruct (scan_cases fuel p l (valid_symbols_of (Z.to_nat (external_lex_state m))) Hf Hb)
    as [(t & k & Ht & Hs')|(_ & ? & Hs' & _)]; rewrite Hs' in Hs; simplify_eq.
  apply token_at_valid in Ht as Hv.
  destruct (row_lexed_at q row m Hq Hm) as (es & Hes & Hin & _).
  destruct (external_symbol_total t) as [s Hsym].
  apply (valid_row_symbols _ es t s Hes Hsym), Hin, (row_tokens_entry q row s Hq) in Hv
    as [Htok Hne].
  destruct (table_entry q row s Hq) as [(g & Hg & Hsg & Hty & He & _)|[_ ?]]; [|done].
  destruct g as [id ss|id ss].
  - apply group_typed_actions in Hty as (_ & _ & acts & Ha & Hna & _).
    exists t, s, acts. rewrite He. split_and!; [apply result_set_result|done..|].
    by eapply action_group_ok.
  - apply group_typed_state in Hty as [_ Htok']. rewrite Forall_forall in Htok'.
    apply Htok' in Hsg. congruence.
Qed.
End composition.

Lemma valid_symbols_exact_witness :
  valid_symbols_of (Z.to_nat (external_lex_state (MkMode 144 2))) KBEGIN = true
  ↔ ∃ s, external_symbol KBEGIN = Some s ∧ parse_entry ts_parse_table_1 s ≠ 0.
Proof. refine (valid_symbols_exact 1 _ (MkMode 144 2) KBEGIN _ _); by vm_compute. Defined.

Lemma action_tokens_lexed_witness :
  (∃ t, external_symbol t = Some sym_comment
     ∧ valid_symbols_of (Z.to_nat (external_lex_state (MkMode 144 2))) t = true)
  ∨ sym_comment ∈ state_tokens (Z.to_nat (lex_state (MkMode 144 2))).
Proof.
  refine (action_tokens_lexed 1 ts_parse_table_1 (MkMode 144 2) sym_comment _ _ _ _);
    [by vm_compute..|vm_compute; lia|by vm_compute].
Defined.

Lemma scanned_token_has_actions_witness :
  ∃ t s acts, Z.of_nat (token_index KBEGIN) = Z.of_nat (token_index t)
    ∧ external_symbol t = Some s
    ∧ action_group (parse_entry ts_parse_table_1 s) = Some acts
    ∧ acts ≠ [] ∧ group_ok acts.
Proof.
  refine (scanned_token_has_actions (L:=StrLexer) 20 None (str_lexer "begin x") 1
    ts_parse_table_1 (MkMode 144 2)
    (MkStrLexer (codes " x") (codes " x") (Z.of_nat (token_index KBEGIN))) _ _ _ _ _);
    [concrete|concrete|by vm_compute..].
Defined.

(** ** States and their primary states *)

#[local] Opaque ts_primary_state_ids.

Lemma index_from_lookup {A} (l : list A) n k :
  index_from (Pos.of_succ_nat n) l !! Pos.of_succ_nat (n + k) = l !! k.
Proof.
  revert n k. induction l as [|x l IH]; intros n k; cbn [index_from]; [done|].
  destruct k as [|k]; [by rewrite Nat.add_0_r, lookup_insert_eq|].
  rewrite lookup_insert_ne by lia. change ((x :: l) !! S k) with (l !! k).
  rewrite <- (IH (S n) k). f_equal. lia.
Qed.

Lemma primaries_lookup q : 0 ≤ q → primaries !! Z.to_pos (q + 1) = primary q.
Proof.
  intros Hq. unfold primaries, primary.
  replace (Z.to_pos (q + 1)) with (Pos.of_succ_nat (0 + Z.to_nat q)) by lia.
  exact (index_from_lookup ts_primary_state_ids 0 (Z.to_nat q)).
Qed.

Lemma fold_insert_lookup (q : Z) ss (m : Pmap Z) s :
  foldr (λ s m, <[symbol_code s := q]> m) m ss !! symbol_code s
  = if decide (s ∈ ss) then Some q else m !! symbol_code s.
Proof.
  induction ss as [|s' ss IH]; cbn [foldr]; [done|].
  destruct (decide (s' = s)) as [->|Hne].
  - rewrite lookup_insert_eq, decide_True; [done|]. apply elem_of_cons. by left.
  - rewrite lookup_insert_ne by (by intros ?%(inj symbol_code)). rewrite IH.
    by apply decide_ext; rewrite elem_of_cons; naive_solver.
Qed.

Lemma row_map_lookup ps sh r s :
  NoDup (row_symbols r) →
  (∀ g, g ∈ r → s ∈ group_symbols g → row_map ps sh r !! symbol_code s = group_target ps sh g)
  ∧ (s ∉ row_symbols r → row_map ps sh r !! symbol_code s = None).
Proof.
  induction r as [|g' r IH]; [by split; [intros ? ?%not_elem_of_nil|]|].
  cbn [row_map foldr]. fold (row_map ps sh r).
  change (row_symbols (g' :: r)) with (group_symbols g' ++ row_symbols r).
  intros (Hg' & Hdisj & Hr)%NoDup_app. destruct (IH Hr) as [IH1 IH2]. split.
  - intros g [->|Hg]%elem_of_cons Hs.
    + assert (s ∉ row_symbols r) as Hn%IH2 by by apply Hdisj.
      destruct (group_target ps sh g') as [q|]; [|done].
      by rewrite fold_insert_lookup, decide_True.
    + assert (s ∉ group_symbols g') as Hn.
      { intros Hs'. apply (Hdisj s Hs'), list_elem_of_bind. eauto. }
      rewrite <- (IH1 g) by done. destruct (group_target ps sh g') as [q|]; [|done].
      by rewrite fold_insert_lookup, decide_False.
  - intros [Hn1 Hn2]%not_elem_of_app. destruct (group_target ps sh g') as [q|]; [|by apply IH2].
    rewrite fold_insert_lookup, decide_False by done. by apply IH2.
Qed.

Lemma shift_target_state acts q :
  group_ok acts → shift_target acts = Some q → 0 ≤ q < Z.of_nat STATE_COUNT.
Proof.
  intros [_ Hok] Hq. unfold shift_target in Hq. destruct (last acts) as [a|] eqn:Hl; [|done].
  apply last_Some_elem_of in Hl. rewrite Forall_forall in Hok. specialize (Hok a Hl).
  destruct a as [st [] ?| | |]; simplify_eq. exact Hok.
Qed.

#[local] Opaque primaries.

Lemma shift_primary acts :
  group_ok acts →
  shift_target acts ≫= (λ q, primaries !! Z.to_pos (q + 1)) = shift_target acts ≫= primary.
Proof.
  intros Hok. destruct (shift_target acts) as [q|] eqn:Hq; cbn [mbind option_bind]; [|reflexivity].
  apply primaries_lookup. by eapply shift_target_state.
Qed.

(** The precomputed map of a row gives the primary states of its
    transitions. *)
Lemma row_map_transition q row s :
  parse_rows !! q = Some row →
  row_map primaries (shifts primaries) row !! symbol_code s = transition row s ≫= primary.
Proof.
  intros Hq. destruct (table_row_typed q row Hq) as [Hnd _].
  destruct (row_map_lookup primaries (shifts primaries) row s Hnd) as [Hin Hout].
  unfold transition. destruct (table_entry q row s Hq) as [(g & Hg & Hs & Hty & -> & Hid)|[Hs ->]].
  - rewrite (Hin g Hg Hs). destruct g as [id ss|id ss]; cbn [group_target group_id group_symbols] in *.
    + apply group_typed_actions in Hty as (_ & Htok & acts & Ha & _ & Hkey).
      rewrite Forall_forall in Htok. rewrite (proj1 (Is_true_true _) (Htok s Hs)).
      unfold shifts. rewrite index_actions_key, Ha by (lia || done).
      apply shift_primary. by eapply action_group_ok.
    + apply group_typed_state in Hty as [? Htok]. rewrite Forall_forall in Htok.
      rewrite (Htok s Hs), (proj2 (Z.eqb_neq id 0)) by lia. apply primaries_lookup. lia.
  - rewrite (Hout Hs), no_actions. by case_match.
Qed.

(** Transitions that are equal, or shifts of which one is missing. *)
Definition same_target (s : ts_symbol) (t t' : option Z) : Prop :=
  t = t' ∨ s ∈ partial_shifts ∧ (t = None ∨ t' = None).

Lemma lookup_clear ss (m : Pmap Z) s :
  s ∉ ss → foldr (λ s m, delete (symbol_code s) m) m ss !! symbol_code s = m !! symbol_code s.
Proof.
  induction ss as [|s' ss IH]; [done|]. intros [Hne Hs]%not_elem_of_cons. cbn [foldr].
  rewrite lookup_delete_ne by (by intros ?%(inj symbol_code)). by apply IH.
Qed.

Lemma maps_agree_target m1 m2 s :
  maps_agree m1 m2 = true → same_target s (m1 !! symbol_code s) (m2 !! symbol_code s).
Proof.
  unfold maps_agree, same_target. intros [Hd%bool_decide_eq_true Hi]%andb_prop.
  destruct (decide (s ∈ partial_shifts)) as [Hs|Hs].
  - rewrite forallb_forall in Hi. specialize (Hi s (proj1 (list_elem_of_In _ _) Hs)).
    unfold targets_agree in Hi. destruct (m1 !! _), (m2 !! _); [|naive_solver..].
    left. f_equal. lia.
  - left. by rewrite <- (lookup_clear partial_shifts m1 s Hs), Hd, lookup_clear.
Qed.

Lemma primary_transitions q row :
  parse_rows !! q = Some row →
  ∃ p row', ts_primary_state_ids !! q = Some p ∧ 0 ≤ p ≤ Z.of_nat q ∧ primary p = Some p
    ∧ parse_rows !! Z.to_nat p = Some row'
    ∧ ∀ s, same_target s (transition row s ≫= primary) (transition row' s ≫= primary).
Proof.
  intros Hq. apply lookup_lt_Some in Hq as Hlt. rewrite parse_rows_length in Hlt.
  destruct (primary_canonical q Hlt) as (p & Hp & Hle & Hpp).
  pose proof primary_rows_checked as Hc. cbn beta in Hc. unfold primary_rows in Hc.
  rewrite forallb_forall in Hc.
  specialize (Hc (row_map primaries (shifts primaries) row, p)).
  unfold primary_row in Hc. cbn [fst snd] in Hc.
  replace (Z.to_pos (p + 1)) with (Pos.of_succ_nat (0 + Z.to_nat p)) in Hc by lia.
  rewrite (index_from_lookup _ 0 (Z.to_nat p)), list_lookup_fmap in Hc.
  destruct (parse_rows !! Z.to_nat p) as [row'|] eqn:Hrow'; cbn [fmap option_fmap option_map] in Hc.
  - exists p, row'. split_and!; [done|lia|lia|exact Hpp|done|]. intros s.
    rewrite <- (row_map_transition q row s Hq), <- (row_map_transition _ row' s Hrow').
    apply maps_agree_target, Hc. apply list_elem_of_In, list_elem_of_lookup.
    exists q. by rewrite lookup_zip_with, list_lookup_fmap, Hq, Hp.
  - apply lookup_ge_None in Hrow'. rewrite parse_rows_length in Hrow'. lia.
Qed.

(** C23. Primary states are canonical for the automaton: the primary state of a
    parse state is not later and is its own primary state, and the two have
    the same transitions up to primary states, on tokens (shifts) and on
    non-terminals; the only exception is that one of them may lack a shift of
    an identifier or of the operator [>]. *)
Theorem primary_same_transitions q row :
  parse_rows !! q = Some row →
  ∃ p row', ts_primary_state_ids !! q = Some p ∧ 0 ≤ p ≤ Z.of_nat q ∧ primary p = Some p
    ∧ parse_rows !! Z.to_nat p = Some row'
    ∧ ∀ s, same_target s (transition row s ≫= primary) (transition row' s ≫= primary).
Proof. apply primary_transitions. Qed.

Lemma primary_same_transitions_witness :
  ∃ p row', ts_primary_state_ids !! 7%nat = Some p ∧ 0 ≤ p ≤ Z.of_nat 7 ∧ primary p = Some p
    ∧ parse_rows !! Z.to_nat p = Some row'
    ∧ ∀ s, same_target s (transition ts_parse_table_7 s ≫= primary)
             (transition row' s ≫= primary).
Proof. refine (primary_same_transitions 7 ts_parse_table_7 _). by vm_compute. Defined.
