(* ===== verification/Automaton.v ===== *)
(** * The LR automaton never gets stuck in a reduction

    The tables denote an LR automaton: a stack of parse states, on which a
    shift pushes the target of the token and a reduction by [n] children pops
    [n] states and pushes the target of its non-terminal.  Extra tokens leave
    the stack as it is, and a group with several actions makes the automaton
    nondeterministic.  The theorem shows that on every reachable stack a
    reduction the table offers finds its [n] states and a target.

    The check behind it works on the classes of states with the same primary
    state: it computes the classes that can be [k] transitions before a class
    and looks up the non-terminal there. *)

From stdpp Require Import pmap relations.
From S2P Require Import Prelude.
From S2P Require Import Symbols.
From S2P Require Import SymbolSets.
From S2P Require Import LexModes.
From S2P Require Import PrimaryStates.
From S2P Require Import FieldTheorems.
From S2P Require Import ParseTypes.
From S2P Require Import ParseActions.
From S2P Require Import ActionTheorems.
From S2P Require Import ParseTable1.
From S2P Require Import ParseTable10.
From S2P Require Import ParseRows.
From S2P Require Import TableTheorems.

(** ** The automaton *)

(** State [q] goes to [q'] on a symbol. *)
Definition goes (q : Z) (s : ts_symbol) (q' : Z) : Prop :=
  ∃ row, parse_rows !! Z.to_nat q = Some row ∧ transition row s = Some q'.

(** State [q] offers to reduce [n] children to [x], before the token [s]. *)
Definition reduces (q : Z) (s : ts_symbol) (n : Z) (x : ts_symbol) : Prop :=
  ∃ row acts prec p, parse_rows !! Z.to_nat q = Some row ∧ is_token s = true
    ∧ action_group (parse_entry row s) = Some acts
    ∧ TSParseActionTypeReduce n x prec p ∈ acts.

Inductive lr_shift : list Z → list Z → Prop :=
  | lr_shift_token q st s q' :
      is_token s = true → goes q s q' → lr_shift (q :: st) (q' :: q :: st).

Inductive lr_reduction : list Z → list Z → Prop :=
  | lr_reduce q st s n x p st' q' :
      reduces q s n x → drop (Z.to_nat n) (q :: st) = p :: st' → goes p x q' →
      lr_reduction (q :: st) (q' :: p :: st').

Definition lr_step (st st' : list Z) : Prop := lr_shift st st' ∨ lr_reduction st st'.

(** The parser starts in state 1. *)
Definition start_state : Z := 1.

(** ** Classes *)

(** The class of a state is its primary state; class [c] has the key [c + 1]. *)
Definition class_key (c : Z) : positive := Z.to_pos (c + 1).

Abbreviation keys m := ((map_to_list m).*1).

(** [m] with class [c] added to the classes before [t]. *)
Definition add_before (t c : positive) (m : Pmap symset) : Pmap symset :=
  <[t := <[c := tt]> (default ∅ (m !! t))]> m.

Definition row_before (ps sh : Pmap Z) (c : positive) (r : parse_row) (m : Pmap symset) :
    Pmap symset :=
  foldr (λ g m, if group_target ps sh g is Some t then add_before (class_key t) c m else m) m r.

(** The classes with a transition to a class. *)
Definition before (ps sh : Pmap Z) (rows : list (parse_row * Z)) : Pmap symset :=
  foldr (λ rc m, row_before ps sh (class_key rc.2) rc.1 m) ∅ rows.

Definition reduction (a : TSParseAction) : option (ts_symbol * nat) :=
  if a is TSParseActionTypeReduce n x _ _ then Some (x, Z.to_nat n) else None.

(** The reductions of the groups of actions. *)
Definition group_reductions : Pmap (list (ts_symbol * nat)) :=
  index_actions (λ acts, if omap reduction acts is (_ :: _) as xs then Some xs else None)
    parse_action_runs.

Definition reduction_eqb (a b : ts_symbol * nat) : bool :=
  (symbol_code a.1 =? symbol_code b.1)%positive && (a.2 =? b.2)%nat.

Definition add_reduction (c : positive) (x : ts_symbol * nat)
    (m : Pmap (list (ts_symbol * nat))) : Pmap (list (ts_symbol * nat)) :=
  let xs := default [] (m !! c) in
  if existsb (reduction_eqb x) xs then m else <[c := x :: xs]> m.

Definition row_reductions (rs : Pmap (list (ts_symbol * nat))) (c : positive) (r : parse_row)
    (m : Pmap (list (ts_symbol * nat))) : Pmap (list (ts_symbol * nat)) :=
  foldr (λ g m, if g is ACTIONS id _
                then foldr (add_reduction c) m (default [] (rs !! Z.to_pos (id + 1)))
                else m) m r.

(** The reductions the states of a class offer. *)
Definition class_reductions (rs : Pmap (list (ts_symbol * nat))) (rows : list (parse_row * Z)) :
    Pmap (list (ts_symbol * nat)) :=
  foldr (λ rc m, row_reductions rs (class_key rc.2) rc.1 m) ∅ rows.

(** ** The check *)

Definition back (bs : Pmap (list positive)) (cs : symset) : symset :=
  foldr (λ c m, foldr (λ b m, <[b := tt]> m) m (default [] (bs !! c))) ∅ (keys cs).

(** The classes 0 to [n] transitions before [cs]. *)
Fixpoint levels (bs : Pmap (list positive)) (n : nat) (cs : symset) : list symset :=
  cs :: match n with O => [] | S n => levels bs n (back bs cs) end.

Definition reduction_ok (index : Pmap (Pmap Z)) (ls : list symset) (x : ts_symbol * nat) : bool :=
  forallb (λ cs, if cs !! class_key start_state is Some _ then false else true) (take x.2 ls)
  && match ls !! x.2 with
     | Some cs => forallb (λ c, if index !! c ≫= lookup (symbol_code x.1) is Some _
                                then true else false) (keys cs)
     | None => false
     end.

Definition class_ok (index : Pmap (Pmap Z)) (bs : Pmap (list positive))
    (cx : positive * list (ts_symbol * nat)) : bool :=
  (λ ls, forallb (reduction_ok index ls) cx.2) 
    (levels bs (foldr (λ x n, x.2 `max` n) 0 cx.2)%nat (<[cx.1 := tt]> ∅)).

Definition rows_of_classes : list (parse_row * Z) := zip parse_rows ts_primary_state_ids.

Definition automaton_check (ps sh : Pmap Z) (rs : Pmap (list (ts_symbol * nat)))
    (rows : list (parse_row * Z)) : bool :=
  (λ index bs, forallb (class_ok index bs) (map_to_list (class_reductions rs rows)))
    (index_from 1 (row_map ps sh <$> rows.*1)) ((λ cs, keys cs) <$> before ps sh rows).

Lemma automaton_checked :
  (λ ps, automaton_check ps (shifts ps) group_reductions rows_of_classes) primaries = true.
Proof. by vm_compute. Qed.

#[local] Opaque parse_rows parse_action_runs action_group ts_primary_state_ids primaries.

Lemma group_reductions_lookup id acts n x prec p :
  0 < id → id ∈ parse_action_runs.*1 → action_group id = Some acts →
  TSParseActionTypeReduce n x prec p ∈ acts →
  (x, Z.to_nat n) ∈ default [] (group_reductions !! Z.to_pos (id + 1)).
Proof.
  intros Hid Hkey Ha Hin. unfold group_reductions.
  rewrite index_actions_key, Ha by (lia || done). cbn [mbind option_bind].
  assert ((x, Z.to_nat n) ∈ omap reduction acts) as Hred.
  { apply list_elem_of_omap. eexists. split; [exact Hin|done]. }
  destruct (omap reduction acts); [by apply not_elem_of_nil in Hred|done].
Qed.

#[local] Opaque group_reductions.

(** ** Soundness of the collected relations *)

Lemma foldr_collect {A M} (P : A → M → Prop) (R : M → M → Prop) (f : A → M → M) l m x :
  PreOrder R → (∀ y m, R m (f y m)) → (∀ y m m', R m m' → P y m → P y m') →
  (∀ m, P x (f x m)) → x ∈ l → P x (foldr f m l) ∧ R m (foldr f m l).
Proof.
  intros HR Hmono HP Hnew Hin.
  assert (∀ l, R m (foldr f m l)) as Hall.
  { clear x l Hnew Hin. induction l as [|y l IH]; cbn [foldr]; [reflexivity|].
    etransitivity; [exact IH|apply Hmono]. }
  split; [|done]. induction l as [|y l IH]; [by apply not_elem_of_nil in Hin|]. cbn [foldr].
  apply elem_of_cons in Hin as [->|Hin]; [apply Hnew|]. eapply HP; [apply Hmono|by apply IH].
Qed.

(** Class [b] is before class [t] in [m]. *)
Definition is_before (m : Pmap symset) (t b : positive) : Prop :=
  is_Some (default ∅ (m !! t) !! b).

Definition before_le (m m' : Pmap symset) : Prop := ∀ t b, is_before m t b → is_before m' t b.

#[export] Instance before_le_preorder : PreOrder before_le.
Proof. split; [by intros m t b|]. intros m1 m2 m3 H1 H2 t b Hb. by apply H2, H1. Qed.

Lemma add_before_le t c m : before_le m (add_before t c m).
Proof.
  intros t' b. unfold is_before, add_before. destruct (decide (t = t')) as [->|Hne].
  - rewrite lookup_insert_eq. cbn [from_option id]. destruct (decide (c = b)) as [->|Hcb].
    + by rewrite lookup_insert_eq.
    + by rewrite lookup_insert_ne.
  - by rewrite lookup_insert_ne.
Qed.

Lemma add_before_new t c m : is_before (add_before t c m) t c.
Proof. unfold is_before, add_before. rewrite lookup_insert_eq. cbn [from_option id]. by rewrite lookup_insert_eq. Qed.

Lemma row_before_le ps sh c r m : before_le m (row_before ps sh c r m).
Proof.
  induction r as [|g r IH]; cbn [row_before foldr]; [reflexivity|].
  case_match; [|done]. etransitivity; [exact IH|apply add_before_le].
Qed.

Lemma row_before_group ps sh c r m g t :
  g ∈ r → group_target ps sh g = Some t → is_before (row_before ps sh c r m) (class_key t) c.
Proof.
  intros Hg Ht.
  refine (proj1 (foldr_collect (λ g m, group_target ps sh g = Some t → is_before m (class_key t) c)
    before_le _ r m g _ _ _ _ Hg) Ht).
  - intros g' m'. case_match; [apply add_before_le|reflexivity].
  - intros g' m1 m2 Hle Hb Ht'. by apply Hle, Hb.
  - intros m' ->. apply add_before_new.
Qed.

Lemma before_row ps sh rows r c g t :
  (r, c) ∈ rows → g ∈ r → group_target ps sh g = Some t →
  is_before (before ps sh rows) (class_key t) (class_key c).
Proof.
  intros Hin Hg Ht.
  refine (proj1 (foldr_collect (λ rc m, rc = (r, c) → is_before m (class_key t) (class_key c))
    before_le _ rows ∅ (r, c) _ _ _ _ Hin) eq_refl).
  - intros rc m. apply row_before_le.
  - intros rc m1 m2 Hle Hb Heq. by apply Hle, Hb.
  - intros m _. by eapply row_before_group.
Qed.

(** Reduction [x] is listed for class [c] in [m]. *)
Definition is_listed (m : Pmap (list (ts_symbol * nat))) (c : positive) (x : ts_symbol * nat) :
  Prop := x ∈ default [] (m !! c).

Definition listed_le (m m' : Pmap (list (ts_symbol * nat))) : Prop :=
  ∀ c x, is_listed m c x → is_listed m' c x.

#[export] Instance listed_le_preorder : PreOrder listed_le.
Proof. split; [by intros m c x|]. intros m1 m2 m3 H1 H2 c x Hx. by apply H2, H1. Qed.

Lemma reduction_eqb_eq a b : reduction_eqb a b = true → a = b.
Proof.
  destruct a, b. intros [H1%Pos.eqb_eq H2%Nat.eqb_eq]%andb_prop. simpl in *.
  apply (inj symbol_code) in H1. congruence.
Qed.

Lemma add_reduction_le c x m : listed_le m (add_reduction c x m).
Proof.
  intros c' y. unfold is_listed, add_reduction. case_match; [done|].
  destruct (decide (c = c')) as [->|Hne]; [|by rewrite lookup_insert_ne].
  rewrite lookup_insert_eq. cbn [from_option id]. rewrite elem_of_cons. by right.
Qed.

Lemma add_reduction_new c x m : is_listed (add_reduction c x m) c x.
Proof.
  unfold is_listed, add_reduction. case_match eqn:He.
  - apply existsb_exists in He as (y & Hy%list_elem_of_In & ->%reduction_eqb_eq). done.
  - rewrite lookup_insert_eq. cbn [from_option id]. apply elem_of_cons. by left.
Qed.

Lemma add_reductions_le c xs m : listed_le m (foldr (add_reduction c) m xs).
Proof.
  induction xs as [|x xs IH]; cbn [foldr]; [reflexivity|].
  etransitivity; [exact IH|apply add_reduction_le].
Qed.

Lemma add_reductions_new c xs m x : x ∈ xs → is_listed (foldr (add_reduction c) m xs) c x.
Proof.
  intros Hx.
  refine (proj1 (foldr_collect (λ x m, is_listed m c x) listed_le _ xs m x _ _ _ _ Hx)).
  - intros y m'. apply add_reduction_le.
  - intros y m1 m2 Hle. apply Hle.
  - intros m'. apply add_reduction_new.
Qed.

Lemma row_reductions_le rs c r m : listed_le m (row_reductions rs c r m).
Proof.
  induction r as [|g r IH]; cbn [row_reductions foldr]; [reflexivity|].
  destruct g; [|exact IH]. etransitivity; [exact IH|apply add_reductions_le].
Qed.

Lemma row_reductions_group rs c r m id ss x :
  ACTIONS id ss ∈ r → x ∈ default [] (rs !! Z.to_pos (id + 1)) →
  is_listed (row_reductions rs c r m) c x.
Proof.
  intros Hg Hx.
  refine (proj1 (foldr_collect (λ g m, g = ACTIONS id ss → is_listed m c x)
    listed_le _ r m _ _ _ _ _ Hg) eq_refl).
  - intros [] m'; [apply add_reductions_le|reflexivity].
  - intros g m1 m2 Hle Hl Heq. by apply Hle, Hl.
  - intros m' _. by apply add_reductions_new.
Qed.

Lemma class_reductions_row rs rows r c id ss x :
  (r, c) ∈ rows → ACTIONS id ss ∈ r → x ∈ default [] (rs !! Z.to_pos (id + 1)) →
  is_listed (class_reductions rs rows) (class_key c) x.
Proof.
  intros Hin Hg Hx.
  refine (proj1 (foldr_collect (λ rc m, rc = (r, c) → is_listed m (class_key c) x)
    listed_le _ rows ∅ _ _ _ _ _ Hin) eq_refl).
  - intros rc m. apply row_reductions_le.
  - intros rc m1 m2 Hle Hl Heq. by apply Hle, Hl.
  - intros m _. by eapply row_reductions_group.
Qed.

(** ** Levels *)

Lemma elem_of_keys {A} (m : Pmap A) k : k ∈ keys m ↔ is_Some (m !! k).
Proof.
  rewrite list_elem_of_fmap. split.
  - intros ([k' v] & -> & Hv%elem_of_map_to_list). by exists v.
  - intros [v Hv]. exists (k, v). by rewrite elem_of_map_to_list.
Qed.

Lemma insert_all_lookup (bs : list positive) (m : symset) b :
  b ∈ bs ∨ is_Some (m !! b) → is_Some (foldr (λ b m, <[b := tt]> m) m bs !! b).
Proof.
  induction bs as [|b' bs IH]; cbn [foldr].
  { by intros [?%not_elem_of_nil|?]. }
  rewrite elem_of_cons. destruct (decide (b' = b)) as [->|Hne].
  - by rewrite lookup_insert_eq.
  - rewrite lookup_insert_ne by done. naive_solver.
Qed.

Lemma back_lookup bs cs c b :
  is_Some (cs !! c) → b ∈ default [] (bs !! c) → is_Some (back bs cs !! b).
Proof.
  intros Hc%elem_of_keys Hb. unfold back. revert Hc. generalize (keys cs) as l.
  induction l as [|c' l IH]; [by intros ?%not_elem_of_nil|]. cbn [foldr].
  intros [->|Hc]%elem_of_cons; apply insert_all_lookup; [by left|right; by apply IH].
Qed.

(** ** States and classes *)

Lemma transition_state q row s q' :
  parse_rows !! q = Some row → transition row s = Some q' → 0 ≤ q' < Z.of_nat STATE_COUNT.
Proof.
  intros Hq. unfold transition.
  destruct (table_entry q row s Hq) as [(g & Hg & Hs & Hty & -> & Hid)|[Hs ->]].
  - destruct g as [id ss|id ss]; cbn [group_id group_symbols] in *.
    + apply group_typed_actions in Hty as (_ & Htok & acts & Ha & _).
      rewrite Forall_forall in Htok. rewrite (proj1 (Is_true_true _) (Htok s Hs)), Ha.
      cbn [mbind option_bind]. apply shift_target_state. by eapply action_group_ok.
    + apply group_typed_state in Hty as [? Htok]. rewrite Forall_forall in Htok.
      rewrite (Htok s Hs). case_match; intros ?; simplify_eq. lia.
  - rewrite no_actions. by case_match.
Qed.

(** Every state has a class. *)
Lemma state_class q : 0 ≤ q < Z.of_nat STATE_COUNT → ∃ c, primary q = Some c ∧ 0 ≤ c.
Proof.
  intros Hq. destruct (primary_canonical (Z.to_nat q)) as (c & Hc & Hle & _); [lia|].
  exists c. split; [exact Hc|lia].
Qed.

Lemma rows_fst : rows_of_classes.*1 = parse_rows.
Proof.
  apply fst_zip. rewrite parse_rows_length, primary_states_length. done.
Qed.

Lemma rows_class q row c :
  parse_rows !! Z.to_nat q = Some row → primary q = Some c → (row, c) ∈ rows_of_classes.
Proof.
  intros Hrow Hc. apply list_elem_of_lookup. exists (Z.to_nat q).
  unfold rows_of_classes, primary in *. by rewrite lookup_zip_with, Hrow, Hc.
Qed.

Lemma goes_class q s q' c c' :
  goes q s q' → primary q = Some c → primary q' = Some c' →
  is_before (before primaries (shifts primaries) rows_of_classes) (class_key c') (class_key c).
Proof.
  intros (row & Hrow & Ht) Hc Hc'.
  pose proof (row_map_transition _ row s Hrow) as Hm. rewrite Ht in Hm.
  cbn [mbind option_bind] in Hm. rewrite Hc' in Hm.
  destruct (table_row_typed _ row Hrow) as [Hnd _].
  destruct (row_map_lookup primaries (shifts primaries) row s Hnd) as [Hin Hout].
  destruct (decide (s ∈ row_symbols row)) as [Hs|Hs]; [|by rewrite (Hout Hs) in Hm].
  apply list_elem_of_bind in Hs as (g & Hs & Hg).
  eapply before_row; [by eapply rows_class|exact Hg|by rewrite <- (Hin g Hg Hs)].
Qed.

(** ** Stacks *)

#[local] Opaque rows_of_classes before shifts class_reductions.

(** A stack whose states follow one another by transitions, from the start
    state. *)
Inductive lr_stack : list Z → Prop :=
  | lr_stack_start : lr_stack [start_state]
  | lr_stack_push q st s q' : lr_stack (q :: st) → goes q s q' → lr_stack (q' :: q :: st).

Lemma lr_stack_drop st : lr_stack st → ∀ n p st', drop n st = p :: st' → lr_stack (p :: st').
Proof.
  induction 1 as [|q st s q' Hst IH Hg]; intros [|n] p st' Hd.
  - simplify_eq/=. constructor.
  - by destruct n.
  - simplify_eq/=. by eapply lr_stack_push.
  - by eapply (IH n).
Qed.

Lemma lr_stack_reduction st st' : lr_reduction st st' → lr_stack st → lr_stack st'.
Proof.
  intros [q st1 s n x p st2 q' _ Hd Hg] Hst. eapply lr_stack_push; [|exact Hg].
  by eapply lr_stack_drop.
Qed.

Lemma reachable_stack st : rtc lr_step [start_state] st → lr_stack st.
Proof.
  intros Hst. apply rtc_ind_r with (P := lr_stack) in Hst; [done|constructor|].
  clear st Hst. intros st1 st2 _ [[q st s q' _ Hg]|Hr] IH; [by eapply lr_stack_push|].
  by eapply lr_stack_reduction.
Qed.

Lemma lr_stack_states st : lr_stack st → Forall (λ q, 0 ≤ q < Z.of_nat STATE_COUNT) st.
Proof.
  induction 1 as [|q st s q' Hst IH (row & Hrow & Ht)].
  - constructor; [|done]. unfold start_state, STATE_COUNT. lia.
  - constructor; [by eapply transition_state|done].
Qed.

Section levels.
Context (bs : Pmap (list positive)).
Hypothesis bs_before : ∀ q s q' c c',
  goes q s q' → primary q = Some c → primary q' = Some c' →
  class_key c ∈ default [] (bs !! class_key c').

(** The state at depth [k] is in a class of level [k]. *)
Lemma stack_level k st n cs q c p :
  lr_stack (q :: st) → primary q = Some c → is_Some (cs !! class_key c) →
  (q :: st) !! k = Some p → (k ≤ n)%nat →
  ∃ cs' c', levels bs n cs !! k = Some cs' ∧ primary p = Some c' ∧ is_Some (cs' !! class_key c').
Proof.
  revert st n cs q c p. induction k as [|k IH]; intros st n cs q c p Hst Hc Hcs Hp Hk.
  { simplify_eq/=. exists cs, c. by destruct n. }
  destruct n as [|n]; [lia|]. destruct st as [|q2 st2]; [done|].
  assert (lr_stack (q2 :: st2) ∧ ∃ s, goes q2 s q) as (Hst2 & s & Hg).
  { inversion Hst; subst. eauto. }
  pose proof (lr_stack_states _ Hst2) as Hr. apply Forall_cons in Hr as [Hr _].
  destruct (state_class q2 Hr) as (c2 & Hc2 & _).
  destruct (IH st2 n (back bs cs) q2 c2 p) as (cs' & c' & Hl & Hrest); [done..| |done|lia|].
  - eapply back_lookup; [exact Hcs|by eapply bs_before].
  - exists cs', c'. split; [exact Hl|exact Hrest].
Qed.
End levels.

Definition befores : Pmap (list positive) :=
  (λ cs, keys cs) <$> before primaries (shifts primaries) rows_of_classes.

Lemma befores_goes q s q' c c' :
  goes q s q' → primary q = Some c → primary q' = Some c' →
  class_key c ∈ default [] (befores !! class_key c').
Proof.
  intros Hg Hc Hc'. pose proof (goes_class _ _ _ _ _ Hg Hc Hc') as Hb. unfold is_before in Hb.
  unfold befores. rewrite lookup_fmap. destruct (before _ _ _ !! class_key c') as [m|].
  - by apply elem_of_keys.
  - destruct Hb as [? Hb]. cbn [from_option id] in Hb. by rewrite lookup_empty in Hb.
Qed.

(** ** The verdict of the check *)

Definition row_index : Pmap (Pmap Z) :=
  index_from 1 (row_map primaries (shifts primaries) <$> parse_rows).

Lemma max_reduction (xs : list (ts_symbol * nat)) x :
  x ∈ xs → (x.2 ≤ foldr (λ x n, x.2 `max` n) 0 xs)%nat.
Proof.
  induction xs as [|y xs IH]; [by intros ?%not_elem_of_nil|].
  intros [->|Hx]%elem_of_cons; cbn [foldr]; [lia|]. specialize (IH Hx). lia.
Qed.

Lemma listed_lookup m c x : is_listed m c x → ∃ xs, m !! c = Some xs ∧ x ∈ xs.
Proof.
  unfold is_listed. destruct (m !! c) as [xs|]; [by exists xs|by intros ?%not_elem_of_nil].
Qed.

Lemma reduction_checked c x :
  is_listed (class_reductions group_reductions rows_of_classes) (class_key c) x →
  ∃ n, (x.2 ≤ n)%nat
    ∧ reduction_ok row_index (levels befores n (<[class_key c := tt]> ∅)) x = true.
Proof.
  intros (xs & Hxs & Hx)%listed_lookup. pose proof automaton_checked as Hc.
  unfold automaton_check in Hc. cbn beta in Hc. rewrite rows_fst, forallb_forall in Hc.
  fold row_index befores in Hc. specialize (Hc (class_key c, xs)). rewrite <- list_elem_of_In in Hc.
  specialize (Hc (proj2 (elem_of_map_to_list _ _ _) Hxs)).
  unfold class_ok in Hc. cbn [fst snd] in Hc. rewrite forallb_forall in Hc.
  eexists. split; [by apply max_reduction|]. by apply Hc, list_elem_of_In.
Qed.

Lemma row_index_lookup c row :
  0 ≤ c → parse_rows !! Z.to_nat c = Some row →
  row_index !! class_key c = Some (row_map primaries (shifts primaries) row).
Proof.
  intros Hc Hrow. unfold row_index, class_key.
  replace (Z.to_pos (c + 1)) with (Pos.of_succ_nat (0 + Z.to_nat c)) by lia.
  etransitivity; [exact (index_from_lookup _ 0 (Z.to_nat c))|].
  by rewrite list_lookup_fmap, Hrow.
Qed.

Lemma start_class : primary start_state = Some start_state.
Proof. by vm_compute. Qed.

#[local] Opaque row_index befores.

(** A reduction the table offers is listed for the class of the state. *)
Lemma reduces_listed q s n x c :
  reduces q s n x → primary q = Some c →
  is_listed (class_reductions group_reductions rows_of_classes) (class_key c) (x, Z.to_nat n)
  ∧ (TOKEN_COUNT ≤ symbol_index x)%nat.
Proof.
  intros (row & acts & prec & pid & Hrow & Htok & Ha & Hin) Hc.
  assert (action_ok (TSParseActionTypeReduce n x prec pid)) as [Hx _].
  { apply action_group_ok in Ha as [_ Hok]. rewrite Forall_forall in Hok. by apply Hok. }
  split; [|exact Hx].
  destruct (table_entry _ row s Hrow) as [(g & Hg & Hs & Hty & He & _)|[_ He]]; rewrite He in Ha.
  - destruct g as [id ss|id ss]; cbn [group_id group_symbols] in *.
    + apply (class_reductions_row _ _ row c id ss); [by eapply rows_class|exact Hg|].
      apply group_typed_actions in Hty as (? & _ & acts' & _ & _ & Hkey).
      by eapply group_reductions_lookup.
    + apply group_typed_state in Hty as [_ Hnt]. rewrite Forall_forall in Hnt.
      apply Hnt in Hs. congruence.
  - rewrite no_actions in Ha. simplify_eq. by apply not_elem_of_nil in Hin.
Qed.

Lemma lr_stack_bottom st : lr_stack st → st !! Nat.pred (length st) = Some start_state.
Proof. induction 1 as [|q st s q' _ IH _]; [done|]. exact IH. Qed.

(** The classes a verified reduction can see: not the start state before all
    children are popped, and only classes with the non-terminal below them. *)
Lemma reduction_ok_levels index ls x :
  reduction_ok index ls x = true →
  (∀ k cs, (k < x.2)%nat → ls !! k = Some cs → cs !! class_key start_state = None)
  ∧ ∀ cs c, ls !! x.2 = Some cs → is_Some (cs !! c) →
      is_Some (index !! c ≫= lookup (symbol_code x.1)).
Proof.
  unfold reduction_ok. intros [Hs Hg]%andb_prop. rewrite forallb_forall in Hs. split.
  - intros k cs Hk Hl. specialize (Hs cs). rewrite <- list_elem_of_In in Hs.
    destruct (cs !! class_key start_state); [|done]. discriminate Hs.
    apply list_elem_of_lookup. exists k. by rewrite lookup_take_lt.
  - intros cs c Hl Hc%elem_of_keys. rewrite Hl, forallb_forall in Hg.
    specialize (Hg c (proj1 (list_elem_of_In _ _) Hc)).
    destruct (index !! c ≫= lookup (symbol_code x.1)); [by eexists|done].
Qed.

Lemma partial_shifts_tokens s : s ∈ partial_shifts → (symbol_index s < TOKEN_COUNT)%nat.
Proof.
  assert (Forall (λ s, symbol_index s < TOKEN_COUNT)%nat partial_shifts) as Hall.
  { apply (bool_decide_unpack _). by vm_compute. }
  rewrite Forall_forall in Hall. apply Hall.
Qed.

(** If the primary state has a target for a non-terminal, so has the state. *)
Lemma class_goto p c x :
  0 ≤ p < Z.of_nat STATE_COUNT → primary p = Some c → (TOKEN_COUNT ≤ symbol_index x)%nat →
  is_Some (row_index !! class_key c ≫= lookup (symbol_code x)) → ∃ q', goes p x q'.
Proof.
  intros Hp Hc Hx Hi.
  assert (Z.to_nat p < length parse_rows)%nat as [row Hrow]%lookup_lt_is_Some.
  { rewrite parse_rows_length. lia. }
  destruct (primary_transitions _ row Hrow) as (c' & row' & Hc' & Hle & _ & Hrow' & Hsame).
  assert (c' = c) as -> by (unfold primary in Hc; congruence).
  rewrite (row_index_lookup c row') in Hi by (lia || done). cbn [mbind option_bind] in Hi.
  rewrite (row_map_transition _ row' x Hrow') in Hi.
  destruct (Hsame x) as [Heq|[Hpart _]].
  - rewrite <- Heq in Hi. destruct (transition row x) as [q'|] eqn:Ht.
    + exists q', row. done.
    + by destruct Hi.
  - apply partial_shifts_tokens in Hpart. lia.
Qed.

(** A reduction the table offers on a reachable stack can be made. *)
Lemma reduction_possible q st s n x :
  lr_stack (q :: st) → reduces q s n x →
  ∃ p st' q', drop (Z.to_nat n) (q :: st) = p :: st' ∧ goes p x q'
    ∧ lr_reduction (q :: st) (q' :: p :: st').
Proof.
  intros Hst Hred. pose proof (lr_stack_states _ Hst) as Hrange.
  destruct (state_class q) as (c & Hc & _); [by apply Forall_cons in Hrange as [? _]|].
  destruct (reduces_listed q s n x c Hred Hc) as [Hl Hx].
  destruct (reduction_checked c _ Hl) as (N & HN & Hok).
  apply reduction_ok_levels in Hok as [Hstart Hgoto]. cbn [fst snd] in HN, Hstart, Hgoto.
  assert (∀ k p, (k ≤ N)%nat → (q :: st) !! k = Some p →
    ∃ cs c', levels befores N (<[class_key c := tt]> ∅) !! k = Some cs
      ∧ primary p = Some c' ∧ is_Some (cs !! class_key c')) as Hlev.
  { intros k p Hk Hp. eapply stack_level; [exact befores_goes|exact Hst|exact Hc| |exact Hp|exact Hk].
    rewrite lookup_insert_eq. by eexists. }
  destruct (drop (Z.to_nat n) (q :: st)) as [|p st'] eqn:Hd.
  - exfalso. apply (f_equal length) in Hd. rewrite length_drop in Hd. cbn [length] in Hd.
    pose proof (lr_stack_bottom _ Hst) as Hbot. cbn [length Nat.pred] in Hbot.
    destruct (Hlev (length st) start_state ltac:(lia) Hbot) as (cs & c' & Hcs & Hc' & Hin).
    rewrite start_class in Hc'. injection Hc' as <-.
    destruct Hin as [? Hin]. rewrite (Hstart (length st) cs) in Hin by (lia || exact Hcs). done.
  - assert ((q :: st) !! Z.to_nat n = Some p) as Hp.
    { rewrite <- (Nat.add_0_r (Z.to_nat n)), <- lookup_drop, Hd. done. }
    destruct (Hlev _ _ HN Hp) as (cs & c' & Hcs & Hc' & Hin).
    destruct (class_goto p c' x) as [q' Hg]; [|exact Hc'|exact Hx|by eapply Hgoto|].
    { rewrite Forall_forall in Hrange. by apply Hrange, (list_elem_of_lookup_2 _ _ _ Hp). }
    exists p, st', q'. split_and!; [done|done|]. by eapply lr_reduce.
Qed.

(** C14. The automaton of the parse tables never gets stuck in a reduction: on
    every stack reachable from the start state by shifts and reductions, each
    reduction that the table offers before any token finds as many states on
    the stack as it has children, and the state below them has a target for
    its non-terminal. *)
Theorem reductions_never_stuck q st s n x :
  rtc lr_step [start_state] (q :: st) → reduces q s n x →
  ∃ p st' q', drop (Z.to_nat n) (q :: st) = p :: st' ∧ goes p x q'
    ∧ lr_reduction (q :: st) (q' :: p :: st').
Proof. intros Hst%reachable_stack. by apply reduction_possible. Qed.

#[local] Transparent action_group.

(** The empty file: the root is reduced before the end of the input, and the
    start state has a target for it. *)
Lemma empty_file_reduces : reduces start_state ts_builtin_sym_end 0 sym_root.
Proof.
  exists ts_parse_table_1. eexists _, 0, 0. split; [by vm_compute|]. split; [done|]. split.
  - unfold action_group. rewrite parse_actions_concat. by vm_compute.
  - apply elem_of_cons. by left.
Qed.

Lemma root_target : goes start_state sym_root 14846.
Proof.
  exists ts_parse_table_1. split; [by vm_compute|].
  unfold transition, action_group. rewrite parse_actions_concat. by vm_compute.
Qed.

Lemma empty_file_reduction : lr_reduction [start_state] [14846; start_state].
Proof.
  apply (lr_reduce start_state [] ts_builtin_sym_end 0 sym_root start_state []);
    [apply empty_file_reduces|done|apply root_target].
Qed.

(** The stack after [threadvar] at the start of a file: the declaration is
    reduced at the end of the input. *)
Lemma reductions_never_stuck_witness :
  ∃ p st' q', drop (Z.to_nat 1) [1993; 1] = p :: st' ∧ goes p sym_declVars q'
    ∧ lr_reduction [1993; 1] (q' :: p :: st').
Proof.
  refine (reductions_never_stuck 1993 [1] ts_builtin_sym_end 1 sym_declVars _ _).
  - apply rtc_once. left. apply (lr_shift_token 1 [] sym_kThreadvar); [done|].
    exists ts_parse_table_1. split; [by vm_compute|].
    unfold transition, action_group. rewrite parse_actions_concat. by vm_compute.
  - exists ts_parse_table_1993. eexists _, 0, 0. split; [by vm_compute|]. split; [done|].
    split.
    + unfold action_group. rewrite parse_actions_concat. by vm_compute.
    + apply elem_of_cons. by left.
Defined.
