(* ===== verification/Acceptance.v ===== *)
(** * The automaton accepts only complete files

    The accept action occurs in one state, before the end of the input, and
    that state is entered only from the start state, by the root of the
    grammar: when the automaton accepts, its stack holds nothing but the root. *)

From stdpp Require Import pmap relations.
From S2P Require Import Prelude.
From S2P Require Import Symbols.
From S2P Require Import SymbolSets.
From S2P Require Import LexModes.
From S2P Require Import ParseTypes.
From S2P Require Import ParseActions.
From S2P Require Import ActionTheorems.
From S2P Require Import ParseRows.
From S2P Require Import TableTheorems.
From S2P Require Import Automaton.

(** State [q] offers to accept before the token [s]. *)
Definition accepts (q : Z) (s : ts_symbol) : Prop :=
  ∃ row acts, parse_rows !! Z.to_nat q = Some row ∧ is_token s = true
    ∧ action_group (parse_entry row s) = Some acts ∧ TSParseActionTypeAccept ∈ acts.

(** The state after the root. *)
Definition root_state : Z := 14846.

(** ** The check *)

Definition is_accept (a : TSParseAction) : bool :=
  if a is TSParseActionTypeAccept then true else false.

(** The groups with an action that satisfies [f]. *)
Definition groups_with (f : TSParseAction → bool) : symset :=
  index_actions (λ acts, if existsb f acts then Some tt else None) parse_action_runs.

Definition accept_groups : symset := groups_with is_accept.

Definition shift_states : Pmap Z := index_actions shift_target parse_action_runs.

Definition only (s : ts_symbol) (ss : list ts_symbol) : bool :=
  forallb (λ s', symbol_code s' =? symbol_code s)%positive ss.

(** A group of state [q]: accepting only in the root state before the end, no
    transition to the start state, and one to the root state only from the
    start state by the root. *)
Definition group_accepts (ac : symset) (sh : Pmap Z) (q : Z) (g : parse_group) : bool :=
  match g with
  | ACTIONS id ss =>
      (if ac !! Z.to_pos (id + 1) is Some _
       then (q =? root_state) && only ts_builtin_sym_end ss else true)
      && (if sh !! Z.to_pos (id + 1) is Some t
          then negb (t =? start_state) && negb (t =? root_state) else true)
  | STATE id ss =>
      negb (id =? start_state)
      && (negb (id =? root_state) || (q =? start_state) && only sym_root ss)
  end.

Lemma rows_accept_checked :
  (λ ac sh, rows_all (group_accepts ac sh) 0 parse_rows) accept_groups shift_states = true.
Proof. by vm_compute. Qed.

(** ** Soundness *)

#[local] Opaque parse_rows parse_action_runs action_group.

Lemma shift_states_lookup id :
  0 < id → id ∈ parse_action_runs.*1 →
  shift_states !! Z.to_pos (id + 1) = action_group id ≫= shift_target.
Proof. intros Hid Hkey. apply index_actions_key; [lia|done]. Qed.

Lemma groups_with_lookup f id acts a :
  0 < id → id ∈ parse_action_runs.*1 → action_group id = Some acts → a ∈ acts → f a = true →
  groups_with f !! Z.to_pos (id + 1) = Some tt.
Proof.
  intros Hid Hkey Ha Hin Hf. unfold groups_with.
  rewrite index_actions_key, Ha by (lia || done). cbn [mbind option_bind].
  rewrite (proj2 (existsb_exists _ _)); [done|]. exists a. by rewrite <- list_elem_of_In.
Qed.

Lemma accept_groups_lookup id acts :
  0 < id → id ∈ parse_action_runs.*1 → action_group id = Some acts →
  TSParseActionTypeAccept ∈ acts → accept_groups !! Z.to_pos (id + 1) = Some tt.
Proof. intros Hid Hkey Ha Hin. by eapply groups_with_lookup. Qed.

#[local] Opaque accept_groups shift_states.

Lemma group_accepted q row g :
  0 ≤ q → parse_rows !! Z.to_nat q = Some row → g ∈ row →
  group_accepts accept_groups shift_states q g = true.
Proof.
  intros Hq Hrow Hg. rewrite <- (Z2Nat.id q Hq).
  exact (rows_all_row _ parse_rows 0 _ row g rows_accept_checked Hrow Hg).
Qed.

Lemma only_symbol s s' ss : only s ss = true → s' ∈ ss → s' = s.
Proof.
  unfold only. rewrite forallb_forall. intros Ho Hs%list_elem_of_In.
  apply Ho, Pos.eqb_eq in Hs. by apply (inj symbol_code).
Qed.

(** Nothing leads to the start state, and only the root leads to the root
    state. *)
Lemma goes_target p s q :
  0 ≤ p → goes p s q → q ≠ start_state ∧ (q = root_state → p = start_state ∧ s = sym_root).
Proof.
  intros Hp (row & Hrow & Ht). unfold transition in Ht. cbn zeta in Ht.
  destruct (table_entry _ row s Hrow) as [(g & Hg & Hs & Hty & He & _)|[_ He]]; rewrite He in Ht.
  - pose proof (group_accepted p row g Hp Hrow Hg) as Hga.
    destruct g as [id ss|id ss]; cbn [group_id group_symbols group_accepts] in *.
    + apply group_typed_actions in Hty as (? & Htok & acts & Ha & _ & Hkey).
      rewrite Forall_forall in Htok. rewrite (proj1 (Is_true_true _) (Htok s Hs)) in Ht.
      rewrite shift_states_lookup, Ht in Hga by done. apply andb_prop in Hga as [_ Hga]. lia.
    + apply group_typed_state in Hty as [? Hnt]. rewrite Forall_forall in Hnt.
      rewrite (Hnt s Hs), (proj2 (Z.eqb_neq id 0)) in Ht by lia. injection Ht as <-.
      split; [lia|]. intros Hid. rewrite Hid, Z.eqb_refl in Hga. simpl in Hga.
      apply andb_prop in Hga as [Hq%Z.eqb_eq Ho].
      split; [done|by eapply only_symbol].
  - rewrite no_actions in Ht. by destruct (is_token s).
Qed.

Lemma accepts_state q s :
  0 ≤ q → accepts q s → q = root_state ∧ s = ts_builtin_sym_end.
Proof.
  intros Hq (row & acts & Hrow & Htok & Ha & Hin).
  destruct (table_entry _ row s Hrow) as [(g & Hg & Hs & Hty & He & _)|[_ He]]; rewrite He in Ha.
  - pose proof (group_accepted q row g Hq Hrow Hg) as Hga.
    destruct g as [id ss|id ss]; cbn [group_id group_symbols group_accepts] in *.
    + apply group_typed_actions in Hty as (? & _ & _ & _ & _ & Hkey).
      rewrite (accept_groups_lookup id acts) in Hga by done. apply andb_prop in Hga as [[->%Z.eqb_eq Ho]%andb_prop _].
      split; [done|by eapply only_symbol].
    + apply group_typed_state in Hty as [_ Hnt]. rewrite Forall_forall in Hnt.
      apply Hnt in Hs. congruence.
  - rewrite no_actions in Ha. simplify_eq. by apply not_elem_of_nil in Hin.
Qed.

(** C16. The automaton accepts only complete files: if a reachable stack offers
    to accept, the next token is the end of the input, and the stack is the
    start state with the state after the root on it. *)
Theorem accept_means_root q st s :
  rtc lr_step [start_state] (q :: st) → accepts q s →
  s = ts_builtin_sym_end ∧ st = [start_state] ∧ goes start_state sym_root q.
Proof.
  intros Hst%reachable_stack Hacc. pose proof (lr_stack_states _ Hst) as Hrange.
  apply Forall_cons in Hrange as [Hq Hr].
  destruct (accepts_state q s (proj1 Hq) Hacc) as [-> ->]. split; [done|].
  inversion Hst as [Hs|p st' x ? Hst' Hg]; subst.
  apply Forall_cons in Hr as [Hp _].
  destruct (goes_target p x root_state (proj1 Hp) Hg) as [_ Hroot].
  destruct (Hroot eq_refl) as [-> ->]. split; [|exact Hg]. f_equal.
  inversion Hst' as [|p2 st2 y ? Hst2 Hg2]; subst; [done|].
  pose proof (lr_stack_states _ Hst2) as Hr2. apply Forall_cons in Hr2 as [Hp2 _].
  by destruct (goes_target p2 y start_state (proj1 Hp2) Hg2) as [? _].
Qed.

#[local] Transparent action_group.

(** The empty file. *)
Lemma accept_means_root_witness :
  ts_builtin_sym_end = ts_builtin_sym_end ∧ [start_state] = [start_state]
  ∧ goes start_state sym_root 14846.
Proof.
  refine (accept_means_root 14846 [start_state] ts_builtin_sym_end _ _).
  - apply rtc_once. right. apply empty_file_reduction.
  - eexists _, _. split; [by vm_compute|]. split; [done|]. split.
    + unfold action_group. rewrite parse_actions_concat. by vm_compute.
    + apply elem_of_cons. by left.
Defined.
