(* ===== verification/Reductions.v ===== *)
(** * Reductions terminate

    Between two tokens the automaton reduces again and again.  A reduction of
    two or more children shortens the stack; a reduction of one child keeps its
    length, but moves to a state of lower rank; the only reduction of no child
    is that of an empty file.  So a sequence of reductions is bounded by the
    height of the stack.

    The ranks are computed by following the reductions of one child and then
    checked. *)

From stdpp Require Import pmap relations.
From S2P Require Import Prelude.
From S2P Require Import Symbols.
From S2P Require Import SymbolSets.
From S2P Require Import LexModes.
From S2P Require Import PrimaryStates.
From S2P Require Import FieldTheorems.
From S2P Require Import ParseTypes.
From S2P Require Import ParseActions.
From S2P Require Import ActionTheorems.
From S2P Require Import ParseRows.
From S2P Require Import TableTheorems.
From S2P Require Import Automaton.

(** ** Ranks *)

(** The classes that follow when class [c] reduces [x]: the targets of the
    non-terminal in the classes [x.2] transitions before, for no child and
    for one child. *)
Definition next_classes (index : Pmap (Pmap Z)) (bs : Pmap (list positive)) (c : positive)
    (x : ts_symbol * nat) : list positive :=
  let target p := class_key <$> (index !! p ≫= lookup (symbol_code x.1)) in
  match x.2 with
  | O => option_list (target c)
  | S O => omap target (default [] (bs !! c))
  | _ => []
  end.

(** The edges of the reductions of one child. *)
Definition unit_edges (index : Pmap (Pmap Z)) (bs : Pmap (list positive))
    (crs : list (positive * list (ts_symbol * nat))) : list (positive * positive) :=
  List.flat_map (λ cx, List.flat_map (λ x,
    if (x.2 =? 1)%nat then pair cx.1 <$> next_classes index bs cx.1 x else []) cx.2) crs.

Definition rank_of (rk : Pmap Z) (c : positive) : Z := default 0 (rk !! c).

Definition improve (edges : list (positive * positive)) (rk : Pmap Z) : Pmap Z :=
  foldr (λ e m, <[e.1 := rank_of m e.1 `max` (rank_of rk e.2 + 1)]> m) rk edges.

(** Ranks below [max_rank], and a larger one for the start state. *)
Definition max_rank : Z := 5.

Definition ranks (edges : list (positive * positive)) : Pmap Z :=
  <[class_key start_state := 2 * max_rank]> (Nat.iter 5 (improve edges) ∅).

(** ** The check *)

Definition rank_ok (index : Pmap (Pmap Z)) (bs : Pmap (list positive)) (rk : Pmap Z)
    (cx : positive * list (ts_symbol * nat)) : bool :=
  forallb (λ x, forallb (λ c, rank_of rk c + (if (x.2 =? 0)%nat then max_rank else 0)
                              <? rank_of rk cx.1) (next_classes index bs cx.1 x)) cx.2.

Definition ranks_bounded (bs : Pmap (list positive)) (rk : Pmap Z) : bool :=
  forallb (λ cr, (0 <=? cr.2) && ((cr.1 =? class_key start_state)%positive || (cr.2 <? max_rank)))
    (map_to_list rk)
  && if bs !! class_key start_state is Some _ then false else true.

Definition ranks_check (index : Pmap (Pmap Z)) (bs : Pmap (list positive))
    (crs : list (positive * list (ts_symbol * nat))) : bool :=
  (λ rk, forallb (rank_ok index bs rk) crs && ranks_bounded bs rk)
    (ranks (unit_edges index bs crs)).

Definition class_list : list (positive * list (ts_symbol * nat)) :=
  map_to_list (class_reductions group_reductions rows_of_classes).

Lemma ranks_checked : ranks_check row_index befores class_list = true.
Proof. by vm_compute. Qed.

Lemma elem_of_class_list c xs :
  class_reductions group_reductions rows_of_classes !! c = Some xs → (c, xs) ∈ class_list.
Proof.
  exact (proj2 (elem_of_map_to_list (class_reductions group_reductions rows_of_classes) c xs)).
Qed.

(** ** Soundness *)

#[local] Opaque parse_rows row_index befores class_list primaries.

Definition class_ranks : Pmap Z := ranks (unit_edges row_index befores class_list).

Lemma ranks_verdict :
  (∀ c xs x b, (c, xs) ∈ class_list → x ∈ xs → b ∈ next_classes row_index befores c x →
     rank_of class_ranks b + (if (x.2 =? 0)%nat then max_rank else 0) < rank_of class_ranks c)
  ∧ (∀ c, 0 ≤ rank_of class_ranks c
       ∧ (c ≠ class_key start_state → rank_of class_ranks c < max_rank))
  ∧ befores !! class_key start_state = None.
Proof.
  pose proof ranks_checked as Hc. unfold ranks_check in Hc. fold class_ranks in Hc. cbn beta in Hc.
  apply andb_prop in Hc as [Hok [Hb Hs]%andb_prop]. rewrite forallb_forall in Hok, Hb.
  split_and!.
  - intros c xs x b Hc%list_elem_of_In Hx%list_elem_of_In Hn%list_elem_of_In.
    specialize (Hok (c, xs) Hc). unfold rank_ok in Hok. rewrite forallb_forall in Hok.
    specialize (Hok x Hx). rewrite forallb_forall in Hok. specialize (Hok b Hn).
    cbn [fst snd] in Hok. lia.
  - intros c. unfold rank_of. destruct (class_ranks !! c) as [r|] eqn:Hr;
      cbn [from_option id]; [|unfold max_rank; lia].
    specialize (Hb (c, r)). rewrite <- list_elem_of_In, elem_of_map_to_list in Hb.
    specialize (Hb Hr). cbn [fst snd] in Hb. lia.
  - by destruct (befores !! class_key start_state).
Qed.

Lemma start_rank : rank_of class_ranks (class_key start_state) = 2 * max_rank.
Proof. unfold rank_of, class_ranks, ranks. by rewrite lookup_insert_eq. Qed.

#[local] Opaque class_ranks.

Lemma class_rank_bounds c : 0 ≤ rank_of class_ranks c ≤ 2 * max_rank.
Proof.
  destruct ranks_verdict as (_ & Hb & _). specialize (Hb c).
  destruct (decide (c = class_key start_state)) as [->|Hne].
  - rewrite start_rank. unfold max_rank. lia.
  - destruct Hb as [? Hb]. specialize (Hb Hne). unfold max_rank in *. lia.
Qed.

(** The target of a non-terminal, seen from the classes. *)
Lemma goto_class p x q' c c' :
  goes p x q' → (TOKEN_COUNT ≤ symbol_index x)%nat → primary p = Some c → primary q' = Some c' →
  class_key <$> (row_index !! class_key c ≫= lookup (symbol_code x)) = Some (class_key c').
Proof.
  intros (row & Hrow & Ht) Hx Hc Hc'.
  destruct (primary_transitions _ row Hrow) as (c2 & row' & Hc2 & Hle & _ & Hrow' & Hsame).
  assert (c2 = c) as -> by (unfold primary in Hc; congruence).
  rewrite (row_index_lookup c row') by (lia || done). cbn [mbind option_bind].
  rewrite (row_map_transition _ row' x Hrow').
  destruct (Hsame x) as [<-|[Hpart _]]; [|by apply partial_shifts_tokens in Hpart; lia].
  rewrite Ht. cbn [mbind option_bind]. by rewrite Hc'.
Qed.

(** ** The measure *)

Definition measure (st : list Z) : Z :=
  match st with
  | q :: _ => max_rank * Z.of_nat (length st)
      + (if primary q is Some c then rank_of class_ranks (class_key c) else 0)
  | [] => 0
  end.

Lemma goes_rank p s q' c' :
  0 ≤ p < Z.of_nat STATE_COUNT → goes p s q' → primary q' = Some c' →
  0 ≤ rank_of class_ranks (class_key c') < max_rank.
Proof.
  intros Hp Hg Hc'. destruct (state_class p Hp) as (c & Hc & _).
  pose proof (befores_goes _ _ _ _ _ Hg Hc Hc') as Hb.
  destruct ranks_verdict as (_ & Hr & Hs). destruct (Hr (class_key c')) as [? Hlt].
  split; [done|]. apply Hlt. intros Heq. rewrite Heq, Hs in Hb. by apply not_elem_of_nil in Hb.
Qed.

Lemma reduction_decreases st1 st2 :
  lr_reduction st1 st2 → lr_stack st1 → 0 ≤ measure st2 < measure st1.
Proof.
  intros [q st s n x p st' q' Hred Hd Hg] Hst. pose proof (lr_stack_states _ Hst) as Hrange.
  assert (lr_stack (p :: st')) as Hst' by by eapply lr_stack_drop.
  pose proof (lr_stack_states _ Hst') as [Hp _]%Forall_cons.
  destruct (state_class q) as (c & Hc & _); [by apply Forall_cons in Hrange as [? _]|].
  destruct (state_class p Hp) as (cp & Hcp & _).
  assert (0 ≤ q' < Z.of_nat STATE_COUNT) as Hq'.
  { destruct Hg as (row & Hrow & Ht). by eapply transition_state. }
  destruct (state_class q' Hq') as (c' & Hc' & _).
  pose proof (goes_rank p x q' c' Hp Hg Hc') as Hr'.
  pose proof (class_rank_bounds (class_key c)) as Hr.
  destruct (reduces_listed q s n x c Hred Hc) as [Hl Hx].
  apply listed_lookup in Hl as (xs & Hxs & Hin).
  pose proof (goto_class p x q' cp c' Hg Hx Hcp Hc') as Htarget.
  assert (∀ b, b ∈ next_classes row_index befores (class_key c) (x, Z.to_nat n) →
    rank_of class_ranks b + (if (Z.to_nat n =? 0)%nat then max_rank else 0)
      < rank_of class_ranks (class_key c)) as Hnext.
  { destruct ranks_verdict as (Hv & _). intros b Hb.
    apply (Hv (class_key c) xs (x, Z.to_nat n) b); [|exact Hin|exact Hb].
    by apply elem_of_class_list. }
  unfold measure. rewrite Hc, Hc'. unfold next_classes in Hnext. cbn [fst snd] in Hnext.
  apply (f_equal length) in Hd as Hlen. rewrite length_drop in Hlen. cbn [length] in *.
  unfold max_rank in *. destruct (Z.to_nat n) as [|[|k]] eqn:Hn.
  - cbn [drop] in Hd. injection Hd as <- <-. rewrite Hc in Hcp. injection Hcp as <-.
    specialize (Hnext (class_key c')). rewrite Htarget in Hnext.
    specialize (Hnext ltac:(apply elem_of_cons; by left)). cbn [Nat.eqb] in Hnext. lia.
  - specialize (Hnext (class_key c')).
    assert (st = p :: st') as -> by exact Hd.
    assert (∃ s0, goes p s0 q) as [s0 Hg0] by (inversion Hst; subst; eauto).
    specialize (Hnext ltac:(apply list_elem_of_omap; exists (class_key cp);
      split; [by eapply befores_goes|exact Htarget])). cbn [Nat.eqb] in Hnext. lia.
  - lia.
Qed.

Lemma measure_nonneg st : 0 ≤ measure st.
Proof.
  unfold measure. destruct st as [|q st]; [done|]. unfold max_rank. case_match; [|lia].
  pose proof (class_rank_bounds (class_key z)). lia.
Qed.

(** A shift raises the measure by less than two ranks. *)
Lemma shift_measure q st s q' :
  lr_stack (q :: st) → goes q s q' → measure (q' :: q :: st) < measure (q :: st) + 2 * max_rank.
Proof.
  intros Hst Hg. pose proof (lr_stack_states _ Hst) as [Hq _]%Forall_cons.
  assert (0 ≤ q' < Z.of_nat STATE_COUNT) as Hq'.
  { destruct Hg as (row & Hrow & Ht). by eapply transition_state. }
  destruct (state_class q' Hq') as (c' & Hc' & _). destruct (state_class q Hq) as (c & Hc & _).
  pose proof (goes_rank q s q' c' Hq Hg Hc') as Hr'.
  pose proof (class_rank_bounds (class_key c)) as Hr.
  unfold measure. rewrite Hc, Hc'. cbn [length]. unfold max_rank in *. lia.
Qed.

(** Reductions terminate: from a reachable stack the automaton makes at
    most [5 * (height of the stack + 2)] reductions before it has to read a
    token. *)
Theorem reductions_terminate n st st' :
  rtc lr_step [start_state] st → nsteps lr_reduction n st st' →
  Z.of_nat n ≤ max_rank * (Z.of_nat (length st) + 2).
Proof.
  intros Hst%reachable_stack Hn.
  assert (Z.of_nat n ≤ measure st) as Hm.
  { induction Hn as [st|n st st1 st' Hs _ IH].
    - apply measure_nonneg.
    - pose proof (reduction_decreases st st1 Hs Hst).
      assert (lr_stack st1) as Hst1 by (by eapply lr_stack_reduction). specialize (IH Hst1). lia. }
  destruct st as [|q st]; [unfold measure, max_rank in *; simpl in *; lia|].
  unfold measure in Hm. case_match; unfold max_rank in *; [|lia].
  pose proof (class_rank_bounds (class_key z)). unfold max_rank in *. lia.
Qed.

(** The empty file: one reduction. *)
Lemma reductions_terminate_witness :
  Z.of_nat 1 ≤ max_rank * (Z.of_nat (length [start_state]) + 2).
Proof.
  refine (reductions_terminate 1 [start_state] [14846; start_state] _ _); [constructor|].
  apply nsteps_once, empty_file_reduction.
Defined.
