(* ===== verification/TokenLoop.v ===== *)
(** * Reading a file token by token

    The scanner and the lexer are called again and again, each time from the
    end of the last token.  Whatever the order of the calls, the valid symbols
    and the lex states, the calls that return a token consume the input, so
    that there are at most as many tokens as characters. *)

From stdpp Require Import relations.
From S2P Require Import Prelude.
From S2P Require Import Lexer.
From S2P Require Import Tokens.
From S2P Require Import Words.
From S2P Require Import Scanner.
From S2P Require Import Symbols.
From S2P Require Import LexTable.
From S2P Require Import LexDfa.
From S2P Require Import Regex.
From S2P Require Import LexTokens.
From S2P Require Import LexTheorems.

(** No token pattern matches the empty text. *)
Lemma pattern_not_empty t : ¬ lang (pattern t) [].
Proof.
  rewrite <- nullable_lang. apply not_true_iff_false, negb_true_iff.
  revert t. apply symbol_forall. by vm_compute.
Qed.

Lemma lexes_shorter s cs t tl : lexes s cs t tl → ∃ w, w ≠ [] ∧ cs = w ++ tl.
Proof.
  intros (w & -> & _ & (_ & Hw & _) & _). exists w. split; [|done].
  intros ->. by apply pattern_not_empty in Hw.
Qed.

Lemma token_at_prefix valid cs t k :
  token_at valid cs t (drop k cs) → ∃ w, w ≠ [] ∧ cs = w ++ drop k cs.
Proof.
  intros Ht%token_at_shorter. exists (take k cs). rewrite take_drop. split; [|done].
  intros Hn%(f_equal length). rewrite length_take in Hn. rewrite length_drop in Ht.
  simpl in Hn. lia.
Qed.

Section loop.
Context `{TSLexerOk L}.

(** A call of the scanner or of the lexer on the text [cs] returns a token and
    leaves the text after it. *)
Inductive token_step (cs : list Z) : list Z → Prop :=
  | token_scanned fuel p (l l' : L) valid :
      rest l = cs → (length cs < fuel)%nat →
      tree_sitter_pascal_external_scanner_scan fuel p l valid = Ret (true, l') →
      token_step cs (token_end l')
  | token_lexed fuel (l l' : L) s :
      rest l = cs → cs ≠ [] → s ∈ lex_states → (length cs + 1 < fuel)%nat →
      ts_lex fuel l s = Ret (true, l') →
      token_step cs (token_end l').

Lemma token_step_prefix cs cs' :
  Z.of_nat (length cs) < 2 ^ 32 → token_step cs cs' → ∃ w, w ≠ [] ∧ cs = w ++ cs'.
Proof.
  intros Hb [fuel p l l' valid <- Hf Hs|fuel l l' s <- Hne Hs Hf Hl].
  - destruct (scan_cases fuel p l valid Hf Hb) as [(t & k & Ht & Hs')|(_ & ? & Hs' & _)];
      rewrite Hs' in Hs; simplify_eq. unfold emit.
    rewrite token_end_set_result, token_end_mark_end, rest_advs. by eapply token_at_prefix.
  - destruct (ts_lex_true fuel l l' s Hs Hne Hf Hl) as (t & _ & Ht). by eapply lexes_shorter.
Qed.

(** Reading tokens terminates: after [n] tokens at least [n] characters of
    the input are consumed, and what is left is a suffix of the input. *)
Theorem tokens_terminate n cs cs' :
  Z.of_nat (length cs) < 2 ^ 32 → nsteps token_step n cs cs' →
  (n + length cs' ≤ length cs)%nat ∧ cs' `suffix_of` cs.
Proof.
  intros Hb Hn. induction Hn as [cs|n cs cs1 cs' Hs _ IH]; [by split|].
  destruct (token_step_prefix cs cs1 Hb Hs) as (w & Hw & ->).
  destruct w as [|c w]; [done|]. rewrite length_app in *. simpl in *.
  destruct IH as [IH Hsuf]; [lia|]. split; [lia|].
  etrans; [exact Hsuf|]. by exists (c :: w).
Qed.
End loop.

Lemma tokens_terminate_witness :
  (2 + length (codes "x") ≤ length (codes "begin x"))%nat ∧ codes "x" `suffix_of` codes "begin x".
Proof.
  refine (tokens_terminate (L:=StrLexer) 2 (codes "begin x") (codes "x") _ _); [concrete|].
  set (l1 := MkStrLexer (codes " x") (codes " x") (Z.of_nat (token_index KBEGIN))).
  set (l2 := MkStrLexer (codes "x") (codes "x") (Z.of_nat (symbol_index sym__space))).
  apply nsteps_l with (token_end l1); [|apply nsteps_l with (token_end l2); [|constructor]].
  - apply (token_scanned _ 20 None (str_lexer "begin x") l1 (λ _, true)); concrete.
  - apply (token_lexed _ 20 (str_lexer " x") l2 1); concrete.
Defined.
