(* ===== verification/ParseSteps.v ===== *)
(** * Reading a text with the tables

    The scanner, the lexer and the LR tables put together.  A configuration is
    a stack of parse states, the token that was read last, and the text that
    is left.  A step reads a token in the lex mode of the top state (with the
    scanner, or with [ts_lex] if the scanner finds none), or follows one of the
    actions that the table offers for the token.

    The parser's runtime is not part of the repository.  The steps are not a
    model of it: they are all the steps that the tables offer.  Where a group
    has several actions each of them is a possible step, also the repetition
    shifts that the runtime leaves out, so that a bound on the number of steps
    holds of every strategy that reads tokens with the scanner and the lexer
    and follows the tables. *)

From stdpp Require Import pmap relations.
From S2P Require Import Prelude.
From S2P Require Import Lexer.
From S2P Require Import Tokens.
From S2P Require Import Words.
From S2P Require Import Scanner.
From S2P Require Import Symbols.
From S2P Require Import SymbolSets.
From S2P Require Import LexTable.
From S2P Require Import LexDfa.
From S2P Require Import Regex.
From S2P Require Import LexTokens.
From S2P Require Import LexTheorems.
From S2P Require Import LexModes.
From S2P Require Import ParserTheorems.
From S2P Require Import ParseTypes.
From S2P Require Import ParseActions.
From S2P Require Import ActionTheorems.
From S2P Require Import ParseRows.
From S2P Require Import TableTheorems.
From S2P Require Import Automaton.
From S2P Require Import Acceptance.
From S2P Require Import Reductions.
From S2P Require Import TokenLoop.

(** ** Actions of a state *)

(** State [q] offers the action [a] before the token [s]. *)
Definition offers (q : Z) (s : ts_symbol) (a : TSParseAction) : Prop :=
  ∃ row acts, parse_rows !! Z.to_nat q = Some row ∧ is_token s = true
    ∧ action_group (parse_entry row s) = Some acts ∧ a ∈ acts.

Lemma offers_reduces q s n x prec pid :
  offers q s (TSParseActionTypeReduce n x prec pid) → reduces q s n x.
Proof. intros (row & acts & Hrow & Hs & Ha & Hin). by exists row, acts, prec, pid. Qed.

(** ** Facts of the tables *)

Definition is_shift (a : TSParseAction) : bool :=
  if a is TSParseActionTypeShift _ _ _ then true else false.

Definition is_recover (a : TSParseAction) : bool :=
  if a is TSParseActionTypeRecover then true else false.

Definition is_end (s : ts_symbol) : bool :=
  (symbol_code s =? symbol_code ts_builtin_sym_end)%positive.

(** A group of state [q]: the end of the input is not shifted, only state 0
    recovers from errors, and no shift leads to state 0. *)
Definition group_regular (sg rg : symset) (sh : Pmap Z) (q : Z) (g : parse_group) : bool :=
  match g with
  | ACTIONS id ss =>
      (if sg !! Z.to_pos (id + 1) is Some _ then negb (existsb is_end ss) else true)
      && (if rg !! Z.to_pos (id + 1) is Some _ then q =? 0 else true)
      && (if sh !! Z.to_pos (id + 1) is Some t then negb (t =? 0) else true)
  | STATE _ _ => true
  end.

Lemma rows_regular_checked :
  (λ sg rg sh, rows_all (group_regular sg rg sh) 0 parse_rows)
    (groups_with is_shift) (groups_with is_recover) shift_states = true.
Proof. by vm_compute. Qed.

#[local] Opaque parse_rows parse_action_runs action_group groups_with shift_states.

Lemma group_regular_at q row g :
  0 ≤ q → parse_rows !! Z.to_nat q = Some row → g ∈ row →
  group_regular (groups_with is_shift) (groups_with is_recover) shift_states q g = true.
Proof.
  intros Hq Hrow Hg. rewrite <- (Z2Nat.id q Hq).
  exact (rows_all_row _ parse_rows 0 _ row g rows_regular_checked Hrow Hg).
Qed.

(** The group an offered action is in. *)
Lemma offers_group q s a :
  offers q s a → ∃ row id ss acts, parse_rows !! Z.to_nat q = Some row ∧ ACTIONS id ss ∈ row
    ∧ s ∈ ss ∧ 0 < id ∧ id ∈ parse_action_runs.*1 ∧ action_group id = Some acts ∧ a ∈ acts
    ∧ parse_entry row s = id.
Proof.
  intros (row & acts & Hrow & Htok & Ha & Hin).
  destruct (table_entry _ row s Hrow) as [(g & Hg & Hs & Hty & He & _)|[_ He]]; rewrite He in Ha.
  - destruct g as [id ss|id ss]; cbn [group_id group_symbols] in *.
    + apply group_typed_actions in Hty as (? & _ & _ & _ & _ & Hkey).
      by exists row, id, ss, acts.
    + apply group_typed_state in Hty as [_ Hnt]. rewrite Forall_forall in Hnt.
      apply Hnt in Hs. congruence.
  - rewrite no_actions in Ha. injection Ha as <-. by apply not_elem_of_nil in Hin.
Qed.

(** An offered shift, other than of an extra token, is a transition: it is the
    last action of its group. *)
Lemma offers_goes q s q' rep : offers q s (TSParseActionTypeShift q' false rep) → goes q s q'.
Proof.
  intros (row & acts & Hrow & Hs & Ha & Hin). exists row. split; [done|].
  unfold transition. cbn zeta. rewrite Hs, Ha. cbn [mbind option_bind]. unfold shift_target.
  apply action_group_ok in Ha as [Hred _]. rewrite Forall_forall in Hred.
  destruct (last acts) as [a|] eqn:Hl; [|apply last_None in Hl; subst; by apply not_elem_of_nil in Hin].
  apply last_Some in Hl as [acts' ->]. rewrite removelast_last in Hred.
  apply elem_of_app in Hin as [Hin%Hred| <-%list_elem_of_singleton]; [done|done].
Qed.

Lemma end_not_shifted q s st e rep :
  0 ≤ q → offers q s (TSParseActionTypeShift st e rep) → s ≠ ts_builtin_sym_end.
Proof.
  intros Hq Hoff ->. apply offers_group in Hoff as (row & id & ss & acts & Hrow & Hg & Hs & Hid
    & Hkey & Ha & Hin & _).
  pose proof (group_regular_at q row _ Hq Hrow Hg) as Hr. cbn [group_regular] in Hr.
  rewrite (groups_with_lookup is_shift id acts _ Hid Hkey Ha Hin) in Hr by done.
  rewrite (proj2 (existsb_exists is_end ss)) in Hr; [done|].
  exists ts_builtin_sym_end. by rewrite <- list_elem_of_In.
Qed.

Lemma recover_state q s :
  0 ≤ q → offers q s TSParseActionTypeRecover → q = 0.
Proof.
  intros Hq Hoff. apply offers_group in Hoff as (row & id & ss & acts & Hrow & Hg & Hs & Hid
    & Hkey & Ha & Hin & _).
  pose proof (group_regular_at q row _ Hq Hrow Hg) as Hr. cbn [group_regular] in Hr.
  rewrite (groups_with_lookup is_recover id acts _ Hid Hkey Ha Hin) in Hr by done.
  apply andb_prop in Hr as [[_ Hr]%andb_prop _]. lia.
Qed.

(** No transition leads to the state of error recovery. *)
Lemma goes_not_recover p s q : 0 ≤ p → goes p s q → q ≠ 0.
Proof.
  intros Hp (row & Hrow & Ht). unfold transition in Ht. cbn zeta in Ht.
  destruct (table_entry _ row s Hrow) as [(g & Hg & Hs & Hty & He & Hpos)|[_ He]]; rewrite He in Ht.
  - pose proof (group_regular_at p row g Hp Hrow Hg) as Hr.
    destruct g as [id ss|id ss]; cbn [group_id group_symbols group_regular] in *.
    + apply group_typed_actions in Hty as (? & Htok & acts & Ha & _ & Hkey).
      rewrite Forall_forall in Htok. rewrite (proj1 (Is_true_true _) (Htok s Hs)) in Ht.
      rewrite shift_states_lookup, Ht in Hr by done. apply andb_prop in Hr as [_ Hr]. lia.
    + apply group_typed_state in Hty as [? Hnt]. rewrite Forall_forall in Hnt.
      rewrite (Hnt s Hs) in Ht. case_match; [done|]. injection Ht as <-. lia.
  - rewrite no_actions in Ht. by destruct (is_token s).
Qed.

(** ** Configurations *)

Record config := Config {
  stack : list Z;
  token : option (ts_symbol * list Z);
  input : list Z;
}.

Definition start_config (cs : list Z) : config := Config [start_state] None cs.

Section steps.
Context `{TSLexerOk L}.

(** In state [q], the token [s] with the text [w] is read from [cs], and [tl] is
    left.  The scanner is asked first; its payload is not used. *)
Inductive reads (q : Z) (cs : list Z) (s : ts_symbol) (w tl : list Z) : Prop :=
  | reads_scanned m fuel p (l l' : L) t :
      ts_lex_modes !! Z.to_nat q = Some m → rest l = cs → (length cs < fuel)%nat →
      tree_sitter_pascal_external_scanner_scan fuel p l
        (valid_symbols_of (Z.to_nat (external_lex_state m))) = Ret (true, l') →
      result_symbol l' = Z.of_nat (token_index t) → external_symbol t = Some s →
      cs = w ++ tl → token_end l' = tl → reads q cs s w tl
  | reads_lexed m fuel p (l1 l1' l l' : L) :
      ts_lex_modes !! Z.to_nat q = Some m → (length cs + 1 < fuel)%nat →
      rest l1 = cs →
      tree_sitter_pascal_external_scanner_scan fuel p l1
        (valid_symbols_of (Z.to_nat (external_lex_state m))) = Ret (false, l1') →
      rest l = cs → ts_lex fuel l (Z.to_nat (lex_state m)) = Ret (true, l') →
      result_symbol l' = Z.of_nat (symbol_index s) →
      cs = w ++ tl → token_end l' = tl → reads q cs s w tl.

Inductive parse_step : config → config → Prop :=
  | step_read q st cs s w tl :
      reads q cs s w tl →
      parse_step (Config (q :: st) None cs) (Config (q :: st) (Some (s, w)) tl)
  | step_shift q st s w cs q' rep :
      offers q s (TSParseActionTypeShift q' false rep) →
      parse_step (Config (q :: st) (Some (s, w)) cs) (Config (q' :: q :: st) None cs)
  | step_extra q st s w cs q' rep :
      offers q s (TSParseActionTypeShift q' true rep) →
      parse_step (Config (q :: st) (Some (s, w)) cs) (Config (q :: st) None cs)
  | step_reduce q st s w cs n x prec pid p st' q' :
      offers q s (TSParseActionTypeReduce n x prec pid) →
      drop (Z.to_nat n) (q :: st) = p :: st' → goes p x q' →
      parse_step (Config (q :: st) (Some (s, w)) cs) (Config (q' :: p :: st') (Some (s, w)) cs).

(** ** Reading *)

Lemma reads_text q cs s w tl : reads q cs s w tl → cs = w ++ tl.
Proof. by intros []. Qed.

Lemma external_not_end t : external_symbol t ≠ Some ts_builtin_sym_end.
Proof. by destruct t; vm_compute. Qed.

Lemma end_no_pattern w : ¬ lang (pattern ts_builtin_sym_end) w.
Proof. by intros []. Qed.

(** A token has a text, unless it is the end of the input. *)
Lemma reads_cases q cs s w tl :
  Z.of_nat (length cs) < 2 ^ 32 → reads q cs s w tl →
  w ≠ [] ∧ s ≠ ts_builtin_sym_end ∨ cs = [] ∧ w = [] ∧ s = ts_builtin_sym_end.
Proof.
  intros Hb [m fuel p l l' t _ <- Hf Hs _ Ht Hcs Htl|m fuel p l1 l1' l l' Hm Hf _ _ <- Hl Hsym Hcs Htl].
  - left. split; [|by intros ->; apply external_not_end in Ht].
    destruct (scan_cases fuel p l (valid_symbols_of (Z.to_nat (external_lex_state m))) Hf Hb)
      as [(t' & k & Ht' & Hs')|(_ & ? & Hs' & _)];
      rewrite Hs' in Hs; [|done]. injection Hs as <-. apply token_at_shorter in Ht'.
    unfold emit in Htl. rewrite token_end_set_result, token_end_mark_end, rest_advs in Htl.
    rewrite Htl in Ht'. intros ->. apply (f_equal length) in Hcs. cbn [app] in Hcs. lia.
  - apply lex_modes_in_tables in Hm as (Hm & _).
    destruct (decide (rest l = [])) as [Hr|Hr].
    + right. split; [done|]. rewrite Hr in Hcs. symmetry in Hcs. apply app_nil in Hcs as [-> _].
      split; [done|].
      destruct (ts_lex_end_of_input fuel l _ Hm Hr ltac:(lia)) as (b & l2 & Hl2 & _ & Hend).
      rewrite Hl in Hl2. injection Hl2 as <- <-. destruct (Hend eq_refl) as [Heq _].
      rewrite Hsym in Heq. by apply (inj Z.of_nat), (inj symbol_index) in Heq.
    + left. destruct (ts_lex_true fuel l l' _ Hm Hr Hf Hl) as (t & Ht & Hlex).
      rewrite Hsym in Ht. apply (inj Z.of_nat), (inj symbol_index) in Ht as <-. split.
      * apply lexes_shorter in Hlex as (w' & Hw' & Hcs'). intros ->.
        rewrite Htl in Hcs'. rewrite Hcs' in Hcs.
        apply (f_equal length) in Hcs. rewrite length_app in Hcs. by destruct w'; simpl in Hcs; [|lia].
      * intros ->. destruct Hlex as (w' & _ & _ & (_ & Hw' & _) & _). by apply end_no_pattern in Hw'.
Qed.

(** ** The invariant of a run *)

(** The text of the token that was read last. *)
Definition pending (c : config) : list Z := from_option snd [] (token c).

(** [c] is a configuration on the way through the text [cs]: the states are
    those of a stack, and the pending token and what is left end the text. *)
Record config_ok (cs : list Z) (c : config) : Prop := {
  config_stack : lr_stack (stack c);
  config_text : pending c ++ input c `suffix_of` cs;
  config_token s w :
    token c = Some (s, w) → ∃ q, reads q (w ++ input c) s w (input c);
}.

Lemma start_config_ok cs : config_ok cs (start_config cs).
Proof. split; [constructor|done|done]. Qed.

(** What a run can still spend: the measure of the stack, and a share for each
    character that is left. *)
Definition potential (c : config) : Z :=
  measure (stack c) + 12 * Z.of_nat (length (input c))
  + match token c with None => 1 | Some (_, []) => 0 | Some (_, _ :: _) => 11 end.

Lemma potential_nonneg c : 0 ≤ potential c.
Proof.
  unfold potential. pose proof (measure_nonneg (stack c)). repeat case_match; lia.
Qed.

Section run.
Context (cs : list Z) (text_short : Z.of_nat (length cs) < 2 ^ 32).

Lemma pending_token c s w :
  config_ok cs c → token c = Some (s, w) →
  w ≠ [] ∧ s ≠ ts_builtin_sym_end ∨ w = [] ∧ input c = [] ∧ s = ts_builtin_sym_end.
Proof using text_short.
  intros [Hst Htext Htok] Ht. destruct (Htok s w Ht) as [q Hr].
  unfold pending in Htext. rewrite Ht in Htext. cbn [from_option snd] in Htext.
  apply suffix_length in Htext.
  apply reads_cases in Hr as [?|(Hn & -> & ->)]; [by left|by right|]. lia.
Qed.

(** A token that is shifted has a text. *)
Lemma shifted_text q st s w tl q' e rep :
  config_ok cs (Config (q :: st) (Some (s, w)) tl) →
  offers q s (TSParseActionTypeShift q' e rep) → w ≠ [].
Proof using text_short.
  intros Hc Hoff. pose proof (lr_stack_states _ (config_stack _ _ Hc)) as Hq.
  apply Forall_cons in Hq as [[Hq _] _].
  pose proof (end_not_shifted _ _ _ _ _ Hq Hoff) as Hne.
  by destruct (pending_token _ s w Hc eq_refl) as [[Hw _]|(_ & _ & ?)].
Qed.

Lemma step_ok c c' : config_ok cs c → parse_step c c' → config_ok cs c'.
Proof using.
  intros [Hst Htext Htok] Hstep. destruct Hstep as [q st tx s w tl Hr|q st s w tl q' rep Hoff
    |q st s w tl q' rep Hoff|q st s w tl n x prec pid p st' q' Hoff Hd Hg];
    unfold pending in Htext; cbn [stack token input from_option snd] in *.
  - pose proof (reads_text _ _ _ _ _ Hr) as ->. split; [done|done|].
    intros s' w' [= <- <-]. by exists q.
  - split; [|by eapply suffix_app_l|done]. eapply lr_stack_push; [done|by eapply offers_goes].
  - split; [done|by eapply suffix_app_l|done].
  - split; [|done|done]. eapply lr_stack_push; [|done]. by eapply lr_stack_drop.
Qed.

(** ** The number of steps *)

Lemma step_potential c c' : config_ok cs c → parse_step c c' → potential c' < potential c.
Proof using text_short.
  intros Hc Hstep. pose proof Hc as [Hst _ _].
  destruct Hstep as [q st tx s w tl Hr|q st s w tl q' rep Hoff|q st s w tl q' rep Hoff
    |q st s w tl n x prec pid p st' q' Hoff Hd Hg]; unfold potential;
    cbn [stack token input] in *.
  - pose proof (reads_text _ _ _ _ _ Hr) as ->. rewrite length_app. destruct w; simpl; lia.
  - pose proof (shifted_text _ _ _ _ _ _ _ _ Hc Hoff) as Hw. destruct w as [|ch w]; [done|].
    pose proof (shift_measure q st s q' Hst (offers_goes _ _ _ _ Hoff)) as Hm.
    unfold max_rank in Hm. lia.
  - pose proof (shifted_text _ _ _ _ _ _ _ _ Hc Hoff) as Hw. destruct w as [|ch w]; [done|]. lia.
  - assert (lr_reduction (q :: st) (q' :: p :: st')) as Hred
      by (apply (lr_reduce q st s n x p st' q'); [by eapply offers_reduces|done|done]).
    pose proof (reduction_decreases _ _ Hred Hst). lia.
Qed.
End run.
End steps.
