(* ===== verification/SyntaxTheorems.v ===== *)
(** * Properties of parsing

    What the tables guarantee of every sequence of steps of [ParseSteps.v] and
    of every stack of the LR automaton, and an executable driver, which follows
    the last action of each group, with a program that it reads to the end. *)

From stdpp Require Import pmap relations.
From S2P Require Import Prelude.
From S2P Require Import Lexer.
From S2P Require Import Tokens.
From S2P Require Import Words.
From S2P Require Import Scanner.
From S2P Require Import Symbols.
From S2P Require Import SymbolSets.
From S2P Require Import LexTable.
From S2P Require Import LexDfa.
From S2P Require Import LexTheorems.
From S2P Require Import LexModes.
From S2P Require Import ParserTheorems.
From S2P Require Import ParseTypes.
From S2P Require Import ParseActions.
From S2P Require Import ActionTheorems.
From S2P Require Import ParseTable1.
From S2P Require Import ParseTable10.
From S2P Require Import ParseRows.
From S2P Require Import TableTheorems.
From S2P Require Import Automaton.
From S2P Require Import Acceptance.
From S2P Require Import Reductions.
From S2P Require Import ParseSteps.

(** ** A driver *)

(** The actions of a group, read from the flat array. *)
Definition actions_in (flat : list TSParseActionEntry) (id : Z) : option (list TSParseAction) :=
  if id <? 0 then None else
  match drop (Z.to_nat id) flat with
  | Entry count _ :: l => read_actions (Z.to_nat count) l
  | _ => None
  end.

Definition symbol_at (n : Z) : option ts_symbol :=
  s ← all_symbols !! Z.to_nat n; if Z.of_nat (symbol_index s) =? n then Some s else None.

Definition external_at (n : Z) : option ts_symbol :=
  t ← all_tokens !! Z.to_nat n;
  if Z.of_nat (token_index t) =? n then external_symbol t else None.

(** The text of a token, given what is left after it. *)
Definition split_token (cs tl : list Z) (s : ts_symbol) : option (ts_symbol * list Z * list Z) :=
  let w := take (length cs - length tl) cs in
  if bool_decide (cs = w ++ tl) then Some (s, w, tl) else None.

Definition read_token (q : Z) (cs : list Z) : option (ts_symbol * list Z * list Z) :=
  m ← ts_lex_modes !! Z.to_nat q;
  let fuel := S (S (length cs)) in
  let l := MkStrLexer cs [] 0 in
  match tree_sitter_pascal_external_scanner_scan fuel None l
          (valid_symbols_of (Z.to_nat (external_lex_state m))) with
  | Ret (true, l') => s ← external_at (str_symbol l'); split_token cs (str_end l') s
  | Ret (false, _) =>
      match ts_lex fuel l (Z.to_nat (lex_state m)) with
      | Ret (true, l') => s ← symbol_at (str_symbol l'); split_token cs (str_end l') s
      | _ => None
      end
  | _ => None
  end.

(** One step: the last action of the group is the shift if there is one. *)
Definition drive (flat : list TSParseActionEntry) (c : config) : option config :=
  match stack c, token c with
  | [], _ => None
  | q :: st, None =>
      '(s, w, tl) ← read_token q (input c); Some (Config (q :: st) (Some (s, w)) tl)
  | q :: st, Some (s, w) =>
      row ← parse_rows !! Z.to_nat q;
      acts ← (if is_token s then actions_in flat (parse_entry row s) else None);
      match last acts with
      | Some (TSParseActionTypeShift q' false _) => Some (Config (q' :: q :: st) None (input c))
      | Some (TSParseActionTypeShift _ true _) => Some (Config (q :: st) None (input c))
      | Some (TSParseActionTypeReduce n x _ pid) =>
          match drop (Z.to_nat n) (q :: st) with
          | p :: st' =>
              row' ← parse_rows !! Z.to_nat p;
              if is_token x || (parse_entry row' x =? 0) then None else
              Some (Config (parse_entry row' x :: p :: st') (Some (s, w)) (input c))
          | [] => None
          end
      | _ => None
      end
  end.

Fixpoint drives (flat : list TSParseActionEntry) (n : nat) (c : config) : option config :=
  match n with
  | O => Some c
  | S n => c' ← drive flat c; drives flat n c'
  end.

#[local] Opaque parse_rows ts_parse_actions ts_lex_modes ts_lex
  tree_sitter_pascal_external_scanner_scan.

Lemma actions_in_group id : actions_in ts_parse_actions id = action_group id.
Proof. done. Qed.

Lemma split_token_spec cs tl s x : split_token cs tl s = Some x → ∃ w, x = (s, w, tl) ∧ cs = w ++ tl.
Proof. unfold split_token. case_bool_decide as Hd; intros [= <-]. by eexists. Qed.

Lemma read_token_reads q cs s w tl :
  read_token q cs = Some (s, w, tl) → reads (L:=StrLexer) q cs s w tl.
Proof.
  unfold read_token. intros (m & Hm & Hr)%bind_Some. cbn zeta in Hr.
  destruct (tree_sitter_pascal_external_scanner_scan _ _ _ _) as [[[] l1]| |] eqn:Hs; [| |done..].
  - apply bind_Some in Hr as (s' & He & (w' & [= -> -> ->] & Hcs)%split_token_spec).
    unfold external_at in He. apply bind_Some in He as (t & _ & He).
    destruct (Z.eqb_spec (Z.of_nat (token_index t)) (str_symbol l1)) as [Ht|]; [|done].
    eapply (reads_scanned _ _ _ _ _ m (S (S (length cs))) None);
      [exact Hm| |lia|exact Hs|symmetry; exact Ht|exact He|exact Hcs|]; done.
  - destruct (ts_lex _ _ _) as [[[] l2]| |] eqn:Hl; [|done..].
    apply bind_Some in Hr as (s' & He & (w' & [= -> -> ->] & Hcs)%split_token_spec).
    unfold symbol_at in He. apply bind_Some in He as (t & _ & He).
    destruct (Z.eqb_spec (Z.of_nat (symbol_index t)) (str_symbol l2)) as [Ht|]; [|done].
    injection He as ->.
    eapply (reads_lexed _ _ _ _ _ m (S (S (length cs))) None); 
      [exact Hm|lia| |exact Hs| |exact Hl|symmetry; exact Ht|exact Hcs|]; done.
Qed.

Lemma drive_step c c' : drive ts_parse_actions c = Some c' → parse_step (L:=StrLexer) c c'.
Proof.
  unfold drive. destruct c as [[|q st] [[s w]|] tx]; cbn [stack token input]; [done..| |].
  - intros (row & Hrow & Hd)%bind_Some. apply bind_Some in Hd as (acts & Ha & Hd).
    destruct (is_token s) eqn:Hs; [|done]. rewrite actions_in_group in Ha.
    destruct (last acts) as [a|] eqn:Hl; [|done].
    assert (offers q s a) as Hoff by (exists row, acts; eauto using last_Some_elem_of).
    destruct a as [q' [] rep|n x prec pid| |]; [..|done|done].
    + injection Hd as <-. by eapply step_extra.
    + injection Hd as <-. by eapply step_shift.
    + destruct (drop _ _) as [|p st'] eqn:Hdrop; [done|].
      apply bind_Some in Hd as (row' & Hrow' & Hd).
      destruct (is_token x) eqn:Hx; [done|]. cbn [orb] in Hd.
      destruct (parse_entry row' x =? 0) eqn:He; [done|]. injection Hd as <-.
      eapply step_reduce; [exact Hoff|exact Hdrop|]. exists row'. split; [done|].
      unfold transition. cbn zeta. by rewrite Hx, He.
  - intros ([[s w] tl] & Hr%read_token_reads & [= <-])%bind_Some. by constructor.
Qed.

Lemma drives_run n c c' :
  drives (concat parse_action_runs.*2) n c = Some c' → nsteps (parse_step (L:=StrLexer)) n c c'.
Proof.
  rewrite <- parse_actions_concat. revert c. induction n as [|n IH]; cbn [drives].
  - intros c [= ->]. constructor.
  - intros c (c1 & Hd%drive_step & Hn%IH)%bind_Some. by econstructor.
Qed.

(** ** The length of a run *)

Section runs.
Context `{TSLexerOk L}.
Abbreviation step := (parse_step (L:=L)).

(** C13. Parsing terminates, in linear time: every run over a text of [n]
    characters, whichever actions it follows, has at most [12 * n + 16] steps. *)
Theorem parse_linear n cs c :
  Z.of_nat (length cs) < 2 ^ 32 → nsteps step n (start_config cs) c →
  Z.of_nat n ≤ 12 * Z.of_nat (length cs) + 16.
Proof.
  intros Hb Hn.
  assert (potential (start_config cs) = 12 * Z.of_nat (length cs) + 16) as <-.
  { unfold potential, measure, start_config. cbn [stack token input length].
    rewrite start_class, start_rank. unfold max_rank. lia. }
  pose proof (start_config_ok cs) as Hc. revert Hc Hn. generalize (start_config cs) as c0.
  intros c0 Hc Hn. induction Hn as [c0|n c0 c1 c Hs _ IH].
  - apply potential_nonneg.
  - pose proof (step_potential cs Hb c0 c1 Hc Hs). pose proof (step_ok cs c0 c1 Hc Hs) as Hc1.
    specialize (IH Hc1). lia.
Qed.

End runs.

(** ** Usable actions *)

(** A repetition shift, which a parser passes over, stands beside a
    reduction. *)
Definition is_repeat (a : TSParseAction) : bool :=
  if a is TSParseActionTypeShift _ _ repetition then repetition else false.

Definition repeats_backed (acts : list TSParseAction) : bool :=
  negb (existsb is_repeat acts) || existsb is_reduce acts.

#[local] Transparent parse_action_runs.

Lemma repeats_checked :
  forallb (λ run, from_option repeats_backed false (group_actions (tail run.2)))
    parse_action_runs = true.
Proof. by vm_compute. Qed.

#[local] Opaque parse_action_runs.

Lemma group_repeats_backed id acts :
  id ∈ parse_action_runs.*1 → action_group id = Some acts → repeats_backed acts = true.
Proof.
  intros ([k es] & -> & Hin)%list_elem_of_fmap Ha. cbn [fst] in Ha.
  destruct (run_action_group k es Hin) as (acts' & Hacts & Ha' & _).
  rewrite Ha' in Ha. injection Ha as ->. pose proof repeats_checked as Hc.
  rewrite forallb_forall in Hc. specialize (Hc (k, es) (proj1 (list_elem_of_In _ _) Hin)).
  cbn [snd] in Hc. by rewrite Hacts in Hc.
Qed.

(** What the state [q] on top of the stack [st] can do before the token [s]
    without a repetition shift: accept, shift, or a reduction that can be made. *)
Inductive usable (q : Z) (st : list Z) (s : ts_symbol) : Prop :=
  | usable_accept : offers q s TSParseActionTypeAccept → usable q st s
  | usable_shift q' extra :
      offers q s (TSParseActionTypeShift q' extra false) → usable q st s
  | usable_reduce n x prec pid p st' q' :
      offers q s (TSParseActionTypeReduce n x prec pid) →
      drop (Z.to_nat n) (q :: st) = p :: st' → goes p x q' → usable q st s.

Lemma reduce_usable q st s n x prec pid :
  lr_stack (q :: st) → offers q s (TSParseActionTypeReduce n x prec pid) → usable q st s.
Proof.
  intros Hst Hoff.
  destruct (reduction_possible q st s n x Hst) as (p & st' & q' & Hd & Hg & _);
    [by eapply offers_reduces|by eapply usable_reduce].
Qed.

(** No stack has the state of error recovery on top. *)
Lemma stack_not_recovering st : ¬ lr_stack (0 :: st).
Proof.
  intros Hst. inversion Hst as [|p st' x ? Hst' Hg]; subst.
  pose proof (lr_stack_states _ Hst') as Hr. apply Forall_cons in Hr as [[Hp _] _].
  by apply goes_not_recover in Hg.
Qed.

(** C15. The tables never leave the parser without a usable action: on every
    stack that the automaton reaches, if the state on top has an entry for the
    token, its group offers to accept, a shift that is no repetition shift, or
    a reduction for which the stack is deep enough and the state below it has a
    target.  A repetition shift is never the only action, and the entries of
    error recovery belong to a state that is never on top. *)
Theorem actions_usable q st s row :
  rtc lr_step [start_state] (q :: st) → is_token s = true →
  parse_rows !! Z.to_nat q = Some row → parse_entry row s ≠ 0 → usable q st s.
Proof.
  intros Hst%reachable_stack Hs Hrow Hne.
  pose proof (lr_stack_states _ Hst) as Hr. apply Forall_cons in Hr as [[Hq _] _].
  destruct (table_entry _ row s Hrow) as [(g & Hg & Hsg & Hty & He & _)|[_ ?]]; [|done].
  destruct g as [id ss|id ss]; cbn [group_id group_symbols] in *.
  2: { apply group_typed_state in Hty as [_ Hnt]. rewrite Forall_forall in Hnt.
       apply Hnt in Hsg. congruence. }
  apply group_typed_actions in Hty as (_ & _ & acts & Ha & Hacts & Hkey).
  pose proof (group_repeats_backed id acts Hkey Ha) as Hrep. rewrite <- He in Ha.
  assert (∀ a, a ∈ acts → offers q s a) as Hoff by (intros a Hin; by exists row, acts).
  destruct acts as [|a acts]; [done|].
  assert (a ∈ a :: acts) as Hin by (apply elem_of_cons; by left).
  pose proof (Hoff a Hin) as Ho. destruct a as [q' extra rep|n x prec pid| |].
  - destruct rep; [|by eapply usable_shift]. cbn in Hrep.
    apply existsb_exists in Hrep as (a & Hina%list_elem_of_In & Hred).
    destruct a as [|n x prec pid| |]; [done| |done..].
    eapply reduce_usable; [done|]. apply Hoff, elem_of_cons. by right.
  - by eapply reduce_usable.
  - by apply usable_accept.
  - apply recover_state in Ho as ->; [|done]. by apply stack_not_recovering in Hst.
Qed.

(** ** Witnesses *)

Definition small_program : list Z := codes "program p; begin end.".

Abbreviation action_array := (concat parse_action_runs.*2).

#[local] Transparent parse_rows ts_parse_actions ts_lex_modes ts_lex
  tree_sitter_pascal_external_scanner_scan.

(** The program is read to the end in 24 steps. *)
Lemma small_program_parsed :
  ∃ st, drives action_array 24 (start_config small_program)
    = Some (Config (root_state :: st) (Some (ts_builtin_sym_end, [])) []).
Proof. eexists. by vm_compute. Qed.

Lemma parse_linear_witness :
  Z.of_nat 24 ≤ 12 * Z.of_nat (length small_program) + 16.
Proof.
  destruct small_program_parsed as (st & Hd).
  refine (parse_linear (L:=StrLexer) 24 small_program _ _ (drives_run _ _ _ Hd)). concrete.
Defined.

(** The end of the file after [threadvar]. *)
Lemma actions_usable_witness : usable 1993 [1] ts_builtin_sym_end.
Proof.
  refine (actions_usable 1993 [1] ts_builtin_sym_end ts_parse_table_1993 _ _ _ _).
  - apply rtc_once. left. apply (lr_shift_token 1 [] sym_kThreadvar); [done|].
    exists ts_parse_table_1. split; [by vm_compute|].
    unfold transition, action_group. rewrite parse_actions_concat. by vm_compute.
  - done.
  - by vm_compute.
  - by vm_compute.
Defined.
